(* ===== verification/_CoqProject ===== *)
-Q . S2P
Prelude.v
Loops.v
PyFloat.v
FloatRound.v
FloatMono.v
PyRound.v
FloatGrid.v
FloatSum.v
FloatFloor.v
PyText.v
PyRepr.v
Sha256.v
Constants.v
PriceMath.v
StopLoss.v
Candles.v
Swings.v
Sessions.v
Fibonacci.v
Liquidity.v
ZoneModels.v
StructureModels.v
SMCConfig.v
Candidates.v
CandlePatterns.v
SMCStructure.v
Snapshots.v
PyIO.v
PyAsync.v
SMCLiquidity.v
SMCZones.v
SMCValidators.v
SMCBuilders.v
SMCDetector.v
SMCSoundness.v
LTFConfirmation.v
Compression.v
SnDConfig.v
SnDDetectors.v
SnDValidators.v
SnDBuilders.v
SnDDetector.v
SnDSoundness.v
SnDTotality.v
Orchestrator.v
OrchestratorFacts.v
PyValues.v
ResponseParser.v
ParserFacts.v
RuleFacts.v
OutputMapper.v
RateLimiter.v
Connectivity.v
ClockSkew.v
SymbolResolver.v
ClientPool.v
Coordinator.v
Heartbeat.v
RedisCache.v
Idempotency.v
GuardFacts.v
LLMRetry.v
HttpClient.v
HttpFacts.v
Codec.v
CredentialCipher.v
Rewrap.v
Tasks.v
ErrorClassifier.v
Metering.v
ProcessorService.v
ServiceFacts.v
RagModels.v
Retrieval.v
RagOrchestrator.v
RagFacts.v
