(* ===== verification/Prelude.v ===== *)
(** * eTradie analysis engine: a verified model

    eTradie reads broker price data, analyses it and proposes trades.  Its
    analysis engine is the Python package under [src/src/engine].  This
    development models the parts that carry the engine's own logic: the price
    arithmetic and the technical analysis every setup is built from, the
    orchestrator that runs it, the retrieval of knowledge and the processing
    of a language model's answer with the services around it, and the stateful
    layer through which the engine talks to brokers, providers and its cache.

    ** How Python is modelled

    - A float is a binary64 value of [SpecFloat], and every arithmetic operation
      rounds as Python's does ([PyFloat]); infinities, signed zeros and NaN are
      kept.  [fv] is the exact value of a float as an integer in units of
      [2^-2200], fine enough for exact products and quotients; [FloatRound],
      [FloatMono] and [FloatGrid] hold the rounding, monotonicity and exactness
      lemmas the components share.
    - A Python integer is a [Z], a string a [string], a datetime the record of its
      wall clock and UTC offset ([PyText]).
    - A function that can raise returns [res], with the exception as a value;
      early returns are conditionals; [for] loops with a [break] are structural
      recursions on the list they walk, and loops that mutate local state are
      [for_each] over an explicit state.
    - A pydantic model is a record with a [create] function that runs the field
      constraints and validators in the order of the class.
    - Asynchronous code is modelled at the level its claims need.  In the client
      pool, the coordinator and the heartbeat a coroutine is cut at its awaits:
      each section between two awaits is one atomic function, and an inductive
      [step] relation lets the sections of all coroutines interleave in any order
      the event loop can produce.  In the orchestrator and its services a
      coroutine is a function of the state of the world ([PyIO]).  In the services
      of the processor it is a tree of awaited commands ([PyAsync]) that many
      requests run at once over a shared server; [Tasks] adds the cancellation of
      [asyncio], with [finally] and [asyncio.timeout].
    - What lies outside the sources is a parameter: clock readings, random
      numbers, the client factory, the probe, the retried operation, the JSON
      decoder and the schema validation of a library.  Services are classes, with
      a second class of laws where a theorem relies on documented behaviour:
      [Broker], [Clock] and [Storage] for the orchestrator, [SymbolServices] with
      [SymbolLaws], [RedisServer], [Cryptography] with [CryptographyLaws],
      [Knowledge] with [HonestStore] and [RagDatabase] for retrieval, and
      [Effect] for the commands of a program.

    ** Files

    Foundations:
    - [Prelude]: the error monad, Python list operations ([range], slices,
      indexing, [sorted], [max], [min], [enumerate]), the development's tactics
      and hint database.  [Loops]: total correctness of fallible computations
      ([yields]) and the loop shapes of the detectors, with their rules.
    - [PyFloat], [FloatRound], [FloatMono], [FloatGrid], [FloatSum],
      [FloatFloor]: floats, rounding, monotonicity, exactness, the compensated
      [sum] of CPython, and [//] and [int] of a float.
    - [PyText], [PyRepr], [PyRound], [Sha256], [PyValues], [Codec]: text and
      datetimes, [str] of a float, [round], the digest used in identifiers, JSON
      values and string methods, and the encodings of bytes.
    - [PyIO], [PyAsync], [Tasks]: the three models of asynchronous code.

    Shared analysis:
    - [Constants]: [ta/constants.py].
    - [PriceMath]: [ta/common/utils/price/math.py].  Instrument classes, pip
      tables, pips, tolerances, candle percentages.
    - [StopLoss]: [ta/common/utils/price/stop_loss.py] and [shared/risk.py].
    - [Candles]: [ta/models/candle.py].  [Candle] and [CandleSequence].
    - [Swings]: [ta/models/swing.py], [ta/common/analyzers/swings.py].
    - [Sessions]: [ta/models/session.py], [ta/common/analyzers/session.py],
      [ta/common/timeframe/manager.py].
    - [Fibonacci]: [ta/models/fibonacci.py], [ta/common/analyzers/fibonacci.py],
      [ta/common/analyzers/dealing_range.py].
    - [Liquidity]: [ta/models/liquidity_event.py] and the analyzers
      [liquidity.py] and [sweeps.py].
    - [CandlePatterns]: the analyzers [candles.py] and [marubozu.py]; the class
      [Analysable] is what every detector may assume of a sequence.
    - [Compression]: the analyzer [compression.py].
    - [ZoneModels], [StructureModels], [Candidates]: [ta/models/zone.py],
      [structure_event.py] and [candidate.py].

    The SMC framework, [ta/smc]:
    - [SMCConfig]: [config.py].  [SMCStructure]: the detectors [bms.py],
      [choch.py], [sms.py], [inducement.py]; the class [SwingLevel] is the
      interface of swing highs and lows.  [SMCLiquidity]: [turtle_soup.py] and
      [amd.py].  [SMCZones]: [zones/].  [SMCValidators]: [validators/].
      [SMCBuilders]: [builders/].  [SMCDetector]: [detector.py].
    - [SMCSoundness]: the soundness of every candidate the detector emits.

    The SND framework, [ta/snd]:
    - [SnDConfig]: [config.py].  [SnDDetectors]: [detectors/].  [SnDValidators]:
      [validators/].  [SnDBuilders]: [builders/].  [SnDDetector]: [detector.py].
    - [SnDSoundness]: the selection and the trade levels.  [SnDTotality]: the
      detectors are exact and the whole detection returns.

    Services of the analysis:
    - [Snapshots]: [ta/models/snapshot.py], [ta/common/services/snapshot/] and
      [ta/common/services/alignment/].
    - [LTFConfirmation]: [ta/common/services/ltf_confirmation/].
    - [Orchestrator]: [ta/orchestrator.py]; [OrchestratorFacts] its theorems.

    The processor, [processor]:
    - [ResponseParser]: [parsing/]; [ParserFacts] and [RuleFacts] its theorems.
    - [OutputMapper]: [mapping/output_mapper.py].
    - [Idempotency]: [idempotency.py]; [GuardFacts] runs it with many requests
      over a server.
    - [LLMRetry]: [llm/retry.py].  [ErrorClassifier]: [llm/error_classifier.py].
    - [ProcessorService]: [service.py], [streaming.py], [audit/logger.py] and
      [models/audit.py]; [ServiceFacts] its theorems.

    Retrieval of knowledge, [rag]:
    - [RagModels]: [constants.py] and [models/].  [Retrieval]: [retrieval/] and
      [vectorstore/filters.py].  [RagOrchestrator]: [orchestrator.py], the
      strategies of [retrieval/strategies], [scenarios/matcher.py],
      [services/audit.py] and [storage/uow.py].  [RagFacts]: their theorems.

    Shared infrastructure, [shared]:
    - [RedisCache]: [cache/redis_cache.py].
    - [HttpClient]: [http/client.py]; [HttpFacts] its theorems.
    - [CredentialCipher]: [crypto/credential_cipher.py].  [Rewrap]:
      [crypto/rewrap_service.py].
    - [Metering]: [metering_client.py].

    Connectivity, [ta/broker] and [shared/concurrency]:
    - [RateLimiter]: [ta/broker/connectivity/outbound_limiter.py].
    - [Connectivity]: [reconnect.py] and [freshness.py] of the same package.
    - [ClientPool]: [ta/broker/mt5/client_pool.py]; [System] is the step relation
      of its coroutines.
    - [Coordinator]: [shared/concurrency/background_coordinator.py] and
      [ta/broker/priority.py].
    - [Heartbeat]: [ta/broker/connectivity/heartbeat.py].
    - [ClockSkew]: [ta/broker/mt5/clock_skew.py].
    - [SymbolResolver]: [ta/broker/connectivity/symbol_resolver.py].

    The analyzers take a [CandleSequence] and, where the code does, the swings
    found in it.  The detectors of a framework take the sequence and the swings,
    the validators and builders take what the detectors found, and the framework's
    detector composes them: [detect_patterns] of [SMCDetector] and of
    [SnDDetector] are the entry points the orchestrator calls.  The processor's
    [process] takes what the gateway assembled from an analysis: its guard uses
    the cache, its pipeline the metering client, the retried model call, the
    parser and the mapper.  The context it is given is what [retrieve_context] of
    [RagOrchestrator] returns.  Where the code has a bullish and a
    bearish copy of a method, the model has one definition over a flag and the two
    names as its instances.  The connectivity components are independent of the
    analysis and of each other, as in the code.  In every file the definitions
    that model code carry the names of the code; the modules named [...Facts] hold
    reference definitions, lemmas and theorems.

    ** What the theorems show

    - Concurrency: in every interleaving the client pool builds at most one client
      per key, never caches a closed client and loses no client; it can, however,
      leave an unclosed client behind when it is stopped during a construction.
      The coordinator runs at most one wave per key and respects cooldowns.  The
      heartbeat service keeps exactly one probe loop per connection, and a
      connection's health is a stated function of its whole probe history.
    - Rate and retry: the token bucket grants no more than burst plus rate times
      time, grants exactly when it can, and a blocking acquire ends by its
      deadline; the retry loop is total, stops where it should and sleeps within
      a capped schedule; the freshness guard accepts exactly the fresh ticks.
    - Prices: stops lie strictly beyond the invalidation whatever the rounding,
      widen with the timeframe and the range, and reward floors combine by
      maximum; pips are a distance; the pip tables agree; percentages are
      percentages.
    - Candles: the constructors accept exactly the consistent input; sequences are
      strictly ordered permutations of what they were given; slices are exact;
      classification and engulfing are sound; marubozu runs are exactly the
      maximal ones.
    - Analysis: swing detection equals the reference definition of a local
      extreme; the most recent session block is the last maximal run; Fibonacci
      levels are ordered and zones monotone; liquidity clusters partition the
      pools at exactly the wide gaps; sweeps are real (of a swing formed before and
      not broken since, or of the previous day's extreme), recorded once, and none
      of an unbroken swing is missed; compressions are disjoint, within the
      configured range, and cover every window that qualifies.
    - SMC: breaks, changes of character, failure swings, inducements, order blocks
      and gaps are found exactly where their reference definitions hold; freshness
      and breaker detection agree; every candidate that is emitted has its stop
      beyond the block, its entry inside it and a target that pays the multiple of
      the timeframe of its block, or of the lower timeframe.
    - SND: quasimodo levels and fakeouts are found exactly, previous levels count
      no swing twice, the trade levels are exact in binary64, the selection keeps
      exactly the best, and the whole detection returns, with sound candidates, on
      every input with finite prices and normalised symbols of three characters or
      more (the candle models accept two, with which it raises).
    - Orchestration: an analysis always answers, and a success comes after one
      committed transaction in which its snapshots and candidates were written, a
      write that raises being skipped; deduplication keeps
      exactly the best candidate of each zone; the trend and the confirmation of a
      setup are stated functions of what was found, whatever the broker does.
    - Answers of the model: the parser accepts exactly the well-formed tradeable
      answers, and a decision mapped from an accepted answer is complete.
    - Processing: in every interleaving one request per digest runs the pipeline,
      unless the server refuses a lock with an error or a lock expires under its
      holder; results are stored and served again; reserved tokens are settled exactly
      once on every uncancelled run; [process] raises only what it documents; the
      reasoning it streams is the reasoning of the answer.  A lemma relates the
      cancellable pipeline to the guard of the interleaving model.  While the cache
      is unreachable every request is refused.
    - Retrieval: a context is called sufficient exactly when every document has
      its minimum, and the reranker keeps the minimums; the gap filler leaves a
      gap open once more than three chunks were found, and a request that names a
      direction, or a store without scenarios, never gets a sufficient context.
    - Infrastructure: a request makes the attempts its replies determine and
      records exactly their outcomes; a breaker opens exactly on a run of
      failures; a credential decrypts under every cipher that still has its key,
      and a rotation re-wraps every credential that is due and readable, or,
      interrupted, loses none; the reported clock skew is robust; a symbol resolves to one of its own
      names.
    - Candidates: identifiers determine what they print, and the fingerprinted
      text determines its timestamps.

    ** Bounds and fuel

    The retry loop is given [max_attempts + 1] iterations, one more than it can
    make, and the theorem shows that it always returns; policies are assumed to
    allow at most 53 attempts, where [2 ** (attempt - 1)] is an exact float.  The
    compression search and the marubozu scan are given one unit of fuel per candle,
    and the theorems show that they return: each iteration advances by at least
    one.  The blocking acquire runs over a given list of loop turns, and the
    theorem says on which turn it must have decided.  Prices in the stop-loss and
    trade-level theorems go up to [10^12]; bucket sizes are below [2^53].  The
    totality of the SND detection asks for finite prices and sets no other bound on
    them or on the configuration.
    Loops over awaited commands have the bounds of the code where it has one (the
    polls of a waiting request, the attempts of a request and of a model call, each
    one more than the code can make).  The pages of a rotation and the pieces of a
    stream are read until the environment ends them; a theorem about a rotation
    gives it more pages than the table has rows, and one about a stream holds for
    any number of pieces.

    ** What is not modelled

    Log lines, Prometheus counters and debugging payloads; [round_to_pip] (decimal
    quantisation); the periodic task that starts sweeps of the client pool (a
    sweep may start at any time in the model); cancellation outside [Tasks] and the
    processor.  The network clients of the brokers, the clients of the model
    providers and the prompts, the HTTP routers, the storage layer, the ingestion of
    knowledge documents and macro collection are mostly calls of services and
    libraries outside the repository.  The Go services, the web frontend and the
    deployment files are not part of the engine. *)

(** ** Python values, errors and lists *)

From Stdlib Require Import ZArith Lia Bool Sorting.Sorted Sorting.Permutation.
From stdpp Require Import base list strings.

#[global] Open Scope Z_scope.

(** ** Exceptions and the error monad

    A Python function that can raise is a function into [res]: [Ok v] is a
    normal return and [Raise e] an exception that propagates.  The classes are
    the ones the modelled code raises or lets through; the message is kept for
    the errors the code constructs itself. *)

Inductive exn : Set :=
| ConfigurationError (msg : string)
| ValidationError
| ValueError (msg : string)
| RuntimeError (msg : string)
| ProviderStalePriceError (reason : string)
| OutboundRateLimitExceededError
| ZeroDivisionError
| OverflowError
| IndexError
| KeyError
| AttributeError
| TypeError
| TimeoutError
| ProviderResponseError (msg : string)
| EAClockSkewError (msg : string)
| ProcessorError (msg : string)
| LLMTruncatedError (msg : string)
| LLMSchemaViolationError (msg : string) (validation_errors : list string)
| LLMSafetyFilterError (msg : string)
| LLMRateLimitedError (msg : string)
| LLMTransientError (msg : string)
| LLMDuplicateSuppressedError
| CacheValidationError (msg : string)
| CacheTimeoutError (msg : string)
| CacheConnectionError (msg : string)
| CacheError (msg : string)
| RedisConnectionError
| RedisTimeoutError
| RedisError
| ProviderUnavailableError (msg : string)
| ProviderTimeoutError (msg : string)
| ProviderValidationError (msg : string)
| HttpClientError (msg : string)
| ClientError (msg : string)
| OSError (msg : string)
| CredentialDecryptionError (msg : string)
| InvalidToken
| InvalidTag
| QuotaExceededError (msg : string) (retry_after : Z)
| MeteringUnavailableError (msg : string) (retry_after : Z)
| ProcessorInsufficientDataError (msg : string)
| CollectorAllProvidersFailedError (msg : string)
| RAGIngestError (msg : string)
| RAGValidationError (msg : string)
| RAGEmbeddingError (msg : string)
| RAGVectorStoreError (msg : string)
| RAGVectorStoreConnectionError (msg : string)
| RAGVectorStoreUpsertError (msg : string)
(** An exception of a third-party class: its class name, its [status_code]
    attribute if it has one, and [str(exc)]. *)
| ForeignError (type_name : string) (status_code : option Z) (msg : string).

Inductive res (A : Type) : Type :=
| Ok (a : A)
| Raise (e : exn).
Arguments Ok {_} _.
Arguments Raise {_} _.

#[global] Instance res_ret : MRet res := fun A a => Ok a.
#[global] Instance res_bind : MBind res := fun A B f m =>
  match m with Ok a => f a | Raise e => Raise e end.
#[global] Instance res_fmap : FMap res := fun A B f m =>
  match m with Ok a => Ok (f a) | Raise e => Raise e end.

#[global] Instance exn_eq_dec : EqDecision exn.
Proof. solve_decision. Defined.

(** The value was returned, not raised. *)
Definition returns {A} (m : res A) : Prop := exists a, m = Ok a.

(** Generic facts about the monad: what a successful bind tells about its
    parts. *)
Lemma bind_Ok {A B} (m : res A) (f : A -> res B) b :
  (m ≫= f) = Ok b -> exists a, m = Ok a /\ f a = Ok b.
Proof. destruct m as [a|e]; [eauto | discriminate]. Qed.

Lemma bind_Ok_eq {A B} (m : res A) (f : A -> res B) a :
  m = Ok a -> (m ≫= f) = f a.
Proof. by intros ->. Qed.

Lemma fmap_Ok {A B} (m : res A) (f : A -> B) b :
  (f <$> m) = Ok b -> exists a, m = Ok a /\ f a = b.
Proof. destruct m as [a|e]; simpl; [intros [= <-]; eauto | discriminate]. Qed.

(** Map a fallible function over a list, stopping at the first exception. *)
Fixpoint res_map {A B} (f : A -> res B) (l : list A) : res (list B) :=
  match l with
  | [] => Ok []
  | x :: l => y ← f x; ys ← res_map f l; Ok (y :: ys)
  end.

(** Keep the elements a fallible test accepts (a comprehension with [if]). *)
Fixpoint res_filter {A} (f : A -> res bool) (l : list A) : res (list A) :=
  match l with
  | [] => Ok []
  | x :: l => b ← f x; ys ← res_filter f l; Ok (if b : bool then x :: ys else ys)
  end.

Lemma res_map_Forall2 {A B} (f : A -> res B) l ys :
  res_map f l = Ok ys -> Forall2 (fun x y => f x = Ok y) l ys.
Proof.
  revert ys; induction l as [|x l IH]; simpl; intros ys H.
  - injection H as <-. constructor.
  - apply bind_Ok in H as (y & Hy & H). apply bind_Ok in H as (ys' & Hys & H).
    injection H as <-. constructor; auto.
Qed.

Lemma res_map_pure {A B} (f : A -> res B) (g : A -> B) l :
  Forall (fun x => f x = Ok (g x)) l -> res_map f l = Ok (map g l).
Proof. induction 1 as [|x l Hx _ IH]; simpl; [done|]. by rewrite Hx, IH. Qed.

(** ** Automation *)

Create HintDb etradie.
Create Rewrite HintDb etradie.

(** Break conjunctions, existentials and boolean connectives apart. *)
Ltac split_hyps :=
  repeat match goal with
  | H : _ || _ = false |- _ => apply orb_false_iff in H
  | H : _ && _ = true |- _ => apply andb_true_iff in H
  | H : ex _ |- _ => destruct H
  | H : _ /\ _ |- _ => destruct H
  | H : negb _ = true |- _ => apply negb_true_iff in H
  | H : negb _ = false |- _ => apply negb_false_iff in H
  end.

(** A check over finitely many integers settles each of them. *)
Lemma Z_below (P : Z -> bool) (k : nat) n :
  forallb P (map Z.of_nat (seq 0 k)) = true -> 0 <= n < Z.of_nat k -> P n = true.
Proof.
  intros Hall Hn. apply (proj1 (forallb_forall P _) Hall). apply in_map_iff. exists (Z.to_nat n).
  split; [lia|]. apply in_seq. lia.
Qed.

(** Integer comparisons as propositions. *)
Ltac zbool :=
  repeat match goal with
  | H : (_ <? _) = true |- _ => apply Z.ltb_lt in H
  | H : (_ <? _) = false |- _ => apply Z.ltb_ge in H
  | H : (_ <=? _) = true |- _ => apply Z.leb_le in H
  | H : (_ <=? _) = false |- _ => apply Z.leb_gt in H
  | H : (_ =? _) = true |- _ => apply Z.eqb_eq in H
  | H : (_ =? _) = false |- _ => apply Z.eqb_neq in H
  | H : (_ >=? _) = _ |- _ => rewrite Z.geb_leb in H
  | H : (_ >? _) = _ |- _ => rewrite Z.gtb_ltb in H
  end.

(** Invert the successful binds of a hypothesis. *)
Ltac inv_binds :=
  repeat match goal with
  | H : (_ ≫= _) = Ok _ |- _ =>
      let a := fresh "a" in let E := fresh "E" in
      apply bind_Ok in H as (a & E & H)
  | H : (_ <$> _) = Ok _ |- _ =>
      let a := fresh "a" in let E := fresh "E" in
      apply fmap_Ok in H as (a & E & H)
  | H : Ok _ = Ok _ |- _ => injection H as H
  | H : Raise _ = Ok _ |- _ => discriminate H
  end.

(** Case on the scrutinee of an [if] or [match] of a hypothesis, keeping the
    equation. *)
Ltac case_hyp H :=
  match type of H with
  | context [if ?b then _ else _] => destruct b eqn:?
  | context [match ?x with _ => _ end] => destruct x eqn:?
  end.

(** ** Sequences

    [range(a, b)], [l\[i\]] with Python's negative indices and [IndexError],
    and slices, which never raise. *)

Definition py_len {A} (l : list A) : Z := Z.of_nat (length l).

Definition py_range (a b : Z) : list Z :=
  map (fun k => a + Z.of_nat k) (seq 0 (Z.to_nat (b - a))).

(** [range(a, b, -1)]. *)
Definition py_range_down (a b : Z) : list Z :=
  map (fun k => a - Z.of_nat k) (seq 0 (Z.to_nat (a - b))).

Definition py_index {A} (l : list A) (i : Z) : res A :=
  let j := if i <? 0 then i + py_len l else i in
  if j <? 0 then Raise IndexError
  else match l !! Z.to_nat j with Some x => Ok x | None => Raise IndexError end.

Definition py_slice_bound {A} (l : list A) (i : Z) : nat :=
  Z.to_nat (if i <? 0 then Z.max 0 (i + py_len l) else Z.min i (py_len l)).

Definition py_slice {A} (l : list A) (a b : Z) : list A :=
  let i := py_slice_bound l a in
  let j := py_slice_bound l b in
  take (j - i) (drop i l).

(** [l\[a:\]]. *)
Definition py_slice_from {A} (l : list A) (a : Z) : list A :=
  drop (py_slice_bound l a) l.

(** [enumerate(l)], from index [k]. *)
Fixpoint py_enumerate_from {A} (k : Z) (l : list A) : list (Z * A) :=
  match l with
  | [] => []
  | x :: l => (k, x) :: py_enumerate_from (k + 1) l
  end.
Definition py_enumerate {A} (l : list A) : list (Z * A) := py_enumerate_from 0 l.

Lemma py_len_nonneg {A} (l : list A) : 0 <= py_len l.
Proof. unfold py_len. lia. Qed.

Lemma py_len_cons {A} (x : A) l : py_len (x :: l) = 1 + py_len l.
Proof. unfold py_len. simpl length. lia. Qed.

Lemma py_len_app {A} (l k : list A) : py_len (l ++ k) = py_len l + py_len k.
Proof. unfold py_len. rewrite length_app. lia. Qed.

Lemma py_index_lookup {A} (l : list A) i x :
  0 <= i -> py_index l i = Ok x <-> l !! Z.to_nat i = Some x.
Proof.
  intros Hi. unfold py_index. replace (i <? 0) with false by (symmetry; apply Z.ltb_ge; lia).
  cbv zeta. replace (i <? 0) with false by (symmetry; apply Z.ltb_ge; lia).
  destruct (l !! Z.to_nat i); split; congruence.
Qed.

Lemma py_index_nat {A} (l : list A) (k : nat) x :
  l !! k = Some x -> py_index l (Z.of_nat k) = Ok x.
Proof. intros H. apply py_index_lookup; [lia|]. by rewrite Nat2Z.id. Qed.

Lemma py_index_in_range {A} (l : list A) i :
  0 <= i < py_len l -> exists x, py_index l i = Ok x /\ l !! Z.to_nat i = Some x.
Proof.
  intros Hi. destruct (lookup_lt_is_Some_2 l (Z.to_nat i)) as [x Hx].
  { unfold py_len in Hi. lia. }
  exists x. split; [|done]. apply py_index_lookup; [lia|done].
Qed.

Lemma py_index_Ok_range {A} (l : list A) i x :
  0 <= i -> py_index l i = Ok x -> i < py_len l.
Proof.
  intros Hi H. apply py_index_lookup in H; [|done].
  apply lookup_lt_Some in H. unfold py_len. lia.
Qed.

Lemma py_index_In {A} (l : list A) i x : py_index l i = Ok x -> In x l.
Proof.
  unfold py_index. intros H. repeat case_hyp H; simplify_eq;
    by apply list_elem_of_In, list_elem_of_lookup_2 with (i := Z.to_nat _) in Heqo
    || (apply list_elem_of_In; eapply list_elem_of_lookup_2; eassumption).
Qed.

Lemma py_index_last {A} (l : list A) x : py_index (l ++ [x]) (-1) = Ok x.
Proof.
  unfold py_index. cbn [Z.ltb Z.compare]. cbv zeta. rewrite py_len_app. unfold py_len at 2 4.
  simpl length. pose proof (py_len_nonneg l).
  replace (-1 + (py_len l + Z.of_nat 1) <? 0) with false by (symmetry; apply Z.ltb_ge; lia).
  replace (Z.to_nat (-1 + (py_len l + Z.of_nat 1))) with (length l) by (unfold py_len; lia).
  by rewrite lookup_app_r, Nat.sub_diag by done.
Qed.

Lemma elem_of_py_range a b i : In i (py_range a b) <-> a <= i < b.
Proof.
  unfold py_range. rewrite in_map_iff. split.
  - intros (k & <- & Hk). apply in_seq in Hk. lia.
  - intros Hi. exists (Z.to_nat (i - a)). split; [lia|]. apply in_seq. lia.
Qed.

Lemma py_range_nil a b : b <= a -> py_range a b = [].
Proof. intros H. unfold py_range. by replace (Z.to_nat (b - a)) with 0%nat by lia. Qed.

Lemma py_range_cons a b : a < b -> py_range a b = a :: py_range (a + 1) b.
Proof.
  intros H. unfold py_range.
  replace (Z.to_nat (b - a)) with (S (Z.to_nat (b - (a + 1)))) by lia.
  simpl. f_equal; [lia|]. rewrite <- seq_shift, map_map.
  apply map_ext. intros k. lia.
Qed.

Lemma py_range_snoc a b : a <= b -> py_range a (b + 1) = py_range a b ++ [b].
Proof.
  intros H. unfold py_range.
  replace (Z.to_nat (b + 1 - a)) with (Z.to_nat (b - a) + 1)%nat by lia.
  rewrite seq_app, map_app. f_equal. simpl. f_equal. lia.
Qed.

Lemma py_enumerate_from_spec {A} (l : list A) k i x :
  In (i, x) (py_enumerate_from k l) <-> k <= i /\ l !! Z.to_nat (i - k) = Some x.
Proof.
  revert k; induction l as [|y l IH]; intros k; simpl.
  - split; [done|]. intros [_ H]. by rewrite lookup_nil in H.
  - rewrite IH. split.
    + intros [[= -> ->]|[Hk Hl]].
      * split; [lia|]. by replace (i - i) with 0 by lia.
      * split; [lia|]. replace (Z.to_nat (i - k)) with (S (Z.to_nat (i - (k + 1)))) by lia. done.
    + intros [Hk Hl]. destruct (Z.eq_dec i k) as [->|Hne].
      * left. replace (k - k) with 0 in Hl by lia. simpl in Hl. congruence.
      * right. split; [lia|].
        replace (Z.to_nat (i - k)) with (S (Z.to_nat (i - (k + 1)))) in Hl by lia. done.
Qed.

(** ** Loops

    [for x in xs: acc = step(acc, x)], stopping at the first exception. *)

Fixpoint for_each {A B} (step : B -> A -> res B) (xs : list A) (acc : B) : res B :=
  match xs with
  | [] => Ok acc
  | x :: xs => acc ← step acc x; for_each step xs acc
  end.

(** An invariant indexed by the loop counter, with progress: the loop returns
    and the invariant holds at its end. *)
Lemma for_each_range {B} (step : B -> Z -> res B) (P : Z -> B -> Prop) a b acc :
  a <= b -> P a acc ->
  (forall i acc, a <= i < b -> P i acc -> exists acc', step acc i = Ok acc' /\ P (i + 1) acc') ->
  exists acc', for_each step (py_range a b) acc = Ok acc' /\ P b acc'.
Proof.
  intros Hab H0 Hstep.
  remember (Z.to_nat (b - a)) as n eqn:En. revert a acc Hab H0 Hstep En.
  induction n as [|n IH]; intros a acc Hab H0 Hstep En.
  - assert (a = b) as -> by lia. rewrite py_range_nil by lia. simpl. eauto.
  - rewrite py_range_cons by lia. simpl.
    destruct (Hstep a acc) as (acc' & -> & H1); [lia|done|]. simpl.
    apply IH; [lia|done| |lia]. intros i x Hi. apply Hstep. lia.
Qed.

(** The same for an iteration over the items of a list. *)
Lemma for_each_list {A B} (step : B -> A -> res B) (P : list A -> B -> Prop) xs acc :
  P [] acc ->
  (forall done x rest acc, xs = done ++ x :: rest -> P done acc ->
     exists acc', step acc x = Ok acc' /\ P (done ++ [x]) acc') ->
  exists acc', for_each step xs acc = Ok acc' /\ P xs acc'.
Proof.
  intros H0 Hstep.
  cut (forall rest done acc, xs = done ++ rest -> P done acc ->
         exists acc', for_each step rest acc = Ok acc' /\ P xs acc').
  { intros H. apply (H xs [] acc); done. }
  induction rest as [|x rest IH]; intros pre acc' E HP; simpl.
  - rewrite app_nil_r in E. subst. eauto.
  - destruct (Hstep pre x rest acc' E HP) as (acc'' & -> & HP'). simpl.
    apply (IH (pre ++ [x])); [|done]. by rewrite <- app_assoc.
Qed.

(** ** [max], [min] and [sorted] with a key

    Python's [max] keeps the first maximal item (a later item replaces it only
    when it compares strictly greater), [min] likewise; [sorted] is stable. *)

Fixpoint py_max_from {A} (gt : A -> A -> bool) (best : A) (l : list A) : A :=
  match l with
  | [] => best
  | x :: l => py_max_from gt (if gt x best then x else best) l
  end.

(** [max]/[min] of a non-empty iterable; an empty one raises [ValueError]. *)
Definition py_max {A} (gt : A -> A -> bool) (l : list A) : res A :=
  match l with
  | [] => Raise (ValueError "max() iterable argument is empty")
  | x :: l => Ok (py_max_from gt x l)
  end.

(** [if not xs: return None; return max(xs, key=...)]. *)
Definition py_max_opt {A} (gt : A -> A -> bool) (xs : list A) : option A :=
  match xs with [] => None | x :: xs => Some (py_max_from gt x xs) end.

Fixpoint py_insert {A} (lt : A -> A -> bool) (new : A) (sorted : list A) : list A :=
  match sorted with
  | y :: rest => if lt y new then y :: py_insert lt new rest else new :: sorted
  | [] => [new]
  end.
Definition py_sorted {A} (lt : A -> A -> bool) (l : list A) : list A :=
  foldr (py_insert lt) [] l.

Lemma py_max_from_In {A} (gt : A -> A -> bool) l b :
  py_max_from gt b l = b \/ In (py_max_from gt b l) l.
Proof.
  revert b; induction l as [|x l IH]; intros b; simpl; [auto|].
  destruct (IH (if gt x b then x else b)) as [H|H]; [|auto].
  rewrite H. destruct (gt x b); auto.
Qed.

Lemma py_max_In {A} (gt : A -> A -> bool) l x : py_max gt l = Ok x -> In x l.
Proof.
  destruct l as [|y l]; simpl; [discriminate|]. intros [= <-].
  destruct (py_max_from_In gt l y) as [->|H]; auto.
Qed.

(** When the key order is the order of an integer measure the result is an
    upper bound. *)
Lemma py_max_from_ub {A} (gt : A -> A -> bool) (k : A -> Z) l b :
  (forall x y, In x (b :: l) -> In y (b :: l) -> gt x y = (k y <? k x)) ->
  forall x, In x (b :: l) -> k x <= k (py_max_from gt b l).
Proof.
  revert b; induction l as [|y l IH]; intros b Hgt x Hx; simpl.
  - destruct Hx as [<-|[]]. lia.
  - assert (Hyb : gt y b = (k b <? k y)) by (apply Hgt; simpl; auto).
    assert (Hsub : forall z, In z ((if gt y b then y else b) :: l) -> In z (b :: y :: l)).
    { intros z Hz. simpl in Hz |- *. destruct (gt y b); intuition. }
    assert (IH' : forall z, In z ((if gt y b then y else b) :: l) ->
              k z <= k (py_max_from gt (if gt y b then y else b) l)).
    { apply IH. intros u v Hu Hv. apply Hgt; auto. }
    destruct (gt y b) eqn:E; symmetry in Hyb; zbool.
    + simpl in Hx. destruct Hx as [->|[->|Hx]]; [|apply IH'; simpl; auto..].
      pose proof (IH' y (or_introl eq_refl)). lia.
    + simpl in Hx. destruct Hx as [->|[->|Hx]]; [apply IH'; simpl; auto| |apply IH'; simpl; auto].
      pose proof (IH' b (or_introl eq_refl)). lia.
Qed.

Lemma py_insert_perm {A} (lt : A -> A -> bool) x l : Permutation (py_insert lt x l) (x :: l).
Proof.
  induction l as [|y l IH]; simpl; [done|].
  destruct (lt y x); [|done]. rewrite IH. constructor.
Qed.

Lemma py_sorted_perm {A} (lt : A -> A -> bool) l : Permutation (py_sorted lt l) l.
Proof. induction l as [|x l IH]; simpl; [done|]. by rewrite py_insert_perm, IH. Qed.

Lemma py_sorted_In {A} (lt : A -> A -> bool) l x : In x (py_sorted lt l) <-> In x l.
Proof.
  pose proof (py_sorted_perm lt l) as P.
  split; apply Permutation_in; [|symmetry]; done.
Qed.

Lemma py_sorted_length {A} (lt : A -> A -> bool) l : length (py_sorted lt l) = length l.
Proof. apply Permutation_length, py_sorted_perm. Qed.

(** Sorting by an integer measure gives a list sorted for that measure. *)
Lemma py_insert_sorted {A} (lt : A -> A -> bool) (k : A -> Z) x l :
  (forall y, In y l -> lt y x = (k y <? k x)) ->
  StronglySorted (fun a b => k a <= k b) l ->
  StronglySorted (fun a b => k a <= k b) (py_insert lt x l).
Proof.
  induction l as [|y l IH]; intros Hlt Hs; simpl; [repeat constructor|].
  apply StronglySorted_inv in Hs as [Hs Hf].
  rewrite (Hlt y (or_introl eq_refl)). destruct (k y <? k x) eqn:E; zbool.
  - constructor; [apply IH; auto; intros; apply Hlt; simpl; auto|].
    apply List.Forall_forall. intros z Hz.
    apply (Permutation_in _ (py_insert_perm lt x l)) in Hz. destruct Hz as [->|Hz]; [lia|].
    rewrite List.Forall_forall in Hf. auto.
  - constructor; [constructor; auto|]. constructor; [lia|].
    rewrite List.Forall_forall in Hf |- *. intros z Hz. specialize (Hf z Hz). simpl in Hf. lia.
Qed.

Lemma py_sorted_sorted {A} (lt : A -> A -> bool) (k : A -> Z) l :
  (forall x y, In x l -> In y l -> lt x y = (k x <? k y)) ->
  StronglySorted (fun a b => k a <= k b) (py_sorted lt l).
Proof.
  induction l as [|x l IH]; intros Hlt; simpl; [constructor|].
  apply py_insert_sorted.
  - intros y Hy. apply py_sorted_In in Hy. apply Hlt; simpl; auto.
  - apply IH. intros; apply Hlt; simpl; auto.
Qed.

(** A list already sorted for the measure is left alone: stability. *)
Lemma py_sorted_id {A} (lt : A -> A -> bool) (k : A -> Z) l :
  (forall x y, In x l -> In y l -> lt x y = (k x <? k y)) ->
  StronglySorted (fun a b => k a <= k b) l -> py_sorted lt l = l.
Proof.
  induction l as [|x l IH]; intros Hlt Hs; simpl; [done|].
  apply StronglySorted_inv in Hs as [Hs Hf].
  rewrite IH by (auto; intros; apply Hlt; simpl; auto).
  destruct l as [|y l]; [done|]. simpl.
  rewrite (Hlt y x) by (simpl; auto). rewrite List.Forall_forall in Hf.
  assert (k x <= k y) by (apply Hf; simpl; auto).
  replace (k y <? k x) with false by (symmetry; apply Z.ltb_ge; lia). done.
Qed.

#[export] Hint Resolve py_len_nonneg py_max_In py_index_In : etradie.
#[export] Hint Rewrite @py_len_cons @py_len_app : etradie.

(** Removing duplicates keeps the length exactly when there are none. *)
Lemma remove_dups_length_le {A} `{EqDecision A} (l : list A) :
  (length (remove_dups l) <= length l)%nat.
Proof. induction l as [|x l IH]; simpl; [done|]. case_decide; simpl; lia. Qed.

Lemma remove_dups_NoDup_iff {A} `{EqDecision A} (l : list A) :
  length (remove_dups l) = length l <-> NoDup l.
Proof.
  induction l as [|x l IH]; simpl; [split; constructor|].
  pose proof (remove_dups_length_le l). case_decide as Hx; simpl; split.
  - lia.
  - intros Hn. by apply NoDup_cons in Hn as [].
  - intros Hl. constructor; [done|]. apply IH. lia.
  - intros Hn. apply NoDup_cons in Hn as [_ Hn]. f_equal. by apply IH.
Qed.

(** Sorted by a measure with distinct values is strictly sorted. *)
Lemma StronglySorted_strict {A} (k : A -> Z) l :
  StronglySorted (fun a b => k a <= k b) l -> NoDup (map k l) ->
  StronglySorted (fun a b => k a < k b) l.
Proof.
  induction l as [|x l IH]; intros Hs Hn; [constructor|].
  apply StronglySorted_inv in Hs as [Hs Hf]. apply NoDup_cons in Hn as [Hx Hn].
  constructor; [by apply IH|]. rewrite List.Forall_forall in Hf |- *. intros y Hy.
  specialize (Hf y Hy). simpl in Hf. destruct (Z.eq_dec (k x) (k y)) as [E|]; [|lia].
  exfalso. apply Hx. rewrite E. apply list_elem_of_In, in_map, Hy.
Qed.

Lemma StronglySorted_weaken {A} (R S : A -> A -> Prop) l :
  (forall a b, R a b -> S a b) -> StronglySorted R l -> StronglySorted S l.
Proof.
  intros H. induction 1 as [|x l Hs IH Hf]; constructor; [done|].
  eapply List.Forall_impl; [|done]. auto.
Qed.

Lemma StronglySorted_NoDup {A} (k : A -> Z) l :
  StronglySorted (fun a b => k a < k b) l -> NoDup (map k l).
Proof.
  induction 1 as [|x l Hs IH Hf]; constructor; [|done].
  intros Hx. apply list_elem_of_In, in_map_iff in Hx as (y & E & Hy).
  rewrite List.Forall_forall in Hf. specialize (Hf y Hy). simpl in Hf. lia.
Qed.

Lemma StronglySorted_drop {A} (R : A -> A -> Prop) n l :
  StronglySorted R l -> StronglySorted R (drop n l).
Proof.
  revert n; induction l as [|x l IH]; intros [|n] Hs; simpl; [constructor..|done|].
  apply IH. by apply StronglySorted_inv in Hs as [].
Qed.

Lemma In_take {A} n (l : list A) x : In x (take n l) -> In x l.
Proof. intros H. rewrite <- (take_drop n l). apply in_or_app. by left. Qed.
Lemma In_drop {A} n (l : list A) x : In x (drop n l) -> In x l.
Proof. intros H. rewrite <- (take_drop n l). apply in_or_app. by right. Qed.

Lemma StronglySorted_take {A} (R : A -> A -> Prop) n l :
  StronglySorted R l -> StronglySorted R (take n l).
Proof.
  revert n; induction l as [|x l IH]; intros [|n] Hs; simpl; [constructor..|].
  apply StronglySorted_inv in Hs as [Hs Hf]. constructor; [by apply IH|].
  rewrite List.Forall_forall in Hf |- *. intros y Hy. apply Hf.
  by eapply In_take.
Qed.

Lemma py_slice_In {A} (l : list A) a b x : In x (py_slice l a b) -> In x l.
Proof. intros H. by apply In_take, In_drop in H. Qed.

Lemma py_slice_length {A} (l : list A) a b :
  0 <= a <= b -> b <= py_len l -> py_len (py_slice l a b) = b - a.
Proof.
  intros Ha Hb. unfold py_slice, py_slice_bound.
  replace (a <? 0) with false by (symmetry; apply Z.ltb_ge; lia).
  replace (b <? 0) with false by (symmetry; apply Z.ltb_ge; lia). cbv zeta.
  unfold py_len in *. rewrite length_take, length_drop. lia.
Qed.

Lemma py_slice_lookup {A} (l : list A) a b i :
  0 <= a -> b <= py_len l -> 0 <= i < b - a ->
  py_slice l a b !! Z.to_nat i = l !! Z.to_nat (a + i).
Proof.
  intros Ha Hb Hi. unfold py_slice, py_slice_bound.
  replace (a <? 0) with false by (symmetry; apply Z.ltb_ge; lia).
  replace (b <? 0) with false by (symmetry; apply Z.ltb_ge; lia). cbv zeta.
  unfold py_len in *. rewrite lookup_take_lt, lookup_drop by lia. f_equal. lia.
Qed.

Lemma py_slice_from_eq {A} (l : list A) a :
  0 <= a <= py_len l -> py_slice_from l a = py_slice l a (py_len l).
Proof.
  intros Ha. unfold py_slice_from, py_slice, py_slice_bound.
  replace (a <? 0) with false by (symmetry; apply Z.ltb_ge; lia).
  replace (py_len l <? 0) with false by (symmetry; apply Z.ltb_ge; lia).
  unfold py_len in *. rewrite take_ge; [done|]. rewrite length_drop. lia.
Qed.

Lemma py_range_app a b c : a <= b -> b <= c -> py_range a c = py_range a b ++ py_range b c.
Proof.
  intros Hab Hbc. unfold py_range.
  replace (Z.to_nat (c - a)) with (Z.to_nat (b - a) + Z.to_nat (c - b))%nat by lia.
  rewrite seq_app, map_app. f_equal. rewrite Nat.add_0_l.
  apply list_eq. intros k. rewrite !list_lookup_fmap.
  destruct (decide (k < Z.to_nat (c - b))%nat) as [Hk|Hk].
  - rewrite !lookup_seq_lt by done. simpl. f_equal. lia.
  - rewrite !lookup_seq_ge by lia. done.
Qed.

Lemma forallb_ext_in {A} (f g : A -> bool) l :
  (forall x, In x l -> f x = g x) -> forallb f l = forallb g l.
Proof.
  induction l as [|x l IH]; intros H; simpl; [done|].
  rewrite (H x), IH by (simpl; auto; intros; apply H; simpl; auto). done.
Qed.

(** A test over a range that skips one index splits at that index. *)
Lemma forallb_skip_self (f : Z -> bool) a i b :
  a <= i < b ->
  forallb (fun j => (j =? i) || f j) (py_range a b) =
  forallb f (py_range a i) && forallb f (py_range (i + 1) b).
Proof.
  intros H. rewrite (py_range_app a i b), (py_range_cons i b) by lia.
  rewrite forallb_app. simpl. rewrite Z.eqb_refl. simpl.
  f_equal; apply forallb_ext_in; intros j Hj; apply elem_of_py_range in Hj;
    by rewrite (proj2 (Z.eqb_neq j i)) by lia.
Qed.

Lemma elem_of_py_range_down a b i : In i (py_range_down a b) <-> b < i <= a.
Proof.
  unfold py_range_down. rewrite in_map_iff. split.
  - intros (k & <- & Hk). apply in_seq in Hk. lia.
  - intros Hi. exists (Z.to_nat (a - i)). split; [lia|]. apply in_seq. lia.
Qed.

Lemma py_range_sorted a b : StronglySorted Z.lt (py_range a b).
Proof.
  destruct (Z.le_gt_cases b a) as [H|H]; [rewrite py_range_nil by done; constructor|].
  remember (Z.to_nat (b - a)) as n eqn:En. revert a H En.
  induction n as [|n IH]; intros a H En; [lia|]. rewrite py_range_cons by done. constructor.
  - destruct (Z.eq_dec (a + 1) b) as [->|]; [rewrite py_range_nil by done; constructor|].
    apply IH; lia.
  - apply List.Forall_forall. intros x Hx. apply elem_of_py_range in Hx. lia.
Qed.

Lemma StronglySorted_filter {A} (R : A -> A -> Prop) f l :
  StronglySorted R l -> StronglySorted R (List.filter f l).
Proof.
  induction 1 as [|x l Hs IH Hf]; simpl; [constructor|]. destruct (f x); [|done].
  constructor; [done|]. rewrite List.Forall_forall in Hf |- *. intros y Hy.
  apply filter_In in Hy as [Hy _]. auto.
Qed.

Lemma StronglySorted_in {A} (R S : A -> A -> Prop) l :
  StronglySorted R l -> (forall a b, In a l -> In b l -> R a b -> S a b) -> StronglySorted S l.
Proof.
  induction 1 as [|x l Hs IH Hf]; intros H; constructor.
  - apply IH. intros a b Ha Hb. apply H; by right.
  - rewrite List.Forall_forall in Hf |- *. intros y Hy. apply H; [by left|by right|auto].
Qed.

Lemma StronglySorted_map {A B} (f : A -> B) (R : B -> B -> Prop) l :
  StronglySorted R (map f l) <-> StronglySorted (fun a b => R (f a) (f b)) l.
Proof.
  induction l as [|x l IH]; simpl; [split; constructor|].
  split; intros H; apply StronglySorted_inv in H as [Hs Hf]; (constructor; [by apply IH|]);
    rewrite List.Forall_forall in Hf |- *.
  - intros y Hy. apply Hf. by apply in_map.
  - intros y Hy. apply in_map_iff in Hy as (z & <- & Hz). by apply Hf.
Qed.

(** The greatest of a list sorted by the key is its last item. *)
Lemma py_max_sorted_last {A} (gt : A -> A -> bool) (k : A -> Z) l b :
  (forall x y, gt x y = (k y <? k x)) -> StronglySorted (fun x y => k x < k y) (b :: l) ->
  Some (py_max_from gt b l) = last (b :: l).
Proof.
  intros Hgt. revert b. induction l as [|x l IH]; intros b Hs; simpl; [done|].
  apply StronglySorted_inv in Hs as [Hs Hf]. inversion Hf; subst.
  rewrite Hgt, (proj2 (Z.ltb_lt _ _)) by done. by apply IH.
Qed.

Lemma sorted_lookup {A} (k : A -> Z) (v : list A) i j a b :
  StronglySorted (fun x y => k x < k y) v -> (i < j)%nat ->
  v !! i = Some a -> v !! j = Some b -> k a < k b.
Proof.
  intros Hs. revert i j. induction Hs as [|x v Hs IH Hf]; intros [|i] [|j] Hij Ha Hb; simplify_eq/=; try lia.
  - rewrite List.Forall_forall in Hf. apply Hf, list_elem_of_In. by eapply list_elem_of_lookup_2.
  - eapply IH; [|done..]. lia.
Qed.
