(* ===== verification/Loops.v ===== *)
(** * Loops: postconditions and the search loops of the detectors

    [yields m Q] is total correctness of a fallible computation: it returns, and
    what it returns satisfies [Q].  The detectors are built from three shapes of
    loop, each a combinator here with the rule the proofs use: a loop that
    returns at the first hit ([search]), a loop that appends at most one item per
    element ([collect]), and a loop that counts a streak ([streak_len]). *)

From Stdlib Require Import ZArith Lia Bool Sorting.Sorted Sorting.Permutation.
From stdpp Require Import base list strings.
From S2P Require Import Prelude.

#[local] Open Scope Z_scope.

(** ** Total correctness *)

Definition yields {A} (m : res A) (Q : A -> Prop) : Prop := exists a, m = Ok a /\ Q a.

Lemma yields_ret {A} (a : A) (Q : A -> Prop) : Q a -> yields (Ok a) Q.
Proof. intros H. exists a. auto. Qed.

Lemma yields_bind {A B} (m : res A) (f : A -> res B) (Q : A -> Prop) (R : B -> Prop) :
  yields m Q -> (forall a, Q a -> yields (f a) R) -> yields (m ≫= f) R.
Proof. intros (a & -> & Ha) Hf. by apply Hf. Qed.

Lemma yields_weaken {A} (m : res A) (Q R : A -> Prop) :
  yields m Q -> (forall a, Q a -> R a) -> yields m R.
Proof. intros (a & E & Ha) H. exists a. auto. Qed.

Lemma yields_conj {A} (m : res A) (Q R : A -> Prop) :
  yields m Q -> yields m R -> yields m (fun a => Q a /\ R a).
Proof. intros (a & E & Ha) (b & E' & Hb). exists a. rewrite E in E'. injection E' as ->. auto. Qed.

Lemma yields_Ok {A} (a : A) (Q : A -> Prop) : yields (Ok a) Q <-> Q a.
Proof. split; [intros (b & [= ->] & H); done|apply yields_ret]. Qed.

Lemma yields_fmap {A B} (m : res A) (f : A -> B) (Q : B -> Prop) :
  yields m (fun a => Q (f a)) -> yields (f <$> m) Q.
Proof. intros (a & -> & H). by apply yields_ret. Qed.

Lemma yields_returns {A} (m : res A) : yields m (fun _ => True) <-> returns m.
Proof. split; [intros (a & H & _); by exists a|intros (a & H); by exists a]. Qed.

#[export] Hint Resolve yields_ret : etradie.

(** ** [for x in xs: ... return y]

    The body gives [Some y] to return and [None] to continue; the loop falls
    through with [None]. *)

Fixpoint search {A B} (body : A -> res (option B)) (xs : list A) : res (option B) :=
  match xs with
  | [] => Ok None
  | x :: xs =>
      r ← body x;
      match r with Some y => Ok (Some y) | None => search body xs end
  end.

(** The pure search the loop agrees with when no iteration raises. *)
Fixpoint find_map {A B} (f : A -> option B) (xs : list A) : option B :=
  match xs with
  | [] => None
  | x :: xs => match f x with Some y => Some y | None => find_map f xs end
  end.

Lemma search_pure {A B} (body : A -> res (option B)) (f : A -> option B) xs :
  (forall x, In x xs -> body x = Ok (f x)) -> search body xs = Ok (find_map f xs).
Proof.
  induction xs as [|x xs IH]; intros H; simpl; [done|].
  rewrite H by (simpl; auto). cbn [mbind res_bind]. destruct (f x); [done|].
  apply IH. intros; apply H; simpl; auto.
Qed.

Lemma find_map_Some {A B} (f : A -> option B) xs y :
  find_map f xs = Some y <->
  exists before x after, xs = before ++ x :: after /\ f x = Some y /\ forall z, In z before -> f z = None.
Proof.
  induction xs as [|x xs IH]; simpl.
  - split; [done|]. intros ([|? ?] & ? & ? & ? & _); done.
  - destruct (f x) as [y'|] eqn:E; [|rewrite IH]; split.
    + intros [= ->]. exists [], x, xs. simpl. repeat split; [done..|]. by intros ? [].
    + intros ([|b before] & z & after & [= -> ->] & Hz & Hb); [congruence|].
      rewrite (Hb b) in E by (simpl; auto). done.
    + intros (before & z & after & -> & Hz & Hb). exists (x :: before), z, after.
      repeat split; [done..|]. intros w [<-|Hw]; auto.
    + intros ([|b before] & z & after & [= -> ->] & Hz & Hb); [congruence|].
      exists before, z, after. repeat split; [done..|]. intros w Hw. apply Hb. by right.
Qed.

Lemma find_map_None {A B} (f : A -> option B) xs :
  find_map f xs = None <-> forall x, In x xs -> f x = None.
Proof.
  induction xs as [|x xs IH]; simpl; [split; [intros _ ? []|done]|].
  destruct (f x) eqn:E; [split; [done|]|rewrite IH; split].
  - intros H. by rewrite H in E by auto.
  - intros H y [<-|Hy]; auto.
  - auto.
Qed.

(** Over an increasing range the hit is the least index. *)
Lemma find_map_range {B} (f : Z -> option B) a b y :
  find_map f (py_range a b) = Some y <->
  exists j, a <= j < b /\ f j = Some y /\ forall k, a <= k < j -> f k = None.
Proof.
  rewrite find_map_Some. split.
  - intros (before & j & after & E & Hj & Hb).
    assert (Hin : In j (py_range a b)) by (rewrite E; apply in_or_app; simpl; auto).
    apply elem_of_py_range in Hin. exists j. repeat split; [lia..|done|]. intros k Hk. apply Hb.
    assert (In k (py_range a b)) as Hk' by (apply elem_of_py_range; lia).
    rewrite E in Hk'. apply in_app_or in Hk' as [?|[->|Hk']]; [done|lia|].
    pose proof (StronglySorted_drop _ (length before) _ (py_range_sorted a b)) as Hs. exfalso.
    rewrite E, drop_app_length in Hs. apply StronglySorted_inv in Hs as [_ Hf].
    rewrite List.Forall_forall in Hf. specialize (Hf k Hk'). lia.
  - intros (j & Hr & Hj & Hb). exists (py_range a j), j, (py_range (j + 1) b).
    rewrite (py_range_app a j b), (py_range_cons j b) by lia. split; [done|]. split; [done|].
    intros k Hk. apply elem_of_py_range in Hk. auto.
Qed.

(** Over a decreasing range it is the greatest one. *)
Lemma py_range_down_cons a b : b < a -> py_range_down a b = a :: py_range_down (a - 1) b.
Proof.
  intros H. unfold py_range_down. replace (Z.to_nat (a - b)) with (S (Z.to_nat (a - 1 - b))) by lia.
  simpl. f_equal; [lia|]. rewrite <- seq_shift, map_map. apply map_ext. intros k. lia.
Qed.

Lemma py_range_down_nil a b : a <= b -> py_range_down a b = [].
Proof. intros H. unfold py_range_down. by replace (Z.to_nat (a - b)) with 0%nat by lia. Qed.

Lemma find_map_range_down {B} (f : Z -> option B) a b y :
  find_map f (py_range_down a b) = Some y <->
  exists j, b < j <= a /\ f j = Some y /\ forall k, j < k <= a -> f k = None.
Proof.
  remember (Z.to_nat (a - b)) as n eqn:En. revert a En. induction n as [|n IH]; intros a En.
  - rewrite py_range_down_nil by lia. simpl. split; [done|]. intros (j & Hj & _). lia.
  - rewrite py_range_down_cons by lia. simpl. destruct (f a) as [y'|] eqn:Ea.
    + split.
      * intros [= ->]. exists a. repeat split; [lia..|done|]. intros; lia.
      * intros (j & Hj & Ej & Hk). destruct (Z.eq_dec j a) as [->|]; [congruence|].
        rewrite Hk in Ea by lia. done.
    + rewrite IH by lia. split.
      * intros (j & Hj & Ej & Hk). exists j. repeat split; [lia..|done|]. intros k Hk'.
        destruct (Z.eq_dec k a) as [->|]; [done|]. apply Hk. lia.
      * intros (j & Hj & Ej & Hk). destruct (Z.eq_dec j a) as [->|]; [congruence|].
        exists j. repeat split; [lia..|done|]. intros k Hk'. apply Hk. lia.
Qed.

(** ** [for x in xs: ... acc.append(y)]

    The body gives the item to append, or [None] to [continue]. *)

Fixpoint collect {A B} (body : A -> res (option B)) (xs : list A) : res (list B) :=
  match xs with
  | [] => Ok []
  | x :: xs =>
      r ← body x;
      ys ← collect body xs;
      Ok (match r with Some y => y :: ys | None => ys end)
  end.

Lemma collect_pure {A B} (body : A -> res (option B)) (f : A -> option B) xs :
  (forall x, In x xs -> body x = Ok (f x)) -> collect body xs = Ok (omap f xs).
Proof.
  induction xs as [|x xs IH]; intros H; simpl; [done|].
  rewrite H by (simpl; auto). cbn [mbind res_bind]. rewrite IH by (intros; apply H; simpl; auto).
  cbn [mbind res_bind]. by destruct (f x).
Qed.

(** A body that meets a specification per element: the loop returns the image
    of a function that meets it. *)
Lemma collect_spec {A B} (body : A -> res (option B)) (ok : A -> option B -> Prop) xs :
  (forall x, In x xs -> yields (body x) (ok x)) ->
  yields (collect body xs) (fun ys => exists f, ys = omap f xs /\ forall x, In x xs -> ok x (f x)).
Proof.
  intros H.
  set (f := fun x => match body x with Ok r => r | Raise _ => None end).
  assert (Hf : forall x, In x xs -> body x = Ok (f x)).
  { intros x Hx. unfold f. by destruct (H x Hx) as (r & -> & _). }
  exists (omap f xs). split; [by apply collect_pure|]. exists f. split; [done|].
  intros x Hx. destruct (H x Hx) as (r & E & Hr). rewrite Hf in E by done. injection E as ->. done.
Qed.

Lemma collect_In {A B} (body : A -> res (option B)) xs ys y :
  collect body xs = Ok ys -> In y ys -> exists x, In x xs /\ body x = Ok (Some y).
Proof.
  revert ys. induction xs as [|x xs IH]; simpl; intros ys H Hy; [by injection H as <-|].
  inv_binds. subst ys. destruct a as [z|].
  - destruct Hy as [->|Hy]; [eauto|]. destruct (IH _ E0 Hy) as (x' & ? & ?). eauto.
  - destruct (IH _ E0 Hy) as (x' & ? & ?). eauto.
Qed.

Lemma omap_In {A B} (f : A -> option B) xs y :
  In y (omap f xs) <-> exists x, In x xs /\ f x = Some y.
Proof.
  rewrite <- list_elem_of_In, list_elem_of_omap. split; intros (x & Hx & E); exists x;
    by rewrite list_elem_of_In in *.
Qed.

(** ** [for k in ks: if test(k): n += 1 else: break; if n >= limit: break] *)

Fixpoint streak_len {A} (test : A -> res bool) (limit : Z) (n : Z) (ks : list A) : res Z :=
  match ks with
  | [] => Ok n
  | k :: ks =>
      b ← test k;
      if b : bool then
        if limit <=? n + 1 then Ok (n + 1) else streak_len test limit (n + 1) ks
      else Ok n
  end.

(** The streak reaches its limit exactly when the first [limit] tests succeed. *)
Lemma streak_len_spec (test : Z -> res bool) (p : Z -> bool) limit a b :
  (forall k, a <= k < b -> test k = Ok (p k)) ->
  forall n, n < limit ->
  exists m, streak_len test limit n (py_range a b) = Ok m /\
    ((limit <=? m) = true <->
     a + (limit - n) <= b /\ forall k, a <= k < a + (limit - n) -> p k = true).
Proof.
  intros Ht. remember (Z.to_nat (b - a)) as len eqn:El. revert a Ht El.
  induction len as [|len IH]; intros a Ht El n Hn.
  - rewrite py_range_nil by lia. exists n. split; [done|]. rewrite Z.leb_le. lia.
  - rewrite py_range_cons by lia. simpl. rewrite Ht by lia. cbn [mbind res_bind].
    destruct (p a) eqn:Ea.
    + destruct (limit <=? n + 1) eqn:E; zbool.
      * exists (n + 1). split; [done|]. rewrite Z.leb_le. split; [|lia]. intros _.
        split; [lia|]. intros k Hk. by replace k with a by lia.
      * destruct (IH (a + 1)) with (n := n + 1) as (m & Em & Hm); [|lia|lia|].
        { intros k Hk. apply Ht. lia. }
        exists m. split; [done|]. rewrite Hm. replace (a + 1 + (limit - (n + 1))) with (a + (limit - n)) by lia.
        split; intros [Hb Hk]; (split; [done|]); intros k Hk'.
        { destruct (Z.eq_dec k a) as [->|]; [done|]. apply Hk. lia. }
        { apply Hk. lia. }
    + exists n. split; [done|]. rewrite Z.leb_le. split; [lia|]. intros [_ Hk].
      rewrite Hk in Ea by lia. done.
Qed.

(** ** Tests on the item at an index *)

Definition holds_at {A} (v : list A) (p : A -> bool) (j : Z) : bool :=
  match v !! Z.to_nat j with Some c => p c | None => false end.

Lemma holds_at_true {A} (v : list A) p j :
  holds_at v p j = true <-> exists c, v !! Z.to_nat j = Some c /\ p c = true.
Proof.
  unfold holds_at. destruct (v !! Z.to_nat j) as [c|]; [|by split; [|intros (? & ? & ?)]].
  split; [eauto|]. by intros (d & [= <-] & H).
Qed.

(** [for j in js: if p(l\[j\]): return j]. *)
Definition first_index {A} (l : list A) (p : A -> bool) (js : list Z) : res (option Z) :=
  search (fun j => c ← py_index l j; Ok (if p c : bool then Some j else None)) js.

Lemma index_test {A} (l : list A) (p : A -> bool) j :
  0 <= j < py_len l -> (c ← py_index l j; Ok (p c)) = Ok (holds_at l p j).
Proof. intros Hj. destruct (py_index_in_range l j Hj) as (c & -> & E). unfold holds_at. by rewrite E. Qed.

Lemma first_index_spec {A} (l : list A) (p : A -> bool) a b :
  0 <= a -> b <= py_len l ->
  first_index l p (py_range a b) =
    Ok (find_map (fun j => if holds_at l p j then Some j else None) (py_range a b)).
Proof.
  intros Ha Hb. apply search_pure. intros j Hj. apply elem_of_py_range in Hj.
  destruct (py_index_in_range l j) as (c & -> & E); [lia|]. unfold holds_at. by rewrite E.
Qed.

Lemma first_hit_range (f : Z -> bool) a b j :
  find_map (fun k => if f k then Some k else None) (py_range a b) = Some j <->
  a <= j < b /\ f j = true /\ forall k, a <= k < j -> f k = false.
Proof.
  rewrite find_map_range. split.
  - intros (k & Hk & E & Hb). destruct (f k) eqn:Ef; [|done]. injection E as <-.
    repeat split; [lia..|done|]. intros i Hi. specialize (Hb i Hi). by destruct (f i).
  - intros (Hj & E & Hb). exists j. rewrite E. repeat split; [lia..|]. intros k Hk. by rewrite Hb.
Qed.

Lemma first_miss_range (f : Z -> bool) a b :
  find_map (fun k => if f k then Some k else None) (py_range a b) = None <->
  forall k, a <= k < b -> f k = false.
Proof.
  rewrite find_map_None. split; intros H k Hk.
  - specialize (H k (proj2 (elem_of_py_range a b k) Hk)). by destruct (f k).
  - apply elem_of_py_range in Hk. by rewrite H.
Qed.

(** Appending a last item keeps a list sorted when it follows every other. *)
Lemma StronglySorted_snoc_lt {A} (R : A -> A -> Prop) l x :
  StronglySorted R l -> (forall y, In y l -> R y x) -> StronglySorted R (l ++ [x]).
Proof.
  induction 1 as [|y l Hs IH Hf]; intros Hx; simpl; [repeat constructor|].
  constructor; [apply IH; intros; apply Hx; simpl; auto|].
  rewrite List.Forall_forall in Hf |- *. intros z Hz. apply in_app_iff in Hz as [Hz|[<-|[]]]; [auto|].
  apply Hx. simpl. auto.
Qed.

(** ** Partial correctness of the loops: what a loop that returned went through *)

Lemma search_In {A B} (body : A -> res (option B)) xs y :
  search body xs = Ok (Some y) -> exists x, In x xs /\ body x = Ok (Some y).
Proof.
  induction xs as [|x xs IH]; cbn [search]; [done|]. intros H. inv_binds. destruct a as [z|].
  - inv_binds. subst. exists x. split; [by left|done].
  - destruct (IH H) as (x' & Hin & E'). exists x'. split; [by right|done].
Qed.

Lemma for_each_inv {A B} (step : B -> A -> res B) (P : B -> Prop) xs acc r :
  for_each step xs acc = Ok r -> P acc ->
  (forall b x b', P b -> In x xs -> step b x = Ok b' -> P b') -> P r.
Proof.
  revert acc. induction xs as [|x xs IH]; cbn [for_each]; intros acc H Hacc Hstep; [by injection H as <-|].
  inv_binds. eapply IH; [exact H| |].
  - eapply Hstep; [exact Hacc|by left|exact E].
  - intros b y b' Hb Hy. apply Hstep; [exact Hb|by right].
Qed.

Lemma py_max_opt_In {A} (gt : A -> A -> bool) xs x : py_max_opt gt xs = Some x -> In x xs.
Proof.
  destruct xs as [|y xs]; cbn [py_max_opt]; [done|]. intros [= <-].
  destruct (py_max_from_In gt xs y) as [->|H]; [by left|by right].
Qed.

(** Each item on its own. *)
Lemma res_map_Forall {A B} (f : A -> res B) (Q : B -> Prop) xs :
  (forall x, In x xs -> yields (f x) Q) -> yields (res_map f xs) (Forall Q).
Proof.
  induction xs as [|x xs IH]; intros Hf; cbn [res_map]; [by apply yields_ret|].
  destruct (Hf x (or_introl eq_refl)) as (y & -> & Hy). cbn [mbind res_bind].
  destruct IH as (ys & -> & Hys); [intros; apply Hf; by right|]. apply yields_ret. by constructor.
Qed.
