(* ===== verification/PyFloat.v ===== *)
(** * PyFloat: Python's [float]

    A Python float is an IEEE 754 binary64 number.  The model is the Standard
    Library's executable specification [spec_float] at precision 53 and
    maximal exponent 1024, so every operation rounds exactly as the
    interpreter's does and a witness can evaluate it.

    The theory embeds the valid floats that are not NaN into the integers
    ([fv]): comparisons become integer comparisons, and the rounding of an
    operation is bounded by every float that bounds its exact result. *)

From Stdlib Require Import ZArith Lia Bool SpecFloat.
From stdpp Require Import base list.
From S2P Require Import Prelude.

Abbreviation float := spec_float.

(** ** Operations *)

Definition prec : Z := 53.
Definition emax : Z := 1024.

Definition fadd : float -> float -> float := SFadd prec emax.
Definition fsub : float -> float -> float := SFsub prec emax.
Definition fmul : float -> float -> float := SFmul prec emax.
Definition fdiv_ieee : float -> float -> float := SFdiv prec emax.
Definition fabs : float -> float := SFabs.
Definition fneg : float -> float := SFopp.

Definition flt : float -> float -> bool := SFltb.
Definition fle : float -> float -> bool := SFleb.
Definition feq : float -> float -> bool := SFeqb.

Definition fzero : float := S754_zero false.
Definition finf : float := S754_infinity false.

(** [a / b] raises on a zero divisor, unlike IEEE division. *)
Definition fdiv (a b : float) : res float :=
  if feq b fzero then Raise ZeroDivisionError else Ok (fdiv_ieee a b).

(** [float(n)] of an integer, and the decimal literal [n * 10^-d], both
    correctly rounded. *)
Definition of_Z (n : Z) : float := binary_normalize prec emax n 0 false.

Definition lit (n : Z) (d : nat) : float :=
  match n with
  | Z0 => fzero
  | Zpos p =>
      let '(mz, ez, lz) := SFdiv_core_binary prec emax (Zpos p) 0 (10 ^ Z.of_nat d) 0 in
      binary_round_aux prec emax false mz ez lz
  | Zneg p =>
      let '(mz, ez, lz) := SFdiv_core_binary prec emax (Zpos p) 0 (10 ^ Z.of_nat d) 0 in
      binary_round_aux prec emax true mz ez lz
  end.

Definition fone : float := of_Z 1.

(** [max(a, b)] and [min(a, b)] of two floats: the first argument unless the
    second is strictly beyond it. *)
Definition fmax (a b : float) : float := if flt a b then b else a.
Definition fmin (a b : float) : float := if flt b a then b else a.

(** [max(iterable)] and [min(iterable)] of floats. *)
Definition fmax_list : list float -> res float := py_max (fun x y => flt y x).
Definition fmin_list : list float -> res float := py_max (fun x y => flt x y).

Definition is_finite (x : float) : bool :=
  match x with S754_zero _ | S754_finite _ _ _ => true | _ => false end.

(** [sum(iterable)] of floats.  The start value is the integer 0, so the first
    addition is exact and an empty iterable gives 0; from the second item on
    CPython 3.12 accumulates with Neumaier's compensation. *)
Definition fsum_step (acc : float * float) (x : float) : float * float :=
  let '(s, c) := acc in
  let t := fadd s x in
  let c' := if fle (fabs x) (fabs s)
            then fadd c (fadd (fsub s t) x)
            else fadd c (fadd (fsub x t) s) in
  (t, c').

Definition fsum (l : list float) : float :=
  match l with
  | [] => fzero
  | x :: l =>
      let '(s, c) := foldl fsum_step (fadd fzero x, fzero) l in
      if negb (feq c fzero) && is_finite c then fadd s c else s
  end.

Declare Scope pyfloat_scope.
Delimit Scope pyfloat_scope with pf.
Infix "+" := fadd : pyfloat_scope.
Infix "-" := fsub : pyfloat_scope.
Infix "*" := fmul : pyfloat_scope.
Infix "<?" := flt : pyfloat_scope.
Infix "<=?" := fle : pyfloat_scope.
Infix "=?" := feq : pyfloat_scope.

(** ** The embedding into the integers

    Exponents are offset by [ebase], low enough for the exact product and
    quotient of any two finite floats, so that all values in play are integer
    multiples of one unit. *)

Definition ebase : Z := -2200.
Definition unit_pow (e : Z) : Z := 2 ^ (e - ebase).

Definition finf_val : Z := 2 ^ 4000.

Definition fv (x : float) : Z :=
  match x with
  | S754_zero _ => 0
  | S754_infinity s => if s then - finf_val else finf_val
  | S754_nan => 0
  | S754_finite s m e => (if s then -1 else 1) * (Zpos m * unit_pow e)
  end.

(** Every Python float is valid; [num] also excludes NaN, [fin] infinities. *)
Definition valid (x : float) : bool := valid_binary prec emax x.
Definition is_nan (x : float) : bool := match x with S754_nan => true | _ => false end.
Definition num (x : float) : Prop := valid x = true /\ is_nan x = false.
Definition fin (x : float) : Prop := valid x = true /\ is_finite x = true.

Lemma fin_num x : fin x -> num x.
Proof. unfold fin, num. destruct x; simpl; intuition. Qed.

Lemma digits2_pos_spec (p : positive) :
  2 ^ (Zpos (digits2_pos p) - 1) <= Zpos p < 2 ^ Zpos (digits2_pos p).
Proof.
  induction p as [p IH|p IH|]; cbn [digits2_pos]; [| |lia].
  all: rewrite Pos2Z.inj_succ; set (d := Zpos (digits2_pos p)) in *.
  all: assert (0 < d) by (unfold d; lia).
  all: replace (Z.succ d - 1) with (1 + (d - 1)) by lia.
  all: replace (Z.succ d) with (1 + d) by lia.
  all: rewrite !Z.pow_add_r by lia; lia.
Qed.

Lemma digits2_pos_le (p : positive) (n : Z) :
  0 <= n -> Zpos p < 2 ^ n -> Zpos (digits2_pos p) <= n.
Proof.
  intros Hn Hp. destruct (Z.le_gt_cases (Zpos (digits2_pos p)) n) as [|Hgt]; [done|].
  pose proof (digits2_pos_spec p) as [Hlo _].
  assert (2 ^ n <= 2 ^ (Zpos (digits2_pos p) - 1)) by (apply Z.pow_le_mono_r; lia). lia.
Qed.

Lemma digits2_pos_ge (p : positive) (n : Z) :
  2 ^ n <= Zpos p -> n < Zpos (digits2_pos p).
Proof.
  intros Hp. destruct (Z.le_gt_cases (Zpos (digits2_pos p)) n) as [Hle|]; [|lia].
  pose proof (digits2_pos_spec p) as [_ Hhi].
  assert (2 ^ Zpos (digits2_pos p) <= 2 ^ n) by (apply Z.pow_le_mono_r; lia). lia.
Qed.

Lemma unit_pow_pos e : ebase <= e -> 0 < unit_pow e.
Proof. intros. apply Z.pow_pos_nonneg; lia. Qed.

Lemma unit_pow_split e e' : ebase <= e -> e <= e' -> unit_pow e' = 2 ^ (e' - e) * unit_pow e.
Proof.
  intros. unfold unit_pow. rewrite <- Z.pow_add_r by lia. f_equal. lia.
Qed.

(** What validity says about a finite float's mantissa and exponent. *)
Lemma bounded_spec m e :
  bounded prec emax m e = true <->
  -1074 <= e <= 971 /\ Zpos m < 2 ^ 53 /\ (e = -1074 \/ 2 ^ 52 <= Zpos m).
Proof.
  unfold bounded, canonical_mantissa, fexp, emin, prec, emax.
  rewrite andb_true_iff, Z.eqb_eq, Z.leb_le.
  pose proof (digits2_pos_spec m) as [Hlo Hhi]. set (d := Zpos (digits2_pos m)) in *.
  split.
  - intros [Hc He]. split; [lia|].
    assert (d <= 53) by lia. split.
    { apply Z.lt_le_trans with (2 ^ d); [done|]. apply Z.pow_le_mono_r; lia. }
    destruct (Z.eq_dec e (-1074)); [by left|right].
    assert (d = 53) as -> by lia. done.
  - intros (He & Hm & Hc). assert (d <= 53) by (apply digits2_pos_le; lia).
    split; [|lia]. destruct Hc as [->|Hc]; [lia|].
    apply digits2_pos_ge in Hc. unfold d in *. lia.
Qed.

Lemma valid_finite_bounds s m e :
  valid (S754_finite s m e) = true ->
  -1074 <= e <= 971 /\ Zpos m < 2 ^ 53 /\ (e = -1074 \/ 2 ^ 52 <= Zpos m).
Proof. apply bounded_spec. Qed.

Lemma fv_mag_bound s m e :
  valid (S754_finite s m e) = true -> 0 < Zpos m * unit_pow e < 2 ^ 3224.
Proof.
  intros H. apply valid_finite_bounds in H as ((? & ?) & Hm & _).
  assert (0 < unit_pow e) by (apply unit_pow_pos; unfold ebase; lia).
  assert (unit_pow e <= unit_pow 971).
  { apply Z.pow_le_mono_r; lia. }
  split; [lia|]. replace 3224 with (53 + 3171) by lia.
  rewrite Z.pow_add_r by lia. change (2 ^ 3171) with (unit_pow 971).
  apply Z.lt_le_trans with (2 ^ 53 * unit_pow e).
  - apply Z.mul_lt_mono_pos_r; done.
  - apply Z.mul_le_mono_nonneg_l; [|done]. apply Z.pow_nonneg. lia.
Qed.

Lemma finf_val_big : 2 ^ 3224 < finf_val.
Proof. apply Z.pow_lt_mono_r; lia. Qed.

(** Comparison of canonical magnitudes is comparison of their values. *)
Lemma canonical_lt m1 e1 m2 e2 s1 s2 :
  valid (S754_finite s1 m1 e1) = true -> valid (S754_finite s2 m2 e2) = true ->
  e1 < e2 -> Zpos m1 * unit_pow e1 < Zpos m2 * unit_pow e2.
Proof.
  intros H1 H2 He. apply valid_finite_bounds in H1 as ((? & ?) & Hm1 & _).
  apply valid_finite_bounds in H2 as ((? & ?) & _ & Hc).
  destruct Hc as [->|Hc]; [lia|].
  rewrite (unit_pow_split e1 e2) by (unfold ebase; lia).
  assert (0 < unit_pow e1) by (apply unit_pow_pos; unfold ebase; lia).
  assert (2 ^ 1 <= 2 ^ (e2 - e1)) by (apply Z.pow_le_mono_r; lia).
  rewrite Z.mul_assoc. apply Z.mul_lt_mono_pos_r; [done|].
  apply Z.lt_le_trans with (2 ^ 52 * 2 ^ 1); [done|].
  apply Z.mul_le_mono_nonneg; lia.
Qed.

Lemma mag_compare m1 e1 m2 e2 s1 s2 :
  valid (S754_finite s1 m1 e1) = true -> valid (S754_finite s2 m2 e2) = true ->
  match Z.compare e1 e2 with Lt => Lt | Gt => Gt | Eq => Pos.compare_cont Eq m1 m2 end
  = Z.compare (Zpos m1 * unit_pow e1) (Zpos m2 * unit_pow e2).
Proof.
  intros H1 H2. destruct (Z.compare_spec e1 e2) as [->|Hlt|Hgt].
  - change (Pos.compare_cont Eq m1 m2) with (Z.compare (Zpos m1) (Zpos m2)).
    apply valid_finite_bounds in H1 as ((? & ?) & _).
    apply Zmult_compare_compat_r.
    apply Z.lt_gt, unit_pow_pos. unfold ebase; lia.
  - symmetry. apply Z.compare_lt_iff. by eapply canonical_lt.
  - symmetry. apply Z.compare_gt_iff. by eapply canonical_lt.
Qed.

Theorem fcompare_fv x y : num x -> num y -> SFcompare x y = Some (fv x ?= fv y).
Proof.
  intros [Vx Nx] [Vy Ny].
  assert (Hinf := finf_val_big).
  destruct x as [sx|sx| |sx mx ex], y as [sy|sy| |sy my ey]; try discriminate Nx; try discriminate Ny;
    cbn [SFcompare fv].
  all: try (pose proof (fv_mag_bound _ _ _ Vx) as Bx; set (X := Zpos mx * unit_pow ex) in *).
  all: try (pose proof (fv_mag_bound _ _ _ Vy) as By; set (Y := Zpos my * unit_pow ey) in *).
  all: try (assert (0 < finf_val) by lia).
  all: try (f_equal; symmetry;
    repeat match goal with s : bool |- _ => destruct s end;
    rewrite ?Z.compare_refl;
    first [ reflexivity | apply Z.compare_lt_iff; lia | apply Z.compare_gt_iff; lia ]).
  destruct sx, sy; f_equal.
  - pose proof (mag_compare _ _ _ _ _ _ Vx Vy) as HM. fold X Y in HM.
    replace (-1 * X ?= -1 * Y) with (CompOpp (X ?= Y)).
    { rewrite <- HM. by destruct (ex ?= ey). }
    destruct (Z.compare_spec X Y), (Z.compare_spec (-1 * X) (-1 * Y)); try lia; reflexivity.
  - symmetry. apply Z.compare_lt_iff. lia.
  - symmetry. apply Z.compare_gt_iff. lia.
  - rewrite (mag_compare _ _ _ _ _ _ Vx Vy). fold X Y. by rewrite !Z.mul_1_l.
Qed.

Lemma flt_fv x y : num x -> num y -> flt x y = (fv x <? fv y).
Proof.
  intros. unfold flt, SFltb, Z.ltb. rewrite fcompare_fv by done. by destruct (fv x ?= fv y).
Qed.
Lemma fle_fv x y : num x -> num y -> fle x y = (fv x <=? fv y).
Proof.
  intros. unfold fle, SFleb, Z.leb. rewrite fcompare_fv by done. by destruct (fv x ?= fv y).
Qed.
Lemma feq_fv x y : num x -> num y -> feq x y = (fv x =? fv y).
Proof.
  intros. unfold feq, SFeqb. rewrite fcompare_fv by done.
  destruct (Z.compare_spec (fv x) (fv y)); symmetry; [by apply Z.eqb_eq|apply Z.eqb_neq; lia..].
Qed.

(** The strict order is asymmetric on all floats, NaN included. *)
Lemma flt_asym x y : flt x y = true -> flt y x = false.
Proof.
  unfold flt, SFltb. intros Hlt.
  destruct x as [[]|[]| |[] mx ex], y as [[]|[]| |[] my ey]; try discriminate Hlt; try reflexivity;
    cbn [SFcompare] in *; rewrite (Z.compare_antisym ex ey) in *; destruct (ex ?= ey);
    cbn [CompOpp] in *; try done.
  all: change (Pos.compare_cont Eq mx my) with (Pos.compare mx my) in *;
    change (Pos.compare_cont Eq my mx) with (Pos.compare my mx) in *;
    rewrite (Pos.compare_antisym mx my) in *; by destruct (mx ?= my)%positive.
Qed.
