(* ===== verification/FloatRound.v ===== *)
(** * FloatRound: bounds on the rounding of binary64 arithmetic

    The result of an arithmetic operation on finite floats is never NaN and is
    caught between the floats that bound the exact result: [rounds n d r]
    states it for the exact value [n / d].  The sign, monotonicity and range
    facts the price computations need follow by integer arithmetic. *)

From Stdlib Require Import ZArith Lia Bool SpecFloat.
From stdpp Require Import base list.
From S2P Require Import Prelude PyFloat.

(** ** Shifting the mantissa to the right *)

Definition inexact (r : shr_record) : bool := shr_r r || shr_s r.

Lemma shr_1_spec m r s :
  0 <= m ->
  shr_m (shr_1 (Build_shr_record m r s)) = m / 2 /\
  inexact (shr_1 (Build_shr_record m r s)) = negb (m mod 2 =? 0) || (r || s).
Proof.
  intros Hm. destruct m as [|[p|p|]|p]; [destruct r, s; vm_compute; auto| | |destruct r, s; vm_compute; auto|lia].
  - cbn [shr_1 shr_m inexact shr_r shr_s]. replace (Z.pos p~1) with (1 + Z.pos p * 2) by lia.
    rewrite Z_div_plus, Z_mod_plus by lia. split; [done|]. by destruct r, s.
  - cbn [shr_1 shr_m inexact shr_r shr_s]. replace (Z.pos p~0) with (0 + Z.pos p * 2) by lia.
    rewrite Z_div_plus, Z_mod_plus by lia. split; [done|]. by destruct r, s.
Qed.

Lemma iter_pos_ind {A} (f : A -> A) (R : Z -> A -> Prop) (p : positive) :
  (forall n x, 0 <= n -> R n x -> R (n + 1) (f x)) ->
  forall n x, 0 <= n -> R n x -> R (n + Zpos p) (SpecFloat.iter_pos f p x).
Proof.
  intros Hstep. induction p as [p IH|p IH|]; intros n x Hn Hx; cbn [SpecFloat.iter_pos].
  - replace (n + Z.pos p~1) with ((n + 1 + Z.pos p) + Z.pos p) by lia.
    apply IH; [lia|]. apply IH; [lia|]. by apply Hstep.
  - replace (n + Z.pos p~0) with ((n + Z.pos p) + Z.pos p) by lia.
    apply IH; [lia|]. by apply IH.
  - by apply Hstep.
Qed.

Lemma shr_iter_spec m r s p :
  0 <= m ->
  let rec := SpecFloat.iter_pos shr_1 p (Build_shr_record m r s) in
  shr_m rec = m / 2 ^ Zpos p /\
  inexact rec = negb (m mod 2 ^ Zpos p =? 0) || (r || s).
Proof.
  intros Hm rec.
  cut (0 <= shr_m rec /\ shr_m rec = m / 2 ^ (0 + Zpos p) /\
       inexact rec = negb (m mod 2 ^ (0 + Zpos p) =? 0) || (r || s)); [rewrite Z.add_0_l; tauto|].
  unfold rec. apply (iter_pos_ind shr_1 (fun n rec => 0 <= shr_m rec /\ shr_m rec = m / 2 ^ n /\
       inexact rec = negb (m mod 2 ^ n =? 0) || (r || s))); [|lia|].
  - intros n [m' r' s'] Hn (H0 & Hq & Hi). cbn [shr_m] in *.
    destruct (shr_1_spec m' r' s' H0) as [E1 E2]. rewrite E1, E2.
    assert (0 < 2 ^ n) by (apply Z.pow_pos_nonneg; lia).
    split; [apply Z.div_pos; lia|].
    rewrite Z.pow_add_r by lia. change (2 ^ 1) with 2. split.
    + rewrite Hq, Z.div_div by lia. done.
    + unfold inexact in Hi. cbn [shr_r shr_s] in Hi. rewrite Hi.
      rewrite Z.rem_mul_r by lia. rewrite <- Hq.
      pose proof (Z.mod_pos_bound m (2 ^ n)). pose proof (Z.mod_pos_bound m' 2).
      destruct (m mod 2 ^ n =? 0) eqn:Ea, (m' mod 2 =? 0) eqn:Eb; zbool; cbn [negb orb].
      all: try (rewrite (proj2 (Z.eqb_eq _ _)) by nia; done).
      all: rewrite (proj2 (Z.eqb_neq _ _)) by nia; done.
  - cbn [shr_m]. rewrite Z.pow_0_r, Z.div_1_r, Z.mod_1_r. done.
Qed.

Definition loc_inexact (l : location) : bool :=
  match l with loc_Exact => false | _ => true end.

Lemma shr_spec m l e n :
  0 <= m -> 0 <= n ->
  exists rec, shr (shr_record_of_loc m l) e n = (rec, e + n) /\
    shr_m rec = m / 2 ^ n /\
    inexact rec = negb (m mod 2 ^ n =? 0) || loc_inexact l.
Proof.
  intros Hm Hn.
  assert (exists r s, shr_record_of_loc m l = Build_shr_record m r s /\ r || s = loc_inexact l)
    as (r & s & E & Hrs).
  { destruct l as [|[]]; cbn; eauto. }
  rewrite E. destruct n as [|p|p]; [| |lia].
  - eexists. cbn [shr]. rewrite Z.add_0_r, Z.pow_0_r, Z.div_1_r, Z.mod_1_r.
    split; [done|]. by rewrite <- Hrs.
  - eexists. cbn [shr]. split; [done|]. rewrite <- Hrs. by apply shr_iter_spec.
Qed.

Lemma round_nearest_even_cases m rec :
  let m' := round_nearest_even m (loc_of_shr_record rec) in
  m' = m \/ (m' = m + 1 /\ inexact rec = true).
Proof.
  destruct rec as [q [] []]; cbn; [right|destruct (Z.even m)|left|left]; cbn; auto.
Qed.

(** ** The rounded result *)

Definition fexp64 (e : Z) : Z := fexp prec emax e.

Lemma fexp64_eq e : fexp64 e = Z.max (e - 53) (-1074).
Proof. done. Qed.

Lemma Zdigits2_bounds m : 0 < m -> 2 ^ (Zdigits2 m - 1) <= m < 2 ^ Zdigits2 m.
Proof. destruct m; intros; try lia. apply digits2_pos_spec. Qed.

Lemma Zdigits2_nonneg m : 0 <= Zdigits2 m.
Proof. destruct m; simpl; lia. Qed.

Lemma Zdigits2_le m n : 0 <= m -> 0 <= n -> m < 2 ^ n -> Zdigits2 m <= n.
Proof. intros. destruct m; simpl; try lia. by apply digits2_pos_le. Qed.

(** The truncated mantissa: below [2^53], and at least [2^52] above the
    subnormal exponent. *)
Lemma truncated_bounds mx ex :
  let f := fexp64 (Zdigits2 mx + ex) in
  0 <= mx -> ex <= f ->
  let q := mx / 2 ^ (f - ex) in
  0 <= q < 2 ^ 53 /\ (-1074 < f -> 2 ^ 52 <= q /\ 0 < mx).
Proof.
  intros f Hm Hf q. unfold q; clear q.
  assert (Ef : f = Z.max (Zdigits2 mx + ex - 53) (-1074)) by apply fexp64_eq. clearbody f.
  assert (Hd := Zdigits2_nonneg mx).
  assert (0 < 2 ^ (f - ex)) by (apply Z.pow_pos_nonneg; lia).
  assert (Hpos : -1074 < f -> 0 < mx).
  { intros. destruct (Z.eq_dec mx 0) as [->|]; [simpl in *|]; lia. }
  split; [split|].
  - apply Z.div_pos; lia.
  - apply Z.div_lt_upper_bound; [done|].
    destruct (Z.eq_dec mx 0) as [->|]; [lia|].
    assert (Hb : mx < 2 ^ Zdigits2 mx) by (apply Zdigits2_bounds; lia).
    rewrite <- Z.pow_add_r by lia. apply Z.lt_le_trans with (2 ^ Zdigits2 mx); [done|].
    apply Z.pow_le_mono_r; lia.
  - intros Hg. specialize (Hpos Hg). split; [|done].
    assert (Hb : 2 ^ (Zdigits2 mx - 1) <= mx) by (apply Zdigits2_bounds; lia).
    apply Z.div_le_lower_bound; [done|]. rewrite <- Z.pow_add_r by lia.
    replace (f - ex + 52) with (Zdigits2 mx - 1) by lia. done.
Qed.

(** Renormalising a mantissa that fits, or is exactly [2^53]. *)
Definition renorm (sx : bool) (q f : Z) : float :=
  let '(rec, e) := shr_fexp prec emax q f loc_Exact in
  match shr_m rec with
  | Z0 => S754_zero sx
  | Zpos m => if e <=? emax - prec then S754_finite sx m e else S754_infinity sx
  | _ => S754_nan
  end.

Definition rounded (sx : bool) (q f : Z) (r : float) : Prop :=
  (q = 0 /\ r = S754_zero sx) \/
  (exists m e, r = S754_finite sx m e /\ valid r = true /\
     Zpos m * unit_pow e = q * unit_pow f) \/
  (r = S754_infinity sx /\ 2 ^ 53 * unit_pow 971 <= q * unit_pow f).

Lemma renorm_spec sx q f :
  0 <= q <= 2 ^ 53 -> -1074 <= f -> (-1074 < f -> 2 ^ 52 <= q) ->
  rounded sx q f (renorm sx q f).
Proof.
  intros Hq Hf Hc. unfold renorm, shr_fexp. fold (fexp64 (Zdigits2 q + f)).
  destruct (Z.eq_dec q (2 ^ 53)) as [->|Hne].
  - change (Zdigits2 (2 ^ 53)) with 54. rewrite fexp64_eq.
    replace (Z.max (54 + f - 53) (-1074) - f) with 1 by lia.
    cbn [shr SpecFloat.iter_pos]. cbv [shr_record_of_loc]. cbn [shr_1 shr_m]. change (Z.pow_pos 2 53) with (Z.pow 2 53).
    cbn -[unit_pow Z.mul Z.add Z.leb emax prec]. change (emax - prec) with 971.
    assert (E : Z.pos 4503599627370496 * unit_pow (f + 1) = 2 ^ 53 * unit_pow f).
    { rewrite (unit_pow_split f (f + 1)) by (unfold ebase; lia).
      replace (f + 1 - f) with 1 by lia. lia. }
    destruct (f + 1 <=? 971) eqn:El; zbool.
    + right; left. do 2 eexists. split; [done|]. split; [|done].
      apply bounded_spec. lia.
    + right; right. split; [done|]. apply Z.mul_le_mono_nonneg_l; [done|].
      apply Z.pow_le_mono_r; unfold ebase; lia.
  - assert (Hd : Zdigits2 q <= 53) by (apply Zdigits2_le; lia).
    rewrite fexp64_eq. assert (Hn : Z.max (Zdigits2 q + f - 53) (-1074) - f <= 0) by lia.
    replace (shr (shr_record_of_loc q loc_Exact) f (Z.max (Zdigits2 q + f - 53) (-1074) - f))
      with (Build_shr_record q false false, f).
    2:{ destruct (Z.max (Zdigits2 q + f - 53) (-1074) - f); [done|lia|done]. }
    cbn [shr_m]. destruct q as [|p|p]; [by left| |lia]. change (emax - prec) with 971.
    destruct (f <=? 971) eqn:El; zbool.
    + right; left. exists p, f. split; [done|]. split; [|done].
      apply bounded_spec. split; [lia|]. split; [lia|].
      destruct (Z.eq_dec f (-1074)); [by left|right]. apply Hc. lia.
    + right; right. split; [done|].
      rewrite (unit_pow_split 971 f) by (unfold ebase; lia). rewrite Z.mul_assoc.
      apply Z.mul_le_mono_nonneg_r; [apply Z.pow_nonneg; lia|].
      apply Z.le_trans with (2 ^ 52 * 2 ^ 1); [lia|].
      apply Z.mul_le_mono_nonneg; [lia|apply Hc; lia|lia|apply Z.pow_le_mono_r; lia].
Qed.

Lemma binary_round_aux_spec sx mx ex lx :
  let f := fexp64 (Zdigits2 mx + ex) in
  0 <= mx -> ex <= f ->
  let t := mx / 2 ^ (f - ex) in
  exists q,
    (q = t \/ (q = t + 1 /\ (mx mod 2 ^ (f - ex) <> 0 \/ lx <> loc_Exact))) /\
    (-1074 < f -> 2 ^ 52 <= q) /\ 0 <= q /\
    rounded sx q f (binary_round_aux prec emax sx mx ex lx).
Proof.
  intros f Hm Hf t. destruct (truncated_bounds mx ex Hm Hf) as [Ht Htc]. fold f t in Ht, Htc.
  assert (Hf1 : -1074 <= f) by (unfold f; rewrite fexp64_eq; lia).
  unfold binary_round_aux, shr_fexp at 1. fold (fexp64 (Zdigits2 mx + ex)). fold f.
  destruct (shr_spec mx lx ex (f - ex)) as (rec & -> & Er & Ei); [done|lia|].
  fold t in Er. replace (ex + (f - ex)) with f by lia. rewrite Er.
  fold (renorm sx (round_nearest_even t (loc_of_shr_record rec)) f).
  exists (round_nearest_even t (loc_of_shr_record rec)).
  pose proof (round_nearest_even_cases t rec) as Hc. simpl in Hc.
  set (q := round_nearest_even t (loc_of_shr_record rec)) in *.
  split; [|split; [|split]].
  - destruct Hc as [?|[? Hi]]; [by left|right]. split; [done|].
    rewrite Ei in Hi. apply orb_true_iff in Hi as [Hi|Hi]; split_hyps; zbool; [by left|right].
    by destruct lx.
  - intros Hgt. specialize (Htc Hgt). destruct Hc as [->|[-> _]]; lia.
  - destruct Hc as [->|[-> _]]; lia.
  - apply renorm_spec; [|done|]; [destruct Hc as [->|[-> _]]; lia|].
    intros Hgt. specialize (Htc Hgt). destruct Hc as [->|[-> _]]; lia.
Qed.

(** ** Rounding respects representable bounds *)

Definition sgn (s : bool) : Z := if s then -1 else 1.

(** [r] is a correct rounding of [n / d] as far as representable bounds can
    tell: it is a number, and any finite float on one side of [n / d] is on the
    same side of [r]. *)
Definition rounds (n d : Z) (r : float) : Prop :=
  num r /\
  (forall z, fin z -> n <= fv z * d -> fv r <= fv z) /\
  (forall z, fin z -> fv z * d <= n -> fv z <= fv r).

Lemma fin_value z : fin z -> Z.abs (fv z) < 2 ^ 53 * unit_pow 971.
Proof.
  intros [V F]. destruct z as [s|s| |s m e]; try discriminate F; [done|].
  pose proof (fv_mag_bound _ _ _ V) as B. change (2 ^ 53 * unit_pow 971) with (2 ^ 3224).
  cbn [fv]. destruct s; lia.
Qed.

(** A non-negative finite float on a finer grid than [f] is below [2^52] steps
    of that grid. *)
Lemma fin_grid z f :
  fin z -> 0 <= fv z -> -1074 <= f ->
  (exists k, 0 <= k /\ fv z = k * unit_pow f) \/ (-1074 < f /\ fv z < 2 ^ 52 * unit_pow f).
Proof.
  intros [V F] Hz Hf. destruct z as [s|s| |s m e]; try discriminate F.
  - left. exists 0. split; [lia|done].
  - pose proof (fv_mag_bound _ _ _ V). destruct s; [cbn [fv] in Hz; lia|].
    apply valid_finite_bounds in V as ((? & ?) & Hm & _). cbn [fv]. rewrite Z.mul_1_l.
    destruct (Z.le_gt_cases f e).
    + left. exists (Zpos m * 2 ^ (e - f)).
      rewrite (unit_pow_split f e) by (unfold ebase; lia).
      split; [|lia]. apply Z.mul_nonneg_nonneg; [lia|]. apply Z.pow_nonneg; lia.
    + right. split; [lia|]. rewrite (unit_pow_split e f) by (unfold ebase; lia).
      assert (0 < unit_pow e) by (apply unit_pow_pos; unfold ebase; lia).
      assert (2 ^ 1 <= 2 ^ (f - e)) by (apply Z.pow_le_mono_r; lia).
      rewrite Z.mul_assoc. apply Z.mul_lt_mono_pos_r; [done|].
      apply Z.lt_le_trans with (2 ^ 52 * 2 ^ 1); [done|]. apply Z.mul_le_mono_nonneg_l; lia.
Qed.

Lemma rounded_value sx q f r :
  0 <= q -> -1074 <= f -> rounded sx q f r ->
  num r /\ exists w, fv r = sgn sx * w /\ 0 <= w /\
    (w = q * unit_pow f \/
     (w = finf_val /\ 2 ^ 53 * unit_pow 971 <= q * unit_pow f)).
Proof.
  intros Hq Hf [[-> ->]|[(m & e & -> & V & E)|[-> E]]].
  - split; [done|]. exists 0. rewrite Z.mul_0_r, Z.mul_0_l. auto with lia.
  - split; [done|]. exists (q * unit_pow f). rewrite <- E. split; [done|].
    pose proof (fv_mag_bound _ _ _ V). lia.
  - split; [done|]. exists finf_val. assert (0 < finf_val) by (apply Z.pow_pos_nonneg; lia).
    split; [destruct sx; unfold sgn; cbn [fv]; lia|]. split; [lia|by right].
Qed.

(** The magnitude [w] of a rounded mantissa [mx * 2^ex] (with [lx] recording a
    discarded fraction) against a non-negative float [z]. *)
Lemma binary_round_aux_bounds sx mx ex lx :
  0 <= mx -> ebase <= ex -> ex <= fexp64 (Zdigits2 mx + ex) ->
  let r := binary_round_aux prec emax sx mx ex lx in
  num r /\ exists w, fv r = sgn sx * w /\ 0 <= w /\
    (forall z, fin z -> 0 <= fv z ->
       mx * unit_pow ex < fv z \/ (lx = loc_Exact /\ mx * unit_pow ex <= fv z) -> w <= fv z) /\
    (forall z, fin z -> 0 <= fv z -> fv z < (mx + 1) * unit_pow ex -> fv z <= w).
Proof.
  intros Hm He Hf r.
  destruct (binary_round_aux_spec sx mx ex lx Hm Hf) as (q & Hq & Hqc & Hq0 & Hr).
  set (f := fexp64 (Zdigits2 mx + ex)) in *.
  assert (Hf1 : -1074 <= f) by (unfold f; rewrite fexp64_eq; lia).
  destruct (truncated_bounds mx ex Hm Hf) as [Ht Htc]. fold f in Ht, Htc.
  destruct (rounded_value sx q f _ Hq0 Hf1 Hr) as [Hn (w & Ew & Hw & Hwc)].
  fold r in Hn, Ew. split; [done|]. exists w. split; [done|]. split; [done|].
  assert (Hu : 0 < unit_pow ex) by (by apply unit_pow_pos).
  assert (Hp : 0 < 2 ^ (f - ex)) by (apply Z.pow_pos_nonneg; lia).
  assert (Huf : unit_pow f = 2 ^ (f - ex) * unit_pow ex) by (by apply unit_pow_split).
  pose proof (Z.div_mod mx (2 ^ (f - ex)) ltac:(lia)) as Hdm.
  pose proof (Z.mod_pos_bound mx (2 ^ (f - ex)) Hp) as Hmod.
  set (t := mx / 2 ^ (f - ex)) in *.
  assert (Hscale : forall a k, a * unit_pow ex <= k * unit_pow f <-> a <= k * 2 ^ (f - ex)).
  { intros a k. rewrite Huf, Z.mul_assoc. symmetry. apply Z.mul_le_mono_pos_r, Hu. }
  assert (Hscale' : forall a k, k * unit_pow f <= a * unit_pow ex <-> k * 2 ^ (f - ex) <= a).
  { intros a k. rewrite Huf, Z.mul_assoc. symmetry. apply Z.mul_le_mono_pos_r, Hu. }
  assert (Huf0 : 0 < unit_pow f) by (apply unit_pow_pos; unfold ebase; lia).
  set (P := 2 ^ (f - ex)) in *. set (U := unit_pow ex) in *. clearbody P U. split; intros z Fz Hz.
  - intros Hub. assert (Hfz := fin_value z Fz).
    assert (Hub' : mx * U <= fv z) by (destruct Hub as [?|[_ ?]]; lia).
    destruct (fin_grid z f Fz Hz Hf1) as [(k & Hk & Ek)|[Hgt Hlt]].
    + assert (Hmk : mx <= k * P) by (apply Hscale; lia).
      assert (Hqk : q <= k).
      { destruct Hq as [->|[-> Hi]]; [apply Z.div_le_upper_bound; lia|].
        cut (t < k); [lia|]. apply Z.div_lt_upper_bound; [lia|].
        cut (mx <> k * P); [lia|]. intros E. destruct Hub as [Hs|[Hl _]].
        - pose proof (proj2 (Hscale' mx k)). lia.
        - destruct Hi as [Hi|Hi]; [|by apply Hi]. apply Hi. rewrite E. apply Z.mod_mul. lia. }
      assert (q * unit_pow f <= fv z) by (rewrite Ek; apply Z.mul_le_mono_nonneg_r; lia).
      destruct Hwc as [->|[-> Hinf]]; [done|lia].
    + exfalso. destruct (Htc Hgt) as [Ht1 _].
      assert (2 ^ 52 * unit_pow f <= mx * U); [|lia]. apply Hscale'.
      rewrite Z.mul_comm. apply Z.le_trans with (P * t); [|lia].
      apply Z.mul_le_mono_nonneg_l; lia.
  - intros Hlb. destruct Hwc as [->|[-> _]].
    2:{ pose proof (fin_value z Fz). pose proof finf_val_big.
        change (2 ^ 3224) with (2 ^ 53 * unit_pow 971) in *. lia. }
    destruct (fin_grid z f Fz Hz Hf1) as [(k & Hk & Ek)|[Hgt Hlt]].
    + rewrite Ek in *.
      assert (Hkm : ~ mx + 1 <= k * P) by (intros Hn'; apply Hscale in Hn'; lia).
      assert (k <= t) by (apply Z.div_le_lower_bound; lia).
      apply Z.mul_le_mono_nonneg_r; [lia|]. destruct Hq as [->|[-> _]]; lia.
    + specialize (Hqc Hgt). apply Z.le_trans with (2 ^ 52 * unit_pow f); [lia|].
      apply Z.mul_le_mono_nonneg_r; lia.
Qed.

(** From magnitudes to signed values. *)
Lemma rounds_of_mag sx n d r w :
  0 < d -> num r -> fv r = sgn sx * w -> 0 <= w ->
  (forall z, fin z -> 0 <= fv z -> sgn sx * n <= fv z * d -> w <= fv z) ->
  (forall z, fin z -> 0 <= fv z -> fv z * d <= sgn sx * n -> fv z <= w) ->
  0 <= sgn sx * n ->
  rounds n d r.
Proof.
  intros Hd Hn Er Hw Hup Hlo Hs. split; [done|].
  assert (Hneg : forall z, fin z -> fin (fneg z) /\ fv (fneg z) = - fv z).
  { intros z [V F]. destruct z as [s|s| |s m e]; try discriminate F; [done|].
    split; [done|]. cbn [fneg SFopp fv]. destruct s; cbn [negb]; lia. }
  destruct sx; unfold sgn in *; split; intros z Fz Hz.
  - destruct (Z.le_gt_cases (fv z) 0).
    + destruct (Hneg z Fz) as [Fz' Ez]. specialize (Hlo _ Fz'). rewrite Ez in Hlo. nia.
    + nia.
  - destruct (Z.le_gt_cases (fv z) 0).
    + destruct (Hneg z Fz) as [Fz' Ez]. specialize (Hup _ Fz'). rewrite Ez in Hup. nia.
    + nia.
  - destruct (Z.le_gt_cases 0 (fv z)); [|nia]. specialize (Hup z Fz). nia.
  - destruct (Z.le_gt_cases 0 (fv z)); [|nia]. specialize (Hlo z Fz). nia.
Qed.

Lemma rounds_exact r : num r -> rounds (fv r) 1 r.
Proof. intros Hr. split; [done|]. split; intros; lia. Qed.

Lemma Pos_iter_xO m d : Zpos (Pos.iter xO m d) = Zpos m * 2 ^ Zpos d.
Proof.
  induction d as [|d IH] using Pos.peano_ind; [simpl; lia|].
  rewrite Pos.iter_succ, Pos2Z.inj_xO, IH, Pos2Z.inj_succ, Z.pow_succ_r by lia. lia.
Qed.

Lemma digits2_iter_xO m d :
  Zpos (digits2_pos (Pos.iter xO m d)) = Zpos (digits2_pos m) + Zpos d.
Proof.
  induction d as [|d IH] using Pos.peano_ind; [simpl; lia|].
  rewrite Pos.iter_succ. cbn [digits2_pos]. rewrite !Pos2Z.inj_succ, IH. lia.
Qed.

Lemma shl_align_spec m e e' :
  e' <= e -> Zpos (fst (shl_align m e e')) = Zpos m * 2 ^ (e - e').
Proof.
  intros H. unfold shl_align. destruct (e' - e) eqn:E; [|lia|].
  - replace (e - e') with 0 by lia. simpl. lia.
  - cbn [fst]. rewrite Pos_iter_xO. f_equal. f_equal. lia.
Qed.

Lemma binary_round_bounds sx m e :
  ebase <= e -> rounds (sgn sx * (Zpos m * unit_pow e)) 1 (binary_round prec emax sx m e).
Proof.
  intros He. unfold binary_round. fold (fexp64 (Zpos (digits2_pos m) + e)).
  assert (exists mz ez, shl_align m e (fexp64 (Zpos (digits2_pos m) + e)) = (mz, ez) /\
    Zpos mz * unit_pow ez = Zpos m * unit_pow e /\
    ebase <= ez <= fexp64 (Zdigits2 (Zpos mz) + ez)) as (mz & ez & -> & Ev & Hez).
  { unfold shl_align. destruct (fexp64 (Zpos (digits2_pos m) + e) - e) as [|d|d] eqn:E.
    - exists m, e. cbn [Zdigits2]. auto with lia.
    - exists m, e. cbn [Zdigits2]. auto with lia.
    - eexists _, _. split; [done|]. cbn [Zdigits2].
      rewrite digits2_iter_xO, Pos_iter_xO, !fexp64_eq. rewrite fexp64_eq in E. unfold ebase in *. split; [|lia].
      rewrite (unit_pow_split (Z.max (Zpos (digits2_pos m) + e - 53) (-1074)) e) by (unfold ebase; lia).
      rewrite Z.mul_assoc. do 3 f_equal. lia. }
  destruct (binary_round_aux_bounds sx (Zpos mz) ez loc_Exact) as [Hn (w & Ew & Hw & Hup & Hlo)];
    [lia|lia|lia|].
  assert (0 < unit_pow e) by (by apply unit_pow_pos).
  assert (0 < unit_pow ez) by (apply unit_pow_pos; lia).
  apply rounds_of_mag with sx w; [lia|done|done|done| | |].
  - intros z Fz Hz Hb. apply Hup; [done|done|]. right. split; [done|].
    rewrite Ev. unfold sgn in Hb. destruct sx; lia.
  - intros z Fz Hz Hb. apply Hlo; [done|done|].
    rewrite Z.mul_add_distr_r, Ev. unfold sgn in Hb. destruct sx; lia.
  - unfold sgn. destruct sx; lia.
Qed.

Lemma binary_normalize_bounds m e s :
  ebase <= e -> rounds (m * unit_pow e) 1 (binary_normalize prec emax m e s).
Proof.
  intros He. destruct m as [|m|m]; cbn [binary_normalize].
  - by apply rounds_exact.
  - pose proof (binary_round_bounds false m e He) as H. unfold sgn in H. by rewrite Z.mul_1_l in H.
  - pose proof (binary_round_bounds true m e He) as H. unfold sgn in H.
    replace (Z.neg m * unit_pow e) with (-1 * (Z.pos m * unit_pow e)) by lia. done.
Qed.

(** ** The operations *)

Lemma fsub_fadd x y : fsub x y = fadd x (fneg y).
Proof.
  destruct x as [[]|[]| |sx mx ex], y as [[]|[]| |sy my ey]; try reflexivity.
  unfold fsub, fadd, fneg, SFsub, SFadd, SFopp. f_equal.
  destruct sy; cbn [negb cond_Zopp]; lia.
Qed.

Lemma fneg_fin x : fin x -> fin (fneg x).
Proof. by intros [V F]; destruct x. Qed.

Lemma fneg_num x : num x -> num (fneg x).
Proof. by intros [V F]; destruct x. Qed.

Lemma fv_fneg x : fv (fneg x) = - fv x.
Proof. destruct x as [[]|[]| |[] m e]; cbn [fneg SFopp fv negb]; lia. Qed.

Lemma fin_inv z : fin z ->
  (exists s, z = S754_zero s) \/
  (exists s m e, z = S754_finite s m e /\ -1074 <= e <= 971 /\ Zpos m < 2 ^ 53 /\
     (e = -1074 \/ 2 ^ 52 <= Zpos m)).
Proof.
  intros [V F]. destruct z as [s|s| |s m e]; try discriminate F; [eauto|].
  right. exists s, m, e. split; [done|]. by apply valid_finite_bounds in V.
Qed.

Theorem fadd_rounds x y : fin x -> fin y -> rounds (fv x + fv y) 1 (fadd x y).
Proof.
  intros Fx Fy.
  destruct (fin_inv x Fx) as [(sx & ->)|(sx & mx & ex & -> & Hex & _)].
  { destruct (fin_inv y Fy) as [(sy & ->)|(sy & my & ey & -> & _)].
    - destruct sx, sy; by apply rounds_exact.
    - cbn [fv fadd SFadd]. rewrite Z.add_0_l. apply (rounds_exact (S754_finite sy my ey)).
      by apply fin_num. }
  destruct (fin_inv y Fy) as [(sy & ->)|(sy & my & ey & -> & Hey & _)].
  { cbn [fadd SFadd]. replace (fv (S754_zero sy)) with 0 by done. rewrite Z.add_0_r.
    apply (rounds_exact (S754_finite sx mx ex)). by apply fin_num. }
  unfold fadd, SFadd. cbv zeta.
  pose proof (binary_normalize_bounds
    (cond_Zopp sx (Zpos (fst (shl_align mx ex (Z.min ex ey)))) +
     cond_Zopp sy (Zpos (fst (shl_align my ey (Z.min ex ey))))) (Z.min ex ey) false) as H.
  rewrite !shl_align_spec in H by lia. rewrite !shl_align_spec by lia.
  replace (fv (S754_finite sx mx ex) + fv (S754_finite sy my ey)) with
    ((cond_Zopp sx (Z.pos mx * 2 ^ (ex - Z.min ex ey)) +
      cond_Zopp sy (Z.pos my * 2 ^ (ey - Z.min ex ey))) * unit_pow (Z.min ex ey)).
  { apply H. unfold ebase; lia. }
  cbn [fv]. rewrite (unit_pow_split (Z.min ex ey) ex), (unit_pow_split (Z.min ex ey) ey)
    by (unfold ebase; lia).
  destruct sx, sy; cbn [cond_Zopp]; lia.
Qed.

Theorem fsub_rounds x y : fin x -> fin y -> rounds (fv x - fv y) 1 (fsub x y).
Proof.
  intros Fx Fy. rewrite fsub_fadd. pose proof (fadd_rounds x (fneg y) Fx (fneg_fin y Fy)) as H.
  by rewrite fv_fneg in H.
Qed.

Lemma fexp64_mono a b : a <= b -> fexp64 a <= fexp64 b.
Proof. rewrite !fexp64_eq. lia. Qed.

(** The exact product of two finite floats as a mantissa and an exponent. *)
Lemma fmul_core sx mx ex sy my ey :
  fin (S754_finite sx mx ex) -> fin (S754_finite sy my ey) ->
  ebase <= ex + ey <= fexp64 (Zdigits2 (Zpos (mx * my)) + (ex + ey)) /\
  sgn (xorb sx sy) * (fv (S754_finite sx mx ex) * fv (S754_finite sy my ey)) =
    Zpos (mx * my) * unit_pow (ex + ey) * unit_pow 0.
Proof.
  intros [Vx _] [Vy _]. apply valid_finite_bounds in Vx as (Hex & Hmx & Hcx).
  apply valid_finite_bounds in Vy as (Hey & Hmy & Hcy).
  assert (HM : Zpos (mx * my) = Zpos mx * Zpos my) by done.
  split; [split; [unfold ebase; lia|]|].
  - rewrite fexp64_eq. assert (Hd : (ex = -1074 /\ ey = -1074) \/ 2 ^ 52 <= Zpos (mx * my)) by nia.
    destruct Hd as [?|Hd]; [lia|]. apply digits2_pos_ge in Hd. cbn [Zdigits2]. lia.
  - assert (Hu : unit_pow ex * unit_pow ey = unit_pow (ex + ey) * unit_pow 0).
    { unfold unit_pow, ebase. rewrite <- !Z.pow_add_r by lia. f_equal. lia. }
    transitivity (Zpos (mx * my) * (unit_pow ex * unit_pow ey)); [|rewrite Hu; lia].
    rewrite HM. cbn [fv]. destruct sx, sy; cbn [xorb sgn]; lia.
Qed.

Theorem fmul_rounds x y : fin x -> fin y -> rounds (fv x * fv y) (unit_pow 0) (fmul x y).
Proof.
  intros Fx Fy. assert (H0 : 0 < unit_pow 0) by (apply unit_pow_pos; unfold ebase; lia).
  destruct (fin_inv x Fx) as [(sx & ->)|(sx & mx & ex & -> & _)];
    destruct (fin_inv y Fy) as [(sy & ->)|(sy & my & ey & -> & _)].
  1-3: (split; [done|]; split; intros z _; cbn [fv fmul SFmul]; nia).
  destruct (fmul_core _ _ _ _ _ _ Fx Fy) as [[He Hpre] Habs].
  destruct (binary_round_aux_bounds (xorb sx sy) (Zpos (mx * my)) (ex + ey) loc_Exact)
    as [Hn (w & Ew & Hw & Hup & Hlo)]; [lia|done|done|].
  assert (0 < unit_pow (ex + ey)) by (by apply unit_pow_pos).
  unfold fmul, SFmul.
  apply rounds_of_mag with (xorb sx sy) w; [done|done|done|done| | |]; rewrite Habs.
  - intros z Fz Hz Hb. apply Hup; [done|done|]. right. split; [done|].
    by apply Z.mul_le_mono_pos_r in Hb.
  - intros z Fz Hz Hb. apply Hlo; [done|done|]. apply Z.mul_le_mono_pos_r in Hb; lia.
  - apply Z.mul_nonneg_nonneg; [|lia]. apply Z.mul_nonneg_nonneg; lia.
Qed.

Lemma new_location_exact d r : new_location d r = loc_Exact <-> r = 0.
Proof.
  unfold new_location, new_location_even, new_location_odd.
  destruct (Z.even d); destruct (Z.eqb_spec r 0) as [->|Hne]; done.
Qed.

Lemma div_core_spec mx ex my ey :
  -1074 <= ex <= 971 -> -1074 <= ey <= 971 ->
  exists q e r, SFdiv_core_binary prec emax (Zpos mx) ex (Zpos my) ey = (q, e, new_location (Zpos my) r) /\
    0 <= q /\ 0 <= r < Zpos my /\ ebase <= e <= fexp64 (Zdigits2 q + e) /\
    Zpos mx * (unit_pow ex * unit_pow 0) = (q * Zpos my + r) * (unit_pow e * unit_pow ey).
Proof.
  intros Hex Hey. unfold SFdiv_core_binary. cbv zeta. cbn [Zdigits2].
  fold (fexp64 (Zpos (digits2_pos mx) + ex - (Zpos (digits2_pos my) + ey))).
  pose proof (digits2_pos_spec mx) as [Hlx _]. pose proof (digits2_pos_spec my) as [_ Hhy].
  set (d1 := Zpos (digits2_pos mx)) in *. set (d2 := Zpos (digits2_pos my)) in *.
  set (e := Z.min (fexp64 (d1 + ex - (d2 + ey))) (ex - ey)).
  assert (He : e <= fexp64 (d1 + ex - (d2 + ey)) /\ e <= ex - ey /\ ebase <= e).
  { unfold e. rewrite fexp64_eq. unfold ebase. lia. }
  assert (1 <= d1 /\ 1 <= d2) as [Hd1 Hd2] by (unfold d1, d2; lia). clearbody e d1 d2.
  set (s := ex - ey - e). assert (Hs : 0 <= s) by lia.
  assert (Em : match s with Z.pos _ => Z.pos mx ≪ s | 0 => Z.pos mx | Z.neg _ => 0 end = Zpos mx * 2 ^ s).
  { destruct s eqn:E; [lia| |lia]. rewrite Z.shiftl_mul_pow2 by lia. done. }
  rewrite Em. clear Em.
  pose proof (Z_div_mod_full (Zpos mx * 2 ^ s) (Zpos my) ltac:(lia)) as Hdiv.
  destruct (Z.div_eucl (Zpos mx * 2 ^ s) (Zpos my)) as [q r]. destruct Hdiv as [Eq Hr].
  unfold Remainder in Hr. assert (Hr' : 0 <= r < Zpos my) by lia. clear Hr.
  assert (0 < 2 ^ s) by (apply Z.pow_pos_nonneg; lia).
  assert (Hq : 0 <= q) by nia.
  exists q, e, r. split; [done|]. split; [done|]. split; [done|]. split; [split; [lia|]|].
  - (* the quotient keeps enough digits *)
    destruct (Z.le_gt_cases (d1 + s) d2) as [Hsmall|Hbig].
    { rewrite fexp64_eq in He |- *. unfold s in *. lia. }
    assert (Hql : 2 ^ (d1 + s - 1 - d2) <= q).
    { cut (2 ^ (d1 + s - 1 - d2) * 2 ^ d2 < (q + 1) * 2 ^ d2).
      { intros Hc. apply Z.mul_lt_mono_pos_r in Hc; [lia|]. apply Z.pow_pos_nonneg; lia. }
      rewrite <- Z.pow_add_r by lia.
      replace (d1 + s - 1 - d2 + d2) with ((d1 - 1) + s) by lia. rewrite Z.pow_add_r by lia.
      apply Z.le_lt_trans with (Zpos mx * 2 ^ s); [apply Z.mul_le_mono_nonneg_r; lia|].
      rewrite Eq. apply Z.lt_le_trans with ((q + 1) * Zpos my); [lia|].
      apply Z.mul_le_mono_nonneg_l; lia. }
    assert (Hdq : d1 + s - 1 - d2 < Zdigits2 q).
    { destruct q as [|q|q]; [|by apply digits2_pos_ge|lia].
      assert (0 < 2 ^ (d1 + s - 1 - d2)) by (apply Z.pow_pos_nonneg; lia). lia. }
    apply Z.le_trans with (fexp64 (d1 + ex - (d2 + ey))); [lia|]. apply fexp64_mono. lia.
  - transitivity (Zpos mx * 2 ^ s * (unit_pow e * unit_pow ey)); [|rewrite Eq; lia].
    rewrite <- Z.mul_assoc. f_equal. unfold unit_pow, ebase in *.
    rewrite <- !Z.pow_add_r by lia. f_equal. lia.
Qed.

(** Division of a finite float by a positive finite float. *)
Theorem fdiv_rounds x y :
  fin x -> fin y -> 0 < fv y ->
  fdiv x y = Ok (fdiv_ieee x y) /\ rounds (fv x * unit_pow 0) (fv y) (fdiv_ieee x y).
Proof.
  intros Fx Fy Hy. split.
  { unfold fdiv. rewrite feq_fv by (done || by apply fin_num).
    cbn [fv fzero]. by rewrite (proj2 (Z.eqb_neq _ _)) by lia. }
  assert (H0 : 0 < unit_pow 0) by (apply unit_pow_pos; unfold ebase; lia).
  destruct (fin_inv y Fy) as [(sy & ->)|(sy & my & ey & -> & Hey & _)]; [by cbn in Hy|].
  assert (0 < unit_pow ey) by (apply unit_pow_pos; unfold ebase; lia).
  destruct sy; [cbn [fv] in Hy; lia|].
  destruct (fin_inv x Fx) as [(sx & ->)|(sx & mx & ex & -> & Hex & _)].
  { split; [done|]. split; intros z _; cbn [fdiv_ieee SFdiv]; set (D := fv (S754_finite false my ey)) in *;
      cbn [fv]; nia. }
  unfold fdiv_ieee, SFdiv.
  destruct (div_core_spec mx ex my ey Hex Hey) as (q & e & r & -> & Hq & Hr & He & Ev).
  rewrite xorb_false_r.
  destruct (binary_round_aux_bounds sx q e (new_location (Zpos my) r))
    as [Hn (w & Ew & Hw & Hup & Hlo)]; [done|lia|lia|].
  assert (Hue : 0 < unit_pow e) by (apply unit_pow_pos; lia).
  assert (Habs : sgn sx * (fv (S754_finite sx mx ex) * unit_pow 0) =
                 (q * Zpos my + r) * unit_pow e * unit_pow ey).
  { transitivity (Zpos mx * (unit_pow ex * unit_pow 0)); [|rewrite Ev; lia].
    cbn [fv]. destruct sx; cbn [sgn]; lia. }
  assert (Ey : fv (S754_finite false my ey) = Zpos my * unit_pow ey) by (cbn [fv]; lia).
  apply rounds_of_mag with sx w; [done|done|done|done| | |]; rewrite Habs; rewrite ?Ey.
  - intros z Fz Hz Hb. apply Hup; [done|done|].
    rewrite Z.mul_assoc in Hb. apply Z.mul_le_mono_pos_r in Hb; [|done].
    rewrite new_location_exact. nia.
  - intros z Fz Hz Hb. apply Hlo; [done|done|].
    rewrite Z.mul_assoc in Hb. apply Z.mul_le_mono_pos_r in Hb; [|done]. nia.
  - apply Z.mul_nonneg_nonneg; [|lia]. apply Z.mul_nonneg_nonneg; lia.
Qed.

(** ** Consequences used by the price computations *)

Lemma rounds_num n d r : rounds n d r -> num r.
Proof. by intros [? _]. Qed.

Lemma num_finite_of_bounds r z1 z2 :
  num r -> fin z1 -> fin z2 -> fv z1 <= fv r <= fv z2 -> fin r.
Proof.
  intros [V N] F1 F2 [H1 H2]. split; [done|].
  destruct r as [s|s| |s m e]; try discriminate N; try done. exfalso.
  pose proof (fin_value z1 F1). pose proof (fin_value z2 F2). pose proof finf_val_big.
  change (2 ^ 3224) with (2 ^ 53 * unit_pow 971) in *. destruct s; cbn [fv] in *; lia.
Qed.

Lemma fin_fzero : fin fzero.
Proof. done. Qed.
Lemma fv_fzero : fv fzero = 0.
Proof. done. Qed.
Lemma fin_fone : fin fone.
Proof. done. Qed.
Lemma fv_fone : fv fone = unit_pow 0.
Proof. reflexivity. Qed.

Lemma fadd_ge_l x b : fin x -> fin b -> 0 <= fv b -> fv x <= fv (fadd x b).
Proof. intros Fx Fb Hb. apply (fadd_rounds x b Fx Fb); [done|]. lia. Qed.

Lemma fsub_le_l x b : fin x -> fin b -> 0 <= fv b -> fv (fsub x b) <= fv x.
Proof. intros Fx Fb Hb. apply (fsub_rounds x b Fx Fb); [done|]. lia. Qed.

Lemma fsub_nonneg x y : fin x -> fin y -> fv y <= fv x -> 0 <= fv (fsub x y).
Proof.
  intros Fx Fy H. rewrite <- fv_fzero. apply (fsub_rounds x y Fx Fy); [done|].
  rewrite fv_fzero. lia.
Qed.

(** The difference of two distinct floats never underflows to zero. *)
Lemma fin_multiple x : fin x -> exists k, fv x = k * unit_pow (-1074).
Proof.
  intros Fx. destruct (fin_inv x Fx) as [(s & ->)|(s & m & e & -> & He & _)].
  - by exists 0.
  - exists (sgn s * (Zpos m * 2 ^ (e - -1074))). cbn [fv].
    rewrite (unit_pow_split (-1074) e) by (unfold ebase; lia). unfold sgn. lia.
Qed.

Lemma fsub_pos x y : fin x -> fin y -> fv y < fv x -> 0 < fv (fsub x y).
Proof.
  intros Fx Fy H. set (tiny := S754_finite false 1 (-1074)).
  assert (fin tiny) by done. assert (fv tiny = unit_pow (-1074)) by done.
  assert (0 < unit_pow (-1074)) by done.
  apply Z.lt_le_trans with (fv tiny); [lia|].
  apply (fsub_rounds x y Fx Fy); [done|].
  destruct (fin_multiple x Fx) as [k Ek], (fin_multiple y Fy) as [j Ej].
  rewrite Ek, Ej in *. assert (j < k); [|nia]. apply (Z.mul_lt_mono_pos_r (unit_pow (-1074))); done.
Qed.

Lemma fsub_upper x y z : fin x -> fin y -> fin z -> fv x - fv y <= fv z -> fv (fsub x y) <= fv z.
Proof. intros Fx Fy Fz H. apply (fsub_rounds x y Fx Fy); [done|]. lia. Qed.

Lemma fsub_fin x y :
  fin x -> fin y -> 0 <= fv y -> fv y <= fv x -> fin (fsub x y).
Proof.
  intros Fx Fy H0 H. apply num_finite_of_bounds with fzero x; [|done|done|].
  - by eapply rounds_num, fsub_rounds.
  - rewrite fv_fzero. split; [by apply fsub_nonneg|]. by apply fsub_le_l.
Qed.

Lemma fabs_num x : num x -> num (fabs x).
Proof. by intros [V N]; destruct x. Qed.
Lemma fabs_fin x : fin x -> fin (fabs x).
Proof. by intros [V N]; destruct x. Qed.

Lemma fv_fabs x : num x -> fv (fabs x) = Z.abs (fv x).
Proof.
  intros [V N]. assert (0 < finf_val) by (apply Z.pow_pos_nonneg; lia).
  destruct x as [s|s| |s m e]; cbn [fabs SFabs fv]; [done|destruct s; lia|done|].
  pose proof (fv_mag_bound _ _ _ V). destruct s; lia.
Qed.

Lemma fabs_binary_round m e s s' :
  fabs (binary_round prec emax s m e) = fabs (binary_round prec emax s' m e).
Proof.
  unfold binary_round, binary_round_aux. repeat case_match; reflexivity.
Qed.

(** [abs(a - b)] does not depend on the order of its operands. *)
Lemma fabs_fsub_comm x y : fabs (fsub x y) = fabs (fsub y x).
Proof.
  destruct x as [[]|[]| |sx mx ex], y as [[]|[]| |sy my ey]; try reflexivity.
  unfold fsub, SFsub. cbv zeta. rewrite (Z.min_comm ey ex).
  set (a := cond_Zopp sx _). set (b := cond_Zopp sy _).
  replace (b - a) with (- (a - b)) by lia.
  destruct (a - b); cbn [Z.opp binary_normalize]; [done|apply fabs_binary_round..].
Qed.

Lemma fsub_num x y : fin x -> fin y -> num (fsub x y).
Proof. intros. by eapply rounds_num, fsub_rounds. Qed.
Lemma fadd_num x y : fin x -> fin y -> num (fadd x y).
Proof. intros. by eapply rounds_num, fadd_rounds. Qed.
Lemma fmul_num x y : fin x -> fin y -> num (fmul x y).
Proof. intros. by eapply rounds_num, fmul_rounds. Qed.

Lemma fmul_nonneg x y : fin x -> fin y -> 0 <= fv x -> 0 <= fv y -> 0 <= fv (fmul x y).
Proof.
  intros Fx Fy Hx Hy. rewrite <- fv_fzero. apply (fmul_rounds x y Fx Fy); [done|].
  rewrite fv_fzero. lia.
Qed.

(** Scaling down by a factor in [0, 1]. *)
Lemma fmul_le_r x y : fin x -> fin y -> 0 <= fv y -> fv x <= unit_pow 0 -> fv (fmul x y) <= fv y.
Proof. intros Fx Fy Hy Hx. apply (fmul_rounds x y Fx Fy); [done|]. nia. Qed.

Lemma fdiv_nonneg x y : fin x -> fin y -> 0 <= fv x -> 0 < fv y -> 0 <= fv (fdiv_ieee x y).
Proof.
  intros Fx Fy Hx Hy. rewrite <- fv_fzero. apply (fdiv_rounds x y Fx Fy Hy); [done|].
  rewrite fv_fzero. assert (0 < unit_pow 0) by done. nia.
Qed.

Lemma fdiv_le_one x y : fin x -> fin y -> fv x <= fv y -> 0 < fv y -> fv (fdiv_ieee x y) <= unit_pow 0.
Proof.
  intros Fx Fy Hx Hy. rewrite <- fv_fone. apply (fdiv_rounds x y Fx Fy Hy); [done|].
  rewrite fv_fone. assert (0 < unit_pow 0) by done. nia.
Qed.

Lemma fdiv_num x y : fin x -> fin y -> 0 < fv y -> num (fdiv_ieee x y).
Proof. intros Fx Fy Hy. by eapply rounds_num, fdiv_rounds. Qed.

(** The ratio of a part to a positive whole, in [0, 1]. *)
Lemma fdiv_ratio x y :
  fin x -> fin y -> 0 <= fv x <= fv y -> 0 < fv y ->
  fin (fdiv_ieee x y) /\ 0 <= fv (fdiv_ieee x y) <= unit_pow 0.
Proof.
  intros Fx Fy [H0 H1] Hy.
  assert (0 <= fv (fdiv_ieee x y) <= unit_pow 0) as Hb.
  { split; [by apply fdiv_nonneg|by apply fdiv_le_one]. }
  split; [|done]. apply num_finite_of_bounds with fzero fone; [by apply fdiv_num|done|done|].
  by rewrite fv_fzero, fv_fone.
Qed.

Lemma fmax_num x y : num x -> num y -> num (fmax x y) /\ fv (fmax x y) = Z.max (fv x) (fv y).
Proof.
  intros. unfold fmax. rewrite flt_fv by done.
  destruct (fv x <? fv y) eqn:E; zbool; split; auto; lia.
Qed.
Lemma fmin_num x y : num x -> num y -> num (fmin x y) /\ fv (fmin x y) = Z.min (fv x) (fv y).
Proof.
  intros. unfold fmin. rewrite flt_fv by done.
  destruct (fv y <? fv x) eqn:E; zbool; split; auto; lia.
Qed.
Lemma fmax_fin x y : fin x -> fin y -> fin (fmax x y).
Proof. unfold fmax. by destruct (flt x y). Qed.
Lemma fmin_fin x y : fin x -> fin y -> fin (fmin x y).
Proof. unfold fmin. by destruct (flt y x). Qed.

(** [max]/[min] of a list of numbers: an element, and a bound. *)
Lemma fmax_list_spec l m :
  Forall num l -> fmax_list l = Ok m -> In m l /\ forall x, In x l -> fv x <= fv m.
Proof.
  intros Hn H. split; [by eapply py_max_In|]. intros x Hx.
  destruct l as [|b l]; [done|]. injection H as <-. rewrite List.Forall_forall in Hn.
  apply (py_max_from_ub (fun x y => flt y x) fv); [|done].
  intros u v Hu Hv. apply flt_fv; auto.
Qed.

Lemma fmin_list_spec l m :
  Forall num l -> fmin_list l = Ok m -> In m l /\ forall x, In x l -> fv m <= fv x.
Proof.
  intros Hn H. split; [by eapply py_max_In|]. intros x Hx.
  destruct l as [|b l]; [done|]. injection H as <-. rewrite List.Forall_forall in Hn.
  cut (- fv x <= - fv (py_max_from (fun x y => flt x y) b l)); [lia|].
  apply (py_max_from_ub (fun x y => flt x y) (fun x => - fv x)); [|done].
  intros u v Hu Hv. rewrite flt_fv by auto.
  destruct (Z.ltb_spec (fv u) (fv v)), (Z.ltb_spec (- fv v) (- fv u)); lia || done.
Qed.

#[export] Hint Resolve fin_num fneg_fin fabs_num fabs_fin fsub_num fadd_num fmul_num fdiv_num
  fsub_nonneg fmul_nonneg fdiv_nonneg fsub_fin fmax_fin fmin_fin fin_fzero fin_fone : etradie.

(** Rewrite float comparisons of numbers into integer ones. *)
Ltac fcmp :=
  repeat match goal with
  | H : flt ?x ?y = _ |- _ => rewrite (flt_fv x y) in H by auto with etradie
  | H : fle ?x ?y = _ |- _ => rewrite (fle_fv x y) in H by auto with etradie
  | H : feq ?x ?y = _ |- _ => rewrite (feq_fv x y) in H by auto with etradie
  end; zbool.
