(* ===== verification/FloatMono.v ===== *)
(** * FloatMono: rounding is monotone

    Round-to-nearest-even of an exact value depends only on that value and is
    monotone in it, so addition, subtraction and multiplication preserve the
    order of the exact results. *)

From Stdlib Require Import ZArith Lia Bool SpecFloat.
From stdpp Require Import base list.
From S2P Require Import Prelude PyFloat FloatRound.

(** ** The nearest-even integer quotient *)

(** Where [rem] of [tot] lies with respect to the half. *)
Definition loc_of_rem (rem tot : Z) : location :=
  if rem =? 0 then loc_Exact else loc_Inexact (2 * rem ?= tot).

Definition rne (v u : Z) : Z := round_nearest_even (v / u) (loc_of_rem (v mod u) u).

Lemma rne_cases v u : rne v u = v / u \/ rne v u = v / u + 1.
Proof.
  unfold rne, loc_of_rem. destruct (v mod u =? 0); [by left|].
  destruct (2 * (v mod u) ?= u); cbn; [destruct (Z.even (v / u))|..]; auto.
Qed.

Lemma rne_mono v v' u : 0 < u -> v <= v' -> rne v u <= rne v' u.
Proof.
  intros Hu Hv. pose proof (Z.div_le_mono v v' u Hu Hv) as Hd.
  destruct (Z.eq_dec (v / u) (v' / u)) as [E|Hne].
  2:{ destruct (rne_cases v u) as [->| ->], (rne_cases v' u) as [->| ->]; lia. }
  pose proof (Z.div_mod v u ltac:(lia)). pose proof (Z.div_mod v' u ltac:(lia)).
  pose proof (Z.mod_pos_bound v u Hu). pose proof (Z.mod_pos_bound v' u Hu).
  assert (Hm : v mod u <= v' mod u) by (rewrite E in *; lia).
  unfold rne, loc_of_rem. rewrite <- E.
  destruct (v mod u =? 0) eqn:E0, (v' mod u =? 0) eqn:E1; zbool; cbn [round_nearest_even]; [lia| |lia|].
  - destruct (Z.compare_spec (2 * (v' mod u)) u); cbn [round_nearest_even];
      [destruct (Z.even (v / u))|..]; lia.
  - destruct (Z.compare_spec (2 * (v mod u)) u), (Z.compare_spec (2 * (v' mod u)) u);
      cbn [round_nearest_even]; try destruct (Z.even (v / u)); lia.
Qed.

(** ** Exact shifts record the remainder *)

Lemma shr_exact m e n :
  0 <= m -> 0 <= n ->
  exists rec, shr (shr_record_of_loc m loc_Exact) e n = (rec, e + n) /\
    shr_m rec = m / 2 ^ n /\ loc_of_shr_record rec = loc_of_rem (m mod 2 ^ n) (2 ^ n).
Proof.
  intros Hm Hn. destruct n as [|p|p]; [| |lia].
  { eexists. cbn [shr]. rewrite Z.add_0_r, Z.pow_0_r, Z.div_1_r, Z.mod_1_r. done. }
  eexists. cbn [shr]. split; [done|]. cbn [shr_record_of_loc].
  cut (0 <= shr_m (SpecFloat.iter_pos shr_1 p (Build_shr_record m false false)) /\
    shr_m (SpecFloat.iter_pos shr_1 p (Build_shr_record m false false)) = m / 2 ^ (0 + Zpos p) /\
    loc_of_shr_record (SpecFloat.iter_pos shr_1 p (Build_shr_record m false false)) =
      loc_of_rem (m mod 2 ^ (0 + Zpos p)) (2 ^ (0 + Zpos p))); [rewrite Z.add_0_l; tauto|].
  apply (iter_pos_ind shr_1 (fun n rec => 0 <= shr_m rec /\ shr_m rec = m / 2 ^ n /\
    loc_of_shr_record rec = loc_of_rem (m mod 2 ^ n) (2 ^ n))); [|lia|].
  - intros n [q r s] Hn' (H0 & Hq & Hl). cbn [shr_m] in H0, Hq.
    destruct (shr_1_spec q r s H0) as [E1 _]. rewrite E1.
    assert (0 < 2 ^ n) by (apply Z.pow_pos_nonneg; lia).
    split; [apply Z.div_pos; lia|].
    rewrite Z.pow_add_r by lia. change (2 ^ 1) with 2.
    split; [rewrite Hq, Z.div_div by lia; done|].
    rewrite Z.rem_mul_r by lia. rewrite <- Hq.
    pose proof (Z.mod_pos_bound m (2 ^ n)) as Hb. set (rem := m mod 2 ^ n) in *.
    set (T := 2 ^ n) in *. clearbody rem T.
    assert (Hrs : r || s = negb (rem =? 0)).
    { unfold loc_of_rem in Hl. by destruct (rem =? 0), r, s. }
    assert (Hsh : loc_of_shr_record (shr_1 (Build_shr_record q r s)) =
      match q mod 2 =? 0, rem =? 0 with
      | true, true => loc_Exact | true, false => loc_Inexact Lt
      | false, true => loc_Inexact Eq | false, false => loc_Inexact Gt end).
    { assert (Hodd : q mod 2 = if Z.odd q then 1 else 0) by apply Zmod_odd.
      rewrite Hodd. destruct q as [|[q|q|]|q]; try lia; cbn [shr_1 Z.odd]; rewrite Hrs;
        by destruct (rem =? 0). }
    rewrite Hsh. unfold loc_of_rem. pose proof (Z.mod_pos_bound q 2).
    assert (q mod 2 = 0 \/ q mod 2 = 1) as [Eq|Eq] by lia; rewrite Eq; cbn [Z.eqb].
    + rewrite Z.mul_0_r, Z.add_0_r. destruct (Z.eqb_spec rem 0); [done|]. f_equal. symmetry.
      apply Z.compare_lt_iff. lia.
    + rewrite Z.mul_1_r. rewrite (proj2 (Z.eqb_neq (rem + T) 0)) by lia.
      destruct (Z.eqb_spec rem 0); f_equal; symmetry;
        [apply Z.compare_eq_iff|apply Z.compare_gt_iff]; lia.
  - cbn [shr_m]. rewrite Z.pow_0_r, Z.div_1_r, Z.mod_1_r. done.
Qed.

(** ** The rounded magnitude of an exact value *)

Lemma binary_round_aux_exact sx mx ex :
  let f := fexp64 (Zdigits2 mx + ex) in
  0 <= mx -> ebase <= ex -> ex <= f ->
  let q := rne (mx * unit_pow ex) (unit_pow f) in
  0 <= q /\ (-1074 < f -> 2 ^ 52 <= q) /\ q <= 2 ^ 53 /\
  rounded sx q f (binary_round_aux prec emax sx mx ex loc_Exact).
Proof.
  intros f Hm He Hf q. destruct (truncated_bounds mx ex Hm Hf) as [Ht Htc]. fold f in Ht, Htc.
  assert (Hf1 : -1074 <= f) by (unfold f; rewrite fexp64_eq; lia).
  assert (Hu : 0 < unit_pow ex) by (by apply unit_pow_pos).
  assert (Hp : 0 < 2 ^ (f - ex)) by (apply Z.pow_pos_nonneg; lia).
  assert (Huf : unit_pow f = 2 ^ (f - ex) * unit_pow ex) by (by apply unit_pow_split).
  assert (Eq : q = round_nearest_even (mx / 2 ^ (f - ex)) (loc_of_rem (mx mod 2 ^ (f - ex)) (2 ^ (f - ex)))).
  { unfold q, rne. rewrite Huf, Z.div_mul_cancel_r by lia. rewrite Z.mul_mod_distr_r by lia.
    f_equal. unfold loc_of_rem.
    destruct (Z.eqb_spec (mx mod 2 ^ (f - ex)) 0) as [->|Hne]; [done|].
    rewrite (proj2 (Z.eqb_neq _ 0)) by nia. f_equal.
    rewrite Z.mul_assoc. symmetry. apply Zmult_compare_compat_r. lia. }
  assert (Hq : mx / 2 ^ (f - ex) <= q <= mx / 2 ^ (f - ex) + 1).
  { rewrite Eq. pose proof (rne_cases mx (2 ^ (f - ex))) as Hc. unfold rne in Hc. lia. }
  split; [lia|]. split; [intros Hg; specialize (Htc Hg); lia|]. split; [lia|].
  unfold binary_round_aux, shr_fexp at 1. fold (fexp64 (Zdigits2 mx + ex)). fold f.
  destruct (shr_exact mx ex (f - ex)) as (rec & -> & Er & El); [done|lia|].
  replace (ex + (f - ex)) with f by lia. rewrite Er, El, <- Eq.
  fold (renorm sx q f). apply renorm_spec; [lia|done|]. intros Hg. specialize (Htc Hg). lia.
Qed.

(** The magnitude as a function of the exact value. *)
Definition sat (w : Z) : Z := if w <? 2 ^ 53 * unit_pow 971 then w else finf_val.

Lemma sat_mono w w' : w <= w' -> sat w <= sat w'.
Proof.
  intros H. unfold sat. pose proof finf_val_big as Hb. change (2 ^ 3224) with (2 ^ 53 * unit_pow 971) in Hb.
  destruct (w <? _) eqn:E, (w' <? _) eqn:E'; zbool; lia.
Qed.

Lemma rounded_sat sx q f r :
  0 <= q -> -1074 <= f -> rounded sx q f r -> fv r = sgn sx * sat (q * unit_pow f).
Proof.
  intros Hq Hf [[-> ->]|[(m & e & -> & V & E)|[-> E]]]; unfold sat.
  - rewrite Z.mul_0_l. rewrite (proj2 (Z.ltb_lt _ _)) by done. by rewrite Z.mul_0_r.
  - rewrite <- E. pose proof (fv_mag_bound _ _ _ V) as B. change (2 ^ 3224) with (2 ^ 53 * unit_pow 971) in B.
    rewrite (proj2 (Z.ltb_lt _ _)) by lia. done.
  - rewrite (proj2 (Z.ltb_ge _ _)) by lia. unfold sgn. cbn [fv]. destruct sx; lia.
Qed.

Lemma round_mag_mono m1 e1 m2 e2 s1 s2 :
  let f1 := fexp64 (Zdigits2 m1 + e1) in let f2 := fexp64 (Zdigits2 m2 + e2) in
  0 < m1 -> 0 < m2 -> ebase <= e1 <= f1 -> ebase <= e2 <= f2 ->
  m1 * unit_pow e1 <= m2 * unit_pow e2 ->
  exists w1 w2, w1 <= w2 /\
    fv (binary_round_aux prec emax s1 m1 e1 loc_Exact) = sgn s1 * w1 /\
    fv (binary_round_aux prec emax s2 m2 e2 loc_Exact) = sgn s2 * w2.
Proof.
  intros f1 f2 H1 H2 He1 He2 HV.
  destruct (binary_round_aux_exact s1 m1 e1) as (Hq1 & _ & Hu1 & R1); [lia..|].
  destruct (binary_round_aux_exact s2 m2 e2) as (Hq2 & Hc2 & _ & R2); [lia..|].
  fold f1 in Hq1, Hu1, R1. fold f2 in Hq2, Hc2, R2.
  assert (Hf1 : -1074 <= f1) by (unfold f1; rewrite fexp64_eq; lia).
  assert (Hf2 : -1074 <= f2) by (unfold f2; rewrite fexp64_eq; lia).
  do 2 eexists. split; [|split; [exact (rounded_sat _ _ _ _ Hq1 Hf1 R1)|exact (rounded_sat _ _ _ _ Hq2 Hf2 R2)]].
  apply sat_mono.
  assert (Hff : f1 <= f2).
  { apply fexp64_mono. destruct (Z.le_gt_cases (Zdigits2 m1 + e1) (Zdigits2 m2 + e2)) as [|Hgt]; [done|].
    exfalso. pose proof (Zdigits2_bounds m1 H1) as [Hlo _]. pose proof (Zdigits2_bounds m2 H2) as [_ Hhi].
    pose proof (Zdigits2_nonneg m2).
    assert (0 < Zdigits2 m1) by (destruct m1; simpl; lia).
    assert (Ha : 2 ^ (Zdigits2 m1 - 1) * unit_pow e1 <= m1 * unit_pow e1)
      by (apply Z.mul_le_mono_nonneg_r; [apply Z.pow_nonneg; lia|done]).
    assert (Hb : m2 * unit_pow e2 < 2 ^ Zdigits2 m2 * unit_pow e2)
      by (apply Z.mul_lt_mono_pos_r; [apply unit_pow_pos; lia|done]).
    unfold unit_pow in Ha, Hb, HV. rewrite <- Z.pow_add_r in Ha, Hb by lia.
    assert (2 ^ (Zdigits2 m2 + (e2 - ebase)) <= 2 ^ (Zdigits2 m1 - 1 + (e1 - ebase)))
      by (apply Z.pow_le_mono_r; lia).
    lia. }
  destruct (Z.eq_dec f1 f2) as [E|Hne].
  - rewrite <- E. apply Z.mul_le_mono_nonneg_r; [apply Z.pow_nonneg; lia|].
    apply rne_mono; [apply unit_pow_pos; unfold ebase; lia|done].
  - apply Z.le_trans with (2 ^ 53 * unit_pow f1).
    { apply Z.mul_le_mono_nonneg_r; [apply Z.pow_nonneg; lia|done]. }
    apply Z.le_trans with (2 ^ 52 * unit_pow f2).
    { rewrite (unit_pow_split f1 f2) by (unfold ebase; lia). rewrite Z.mul_assoc.
      apply Z.mul_le_mono_nonneg_r; [apply Z.pow_nonneg; lia|].
      change (2 ^ 53) with (2 ^ 52 * 2 ^ 1). apply Z.mul_le_mono_nonneg_l; [lia|].
      apply Z.pow_le_mono_r; lia. }
    apply Z.mul_le_mono_nonneg_r; [apply Z.pow_nonneg; lia|]. apply Hc2. lia.
Qed.

(** ** Exact operations

    Addition, subtraction and multiplication of finite floats are the rounding
    of an exact value: either the result is that value, or it is a mantissa
    handed to [binary_round_aux]. *)

Definition exact_round (v : Z) (d : Z) (r : float) : Prop :=
  rounds v d r /\
  ((fin r /\ fv r * d = v) \/
   exists s m e, 0 < m /\ ebase <= e <= fexp64 (Zdigits2 m + e) /\
     sgn s * (m * unit_pow e) * d = v /\
     r = binary_round_aux prec emax s m e loc_Exact).

Lemma exact_round_mono v1 v2 d r1 r2 :
  0 < d -> exact_round v1 d r1 -> exact_round v2 d r2 -> v1 <= v2 -> fv r1 <= fv r2.
Proof.
  intros Hd [R1 C1] [R2 C2] Hv.
  destruct C1 as [[F1 E1]|(s1 & m1 & e1 & Hm1 & He1 & E1 & ->)].
  { apply R2; [done|lia]. }
  destruct C2 as [[F2 E2]|(s2 & m2 & e2 & Hm2 & He2 & E2 & ->)].
  { apply R1; [done|lia]. }
  assert (0 < unit_pow e1) by (apply unit_pow_pos; lia).
  assert (0 < unit_pow e2) by (apply unit_pow_pos; lia).
  assert (HV1 : 0 < m1 * unit_pow e1) by lia. assert (HV2 : 0 < m2 * unit_pow e2) by lia.
  assert (Hle : sgn s1 * (m1 * unit_pow e1) <= sgn s2 * (m2 * unit_pow e2)).
  { apply (Z.mul_le_mono_pos_r _ _ d); [done|lia]. }
  destruct s1, s2; unfold sgn in *.
  - destruct (round_mag_mono m2 e2 m1 e1 true true) as (w1 & w2 & Hw & -> & ->); [lia..|].
    unfold sgn. lia.
  - apply Z.le_trans with (fv fzero).
    + apply R1; [done|]. rewrite fv_fzero. nia.
    + apply R2; [done|]. rewrite fv_fzero. nia.
  - lia.
  - destruct (round_mag_mono m1 e1 m2 e2 false false) as (w1 & w2 & Hw & -> & ->); [lia..|].
    unfold sgn. lia.
Qed.

Lemma binary_round_exact s m e :
  ebase <= e -> exact_round (sgn s * (Zpos m * unit_pow e)) 1 (binary_round prec emax s m e).
Proof.
  intros He. split; [by apply binary_round_bounds|]. right.
  unfold binary_round. fold (fexp64 (Zpos (digits2_pos m) + e)).
  unfold shl_align. destruct (fexp64 (Zpos (digits2_pos m) + e) - e) as [|d|d] eqn:E.
  - exists s, (Zpos m), e. cbn [Zdigits2]. auto with lia.
  - exists s, (Zpos m), e. cbn [Zdigits2]. auto with lia.
  - eexists s, _, _. split; [|split; [|split; [|done]]]; [lia| |].
    + cbn [Zdigits2]. rewrite digits2_iter_xO, !fexp64_eq. rewrite fexp64_eq in E. unfold ebase. lia.
    + rewrite Pos_iter_xO. rewrite fexp64_eq in *.
      rewrite (unit_pow_split (Z.max (Zpos (digits2_pos m) + e - 53) (-1074)) e) by (unfold ebase in *; lia).
      replace (e - Z.max (Zpos (digits2_pos m) + e - 53) (-1074)) with (Zpos d) by lia. lia.
Qed.

Lemma fadd_exact x y : fin x -> fin y -> exact_round (fv x + fv y) 1 (fadd x y).
Proof.
  intros Fx Fy. split; [by apply fadd_rounds|].
  destruct (fin_inv x Fx) as [(sx & ->)|(sx & mx & ex & -> & Hex & _)].
  { left. destruct (fin_inv y Fy) as [(sy & ->)|(sy & my & ey & -> & _)].
    - by destruct sx, sy.
    - split; [done|]. cbn [fadd SFadd]. replace (fv (S754_zero sx)) with 0 by done. lia. }
  destruct (fin_inv y Fy) as [(sy & ->)|(sy & my & ey & -> & Hey & _)].
  { left. split; [done|]. cbn [fadd SFadd]. replace (fv (S754_zero sy)) with 0 by done. lia. }
  unfold fadd, SFadd. cbv zeta. rewrite !shl_align_spec by lia.
  replace (fv (S754_finite sx mx ex) + fv (S754_finite sy my ey)) with
    ((cond_Zopp sx (Z.pos mx * 2 ^ (ex - Z.min ex ey)) +
      cond_Zopp sy (Z.pos my * 2 ^ (ey - Z.min ex ey))) * unit_pow (Z.min ex ey)).
  2:{ cbn [fv]. rewrite (unit_pow_split (Z.min ex ey) ex), (unit_pow_split (Z.min ex ey) ey)
        by (unfold ebase; lia). destruct sx, sy; cbn [cond_Zopp]; lia. }
  set (S := cond_Zopp sx _ + _). assert (He : ebase <= Z.min ex ey) by (unfold ebase; lia).
  destruct S as [|p|p]; cbn [binary_normalize].
  - left. split; [done|]. cbn [fv]. lia.
  - destruct (binary_round_exact false p (Z.min ex ey) He) as [_ [H|H]]; [left|right]; unfold sgn in H;
      by rewrite Z.mul_1_l in H.
  - destruct (binary_round_exact true p (Z.min ex ey) He) as [_ [H|H]]; [left|right]; unfold sgn in H;
      by replace (Z.neg p * unit_pow (Z.min ex ey)) with (-1 * (Z.pos p * unit_pow (Z.min ex ey))) by lia.
Qed.

Lemma fsub_exact x y : fin x -> fin y -> exact_round (fv x - fv y) 1 (fsub x y).
Proof.
  intros Fx Fy. rewrite fsub_fadd. pose proof (fadd_exact x (fneg y) Fx (fneg_fin y Fy)) as H.
  by rewrite fv_fneg in H.
Qed.

Theorem fadd_mono x y x' y' :
  fin x -> fin y -> fin x' -> fin y' -> fv x + fv y <= fv x' + fv y' ->
  fv (fadd x y) <= fv (fadd x' y').
Proof. intros. by eapply (exact_round_mono _ _ 1); [lia|apply fadd_exact..|]. Qed.

Theorem fsub_mono x y x' y' :
  fin x -> fin y -> fin x' -> fin y' -> fv x - fv y <= fv x' - fv y' ->
  fv (fsub x y) <= fv (fsub x' y').
Proof. intros. by eapply (exact_round_mono _ _ 1); [lia|apply fsub_exact..|]. Qed.

Lemma fmul_exact x y : fin x -> fin y -> exact_round (fv x * fv y) (unit_pow 0) (fmul x y).
Proof.
  intros Fx Fy. split; [by apply fmul_rounds|].
  destruct (fin_inv x Fx) as [(sx & ->)|(sx & mx & ex & -> & _)];
    destruct (fin_inv y Fy) as [(sy & ->)|(sy & my & ey & -> & _)].
  1-3: (left; split; [done|]; cbn [fv fmul SFmul]; lia).
  right. destruct (fmul_core _ _ _ _ _ _ Fx Fy) as [He Habs].
  exists (xorb sx sy), (Zpos (mx * my)), (ex + ey). split; [lia|]. split; [done|]. split; [|done].
  rewrite <- Z.mul_assoc, <- Habs. unfold sgn. destruct (xorb sx sy); lia.
Qed.

Theorem fmul_mono x y x' y' :
  fin x -> fin y -> fin x' -> fin y' -> fv x * fv y <= fv x' * fv y' ->
  fv (fmul x y) <= fv (fmul x' y').
Proof. intros. by eapply (exact_round_mono _ _ (unit_pow 0)); [done|apply fmul_exact..|]. Qed.

(** ** Strict progress

    Adding a positive amount to a non-negative float moves it unless the amount
    is lost in rounding, which needs the float to exceed the amount by a factor
    of at least [2^52]. *)

Lemma fin_succ x :
  fin x -> 0 <= fv x < 2 ^ 52 * unit_pow 971 ->
  exists z u, fin z /\ fv z = fv x + u /\ 0 < u /\
    (u = unit_pow (-1074) \/ 2 ^ 52 * u <= fv x).
Proof.
  intros Fx Hx. destruct (fin_inv x Fx) as [(s & ->)|(s & m & e & -> & He & Hm & Hc)].
  { exists (S754_finite false 1 (-1074)), (unit_pow (-1074)). split; [done|]. split; [done|]. split; [done|by left]. }
  assert (Hu : 0 < unit_pow e) by (apply unit_pow_pos; unfold ebase; lia).
  destruct s; [cbn [fv] in Hx; lia|]. cbn [fv] in *. rewrite Z.mul_1_l in *.
  assert (Hlast : e = -1074 \/ 2 ^ 52 * unit_pow e <= Zpos m * unit_pow e).
  { destruct Hc as [?|?]; [by left|right]. apply Z.mul_le_mono_nonneg_r; lia. }
  assert (Hlast' : unit_pow e = unit_pow (-1074) \/ 2 ^ 52 * unit_pow e <= Zpos m * unit_pow e).
  { destruct Hlast as [->|?]; auto. }
  assert (He' : e < 971 \/ Zpos m + 1 < 2 ^ 53).
  { destruct (Z.eq_dec e 971) as [->|]; [|lia]. exfalso.
    destruct Hc as [?|Hc]; [lia|]. assert (2 ^ 52 * unit_pow 971 <= Zpos m * unit_pow 971); [|lia].
    apply Z.mul_le_mono_nonneg_r; lia. }
  destruct (Z.eq_dec (Zpos m + 1) (2 ^ 53)) as [E|Hne].
  - exists (S754_finite false (2 ^ 52) (e + 1)), (unit_pow e). split; [|split; [|auto]].
    + split; [|done]. apply bounded_spec. lia.
    + cbn [fv]. rewrite Z.mul_1_l, (unit_pow_split e (e + 1)) by (unfold ebase; lia).
      replace (e + 1 - e) with 1 by lia. change (Z.pos (2 ^ 52)) with (2 ^ 52).
      replace (Zpos m) with (2 ^ 53 - 1) by lia. lia.
  - exists (S754_finite false (m + 1) e), (unit_pow e). split; [|split; [|auto]].
    + split; [|done]. apply bounded_spec. lia.
    + cbn [fv]. lia.
Qed.

Lemma fin_pos_ge_tiny b : fin b -> 0 < fv b -> unit_pow (-1074) <= fv b.
Proof.
  intros Fb Hb. destruct (fin_multiple b Fb) as [k Ek]. assert (0 < unit_pow (-1074)) by done.
  rewrite Ek in *. set (u := unit_pow (-1074)) in *. clearbody u.
  assert (0 < k) by (apply (Z.mul_pos_cancel_r k u); lia). nia.
Qed.

Theorem fadd_gt x b :
  fin x -> fin b -> 0 <= fv x < 2 ^ 52 * unit_pow 971 -> 0 < fv b -> fv x <= 2 ^ 52 * fv b ->
  fv x < fv (fadd x b).
Proof.
  intros Fx Fb Hx Hb Hxb. destruct (fin_succ x Fx Hx) as (z & u & Fz & Ez & Hu & Hc).
  apply Z.lt_le_trans with (fv z); [lia|]. apply (fadd_rounds x b Fx Fb); [done|].
  pose proof (fin_pos_ge_tiny b Fb Hb). lia.
Qed.

Lemma fin_pred x :
  fin x -> 0 < fv x ->
  exists z u, fin z /\ fv z = fv x - u /\ 0 < u /\
    (u = unit_pow (-1074) \/ 2 ^ 52 * u <= fv x).
Proof.
  intros Fx Hx. destruct (fin_inv x Fx) as [(s & ->)|(s & m & e & -> & He & Hm & Hc)]; [done|].
  assert (Hu : 0 < unit_pow e) by (apply unit_pow_pos; unfold ebase; lia).
  destruct s; [cbn [fv] in Hx; lia|]. cbn [fv] in *. rewrite Z.mul_1_l in *.
  assert (Hlast : unit_pow e = unit_pow (-1074) \/ 2 ^ 52 * unit_pow e <= Zpos m * unit_pow e).
  { destruct Hc as [->|?]; [by left|right]. apply Z.mul_le_mono_nonneg_r; lia. }
  destruct (Z.eq_dec (Zpos m) 1) as [E1|Hm1].
  { exists fzero, (unit_pow e). split; [done|]. rewrite fv_fzero.
    destruct Hc as [->|?]; [|lia]. split; [lia|]. auto. }
  destruct (Z.eq_dec e (-1074)) as [->|Hne]; [|destruct (Z.eq_dec (Zpos m) (2 ^ 52)) as [E|Hn]].
  - exists (S754_finite false (Z.to_pos (Zpos m - 1)) (-1074)), (unit_pow (-1074)).
    split; [split; [apply bounded_spec; lia|done]|]. cbn [fv]. rewrite Z2Pos.id by lia. auto with lia.
  - exists (S754_finite false (2 ^ 53 - 2) (e - 1)), (unit_pow e). split; [|split; [|auto]].
    + split; [|done]. apply bounded_spec. lia.
    + cbn [fv]. rewrite Z.mul_1_l, (unit_pow_split (e - 1) e) by (unfold ebase; lia).
      replace (e - (e - 1)) with 1 by lia. change (Z.pos (2 ^ 53 - 2)) with (2 ^ 53 - 2).
      rewrite E. lia.
  - exists (S754_finite false (Z.to_pos (Zpos m - 1)) e), (unit_pow e).
    split; [split; [apply bounded_spec; lia|done]|]. cbn [fv]. rewrite Z2Pos.id by lia. auto with lia.
Qed.

Theorem fsub_lt x b :
  fin x -> fin b -> 0 < fv x -> 0 < fv b -> fv x <= 2 ^ 52 * fv b -> fv (fsub x b) < fv x.
Proof.
  intros Fx Fb Hx Hb Hxb. destruct (fin_pred x Fx Hx) as (z & u & Fz & Ez & Hu & Hc).
  apply Z.le_lt_trans with (fv z); [|lia]. apply (fsub_rounds x b Fx Fb); [done|].
  pose proof (fin_pos_ge_tiny b Fb Hb). lia.
Qed.
