(* ===== verification/PyRound.v ===== *)
(** * [round(x, n)] on floats

    Python's [round] of a finite float to [n] decimals is correctly rounded: the
    exact binary value is rounded half-to-even to a multiple of [10^-n], and the
    decimal found is converted to the nearest float; a result out of range is an
    [OverflowError]. *)

From Stdlib Require Import ZArith Lia Bool SpecFloat.
From stdpp Require Import base list strings.
From S2P Require Import Prelude Loops PyFloat FloatRound FloatMono.

#[local] Open Scope Z_scope.

Definition py_round (x : float) (ndigits : nat) : res float :=
  match x with
  | S754_finite s _ _ =>
      let n := rne (Z.abs (fv x) * 10 ^ Z.of_nat ndigits) (unit_pow 0) in
      let r := lit n ndigits in
      if is_finite r then Ok (if s then fneg r else r) else Raise OverflowError
  | _ => Ok x
  end.

Lemma lit_rounds n d : 0 <= n -> rounds (n * unit_pow 0) (10 ^ Z.of_nat d) (lit n d).
Proof.
  intros Hn. assert (H0 : 0 < unit_pow 0) by (apply unit_pow_pos; unfold ebase; lia).
  assert (Hd : 0 < 10 ^ Z.of_nat d) by (apply Z.pow_pos_nonneg; lia).
  destruct n as [|p|p]; [|clear Hn|lia].
  { split; [done|]. split; intros z _; cbn [lit fzero fv]; nia. }
  unfold lit. destruct (10 ^ Z.of_nat d) as [|b|b]; [lia| |lia].
  destruct (div_core_spec p 0 b 0 ltac:(lia) ltac:(lia)) as (q & e & r & -> & Hq & Hr & He & Ev).
  destruct (binary_round_aux_bounds false q e (new_location (Zpos b) r))
    as [Hnum (w & Ew & Hw & Hup & Hlo)]; [done|lia|lia|].
  assert (Hue : 0 < unit_pow e) by (apply unit_pow_pos; lia).
  assert (Habs : sgn false * (Zpos p * unit_pow 0) = (q * Zpos b + r) * unit_pow e).
  { cbn [sgn]. apply (Z.mul_cancel_r _ _ (unit_pow 0)); [lia|]. lia. }
  apply rounds_of_mag with false w; [done|done|done|done| | |]; rewrite Habs.
  - intros z Fz Hz Hb. apply Hup; [done|done|]. rewrite new_location_exact. nia.
  - intros z Fz Hz Hb. apply Hlo; [done|done|]. nia.
  - apply Z.mul_nonneg_nonneg; [|lia]. nia.
Qed.

(** The greatest finite float, an integer. *)
Definition fmax_finite : float := S754_finite false (2 ^ 53 - 1) 971.

Lemma fin_le_max x : fin x -> fv x <= fv fmax_finite.
Proof.
  intros Fx. destruct (fin_inv x Fx) as [(s & ->)|(s & m & e & -> & He & Hm)]; [done|].
  assert (Hue : 0 < unit_pow e) by (apply unit_pow_pos; unfold ebase; lia).
  assert (Hu : unit_pow e <= unit_pow 971) by (unfold unit_pow, ebase; apply Z.pow_le_mono_r; lia).
  change (fv fmax_finite) with ((2 ^ 53 - 1) * unit_pow 971). cbn [fv]. destruct s; nia.
Qed.

Lemma fmax_finite_int : fv fmax_finite = (2 ^ 53 - 1) * 2 ^ 971 * unit_pow 0.
Proof. reflexivity. Qed.

Lemma rne_multiple k u : 0 < u -> rne (k * u) u = k.
Proof.
  intros Hu. unfold rne. rewrite Z.div_mul, Z.mod_mul by lia. reflexivity.
Qed.

Lemma rne_nonneg v u : 0 < u -> 0 <= v -> 0 <= rne v u.
Proof. intros Hu Hv. pose proof (Z.div_pos v u Hv Hu). destruct (rne_cases v u); lia. Qed.

(** On a finite number that is not negative [round] returns such a number. *)
Lemma py_round_yields x nd :
  fin x -> 0 <= fv x -> yields (py_round x nd) (fun r => fin r /\ 0 <= fv r).
Proof.
  intros Fx Hx. assert (H0 : 0 < unit_pow 0) by (apply unit_pow_pos; unfold ebase; lia).
  assert (Hd : 0 < 10 ^ Z.of_nat nd) by (apply Z.pow_pos_nonneg; lia).
  pose proof (fin_le_max x Fx) as Hmax. rewrite fmax_finite_int in Hmax.
  destruct (fin_inv x Fx) as [(s & E)|(s & m & e & E & He & Hm)]; rewrite E in *; [by exists (S754_zero s)|].
  unfold py_round. rewrite <- E in *. cbv zeta. rewrite Z.abs_eq by done.
  set (n := rne (fv x * 10 ^ Z.of_nat nd) (unit_pow 0)).
  assert (Hn : 0 <= n) by (apply rne_nonneg; [done|nia]).
  assert (Hn2 : n <= (2 ^ 53 - 1) * 2 ^ 971 * 10 ^ Z.of_nat nd).
  { rewrite <- (rne_multiple ((2 ^ 53 - 1) * 2 ^ 971 * 10 ^ Z.of_nat nd) (unit_pow 0)) by done.
    apply rne_mono; [done|]. nia. }
  destruct (lit_rounds n nd Hn) as (Hnum & Hup & Hlo).
  assert (Hr0 : 0 <= fv (lit n nd)).
  { specialize (Hlo fzero fin_fzero). rewrite fv_fzero in Hlo. nia. }
  assert (Hr1 : fv (lit n nd) <= fv fmax_finite).
  { apply Hup; [done|]. rewrite fmax_finite_int. nia. }
  assert (Fr : fin (lit n nd)) by (apply (num_finite_of_bounds _ fzero fmax_finite); done).
  rewrite (proj2 Fr). destruct s; [|by apply yields_ret].
  exfalso. assert (0 < unit_pow e) by (apply unit_pow_pos; unfold ebase; lia).
  rewrite E in Hx. cbn [fv] in Hx. nia.
Qed.

Lemma py_round_num x nd :
  num x -> 0 <= fv x -> yields (py_round x nd) (fun r => num r /\ 0 <= fv r).
Proof.
  intros Nx Hx. destruct x as [s|s| |s m e] eqn:E; [by apply yields_ret..|by destruct Nx|].
  rewrite <- E in *. eapply yields_weaken.
  - apply py_round_yields; [|exact Hx]. split; [apply Nx|by rewrite E].
  - intros r [Fr Hr]. auto using fin_num.
Qed.

Example py_round_ties :
  py_round (lit 2675 3) 2 = Ok (lit 267 2) /\ py_round (lit 125 3) 2 = Ok (lit 12 2) /\
  py_round (lit 375 3) 2 = Ok (lit 38 2).
Proof. vm_compute. auto. Qed.
