(* ===== verification/FloatGrid.v ===== *)
(** * FloatGrid: multiples of a power of two

    A float below [2^53 * 2^f] that is a multiple of [2^f] is represented
    exactly.  This makes integer-valued arithmetic exact ([float(n)], taking an
    integer amount from a float) and bounds the error of any other rounding by
    one unit of the grid. *)

From Stdlib Require Import ZArith Lia Bool SpecFloat.
From stdpp Require Import base list.
From S2P Require Import Prelude PyFloat FloatRound FloatMono.

#[local] Open Scope Z_scope.

Lemma grid_fin k f :
  0 <= k < 2 ^ 53 -> -1074 <= f <= 971 -> exists z, fin z /\ fv z = k * unit_pow f.
Proof.
  intros Hk Hf. destruct (Z.eq_dec k 0) as [->|Hne]; [by exists fzero|].
  set (d := Zdigits2 k). pose proof (Zdigits2_bounds k ltac:(lia)) as [Hlo Hhi]. fold d in Hlo, Hhi.
  assert (Hd : 0 < d <= 53).
  { split; [destruct k; simpl in d; lia|]. apply Zdigits2_le; lia. }
  set (sh := Z.min (53 - d) (f + 1074)).
  assert (Hsh : 0 <= sh) by lia.
  assert (Hp : 0 < 2 ^ sh) by (apply Z.pow_pos_nonneg; lia).
  destruct (k * 2 ^ sh) as [|m|m] eqn:Em; [nia| |nia].
  exists (S754_finite false m (f - sh)). split.
  - split; [|done]. apply bounded_spec. rewrite <- Em. split; [lia|]. split.
    + apply Z.lt_le_trans with (2 ^ d * 2 ^ sh); [by apply Z.mul_lt_mono_pos_r|].
      rewrite <- Z.pow_add_r by lia. apply Z.pow_le_mono_r; lia.
    + destruct (Z.eq_dec (f - sh) (-1074)); [by left|right].
      apply Z.le_trans with (2 ^ (d - 1) * 2 ^ sh); [|by apply Z.mul_le_mono_nonneg_r; lia].
      rewrite <- Z.pow_add_r by lia. apply Z.pow_le_mono_r; lia.
  - cbn [fv]. rewrite <- Em, (unit_pow_split (f - sh) f) by (unfold ebase; lia).
    replace (f - (f - sh)) with sh by lia. lia.
Qed.

(** A representable exact result is the result. *)
Lemma rounds_representable n d r z :
  0 < d -> rounds n d r -> fin z -> fv z * d = n -> fv r = fv z.
Proof.
  intros Hd (_ & Hu & Hl) Fz E. apply Z.le_antisymm; [apply Hu|apply Hl]; try done; lia.
Qed.

Lemma rounds_fin n d r z1 z2 :
  rounds n d r -> fin z1 -> fin z2 -> fv z1 * d <= n -> n <= fv z2 * d -> fin r.
Proof.
  intros (N & Hu & Hl) F1 F2 H1 H2. apply num_finite_of_bounds with z1 z2; auto.
Qed.

(** Unless the exact value is beyond the grid, rounding adds at most one
    unit. *)
Lemma rounds_ceil n d r f :
  0 < d -> rounds n d r -> 0 <= n -> -1074 <= f <= 971 ->
  d * ((2 ^ 53 - 1) * unit_pow f) <= n \/ d * fv r <= n + d * unit_pow f.
Proof.
  intros Hd (_ & Hu & _) Hn Hf. set (u := unit_pow f).
  assert (Hupos : 0 < u) by (apply unit_pow_pos; unfold ebase; lia).
  destruct (Z.le_gt_cases (d * ((2 ^ 53 - 1) * u)) n) as [|Hlt]; [by left|right].
  set (k := n / (d * u) + 1).
  assert (Hdu : 0 < d * u) by nia.
  pose proof (Z.mul_div_le n (d * u) Hdu) as Hfl. pose proof (Z.mul_succ_div_gt n (d * u) Hdu) as Hce.
  assert (Hk : 0 <= k < 2 ^ 53).
  { unfold k. split; [assert (0 <= n / (d * u)) by (apply Z.div_pos; lia); lia|].
    assert (n / (d * u) < 2 ^ 53 - 1) by (apply Z.div_lt_upper_bound; [done|]; lia). lia. }
  destruct (grid_fin k f Hk Hf) as (z & Fz & Ez). fold u in Ez.
  assert (Hz : n <= fv z * d) by (rewrite Ez; unfold k; lia).
  specialize (Hu z Fz Hz). rewrite Ez in Hu. unfold k in Hu.
  apply Z.le_trans with (d * ((n / (d * u) + 1) * u)); [|lia].
  apply Z.mul_le_mono_nonneg_l; [lia|done].
Qed.

(** [float(n)] of an integer below [2^53] is exact. *)
Lemma of_Z_exact n : 0 <= n < 2 ^ 53 -> fin (of_Z n) /\ fv (of_Z n) = n * unit_pow 0.
Proof.
  intros Hn. destruct (grid_fin n 0 Hn) as (z & Fz & Ez); [lia|].
  pose proof (binary_normalize_bounds n 0 false ltac:(unfold ebase; lia)) as R.
  fold (of_Z n) in R. rewrite <- Ez in R. split.
  - by apply (rounds_fin _ _ _ z z R); try lia.
  - rewrite <- Ez. apply (rounds_representable _ 1 _ z) in R; try done; lia.
Qed.

(** A finite float below [2^53] is a multiple of some [2^f] with [f <= 0], on
    which its mantissa fits. *)
Lemma fin_on_grid x :
  fin x -> 0 <= fv x < 2 ^ 53 * unit_pow 0 ->
  exists k f, -1074 <= f <= 0 /\ 0 <= k < 2 ^ 53 /\ fv x = k * unit_pow f.
Proof.
  intros Fx Hx. destruct (fin_inv x Fx) as [(s & ->)|(s & m & e & -> & He & Hm & Hc)].
  { exists 0, 0. simpl. lia. }
  assert (Hu : 0 < unit_pow e) by (apply unit_pow_pos; unfold ebase; lia).
  cbn [fv] in Hx |- *. destruct s; [exfalso; nia|]. exists (Zpos m), e.
  split; [|split; [lia|lia]]. split; [lia|].
  destruct (Z.le_gt_cases e 0) as [|Hpos]; [done|exfalso].
  assert (2 ^ 52 <= Zpos m) by (destruct Hc; lia).
  rewrite (unit_pow_split 0 e) in Hx by (unfold ebase; lia). rewrite Z.sub_0_r in Hx.
  assert (2 ^ 1 <= 2 ^ e) by (apply Z.pow_le_mono_r; lia).
  assert (0 < unit_pow 0) by done. set (u0 := unit_pow 0) in *. clearbody u0.
  assert (2 ^ 53 <= Zpos m * 2 ^ e) by nia. nia.
Qed.

(** Taking an integer amount from a float that covers it is exact. *)
Lemma fsub_int_exact x w :
  fin x -> 0 <= w -> w * unit_pow 0 <= fv x < 2 ^ 53 * unit_pow 0 ->
  fin (fsub x (of_Z w)) /\ fv (fsub x (of_Z w)) = fv x - w * unit_pow 0.
Proof.
  intros Fx Hw Hx. assert (H0 : 0 < unit_pow 0) by done.
  assert (Hw53 : w < 2 ^ 53) by (set (u := unit_pow 0) in *; clearbody u; nia).
  destruct (of_Z_exact w) as [Fw Ew]; [lia|].
  destruct (fin_on_grid x Fx) as (k & f & Hf & Hk & Ek).
  { set (u := unit_pow 0) in *; clearbody u. nia. }
  rewrite (unit_pow_split f 0) in * by (unfold ebase; lia).
  assert (Hu : 0 < unit_pow f) by (apply unit_pow_pos; unfold ebase; lia).
  set (u := unit_pow f) in *. set (p := 2 ^ (0 - f)) in *.
  assert (Hp : 0 < p) by (apply Z.pow_pos_nonneg; lia).
  assert (Hkw : 0 <= k - w * p < 2 ^ 53).
  { split; [|nia]. assert (w * p * u <= k * u) by lia. nia. }
  destruct (grid_fin (k - w * p) f Hkw) as (z & Fz & Ez); [lia|]. fold u in Ez.
  assert (Ed : fv z = fv x - fv (of_Z w)) by (rewrite Ez, Ek, Ew; ring).
  pose proof (fsub_rounds x (of_Z w) Fx Fw) as R. rewrite <- Ed in R. split.
  - by apply (rounds_fin _ _ _ z z R); try lia.
  - rewrite (rounds_representable _ 1 _ z) by (done || lia). rewrite Ed, Ew. done.
Qed.

(** Multiples of one grid subtract exactly. *)
Lemma fsub_grid_exact x y j k f :
  fin x -> fin y -> -1074 <= f <= 971 -> fv x = j * unit_pow f -> fv y = k * unit_pow f ->
  0 <= j - k < 2 ^ 53 -> fin (fsub x y) /\ fv (fsub x y) = fv x - fv y.
Proof.
  intros Fx Fy Hf Ex Ey Hjk. destruct (grid_fin (j - k) f Hjk Hf) as (z & Fz & Ez).
  assert (Ed : fv z = fv x - fv y) by (rewrite Ez, Ex, Ey; ring).
  pose proof (fsub_rounds x y Fx Fy) as R. rewrite <- Ed in R. split.
  - by apply (rounds_fin _ _ _ z z R); try lia.
  - rewrite (rounds_representable _ 1 _ z) by (done || lia). done.
Qed.

(** ** Averages *)

Definition moderate (x : float) : Prop := fin x /\ Z.abs (fv x) < 2 ^ 53 * unit_pow 0.

Lemma double_moderate x : moderate x -> exists z, fin z /\ fv z = 2 * fv x.
Proof.
  assert (Hpos : forall y, fin y -> 0 <= fv y < 2 ^ 53 * unit_pow 0 -> exists z, fin z /\ fv z = 2 * fv y).
  { intros y Fy Hy. destruct (fin_on_grid y Fy Hy) as (n & f & Hf & Hk & Ey).
    destruct (grid_fin n (f + 1) Hk ltac:(lia)) as (z & Fz & Ez). exists z. split; [done|].
    rewrite Ez, Ey. replace (unit_pow (f + 1)) with (2 * unit_pow f); [lia|].
    unfold unit_pow, ebase. rewrite <- Z.pow_succ_r by lia. f_equal. lia. }
  intros [Fx Hx]. destruct (Z.le_gt_cases 0 (fv x)) as [H|H]; [apply Hpos; [done|lia]|].
  destruct (Hpos (fneg x)) as (z & Fz & Ez); [by apply fneg_fin|rewrite fv_fneg; lia|].
  exists (fneg z). split; [by apply fneg_fin|]. rewrite fv_fneg, Ez, fv_fneg. lia.
Qed.

Lemma average_in lo hi a b :
  moderate lo -> moderate hi -> fin a -> fin b -> fv lo <= fv a <= fv hi -> fv lo <= fv b <= fv hi ->
  num (fdiv_ieee (fadd a b) (of_Z 2)) /\ fv lo <= fv (fdiv_ieee (fadd a b) (of_Z 2)) <= fv hi.
Proof.
  intros Hlo Hhi Fa Fb Ha Hb. destruct (double_moderate lo Hlo) as (zl & Fzl & Ezl), (double_moderate hi Hhi) as (zh & Fzh & Ezh).
  pose proof (fadd_rounds a b Fa Fb) as R.
  assert (Fs : fin (fadd a b)) by (apply (rounds_fin _ _ _ zl zh R); done || lia).
  assert (Hs : 2 * fv lo <= fv (fadd a b) <= 2 * fv hi).
  { destruct R as (_ & Rup & Rlo). split; [rewrite <- Ezl; apply Rlo|rewrite <- Ezh; apply Rup]; done || lia. }
  assert (F2 : fin (of_Z 2)) by (by split). assert (E2 : fv (of_Z 2) = 2 * unit_pow 0) by (apply of_Z_exact; lia).
  assert (HU : 0 < unit_pow 0) by (by apply unit_pow_pos).
  destruct (fdiv_rounds (fadd a b) (of_Z 2) Fs F2 ltac:(lia)) as [_ R2]. rewrite E2 in R2.
  destruct Hlo as [Flo _], Hhi as [Fhi _]. destruct R2 as (N & Rup & Rlo). split; [exact N|]. split; [apply Rlo|apply Rup]; done || nia.
Qed.
