(* ===== verification/FloatSum.v ===== *)
(** * FloatSum: the compensated sum

    [sum] of positive floats is not negative, whatever the compensation does:
    the running correction never exceeds the running sum, and once the sum
    overflows it stays infinite.  The exactness of the correction's first
    subtraction (Sterbenz) is what makes this true for any number of terms. *)

From Stdlib Require Import ZArith Lia Bool SpecFloat.
From stdpp Require Import base list.
From S2P Require Import Prelude PyFloat FloatRound FloatMono FloatGrid.

#[local] Open Scope Z_scope.

(** The difference of two floats within a factor of two is a float. *)
Lemma sterbenz s t :
  fin s -> fin t -> 0 <= fv s <= fv t -> fv t <= 2 * fv s -> exists z, fin z /\ fv z = fv t - fv s.
Proof.
  intros Fs Ft Hst Ht2. destruct (Z.eq_dec (fv s) 0) as [E0|Hs0].
  { exists fzero. split; [done|]. rewrite fv_fzero. lia. }
  destruct (fin_inv s Fs) as [(b & ->)|(b & m1 & e1 & -> & He1 & Hm1 & Hc1)]; [done|].
  destruct (fin_inv t Ft) as [(b' & ->)|(b' & m2 & e2 & -> & He2 & Hm2 & Hc2)]; [cbn in *; lia|].
  assert (Hu1 : 0 < unit_pow e1) by (apply unit_pow_pos; unfold ebase; lia).
  assert (Hu2 : 0 < unit_pow e2) by (apply unit_pow_pos; unfold ebase; lia).
  cbn [fv] in *. destruct b; [nia|]. destruct b'; [nia|]. rewrite !Z.mul_1_l in *.
  assert (He : e1 <= e2).
  { destruct (Z.le_gt_cases e1 e2) as [|Hlt]; [done|exfalso]. destruct Hc1 as [|Hc1]; [lia|].
    rewrite (unit_pow_split e2 e1) in Hst by (unfold ebase; lia).
    assert (2 ^ 1 <= 2 ^ (e1 - e2)) by (apply Z.pow_le_mono_r; lia).
    assert (2 ^ 53 <= Zpos m1 * 2 ^ (e1 - e2)) by (change (2 ^ 53) with (2 ^ 52 * 2 ^ 1); nia).
    set (p := 2 ^ (e1 - e2)) in *. assert (Zpos m1 * p <= Zpos m2) by nia. lia. }
  rewrite (unit_pow_split e1 e2) in * by (unfold ebase; lia). set (p := 2 ^ (e2 - e1)) in *.
  assert (Hp : 0 < p) by (apply Z.pow_pos_nonneg; lia).
  destruct (grid_fin (Zpos m2 * p - Zpos m1) e1) as (z & Fz & Ez); [nia|lia|].
  exists z. split; [done|]. rewrite Ez. ring.
Qed.

(** Twice a float is a float, or exceeds them all. *)
Lemma twice s : fin s -> 0 <= fv s ->
  (exists z, fin z /\ fv z = 2 * fv s) \/ forall t, fin t -> fv t < 2 * fv s.
Proof.
  intros Fs Hs. destruct (fin_inv s Fs) as [(b & ->)|(b & m & e & -> & He & Hm & Hc)].
  { left. by exists fzero. }
  assert (Hu : 0 < unit_pow e) by (apply unit_pow_pos; unfold ebase; lia).
  cbn [fv] in *. destruct b; [nia|]. destruct (Z.le_gt_cases e 970) as [He'|He'].
  - left. destruct (grid_fin (Zpos m) (e + 1)) as (z & Fz & Ez); [lia|lia|]. exists z. split; [done|].
    rewrite Ez, (unit_pow_split e (e + 1)) by (unfold ebase; lia). replace (e + 1 - e) with 1 by lia. lia.
  - right. intros t Ft. assert (e = 971) as -> by lia. pose proof (fin_value t Ft) as Ht.
    destruct Hc as [|Hc]; [lia|]. change (2 ^ 53) with (2 * 2 ^ 52) in Ht. nia.
Qed.

(** The sum of two positive floats: between the greater and its double. *)
Lemma sum_between s x :
  fin s -> fin x -> 0 <= fv x <= fv s -> fin (fadd s x) -> fv s <= fv (fadd s x) <= 2 * fv s.
Proof.
  intros Fs Fx Hx Ft. destruct (fadd_rounds s x Fs Fx) as (_ & Hup & Hlo). split; [apply Hlo; [done|lia]|].
  destruct (twice s Fs ltac:(lia)) as [(z & Fz & Ez)|Hbig].
  - rewrite <- Ez. apply Hup; [done|]. lia.
  - specialize (Hbig _ Ft). lia.
Qed.

(** The correction [(s - t) + x] of one addition. *)
Lemma correction_bounds s x :
  fin s -> fin x -> 0 <= fv x <= fv s -> fin (fadd s x) ->
  fin (fadd (fsub s (fadd s x)) x) /\
  fv s - fv (fadd s x) <= fv (fadd (fsub s (fadd s x)) x) <= fv x.
Proof.
  intros Fs Fx Hx Ft. set (t := fadd s x) in *. pose proof (sum_between s x Fs Fx Hx Ft) as Ht. fold t in Ht.
  destruct (sterbenz s t Fs Ft) as (z & Fz & Ez); [lia..|].
  pose proof (fsub_rounds s t Fs Ft) as R.
  assert (Ed : fv (fsub s t) = fv s - fv t).
  { pose proof (rounds_representable _ 1 _ (fneg z) ltac:(lia) R (fneg_fin z Fz)) as E. rewrite fv_fneg in E. lia. }
  assert (Fd : fin (fsub s t)).
  { apply (rounds_fin _ _ _ (fneg z) (fneg z) R); try (by apply fneg_fin); rewrite fv_fneg; lia. }
  pose proof (fadd_rounds _ x Fd Fx) as R2. rewrite Ed in R2. split.
  - apply (rounds_fin _ _ _ (fsub s t) x R2); [done|done|lia|lia].
  - destruct R2 as (_ & Hup & Hlo). split; [rewrite <- Ed; apply Hlo; [done|lia]|apply Hup; [done|lia]].
Qed.

Lemma fadd_comm x y : fadd x y = fadd y x.
Proof.
  destruct x as [sx|sx| |sx mx ex], y as [sy|sy| |sy my ey]; try reflexivity; try (by destruct sx, sy).
  unfold fadd, SFadd. rewrite (Z.min_comm ey ex). f_equal. apply Z.add_comm.
Qed.

(** The state of the loop: a finite sum that dominates its correction, or an
    infinite one whose correction is not used. *)
Definition sum_ok (st : float * float) : Prop :=
  (fin (fst st) /\ fin (snd st) /\ 0 <= fv (fst st) /\ - fv (fst st) <= fv (snd st) <= fv (fst st)) \/
  (fst st = finf /\ is_finite (snd st) = false).

Lemma overflow_infinite t : num t -> 0 <= fv t -> ~ fin t -> t = finf.
Proof.
  intros [V N] H0 Hf. destruct t as [s|[]| |s m e]; [exfalso; by apply Hf| |done|done|exfalso; by apply Hf].
  change (0 <= - finf_val) in H0. pose proof finf_val_big. assert (0 < 2 ^ 3224) by done. lia.
Qed.

Lemma infinite_correction a b c : fin a -> fin b -> is_finite (fadd c (fadd (fsub a finf) b)) = false.
Proof.
  intros Fa Fb. destruct (fin_inv a Fa) as [([] & ->)|([] & m & e & -> & _)],
    (fin_inv b Fb) as [([] & ->)|([] & m' & e' & -> & _)]; destruct c as [[]|[]| |[] ? ?]; reflexivity.
Qed.

Lemma infinite_step c x : fin x ->
  fadd finf x = finf /\
  is_finite (if fle (fabs x) (fabs finf) then fadd c (fadd (fsub finf finf) x)
             else fadd c (fadd (fsub x finf) finf)) = false.
Proof.
  intros Fx. destruct (fin_inv x Fx) as [([] & ->)|([] & m & e & -> & _)]; destruct c as [[]|[]| |[] ? ?];
    split; reflexivity.
Qed.

Lemma fsum_step_ok st x : sum_ok st -> fin x -> 0 < fv x -> sum_ok (fsum_step st x).
Proof.
  intros Hst Fx Hx. destruct st as [s c]. unfold fsum_step.
  destruct Hst as [(Fs & Fc & Hs & Hc)|[Es _]]; cbn [fst snd] in *.
  2:{ subst s. right. destruct (infinite_step c x Fx) as [-> H]. by split. }
  pose proof (fadd_num s x Fs Fx) as Nt. set (t := fadd s x) in *.
  destruct (fadd_rounds s x Fs Fx) as (_ & Hup & Hlo). fold t in Hup, Hlo.
  assert (Ht : fv s <= fv t) by (apply Hlo; [done|lia]).
  assert (Hcmp : fle (fabs x) (fabs s) = (fv x <=? fv s)).
  { rewrite fle_fv, !fv_fabs by auto with etradie. f_equal; apply Z.abs_eq; lia. }
  rewrite Hcmp. destruct (decide (is_finite t = true)) as [Ff|Hf].
  2:{ right. assert (t = finf) as Et by (apply overflow_infinite; [done|lia|]; intros [_ ?]; done).
      cbn [fst snd]. split; [done|]. rewrite Et. destruct (fv x <=? fv s); by apply infinite_correction. }
  assert (Ft : fin t) by (split; [apply Nt|done]). left. cbn [fst snd].
  assert (He : exists e, (if fv x <=? fv s then fadd (fsub s t) x else fadd (fsub x t) s) = e /\ fin e /\
    fv s - fv t <= fv e <= fv x).
  { eexists. split; [done|]. destruct (Z.leb_spec (fv x) (fv s)) as [Hle|Hlt].
    - by apply correction_bounds; [..|lia|].
    - assert (Et : t = fadd x s) by apply fadd_comm. rewrite Et in Ft |- *.
      destruct (correction_bounds x s Fx Fs) as [Fe He]; [lia|done|]. split; [done|]. rewrite <- Et in *. lia. }
  destruct He as (e & Ee & Fe & He).
  replace (if fv x <=? fv s then _ else _) with (fadd c e) by (rewrite <- Ee; by destruct (fv x <=? fv s)).
  split; [done|]. pose proof (fadd_rounds c e Fc Fe) as R.
  assert (Hlow : - fv t <= fv (fadd c e)).
  { rewrite <- fv_fneg. apply R; [by apply fneg_fin|]. rewrite fv_fneg. lia. }
  assert (Hhigh : fv (fadd c e) <= fv t) by (apply fadd_mono; [done..|lia]).
  split; [|split; [lia|done]].
  apply (num_finite_of_bounds _ (fneg t) t); [apply R|by apply fneg_fin|done|]. rewrite fv_fneg. lia.
Qed.

Theorem fsum_nonneg l :
  (forall x, In x l -> fin x /\ 0 < fv x) -> num (fsum l) /\ 0 <= fv (fsum l).
Proof.
  destruct l as [|x l]; intros Hl; [by split|]. unfold fsum.
  assert (H0 : sum_ok (fadd fzero x, fzero)).
  { left. cbn [fst snd]. destruct (Hl x (or_introl eq_refl)) as [Fx Hx].
    pose proof (fadd_rounds fzero x fin_fzero Fx) as R. rewrite fv_fzero, Z.add_0_l in R.
    assert (E : fv (fadd fzero x) = fv x) by (rewrite (rounds_representable _ 1 _ x) by (done || lia); done).
    assert (F : fin (fadd fzero x)) by (apply (rounds_fin _ _ _ x x R); done || lia).
    rewrite E, fv_fzero. split; [done|]. split; [done|]. lia. }
  assert (H : sum_ok (foldl fsum_step (fadd fzero x, fzero) l)).
  { revert H0. assert (Hl' : forall y, In y l -> fin y /\ 0 < fv y) by (intros; apply Hl; by right).
    clear Hl. generalize (fadd fzero x, fzero) as st. induction l as [|y l IH]; intros st Hst; [done|].
    cbn [foldl]. apply IH; [intros; apply Hl'; by right|].
    destruct (Hl' y (or_introl eq_refl)). by apply fsum_step_ok. }
  destruct (foldl fsum_step (fadd fzero x, fzero) l) as [s c]. destruct H as [(Fs & Fc & Hs & Hc)|[Es Hc]];
    cbn [fst snd] in *.
  - destruct (negb (feq c fzero) && is_finite c); [|split; [by apply fin_num|done]].
    pose proof (fadd_rounds s c Fs Fc) as R. split; [apply R|]. rewrite <- fv_fzero.
    apply R; [apply fin_fzero|]. rewrite fv_fzero. lia.
  - rewrite Es, Hc, andb_false_r. by split.
Qed.
