(* ===== verification/FloatFloor.v ===== *)
(** * FloatFloor: [x // y] and [int(x)] on floats

    CPython computes [x // y] from the C remainder: the difference [x - fmod(x, y)]
    is divided by [y] and the quotient, which may have been rounded, is moved to
    the nearest integer.  For the sizes prices have the outcome is the floor of the
    exact quotient. *)

From Stdlib Require Import ZArith Lia Bool SpecFloat.
From stdpp Require Import base list strings.
From S2P Require Import Prelude Loops PyFloat FloatRound FloatMono FloatGrid.

#[local] Open Scope Z_scope.

(** ** Operations *)

(** C's [fmod]. *)
Definition ffmod (x y : float) : float :=
  match x, y with
  | S754_nan, _ | _, S754_nan | S754_infinity _, _ | _, S754_zero _ => S754_nan
  | S754_zero _, _ => x
  | S754_finite _ _ _, S754_infinity _ => x
  | S754_finite sx mx ex, S754_finite _ my ey =>
      let e := Z.min ex ey in
      let r := (Zpos mx * 2 ^ (ex - e)) mod (Zpos my * 2 ^ (ey - e)) in
      if r =? 0 then S754_zero sx else binary_normalize prec emax (if sx then - r else r) e false
  end.

Definition ffloor (x : float) : float :=
  match x with
  | S754_finite s m e =>
      if 0 <=? e then x else of_Z ((if s then Zneg m else Zpos m) / 2 ^ (- e))
  | _ => x
  end.

(** The zero with the sign of [x]. *)
Definition copysign_zero (x : float) : float :=
  match x with S754_zero s | S754_infinity s | S754_finite s _ _ => S754_zero s | S754_nan => fzero end.

(** [x // y]. *)
Definition py_floordiv (x y : float) : res float :=
  if feq y fzero then Raise ZeroDivisionError
  else
    let m := ffmod x y in
    let div := fdiv_ieee (fsub x m) y in
    let div :=
      if negb (feq m fzero) && negb (Bool.eqb (flt y fzero) (flt m fzero)) then fsub div fone else div in
    Ok (if negb (feq div fzero)
        then let f := ffloor div in if flt (lit 5 1) (fsub div f) then fadd f fone else f
        else copysign_zero (fdiv_ieee x y)).

(** [int(x)]. *)
Definition py_int (x : float) : res Z :=
  match x with
  | S754_nan => Raise (ValueError "cannot convert float NaN to integer")
  | S754_infinity _ => Raise OverflowError
  | S754_zero _ => Ok 0
  | S754_finite s m e =>
      let n := if 0 <=? e then Zpos m * 2 ^ e else Zpos m / 2 ^ (- e) in
      Ok (if s then - n else n)
  end.

Example floordiv_ex :
  (py_floordiv (lit 10855 4) (lit 1 3) ≫= py_int) = Ok 1085 /\
  (py_floordiv (of_Z 1) (lit 1 1) ≫= py_int) = Ok 9 /\
  (py_floordiv (of_Z (-7)) (of_Z 2) ≫= py_int) = Ok (-4).
Proof. vm_compute. by split_and!. Qed.

(** ** Exactness *)

Lemma unit_pow_0_split f : -1074 <= f <= 0 -> unit_pow 0 = 2 ^ (- f) * unit_pow f.
Proof.
  intros Hf. rewrite (unit_pow_split f 0) by (unfold ebase; lia). replace (0 - f) with (- f) by lia. lia.
Qed.

Lemma fin_nonneg_inv x : fin x -> 0 < fv x ->
  exists m e, x = S754_finite false m e /\ -1074 <= e <= 971 /\ 0 < Zpos m < 2 ^ 53 /\ fv x = Zpos m * unit_pow e.
Proof.
  intros Fx Hx. destruct (fin_inv x Fx) as [(s & ->)|(s & m & e & -> & He & Hm & _)]; [done|].
  assert (0 < unit_pow e) by (apply unit_pow_pos; unfold ebase; lia).
  destruct s; [cbn [fv] in Hx; lia|]. exists m, e. repeat split; try lia. cbn [fv]. lia.
Qed.

(** The remainder is exact. *)
Lemma ffmod_exact x y :
  fin x -> fin y -> 0 < fv x -> 0 < fv y -> fin (ffmod x y) /\ fv (ffmod x y) = fv x mod fv y.
Proof.
  intros Fx Fy Hx Hy.
  destruct (fin_nonneg_inv x Fx Hx) as (mx & ex & -> & Hex & Hmx & Ex).
  destruct (fin_nonneg_inv y Fy Hy) as (my & ey & -> & Hey & Hmy & Ey).
  rewrite Ex, Ey. cbn [ffmod]. set (e := Z.min ex ey). set (a := Zpos mx * 2 ^ (ex - e)). set (b := Zpos my * 2 ^ (ey - e)).
  assert (Hu : 0 < unit_pow e) by (apply unit_pow_pos; unfold ebase; lia).
  assert (Hb : 0 < b) by (unfold b; assert (0 < 2 ^ (ey - e)) by (apply Z.pow_pos_nonneg; lia); nia).
  assert (Ha : 0 < a) by (unfold a; assert (0 < 2 ^ (ex - e)) by (apply Z.pow_pos_nonneg; lia); nia).
  rewrite (unit_pow_split e ex), (unit_pow_split e ey) by (unfold ebase; lia).
  rewrite !Z.mul_assoc. fold a b. rewrite Z.mul_mod_distr_r by lia.
  pose proof (Z.mod_pos_bound a b Hb) as Hr. pose proof (Z.mod_le a b ltac:(lia) Hb) as Hra.
  assert (Hsmall : a mod b < 2 ^ 53).
  { destruct (Z.le_gt_cases ex ey).
    - assert (Ee : e = ex) by lia. unfold a in Hra at 2. rewrite Ee, Z.sub_diag, Z.pow_0_r in Hra. lia.
    - assert (Ee : e = ey) by lia. unfold b in Hr at 3. rewrite Ee, Z.sub_diag, Z.pow_0_r in Hr. lia. }
  destruct (Z.eqb_spec (a mod b) 0) as [E0|N0].
  { rewrite E0. split; [done|]. cbn [fv]. lia. }
  destruct (grid_fin (a mod b) e) as (z & Fz & Ez); [lia|lia|].
  pose proof (binary_normalize_bounds (a mod b) e false ltac:(unfold ebase; lia)) as R. rewrite <- Ez in R.
  rewrite <- Ez. split.
  - by apply (rounds_fin _ _ _ z z R); try lia.
  - apply (rounds_representable _ 1 _ z) in R; try done; lia.
Qed.

Lemma ffloor_exact x :
  fin x -> 0 < fv x < 2 ^ 53 * unit_pow 0 ->
  fin (ffloor x) /\ fv (ffloor x) = fv x / unit_pow 0 * unit_pow 0.
Proof.
  intros Fx Hx. assert (HU : 0 < unit_pow 0) by done.
  destruct (fin_nonneg_inv x Fx ltac:(lia)) as (m & e & -> & He & Hm & Ex).
  cbn [ffloor]. destruct (Z.leb_spec 0 e) as [H0|H0].
  - split; [done|]. rewrite Ex, (unit_pow_split 0 e) by (unfold ebase; lia).
    rewrite Z.mul_assoc, Z.div_mul by lia. done.
  - rewrite Ex, (unit_pow_0_split e) by lia.
    assert (Hu : 0 < unit_pow e) by (apply unit_pow_pos; unfold ebase; lia).
    assert (Hp : 0 < 2 ^ (- e)) by (apply Z.pow_pos_nonneg; lia).
    rewrite Z.div_mul_cancel_r by lia. rewrite <- (unit_pow_0_split e) by lia.
    apply of_Z_exact. split; [apply Z.div_pos; lia|]. apply Z.le_lt_trans with (Zpos m); [|lia].
    apply Z.div_le_upper_bound; [done|]. nia.
Qed.

Lemma py_int_exact x n : fin x -> 0 <= n -> fv x = n * unit_pow 0 -> py_int x = Ok n.
Proof.
  intros Fx Hn E. assert (HU : 0 < unit_pow 0) by done.
  destruct (Z.eq_dec n 0) as [->|].
  { destruct (fin_inv x Fx) as [(s & ->)|(s & m & e & -> & He & _)]; [done|].
    assert (0 < unit_pow e) by (apply unit_pow_pos; unfold ebase; lia). cbn [fv] in E. destruct s; lia. }
  destruct (fin_nonneg_inv x Fx ltac:(nia)) as (m & e & -> & He & Hm & Ex). rewrite Ex in E.
  cbn [py_int]. f_equal. destruct (Z.leb_spec 0 e) as [H0|H0].
  - rewrite (unit_pow_split 0 e), Z.sub_0_r in E by (unfold ebase; lia). nia.
  - rewrite (unit_pow_0_split e) in E by lia.
    assert (Hu : 0 < unit_pow e) by (apply unit_pow_pos; unfold ebase; lia).
    assert (Hp : 0 < 2 ^ (- e)) by (apply Z.pow_pos_nonneg; lia).
    assert (Em : Zpos m = n * 2 ^ (- e)) by nia. rewrite Em. by rewrite Z.div_mul by lia.
Qed.

(** The relative error of a rounding, away from the subnormal range. *)
Lemma rounds_relative n d r :
  0 < d -> rounds n d r -> fin r -> 2 ^ 52 * unit_pow (-1074) <= fv r < 2 ^ 52 * unit_pow 971 ->
  (2 ^ 52 - 1) * fv r * d <= 2 ^ 52 * n <= (2 ^ 52 + 1) * fv r * d.
Proof.
  intros Hd (_ & Hu & Hl) Fr Hr. assert (0 < unit_pow (-1074)) by done.
  destruct (fin_pred r Fr ltac:(lia)) as (p & u & Fp & Ep & Hup & Hcp).
  destruct (fin_succ r Fr ltac:(lia)) as (q & u' & Fq & Eq & Huq & Hcq).
  assert (Hp : 2 ^ 52 * u <= fv r) by (destruct Hcp as [->|]; lia).
  assert (Hq : 2 ^ 52 * u' <= fv r) by (destruct Hcq as [->|]; lia).
  assert (Hn1 : fv p * d < n).
  { apply Z.nle_gt. intros Hle. specialize (Hu p Fp Hle). lia. }
  assert (Hn2 : n < fv q * d).
  { apply Z.nle_gt. intros Hle. specialize (Hl q Fq Hle). lia. }
  rewrite Ep in Hn1. rewrite Eq in Hn2.
  set (U1 := unit_pow (-1074)) in *. clearbody U1. set (U2 := unit_pow 971) in *. clearbody U2.
  change (2 ^ 52) with 4503599627370496 in *.
  generalize dependent (fv r). intros R. intros. split; nia.
Qed.

(** The quotient, rounded twice, is within one half of the exact integer. *)
Lemma quotient_near (k z w D : Z) :
  let U := unit_pow 0 in
  0 < w -> 0 < z -> 0 < D -> 0 < k < 2 ^ 49 ->
  (2 ^ 52 - 1) * z <= 2 ^ 52 * (k * w) <= (2 ^ 52 + 1) * z ->
  (2 ^ 52 - 1) * D * w <= 2 ^ 52 * (z * U) <= (2 ^ 52 + 1) * D * w ->
  (2 * k - 1) * U < 2 * D < (2 * k + 1) * U.
Proof.
  intros U Hw Hz HD Hk [Hz1 Hz2] [HD1 HD2]. assert (HU : 0 < U) by done. clearbody U.
  set (A := 2 ^ 52) in *. assert (EA : A = 4503599627370496) by reflexivity.
  assert (L1 : A * A * k * U * w <= (A + 1) * (A + 1) * D * w).
  { assert (A * U * (A * (k * w)) <= A * U * ((A + 1) * z)) by (apply Z.mul_le_mono_nonneg_l; nia).
    assert ((A + 1) * (A * (z * U)) <= (A + 1) * ((A + 1) * D * w)) by (apply Z.mul_le_mono_nonneg_l; lia). lia. }
  assert (L2 : (A - 1) * (A - 1) * D * w <= A * A * k * U * w).
  { assert (A * U * ((A - 1) * z) <= A * U * (A * (k * w))) by (apply Z.mul_le_mono_nonneg_l; nia).
    assert ((A - 1) * ((A - 1) * D * w) <= (A - 1) * (A * (z * U))) by (apply Z.mul_le_mono_nonneg_l; lia). lia. }
  apply Z.mul_le_mono_pos_r in L1, L2; [|done|done].
  assert (K1 : (2 * k - 1) * ((A + 1) * (A + 1)) < 2 * (A * A * k)) by (rewrite EA; lia).
  assert (K2 : 2 * (A * A * k) < (2 * k + 1) * ((A - 1) * (A - 1))) by (rewrite EA; lia).
  assert (M1 : (2 * k - 1) * ((A + 1) * (A + 1)) * U < 2 * (A * A * k) * U) by (by apply Z.mul_lt_mono_pos_r).
  assert (M2 : 2 * (A * A * k) * U < (2 * k + 1) * ((A - 1) * (A - 1)) * U) by (by apply Z.mul_lt_mono_pos_r).
  split.
  - apply (Z.mul_lt_mono_pos_l ((A + 1) * (A + 1))); [rewrite EA; lia|]. lia.
  - apply (Z.mul_lt_mono_pos_l ((A - 1) * (A - 1))); [rewrite EA; lia|]. lia.
Qed.

Lemma snap_exact div k :
  fin div -> 0 < k < 2 ^ 49 -> (2 * k - 1) * unit_pow 0 < 2 * fv div < (2 * k + 1) * unit_pow 0 ->
  py_int (let f := ffloor div in if flt (lit 5 1) (fsub div f) then fadd f fone else f) = Ok k.
Proof.
  intros Fd Hk Hd. cbv zeta. assert (HU : 0 < unit_pow 0) by done.
  assert (E5 : 2 * fv (lit 5 1) = unit_pow 0) by (vm_compute; reflexivity).
  assert (Hpos : 0 < fv div < 2 ^ 53 * unit_pow 0) by (set (U := unit_pow 0) in *; clearbody U; nia).
  destruct (ffloor_exact div Fd Hpos) as [Ff Ef].
  set (n := fv div / unit_pow 0) in *.
  assert (Hn : n * unit_pow 0 <= fv div < (n + 1) * unit_pow 0).
  { unfold n. pose proof (Z.mul_div_le (fv div) (unit_pow 0) HU). pose proof (Z.mul_succ_div_gt (fv div) (unit_pow 0) HU). lia. }
  assert (Hnk : n = k \/ n = k - 1) by (set (U := unit_pow 0) in *; clearbody U; nia).
  destruct (fin_on_grid div Fd ltac:(lia)) as (j & g & Hg & Hj & Ej).
  assert (Hsub : fin (fsub div (ffloor div)) /\ fv (fsub div (ffloor div)) = fv div - n * unit_pow 0).
  { rewrite <- Ef. apply (fsub_grid_exact div (ffloor div) j (n * 2 ^ (- g)) g); [done|done|lia|done| |].
    - rewrite Ef, (unit_pow_0_split g) by lia. lia.
    - assert (Hu : 0 < unit_pow g) by (apply unit_pow_pos; unfold ebase; lia).
      rewrite Ej, (unit_pow_0_split g) in Hn by lia.
      assert (Hn0 : 0 <= n * 2 ^ (- g)) by (apply Z.mul_nonneg_nonneg; [lia|apply Z.pow_nonneg; lia]).
      split; [|lia]. rewrite Z.mul_assoc in Hn. destruct Hn as [Hn _]. apply Z.mul_le_mono_pos_r in Hn; lia. }
  destruct Hsub as [Fs Es]. rewrite flt_fv by (apply fin_num; done). rewrite Es.
  destruct (Z.ltb_spec (fv (lit 5 1)) (fv div - n * unit_pow 0)) as [Hlt|Hge].
  - assert (n = k - 1) as E by (destruct Hnk; [subst n; set (U := unit_pow 0) in *; clearbody U; lia|done]).
    rewrite E in Ef. destruct (of_Z_exact k ltac:(lia)) as [Fk Ek].
    pose proof (fadd_rounds (ffloor div) fone Ff fin_fone) as R. rewrite Ef, fv_fone in R.
    apply py_int_exact; [|lia|].
    + apply (rounds_fin _ _ _ (of_Z k) (of_Z k) R); try done; rewrite Ek; lia.
    + rewrite (rounds_representable _ 1 _ (of_Z k) ltac:(lia) R Fk); [done|rewrite Ek; lia].
  - apply py_int_exact; [done|lia|]. rewrite Ef. destruct Hnk as [->|En]; [done|]. exfalso.
    rewrite En in Hge. set (U := unit_pow 0) in *. clearbody U. lia.
Qed.

Lemma feq_zero x : num x -> feq x fzero = (fv x =? 0).
Proof. intros Nx. rewrite feq_fv by (done || by apply fin_num). by rewrite fv_fzero. Qed.

(** The floor division of positive floats whose quotient is below [2^49] is the
    floor of the exact quotient. *)
Theorem floordiv_exact x y :
  fin x -> fin y -> 0 < fv x < unit_pow 900 -> unit_pow (-900) <= fv y -> fv x / fv y < 2 ^ 49 ->
  exists f, py_floordiv x y = Ok f /\ py_int f = Ok (fv x / fv y).
Proof.
  intros Fx Fy Hx Hy Hq. assert (HU : 0 < unit_pow 0) by done. assert (0 < unit_pow (-900)) by done.
  assert (Hy0 : 0 < fv y) by lia.
  destruct (ffmod_exact x y Fx Fy ltac:(lia) Hy0) as [Fm Em].
  pose proof (Z.mod_pos_bound (fv x) (fv y) Hy0) as Hm. pose proof (Z.div_mod (fv x) (fv y) ltac:(lia)) as Hdm.
  set (k := fv x / fv y) in *. assert (Hk : 0 <= k) by (apply Z.div_pos; lia).
  unfold py_floordiv. rewrite feq_zero by (by apply fin_num). rewrite (proj2 (Z.eqb_neq _ _)) by lia.
  cbv zeta. eexists. split; [reflexivity|].
  replace (Bool.eqb (flt y fzero) (flt (ffmod x y) fzero)) with true.
  2: { rewrite !flt_fv by (done || by apply fin_num). rewrite fv_fzero.
       rewrite !(proj2 (Z.ltb_ge _ _)) by lia. done. }
  cbn [negb]. rewrite andb_false_r.
  pose proof (fsub_rounds x (ffmod x y) Fx Fm) as Rz. rewrite Em in Rz.
  replace (fv x - fv x mod fv y) with (k * fv y) in Rz by lia.
  set (z := fsub x (ffmod x y)) in *.
  assert (Fz : fin z).
  { apply (rounds_fin _ _ _ fzero x Rz); [done|done|rewrite fv_fzero; nia|nia]. }
  destruct (Z.eq_dec k 0) as [E0|N0].
  { assert (Ez : fv z = 0).
    { rewrite <- fv_fzero. apply (rounds_representable _ 1 _ fzero ltac:(lia) Rz); [done|]. rewrite fv_fzero, E0. lia. }
    destruct (fdiv_ratio z y Fz Fy) as [Fd Hd]; [lia|done|].
    assert (Ed : fv (fdiv_ieee z y) = 0).
    { rewrite <- fv_fzero. apply (rounds_representable (fv z * unit_pow 0) (fv y)); [done| |done|rewrite fv_fzero; lia].
      by apply fdiv_rounds. }
    rewrite feq_zero by (by apply fin_num). rewrite Ed, Z.eqb_refl, E0. cbn [negb].
    destruct (fdiv_ieee x y); done. }
  assert (Hzw : fv y <= fv z) by (apply Rz; [done|nia]).
  assert (Hzx : fv z <= fv x) by (apply Rz; [done|nia]).
  assert (H900 : unit_pow 900 <= 2 ^ 52 * unit_pow 971) by (by vm_compute).
  assert (H901 : 2 ^ 52 * unit_pow (-1074) <= unit_pow (-900)) by (by vm_compute).
  pose proof (rounds_relative _ 1 z ltac:(lia) Rz Fz ltac:(lia)) as Hrel. rewrite !Z.mul_1_r in Hrel.
  destruct (fdiv_rounds z y Fz Fy Hy0) as [_ Rd]. set (d := fdiv_ieee z y) in *.
  assert (Hd1 : unit_pow 0 <= fv d) by (rewrite <- fv_fone; apply Rd; [done|rewrite fv_fone; nia]).
  destruct (of_Z_exact (2 ^ 50) ltac:(lia)) as [FB EB].
  assert (Hd2 : fv d <= 2 ^ 50 * unit_pow 0).
  { rewrite <- EB. apply Rd; [done|]. rewrite EB. set (U := unit_pow 0) in *. clearbody U. nia. }
  assert (Fd : fin d).
  { apply (num_finite_of_bounds d fone (of_Z (2 ^ 50))); [apply Rd|done|done|rewrite fv_fone; lia]. }
  assert (Hd3 : 2 ^ 52 * unit_pow (-1074) <= unit_pow 0) by (by vm_compute).
  assert (Hd4 : 2 ^ 50 * unit_pow 0 < 2 ^ 52 * unit_pow 971) by (by vm_compute).
  pose proof (rounds_relative _ (fv y) d Hy0 Rd Fd ltac:(lia)) as Hrel'.
  pose proof (quotient_near k (fv z) (fv y) (fv d) Hy0 ltac:(lia) ltac:(lia) ltac:(lia) Hrel Hrel') as Hn.
  rewrite feq_zero by (by apply fin_num). rewrite (proj2 (Z.eqb_neq _ _)) by lia. cbn [negb].
  apply (snap_exact d k Fd ltac:(lia) Hn).
Qed.
