(* ===== verification/PyText.v ===== *)
(** * PyText: strings and datetimes

    The string methods the code uses on symbols and style names, over 8-bit
    characters, and [datetime] as a wall-clock reading with its UTC offset. *)

From Stdlib Require Import ZArith Lia Bool Ascii String.
From stdpp Require Import base list strings.
From S2P Require Import Prelude.

#[local] Open Scope string_scope.

(** ** Strings *)

Fixpoint str_remove (c : ascii) (s : string) : string :=
  match s with
  | EmptyString => EmptyString
  | String a s => if Ascii.eqb a c then str_remove c s else String a (str_remove c s)
  end.

(** [s.split(c)\[0\]]: everything before the first [c]. *)
Fixpoint str_before (c : ascii) (s : string) : string :=
  match s with
  | EmptyString => EmptyString
  | String a s => if Ascii.eqb a c then EmptyString else String a (str_before c s)
  end.

(** [s\[:n\]] for a non-negative [n]. *)
Fixpoint str_take (n : nat) (s : string) : string :=
  match n, s with
  | S n, String a s => String a (str_take n s)
  | _, _ => EmptyString
  end.

Fixpoint str_drop (n : nat) (s : string) : string :=
  match n, s with
  | S n, String _ s => str_drop n s
  | _, _ => s
  end.

Definition str_len (s : string) : Z := Z.of_nat (String.length s).

Definition str_startswith (s p : string) : bool := String.prefix p s.
Definition str_endswith (s p : string) : bool :=
  (String.length p <=? String.length s)%nat &&
  String.eqb (str_drop (String.length s - String.length p) s) p.

Definition is_space (a : ascii) : bool :=
  let n := nat_of_ascii a in
  ((n =? 32) || ((9 <=? n) && (n <=? 13)) || ((28 <=? n) && (n <=? 31)))%nat.

Fixpoint str_lstrip (s : string) : string :=
  match s with
  | String a s' => if is_space a then str_lstrip s' else s
  | EmptyString => EmptyString
  end.

Fixpoint str_rev_app (s acc : string) : string :=
  match s with
  | EmptyString => acc
  | String a s => str_rev_app s (String a acc)
  end.
Definition str_rev (s : string) : string := str_rev_app s EmptyString.

Definition str_strip (s : string) : string := str_rev (str_lstrip (str_rev (str_lstrip s))).

Definition upper_ascii (a : ascii) : ascii :=
  let n := nat_of_ascii a in
  if ((97 <=? n) && (n <=? 122))%nat then ascii_of_nat (n - 32) else a.

Fixpoint str_upper (s : string) : string :=
  match s with
  | EmptyString => EmptyString
  | String a s => String (upper_ascii a) (str_upper s)
  end.

Lemma str_remove_app c s t : str_remove c (s ++ t) = str_remove c s ++ str_remove c t.
Proof.
  induction s as [|a s IH]; simpl; [done|].
  destruct (Ascii.eqb a c); simpl; by rewrite IH.
Qed.

Lemma str_remove_idemp c s : str_remove c (str_remove c s) = str_remove c s.
Proof.
  induction s as [|a s IH]; simpl; [done|].
  destruct (Ascii.eqb a c) eqn:E; simpl; [done|]. by rewrite E, IH.
Qed.

Lemma str_remove_comm c d s : str_remove c (str_remove d s) = str_remove d (str_remove c s).
Proof.
  induction s as [|a s IH]; simpl; [done|].
  destruct (Ascii.eqb a c) eqn:Ec, (Ascii.eqb a d) eqn:Ed; simpl; rewrite ?Ec, ?Ed; [done|done|done|].
  by rewrite IH.
Qed.

Lemma str_remove_length c s : (String.length (str_remove c s) <= String.length s)%nat.
Proof. induction s as [|a s IH]; simpl; [lia|]. destruct (Ascii.eqb a c); simpl; lia. Qed.

Lemma str_before_app c s t : str_before c (s ++ String c t) = str_before c s.
Proof.
  induction s as [|a s IH]; simpl.
  - by rewrite Ascii.eqb_refl.
  - destruct (Ascii.eqb a c); [done|]. by rewrite IH.
Qed.

(** ** Datetimes

    [wall] is the wall-clock reading in microseconds since 1970-01-01T00:00 of
    its own zone and [utcoffset] the offset of that zone from UTC ([None] for a
    naive datetime).  Two aware datetimes compare by the instant they denote;
    [hour] and the date read the wall clock. *)

#[local] Close Scope string_scope.

Record datetime := mk_datetime { wall : Z; utcoffset : option Z }.

Definition instant (d : datetime) : Z :=
  match utcoffset d with Some o => wall d - o | None => wall d end.

Definition dt_eqb (a b : datetime) : bool := instant a =? instant b.
Definition dt_ltb (a b : datetime) : bool := instant a <? instant b.
Definition dt_leb (a b : datetime) : bool := instant a <=? instant b.

Definition us_per_hour : Z := 3600 * 1000000.
Definition us_per_day : Z := 24 * us_per_hour.

Definition dt_hour (d : datetime) : Z := (wall d / us_per_hour) mod 24.

(** The calendar day of [strftime("%Y-%m-%d")], as a day number: strings of
    four-digit years compare in the order of the days they name. *)
Definition dt_day (d : datetime) : Z := wall d / us_per_day.

Definition is_aware (d : datetime) : bool :=
  match utcoffset d with Some _ => true | None => false end.

Lemma dt_hour_range d : 0 <= dt_hour d <= 23.
Proof. unfold dt_hour. pose proof (Z.mod_pos_bound (wall d / us_per_hour) 24). lia. Qed.
