(* ===== verification/PyRepr.v ===== *)
(** * Text of numbers and datetimes

    What the code prints into identifiers: [str(x)] of a float (the shortest
    decimal that reads back as the float), [f"{x:.3f}"], and
    [datetime.isoformat()].  Zero-padded fields are injective, and a datetime can
    be read back from its ISO text. *)

From Stdlib Require Import ZArith Lia Bool Ascii String SpecFloat.
From stdpp Require Import base list strings pretty.
From S2P Require Import Prelude Loops PyFloat FloatRound FloatMono PyRound PyText.

#[local] Open Scope list_scope.
#[local] Open Scope string_scope.
#[local] Open Scope Z_scope.

(** ** Digits *)

Definition digit (n : Z) : ascii := ascii_of_nat (48 + Z.to_nat n).

(** [str(n)] of an integer that is not negative. *)
Definition str_nat (n : Z) : string := pretty (Z.to_N n).

(** The last [w] decimal digits of [n], as [f"{n:0wd}"] prints them when [n]
    has at most [w] digits. *)
Fixpoint zpad (w : nat) (n : Z) : string :=
  match w with
  | O => ""
  | S w => zpad w (n / 10) ++ String (digit (n mod 10)) ""
  end.

Fixpoint zeros (n : nat) : string :=
  match n with O => "" | S n => String "0" (zeros n) end.

(** ** Floats *)

(** The decimal [m * 10^e], read as a float. *)
Definition dec_float (m e : Z) : float :=
  if 0 <=? e then lit (m * 10 ^ e) 0 else lit m (Z.to_nat (- e)).

(** The least [j >= 1] with [v * 10^j >= u]. *)
Fixpoint leading_zeros (fuel : nat) (j v u : Z) : Z :=
  match fuel with
  | O => j
  | S fuel => if u <=? v * 10 then j else leading_zeros fuel (j + 1) (v * 10) u
  end.

(** [k] with [10^(k-1) <= |x| < 10^k], for the value [v / u]. *)
Definition decimal_point (v u : Z) : Z :=
  if u <=? v then Z.of_nat (String.length (str_nat (v / u)))
  else 1 - leading_zeros 400 1 v u.

(** [v / u] rounded half-to-even to a multiple of [10^e]. *)
Definition dec_round (v u e : Z) : Z :=
  if 0 <=? e then rne v (u * 10 ^ e) else rne (v * 10 ^ (- e)) u.

(** The shortest digit string, of at most 17 digits, that reads back as [x]. *)
Fixpoint shortest (fuel : nat) (d : Z) (x : float) (v u k : Z) : Z * Z :=
  let m := dec_round v u (k - d) in
  match fuel with
  | O => (m, k - d)
  | S fuel => if feq (dec_float m (k - d)) x then (m, k - d) else shortest fuel (d + 1) x v u k
  end.

Fixpoint strip_zeros (fuel : nat) (m e : Z) : Z * Z :=
  match fuel with
  | O => (m, e)
  | S fuel => if (m mod 10 =? 0) && negb (m =? 0) then strip_zeros fuel (m / 10) (e + 1) else (m, e)
  end.

(** Layout of the digits [m] with exponent [e]: positional for a decimal point
    within [-4 < p <= 16], scientific otherwise. *)
Definition float_layout (m e : Z) : string :=
  let ds := str_nat m in
  let n := Z.of_nat (String.length ds) in
  let p := n + e in
  if (-4 <? p) && (p <=? 16) then
    if p <=? 0 then "0." ++ zeros (Z.to_nat (- p)) ++ ds
    else if n <=? p then ds ++ zeros (Z.to_nat (p - n)) ++ ".0"
    else str_take (Z.to_nat p) ds ++ "." ++ str_drop (Z.to_nat p) ds
  else
    let x := p - 1 in
    (if n =? 1 then ds else str_take 1 ds ++ "." ++ str_drop 1 ds) ++
    (if x <? 0 then "e-" else "e+") ++
    (if Z.abs x <? 10 then "0" else "") ++ str_nat (Z.abs x).

(** [str(x)]. *)
Definition py_str_float (x : float) : string :=
  match x with
  | S754_zero s => if s then "-0.0" else "0.0"
  | S754_infinity s => if s then "-inf" else "inf"
  | S754_nan => "nan"
  | S754_finite s m e =>
      let v := Zpos m * 2 ^ Z.max e 0 in
      let u := 2 ^ Z.max (- e) 0 in
      let '(m, e) := shortest 16 1 (fabs x) v u (decimal_point v u) in
      let '(m, e) := strip_zeros 20 m e in
      (if s then "-" else "") ++ float_layout m e
  end.

(** [f"{x:.<nd>f}"] of a finite float. *)
Definition fixed_str (x : float) (nd : nat) : string :=
  let n := rne (Z.abs (fv x) * 10 ^ Z.of_nat nd) (unit_pow 0) in
  (match x with S754_zero s | S754_finite s _ _ => if s then "-" else "" | _ => "" end) ++
  str_nat (n / 10 ^ Z.of_nat nd) ++ "." ++ zpad nd (n mod 10 ^ Z.of_nat nd).

Example py_str_float_ex :
  map py_str_float [lit 10855 4; of_Z 1; lit 1 1; of_Z 150250; of_Z (10 ^ 16); lit 12345 9] =
  ["1.0855"; "1.0"; "0.1"; "150250.0"; "1e+16"; "1.2345e-05"]%list /\
  py_str_float (fadd (lit 1 1) (lit 2 1)) = "0.30000000000000004".
Proof. vm_compute. by split. Qed.

Example fixed_str_ex :
  fixed_str (lit 6374 4) 3 = "0.637" /\ fixed_str fzero 3 = "0.000".
Proof. vm_compute. by split. Qed.

(** ** The calendar *)

(** Year, month and day of a day number counted from 1970-01-01. *)
Definition civil (days : Z) : Z * Z * Z :=
  let z := days + 719468 in
  let era := z / 146097 in
  let doe := z mod 146097 in
  let yoe := (doe - doe / 1460 + doe / 36524 - doe / 146096) / 365 in
  let doy := doe - (365 * yoe + yoe / 4 - yoe / 100) in
  let mp := (5 * doy + 2) / 153 in
  let d := doy - (153 * mp + 2) / 5 + 1 in
  let m := if mp <? 10 then mp + 3 else mp - 9 in
  (yoe + era * 400 + (if m <=? 2 then 1 else 0), m, d).

Definition days_of_civil (y m d : Z) : Z :=
  let y := if m <=? 2 then y - 1 else y in
  let mp := if 2 <? m then m - 3 else m + 9 in
  y / 400 * 146097 + (y mod 400 * 365 + y mod 400 / 4 - y mod 400 / 100 + ((153 * mp + 2) / 5 + d - 1))
  - 719468.

Definition us_per_minute : Z := 60 * 1000000.

(** [+HH:MM\[:SS\[.ffffff\]\]] of an offset. *)
Definition offset_str (o : Z) : string :=
  let a := Z.abs o in
  (if o <? 0 then "-" else "+") ++ zpad 2 (a / us_per_hour) ++ ":" ++ zpad 2 (a / us_per_minute mod 60) ++
  (if a mod us_per_minute =? 0 then ""
   else ":" ++ zpad 2 (a / 1000000 mod 60) ++
        (if a mod 1000000 =? 0 then "" else "." ++ zpad 6 (a mod 1000000))).

(** [dt.isoformat()]. *)
Definition isoformat (d : datetime) : string :=
  let '(year, month, day) := civil (dt_day d) in
  let t := wall d mod us_per_day in
  zpad 4 year ++ "-" ++ zpad 2 month ++ "-" ++ zpad 2 day ++ "T" ++
  zpad 2 (t / us_per_hour) ++ ":" ++ zpad 2 (t / us_per_minute mod 60) ++ ":" ++
  zpad 2 (t / 1000000 mod 60) ++
  (if t mod 1000000 =? 0 then "" else "." ++ zpad 6 (t mod 1000000)) ++
  match utcoffset d with None => "" | Some o => offset_str o end.

(** What the [datetime] type admits: years 1 to 9999, offsets within a day. *)
Definition dt_ok (d : datetime) : Prop :=
  1 <= fst (fst (civil (dt_day d))) <= 9999 /\
  match utcoffset d with None => True | Some o => - us_per_day < o < us_per_day end.

Example isoformat_ex :
  isoformat (mk_datetime 1709210096000000 (Some 0)) = "2024-02-29T12:34:56+00:00" /\
  isoformat (mk_datetime 951782400000001 None) = "2000-02-29T00:00:00.000001" /\
  isoformat (mk_datetime (-1) (Some (-19800000000))) = "1969-12-31T23:59:59.999999-05:30".
Proof. vm_compute. repeat split. Qed.

Module ReprFacts.

Lemma str_cons_app c (s t : string) : String c s ++ t = String c (s ++ t).
Proof. reflexivity. Qed.
Lemma str_cons_inj c (s t : string) : String c s = String c t -> s = t.
Proof. by intros [= ->]. Qed.
Lemma str_nil_app (s : string) : "" ++ s = s.
Proof. reflexivity. Qed.
Lemma str_app_nil (s : string) : s ++ "" = s.
Proof. induction s as [|c s IH]; [done|]. by rewrite str_cons_app, IH. Qed.
Lemma str_app_assoc (s t u : string) : (s ++ t) ++ u = s ++ (t ++ u).
Proof. induction s as [|c s IH]; [done|]. by rewrite !str_cons_app, IH. Qed.

Tactic Notation "str_simpl" "in" hyp(H) := rewrite ?str_app_assoc, ?str_cons_app, ?str_nil_app in H.

Lemma str_length_app (a b : string) :
  String.length (a ++ b) = (String.length a + String.length b)%nat.
Proof. induction a as [|x a IH]; simpl; [done|]. by rewrite IH. Qed.

Lemma length_zpad w n : String.length (zpad w n) = w.
Proof.
  revert n. induction w as [|w IH]; intros n; cbn [zpad]; [done|].
  rewrite str_length_app, IH. cbn. lia.
Qed.

Lemma digit_inj a b : 0 <= a < 10 -> 0 <= b < 10 -> digit a = digit b -> a = b.
Proof.
  intros Ha Hb E. apply (f_equal nat_of_ascii) in E. unfold digit in E.
  rewrite !nat_ascii_embedding in E by lia. lia.
Qed.

(** Strings of equal length split in one way. *)
Lemma str_app_inj (a b c d : string) :
  String.length a = String.length b -> a ++ c = b ++ d -> a = b /\ c = d.
Proof.
  revert b. induction a as [|x a IH]; intros [|y b]; cbn; intros Hl E; try done.
  injection E as -> E. injection Hl as Hl. by destruct (IH b Hl E) as [-> ->].
Qed.

Lemma zpad_inj w a b : 0 <= a < 10 ^ Z.of_nat w -> 0 <= b < 10 ^ Z.of_nat w -> zpad w a = zpad w b -> a = b.
Proof.
  revert a b. induction w as [|w IH]; intros a b Ha Hb E; [cbn in *; lia|].
  rewrite Nat2Z.inj_succ, Z.pow_succ_r in Ha, Hb by lia. cbn [zpad] in E.
  apply str_app_inj in E as [E1 E2]; [|by rewrite !length_zpad]. injection E2 as E2.
  apply digit_inj in E2; [|apply Z.mod_pos_bound; lia..].
  apply IH in E1; [|split; [apply Z.div_pos|apply Z.div_lt_upper_bound]; lia..].
  rewrite (Z.div_mod a 10), (Z.div_mod b 10) by lia. congruence.
Qed.

#[local] Opaque zpad.

(** Peel equal fields of fixed width off an equation between strings. *)
Lemma zpad_peel w a b (s t : string) :
  0 <= a < 10 ^ Z.of_nat w -> 0 <= b < 10 ^ Z.of_nat w ->
  zpad w a ++ s = zpad w b ++ t -> a = b /\ s = t.
Proof.
  intros Ha Hb E. apply str_app_inj in E as [E ->]; [|by rewrite !length_zpad].
  split; [|done]. by eapply zpad_inj.
Qed.

(** *** The calendar is a bijection *)

Section Calendar.
Context (doe : Z) (Hdoe : 0 <= doe < 146097).
Let yoe := (doe - doe / 1460 + doe / 36524 - doe / 146096) / 365.

Lemma yoe_range : 0 <= yoe < 400.
Proof using Hdoe. unfold yoe. Z.to_euclidean_division_equations. lia. Qed.

Lemma doy_range : 0 <= doe - (365 * yoe + yoe / 4 - yoe / 100) <= 365.
Proof using Hdoe. unfold yoe. Z.to_euclidean_division_equations. lia. Qed.
End Calendar.

Lemma civil_spec n :
  let '(y, m, d) := civil n in 1 <= m <= 12 /\ 1 <= d <= 31 /\ days_of_civil y m d = n.
Proof.
  unfold civil, days_of_civil. cbv zeta.
  set (doe := (n + 719468) mod 146097). set (era := (n + 719468) / 146097).
  assert (Hd : 0 <= doe < 146097) by (apply Z.mod_pos_bound; lia).
  assert (En : n + 719468 = era * 146097 + doe)
    by (pose proof (Z.div_mod (n + 719468) 146097 ltac:(lia)); unfold era, doe; lia).
  pose proof (yoe_range doe Hd) as Hy. pose proof (doy_range doe Hd) as Hdoy. cbv zeta in Hy, Hdoy.
  set (yoe := (doe - doe / 1460 + doe / 36524 - doe / 146096) / 365) in *.
  set (doy := doe - (365 * yoe + yoe / 4 - yoe / 100)) in *.
  assert (Hm : 0 <= (5 * doy + 2) / 153 <= 11) by (Z.to_euclidean_division_equations; lia).
  assert (Hdd : 0 <= doy - (153 * ((5 * doy + 2) / 153) + 2) / 5 <= 30)
    by (Z.to_euclidean_division_equations; lia).
  set (mp := (5 * doy + 2) / 153) in *.
  set (y := yoe + era * 400).
  assert (Hyd : y / 400 = era /\ y mod 400 = yoe).
  { unfold y. rewrite Z.div_add, Z.mod_add, (Z.div_small yoe), (Z.mod_small yoe) by lia. lia. }
  destruct Hyd as [Hy1 Hy2].
  destruct (mp <? 10) eqn:E1; zbool.
  - rewrite (proj2 (Z.leb_gt (mp + 3) 2)), (proj2 (Z.ltb_lt 2 (mp + 3))) by lia.
    rewrite Z.add_0_r, Hy1, Hy2. replace (mp + 3 - 3) with mp by lia. lia.
  - rewrite (proj2 (Z.leb_le (mp - 9) 2)), (proj2 (Z.ltb_ge 2 (mp - 9))) by lia.
    replace (y + 1 - 1) with y by lia. rewrite Hy1, Hy2. replace (mp - 9 + 9) with mp by lia. lia.
Qed.

Lemma offset_str_head o s : exists c r, offset_str o ++ s = String c r /\ (c = "+" \/ c = "-")%char.
Proof. unfold offset_str. cbv zeta. destruct (o <? 0); cbn; eauto. Qed.

(** Fields of a nonnegative number below [24 h]. *)
Lemma clock_fields t :
  t = (t / us_per_hour) * us_per_hour + (t / us_per_minute mod 60) * us_per_minute +
      (t / 1000000 mod 60) * 1000000 + t mod 1000000.
Proof.
  unfold us_per_hour, us_per_minute.
  replace (t / (3600 * 1000000)) with (t / 1000000 / 60 / 60) by (rewrite !Z.div_div by lia; f_equal).
  replace (t / (60 * 1000000)) with (t / 1000000 / 60) by (rewrite !Z.div_div by lia; f_equal).
  pose proof (Z.div_mod t 1000000 ltac:(lia)).
  pose proof (Z.div_mod (t / 1000000) 60 ltac:(lia)).
  pose proof (Z.div_mod (t / 1000000 / 60) 60 ltac:(lia)). lia.
Qed.

Lemma clock_ranges t :
  0 <= t < us_per_day ->
  0 <= t / us_per_hour < 10 ^ Z.of_nat 2 /\ 0 <= t / us_per_minute mod 60 < 10 ^ Z.of_nat 2 /\
  0 <= t / 1000000 mod 60 < 10 ^ Z.of_nat 2 /\ 0 <= t mod 1000000 < 10 ^ Z.of_nat 6.
Proof.
  unfold us_per_day, us_per_hour, us_per_minute. intros H.
  pose proof (Z.mod_pos_bound (t / (60 * 1000000)) 60 ltac:(lia)).
  pose proof (Z.mod_pos_bound (t / 1000000) 60 ltac:(lia)).
  pose proof (Z.mod_pos_bound t 1000000 ltac:(lia)).
  split; [split; [apply Z.div_pos|apply Z.div_lt_upper_bound]; lia|]. cbn. lia.
Qed.

(** The optional fraction: present exactly when it is not zero, and what follows
    does not begin with a point. *)
Definition fraction_str (f : Z) : string := if f =? 0 then "" else "." ++ zpad 6 f.

Definition no_point (s : string) : Prop :=
  match s with String c _ => c <> "."%char | EmptyString => True end.

Lemma fraction_peel f g s t :
  0 <= f < 10 ^ Z.of_nat 6 -> 0 <= g < 10 ^ Z.of_nat 6 -> no_point s -> no_point t ->
  fraction_str f ++ s = fraction_str g ++ t -> f = g /\ s = t.
Proof.
  intros Hf Hg Hs Ht. unfold fraction_str.
  destruct (f =? 0) eqn:Ef, (g =? 0) eqn:Eg; zbool; intros E.
  - subst. by split.
  - exfalso. str_simpl in E. subst s. by apply Hs.
  - exfalso. str_simpl in E. subst t. by apply Ht.
  - str_simpl in E. apply str_cons_inj in E. by apply zpad_peel in E.
Qed.

(** Hours and minutes, and seconds when they are not all zero. *)
Lemma minute_split a : a mod us_per_minute = (a / 1000000 mod 60) * 1000000 + a mod 1000000.
Proof.
  unfold us_per_minute. rewrite (Z.mul_comm 60 1000000), Z.rem_mul_r by lia. lia.
Qed.

Lemma seconds_peel a b :
  0 <= a < us_per_day -> 0 <= b < us_per_day ->
  (if a mod us_per_minute =? 0 then ""
   else ":" ++ zpad 2 (a / 1000000 mod 60) ++ fraction_str (a mod 1000000)) =
  (if b mod us_per_minute =? 0 then ""
   else ":" ++ zpad 2 (b / 1000000 mod 60) ++ fraction_str (b mod 1000000)) ->
  a mod us_per_minute = b mod us_per_minute.
Proof.
  intros Ha Hb. destruct (clock_ranges a Ha) as (_ & _ & Hs & Hf), (clock_ranges b Hb) as (_ & _ & Hs' & Hf').
  destruct (a mod us_per_minute =? 0) eqn:Ea, (b mod us_per_minute =? 0) eqn:Eb; zbool; intros E; try done;
    [congruence|]. str_simpl in E. apply str_cons_inj in E.
  apply zpad_peel in E as [E1 E2]; [|done..].
  destruct (fraction_peel (a mod 1000000) (b mod 1000000) "" "") as [E3 _]; [done..| |].
  { by rewrite E2. }
  rewrite !minute_split. congruence.
Qed.

Lemma offset_str_inj o p :
  - us_per_day < o < us_per_day -> - us_per_day < p < us_per_day -> offset_str o = offset_str p -> o = p.
Proof.
  intros Ho Hp. unfold offset_str. cbv zeta. intros E.
  destruct (clock_ranges (Z.abs o) ltac:(lia)) as (Hh & Hm & _).
  destruct (clock_ranges (Z.abs p) ltac:(lia)) as (Hh' & Hm' & _).
  apply str_app_inj in E as [Es E]; [|by destruct (o <? 0), (p <? 0)].
  apply zpad_peel in E as [E1 E]; [|done..]. str_simpl in E. apply str_cons_inj in E.
  apply zpad_peel in E as [E2 E]; [|done..].
  assert (E3 := seconds_peel (Z.abs o) (Z.abs p) ltac:(lia) ltac:(lia) E).
  assert (Ea : Z.abs o = Z.abs p).
  { rewrite (clock_fields (Z.abs o)), (clock_fields (Z.abs p)).
    rewrite !minute_split in E3. congruence || lia. }
  destruct (o <? 0) eqn:E4, (p <? 0) eqn:E5; zbool; try done; lia.
Qed.

Definition tz_str (o : option Z) : string := match o with None => "" | Some o => offset_str o end.

Lemma tz_no_point o : no_point (tz_str o).
Proof.
  destruct o as [o|]; [|done]. unfold tz_str. destruct (offset_str_head o "") as (c & r & E & Hc).
  assert (E0 : offset_str o = String c r).
  { by rewrite <- E, str_app_nil. }
  rewrite E0. cbn. destruct Hc as [-> | ->]; done.
Qed.

Lemma dt_eta d : d = mk_datetime (wall d) (utcoffset d).
Proof. by destruct d. Qed.

(** Two datetimes with the same ISO text are equal. *)
Theorem isoformat_inj a b : dt_ok a -> dt_ok b -> isoformat a = isoformat b -> a = b.
Proof.
  intros [Ya Oa] [Yb Ob]. unfold isoformat.
  pose proof (civil_spec (dt_day a)) as Ca. pose proof (civil_spec (dt_day b)) as Cb.
  destruct (civil (dt_day a)) as [[ya ma] da], (civil (dt_day b)) as [[yb mb] db]. cbn [fst] in *. cbv zeta.
  assert (Ra := Z.mod_pos_bound (wall a) us_per_day ltac:(done)).
  assert (Rb := Z.mod_pos_bound (wall b) us_per_day ltac:(done)).
  destruct (clock_ranges _ Ra) as (Ha1 & Ha2 & Ha3 & Ha4), (clock_ranges _ Rb) as (Hb1 & Hb2 & Hb3 & Hb4).
  change (match utcoffset a with Some o => offset_str o | None => "" end) with (tz_str (utcoffset a)).
  change (match utcoffset b with Some o => offset_str o | None => "" end) with (tz_str (utcoffset b)).
  change (10 ^ Z.of_nat 2) with 100 in *. intros E.
  apply zpad_peel in E as [-> E]; [|cbn; lia..]. str_simpl in E. apply str_cons_inj in E.
  apply zpad_peel in E as [-> E]; [|cbn; lia..]. str_simpl in E. apply str_cons_inj in E.
  apply zpad_peel in E as [-> E]; [|cbn; lia..]. str_simpl in E. apply str_cons_inj in E.
  apply zpad_peel in E as [E1 E]; [|done..]. str_simpl in E. apply str_cons_inj in E.
  apply zpad_peel in E as [E2 E]; [|done..]. str_simpl in E. apply str_cons_inj in E.
  apply zpad_peel in E as [E3 E]; [|done..].
  apply fraction_peel in E as [E4 E]; [|done..|apply tz_no_point|apply tz_no_point].
  assert (Et : wall a mod us_per_day = wall b mod us_per_day).
  { rewrite (clock_fields (wall a mod us_per_day)), (clock_fields (wall b mod us_per_day)). congruence. }
  assert (Ed : dt_day a = dt_day b) by (destruct Ca as (_ & _ & <-), Cb as (_ & _ & <-); done).
  rewrite (dt_eta a), (dt_eta b). f_equal.
  - rewrite (Z.div_mod (wall a) us_per_day), (Z.div_mod (wall b) us_per_day) by done.
    unfold dt_day in Ed. congruence.
  - destruct (utcoffset a) as [o|] eqn:Eo, (utcoffset b) as [p|] eqn:Ep; cbn [tz_str] in E; [|exfalso..|done].
    + f_equal. by apply offset_str_inj.
    + unfold offset_str in E. cbv zeta in E. destruct (o <? 0); done.
    + unfold offset_str in E. cbv zeta in E. destruct (p <? 0); done.
Qed.
End ReprFacts.
