(* ===== verification/Sha256.v ===== *)
(** * SHA-256, as [hashlib.sha256(...).hexdigest()] computes it

    The hash of FIPS 180-4 over bytes, on 32-bit words kept as integers modulo
    [2^32].  Candidate identifiers end with the first eight hexadecimal digits of
    such a hash. *)

From Stdlib Require Import ZArith Lia Bool Ascii String.
From stdpp Require Import base list strings.
From S2P Require Import Prelude PyText PyRepr.

#[local] Open Scope string_scope.
#[local] Open Scope list_scope.
#[local] Open Scope Z_scope.

Definition w32 (x : Z) : Z := Z.land x 4294967295.
Definition add32 (x y : Z) : Z := w32 (x + y).
Definition rotr (n x : Z) : Z := Z.lor (Z.shiftr x n) (w32 (Z.shiftl x (32 - n))).

Definition Ch (x y z : Z) : Z := Z.lxor (Z.land x y) (Z.land (Z.lxor x 4294967295) z).
Definition Maj (x y z : Z) : Z := Z.lxor (Z.lxor (Z.land x y) (Z.land x z)) (Z.land y z).
Definition Sigma0 (x : Z) : Z := Z.lxor (Z.lxor (rotr 2 x) (rotr 13 x)) (rotr 22 x).
Definition Sigma1 (x : Z) : Z := Z.lxor (Z.lxor (rotr 6 x) (rotr 11 x)) (rotr 25 x).
Definition sigma0 (x : Z) : Z := Z.lxor (Z.lxor (rotr 7 x) (rotr 18 x)) (Z.shiftr x 3).
Definition sigma1 (x : Z) : Z := Z.lxor (Z.lxor (rotr 17 x) (rotr 19 x)) (Z.shiftr x 10).

(** The constants: the first 32 fractional bits of the cube roots of the first
    64 primes, and of the square roots of the first eight. *)
Definition is_prime (n : Z) : bool :=
  forallb (fun d => negb (n mod d =? 0)) (py_range 2 (Z.sqrt n + 1)).
Definition primes (n : nat) : list Z := take n (List.filter is_prime (py_range 2 320)).

(** The greatest [r] below [2^bits] above [acc] with [r ^ 3 <= x], bit by bit. *)
Fixpoint cube_root (bits : nat) (acc x : Z) : Z :=
  match bits with
  | O => acc
  | S bits =>
      let r := acc + Z.shiftl 1 (Z.of_nat bits) in
      cube_root bits (if r * r * r <=? x then r else acc) x
  end.

Definition K256 : list Z :=
  Eval vm_compute in map (fun p => w32 (cube_root 36 0 (Z.shiftl p 96))) (primes 64).
Definition H256 : list Z := Eval vm_compute in map (fun p => w32 (Z.sqrt (Z.shiftl p 64))) (primes 8).

(** Padding: a one bit, zeros, and the length in bits on eight bytes. *)
Definition be_bytes (n : nat) (x : Z) : list Z :=
  map (fun i => Z.land (Z.shiftr x (8 * Z.of_nat i)) 255) (rev (seq 0 n)).

Definition sha_pad (m : list Z) : list Z :=
  let l := py_len m in
  m ++ 128 :: replicate (Z.to_nat ((55 - l) mod 64)) 0 ++ be_bytes 8 (8 * l).

Fixpoint words (fuel : nat) (bs : list Z) : list Z :=
  match fuel, bs with
  | S fuel, a :: b :: c :: d :: bs =>
      Z.lor (Z.shiftl a 24) (Z.lor (Z.shiftl b 16) (Z.lor (Z.shiftl c 8) d)) :: words fuel bs
  | _, _ => []
  end.

(** The message schedule, built backwards: the head is the latest word. *)
Fixpoint schedule (n : nat) (ws : list Z) : list Z :=
  match n with
  | O => ws
  | S n =>
      let w i := nth i ws 0 in
      schedule n (add32 (add32 (sigma1 (w 1%nat)) (w 6%nat)) (add32 (sigma0 (w 14%nat)) (w 15%nat)) :: ws)
  end.

Definition sha_round (st : list Z) (kw : Z * Z) : list Z :=
  match st with
  | [a; b; c; d; e; f; g; h] =>
      let t1 := add32 (add32 (add32 h (Sigma1 e)) (add32 (Ch e f g) (fst kw))) (snd kw) in
      let t2 := add32 (Sigma0 a) (Maj a b c) in
      [add32 t1 t2; a; b; c; add32 d t1; e; f; g]
  | _ => st
  end.

Definition sha_block (st : list Z) (block : list Z) : list Z :=
  let ws := rev (schedule 48 (rev block)) in
  zip_with add32 st (fold_left sha_round (zip K256 ws) st).

Fixpoint sha_blocks (fuel : nat) (st ws : list Z) : list Z :=
  match fuel, ws with
  | S fuel, _ :: _ => sha_blocks fuel (sha_block st (take 16 ws)) (drop 16 ws)
  | _, _ => st
  end.

Definition str_bytes (s : string) : list Z :=
  map (fun a => Z.of_N (N_of_ascii a)) (list_ascii_of_string s).

Definition sha256 (m : list Z) : list Z :=
  let bs := sha_pad m in
  let ws := words (length bs) bs in
  sha_blocks (length ws) H256 ws.

Definition hex_digit (n : Z) : ascii := if n <? 10 then digit n else ascii_of_nat (87 + Z.to_nat n).

Fixpoint hex (w : nat) (n : Z) : string :=
  match w with
  | O => ""
  | S w => (hex w (n / 16) ++ String (hex_digit (n mod 16)) "")%string
  end.

(** [hashlib.sha256(s.encode("utf-8")).hexdigest()] of an ASCII string. *)
Definition sha256_hexdigest (s : string) : string :=
  fold_right (fun w acc => (hex 8 w ++ acc)%string) "" (sha256 (str_bytes s)).

(** The test vectors of the standard: the empty message, one block, two blocks. *)
Example sha256_vectors :
  sha256_hexdigest "" = "e3b0c44298fc1c149afbf4c8996fb92427ae41e4649b934ca495991b7852b855" /\
  sha256_hexdigest "abc" = "ba7816bf8f01cfea414140de5dae2223b00361a396177a9cb410ff61f20015ad" /\
  sha256_hexdigest "abcdbcdecdefdefgefghfghighijhijkijkljklmklmnlmnomnopnopq" =
    "248d6a61d20638b8e5c026930c3e6039a33ce45964ff2167f6ecedd419db06c1".
Proof. vm_compute. repeat split. Qed.

(** The digest always has 64 hexadecimal digits. *)
Lemma sha_round_length st kw : length st = 8%nat -> length (sha_round st kw) = 8%nat.
Proof. destruct st as [|a [|b [|c [|d [|e [|f [|g [|h [|x st]]]]]]]]]; done. Qed.

Lemma sha_block_length st block : length st = 8%nat -> length (sha_block st block) = 8%nat.
Proof.
  intros Hst. unfold sha_block. cbv zeta. generalize (zip K256 (rev (schedule 48 (rev block)))) as kws.
  intros kws. rewrite length_zip_with. assert (H : length (fold_left sha_round kws st) = 8%nat).
  { revert st Hst. induction kws as [|kw kws IH]; intros st Hst; [done|]. cbn [fold_left].
    apply IH. by apply sha_round_length. }
  rewrite H, Hst. reflexivity.
Qed.

Lemma sha_blocks_length fuel st ws : length st = 8%nat -> length (sha_blocks fuel st ws) = 8%nat.
Proof.
  revert st ws. induction fuel as [|fuel IH]; intros st [|w ws] Hst; cbn [sha_blocks]; try done.
  apply IH. by apply sha_block_length.
Qed.

Lemma hex_length w n : String.length (hex w n) = w.
Proof.
  revert n. induction w as [|w IH]; intros n; cbn [hex]; [done|].
  rewrite ReprFacts.str_length_app, IH. cbn. lia.
Qed.

Lemma sha256_hexdigest_length s : String.length (sha256_hexdigest s) = 64%nat.
Proof.
  unfold sha256_hexdigest. assert (H : length (sha256 (str_bytes s)) = 8%nat)
    by (unfold sha256; cbv zeta; by apply sha_blocks_length).
  revert H. generalize (sha256 (str_bytes s)) as ws. intros ws H.
  assert (E : String.length (fold_right (fun w acc => (hex 8 w ++ acc)%string) "" ws) = (8 * length ws)%nat).
  { clear H. induction ws as [|w ws IH]; cbn [fold_right length]; [done|].
    rewrite ReprFacts.str_length_app, hex_length, IH. lia. }
  rewrite E, H. reflexivity.
Qed.
