(* ===== verification/Constants.v ===== *)
(** * Constants: the enumerations of [engine/ta/constants.py] *)

From Stdlib Require Import ZArith Lia.
From stdpp Require Import base list strings.
From S2P Require Import Prelude PyFloat.

Inductive Timeframe : Set :=
| M1 | M5 | M15 | M30 | H1 | H3 | H4 | H6 | H8 | H12 | D1 | W1 | MN1.

Definition TIMEFRAME_MINUTES (tf : Timeframe) : Z :=
  match tf with
  | M1 => 1 | M5 => 5 | M15 => 15 | M30 => 30
  | H1 => 60 | H3 => 180 | H4 => 240 | H6 => 360 | H8 => 480 | H12 => 720
  | D1 => 1440 | W1 => 10080 | MN1 => 43200
  end.

Inductive TimeframeRelation : Set := PARENT | CHILD | SAME | UNRELATED.

Inductive Session : Set := ASIA | LONDON | NEW_YORK | OVERLAP_LONDON_NY.

Definition SESSION_UTC_RANGES (s : Session) : Z * Z :=
  match s with
  | ASIA => (0, 9)
  | LONDON => (7, 16)
  | NEW_YORK => (12, 21)
  | OVERLAP_LONDON_NY => (12, 16)
  end.

Inductive Direction : Set := BULLISH | BEARISH | NEUTRAL.

Inductive StructureType : Set := BOS | CHOCH | BMS | SMS | SR_FLIP | RS_FLIP.

Inductive LiquidityType : Set :=
| BSL | SSL | EQUAL_HIGHS | EQUAL_LOWS | INDUCEMENT | COMPRESSION | PDH_SWEEP | PDL_SWEEP.

Inductive ZoneType : Set :=
| ORDER_BLOCK | FVG | BREAKER | MITIGATION | SUPPLY | DEMAND | QML | QMH | MPL.

Inductive CandleType : Set :=
| MARUBOZU_BULLISH | MARUBOZU_BEARISH | DOJI | HAMMER | SHOOTING_STAR
| ENGULFING_BULLISH | ENGULFING_BEARISH | STANDARD.

Inductive FibonacciLevel : Set :=
| LEVEL_0 | LEVEL_236 | LEVEL_382 | LEVEL_50 | LEVEL_618 | LEVEL_705 | LEVEL_786 | LEVEL_79
| LEVEL_100.

(** The dictionary in its insertion order. *)
Definition FIBONACCI_VALUES : list (FibonacciLevel * float) :=
  [ (LEVEL_0, lit 0 0); (LEVEL_236, lit 236 3); (LEVEL_382, lit 382 3); (LEVEL_50, lit 5 1);
    (LEVEL_618, lit 618 3); (LEVEL_705, lit 705 3); (LEVEL_786, lit 786 3); (LEVEL_79, lit 79 2);
    (LEVEL_100, lit 1 0) ].

Definition OTE_LEVELS : list FibonacciLevel := [LEVEL_618; LEVEL_705; LEVEL_786].

Inductive PriceZone : Set := PREMIUM | EQUILIBRIUM | DISCOUNT.

Inductive CandidatePattern : Set :=
| TURTLE_SOUP_LONG | TURTLE_SOUP_SHORT | SH_BMS_RTO_BULLISH | SH_BMS_RTO_BEARISH
| SMS_BMS_RTO_BULLISH | SMS_BMS_RTO_BEARISH | CHOCH_BMS_RTO_BULLISH | CHOCH_BMS_RTO_BEARISH
| AMD_BULLISH | AMD_BEARISH | QML_SR_FLIP_FAKEOUT | QML_RS_FLIP_FAKEOUT
| QML_MPL_SR_FLIP_FAKEOUT | QML_MPL_RS_FLIP_FAKEOUT | QML_PREVIOUS_HIGHS_MPL_SR_FLIP
| QML_PREVIOUS_LOWS_MPL_RS_FLIP | QML_TRIPLE_FAKEOUT_SELL | QML_TRIPLE_FAKEOUT_BUY
| FAKEOUT_KING_SELL | FAKEOUT_KING_BUY | PREVIOUS_HIGHS_SUPPLY_FAKEOUT
| PREVIOUS_LOWS_DEMAND_FAKEOUT | QML_BASELINE | QML_KILLER_TYPE1 | QML_KILLER_TYPE2
| QMH_BASELINE | QMH_KILLER_TYPE1 | QMH_KILLER_TYPE2 | FAKEOUT_KING | SOP | SND_CONTINUATION.

Inductive AMDPhase : Set := ACCUMULATION | MANIPULATION | DISTRIBUTION.

#[global] Instance Timeframe_eq_dec : EqDecision Timeframe.
Proof. solve_decision. Defined.
#[global] Instance TimeframeRelation_eq_dec : EqDecision TimeframeRelation.
Proof. solve_decision. Defined.
#[global] Instance Session_eq_dec : EqDecision Session.
Proof. solve_decision. Defined.
#[global] Instance Direction_eq_dec : EqDecision Direction.
Proof. solve_decision. Defined.
#[global] Instance LiquidityType_eq_dec : EqDecision LiquidityType.
Proof. solve_decision. Defined.
#[global] Instance StructureType_eq_dec : EqDecision StructureType.
Proof. solve_decision. Defined.
#[global] Instance ZoneType_eq_dec : EqDecision ZoneType.
Proof. solve_decision. Defined.
#[global] Instance CandidatePattern_eq_dec : EqDecision CandidatePattern.
Proof. solve_decision. Defined.
#[global] Instance AMDPhase_eq_dec : EqDecision AMDPhase.
Proof. solve_decision. Defined.
#[global] Instance CandleType_eq_dec : EqDecision CandleType.
Proof. solve_decision. Defined.
#[global] Instance FibonacciLevel_eq_dec : EqDecision FibonacciLevel.
Proof. solve_decision. Defined.
#[global] Instance PriceZone_eq_dec : EqDecision PriceZone.
Proof. solve_decision. Defined.

(** Membership in an enumeration is finite: all timeframes. *)
Definition all_timeframes : list Timeframe :=
  [M1; M5; M15; M30; H1; H3; H4; H6; H8; H12; D1; W1; MN1].

Lemma all_timeframes_complete tf : In tf all_timeframes.
Proof. destruct tf; simpl; tauto. Qed.

(** The values of the string enumerations, as the code prints them. *)
Definition pattern_value (p : CandidatePattern) : string :=
  match p with
  | TURTLE_SOUP_LONG => "TURTLE_SOUP_LONG" | TURTLE_SOUP_SHORT => "TURTLE_SOUP_SHORT"
  | SH_BMS_RTO_BULLISH => "SH_BMS_RTO_BULLISH" | SH_BMS_RTO_BEARISH => "SH_BMS_RTO_BEARISH"
  | SMS_BMS_RTO_BULLISH => "SMS_BMS_RTO_BULLISH" | SMS_BMS_RTO_BEARISH => "SMS_BMS_RTO_BEARISH"
  | CHOCH_BMS_RTO_BULLISH => "CHOCH_BMS_RTO_BULLISH"
  | CHOCH_BMS_RTO_BEARISH => "CHOCH_BMS_RTO_BEARISH" | AMD_BULLISH => "AMD_BULLISH"
  | AMD_BEARISH => "AMD_BEARISH" | QML_SR_FLIP_FAKEOUT => "QML_SR_FLIP_FAKEOUT"
  | QML_RS_FLIP_FAKEOUT => "QML_RS_FLIP_FAKEOUT"
  | QML_MPL_SR_FLIP_FAKEOUT => "QML_MPL_SR_FLIP_FAKEOUT"
  | QML_MPL_RS_FLIP_FAKEOUT => "QML_MPL_RS_FLIP_FAKEOUT"
  | QML_PREVIOUS_HIGHS_MPL_SR_FLIP => "QML_PREVIOUS_HIGHS_MPL_SR_FLIP"
  | QML_PREVIOUS_LOWS_MPL_RS_FLIP => "QML_PREVIOUS_LOWS_MPL_RS_FLIP"
  | QML_TRIPLE_FAKEOUT_SELL => "QML_TRIPLE_FAKEOUT_SELL"
  | QML_TRIPLE_FAKEOUT_BUY => "QML_TRIPLE_FAKEOUT_BUY" | FAKEOUT_KING_SELL => "FAKEOUT_KING_SELL"
  | FAKEOUT_KING_BUY => "FAKEOUT_KING_BUY"
  | PREVIOUS_HIGHS_SUPPLY_FAKEOUT => "PREVIOUS_HIGHS_SUPPLY_FAKEOUT"
  | PREVIOUS_LOWS_DEMAND_FAKEOUT => "PREVIOUS_LOWS_DEMAND_FAKEOUT" | QML_BASELINE => "QML_BASELINE"
  | QML_KILLER_TYPE1 => "QML_KILLER_TYPE1" | QML_KILLER_TYPE2 => "QML_KILLER_TYPE2"
  | QMH_BASELINE => "QMH_BASELINE" | QMH_KILLER_TYPE1 => "QMH_KILLER_TYPE1"
  | QMH_KILLER_TYPE2 => "QMH_KILLER_TYPE2" | FAKEOUT_KING => "FAKEOUT_KING" | SOP => "SOP"
  | SND_CONTINUATION => "SND_CONTINUATION"
  end%string.

Definition timeframe_value (tf : Timeframe) : string :=
  match tf with
  | M1 => "M1" | M5 => "M5" | M15 => "M15" | M30 => "M30" | H1 => "H1" | H3 => "H3" | H4 => "H4"
  | H6 => "H6" | H8 => "H8" | H12 => "H12" | D1 => "D1" | W1 => "W1" | MN1 => "MN1"
  end%string.

Definition direction_value (d : Direction) : string :=
  match d with BULLISH => "BULLISH" | BEARISH => "BEARISH" | NEUTRAL => "NEUTRAL" end%string.

(** [Timeframe(s)] and [Direction(s)]. *)
Definition timeframe_of_value (s : string) : res Timeframe :=
  match list_find (fun tf => timeframe_value tf = s) all_timeframes with
  | Some (_, tf) => Ok tf
  | None => Raise (ValueError "not a valid Timeframe")
  end.

Definition direction_of_value (s : string) : res Direction :=
  match list_find (fun d => direction_value d = s) [BULLISH; BEARISH; NEUTRAL] with
  | Some (_, d) => Ok d
  | None => Raise (ValueError "not a valid Direction")
  end.

Lemma timeframe_roundtrip tf : timeframe_of_value (timeframe_value tf) = Ok tf.
Proof. by destruct tf. Qed.
Lemma direction_roundtrip d : direction_of_value (direction_value d) = Ok d.
Proof. by destruct d. Qed.

Definition price_zone_value (z : PriceZone) : string :=
  match z with PREMIUM => "PREMIUM" | EQUILIBRIUM => "EQUILIBRIUM" | DISCOUNT => "DISCOUNT" end%string.

Definition liquidity_value (l : LiquidityType) : string :=
  match l with
  | BSL => "BSL" | SSL => "SSL" | EQUAL_HIGHS => "EQUAL_HIGHS" | EQUAL_LOWS => "EQUAL_LOWS"
  | INDUCEMENT => "INDUCEMENT" | COMPRESSION => "COMPRESSION" | PDH_SWEEP => "PDH_SWEEP"
  | PDL_SWEEP => "PDL_SWEEP"
  end%string.

Definition all_patterns : list CandidatePattern :=
  [TURTLE_SOUP_LONG; TURTLE_SOUP_SHORT; SH_BMS_RTO_BULLISH; SH_BMS_RTO_BEARISH;
   SMS_BMS_RTO_BULLISH; SMS_BMS_RTO_BEARISH; CHOCH_BMS_RTO_BULLISH; CHOCH_BMS_RTO_BEARISH;
   AMD_BULLISH; AMD_BEARISH; QML_SR_FLIP_FAKEOUT; QML_RS_FLIP_FAKEOUT; QML_MPL_SR_FLIP_FAKEOUT;
   QML_MPL_RS_FLIP_FAKEOUT; QML_PREVIOUS_HIGHS_MPL_SR_FLIP; QML_PREVIOUS_LOWS_MPL_RS_FLIP;
   QML_TRIPLE_FAKEOUT_SELL; QML_TRIPLE_FAKEOUT_BUY; FAKEOUT_KING_SELL; FAKEOUT_KING_BUY;
   PREVIOUS_HIGHS_SUPPLY_FAKEOUT; PREVIOUS_LOWS_DEMAND_FAKEOUT; QML_BASELINE; QML_KILLER_TYPE1;
   QML_KILLER_TYPE2; QMH_BASELINE; QMH_KILLER_TYPE1; QMH_KILLER_TYPE2; FAKEOUT_KING; SOP;
   SND_CONTINUATION].
