(* ===== verification/PriceMath.v ===== *)
(** * PriceMath: pips and candle geometry

    [engine/ta/common/utils/price/math.py]: classification of an instrument
    from its broker symbol, the pip tables, and the price arithmetic every
    detector is built on. *)

From Stdlib Require Import ZArith Lia Bool Ascii String.
From stdpp Require Import base list strings.
From S2P Require Import Prelude PyFloat FloatRound FloatMono PyText.

#[local] Open Scope string_scope.
#[local] Open Scope Z_scope.

(** ** Instrument tables *)

Definition _METAL_PREFIXES : list string :=
  [ "XAUUSD"; "XAGUSD"; "XPTUSD"; "XPDUSD"; "XAUCAD"; "XAUEUR"; "XAUGBP"; "XAUAUD"; "XAGEUR" ].

Definition _OIL_PREFIXES : list string :=
  [ "XBRUSD"; "XTIUSD"; "USOIL"; "UKOIL"; "BRENT"; "WTI"; "CL" ].

Definition _JPY_PREFIXES : list string :=
  [ "USDJPY"; "EURJPY"; "GBPJPY"; "AUDJPY"; "NZDJPY"; "CADJPY"; "CHFJPY"; "SGDJPY"; "ZARJPY";
    "SEKJPY"; "NOKJPY"; "HKDJPY"; "TRYJPY"; "MXNJPY" ].

Definition _CRYPTO_PREFIXES : list string :=
  [ "BTCUSD"; "ETHUSD"; "LTCUSD"; "XRPUSD"; "BCHUSD"; "ADAUSD"; "DOGEUSD"; "SOLUSD"; "DOTUSD";
    "LINKUSD"; "AVAXUSD"; "MATICUSD"; "BNBUSD"; "TRXUSD"; "XLMUSD"; "ATOMUSD"; "UNIUSD";
    "AAVEUSD" ].

Definition _INDEX_PATTERNS : list string :=
  [ "US30"; "US500"; "US2000"; "USTEC"; "NAS100"; "SPX"; "SPX500"; "DJ30"; "NDX"; "NDX100";
    "DE40"; "DAX"; "UK100"; "FTSE"; "FR40"; "EU50"; "JP225"; "AU200"; "HK50"; "CN50"; "VIX" ].

Definition _DERIV_P0001_PREFIXES : list string := [ "CRASH"; "BOOM"; "RANGE" ].

Definition _DERIV_P01_PREFIXES : list string :=
  [ "VOLATILITY"; "V10"; "V25"; "V50"; "V75"; "V100"; "V200"; "V300"; "STEP" ].

Definition _DERIV_P1_PREFIXES : list string := [ "JUMP"; "DEX" ].

Definition _PIP_DECIMALS : list (string * Z) :=
  [ ("JPY", 2); ("METAL", 2); ("OIL", 2); ("INDEX", 0); ("CRYPTO", 0); ("DERIV_P0001", 0);
    ("DERIV_P01", 0); ("DERIV_P1", 0); ("STANDARD", 4) ].

Definition _POINT_MULTIPLIERS : list (string * Z) :=
  [ ("JPY", 100); ("METAL", 100); ("OIL", 100); ("INDEX", 1); ("CRYPTO", 1); ("DERIV_P0001", 1);
    ("DERIV_P01", 1); ("DERIV_P1", 1); ("STANDARD", 10000) ].

(** [d\[k\]] on a dictionary given by its items. *)
Fixpoint dict_get {V} (d : list (string * V)) (k : string) : res V :=
  match d with
  | [] => Raise KeyError
  | (k', v) :: d => if String.eqb k' k then Ok v else dict_get d k
  end.

Lemma dict_get_In {V} (d : list (string * V)) k v : dict_get d k = Ok v -> In (k, v) d.
Proof.
  induction d as [|[k' v'] d IH]; simpl; [done|].
  destruct (String.eqb k' k) eqn:E; [|auto]. intros [= ->]. apply String.eqb_eq in E as ->. auto.
Qed.

(** The loop [for p in table: if s == p or s.startswith(p): return ...]. *)
Definition matches_any (table : list string) (s : string) : bool :=
  existsb (fun p => String.eqb s p || str_startswith s p) table.

(** [symbol.replace("/", "").replace("_", "")], the normalisation shared with
    every model's symbol validator. *)
Definition normalize_symbol (s : string) : string := str_remove "_" (str_remove "/" s).

Definition _get_pair_type (symbol : string) : string :=
  let symbol_upper := str_before "." (normalize_symbol symbol) in
  if matches_any _METAL_PREFIXES symbol_upper then "METAL"
  else if matches_any _OIL_PREFIXES symbol_upper then "OIL"
  else if matches_any _JPY_PREFIXES symbol_upper then "JPY"
  else if (6 <=? str_len symbol_upper) && str_endswith (str_take 6 symbol_upper) "JPY" then "JPY"
  else if (7 <=? str_len symbol_upper) && str_endswith (str_take 7 symbol_upper) "JPY" then "JPY"
  else if matches_any _INDEX_PATTERNS symbol_upper then "INDEX"
  else if matches_any _CRYPTO_PREFIXES symbol_upper then "CRYPTO"
  else if matches_any _DERIV_P0001_PREFIXES symbol_upper then "DERIV_P0001"
  else if matches_any _DERIV_P01_PREFIXES symbol_upper then "DERIV_P01"
  else if matches_any _DERIV_P1_PREFIXES symbol_upper then "DERIV_P1"
  else "STANDARD".

(** A [Decimal] literal: coefficient and number of fractional digits. *)
Record Decimal := mk_Decimal { coefficient : Z; frac_digits : nat }.

Definition float_of_Decimal (d : Decimal) : float := lit (coefficient d) (frac_digits d).

Definition get_pip_value (symbol : string) : Decimal :=
  let pair_type := _get_pair_type symbol in
  if String.eqb pair_type "JPY" || String.eqb pair_type "METAL" then mk_Decimal 1 2
  else if String.eqb pair_type "OIL" then mk_Decimal 1 2
  else if String.eqb pair_type "INDEX" || String.eqb pair_type "CRYPTO" then mk_Decimal 10 1
  else if str_startswith pair_type "DERIV_" then mk_Decimal 10 1
  else mk_Decimal 1 4.

Definition get_pip_decimals (symbol : string) : res Z :=
  dict_get _PIP_DECIMALS (_get_pair_type symbol).

Definition get_point_multiplier (symbol : string) : res Z :=
  dict_get _POINT_MULTIPLIERS (_get_pair_type symbol).

(** ** Price arithmetic *)

Definition pip_float (symbol : string) : float := float_of_Decimal (get_pip_value symbol).

Definition calculate_pips (price1 price2 : float) (symbol : string) : res float :=
  if flt price1 fzero || flt price2 fzero
  then Raise (ConfigurationError "Prices must be non-negative")
  else
    let pip_value := pip_float symbol in
    if feq pip_value fzero then Raise (ConfigurationError "Pip value cannot be zero")
    else fdiv (fabs (fsub price1 price2)) pip_value.

Definition calculate_price_from_pips (base_price pips : float) (symbol : string) (direction : Z)
    : res float :=
  if flt base_price fzero then Raise (ConfigurationError "Base price must be non-negative")
  else if negb ((direction =? -1) || (direction =? 1))
  then Raise (ConfigurationError "Direction must be 1 (up) or -1 (down)")
  else
    let pip_value := pip_float symbol in
    let price_change := fmul (fmul pips pip_value) (of_Z direction) in
    Ok (fadd base_price price_change).

Definition is_within_tolerance (price1 price2 tolerance_pips : float) (symbol : string) : res bool :=
  if flt tolerance_pips fzero then Raise (ConfigurationError "Tolerance must be non-negative")
  else
    pip_distance ← calculate_pips price1 price2 symbol;
    Ok (fle pip_distance tolerance_pips).

Definition calculate_distance (price1 price2 : float) (symbol : string) : res float :=
  calculate_pips price1 price2 symbol.

Definition calculate_percentage_change (old_price new_price : float) : res float :=
  if feq old_price fzero
  then Raise (ConfigurationError "Old price cannot be zero for percentage calculation")
  else
    q ← fdiv (fsub new_price old_price) old_price;
    Ok (fmul q (of_Z 100)).

Definition calculate_body_percentage (open_price close_price high_price low_price : float) : res float :=
  if flt high_price low_price then Raise (ConfigurationError "High must be >= low")
  else
    let total_range := fsub high_price low_price in
    if feq total_range fzero then Ok fzero
    else
      let body_size := fabs (fsub close_price open_price) in
      q ← fdiv body_size total_range;
      Ok (fmul q (of_Z 100)).

Definition calculate_wick_percentage
    (open_price close_price high_price low_price : float) (upper : bool) : res float :=
  if flt high_price low_price then Raise (ConfigurationError "High must be >= low")
  else
    let total_range := fsub high_price low_price in
    if feq total_range fzero then Ok fzero
    else
      let candle_top := fmax open_price close_price in
      let candle_bottom := fmin open_price close_price in
      let wick_size := if upper then fsub high_price candle_top else fsub candle_bottom low_price in
      q ← fdiv wick_size total_range;
      Ok (fmul q (of_Z 100)).

(** ** Classification *)

Definition pair_types : list string :=
  [ "METAL"; "OIL"; "JPY"; "INDEX"; "CRYPTO"; "DERIV_P0001"; "DERIV_P01"; "DERIV_P1"; "STANDARD" ].

Lemma pair_type_In symbol : In (_get_pair_type symbol) pair_types.
Proof. unfold _get_pair_type. repeat case_match; simpl; tauto. Qed.

Lemma normalize_symbol_app s t : normalize_symbol (s ++ t) = normalize_symbol s ++ normalize_symbol t.
Proof. unfold normalize_symbol. by rewrite !str_remove_app. Qed.

Lemma normalize_symbol_idemp s : normalize_symbol (normalize_symbol s) = normalize_symbol s.
Proof.
  unfold normalize_symbol. by rewrite (str_remove_comm "/" "_"), !str_remove_idemp.
Qed.

(** Broker decorations do not change the instrument class.  A dot suffix of
    any content, and any slash or underscore inside the symbol, leave the
    detected pair type unchanged. *)
Theorem pair_type_decoration (s t : string) :
  _get_pair_type (s ++ "." ++ t) = _get_pair_type s /\
  _get_pair_type (s ++ "/" ++ t) = _get_pair_type (s ++ t) /\
  _get_pair_type (s ++ "_" ++ t) = _get_pair_type (s ++ t).
Proof.
  unfold _get_pair_type. rewrite !normalize_symbol_app.
  change (normalize_symbol ".") with ".". change (normalize_symbol "/") with "".
  change (normalize_symbol "_") with "". rewrite <- (str_before_app "." (normalize_symbol s) (normalize_symbol t)). done.
Qed.

(** ** The pip tables *)

(** The nine pip values are three floats. *)
Lemma pip_float_cases symbol :
  pip_float symbol = lit 1 2 \/ pip_float symbol = lit 10 1 \/ pip_float symbol = lit 1 4.
Proof. unfold pip_float, get_pip_value. repeat case_match; auto. Qed.

Lemma pip_float_fin symbol : fin (pip_float symbol) /\ 0 < fv (pip_float symbol) <= unit_pow 0.
Proof.
  destruct (pip_float_cases symbol) as [->|[->| ->]]; split; (split; vm_compute; congruence || done).
Qed.

(** The three pip tables agree.  For every symbol the decimals and the point
    multiplier are defined, the multiplier is ten to the decimals, and pip value
    times multiplier is one in floating point. *)
Theorem pip_tables_consistent (symbol : string) :
  exists d m, get_pip_decimals symbol = Ok d /\ get_point_multiplier symbol = Ok m /\
    m = 10 ^ d /\ feq (fmul (pip_float symbol) (of_Z m)) (of_Z 1) = true.
Proof.
  unfold get_pip_decimals, get_point_multiplier, pip_float, get_pip_value.
  pose proof (pair_type_In symbol) as H. simpl in H.
  repeat (destruct H as [<-|H]; [do 2 eexists; repeat split; vm_compute; reflexivity|]).
  destruct H.
Qed.

(** ** Pip distances *)

Lemma fdiv_pip x symbol :
  fin x -> 0 <= fv x ->
  fdiv x (pip_float symbol) = Ok (fdiv_ieee x (pip_float symbol)) /\
  num (fdiv_ieee x (pip_float symbol)) /\ fv x <= fv (fdiv_ieee x (pip_float symbol)).
Proof.
  intros Fx Hx. destruct (pip_float_fin symbol) as [Fp [Hp0 Hp1]].
  destruct (fdiv_rounds x (pip_float symbol) Fx Fp Hp0) as [E (N & _ & Hlo)].
  split; [done|]. split; [done|]. apply Hlo; [done|]. nia.
Qed.

Lemma price_guard x : fin x -> 0 <= fv x -> flt x fzero = false.
Proof. intros Fx Hx. rewrite flt_fv by auto with etradie. apply Z.ltb_ge. done. Qed.

Lemma calculate_pips_Ok a b symbol :
  fin a -> fin b -> 0 <= fv a -> 0 <= fv b ->
  calculate_pips a b symbol = Ok (fdiv_ieee (fabs (fsub a b)) (pip_float symbol)).
Proof.
  intros Fa Fb Ha Hb. unfold calculate_pips. rewrite !price_guard by done. cbn [orb].
  destruct (pip_float_fin symbol) as [Fp [Hp0 _]]. cbv zeta.
  unfold fdiv. rewrite feq_fv by auto with etradie. rewrite fv_fzero.
  by rewrite (proj2 (Z.eqb_neq _ _)) by lia.
Qed.

(** The absolute difference of two prices is a finite number. *)
Lemma abs_diff_fin a b :
  fin a -> fin b -> 0 <= fv a -> 0 <= fv b -> fin (fabs (fsub a b)).
Proof.
  intros Fa Fb Ha Hb. destruct (Z.le_ge_cases (fv b) (fv a)).
  - apply fabs_fin. by apply fsub_fin.
  - rewrite fabs_fsub_comm. apply fabs_fin. by apply fsub_fin.
Qed.

Lemma abs_diff_pos a b :
  fin a -> fin b -> 0 <= fv a -> 0 <= fv b ->
  0 <= fv (fabs (fsub a b)) /\ (fv (fabs (fsub a b)) = 0 <-> fv a = fv b).
Proof.
  intros Fa Fb Ha Hb. rewrite fv_fabs by auto with etradie. split; [lia|]. split.
  - intros H. destruct (Z.lt_trichotomy (fv a) (fv b)) as [Hl|[E|Hg]]; [|done|].
    + pose proof (fsub_pos b a Fb Fa Hl).
      assert (E : Z.abs (fv (fsub b a)) = Z.abs (fv (fsub a b))).
      { rewrite <- !fv_fabs by auto with etradie. by rewrite fabs_fsub_comm. }
      lia.
    + pose proof (fsub_pos a b Fa Fb Hg). lia.
  - intros E. pose proof (fsub_nonneg a b Fa Fb). 
    pose proof (fsub_upper a b fzero Fa Fb fin_fzero). rewrite fv_fzero in *. lia.
Qed.

Lemma calculate_pips_facts (a b : float) (symbol : string) :
  fin a -> fin b -> 0 <= fv a -> 0 <= fv b ->
  exists p, calculate_pips a b symbol = Ok p /\ calculate_pips b a symbol = Ok p /\
    num p /\ 0 <= fv p /\ (fv p = 0 <-> fv a = fv b).
Proof.
  intros Fa Fb Ha Hb. exists (fdiv_ieee (fabs (fsub a b)) (pip_float symbol)).
  rewrite !calculate_pips_Ok by done. rewrite (fabs_fsub_comm b a).
  destruct (abs_diff_pos a b Fa Fb Ha Hb) as [Hp Hz].
  destruct (fdiv_pip _ symbol (abs_diff_fin a b Fa Fb Ha Hb) Hp) as (_ & N & Hge).
  split; [done|]. split; [done|]. split; [done|].
  split; [lia|]. rewrite <- Hz. split; [lia|]. intros E.
  destruct (pip_float_fin symbol) as [Fp [Hp0 _]].
  pose proof (abs_diff_fin a b Fa Fb Ha Hb) as Fd.
  destruct (fdiv_rounds _ _ Fd Fp Hp0) as [_ (_ & Hup & _)].
  specialize (Hup fzero fin_fzero). rewrite fv_fzero, E in Hup. lia.
Qed.

(** [calculate_pips] is a distance on prices.  For non-negative finite
    prices it always returns, does not depend on the order of the prices, is
    never negative, and is zero exactly when the prices are equal. *)
Theorem calculate_pips_distance (a b : float) (symbol : string) :
  fin a -> fin b -> 0 <= fv a -> 0 <= fv b ->
  exists p, calculate_pips a b symbol = Ok p /\ calculate_pips b a symbol = Ok p /\
    fle fzero p = true /\ (feq p fzero = true <-> feq a b = true).
Proof.
  intros Fa Fb Ha Hb.
  destruct (calculate_pips_facts a b symbol Fa Fb Ha Hb) as (p & E1 & E2 & N & Hp & Hz).
  exists p. split; [done|]. split; [done|].
  rewrite fle_fv, !feq_fv by auto with etradie. rewrite fv_fzero, Z.leb_le, !Z.eqb_eq. done.
Qed.

Lemma calculate_pips_distance_witness :
  exists p, calculate_pips (lit 10850 4) (lit 10835 4) "EURUSD.raw" = Ok p /\
    calculate_pips (lit 10835 4) (lit 10850 4) "EURUSD.raw" = Ok p /\
    fle fzero p = true /\
    (feq p fzero = true <-> feq (lit 10850 4) (lit 10835 4) = true).
Proof. apply calculate_pips_distance; vm_compute; try split; congruence. Defined.

Lemma is_within_tolerance_Ok a b tol symbol :
  fin a -> fin b -> 0 <= fv a -> 0 <= fv b -> flt tol fzero = false ->
  exists p, calculate_pips a b symbol = Ok p /\ is_within_tolerance a b tol symbol = Ok (fle p tol).
Proof.
  intros Fa Fb Ha Hb Ht. unfold is_within_tolerance. rewrite Ht.
  rewrite calculate_pips_Ok by done. eauto.
Qed.

Lemma is_within_tolerance_sym a b tol symbol :
  fin a -> fin b -> 0 <= fv a -> 0 <= fv b ->
  is_within_tolerance a b tol symbol = is_within_tolerance b a tol symbol.
Proof.
  intros Fa Fb Ha Hb. unfold is_within_tolerance. destruct (flt tol fzero); [done|].
  rewrite !calculate_pips_Ok by done. by rewrite fabs_fsub_comm.
Qed.

Lemma is_within_tolerance_refl a tol symbol :
  fin a -> 0 <= fv a -> num tol -> 0 <= fv tol -> is_within_tolerance a a tol symbol = Ok true.
Proof.
  intros Fa Ha Nt Ht.
  destruct (is_within_tolerance_Ok a a tol symbol) as (p & Ep & ->); [done..| |].
  { rewrite flt_fv by auto with etradie. by apply Z.ltb_ge. }
  destruct (calculate_pips_facts a a symbol) as (p' & Ep' & _ & N & Hp & Hz); [done..|].
  rewrite Ep' in Ep. injection Ep as ->. f_equal.
  rewrite fle_fv by done. apply Z.leb_le. rewrite (proj2 Hz eq_refl). done.
Qed.

(** ** Percentages of a candle's range *)

Lemma of_Z_100_fin : fin (of_Z 100).
Proof. done. Qed.

(** A part over a positive whole, times one hundred. *)
Lemma percentage_range part whole :
  fin part -> fin whole -> 0 <= fv part <= fv whole -> 0 < fv whole ->
  exists p, (q ← fdiv part whole; Ok (fmul q (of_Z 100))) = Ok p /\
    fin p /\ fle fzero p = true /\ fle p (of_Z 100) = true.
Proof.
  intros Fp Fw Hb Hw. destruct (fdiv_rounds part whole Fp Fw Hw) as [E _].
  destruct (fdiv_ratio part whole Fp Fw Hb Hw) as [Fq [Hq0 Hq1]].
  rewrite E. cbn [mbind res_bind]. exists (fmul (fdiv_ieee part whole) (of_Z 100)).
  split; [done|].
  assert (Hlo : 0 <= fv (fmul (fdiv_ieee part whole) (of_Z 100)))
    by (apply fmul_nonneg; [done|done|done|vm_compute; congruence]).
  assert (Hhi : fv (fmul (fdiv_ieee part whole) (of_Z 100)) <= fv (of_Z 100))
    by (apply fmul_le_r; [done|done|vm_compute; congruence|done]).
  assert (N := fmul_num _ _ Fq of_Z_100_fin).
  split; [|rewrite !fle_fv by auto using of_Z_100_fin with etradie; rewrite fv_fzero, !Z.leb_le; done].
  apply num_finite_of_bounds with fzero (of_Z 100); [done..|]. rewrite fv_fzero. done.
Qed.

(** The OHLC facts every candle satisfies. *)
Record ohlc_ok (o c h l : float) : Prop := {
  ohlc_fin_o : fin o; ohlc_fin_c : fin c; ohlc_fin_h : fin h; ohlc_fin_l : fin l;
  ohlc_l_pos : 0 <= fv l;
  ohlc_lo : fv l <= fv o; ohlc_lc : fv l <= fv c;
  ohlc_oh : fv o <= fv h; ohlc_ch : fv c <= fv h }.

(** A sub-interval of [l, h] is a finite part of the range. *)
Lemma sub_interval l a b h :
  fin l -> fin a -> fin b -> fin h ->
  0 <= fv l -> fv l <= fv a -> fv a <= fv b -> fv b <= fv h ->
  fin (fsub b a) /\ 0 <= fv (fsub b a) <= fv (fsub h l).
Proof.
  intros Fl Fa Fb Fh H0 H1 H2 H3.
  split; [apply fsub_fin; [done|done|lia|done]|].
  split; [by apply fsub_nonneg|]. apply fsub_mono; [done..|lia].
Qed.

(** A percentage computed the way the code does: guarded against an empty
    range, then a ratio times one hundred. *)
Lemma guarded_percentage_range part h l :
  fin h -> fin l -> 0 <= fv l -> fv l <= fv h ->
  fin part -> 0 <= fv part <= fv (fsub h l) ->
  exists p,
    (if feq (fsub h l) fzero then Ok fzero
     else q ← fdiv part (fsub h l); Ok (fmul q (of_Z 100))) = Ok p /\
    fin p /\ fle fzero p = true /\ fle p (of_Z 100) = true.
Proof.
  intros Fh Fl Hl Hh Fp Hp.
  assert (Fr : fin (fsub h l)) by (by apply fsub_fin).
  destruct (feq (fsub h l) fzero) eqn:E.
  - exists fzero. by vm_compute.
  - apply percentage_range; [done..|]. fcmp. rewrite fv_fzero in *. lia.
Qed.

Lemma ohlc_guard o c h l : ohlc_ok o c h l -> flt h l = false.
Proof.
  intros H. rewrite flt_fv by (apply fin_num; apply H). apply Z.ltb_ge.
  pose proof (ohlc_lo _ _ _ _ H). pose proof (ohlc_oh _ _ _ _ H). lia.
Qed.

(** The body and the wicks are finite parts of the range. *)
Lemma body_part o c h l :
  ohlc_ok o c h l ->
  fin (fabs (fsub c o)) /\ 0 <= fv (fabs (fsub c o)) <= fv (fsub h l).
Proof.
  intros []. split; [apply abs_diff_fin; [done|done|lia|lia]|].
  rewrite fv_fabs by auto with etradie. split; [lia|].
  destruct (Z.le_ge_cases (fv o) (fv c)).
  - destruct (sub_interval l o c h) as [_ ?]; [done..|]. lia.
  - destruct (sub_interval l c o h) as [_ ?]; [done..|].
    assert (E : Z.abs (fv (fsub c o)) = Z.abs (fv (fsub o c))).
    { rewrite <- !fv_fabs by auto with etradie. by rewrite fabs_fsub_comm. }
    lia.
Qed.

Lemma wick_part o c h l (upper : bool) :
  ohlc_ok o c h l ->
  let w := if upper then fsub h (fmax o c) else fsub (fmin o c) l in
  fin w /\ 0 <= fv w <= fv (fsub h l).
Proof.
  intros [] w. unfold w.
  destruct (fmax_num o c) as [_ Emax]; [auto with etradie..|].
  destruct (fmin_num o c) as [_ Emin]; [auto with etradie..|].
  destruct upper; apply sub_interval; auto with etradie; lia.
Qed.

(** Candle percentages are percentages.  For consistent finite OHLC prices
    the body and both wick percentages are computed without an exception and lie
    between 0 and 100, rounding included. *)
Theorem candle_percentages_in_range (o c h l : float) (upper : bool) :
  ohlc_ok o c h l ->
  (exists p, calculate_body_percentage o c h l = Ok p /\
     fle fzero p = true /\ fle p (of_Z 100) = true) /\
  (exists p, calculate_wick_percentage o c h l upper = Ok p /\
     fle fzero p = true /\ fle p (of_Z 100) = true).
Proof.
  intros H. unfold calculate_body_percentage, calculate_wick_percentage.
  rewrite (ohlc_guard o c h l H). cbv zeta.
  assert (Hlh : fv l <= fv h) by (pose proof (ohlc_lo _ _ _ _ H); pose proof (ohlc_oh _ _ _ _ H); lia).
  split.
  - destruct (body_part o c h l H) as [Fb Hb].
    destruct (guarded_percentage_range (fabs (fsub c o)) h l) as (p & E & _ & Hp); [apply H..|done|done|done|].
    exists p. by rewrite E.
  - destruct (wick_part o c h l upper H) as [Fb Hb].
    destruct (guarded_percentage_range _ h l (ohlc_fin_h _ _ _ _ H) (ohlc_fin_l _ _ _ _ H)
      (ohlc_l_pos _ _ _ _ H) Hlh Fb Hb) as (p & E & _ & Hp).
    exists p. by rewrite E.
Qed.

Lemma candle_percentages_in_range_witness :
  ohlc_ok (lit 10850 4) (lit 10835 4) (lit 10861 4) (lit 10829 4) /\
  (exists p, calculate_body_percentage (lit 10850 4) (lit 10835 4) (lit 10861 4) (lit 10829 4) = Ok p /\
     fle fzero p = true /\ fle p (of_Z 100) = true).
Proof.
  assert (H : ohlc_ok (lit 10850 4) (lit 10835 4) (lit 10861 4) (lit 10829 4)).
  { constructor; vm_compute; try split; congruence. }
  split; [exact H|]. exact (proj1 (candle_percentages_in_range _ _ _ _ true H)).
Defined.
