(* ===== verification/StopLoss.v ===== *)
(** * StopLoss: structural stop-loss geometry and reward floors

    [engine/shared/risk.py] and
    [engine/ta/common/utils/price/stop_loss.py]. *)

From Stdlib Require Import ZArith Lia Bool String.
From stdpp Require Import base list strings.
From S2P Require Import Prelude PyFloat FloatRound FloatMono PyText Constants PriceMath.

#[local] Open Scope string_scope.
#[local] Open Scope Z_scope.

(** ** Reward-to-risk floors by style *)

Definition MIN_RR_SCALPING : float := lit 20 1.
Definition MIN_RR_INTRADAY : float := lit 30 1.
Definition MIN_RR_SWING : float := lit 30 1.
Definition MIN_RR_POSITIONAL : float := lit 50 1.
Definition LOWEST_STYLE_MIN_RR : float := MIN_RR_SCALPING.

Definition STYLE_MIN_TP_RR : list (string * float) :=
  [ ("SCALPING", MIN_RR_SCALPING); ("INTRADAY", MIN_RR_INTRADAY);
    ("SWING", MIN_RR_SWING); ("POSITIONAL", MIN_RR_POSITIONAL) ].

(** [d.get(k)]. *)
Definition dict_find {V} (d : list (string * V)) (k : string) : option V :=
  match dict_get d k with Ok v => Some v | Raise _ => None end.

Definition style_min_tp_rr (style : option string) : option float :=
  match style with
  | None => None
  | Some s => dict_find STYLE_MIN_TP_RR (str_upper (str_strip s))
  end.

(** ** Tables by timeframe *)

Definition tf_get {V} (d : list (Timeframe * V)) (tf : Timeframe) (default : V) : V :=
  match list_find (fun p => fst p = tf) d with
  | Some (_, (_, v)) => v
  | None => default
  end.

Definition TIMEFRAME_SL_FLOOR_PIPS : list (Timeframe * float) :=
  [ (M1, lit 80 1); (M5, lit 120 1); (M15, lit 180 1); (M30, lit 250 1); (H1, lit 350 1);
    (H3, lit 550 1); (H4, lit 700 1); (H6, lit 900 1); (H8, lit 1100 1); (H12, lit 1400 1);
    (D1, lit 2000 1); (W1, lit 4000 1); (MN1, lit 7000 1) ].

Definition _DEFAULT_FLOOR_PIPS : float := lit 350 1.
Definition _INVALIDATION_RANGE_BUFFER_PCT : float := lit 25 2.

Definition timeframe_floor_pips (timeframe : Timeframe) : float :=
  tf_get TIMEFRAME_SL_FLOOR_PIPS timeframe _DEFAULT_FLOOR_PIPS.

Definition TIMEFRAME_MIN_TP_RR : list (Timeframe * float) :=
  [ (M1, lit 20 1); (M5, lit 20 1); (M15, lit 25 1); (M30, lit 25 1); (H1, lit 30 1);
    (H3, lit 30 1); (H4, lit 35 1); (H6, lit 35 1); (H8, lit 40 1); (H12, lit 40 1);
    (D1, lit 50 1); (W1, lit 50 1); (MN1, lit 50 1) ].

Definition timeframe_min_tp_rr (timeframe : Timeframe) : float :=
  fmax LOWEST_STYLE_MIN_RR (tf_get TIMEFRAME_MIN_TP_RR timeframe LOWEST_STYLE_MIN_RR).

Definition resolve_min_tp_rr
    (timeframe : option Timeframe) (style_min_rr : option float) (style : option string)
    : res float :=
  let resolved_style_rr :=
    match style_min_rr, style with
    | None, Some s => style_min_tp_rr (Some s)
    | _, _ => style_min_rr
    end in
  let tf_floor := timeframe_min_tp_rr <$> timeframe in
  let candidates := omap id [resolved_style_rr; tf_floor] in
  match candidates with
  | [] => Ok LOWEST_STYLE_MIN_RR
  | _ => fmax_list candidates
  end.

(** ** The stop-loss *)

Definition structural_buffer
    (symbol : string) (timeframe : Timeframe) (invalidation_candle_range : option float) : float :=
  let pip_value := pip_float symbol in
  let floor := fmul (timeframe_floor_pips timeframe) pip_value in
  match invalidation_candle_range with
  | Some r =>
      if flt fzero r
      then fmax (fmul r _INVALIDATION_RANGE_BUFFER_PCT) floor
      else floor
  | None => floor
  end.

Definition compute_structural_stop_loss
    (symbol : string) (timeframe : Timeframe) (direction : Direction)
    (invalidation_level : float) (ob_inner_edge invalidation_candle_range : option float) : float :=
  let buffer := structural_buffer symbol timeframe invalidation_candle_range in
  if decide (direction = BEARISH) then
    let sl := fadd invalidation_level buffer in
    match ob_inner_edge with
    | Some edge => fmax sl (fadd edge buffer)
    | None => sl
    end
  else
    let sl := fsub invalidation_level buffer in
    match ob_inner_edge with
    | Some edge => fmin sl (fsub edge buffer)
    | None => sl
    end.

(** ** Buffers *)

(** An optional candle range the callers pass: absent, or a finite float. *)
Definition range_ok (r : option float) : Prop := match r with Some x => fin x | None => True end.

(** The buffer floors, one per timeframe and pip value: all finite, all at least
    [0.0008] in price. *)
Lemma floor_facts symbol tf :
  fin (fmul (timeframe_floor_pips tf) (pip_float symbol)) /\
  fv (lit 8 4) <= fv (fmul (timeframe_floor_pips tf) (pip_float symbol)).
Proof.
  destruct (pip_float_cases symbol) as [->|[->| ->]]; destruct tf; vm_compute; split; [split|..];
    congruence || done.
Qed.

Lemma quarter_fin r :
  fin r -> 0 < fv r -> fin (fmul r _INVALIDATION_RANGE_BUFFER_PCT) /\
    0 <= fv (fmul r _INVALIDATION_RANGE_BUFFER_PCT).
Proof.
  intros Fr Hr. assert (F4 : fin _INVALIDATION_RANGE_BUFFER_PCT) by done.
  assert (H4 : 0 < fv _INVALIDATION_RANGE_BUFFER_PCT <= unit_pow 0) by (vm_compute; split; congruence).
  assert (Hlo : 0 <= fv (fmul r _INVALIDATION_RANGE_BUFFER_PCT)) by (apply fmul_nonneg; done || lia).
  split; [|done]. apply num_finite_of_bounds with fzero r; [by apply fmul_num|done|done|].
  rewrite fv_fzero. split; [done|].
  apply (fmul_rounds r _ Fr F4); [done|]. nia.
Qed.

Lemma structural_buffer_facts symbol tf r :
  range_ok r ->
  fin (structural_buffer symbol tf r) /\ fv (lit 8 4) <= fv (structural_buffer symbol tf r) /\
  fv (fmul (timeframe_floor_pips tf) (pip_float symbol)) <= fv (structural_buffer symbol tf r).
Proof.
  intros Hr. destruct (floor_facts symbol tf) as [Ff Hf]. unfold structural_buffer. cbv zeta.
  destruct r as [r|]; [|auto with lia]. destruct (flt fzero r) eqn:E; [|auto with lia].
  simpl in Hr. fcmp. rewrite fv_fzero in E. destruct (quarter_fin r Hr E) as [Fq Hq].
  destruct (fmax_num (fmul r _INVALIDATION_RANGE_BUFFER_PCT)
    (fmul (timeframe_floor_pips tf) (pip_float symbol))) as [_ ->]; [auto with etradie..|].
  split; [by apply fmax_fin|]. lia.
Qed.

Lemma buffer_pos symbol tf r : range_ok r -> 0 < fv (structural_buffer symbol tf r).
Proof.
  intros Hr. destruct (structural_buffer_facts symbol tf r Hr) as (_ & H & _).
  assert (0 < fv (lit 8 4)) by done. lia.
Qed.

Lemma floor_pips_mono tf1 tf2 :
  TIMEFRAME_MINUTES tf1 <= TIMEFRAME_MINUTES tf2 ->
  fin (timeframe_floor_pips tf1) /\ 0 <= fv (timeframe_floor_pips tf1) <= fv (timeframe_floor_pips tf2).
Proof.
  intros H. destruct tf1, tf2; try (exfalso; vm_compute in H; by apply H);
    (split; [done|]; vm_compute; split; congruence).
Qed.

(** ** Properties of the stop *)

(** Prices up to [10^12], far beyond any instrument, are within [2^52] of the
    smallest buffer. *)
Definition max_price : float := of_Z (10 ^ 12).

Lemma max_price_buffer symbol tf r x :
  range_ok r -> fin x -> 0 <= fv x <= fv max_price ->
  0 <= fv x < 2 ^ 52 * unit_pow 971 /\ fv x <= 2 ^ 52 * fv (structural_buffer symbol tf r).
Proof.
  intros Hr Fx Hx. destruct (structural_buffer_facts symbol tf r Hr) as (_ & H & _).
  assert (fv max_price < 2 ^ 52 * unit_pow 971) by done.
  assert (fv max_price <= 2 ^ 52 * fv (lit 8 4)) by (vm_compute; congruence). lia.
Qed.

Lemma stop_above symbol tf r x :
  range_ok r -> fin x -> 0 <= fv x <= fv max_price ->
  fv x < fv (fadd x (structural_buffer symbol tf r)).
Proof.
  intros Hr Fx Hx. destruct (max_price_buffer symbol tf r x Hr Fx Hx).
  destruct (structural_buffer_facts symbol tf r Hr) as (Fb & _).
  apply fadd_gt; auto. by apply buffer_pos.
Qed.

Lemma stop_below symbol tf r x :
  range_ok r -> fin x -> 0 < fv x <= fv max_price ->
  fv (fsub x (structural_buffer symbol tf r)) < fv x.
Proof.
  intros Hr Fx Hx. destruct (max_price_buffer symbol tf r x Hr Fx) as [_ ?]; [lia|].
  destruct (structural_buffer_facts symbol tf r Hr) as (Fb & _).
  apply fsub_lt; auto; [lia|]. by apply buffer_pos.
Qed.

(** An order-block edge the callers pass: absent, or a price. *)
Definition price_ok (x : float) : Prop := fin x /\ 0 < fv x <= fv max_price.
Definition edge_ok (e : option float) : Prop := match e with Some x => price_ok x | None => True end.

(** C19: the stop sits strictly beyond the invalidation.  For every price up to
    10^12 the stop of a short is strictly above the invalidation level and above
    the order-block edge, and the stop of a long is strictly below both: the
    buffer is never lost to rounding and the inner guard never pulls the stop
    back inside the zone. *)
Theorem stop_loss_beyond_invalidation
    (symbol : string) (tf : Timeframe) (d : Direction) (level : float) (edge range : option float) :
  price_ok level -> edge_ok edge -> range_ok range ->
  let sl := compute_structural_stop_loss symbol tf d level edge range in
  (d = BEARISH -> flt level sl = true /\ forall e, edge = Some e -> flt e sl = true) /\
  (d <> BEARISH -> flt sl level = true /\ forall e, edge = Some e -> flt sl e = true).
Proof.
  intros [Fl Hl] He Hr sl. unfold sl, compute_structural_stop_loss. cbv zeta.
  destruct (structural_buffer_facts symbol tf range Hr) as (Fb & _).
  assert (Ha := stop_above symbol tf range level Hr Fl ltac:(lia)).
  assert (Hb := stop_below symbol tf range level Hr Fl ltac:(lia)).
  assert (Na : num (fadd level (structural_buffer symbol tf range))) by auto with etradie.
  assert (Nb : num (fsub level (structural_buffer symbol tf range))) by auto with etradie.
  case_decide as Hd; (split; intros Hd'; try done).
  all: destruct edge as [e|]; [destruct He as [Fe He]|].
  - assert (He1 := stop_above symbol tf range e Hr Fe ltac:(lia)).
    destruct (fmax_num _ _ Na (fadd_num e _ Fe Fb)) as [N E].
    split; [|intros ? [= <-]]; rewrite flt_fv by auto with etradie; apply Z.ltb_lt; lia.
  - split; [|done]. rewrite flt_fv by auto with etradie. by apply Z.ltb_lt.
  - assert (He1 := stop_below symbol tf range e Hr Fe ltac:(lia)).
    destruct (fmin_num _ _ Nb (fsub_num e _ Fe Fb)) as [N E].
    split; [|intros ? [= <-]]; rewrite flt_fv by auto with etradie; apply Z.ltb_lt; lia.
  - split; [|done]. rewrite flt_fv by auto with etradie. by apply Z.ltb_lt.
Qed.

Lemma stop_loss_beyond_invalidation_witness :
  flt (lit 10850 4)
    (compute_structural_stop_loss "EURUSD" H1 BEARISH (lit 10850 4) (Some (lit 10862 4)) (Some (lit 12 4)))
  = true.
Proof.
  refine (proj1 (proj1 (stop_loss_beyond_invalidation "EURUSD" H1 BEARISH (lit 10850 4)
    (Some (lit 10862 4)) (Some (lit 12 4)) _ _ _) eq_refl)).
  - split; [split; reflexivity|vm_compute; split; congruence].
  - split; [split; reflexivity|vm_compute; split; congruence].
  - split; reflexivity.
Defined.

Lemma structural_buffer_mono symbol tf1 tf2 r1 r2 :
  TIMEFRAME_MINUTES tf1 <= TIMEFRAME_MINUTES tf2 ->
  fin r1 -> fin r2 -> fv r1 <= fv r2 ->
  fv (structural_buffer symbol tf1 (Some r1)) <= fv (structural_buffer symbol tf2 (Some r2)).
Proof.
  intros Ht F1 F2 Hr. destruct (floor_facts symbol tf1) as [Ff1 _], (floor_facts symbol tf2) as [Ff2 _].
  destruct (pip_float_fin symbol) as [Fp [Hp _]].
  destruct (floor_pips_mono tf1 tf2 Ht) as [Ft1 Hf]. destruct (floor_pips_mono tf2 tf2 ltac:(lia)) as [Ft2 _].
  assert (Hfl : fv (fmul (timeframe_floor_pips tf1) (pip_float symbol)) <=
                fv (fmul (timeframe_floor_pips tf2) (pip_float symbol))).
  { apply fmul_mono; [done..|]. apply Z.mul_le_mono_nonneg_r; lia. }
  unfold structural_buffer. cbv zeta. rewrite !flt_fv by auto with etradie. rewrite fv_fzero.
  destruct (0 <? fv r1) eqn:E1, (0 <? fv r2) eqn:E2; zbool; try lia.
  - destruct (quarter_fin r1 F1 E1) as [Fq1 _], (quarter_fin r2 F2 E2) as [Fq2 _].
    assert (fv (fmul r1 _INVALIDATION_RANGE_BUFFER_PCT) <= fv (fmul r2 _INVALIDATION_RANGE_BUFFER_PCT)).
    { apply fmul_mono; [done..|]. apply Z.mul_le_mono_nonneg_r; [vm_compute; congruence|done]. }
    destruct (fmax_num _ _ (fin_num _ Fq1) (fin_num _ Ff1)) as [_ ->].
    destruct (fmax_num _ _ (fin_num _ Fq2) (fin_num _ Ff2)) as [_ ->]. lia.
  - destruct (quarter_fin r2 F2 E2) as [Fq2 _].
    destruct (fmax_num _ _ (fin_num _ Fq2) (fin_num _ Ff2)) as [_ ->]. lia.
Qed.

(** Timeframe matters.  The stop distance grows with the timeframe's minutes
    and with the invalidation candle's range: for the same level, a stop computed
    on a higher timeframe and a wider candle is never tighter. *)
Theorem stop_loss_widens
    (symbol : string) (tf1 tf2 : Timeframe) (d : Direction) (level r1 r2 : float) :
  TIMEFRAME_MINUTES tf1 <= TIMEFRAME_MINUTES tf2 ->
  price_ok level -> fin r1 -> fin r2 -> fle r1 r2 = true ->
  let sl1 := compute_structural_stop_loss symbol tf1 d level None (Some r1) in
  let sl2 := compute_structural_stop_loss symbol tf2 d level None (Some r2) in
  (d = BEARISH -> fle sl1 sl2 = true) /\ (d <> BEARISH -> fle sl2 sl1 = true).
Proof.
  intros Ht [Fl Hl] F1 F2 Hr. fcmp.
  assert (Hm := structural_buffer_mono symbol tf1 tf2 r1 r2 Ht F1 F2 Hr).
  destruct (structural_buffer_facts symbol tf1 (Some r1) F1) as (Fb1 & _).
  destruct (structural_buffer_facts symbol tf2 (Some r2) F2) as (Fb2 & _).
  unfold compute_structural_stop_loss. cbv zeta.
  split; intros Hd; case_decide; try done; rewrite fle_fv by auto with etradie; apply Z.leb_le.
  - apply fadd_mono; [done..|lia].
  - apply fsub_mono; [done..|lia].
Qed.

Lemma stop_loss_widens_witness :
  fle (compute_structural_stop_loss "USDJPY" M15 BULLISH (lit 15123 2) None (Some (lit 31 2)))
      (compute_structural_stop_loss "USDJPY" M5 BULLISH (lit 15123 2) None (Some (lit 12 2))) = true.
Proof.
  apply (stop_loss_widens "USDJPY" M5 M15 BULLISH (lit 15123 2) (lit 12 2) (lit 31 2));
    [vm_compute; congruence|split; [split; reflexivity|vm_compute; split; congruence]
    |split; reflexivity|split; reflexivity|reflexivity|congruence].
Defined.

(** ** Properties of the reward floors *)

Lemma tf_min_rr_facts tf :
  num (timeframe_min_tp_rr tf) /\ fv LOWEST_STYLE_MIN_RR <= fv (timeframe_min_tp_rr tf).
Proof. destruct tf; vm_compute; split; [split|..]; congruence || done. Qed.

Lemma style_rr_facts s v :
  style_min_tp_rr s = Some v -> num v /\ fv LOWEST_STYLE_MIN_RR <= fv v.
Proof.
  destruct s as [s|]; [|done]. unfold style_min_tp_rr, dict_find.
  destruct (dict_get STYLE_MIN_TP_RR _) as [w|] eqn:E; [|done]. intros [= <-].
  apply dict_get_In in E. simpl in E.
  destruct E as [[= _ <-]|[[= _ <-]|[[= _ <-]|[[= _ <-]|[]]]]];
    (split; [done|vm_compute; congruence]).
Qed.

(** The maximum of the floors that are present, or the rulebook minimum. *)
Lemma max_of_candidates (cs : list float) :
  Forall num cs ->
  exists rr, match cs with [] => Ok LOWEST_STYLE_MIN_RR | _ => fmax_list cs end = Ok rr /\ num rr /\
    (forall c, In c cs -> fv c <= fv rr) /\ (cs = [] /\ rr = LOWEST_STYLE_MIN_RR \/ In rr cs).
Proof.
  intros Hn. destruct cs as [|c cs]; [eexists; split; [done|]; split; [done|]; split; [done|by left]|].
  exists (py_max_from (fun x y => flt y x) c cs). split; [done|].
  destruct (fmax_list_spec (c :: cs) (py_max_from (fun x y => flt y x) c cs) Hn eq_refl) as [Hin Hub].
  rewrite List.Forall_forall in Hn. auto.
Qed.

(** The reward floor combines by maximum.  The resolved minimum
    reward-to-risk is at least the timeframe floor when a timeframe is given, at
    least the style floor when a style is known, and never below the rulebook's
    lowest style minimum unless the caller supplies its own number and no
    timeframe. *)
Theorem resolve_min_tp_rr_floor
    (timeframe : option Timeframe) (style_min_rr : option float) (style : option string) :
  (forall v, style_min_rr = Some v -> num v) ->
  exists rr, resolve_min_tp_rr timeframe style_min_rr style = Ok rr /\
    (forall tf, timeframe = Some tf -> fle (timeframe_min_tp_rr tf) rr = true) /\
    (forall v, style_min_rr = Some v -> fle v rr = true) /\
    (forall v, style_min_rr = None -> style_min_tp_rr style = Some v -> fle v rr = true) /\
    (style_min_rr = None \/ is_Some timeframe -> fle LOWEST_STYLE_MIN_RR rr = true).
Proof.
  intros Hnum. unfold resolve_min_tp_rr. cbv zeta.
  set (rs := match style_min_rr, style with None, Some s => style_min_tp_rr (Some s) | _, _ => style_min_rr end).
  assert (Hrs : rs = match style_min_rr with Some v => Some v | None => style_min_tp_rr style end)
    by (unfold rs; by destruct style_min_rr, style). clearbody rs.
  assert (Hc : forall c, In c (omap id [rs; timeframe_min_tp_rr <$> timeframe]) <->
    rs = Some c \/ exists tf, timeframe = Some tf /\ c = timeframe_min_tp_rr tf).
  { intros c. clear Hrs. destruct rs as [v|], timeframe as [tf|]; cbn [omap list_omap id fmap option_fmap option_map In].
    all: split; [intros Hi; repeat destruct Hi as [<-|Hi]; eauto; done|].
    all: intros [Hi|(tf' & Hi & ->)]; simplify_eq; auto. }
  destruct (max_of_candidates (omap id [rs; timeframe_min_tp_rr <$> timeframe])) as (rr & E & N & Hub & Hin).
  { apply List.Forall_forall. intros c [Hr|(tf & _ & ->)]%Hc; [|apply tf_min_rr_facts].
    rewrite Hrs in Hr. destruct style_min_rr; [by apply Hnum|by apply style_rr_facts in Hr as []]. }
  exists rr. split; [done|].
  assert (Hle : forall c, num c -> In c (omap id [rs; timeframe_min_tp_rr <$> timeframe]) -> fle c rr = true).
  { intros c Nc Hic. rewrite fle_fv by done. by apply Z.leb_le, Hub. }
  split; [intros tf ->; apply Hle; [apply tf_min_rr_facts|rewrite Hc; eauto]|].
  split; [intros v ->; apply Hle; [by apply Hnum|rewrite Hc; auto]|].
  split; [intros v -> Hs; apply Hle; [by apply style_rr_facts in Hs as []|rewrite Hc; left; congruence]|].
  intros Hlow. rewrite fle_fv by done. apply Z.leb_le.
  destruct Hlow as [Hn|[tf ->]].
  - destruct Hin as [[_ ->]|Hin]; [done|]. apply Hc in Hin as [Hr|(tf & _ & ->)]; [|apply tf_min_rr_facts].
    rewrite Hrs, Hn in Hr. by apply style_rr_facts in Hr as [].
  - etransitivity; [apply tf_min_rr_facts|]. apply Hub. rewrite Hc. eauto.
Qed.

Lemma resolve_min_tp_rr_floor_witness :
  exists rr, resolve_min_tp_rr (Some D1) None (Some " swing ") = Ok rr /\
    (forall tf, Some D1 = Some tf -> fle (timeframe_min_tp_rr tf) rr = true) /\
    (forall v, None = Some v -> fle v rr = true) /\
    (forall v, @None float = None -> style_min_tp_rr (Some " swing ") = Some v -> fle v rr = true) /\
    (@None float = None \/ is_Some (Some D1) -> fle LOWEST_STYLE_MIN_RR rr = true).
Proof. apply (resolve_min_tp_rr_floor (Some D1) None (Some " swing ")). congruence. Defined.
