(* ===== verification/Candles.v ===== *)
(** * Candles: [engine/ta/models/candle.py]

    A pydantic model is a record and a [create] function that runs its field
    constraints, its validators and [model_post_init]; a rejected field is a
    [ValidationError], an inconsistent candle a [ConfigurationError]. *)

From Stdlib Require Import ZArith Lia Bool String Sorting.Sorted Sorting.Permutation.
From stdpp Require Import base list strings.
From S2P Require Import Prelude PyFloat FloatRound FloatMono PyText Constants PriceMath.

#[local] Open Scope string_scope.
#[local] Open Scope Z_scope.

(** ** Field constraints *)

(** [str = Field(min_length=lo, max_length=hi)] under [str_strip_whitespace]. *)
Definition str_field (lo hi : Z) (s : string) : res string :=
  let s := str_strip s in
  if (lo <=? str_len s) && (str_len s <=? hi) then Ok s else Raise ValidationError.

(** A boolean field constraint such as [gt=0]. *)
Definition require (b : bool) : res unit := if b then Ok tt else Raise ValidationError.

(** [float = Field(gt=0)] and [float = Field(ge=0)]. *)
Definition field_gt0 (x : float) : res float := if flt fzero x then Ok x else Raise ValidationError.
Definition field_ge0 (x : float) : res float := if fle fzero x then Ok x else Raise ValidationError.

(** [int = Field(ge=lo, le=hi)]. *)
Definition int_field (lo : Z) (hi : option Z) (n : Z) : res Z :=
  if (lo <=? n) && match hi with Some h => n <=? h | None => true end
  then Ok n else Raise ValidationError.

Lemma field_gt0_Ok x y : field_gt0 x = Ok y -> y = x /\ flt fzero x = true.
Proof. unfold field_gt0. destruct (flt fzero x); [by intros [= <-]|done]. Qed.
Lemma field_ge0_Ok x y : field_ge0 x = Ok y -> y = x /\ fle fzero x = true.
Proof. unfold field_ge0. destruct (fle fzero x); [by intros [= <-]|done]. Qed.
Lemma int_field_Ok lo hi n m :
  int_field lo hi n = Ok m -> m = n /\ lo <= n /\ forall h, hi = Some h -> n <= h.
Proof.
  unfold int_field. destruct hi as [h|]; intros H; case_hyp H; try done; injection H as <-;
    split_hyps; zbool; (split; [done|]; split; [done|]); intros ? [= <-]; done.
Qed.

Lemma field_gt0_intro x : flt fzero x = true -> field_gt0 x = Ok x.
Proof. unfold field_gt0. by intros ->. Qed.
Lemma field_ge0_intro x : fle fzero x = true -> field_ge0 x = Ok x.
Proof. unfold field_ge0. by intros ->. Qed.

(** [validate_symbol] of the models whose symbol has between 3 and 30
    characters. *)
Definition symbol_3_30 (s : string) : res string := normalize_symbol <$> str_field 3 30 s.

(** ** Candle *)

Module Candle.

Record t := mk {
  symbol : string;
  timeframe : Timeframe;
  timestamp : datetime;
  open : float;
  high : float;
  low : float;
  close : float;
  volume : float }.

Definition validate_symbol (v : string) : res string :=
  let normalized := normalize_symbol v in
  if str_len normalized <? 2 then Raise ValidationError else Ok normalized.

Definition validate_timestamp (v : datetime) : datetime :=
  match utcoffset v with
  | None => mk_datetime (wall v) (Some 0)
  | Some _ => v
  end.

Definition model_post_init (c : t) : res unit :=
  if flt (high c) (low c) then Raise (ConfigurationError "High must be >= low")
  else if flt (high c) (open c) || flt (high c) (close c)
  then Raise (ConfigurationError "High must be >= open and close")
  else if flt (open c) (low c) || flt (close c) (low c)
  then Raise (ConfigurationError "Low must be <= open and close")
  else Ok tt.

Definition create (symbol : string) (tf : Timeframe) (ts : datetime) (o h l c v : float) : res t :=
  s ← str_field 2 20 symbol;
  s ← validate_symbol s;
  o ← field_gt0 o;
  h ← field_gt0 h;
  l ← field_gt0 l;
  c ← field_gt0 c;
  v ← field_ge0 v;
  let candle := mk s tf (validate_timestamp ts) o h l c v in
  _ ← model_post_init candle;
  Ok candle.

Definition is_bullish (c : t) : bool := flt (open c) (close c).
Definition is_bearish (c : t) : bool := flt (close c) (open c).
Definition is_doji (c : t) : bool := feq (close c) (open c).
Definition body_size (c : t) : float := fabs (fsub (close c) (open c)).
Definition total_range (c : t) : float := fsub (high c) (low c).
Definition upper_wick (c : t) : float := fsub (high c) (fmax (open c) (close c)).
Definition lower_wick (c : t) : float := fsub (fmin (open c) (close c)) (low c).

Definition percentage_of_range (part : float) (c : t) : res float :=
  if feq (total_range c) fzero then Ok fzero
  else q ← fdiv part (total_range c); Ok (fmul q (of_Z 100)).

Definition body_percentage (c : t) : res float := percentage_of_range (body_size c) c.
Definition upper_wick_percentage (c : t) : res float := percentage_of_range (upper_wick c) c.
Definition lower_wick_percentage (c : t) : res float := percentage_of_range (lower_wick c) c.

Definition candle_type (c : t) : res CandleType :=
  if is_doji c then Ok DOJI
  else
    body_pct ← body_percentage c;
    upper_wick_pct ← upper_wick_percentage c;
    lower_wick_pct ← lower_wick_percentage c;
    if fle (of_Z 80) body_pct then
      Ok (if is_bullish c then MARUBOZU_BULLISH else MARUBOZU_BEARISH)
    else if is_bullish c && fle (of_Z 60) lower_wick_pct && fle upper_wick_pct (of_Z 10)
    then Ok HAMMER
    else if is_bearish c && fle (of_Z 60) upper_wick_pct && fle lower_wick_pct (of_Z 10)
    then Ok SHOOTING_STAR
    else Ok STANDARD.

Definition engulfs (c previous : t) : bool :=
  if negb (String.eqb (symbol c) (symbol previous)) || negb (bool_decide (timeframe c = timeframe previous))
  then false
  else if is_bullish c && is_bearish previous then
    fle (open c) (close previous) && fle (open previous) (close c)
    && flt (body_size previous) (body_size c)
  else if is_bearish c && is_bullish previous then
    fle (close previous) (open c) && fle (close c) (open previous)
    && flt (body_size previous) (body_size c)
  else false.

(** The invariant of a candle: its prices are numbers, positive and
    consistent. *)
Record wf (c : t) : Prop := {
  wf_open : num (open c); wf_high : num (high c); wf_low : num (low c); wf_close : num (close c);
  wf_low_pos : 0 < fv (low c);
  wf_lo : fv (low c) <= fv (open c); wf_lc : fv (low c) <= fv (close c);
  wf_oh : fv (open c) <= fv (high c); wf_ch : fv (close c) <= fv (high c) }.

(** A candle all of whose prices are finite. *)
Definition finite (c : t) : Prop :=
  is_finite (open c) = true /\ is_finite (high c) = true /\
  is_finite (low c) = true /\ is_finite (close c) = true.

End Candle.

(** ** CandleSequence *)

Module CandleSequence.

Record t := mk {
  symbol : string;
  timeframe : Timeframe;
  candles : list Candle.t }.

(** The loop over [v]: every candle has the first one's symbol and
    timeframe. *)
Fixpoint check_uniform (sym : string) (tf : Timeframe) (v : list Candle.t) : res unit :=
  match v with
  | [] => Ok tt
  | c :: v =>
      if negb (String.eqb (Candle.symbol c) sym) then Raise ValidationError
      else if negb (bool_decide (Candle.timeframe c = tf)) then Raise ValidationError
      else check_uniform sym tf v
  end.

Definition by_timestamp (a b : Candle.t) : bool :=
  dt_ltb (Candle.timestamp a) (Candle.timestamp b).

Definition validate_candles (v : list Candle.t) : res (list Candle.t) :=
  match v with
  | [] => Raise ValidationError
  | c0 :: _ =>
      _ ← check_uniform (Candle.symbol c0) (Candle.timeframe c0) v;
      let timestamps := map (fun c => instant (Candle.timestamp c)) v in
      if negb (py_len timestamps =? py_len (remove_dups timestamps)) then Raise ValidationError
      else Ok (py_sorted by_timestamp v)
  end.

Definition create (symbol : string) (tf : Timeframe) (v : list Candle.t) : res t :=
  s ← str_field 2 20 symbol;
  _ ← require (1 <=? py_len v);
  v ← validate_candles v;
  Ok (mk (normalize_symbol s) tf v).

Definition start_time (q : t) : res datetime := Candle.timestamp <$> py_index (candles q) 0.
Definition end_time (q : t) : res datetime := Candle.timestamp <$> py_index (candles q) (-1).
Definition count (q : t) : Z := py_len (candles q).
Definition highest_high (q : t) : res float := fmax_list (map Candle.high (candles q)).
Definition lowest_low (q : t) : res float := fmin_list (map Candle.low (candles q)).

Fixpoint find_at (ts : datetime) (v : list Candle.t) : option Candle.t :=
  match v with
  | [] => None
  | c :: v => if dt_eqb (Candle.timestamp c) ts then Some c else find_at ts v
  end.
Definition get_candle_at (q : t) (ts : datetime) : option Candle.t := find_at ts (candles q).

Definition get_candles_between (q : t) (start stop : datetime) : list Candle.t :=
  List.filter (fun c => dt_leb start (Candle.timestamp c) && dt_leb (Candle.timestamp c) stop) (candles q).

Definition slice (q : t) (start_idx : Z) (end_idx : option Z) : res t :=
  if (start_idx <? 0) || (py_len (candles q) <=? start_idx)
  then Raise (ConfigurationError "Invalid start index")
  else
    match end_idx with
    | Some e =>
        if (e <? start_idx) || (py_len (candles q) <? e)
        then Raise (ConfigurationError "Invalid end index")
        else create (symbol q) (timeframe q) (py_slice (candles q) start_idx e)
    | None => create (symbol q) (timeframe q) (py_slice_from (candles q) start_idx)
    end.

(** The invariant of a sequence: non-empty, one symbol and timeframe, strictly
    increasing timestamps. *)
Definition instant_of (c : Candle.t) : Z := instant (Candle.timestamp c).

Record wf (v : list Candle.t) : Prop := {
  wf_nonempty : v <> [];
  wf_uniform : forall a b, In a v -> In b v ->
    Candle.symbol a = Candle.symbol b /\ Candle.timeframe a = Candle.timeframe b;
  wf_sorted : StronglySorted (fun a b => instant_of a < instant_of b) v }.

End CandleSequence.

(** ** Candle: construction *)

Module CandleFacts.
Import Candle.

(** The conditions under which the constructor accepts its arguments. *)
Definition accepts (s : string) (o h l c v : float) : Prop :=
  2 <= str_len (str_strip s) <= 20 /\ 2 <= str_len (normalize_symbol (str_strip s)) /\
  0 < fv l /\ fv l <= fv o <= fv h /\ fv l <= fv c <= fv h /\ 0 <= fv v.

Lemma str_field_Ok lo hi s r :
  str_field lo hi s = Ok r -> r = str_strip s /\ lo <= str_len r <= hi.
Proof.
  unfold str_field. intros H. cbv zeta in H. case_hyp H; [|done]. injection H as <-.
  split_hyps. zbool. lia || auto.
Qed.

Lemma str_field_intro lo hi s :
  lo <= str_len (str_strip s) <= hi -> str_field lo hi s = Ok (str_strip s).
Proof.
  intros H. unfold str_field. cbv zeta.
  by rewrite (proj2 (Z.leb_le _ _)), (proj2 (Z.leb_le _ _)) by lia.
Qed.

Lemma flt_fzero x : num x -> flt fzero x = (0 <? fv x).
Proof. intros. by rewrite flt_fv by auto with etradie. Qed.
Lemma fle_fzero x : num x -> fle fzero x = (0 <=? fv x).
Proof. intros. by rewrite fle_fv by auto with etradie. Qed.

Lemma post_init_Ok k :
  num (open k) -> num (high k) -> num (low k) -> num (close k) ->
  model_post_init k = Ok tt <->
  fv (low k) <= fv (open k) <= fv (high k) /\ fv (low k) <= fv (close k) <= fv (high k).
Proof.
  intros No Nh Nl Nc. unfold model_post_init. rewrite !flt_fv by done.
  destruct (Z.ltb_spec (fv (high k)) (fv (low k))); [split; [done|lia]|].
  destruct (Z.ltb_spec (fv (high k)) (fv (open k))), (Z.ltb_spec (fv (high k)) (fv (close k)));
    cbn [orb]; try (split; [done|lia]).
  destruct (Z.ltb_spec (fv (open k)) (fv (low k))), (Z.ltb_spec (fv (close k)) (fv (low k)));
    cbn [orb]; split; (done || lia || intros; done).
Qed.

Lemma create_Ok_iff s tf ts o h l c v k :
  num o -> num h -> num l -> num c -> num v ->
  create s tf ts o h l c v = Ok k <->
  accepts s o h l c v /\
  k = mk (normalize_symbol (str_strip s)) tf (validate_timestamp ts) o h l c v.
Proof.
  intros No Nh Nl Nc Nv. unfold create, accepts. split.
  - intros H. inv_binds.
    repeat match goal with
    | H : field_gt0 _ = Ok _ |- _ => apply field_gt0_Ok in H as [-> ?]
    | H : field_ge0 _ = Ok _ |- _ => apply field_ge0_Ok in H as [-> ?]
    | H : str_field _ _ _ = Ok _ |- _ => apply str_field_Ok in H as [-> ?]
    end.
    rewrite flt_fzero in * by done. rewrite fle_fzero in * by done. zbool.
    unfold validate_symbol in *. cbv zeta in *.
    destruct (str_len (normalize_symbol (str_strip s)) <? 2) eqn:El; [done|]. zbool. simplify_eq.
    destruct a6. apply post_init_Ok in E6; [|done..]. simpl in E6. split; [|done]. lia.
  - intros ((Hs & Hn & Hl & Ho & Hc & Hv) & ->). rewrite str_field_intro by lia.
    cbn [mbind res_bind]. unfold validate_symbol. cbv zeta.
    rewrite (proj2 (Z.ltb_ge _ _)) by lia.
    rewrite !field_gt0_intro by (rewrite flt_fzero by done; apply Z.ltb_lt; lia).
    rewrite field_ge0_intro by (rewrite fle_fzero by done; by apply Z.leb_le).
    cbn [mbind res_bind]. by rewrite (proj2 (post_init_Ok (mk _ _ _ _ _ _ _ _) No Nh Nl Nc)).
Qed.

(** Exactly the consistent candles exist.  On any five floats that are not
    NaN the constructor returns a candle if and only if the symbol has an
    accepted length, the low is positive, open and close lie between low and
    high, and the volume is not negative; the candle then holds the given prices,
    the normalised symbol and an aware timestamp, and satisfies the candle
    invariant. *)
Theorem candle_create_exact
    (s : string) (tf : Timeframe) (ts : datetime) (o h l c v : float) :
  num o -> num h -> num l -> num c -> num v ->
  (accepts s o h l c v <-> exists k, create s tf ts o h l c v = Ok k) /\
  forall k, create s tf ts o h l c v = Ok k ->
    wf k /\ open k = o /\ high k = h /\ low k = l /\ close k = c /\
    symbol k = normalize_symbol (str_strip s) /\ is_aware (timestamp k) = true.
Proof.
  intros No Nh Nl Nc Nv. split.
  - split.
    + intros H. eexists. apply create_Ok_iff; eauto.
    + intros [k H]. by apply create_Ok_iff in H as [].
  - intros k H. apply create_Ok_iff in H as [(_ & _ & Hl & Ho & Hc & _) ->]; [|done..].
    split; [constructor; simpl; done || lia|]. repeat (split; [done|]).
    simpl. unfold validate_timestamp, is_aware. by destruct ts as [w [off|]].
Qed.

Lemma candle_create_exact_witness :
  exists k, create " EUR/USD " H1 (mk_datetime 1700000000000000 None)
      (lit 10850 4) (lit 10861 4) (lit 10829 4) (lit 10835 4) (of_Z 1200) = Ok k /\
    symbol k = "EURUSD".
Proof.
  destruct (candle_create_exact " EUR/USD " H1 (mk_datetime 1700000000000000 None)
      (lit 10850 4) (lit 10861 4) (lit 10829 4) (lit 10835 4) (of_Z 1200)) as [Hiff Hall];
    [split; reflexivity..|].
  destruct (proj1 Hiff) as [k Hk].
  - unfold accepts. repeat split; vm_compute; congruence.
  - exists k. split; [exact Hk|]. apply Hall in Hk. destruct_and!. assumption.
Defined.

(** ** Candle: derived quantities *)

Lemma finite_fin k : wf k -> finite k -> fin (open k) /\ fin (high k) /\ fin (low k) /\ fin (close k).
Proof. intros [[] [] [] [] _ _ _ _ _] (? & ? & ? & ?). by repeat split. Qed.

Lemma ohlc k : wf k -> finite k -> ohlc_ok (open k) (close k) (high k) (low k).
Proof.
  intros H F. destruct (finite_fin k H F) as (? & ? & ? & ?). destruct H.
  constructor; done || lia.
Qed.

Lemma percentage_returns part k :
  wf k -> finite k -> fin part -> 0 <= fv part <= fv (total_range k) ->
  exists p, percentage_of_range part k = Ok p /\ fin p /\ fle fzero p = true /\ fle p (of_Z 100) = true.
Proof.
  intros H F Fp Hp. pose proof (ohlc k H F) as O.
  apply guarded_percentage_range; [apply O..| |done|done].
  pose proof (ohlc_lo _ _ _ _ O). pose proof (ohlc_oh _ _ _ _ O). lia.
Qed.

(** The three percentages of a finite candle are defined and between 0 and
    100. *)
Lemma percentages_return k :
  wf k -> finite k ->
  exists b u l, body_percentage k = Ok b /\ upper_wick_percentage k = Ok u /\
    lower_wick_percentage k = Ok l /\ Forall (fun p => fin p /\ fle fzero p = true /\ fle p (of_Z 100) = true) [b; u; l].
Proof.
  intros H F. pose proof (ohlc k H F) as O.
  destruct (body_part _ _ _ _ O) as [Fb Hb]. destruct (wick_part _ _ _ _ true O) as [Fu Hu].
  destruct (wick_part _ _ _ _ false O) as [Fl Hl].
  destruct (percentage_returns (body_size k) k H F Fb Hb) as (b & Eb & Pb).
  destruct (percentage_returns (upper_wick k) k H F Fu Hu) as (u & Eu & Pu).
  destruct (percentage_returns (lower_wick k) k H F Fl Hl) as (l & El & Pl).
  exists b, u, l. repeat (split; [done|]). repeat constructor; apply Pb || apply Pu || apply Pl.
Qed.

Lemma direction_trichotomy k :
  wf k ->
  (is_bullish k = true /\ is_bearish k = false /\ is_doji k = false) \/
  (is_bullish k = false /\ is_bearish k = true /\ is_doji k = false) \/
  (is_bullish k = false /\ is_bearish k = false /\ is_doji k = true).
Proof.
  intros []. unfold is_bullish, is_bearish, is_doji. rewrite !flt_fv, feq_fv by done.
  destruct (Z.lt_trichotomy (fv (open k)) (fv (close k))) as [?|[?|?]].
  - left. rewrite Z.ltb_lt, Z.ltb_ge, Z.eqb_neq. lia.
  - right; right. rewrite !Z.ltb_ge, Z.eqb_eq. lia.
  - right; left. rewrite Z.ltb_lt, Z.ltb_ge, Z.eqb_neq. lia.
Qed.

(** Every finite candle is classified, and soundly.  Exactly one of bullish,
    bearish and doji holds; [candle_type] returns without an exception; it says
    DOJI exactly for a doji, and the bullish and bearish types only for candles of
    that direction. *)
Theorem candle_type_sound (k : t) :
  wf k -> finite k ->
  exists ty, candle_type k = Ok ty /\
    (ty = DOJI <-> is_doji k = true) /\
    (ty = MARUBOZU_BULLISH \/ ty = HAMMER -> is_bullish k = true) /\
    (ty = MARUBOZU_BEARISH \/ ty = SHOOTING_STAR -> is_bearish k = true).
Proof.
  intros H F. unfold candle_type.
  destruct (percentages_return k H F) as (b & u & l & -> & -> & -> & _). cbn [mbind res_bind].
  destruct (direction_trichotomy k H) as [(Eb & Es & Ed)|[(Eb & Es & Ed)|(Eb & Es & Ed)]];
    rewrite ?Eb, ?Es, ?Ed; cbn [andb];
    repeat match goal with |- context [if ?c then _ else _] => destruct c end;
    eexists; (split; [reflexivity|]); intuition congruence.
Qed.

Definition sample_candle : t :=
  mk "EURUSD" H1 (mk_datetime 0 (Some 0)) (lit 10850 4) (lit 10861 4) (lit 10829 4) (lit 10835 4) fzero.

Lemma sample_candle_ok : wf sample_candle /\ finite sample_candle.
Proof. split; [constructor|]; vm_compute; repeat split; congruence. Qed.

Lemma candle_type_sound_witness :
  exists ty, candle_type sample_candle = Ok ty /\ (ty = DOJI <-> is_doji sample_candle = true).
Proof.
  destruct (candle_type_sound sample_candle (proj1 sample_candle_ok) (proj2 sample_candle_ok))
    as (ty & E & Hd & _).
  exists ty. split; [exact E|exact Hd].
Defined.

(** Engulfing is a strict relation of opposite directions.  When one finite
    candle engulfs another, they have opposite directions, the engulfing body
    covers the engulfed body's open and close, and the converse does not hold. *)
Theorem engulfs_strict (a b : t) :
  wf a -> wf b -> engulfs a b = true ->
  engulfs b a = false /\
  (is_bullish a = true /\ is_bearish b = true \/ is_bearish a = true /\ is_bullish b = true) /\
  Z.min (fv (open a)) (fv (close a)) <= Z.min (fv (open b)) (fv (close b)) /\
  Z.max (fv (open b)) (fv (close b)) <= Z.max (fv (open a)) (fv (close a)).
Proof.
  intros Ha Hb He. pose proof (direction_trichotomy a Ha) as Ta. pose proof (direction_trichotomy b Hb) as Tb.
  unfold engulfs in *.
  destruct (negb (String.eqb (symbol a) (symbol b)) || negb (bool_decide (timeframe a = timeframe b))) eqn:Eg;
    [done|].
  unfold is_bullish, is_bearish, is_doji in *. destruct Ha, Hb.
  destruct (flt (open a) (close a) && flt (close b) (open b)) eqn:E1;
    [|destruct (flt (close a) (open a) && flt (open b) (close b)) eqn:E2; [|done]].
  - split_hyps. rewrite (flt_asym (body_size b) (body_size a)) by done. split; [|split; [auto|]].
    + repeat case_match; rewrite ?andb_false_r; done.
    + fcmp. lia.
  - split_hyps. rewrite (flt_asym (body_size b) (body_size a)) by done. split; [|split; [auto|]].
    + repeat case_match; rewrite ?andb_false_r; done.
    + fcmp. lia.
Qed.

Definition sample_engulfed : t :=
  mk "EURUSD" H1 (mk_datetime 0 (Some 0)) (lit 10840 4) (lit 10846 4) (lit 10833 4) (lit 10845 4) fzero.

Lemma engulfs_strict_witness : engulfs sample_candle sample_engulfed = true /\ engulfs sample_engulfed sample_candle = false.
Proof.
  assert (H : engulfs sample_candle sample_engulfed = true) by (vm_compute; reflexivity).
  split; [exact H|].
  apply (engulfs_strict sample_candle sample_engulfed); [apply sample_candle_ok| |exact H].
  constructor; vm_compute; repeat split; congruence.
Defined.

End CandleFacts.

(** ** CandleSequence *)

Module SequenceFacts.
Import CandleSequence.

Lemma check_uniform_Ok sym tf v :
  check_uniform sym tf v = Ok tt <->
  forall c, In c v -> Candle.symbol c = sym /\ Candle.timeframe c = tf.
Proof.
  induction v as [|c v IH]; simpl; [split; [intros _ ? []|done]|].
  destruct (String.eqb_spec (Candle.symbol c) sym) as [Es|Es]; cbn [negb].
  2:{ split; [done|]. intros H. by destruct (H c (or_introl eq_refl)). }
  case_bool_decide as Et; cbn [negb].
  2:{ split; [done|]. intros H. by destruct (H c (or_introl eq_refl)). }
  rewrite IH. split; [intros H d [<-|Hd]; auto|auto].
Qed.

Lemma check_uniform_Raise sym tf v e :
  check_uniform sym tf v = Raise e ->
  e = ValidationError /\
  exists c, In c v /\ (Candle.symbol c <> sym \/ Candle.timeframe c <> tf).
Proof.
  induction v as [|c v IH]; simpl; [done|].
  destruct (String.eqb_spec (Candle.symbol c) sym); cbn [negb].
  2:{ intros [= <-]. split; [done|]. exists c. auto. }
  case_bool_decide; cbn [negb].
  2:{ intros [= <-]. split; [done|]. exists c. auto. }
  intros Eu. destruct (IH Eu) as (-> & c' & Hc & Hd). split; [done|]. exists c'. auto.
Qed.

Lemma by_timestamp_instant a b : by_timestamp a b = (instant_of a <? instant_of b).
Proof. done. Qed.

(** The validator accepts exactly the non-empty uniform lists without repeated
    timestamps, and sorts them. *)
Lemma validate_candles_Ok v w :
  validate_candles v = Ok w <->
  v <> [] /\
  (forall a b, In a v -> In b v ->
     Candle.symbol a = Candle.symbol b /\ Candle.timeframe a = Candle.timeframe b) /\
  NoDup (map instant_of v) /\ w = py_sorted by_timestamp v.
Proof.
  destruct v as [|c0 v]; cbn [validate_candles]; [split; [done|by intros []]|].
  assert (Hu : check_uniform (Candle.symbol c0) (Candle.timeframe c0) (c0 :: v) = Ok tt <->
    forall a b, In a (c0 :: v) -> In b (c0 :: v) ->
      Candle.symbol a = Candle.symbol b /\ Candle.timeframe a = Candle.timeframe b).
  { rewrite check_uniform_Ok. split.
    - intros H a b Ha Hb. destruct (H a Ha), (H b Hb). split; congruence.
    - intros H c Hc. apply H; [done|by left]. }
  assert (Hd : negb (py_len (map (fun c => instant (Candle.timestamp c)) (c0 :: v)) =?
      py_len (remove_dups (map (fun c => instant (Candle.timestamp c)) (c0 :: v)))) = false <->
    NoDup (map instant_of (c0 :: v))).
  { rewrite negb_false_iff, Z.eqb_eq, <- remove_dups_NoDup_iff. unfold py_len. split; intros; unfold instant_of in *; lia. }
  cbv zeta. destruct (check_uniform _ _ (c0 :: v)) as [[]|e] eqn:E; cbn [mbind res_bind].
  - destruct (negb _) eqn:En.
    + split; [done|]. intros (_ & _ & Hn & _). by apply Hd in Hn.
    + split.
      * intros [= <-]. split; [done|]. split; [by apply Hu|]. split; [by apply Hd|done].
      * by intros (_ & _ & _ & ->).
  - split; [done|]. intros (_ & H & _). by apply Hu in H.
Qed.

Lemma validate_candles_wf v w : validate_candles v = Ok w -> wf w /\ Permutation w v.
Proof.
  intros H. apply validate_candles_Ok in H as (Hne & Hu & Hn & ->).
  assert (P : Permutation (py_sorted by_timestamp v) v) by apply py_sorted_perm.
  split; [|done]. constructor.
  - intros E. rewrite E in P. by apply Permutation_nil in P.
  - intros a b Ha Hb. apply py_sorted_In in Ha, Hb. auto.
  - apply StronglySorted_strict.
    + apply py_sorted_sorted. intros; apply by_timestamp_instant.
    + apply (Permutation_map instant_of) in P. by rewrite P.
Qed.

Lemma validate_candles_id v : wf v -> validate_candles v = Ok v.
Proof.
  intros [Hne Hu Hs]. apply validate_candles_Ok. split; [done|]. split; [done|].
  split; [by apply StronglySorted_NoDup|]. symmetry.
  apply (py_sorted_id by_timestamp instant_of); [intros; apply by_timestamp_instant|].
  eapply StronglySorted_weaken; [|done]. simpl. lia.
Qed.

Lemma sequence_create_Ok s tf v q :
  create s tf v = Ok q ->
  exists w, validate_candles v = Ok w /\ q = mk (normalize_symbol (str_strip s)) tf w.
Proof.
  unfold create. intros H. inv_binds. apply CandleFacts.str_field_Ok in E as [-> _]. subst. eauto.
Qed.

(** A candle sequence is a sorted rearrangement of its input.  Whenever the
    constructor returns, the stored candles are a permutation of the given ones,
    of one symbol and one timeframe, in strictly increasing time order; given
    candles that mix symbols or timeframes, repeat a timestamp, or are empty are
    rejected with a validation error. *)
Theorem sequence_create_sorted (s : string) (tf : Timeframe) (v : list Candle.t) :
  2 <= str_len (str_strip s) <= 20 ->
  (exists q, create s tf v = Ok q /\ wf (candles q) /\ Permutation (candles q) v) \/
  (create s tf v = Raise ValidationError /\
   (v = [] \/ ~ NoDup (map instant_of v) \/
    exists a b, In a v /\ In b v /\
      (Candle.symbol a <> Candle.symbol b \/ Candle.timeframe a <> Candle.timeframe b))).
Proof.
  intros Hs. unfold create. rewrite CandleFacts.str_field_intro by done. cbn [mbind res_bind].
  destruct v as [|c0 v]; [right; split; [done|by left]|].
  replace (require (1 <=? py_len (c0 :: v))) with (Ok tt).
  2:{ unfold require. rewrite py_len_cons. pose proof (py_len_nonneg v).
      by rewrite (proj2 (Z.leb_le _ _)) by lia. }
  cbn [mbind res_bind].
  destruct (validate_candles (c0 :: v)) as [w|e] eqn:E; cbn [mbind res_bind].
  - left. eexists. split; [done|]. by apply validate_candles_wf.
  - right. revert E. cbn [validate_candles]. cbv zeta.
    destruct (check_uniform (Candle.symbol c0) (Candle.timeframe c0) (c0 :: v)) as [[]|e'] eqn:Eu;
      cbn [mbind res_bind].
    + destruct (negb _) eqn:En; [|done]. intros [= <-]. split; [done|]. right; left. intros Hn.
      apply remove_dups_NoDup_iff in Hn. apply negb_true_iff, Z.eqb_neq in En. apply En.
      unfold py_len. rewrite <- Hn at 1. done.
    + intros [= <-]. apply check_uniform_Raise in Eu as (-> & c & Hc & Hd).
      split; [done|]. right; right. exists c, c0. simpl. auto.
Qed.

Definition sample_at (h : Z) : Candle.t :=
  Candle.mk "EURUSD" H1 (mk_datetime (h * us_per_hour) (Some 0))
    (lit 10850 4) (lit 10861 4) (lit 10829 4) (lit 10835 4) fzero.

Lemma sequence_create_sorted_witness :
  (exists q, create "EURUSD" H1 [sample_at 2; sample_at 0; sample_at 1] = Ok q /\
     wf (candles q) /\ Permutation (candles q) [sample_at 2; sample_at 0; sample_at 1]) \/
  (create "EURUSD" H1 [sample_at 2; sample_at 0; sample_at 1] = Raise ValidationError /\
   ([sample_at 2; sample_at 0; sample_at 1] = [] \/
    ~ NoDup (map instant_of [sample_at 2; sample_at 0; sample_at 1]) \/
    exists a b, In a [sample_at 2; sample_at 0; sample_at 1] /\
      In b [sample_at 2; sample_at 0; sample_at 1] /\
      (Candle.symbol a <> Candle.symbol b \/ Candle.timeframe a <> Candle.timeframe b))).
Proof. apply sequence_create_sorted. vm_compute. split; congruence. Defined.

Lemma wf_slice v a b : wf v -> 0 <= a < b -> b <= py_len v -> wf (py_slice v a b).
Proof.
  intros [Hne Hu Hs] Ha Hb. constructor.
  - intros E. pose proof (py_slice_length v a b ltac:(lia) Hb) as Hl. rewrite E in Hl.
    unfold py_len in Hl. simpl in Hl. lia.
  - intros x y Hx Hy. apply py_slice_In in Hx, Hy. auto.
  - by apply StronglySorted_take, StronglySorted_drop.
Qed.

(** The symbol a sequence stores can be passed to the constructor again. *)
Definition symbol_stable (s : string) : Prop :=
  str_strip s = s /\ normalize_symbol s = s /\ 2 <= str_len s <= 20.

Lemma create_wf s tf v :
  symbol_stable s -> wf v -> create s tf v = Ok (mk s tf v).
Proof.
  intros (Es & En & Hl) Hw. unfold create. rewrite CandleFacts.str_field_intro by (by rewrite Es).
  cbn [mbind res_bind]. rewrite Es, En. pose proof (wf_nonempty _ Hw) as Hne.
  replace (require (1 <=? py_len v)) with (Ok tt).
  2:{ unfold require. destruct v; [done|]. rewrite py_len_cons. pose proof (py_len_nonneg v).
      by rewrite (proj2 (Z.leb_le _ _)) by lia. }
  cbn [mbind res_bind]. by rewrite validate_candles_id.
Qed.

(** Slicing is exact on its range and guarded outside it.  On a well-formed
    sequence a slice with [0 <= start < end <= count] always succeeds, keeps
    symbol and timeframe, holds exactly the candles at the positions from start
    to end in order, and is well-formed again; any start or end index out of
    range raises the configuration error. *)
Theorem sequence_slice_exact (q : t) (start stop : Z) :
  symbol_stable (symbol q) -> wf (candles q) ->
  (0 <= start < stop /\ stop <= count q ->
     exists r, slice q start (Some stop) = Ok r /\ symbol r = symbol q /\ timeframe r = timeframe q /\
       wf (candles r) /\ count r = stop - start /\
       forall i, 0 <= i < stop - start ->
         candles r !! Z.to_nat i = candles q !! Z.to_nat (start + i)) /\
  (start < 0 \/ count q <= start -> slice q start (Some stop) = Raise (ConfigurationError "Invalid start index")) /\
  (0 <= start < count q /\ (stop < start \/ count q < stop) ->
     slice q start (Some stop) = Raise (ConfigurationError "Invalid end index")).
Proof.
  intros Hsym Hw. unfold slice, count in *. split; [|split].
  - intros [Hr Hc]. rewrite (proj2 (Z.ltb_ge start 0)), (proj2 (Z.leb_gt _ start)) by lia. cbn [orb].
    rewrite (proj2 (Z.ltb_ge stop start)), (proj2 (Z.ltb_ge _ stop)) by lia. cbn [orb].
    pose proof (wf_slice (candles q) start stop Hw Hr Hc) as Hws.
    eexists. rewrite (create_wf _ _ _ Hsym Hws). split; [done|]. simpl.
    repeat (split; [done|]). split; [by apply py_slice_length; lia|].
    intros i Hi. apply py_slice_lookup; lia.
  - intros [H|H]; [by rewrite (proj2 (Z.ltb_lt start 0)) by lia|].
    rewrite (proj2 (Z.leb_le _ start)) by lia. by rewrite orb_true_r.
  - intros [Hr H]. rewrite (proj2 (Z.ltb_ge start 0)), (proj2 (Z.leb_gt _ start)) by lia. cbn [orb].
    destruct H as [H|H]; [by rewrite (proj2 (Z.ltb_lt stop start)) by lia|].
    rewrite (proj2 (Z.ltb_lt _ stop)) by lia. by rewrite orb_true_r.
Qed.

Definition sample_sequence : t := mk "EURUSD" H1 [sample_at 0; sample_at 1; sample_at 2].

Lemma sample_sequence_ok : symbol_stable (symbol sample_sequence) /\ wf (candles sample_sequence).
Proof.
  split; [repeat split; vm_compute; congruence|]. constructor; [done| |].
  - intros a b Ha Hb. simpl in Ha, Hb.
    destruct Ha as [<-|[<-|[<-|[]]]], Hb as [<-|[<-|[<-|[]]]]; done.
  - repeat constructor.
Qed.

Lemma sequence_slice_exact_witness :
  exists r, slice sample_sequence 1 (Some 3) = Ok r /\ count r = 2.
Proof.
  destruct (sequence_slice_exact sample_sequence 1 3 (proj1 sample_sequence_ok) (proj2 sample_sequence_ok))
    as [H _].
  destruct H as (r & E & _ & _ & _ & Hc & _); [vm_compute; repeat split; congruence|].
  exists r. split; [exact E|exact Hc].
Defined.

End SequenceFacts.
