(* ===== verification/Swings.v ===== *)
(** * Swings: [engine/ta/models/swing.py] and
    [engine/ta/common/analyzers/swings.py] *)

From Stdlib Require Import ZArith Lia Bool String Sorting.Sorted.
From stdpp Require Import base list strings.
From S2P Require Import Prelude PyFloat FloatRound PyText Constants PriceMath Candles.

#[local] Open Scope string_scope.
#[local] Open Scope Z_scope.
#[local] Open Scope list_scope.

(** ** Models *)

Module SwingPoint.
Record t := mk {
  symbol : string; timeframe : Timeframe; timestamp : datetime; price : float;
  index : Z; strength : Z; direction : Direction }.

Definition create (symbol : string) (tf : Timeframe) (ts : datetime) (price : float)
    (index strength : Z) (direction : Direction) : res t :=
  s ← symbol_3_30 symbol;
  p ← field_gt0 price;
  i ← int_field 0 None index;
  st ← int_field 1 (Some 10) strength;
  Ok (mk s tf ts p i st direction).

Definition is_high (p : t) : bool := bool_decide (direction p = BEARISH).
Definition is_low (p : t) : bool := bool_decide (direction p = BULLISH).
End SwingPoint.

(** [SwingHigh] and [SwingLow] have the same fields up to the names of the
    equality flags. *)
Module SwingHigh.
Record t := mk {
  symbol : string; timeframe : Timeframe; timestamp : datetime; price : float;
  index : Z; strength : Z; left_bars : Z; right_bars : Z;
  is_equal_high : bool; equal_high_tolerance_pips : option float }.

Definition create (symbol : string) (tf : Timeframe) (ts : datetime) (price : float)
    (index strength left_bars right_bars : Z) (is_equal : bool) (tol : option float) : res t :=
  s ← symbol_3_30 symbol;
  p ← field_gt0 price;
  i ← int_field 0 None index;
  st ← int_field 1 (Some 10) strength;
  lb ← int_field 1 None left_bars;
  rb ← int_field 1 None right_bars;
  _ ← (match tol with Some x => _ ← field_ge0 x; Ok tt | None => Ok tt end);
  Ok (mk s tf ts p i st lb rb is_equal tol).

Definition direction (h : t) : Direction := BEARISH.

Definition to_swing_point (h : t) : res SwingPoint.t :=
  SwingPoint.create (symbol h) (timeframe h) (timestamp h) (price h) (index h) (strength h) (direction h).
End SwingHigh.

Module SwingLow.
Record t := mk {
  symbol : string; timeframe : Timeframe; timestamp : datetime; price : float;
  index : Z; strength : Z; left_bars : Z; right_bars : Z;
  is_equal_low : bool; equal_low_tolerance_pips : option float }.

Definition create (symbol : string) (tf : Timeframe) (ts : datetime) (price : float)
    (index strength left_bars right_bars : Z) (is_equal : bool) (tol : option float) : res t :=
  s ← symbol_3_30 symbol;
  p ← field_gt0 price;
  i ← int_field 0 None index;
  st ← int_field 1 (Some 10) strength;
  lb ← int_field 1 None left_bars;
  rb ← int_field 1 None right_bars;
  _ ← (match tol with Some x => _ ← field_ge0 x; Ok tt | None => Ok tt end);
  Ok (mk s tf ts p i st lb rb is_equal tol).

Definition direction (l : t) : Direction := BULLISH.

Definition to_swing_point (l : t) : res SwingPoint.t :=
  SwingPoint.create (symbol l) (timeframe l) (timestamp l) (price l) (index l) (strength l) (direction l).
End SwingLow.

(** ** Analyzer *)

Module SwingAnalyzer.

Record t := mk { left_bars : Z; right_bars : Z; equal_tolerance_pips : float }.

Definition default : t := mk 5 5 (lit 20 1).

Definition _HTF_BAR_OVERRIDES (tf : Timeframe) : option (Z * Z) :=
  match tf with
  | D1 => Some (3, 3)
  | W1 => Some (2, 2)
  | MN1 => Some (2, 1)
  | _ => None
  end.

Definition _get_effective_bars (self : t) (sequence : CandleSequence.t) : Z * Z :=
  match _HTF_BAR_OVERRIDES (CandleSequence.timeframe sequence) with
  | Some override => override
  | None => (left_bars self, right_bars self)
  end.

(** [candles\[j\].high >= current.high], respectively
    [candles\[j\].low <= current.low]: candle [c] defeats the swing. *)
Definition defeats (is_high : bool) (c current : Candle.t) : bool :=
  if is_high then fle (Candle.high current) (Candle.high c)
  else fle (Candle.low c) (Candle.low current).

(** The inner loops [for j in ...: if ...: is_swing = False; break]: whether the
    scan runs to the end. *)
Fixpoint undefeated (is_high : bool) (candles : list Candle.t) (current : Candle.t) (js : list Z)
    : res bool :=
  match js with
  | [] => Ok true
  | j :: js =>
      c ← py_index candles j;
      if defeats is_high c current then Ok false else undefeated is_high candles current js
  end.

(** The body of the outer loop up to the test [if is_swing_high]. *)
Definition is_swing (is_high : bool) (candles : list Candle.t) (left right i : Z) (current : Candle.t)
    : res bool :=
  is_swing ← undefeated is_high candles current (py_range (i - left) i);
  if is_swing : bool then undefeated is_high candles current (py_range (i + 1) (i + right + 1))
  else Ok false.

(** A streak loop of [_calculate_strength]: how many candles along [js] the
    pivot dominates before the first that exceeds it. *)
Fixpoint streak (is_high : bool) (candles : list Candle.t) (current : Candle.t) (js : list Z) : res Z :=
  match js with
  | [] => Ok 0
  | j :: js =>
      c ← py_index candles j;
      if (is_high && fle (Candle.high c) (Candle.high current))
         || (negb is_high && fle (Candle.low current) (Candle.low c))
      then (fun n => n + 1) <$> streak is_high candles current js
      else Ok 0
  end.

Definition _calculate_strength (candles : list Candle.t) (index : Z) (is_high : bool) : res Z :=
  current ← py_index candles index;
  left_count ← streak is_high candles current (py_range_down (index - 1) (-1));
  right_count ← streak is_high candles current (py_range (index + 1) (py_len candles));
  let total_dominated := left_count + right_count in
  Ok (if total_dominated <? 14 then 3
      else if total_dominated <? 20 then 5
      else if total_dominated <? 30 then 7
      else if total_dominated <? 40 then 8
      else if total_dominated <? 50 then 9
      else 10).

(** [existing\[-5:\] if len(existing) > 5 else existing]. *)
Definition recent5 {A} (existing : list A) : list A :=
  if 5 <? py_len existing then py_slice_from existing (-5) else existing.

Fixpoint any_within (price tol : float) (symbol : string) (levels : list float) : res bool :=
  match levels with
  | [] => Ok false
  | l :: levels =>
      b ← is_within_tolerance price l tol symbol;
      if b : bool then Ok true else any_within price tol symbol levels
  end.

Definition _check_equal_high (self : t) (price : float) (existing : list SwingHigh.t) (symbol : string)
    : res bool :=
  match existing with
  | [] => Ok false
  | _ => any_within price (equal_tolerance_pips self) symbol (map SwingHigh.price (recent5 existing))
  end.

Definition _check_equal_low (self : t) (price : float) (existing : list SwingLow.t) (symbol : string)
    : res bool :=
  match existing with
  | [] => Ok false
  | _ => any_within price (equal_tolerance_pips self) symbol (map SwingLow.price (recent5 existing))
  end.

(** One iteration of the outer loop, appending to the list found so far. *)
Definition step_high (self : t) (candles : list Candle.t) (left right : Z)
    (swing_highs : list SwingHigh.t) (i : Z) : res (list SwingHigh.t) :=
  current ← py_index candles i;
  is_swing_high ← is_swing true candles left right i current;
  if is_swing_high : bool then
    is_equal ← _check_equal_high self (Candle.high current) swing_highs (Candle.symbol current);
    strength ← _calculate_strength candles i true;
    swing_high ← SwingHigh.create (Candle.symbol current) (Candle.timeframe current)
      (Candle.timestamp current) (Candle.high current) i strength left right is_equal
      (if is_equal then Some (equal_tolerance_pips self) else None);
    Ok (swing_highs ++ [swing_high])
  else Ok swing_highs.

Definition step_low (self : t) (candles : list Candle.t) (left right : Z)
    (swing_lows : list SwingLow.t) (i : Z) : res (list SwingLow.t) :=
  current ← py_index candles i;
  is_swing_low ← is_swing false candles left right i current;
  if is_swing_low : bool then
    is_equal ← _check_equal_low self (Candle.low current) swing_lows (Candle.symbol current);
    strength ← _calculate_strength candles i false;
    swing_low ← SwingLow.create (Candle.symbol current) (Candle.timeframe current)
      (Candle.timestamp current) (Candle.low current) i strength left right is_equal
      (if is_equal then Some (equal_tolerance_pips self) else None);
    Ok (swing_lows ++ [swing_low])
  else Ok swing_lows.

Definition detect_swing_highs (self : t) (sequence : CandleSequence.t) : res (list SwingHigh.t) :=
  let candles := CandleSequence.candles sequence in
  let '(effective_left, effective_right) := _get_effective_bars self sequence in
  for_each (step_high self candles effective_left effective_right)
    (py_range effective_left (py_len candles - effective_right)) [].

Definition detect_swing_lows (self : t) (sequence : CandleSequence.t) : res (list SwingLow.t) :=
  let candles := CandleSequence.candles sequence in
  let '(effective_left, effective_right) := _get_effective_bars self sequence in
  for_each (step_low self candles effective_left effective_right)
    (py_range effective_left (py_len candles - effective_right)) [].

Definition get_latest_swing_high : list SwingHigh.t -> option SwingHigh.t :=
  py_max_opt (fun a b => dt_ltb (SwingHigh.timestamp b) (SwingHigh.timestamp a)).
Definition get_latest_swing_low : list SwingLow.t -> option SwingLow.t :=
  py_max_opt (fun a b => dt_ltb (SwingLow.timestamp b) (SwingLow.timestamp a)).
Definition get_highest_swing_high : list SwingHigh.t -> option SwingHigh.t :=
  py_max_opt (fun a b => flt (SwingHigh.price b) (SwingHigh.price a)).
Definition get_lowest_swing_low : list SwingLow.t -> option SwingLow.t :=
  py_max_opt (fun a b => flt (SwingLow.price a) (SwingLow.price b)).

End SwingAnalyzer.

(** ** Correctness of the detection *)

Module SwingFacts.
Import SwingAnalyzer.

(** Candle [d] reaches the extreme of candle [c], on exact prices. *)
Definition reaches (is_high : bool) (d c : Candle.t) : bool :=
  if is_high then fv (Candle.high c) <=? fv (Candle.high d) else fv (Candle.low d) <=? fv (Candle.low c).

(** Reference definition: no other candle of the window
    [\[i - left, i + right\]] reaches the extreme of candle [i]. *)
Definition local_extreme (is_high : bool) (v : list Candle.t) (left right i : Z) : bool :=
  match v !! Z.to_nat i with
  | None => false
  | Some c =>
      forallb (fun j => (j =? i) || match v !! Z.to_nat j with
                                    | Some d => negb (reaches is_high d c)
                                    | None => true
                                    end)
        (py_range (i - left) (i + right + 1))
  end.

(** What the detection needs of its input: finite well-formed candles whose
    symbol the swing models accept, positive bar counts and a non-negative
    tolerance. *)
Record input_ok (self : t) (v : list Candle.t) (left right : Z) : Prop := {
  in_left : 1 <= left; in_right : 1 <= right;
  in_tol : num (equal_tolerance_pips self); in_tol_nonneg : 0 <= fv (equal_tolerance_pips self);
  in_candles : forall c, In c v ->
    Candle.wf c /\ Candle.finite c /\ 3 <= str_len (str_strip (Candle.symbol c)) <= 30 }.

Lemma defeats_reaches is_high d c : Candle.wf d -> Candle.wf c -> defeats is_high d c = reaches is_high d c.
Proof. intros [] []. unfold defeats, reaches. by destruct is_high; rewrite fle_fv by done. Qed.

Lemma undefeated_spec is_high v current js :
  (forall c, In c v -> Candle.wf c) -> Candle.wf current -> (forall j, In j js -> 0 <= j < py_len v) ->
  undefeated is_high v current js =
    Ok (forallb (fun j => match v !! Z.to_nat j with
                          | Some d => negb (reaches is_high d current)
                          | None => true end) js).
Proof.
  intros Hv Hc. induction js as [|j js IH]; intros Hj; simpl; [done|].
  destruct (py_index_in_range v j) as (c & Ec & El); [apply Hj; by left|].
  rewrite Ec, El. simpl. rewrite defeats_reaches by (done || (apply Hv; by eapply py_index_In)).
  destruct (reaches is_high c current); simpl; [done|].
  apply IH. intros; apply Hj; by right.
Qed.

(** The two scans together decide the reference definition. *)
Lemma is_swing_spec is_high v l r i c :
  (forall c, In c v -> Candle.wf c) -> 1 <= l -> 1 <= r -> l <= i < py_len v - r -> v !! Z.to_nat i = Some c ->
  is_swing is_high v l r i c = Ok (local_extreme is_high v l r i).
Proof.
  intros Hv Hl Hr Hi Hc. unfold is_swing, local_extreme. rewrite Hc.
  assert (Hw : Candle.wf c) by (apply Hv, list_elem_of_In; by eapply list_elem_of_lookup_2).
  rewrite forallb_skip_self by lia.
  rewrite (undefeated_spec is_high v c (py_range (i - l) i))
    by (done || (intros j Hj; apply elem_of_py_range in Hj; lia)).
  cbn [mbind res_bind]. destruct (forallb _ (py_range (i - l) i)); cbn [andb]; [|done].
  rewrite undefeated_spec by (done || (intros j Hj; apply elem_of_py_range in Hj; lia)). done.
Qed.

Lemma streak_returns is_high v current js :
  (forall j, In j js -> 0 <= j < py_len v) ->
  exists n, streak is_high v current js = Ok n /\ 0 <= n.
Proof.
  induction js as [|j js IH]; intros Hj; simpl; [eexists; split; [done|lia]|].
  destruct (py_index_in_range v j) as (c & -> & _); [apply Hj; by left|]. simpl.
  case_match; [|eexists; split; [done|lia]].
  destruct IH as (n & -> & Hn); [intros; apply Hj; by right|]. simpl. eexists. split; [done|lia].
Qed.

Lemma strength_returns v i is_high :
  0 <= i < py_len v -> exists n, _calculate_strength v i is_high = Ok n /\ 3 <= n <= 10.
Proof.
  intros Hi. unfold _calculate_strength.
  destruct (py_index_in_range v i Hi) as (c & -> & _). simpl.
  destruct (streak_returns is_high v c (py_range_down (i - 1) (-1))) as (n & -> & Hn).
  { intros j Hj. apply elem_of_py_range_down in Hj. lia. }
  destruct (streak_returns is_high v c (py_range (i + 1) (py_len v))) as (m & -> & Hm).
  { intros j Hj. apply elem_of_py_range in Hj. lia. }
  simpl. eexists. split; [done|]. repeat case_match; lia.
Qed.

Lemma any_within_returns price tol symbol levels :
  fin price -> 0 <= fv price -> num tol -> 0 <= fv tol ->
  Forall (fun l => fin l /\ 0 <= fv l) levels ->
  returns (any_within price tol symbol levels).
Proof.
  intros Fp Hp Nt Ht. induction 1 as [|l levels [Fl Hl] _ IH]; simpl; [by eexists|].
  destruct (is_within_tolerance_Ok price l tol symbol) as (p & _ & ->); [done..| |].
  { rewrite flt_fv by auto with etradie. by apply Z.ltb_ge. }
  simpl. destruct (fle p tol); [by eexists|done].
Qed.

Lemma recent5_In {A} (l : list A) x : In x (recent5 l) -> In x l.
Proof. unfold recent5. destruct (5 <? py_len l); [apply In_drop|done]. Qed.

(** The recorded swings: indices of the extremes found so far, each with the
    data of its candle. *)
Definition extremes (is_high : bool) (v : list Candle.t) (l r a b : Z) : list Z :=
  List.filter (local_extreme is_high v l r) (py_range a b).

Lemma extremes_snoc is_high v l r a b :
  a <= b -> extremes is_high v l r a (b + 1) =
    extremes is_high v l r a b ++ (if local_extreme is_high v l r b then [b] else []).
Proof. intros H. unfold extremes. rewrite py_range_snoc by done. by rewrite List.filter_app. Qed.

(** A recorded swing carries the data of its candle, the bars it was confirmed
    with, a strength of the documented scale, and the tolerance exactly when
    it is flagged as equal to a recent one. *)
Definition high_of (self : t) (v : list Candle.t) (l r : Z) (s : SwingHigh.t) : Prop :=
  exists c, v !! Z.to_nat (SwingHigh.index s) = Some c /\ SwingHigh.price s = Candle.high c /\
    SwingHigh.timestamp s = Candle.timestamp c /\ SwingHigh.timeframe s = Candle.timeframe c /\
    SwingHigh.left_bars s = l /\ SwingHigh.right_bars s = r /\ 3 <= SwingHigh.strength s <= 10 /\
    SwingHigh.equal_high_tolerance_pips s =
      (if SwingHigh.is_equal_high s then Some (equal_tolerance_pips self) else None) /\
    SwingHigh.symbol s = normalize_symbol (str_strip (Candle.symbol c)).
Definition low_of (self : t) (v : list Candle.t) (l r : Z) (s : SwingLow.t) : Prop :=
  exists c, v !! Z.to_nat (SwingLow.index s) = Some c /\ SwingLow.price s = Candle.low c /\
    SwingLow.timestamp s = Candle.timestamp c /\ SwingLow.timeframe s = Candle.timeframe c /\
    SwingLow.left_bars s = l /\ SwingLow.right_bars s = r /\ 3 <= SwingLow.strength s <= 10 /\
    SwingLow.equal_low_tolerance_pips s =
      (if SwingLow.is_equal_low s then Some (equal_tolerance_pips self) else None) /\
    SwingLow.symbol s = normalize_symbol (str_strip (Candle.symbol c)).

Lemma symbol_3_30_intro s :
  3 <= str_len (str_strip s) <= 30 -> symbol_3_30 s = Ok (normalize_symbol (str_strip s)).
Proof. intros H. unfold symbol_3_30. by rewrite CandleFacts.str_field_intro. Qed.

Lemma int_field_intro lo hi n :
  lo <= n -> (forall h, hi = Some h -> n <= h) -> int_field lo hi n = Ok n.
Proof.
  intros Hl Hh. unfold int_field. rewrite (proj2 (Z.leb_le _ _)) by done.
  destruct hi as [h|]; [|done]. by rewrite (proj2 (Z.leb_le _ _)) by auto.
Qed.

Lemma candle_price_facts c :
  Candle.wf c -> Candle.finite c ->
  fin (Candle.high c) /\ fin (Candle.low c) /\ 0 < fv (Candle.high c) /\ 0 < fv (Candle.low c) /\
  flt fzero (Candle.high c) = true /\ flt fzero (Candle.low c) = true.
Proof.
  intros Hw Hf. destruct (CandleFacts.finite_fin c Hw Hf) as (_ & Fh & Fl & _). destruct Hw.
  assert (0 < fv (Candle.high c)) by lia.
  repeat (split; [done|]). by rewrite !flt_fv by auto with etradie; rewrite !Z.ltb_lt.
Qed.

(** The loop both detections share: the indices recorded are the extremes, in
    order. *)
Section Scan.
Context {A : Type} (is_high : bool) (index : A -> Z) (ok : A -> Prop)
  (step : list A -> Z -> res (list A)) (v : list Candle.t) (l r : Z).
Hypothesis step_ok : forall acc i,
  l <= i < py_len v - r -> Forall ok acc ->
  if local_extreme is_high v l r i
  then exists s, step acc i = Ok (acc ++ [s]) /\ index s = i /\ ok s
  else step acc i = Ok acc.

Lemma scan_extremes :
  exists hs, for_each step (py_range l (py_len v - r)) [] = Ok hs /\
    map index hs = extremes is_high v l r l (py_len v - r) /\ Forall ok hs.
Proof.
  destruct (Z.le_gt_cases l (py_len v - r)) as [H|H].
  - apply (for_each_range step (fun i acc => map index acc = extremes is_high v l r l i /\ Forall ok acc)).
    + done.
    + split; [|constructor]. unfold extremes. by rewrite py_range_nil by lia.
    + intros i acc Hi [E F]. rewrite extremes_snoc by lia. specialize (step_ok acc i Hi F).
      destruct (local_extreme is_high v l r i).
      * destruct step_ok as (s & -> & Es & Hs). eexists. split; [done|]. split.
        { rewrite map_app, E. simpl. by rewrite Es. }
        apply Forall_app. auto.
      * eexists. split; [done|]. by rewrite app_nil_r.
  - unfold extremes. rewrite !py_range_nil by lia. exists []. repeat (split; [done|]). constructor.
Qed.
End Scan.

Lemma tolerance_field (b : bool) tol :
  num tol -> 0 <= fv tol ->
  (match (if b then Some tol else None) with Some x => _ ← field_ge0 x; Ok tt | None => Ok tt end) = Ok tt.
Proof.
  intros N H. destruct b; [|done]. rewrite field_ge0_intro; [done|].
  rewrite CandleFacts.fle_fzero by done. by apply Z.leb_le.
Qed.

Section Steps.
Context (self : t) (v : list Candle.t) (l r : Z) (Hin : input_ok self v l r).

Lemma candle_at i c : v !! Z.to_nat i = Some c ->
  Candle.wf c /\ Candle.finite c /\ 3 <= str_len (str_strip (Candle.symbol c)) <= 30.
Proof. intros H. apply (in_candles _ _ _ _ Hin). apply list_elem_of_In. by eapply list_elem_of_lookup_2. Qed.

Lemma candles_wf c : In c v -> Candle.wf c.
Proof. intros H. by destruct (in_candles _ _ _ _ Hin c H). Qed.

Lemma step_high_ok acc i :
  l <= i < py_len v - r -> Forall (high_of self v l r) acc ->
  if local_extreme true v l r i
  then exists s, step_high self v l r acc i = Ok (acc ++ [s]) /\ SwingHigh.index s = i /\ high_of self v l r s
  else step_high self v l r acc i = Ok acc.
Proof.
  intros Hi Hacc. pose proof Hin as [Hl Hr Ht Ht0 _]. unfold step_high.
  destruct (py_index_in_range v i) as (c & -> & Ec); [lia|]. cbn [mbind res_bind].
  rewrite (is_swing_spec true v l r i c) by (done || lia || apply candles_wf). cbn [mbind res_bind].
  destruct (local_extreme true v l r i); [|done].
  destruct (candle_at i c Ec) as (Hw & Hf & Hsym).
  destruct (candle_price_facts c Hw Hf) as (Fh & _ & Ph & _ & Hh & _).
  assert (returns (_check_equal_high self (Candle.high c) acc (Candle.symbol c))) as [eq ->].
  { unfold _check_equal_high. destruct acc as [|h acc]; [by eexists|].
    apply any_within_returns; [done|lia|done|done|].
    apply Forall_map, List.Forall_forall. intros s Hs. apply recent5_In in Hs.
    rewrite List.Forall_forall in Hacc. destruct (Hacc s Hs) as (d & Ed & -> & _).
    destruct (candle_at _ _ Ed) as (Hwd & Hfd & _).
    destruct (candle_price_facts d Hwd Hfd) as (? & _ & ? & _). simpl. split; [done|lia]. }
  destruct (strength_returns v i true) as (n & -> & Hn); [lia|]. cbn [mbind res_bind].
  unfold SwingHigh.create. rewrite symbol_3_30_intro, field_gt0_intro by done.
  rewrite !int_field_intro by (lia || (intros ? [= <-]; lia) || (intros; discriminate)).
  rewrite tolerance_field by done. cbn [mbind res_bind]. eexists. split; [done|]. split; [done|].
  exists c. simpl. repeat (split; [done|]). done.
Qed.

Lemma step_low_ok acc i :
  l <= i < py_len v - r -> Forall (low_of self v l r) acc ->
  if local_extreme false v l r i
  then exists s, step_low self v l r acc i = Ok (acc ++ [s]) /\ SwingLow.index s = i /\ low_of self v l r s
  else step_low self v l r acc i = Ok acc.
Proof.
  intros Hi Hacc. pose proof Hin as [Hl Hr Ht Ht0 _]. unfold step_low.
  destruct (py_index_in_range v i) as (c & -> & Ec); [lia|]. cbn [mbind res_bind].
  rewrite (is_swing_spec false v l r i c) by (done || lia || apply candles_wf). cbn [mbind res_bind].
  destruct (local_extreme false v l r i); [|done].
  destruct (candle_at i c Ec) as (Hw & Hf & Hsym).
  destruct (candle_price_facts c Hw Hf) as (_ & Fh & _ & Ph & _ & Hh).
  assert (returns (_check_equal_low self (Candle.low c) acc (Candle.symbol c))) as [eq ->].
  { unfold _check_equal_low. destruct acc as [|h acc]; [by eexists|].
    apply any_within_returns; [done|lia|done|done|].
    apply Forall_map, List.Forall_forall. intros s Hs. apply recent5_In in Hs.
    rewrite List.Forall_forall in Hacc. destruct (Hacc s Hs) as (d & Ed & -> & _).
    destruct (candle_at _ _ Ed) as (Hwd & Hfd & _).
    destruct (candle_price_facts d Hwd Hfd) as (_ & ? & _ & ? & _). simpl. split; [done|lia]. }
  destruct (strength_returns v i false) as (n & -> & Hn); [lia|]. cbn [mbind res_bind].
  unfold SwingLow.create. rewrite symbol_3_30_intro, field_gt0_intro by done.
  rewrite !int_field_intro by (lia || (intros ? [= <-]; lia) || (intros; discriminate)).
  rewrite tolerance_field by done. cbn [mbind res_bind]. eexists. split; [done|]. split; [done|].
  exists c. simpl. repeat (split; [done|]). done.
Qed.
End Steps.

Lemma detect_highs_spec self q l r :
  _get_effective_bars self q = (l, r) -> input_ok self (CandleSequence.candles q) l r ->
  exists hs, detect_swing_highs self q = Ok hs /\
    map SwingHigh.index hs =
      extremes true (CandleSequence.candles q) l r l (py_len (CandleSequence.candles q) - r) /\
    Forall (high_of self (CandleSequence.candles q) l r) hs.
Proof.
  intros Eb Hin. unfold detect_swing_highs. rewrite Eb.
  apply scan_extremes. intros acc i. by apply step_high_ok.
Qed.

Lemma detect_lows_spec self q l r :
  _get_effective_bars self q = (l, r) -> input_ok self (CandleSequence.candles q) l r ->
  exists ls, detect_swing_lows self q = Ok ls /\
    map SwingLow.index ls =
      extremes false (CandleSequence.candles q) l r l (py_len (CandleSequence.candles q) - r) /\
    Forall (low_of self (CandleSequence.candles q) l r) ls.
Proof.
  intros Eb Hin. unfold detect_swing_lows. rewrite Eb.
  apply scan_extremes. intros acc i. by apply step_low_ok.
Qed.

(** The reference definition in terms of the prices: every other candle of the
    window stays strictly below the pivot's high. *)
Lemma extremes_high_dominate self v l r i :
  input_ok self v l r -> In i (extremes true v l r l (py_len v - r)) ->
  l <= i < py_len v - r /\ exists c, v !! Z.to_nat i = Some c /\
    forall j d, i - l <= j <= i + r -> j <> i -> v !! Z.to_nat j = Some d ->
      fv (Candle.high d) < fv (Candle.high c).
Proof.
  intros Hin Hi. apply filter_In in Hi as [Hr Hx]. apply elem_of_py_range in Hr.
  split; [done|]. unfold local_extreme in Hx. destruct (v !! Z.to_nat i) as [c|] eqn:Ec; [|done].
  exists c. split; [done|]. intros j d Hj Hne Ed. rewrite forallb_forall in Hx.
  assert (Hw : In j (py_range (i - l) (i + r + 1))) by (apply elem_of_py_range; lia).
  specialize (Hx j Hw). cbv beta in Hx. rewrite (proj2 (Z.eqb_neq j i) Hne), Ed in Hx. simpl in Hx.
  apply negb_true_iff in Hx. zbool. done.
Qed.

(** Two pivots cannot both lie in each other's window. *)
Lemma extremes_apart self v l r i j :
  input_ok self v l r -> In i (extremes true v l r l (py_len v - r)) ->
  In j (extremes true v l r l (py_len v - r)) -> i < j -> i + Z.min l r < j.
Proof.
  intros Hin Hi Hj Hij. destruct (Z.le_gt_cases j (i + Z.min l r)) as [H|H]; [exfalso|done].
  destruct (extremes_high_dominate _ _ _ _ _ Hin Hi) as (Ri & c & Ec & Dc).
  destruct (extremes_high_dominate _ _ _ _ _ Hin Hj) as (Rj & d & Ed & Dd).
  pose proof (Dc j d ltac:(lia) ltac:(lia) Ed). pose proof (Dd i c ltac:(lia) ltac:(lia) Ec). lia.
Qed.

Lemma extremes_sorted self v l r :
  input_ok self v l r ->
  StronglySorted (fun i j => i + Z.min l r < j) (extremes true v l r l (py_len v - r)).
Proof.
  intros Hin. eapply StronglySorted_in; [apply StronglySorted_filter, py_range_sorted|].
  intros a b Ha Hb. by eapply extremes_apart.
Qed.

(** C8.  On finite well-formed candles both detections return, and what they
    return is exactly the list of local extremes of the reference definition,
    in order of index: a swing high (low) is recorded at [i] if and only if no
    other candle of [\[i - left, i + right\]] reaches its high (low), where the
    bars are the timeframe's override when there is one.  Each record carries
    its candle's price, time and timeframe, the bars used and a strength
    between 3 and 10. *)
Theorem detect_swings_exact (self : t) (q : CandleSequence.t) (l r : Z) :
  let v := CandleSequence.candles q in
  _get_effective_bars self q = (l, r) -> input_ok self v l r ->
  (exists hs, detect_swing_highs self q = Ok hs /\
     map SwingHigh.index hs = List.filter (local_extreme true v l r) (py_range l (py_len v - r)) /\
     Forall (high_of self v l r) hs) /\
  (exists ls, detect_swing_lows self q = Ok ls /\
     map SwingLow.index ls = List.filter (local_extreme false v l r) (py_range l (py_len v - r)) /\
     Forall (low_of self v l r) ls).
Proof.
  intros v Eb Hin. split; [by apply detect_highs_spec | by apply detect_lows_spec].
Qed.

(** Seven daily candles with one pivot high, at index 3. *)
Definition sample_day (d : Z) (high : Z) : Candle.t :=
  Candle.mk "EURUSD" D1 (mk_datetime (d * us_per_day) (Some 0))
    (lit 10850 4) (lit high 4) (lit 10829 4) (lit 10835 4) fzero.
Definition sample_days : CandleSequence.t :=
  CandleSequence.mk "EURUSD" D1
    [sample_day 0 10851; sample_day 1 10852; sample_day 2 10853; sample_day 3 10870;
     sample_day 4 10853; sample_day 5 10852; sample_day 6 10853].

Lemma sample_days_ok : input_ok default (CandleSequence.candles sample_days) 3 3.
Proof.
  constructor; [lia|lia|by vm_compute|vm_compute; congruence|].
  apply List.Forall_forall. repeat constructor; vm_compute; congruence.
Qed.

Lemma sample_days_wf : CandleSequence.wf (CandleSequence.candles sample_days).
Proof.
  constructor; [done| |].
  - intros a b Ha Hb. simpl in Ha, Hb.
    repeat destruct Ha as [<-|Ha]; try done; repeat destruct Hb as [<-|Hb]; done.
  - repeat constructor; vm_compute; done.
Qed.

Lemma detect_swings_exact_witness :
  exists hs, detect_swing_highs default sample_days = Ok hs /\ map SwingHigh.index hs = [3].
Proof.
  destruct (detect_swings_exact default sample_days 3 3 eq_refl sample_days_ok)
    as [(hs & E & Hi & _) _].
  exists hs. split; [exact E|]. rewrite Hi. vm_compute. reflexivity.
Defined.

(** The swing highs of a sequence are more than [min left right] candles
    apart, so no two confirm each other away; on a time-ordered sequence the
    latest swing high is the last of the list, and the highest one bounds the
    price of all. *)
Theorem swing_highs_structure (self : t) (q : CandleSequence.t) (l r : Z) (hs : list SwingHigh.t) :
  let v := CandleSequence.candles q in
  _get_effective_bars self q = (l, r) -> input_ok self v l r -> CandleSequence.wf v ->
  detect_swing_highs self q = Ok hs ->
  StronglySorted (fun a b => SwingHigh.index a + Z.min l r < SwingHigh.index b) hs /\
  get_latest_swing_high hs = last hs /\
  (forall h, In h hs -> exists m, get_highest_swing_high hs = Some m /\ In m hs /\
     fv (SwingHigh.price h) <= fv (SwingHigh.price m)).
Proof.
  intros v Eb Hin Hwf Hd. destruct (detect_highs_spec self q l r Eb Hin) as (hs' & E & Hidx & Hof).
  rewrite E in Hd. injection Hd as ->. pose proof (extremes_sorted _ _ _ _ Hin) as Hs.
  rewrite List.Forall_forall in Hof.
  change (extremes _ _ _ _ _ _) with (extremes true v l r l (py_len v - r)) in Hidx.
  rewrite <- Hidx in Hs. apply StronglySorted_map in Hs. split; [done|]. split.
  - destruct hs as [|h hs]; [done|]. unfold get_latest_swing_high, py_max_opt.
    apply (py_max_sorted_last _ (fun s => instant (SwingHigh.timestamp s))).
    { intros x y. done. }
    eapply StronglySorted_in; [apply Hs|]. intros a b Ha Hb Hab.
    destruct (Hof a Ha) as (c & Ec & _ & -> & _), (Hof b Hb) as (d & Ed & _ & -> & _).
    destruct Hin. assert (Hpos : In (SwingHigh.index a) (extremes true v l r l (py_len v - r))).
    { rewrite <- Hidx. by apply in_map. }
    apply filter_In in Hpos as [Hpos _]. apply elem_of_py_range in Hpos.
    apply (sorted_lookup CandleSequence.instant_of v _ _ c d (CandleSequence.wf_sorted v Hwf)) with (2 := Ec) (3 := Ed).
    cbv beta in Hab. lia.
  - intros h Hh. destruct hs as [|b hs]; [done|]. eexists. split; [done|].
    split; [destruct (py_max_from_In (fun a b => flt (SwingHigh.price b) (SwingHigh.price a)) hs b) as [->|]; simpl; auto|].
    apply (py_max_from_ub _ (fun s => fv (SwingHigh.price s))); [|done].
    intros x y Hx Hy. destruct (Hof x Hx) as (c & Ec & -> & _), (Hof y Hy) as (d & Ed & -> & _).
    destruct (candle_at _ _ _ _ Hin _ _ Ec) as ([] & _), (candle_at _ _ _ _ Hin _ _ Ed) as ([] & _).
    by rewrite flt_fv.
Qed.

Lemma swing_highs_structure_witness :
  exists hs, detect_swing_highs default sample_days = Ok hs /\
    get_latest_swing_high hs = last hs /\ exists h, last hs = Some h.
Proof.
  destruct (detect_swing_highs default sample_days) as [hs|] eqn:E; [|vm_compute in E; discriminate].
  exists hs. split; [reflexivity|]. split.
  - apply (swing_highs_structure default sample_days 3 3 hs eq_refl sample_days_ok sample_days_wf E).
  - vm_compute in E. injection E as <-. eexists. reflexivity.
Defined.

(** A two-character symbol is accepted by [Candle] but not by [SwingHigh]: the
    detection raises as soon as it finds a swing. *)
Definition sample_cl (d : Z) (high : Z) : Candle.t :=
  Candle.mk "CL" D1 (mk_datetime (d * us_per_day) (Some 0))
    (lit 10850 4) (lit high 4) (lit 10829 4) (lit 10835 4) fzero.

Lemma swing_rejects_short_symbol :
  (forall d h, Candle.symbol (sample_cl d h) = "CL") /\
  Candle.create "CL" D1 (mk_datetime 0 (Some 0))
    (lit 10850 4) (lit 10861 4) (lit 10829 4) (lit 10835 4) fzero = Ok (sample_cl 0 10861) /\
  detect_swing_highs default (CandleSequence.mk "CL" D1
    [sample_cl 0 10851; sample_cl 1 10852; sample_cl 2 10853; sample_cl 3 10870;
     sample_cl 4 10853; sample_cl 5 10852; sample_cl 6 10853]) = Raise ValidationError.
Proof. vm_compute. auto. Qed.
End SwingFacts.
