(* ===== verification/Sessions.v ===== *)
(** * Sessions: [engine/ta/models/session.py],
    [engine/ta/common/analyzers/session.py] and
    [engine/ta/common/timeframe/manager.py] *)

From Stdlib Require Import ZArith Lia Bool String Sorting.Sorted.
From stdpp Require Import base list strings.
From S2P Require Import Prelude PyFloat FloatRound PyText Constants PriceMath Candles.

#[local] Open Scope string_scope.
#[local] Open Scope Z_scope.
#[local] Open Scope list_scope.

(** ** Models *)

Module SessionWindow.
Record t := mk { session : Session; start_hour_utc : Z; end_hour_utc : Z }.

Definition create (s : Session) (start stop : Z) : res t :=
  a ← int_field 0 (Some 23) start;
  b ← int_field 0 (Some 23) stop;
  Ok (mk s a b).

Definition duration_hours (w : t) : Z :=
  if start_hour_utc w <=? end_hour_utc w then end_hour_utc w - start_hour_utc w
  else (24 - start_hour_utc w) + end_hour_utc w.

Definition contains_hour (w : t) (hour_utc : Z) : res bool :=
  if (hour_utc <? 0) || (23 <? hour_utc)
  then Raise (ConfigurationError "Hour must be between 0 and 23")
  else if start_hour_utc w <=? end_hour_utc w
  then Ok ((start_hour_utc w <=? hour_utc) && (hour_utc <? end_hour_utc w))
  else Ok ((start_hour_utc w <=? hour_utc) || (hour_utc <? end_hour_utc w)).

(** [timestamp.hour] is the hour of the datetime's own zone. *)
Definition contains_timestamp (w : t) (ts : datetime) : res bool := contains_hour w (dt_hour ts).
End SessionWindow.

Module SessionState.
Record t := mk {
  symbol : string; timeframe : Timeframe; timestamp : datetime;
  active_session : Session; is_overlap : bool; overlapping_sessions : list Session }.

Definition create (symbol : string) (tf : Timeframe) (ts : datetime) (active : Session)
    (is_overlap : bool) (overlapping : list Session) : res t :=
  s ← symbol_3_30 symbol;
  Ok (mk s tf ts active is_overlap overlapping).

Definition is_asia (s : t) : bool := bool_decide (active_session s = ASIA).
Definition is_london (s : t) : bool := bool_decide (active_session s = LONDON).
Definition is_new_york (s : t) : bool := bool_decide (active_session s = NEW_YORK).
Definition is_london_ny_overlap (s : t) : bool :=
  is_overlap s && bool_decide (LONDON ∈ overlapping_sessions s)
  && bool_decide (NEW_YORK ∈ overlapping_sessions s).
End SessionState.

Module SessionRange.
Record t := mk {
  symbol : string; timeframe : Timeframe; session : Session;
  start_time : datetime; end_time : datetime;
  high : float; low : float; open : float; close : float }.

Definition model_post_init (r : t) : res unit :=
  if flt (high r) (low r) then Raise (ConfigurationError "Session high must be >= low")
  else if dt_ltb (end_time r) (start_time r)
  then Raise (ConfigurationError "Session end time must be at or after start time")
  else Ok tt.

Definition create (symbol : string) (tf : Timeframe) (session : Session) (start_time end_time : datetime)
    (high low open close : float) : res t :=
  s ← symbol_3_30 symbol;
  h ← field_gt0 high;
  l ← field_gt0 low;
  o ← field_gt0 open;
  c ← field_gt0 close;
  let r := mk s tf session start_time end_time h l o c in
  _ ← model_post_init r;
  Ok r.

Definition range_size (r : t) : float := fsub (high r) (low r).
Definition midpoint (r : t) : res float := fdiv (fadd (high r) (low r)) (of_Z 2).
Definition is_bullish (r : t) : bool := flt (open r) (close r).
Definition is_bearish (r : t) : bool := flt (close r) (open r).
End SessionRange.

Definition get_session_window (s : Session) : res SessionWindow.t :=
  let '(start_hour, end_hour) := SESSION_UTC_RANGES s in
  SessionWindow.create s start_hour end_hour.

(** The choice of the primary session once the active ones are known. *)
Definition classify (timestamp : datetime) (active_sessions : list Session) : res SessionState.t :=
  let '(primary_session, is_overlap, overlapping) :=
    match active_sessions with
    | [] => (ASIA, false, [])
    | [s] => (s, false, [])
    | s :: _ =>
        (if bool_decide (LONDON ∈ active_sessions) && bool_decide (NEW_YORK ∈ active_sessions)
         then OVERLAP_LONDON_NY else s, true, active_sessions)
    end in
  SessionState.create "GENERIC" H1 timestamp primary_session is_overlap overlapping.

Fixpoint active_among (hour_utc : Z) (sessions : list Session) : res (list Session) :=
  match sessions with
  | [] => Ok []
  | s :: rest =>
      window ← get_session_window s;
      b ← SessionWindow.contains_hour window hour_utc;
      l ← active_among hour_utc rest;
      Ok (if b : bool then s :: l else l)
  end.

Definition identify_active_session (timestamp : datetime) : res SessionState.t :=
  active_sessions ← active_among (dt_hour timestamp) [ASIA; LONDON; NEW_YORK];
  classify timestamp active_sessions.

(** ** Analyzer *)

Module SessionAnalyzer.

Record t := mk { asia_window : SessionWindow.t; london_window : SessionWindow.t; ny_window : SessionWindow.t }.

Definition create : res t :=
  a ← get_session_window ASIA;
  l ← get_session_window LONDON;
  n ← get_session_window NEW_YORK;
  Ok (mk a l n).

Definition identify_session (self : t) (timestamp : datetime) : res SessionState.t :=
  let hour_utc := dt_hour timestamp in
  a ← SessionWindow.contains_hour (asia_window self) hour_utc;
  l ← SessionWindow.contains_hour (london_window self) hour_utc;
  n ← SessionWindow.contains_hour (ny_window self) hour_utc;
  let active_sessions :=
    (if a : bool then [ASIA] else []) ++ (if l : bool then [LONDON] else [])
    ++ (if n : bool then [NEW_YORK] else []) in
  classify timestamp active_sessions.

Definition get_session_candles (sequence : CandleSequence.t) (session : Session) : res (list Candle.t) :=
  window ← get_session_window session;
  res_filter (fun c => SessionWindow.contains_timestamp window (Candle.timestamp c))
    (CandleSequence.candles sequence).

(** The aggregation of a block of candles into a range. *)
Definition range_of (sequence : CandleSequence.t) (session : Session) (block : list Candle.t)
    : res SessionRange.t :=
  high ← fmax_list (map Candle.high block);
  low ← fmin_list (map Candle.low block);
  first ← py_index block 0;
  last ← py_index block (-1);
  SessionRange.create (CandleSequence.symbol sequence) (CandleSequence.timeframe sequence) session
    (Candle.timestamp first) (Candle.timestamp last) high low (Candle.open first) (Candle.close last).

Definition extract_session_range (sequence : CandleSequence.t) (session : Session)
    : res (option SessionRange.t) :=
  session_candles ← get_session_candles sequence session;
  match session_candles with
  | [] => Ok None
  | _ => r ← range_of sequence session session_candles; Ok (Some r)
  end.

(** [for i in range(n - 1, -1, -1): if ...: end_index = i; break]. *)
Fixpoint find_end (w : SessionWindow.t) (candles : list Candle.t) (n : nat) : res (option nat) :=
  match n with
  | O => Ok None
  | S m =>
      c ← py_index candles (Z.of_nat m);
      b ← SessionWindow.contains_timestamp w (Candle.timestamp c);
      if b : bool then Ok (Some m) else find_end w candles m
  end.

(** [while start_index - 1 >= 0 and ...: start_index -= 1]. *)
Fixpoint extend_start (w : SessionWindow.t) (candles : list Candle.t) (start_index : nat) : res nat :=
  match start_index with
  | O => Ok O
  | S m =>
      c ← py_index candles (Z.of_nat m);
      b ← SessionWindow.contains_timestamp w (Candle.timestamp c);
      if b : bool then extend_start w candles m else Ok (S m)
  end.

Definition extract_most_recent_session_range (sequence : CandleSequence.t) (session : Session)
    : res (option SessionRange.t) :=
  session_window ← get_session_window session;
  let candles := CandleSequence.candles sequence in
  match candles with
  | [] => Ok None
  | _ =>
      end_index ← find_end session_window candles (length candles);
      match end_index with
      | None => Ok None
      | Some e =>
          start_index ← extend_start session_window candles e;
          let block := py_slice candles (Z.of_nat start_index) (Z.of_nat e + 1) in
          r ← range_of sequence session block;
          Ok (Some r)
      end
  end.

Definition is_london_ny_overlap (self : t) (timestamp : datetime) : res bool :=
  let hour_utc := dt_hour timestamp in
  l ← SessionWindow.contains_hour (london_window self) hour_utc;
  if l : bool then SessionWindow.contains_hour (ny_window self) hour_utc else Ok false.

Definition get_session_boundaries (sequence : CandleSequence.t)
    : res (list (Session * option SessionRange.t)) :=
  a ← extract_session_range sequence ASIA;
  l ← extract_session_range sequence LONDON;
  n ← extract_session_range sequence NEW_YORK;
  Ok [(ASIA, a); (LONDON, l); (NEW_YORK, n)].

Definition tag_candles_with_session (self : t) (sequence : CandleSequence.t)
    : res (list (Z * SessionState.t)) :=
  res_map (fun '(i, c) => s ← identify_session self (Candle.timestamp c); Ok (i, s))
    (py_enumerate (CandleSequence.candles sequence)).

End SessionAnalyzer.

(** ** Timeframe hierarchy *)

Module TimeframeManager.

Definition _HIERARCHY : list Timeframe :=
  [M1; M5; M15; M30; H1; H3; H4; H6; H8; H12; D1; W1; MN1].

(** [self._hierarchy_index.get(tf)]. *)
Definition _hierarchy_index (tf : Timeframe) : option Z :=
  match list_find (fun x => x = tf) _HIERARCHY with Some (i, _) => Some (Z.of_nat i) | None => None end.

Definition get_relation (tf1 tf2 : Timeframe) : TimeframeRelation :=
  match _hierarchy_index tf1, _hierarchy_index tf2 with
  | Some idx1, Some idx2 => if idx1 =? idx2 then SAME else if idx2 <? idx1 then PARENT else CHILD
  | _, _ => UNRELATED
  end.

Definition get_parent (timeframe : Timeframe) (steps : Z) : res (option Timeframe) :=
  if steps <? 1 then Raise (ConfigurationError "Steps must be at least 1")
  else
    match _hierarchy_index timeframe with
    | None => Ok None
    | Some idx =>
        let parent_idx := idx + steps in
        if py_len _HIERARCHY <=? parent_idx then Ok None
        else tf ← py_index _HIERARCHY parent_idx; Ok (Some tf)
    end.

Definition get_child (timeframe : Timeframe) (steps : Z) : res (option Timeframe) :=
  if steps <? 1 then Raise (ConfigurationError "Steps must be at least 1")
  else
    match _hierarchy_index timeframe with
    | None => Ok None
    | Some idx =>
        let child_idx := idx - steps in
        if child_idx <? 0 then Ok None
        else tf ← py_index _HIERARCHY child_idx; Ok (Some tf)
    end.

Definition is_htf_of (potential_htf reference : Timeframe) : bool :=
  bool_decide (get_relation potential_htf reference = PARENT).
Definition is_ltf_of (potential_ltf reference : Timeframe) : bool :=
  bool_decide (get_relation potential_ltf reference = CHILD).

(** Every member of the enumeration has an entry in the table. *)
Definition get_minutes (tf : Timeframe) : res Z := Ok (TIMEFRAME_MINUTES tf).

Definition calculate_candle_count (source_tf target_tf : Timeframe) : res Z :=
  source_minutes ← get_minutes source_tf;
  target_minutes ← get_minutes target_tf;
  if target_minutes <? source_minutes
  then Raise (ConfigurationError "Target timeframe must be >= source timeframe")
  else if negb (target_minutes mod source_minutes =? 0)
  then Raise (ConfigurationError "Target timeframe must be a multiple of source timeframe")
  else Ok (target_minutes / source_minutes).

End TimeframeManager.

(** The module's functions, on the one shared manager (which has no state of its
    own besides the index of the hierarchy). *)
Definition get_timeframe_relation (tf1 tf2 : Timeframe) : TimeframeRelation := TimeframeManager.get_relation tf1 tf2.
Definition get_parent_timeframe (timeframe : Timeframe) (steps : Z) : res (option Timeframe) :=
  TimeframeManager.get_parent timeframe steps.
Definition get_child_timeframe (timeframe : Timeframe) (steps : Z) : res (option Timeframe) :=
  TimeframeManager.get_child timeframe steps.
Definition is_htf_of (potential_htf reference : Timeframe) : bool := TimeframeManager.is_htf_of potential_htf reference.
Definition is_ltf_of (potential_ltf reference : Timeframe) : bool := TimeframeManager.is_ltf_of potential_ltf reference.

(** ** Correctness of the session model *)

Module SessionFacts.
Import SessionAnalyzer.

(** Whether a window covers the hour of a candle. *)
Definition covers (w : SessionWindow.t) (c : Candle.t) : bool :=
  let h := dt_hour (Candle.timestamp c) in
  if SessionWindow.start_hour_utc w <=? SessionWindow.end_hour_utc w
  then (SessionWindow.start_hour_utc w <=? h) && (h <? SessionWindow.end_hour_utc w)
  else (SessionWindow.start_hour_utc w <=? h) || (h <? SessionWindow.end_hour_utc w).

Lemma contains_covers w c :
  SessionWindow.contains_timestamp w (Candle.timestamp c) = Ok (covers w c).
Proof.
  unfold SessionWindow.contains_timestamp, SessionWindow.contains_hour, covers.
  pose proof (dt_hour_range (Candle.timestamp c)).
  rewrite (proj2 (Z.ltb_ge _ _)), (proj2 (Z.ltb_ge _ _)) by lia. simpl. by case_match.
Qed.

Definition window_of (s : Session) : SessionWindow.t :=
  let '(a, b) := SESSION_UTC_RANGES s in SessionWindow.mk s a b.

Lemma get_session_window_Ok s : get_session_window s = Ok (window_of s).
Proof. by destruct s. Qed.

Lemma hour_cases (P : Z -> Prop) h :
  0 <= h <= 23 -> Forall P (py_range 0 24) -> P h.
Proof.
  intros Hh HP. rewrite List.Forall_forall in HP. apply HP, elem_of_py_range. lia.
Qed.

(** The sessions whose window covers an hour. *)
Definition active_at (h : Z) : list Session :=
  List.filter (fun s => let '(a, b) := SESSION_UTC_RANGES s in (a <=? h) && (h <? b)) [ASIA; LONDON; NEW_YORK].

Lemma active_among_Ok h : 0 <= h <= 23 -> active_among h [ASIA; LONDON; NEW_YORK] = Ok (active_at h).
Proof.
  intros Hh. pattern h. apply hour_cases; [done|].
  repeat (apply Forall_cons_2; [vm_compute; reflexivity|]). apply Forall_nil_2.
Qed.

Lemma classify_Ok ts l : exists st, classify ts l = Ok st.
Proof. unfold classify. destruct l as [|s [|s' l]]; eexists; vm_compute; reflexivity. Qed.

(** The two implementations of the session lookup agree, and classify
    every timestamp.  [SessionAnalyzer.identify_session] and
    [identify_active_session] return the same state for every datetime; the
    state is the London/New York overlap exactly from 12 to 15 o'clock, and it
    is flagged as an overlap exactly when two sessions are open (7 and 8
    o'clock, and 12 to 15). *)
Theorem identify_session_agrees (self : t) (ts : datetime) :
  create = Ok self ->
  exists st, identify_session self ts = Ok st /\ identify_active_session ts = Ok st /\
    let h := dt_hour ts in
    (SessionState.active_session st = OVERLAP_LONDON_NY <-> 12 <= h < 16) /\
    (SessionState.is_london_ny_overlap st = true <-> 12 <= h < 16) /\
    (SessionState.is_overlap st = true <-> 7 <= h < 9 \/ 12 <= h < 16) /\
    SessionState.timestamp st = ts.
Proof.
  intros E. injection E as <-. unfold identify_active_session, identify_session.
  generalize (dt_hour_range ts). generalize (dt_hour ts) as h. intros h Hh.
  pattern h. apply hour_cases; [done|].
  repeat (apply Forall_cons_2;
    [eexists; split; [vm_compute; reflexivity|]; split; [vm_compute; reflexivity|];
     vm_compute; intuition (congruence || discriminate)|]). apply Forall_nil_2.
Qed.

Lemma identify_session_agrees_witness :
  exists self st, create = Ok self /\ identify_session self (mk_datetime (13 * us_per_hour) (Some 0)) = Ok st /\
    SessionState.active_session st = OVERLAP_LONDON_NY.
Proof.
  eexists. destruct (identify_session_agrees _ (mk_datetime (13 * us_per_hour) (Some 0)) eq_refl)
    as (st & E & _ & [_ H] & _).
  exists st. split; [reflexivity|]. split; [exact E|]. apply H. vm_compute. split; congruence.
Defined.

(** The lookup reads the wall clock of the datetime's own zone: the same
    instant written with two offsets falls in different sessions. *)
Example session_follows_wall_clock :
  let utc := mk_datetime (13 * us_per_hour) (Some 0) in
  let plus5 := mk_datetime (18 * us_per_hour) (Some (5 * us_per_hour)) in
  dt_eqb utc plus5 = true /\
  (SessionState.active_session <$> identify_active_session utc) = Ok OVERLAP_LONDON_NY /\
  (SessionState.active_session <$> identify_active_session plus5) = Ok NEW_YORK.
Proof. vm_compute. auto. Qed.

(** ** The most recent block *)

Lemma find_end_spec w v n :
  (n <= length v)%nat ->
  exists r, find_end w v n = Ok r /\
    match r with
    | None => forall i c, (i < n)%nat -> v !! i = Some c -> covers w c = false
    | Some e => (e < n)%nat /\ (exists c, v !! e = Some c /\ covers w c = true) /\
        forall i c, (e < i < n)%nat -> v !! i = Some c -> covers w c = false
    end.
Proof.
  induction n as [|m IH]; intros Hn; simpl; [exists None; split; [done|lia]|].
  destruct (lookup_lt_is_Some_2 v m) as [c Hc]; [lia|].
  rewrite (py_index_nat v m c Hc). cbn [mbind res_bind]. rewrite contains_covers. cbn [mbind res_bind].
  destruct (covers w c) eqn:Ew.
  - exists (Some m). split; [done|]. split; [lia|]. split; [eauto|lia].
  - destruct (IH ltac:(lia)) as (r & -> & Hr). exists r. split; [done|]. destruct r as [e|].
    + destruct Hr as (He & Hex & Hi). split; [lia|]. split; [done|]. intros i d Hid Hd.
      destruct (decide (i = m)) as [->|]; [congruence|]. apply (Hi i d); [lia|done].
    + intros i d Hid Hd. destruct (decide (i = m)) as [->|]; [congruence|]. apply (Hr i d); [lia|done].
Qed.

Lemma extend_start_spec w v n :
  (n <= length v)%nat ->
  exists a, extend_start w v n = Ok a /\ (a <= n)%nat /\
    (forall i c, (a <= i < n)%nat -> v !! i = Some c -> covers w c = true) /\
    (a = 0%nat \/ exists c, v !! pred a = Some c /\ covers w c = false).
Proof.
  induction n as [|m IH]; intros Hn; simpl; [exists 0%nat; split; [done|]; split; [lia|]; split; [lia|by left]|].
  destruct (lookup_lt_is_Some_2 v m) as [c Hc]; [lia|].
  rewrite (py_index_nat v m c Hc). cbn [mbind res_bind]. rewrite contains_covers. cbn [mbind res_bind].
  destruct (covers w c) eqn:Ew.
  - destruct (IH ltac:(lia)) as (a & -> & Ha & Hi & Hb). exists a. split; [done|]. split; [lia|]. split; [|done].
    intros i d Hid Hd. destruct (decide (i = m)) as [->|]; [congruence|]. apply (Hi i d); [lia|done].
  - exists (S m). split; [done|]. split; [lia|]. split; [lia|]. right. simpl. eauto.
Qed.

(** What the aggregation of a block needs and gives. *)
Definition seq_ok (q : CandleSequence.t) : Prop :=
  CandleSequence.wf (CandleSequence.candles q) /\
  (forall c, In c (CandleSequence.candles q) -> Candle.wf c) /\
  3 <= str_len (str_strip (CandleSequence.symbol q)) <= 30.

Lemma fmax_list_nonempty l : l <> [] -> exists m, fmax_list l = Ok m.
Proof. destruct l; [done|]. by eexists. Qed.
Lemma fmin_list_nonempty l : l <> [] -> exists m, fmin_list l = Ok m.
Proof. destruct l; [done|]. by eexists. Qed.

Lemma range_of_Ok q s block first last :
  3 <= str_len (str_strip (CandleSequence.symbol q)) <= 30 ->
  (forall c, In c block -> Candle.wf c) ->
  py_index block 0 = Ok first -> py_index block (-1) = Ok last ->
  instant (Candle.timestamp first) <= instant (Candle.timestamp last) ->
  exists r, range_of q s block = Ok r /\
    SessionRange.start_time r = Candle.timestamp first /\ SessionRange.end_time r = Candle.timestamp last /\
    SessionRange.open r = Candle.open first /\ SessionRange.close r = Candle.close last /\
    (exists c, In c block /\ SessionRange.high r = Candle.high c) /\
    (exists c, In c block /\ SessionRange.low r = Candle.low c) /\
    forall c, In c block -> fv (SessionRange.low r) <= fv (Candle.low c) /\
      fv (Candle.high c) <= fv (SessionRange.high r).
Proof.
  intros Hs Hwf E0 E1 Ht. unfold range_of.
  assert (Hf : In first block) by (by eapply py_index_In). assert (Hl : In last block) by (by eapply py_index_In).
  assert (Hne : block <> []) by (by intros ->).
  destruct (fmax_list_nonempty (map Candle.high block)) as [h Eh]; [by destruct block|].
  destruct (fmin_list_nonempty (map Candle.low block)) as [l El]; [by destruct block|].
  rewrite Eh, El, E0, E1. cbn [mbind res_bind].
  apply fmax_list_spec in Eh as [Hih Hmax].
  2:{ apply List.Forall_forall. intros x Hx. apply in_map_iff in Hx as (c & <- & Hc). by destruct (Hwf c Hc). }
  apply fmin_list_spec in El as [Hil Hmin].
  2:{ apply List.Forall_forall. intros x Hx. apply in_map_iff in Hx as (c & <- & Hc). by destruct (Hwf c Hc). }
  apply in_map_iff in Hih as (ch & Eh & Hch), Hil as (cl & El & Hcl). subst h l.
  pose proof (Hmax _ (in_map Candle.high _ _ Hf)) as Mf. pose proof (Hmin _ (in_map Candle.low _ _ Hf)) as Lf.
  destruct (Hwf ch Hch), (Hwf cl Hcl), (Hwf first Hf), (Hwf last Hl).
  unfold SessionRange.create, symbol_3_30. rewrite CandleFacts.str_field_intro by done. cbn [fmap res_fmap mbind res_bind].
  rewrite !field_gt0_intro by (rewrite CandleFacts.flt_fzero by done; apply Z.ltb_lt; lia).
  cbn [mbind res_bind]. unfold SessionRange.model_post_init. cbn.
  rewrite flt_fv, (proj2 (Z.ltb_ge _ _)) by (done || lia). unfold dt_ltb.
  rewrite (proj2 (Z.ltb_ge _ _)) by lia. cbn [mbind res_bind]. eexists. split; [done|]. cbn.
  repeat (split; [done|]). split; [eauto|]. split; [eauto|].
  intros c Hc. split; [by apply Hmin, in_map|by apply Hmax, in_map].
Qed.

Lemma slice_ends {A} (v : list A) (a b : nat) :
  (a <= b)%nat -> (b < length v)%nat ->
  exists x y, v !! a = Some x /\ v !! b = Some y /\
    py_index (py_slice v (Z.of_nat a) (Z.of_nat b + 1)) 0 = Ok x /\
    py_index (py_slice v (Z.of_nat a) (Z.of_nat b + 1)) (-1) = Ok y.
Proof.
  intros Hab Hb. destruct (lookup_lt_is_Some_2 v a) as [x Hx]; [lia|].
  destruct (lookup_lt_is_Some_2 v b) as [y Hy]; [lia|]. exists x, y. split; [done|]. split; [done|].
  set (l := py_slice v (Z.of_nat a) (Z.of_nat b + 1)).
  assert (Hlen : py_len l = Z.of_nat b + 1 - Z.of_nat a) by (apply py_slice_length; unfold py_len; lia).
  split.
  - apply py_index_lookup; [lia|]. change (Z.to_nat 0) with (Z.to_nat 0). unfold l.
    rewrite py_slice_lookup by (unfold py_len; lia). rewrite <- Hx. f_equal. lia.
  - unfold py_index. cbn [Z.ltb Z.compare]. cbv zeta. rewrite Hlen.
    rewrite (proj2 (Z.ltb_ge _ _)) by lia.
    replace (l !! Z.to_nat _) with (Some y); [done|]. symmetry. unfold l.
    rewrite py_slice_lookup by (unfold py_len; lia). rewrite <- Hy. f_equal. lia.
Qed.

Lemma slice_In {A} (v : list A) (a b : nat) x :
  (a <= b)%nat -> (b < length v)%nat ->
  In x (py_slice v (Z.of_nat a) (Z.of_nat b + 1)) <-> exists i, (a <= i <= b)%nat /\ v !! i = Some x.
Proof.
  intros Hab Hb. rewrite <- list_elem_of_In, list_elem_of_lookup. split.
  - intros [j Hj]. assert (j < length (py_slice v (Z.of_nat a) (Z.of_nat b + 1)))%nat as Hlt
      by (by eapply lookup_lt_Some).
    pose proof (py_slice_length v (Z.of_nat a) (Z.of_nat b + 1)) as Hl. unfold py_len in Hl.
    exists (a + j)%nat. split; [lia|].
    rewrite <- (Nat2Z.id j), py_slice_lookup in Hj by (unfold py_len; lia). rewrite <- Hj. f_equal. lia.
  - intros (i & Hi & Hx). exists (i - a)%nat.
    rewrite <- (Nat2Z.id (i - a)), py_slice_lookup by (unfold py_len; lia). rewrite <- Hx. f_equal. lia.
Qed.

(** The most recent session block is found exactly.  On a well-formed
    sequence [extract_most_recent_session_range] returns [None] when no candle
    is in the session, and otherwise the range of the last maximal run of
    candles in it: no later candle is in the session, the candle before the run
    is not, the times, open and close are those of the run's ends, and the high
    and low are its greatest high and least low. *)
Theorem most_recent_session_exact (q : CandleSequence.t) (s : Session) :
  seq_ok q ->
  let v := CandleSequence.candles q in let w := window_of s in
  exists r, extract_most_recent_session_range q s = Ok r /\
  match r with
  | None => forall c, In c v -> covers w c = false
  | Some r => exists a b ca cb, (a <= b)%nat /\ v !! a = Some ca /\ v !! b = Some cb /\
      (forall i c, (a <= i <= b)%nat -> v !! i = Some c -> covers w c = true) /\
      (a = 0%nat \/ exists c, v !! pred a = Some c /\ covers w c = false) /\
      (forall i c, (b < i)%nat -> v !! i = Some c -> covers w c = false) /\
      SessionRange.start_time r = Candle.timestamp ca /\ SessionRange.end_time r = Candle.timestamp cb /\
      SessionRange.open r = Candle.open ca /\ SessionRange.close r = Candle.close cb /\
      (exists i c, (a <= i <= b)%nat /\ v !! i = Some c /\ SessionRange.high r = Candle.high c) /\
      (exists i c, (a <= i <= b)%nat /\ v !! i = Some c /\ SessionRange.low r = Candle.low c) /\
      forall i c, (a <= i <= b)%nat -> v !! i = Some c ->
        fv (SessionRange.low r) <= fv (Candle.low c) /\ fv (Candle.high c) <= fv (SessionRange.high r)
  end.
Proof.
  intros (Hwf & Hc & Hs) v w. unfold extract_most_recent_session_range.
  rewrite get_session_window_Ok. cbn [mbind res_bind]. fold v w.
  destruct (find_end_spec w v (length v)) as (r & Er & Hr); [lia|]. destruct v as [|c0 v0] eqn:Ev.
  { exfalso. by apply (CandleSequence.wf_nonempty _ Hwf). }
  rewrite <- Ev in *. rewrite Er. cbn [mbind res_bind]. destruct r as [b|].
  2:{ exists None. split; [done|]. intros c Hin. apply list_elem_of_In, list_elem_of_lookup in Hin as [i Hi].
      apply (Hr i c); [by eapply lookup_lt_Some|done]. }
  destruct Hr as (Hb & (cb0 & Hcb0 & Hcov) & Hafter).
  destruct (extend_start_spec w v b) as (a & Ea & Hab & Hrun & Hbefore); [lia|].
  rewrite Ea. cbn [mbind res_bind].
  destruct (slice_ends v a b Hab Hb) as (ca & cb & Hca & Hcb & E0 & E1).
  assert (cb0 = cb) as -> by congruence.
  assert (Htime : instant (Candle.timestamp ca) <= instant (Candle.timestamp cb)).
  { destruct (decide (a = b)) as [->|Hne]; [assert (ca = cb) as -> by congruence; lia|].
    apply Z.lt_le_incl, (sorted_lookup CandleSequence.instant_of v a b); try done; [|lia].
    by apply CandleSequence.wf_sorted. }
  destruct (range_of_Ok q s (py_slice v (Z.of_nat a) (Z.of_nat b + 1)) ca cb Hs)
    as (r & -> & H1 & H2 & H3 & H4 & (ch & Hch & H5) & (cl & Hcl & H6) & H7); [|done|done|done|].
  { intros c Hin. apply Hc. by apply py_slice_In in Hin. }
  cbn [mbind res_bind]. exists (Some r). split; [done|]. exists a, b, ca, cb.
  split; [done|]. split; [done|]. split; [done|]. split.
  { intros i c Hi Hl. destruct (decide (i = b)) as [->|]; [congruence|]. apply (Hrun i c); [lia|done]. }
  split; [done|]. split.
  { intros i c Hi Hl. apply (Hafter i c); [|done]. split; [done|by eapply lookup_lt_Some]. }
  do 4 (split; [done|]). apply slice_In in Hch as (i & Hi & Hli), Hcl as (j & Hj & Hlj); try done.
  split; [by exists i, ch|]. split; [by exists j, cl|].
  intros k c Hk Hlk. apply H7. apply slice_In; [done..|]. eauto.
Qed.

(** Three hourly candles at 6, 7 and 8 o'clock. *)
Definition sample_hours : CandleSequence.t :=
  CandleSequence.mk "EURUSD" H1
    [SequenceFacts.sample_at 6; SequenceFacts.sample_at 7; SequenceFacts.sample_at 8].

Lemma sample_at_wf h : Candle.wf (SequenceFacts.sample_at h).
Proof. constructor; vm_compute; repeat split; congruence. Qed.

Lemma sample_hours_ok : seq_ok sample_hours.
Proof.
  split; [|split; [|vm_compute; split; congruence]].
  - constructor; [done| |repeat constructor; vm_compute; done].
    intros a b Ha Hb. simpl in Ha, Hb.
    repeat destruct Ha as [<-|Ha]; try done; repeat destruct Hb as [<-|Hb]; done.
  - intros c [<-|[<-|[<-|[]]]]; apply sample_at_wf.
Qed.

Lemma most_recent_session_exact_witness :
  exists r, extract_most_recent_session_range sample_hours LONDON = Ok (Some r) /\
    SessionRange.start_time r = mk_datetime (7 * us_per_hour) (Some 0).
Proof.
  destruct (most_recent_session_exact sample_hours LONDON sample_hours_ok) as ([r|] & E & _).
  - exists r. split; [exact E|]. vm_compute in E. injection E as <-. reflexivity.
  - vm_compute in E. discriminate E.
Defined.
End SessionFacts.

Module TimeframeFacts.
Import TimeframeManager.

Lemma hierarchy_index_lookup tf i :
  _hierarchy_index tf = Some i <-> 0 <= i /\ _HIERARCHY !! Z.to_nat i = Some tf.
Proof.
  split.
  - intros E. destruct tf; vm_compute in E; injection E as <-; split; (lia || reflexivity).
  - intros [Hi E]. rewrite <- (Z2Nat.id i) by done. revert E. generalize (Z.to_nat i) as n. clear.
    intros n. do 13 (destruct n as [|n]; [simpl; intros [= <-]; reflexivity|]). simpl. by rewrite lookup_nil.
Qed.

Lemma hierarchy_index_total tf : exists i, _hierarchy_index tf = Some i /\ 0 <= i < py_len _HIERARCHY.
Proof. destruct tf; eexists; (split; [reflexivity|]); vm_compute; split; congruence. Qed.

Lemma get_parent_iff tf p n :
  1 <= n -> get_parent tf n = Ok (Some p) <->
  exists i j, _hierarchy_index tf = Some i /\ _hierarchy_index p = Some j /\ j = i + n.
Proof.
  intros Hn. unfold get_parent. rewrite (proj2 (Z.ltb_ge _ _)) by lia.
  destruct (hierarchy_index_total tf) as (i & Ei & Hi), (hierarchy_index_total p) as (j & Ej & Hj).
  rewrite Ei. cbv zeta. destruct (py_len _HIERARCHY <=? i + n) eqn:E; zbool.
  - split; [done|]. intros (i' & j' & E1 & E2 & ->). simplify_eq. lia.
  - destruct (py_index_in_range _HIERARCHY (i + n)) as (x & -> & Hx); [lia|]. cbn [mbind res_bind].
    split.
    + intros [= ->]. exists i, (i + n). split; [done|]. split; [|done]. apply hierarchy_index_lookup. split; [lia|done].
    + intros (i' & j' & E1 & E2 & ->). simplify_eq. apply hierarchy_index_lookup in Ej as [_ Ej]. congruence.
Qed.

Lemma get_child_iff tf p n :
  1 <= n -> get_child p n = Ok (Some tf) <->
  exists i j, _hierarchy_index tf = Some i /\ _hierarchy_index p = Some j /\ j = i + n.
Proof.
  intros Hn. unfold get_child. rewrite (proj2 (Z.ltb_ge _ _)) by lia.
  destruct (hierarchy_index_total tf) as (i & Ei & Hi), (hierarchy_index_total p) as (j & Ej & Hj).
  rewrite Ej. cbv zeta. destruct (j - n <? 0) eqn:E; zbool.
  - split; [done|]. intros (i' & j' & E1 & E2 & ->). simplify_eq. lia.
  - destruct (py_index_in_range _HIERARCHY (j - n)) as (x & -> & Hx); [lia|]. cbn [mbind res_bind].
    split.
    + intros [= ->]. exists (j - n), j. split; [|split; [done|lia]]. apply hierarchy_index_lookup. split; [lia|done].
    + intros (i' & j' & E1 & E2 & ->). simplify_eq. apply hierarchy_index_lookup in Ei as [_ Ei].
      replace (i + n - n) with i in Hx by lia. congruence.
Qed.

(** The timeframe hierarchy is consistent.  Walking [n] steps up and [n]
    steps down are inverse wherever they are defined; a timeframe is higher
    than another exactly when its candles last longer; and a candle count is
    computed exactly when the target is a whole number of source candles, which
    it then is. *)
Theorem timeframe_hierarchy_consistent (a b : Timeframe) (n : Z) :
  (1 <= n -> (get_parent a n = Ok (Some b) <-> get_child b n = Ok (Some a))) /\
  (n < 1 -> get_parent a n = Raise (ConfigurationError "Steps must be at least 1") /\
            get_child a n = Raise (ConfigurationError "Steps must be at least 1")) /\
  is_htf_of a b = (TIMEFRAME_MINUTES b <? TIMEFRAME_MINUTES a) /\
  is_ltf_of a b = is_htf_of b a /\
  (calculate_candle_count a b = Ok n <-> 1 <= n /\ n * TIMEFRAME_MINUTES a = TIMEFRAME_MINUTES b).
Proof.
  split; [|split; [|split; [|split]]].
  - intros Hn. by rewrite get_parent_iff, get_child_iff.
  - intros Hn. unfold get_parent, get_child. by rewrite (proj2 (Z.ltb_lt _ _)).
  - destruct a, b; reflexivity.
  - destruct a, b; reflexivity.
  - unfold calculate_candle_count, get_minutes. cbn [mbind res_bind].
    assert (Ha : 0 < TIMEFRAME_MINUTES a) by (destruct a; simpl; lia).
    assert (Hb : 0 < TIMEFRAME_MINUTES b) by (destruct b; simpl; lia).
    set (x := TIMEFRAME_MINUTES a) in *. set (y := TIMEFRAME_MINUTES b) in *. clearbody x y.
    destruct (y <? x) eqn:E1; zbool; [split; [done|nia]|].
    destruct (y mod x =? 0) eqn:E2; zbool; simpl.
    + apply Z.div_exact in E2; [|lia]. split.
      * intros [= <-]. split; [|lia]. apply Z.div_le_lower_bound; lia.
      * intros [Hn E]. f_equal. symmetry. apply Z.div_unique_exact; lia.
    + split; [done|]. intros [_ E]. exfalso. apply E2. rewrite <- E. apply Z.mod_mul. lia.
Qed.

Lemma timeframe_hierarchy_consistent_witness :
  get_parent H1 2 = Ok (Some H4) /\ get_child H4 2 = Ok (Some H1).
Proof.
  assert (H : get_parent H1 2 = Ok (Some H4)) by reflexivity. split; [exact H|].
  apply (timeframe_hierarchy_consistent H1 H4 2); [lia|exact H].
Defined.
End TimeframeFacts.
