(* ===== verification/Fibonacci.v ===== *)
(** * Fibonacci: [engine/ta/models/fibonacci.py],
    [engine/ta/common/analyzers/fibonacci.py] and
    [engine/ta/common/analyzers/dealing_range.py]

    Retracements, premium and discount zones, and dealing ranges. *)

From Stdlib Require Import ZArith Lia Bool String.
From stdpp Require Import base list strings.
From S2P Require Import Prelude PyFloat FloatRound FloatMono FloatGrid PyText Constants PriceMath Candles Swings Sessions.

#[local] Open Scope string_scope.
#[local] Open Scope Z_scope.
#[local] Open Scope list_scope.

(** [FIBONACCI_VALUES.get(level)]. *)
Definition fib_get (level : FibonacciLevel) : option float :=
  match list_find (fun p => fst p = level) FIBONACCI_VALUES with
  | Some (_, (_, v)) => Some v
  | None => None
  end.

(** ** Models *)

Module PremiumDiscountZone.
Record t := mk {
  symbol : string; timeframe : Timeframe; zone_type : PriceZone;
  upper_bound : float; lower_bound : float; equilibrium : float }.

Definition model_post_init (z : t) : res unit :=
  if fle (upper_bound z) (lower_bound z)
  then Raise (ConfigurationError "Upper bound must be > lower bound")
  else
    expected_equilibrium ← fdiv (fadd (upper_bound z) (lower_bound z)) (of_Z 2);
    let tolerance := fmul (fsub (upper_bound z) (lower_bound z)) (lit 1 2) in
    if flt tolerance (fabs (fsub (equilibrium z) expected_equilibrium))
    then Raise (ConfigurationError "Equilibrium must be midpoint of bounds")
    else Ok tt.

Definition create (symbol : string) (tf : Timeframe) (zone_type : PriceZone) (upper lower equilibrium : float)
    : res t :=
  s ← symbol_3_30 symbol;
  u ← field_gt0 upper;
  l ← field_gt0 lower;
  e ← field_gt0 equilibrium;
  let z := mk s tf zone_type u l e in
  _ ← model_post_init z;
  Ok z.

Definition range_size (z : t) : float := fsub (upper_bound z) (lower_bound z).
Definition contains_price (z : t) (price : float) : bool :=
  fle (lower_bound z) price && fle price (upper_bound z).
Definition distance_from_equilibrium (z : t) (price : float) : float := fabs (fsub price (equilibrium z)).
End PremiumDiscountZone.

Module FibonacciRetracement.
Record t := mk {
  symbol : string; timeframe : Timeframe; swing_high : float; swing_low : float;
  swing_high_timestamp : datetime; swing_low_timestamp : datetime; is_bullish : bool }.

Definition model_post_init (r : t) : res unit :=
  if fle (swing_high r) (swing_low r)
  then Raise (ConfigurationError "Swing high must be > swing low") else Ok tt.

Definition create (symbol : string) (tf : Timeframe) (swing_high swing_low : float)
    (high_ts low_ts : datetime) (is_bullish : bool) : res t :=
  s ← symbol_3_30 symbol;
  h ← field_gt0 swing_high;
  l ← field_gt0 swing_low;
  let r := mk s tf h l high_ts low_ts is_bullish in
  _ ← model_post_init r;
  Ok r.

Definition range_size (r : t) : float := fsub (swing_high r) (swing_low r).

Definition get_level_price (r : t) (level : FibonacciLevel) : res float :=
  match fib_get level with
  | None => Raise (ConfigurationError "Unknown Fibonacci level")
  | Some fib_value =>
      if is_bullish r
      then Ok (fsub (swing_high r) (fmul (range_size r) fib_value))
      else Ok (fadd (swing_low r) (fmul (range_size r) fib_value))
  end.

(** A dictionary comprehension over levels, in their order. *)
Definition levels_of (r : t) (levels : list FibonacciLevel) : res (list (FibonacciLevel * float)) :=
  res_map (fun level => p ← get_level_price r level; Ok (level, p)) levels.

Definition get_all_levels (r : t) : res (list (FibonacciLevel * float)) :=
  levels_of r (map fst FIBONACCI_VALUES).
Definition get_ote_levels (r : t) : res (list (FibonacciLevel * float)) := levels_of r OTE_LEVELS.

Definition get_zone_for_price (r : t) (price : float) : res PriceZone :=
  if flt price (swing_low r) || flt (swing_high r) price then
    Ok (if is_bullish r
        then if flt (swing_high r) price then PREMIUM else DISCOUNT
        else if flt (swing_high r) price then DISCOUNT else PREMIUM)
  else
    level_50 ← get_level_price r LEVEL_50;
    let tolerance := fmul (range_size r) (lit 2 2) in
    Ok (if fle (fabs (fsub price level_50)) tolerance then EQUILIBRIUM
        else if is_bullish r
        then if flt level_50 price then PREMIUM else DISCOUNT
        else if flt price level_50 then PREMIUM else DISCOUNT).

Fixpoint first_within (price tolerance : float) (levels : list (FibonacciLevel * float))
    : option FibonacciLevel :=
  match levels with
  | [] => None
  | (level, level_price) :: levels =>
      if fle (fabs (fsub price level_price)) tolerance then Some level
      else first_within price tolerance levels
  end.

Definition is_at_ote (r : t) (price tolerance_pips : float) : res (option FibonacciLevel) :=
  ote_levels ← get_ote_levels r;
  let pip_value := pip_float (symbol r) in
  Ok (first_within price (fmul tolerance_pips pip_value) ote_levels).
End FibonacciRetracement.

Module DealingRange.
Record t := mk {
  symbol : string; timeframe : Timeframe; high : float; low : float;
  start_time : datetime; end_time : option datetime }.

Definition model_post_init (r : t) : res unit :=
  if fle (high r) (low r) then Raise (ConfigurationError "High must be > low")
  else match end_time r with
  | Some e => if dt_ltb e (start_time r)
              then Raise (ConfigurationError "End time must be at or after start time") else Ok tt
  | None => Ok tt
  end.

Definition create (symbol : string) (tf : Timeframe) (high low : float) (start_time : datetime)
    (end_time : option datetime) : res t :=
  s ← symbol_3_30 symbol;
  h ← field_gt0 high;
  l ← field_gt0 low;
  let r := mk s tf h l start_time end_time in
  _ ← model_post_init r;
  Ok r.

Definition range_size (r : t) : float := fsub (high r) (low r).
Definition equilibrium (r : t) : res float := fdiv (fadd (high r) (low r)) (of_Z 2).

Definition premium_zone (r : t) : res PremiumDiscountZone.t :=
  e ← equilibrium r;
  q ← fdiv (range_size r) (of_Z 4);
  PremiumDiscountZone.create (symbol r) (timeframe r) PREMIUM (high r) e (fadd e q).

Definition discount_zone (r : t) : res PremiumDiscountZone.t :=
  e ← equilibrium r;
  q ← fdiv (range_size r) (of_Z 4);
  PremiumDiscountZone.create (symbol r) (timeframe r) DISCOUNT e (low r) (fsub e q).

Definition get_zone_for_price (r : t) (price : float) : res PriceZone :=
  let tolerance := fmul (range_size r) (lit 2 2) in
  e ← equilibrium r;
  Ok (if fle (fabs (fsub price e)) tolerance then EQUILIBRIUM
      else if flt e price then PREMIUM else DISCOUNT).

Definition zone_is (z : PriceZone) (r : t) (price : float) : res bool :=
  (fun x => bool_decide (x = z)) <$> get_zone_for_price r price.
Definition is_at_premium : t -> float -> res bool := zone_is PREMIUM.
Definition is_at_discount : t -> float -> res bool := zone_is DISCOUNT.
Definition is_at_equilibrium : t -> float -> res bool := zone_is EQUILIBRIUM.

Definition contains_price (r : t) (price : float) : bool := fle (low r) price && fle price (high r).
End DealingRange.

(** ** Analyzers *)

Module FibonacciAnalyzer.

Definition create_retracement (swing_high : SwingHigh.t) (swing_low : SwingLow.t) (is_bullish : bool)
    : res FibonacciRetracement.t :=
  FibonacciRetracement.create (SwingHigh.symbol swing_high) (SwingHigh.timeframe swing_high)
    (SwingHigh.price swing_high) (SwingLow.price swing_low)
    (SwingHigh.timestamp swing_high) (SwingLow.timestamp swing_low) is_bullish.

Definition calculate_level_price (swing_high swing_low : float) (level : FibonacciLevel) (is_bullish : bool)
    : res float :=
  match fib_get level with
  | None => Raise (ValueError "Unknown Fibonacci level")
  | Some fib_value =>
      let range_size := fsub swing_high swing_low in
      if is_bullish then Ok (fsub swing_high (fmul range_size fib_value))
      else Ok (fadd swing_low (fmul range_size fib_value))
  end.

Definition get_ote_zone (retracement : FibonacciRetracement.t) : res PremiumDiscountZone.t :=
  level_618 ← FibonacciRetracement.get_level_price retracement LEVEL_618;
  level_786 ← FibonacciRetracement.get_level_price retracement LEVEL_786;
  let upper := fmax level_618 level_786 in
  let lower := fmin level_618 level_786 in
  equilibrium ← fdiv (fadd upper lower) (of_Z 2);
  PremiumDiscountZone.create (FibonacciRetracement.symbol retracement)
    (FibonacciRetracement.timeframe retracement)
    (if FibonacciRetracement.is_bullish retracement then DISCOUNT else PREMIUM)
    upper lower equilibrium.

Definition is_at_ote (price : float) (retracement : FibonacciRetracement.t) (tolerance_pips : float)
    : res bool :=
  ote_zone ← get_ote_zone retracement;
  let tolerance := fmul tolerance_pips (pip_float (FibonacciRetracement.symbol retracement)) in
  Ok (fle (fsub (PremiumDiscountZone.lower_bound ote_zone) tolerance) price
      && fle price (fadd (PremiumDiscountZone.upper_bound ote_zone) tolerance)).

Definition get_zone_for_price (price : float) (retracement : FibonacciRetracement.t) : res PriceZone :=
  FibonacciRetracement.get_zone_for_price retracement price.

Definition zone_is (z : PriceZone) (price : float) (retracement : FibonacciRetracement.t) : res bool :=
  (fun x => bool_decide (x = z)) <$> get_zone_for_price price retracement.
Definition is_at_premium : float -> FibonacciRetracement.t -> res bool := zone_is PREMIUM.
Definition is_at_discount : float -> FibonacciRetracement.t -> res bool := zone_is DISCOUNT.
Definition is_at_equilibrium : float -> FibonacciRetracement.t -> res bool := zone_is EQUILIBRIUM.

(** One iteration of the search for the nearest level. *)
Definition nearest_step (price : float) (best : option FibonacciLevel * float) (x : FibonacciLevel * float)
    : option FibonacciLevel * float :=
  let distance := fabs (fsub price (snd x)) in
  if flt distance (snd best) then (Some (fst x), distance) else best.

Definition get_nearest_fib_level (price : float) (retracement : FibonacciRetracement.t)
    : res (option FibonacciLevel) :=
  all_levels ← FibonacciRetracement.get_all_levels retracement;
  match all_levels with
  | [] => Ok None
  | _ => Ok (fst (foldl (nearest_step price) (None, finf) all_levels))
  end.

Definition calculate_retracement_percentage (current_price swing_high swing_low : float) : res float :=
  let range_size := fsub swing_high swing_low in
  if feq range_size fzero then Ok fzero
  else
    q ← fdiv (fabs (fsub current_price swing_low)) range_size;
    Ok (fmul q (of_Z 100)).

Definition get_all_ote_levels : list FibonacciLevel := OTE_LEVELS.

End FibonacciAnalyzer.

Module DealingRangeAnalyzer.

Record t := mk { min_range_pips : float; equilibrium_tolerance_percentage : float }.

Definition default : t := mk (lit 200 1) (lit 20 1).

Definition create_from_session (self : t) (session_range : SessionRange.t) : res (option DealingRange.t) :=
  range_pips ← calculate_pips (SessionRange.low session_range) (SessionRange.high session_range)
                 (SessionRange.symbol session_range);
  if flt range_pips (min_range_pips self) then Ok None
  else
    r ← DealingRange.create (SessionRange.symbol session_range) (SessionRange.timeframe session_range)
          (SessionRange.high session_range) (SessionRange.low session_range)
          (SessionRange.start_time session_range) (Some (SessionRange.end_time session_range));
    Ok (Some r).

Definition create_from_sequence (self : t) (sequence : CandleSequence.t) (start_index end_index : Z)
    : res (option DealingRange.t) :=
  let candles := CandleSequence.candles sequence in
  if (start_index <? 0) || (py_len candles <=? end_index) || (end_index <? start_index) then Ok None
  else
    let range_candles := py_slice candles start_index (end_index + 1) in
    high ← fmax_list (map Candle.high range_candles);
    low ← fmin_list (map Candle.low range_candles);
    range_pips ← calculate_pips low high (CandleSequence.symbol sequence);
    if flt range_pips (min_range_pips self) then Ok None
    else
      first ← py_index range_candles 0;
      last ← py_index range_candles (-1);
      r ← DealingRange.create (CandleSequence.symbol sequence) (CandleSequence.timeframe sequence)
            high low (Candle.timestamp first) (Some (Candle.timestamp last));
      Ok (Some r).

Definition get_equilibrium (r : DealingRange.t) : res float := DealingRange.equilibrium r.
Definition get_premium_zone (r : DealingRange.t) : res PremiumDiscountZone.t := DealingRange.premium_zone r.
Definition get_discount_zone (r : DealingRange.t) : res PremiumDiscountZone.t := DealingRange.discount_zone r.
Definition is_at_premium (price : float) (r : DealingRange.t) : res bool := DealingRange.is_at_premium r price.
Definition is_at_discount (price : float) (r : DealingRange.t) : res bool := DealingRange.is_at_discount r price.
Definition is_at_equilibrium (price : float) (r : DealingRange.t) : res bool :=
  DealingRange.is_at_equilibrium r price.
Definition get_zone_for_price (price : float) (r : DealingRange.t) : res PriceZone :=
  DealingRange.get_zone_for_price r price.

Definition calculate_distance_from_equilibrium (price : float) (r : DealingRange.t) : res float :=
  e ← DealingRange.equilibrium r;
  calculate_pips e price (DealingRange.symbol r).

Definition is_range_active (r : DealingRange.t) (current_time : datetime) : bool :=
  match DealingRange.end_time r with None => true | Some e => dt_leb current_time e end.

Definition has_price_left_range (price : float) (r : DealingRange.t) : bool :=
  negb (DealingRange.contains_price r price).

End DealingRangeAnalyzer.

(** ** Levels *)

Module FibFacts.
Import FibonacciRetracement.

(** Subtracting floats within a factor of two of each other is exact. *)
Lemma fsub_sterbenz x y :
  fin x -> fin y -> 0 < fv y -> fv y <= fv x <= 2 * fv y -> fv (fsub x y) = fv x - fv y.
Proof.
  intros Fx Fy Hy Hxy.
  destruct (fin_inv y Fy) as [(s & ->)|(sy & my & ey & -> & Hey & Hmy & _)]; [simpl in Hy; lia|].
  destruct (fin_inv x Fx) as [(s & ->)|(sx & mx & ex & -> & Hex & _)]; [simpl in *; lia|].
  assert (Uy : 0 < unit_pow ey) by (apply unit_pow_pos; unfold ebase; lia).
  assert (Ux : 0 < unit_pow ex) by (apply unit_pow_pos; unfold ebase; lia).
  assert (sy = false) as -> by (destruct sy; [cbn [fv] in Hy; nia|done]).
  assert (sx = false) as -> by (destruct sx; [cbn [fv] in *; nia|done]).
  destruct (Z.le_gt_cases ey ex) as [He|He].
  - pose proof (unit_pow_split ey ex ltac:(unfold ebase; lia) He) as Es.
    apply (fsub_grid_exact _ _ (Zpos mx * 2 ^ (ex - ey)) (Zpos my) ey Fx Fy); [lia|cbn [fv]; rewrite Es; lia|cbn [fv]; lia|].
    cbn [fv] in Hxy. rewrite Es in Hxy. set (p := Zpos mx * 2 ^ (ex - ey)) in *.
    assert (p * unit_pow ey = Zpos mx * (2 ^ (ex - ey) * unit_pow ey)) by (unfold p; lia).
    set (u := unit_pow ey) in *. clearbody u p. nia.
  - exfalso. destruct Fx as [Vx _], Fy as [Vy _].
    pose proof (canonical_lt _ _ _ _ _ _ Vx Vy He). cbn [fv] in Hxy. lia.
Qed.

Record retr_ok (r : t) : Prop := {
  ok_high : fin (swing_high r); ok_low : fin (swing_low r);
  ok_pos : 0 < fv (swing_low r); ok_order : fv (swing_low r) < fv (swing_high r) }.

Lemma range_facts r : retr_ok r -> fin (range_size r) /\ 0 < fv (range_size r).
Proof.
  intros [Fh Fl Hp Ho]. unfold range_size. split; [apply fsub_fin; done || lia|by apply fsub_pos].
Qed.

Lemma fib_get_Some level : exists v, fib_get level = Some v /\ fin v /\ 0 <= fv v <= unit_pow 0.
Proof. destruct level; eexists; (split; [reflexivity|]); split; vm_compute; (split; congruence). Qed.

(** The retraced part of the range. *)
Lemma part_facts r v :
  retr_ok r -> fin v -> 0 <= fv v <= unit_pow 0 ->
  fin (fmul (range_size r) v) /\ 0 <= fv (fmul (range_size r) v) <= fv (range_size r).
Proof.
  intros Hr Fv Hv. destruct (range_facts r Hr) as [FR HR].
  assert (H0 : 0 <= fv (fmul (range_size r) v)) by (apply fmul_nonneg; done || lia).
  assert (H1 : fv (fmul (range_size r) v) <= fv (range_size r)).
  { apply (fmul_rounds _ _ FR Fv); [done|]. apply Z.mul_le_mono_nonneg_l; lia. }
  split; [|done]. apply num_finite_of_bounds with fzero (range_size r); auto with etradie.
Qed.

Lemma get_level_price_eq r level v :
  fib_get level = Some v ->
  get_level_price r level =
    Ok (if is_bullish r then fsub (swing_high r) (fmul (range_size r) v)
        else fadd (swing_low r) (fmul (range_size r) v)).
Proof. unfold get_level_price. intros ->. by destruct (is_bullish r). Qed.

Lemma calculate_level_price_eq r level :
  FibonacciAnalyzer.calculate_level_price (swing_high r) (swing_low r) level (is_bullish r) =
  get_level_price r level.
Proof.
  unfold FibonacciAnalyzer.calculate_level_price, get_level_price.
  destruct (fib_get_Some level) as (v & -> & _). done.
Qed.

Lemma level_price_range r level :
  retr_ok r -> fv (swing_high r) <= 2 * fv (swing_low r) ->
  exists p, get_level_price r level = Ok p /\ fin p /\ fv (swing_low r) <= fv p <= fv (swing_high r).
Proof.
  intros Hr H2. destruct (fib_get_Some level) as (v & E & Fv & Bv).
  rewrite (get_level_price_eq r _ _ E). eexists. split; [done|].
  destruct (part_facts r v Hr Fv Bv) as [FP HP]. destruct Hr as [Fh Fl Hp Ho].
  assert (ER : fv (range_size r) = fv (swing_high r) - fv (swing_low r)) by (apply fsub_sterbenz; done || lia).
  destruct (is_bullish r).
  - pose proof (fsub_rounds _ _ Fh FP) as R. split.
    + apply (rounds_fin _ _ _ (swing_low r) (swing_high r) R); try done; lia.
    + destruct R as (_ & Hu & Hl). split; [apply Hl|apply Hu]; try done; lia.
  - pose proof (fadd_rounds _ _ Fl FP) as R. split.
    + apply (rounds_fin _ _ _ (swing_low r) (swing_high r) R); try done; lia.
    + destruct R as (_ & Hu & Hl). split; [apply Hl|apply Hu]; try done; lia.
Qed.

(** Retracement levels are ordered, bounded and computed once.  For a
    valid retracement a deeper level is never above (bullish) or below
    (bearish) a shallower one; when the high is at most twice the low every
    level lies between the two swing prices; and the analyzer's own level
    formula gives the same price as the model's. *)
Theorem fib_levels_ordered (r : t) (l1 l2 : FibonacciLevel) (v1 v2 : float) :
  retr_ok r -> fib_get l1 = Some v1 -> fib_get l2 = Some v2 -> fv v1 <= fv v2 ->
  exists p1 p2, get_level_price r l1 = Ok p1 /\ get_level_price r l2 = Ok p2 /\
    (if is_bullish r then fv p2 <= fv p1 else fv p1 <= fv p2) /\
    (fv (swing_high r) <= 2 * fv (swing_low r) -> fv (swing_low r) <= fv p1 <= fv (swing_high r)) /\
    FibonacciAnalyzer.calculate_level_price (swing_high r) (swing_low r) l1 (is_bullish r) = Ok p1.
Proof.
  intros Hr E1 E2 Hv. destruct (fib_get_Some l1) as (w1 & W1 & F1 & B1), (fib_get_Some l2) as (w2 & W2 & F2 & B2).
  assert (w1 = v1) as -> by congruence. assert (w2 = v2) as -> by congruence.
  rewrite calculate_level_price_eq, !(get_level_price_eq r _ _ E1), !(get_level_price_eq r _ _ E2).
  eexists _, _. split; [done|]. split; [done|].
  destruct (range_facts r Hr) as [FR HR].
  destruct (part_facts r v1 Hr F1 B1) as [FP1 HP1], (part_facts r v2 Hr F2 B2) as [FP2 HP2].
  assert (Hm : fv (fmul (range_size r) v1) <= fv (fmul (range_size r) v2)).
  { apply fmul_mono; try done. apply Z.mul_le_mono_nonneg_l; lia. }
  destruct Hr as [Fh Fl Hp Ho]. split; [|split; [|done]].
  - destruct (is_bullish r); [apply fsub_mono; done || lia|apply fadd_mono; done || lia].
  - intros H2. destruct (level_price_range r l1) as (q & Eq & _ & Hq); [by constructor|done|].
    rewrite (get_level_price_eq r _ _ E1) in Eq. injection Eq as <-. done.
Qed.

Definition sample_retr : t :=
  mk "EURUSD" H1 (lit 10900 4) (lit 10800 4) (mk_datetime 0 (Some 0)) (mk_datetime 0 (Some 0)) true.

Lemma sample_retr_ok : retr_ok sample_retr.
Proof. constructor; vm_compute; (split; reflexivity) || reflexivity. Qed.

Lemma fib_levels_ordered_witness :
  exists p1 p2, get_level_price sample_retr LEVEL_618 = Ok p1 /\ get_level_price sample_retr LEVEL_786 = Ok p2 /\
    fv p2 <= fv p1.
Proof.
  destruct (fib_levels_ordered sample_retr LEVEL_618 LEVEL_786 (lit 618 3) (lit 786 3) sample_retr_ok)
    as (p1 & p2 & E1 & E2 & H & _); [reflexivity|reflexivity|vm_compute; congruence|].
  exists p1, p2. split; [exact E1|]. split; [exact E2|exact H].
Defined.

(** ** Zones *)

Definition rank (z : PriceZone) : Z := match z with DISCOUNT => 0 | EQUILIBRIUM => 1 | PREMIUM => 2 end.

(** The classification around a reference price, as a function of the rounded
    difference. *)
Definition zone_around (e t price : float) : PriceZone :=
  if fle (fabs (fsub price e)) t then EQUILIBRIUM else if flt e price then PREMIUM else DISCOUNT.

Lemma flt_fsub_pos x y : fin x -> fin y -> flt y x = (0 <? fv (fsub x y)).
Proof.
  intros Fx Fy. rewrite flt_fv by auto with etradie.
  destruct (Z.ltb_spec (fv y) (fv x)) as [H|H]; symmetry.
  - apply Z.ltb_lt. by apply fsub_pos.
  - apply Z.ltb_ge. rewrite <- fv_fzero. apply fsub_upper; auto with etradie. rewrite fv_fzero. lia.
Qed.

Lemma zone_around_mono e t p p' :
  fin e -> num t -> 0 <= fv t -> fin p -> fin p' -> fv p <= fv p' ->
  rank (zone_around e t p) <= rank (zone_around e t p').
Proof.
  intros Fe Nt Ht Fp Fp' Hpp. unfold zone_around.
  assert (Hd : fv (fsub p e) <= fv (fsub p' e)) by (apply fsub_mono; done || lia).
  rewrite !fle_fv by auto with etradie. rewrite !fv_fabs by auto with etradie.
  rewrite !flt_fsub_pos by done.
  set (d := fv (fsub p e)) in *. set (d' := fv (fsub p' e)) in *. clearbody d d'.
  destruct (Z.abs d <=? fv t) eqn:E1, (Z.abs d' <=? fv t) eqn:E2; zbool; simpl; try lia;
    destruct (0 <? d) eqn:E3, (0 <? d') eqn:E4; zbool; simpl; lia.
Qed.

Lemma half_fin x : fin x -> 0 <= fv x ->
  exists h, fdiv x (of_Z 2) = Ok h /\ fin h /\ 0 <= fv h <= fv x.
Proof.
  intros Fx Hx. assert (F2 : fin (of_Z 2)) by done. assert (H2 : 0 < fv (of_Z 2)) by done.
  assert (HU : 0 < unit_pow 0) by done.
  assert (E2 : fv (of_Z 2) = 2 * unit_pow 0) by (apply of_Z_exact; lia).
  destruct (fdiv_rounds x (of_Z 2) Fx F2 H2) as [-> (N & Hu & Hl)]. eexists. split; [done|].
  assert (L : fv fzero <= fv (fdiv_ieee x (of_Z 2))).
  { apply Hl; [done|]. rewrite fv_fzero. set (U := unit_pow 0) in *. clearbody U. nia. }
  assert (H : fv (fdiv_ieee x (of_Z 2)) <= fv x).
  { apply Hu; [done|]. rewrite E2. set (U := unit_pow 0) in *. clearbody U. nia. }
  split; [by apply num_finite_of_bounds with fzero x|]. rewrite fv_fzero in L. done.
Qed.

Lemma tolerance_facts R : fin R -> 0 <= fv R -> num (fmul R (lit 2 2)) /\ 0 <= fv (fmul R (lit 2 2)).
Proof.
  intros F H. assert (fin (lit 2 2)) by done.
  split; [by apply fmul_num|]. apply fmul_nonneg; try done.
Qed.

Definition flip (z : PriceZone) : PriceZone :=
  match z with PREMIUM => DISCOUNT | DISCOUNT => PREMIUM | EQUILIBRIUM => EQUILIBRIUM end.

(** The zone of a retracement: the bullish classification, flipped for a
    bearish leg. *)
Lemma retr_zone_eq r L q :
  retr_ok r -> get_level_price r LEVEL_50 = Ok L -> fin L -> fin q ->
  get_zone_for_price r q =
    Ok (let z := if flt q (swing_low r) then DISCOUNT else if flt (swing_high r) q then PREMIUM
                 else zone_around L (fmul (range_size r) (lit 2 2)) q in
        if is_bullish r then z else flip z).
Proof.
  intros Hr EL FL Fq. unfold get_zone_for_price, zone_around. rewrite EL. cbn [mbind res_bind].
  destruct (range_facts r Hr) as [FR HR]. destruct (tolerance_facts (range_size r)) as [Nt Ht]; [done|lia|].
  destruct Hr as [Fh Fl Hp Ho]. rewrite !flt_fv, fle_fv, fv_fabs by auto with etradie.
  destruct (Z.ltb_spec (fv q) (fv (swing_low r))), (Z.ltb_spec (fv (swing_high r)) (fv q)); try lia;
    cbn [orb]; try by destruct (is_bullish r).
  destruct (Z.abs (fv (fsub q L)) <=? _) eqn:E; zbool; [by destruct (is_bullish r)|].
  destruct (is_bullish r); [done|].
  destruct (Z.ltb_spec (fv q) (fv L)), (Z.ltb_spec (fv L) (fv q)); try lia; try done. exfalso.
  pose proof (rounds_representable _ 1 _ fzero ltac:(lia) (fsub_rounds q L Fq FL) fin_fzero) as Hz.
  rewrite fv_fzero in Hz. specialize (Hz ltac:(lia)). lia.
Qed.

(** Premium and discount respect the price order.  A dealing range
    classifies every finite price, and a higher price never falls into a lower
    zone (discount, equilibrium, premium); a retracement does the same for a
    bullish leg and the reverse for a bearish one, including for prices beyond
    its swings. *)
Theorem zones_monotone (d : DealingRange.t) (r : t) (p p' : float) :
  fin (DealingRange.high d) -> fin (DealingRange.low d) -> 0 < fv (DealingRange.low d) ->
  fv (DealingRange.low d) < fv (DealingRange.high d) -> fin (fadd (DealingRange.high d) (DealingRange.low d)) ->
  retr_ok r -> fv (swing_high r) <= 2 * fv (swing_low r) ->
  fin p -> fin p' -> fv p <= fv p' ->
  (exists z z', DealingRange.get_zone_for_price d p = Ok z /\ DealingRange.get_zone_for_price d p' = Ok z' /\
     rank z <= rank z') /\
  (exists z z', get_zone_for_price r p = Ok z /\ get_zone_for_price r p' = Ok z' /\
     if is_bullish r then rank z <= rank z' else rank z' <= rank z).
Proof.
  intros Fh Fl Hl Hlh Fs Hr H2 Fp Fp' Hpp. split.
  - unfold DealingRange.get_zone_for_price, DealingRange.equilibrium.
    destruct (half_fin _ Fs) as (e & -> & Fe & _).
    { apply Z.le_trans with (fv (DealingRange.high d)); [lia|]. apply fadd_ge_l; done || lia. }
    cbn [mbind res_bind]. eexists _, _. split; [done|]. split; [done|].
    destruct (tolerance_facts (DealingRange.range_size d)) as [Nt Ht].
    { apply fsub_fin; done || lia. }
    { apply fsub_nonneg; done || lia. }
    by apply zone_around_mono.
  - destruct (level_price_range r LEVEL_50 Hr H2) as (L & EL & FL & _).
    rewrite !(retr_zone_eq r L) by done. eexists _, _. split; [done|]. split; [done|].
    destruct (range_facts r Hr) as [FR HR]. destruct (tolerance_facts (range_size r)) as [Nt Ht]; [done|lia|].
    pose proof (zone_around_mono L _ p p' FL Nt Ht Fp Fp' Hpp) as Hm.
    destruct Hr as [Fh' Fl' Hp' Ho']. cbv zeta. rewrite !flt_fv by auto with etradie.
    set (z := zone_around L _ p) in *. set (z' := zone_around L _ p') in *. clearbody z z'.
    assert (Hfl : forall a b, rank a <= rank b -> rank (flip b) <= rank (flip a)) by (intros [] []; simpl; lia).
    assert (H0 : forall a, 0 <= rank a <= 2) by (intros []; simpl; lia).
    pose proof (H0 z). pose proof (H0 z').
    assert (Hz : rank (if fv p <? fv (swing_low r) then DISCOUNT else if fv (swing_high r) <? fv p then PREMIUM else z)
      <= rank (if fv p' <? fv (swing_low r) then DISCOUNT else if fv (swing_high r) <? fv p' then PREMIUM else z')).
    { repeat case_match; zbool; simpl; try lia. }
    destruct (is_bullish r); [done|by apply Hfl].
Qed.

Definition sample_dealing : DealingRange.t :=
  DealingRange.mk "EURUSD" H1 (lit 10900 4) (lit 10800 4) (mk_datetime 0 (Some 0)) None.

Lemma zones_monotone_witness :
  exists z z', DealingRange.get_zone_for_price sample_dealing (lit 10810 4) = Ok z /\
    DealingRange.get_zone_for_price sample_dealing (lit 10880 4) = Ok z' /\ rank z <= rank z'.
Proof.
  pose proof (zones_monotone sample_dealing sample_retr (lit 10810 4) (lit 10880 4)) as T.
  apply T; first [exact sample_retr_ok | vm_compute; split; reflexivity | vm_compute; congruence].
Defined.

(** ** The nearest level *)

Lemma levels_of_Ok r ls :
  exists l, levels_of r ls = Ok l /\ map fst l = ls /\
    forall level p, In (level, p) l -> get_level_price r level = Ok p.
Proof.
  induction ls as [|level ls (l & E & Hf & Hl)]; simpl; [exists []; done|].
  destruct (fib_get_Some level) as (v & Ev & _). unfold levels_of in *. simpl.
  rewrite (get_level_price_eq r level v Ev). cbn [mbind res_bind]. rewrite E. cbn [mbind res_bind].
  eexists. split; [done|]. simpl. split; [by rewrite Hf|].
  intros level' p [[= <- <-]|Hin]; [by rewrite (get_level_price_eq r level v Ev)|by apply Hl].
Qed.

Lemma nearest_step_eq price best d x :
  FibonacciAnalyzer.nearest_step price (best, d) x =
  if flt (fabs (fsub price (snd x))) d then (Some (fst x), fabs (fsub price (snd x))) else (best, d).
Proof. done. Qed.

(** The fold keeps the first level at the least distance. *)
Lemma nearest_fold price l : forall best d r,
  foldl (FibonacciAnalyzer.nearest_step price) (best, d) l = r ->
  num d -> (forall x, In x l -> num (fabs (fsub price (snd x)))) ->
  num (snd r) /\ fv (snd r) <= fv d /\
  (forall x, In x l -> fv (snd r) <= fv (fabs (fsub price (snd x)))) /\
  (r = (best, d) \/ exists x, In x l /\ r = (Some (fst x), fabs (fsub price (snd x)))).
Proof.
  induction l as [|x l IH]; intros best d r Hfold Nd Hl; cbn [foldl] in Hfold.
  { subst r. split; [done|]. split; [simpl; lia|]. split; [done|by left]. }
  pose proof (Hl x (or_introl eq_refl)) as Nx. rewrite nearest_step_eq, flt_fv in Hfold by done.
  destruct (fv (fabs (fsub price (snd x))) <? fv d) eqn:E; zbool.
  - destruct (IH _ _ _ Hfold Nx) as (N & Hd & Hmin & Hr); [intros; apply Hl; by right|].
    split; [done|]. split; [lia|]. split; [intros y [<-|Hy]; [done|by apply Hmin]|].
    right. destruct Hr as [->|(y & Hy & ->)]; [exists x|exists y]; (split; [simpl; auto|done]).
  - destruct (IH _ _ _ Hfold Nd) as (N & Hd & Hmin & Hr); [intros; apply Hl; by right|].
    split; [done|]. split; [lia|]. split; [intros y [<-|Hy]; [lia|by apply Hmin]|].
    destruct Hr as [->|(y & Hy & ->)]; [by left|right; exists y; split; [simpl; auto|done]].
Qed.

(** The nearest level is nearest: for a finite price
    [get_nearest_fib_level] returns a level, and no level of the table is
    closer to the price (distances rounded as the code computes them). *)
Theorem nearest_level_minimal (r : t) (price : float) :
  retr_ok r -> fv (swing_high r) <= 2 * fv (swing_low r) -> fin price -> 0 <= fv price ->
  exists best pb, FibonacciAnalyzer.get_nearest_fib_level price r = Ok (Some best) /\
    get_level_price r best = Ok pb /\
    forall level p, get_level_price r level = Ok p ->
      fv (fabs (fsub price pb)) <= fv (fabs (fsub price p)).
Proof.
  intros Hr H2 Fp Hp. unfold FibonacciAnalyzer.get_nearest_fib_level, get_all_levels.
  destruct (levels_of_Ok r (map fst FIBONACCI_VALUES)) as (l & -> & Hf & Hl). cbn [mbind res_bind].
  destruct l as [|x0 l0] eqn:El; [discriminate Hf|]. rewrite <- El in *.
  assert (Hd : forall x, In x l -> fin (fabs (fsub price (snd x)))).
  { intros [level p] Hin. apply Hl in Hin. destruct (level_price_range r level Hr H2) as (p' & E & F & Hb).
    assert (p' = p) as -> by congruence. simpl. apply fabs_fin. destruct Hr.
    destruct (Z.le_gt_cases (fv p) (fv price)).
    - apply fsub_fin; done || lia.
    - apply (rounds_fin _ _ _ (fneg p) price (fsub_rounds _ _ Fp F)); auto with etradie; rewrite ?fv_fneg; lia. }
  destruct (nearest_fold price l None finf _ eq_refl) as (N & _ & Hmin & Hr'); [done|intros; by apply fin_num, Hd|].
  destruct Hr' as [E|([best pb] & Hin & E)].
  { exfalso. rewrite E in Hmin. assert (Hx : In x0 l) by (rewrite El; by left).
    specialize (Hmin x0 Hx). pose proof (fin_value _ (Hd x0 Hx)) as B.
    change (2 ^ 53 * unit_pow 971) with (2 ^ 3224) in B. pose proof finf_val_big. simpl fv in Hmin at 1.
    change (fv finf) with finf_val in Hmin. lia. }
  rewrite E in Hmin |- *. exists best, pb. split; [done|]. split; [by apply Hl|].
  intros level p Ep. apply (Hmin (level, p)).
  assert (Hin' : In level (map fst l)) by (rewrite Hf; destruct level; simpl; tauto).
  apply in_map_iff in Hin' as ([level' p'] & Heq & Hin'). simpl in Heq. subst level'.
  pose proof (Hl _ _ Hin'). by assert (p' = p) as -> by congruence.
Qed.

Lemma nearest_level_minimal_witness :
  FibonacciAnalyzer.get_nearest_fib_level (lit 10862 4) sample_retr = Ok (Some LEVEL_382) /\
  exists best pb, FibonacciAnalyzer.get_nearest_fib_level (lit 10862 4) sample_retr = Ok (Some best) /\
    get_level_price sample_retr best = Ok pb.
Proof.
  split; [vm_compute; reflexivity|].
  destruct (nearest_level_minimal sample_retr (lit 10862 4)) as (best & pb & E & Ep & _);
    [exact sample_retr_ok|vm_compute; congruence|vm_compute; split; reflexivity|vm_compute; congruence|].
  exists best, pb. split; [exact E|exact Ep].
Defined.
End FibFacts.

(** ** Dealing ranges from candles *)

Module DealingFacts.
Import DealingRangeAnalyzer.

(** The highest high and the lowest low of a block. *)
Lemma block_extent block :
  block <> [] -> (forall c, In c block -> Candle.wf c) ->
  exists ch cl, In ch block /\ In cl block /\
    fmax_list (map Candle.high block) = Ok (Candle.high ch) /\
    fmin_list (map Candle.low block) = Ok (Candle.low cl) /\
    forall c, In c block -> fv (Candle.low cl) <= fv (Candle.low c) /\ fv (Candle.high c) <= fv (Candle.high ch).
Proof.
  intros Hne Hwf.
  destruct (SessionFacts.fmax_list_nonempty (map Candle.high block)) as [h Eh]; [by destruct block|].
  destruct (SessionFacts.fmin_list_nonempty (map Candle.low block)) as [l El]; [by destruct block|].
  pose proof Eh as Sh. pose proof El as Sl.
  apply fmax_list_spec in Sh as [Hih Hmax].
  2:{ apply List.Forall_forall. intros x Hx. apply in_map_iff in Hx as (c & <- & Hc). by destruct (Hwf c Hc). }
  apply fmin_list_spec in Sl as [Hil Hmin].
  2:{ apply List.Forall_forall. intros x Hx. apply in_map_iff in Hx as (c & <- & Hc). by destruct (Hwf c Hc). }
  apply in_map_iff in Hih as (ch & <- & Hch), Hil as (cl & <- & Hcl).
  exists ch, cl. do 4 (split; [done|]). intros c Hc. split; [by apply Hmin, in_map|by apply Hmax, in_map].
Qed.

Lemma block_In {A} (v : list A) a b (x : A) :
  0 <= a <= b -> b < py_len v ->
  In x (py_slice v a (b + 1)) <-> exists i, a <= i <= b /\ v !! Z.to_nat i = Some x.
Proof.
  intros Ha Hb. rewrite <- (Z2Nat.id a), <- (Z2Nat.id b) by lia.
  rewrite SessionFacts.slice_In by (unfold py_len in *; lia). rewrite !Z2Nat.id by lia. split.
  - intros (i & Hi & Hx). exists (Z.of_nat i). rewrite Nat2Z.id. split; [lia|done].
  - intros (i & Hi & Hx). exists (Z.to_nat i). split; [lia|done].
Qed.

(** The model accepts a proper range. *)
Lemma dealing_create_Ok symbol tf h l t0 t1 :
  3 <= str_len (str_strip symbol) <= 30 -> num h -> num l -> 0 < fv l < fv h -> instant t0 <= instant t1 ->
  DealingRange.create symbol tf h l t0 (Some t1) =
  Ok (DealingRange.mk (normalize_symbol (str_strip symbol)) tf h l t0 (Some t1)).
Proof.
  intros Hs Nh Nl Hlh Ht. unfold DealingRange.create. rewrite SwingFacts.symbol_3_30_intro by done.
  rewrite !field_gt0_intro by (rewrite CandleFacts.flt_fzero by done; apply Z.ltb_lt; lia).
  cbn [mbind res_bind]. unfold DealingRange.model_post_init. cbn.
  rewrite fle_fv, (proj2 (Z.leb_gt _ _)) by (done || lia). unfold dt_ltb.
  by rewrite (proj2 (Z.ltb_ge _ _)) by lia.
Qed.

(** A dealing range is the extent of its candles.  On a well-formed
    sequence of finite candles, with a positive minimum, [create_from_sequence]
    never raises: it returns [None] for indices outside the sequence or when
    the extent is below the minimum, and otherwise the range whose high and low
    are the extremes of the selected candles and whose times are those of the
    first and the last. *)
Theorem dealing_range_exact (self : t) (q : CandleSequence.t) (a b : Z) :
  SessionFacts.seq_ok q -> (forall c, In c (CandleSequence.candles q) -> Candle.finite c) ->
  num (min_range_pips self) -> 0 < fv (min_range_pips self) ->
  let v := CandleSequence.candles q in
  exists r, create_from_sequence self q a b = Ok r /\
    (~ (0 <= a <= b /\ b < py_len v) -> r = None) /\
    (0 <= a <= b -> b < py_len v ->
     exists ca cb high low pips, v !! Z.to_nat a = Some ca /\ v !! Z.to_nat b = Some cb /\
       (forall i c, a <= i <= b -> v !! Z.to_nat i = Some c ->
          fv low <= fv (Candle.low c) /\ fv (Candle.high c) <= fv high) /\
       (exists i c, a <= i <= b /\ v !! Z.to_nat i = Some c /\ high = Candle.high c) /\
       (exists i c, a <= i <= b /\ v !! Z.to_nat i = Some c /\ low = Candle.low c) /\
       calculate_pips low high (CandleSequence.symbol q) = Ok pips /\
       match r with
       | None => fv pips < fv (min_range_pips self)
       | Some d => fv (min_range_pips self) <= fv pips /\ fv low < fv high /\
           DealingRange.high d = high /\ DealingRange.low d = low /\
           DealingRange.start_time d = Candle.timestamp ca /\
           DealingRange.end_time d = Some (Candle.timestamp cb)
       end).
Proof.
  intros (Hwf & Hc & Hs) Hfin Nm Hm v. unfold create_from_sequence. fold v. cbv zeta.
  destruct ((a <? 0) || (py_len v <=? b) || (b <? a)) eqn:Eg.
  { exists None. split; [done|]. split; [done|]. intros Ha Hb. apply orb_true_iff in Eg as [Eg|Eg];
      [apply orb_true_iff in Eg as [Eg|Eg]|]; zbool; lia. }
  apply orb_false_iff in Eg as [Eg Eb]. apply orb_false_iff in Eg as [Ea El]. zbool.
  set (block := py_slice v a (b + 1)).
  destruct (SessionFacts.slice_ends v (Z.to_nat a) (Z.to_nat b)) as (ca & cb & Hca & Hcb & E0 & E1);
    [lia|unfold py_len in *; lia|]. rewrite !Z2Nat.id in E0, E1 by lia. fold block in E0, E1.
  assert (Hin : forall c, In c block <-> exists i, a <= i <= b /\ v !! Z.to_nat i = Some c)
    by (intros c; apply block_In; lia).
  assert (Hv : forall c, In c block -> In c v) by (intros c; apply py_slice_In).
  destruct (block_extent block) as (ch & cl & Hch & Hcl & -> & -> & Hext).
  { intros E. rewrite E in E0. discriminate E0. }
  { intros c Hcb'. by apply Hc, Hv. }
  cbn [mbind res_bind].
  destruct (SwingFacts.candle_price_facts ch) as (Fh & _ & Ph & _ & Gh & _); [by apply Hc, Hv|by apply Hfin, Hv|].
  destruct (SwingFacts.candle_price_facts cl) as (_ & Fl & _ & Pl & _ & Gl); [by apply Hc, Hv|by apply Hfin, Hv|].
  destruct (calculate_pips_facts (Candle.low cl) (Candle.high ch) (CandleSequence.symbol q))
    as (pips & Ep & _ & Np & Hp0 & Hpz); [done|done|lia|lia|].
  assert (Hlh : fv (Candle.low cl) <= fv (Candle.high ch)).
  { destruct (Hext cl Hcl) as [_ H]. destruct (Hc cl (Hv cl Hcl)). lia. }
  rewrite Ep. cbn [mbind res_bind]. rewrite flt_fv by done.
  assert (Hti : instant (Candle.timestamp ca) <= instant (Candle.timestamp cb)).
  { destruct (Z.eq_dec a b) as [->|Hne]; [assert (ca = cb) as -> by congruence; lia|].
    apply Z.lt_le_incl, (sorted_lookup CandleSequence.instant_of v (Z.to_nat a) (Z.to_nat b)); try done; [|lia].
    by apply CandleSequence.wf_sorted. }
  apply Hin in Hch as (ih & Hih & Lih), Hcl as (il & Hil & Lil).
  assert (Hall : forall i c, a <= i <= b -> v !! Z.to_nat i = Some c ->
    fv (Candle.low cl) <= fv (Candle.low c) /\ fv (Candle.high c) <= fv (Candle.high ch)).
  { intros i c Hi Hl. apply Hext, Hin. eauto. }
  destruct (fv pips <? fv (min_range_pips self)) eqn:Em; zbool.
  - exists None. split; [done|]. split; [done|]. intros _ _.
    exists ca, cb, (Candle.high ch), (Candle.low cl), pips. do 3 (split; [done|]).
    split; [by exists ih, ch|]. split; [by exists il, cl|]. done.
  - assert (fv (Candle.low cl) <> fv (Candle.high ch)) by (intros E; apply Hpz in E; lia).
    rewrite E0, E1. cbn [mbind res_bind]. rewrite dealing_create_Ok by (auto with etradie || lia).
    cbn [mbind res_bind]. eexists. split; [done|].
    split; [intros Hn; exfalso; apply Hn; lia|]. intros _ _.
    exists ca, cb, (Candle.high ch), (Candle.low cl), pips. do 3 (split; [done|]).
    split; [by exists ih, ch|]. split; [by exists il, cl|]. split; [done|]. do 2 (split; [lia|]). done.
Qed.

Lemma dealing_range_exact_witness :
  exists r, create_from_sequence (mk (lit 20 1) (lit 20 1)) SessionFacts.sample_hours 1 2 = Ok (Some r) /\
    DealingRange.start_time r = mk_datetime (7 * us_per_hour) (Some 0).
Proof.
  destruct (dealing_range_exact (mk (lit 20 1) (lit 20 1)) SessionFacts.sample_hours 1 2) as ([r|] & E & _).
  - exact SessionFacts.sample_hours_ok.
  - intros c [<-|[<-|[<-|[]]]]; vm_compute; auto.
  - vm_compute. split; reflexivity.
  - vm_compute. reflexivity.
  - exists r. split; [exact E|]. vm_compute in E. injection E as <-. reflexivity.
  - vm_compute in E. discriminate E.
Defined.
End DealingFacts.
