(* ===== verification/Liquidity.v ===== *)
(** * Liquidity: [engine/ta/models/liquidity_event.py],
    [engine/ta/common/analyzers/liquidity.py] and [sweeps.py]

    The models of liquidity events, the pools and equal levels found from
    swings, and the detection of sweeps. *)

From Stdlib Require Import ZArith Lia Bool String Sorting.Sorted Sorting.Permutation.
From stdpp Require Import base list strings gmap.
From S2P Require Import Prelude PyFloat FloatRound PyText Constants PriceMath Candles Swings.

#[local] Open Scope string_scope.
#[local] Open Scope Z_scope.
#[local] Open Scope list_scope.

(** ** Models *)

Definition opt_gt0 (x : option float) : res (option float) :=
  match x with Some y => z ← field_gt0 y; Ok (Some z) | None => Ok None end.

Module LiquidityPool.
Record t := mk {
  symbol : string; timeframe : Timeframe; liquidity_type : LiquidityType; price_level : float;
  timestamp : datetime; strength : Z; touch_count : Z }.

Definition create (symbol : string) (tf : Timeframe) (lt : LiquidityType) (price_level : float)
    (ts : datetime) (strength touch_count : Z) : res t :=
  s ← symbol_3_30 symbol;
  p ← field_gt0 price_level;
  st ← int_field 1 (Some 10) strength;
  tc ← int_field 1 None touch_count;
  Ok (mk s tf lt p ts st tc).

Definition is_buy_side (p : t) : bool := bool_decide (liquidity_type p ∈ [BSL; EQUAL_HIGHS]).
Definition is_sell_side (p : t) : bool := bool_decide (liquidity_type p ∈ [SSL; EQUAL_LOWS]).
End LiquidityPool.

Module LiquiditySweep.
Record t := mk {
  symbol : string; timeframe : Timeframe; timestamp : datetime; liquidity_type : LiquidityType;
  swept_level : float; swept_level_timestamp : datetime; sweep_high : float; sweep_low : float;
  sweep_pips : float; closed_back_inside : bool; close_price : option float; candle_index : Z;
  is_major_sweep : bool }.

Definition create (symbol : string) (tf : Timeframe) (ts : datetime) (lt : LiquidityType)
    (swept_level : float) (swept_ts : datetime) (sweep_high sweep_low sweep_pips : float)
    (closed_back_inside : bool) (close_price : option float) (candle_index : Z) (is_major : bool) : res t :=
  s ← symbol_3_30 symbol;
  lv ← field_gt0 swept_level;
  h ← field_gt0 sweep_high;
  l ← field_gt0 sweep_low;
  p ← field_ge0 sweep_pips;
  c ← opt_gt0 close_price;
  i ← int_field 0 None candle_index;
  Ok (mk s tf ts lt lv swept_ts h l p closed_back_inside c i is_major).

(** [model_copy(update={"is_major_sweep": b})]: no validation. *)
Definition with_major (s : t) (b : bool) : t :=
  mk (symbol s) (timeframe s) (timestamp s) (liquidity_type s) (swept_level s) (swept_level_timestamp s)
     (sweep_high s) (sweep_low s) (sweep_pips s) (closed_back_inside s) (close_price s) (candle_index s) b.

Definition is_bullish_sweep (s : t) : bool :=
  bool_decide (liquidity_type s ∈ [BSL; EQUAL_HIGHS; PDH_SWEEP]).
Definition is_bearish_sweep (s : t) : bool :=
  bool_decide (liquidity_type s ∈ [SSL; EQUAL_LOWS; PDL_SWEEP]).
Definition is_valid_turtle_soup (s : t) : bool := closed_back_inside s && fle (lit 50 1) (sweep_pips s).
End LiquiditySweep.

Module LiquidityGrab.
Record t := mk {
  symbol : string; timeframe : Timeframe; timestamp : datetime; direction : Direction;
  grabbed_level : float; grabbed_level_timestamp : datetime; grab_price : float;
  reversal_price : option float; candle_index : Z; confirmed : bool }.

Definition create (symbol : string) (tf : Timeframe) (ts : datetime) (direction : Direction)
    (grabbed_level : float) (grabbed_ts : datetime) (grab_price : float) (reversal_price : option float)
    (candle_index : Z) (confirmed : bool) : res t :=
  s ← symbol_3_30 symbol;
  g ← field_gt0 grabbed_level;
  p ← field_gt0 grab_price;
  r ← opt_gt0 reversal_price;
  i ← int_field 0 None candle_index;
  Ok (mk s tf ts direction g grabbed_ts p r i confirmed).

Definition is_bullish (g : t) : bool := bool_decide (direction g = BULLISH).
Definition is_bearish (g : t) : bool := bool_decide (direction g = BEARISH).
End LiquidityGrab.

Module InducementEvent.
Record t := mk {
  symbol : string; timeframe : Timeframe; timestamp : datetime; inducement_level : float;
  inducement_timestamp : datetime; direction : Direction; cleared : bool;
  cleared_timestamp : option datetime; candle_index : Z; is_internal : bool }.

Definition create (symbol : string) (tf : Timeframe) (ts : datetime) (inducement_level : float)
    (inducement_ts : datetime) (direction : Direction) (cleared : bool) (cleared_ts : option datetime)
    (candle_index : Z) (is_internal : bool) : res t :=
  s ← symbol_3_30 symbol;
  l ← field_gt0 inducement_level;
  i ← int_field 0 None candle_index;
  Ok (mk s tf ts l inducement_ts direction cleared cleared_ts i is_internal).

Definition is_bullish (e : t) : bool := bool_decide (direction e = BULLISH).
Definition is_bearish (e : t) : bool := bool_decide (direction e = BEARISH).
End InducementEvent.

Module CompressionEvent.
Record t := mk {
  symbol : string; timeframe : Timeframe; start_timestamp : datetime; end_timestamp : option datetime;
  high : float; low : float; direction : Direction; candle_count : Z; start_index : Z;
  end_index : option Z; broken : bool; breakout_direction : option Direction }.

Definition create (symbol : string) (tf : Timeframe) (start_ts : datetime) (end_ts : option datetime)
    (high low : float) (direction : Direction) (candle_count start_index : Z) (end_index : option Z)
    (broken : bool) (breakout_direction : option Direction) : res t :=
  s ← symbol_3_30 symbol;
  h ← field_gt0 high;
  l ← field_gt0 low;
  n ← int_field 2 None candle_count;
  i ← int_field 0 None start_index;
  _ ← (match end_index with Some e => _ ← int_field 0 None e; Ok tt | None => Ok tt end);
  Ok (mk s tf start_ts end_ts h l direction n i end_index broken breakout_direction).

Definition range_size (e : t) : float := fsub (high e) (low e).
Definition is_bullish_compression (e : t) : bool := bool_decide (direction e = BULLISH).
Definition is_bearish_compression (e : t) : bool := bool_decide (direction e = BEARISH).
End CompressionEvent.

Module EqualHighsLows.
Record t := mk {
  symbol : string; timeframe : Timeframe; liquidity_type : LiquidityType; price_level : float;
  timestamps : list datetime; tolerance_pips : float; candle_indices : list Z; swept : bool;
  swept_timestamp : option datetime }.

Definition create (symbol : string) (tf : Timeframe) (lt : LiquidityType) (price_level : float)
    (timestamps : list datetime) (tolerance_pips : float) (candle_indices : list Z) (swept : bool)
    (swept_ts : option datetime) : res t :=
  s ← symbol_3_30 symbol;
  _ ← require (bool_decide (lt ∈ [EQUAL_HIGHS; EQUAL_LOWS]));
  p ← field_gt0 price_level;
  _ ← require (2 <=? py_len timestamps);
  tol ← field_ge0 tolerance_pips;
  _ ← require (2 <=? py_len candle_indices);
  Ok (mk s tf lt p timestamps tol candle_indices swept swept_ts).

Definition touch_count (e : t) : Z := py_len (timestamps e).
Definition is_equal_highs (e : t) : bool := bool_decide (liquidity_type e = EQUAL_HIGHS).
Definition is_equal_lows (e : t) : bool := bool_decide (liquidity_type e = EQUAL_LOWS).

Definition to_liquidity_pool (e : t) : res LiquidityPool.t :=
  ts ← py_index (timestamps e) 0;
  LiquidityPool.create (symbol e) (timeframe e) (liquidity_type e) (price_level e) ts
    (Z.min (touch_count e) 10) (touch_count e).
End EqualHighsLows.

(** ** Liquidity analyzer *)

Module LiquidityAnalyzer.

Record t := mk { equal_tolerance_pips : float; min_touches : Z; clustering_distance_pips : float }.

Definition default : t := mk (lit 20 1) 2 (lit 50 1).

Definition detect_bsl (swing_highs : list SwingHigh.t) : res (list LiquidityPool.t) :=
  res_map (fun s => LiquidityPool.create (SwingHigh.symbol s) (SwingHigh.timeframe s) BSL
             (SwingHigh.price s) (SwingHigh.timestamp s) (SwingHigh.strength s) 1) swing_highs.

Definition detect_ssl (swing_lows : list SwingLow.t) : res (list LiquidityPool.t) :=
  res_map (fun s => LiquidityPool.create (SwingLow.symbol s) (SwingLow.timeframe s) SSL
             (SwingLow.price s) (SwingLow.timestamp s) (SwingLow.strength s) 1) swing_lows.

(** The data of a swing both detections use. *)
Record swing := mk_swing {
  sw_symbol : string; sw_timeframe : Timeframe; sw_price : float; sw_timestamp : datetime; sw_index : Z }.

Definition of_high (s : SwingHigh.t) : swing :=
  mk_swing (SwingHigh.symbol s) (SwingHigh.timeframe s) (SwingHigh.price s) (SwingHigh.timestamp s)
    (SwingHigh.index s).
Definition of_low (s : SwingLow.t) : swing :=
  mk_swing (SwingLow.symbol s) (SwingLow.timeframe s) (SwingLow.price s) (SwingLow.timestamp s)
    (SwingLow.index s).

(** The inner loop: the later unprocessed swings within tolerance of the
    leader, appended to the group and marked. *)
Definition join_step (self : t) (swings : list swing) (leader : swing)
    (acc : list swing * list Z) (j : Z) : res (list swing * list Z) :=
  let '(group, processed) := acc in
  if bool_decide (j ∈ processed) then Ok (group, processed)
  else
    other ← py_index swings j;
    b ← is_within_tolerance (sw_price leader) (sw_price other) (equal_tolerance_pips self) (sw_symbol leader);
    Ok (if b : bool then (group ++ [other], j :: processed) else (group, processed)).

(** One iteration of the outer loop. *)
Definition group_step (self : t) (lt : LiquidityType) (swings : list swing)
    (acc : list EqualHighsLows.t * list Z) (i : Z) : res (list EqualHighsLows.t * list Z) :=
  let '(groups, processed) := acc in
  if bool_decide (i ∈ processed) then Ok (groups, processed)
  else
    leader ← py_index swings i;
    '(group, processed) ← for_each (join_step self swings leader) (py_range (i + 1) (py_len swings))
                            ([leader], processed);
    if min_touches self <=? py_len group then
      e ← EqualHighsLows.create (sw_symbol leader) (sw_timeframe leader) lt (sw_price leader)
            (map sw_timestamp group) (equal_tolerance_pips self) (map sw_index group) false None;
      Ok (groups ++ [e], i :: processed)
    else Ok (groups, processed).

Definition detect_equal (self : t) (lt : LiquidityType) (swings : list swing) : res (list EqualHighsLows.t) :=
  fst <$> for_each (group_step self lt swings) (py_range 0 (py_len swings)) ([], []).

Definition detect_equal_highs (self : t) (swing_highs : list SwingHigh.t) : res (list EqualHighsLows.t) :=
  detect_equal self EQUAL_HIGHS (map of_high swing_highs).
Definition detect_equal_lows (self : t) (swing_lows : list SwingLow.t) : res (list EqualHighsLows.t) :=
  detect_equal self EQUAL_LOWS (map of_low swing_lows).

(** One iteration of the clustering loop: the finished clusters and the current
    one. *)
Definition cluster_step (self : t) (sorted_pools : list LiquidityPool.t)
    (acc : list (list LiquidityPool.t) * list LiquidityPool.t) (i : Z)
    : res (list (list LiquidityPool.t) * list LiquidityPool.t) :=
  let '(clusters, current_cluster) := acc in
  current_pool ← py_index sorted_pools i;
  previous_pool ← py_index sorted_pools (i - 1);
  b ← is_within_tolerance (LiquidityPool.price_level current_pool) (LiquidityPool.price_level previous_pool)
        (clustering_distance_pips self) (LiquidityPool.symbol current_pool);
  Ok (if b : bool then (clusters, current_cluster ++ [current_pool])
      else (clusters ++ [current_cluster], [current_pool])).

Definition cluster_liquidity_pools (self : t) (pools : list LiquidityPool.t)
    : res (list (list LiquidityPool.t)) :=
  match pools with
  | [] => Ok []
  | _ =>
      let sorted_pools :=
        py_sorted (fun a b => flt (LiquidityPool.price_level a) (LiquidityPool.price_level b)) pools in
      first ← py_index sorted_pools 0;
      '(clusters, current_cluster) ←
        for_each (cluster_step self sorted_pools) (py_range 1 (py_len sorted_pools)) ([], [first]);
      Ok (match current_cluster with [] => clusters | _ => clusters ++ [current_cluster] end)
  end.

Definition nearer (current_price : float) (a b : LiquidityPool.t) : bool :=
  flt (fabs (fsub (LiquidityPool.price_level a) current_price))
      (fabs (fsub (LiquidityPool.price_level b) current_price)).

Definition get_nearest_liquidity (current_price : float) (pools : list LiquidityPool.t) (above : bool)
    : option LiquidityPool.t :=
  py_max_opt (nearer current_price)
    (if above
     then List.filter (fun p => flt current_price (LiquidityPool.price_level p)) pools
     else List.filter (fun p => flt (LiquidityPool.price_level p) current_price) pools).

Definition calculate_liquidity_draw (current_price : float) (target_pool : LiquidityPool.t) : res float :=
  calculate_pips current_price (LiquidityPool.price_level target_pool) (LiquidityPool.symbol target_pool).

End LiquidityAnalyzer.

(** ** Sweep analyzer *)

Module SweepAnalyzer.

Record t := mk { min_sweep_pips : float; turtle_soup_min_pips : float }.

Definition default : t := mk (lit 20 1) (lit 50 1).

(** The four single-candle detections differ in the side, in the type they
    record and in the time they give the level. *)
Definition detect_level_sweep (self : t) (is_high : bool) (lt : LiquidityType) (candle : Candle.t)
    (level : float) (level_ts : datetime) (candle_index : Z) : res (option LiquiditySweep.t) :=
  if (if is_high then fle (Candle.high candle) level else fle level (Candle.low candle)) then Ok None
  else
    sweep_pips ← (if is_high then calculate_pips level (Candle.high candle) (Candle.symbol candle)
                  else calculate_pips (Candle.low candle) level (Candle.symbol candle));
    if flt sweep_pips (min_sweep_pips self) then Ok None
    else
      let closed_back_inside :=
        if is_high then flt (Candle.close candle) level else flt level (Candle.close candle) in
      s ← LiquiditySweep.create (Candle.symbol candle) (Candle.timeframe candle) (Candle.timestamp candle)
            lt level level_ts (Candle.high candle) (Candle.low candle) sweep_pips closed_back_inside
            (Some (Candle.close candle)) candle_index false;
      Ok (Some s).

Definition detect_bsl_sweep (self : t) (candle : Candle.t) (swing_high : SwingHigh.t) (candle_index : Z) :=
  detect_level_sweep self true BSL candle (SwingHigh.price swing_high) (SwingHigh.timestamp swing_high) candle_index.
Definition detect_ssl_sweep (self : t) (candle : Candle.t) (swing_low : SwingLow.t) (candle_index : Z) :=
  detect_level_sweep self false SSL candle (SwingLow.price swing_low) (SwingLow.timestamp swing_low) candle_index.
Definition detect_equal_highs_sweep (self : t) (candle : Candle.t) (level : float) (candle_index : Z) :=
  detect_level_sweep self true EQUAL_HIGHS candle level (Candle.timestamp candle) candle_index.
Definition detect_equal_lows_sweep (self : t) (candle : Candle.t) (level : float) (candle_index : Z) :=
  detect_level_sweep self false EQUAL_LOWS candle level (Candle.timestamp candle) candle_index.

(** [level in invalidated]: a set of floats. *)
Definition mem_level (level : float) (s : list float) : bool := existsb (feq level) s.

(** The high and the low of each calendar day, by day. *)
Definition day_step (acc : gmap Z float * gmap Z float) (c : Candle.t) : res (gmap Z float * gmap Z float) :=
  let '(daily_highs, daily_lows) := acc in
  let date := dt_day (Candle.timestamp c) in
  match daily_highs !! date with
  | None => Ok (<[date := Candle.high c]> daily_highs, <[date := Candle.low c]> daily_lows)
  | Some h =>
      match daily_lows !! date with
      | None => Raise KeyError
      | Some l => Ok (<[date := fmax h (Candle.high c)]> daily_highs, <[date := fmin l (Candle.low c)]> daily_lows)
      end
  end.

(** [max(d for d in daily_highs if d < date)], when there is one. *)
Definition previous_day (daily_highs : gmap Z float) (date : Z) : option Z :=
  py_max_opt (fun a b => b <? a) (List.filter (fun d => d <? date) (map fst (map_to_list daily_highs))).

(** The sweeps recorded so far, and the invalidated levels of one side. *)
Definition side_state : Type := list LiquiditySweep.t * list float.

(** [candle.high > level], or [candle.low < level]. *)
Definition beyond (is_high : bool) (c : Candle.t) (level : float) : bool :=
  if is_high then flt level (Candle.high c) else flt (Candle.low c) level.
(** [candle.close <= level], or [candle.close >= level]. *)
Definition closes_inside (is_high : bool) (c : Candle.t) (level : float) : bool :=
  if is_high then fle (Candle.close c) level else fle level (Candle.close c).

(** Check PDH / Check PDL. *)
Definition previous_day_step (self : t) (is_high : bool) (c : Candle.t) (i : Z) (level : float)
    (st : side_state) : res side_state :=
  let '(sweeps, invalidated) := st in
  if negb (mem_level level invalidated) && beyond is_high c level then
    if closes_inside is_high c level then
      sweep_pips ← (if is_high then calculate_pips level (Candle.high c) (Candle.symbol c)
                    else calculate_pips (Candle.low c) level (Candle.symbol c));
      if fle (min_sweep_pips self) sweep_pips then
        s ← LiquiditySweep.create (Candle.symbol c) (Candle.timeframe c) (Candle.timestamp c)
              (if is_high then PDH_SWEEP else PDL_SWEEP) level (Candle.timestamp c)
              (Candle.high c) (Candle.low c) sweep_pips true (Some (Candle.close c)) i true;
        Ok (sweeps ++ [s], level :: invalidated)
      else Ok (sweeps, invalidated)
    else Ok (sweeps, level :: invalidated)
  else Ok (sweeps, invalidated).

(** One swing of the structure loops: its price, time, index and strength. *)
Record level := mk_level { lv_price : float; lv_timestamp : datetime; lv_index : Z; lv_strength : Z }.

Definition high_level (s : SwingHigh.t) : level :=
  mk_level (SwingHigh.price s) (SwingHigh.timestamp s) (SwingHigh.index s) (SwingHigh.strength s).
Definition low_level (s : SwingLow.t) : level :=
  mk_level (SwingLow.price s) (SwingLow.timestamp s) (SwingLow.index s) (SwingLow.strength s).

Definition swing_step (self : t) (is_high : bool) (c : Candle.t) (i : Z) (st : side_state) (lv : level)
    : res side_state :=
  let '(sweeps, invalidated) := st in
  if (i <=? lv_index lv) || mem_level (lv_price lv) invalidated then Ok (sweeps, invalidated)
  else if beyond is_high c (lv_price lv) then
    if closes_inside is_high c (lv_price lv) then
      sweep ← detect_level_sweep self is_high (if is_high then BSL else SSL) c (lv_price lv)
                (lv_timestamp lv) i;
      Ok (match sweep with
          | Some s => (sweeps ++ [LiquiditySweep.with_major s (5 <=? lv_strength lv)], lv_price lv :: invalidated)
          | None => (sweeps, invalidated)
          end)
    else Ok (sweeps, lv_price lv :: invalidated)
  else Ok (sweeps, invalidated).

(** One candle of the main loop: the sweeps and the invalidated highs and
    lows. *)
Definition candle_step (self : t) (daily_highs daily_lows : gmap Z float) (highs lows : list level)
    (acc : list LiquiditySweep.t * list float * list float) (x : Z * Candle.t)
    : res (list LiquiditySweep.t * list float * list float) :=
  let '(sweeps, inv_highs, inv_lows) := acc in
  let '(i, c) := x in
  '(sweeps, inv_highs, inv_lows) ←
    match previous_day daily_highs (dt_day (Candle.timestamp c)) with
    | None => Ok (sweeps, inv_highs, inv_lows)
    | Some prev_date =>
        match daily_highs !! prev_date, daily_lows !! prev_date with
        | Some pdh, Some pdl =>
            '(sweeps, inv_highs) ← previous_day_step self true c i pdh (sweeps, inv_highs);
            '(sweeps, inv_lows) ← previous_day_step self false c i pdl (sweeps, inv_lows);
            Ok (sweeps, inv_highs, inv_lows)
        | _, _ => Raise KeyError
        end
    end;
  '(sweeps, inv_highs) ← for_each (swing_step self true c i) highs (sweeps, inv_highs);
  '(sweeps, inv_lows) ← for_each (swing_step self false c i) lows (sweeps, inv_lows);
  Ok (sweeps, inv_highs, inv_lows).

Definition detect_sweeps_in_sequence (self : t) (sequence : CandleSequence.t)
    (swing_highs : list SwingHigh.t) (swing_lows : list SwingLow.t) : res (list LiquiditySweep.t) :=
  let candles := CandleSequence.candles sequence in
  '(daily_highs, daily_lows) ← for_each day_step candles (∅, ∅);
  '(sweeps, _, _) ← for_each (candle_step self daily_highs daily_lows (map high_level swing_highs)
                       (map low_level swing_lows)) (py_enumerate candles) ([], [], []);
  Ok sweeps.

Definition is_turtle_soup (self : t) (s : LiquiditySweep.t) : bool :=
  LiquiditySweep.closed_back_inside s && fle (turtle_soup_min_pips self) (LiquiditySweep.sweep_pips s).

Definition get_strongest_sweep : list LiquiditySweep.t -> option LiquiditySweep.t :=
  py_max_opt (fun a b => flt (LiquiditySweep.sweep_pips b) (LiquiditySweep.sweep_pips a)).

(** [sorted(..., reverse=True)] keeps the order of equal items. *)
Definition get_recent_sweeps (sweeps : list LiquiditySweep.t) (lookback : Z) : list LiquiditySweep.t :=
  py_slice (py_sorted (fun a b => dt_ltb (LiquiditySweep.timestamp b) (LiquiditySweep.timestamp a)) sweeps)
    0 lookback.

End SweepAnalyzer.

(** ** Clusters *)

Module ClusterFacts.
Import LiquidityAnalyzer.

(** Appending to a locally sorted list. *)
Lemma Sorted_snoc {A} (R : A -> A -> Prop) l x :
  Sorted R l -> (forall y, last l = Some y -> R y x) -> Sorted R (l ++ [x]).
Proof.
  induction l as [|a l IH]; intros Hs Hl; simpl; [repeat constructor|].
  apply Sorted_inv in Hs as [Hs Hh]. constructor.
  - apply IH; [done|]. intros y Hy. apply Hl. destruct l; [done|]. by rewrite last_cons_cons.
  - destruct l as [|b l]; simpl; constructor; [by apply Hl|]. by inversion Hh.
Qed.

Section Cluster.
Context (self : t).
Hypotheses (Htol : num (clustering_distance_pips self)) (Htol0 : 0 <= fv (clustering_distance_pips self)).

Definition pool_ok (p : LiquidityPool.t) : Prop :=
  fin (LiquidityPool.price_level p) /\ 0 <= fv (LiquidityPool.price_level p).

(** The code's test on two neighbours of the sorted list. *)
Definition near (a b : LiquidityPool.t) : bool :=
  match is_within_tolerance (LiquidityPool.price_level b) (LiquidityPool.price_level a)
          (clustering_distance_pips self) (LiquidityPool.symbol b) with
  | Ok x => x | Raise _ => false end.

(** The last pool of a cluster and the first of the next are not near. *)
Definition apart (c d : list LiquidityPool.t) : Prop :=
  exists a b, last c = Some a /\ head d = Some b /\ near a b = false.

Lemma near_eq a b : pool_ok a -> pool_ok b ->
  is_within_tolerance (LiquidityPool.price_level b) (LiquidityPool.price_level a)
    (clustering_distance_pips self) (LiquidityPool.symbol b) = Ok (near a b).
Proof.
  intros [Fa Ha] [Fb Hb]. unfold near.
  destruct (is_within_tolerance_Ok (LiquidityPool.price_level b) (LiquidityPool.price_level a)
    (clustering_distance_pips self) (LiquidityPool.symbol b)) as (p & _ & ->); [done..| |done].
  rewrite flt_fv by auto with etradie. by apply Z.ltb_ge.
Qed.

Record clustered (done : list LiquidityPool.t) (acc : list (list LiquidityPool.t) * list LiquidityPool.t) : Prop := {
  cl_concat : concat acc.1 ++ acc.2 = done;
  cl_nonempty : acc.2 <> [] /\ Forall (fun c => c <> []) acc.1;
  cl_near : Forall (Sorted (fun a b => near a b = true)) acc.1 /\ Sorted (fun a b => near a b = true) acc.2;
  cl_apart : Sorted apart (acc.1 ++ [acc.2]) }.

Lemma cluster_step_ok l i acc :
  Forall pool_ok l -> 1 <= i < py_len l -> clustered (take (Z.to_nat i) l) acc ->
  exists acc', cluster_step self l acc i = Ok acc' /\ clustered (take (Z.to_nat (i + 1)) l) acc'.
Proof.
  intros Hok Hi H. destruct acc as [clusters cur]. destruct H as [Hc [Hne Hfe] [Hn Hcur] Ha]. simpl in *.
  destruct (py_index_in_range l i) as (x & -> & Ex); [lia|].
  destruct (py_index_in_range l (i - 1)) as (y & -> & Ey); [lia|]. cbn [mbind res_bind].
  rewrite List.Forall_forall in Hok.
  rewrite near_eq by (apply Hok, list_elem_of_In; by eapply list_elem_of_lookup_2). cbn [mbind res_bind].
  assert (Hlast : last cur = Some y).
  { destruct cur as [|z cur _] using rev_ind; [done|]. rewrite last_snoc. f_equal.
    assert (El : (concat clusters ++ cur ++ [z]) !! Z.to_nat (i - 1) = Some z).
    { assert (Hlen : length (concat clusters ++ cur ++ [z]) = Z.to_nat i)
        by (rewrite Hc; apply length_take_le; unfold py_len in Hi; lia).
      rewrite app_assoc in Hlen |- *. rewrite length_app in Hlen. simpl in Hlen.
      rewrite lookup_app_r by lia. by replace (Z.to_nat (i - 1) - _)%nat with 0%nat by lia. }
    rewrite Hc, lookup_take_lt in El by lia. congruence. }
  assert (Htake : take (Z.to_nat (i + 1)) l = take (Z.to_nat i) l ++ [x]).
  { replace (Z.to_nat (i + 1)) with (S (Z.to_nat i)) by lia. by apply take_S_r. }
  rewrite Htake. destruct (near y x) eqn:E; eexists; (split; [done|]).
  - constructor; simpl.
    + by rewrite app_assoc, Hc.
    + split; [by destruct cur|done].
    + split; [done|]. apply Sorted_snoc; [done|]. intros z Hz. congruence.
    + destruct clusters as [|c cs _] using rev_ind; [simpl; repeat constructor|].
      rewrite <- app_assoc in Ha |- *. simpl in Ha |- *.
      revert Ha. clear. induction cs as [|d cs IH]; simpl; intros Ha.
      * apply Sorted_inv in Ha as [_ Hh]. inversion Hh as [|? ? (a & b & Hl & Hb & Hab)]; subst.
        repeat constructor. exists a, b. split; [done|]. split; [|done]. destruct cur; [done|]. done.
      * apply Sorted_inv in Ha as [Ha Hh]. constructor; [by apply IH|].
        destruct cs; simpl in *; inversion Hh; by constructor.
  - constructor; simpl.
    + rewrite concat_app. simpl. by rewrite app_nil_r, Hc.
    + split; [done|]. apply Forall_app. auto.
    + split; [apply Forall_app; auto|repeat constructor].
    + apply Sorted_snoc; [done|]. intros c Hcl. rewrite last_snoc in Hcl. injection Hcl as <-.
      by exists y, x.
Qed.

Lemma clusters_exact pools :
  pools <> [] -> Forall pool_ok pools ->
  exists cs, cluster_liquidity_pools self pools = Ok cs /\
    concat cs = py_sorted (fun a b => flt (LiquidityPool.price_level a) (LiquidityPool.price_level b)) pools /\
    Forall (fun c => c <> []) cs /\ Forall (Sorted (fun a b => near a b = true)) cs /\ Sorted apart cs.
Proof.
  intros Hne Hok. unfold cluster_liquidity_pools. destruct pools as [|p0 ps] eqn:Ep; [done|]. rewrite <- Ep in *.
  set (l := py_sorted _ pools). cbv zeta.
  assert (Hlok : Forall pool_ok l).
  { rewrite List.Forall_forall in Hok |- *. intros x Hx. unfold l in Hx. apply py_sorted_In in Hx. by apply Hok. }
  assert (Hlen : py_len l = py_len pools) by (unfold py_len, l; by rewrite py_sorted_length).
  assert (Hpos : 1 <= py_len l) by (rewrite Hlen, Ep, py_len_cons; pose proof (py_len_nonneg ps); lia).
  destruct (py_index_in_range l 0) as (x & -> & Ex); [lia|]. cbn [mbind res_bind].
  destruct (for_each_range (cluster_step self l) (fun i acc => clustered (take (Z.to_nat i) l) acc)
    1 (py_len l) ([], [x])) as ([clusters cur] & -> & Hcl).
  - done.
  - assert (Hx1 : forall k : list LiquidityPool.t, k !! Z.to_nat 0 = Some x -> [x] = take (Z.to_nat 1) k)
      by (intros [|y k] E; [discriminate E|injection E as ->; reflexivity]).
    constructor; cbn [fst snd concat app]; [by apply Hx1|done| |]; repeat constructor.
  - intros i acc Hi Hacc. by apply cluster_step_ok.
  - cbn [mbind res_bind]. unfold py_len in Hcl. rewrite Nat2Z.id, take_ge in Hcl by done.
    destruct Hcl as [Hc [Hne' Hfe] [Hn Hcur] Ha]. simpl in *.
    exists (clusters ++ [cur]). split; [by destruct cur|]. split.
    + by rewrite concat_app; simpl; rewrite app_nil_r.
    + split; [apply Forall_app; auto|]. split; [apply Forall_app; auto|done].
Qed.
End Cluster.

(** Clustering partitions the pools by distance.  For pools at finite
    prices the clusters, in order, are a rearrangement of the pools sorted by
    price; none is empty, neighbours inside a cluster are within the clustering
    distance, and the last pool of a cluster is farther than that from the
    first of the next. *)
Theorem cluster_pools_exact (self : t) (pools : list LiquidityPool.t) :
  num (clustering_distance_pips self) -> 0 <= fv (clustering_distance_pips self) ->
  pools <> [] -> Forall pool_ok pools ->
  exists cs, cluster_liquidity_pools self pools = Ok cs /\
    Permutation (concat cs) pools /\
    StronglySorted (fun a b => fv (LiquidityPool.price_level a) <= fv (LiquidityPool.price_level b)) (concat cs) /\
    Forall (fun c => c <> []) cs /\
    Forall (Sorted (fun a b => near self a b = true)) cs /\ Sorted (apart self) cs.
Proof.
  intros Ht Ht0 Hne Hok. destruct (clusters_exact self Ht Ht0 pools Hne Hok) as (cs & E & Hc & H1 & H2 & H3).
  exists cs. split; [done|]. rewrite Hc. split; [apply py_sorted_perm|]. split; [|done].
  apply (py_sorted_sorted _ (fun p => fv (LiquidityPool.price_level p))).
  intros x y Hx Hy. rewrite List.Forall_forall in Hok. destruct (Hok x Hx), (Hok y Hy).
  apply flt_fv; by apply fin_num.
Qed.

Definition sample_pool (price : Z) : LiquidityPool.t :=
  LiquidityPool.mk "EURUSD" H1 BSL (lit price 4) (mk_datetime 0 (Some 0)) 5 1.

Lemma cluster_pools_exact_witness :
  exists cs, cluster_liquidity_pools default [sample_pool 10900; sample_pool 10850; sample_pool 10852] = Ok cs /\
    cs = [[sample_pool 10850; sample_pool 10852]; [sample_pool 10900]] /\ Sorted (apart default) cs.
Proof.
  destruct (cluster_pools_exact default [sample_pool 10900; sample_pool 10850; sample_pool 10852])
    as (cs & E & _ & _ & _ & _ & H).
  - vm_compute. split; reflexivity.
  - vm_compute. congruence.
  - congruence.
  - repeat (apply Forall_cons_2; [vm_compute; repeat split; congruence|]). apply Forall_nil_2.
  - exists cs. split; [exact E|]. split; [|exact H]. vm_compute in E. injection E as <-. reflexivity.
Defined.
End ClusterFacts.

(** ** Sweeps *)

Module SweepFacts.
Import SweepAnalyzer.

Section Sweeps.
Context (self : t) (v : list Candle.t) (highs lows : list level).
Hypotheses (Hmin : num (min_sweep_pips self))
  (Hv : forall c, In c v -> Candle.wf c /\ Candle.finite c /\ 3 <= str_len (str_strip (Candle.symbol c)) <= 30).

Definition level_ok (x : float) : Prop := fin x /\ 0 < fv x.

(** The calendar day of a candle. *)
Definition day_of (c : Candle.t) : Z := dt_day (Candle.timestamp c).

(** The highest high, or the lowest low, of a day of the candles [cs]. *)
Definition day_extreme (cs : list Candle.t) (is_high : bool) (d : Z) (x : float) : Prop :=
  (exists k, In k cs /\ day_of k = d /\ fv x = fv (if is_high then Candle.high k else Candle.low k)) /\
  forall k, In k cs -> day_of k = d -> if is_high then fv (Candle.high k) <= fv x else fv x <= fv (Candle.low k).

(** The last day before [d] that has candles. *)
Definition day_before (cs : list Candle.t) (d p : Z) : Prop :=
  p < d /\ (exists k, In k cs /\ day_of k = p) /\ forall k, In k cs -> day_of k < d -> day_of k <= p.

Definition side_levels (is_high : bool) : list level := if is_high then highs else lows.

(** Where a swept level comes from: a swing that formed before the sweeping candle
    and that no candle in between closed beyond, major from strength 5 on; or the
    extreme of the trading day before the candle's, which is always major. *)
Definition origin (is_high : bool) (c : Candle.t) (s : LiquiditySweep.t) : Prop :=
  (LiquiditySweep.liquidity_type s = (if is_high then BSL else SSL) /\
   exists lv, In lv (side_levels is_high) /\ lv_index lv < LiquiditySweep.candle_index s /\
     LiquiditySweep.swept_level s = lv_price lv /\ LiquiditySweep.swept_level_timestamp s = lv_timestamp lv /\
     LiquiditySweep.is_major_sweep s = (5 <=? lv_strength lv) /\
     forall k c', 0 <= k -> lv_index lv < k < LiquiditySweep.candle_index s -> v !! Z.to_nat k = Some c' ->
       closes_inside is_high c' (lv_price lv) = true) \/
  (LiquiditySweep.liquidity_type s = (if is_high then PDH_SWEEP else PDL_SWEEP) /\
   LiquiditySweep.is_major_sweep s = true /\
   exists p, day_before v (day_of c) p /\ day_extreme v is_high p (LiquiditySweep.swept_level s)).

(** A recorded sweep is one: its level was there before, and its candle went beyond
    the level by at least the minimum distance and closed back. *)
Definition sweep_ok (s : LiquiditySweep.t) : Prop :=
  level_ok (LiquiditySweep.swept_level s) /\
  fv (min_sweep_pips self) <= fv (LiquiditySweep.sweep_pips s) /\
  exists c, v !! Z.to_nat (LiquiditySweep.candle_index s) = Some c /\ 0 <= LiquiditySweep.candle_index s /\
    LiquiditySweep.timestamp s = Candle.timestamp c /\
    LiquiditySweep.sweep_high s = Candle.high c /\ LiquiditySweep.sweep_low s = Candle.low c /\
    LiquiditySweep.close_price s = Some (Candle.close c) /\
    ((LiquiditySweep.is_bullish_sweep s = true /\ LiquiditySweep.is_bearish_sweep s = false /\
      fv (LiquiditySweep.swept_level s) < fv (Candle.high c) /\
      fv (Candle.close c) <= fv (LiquiditySweep.swept_level s) /\ origin true c s) \/
     (LiquiditySweep.is_bearish_sweep s = true /\ LiquiditySweep.is_bullish_sweep s = false /\
      fv (Candle.low c) < fv (LiquiditySweep.swept_level s) /\
      fv (LiquiditySweep.swept_level s) <= fv (Candle.close c) /\ origin false c s)).

Definition on_side (is_high : bool) (s : LiquiditySweep.t) : bool :=
  if is_high then LiquiditySweep.is_bullish_sweep s else LiquiditySweep.is_bearish_sweep s.

(** The levels swept on one side, in order. *)
Definition levels (is_high : bool) (l : list LiquiditySweep.t) : list Z :=
  map (fun s => fv (LiquiditySweep.swept_level s)) (List.filter (on_side is_high) l).

(** One of the first [n] candles closed beyond the level. *)
Definition broken (is_high : bool) (n : Z) (x : Z) : Prop :=
  exists k c, 0 <= k < n /\ v !! Z.to_nat k = Some c /\
    (if is_high then x < fv (Candle.close c) else fv (Candle.close c) < x).

(** No level is swept twice, a swept level is invalidated, and an invalidated
    level was swept or broken. *)
Record side_inv (is_high : bool) (n : Z) (sweeps : list LiquiditySweep.t) (inv : list float) : Prop := {
  si_num : Forall num inv;
  si_once : NoDup (levels is_high sweeps);
  si_incl : forall x, In x (levels is_high sweeps) -> In x (map fv inv);
  si_why : forall x, In x (map fv inv) -> In x (levels is_high sweeps) \/ broken is_high n x }.

(** The candle sweeps the level: beyond it by the minimum distance, and closed
    back. *)
Definition sweeps_level (is_high : bool) (c : Candle.t) (lv : float) : Prop :=
  beyond is_high c lv = true /\ closes_inside is_high c lv = true /\
  exists p, (if is_high then calculate_pips lv (Candle.high c) (Candle.symbol c)
             else calculate_pips (Candle.low c) lv (Candle.symbol c)) = Ok p /\ fle (min_sweep_pips self) p = true.

(** Every level a candle before [n] sweeps, formed before that candle, is
    recorded, unless an earlier candle had broken it. *)
Definition recorded (is_high : bool) (n : Z) (lvs : list level) (sweeps : list LiquiditySweep.t) : Prop :=
  forall lv j c, In lv lvs -> v !! Z.to_nat j = Some c -> 0 <= j < n -> lv_index lv < j ->
    sweeps_level is_high c (lv_price lv) ->
    In (fv (lv_price lv)) (levels is_high sweeps) \/ broken is_high j (fv (lv_price lv)).

(** Every level a candle before [n] closed beyond after it formed is invalidated. *)
Definition closed_out (is_high : bool) (n : Z) (inv : list float) : Prop :=
  forall lv j c, In lv (side_levels is_high) -> v !! Z.to_nat j = Some c -> 0 <= j < n -> lv_index lv < j ->
    closes_inside is_high c (lv_price lv) = false -> mem_level (lv_price lv) inv = true.

Lemma mem_level_false lv inv :
  num lv -> Forall num inv -> mem_level lv inv = false -> ~ In (fv lv) (map fv inv).
Proof.
  intros Nl Hn H Hin. apply in_map_iff in Hin as (x & E & Hx). rewrite List.Forall_forall in Hn.
  assert (mem_level lv inv = true); [|congruence]. apply existsb_exists. exists x. split; [done|].
  rewrite feq_fv by auto. by apply Z.eqb_eq.
Qed.

Lemma levels_app b l s :
  levels b (l ++ [s]) = levels b l ++ (if on_side b s then [fv (LiquiditySweep.swept_level s)] else []).
Proof.
  unfold levels. rewrite List.filter_app, map_app. simpl. by destruct (on_side b s).
Qed.

Lemma mem_level_true lv inv :
  num lv -> Forall num inv -> mem_level lv inv = true -> In (fv lv) (map fv inv).
Proof.
  intros Nl Hn H. apply existsb_exists in H as (x & Hx & E). rewrite List.Forall_forall in Hn.
  rewrite feq_fv in E by auto. zbool. rewrite E. by apply in_map.
Qed.

Lemma push_same b n sweeps inv s :
  side_inv b n sweeps inv -> on_side b s = true -> num (LiquiditySweep.swept_level s) ->
  mem_level (LiquiditySweep.swept_level s) inv = false ->
  side_inv b n (sweeps ++ [s]) (LiquiditySweep.swept_level s :: inv).
Proof.
  intros [Hn Ho Hi Hw] Hs Nl Hm. constructor; [by constructor|..]; rewrite levels_app, Hs.
  - apply NoDup_app. split; [done|]. split; [|apply NoDup_singleton].
    intros x Hx Hin. apply list_elem_of_singleton in Hin as ->. apply list_elem_of_In, Hi in Hx.
    by apply mem_level_false in Hm.
  - intros x Hx. apply in_app_or in Hx as [Hx|[<-|[]]]; [right; by apply Hi|by left].
  - intros x [<-|Hx]; [left; apply in_or_app; right; by left|].
    destruct (Hw x Hx); [left; apply in_or_app|]; auto.
Qed.

Lemma push_other b n sweeps inv s :
  side_inv b n sweeps inv -> on_side b s = false -> side_inv b n (sweeps ++ [s]) inv.
Proof. intros [Hn Ho Hi Hw] Hs. constructor; [done|..]; rewrite levels_app, Hs, app_nil_r; done. Qed.

Lemma invalidate b n sweeps inv lv :
  side_inv b n sweeps inv -> num lv -> broken b n (fv lv) -> side_inv b n sweeps (lv :: inv).
Proof.
  intros [Hn Ho Hi Hw] Nl Hb. constructor; [by constructor|done| |].
  - intros x Hx. right. by apply Hi.
  - intros x [<-|Hx]; auto.
Qed.

Lemma broken_mono b n m x : broken b n x -> n <= m -> broken b m x.
Proof. intros (k & c & Hk & H) Hm. exists k, c. split; [lia|done]. Qed.

Lemma side_inv_mono b n m sweeps inv : side_inv b n sweeps inv -> n <= m -> side_inv b m sweeps inv.
Proof.
  intros [Hn Ho Hi Hw] Hm. constructor; try done. intros x Hx.
  destruct (Hw x Hx); [auto|right; by eapply broken_mono].
Qed.

(** Both sides and the records. *)
Record st_inv (b : bool) (n : Z) (sweeps : list LiquiditySweep.t) (inv other : list float) : Prop := {
  st_ok : Forall sweep_ok sweeps;
  st_side : side_inv b n sweeps inv;
  st_other : side_inv (negb b) n sweeps other }.

Lemma st_inv_mono b n m sweeps inv other : st_inv b n sweeps inv other -> n <= m -> st_inv b m sweeps inv other.
Proof. intros [H1 H2 H3] Hm. constructor; [done|..]; by eapply side_inv_mono. Qed.

(** The state only grows. *)
Definition grows (sweeps sweeps' : list LiquiditySweep.t) (inv inv' : list float) : Prop :=
  (exists l, sweeps' = sweeps ++ l) /\ (exists l, inv' = l ++ inv).

Lemma grows_refl sweeps inv : grows sweeps sweeps inv inv.
Proof. split; [exists []; by rewrite app_nil_r|by exists []]. Qed.

Lemma grows_trans s1 s2 s3 i1 i2 i3 : grows s1 s2 i1 i2 -> grows s2 s3 i2 i3 -> grows s1 s3 i1 i3.
Proof.
  intros [[l ->] [k ->]] [[l' ->] [k' ->]]. split; [exists (l ++ l')|exists (k' ++ k)]; by rewrite app_assoc.
Qed.

Lemma grows_mem sweeps sweeps' inv inv' x :
  grows sweeps sweeps' inv inv' -> mem_level x inv = true -> mem_level x inv' = true.
Proof. intros [_ [k ->]] H. unfold mem_level in *. rewrite existsb_app, H. by apply orb_true_r. Qed.

Lemma levels_mono b sweeps l x : In x (levels b sweeps) -> In x (levels b (sweeps ++ l)).
Proof. intros H. unfold levels. rewrite List.filter_app, map_app. apply in_or_app. by left. Qed.

Lemma recorded_mono b n lvs sweeps l : recorded b n lvs sweeps -> recorded b n lvs (sweeps ++ l).
Proof. intros H lv j c H1 H2 H3 H4 H5. destruct (H lv j c H1 H2 H3 H4 H5); [left; by apply levels_mono|by right]. Qed.

Lemma closed_out_mono b n sweeps sweeps' inv inv' :
  closed_out b n inv -> grows sweeps sweeps' inv inv' -> closed_out b n inv'.
Proof. intros Hco G lv j c H1 H2 H3 H4 H5. eapply grows_mem; [exact G|eauto]. Qed.

Lemma st_push b n sweeps inv other s :
  st_inv b n sweeps inv other -> sweep_ok s -> on_side b s = true ->
  mem_level (LiquiditySweep.swept_level s) inv = false ->
  st_inv b n (sweeps ++ [s]) (LiquiditySweep.swept_level s :: inv) other.
Proof.
  intros [Hok Hs Ho] Hsw Hon Hm. constructor.
  - apply Forall_app. auto.
  - apply push_same; try done. apply fin_num. by destruct Hsw as [[] _].
  - apply push_other; [done|]. destruct Hsw as (_ & _ & c & _ & _ & _ & _ & _ & _ & [(H1 & H2 & _)|(H1 & H2 & _)]);
      destruct b; simpl in *; congruence.
Qed.

Lemma candle_facts c : In c v ->
  fin (Candle.high c) /\ fin (Candle.low c) /\ num (Candle.close c) /\ 0 < fv (Candle.low c) /\
  0 < fv (Candle.high c) /\ 0 < fv (Candle.close c).
Proof.
  intros Hc. destruct (Hv c Hc) as (Hw & Hf & _). destruct (CandleFacts.finite_fin c Hw Hf) as (_ & Fh & Fl & Fc).
  destruct Hw. split; [done|]. split; [done|]. split; [done|]. lia.
Qed.

Lemma beyond_not_inside (b : bool) c lv :
  In c v -> level_ok lv -> beyond b c lv = true ->
  (if b then fle (Candle.high c) lv else fle lv (Candle.low c)) <> true.
Proof.
  intros Hc [Fl _] Hb. destruct (candle_facts c Hc) as (Fh & Flo & _). unfold beyond in Hb.
  destruct b; rewrite flt_fv in Hb by auto with etradie; rewrite fle_fv by auto with etradie; zbool; lia.
Qed.

(** A candle that closes beyond a level went beyond it. *)
Lemma outside_beyond (b : bool) c lv :
  In c v -> level_ok lv -> closes_inside b c lv = false -> beyond b c lv = true.
Proof.
  intros Hc [Fl _] H. destruct (Hv c Hc) as (Hw & _ & _). destruct (candle_facts c Hc) as (Fh & Flo & Ncl & _).
  unfold closes_inside in H. unfold beyond.
  destruct b; rewrite fle_fv in H by auto with etradie; rewrite flt_fv by auto with etradie; zbool; destruct Hw; lia.
Qed.

(** The distance of a sweep is a non-negative number. *)
Lemma distance_Ok (b : bool) c lv :
  In c v -> level_ok lv ->
  exists p, (if b then calculate_pips lv (Candle.high c) (Candle.symbol c)
             else calculate_pips (Candle.low c) lv (Candle.symbol c)) = Ok p /\ num p /\ 0 <= fv p.
Proof.
  intros Hc [Fl Hl]. destruct (candle_facts c Hc) as (Fh & Flo & _ & Plo & Ph & _). destruct b.
  - destruct (calculate_pips_facts lv (Candle.high c) (Candle.symbol c)) as (p & E & _ & N & Hp & _); [done|done|lia|lia|].
    by exists p.
  - destruct (calculate_pips_facts (Candle.low c) lv (Candle.symbol c)) as (p & E & _ & N & Hp & _); [done|done|lia|lia|].
    by exists p.
Qed.

(** The record the code builds for a candle and a level it sweeps. *)
Definition record_of (c : Candle.t) (lt : LiquidityType) (lv : float) (ts : datetime) (p : float)
    (inside : bool) (i : Z) (major : bool) : LiquiditySweep.t :=
  LiquiditySweep.mk (normalize_symbol (str_strip (Candle.symbol c))) (Candle.timeframe c) (Candle.timestamp c)
    lt lv ts (Candle.high c) (Candle.low c) p inside (Some (Candle.close c)) i major.

Lemma sweep_create_Ok c lt lv ts p inside i major :
  In c v -> level_ok lv -> num p -> 0 <= fv p -> 0 <= i ->
  LiquiditySweep.create (Candle.symbol c) (Candle.timeframe c) (Candle.timestamp c) lt lv ts
    (Candle.high c) (Candle.low c) p inside (Some (Candle.close c)) i major =
  Ok (record_of c lt lv ts p inside i major).
Proof.
  intros Hc [Fl Hl] Np Hp Hi. destruct (candle_facts c Hc) as (Fh & Flo & Ncl & Plo & Ph & Pc).
  destruct (Hv c Hc) as (_ & _ & Hs). unfold LiquiditySweep.create.
  rewrite SwingFacts.symbol_3_30_intro by done.
  rewrite !field_gt0_intro by (rewrite CandleFacts.flt_fzero by auto with etradie; by apply Z.ltb_lt).
  rewrite field_ge0_intro by (rewrite CandleFacts.fle_fzero by done; by apply Z.leb_le).
  cbn [mbind res_bind opt_gt0].
  rewrite field_gt0_intro by (rewrite CandleFacts.flt_fzero by done; by apply Z.ltb_lt).
  cbn [mbind res_bind]. rewrite SwingFacts.int_field_intro by (done || (intros; discriminate)). done.
Qed.

Lemma record_ok b c i lt lv ts p inside major :
  v !! Z.to_nat i = Some c -> 0 <= i -> level_ok lv -> fv (min_sweep_pips self) <= fv p ->
  beyond b c lv = true -> closes_inside b c lv = true ->
  on_side b (record_of c lt lv ts p inside i major) = true ->
  on_side (negb b) (record_of c lt lv ts p inside i major) = false ->
  origin b c (record_of c lt lv ts p inside i major) ->
  sweep_ok (record_of c lt lv ts p inside i major).
Proof.
  intros Hc Hi Hl Hp Hb Hcl Hs Hns Ho.
  assert (Hin : In c v) by (apply list_elem_of_In; by eapply list_elem_of_lookup_2).
  destruct (candle_facts c Hin) as (Fh & Flo & Ncl & _). destruct Hl as [Fl Hl0].
  split; [by split|]. split; [done|]. exists c. do 6 (split; [done|]). unfold beyond, closes_inside in *.
  destruct b; simpl in *; [left|right];
    rewrite flt_fv in Hb by auto with etradie; rewrite fle_fv in Hcl by auto with etradie; zbool; done.
Qed.

(** One section of the loop body that concerns one level: the state stays
    consistent. *)
Lemma level_step b n c i lt lv ts p inside major sweeps inv other :
  st_inv b n sweeps inv other -> v !! Z.to_nat i = Some c -> 0 <= i -> level_ok lv ->
  mem_level lv inv = false -> fv (min_sweep_pips self) <= fv p ->
  beyond b c lv = true -> closes_inside b c lv = true ->
  origin b c (record_of c lt lv ts p inside i major) ->
  st_inv b n (sweeps ++ [record_of c lt lv ts p inside i major]) (lv :: inv) other.
Proof.
  intros Hst Hc Hi Hl Hm Hp Hb Hcl Ho.
  assert (Hs : on_side b (record_of c lt lv ts p inside i major) = true /\
               on_side (negb b) (record_of c lt lv ts p inside i major) = false)
    by (destruct Ho as [[E _]|[E _]]; cbn in E; rewrite E; by destruct b).
  destruct Hs as [Hs Hns].
  apply (st_push b n sweeps inv other (record_of c lt lv ts p inside i major)); try done.
  by apply (record_ok b).
Qed.

(** A level the candle closes beyond is invalidated. *)
Lemma break_step b c i lv sweeps inv other :
  st_inv b (i + 1) sweeps inv other -> v !! Z.to_nat i = Some c -> 0 <= i -> level_ok lv ->
  closes_inside b c lv = false -> st_inv b (i + 1) sweeps (lv :: inv) other.
Proof.
  intros [H1 H2 H3] Hc Hi [Fl Hl] Hcl. constructor; [done| |done]. apply invalidate; auto with etradie.
  assert (Hin : In c v) by (apply list_elem_of_In; by eapply list_elem_of_lookup_2).
  destruct (candle_facts c Hin) as (_ & _ & Ncl & _).
  exists i, c. split; [lia|]. split; [done|]. unfold closes_inside in Hcl.
  destruct b; rewrite fle_fv in Hcl by auto with etradie; zbool; lia.
Qed.

Lemma previous_day_step_ok b c i lv d sweeps inv other :
  st_inv b (i + 1) sweeps inv other -> v !! Z.to_nat i = Some c -> 0 <= i -> level_ok lv ->
  day_before v (day_of c) d -> day_extreme v b d lv ->
  exists sweeps' inv', previous_day_step self b c i lv (sweeps, inv) = Ok (sweeps', inv') /\
    st_inv b (i + 1) sweeps' inv' other /\ grows sweeps sweeps' inv inv'.
Proof.
  intros Hst Hc Hi Hl Hd Hx. unfold previous_day_step. pose proof (grows_refl sweeps inv) as Hg.
  assert (Hin : In c v) by (apply list_elem_of_In; by eapply list_elem_of_lookup_2).
  destruct (mem_level lv inv) eqn:Em; cbn [negb andb]; [by eexists _, _|].
  destruct (beyond b c lv) eqn:Eb; [|by eexists _, _].
  destruct (closes_inside b c lv) eqn:Ec.
  - destruct (distance_Ok b c lv Hin Hl) as (p & -> & Np & Hp). cbn [mbind res_bind].
    rewrite fle_fv by done. destruct (_ <=? fv p) eqn:Ep; zbool; [|by eexists _, _].
    rewrite sweep_create_Ok by done. cbn [mbind res_bind]. eexists _, _. split; [done|].
    split; [|split; [by eexists|by exists [lv]]]. apply level_step; try done.
    right. split; [by destruct b|]. split; [done|]. by exists d.
  - eexists _, _. split; [done|]. split; [by apply (break_step b c)|]. split; [exists []; by rewrite app_nil_r|by exists [lv]].
Qed.

Lemma swing_step_ok b c i lv sweeps inv other :
  st_inv b (i + 1) sweeps inv other -> v !! Z.to_nat i = Some c -> 0 <= i -> level_ok (lv_price lv) ->
  In lv (side_levels b) -> closed_out b i inv ->
  exists sweeps' inv', swing_step self b c i (sweeps, inv) lv = Ok (sweeps', inv') /\
    st_inv b (i + 1) sweeps' inv' other /\ grows sweeps sweeps' inv inv' /\
    (lv_index lv < i -> sweeps_level b c (lv_price lv) \/ closes_inside b c (lv_price lv) = false ->
     mem_level (lv_price lv) inv' = true).
Proof.
  intros Hst Hc Hi Hl Hlv Hco. unfold swing_step. pose proof (grows_refl sweeps inv) as Hg.
  assert (Hin : In c v) by (apply list_elem_of_In; by eapply list_elem_of_lookup_2).
  assert (Hself : forall k, mem_level (lv_price lv) (lv_price lv :: k) = true).
  { intros k. unfold mem_level. simpl. destruct Hl as [Fl _]. rewrite feq_fv by auto with etradie. by rewrite Z.eqb_refl. }
  destruct (i <=? lv_index lv) eqn:Ei; zbool; [eexists _, _; do 3 (split; [done|]); lia|]. cbn [orb].
  destruct (mem_level (lv_price lv) inv) eqn:Em; [by eexists _, _|].
  destruct (beyond b c (lv_price lv)) eqn:Eb.
  2:{ eexists _, _. do 3 (split; [done|]). intros _ [(H & _)|H]; [congruence|].
      apply (outside_beyond b c _ Hin Hl) in H. congruence. }
  destruct (closes_inside b c (lv_price lv)) eqn:Ec.
  - unfold detect_level_sweep.
    destruct (if b then _ else fle (lv_price lv) (Candle.low c)) eqn:El.
    { destruct (beyond_not_inside b c (lv_price lv) Hin Hl Eb). destruct b; done. }
    destruct (distance_Ok b c (lv_price lv) Hin Hl) as (p & Ep & Np & Hp). rewrite Ep. cbn [mbind res_bind].
    rewrite flt_fv by done. destruct (fv p <? _) eqn:Epm; zbool.
    { eexists _, _. do 3 (split; [done|]). intros _ [(_ & _ & p' & Ep' & Hp')|]; [|congruence]. rewrite Ep in Ep'. injection Ep' as <-.
      rewrite fle_fv in Hp' by done. zbool. lia. }
    rewrite sweep_create_Ok by done. cbn [mbind res_bind]. eexists _, _. split; [done|].
    split; [|split; [split; [by eexists|by exists [lv_price lv]]|done]].
    apply (level_step b (i + 1) c i (if b then BSL else SSL) (lv_price lv) (lv_timestamp lv) p
             (if b then flt (Candle.close c) (lv_price lv) else flt (lv_price lv) (Candle.close c))
             (5 <=? lv_strength lv)); try done.
    left. split; [by destruct b|]. exists lv. do 5 (split; [done|]). cbn. intros k c' Hk Hki Hc'.
    destruct (closes_inside b c' (lv_price lv)) eqn:Ek; [done|]. rewrite (Hco lv k c') in Em; done || lia.
  - eexists _, _. split; [done|]. split; [by apply (break_step b c)|]. split; [|done].
    split; [exists []; by rewrite app_nil_r|by exists [lv_price lv]].
Qed.

Lemma swing_loop_ok b c i lvs other : forall sweeps inv,
  st_inv b (i + 1) sweeps inv other -> v !! Z.to_nat i = Some c -> 0 <= i ->
  Forall (fun l => level_ok (lv_price l)) lvs -> (forall lv, In lv lvs -> In lv (side_levels b)) -> closed_out b i inv ->
  exists sweeps' inv', for_each (swing_step self b c i) lvs (sweeps, inv) = Ok (sweeps', inv') /\
    st_inv b (i + 1) sweeps' inv' other /\ grows sweeps sweeps' inv inv' /\
    (forall lv, In lv lvs -> lv_index lv < i -> sweeps_level b c (lv_price lv) \/ closes_inside b c (lv_price lv) = false ->
     mem_level (lv_price lv) inv' = true).
Proof.
  induction lvs as [|l lvs IH]; intros sweeps inv Hst Hc Hi Hl Hsub Hco.
  { eexists _, _. do 2 (split; [done|]). split; [apply grows_refl|by intros lv []]. }
  apply Forall_cons in Hl as [Hl Hls]. cbn [for_each].
  destruct (swing_step_ok b c i l sweeps inv other Hst Hc Hi Hl (Hsub l (or_introl eq_refl)) Hco)
    as (s1 & inv1 & -> & Hst1 & G1 & M1).
  cbn [mbind res_bind]. destruct (IH s1 inv1 Hst1 Hc Hi Hls ltac:(intros x Hx; apply Hsub; by right)
    (closed_out_mono _ _ _ _ _ _ Hco G1)) as (s2 & inv2 & -> & Hst2 & G2 & M2).
  eexists _, _. do 2 (split; [done|]). split; [by eapply grows_trans|].
  intros lv [->|Hin] Hx Hs; [eapply grows_mem; [done|]|]; auto.
Qed.

(** After the loop over the swings of a side, the candle's sweeps are
    recorded. *)
Lemma recorded_step b c i lvs sweeps inv other :
  st_inv b (i + 1) sweeps inv other -> v !! Z.to_nat i = Some c -> 0 <= i ->
  Forall (fun l => level_ok (lv_price l)) lvs -> recorded b i lvs sweeps ->
  (forall lv, In lv lvs -> lv_index lv < i -> sweeps_level b c (lv_price lv) -> mem_level (lv_price lv) inv = true) ->
  recorded b (i + 1) lvs sweeps.
Proof.
  intros [_ [Hn _ _ Hw] _] Hc Hi Hlvs Hr Hm lv j d Hin Hj Hjn Hx Hs.
  destruct (decide (j = i)) as [->|]; [|apply (Hr lv j d); done || lia].
  rewrite Hc in Hj. injection Hj as <-. rewrite List.Forall_forall in Hlvs. destruct (Hlvs lv Hin) as [Fl _].
  pose proof (mem_level_true _ _ (fin_num _ Fl) Hn (Hm lv Hin Hx Hs)) as Hinv.
  destruct (Hw _ Hinv) as [H|(k & c' & Hk & Hc' & Hb)]; [by left|right]. exists k, c'. split; [|done].
  destruct (decide (k = i)) as [->|]; [exfalso|lia]. rewrite Hc in Hc'. injection Hc' as <-.
  assert (Hinc : In c v) by (apply list_elem_of_In; by eapply list_elem_of_lookup_2).
  destruct (candle_facts c Hinc) as (_ & _ & Ncl & _). destruct Hs as (_ & Hcl & _). unfold closes_inside in Hcl.
  destruct b; rewrite fle_fv in Hcl by auto with etradie; zbool; lia.
Qed.

(** And the levels it closed beyond are invalidated. *)
Lemma closed_out_step b c i inv :
  v !! Z.to_nat i = Some c -> 0 <= i -> closed_out b i inv ->
  (forall lv, In lv (side_levels b) -> lv_index lv < i -> sweeps_level b c (lv_price lv) \/ closes_inside b c (lv_price lv) = false ->
   mem_level (lv_price lv) inv = true) ->
  closed_out b (i + 1) inv.
Proof.
  intros Hc Hi Hco Hm lv j d Hlv Hj Hji Hx Hcl. destruct (decide (j = i)) as [->|]; [|apply (Hco lv j d); done || lia].
  rewrite Hc in Hj. injection Hj as <-. auto.
Qed.

Lemma st_flip b n sweeps inv other : st_inv b n sweeps inv other -> st_inv (negb b) n sweeps other inv.
Proof. intros [H1 H2 H3]. constructor; [done|done|]. by rewrite negb_involutive. Qed.

(** The daily extremes of the candles seen: the days they have, and for each day its
    highest high and lowest low. *)
Record daily_ok (cs : list Candle.t) (dh dl : gmap Z float) : Prop := {
  dy_highs : forall d, is_Some (dh !! d) <-> exists k, In k cs /\ day_of k = d;
  dy_lows : forall d, is_Some (dl !! d) <-> exists k, In k cs /\ day_of k = d;
  dy_high : forall d x, dh !! d = Some x -> level_ok x /\ day_extreme cs true d x;
  dy_low : forall d x, dl !! d = Some x -> level_ok x /\ day_extreme cs false d x }.

(** One more candle on one side: its own day gets the better extreme, the others keep
    theirs. *)
Lemma extreme_other cs b d x c : day_of c <> d -> day_extreme cs b d x -> day_extreme (cs ++ [c]) b d x.
Proof.
  intros Hd [(k & Hk & Ek & Hx) Hall]. split.
  - exists k. split; [apply in_or_app; by left|done].
  - intros k' Hk' Ek'. apply in_app_or in Hk' as [Hk'|[<-|[]]]; [by apply Hall|done].
Qed.

Lemma extreme_first cs b c :
  (forall k, In k cs -> day_of k <> day_of c) ->
  day_extreme (cs ++ [c]) b (day_of c) (if b then Candle.high c else Candle.low c).
Proof.
  intros Hn. split; [exists c; split; [apply in_or_app; right; by left|done]|].
  intros k Hk Ek. apply in_app_or in Hk as [Hk|[<-|[]]]; [by destruct (Hn k Hk)|]. destruct b; lia.
Qed.

Lemma extreme_better cs (b : bool) c x y :
  day_extreme cs b (day_of c) x ->
  fv y = (if b then Z.max (fv x) (fv (Candle.high c)) else Z.min (fv x) (fv (Candle.low c))) ->
  day_extreme (cs ++ [c]) b (day_of c) y.
Proof.
  intros [(k & Hk & Ek & Hx) Hall] Hy. split.
  - assert (Hc : fv y = fv x \/ fv y = fv (if b then Candle.high c else Candle.low c)) by (destruct b; lia).
    destruct Hc as [E|E]; [exists k|exists c]; (split; [apply in_or_app; auto using in_eq|split; [done|congruence]]).
  - intros k' Hk' Ek'. apply in_app_or in Hk' as [Hk'|[<-|[]]].
    + specialize (Hall k' Hk' Ek'). destruct b; lia.
    + destruct b; lia.
Qed.

(** The days of one side after an insertion. *)
Lemma days_insert cs (m : gmap Z float) c x :
  (forall d, is_Some (m !! d) <-> exists k, In k cs /\ day_of k = d) ->
  forall d, is_Some (<[day_of c := x]> m !! d) <-> exists k, In k (cs ++ [c]) /\ day_of k = d.
Proof.
  intros Hm d. destruct (decide (day_of c = d)) as [<-|Hne].
  - rewrite lookup_insert_eq. split; [intros _; exists c; split; [apply in_or_app; right; by left|done]|by eexists].
  - rewrite lookup_insert_ne, Hm by done. split; intros (k & Hk & Ek); exists k; (split; [|done]).
    + apply in_or_app; by left.
    + apply in_app_or in Hk as [Hk|[<-|[]]]; done.
Qed.

Lemma values_insert cs b (m : gmap Z float) c x :
  (forall d y, m !! d = Some y -> level_ok y /\ day_extreme cs b d y) ->
  level_ok x -> day_extreme (cs ++ [c]) b (day_of c) x ->
  forall d y, <[day_of c := x]> m !! d = Some y -> level_ok y /\ day_extreme (cs ++ [c]) b d y.
Proof.
  intros Hm Hl Hx d y. rewrite lookup_insert_Some. intros [[<- <-]|[Hne E]]; [done|].
  destruct (Hm d y E). split; [done|]. by apply extreme_other.
Qed.

Lemma day_step_ok cs dh dl c :
  daily_ok cs dh dl -> In c v -> exists dh' dl', day_step (dh, dl) c = Ok (dh', dl') /\ daily_ok (cs ++ [c]) dh' dl'.
Proof.
  intros [Hdh Hdl Hh Hl] Hc. destruct (candle_facts c Hc) as (Fh & Flo & _ & Plo & Ph & _).
  unfold day_step. fold (day_of c).
  assert (Hins : forall x y, level_ok x -> level_ok y -> day_extreme (cs ++ [c]) true (day_of c) x ->
    day_extreme (cs ++ [c]) false (day_of c) y -> daily_ok (cs ++ [c]) (<[day_of c := x]> dh) (<[day_of c := y]> dl)).
  { intros x y Hx Hy Ex Ey. constructor; [by apply days_insert..|by apply values_insert|by apply values_insert]. }
  destruct (dh !! day_of c) as [h|] eqn:Eh.
  - destruct (proj2 (Hdl (day_of c)) (proj1 (Hdh (day_of c)) (ex_intro _ h Eh))) as [l El]. rewrite El.
    eexists _, _. split; [done|]. destruct (Hh _ h Eh) as [[Fh' Ph'] Xh], (Hl _ l El) as [[Fl' Pl'] Xl].
    destruct (fmax_num h (Candle.high c)) as [_ Emax]; [by apply fin_num..|].
    destruct (fmin_num l (Candle.low c)) as [_ Emin]; [by apply fin_num..|].
    apply Hins; [split; [by apply fmax_fin|lia]|split; [by apply fmin_fin|lia]| |];
      (eapply extreme_better; [eassumption|done]).
  - assert (Hn : forall k, In k cs -> day_of k <> day_of c).
    { intros k Hk Ek. destruct (proj2 (Hdh (day_of c)) (ex_intro _ k (conj Hk Ek))) as [? E]. congruence. }
    eexists _, _. split; [done|].
    apply Hins; [by split|by split|exact (extreme_first cs true c Hn)|exact (extreme_first cs false c Hn)].
Qed.

Lemma days_ok cs : forall pre dh dl, daily_ok pre dh dl -> (forall c, In c cs -> In c v) ->
  exists dh' dl', for_each day_step cs (dh, dl) = Ok (dh', dl') /\ daily_ok (pre ++ cs) dh' dl'.
Proof.
  induction cs as [|c cs IH]; intros pre dh dl Hd Hc; [rewrite app_nil_r; by eexists _, _|]. cbn [for_each].
  destruct (day_step_ok pre dh dl c Hd (Hc c (or_introl eq_refl))) as (dh' & dl' & -> & Hd'). cbn [mbind res_bind].
  destruct (IH (pre ++ [c]) dh' dl' Hd') as (dh2 & dl2 & E & H2); [intros x Hx; apply Hc; by right|].
  exists dh2, dl2. split; [done|]. by rewrite <- app_assoc in H2.
Qed.

Lemma previous_day_spec dh dl d p : daily_ok v dh dl -> previous_day dh d = Some p -> day_before v d p /\ is_Some (dh !! p).
Proof.
  intros [Hdh _ _ _]. unfold previous_day, py_max_opt. set (f := List.filter _ _).
  assert (Hf : forall x, In x f <-> is_Some (dh !! x) /\ x < d).
  { intros x. unfold f. rewrite filter_In, Z.ltb_lt, in_map_iff. apply and_iff_compat_r. split.
    - intros ([k y] & <- & Hk%list_elem_of_In%elem_of_map_to_list). by exists y.
    - intros [y Hy]. exists (x, y). split; [done|]. by apply list_elem_of_In, elem_of_map_to_list. }
  destruct f as [|x l]; [done|]. intros [= <-].
  assert (Hin : In (py_max_from (fun a b => b <? a) x l) (x :: l)).
  { destruct (py_max_from_In (fun a b => b <? a) l x) as [->|]; [by left|by right]. }
  apply Hf in Hin as [Hs Hlt]. split; [|done]. split; [done|]. split; [by apply Hdh|]. intros k Hk Hkd.
  apply (py_max_from_ub (fun a b => b <? a) (fun z => z) l x); [done|]. apply Hf. split; [|done]. apply Hdh. by exists k.
Qed.

(** The part of the loop body on the previous day's high and low. *)
Lemma previous_day_ok dh dl sweeps ih il i c :
  daily_ok v dh dl -> st_inv true (i + 1) sweeps ih il -> v !! Z.to_nat i = Some c -> 0 <= i ->
  exists sweeps' ih' il',
    match previous_day dh (dt_day (Candle.timestamp c)) with
    | None => Ok (sweeps, ih, il)
    | Some prev_date =>
        match dh !! prev_date, dl !! prev_date with
        | Some pdh, Some pdl =>
            '(sweeps, inv_highs) ← previous_day_step self true c i pdh (sweeps, ih);
            '(sweeps, inv_lows) ← previous_day_step self false c i pdl (sweeps, il);
            Ok (sweeps, inv_highs, inv_lows)
        | _, _ => Raise KeyError
        end
    end = Ok (sweeps', ih', il') /\ st_inv true (i + 1) sweeps' ih' il' /\
    (exists l, sweeps' = sweeps ++ l) /\ (exists k, ih' = k ++ ih) /\ (exists k, il' = k ++ il).
Proof.
  intros Hdy Hst Hc Hi. destruct (previous_day dh _) as [d|] eqn:E.
  2:{ eexists _, _, _. do 2 (split; [done|]). split; [exists []; by rewrite app_nil_r|split; by exists []]. }
  destruct (previous_day_spec _ _ _ _ Hdy E) as [Hbefore [x Ex]]. destruct Hdy as [Hdh Hdl Hh Hl].
  destruct (proj2 (Hdl d) (proj1 (Hdh d) (ex_intro _ x Ex))) as [y Ey].
  rewrite Ex, Ey. destruct (Hh d x Ex) as [Lx Xx], (Hl d y Ey) as [Ly Xy].
  destruct (previous_day_step_ok true c i x d sweeps ih il Hst Hc Hi Lx Hbefore Xx) as (s1 & ih1 & -> & H1 & [[l1 ->] K1]).
  cbn [mbind res_bind].
  destruct (previous_day_step_ok false c i y d (sweeps ++ l1) il ih1 (st_flip true _ _ _ _ H1) Hc Hi Ly Hbefore Xy)
    as (s2 & il2 & -> & H2 & [[l2 ->] K2]). cbn [mbind res_bind]. eexists _, _, _. split; [done|].
  split; [by apply (st_flip false)|]. split; [exists (l1 ++ l2); by rewrite app_assoc|done].
Qed.

(** What holds before the [i]-th candle. *)
Record loop_inv (i : Z) (sweeps : list LiquiditySweep.t) (ih il : list float) : Prop := {
  li_state : st_inv true i sweeps ih il;
  li_highs : recorded true i highs sweeps; li_lows : recorded false i lows sweeps;
  li_out_h : closed_out true i ih; li_out_l : closed_out false i il }.

Context (Hhs : Forall (fun l => level_ok (lv_price l)) highs) (Hls : Forall (fun l => level_ok (lv_price l)) lows).

Lemma candle_step_ok dh dl sweeps ih il i c :
  daily_ok v dh dl -> loop_inv i sweeps ih il -> v !! Z.to_nat i = Some c -> 0 <= i ->
  exists sweeps' ih' il', candle_step self dh dl highs lows (sweeps, ih, il) (i, c) = Ok (sweeps', ih', il') /\
    loop_inv (i + 1) sweeps' ih' il'.
Proof.
  intros Hd [Hst Rh Rl Oh Ol] Hc Hi. unfold candle_step.
  destruct (previous_day_ok dh dl sweeps ih il i c Hd (st_inv_mono _ _ (i + 1) _ _ _ Hst ltac:(lia)) Hc Hi)
    as (s1 & ih1 & il1 & -> & H1 & [l1 ->] & Kh & Kl). cbn [mbind res_bind].
  assert (Oh1 : closed_out true i ih1) by (eapply (closed_out_mono true i sweeps (sweeps ++ l1)); [exact Oh|by split; [eexists|]]).
  assert (Ol1 : closed_out false i il1) by (eapply (closed_out_mono false i sweeps (sweeps ++ l1)); [exact Ol|by split; [eexists|]]).
  destruct (swing_loop_ok true c i highs il1 _ ih1 H1 Hc Hi Hhs ltac:(done) Oh1) as (s2 & ih2 & -> & H2 & [[l2 ->] K2] & M2).
  cbn [mbind res_bind].
  assert (R2 : recorded true (i + 1) highs ((sweeps ++ l1) ++ l2)).
  { apply (recorded_step true c i highs _ ih2 il1); try done; [by apply recorded_mono, recorded_mono|auto]. }
  destruct (swing_loop_ok false c i lows ih2 _ il1 (st_flip true _ _ _ _ H2) Hc Hi Hls ltac:(done) Ol1)
    as (s3 & il3 & -> & H3 & [[l3 ->] K3] & M3).
  cbn [mbind res_bind]. eexists _, _, _. split; [done|]. constructor; [by apply (st_flip false)|by apply recorded_mono| | |].
  - apply (recorded_step false c i lows _ il3 ih2); try done; [by do 3 apply recorded_mono|auto].
  - eapply closed_out_step; [exact Hc|done| |done].
    eapply (closed_out_mono true i sweeps (sweeps ++ l2)); [exact Oh1|by split; [eexists|]].
  - eapply closed_out_step; [exact Hc|done| |done].
    eapply (closed_out_mono false i sweeps (sweeps ++ l3)); [exact Ol1|by split; [eexists|]].
Qed.

Lemma candles_ok dh dl xs : forall n sweeps ih il,
  daily_ok v dh dl -> loop_inv n sweeps ih il -> 0 <= n -> drop (Z.to_nat n) v = xs ->
  exists sweeps' ih' il',
    for_each (candle_step self dh dl highs lows) (py_enumerate_from n xs) (sweeps, ih, il) = Ok (sweeps', ih', il') /\
    loop_inv (n + py_len xs) sweeps' ih' il'.
Proof.
  induction xs as [|c xs IH]; intros n sweeps ih il Hd Hinv Hn Hx.
  { cbn [py_len length]. change (Z.of_nat 0) with 0. rewrite Z.add_0_r. by eexists _, _, _. }
  cbn [py_enumerate_from for_each].
  assert (Hc : v !! Z.to_nat n = Some c) by (apply (f_equal (fun l => l !! 0%nat)) in Hx; by rewrite lookup_drop, Nat.add_0_r in Hx).
  destruct (candle_step_ok dh dl sweeps ih il n c Hd Hinv Hc Hn) as (s1 & ih1 & il1 & -> & H1).
  cbn [mbind res_bind]. replace (n + py_len (c :: xs)) with (n + 1 + py_len xs) by (unfold py_len; simpl; lia).
  apply IH; try done; [lia|].
  rewrite Z2Nat.inj_add by lia. rewrite <- drop_drop. by rewrite Hx.
Qed.
End Sweeps.

(** C37.  Every level is swept at most once, every sweep is real, and none of a
    swing is missed.  On finite well-formed candles whose symbols have three
    characters or more, and on swings, [detect_sweeps_in_sequence] returns; on each
    side no price level appears in two of the sweeps it records; each recorded sweep
    belongs to a candle whose high (low) went beyond the level by at least
    [min_sweep_pips] and which closed back at or inside it; its level is the price of
    a swing that formed before that candle and that no candle in between closed
    beyond, or the high (low) of the last day before the candle's that has candles;
    and a swing that some later candle sweeps is among the recorded levels, unless an
    earlier candle had closed beyond it. *)
Theorem sweeps_once_and_real (self : t) (q : CandleSequence.t) (hs : list SwingHigh.t) (ls : list SwingLow.t) :
  let v := CandleSequence.candles q in
  num (min_sweep_pips self) ->
  (forall c, In c v -> Candle.wf c /\ Candle.finite c /\ 3 <= str_len (str_strip (Candle.symbol c)) <= 30) ->
  Forall (fun s => level_ok (SwingHigh.price s)) hs -> Forall (fun s => level_ok (SwingLow.price s)) ls ->
  exists sweeps, detect_sweeps_in_sequence self q hs ls = Ok sweeps /\
    NoDup (levels true sweeps) /\ NoDup (levels false sweeps) /\
    Forall (sweep_ok self v (map high_level hs) (map low_level ls)) sweeps /\
    recorded self v true (py_len v) (map high_level hs) sweeps /\
    recorded self v false (py_len v) (map low_level ls) sweeps.
Proof.
  intros v Hmin Hv Hhs Hls. unfold detect_sweeps_in_sequence. fold v. cbv zeta.
  destruct (days_ok v Hv v [] ∅ ∅) as (dh & dl & -> & Hd); [|done|].
  { constructor; intros d; rewrite ?lookup_empty; try done; (split; [by intros []|by intros (k & [] & _)]). }
  cbn [mbind res_bind].
  destruct (candles_ok self v (map high_level hs) (map low_level ls) Hmin Hv) with
    (dh := dh) (dl := dl) (xs := v) (n := 0) (sweeps := @nil LiquiditySweep.t) (ih := @nil float) (il := @nil float)
    as (sweeps & ih & il & E & [[Hok [_ H1 _ _] [_ H2 _ _]] Rh Rl _ _]).
  - by apply Forall_map.
  - by apply Forall_map.
  - done.
  - constructor; [|intros lv j c; intros; lia..].
    constructor; [constructor| |]; (constructor; [constructor|constructor|done|done]).
  - done.
  - done.
  - unfold py_enumerate. rewrite E. cbn [mbind res_bind]. exists sweeps. done.
Qed.

(** A day with a high of 1.10000, and a next day that takes it and closes
    back. *)
Definition sample_bar (day hi lo cl : Z) : Candle.t :=
  Candle.mk "EURUSD" H1 (mk_datetime (day * us_per_day) (Some 0)) (lit lo 5) (lit hi 5) (lit lo 5) (lit cl 5) fzero.
Definition sample_sweep : CandleSequence.t :=
  CandleSequence.mk "EURUSD" H1 [sample_bar 0 110000 109000 109500; sample_bar 1 110100 109200 109600].

Definition sample_swing : SwingHigh.t :=
  SwingHigh.mk "EURUSD" H1 (mk_datetime 0 (Some 0)) (lit 110050 5) 0 5 1 1 false None.

Lemma sweeps_once_and_real_witness :
  exists sweeps, detect_sweeps_in_sequence default sample_sweep [sample_swing] [] = Ok sweeps /\
    map LiquiditySweep.swept_level sweeps = [lit 110000 5; lit 110050 5] /\ NoDup (levels true sweeps).
Proof.
  destruct (sweeps_once_and_real default sample_sweep [sample_swing] []) as (sweeps & E & H & _).
  - vm_compute. repeat split; congruence.
  - intros c [<-|[<-|[]]]; (split; [constructor; vm_compute; repeat split; congruence|]);
      (split; [vm_compute; repeat split; congruence|vm_compute; split; discriminate]).
  - repeat constructor; vm_compute; repeat split; congruence.
  - constructor.
  - exists sweeps. split; [exact E|]. split; [|exact H]. vm_compute in E. injection E as <-. vm_compute. reflexivity.
Defined.
End SweepFacts.
