(* ===== verification/ZoneModels.v ===== *)
(** * Zone models: [engine/ta/models/zone.py]

    Order blocks, gaps, breakers, supply and demand zones, quasimodo levels and
    mini price levels.  Every class is a record with a [create] that runs the
    field constraints and [model_post_init]; the computed fields are functions of
    the record.  [ZoneLike] is what the priced zones have in common and
    [zone_like_laws] is what each of them promises to a client. *)

From Stdlib Require Import ZArith Lia Bool String.
From stdpp Require Import base list strings.
From S2P Require Import Prelude PyFloat FloatRound PyText Constants PriceMath Candles Liquidity.

#[local] Open Scope string_scope.
#[local] Open Scope Z_scope.

(** ** Shared constraints *)

(** [Optional\[int\] = Field(default=None, ge=0)]. *)
Definition opt_ge0 (x : option Z) : res (option Z) :=
  match x with Some n => m ← int_field 0 None n; Ok (Some m) | None => Ok None end.

(** [float = Field(ge=0, le=100)]. *)
Definition field_0_100 (x : float) : res float :=
  if fle fzero x && fle x (of_Z 100) then Ok x else Raise ValidationError.

(** [model_post_init] of the classes with two bounds. *)
Definition check_bounds (upper_bound lower_bound : float) : res unit :=
  if fle upper_bound lower_bound then Raise (ConfigurationError "Upper bound must be > lower bound")
  else Ok tt.

(** [(upper + lower) / 2.0]: the divisor is a non-zero constant. *)
Definition half (x : float) : float :=
  match fdiv x (of_Z 2) with Ok y => y | Raise _ => x end.

(** ** Zone *)

Module Zone.
Record t := mk {
  symbol : string; timeframe : Timeframe; zone_type : ZoneType; upper_bound : float;
  lower_bound : float; timestamp : datetime; candle_index : Z; direction : Direction }.

Definition create (symbol : string) (tf : Timeframe) (zt : ZoneType) (upper_bound lower_bound : float)
    (ts : datetime) (candle_index : Z) (direction : Direction) : res t :=
  s ← symbol_3_30 symbol;
  u ← field_gt0 upper_bound;
  l ← field_gt0 lower_bound;
  i ← int_field 0 None candle_index;
  _ ← check_bounds u l;
  Ok (mk s tf zt u l ts i direction).

Definition range_size (z : t) : float := fsub (upper_bound z) (lower_bound z).
Definition midpoint (z : t) : float := half (fadd (upper_bound z) (lower_bound z)).
Definition is_bullish (z : t) : bool := bool_decide (direction z = BULLISH).
Definition is_bearish (z : t) : bool := bool_decide (direction z = BEARISH).
Definition contains_price (z : t) (price : float) : bool :=
  fle (lower_bound z) price && fle price (upper_bound z).
Definition overlaps_with (z other : t) : bool :=
  negb (flt (upper_bound z) (lower_bound other) || flt (upper_bound other) (lower_bound z)).
End Zone.

(** ** Order block *)

Module OrderBlock.
Record t := mk {
  symbol : string; timeframe : Timeframe; upper_bound : float; lower_bound : float;
  timestamp : datetime; candle_index : Z; direction : Direction; displacement_pips : float;
  is_breaker : bool; mitigated : bool; mitigation_timestamp : option datetime }.

Definition create (symbol : string) (tf : Timeframe) (upper_bound lower_bound : float) (ts : datetime)
    (candle_index : Z) (direction : Direction) (displacement_pips : float) (is_breaker mitigated : bool)
    (mitigation_ts : option datetime) : res t :=
  s ← symbol_3_30 symbol;
  u ← field_gt0 upper_bound;
  l ← field_gt0 lower_bound;
  i ← int_field 0 None candle_index;
  d ← field_ge0 displacement_pips;
  _ ← check_bounds u l;
  Ok (mk s tf u l ts i direction d is_breaker mitigated mitigation_ts).

Definition range_size (z : t) : float := fsub (upper_bound z) (lower_bound z).
Definition midpoint (z : t) : float := half (fadd (upper_bound z) (lower_bound z)).
Definition is_bullish (z : t) : bool := bool_decide (direction z = BULLISH).
Definition is_bearish (z : t) : bool := bool_decide (direction z = BEARISH).
Definition to_zone (z : t) : res Zone.t :=
  Zone.create (symbol z) (timeframe z) ORDER_BLOCK (upper_bound z) (lower_bound z) (timestamp z)
    (candle_index z) (direction z).
End OrderBlock.

(** ** Fair value gap *)

Module FairValueGap.
Record t := mk {
  symbol : string; timeframe : Timeframe; upper_bound : float; lower_bound : float;
  timestamp : datetime; candle_index : Z; direction : Direction; filled : bool;
  fill_timestamp : option datetime; fill_percentage : float }.

Definition create (symbol : string) (tf : Timeframe) (upper_bound lower_bound : float) (ts : datetime)
    (candle_index : Z) (direction : Direction) (filled : bool) (fill_ts : option datetime)
    (fill_percentage : float) : res t :=
  s ← symbol_3_30 symbol;
  u ← field_gt0 upper_bound;
  l ← field_gt0 lower_bound;
  i ← int_field 0 None candle_index;
  p ← field_0_100 fill_percentage;
  _ ← check_bounds u l;
  Ok (mk s tf u l ts i direction filled fill_ts p).

Definition range_size (z : t) : float := fsub (upper_bound z) (lower_bound z).
Definition midpoint (z : t) : float := half (fadd (upper_bound z) (lower_bound z)).
Definition is_bullish (z : t) : bool := bool_decide (direction z = BULLISH).
Definition is_bearish (z : t) : bool := bool_decide (direction z = BEARISH).
Definition to_zone (z : t) : res Zone.t :=
  Zone.create (symbol z) (timeframe z) FVG (upper_bound z) (lower_bound z) (timestamp z)
    (candle_index z) (direction z).
End FairValueGap.

(** ** Breaker block *)

Module BreakerBlock.
Record t := mk {
  symbol : string; timeframe : Timeframe; upper_bound : float; lower_bound : float;
  timestamp : datetime; candle_index : Z; direction : Direction; original_ob_timestamp : datetime;
  broken_timestamp : datetime; mitigated : bool; mitigation_timestamp : option datetime }.

Definition create (symbol : string) (tf : Timeframe) (upper_bound lower_bound : float) (ts : datetime)
    (candle_index : Z) (direction : Direction) (original_ob_ts broken_ts : datetime) (mitigated : bool)
    (mitigation_ts : option datetime) : res t :=
  s ← symbol_3_30 symbol;
  u ← field_gt0 upper_bound;
  l ← field_gt0 lower_bound;
  i ← int_field 0 None candle_index;
  _ ← check_bounds u l;
  Ok (mk s tf u l ts i direction original_ob_ts broken_ts mitigated mitigation_ts).

Definition range_size (z : t) : float := fsub (upper_bound z) (lower_bound z).
Definition midpoint (z : t) : float := half (fadd (upper_bound z) (lower_bound z)).
Definition is_bullish (z : t) : bool := bool_decide (direction z = BULLISH).
Definition is_bearish (z : t) : bool := bool_decide (direction z = BEARISH).
Definition to_zone (z : t) : res Zone.t :=
  Zone.create (symbol z) (timeframe z) BREAKER (upper_bound z) (lower_bound z) (timestamp z)
    (candle_index z) (direction z).
End BreakerBlock.

(** ** Supply and demand zones *)

Module SupplyZone.
Record t := mk {
  symbol : string; timeframe : Timeframe; upper_bound : float; lower_bound : float;
  timestamp : datetime; qml_level : float; qml_timestamp : datetime; sr_flip_level : float;
  sr_flip_timestamp : datetime; is_valid : bool; strength : Z; tested : bool; test_count : Z;
  broken : bool; broken_timestamp : option datetime }.

Definition create (symbol : string) (tf : Timeframe) (upper_bound lower_bound : float) (ts : datetime)
    (qml_level : float) (qml_ts : datetime) (sr_flip_level : float) (sr_flip_ts : datetime)
    (is_valid : bool) (strength : Z) (tested : bool) (test_count : Z) (broken : bool)
    (broken_ts : option datetime) : res t :=
  s ← symbol_3_30 symbol;
  u ← field_gt0 upper_bound;
  l ← field_gt0 lower_bound;
  q ← field_gt0 qml_level;
  f ← field_gt0 sr_flip_level;
  st ← int_field 1 (Some 10) strength;
  tc ← int_field 0 None test_count;
  _ ← check_bounds u l;
  Ok (mk s tf u l ts q qml_ts f sr_flip_ts is_valid st tested tc broken broken_ts).

Definition candle_index (z : t) : Z := 0.
Definition range_size (z : t) : float := fsub (upper_bound z) (lower_bound z).
Definition midpoint (z : t) : float := half (fadd (upper_bound z) (lower_bound z)).
Definition to_zone (z : t) : res Zone.t :=
  Zone.create (symbol z) (timeframe z) SUPPLY (upper_bound z) (lower_bound z) (timestamp z)
    (candle_index z) BEARISH.
End SupplyZone.

Module DemandZone.
Record t := mk {
  symbol : string; timeframe : Timeframe; upper_bound : float; lower_bound : float;
  timestamp : datetime; qmh_level : float; qmh_timestamp : datetime; rs_flip_level : float;
  rs_flip_timestamp : datetime; is_valid : bool; strength : Z; tested : bool; test_count : Z;
  broken : bool; broken_timestamp : option datetime }.

Definition create (symbol : string) (tf : Timeframe) (upper_bound lower_bound : float) (ts : datetime)
    (qmh_level : float) (qmh_ts : datetime) (rs_flip_level : float) (rs_flip_ts : datetime)
    (is_valid : bool) (strength : Z) (tested : bool) (test_count : Z) (broken : bool)
    (broken_ts : option datetime) : res t :=
  s ← symbol_3_30 symbol;
  u ← field_gt0 upper_bound;
  l ← field_gt0 lower_bound;
  q ← field_gt0 qmh_level;
  f ← field_gt0 rs_flip_level;
  st ← int_field 1 (Some 10) strength;
  tc ← int_field 0 None test_count;
  _ ← check_bounds u l;
  Ok (mk s tf u l ts q qmh_ts f rs_flip_ts is_valid st tested tc broken broken_ts).

Definition candle_index (z : t) : Z := 0.
Definition range_size (z : t) : float := fsub (upper_bound z) (lower_bound z).
Definition midpoint (z : t) : float := half (fadd (upper_bound z) (lower_bound z)).
Definition to_zone (z : t) : res Zone.t :=
  Zone.create (symbol z) (timeframe z) DEMAND (upper_bound z) (lower_bound z) (timestamp z)
    (candle_index z) BULLISH.
End DemandZone.

(** ** Quasimodo level *)

Module QuasiModoLevel.
Record t := mk {
  symbol : string; timeframe : Timeframe; qml_price : float; timestamp : datetime; candle_index : Z;
  direction : Direction;
  h_price : option float; hh_price : option float; h_timestamp : option datetime;
  hh_timestamp : option datetime; hh_index : option Z;
  l_price : option float; ll_price : option float; l_timestamp : option datetime;
  ll_timestamp : option datetime; ll_index : option Z;
  break_timestamp : datetime; is_valid : bool; tested : bool; test_timestamp : option datetime }.

Definition create (symbol : string) (tf : Timeframe) (qml_price : float) (ts : datetime)
    (candle_index : Z) (direction : Direction)
    (h_price hh_price : option float) (h_ts hh_ts : option datetime) (hh_index : option Z)
    (l_price ll_price : option float) (l_ts ll_ts : option datetime) (ll_index : option Z)
    (break_ts : datetime) (is_valid tested : bool) (test_ts : option datetime) : res t :=
  s ← symbol_3_30 symbol;
  p ← field_gt0 qml_price;
  i ← int_field 0 None candle_index;
  h ← opt_gt0 h_price;
  hh ← opt_gt0 hh_price;
  hi ← opt_ge0 hh_index;
  l ← opt_gt0 l_price;
  ll ← opt_gt0 ll_price;
  li ← opt_ge0 ll_index;
  Ok (mk s tf p ts i direction h hh h_ts hh_ts hi l ll l_ts ll_ts li break_ts is_valid tested test_ts).

Definition level (q : t) : float := qml_price q.

(** [x or 0.0]: a missing or zero price is 0.0. *)
Definition or_zero (x : option float) : float :=
  match x with Some y => if feq y fzero then fzero else y | None => fzero end.

Definition h1_price (q : t) : float :=
  match h_price q with Some p => p | None => or_zero (l_price q) end.
Definition h2_price (q : t) : float :=
  match hh_price q with Some p => p | None => or_zero (ll_price q) end.
Definition h1_timestamp (q : t) : option datetime :=
  match h_timestamp q with Some x => Some x | None => l_timestamp q end.
Definition h2_timestamp (q : t) : option datetime :=
  match hh_timestamp q with Some x => Some x | None => ll_timestamp q end.
Definition break_candle_index (q : t) : Z := candle_index q.
Definition h2_index (q : t) : option Z :=
  match hh_index q with Some x => Some x | None => ll_index q end.
Definition l2_index (q : t) : option Z :=
  match ll_index q with Some x => Some x | None => hh_index q end.
Definition is_qml (q : t) : bool := bool_decide (direction q = BEARISH).
Definition is_qmh (q : t) : bool := bool_decide (direction q = BULLISH).
End QuasiModoLevel.

(** ** Mini price level *)

Module MiniPriceLevel.
Record t := mk {
  symbol : string; timeframe : Timeframe; level : float; timestamp : datetime; candle_index : Z;
  direction : Direction; has_internal_structure : bool; is_type1 : bool; tested : bool;
  test_timestamp : option datetime }.

Definition create (symbol : string) (tf : Timeframe) (level : float) (ts : datetime) (candle_index : Z)
    (direction : Direction) (has_internal_structure is_type1 tested : bool)
    (test_ts : option datetime) : res t :=
  s ← symbol_3_30 symbol;
  l ← field_gt0 level;
  i ← int_field 0 None candle_index;
  Ok (mk s tf l ts i direction has_internal_structure is_type1 tested test_ts).

Definition mpl_price (m : t) : float := level m.
Definition is_bullish (m : t) : bool := bool_decide (direction m = BULLISH).
Definition is_bearish (m : t) : bool := bool_decide (direction m = BEARISH).
End MiniPriceLevel.

(** ** What the priced zones have in common *)

Class ZoneLike (A : Type) := {
  z_symbol : A -> string; z_timeframe : A -> Timeframe; z_type : ZoneType;
  z_upper : A -> float; z_lower : A -> float; z_timestamp : A -> datetime; z_index : A -> Z;
  z_direction : A -> Direction; z_to_zone : A -> res Zone.t }.

(** The contract of a class: it converts to the zone with its own fields. *)
Class ZoneLikeLaws (A : Type) `{ZoneLike A} : Prop :=
  z_to_zone_eq : forall a, z_to_zone a =
    Zone.create (z_symbol a) (z_timeframe a) z_type (z_upper a) (z_lower a) (z_timestamp a)
      (z_index a) (z_direction a).

#[export] Instance OrderBlock_zone : ZoneLike OrderBlock.t := {|
  z_symbol := OrderBlock.symbol; z_timeframe := OrderBlock.timeframe; z_type := ORDER_BLOCK;
  z_upper := OrderBlock.upper_bound; z_lower := OrderBlock.lower_bound;
  z_timestamp := OrderBlock.timestamp; z_index := OrderBlock.candle_index;
  z_direction := OrderBlock.direction; z_to_zone := OrderBlock.to_zone |}.
#[export] Instance FairValueGap_zone : ZoneLike FairValueGap.t := {|
  z_symbol := FairValueGap.symbol; z_timeframe := FairValueGap.timeframe; z_type := FVG;
  z_upper := FairValueGap.upper_bound; z_lower := FairValueGap.lower_bound;
  z_timestamp := FairValueGap.timestamp; z_index := FairValueGap.candle_index;
  z_direction := FairValueGap.direction; z_to_zone := FairValueGap.to_zone |}.
#[export] Instance BreakerBlock_zone : ZoneLike BreakerBlock.t := {|
  z_symbol := BreakerBlock.symbol; z_timeframe := BreakerBlock.timeframe; z_type := BREAKER;
  z_upper := BreakerBlock.upper_bound; z_lower := BreakerBlock.lower_bound;
  z_timestamp := BreakerBlock.timestamp; z_index := BreakerBlock.candle_index;
  z_direction := BreakerBlock.direction; z_to_zone := BreakerBlock.to_zone |}.
#[export] Instance SupplyZone_zone : ZoneLike SupplyZone.t := {|
  z_symbol := SupplyZone.symbol; z_timeframe := SupplyZone.timeframe; z_type := SUPPLY;
  z_upper := SupplyZone.upper_bound; z_lower := SupplyZone.lower_bound;
  z_timestamp := SupplyZone.timestamp; z_index := SupplyZone.candle_index;
  z_direction := fun _ => BEARISH; z_to_zone := SupplyZone.to_zone |}.
#[export] Instance DemandZone_zone : ZoneLike DemandZone.t := {|
  z_symbol := DemandZone.symbol; z_timeframe := DemandZone.timeframe; z_type := DEMAND;
  z_upper := DemandZone.upper_bound; z_lower := DemandZone.lower_bound;
  z_timestamp := DemandZone.timestamp; z_index := DemandZone.candle_index;
  z_direction := fun _ => BULLISH; z_to_zone := DemandZone.to_zone |}.

#[export] Instance OrderBlock_zone_laws : ZoneLikeLaws OrderBlock.t.
Proof. intros a. reflexivity. Qed.
#[export] Instance FairValueGap_zone_laws : ZoneLikeLaws FairValueGap.t.
Proof. intros a. reflexivity. Qed.
#[export] Instance BreakerBlock_zone_laws : ZoneLikeLaws BreakerBlock.t.
Proof. intros a. reflexivity. Qed.
#[export] Instance SupplyZone_zone_laws : ZoneLikeLaws SupplyZone.t.
Proof. intros a. reflexivity. Qed.
#[export] Instance DemandZone_zone_laws : ZoneLikeLaws DemandZone.t.
Proof. intros a. reflexivity. Qed.

Module ZoneFacts.

(** The invariant of a priced zone. *)
Record zone_ok {A} `{ZoneLike A} (a : A) : Prop := {
  zo_upper : flt fzero (z_upper a) = true;
  zo_lower : flt fzero (z_lower a) = true;
  zo_bounds : fle (z_upper a) (z_lower a) = false;
  zo_index : 0 <= z_index a }.

Lemma check_bounds_Ok u l x : check_bounds u l = Ok x -> fle u l = false.
Proof. unfold check_bounds. by destruct (fle u l). Qed.
Lemma check_bounds_intro u l : fle u l = false -> check_bounds u l = Ok tt.
Proof. unfold check_bounds. by intros ->. Qed.

Lemma symbol_3_30_Ok s r :
  symbol_3_30 s = Ok r -> r = normalize_symbol (str_strip s) /\ 3 <= str_len (str_strip s) <= 30.
Proof.
  unfold symbol_3_30. intros H. inv_binds. apply CandleFacts.str_field_Ok in E as [-> Hl]. by subst.
Qed.

(** Read the accepted fields off a successful [create]. *)
Ltac inv_fields :=
  repeat match goal with
  | H : symbol_3_30 _ = Ok _ |- _ => apply symbol_3_30_Ok in H as [-> ?]
  | H : field_gt0 _ = Ok _ |- _ => apply field_gt0_Ok in H as [-> ?]
  | H : field_ge0 _ = Ok _ |- _ => apply field_ge0_Ok in H as [-> ?]
  | H : int_field _ _ _ = Ok _ |- _ => apply int_field_Ok in H as (-> & ? & ?)
  | H : check_bounds _ _ = Ok _ |- _ => apply check_bounds_Ok in H
  end.

(** Run the checks of a [create] whose fields are acceptable. *)
Ltac run_fields :=
  rewrite ?field_gt0_intro, ?field_ge0_intro by assumption; cbn [mbind res_bind].

Lemma OrderBlock_create_ok s tf u l ts i d dp b m mts z :
  OrderBlock.create s tf u l ts i d dp b m mts = Ok z -> zone_ok z.
Proof. unfold OrderBlock.create. intros H. inv_binds. inv_fields. subst z. constructor; simpl; done. Qed.
Lemma FairValueGap_create_ok s tf u l ts i d f fts p z :
  FairValueGap.create s tf u l ts i d f fts p = Ok z -> zone_ok z.
Proof. unfold FairValueGap.create. intros H. inv_binds. inv_fields. subst z. constructor; simpl; done. Qed.
Lemma BreakerBlock_create_ok s tf u l ts i d ots bts m mts z :
  BreakerBlock.create s tf u l ts i d ots bts m mts = Ok z -> zone_ok z.
Proof. unfold BreakerBlock.create. intros H. inv_binds. inv_fields. subst z. constructor; simpl; done. Qed.
Lemma SupplyZone_create_ok s tf u l ts q qts f fts v st te tc b bts z :
  SupplyZone.create s tf u l ts q qts f fts v st te tc b bts = Ok z -> zone_ok z.
Proof. unfold SupplyZone.create. intros H. inv_binds. inv_fields. subst z. constructor; simpl; done. Qed.
Lemma DemandZone_create_ok s tf u l ts q qts f fts v st te tc b bts z :
  DemandZone.create s tf u l ts q qts f fts v st te tc b bts = Ok z -> zone_ok z.
Proof. unfold DemandZone.create. intros H. inv_binds. inv_fields. subst z. constructor; simpl; done. Qed.

(** The conversion of a zone that satisfies the invariant depends on its symbol
    only. *)
Lemma to_zone_spec {A} `{ZoneLikeLaws A} (a : A) :
  zone_ok a ->
  z_to_zone a =
    if (3 <=? str_len (str_strip (z_symbol a))) && (str_len (str_strip (z_symbol a)) <=? 30)
    then Ok (Zone.mk (normalize_symbol (str_strip (z_symbol a))) (z_timeframe a) z_type (z_upper a)
               (z_lower a) (z_timestamp a) (z_index a) (z_direction a))
    else Raise ValidationError.
Proof.
  intros []. rewrite z_to_zone_eq. unfold Zone.create, symbol_3_30, str_field. cbv zeta.
  destruct ((3 <=? _) && _); [|done]. cbn [fmap res_fmap mbind res_bind].
  rewrite !field_gt0_intro by done. unfold int_field. rewrite (proj2 (Z.leb_le _ _)) by done.
  cbn [mbind res_bind andb]. by rewrite check_bounds_intro.
Qed.

(** Overlap of two intervals: the greater of the lower bounds is in both. *)
Lemma overlaps_iff (a b : Zone.t) :
  num (Zone.upper_bound a) -> num (Zone.lower_bound a) ->
  num (Zone.upper_bound b) -> num (Zone.lower_bound b) ->
  fv (Zone.lower_bound a) <= fv (Zone.upper_bound a) ->
  fv (Zone.lower_bound b) <= fv (Zone.upper_bound b) ->
  Zone.overlaps_with a b = true <->
  exists p, num p /\ Zone.contains_price a p = true /\ Zone.contains_price b p = true.
Proof.
  intros Nua Nla Nub Nlb Ha Hb. unfold Zone.overlaps_with, Zone.contains_price.
  rewrite !flt_fv, negb_true_iff, orb_false_iff, !Z.ltb_ge by done. split.
  - intros [H1 H2]. exists (fmax (Zone.lower_bound a) (Zone.lower_bound b)).
    destruct (fmax_num (Zone.lower_bound a) (Zone.lower_bound b)) as [Np Ep]; [done..|].
    split; [done|]. rewrite !andb_true_iff, !fle_fv, !Z.leb_le, Ep by done. lia.
  - intros (p & Np & Hpa & Hpb). rewrite andb_true_iff, !fle_fv, !Z.leb_le in Hpa, Hpb by done. lia.
Qed.
End ZoneFacts.
