(* ===== verification/StructureModels.v ===== *)
(** * Structure models: [engine/ta/models/structure_event.py]

    The breaks and shifts of market structure the detectors report, and the
    conversion of each to the common [StructureEvent]. *)

From Stdlib Require Import ZArith Lia Bool String.
From stdpp Require Import base list strings.
From S2P Require Import Prelude PyFloat FloatRound PyText Constants PriceMath Candles Swings Liquidity ZoneModels.

#[local] Open Scope string_scope.
#[local] Open Scope Z_scope.

Module StructureEvent.
Record t := mk {
  symbol : string; timeframe : Timeframe; event_type : StructureType; timestamp : datetime;
  price : float; direction : Direction; broken_level : float; broken_level_timestamp : datetime;
  candle_index : Z }.

Definition create (symbol : string) (tf : Timeframe) (event_type : StructureType) (ts : datetime)
    (price : float) (direction : Direction) (broken_level : float) (broken_ts : datetime)
    (candle_index : Z) : res t :=
  s ← symbol_3_30 symbol;
  p ← field_gt0 price;
  b ← field_gt0 broken_level;
  i ← int_field 0 None candle_index;
  Ok (mk s tf event_type ts p direction b broken_ts i).

Definition is_bullish (e : t) : bool := bool_decide (direction e = BULLISH).
Definition is_bearish (e : t) : bool := bool_decide (direction e = BEARISH).
End StructureEvent.

Module BreakOfStructure.
Record t := mk {
  symbol : string; timeframe : Timeframe; timestamp : datetime; direction : Direction;
  broken_level : float; broken_level_timestamp : datetime; breakout_price : float;
  candle_index : Z; displacement_pips : float }.

Definition create (symbol : string) (tf : Timeframe) (ts : datetime) (direction : Direction)
    (broken_level : float) (broken_ts : datetime) (breakout_price : float) (candle_index : Z)
    (displacement_pips : float) : res t :=
  s ← symbol_3_30 symbol;
  b ← field_gt0 broken_level;
  p ← field_gt0 breakout_price;
  i ← int_field 0 None candle_index;
  d ← field_ge0 displacement_pips;
  Ok (mk s tf ts direction b broken_ts p i d).

Definition is_bullish (e : t) : bool := bool_decide (direction e = BULLISH).
Definition is_bearish (e : t) : bool := bool_decide (direction e = BEARISH).
Definition to_structure_event (e : t) : res StructureEvent.t :=
  StructureEvent.create (symbol e) (timeframe e) BOS (timestamp e) (breakout_price e) (direction e)
    (broken_level e) (broken_level_timestamp e) (candle_index e).
End BreakOfStructure.

Module ChangeOfCharacter.
Record t := mk {
  symbol : string; timeframe : Timeframe; timestamp : datetime; direction : Direction;
  broken_level : float; broken_level_timestamp : datetime; breakout_price : float;
  candle_index : Z; is_minor : bool }.

Definition create (symbol : string) (tf : Timeframe) (ts : datetime) (direction : Direction)
    (broken_level : float) (broken_ts : datetime) (breakout_price : float) (candle_index : Z)
    (is_minor : bool) : res t :=
  s ← symbol_3_30 symbol;
  b ← field_gt0 broken_level;
  p ← field_gt0 breakout_price;
  i ← int_field 0 None candle_index;
  Ok (mk s tf ts direction b broken_ts p i is_minor).

Definition is_bullish (e : t) : bool := bool_decide (direction e = BULLISH).
Definition is_bearish (e : t) : bool := bool_decide (direction e = BEARISH).
Definition to_structure_event (e : t) : res StructureEvent.t :=
  StructureEvent.create (symbol e) (timeframe e) CHOCH (timestamp e) (breakout_price e) (direction e)
    (broken_level e) (broken_level_timestamp e) (candle_index e).
End ChangeOfCharacter.

Module BreakInMarketStructure.
Record t := mk {
  symbol : string; timeframe : Timeframe; timestamp : datetime; direction : Direction;
  broken_level : float; broken_level_timestamp : datetime; breakout_price : float;
  candle_index : Z; displacement_pips : float; confirmed : bool }.

Definition create (symbol : string) (tf : Timeframe) (ts : datetime) (direction : Direction)
    (broken_level : float) (broken_ts : datetime) (breakout_price : float) (candle_index : Z)
    (displacement_pips : float) (confirmed : bool) : res t :=
  s ← symbol_3_30 symbol;
  b ← field_gt0 broken_level;
  p ← field_gt0 breakout_price;
  i ← int_field 0 None candle_index;
  d ← field_ge0 displacement_pips;
  Ok (mk s tf ts direction b broken_ts p i d confirmed).

Definition is_bullish (e : t) : bool := bool_decide (direction e = BULLISH).
Definition is_bearish (e : t) : bool := bool_decide (direction e = BEARISH).
Definition to_structure_event (e : t) : res StructureEvent.t :=
  StructureEvent.create (symbol e) (timeframe e) BMS (timestamp e) (breakout_price e) (direction e)
    (broken_level e) (broken_level_timestamp e) (candle_index e).
End BreakInMarketStructure.

Module ShiftInMarketStructure.
Record t := mk {
  symbol : string; timeframe : Timeframe; timestamp : datetime; direction : Direction;
  failed_level : float; failed_level_timestamp : datetime; reversal_price : float;
  candle_index : Z; is_failure_swing : bool }.

Definition create (symbol : string) (tf : Timeframe) (ts : datetime) (direction : Direction)
    (failed_level : float) (failed_ts : datetime) (reversal_price : float) (candle_index : Z)
    (is_failure_swing : bool) : res t :=
  s ← symbol_3_30 symbol;
  b ← field_gt0 failed_level;
  p ← field_gt0 reversal_price;
  i ← int_field 0 None candle_index;
  Ok (mk s tf ts direction b failed_ts p i is_failure_swing).

Definition is_bullish (e : t) : bool := bool_decide (direction e = BULLISH).
Definition is_bearish (e : t) : bool := bool_decide (direction e = BEARISH).
Definition to_structure_event (e : t) : res StructureEvent.t :=
  StructureEvent.create (symbol e) (timeframe e) SMS (timestamp e) (reversal_price e) (direction e)
    (failed_level e) (failed_level_timestamp e) (candle_index e).
End ShiftInMarketStructure.

Module SRFlip.
Record t := mk {
  symbol : string; timeframe : Timeframe; timestamp : datetime; original_support_level : float;
  original_support_timestamp : datetime; breakout_candle_index : Z; breakout_price : float;
  new_resistance_level : float; direction : Direction; is_valid : bool }.

Definition create (symbol : string) (tf : Timeframe) (ts : datetime) (level : float)
    (level_ts : datetime) (breakout_candle_index : Z) (breakout_price new_level : float)
    (direction : Direction) (is_valid : bool) : res t :=
  s ← symbol_3_30 symbol;
  l ← field_gt0 level;
  i ← int_field 0 None breakout_candle_index;
  p ← field_gt0 breakout_price;
  n ← field_gt0 new_level;
  Ok (mk s tf ts l level_ts i p n direction is_valid).

Definition flip_level (e : t) : float := original_support_level e.
Definition previous_role (e : t) : string := "SUPPORT".
Definition new_role (e : t) : string := "RESISTANCE".
Definition to_structure_event (e : t) : res StructureEvent.t :=
  StructureEvent.create (symbol e) (timeframe e) SR_FLIP (timestamp e) (breakout_price e) BEARISH
    (original_support_level e) (original_support_timestamp e) (breakout_candle_index e).
End SRFlip.

Module RSFlip.
Record t := mk {
  symbol : string; timeframe : Timeframe; timestamp : datetime; original_resistance_level : float;
  original_resistance_timestamp : datetime; breakout_candle_index : Z; breakout_price : float;
  new_support_level : float; direction : Direction; is_valid : bool }.

Definition create (symbol : string) (tf : Timeframe) (ts : datetime) (level : float)
    (level_ts : datetime) (breakout_candle_index : Z) (breakout_price new_level : float)
    (direction : Direction) (is_valid : bool) : res t :=
  s ← symbol_3_30 symbol;
  l ← field_gt0 level;
  i ← int_field 0 None breakout_candle_index;
  p ← field_gt0 breakout_price;
  n ← field_gt0 new_level;
  Ok (mk s tf ts l level_ts i p n direction is_valid).

Definition flip_level (e : t) : float := original_resistance_level e.
Definition previous_role (e : t) : string := "RESISTANCE".
Definition new_role (e : t) : string := "SUPPORT".
Definition to_structure_event (e : t) : res StructureEvent.t :=
  StructureEvent.create (symbol e) (timeframe e) RS_FLIP (timestamp e) (breakout_price e) BULLISH
    (original_resistance_level e) (original_resistance_timestamp e) (breakout_candle_index e).
End RSFlip.
