(* ===== verification/SMCConfig.v ===== *)
(** * SMC configuration: [engine/ta/smc/config.py]

    The settings object: every numeric field with its bounds.  [create] is the
    validation pydantic runs on values taken from the environment, [default] the
    object built when nothing is set. *)

From Stdlib Require Import ZArith Lia Bool String.
From stdpp Require Import base list strings.
From S2P Require Import Prelude PyFloat FloatRound Candles.

#[local] Open Scope Z_scope.

(** [float = Field(ge=lo, le=hi)]. *)
Definition float_field (lo hi x : float) : res float :=
  if fle lo x && fle x hi then Ok x else Raise ValidationError.

Module SMCConfig.
Record t := mk {
  enabled : bool;
  min_displacement_pips : float;
  bms_strong_displacement_pips : float;
  bms_moderate_displacement_pips : float;
  bms_weak_confirm_candles : Z;
  min_sweep_pips : float;
  turtle_soup_min_pips : float;
  turtle_soup_min_sl_pips : float;
  ob_sl_buffer_pips : float;
  ob_sl_buffer_range_pct : float;
  ob_body_percentage_threshold : float;
  fvg_min_gap_pips : float;
  require_fvg_with_ob : bool;
  require_premium_discount : bool;
  require_session_timing : bool;
  require_htf_bms_alignment : bool;
  min_confluences : Z;
  enable_turtle_soup : bool;
  enable_sh_bms_rto : bool;
  enable_sms_bms_rto : bool;
  enable_amd : bool;
  enable_combined_patterns : bool;
  enable_choch_reversal : bool;
  fibonacci_tolerance_pips : float;
  fvg_max_candle_distance : Z;
  sweep_max_candle_distance : Z;
  sms_max_ob_candle_distance : Z;
  min_take_profit_rr : float;
  inducement_min_break_pips : float }.

(** Validation of a candidate record: the constraint of every field. *)
Definition create (c : t) : res t :=
  _ ← float_field (of_Z 10) (of_Z 100) (min_displacement_pips c);
  _ ← float_field (of_Z 20) (of_Z 200) (bms_strong_displacement_pips c);
  _ ← float_field (of_Z 15) (of_Z 100) (bms_moderate_displacement_pips c);
  _ ← int_field 3 (Some 10) (bms_weak_confirm_candles c);
  _ ← float_field (of_Z 2) (of_Z 20) (min_sweep_pips c);
  _ ← float_field (of_Z 2) (of_Z 20) (turtle_soup_min_pips c);
  _ ← float_field (of_Z 5) (of_Z 30) (turtle_soup_min_sl_pips c);
  _ ← float_field (of_Z 1) (of_Z 10) (ob_sl_buffer_pips c);
  _ ← float_field (lit 5 2) (lit 30 2) (ob_sl_buffer_range_pct c);
  _ ← float_field (of_Z 30) (of_Z 80) (ob_body_percentage_threshold c);
  _ ← float_field (of_Z 1) (of_Z 10) (fvg_min_gap_pips c);
  _ ← int_field 0 (Some 10) (min_confluences c);
  _ ← float_field (of_Z 1) (of_Z 20) (fibonacci_tolerance_pips c);
  _ ← int_field 1 (Some 20) (fvg_max_candle_distance c);
  _ ← int_field 3 (Some 30) (sweep_max_candle_distance c);
  _ ← int_field 10 (Some 200) (sms_max_ob_candle_distance c);
  _ ← float_field (lit 5 1) (of_Z 5) (min_take_profit_rr c);
  _ ← float_field fzero (of_Z 50) (inducement_min_break_pips c);
  Ok c.

Definition default : t := {|
  enabled := true;
  min_displacement_pips := of_Z 20;
  bms_strong_displacement_pips := of_Z 50;
  bms_moderate_displacement_pips := of_Z 30;
  bms_weak_confirm_candles := 5;
  min_sweep_pips := of_Z 5;
  turtle_soup_min_pips := of_Z 5;
  turtle_soup_min_sl_pips := of_Z 10;
  ob_sl_buffer_pips := of_Z 2;
  ob_sl_buffer_range_pct := lit 10 2;
  ob_body_percentage_threshold := of_Z 50;
  fvg_min_gap_pips := of_Z 2;
  require_fvg_with_ob := true;
  require_premium_discount := true;
  require_session_timing := true;
  require_htf_bms_alignment := true;
  min_confluences := 3;
  enable_turtle_soup := true;
  enable_sh_bms_rto := true;
  enable_sms_bms_rto := true;
  enable_amd := true;
  enable_combined_patterns := true;
  enable_choch_reversal := true;
  fibonacci_tolerance_pips := of_Z 5;
  fvg_max_candle_distance := 5;
  sweep_max_candle_distance := 10;
  sms_max_ob_candle_distance := 20;
  min_take_profit_rr := of_Z 1;
  inducement_min_break_pips := of_Z 1 |}.

Definition float_fields (c : t) : list float :=
  [min_displacement_pips c; bms_strong_displacement_pips c; bms_moderate_displacement_pips c;
   min_sweep_pips c; turtle_soup_min_pips c; turtle_soup_min_sl_pips c; ob_sl_buffer_pips c;
   ob_sl_buffer_range_pct c; ob_body_percentage_threshold c; fvg_min_gap_pips c;
   fibonacci_tolerance_pips c; min_take_profit_rr c; inducement_min_break_pips c].

(** The configurations the constructor lets through; their floats are floats of
    the machine, so in canonical form. *)
Class valid_config (c : t) : Prop := {
  validated : create c = Ok c;
  canonical : forall x, In x (float_fields c) -> valid x = true }.

#[export] Instance default_valid : valid_config default.
Proof.
  constructor; [vm_compute; reflexivity|]. intros x Hx.
  apply (proj1 (List.Forall_forall (fun x => valid x = true) (float_fields default))); [|exact Hx].
  repeat constructor.
Qed.

Lemma create_id c d : create c = Ok d -> d = c.
Proof. unfold create. intros H. inv_binds. done. Qed.

(** What the constraints say of the values the detectors compute with. *)
Record ranges (c : t) : Prop := {
  r_displacement : fin (min_displacement_pips c) /\ fv (of_Z 10) <= fv (min_displacement_pips c) <= fv (of_Z 100);
  r_strong : fin (bms_strong_displacement_pips c);
  r_moderate : fin (bms_moderate_displacement_pips c);
  r_weak : 3 <= bms_weak_confirm_candles c <= 10;
  r_soup : fin (turtle_soup_min_pips c) /\ fv (of_Z 2) <= fv (turtle_soup_min_pips c);
  r_soup_sl : fin (turtle_soup_min_sl_pips c) /\ fv (of_Z 5) <= fv (turtle_soup_min_sl_pips c) <= fv (of_Z 30);
  r_buffer : fin (ob_sl_buffer_range_pct c) /\
    fv (lit 5 2) <= fv (ob_sl_buffer_range_pct c) <= fv (lit 30 2);
  r_body : fin (ob_body_percentage_threshold c) /\
    fv (of_Z 30) <= fv (ob_body_percentage_threshold c) <= fv (of_Z 80);
  r_gap : fin (fvg_min_gap_pips c) /\ fv (of_Z 1) <= fv (fvg_min_gap_pips c) <= fv (of_Z 10);
  r_fib : fin (fibonacci_tolerance_pips c) /\ fv (of_Z 1) <= fv (fibonacci_tolerance_pips c);
  r_fvg_distance : 1 <= fvg_max_candle_distance c <= 20;
  r_sweep_distance : 3 <= sweep_max_candle_distance c <= 30;
  r_sms_distance : 10 <= sms_max_ob_candle_distance c <= 200;
  r_rr : fin (min_take_profit_rr c) /\ fv (lit 5 1) <= fv (min_take_profit_rr c) <= fv (of_Z 5);
  r_break : fin (inducement_min_break_pips c) /\
    fv fzero <= fv (inducement_min_break_pips c) <= fv (of_Z 50) }.

Lemma float_field_range lo hi x y :
  fin lo -> fin hi -> valid x = true -> float_field lo hi x = Ok y -> fin x /\ fv lo <= fv x <= fv hi.
Proof.
  intros Fl Fh Vx H. unfold float_field in H. destruct (fle lo x && fle x hi) eqn:E; [|done].
  apply andb_true_iff in E as [E1 E2].
  assert (Nx : num x).
  { split; [done|]. by destruct x, lo. }
  rewrite fle_fv in E1, E2 by auto using fin_num. zbool.
  split; [|lia]. by apply (num_finite_of_bounds x lo hi).
Qed.

Lemma int_field_range lo hi n m : int_field lo (Some hi) n = Ok m -> lo <= n <= hi.
Proof. intros H. apply int_field_Ok in H as (_ & Hl & Hh). specialize (Hh hi eq_refl). lia. Qed.

Lemma valid_ranges c : valid_config c -> ranges c.
Proof.
  intros [V C]. unfold create in V. inv_binds.
  assert (Hv : forall x, In x (float_fields c) -> forall lo hi y, fin lo -> fin hi ->
    float_field lo hi x = Ok y -> fin x /\ fv lo <= fv x <= fv hi).
  { intros x Hx lo hi y Fl Fh. apply float_field_range; auto. }
  unfold float_fields in Hv. simpl in Hv.
  repeat match goal with H : int_field _ (Some _) _ = Ok _ |- _ => apply int_field_range in H end.
  constructor; try assumption;
    match goal with H : float_field ?lo ?hi ?x = Ok ?y |- context [?x] =>
      destruct (Hv x ltac:(tauto) lo hi y ltac:(split; reflexivity) ltac:(split; reflexivity) H) as (? & ? & ?);
      split_and?; assumption end.
Qed.
End SMCConfig.
