(* ===== verification/Candidates.v ===== *)
(** * Candidate models: [engine/ta/models/candidate.py]

    The trade candidates both frameworks hand to the processor.  A class is a
    record of its fields; [create] is the constructor call: given the arguments as
    a record (defaults filled in), it runs the field constraints and returns the
    validated model.  [dict\[str, Any\]] fields are association lists in insertion
    order. *)

From Stdlib Require Import ZArith Lia Bool Ascii String SpecFloat.
From stdpp Require Import base list strings.
From S2P Require Import Prelude Loops PyFloat FloatRound PyRound PyText PyRepr Sha256 Constants PriceMath Candles Liquidity ZoneModels.

#[local] Open Scope string_scope.
#[local] Open Scope list_scope.
#[local] Open Scope Z_scope.

(** ** Values of dictionaries *)

Inductive value :=
| VNone | VBool (b : bool) | VInt (n : Z) | VFloat (x : float) | VStr (s : string)
| VDict (kvs : list (string * value)) | VList (vs : list value).

Abbreviation dict := (list (string * value)).

Fixpoint dict_lookup (k : string) (d : dict) : option value :=
  match d with
  | [] => None
  | (k', v) :: d => if String.eqb k k' then Some v else dict_lookup k d
  end.

(** [d\[k\] = v]: a key already there keeps its place. *)
Fixpoint dict_set (k : string) (v : value) (d : dict) : dict :=
  match d with
  | [] => [(k, v)]
  | (k', v') :: d => if String.eqb k k' then (k', v) :: d else (k', v') :: dict_set k v d
  end.

Definition dict_pop (k : string) (d : dict) : dict := List.filter (fun kv => negb (String.eqb (fst kv) k)) d.

Definition VOptFloat (x : option float) : value := match x with Some y => VFloat y | None => VNone end.
Definition VOptTime (x : option datetime) : value :=
  match x with Some d => VStr (isoformat d) | None => VNone end.

(** [a or b] on optional floats: 0.0 is falsy. *)
Definition float_or (a b : option float) : option float :=
  match a with Some x => if feq x fzero then b else a | None => b end.

(** [Optional\[float\] = Field(default=None, ge=0)]. *)
Definition opt_fge0 (x : option float) : res (option float) :=
  match x with Some y => z ← field_ge0 y; Ok (Some z) | None => Ok None end.

(** The [symbol] field of the candidate classes. *)
Definition symbol_2_20 (s : string) : res string := normalize_symbol <$> str_field 2 20 s.

(** ** Technical candidates *)

Module TechnicalCandidate.
Record t := mk {
  symbol : string; timeframe : Timeframe; pattern : CandidatePattern; direction : Direction;
  timestamp : datetime; entry_price : float; stop_loss : float; take_profit : option float;
  risk_reward_ratio : option float; framework : string; htf_timeframe : option Timeframe;
  ltf_timeframe : option Timeframe; htf_context : dict; ltf_confirmation : dict;
  zone_upper : option float; zone_lower : option float; liquidity_swept : bool;
  swept_level : option float; structure_broken : bool; broken_level : option float;
  session_context : option string; fib_level : option string; metadata : dict }.

Definition create (c : t) : res t :=
  s ← symbol_2_20 (symbol c);
  e ← field_gt0 (entry_price c);
  l ← field_gt0 (stop_loss c);
  p ← opt_gt0 (take_profit c);
  r ← opt_gt0 (risk_reward_ratio c);
  _ ← require (String.eqb (framework c) "SMC" || String.eqb (framework c) "SND");
  zu ← opt_gt0 (zone_upper c);
  zl ← opt_gt0 (zone_lower c);
  sw ← opt_gt0 (swept_level c);
  br ← opt_gt0 (broken_level c);
  Ok (mk s (timeframe c) (pattern c) (direction c) (timestamp c) e l p r (framework c)
        (htf_timeframe c) (ltf_timeframe c) (htf_context c) (ltf_confirmation c) zu zl
        (liquidity_swept c) sw (structure_broken c) br (session_context c) (fib_level c) (metadata c)).

Definition is_bullish (c : t) : bool := bool_decide (direction c = BULLISH).
Definition is_bearish (c : t) : bool := bool_decide (direction c = BEARISH).
Definition is_smc (c : t) : bool := String.eqb (framework c) "SMC".
Definition is_snd (c : t) : bool := String.eqb (framework c) "SND".
Definition stop_loss_pips (c : t) : res float :=
  fdiv (fabs (fsub (entry_price c) (stop_loss c))) (pip_float (symbol c)).
Definition take_profit_pips (c : t) : res (option float) :=
  match take_profit c with
  | None => Ok None
  | Some p => q ← fdiv (fabs (fsub p (entry_price c))) (pip_float (symbol c)); Ok (Some q)
  end.
End TechnicalCandidate.

(** ** SMC candidates *)

Module SMCCandidate.
Record t := mk {
  symbol : string; timeframe : Timeframe; pattern : CandidatePattern; direction : Direction;
  timestamp : datetime; entry_price : float; stop_loss : float; take_profit : option float;
  htf_timeframe : Timeframe; ltf_timeframe : Timeframe;
  bms_detected : bool; bms_price : option float; bms_timestamp : option datetime;
  choch_detected : bool; choch_price : option float; choch_timestamp : option datetime;
  sms_detected : bool; sms_price : option float; sms_timestamp : option datetime;
  order_block_upper : option float; order_block_lower : option float;
  order_block_timestamp : option datetime;
  fvg_upper : option float; fvg_lower : option float; fvg_timestamp : option datetime;
  liquidity_swept : bool; swept_level : option float; sweep_timestamp : option datetime;
  inducement_cleared : bool; inducement_level : option float;
  ltf_confirmation : bool; ltf_confirmation_timestamp : option datetime;
  displacement_pips : option float; fib_level : option string; session_context : option string;
  metadata : dict }.

Definition create (c : t) : res t :=
  s ← symbol_2_20 (symbol c);
  e ← field_gt0 (entry_price c);
  l ← field_gt0 (stop_loss c);
  p ← opt_gt0 (take_profit c);
  bp ← opt_gt0 (bms_price c);
  cp ← opt_gt0 (choch_price c);
  sp ← opt_gt0 (sms_price c);
  ou ← opt_gt0 (order_block_upper c);
  ol ← opt_gt0 (order_block_lower c);
  fu ← opt_gt0 (fvg_upper c);
  fl ← opt_gt0 (fvg_lower c);
  sw ← opt_gt0 (swept_level c);
  il ← opt_gt0 (inducement_level c);
  dp ← opt_fge0 (displacement_pips c);
  Ok (mk s (timeframe c) (pattern c) (direction c) (timestamp c) e l p
        (htf_timeframe c) (ltf_timeframe c) (bms_detected c) bp (bms_timestamp c)
        (choch_detected c) cp (choch_timestamp c) (sms_detected c) sp (sms_timestamp c)
        ou ol (order_block_timestamp c) fu fl (fvg_timestamp c) (liquidity_swept c) sw
        (sweep_timestamp c) (inducement_cleared c) il (ltf_confirmation c)
        (ltf_confirmation_timestamp c) dp (fib_level c) (session_context c) (metadata c)).

Definition _ts (value : option datetime) : string :=
  match value with Some d => isoformat d | None => "-" end.

Definition source_signature (c : t) : string :=
  (_ts (bms_timestamp c) ++ "|" ++ _ts (sweep_timestamp c) ++ "|" ++ _ts (choch_timestamp c) ++ "|" ++
   _ts (sms_timestamp c) ++ "|" ++ _ts (order_block_timestamp c))%string.

Definition fingerprint (c : t) : string := str_take 8 (sha256_hexdigest (source_signature c)).

Definition candidate_id (c : t) : res string :=
  price ← py_round (entry_price c) 4;
  Ok (symbol c ++ "_" ++ pattern_value (pattern c) ++ "_" ++ direction_value (direction c) ++ "_" ++
      py_str_float price ++ "_" ++ fingerprint c)%string.

Definition is_bullish (c : t) : bool := bool_decide (direction c = BULLISH).
Definition is_bearish (c : t) : bool := bool_decide (direction c = BEARISH).

Definition to_technical_candidate (c : t) : res TechnicalCandidate.t :=
  let htf_context :=
    (if bms_detected c then [("bms_price", VOptFloat (bms_price c)); ("bms_timestamp", VOptTime (bms_timestamp c))]
     else []) ++
    (if choch_detected c
     then [("choch_price", VOptFloat (choch_price c)); ("choch_timestamp", VOptTime (choch_timestamp c))]
     else []) ++
    (if sms_detected c then [("sms_price", VOptFloat (sms_price c)); ("sms_timestamp", VOptTime (sms_timestamp c))]
     else []) in
  let ltf_confirmation :=
    [("confirmed", VBool (ltf_confirmation c));
     ("confirmation_timestamp", VOptTime (ltf_confirmation_timestamp c))] in
  TechnicalCandidate.create (TechnicalCandidate.mk
    (symbol c) (timeframe c) (pattern c) (direction c) (timestamp c) (entry_price c) (stop_loss c)
    (take_profit c) None "SMC" (Some (htf_timeframe c)) (Some (ltf_timeframe c)) htf_context
    ltf_confirmation (float_or (order_block_upper c) (fvg_upper c))
    (float_or (order_block_lower c) (fvg_lower c)) (liquidity_swept c) (swept_level c)
    (bms_detected c || choch_detected c) (float_or (bms_price c) (choch_price c))
    (session_context c) (fib_level c) (metadata c)).
End SMCCandidate.

(** ** SND candidates *)

Module SnDCandidate.
Record t := mk {
  symbol : string; timeframe : Timeframe; pattern : CandidatePattern; direction : Direction;
  timestamp : datetime; entry_price : float; stop_loss : float; take_profit : option float;
  htf_timeframe : Timeframe; ltf_timeframe : Timeframe;
  qml_detected : bool; qml_price : option float; qml_timestamp : option datetime;
  sr_flip_detected : bool; sr_flip_price : option float; sr_flip_timestamp : option datetime;
  rs_flip_detected : bool; rs_flip_price : option float; rs_flip_timestamp : option datetime;
  mpl_detected : bool; mpl_price : option float; mpl_timestamp : option datetime;
  supply_zone_upper : option float; supply_zone_lower : option float;
  supply_zone_timestamp : option datetime;
  demand_zone_upper : option float; demand_zone_lower : option float;
  demand_zone_timestamp : option datetime;
  fakeout_detected : bool; fakeout_level : option float; fakeout_timestamp : option datetime;
  previous_highs_count : Z; previous_lows_count : Z;
  marubozu_detected : bool; marubozu_timestamp : option datetime;
  compression_detected : bool; compression_candle_count : option Z;
  ltf_confirmation : bool; ltf_confirmation_timestamp : option datetime;
  fib_level : option string; session_context : option string; metadata : dict }.

Definition create (c : t) : res t :=
  s ← symbol_2_20 (symbol c);
  e ← field_gt0 (entry_price c);
  l ← field_gt0 (stop_loss c);
  p ← opt_gt0 (take_profit c);
  qp ← opt_gt0 (qml_price c);
  sr ← opt_gt0 (sr_flip_price c);
  rs ← opt_gt0 (rs_flip_price c);
  mp ← opt_gt0 (mpl_price c);
  su ← opt_gt0 (supply_zone_upper c);
  sl ← opt_gt0 (supply_zone_lower c);
  du ← opt_gt0 (demand_zone_upper c);
  dl ← opt_gt0 (demand_zone_lower c);
  fl ← opt_gt0 (fakeout_level c);
  ph ← int_field 0 None (previous_highs_count c);
  pl ← int_field 0 None (previous_lows_count c);
  cc ← opt_ge0 (compression_candle_count c);
  Ok (mk s (timeframe c) (pattern c) (direction c) (timestamp c) e l p (htf_timeframe c)
        (ltf_timeframe c) (qml_detected c) qp (qml_timestamp c) (sr_flip_detected c) sr
        (sr_flip_timestamp c) (rs_flip_detected c) rs (rs_flip_timestamp c) (mpl_detected c) mp
        (mpl_timestamp c) su sl (supply_zone_timestamp c) du dl (demand_zone_timestamp c)
        (fakeout_detected c) fl (fakeout_timestamp c) ph pl (marubozu_detected c)
        (marubozu_timestamp c) (compression_detected c) cc (ltf_confirmation c)
        (ltf_confirmation_timestamp c) (fib_level c) (session_context c) (metadata c)).

Definition candidate_id (c : t) : res string :=
  price ← py_round (entry_price c) 4;
  Ok (symbol c ++ "_" ++ pattern_value (pattern c) ++ "_" ++ direction_value (direction c) ++ "_" ++
      py_str_float price)%string.

Definition is_bullish (c : t) : bool := bool_decide (direction c = BULLISH).
Definition is_bearish (c : t) : bool := bool_decide (direction c = BEARISH).

Definition to_technical_candidate (c : t) : res TechnicalCandidate.t :=
  let entry (detected : bool) (k1 k2 : string) (price : option float) (ts : option datetime) : dict :=
    if detected then [(k1, VOptFloat price); (k2, VOptTime ts)] else [] in
  let htf_context :=
    entry (qml_detected c) "qml_price" "qml_timestamp" (qml_price c) (qml_timestamp c) ++
    entry (sr_flip_detected c) "sr_flip_price" "sr_flip_timestamp" (sr_flip_price c) (sr_flip_timestamp c) ++
    entry (rs_flip_detected c) "rs_flip_price" "rs_flip_timestamp" (rs_flip_price c) (rs_flip_timestamp c) ++
    entry (mpl_detected c) "mpl_price" "mpl_timestamp" (mpl_price c) (mpl_timestamp c) in
  let ltf_confirmation :=
    [("confirmed", VBool (ltf_confirmation c));
     ("confirmation_timestamp", VOptTime (ltf_confirmation_timestamp c));
     ("marubozu_detected", VBool (marubozu_detected c));
     ("compression_detected", VBool (compression_detected c))] in
  TechnicalCandidate.create (TechnicalCandidate.mk
    (symbol c) (timeframe c) (pattern c) (direction c) (timestamp c) (entry_price c) (stop_loss c)
    (take_profit c) None "SND" (Some (htf_timeframe c)) (Some (ltf_timeframe c)) htf_context
    ltf_confirmation (float_or (supply_zone_upper c) (demand_zone_upper c))
    (float_or (supply_zone_lower c) (demand_zone_lower c)) (fakeout_detected c) (fakeout_level c)
    (sr_flip_detected c || rs_flip_detected c) (float_or (sr_flip_price c) (rs_flip_price c))
    (session_context c) (fib_level c) (metadata c)).
End SnDCandidate.

Module CandidateFacts.
Import ZoneFacts ReprFacts.

(** ** Validation *)

Definition opt_pos (x : option float) : Prop := match x with Some y => flt fzero y = true | None => True end.

Lemma opt_gt0_Ok x y : opt_gt0 x = Ok y -> y = x /\ opt_pos x.
Proof.
  destruct x as [x|]; cbn [opt_gt0]; intros H; [|by injection H as <-].
  inv_binds. inv_fields. by subst y.
Qed.
Lemma opt_gt0_intro x : opt_pos x -> opt_gt0 x = Ok x.
Proof. destruct x as [x|]; cbn; [|done]. intros H. by rewrite field_gt0_intro. Qed.
Lemma opt_fge0_Ok x y : opt_fge0 x = Ok y -> y = x.
Proof.
  destruct x as [x|]; cbn [opt_fge0]; intros H; [|by injection H as <-]. inv_binds. inv_fields. by subst y.
Qed.
Lemma opt_ge0_Ok x y : opt_ge0 x = Ok y -> y = x.
Proof.
  destruct x as [x|]; cbn [opt_ge0]; intros H; [|by injection H as <-]. inv_binds. inv_fields. by subst y.
Qed.
Lemma symbol_2_20_Ok s r :
  symbol_2_20 s = Ok r -> r = normalize_symbol (str_strip s) /\ 2 <= str_len (str_strip s) <= 20.
Proof.
  unfold symbol_2_20. intros H. inv_binds. apply CandleFacts.str_field_Ok in E as [-> Hl]. by subst.
Qed.
Lemma symbol_2_20_stable s : SequenceFacts.symbol_stable s -> symbol_2_20 s = Ok s.
Proof.
  intros (Es & En & Hl). unfold symbol_2_20. rewrite CandleFacts.str_field_intro by (by rewrite Es).
  rewrite Es. cbn. by rewrite En.
Qed.

Ltac inv_candidate :=
  repeat match goal with
  | H : symbol_2_20 _ = Ok _ |- _ => apply symbol_2_20_Ok in H as [-> ?]
  | H : opt_gt0 _ = Ok _ |- _ => apply opt_gt0_Ok in H as [-> ?]
  | H : opt_fge0 _ = Ok _ |- _ => apply opt_fge0_Ok in H as ->
  | H : opt_ge0 _ = Ok _ |- _ => apply opt_ge0_Ok in H as ->
  | _ => progress inv_fields
  end.

Definition sample_smc : SMCCandidate.t := {|
  SMCCandidate.symbol := "EURUSD"; SMCCandidate.timeframe := M15;
  SMCCandidate.pattern := SH_BMS_RTO_BULLISH; SMCCandidate.direction := BULLISH;
  SMCCandidate.timestamp := mk_datetime 1709210096000000 (Some 0);
  SMCCandidate.entry_price := lit 10850 4; SMCCandidate.stop_loss := lit 10830 4;
  SMCCandidate.take_profit := Some (lit 10910 4);
  SMCCandidate.htf_timeframe := H4; SMCCandidate.ltf_timeframe := M15;
  SMCCandidate.bms_detected := true; SMCCandidate.bms_price := Some (lit 10880 4);
  SMCCandidate.bms_timestamp := Some (mk_datetime 1709200000000000 (Some 0));
  SMCCandidate.choch_detected := false; SMCCandidate.choch_price := None;
  SMCCandidate.choch_timestamp := None;
  SMCCandidate.sms_detected := false; SMCCandidate.sms_price := None; SMCCandidate.sms_timestamp := None;
  SMCCandidate.order_block_upper := None; SMCCandidate.order_block_lower := None;
  SMCCandidate.order_block_timestamp := None;
  SMCCandidate.fvg_upper := Some (lit 10860 4); SMCCandidate.fvg_lower := Some (lit 10840 4);
  SMCCandidate.fvg_timestamp := None; SMCCandidate.liquidity_swept := false;
  SMCCandidate.swept_level := None; SMCCandidate.sweep_timestamp := None;
  SMCCandidate.inducement_cleared := false; SMCCandidate.inducement_level := None;
  SMCCandidate.ltf_confirmation := false; SMCCandidate.ltf_confirmation_timestamp := None;
  SMCCandidate.displacement_pips := Some (lit 300 1); SMCCandidate.fib_level := None;
  SMCCandidate.session_context := None; SMCCandidate.metadata := [("confluences", VInt 4)] |}.

(** Normalisation comes after the length check, so a symbol of one character and a
    separator is accepted and shortened, and the technical view then refuses it. *)
Example shortened_symbol_has_no_view :
  let c := SMCCandidate.create (SMCCandidate.mk "A_" M15 SH_BMS_RTO_BULLISH BULLISH (mk_datetime 0 (Some 0))
    (lit 10850 4) (lit 10830 4) None H4 M15 false None None false None None false None None None None None None None None
    false None None false None false None None None None []) in
  SMCCandidate.symbol <$> c = Ok "A" /\ (c ≫= SMCCandidate.to_technical_candidate) = Raise ValidationError.
Proof. vm_compute. split; reflexivity. Qed.

(** ** Identifiers *)

(** No occurrence of a character. *)
Definition free (c : ascii) (s : string) : Prop := str_remove c s = s.

Lemma free_cons c a s : free c (String a s) <-> a <> c /\ free c s.
Proof.
  unfold free. cbn [str_remove]. destruct (Ascii.eqb_spec a c) as [->|Hne].
  - split; [|by intros []]. intros E. apply (f_equal String.length) in E.
    pose proof (str_remove_length c s). cbn in E. lia.
  - split; [intros [= ->]; done|]. by intros [_ ->].
Qed.

Lemma free_app c s t : free c (s ++ t)%string <-> free c s /\ free c t.
Proof.
  induction s as [|a s IH]; [rewrite str_nil_app; split; [by split|by intros []]|].
  rewrite str_cons_app, !free_cons, IH. tauto.
Qed.

(** Strings without the separator split at it in one way. *)
Lemma sep_inj c (s t x y : string) :
  free c s -> free c t -> (s ++ String c x = t ++ String c y)%string -> s = t /\ x = y.
Proof.
  revert t. induction s as [|a s IH]; intros [|b t] Hs Ht; rewrite ?str_nil_app, ?str_cons_app; intros E.
  - by injection E.
  - injection E as -> _. by apply free_cons in Ht as [].
  - injection E as -> _. by apply free_cons in Hs as [].
  - injection E as -> E. apply free_cons in Hs as [_ Hs], Ht as [_ Ht].
    by destruct (IH t Hs Ht E) as [-> ->].
Qed.

(** Of two beginnings of one string, one begins the other. *)
Lemma prefix_total (a b x y : string) :
  (a ++ x = b ++ y)%string -> String.prefix a b = true \/ String.prefix b a = true.
Proof.
  revert b. induction a as [|c a IH]; intros [|d b]; rewrite ?str_nil_app, ?str_cons_app; intros E; cbn; auto.
  injection E as -> E. destruct (ascii_dec d d); [|done]. by apply IH in E.
Qed.

Definition code (pd : CandidatePattern * Direction) : string :=
  (pattern_value (fst pd) ++ "_" ++ direction_value (snd pd) ++ "_")%string.

Definition all_codes : list (CandidatePattern * Direction) :=
  list_prod all_patterns [BULLISH; BEARISH; NEUTRAL].

Lemma all_codes_complete pd : In pd all_codes.
Proof.
  destruct pd as [p d]. apply in_prod; [destruct p; cbn; tauto|destruct d; cbn; tauto].
Qed.

Lemma codes_prefix_free :
  forallb (fun a => forallb (fun b => bool_decide (a = b) || negb (String.prefix (code a) (code b))) all_codes)
    all_codes = true.
Proof. vm_compute. reflexivity. Qed.

Lemma code_inj a b x y : (code a ++ x = code b ++ y)%string -> a = b /\ x = y.
Proof.
  intros E. assert (Hab : a = b).
  { assert (H := codes_prefix_free). rewrite forallb_forall in H.
    destruct (prefix_total _ _ _ _ E) as [P|P].
    - specialize (H a (all_codes_complete a)). rewrite forallb_forall in H.
      specialize (H b (all_codes_complete b)). rewrite P in H. cbn in H. rewrite orb_false_r in H.
      by apply bool_decide_eq_true in H.
    - specialize (H b (all_codes_complete b)). rewrite forallb_forall in H.
      specialize (H a (all_codes_complete a)). rewrite P in H. cbn in H. rewrite orb_false_r in H.
      by apply bool_decide_eq_true in H. }
  subst b. split; [done|]. by apply str_app_inj in E as [_ ->].
Qed.

Lemma str_take_length n s : (n <= String.length s)%nat -> String.length (str_take n s) = n.
Proof.
  revert s. induction n as [|n IH]; intros [|a s]; cbn [str_take String.length]; intros H; try lia.
  rewrite IH; lia.
Qed.

Lemma fingerprint_length c : String.length (SMCCandidate.fingerprint c) = 8%nat.
Proof.
  unfold SMCCandidate.fingerprint. apply str_take_length. rewrite sha256_hexdigest_length. lia.
Qed.

(** Splitting at a separator when what follows has a known length. *)
Lemma tail_inj (s t x y : string) :
  String.length x = String.length y -> (s ++ x = t ++ y)%string -> s = t /\ x = y.
Proof.
  intros Hl E. apply str_app_inj; [|done]. apply (f_equal String.length) in E.
  rewrite !str_length_app in E. lia.
Qed.

Definition price_text (x : float) : option string :=
  match py_round x 4 with Ok p => Some (py_str_float p) | Raise _ => None end.

(** The separators, regrouped so that pattern and direction form one code. *)
Lemma id_shape s p d (r : string) :
  (s ++ "_" ++ pattern_value p ++ "_" ++ direction_value d ++ "_" ++ r)%string =
  (s ++ String "_" (code (p, d) ++ r))%string.
Proof. unfold code. cbn [fst snd]. by rewrite !str_app_assoc, !str_cons_app, !str_nil_app. Qed.

(** An identifier determines the candidate's key.  Two SMC candidates with
    the same identifier (symbols as the constructor stores them, without
    underscore) have the same symbol, pattern, direction, printed entry price
    and source fingerprint, although the patterns themselves contain the
    separator; the same holds for SND candidates, which have no fingerprint. *)
Theorem candidate_id_determines :
  (forall c1 c2 i, free "_" (SMCCandidate.symbol c1) -> free "_" (SMCCandidate.symbol c2) ->
     SMCCandidate.candidate_id c1 = Ok i -> SMCCandidate.candidate_id c2 = Ok i ->
     SMCCandidate.symbol c1 = SMCCandidate.symbol c2 /\ SMCCandidate.pattern c1 = SMCCandidate.pattern c2 /\
     SMCCandidate.direction c1 = SMCCandidate.direction c2 /\
     price_text (SMCCandidate.entry_price c1) = price_text (SMCCandidate.entry_price c2) /\
     SMCCandidate.fingerprint c1 = SMCCandidate.fingerprint c2) /\
  (forall c1 c2 i, free "_" (SnDCandidate.symbol c1) -> free "_" (SnDCandidate.symbol c2) ->
     SnDCandidate.candidate_id c1 = Ok i -> SnDCandidate.candidate_id c2 = Ok i ->
     SnDCandidate.symbol c1 = SnDCandidate.symbol c2 /\ SnDCandidate.pattern c1 = SnDCandidate.pattern c2 /\
     SnDCandidate.direction c1 = SnDCandidate.direction c2 /\
     price_text (SnDCandidate.entry_price c1) = price_text (SnDCandidate.entry_price c2)).
Proof.
  split; intros c1 c2 i F1 F2 H1 H2.
  - unfold SMCCandidate.candidate_id in H1, H2. inv_binds. unfold price_text.
    rewrite id_shape in H1, H2. rewrite <- H2 in H1. apply sep_inj in H1 as [-> E']; [|done..].
    apply code_inj in E' as [[= -> ->] E']. apply tail_inj in E' as [Ep Ef].
    2:{ by rewrite !str_length_app, !fingerprint_length. }
    apply str_app_inj in Ef as [_ Ef]; [|done]. rewrite E, E0, Ep. done.
  - unfold SnDCandidate.candidate_id in H1, H2. inv_binds. unfold price_text.
    rewrite id_shape in H1, H2. rewrite <- H2 in H1. apply sep_inj in H1 as [-> E']; [|done..].
    apply code_inj in E' as [[= -> ->] Ep]. rewrite E, E0, Ep. done.
Qed.

Lemma candidate_id_determines_witness :
  SMCCandidate.candidate_id sample_smc = Ok "EURUSD_SH_BMS_RTO_BULLISH_BULLISH_1.085_b458cebf" /\
  SMCCandidate.fingerprint sample_smc = SMCCandidate.fingerprint sample_smc.
Proof.
  assert (E : SMCCandidate.candidate_id sample_smc = Ok "EURUSD_SH_BMS_RTO_BULLISH_BULLISH_1.085_b458cebf")
    by (vm_compute; reflexivity).
  split; [exact E|].
  refine (proj2 (proj2 (proj2 (proj2 (proj1 candidate_id_determines sample_smc sample_smc _ _ _ E E)))));
    vm_compute; reflexivity.
Defined.

(** ** Source signatures *)

Lemma zpad_free c w n : (forall k, 0 <= k < 10 -> digit k <> c) -> free c (zpad w n).
Proof.
  intros Hc. revert n. induction w as [|w IH]; intros n; [done|]. cbn [zpad]. apply free_app. split; [apply IH|].
  apply free_cons. split; [|done]. apply Hc, Z.mod_pos_bound. lia.
Qed.

Lemma digit_not_bar k : 0 <= k < 10 -> digit k <> "|"%char.
Proof.
  intros Hk E. apply (f_equal nat_of_ascii) in E. unfold digit in E.
  rewrite nat_ascii_embedding in E by lia. change (nat_of_ascii "|") with 124%nat in E. lia.
Qed.

Lemma isoformat_free d : free "|" (isoformat d).
Proof.
  unfold isoformat, offset_str. destruct (civil (dt_day d)) as [[y m] dd]. cbv zeta.
  repeat match goal with
  | |- free _ (if ?b then _ else _) => destruct b
  | |- free _ match ?o with Some _ => _ | None => _ end => destruct o
  | |- free _ (zpad _ _) => apply zpad_free, digit_not_bar
  | |- free _ (_ ++ _)%string => apply free_app; split
  | |- _ => reflexivity
  end.
Qed.

Lemma ts_free x : free "|" (SMCCandidate._ts x).
Proof. destruct x as [d|]; [apply isoformat_free|done]. Qed.

Lemma ts_inj x y : (forall d, x = Some d -> dt_ok d) -> (forall d, y = Some d -> dt_ok d) ->
  SMCCandidate._ts x = SMCCandidate._ts y -> x = y.
Proof.
  assert (Hn : forall d, isoformat d <> "-").
  { intros d E. apply (f_equal String.length) in E. unfold isoformat in E.
    destruct (civil (dt_day d)) as [[? ?] ?]. cbv zeta in E. rewrite str_length_app, length_zpad in E.
    cbn [String.length] in E. lia. }
  intros Hx Hy E. destruct x as [a|], y as [b|]; cbn in E; [|by apply Hn in E|symmetry in E; by apply Hn in E|done].
  f_equal. apply isoformat_inj; auto.
Qed.

(** The timestamps of the five source events. *)
Definition sources (c : SMCCandidate.t) : list (option datetime) :=
  [SMCCandidate.bms_timestamp c; SMCCandidate.sweep_timestamp c; SMCCandidate.choch_timestamp c;
   SMCCandidate.sms_timestamp c; SMCCandidate.order_block_timestamp c].

(** The text that is hashed into the fingerprint determines the source
    events: candidates with the same signature have the same five timestamps,
    absent ones included.  So different source events can only share an
    identifier through a collision of the truncated hash. *)
Theorem source_signature_injective c1 c2 :
  Forall (fun x => forall d, x = Some d -> dt_ok d) (sources c1 ++ sources c2) ->
  SMCCandidate.source_signature c1 = SMCCandidate.source_signature c2 -> sources c1 = sources c2.
Proof.
  intros Hok E. unfold sources in *. cbn [app] in Hok.
  repeat match goal with H : Forall _ (_ :: _) |- _ => apply Forall_cons in H as [? ?] end.
  unfold SMCCandidate.source_signature in E. cbn [app] in E.
  repeat match goal with
  | H : (SMCCandidate._ts _ ++ "|" ++ _)%string = _ |- _ => apply sep_inj in H as [? H]; [|apply ts_free..]
  end.
  repeat (f_equal; [by apply ts_inj|]). f_equal. by apply ts_inj.
Qed.

Lemma source_signature_injective_witness :
  sources sample_smc = sources sample_smc /\
  SMCCandidate.source_signature sample_smc = "2024-02-29T09:46:40+00:00|-|-|-|-".
Proof.
  split; [|vm_compute; reflexivity]. apply (source_signature_injective sample_smc sample_smc); [|reflexivity].
  unfold sources. cbn [app sample_smc SMCCandidate.bms_timestamp SMCCandidate.sweep_timestamp
    SMCCandidate.choch_timestamp SMCCandidate.sms_timestamp SMCCandidate.order_block_timestamp].
  repeat (apply Forall_cons; split; [intros d [= <-]; vm_compute; split_and!; congruence|]). constructor.
Defined.
End CandidateFacts.
