(* ===== verification/CandlePatterns.v ===== *)
(** * Candle patterns: [engine/ta/common/analyzers/candles.py] and [marubozu.py]

    Classification of single candles, gaps between three candles, and runs of
    full-bodied candles.  [Analysable] is the interface between the candle
    sequences and every detector built on them: what a detector may assume of a
    sequence, discharged once from the constructors. *)

From Stdlib Require Import ZArith Lia Bool String Sorting.Sorted.
From stdpp Require Import base list strings.
From S2P Require Import Prelude Loops PyFloat FloatRound PyText Constants PriceMath Candles Swings.

#[local] Open Scope string_scope.
#[local] Open Scope Z_scope.
#[local] Open Scope list_scope.

(** ** Candle analyzer *)

Module CandleAnalyzer.
Record t := mk {
  marubozu_body_threshold : float; hammer_lower_wick_threshold : float;
  shooting_star_upper_wick_threshold : float; doji_body_threshold : float }.

Definition default : t := mk (of_Z 80) (of_Z 60) (of_Z 60) (of_Z 5).

Definition classify_candle (self : t) (candle : Candle.t) : res CandleType :=
  body_pct ← calculate_body_percentage (Candle.open candle) (Candle.close candle)
               (Candle.high candle) (Candle.low candle);
  if fle body_pct (doji_body_threshold self) then Ok DOJI
  else if fle (marubozu_body_threshold self) body_pct then
    Ok (if Candle.is_bullish candle then MARUBOZU_BULLISH else MARUBOZU_BEARISH)
  else
    lower_wick_pct ← calculate_wick_percentage (Candle.open candle) (Candle.close candle)
                       (Candle.high candle) (Candle.low candle) false;
    upper_wick_pct ← calculate_wick_percentage (Candle.open candle) (Candle.close candle)
                       (Candle.high candle) (Candle.low candle) true;
    if Candle.is_bullish candle && fle (hammer_lower_wick_threshold self) lower_wick_pct then Ok HAMMER
    else if Candle.is_bearish candle && fle (shooting_star_upper_wick_threshold self) upper_wick_pct
    then Ok SHOOTING_STAR
    else Ok STANDARD.

Definition detect_displacement (sequence : CandleSequence.t) (min_displacement_pips : float)
    : res (list (Z * float)) :=
  collect (fun i =>
    candle ← py_index (CandleSequence.candles sequence) i;
    displacement ← calculate_pips (Candle.open candle) (Candle.close candle) (Candle.symbol candle);
    Ok (if fle min_displacement_pips displacement then Some (i, displacement) else None))
    (py_range 0 (py_len (CandleSequence.candles sequence))).

Definition detect_imbalance (candle1 candle2 candle3 : Candle.t) : option (float * float) :=
  if negb (String.eqb (Candle.symbol candle1) (Candle.symbol candle2))
     || negb (String.eqb (Candle.symbol candle2) (Candle.symbol candle3)) then None
  else if flt (Candle.high candle1) (Candle.low candle3)
          && flt (Candle.high candle1) (Candle.low candle3)
  then Some (Candle.high candle1, Candle.low candle3)
  else if flt (Candle.high candle3) (Candle.low candle1)
          && flt (Candle.high candle3) (Candle.low candle1)
  then Some (Candle.high candle3, Candle.low candle1)
  else None.

Definition is_engulfing (current previous : Candle.t) : bool := Candle.engulfs current previous.

Definition has_long_wick (candle : Candle.t) (upper : bool) (min_wick_percentage : float) : res bool :=
  wick_pct ← calculate_wick_percentage (Candle.open candle) (Candle.close candle)
               (Candle.high candle) (Candle.low candle) upper;
  Ok (fle min_wick_percentage wick_pct).

Definition calculate_average_body_size (sequence : CandleSequence.t) (lookback : Z) : res float :=
  let all := CandleSequence.candles sequence in
  let candles := if lookback <? py_len all then py_slice_from all (- lookback) else all in
  match candles with
  | [] => Ok fzero
  | _ => fdiv (fsum (map Candle.body_size candles)) (of_Z (py_len candles))
  end.

Definition is_large_body (candle : Candle.t) (sequence : CandleSequence.t) (multiplier : float) : res bool :=
  avg_body ← calculate_average_body_size sequence 20;
  Ok (if feq avg_body fzero then false else fle (fmul avg_body multiplier) (Candle.body_size candle)).
End CandleAnalyzer.

(** ** Marubozu analyzer *)

Module MarubozuAnalyzer.

Definition _TF_DISPLACEMENT_SCALE (tf : Timeframe) : float :=
  match tf with
  | M1 => lit 15 2 | M5 => lit 25 2 | M15 => lit 40 2 | M30 => lit 55 2
  | H1 => lit 100 2 | H3 => lit 150 2 | H4 => lit 200 2 | H6 => lit 300 2 | H8 => lit 400 2
  | H12 => lit 500 2 | D1 => lit 500 2 | W1 => lit 1200 2 | MN1 => lit 2500 2
  end.

Record t := mk {
  min_body_percentage : float; max_wick_percentage : float; min_displacement_pips : float }.

Definition default : t := mk (of_Z 80) (of_Z 10) (of_Z 15).

(** The test both variants run, with the displacement they require. *)
Definition is_marubozu_with (self : t) (candle : Candle.t) (threshold : float) : res bool :=
  body_pct ← calculate_body_percentage (Candle.open candle) (Candle.close candle)
               (Candle.high candle) (Candle.low candle);
  if flt body_pct (min_body_percentage self) then Ok false
  else
    upper ← Candle.upper_wick_percentage candle;
    if flt (max_wick_percentage self) upper then Ok false
    else
      lower ← Candle.lower_wick_percentage candle;
      if flt (max_wick_percentage self) lower then Ok false
      else
        displacement ← calculate_pips (Candle.open candle) (Candle.close candle) (Candle.symbol candle);
        Ok (negb (flt displacement threshold)).

Definition is_marubozu (self : t) (candle : Candle.t) : res bool :=
  is_marubozu_with self candle (min_displacement_pips self).

Definition is_marubozu_for_timeframe (self : t) (candle : Candle.t) (timeframe : Timeframe) : res bool :=
  is_marubozu_with self candle (fmul (min_displacement_pips self) (_TF_DISPLACEMENT_SCALE timeframe)).

Definition is_bullish_marubozu (self : t) (candle : Candle.t) : res bool :=
  if Candle.is_bullish candle then is_marubozu self candle else Ok false.
Definition is_bearish_marubozu (self : t) (candle : Candle.t) : res bool :=
  if Candle.is_bearish candle then is_marubozu self candle else Ok false.
Definition is_bullish_marubozu_for_timeframe (self : t) (candle : Candle.t) (timeframe : Timeframe) : res bool :=
  if Candle.is_bullish candle then is_marubozu_for_timeframe self candle timeframe else Ok false.
Definition is_bearish_marubozu_for_timeframe (self : t) (candle : Candle.t) (timeframe : Timeframe) : res bool :=
  if Candle.is_bearish candle then is_marubozu_for_timeframe self candle timeframe else Ok false.

Definition direction_of (candle : Candle.t) : Direction :=
  if Candle.is_bullish candle then BULLISH else BEARISH.

(** The inner loop: [count] and [j] when it stops. *)
Fixpoint extend_run (self : t) (tf : Timeframe) (direction : Direction) (count j : Z)
    (rest : list Candle.t) : res (Z * Z) :=
  match rest with
  | [] => Ok (count, j)
  | next_candle :: rest =>
      b ← is_marubozu_for_timeframe self next_candle tf;
      if negb b then Ok (count, j)
      else if negb (bool_decide (direction_of next_candle = direction)) then Ok (count, j)
      else extend_run self tf direction (count + 1) (j + 1) rest
  end.

(** The outer loop; [None] when the fuel runs out. *)
Fixpoint run_loop (self : t) (sequence : CandleSequence.t) (min_consecutive : Z) (fuel : nat) (i : Z)
    (found : list (Z * Z * Direction)) : res (option (list (Z * Z * Direction))) :=
  match fuel with
  | O => Ok None
  | S fuel =>
      let candles := CandleSequence.candles sequence in
      if i <? py_len candles then
        candle ← py_index candles i;
        b ← is_marubozu_for_timeframe self candle (CandleSequence.timeframe sequence);
        if negb b then run_loop self sequence min_consecutive fuel (i + 1) found
        else
          let direction := direction_of candle in
          '(count, j) ← extend_run self (CandleSequence.timeframe sequence) direction 1 (i + 1)
                          (py_slice_from candles (i + 1));
          let found :=
            if min_consecutive <=? count then found ++ [(i, i + count - 1, direction)] else found in
          run_loop self sequence min_consecutive fuel (if i <? j then j else i + 1) found
      else Ok (Some found)
  end.

Definition detect_marubozu_sequence (self : t) (sequence : CandleSequence.t) (min_consecutive : Z)
    : res (option (list (Z * Z * Direction))) :=
  run_loop self sequence min_consecutive (S (length (CandleSequence.candles sequence))) 0 [].

Definition get_marubozu_displacement (sequence : CandleSequence.t) (start_idx end_idx : Z) : res float :=
  let candles := CandleSequence.candles sequence in
  if (start_idx <? 0) || (py_len candles <=? end_idx) || (end_idx <? start_idx) then Ok fzero
  else
    start_candle ← py_index candles start_idx;
    end_candle ← py_index candles end_idx;
    if Candle.is_bullish start_candle
    then calculate_pips (Candle.open start_candle) (Candle.close end_candle) (Candle.symbol start_candle)
    else calculate_pips (Candle.close end_candle) (Candle.open start_candle) (Candle.symbol start_candle).

Definition strongest_step (self : t) (tf : Timeframe) (acc : option (Z * Candle.t) * float)
    (x : Z * Candle.t) : res (option (Z * Candle.t) * float) :=
  let '(strongest, strongest_displacement) := acc in
  let '(i, candle) := x in
  b ← is_marubozu_for_timeframe self candle tf;
  if negb b then Ok acc
  else
    displacement ← calculate_pips (Candle.open candle) (Candle.close candle) (Candle.symbol candle);
    Ok (if flt strongest_displacement displacement then (Some (i, candle), displacement) else acc).

Definition find_strongest_marubozu (self : t) (sequence : CandleSequence.t)
    : res (option (Z * Candle.t * float)) :=
  '(strongest, strongest_displacement) ←
    for_each (strongest_step self (CandleSequence.timeframe sequence))
      (py_enumerate (CandleSequence.candles sequence)) (None, fzero);
  Ok (match strongest with
      | Some (i, candle) => Some (i, candle, strongest_displacement)
      | None => None
      end).
End MarubozuAnalyzer.

(** ** The interface to the detectors *)

(** Finite prices and a symbol of at least three characters; the candle models alone
    also admit infinite prices and two characters. *)
Class Analysable (q : CandleSequence.t) : Prop := {
  an_candles : forall c, In c (CandleSequence.candles q) -> Candle.wf c /\ Candle.finite c;
  an_symbol : 3 <= str_len (str_strip (CandleSequence.symbol q)) <= 30;
  an_sequence : CandleSequence.wf (CandleSequence.candles q) }.

Module PatternFacts.

(** The constructors deliver the interface: candles built by [Candle.create]
    from finite prices, in a sequence whose symbol keeps three characters. *)
Lemma create_analysable s tf v q :
  CandleSequence.create s tf v = Ok q ->
  (forall c, In c v -> Candle.wf c /\ Candle.finite c) ->
  3 <= str_len (str_strip (normalize_symbol (str_strip s))) <= 30 ->
  Analysable q.
Proof.
  intros H Hc Hs. apply SequenceFacts.sequence_create_Ok in H as (w & Hw & ->).
  apply SequenceFacts.validate_candles_wf in Hw as [Hwf P]. constructor; simpl; [|done|done].
  intros c Hin. apply Hc. by apply (Permutation.Permutation_in _ P).
Qed.

Section Candles.
Context (q : CandleSequence.t) `{Analysable q}.
Abbreviation v := (CandleSequence.candles q).

Lemma an_at i c : v !! i = Some c -> Candle.wf c /\ Candle.finite c.
Proof. intros E. apply an_candles, list_elem_of_In. by eapply list_elem_of_lookup_2. Qed.

Lemma an_prices c :
  Candle.wf c -> Candle.finite c ->
  (fin (Candle.open c) /\ 0 < fv (Candle.open c)) /\ (fin (Candle.high c) /\ 0 < fv (Candle.high c)) /\
  (fin (Candle.low c) /\ 0 < fv (Candle.low c)) /\ (fin (Candle.close c) /\ 0 < fv (Candle.close c)).
Proof.
  intros Hw Hf. destruct (CandleFacts.finite_fin c Hw Hf) as (? & ? & ? & ?). destruct Hw.
  repeat (split; [split; [done|lia]|]). split; [done|lia].
Qed.

Lemma an_nonempty : 1 <= py_len v.
Proof.
  pose proof (CandleSequence.wf_nonempty _ an_sequence). destruct v; [done|].
  rewrite py_len_cons. pose proof (py_len_nonneg l). lia.
Qed.
End Candles.

Lemma body_percentage_yields c :
  Candle.wf c -> Candle.finite c ->
  yields (calculate_body_percentage (Candle.open c) (Candle.close c) (Candle.high c) (Candle.low c))
    (fun p => fin p /\ 0 <= fv p).
Proof.
  intros Hw Hf. pose proof (CandleFacts.ohlc c Hw Hf) as O. destruct (body_part _ _ _ _ O) as [Fb Hb].
  unfold calculate_body_percentage. rewrite (ohlc_guard _ _ _ _ O). cbv zeta.
  pose proof (ohlc_lo _ _ _ _ O). pose proof (ohlc_oh _ _ _ _ O). destruct Hw.
  destruct (guarded_percentage_range (fabs (fsub (Candle.close c) (Candle.open c))) (Candle.high c) (Candle.low c))
    as (p & E & Fp & Hp & _); [apply O..|lia|lia|done|done|].
  exists p. split; [exact E|]. split; [done|]. rewrite fle_fv in Hp by auto with etradie.
  zbool. rewrite fv_fzero in Hp. done.
Qed.

Lemma pips_yields a b s :
  fin a -> fin b -> 0 <= fv a -> 0 <= fv b ->
  yields (calculate_pips a b s) (fun p => num p /\ 0 <= fv p).
Proof.
  intros Fa Fb Ha Hb. destruct (calculate_pips_facts a b s) as (p & E & _ & Np & Hp & _); [done..|].
  by exists p.
Qed.

Lemma marubozu_returns self c threshold :
  Candle.wf c -> Candle.finite c -> returns (MarubozuAnalyzer.is_marubozu_with self c threshold).
Proof.
  intros Hw Hf. unfold MarubozuAnalyzer.is_marubozu_with.
  destruct (body_percentage_yields c Hw Hf) as (p & -> & _). cbn [mbind res_bind].
  destruct (CandleFacts.percentages_return c Hw Hf) as (b & u & l & _ & -> & -> & _).
  destruct (an_prices c Hw Hf) as ([Fo Ho] & _ & _ & [Fc Hc]).
  destruct (pips_yields (Candle.open c) (Candle.close c) (Candle.symbol c)) as (d & -> & _); [done|done|lia|lia|].
  cbn [mbind res_bind]. by repeat case_match; eexists.
Qed.

(** ** Runs of marubozu candles *)

Section Runs.
Import MarubozuAnalyzer.
Context (self : t) (q : CandleSequence.t) `{Analysable q} (min_consecutive : Z).
Abbreviation v := (CandleSequence.candles q).
Abbreviation tf := (CandleSequence.timeframe q).

(** The direction of the marubozu at an index, if there is one. *)
Definition kind_of (c : Candle.t) : option Direction :=
  match is_marubozu_for_timeframe self c tf with
  | Ok true => Some (direction_of c)
  | _ => None
  end.
Definition kind_at (i : Z) : option Direction :=
  if i <? 0 then None else v !! Z.to_nat i ≫= kind_of.

(** A maximal run of candles of one kind. *)
Record run (s e : Z) (d : Direction) : Prop := {
  run_range : 0 <= s <= e;
  run_inside : forall k, s <= k <= e -> kind_at k = Some d;
  run_before : kind_at (s - 1) <> Some d;
  run_after : kind_at (e + 1) <> Some d }.

Lemma kind_of_spec c :
  In c v -> exists b, is_marubozu_for_timeframe self c tf = Ok b /\
    kind_of c = if b then Some (direction_of c) else None.
Proof.
  intros Hc. destruct (an_candles c Hc) as [Hw Hf].
  destruct (marubozu_returns self c (fmul (min_displacement_pips self) (_TF_DISPLACEMENT_SCALE tf)) Hw Hf)
    as [b E]. exists b. unfold kind_of, is_marubozu_for_timeframe. rewrite E. by destruct b.
Qed.

Lemma kind_at_lookup i c : 0 <= i -> v !! Z.to_nat i = Some c -> kind_at i = kind_of c.
Proof. intros Hi E. unfold kind_at. by rewrite (proj2 (Z.ltb_ge i 0) Hi), E. Qed.

Lemma kind_at_outside i : i < 0 \/ py_len v <= i -> kind_at i = None.
Proof.
  unfold kind_at. intros [Hi|Hi]; [by rewrite (proj2 (Z.ltb_lt i 0) Hi)|].
  destruct (i <? 0); [done|]. rewrite lookup_ge_None_2; [done|]. unfold py_len in Hi. lia.
Qed.

(** The inner loop stops at the first candle of another kind. *)
Lemma extend_run_spec d rest : forall count j,
  0 <= j -> rest = drop (Z.to_nat j) v ->
  exists n, extend_run self tf d count j rest = Ok (count + n, j + n) /\ 0 <= n /\ j + n <= Z.max j (py_len v) /\
    (forall k, j <= k < j + n -> kind_at k = Some d) /\ kind_at (j + n) <> Some d.
Proof.
  induction rest as [|c rest IH]; intros count j Hj E.
  - exists 0. rewrite !Z.add_0_r. split; [done|]. split; [lia|]. split; [lia|]. split; [lia|].
    rewrite kind_at_outside; [done|]. right. unfold py_len.
    assert (length (drop (Z.to_nat j) v) = 0%nat) as El by (by rewrite <- E).
    rewrite length_drop in El. lia.
  - assert (Ec : v !! Z.to_nat j = Some c).
    { rewrite <- (Nat.add_0_r (Z.to_nat j)), <- lookup_drop, <- E. done. }
    assert (Hlen : j < py_len v) by (apply lookup_lt_Some in Ec; unfold py_len; lia).
    assert (Er : rest = drop (Z.to_nat (j + 1)) v).
    { replace (Z.to_nat (j + 1)) with (Z.to_nat j + 1)%nat by lia.
      rewrite <- drop_drop, <- E. done. }
    destruct (kind_of_spec c) as (b & Eb & Ek).
    { apply list_elem_of_In. by eapply list_elem_of_lookup_2. }
    rewrite <- (kind_at_lookup j c Hj Ec) in Ek. cbn [extend_run]. rewrite Eb. cbn [mbind res_bind].
    destruct b; cbn [negb].
    + case_bool_decide as Ed; cbn [negb].
      * destruct (IH (count + 1) (j + 1) ltac:(lia) Er) as (n & -> & Hn & Hb & Hin & Hout).
        exists (1 + n). replace (j + (1 + n)) with (j + 1 + n) by lia. split; [do 2 f_equal; lia|].
        split; [lia|]. split; [lia|]. split; [|done]. intros k Hk.
        destruct (Z.eq_dec k j) as [->|]; [congruence|]. apply Hin. lia.
      * exists 0. rewrite !Z.add_0_r. repeat (split; [done||lia|]). congruence.
    + exists 0. rewrite !Z.add_0_r. repeat (split; [done||lia|]). congruence.
Qed.

(** The state of the outer loop: at [i] every long enough run that starts
    before [i] is recorded, in order, and no run crosses [i]. *)
Definition long_run (x : Z * Z * Direction) : Prop :=
  let '(s, e, d) := x in run s e d /\ min_consecutive <= e - s + 1.

Record recorded (i : Z) (found : list (Z * Z * Direction)) : Prop := {
  rec_exact : forall s e d, In (s, e, d) found <-> long_run (s, e, d) /\ s < i;
  rec_sorted : StronglySorted (fun x y => snd (fst x) < fst (fst y)) found;
  rec_before : forall s e d, In (s, e, d) found -> e < i;
  rec_cut : forall d, kind_at (i - 1) = Some d -> kind_at i <> Some d }.

Lemma run_unique s e e' d d' : run s e d -> run s e' d' -> e = e' /\ d = d'.
Proof.
  intros [R1 I1 _ A1] [R2 I2 _ A2].
  assert (d = d') as -> by (pose proof (I1 s ltac:(lia)); pose proof (I2 s ltac:(lia)); congruence).
  split; [|done]. destruct (Z.lt_trichotomy e e') as [?|[?|?]]; [|done|].
  - exfalso. apply A1. apply I2. lia.
  - exfalso. apply A2. apply I1. lia.
Qed.

Lemma recorded_skip i found :
  recorded i found -> kind_at i = None -> recorded (i + 1) found.
Proof.
  intros [Hx Hs Hb Hc] Hi. constructor; [|done| |].
  - intros s e d. rewrite Hx. split; intros [Hr Hlt]; (split; [done|]); [lia|].
    destruct (Z.eq_dec s i) as [->|]; [|lia]. destruct Hr as [[R I _ _] _].
    rewrite I in Hi by lia. done.
  - intros s e d Hin. apply Hb in Hin. lia.
  - intros d. replace (i + 1 - 1) with i by lia. congruence.
Qed.

Lemma recorded_push i found d n :
  recorded i found -> 0 <= i -> 1 <= n -> run i (i + n - 1) d ->
  recorded (i + n) (if min_consecutive <=? n then found ++ [(i, i + n - 1, d)] else found).
Proof.
  intros [Hx Hs Hb Hc] Hi Hn Hr.
  assert (Hold : forall s e d', long_run (s, e, d') -> i <= s < i + n -> (s, e, d') = (i, i + n - 1, d)).
  { intros s e d' [R _] Hse. destruct (Z.eq_dec s i) as [->|].
    - by destruct (run_unique _ _ _ _ _ R Hr) as [-> ->].
    - exfalso. destruct R as [R I B _]. destruct Hr as [_ I' _ _].
      specialize (I s ltac:(lia)). rewrite (I' s) in I by lia. apply B. rewrite I' by lia. done. }
  constructor.
  - intros s e d'. destruct (Z.leb_spec min_consecutive n) as [Hm|Hm].
    + rewrite in_app_iff, Hx. simpl. split.
      * intros [[HR Hlt]|[[= <- <- <-]|[]]]; [split; [done|lia]|]. split; [|lia]. split; [done|lia].
      * intros [HR Hlt]. destruct (Z.lt_ge_cases s i); [by left; split|]. right; left.
        symmetry. apply Hold; [done|lia].
    + rewrite Hx. split; intros [HR Hlt]; (split; [done|]); [lia|].
      destruct (Z.lt_ge_cases s i); [done|]. pose proof (Hold s e d' HR ltac:(lia)) as [= -> -> ->].
      destruct HR as [_ HR]. lia.
  - destruct (min_consecutive <=? n); [|done]. apply StronglySorted_snoc_lt; [done|].
    intros [[s e] d'] Hin. apply Hb in Hin. simpl. lia.
  - intros s e d' Hin. destruct (min_consecutive <=? n).
    + apply in_app_iff in Hin as [Hin|[[= <- <- <-]|[]]]; [apply Hb in Hin; lia|lia].
    + apply Hb in Hin. lia.
  - intros d' E. rewrite (run_inside _ _ _ Hr) in E by lia. injection E as <-.
    pose proof (run_after _ _ _ Hr) as A. by replace (i + n - 1 + 1) with (i + n) in A by lia.
Qed.

Lemma run_loop_spec fuel : forall i found,
  0 <= i <= py_len v -> py_len v - i < Z.of_nat fuel -> recorded i found ->
  exists found', run_loop self q min_consecutive fuel i found = Ok (Some found') /\ recorded (py_len v) found'.
Proof.
  induction fuel as [|fuel IH]; intros i found Hi Hf Hr; [lia|]. cbn [run_loop]. cbv zeta.
  destruct (Z.ltb_spec i (py_len v)) as [Hlt|Hge].
  2:{ assert (i = py_len v) as -> by lia. eauto. }
  destruct (py_index_in_range v i) as (c & -> & Ec); [lia|]. cbn [mbind res_bind].
  destruct (kind_of_spec c) as (b & -> & Ek).
  { apply list_elem_of_In. by eapply list_elem_of_lookup_2. }
  rewrite <- (kind_at_lookup i c) in Ek by (done || lia). cbn [mbind res_bind].
  destruct b; cbn [negb]; [|apply IH; [lia|lia|by apply recorded_skip]].
  destruct (extend_run_spec (direction_of c) (py_slice_from v (i + 1)) 1 (i + 1)) as (n & -> & Hn & Hb & Hin & Hout).
  { lia. }
  { unfold py_slice_from, py_slice_bound. rewrite (proj2 (Z.ltb_ge (i + 1) 0)) by lia. f_equal. lia. }
  cbn [mbind res_bind]. rewrite (proj2 (Z.ltb_lt i (i + 1 + n))) by lia.
  apply IH; [lia|lia|]. replace (i + 1 + n) with (i + (1 + n)) in * by lia.
  apply recorded_push; [done|lia|lia|]. constructor.
  - lia.
  - intros k Hk. destruct (Z.eq_dec k i) as [->|]; [done|]. apply Hin. lia.
  - intros E. by apply (rec_cut _ _ Hr) in E.
  - by replace (i + (1 + n) - 1 + 1) with (i + (1 + n)) by lia.
Qed.
End Runs.

(** The runs of marubozu candles are found exactly.  On an
    analysable sequence the nested loops end within one iteration per candle and
    return, in order and without overlap, exactly the maximal runs of consecutive
    marubozu candles of one direction that have at least [min_consecutive]
    members. *)
Theorem marubozu_runs_exact (self : MarubozuAnalyzer.t) (q : CandleSequence.t) (min_consecutive : Z) :
  Analysable q ->
  exists runs, MarubozuAnalyzer.detect_marubozu_sequence self q min_consecutive = Ok (Some runs) /\
    (forall s e d, In (s, e, d) runs <-> run self q s e d /\ min_consecutive <= e - s + 1) /\
    StronglySorted (fun x y => snd (fst x) < fst (fst y)) runs.
Proof.
  intros An. pose proof (py_len_nonneg (CandleSequence.candles q)).
  destruct (run_loop_spec self q min_consecutive (S (length (CandleSequence.candles q))) 0 [])
    as (runs & E & Hr).
  - lia.
  - unfold py_len. lia.
  - constructor; [|constructor|done|].
    + intros s e d. split; [done|]. intros [[[R _ _ _] _] Hs]. lia.
    + intros d. by rewrite kind_at_outside by lia.
  - exists runs. split; [exact E|]. split; [|apply Hr]. intros s e d. rewrite (rec_exact _ _ _ _ _ Hr).
    split; [by intros []|]. intros HR. split; [done|]. destruct HR as [[R I _ _] _].
    destruct (Z.lt_ge_cases s (py_len (CandleSequence.candles q))); [done|]. specialize (I s ltac:(lia)).
    rewrite kind_at_outside in I by lia. done.
Qed.

(** Two bullish marubozu candles followed by a bearish candle. *)
Definition sample_bar (h o hi lo c : Z) : Candle.t :=
  Candle.mk "EURUSD" H1 (mk_datetime (h * us_per_hour) (Some 0))
    (lit o 4) (lit hi 4) (lit lo 4) (lit c 4) fzero.
Definition sample_run : CandleSequence.t :=
  CandleSequence.mk "EURUSD" H1
    [sample_bar 0 10800 10831 10799 10830; sample_bar 1 10830 10861 10829 10860;
     sample_bar 2 10860 10861 10829 10850].

Lemma sample_run_ok : Analysable sample_run.
Proof.
  constructor.
  - intros c Hc. apply List.Forall_forall with (2 := Hc).
    repeat constructor; vm_compute; congruence.
  - vm_compute. split; congruence.
  - constructor; [done| |repeat constructor; vm_compute; done].
    intros a b Ha Hb. simpl in Ha, Hb.
    repeat destruct Ha as [<-|Ha]; try done; repeat destruct Hb as [<-|Hb]; done.
Qed.

Lemma marubozu_runs_exact_witness :
  exists runs, MarubozuAnalyzer.detect_marubozu_sequence MarubozuAnalyzer.default sample_run 2 = Ok (Some runs) /\
    In (0, 1, BULLISH) runs.
Proof.
  destruct (marubozu_runs_exact MarubozuAnalyzer.default sample_run 2 sample_run_ok) as (runs & E & _).
  exists runs. split; [exact E|]. vm_compute in E. injection E as <-. left. reflexivity.
Defined.

End PatternFacts.
