(* ===== verification/SMCStructure.v ===== *)
(** * Structure detectors: [engine/ta/smc/detectors/bms.py], [choch.py],
    [sms.py] and [inducement.py]

    A break of structure is the first close beyond a swing after it formed,
    sustained for a number of candles.  The bullish and the bearish methods of a
    detector are one definition at two values of [bullish]; swings of both kinds
    are used through the class [SwingLevel]. *)

From Stdlib Require Import ZArith Lia Bool String Sorting.Sorted Sorting.Permutation.
From stdpp Require Import base list strings.
From S2P Require Import Prelude Loops PyFloat FloatRound FloatMono PyRound PyText Constants PriceMath Candles Swings Liquidity ZoneModels StructureModels SMCConfig CandlePatterns.

#[local] Open Scope string_scope.
#[local] Open Scope Z_scope.
#[local] Open Scope list_scope.

(** ** Swings as levels *)

Class SwingLevel (A : Type) := {
  lv_price : A -> float; lv_timestamp : A -> datetime; lv_index : A -> Z; lv_strength : A -> Z }.

#[export] Instance SwingHigh_level : SwingLevel SwingHigh.t := {|
  lv_price := SwingHigh.price; lv_timestamp := SwingHigh.timestamp; lv_index := SwingHigh.index;
  lv_strength := SwingHigh.strength |}.
#[export] Instance SwingLow_level : SwingLevel SwingLow.t := {|
  lv_price := SwingLow.price; lv_timestamp := SwingLow.timestamp; lv_index := SwingLow.index;
  lv_strength := SwingLow.strength |}.

(** [sorted(swings, key=lambda x: x.timestamp)]. *)
Definition by_time {A} `{SwingLevel A} (swings : list A) : list A :=
  py_sorted (fun a b => dt_ltb (lv_timestamp a) (lv_timestamp b)) swings.

(** [candle.close > level] for a bullish break, [candle.close < level] for a
    bearish one. *)
Definition closes_beyond (bullish : bool) (level : float) (c : Candle.t) : bool :=
  if bullish then flt level (Candle.close c) else flt (Candle.close c) level.

Definition direction_of (bullish : bool) : Direction := if bullish then BULLISH else BEARISH.

(** [for j in range(start, len(candles)): if candles\[j\].close > level: ...; break]. *)
Definition first_break (bullish : bool) (level : float) (candles : list Candle.t) (start : Z)
    : res (option Z) :=
  first_index candles (closes_beyond bullish level) (py_range start (py_len candles)).

(** The loop that counts consecutive closes beyond the level from the break. *)
Definition count_closes (bullish : bool) (level : float) (candles : list Candle.t) (required first_break_idx : Z)
    : res Z :=
  streak_len (fun k => c ← py_index candles k; Ok (closes_beyond bullish level c)) required 0
    (py_range first_break_idx (py_len candles)).

(** The candle whose close completes the confirmation. *)
Definition confirm_candle (candles : list Candle.t) (first_break_idx required_closes : Z) : res Candle.t :=
  let idx := first_break_idx + required_closes - 1 in
  py_index candles (if py_len candles <=? idx then py_len candles - 1 else idx).

(** ** BMS *)

Module BMSDetector.

Definition _TF_SCALE (tf : Timeframe) : float :=
  match tf with
  | M1 => lit 10 2 | M5 => lit 20 2 | M15 => lit 35 2 | M30 => lit 50 2
  | H1 => lit 100 2 | H3 => lit 150 2 | H4 => lit 200 2 | H6 => lit 300 2 | H8 => lit 400 2
  | H12 => lit 500 2 | D1 => lit 500 2 | W1 => lit 1200 2 | MN1 => lit 2500 2
  end.

Definition _tf_scale (tf : Timeframe) : float := _TF_SCALE tf.

Definition _required_confirmation_candles
    (displacement strong_threshold moderate_threshold : float) (weak_count : Z) : Z :=
  if fle strong_threshold displacement then 2
  else if fle moderate_threshold displacement then 3
  else weak_count.

(** One iteration over the sorted swings: the event to append, if any. *)
Definition bms_body {A} `{SwingLevel A} (config : SMCConfig.t) (bullish : bool)
    (sequence : CandleSequence.t) (s : A) : res (option BreakInMarketStructure.t) :=
  let candles := CandleSequence.candles sequence in
  let scale := _tf_scale (CandleSequence.timeframe sequence) in
  let min_disp := fmul (SMCConfig.min_displacement_pips config) scale in
  let strong_disp := fmul (SMCConfig.bms_strong_displacement_pips config) scale in
  let moderate_disp := fmul (SMCConfig.bms_moderate_displacement_pips config) scale in
  let weak_confirm := SMCConfig.bms_weak_confirm_candles config in
  let level := lv_price s in
  let break_start := lv_index s + 1 in
  if py_len candles <=? break_start then Ok None
  else
    r ← first_break bullish level candles break_start;
    match r with
    | None => Ok None
    | Some first_break_idx =>
        breakout_candle ← py_index candles first_break_idx;
        pips ← (if bullish
                then calculate_pips level (Candle.close breakout_candle) (CandleSequence.symbol sequence)
                else calculate_pips (Candle.close breakout_candle) level (CandleSequence.symbol sequence));
        displacement ← py_round pips 2;
        if flt displacement min_disp then Ok None
        else
          let required_closes :=
            _required_confirmation_candles displacement strong_disp moderate_disp weak_confirm in
          confirmed_count ← count_closes bullish level candles required_closes first_break_idx;
          if confirmed_count <? required_closes then Ok None
          else
            candle ← confirm_candle candles first_break_idx required_closes;
            bms ← BreakInMarketStructure.create (CandleSequence.symbol sequence)
                    (CandleSequence.timeframe sequence) (Candle.timestamp candle) (direction_of bullish)
                    level (lv_timestamp s) (Candle.close breakout_candle) first_break_idx displacement true;
            Ok (Some bms)
    end.

Definition detect_bms {A} `{SwingLevel A} (config : SMCConfig.t) (bullish : bool)
    (sequence : CandleSequence.t) (swings : list A) : res (list BreakInMarketStructure.t) :=
  if py_len swings <? 1 then Ok []
  else collect (bms_body config bullish sequence) (by_time swings).

Definition detect_bullish_bms (config : SMCConfig.t) (sequence : CandleSequence.t)
    (swing_highs : list SwingHigh.t) := detect_bms config true sequence swing_highs.
Definition detect_bearish_bms (config : SMCConfig.t) (sequence : CandleSequence.t)
    (swing_lows : list SwingLow.t) := detect_bms config false sequence swing_lows.

Definition get_latest_bms (events : list BreakInMarketStructure.t) : option BreakInMarketStructure.t :=
  py_max_opt (fun a b => dt_ltb (BreakInMarketStructure.timestamp b) (BreakInMarketStructure.timestamp a)) events.
End BMSDetector.

(** ** CHOCH *)

Module CHOCHDetector.

(** [getattr(config, "choch_max_swing_strength", 8)]: the settings class has no
    such field. *)
Definition _choch_max_strength : Z := 8.

Definition _get_required_confirmations (tf : Timeframe) : Z :=
  if bool_decide (tf ∈ [M1; M5]) then 1
  else if bool_decide (tf ∈ [M15; M30]) then 2
  else 3.

Definition choch_body {A} `{SwingLevel A} (bullish : bool) (sequence : CandleSequence.t) (s : A)
    : res (option ChangeOfCharacter.t) :=
  let candles := CandleSequence.candles sequence in
  let required_closes := _get_required_confirmations (CandleSequence.timeframe sequence) in
  if _choch_max_strength <? lv_strength s then Ok None
  else
    let level := lv_price s in
    let break_start := lv_index s + 1 in
    if py_len candles <=? break_start then Ok None
    else
      r ← first_break bullish level candles break_start;
      match r with
      | None => Ok None
      | Some first_break_idx =>
          breakout_candle ← py_index candles first_break_idx;
          confirmed_count ← count_closes bullish level candles required_closes first_break_idx;
          if confirmed_count <? required_closes then Ok None
          else
            candle ← confirm_candle candles first_break_idx required_closes;
            choch ← ChangeOfCharacter.create (CandleSequence.symbol sequence)
                      (CandleSequence.timeframe sequence) (Candle.timestamp candle) (direction_of bullish)
                      level (lv_timestamp s) (Candle.close breakout_candle) first_break_idx
                      (lv_strength s <=? 5);
            Ok (Some choch)
      end.

Definition detect_choch {A} `{SwingLevel A} (bullish : bool) (sequence : CandleSequence.t)
    (swings : list A) : res (list ChangeOfCharacter.t) :=
  match swings with
  | [] => Ok []
  | _ => collect (choch_body bullish sequence) (by_time swings)
  end.

Definition detect_bullish_choch (sequence : CandleSequence.t) (swing_highs : list SwingHigh.t) :=
  detect_choch true sequence swing_highs.
Definition detect_bearish_choch (sequence : CandleSequence.t) (swing_lows : list SwingLow.t) :=
  detect_choch false sequence swing_lows.

Definition get_latest_choch (events : list ChangeOfCharacter.t) : option ChangeOfCharacter.t :=
  py_max_opt (fun a b => dt_ltb (ChangeOfCharacter.timestamp b) (ChangeOfCharacter.timestamp a)) events.
End CHOCHDetector.

(** ** SMS *)

Module SMSDetector.

(** [p < q] for lows, [p > q] for highs: the price [p] extends beyond [q]. *)
Definition extends (bullish : bool) (p q : float) : bool := if bullish then flt p q else flt q p.

Definition sms_body {A} `{SwingLevel A} (bullish : bool) (sequence : CandleSequence.t) (sorted : list A)
    (i : Z) : res (option ShiftInMarketStructure.t) :=
  s1 ← py_index sorted i;
  s2 ← py_index sorted (i + 1);
  s3 ← py_index sorted (i + 2);
  if negb (extends bullish (lv_price s2) (lv_price s1)) then Ok None
  else if extends bullish (lv_price s3) (lv_price s2) then Ok None
  else if py_len (CandleSequence.candles sequence) <=? lv_index s3 then Ok None
  else
    reversal_candle ← py_index (CandleSequence.candles sequence) (lv_index s3);
    sms ← ShiftInMarketStructure.create (CandleSequence.symbol sequence)
            (CandleSequence.timeframe sequence) (Candle.timestamp reversal_candle) (direction_of bullish)
            (lv_price s2) (lv_timestamp s2) (Candle.close reversal_candle) (lv_index s3) true;
    Ok (Some sms).

Definition detect_sms {A} `{SwingLevel A} (bullish : bool) (sequence : CandleSequence.t)
    (swings : list A) : res (list ShiftInMarketStructure.t) :=
  if py_len swings <? 3 then Ok []
  else
    let sorted := by_time swings in
    collect (sms_body bullish sequence sorted) (py_range 0 (py_len sorted - 2)).

Definition detect_bullish_sms (sequence : CandleSequence.t) (swing_lows : list SwingLow.t) :=
  detect_sms true sequence swing_lows.
Definition detect_bearish_sms (sequence : CandleSequence.t) (swing_highs : list SwingHigh.t) :=
  detect_sms false sequence swing_highs.

Definition get_latest_sms (events : list ShiftInMarketStructure.t) : option ShiftInMarketStructure.t :=
  py_max_opt (fun a b => dt_ltb (ShiftInMarketStructure.timestamp b) (ShiftInMarketStructure.timestamp a)) events.
End SMSDetector.

(** ** Inducement *)

Module InducementDetector.

(** [candle.low < threshold] for a bullish inducement, [candle.high > threshold]
    for a bearish one. *)
Definition clears (bullish : bool) (threshold : float) (c : Candle.t) : bool :=
  if bullish then flt (Candle.low c) threshold else flt threshold (Candle.high c).

Definition clearance_threshold (config : SMCConfig.t) (bullish : bool) (symbol : string) (price : float) : float :=
  let min_break := fmul (SMCConfig.inducement_min_break_pips config) (pip_float symbol) in
  if bullish then fsub price min_break else fadd price min_break.

Definition inducement_body {A} `{SwingLevel A} (config : SMCConfig.t) (bullish : bool)
    (sequence : CandleSequence.t) (s : A) : res (option InducementEvent.t) :=
  let candles := CandleSequence.candles sequence in
  if py_len candles - 1 <=? lv_index s then Ok None
  else
    let threshold := clearance_threshold config bullish (CandleSequence.symbol sequence) (lv_price s) in
    r ← first_index candles (clears bullish threshold) (py_range (lv_index s + 1) (py_len candles));
    cleared_timestamp ←
      match r with Some j => c ← py_index candles j; Ok (Some (Candle.timestamp c)) | None => Ok None end;
    e ← InducementEvent.create (CandleSequence.symbol sequence) (CandleSequence.timeframe sequence)
          (lv_timestamp s) (lv_price s) (lv_timestamp s) (direction_of bullish)
          (match r with Some _ => true | None => false end) cleared_timestamp (lv_index s) true;
    Ok (Some e).

Definition detect_inducement {A} `{SwingLevel A} (config : SMCConfig.t) (bullish : bool)
    (sequence : CandleSequence.t) (swings : list A) : res (list InducementEvent.t) :=
  collect (inducement_body config bullish sequence) (List.filter (fun s => lv_strength s <? 5) swings).

Definition detect_bullish_inducement (config : SMCConfig.t) (sequence : CandleSequence.t)
    (swing_lows : list SwingLow.t) := detect_inducement config true sequence swing_lows.
Definition detect_bearish_inducement (config : SMCConfig.t) (sequence : CandleSequence.t)
    (swing_highs : list SwingHigh.t) := detect_inducement config false sequence swing_highs.

Definition get_cleared_inducements (events : list InducementEvent.t) : list InducementEvent.t :=
  List.filter InducementEvent.cleared events.
End InducementDetector.

(** ** Breaks and confirmations *)

Module StructureFacts.

(** What a detector may assume of a swing: a finite positive price and an index
    of the sequence's past. *)
Record level_ok {A} `{SwingLevel A} (s : A) : Prop := {
  lo_fin : fin (lv_price s); lo_pos : 0 < fv (lv_price s); lo_index : 0 <= lv_index s }.

Section Breaks.
Context {A : Type} `{SwingLevel A} (bullish : bool) (q : CandleSequence.t) `{Analysable q}.
Abbreviation v := (CandleSequence.candles q).

(** Candle [j] closes beyond the level. *)
Definition beyond_at (level : float) (j : Z) : bool := holds_at v (closes_beyond bullish level) j.

(** [j] is the first candle after the swing to close beyond it. *)
Definition is_break (s : A) (j : Z) : Prop :=
  lv_index s < j < py_len v /\ beyond_at (lv_price s) j = true /\
  forall k, lv_index s < k < j -> beyond_at (lv_price s) k = false.

(** The [n] candles from [j] on all close beyond the level. *)
Definition sustained (level : float) (j n : Z) : Prop :=
  j + n <= py_len v /\ forall k, j <= k < j + n -> beyond_at level k = true.

Lemma is_break_unique s j j' : is_break s j -> is_break s j' -> j = j'.
Proof.
  intros (R & B & F) (R' & B' & F'). destruct (Z.lt_trichotomy j j') as [?|[?|?]]; [|done|].
  - rewrite F' in B by lia. done.
  - rewrite F in B' by lia. done.
Qed.

Lemma first_break_spec s :
  0 <= lv_index s ->
  (exists j, first_break bullish (lv_price s) v (lv_index s + 1) = Ok (Some j) /\ is_break s j) \/
  (first_break bullish (lv_price s) v (lv_index s + 1) = Ok None /\ forall j, ~ is_break s j).
Proof.
  intros Hi. unfold first_break. rewrite first_index_spec by lia.
  destruct (find_map _ _) as [j|] eqn:E.
  - left. exists j. split; [done|]. apply first_hit_range in E as (Hj & Hb & Hn).
    split; [lia|]. split; [done|]. intros k Hk. apply Hn. lia.
  - right. split; [done|]. rewrite first_miss_range in E. intros j (Hj & Hb & _).
    unfold beyond_at in Hb. rewrite E in Hb by lia. done.
Qed.

Lemma count_closes_spec level j n :
  0 <= j -> 1 <= n ->
  exists m, count_closes bullish level v n j = Ok m /\ ((m <? n) = false <-> sustained level j n).
Proof.
  intros Hj Hn. unfold count_closes.
  destruct (streak_len_spec (fun k => c ← py_index v k; Ok (closes_beyond bullish level c))
              (beyond_at level) n j (py_len v)) with (n := 0) as (m & E & Hm).
  - intros k Hk. apply index_test. lia.
  - lia.
  - exists m. split; [exact E|]. rewrite Z.ltb_antisym, negb_false_iff, Hm, Z.sub_0_r. done.
Qed.

Lemma confirm_candle_spec level j n :
  0 <= j -> 1 <= n -> sustained level j n ->
  exists c, confirm_candle v j n = Ok c /\ v !! Z.to_nat (j + n - 1) = Some c.
Proof.
  intros Hj Hn [Hb _]. unfold confirm_candle. cbv zeta. rewrite (proj2 (Z.leb_gt _ _)) by lia.
  apply py_index_in_range. lia.
Qed.

Lemma break_candle s j :
  level_ok s -> is_break s j ->
  exists c, py_index v j = Ok c /\ v !! Z.to_nat j = Some c /\ Candle.wf c /\ Candle.finite c.
Proof.
  intros [_ _ Hi] (Hj & _). destruct (py_index_in_range v j) as (c & E & Ec); [lia|].
  exists c. split; [done|]. split; [done|]. by apply (PatternFacts.an_at q (Z.to_nat j)).
Qed.

(** A price of the model's constructors. *)
Lemma price_field x : fin x -> 0 < fv x -> field_gt0 x = Ok x.
Proof. intros F P. apply field_gt0_intro. rewrite CandleFacts.flt_fzero by auto with etradie. by apply Z.ltb_lt. Qed.
Lemma pips_field x : num x -> 0 <= fv x -> field_ge0 x = Ok x.
Proof. intros N P. apply field_ge0_intro. rewrite CandleFacts.fle_fzero by done. by apply Z.leb_le. Qed.
Lemma index_field i : 0 <= i -> int_field 0 None i = Ok i.
Proof. intros Hi. apply SwingFacts.int_field_intro; [done|discriminate]. Qed.
Lemma symbol_field :
  symbol_3_30 (CandleSequence.symbol q) = Ok (normalize_symbol (str_strip (CandleSequence.symbol q))).
Proof. apply SwingFacts.symbol_3_30_intro, an_symbol. Qed.
End Breaks.

Abbreviation stored_symbol q := (normalize_symbol (str_strip (CandleSequence.symbol q))).

(** ** BMS *)

Section BMS.
Import BMSDetector.
Context {A : Type} `{SwingLevel A} (config : SMCConfig.t) `{SMCConfig.valid_config config}
  (bullish : bool) (q : CandleSequence.t) `{Analysable q}.
Abbreviation v := (CandleSequence.candles q).
Abbreviation scaled x := (fmul x (_tf_scale (CandleSequence.timeframe q))).

(** The closes a displacement must be followed by. *)
Definition required (d : float) : Z :=
  _required_confirmation_candles d (scaled (SMCConfig.bms_strong_displacement_pips config))
    (scaled (SMCConfig.bms_moderate_displacement_pips config)) (SMCConfig.bms_weak_confirm_candles config).

(** [e] is the break of [s]: the first close beyond it, with the displacement
    the timeframe asks for, held for the closes that displacement asks for. *)
Record bms_of (s : A) (e : BreakInMarketStructure.t) (j : Z) (c k : Candle.t) (p d : float) : Prop := {
  bo_break : is_break bullish q s j;
  bo_candle : v !! Z.to_nat j = Some c;
  bo_pips : calculate_pips (lv_price s) (Candle.close c) (CandleSequence.symbol q) = Ok p;
  bo_round : py_round p 2 = Ok d;
  bo_large : flt d (scaled (SMCConfig.min_displacement_pips config)) = false;
  bo_held : sustained bullish q (lv_price s) j (required d);
  bo_confirm : v !! Z.to_nat (j + required d - 1) = Some k;
  bo_event : e = BreakInMarketStructure.mk (stored_symbol q) (CandleSequence.timeframe q)
    (Candle.timestamp k) (direction_of bullish) (lv_price s) (lv_timestamp s) (Candle.close c) j d true }.

Definition bms_spec (s : A) (r : option BreakInMarketStructure.t) : Prop :=
  forall e, r = Some e <-> exists j c k p d, bms_of s e j c k p d.

Lemma bms_spec_None s : (forall e j c k p d, ~ bms_of s e j c k p d) -> bms_spec s None.
Proof. intros Hn e. split; [done|]. intros (j & c & k & p & d & H'). by apply Hn in H'. Qed.

Lemma required_range d : 1 <= required d <= 10.
Proof.
  pose proof (SMCConfig.r_weak config (SMCConfig.valid_ranges config _)).
  unfold required, _required_confirmation_candles. repeat case_match; lia.
Qed.

Lemma bms_pips s c :
  level_ok s -> Candle.wf c -> Candle.finite c ->
  exists p d, calculate_pips (lv_price s) (Candle.close c) (CandleSequence.symbol q) = Ok p /\
    (if bullish then calculate_pips (lv_price s) (Candle.close c) (CandleSequence.symbol q)
     else calculate_pips (Candle.close c) (lv_price s) (CandleSequence.symbol q)) = Ok p /\
    py_round p 2 = Ok d /\ num d /\ 0 <= fv d.
Proof.
  intros [Fl Pl _] Hw Hf. destruct (PatternFacts.an_prices c Hw Hf) as (_ & _ & _ & [Fc Pc]).
  destruct (calculate_pips_facts (lv_price s) (Candle.close c) (CandleSequence.symbol q))
    as (p & E1 & E2 & Np & Hp & _); [done|done|lia|lia|].
  destruct (py_round_num p 2 Np Hp) as (d & Ed & Nd & Hd).
  exists p, d. split; [done|]. split; [by destruct bullish|done].
Qed.

Lemma bms_body_spec s : level_ok s -> yields (bms_body config bullish q s) (bms_spec s).
Proof.
  intros Hs. pose proof Hs as [Fl Pl Hi]. unfold bms_body. cbv zeta.
  destruct (Z.leb_spec (py_len v) (lv_index s + 1)).
  { apply yields_ret, bms_spec_None. intros e j c k p d []. destruct bo_break0 as [Hj _]. lia. }
  destruct (first_break_spec bullish q s Hi) as [(j & -> & Hj)|[-> Hn]]; cbn [mbind res_bind].
  2:{ apply yields_ret, bms_spec_None. intros e j c k p d []. by apply (Hn j). }
  destruct (break_candle bullish q s j Hs Hj) as (c & -> & Ec & Hw & Hf). cbn [mbind res_bind].
  destruct (bms_pips s c Hs Hw Hf) as (p & d & Ep & -> & Ed & Nd & Hd). cbn [mbind res_bind].
  rewrite Ed. cbn [mbind res_bind].
  assert (Hu : forall e j' c' k p' d', bms_of s e j' c' k p' d' -> j' = j /\ c' = c /\ p' = p /\ d' = d).
  { intros e j' c' k p' d' []. pose proof (is_break_unique _ _ _ _ _ bo_break0 Hj) as ->.
    assert (c' = c) as -> by congruence. split; [done|]. split; [done|]. split; congruence. }
  destruct (flt d _) eqn:El.
  { apply yields_ret, bms_spec_None. intros e j' c' k p' d' Hb. destruct (Hu _ _ _ _ _ _ Hb) as (-> & -> & -> & ->).
    destruct Hb. congruence. }
  fold (required d). pose proof (required_range d) as Hr. assert (Hj0 : 0 <= j) by (destruct Hj; lia).
  destruct (count_closes_spec bullish q (lv_price s) j (required d) Hj0 ltac:(lia)) as (m & -> & Hm).
  cbn [mbind res_bind]. destruct (m <? required d) eqn:Em.
  { apply yields_ret, bms_spec_None. intros e j' c' k p' d' Hb. destruct (Hu _ _ _ _ _ _ Hb) as (-> & -> & -> & ->).
    destruct Hb. apply Hm in bo_held0. congruence. }
  pose proof (proj1 Hm eq_refl) as Hh.
  destruct (confirm_candle_spec bullish q (lv_price s) j (required d) Hj0 ltac:(lia) Hh) as (k & -> & Ek).
  cbn [mbind res_bind]. destruct (PatternFacts.an_prices c Hw Hf) as (_ & _ & _ & [Fc Pc]).
  unfold BreakInMarketStructure.create. rewrite symbol_field, !price_field, index_field, pips_field by done.
  cbn [mbind res_bind]. apply yields_ret. intros e. split.
  - intros [= <-]. by exists j, c, k, p, d.
  - intros (j' & c' & k' & p' & d' & Hb). destruct (Hu _ _ _ _ _ _ Hb) as (-> & -> & -> & ->).
    destruct Hb. by simplify_eq.
Qed.

Lemma detect_bms_spec swings :
  (forall s, In s swings -> level_ok s) ->
  yields (detect_bms config bullish q swings) (fun events => exists f,
    events = omap f (by_time swings) /\ forall s, In s swings -> bms_spec s (f s)).
Proof.
  intros Hok. unfold detect_bms. destruct swings as [|s0 swings].
  { apply yields_ret. exists (fun _ => None). split; [done|]. by intros s []. }
  rewrite py_len_cons, (proj2 (Z.ltb_ge _ 1)) by (pose proof (py_len_nonneg swings); lia).
  eapply yields_weaken; [apply (collect_spec _ bms_spec)|].
  - intros s Hs. apply bms_body_spec, Hok. by apply py_sorted_In in Hs.
  - intros events (f & -> & Hf). exists f. split; [done|]. intros s Hs. apply Hf. by apply py_sorted_In.
Qed.
End BMS.

(** ** CHOCH *)

Section CHOCH.
Import CHOCHDetector.
Context {A : Type} `{SwingLevel A} (bullish : bool) (q : CandleSequence.t) `{Analysable q}.
Abbreviation v := (CandleSequence.candles q).
Abbreviation closes := (_get_required_confirmations (CandleSequence.timeframe q)).

Record choch_of (s : A) (e : ChangeOfCharacter.t) (j : Z) (c k : Candle.t) : Prop := {
  co_minor : lv_strength s <= 8;
  co_break : is_break bullish q s j;
  co_candle : v !! Z.to_nat j = Some c;
  co_held : sustained bullish q (lv_price s) j closes;
  co_confirm : v !! Z.to_nat (j + closes - 1) = Some k;
  co_event : e = ChangeOfCharacter.mk (stored_symbol q) (CandleSequence.timeframe q)
    (Candle.timestamp k) (direction_of bullish) (lv_price s) (lv_timestamp s) (Candle.close c) j
    (lv_strength s <=? 5) }.

Definition choch_spec (s : A) (r : option ChangeOfCharacter.t) : Prop :=
  forall e, r = Some e <-> exists j c k, choch_of s e j c k.

Lemma choch_spec_None s : (forall e j c k, ~ choch_of s e j c k) -> choch_spec s None.
Proof. intros Hn e. split; [done|]. intros (j & c & k & H'). by apply Hn in H'. Qed.

Lemma closes_range : 1 <= closes <= 3.
Proof. unfold _get_required_confirmations. repeat case_bool_decide; lia. Qed.

Lemma choch_body_spec s : level_ok s -> yields (choch_body bullish q s) (choch_spec s).
Proof.
  intros Hs. pose proof Hs as [Fl Pl Hi]. pose proof closes_range as Hr. unfold choch_body, _choch_max_strength.
  cbv zeta. destruct (Z.ltb_spec 8 (lv_strength s)).
  { apply yields_ret, choch_spec_None. intros e j c k []. lia. }
  destruct (Z.leb_spec (py_len v) (lv_index s + 1)).
  { apply yields_ret, choch_spec_None. intros e j c k []. destruct co_break0 as [Hj _]. lia. }
  destruct (first_break_spec bullish q s Hi) as [(j & -> & Hj)|[-> Hn]]; cbn [mbind res_bind].
  2:{ apply yields_ret, choch_spec_None. intros e j c k []. by apply (Hn j). }
  destruct (break_candle bullish q s j Hs Hj) as (c & -> & Ec & Hw & Hf). cbn [mbind res_bind].
  assert (Hj0 : 0 <= j) by (destruct Hj; lia).
  destruct (count_closes_spec bullish q (lv_price s) j closes Hj0 ltac:(lia)) as (m & -> & Hm).
  cbn [mbind res_bind].
  assert (Hu : forall e j' c' k, choch_of s e j' c' k -> j' = j /\ c' = c).
  { intros e j' c' k []. pose proof (is_break_unique _ _ _ _ _ co_break0 Hj) as ->. split; congruence. }
  destruct (m <? closes) eqn:Em.
  { apply yields_ret, choch_spec_None. intros e j' c' k Hb. destruct (Hu _ _ _ _ Hb) as (-> & ->).
    destruct Hb. apply Hm in co_held0. congruence. }
  pose proof (proj1 Hm eq_refl) as Hh.
  destruct (confirm_candle_spec bullish q (lv_price s) j closes Hj0 ltac:(lia) Hh) as (k & -> & Ek).
  cbn [mbind res_bind]. destruct (PatternFacts.an_prices c Hw Hf) as (_ & _ & _ & [Fc Pc]).
  unfold ChangeOfCharacter.create. rewrite symbol_field, !price_field, index_field by done.
  cbn [mbind res_bind]. apply yields_ret. intros e. split.
  - intros [= <-]. by exists j, c, k.
  - intros (j' & c' & k' & Hb). destruct (Hu _ _ _ _ Hb) as (-> & ->). destruct Hb. by simplify_eq.
Qed.

Lemma detect_choch_spec swings :
  (forall s, In s swings -> level_ok s) ->
  yields (detect_choch bullish q swings) (fun events => exists f,
    events = omap f (by_time swings) /\ forall s, In s swings -> choch_spec s (f s)).
Proof.
  intros Hok. unfold detect_choch. destruct swings as [|s0 swings].
  { apply yields_ret. exists (fun _ => None). split; [done|]. by intros s []. }
  eapply yields_weaken; [apply (collect_spec _ choch_spec)|].
  - intros s Hs. apply choch_body_spec, Hok. by apply py_sorted_In in Hs.
  - intros events (f & -> & Hf). exists f. split; [done|]. intros s Hs. apply Hf. by apply py_sorted_In.
Qed.
End CHOCH.

(** ** SMS *)

Section SMS.
Import SMSDetector.
Context {A : Type} `{SwingLevel A} (bullish : bool) (q : CandleSequence.t) `{Analysable q}.
Abbreviation v := (CandleSequence.candles q).

(** [e] is the failure swing at position [i] of the swings in time order. *)
Record sms_of (sorted : list A) (i : Z) (e : ShiftInMarketStructure.t) (s1 s2 s3 : A) (c : Candle.t) : Prop := {
  so_first : sorted !! Z.to_nat i = Some s1;
  so_second : sorted !! Z.to_nat (i + 1) = Some s2;
  so_third : sorted !! Z.to_nat (i + 2) = Some s3;
  so_extends : extends bullish (lv_price s2) (lv_price s1) = true;
  so_fails : extends bullish (lv_price s3) (lv_price s2) = false;
  so_inside : lv_index s3 < py_len v;
  so_candle : v !! Z.to_nat (lv_index s3) = Some c;
  so_event : e = ShiftInMarketStructure.mk (stored_symbol q) (CandleSequence.timeframe q)
    (Candle.timestamp c) (direction_of bullish) (lv_price s2) (lv_timestamp s2) (Candle.close c)
    (lv_index s3) true }.

Definition sms_spec (sorted : list A) (i : Z) (r : option ShiftInMarketStructure.t) : Prop :=
  forall e, r = Some e <-> exists s1 s2 s3 c, sms_of sorted i e s1 s2 s3 c.

Lemma sms_spec_None sorted i : (forall e s1 s2 s3 c, ~ sms_of sorted i e s1 s2 s3 c) -> sms_spec sorted i None.
Proof. intros Hn e. split; [done|]. intros (s1 & s2 & s3 & c & H'). by apply Hn in H'. Qed.

Lemma sms_body_spec sorted i :
  (forall s, In s sorted -> level_ok s) -> 0 <= i < py_len sorted - 2 ->
  yields (sms_body bullish q sorted i) (sms_spec sorted i).
Proof.
  intros Hok Hi. unfold sms_body.
  destruct (py_index_in_range sorted i) as (s1 & -> & E1); [lia|].
  destruct (py_index_in_range sorted (i + 1)) as (s2 & -> & E2); [lia|].
  destruct (py_index_in_range sorted (i + 2)) as (s3 & X3 & E3); [lia|].
  rewrite X3. cbn [mbind res_bind].
  destruct (extends bullish (lv_price s2) (lv_price s1)) eqn:Ee; cbn [negb].
  2:{ apply yields_ret, sms_spec_None. intros e a1 a2 a3 c []. simplify_eq. congruence. }
  destruct (extends bullish (lv_price s3) (lv_price s2)) eqn:Ef.
  { apply yields_ret, sms_spec_None. intros e a1 a2 a3 c []. simplify_eq. congruence. }
  destruct (Z.leb_spec (py_len v) (lv_index s3)).
  { apply yields_ret, sms_spec_None. intros e a1 a2 a3 c []. simplify_eq. lia. }
  assert (Hl : forall k s, sorted !! k = Some s -> level_ok s).
  { intros k s E. apply Hok, list_elem_of_In. by eapply list_elem_of_lookup_2. }
  destruct (Hl _ _ E2) as [F2 P2 _], (Hl _ _ E3) as [_ _ H3].
  destruct (py_index_in_range v (lv_index s3)) as (c & -> & Ec); [lia|]. cbn [mbind res_bind].
  destruct (PatternFacts.an_at q _ _ Ec) as [Hw Hf].
  destruct (PatternFacts.an_prices c Hw Hf) as (_ & _ & _ & [Fc Pc]).
  unfold ShiftInMarketStructure.create. rewrite symbol_field, !price_field, index_field by done.
  cbn [mbind res_bind]. apply yields_ret. intros e. split.
  - intros [= <-]. by exists s1, s2, s3, c.
  - intros (a1 & a2 & a3 & c' & []). by simplify_eq.
Qed.

Lemma detect_sms_spec swings :
  (forall s, In s swings -> level_ok s) ->
  yields (detect_sms bullish q swings) (fun events => exists f,
    events = omap f (py_range 0 (py_len swings - 2)) /\
    forall i, 0 <= i < py_len swings - 2 -> sms_spec (by_time swings) i (f i)).
Proof.
  intros Hok. unfold detect_sms. cbv zeta.
  assert (El : py_len (by_time swings) = py_len swings) by (unfold py_len, by_time; by rewrite py_sorted_length).
  destruct (Z.ltb_spec (py_len swings) 3).
  { apply yields_ret. exists (fun _ => None). rewrite py_range_nil by lia. split; [done|]. lia. }
  rewrite El. eapply yields_weaken; [apply (collect_spec _ (sms_spec (by_time swings)))|].
  - intros i Hi. apply elem_of_py_range in Hi. apply sms_body_spec; [|lia].
    intros s Hs. apply Hok. by apply py_sorted_In in Hs.
  - intros events (f & -> & Hf). exists f. split; [done|]. intros i Hi. apply Hf. by apply elem_of_py_range.
Qed.
End SMS.

(** ** Inducement *)

Section Inducement.
Import InducementDetector.
Context {A : Type} `{SwingLevel A} (config : SMCConfig.t) `{SMCConfig.valid_config config}
  (bullish : bool) (q : CandleSequence.t) `{Analysable q}.
Abbreviation v := (CandleSequence.candles q).

Definition clears_at (s : A) (j : Z) : bool :=
  holds_at v (clears bullish (clearance_threshold config bullish (CandleSequence.symbol q) (lv_price s))) j.

(** The penetration asked for is a finite distance that is not negative. *)
Lemma min_break_facts :
  fin (fmul (SMCConfig.inducement_min_break_pips config) (pip_float (CandleSequence.symbol q))) /\
  0 <= fv (fmul (SMCConfig.inducement_min_break_pips config) (pip_float (CandleSequence.symbol q))).
Proof.
  destruct (SMCConfig.r_break config (SMCConfig.valid_ranges config _)) as [Fb Hb].
  destruct (pip_float_fin (CandleSequence.symbol q)) as [Fp Hp]. rewrite fv_fzero in Hb.
  set (x := SMCConfig.inducement_min_break_pips config) in *. set (y := pip_float _) in *.
  assert (Hxy : 0 <= fv (fmul x y)) by (apply fmul_nonneg; done || lia). split; [|done].
  apply (num_finite_of_bounds _ fzero (fmul (of_Z 50) fone)); [by apply fmul_num|done|done|].
  split; [done|]. apply fmul_mono; [done..|]. rewrite fv_fone. nia.
Qed.

(** Only a wick strictly beyond the level clears it. *)
Lemma clears_penetrates s c :
  level_ok s -> Candle.wf c ->
  clears bullish (clearance_threshold config bullish (CandleSequence.symbol q) (lv_price s)) c = true ->
  if bullish then fv (Candle.low c) < fv (lv_price s) else fv (lv_price s) < fv (Candle.high c).
Proof.
  intros [Fl Pl _] Hw. destruct min_break_facts as [Fb Hb]. destruct Hw.
  unfold clears, clearance_threshold. cbv zeta. set (m := fmul _ _) in *. destruct bullish.
  - pose proof (fsub_le_l (lv_price s) m Fl Fb Hb). intros E.
    rewrite flt_fv in E by (done || by apply fsub_num). zbool. lia.
  - pose proof (fadd_ge_l (lv_price s) m Fl Fb Hb). intros E.
    rewrite flt_fv in E by (done || by apply fadd_num). zbool. lia.
Qed.

(** What the detector records of an internal swing: the first clearance after
    it, if there is one. *)
Definition inducement_spec (s : A) (r : option InducementEvent.t) : Prop :=
  match r with
  | None => py_len v - 1 <= lv_index s
  | Some e =>
      lv_index s < py_len v - 1 /\ exists cleared ts,
      e = InducementEvent.mk (stored_symbol q) (CandleSequence.timeframe q) (lv_timestamp s)
        (lv_price s) (lv_timestamp s) (direction_of bullish) cleared ts (lv_index s) true /\
      match ts with
      | None => cleared = false /\ forall j, lv_index s < j < py_len v -> clears_at s j = false
      | Some t => cleared = true /\ exists j c, lv_index s < j < py_len v /\
          v !! Z.to_nat j = Some c /\ t = Candle.timestamp c /\ clears_at s j = true /\
          forall k, lv_index s < k < j -> clears_at s k = false
      end
  end.

Lemma inducement_body_spec s : level_ok s -> yields (inducement_body config bullish q s) (inducement_spec s).
Proof.
  intros Hs. pose proof Hs as [Fl Pl Hi]. unfold inducement_body. cbv zeta.
  destruct (Z.leb_spec (py_len v - 1) (lv_index s)); [by apply yields_ret|].
  rewrite first_index_spec by lia. cbn [mbind res_bind]. fold (clears_at s).
  destruct (find_map _ _) as [j|] eqn:E.
  - apply first_hit_range in E as (Hj & Hc & Hn).
    destruct (py_index_in_range v j) as (c & -> & Ec); [lia|]. cbn [mbind res_bind].
    unfold InducementEvent.create. rewrite symbol_field, price_field, index_field by done. cbn [mbind res_bind].
    apply yields_ret. split; [done|]. do 2 eexists. split; [done|]. split; [done|]. exists j, c.
    repeat (split; [done||lia|]). intros k Hk. apply Hn. lia.
  - rewrite first_miss_range in E. cbn [mbind res_bind].
    unfold InducementEvent.create. rewrite symbol_field, price_field, index_field by done. cbn [mbind res_bind].
    apply yields_ret. split; [done|]. do 2 eexists. split; [done|]. split; [done|]. intros j Hj. apply E. lia.
Qed.

Lemma detect_inducement_spec swings :
  (forall s, In s swings -> level_ok s) ->
  yields (detect_inducement config bullish q swings) (fun events => exists f,
    events = omap f (List.filter (fun s => lv_strength s <? 5) swings) /\
    forall s, In s swings -> lv_strength s < 5 -> inducement_spec s (f s)).
Proof.
  intros Hok. eapply yields_weaken; [apply (collect_spec _ inducement_spec)|].
  - intros s Hs. apply inducement_body_spec, Hok. by apply filter_In in Hs as [].
  - intros events (f & -> & Hf). exists f. split; [done|]. intros s Hs Hlt. apply Hf, filter_In.
    split; [done|]. by apply Z.ltb_lt.
Qed.
End Inducement.

(** ** The theorems *)

(** C10: breaks in market structure are found exactly.  On an analysable sequence
    and finite swings both detections return without an exception.  The events
    are, in time order of the swings, exactly the breaks of the definition: the
    first close beyond the swing after it formed, whose displacement in pips,
    rounded to two decimals, reaches the minimum of the timeframe, and which the
    following closes sustain (two, three or the configured number, by how strong
    the displacement is).  The event carries the breaking candle's index and
    close and the confirming candle's time. *)
Theorem bms_exact (config : SMCConfig.t) (q : CandleSequence.t)
    (highs : list SwingHigh.t) (lows : list SwingLow.t) :
  SMCConfig.valid_config config -> Analysable q ->
  (forall h, In h highs -> level_ok h) -> (forall l, In l lows -> level_ok l) ->
  (exists f, BMSDetector.detect_bullish_bms config q highs = Ok (omap f (by_time highs)) /\
     forall h e, In h highs -> f h = Some e <-> exists j c k p d, bms_of config true q h e j c k p d) /\
  (exists f, BMSDetector.detect_bearish_bms config q lows = Ok (omap f (by_time lows)) /\
     forall l e, In l lows -> f l = Some e <-> exists j c k p d, bms_of config false q l e j c k p d).
Proof.
  intros V An Hh Hl. split.
  - destruct (detect_bms_spec config true q highs Hh) as (events & E & f & -> & Hf).
    exists f. split; [exact E|]. intros h e Hin. by apply Hf.
  - destruct (detect_bms_spec config false q lows Hl) as (events & E & f & -> & Hf).
    exists f. split; [exact E|]. intros l e Hin. by apply Hf.
Qed.

(** An impulse: a bearish candle, two strong bullish ones that leave a gap, and a
    pause. *)
Definition sample_impulse : CandleSequence.t :=
  CandleSequence.mk "EURUSD" H1
    [PatternFacts.sample_bar 0 10840 10850 10790 10800; PatternFacts.sample_bar 1 10800 10910 10799 10905;
     PatternFacts.sample_bar 2 10905 10960 10900 10955; PatternFacts.sample_bar 3 10955 10970 10920 10930].

#[export] Instance sample_impulse_ok : Analysable sample_impulse.
Proof.
  constructor.
  - intros c Hc. apply List.Forall_forall with (2 := Hc).
    repeat constructor; vm_compute; congruence.
  - vm_compute. split; congruence.
  - constructor; [done| |repeat constructor; vm_compute; done].
    intros a b Ha Hb. simpl in Ha, Hb.
    repeat destruct Ha as [<-|Ha]; try done; repeat destruct Hb as [<-|Hb]; done.
Qed.

Definition sample_high : SwingHigh.t :=
  SwingHigh.mk "EURUSD" H1 (mk_datetime 0 (Some 0)) (lit 10850 4) 0 4 5 5 false None.
Definition sample_low : SwingLow.t :=
  SwingLow.mk "EURUSD" H1 (mk_datetime 0 (Some 0)) (lit 10790 4) 0 4 5 5 false None.

Lemma sample_high_ok : forall h, In h [sample_high] -> level_ok h.
Proof. intros h [<-|[]]. constructor; vm_compute; done. Qed.
Lemma sample_low_ok : forall l, In l [sample_low] -> level_ok l.
Proof. intros l [<-|[]]. constructor; vm_compute; done. Qed.

Lemma bms_exact_witness :
  (exists f, BMSDetector.detect_bullish_bms SMCConfig.default sample_impulse [sample_high] =
     Ok (omap f (by_time [sample_high]))) /\
  map BreakInMarketStructure.candle_index <$>
    BMSDetector.detect_bullish_bms SMCConfig.default sample_impulse [sample_high] = Ok [1].
Proof.
  split; [|vm_compute; reflexivity].
  destruct (bms_exact SMCConfig.default sample_impulse [sample_high] [sample_low]
    SMCConfig.default_valid sample_impulse_ok sample_high_ok sample_low_ok) as [(f & E & _) _].
  exists f. exact E.
Defined.

(** Changes of character are found exactly.  On an analysable sequence and
    finite swings both detections return.  The events are, in time order of the
    swings, exactly one per swing of strength at most 8 whose first later close
    beyond it is sustained for one, two or three closes (by timeframe: M1 and M5,
    M15 and M30, the rest); a swing of strength at most 5 makes the event
    minor. *)
Theorem choch_exact (q : CandleSequence.t) (highs : list SwingHigh.t) (lows : list SwingLow.t) :
  Analysable q -> (forall h, In h highs -> level_ok h) -> (forall l, In l lows -> level_ok l) ->
  (exists f, CHOCHDetector.detect_bullish_choch q highs = Ok (omap f (by_time highs)) /\
     forall h e, In h highs -> f h = Some e <-> exists j c k, choch_of true q h e j c k) /\
  (exists f, CHOCHDetector.detect_bearish_choch q lows = Ok (omap f (by_time lows)) /\
     forall l e, In l lows -> f l = Some e <-> exists j c k, choch_of false q l e j c k).
Proof.
  intros An Hh Hl. split.
  - destruct (detect_choch_spec true q highs Hh) as (events & E & f & -> & Hf).
    exists f. split; [exact E|]. intros h e Hin. by apply Hf.
  - destruct (detect_choch_spec false q lows Hl) as (events & E & f & -> & Hf).
    exists f. split; [exact E|]. intros l e Hin. by apply Hf.
Qed.

Lemma choch_exact_witness :
  (exists f, CHOCHDetector.detect_bullish_choch sample_impulse [sample_high] =
     Ok (omap f (by_time [sample_high]))) /\
  map ChangeOfCharacter.is_minor <$> CHOCHDetector.detect_bullish_choch sample_impulse [sample_high] = Ok [true].
Proof.
  split; [|vm_compute; reflexivity].
  destruct (choch_exact sample_impulse [sample_high] [sample_low] sample_impulse_ok sample_high_ok sample_low_ok)
    as [(f & E & _) _].
  exists f. exact E.
Defined.

(** Failure swings are found exactly.  On an analysable sequence and finite
    swings both detections return, and they report exactly the triples of
    consecutive swings in time order of which the second extends beyond the first
    and the third does not extend beyond the second. *)
Theorem sms_exact (q : CandleSequence.t) (lows : list SwingLow.t) (highs : list SwingHigh.t) :
  Analysable q -> (forall l, In l lows -> level_ok l) -> (forall h, In h highs -> level_ok h) ->
  (exists f, SMSDetector.detect_bullish_sms q lows = Ok (omap f (py_range 0 (py_len lows - 2))) /\
     forall i e, 0 <= i < py_len lows - 2 ->
       f i = Some e <-> exists s1 s2 s3 c, sms_of true q (by_time lows) i e s1 s2 s3 c) /\
  (exists f, SMSDetector.detect_bearish_sms q highs = Ok (omap f (py_range 0 (py_len highs - 2))) /\
     forall i e, 0 <= i < py_len highs - 2 ->
       f i = Some e <-> exists s1 s2 s3 c, sms_of false q (by_time highs) i e s1 s2 s3 c).
Proof.
  intros An Hl Hh. split.
  - destruct (detect_sms_spec true q lows Hl) as (events & E & f & -> & Hf).
    exists f. split; [exact E|]. intros i e Hi. by apply Hf.
  - destruct (detect_sms_spec false q highs Hh) as (events & E & f & -> & Hf).
    exists f. split; [exact E|]. intros i e Hi. by apply Hf.
Qed.

Definition sample_low_at (h i price : Z) : SwingLow.t :=
  SwingLow.mk "EURUSD" H1 (mk_datetime (h * us_per_hour) (Some 0)) (lit price 4) i 4 5 5 false None.
Definition sample_lows : list SwingLow.t :=
  [sample_low_at 0 0 10799; sample_low_at 1 1 10790; sample_low_at 2 2 10795].

Lemma sample_lows_ok : forall l, In l sample_lows -> level_ok l.
Proof. intros l [<-|[<-|[<-|[]]]]; constructor; vm_compute; done. Qed.

Lemma sms_exact_witness :
  (exists f, SMSDetector.detect_bullish_sms sample_impulse sample_lows = Ok (omap f (py_range 0 1))) /\
  map ShiftInMarketStructure.candle_index <$> SMSDetector.detect_bullish_sms sample_impulse sample_lows = Ok [2].
Proof.
  split; [|vm_compute; reflexivity].
  destruct (sms_exact sample_impulse sample_lows [sample_high] sample_impulse_ok sample_lows_ok sample_high_ok)
    as [(f & E & _) _].
  exists f. exact E.
Defined.

(** An inducement is cleared exactly by the first real penetration.  For
    every swing of strength below 5 that is not on the last candle there is one
    event; it is cleared if and only if a later wick passes the threshold, its
    clearance time is that of the first such candle, and whatever the rounding
    such a wick lies strictly beyond the level, so that a touch never clears. *)
Theorem inducement_exact (config : SMCConfig.t) (q : CandleSequence.t)
    (lows : list SwingLow.t) (highs : list SwingHigh.t) :
  SMCConfig.valid_config config -> Analysable q ->
  (forall l, In l lows -> level_ok l) -> (forall h, In h highs -> level_ok h) ->
  (exists f, InducementDetector.detect_bullish_inducement config q lows =
       Ok (omap f (List.filter (fun l => lv_strength l <? 5) lows)) /\
     forall l, In l lows -> lv_strength l < 5 -> inducement_spec config true q l (f l) /\
       forall c j, CandleSequence.candles q !! Z.to_nat j = Some c -> clears_at config true q l j = true ->
         fv (Candle.low c) < fv (SwingLow.price l)) /\
  (exists f, InducementDetector.detect_bearish_inducement config q highs =
       Ok (omap f (List.filter (fun h => lv_strength h <? 5) highs)) /\
     forall h, In h highs -> lv_strength h < 5 -> inducement_spec config false q h (f h) /\
       forall c j, CandleSequence.candles q !! Z.to_nat j = Some c -> clears_at config false q h j = true ->
         fv (SwingHigh.price h) < fv (Candle.high c)).
Proof.
  intros V An Hl Hh. split.
  - destruct (detect_inducement_spec config true q lows Hl) as (events & E & f & -> & Hf).
    exists f. split; [exact E|]. intros l Hin Hst. split; [by apply Hf|]. intros c j Ec Hc.
    unfold clears_at, holds_at in Hc. rewrite Ec in Hc.
    apply (clears_penetrates config true q l c (Hl l Hin)) in Hc; [done|].
    by apply (PatternFacts.an_at q _ _ Ec).
  - destruct (detect_inducement_spec config false q highs Hh) as (events & E & f & -> & Hf).
    exists f. split; [exact E|]. intros h Hin Hst. split; [by apply Hf|]. intros c j Ec Hc.
    unfold clears_at, holds_at in Hc. rewrite Ec in Hc.
    apply (clears_penetrates config false q h c (Hh h Hin)) in Hc; [done|].
    by apply (PatternFacts.an_at q _ _ Ec).
Qed.

Lemma inducement_exact_witness :
  (exists f, InducementDetector.detect_bearish_inducement SMCConfig.default sample_impulse [sample_high] =
     Ok (omap f (List.filter (fun h => lv_strength h <? 5) [sample_high]))) /\
  map InducementEvent.cleared <$>
    InducementDetector.detect_bearish_inducement SMCConfig.default sample_impulse [sample_high] = Ok [true].
Proof.
  split; [|vm_compute; reflexivity].
  destruct (inducement_exact SMCConfig.default sample_impulse [sample_low] [sample_high]
    SMCConfig.default_valid sample_impulse_ok sample_low_ok sample_high_ok) as [_ (f & E & _)].
  exists f. exact E.
Defined.
End StructureFacts.
