(* ===== verification/Snapshots.v ===== *)
(** * Snapshots: [engine/ta/models/snapshot.py], [common/services/snapshot/builder.py]
    and [common/services/alignment/service.py]

    What the analysis of one timeframe found, the bias drawn from it, and the
    alignment of two timeframes. *)

From Stdlib Require Import ZArith Lia Bool String SpecFloat Sorting.Sorted.
From stdpp Require Import base list strings.
From S2P Require Import Prelude Loops PyFloat FloatRound FloatMono FloatGrid PyText PyRepr Constants PriceMath Candles Swings Sessions Fibonacci Liquidity ZoneModels StructureModels Candidates CandlePatterns SMCConfig SMCStructure.

#[local] Open Scope string_scope.
#[local] Open Scope Z_scope.
#[local] Open Scope list_scope.

(** ** Models: [models/snapshot.py] *)

Module TechnicalSnapshot.
Record t := mk {
  symbol : string; timeframe : Timeframe; timestamp : datetime; candles : CandleSequence.t;
  swing_highs : list SwingHigh.t; swing_lows : list SwingLow.t;
  bos_events : list BreakOfStructure.t; choch_events : list ChangeOfCharacter.t;
  bms_events : list BreakInMarketStructure.t; sms_events : list ShiftInMarketStructure.t;
  sr_flips : list SRFlip.t; rs_flips : list RSFlip.t;
  liquidity_sweeps : list LiquiditySweep.t; liquidity_grabs : list LiquidityGrab.t;
  inducement_events : list InducementEvent.t; equal_highs_lows : list EqualHighsLows.t;
  order_blocks : list OrderBlock.t; fvgs : list FairValueGap.t; breaker_blocks : list BreakerBlock.t;
  supply_zones : list SupplyZone.t; demand_zones : list DemandZone.t;
  qml_levels : list QuasiModoLevel.t; mpl_levels : list MiniPriceLevel.t;
  fibonacci_retracements : list FibonacciRetracement.t; dealing_ranges : list DealingRange.t;
  session_state : option SessionState.t; trend_direction : Direction;
  candidates : list TechnicalCandidate.t; metadata : dict }.

Definition create (s : t) : res t :=
  sym ← symbol_3_30 (symbol s);
  Ok (mk sym (timeframe s) (timestamp s) (candles s) (swing_highs s) (swing_lows s) (bos_events s)
        (choch_events s) (bms_events s) (sms_events s) (sr_flips s) (rs_flips s) (liquidity_sweeps s)
        (liquidity_grabs s) (inducement_events s) (equal_highs_lows s) (order_blocks s) (fvgs s)
        (breaker_blocks s) (supply_zones s) (demand_zones s) (qml_levels s) (mpl_levels s)
        (fibonacci_retracements s) (dealing_ranges s) (session_state s) (trend_direction s)
        (candidates s) (metadata s)).

Definition latest_candle_timestamp (s : t) : res datetime := CandleSequence.end_time (candles s).
Definition candle_count (s : t) : Z := CandleSequence.count (candles s).
Definition has_bullish_structure (s : t) : bool := bool_decide (trend_direction s = BULLISH).
Definition has_bearish_structure (s : t) : bool := bool_decide (trend_direction s = BEARISH).
Definition has_neutral_structure (s : t) : bool := bool_decide (trend_direction s = NEUTRAL).
Definition total_swing_points (s : t) : Z := py_len (swing_highs s) + py_len (swing_lows s).
Definition total_structure_events (s : t) : Z :=
  py_len (bos_events s) + py_len (choch_events s) + py_len (bms_events s) + py_len (sms_events s)
  + py_len (sr_flips s) + py_len (rs_flips s).
Definition total_liquidity_events (s : t) : Z :=
  py_len (liquidity_sweeps s) + py_len (liquidity_grabs s) + py_len (inducement_events s)
  + py_len (equal_highs_lows s).
Definition total_zones (s : t) : Z :=
  py_len (order_blocks s) + py_len (fvgs s) + py_len (breaker_blocks s) + py_len (supply_zones s)
  + py_len (demand_zones s).
Definition total_candidates (s : t) : Z := py_len (candidates s).
Definition has_candidates (s : t) : bool := 0 <? total_candidates s.

Definition get_latest_bos (s : t) : option BreakOfStructure.t :=
  py_max_opt (fun a b => dt_ltb (BreakOfStructure.timestamp b) (BreakOfStructure.timestamp a)) (bos_events s).
Definition get_latest_choch (s : t) : option ChangeOfCharacter.t :=
  py_max_opt (fun a b => dt_ltb (ChangeOfCharacter.timestamp b) (ChangeOfCharacter.timestamp a)) (choch_events s).
Definition get_latest_bms (s : t) : option BreakInMarketStructure.t :=
  py_max_opt (fun a b => dt_ltb (BreakInMarketStructure.timestamp b) (BreakInMarketStructure.timestamp a))
    (bms_events s).
Definition get_latest_sms (s : t) : option ShiftInMarketStructure.t :=
  py_max_opt (fun a b => dt_ltb (ShiftInMarketStructure.timestamp b) (ShiftInMarketStructure.timestamp a))
    (sms_events s).

Definition get_unmitigated_order_blocks (s : t) : list OrderBlock.t :=
  List.filter (fun ob => negb (OrderBlock.mitigated ob)) (order_blocks s).
Definition get_unfilled_fvgs (s : t) : list FairValueGap.t :=
  List.filter (fun fvg => negb (FairValueGap.filled fvg)) (fvgs s).
Definition get_unbroken_supply_zones (s : t) : list SupplyZone.t :=
  List.filter (fun z => negb (SupplyZone.broken z)) (supply_zones s).
Definition get_unbroken_demand_zones (s : t) : list DemandZone.t :=
  List.filter (fun z => negb (DemandZone.broken z)) (demand_zones s).
Definition get_bullish_candidates (s : t) : list TechnicalCandidate.t :=
  List.filter TechnicalCandidate.is_bullish (candidates s).
Definition get_bearish_candidates (s : t) : list TechnicalCandidate.t :=
  List.filter TechnicalCandidate.is_bearish (candidates s).
Definition get_smc_candidates (s : t) : list TechnicalCandidate.t :=
  List.filter TechnicalCandidate.is_smc (candidates s).
Definition get_snd_candidates (s : t) : list TechnicalCandidate.t :=
  List.filter TechnicalCandidate.is_snd (candidates s).
End TechnicalSnapshot.

Module MultiTimeframeSnapshot.
Record t := mk {
  symbol : string; timestamp : datetime; htf_snapshot : TechnicalSnapshot.t;
  ltf_snapshot : TechnicalSnapshot.t; htf_ltf_aligned : bool; alignment_metadata : dict }.

Definition create (symbol : string) (ts : datetime) (htf ltf : TechnicalSnapshot.t) (aligned : bool)
    (metadata : dict) : res t :=
  s ← symbol_3_30 symbol;
  Ok (mk s ts htf ltf aligned metadata).

Definition htf_timeframe (m : t) : Timeframe := TechnicalSnapshot.timeframe (htf_snapshot m).
Definition ltf_timeframe (m : t) : Timeframe := TechnicalSnapshot.timeframe (ltf_snapshot m).
Definition htf_trend (m : t) : Direction := TechnicalSnapshot.trend_direction (htf_snapshot m).
Definition ltf_trend (m : t) : Direction := TechnicalSnapshot.trend_direction (ltf_snapshot m).
Definition trends_aligned (m : t) : bool :=
  bool_decide (htf_trend m = ltf_trend m) && negb (bool_decide (htf_trend m = NEUTRAL)).
Definition total_candidates (m : t) : Z :=
  TechnicalSnapshot.total_candidates (htf_snapshot m) + TechnicalSnapshot.total_candidates (ltf_snapshot m).
Definition get_all_candidates (m : t) : list TechnicalCandidate.t :=
  TechnicalSnapshot.candidates (htf_snapshot m) ++ TechnicalSnapshot.candidates (ltf_snapshot m).
Definition get_aligned_candidates (m : t) : list TechnicalCandidate.t :=
  if negb (htf_ltf_aligned m) then []
  else List.filter (fun c => bool_decide (TechnicalCandidate.direction c = htf_trend m)) (get_all_candidates m).
End MultiTimeframeSnapshot.

(** ** The builder: [common/services/snapshot/builder.py] *)

Module SnapshotBuilder.

Record t := mk {
  swing_analyzer : SwingAnalyzer.t; session_analyzer : SessionAnalyzer.t; liquidity_analyzer : LiquidityAnalyzer.t;
  sweep_analyzer : SweepAnalyzer.t; dealing_range_analyzer : DealingRangeAnalyzer.t }.

(** Layer 1: the newer of the latest break and the latest major change of
    character. *)
Definition confirmed_direction (bms_events : list BreakInMarketStructure.t)
    (choch_events : list ChangeOfCharacter.t) : option Direction :=
  let latest_bms :=
    py_max_opt (fun a b => dt_ltb (BreakInMarketStructure.timestamp b) (BreakInMarketStructure.timestamp a))
      bms_events in
  let major_choch_events := List.filter (fun c => negb (ChangeOfCharacter.is_minor c)) choch_events in
  let latest_choch :=
    py_max_opt (fun a b => dt_ltb (ChangeOfCharacter.timestamp b) (ChangeOfCharacter.timestamp a))
      major_choch_events in
  match latest_bms, latest_choch with
  | Some b, Some c =>
      Some (if dt_ltb (ChangeOfCharacter.timestamp c) (BreakInMarketStructure.timestamp b)
            then BreakInMarketStructure.direction b else ChangeOfCharacter.direction c)
  | Some b, None => Some (BreakInMarketStructure.direction b)
  | None, Some c => Some (ChangeOfCharacter.direction c)
  | None, None => None
  end.

(** [all(l\[i\].price > l\[i - 1\].price for i in range(1, len(l)))], or [<]. *)
Fixpoint steps {A} `{SwingLevel A} (up : bool) (l : list A) (indices : list Z) : res bool :=
  match indices with
  | [] => Ok true
  | i :: indices =>
      a ← py_index l i;
      b ← py_index l (i - 1);
      if (if up then flt (lv_price b) (lv_price a) else flt (lv_price a) (lv_price b))
      then steps up l indices else Ok false
  end.

(** Layer 3 on one side: the last three swings in time order, at least two of
    them, strictly rising or falling. *)
Definition monotone {A} `{SwingLevel A} (up : bool) (swings : list A) : res bool :=
  let recent := py_slice_from (by_time swings) (-3) in
  if 2 <=? py_len recent then steps up recent (py_range 1 (py_len recent)) else Ok false.

Definition _determine_trend_direction (candles : CandleSequence.t) (swing_highs : list SwingHigh.t)
    (swing_lows : list SwingLow.t) (bms_events : list BreakInMarketStructure.t)
    (choch_events : list ChangeOfCharacter.t) : res Direction :=
  match swing_highs, swing_lows with
  | [], _ | _, [] => Ok NEUTRAL
  | _, _ =>
      match confirmed_direction bms_events choch_events with
      | Some d => Ok d
      | None =>
          let latest_close := Candle.close <$> last (CandleSequence.candles candles) in
          highest_swing_high ← fmax_list (map SwingHigh.price swing_highs);
          lowest_swing_low ← fmin_list (map SwingLow.price swing_lows);
          match (match latest_close with
                 | Some c => if flt highest_swing_high c then Some BULLISH
                             else if flt c lowest_swing_low then Some BEARISH else None
                 | None => None
                 end) with
          | Some d => Ok d
          | None =>
              higher_highs ← monotone true swing_highs;
              if higher_highs : bool then Ok BULLISH
              else
                lower_lows ← monotone false swing_lows;
                if lower_lows : bool then Ok BEARISH
                else
                  match latest_close with
                  | Some c =>
                      equilibrium ← fdiv (fadd highest_swing_high lowest_swing_low) (of_Z 2);
                      Ok (if fle equilibrium c then BULLISH else BEARISH)
                  | None => Ok NEUTRAL
                  end
          end
      end
  end.

(** The arguments [build_snapshot] takes besides the candles; an argument left
    out is the empty list, as after [x or \[\]]. *)
Record arguments := mk_arguments {
  a_bos_events : list BreakOfStructure.t; a_choch_events : list ChangeOfCharacter.t;
  a_bms_events : list BreakInMarketStructure.t; a_sms_events : list ShiftInMarketStructure.t;
  a_sr_flips : list SRFlip.t; a_rs_flips : list RSFlip.t;
  a_liquidity_sweeps : list LiquiditySweep.t; a_liquidity_grabs : list LiquidityGrab.t;
  a_inducement_events : list InducementEvent.t; a_equal_highs_lows : list EqualHighsLows.t;
  a_order_blocks : list OrderBlock.t; a_fvgs : list FairValueGap.t; a_breaker_blocks : list BreakerBlock.t;
  a_supply_zones : list SupplyZone.t; a_demand_zones : list DemandZone.t;
  a_qml_levels : list QuasiModoLevel.t; a_mpl_levels : list MiniPriceLevel.t;
  a_fibonacci_retracements : list FibonacciRetracement.t; a_dealing_ranges : list DealingRange.t;
  a_candidates : list TechnicalCandidate.t; a_metadata : dict }.

Definition build_snapshot (self : t) (candles : CandleSequence.t) (x : arguments) : res TechnicalSnapshot.t :=
  swing_highs ← SwingAnalyzer.detect_swing_highs (swing_analyzer self) candles;
  swing_lows ← SwingAnalyzer.detect_swing_lows (swing_analyzer self) candles;
  latest_candle ← py_index (CandleSequence.candles candles) (-1);
  session_state ← SessionAnalyzer.identify_session (session_analyzer self) (Candle.timestamp latest_candle);
  trend_direction ← _determine_trend_direction candles swing_highs swing_lows (a_bms_events x) (a_choch_events x);
  TechnicalSnapshot.create (TechnicalSnapshot.mk (CandleSequence.symbol candles) (CandleSequence.timeframe candles)
    (Candle.timestamp latest_candle) candles swing_highs swing_lows (a_bos_events x) (a_choch_events x)
    (a_bms_events x) (a_sms_events x) (a_sr_flips x) (a_rs_flips x) (a_liquidity_sweeps x)
    (a_liquidity_grabs x) (a_inducement_events x) (a_equal_highs_lows x) (a_order_blocks x) (a_fvgs x)
    (a_breaker_blocks x) (a_supply_zones x) (a_demand_zones x) (a_qml_levels x) (a_mpl_levels x)
    (a_fibonacci_retracements x) (a_dealing_ranges x) (Some session_state) trend_direction (a_candidates x)
    (a_metadata x)).
End SnapshotBuilder.

(** ** Alignment: [common/services/alignment/service.py] *)

Module AlignmentService.

Record t := mk { require_trend_alignment : bool; require_zone_nesting : bool }.
Definition default : t := mk true false.

Definition _check_trend_alignment (self : t) (htf_trend ltf_trend : Direction) : bool :=
  if negb (require_trend_alignment self) then true
  else if bool_decide (NEUTRAL ∈ [htf_trend; ltf_trend]) then false
  else bool_decide (htf_trend = ltf_trend).

Definition _get_all_zones (s : TechnicalSnapshot.t) : res (list Zone.t) :=
  order_blocks ← res_map OrderBlock.to_zone (TechnicalSnapshot.order_blocks s);
  fvgs ← res_map FairValueGap.to_zone (TechnicalSnapshot.fvgs s);
  breakers ← res_map BreakerBlock.to_zone (TechnicalSnapshot.breaker_blocks s);
  supply ← res_map SupplyZone.to_zone (TechnicalSnapshot.supply_zones s);
  demand ← res_map DemandZone.to_zone (TechnicalSnapshot.demand_zones s);
  Ok (order_blocks ++ fvgs ++ breakers ++ supply ++ demand).

Definition _is_zone_nested (ltf_zone htf_zone : Zone.t) : bool :=
  if negb (bool_decide (Zone.direction ltf_zone = Zone.direction htf_zone)) then false
  else fle (Zone.lower_bound htf_zone) (Zone.lower_bound ltf_zone)
       && fle (Zone.upper_bound ltf_zone) (Zone.upper_bound htf_zone).

(** The nested loops: a zone counts once, at the first zone that contains it. *)
Definition nested_count (ltf_zones htf_zones : list Zone.t) : Z :=
  fold_left (fun n ltf_zone => if existsb (_is_zone_nested ltf_zone) htf_zones then n + 1 else n) ltf_zones 0.

Definition _check_zone_nesting (htf_snapshot ltf_snapshot : TechnicalSnapshot.t) : res bool :=
  htf_zones ← _get_all_zones htf_snapshot;
  ltf_zones ← _get_all_zones ltf_snapshot;
  match htf_zones, ltf_zones with
  | [], _ | _, [] => Ok false
  | _, _ =>
      ratio ← fdiv (of_Z (nested_count ltf_zones htf_zones)) (of_Z (py_len ltf_zones));
      let nesting_percentage := fmul ratio (of_Z 100) in
      Ok (fle (lit 500 1) nesting_percentage)
  end.

Definition check_alignment (self : t) (htf_snapshot ltf_snapshot : TechnicalSnapshot.t)
    : res MultiTimeframeSnapshot.t :=
  if negb (String.eqb (TechnicalSnapshot.symbol htf_snapshot) (TechnicalSnapshot.symbol ltf_snapshot))
  then Raise (ValueError "Symbol mismatch")
  else
    let htf_trend := TechnicalSnapshot.trend_direction htf_snapshot in
    let ltf_trend := TechnicalSnapshot.trend_direction ltf_snapshot in
    let trends_aligned := _check_trend_alignment self htf_trend ltf_trend in
    zones_nested ← _check_zone_nesting htf_snapshot ltf_snapshot;
    let htf_ltf_aligned := if require_zone_nesting self then trends_aligned && zones_nested else trends_aligned in
    MultiTimeframeSnapshot.create (TechnicalSnapshot.symbol htf_snapshot) (TechnicalSnapshot.timestamp ltf_snapshot)
      htf_snapshot ltf_snapshot htf_ltf_aligned
      [("trends_aligned", VBool trends_aligned); ("zones_nested", VBool zones_nested);
       ("htf_trend", VStr (direction_value htf_trend)); ("ltf_trend", VStr (direction_value ltf_trend));
       ("htf_timeframe", VStr (timeframe_value (TechnicalSnapshot.timeframe htf_snapshot)));
       ("ltf_timeframe", VStr (timeframe_value (TechnicalSnapshot.timeframe ltf_snapshot)))].

Definition validate_htf_context (htf_snapshot : TechnicalSnapshot.t) (required_direction : Direction) : bool :=
  if bool_decide (TechnicalSnapshot.trend_direction htf_snapshot = NEUTRAL) then false
  else bool_decide (TechnicalSnapshot.trend_direction htf_snapshot = required_direction).

Definition get_htf_bias (htf_snapshot : TechnicalSnapshot.t) : Direction :=
  TechnicalSnapshot.trend_direction htf_snapshot.
End AlignmentService.

Module SnapshotFacts.

(** The greatest float below one half. *)
Definition below_half : float := S754_finite false 9007199254740991 (-54).

(** A share of [m] reaches 50.0 percent in binary64 exactly when it is half of [m]. *)
Lemma half_percent n m :
  0 <= n <= m -> 0 < m < 2 ^ 53 ->
  fle (lit 500 1) (fmul (fdiv_ieee (of_Z n) (of_Z m)) (of_Z 100)) = (m <=? 2 * n).
Proof.
  intros Hn Hm.
  destruct (of_Z_exact n ltac:(lia)) as [Fn En], (of_Z_exact m ltac:(lia)) as [Fm Em],
    (of_Z_exact 100 ltac:(lia)) as [Fh Eh].
  assert (HU : 0 < unit_pow 0) by done.
  destruct (fdiv_ratio (of_Z n) (of_Z m) Fn Fm) as [Fx _]; [rewrite En, Em; nia|rewrite Em; nia|].
  destruct (fdiv_rounds (of_Z n) (of_Z m) Fn Fm) as [_ (_ & Hup & Hlo)]; [rewrite Em; nia|].
  set (X := fdiv_ieee (of_Z n) (of_Z m)) in *.
  assert (E500 : fv (lit 500 1) = 50 * unit_pow 0) by (vm_compute; reflexivity).
  assert (E5 : 2 * fv (lit 5 1) = unit_pow 0) by (vm_compute; reflexivity).
  assert (EP : 18014398509481984 * fv below_half = 9007199254740991 * unit_pow 0) by (vm_compute; reflexivity).
  rewrite fle_fv by (apply fmul_num || apply fin_num; done).
  set (U := unit_pow 0) in *.
  destruct (Z.leb_spec m (2 * n)) as [H|H].
  - apply Z.leb_le.
    assert (HX : fv (lit 5 1) <= fv X).
    { apply Hlo; [by vm_compute|]. rewrite En, Em. clearbody U. generalize dependent (fv (lit 5 1)). intros h E5.
      subst U. pose proof (Z.mul_nonneg_nonneg (2 * n - m) (h * h) ltac:(lia) (Z.square_nonneg h)). lia. }
    destruct (fmul_rounds X (of_Z 100) Fx Fh) as (_ & _ & Hl). apply Hl; [by vm_compute|].
    rewrite E500, Eh. fold U. clearbody U.
    pose proof (Z.mul_le_mono_nonneg_r _ _ (50 * U) ltac:(lia) HX). lia.
  - apply Z.leb_gt.
    assert (HX : fv X <= fv below_half).
    { apply Hup; [by vm_compute|]. rewrite En, Em. clearbody U. generalize dependent (fv below_half). intros P EP.
      assert (18014398509481984 * n <= 9007199254740991 * m) by lia.
      pose proof (Z.mul_le_mono_nonneg_r _ _ (U * U) ltac:(nia) H0). nia. }
    apply Z.le_lt_trans with (fv (fmul below_half (of_Z 100))); [|by vm_compute].
    apply fmul_mono; [exact Fx|exact Fh|by vm_compute|exact Fh|].
    apply Z.mul_le_mono_nonneg_r; [rewrite Eh; lia|exact HX].
Qed.

(** [e] is the first of the latest elements of [l]. *)
Definition newest {A} (ts : A -> datetime) (l : list A) (e : A) : Prop :=
  exists before after, l = before ++ e :: after /\
    Forall (fun x => instant (ts x) < instant (ts e)) before /\
    Forall (fun x => instant (ts x) <= instant (ts e)) after.

Section Newest.
Context {A : Type} (ts : A -> datetime).
Abbreviation newer := (fun a b : A => dt_ltb (ts b) (ts a)).

Lemma py_max_from_snoc b l x :
  py_max_from newer b (l ++ [x]) = let m := py_max_from newer b l in if newer x m then x else m.
Proof. revert b. induction l as [|y l IH]; intros b; cbn [app py_max_from]; [done|]. apply IH. Qed.

Lemma newest_max b l : newest ts (b :: l) (py_max_from newer b l).
Proof.
  induction l as [|x l IH] using rev_ind; [by exists [], []|].
  rewrite py_max_from_snoc. cbv zeta. destruct IH as (before & after & E & Hb & Ha).
  set (m := py_max_from newer b l) in *. rewrite app_comm_cons, E. unfold dt_ltb.
  destruct (Z.ltb_spec (instant (ts m)) (instant (ts x))) as [H|H].
  - exists (before ++ m :: after), []. repeat split; [|constructor].
    apply Forall_app_2; [|constructor; [done|]]; eapply Forall_impl; eauto; cbn; lia.
  - exists before, (after ++ [x]). rewrite <- app_assoc. repeat split; [done|].
    apply Forall_app_2; [done|by constructor].
Qed.

Lemma py_max_from_keep b l :
  Forall (fun x => instant (ts x) <= instant (ts b)) l -> py_max_from newer b l = b.
Proof.
  induction 1 as [|x l H _ IH]; cbn [py_max_from]; [done|]. unfold dt_ltb.
  by rewrite (proj2 (Z.ltb_ge _ _)) by lia.
Qed.

Lemma newest_iff l e : py_max_opt newer l = Some e <-> newest ts l e.
Proof.
  split.
  - destruct l as [|b l]; [done|]. intros [= <-]. apply newest_max.
  - intros (before & after & -> & Hb & Ha). destruct before as [|b before]; cbn [app py_max_opt]; f_equal.
    { by apply py_max_from_keep. }
    revert b Hb. induction before as [|x before IH]; intros b Hb; cbn [app py_max_from]; inversion_clear Hb as [|?? H1 H2].
    + unfold dt_ltb. rewrite (proj2 (Z.ltb_lt _ _)) by done. by apply py_max_from_keep.
    + apply IH. inversion_clear H2. destruct (dt_ltb (ts b) (ts x)); by constructor.
Qed.

Lemma newest_In l e : newest ts l e -> In e l /\ forall x, In x l -> instant (ts x) <= instant (ts e).
Proof.
  intros (before & after & -> & Hb & Ha). rewrite List.Forall_forall in Hb, Ha. split; [apply in_elt|].
  intros x Hx. apply in_app_iff in Hx as [Hx|[->|Hx]]; [specialize (Hb _ Hx); lia|lia|auto].
Qed.
End Newest.

(** ** Layer 1 *)

(** The event that decides the bias: the newest break of market structure when it
    is later than every major change of character, else the newest of those. *)
Inductive confirmed (bms : list BreakInMarketStructure.t) (choch : list ChangeOfCharacter.t) : Direction -> Prop :=
| confirmed_by_bms b :
    newest BreakInMarketStructure.timestamp bms b ->
    (forall c, In c choch -> ChangeOfCharacter.is_minor c = false ->
       instant (ChangeOfCharacter.timestamp c) < instant (BreakInMarketStructure.timestamp b)) ->
    confirmed bms choch (BreakInMarketStructure.direction b)
| confirmed_by_choch c :
    newest ChangeOfCharacter.timestamp (List.filter (fun c => negb (ChangeOfCharacter.is_minor c)) choch) c ->
    (forall b, In b bms ->
       instant (BreakInMarketStructure.timestamp b) <= instant (ChangeOfCharacter.timestamp c)) ->
    confirmed bms choch (ChangeOfCharacter.direction c).

Definition unconfirmed (bms : list BreakInMarketStructure.t) (choch : list ChangeOfCharacter.t) : Prop :=
  bms = [] /\ forall c, In c choch -> ChangeOfCharacter.is_minor c = true.

Lemma major_In choch c :
  In c (List.filter (fun c => negb (ChangeOfCharacter.is_minor c)) choch) <->
  In c choch /\ ChangeOfCharacter.is_minor c = false.
Proof. by rewrite filter_In, negb_true_iff. Qed.

Lemma py_max_opt_None {A} (gt : A -> A -> bool) l : py_max_opt gt l = None <-> l = [].
Proof. by destruct l. Qed.

Lemma confirmed_iff bms choch d :
  SnapshotBuilder.confirmed_direction bms choch = Some d <-> confirmed bms choch d.
Proof.
  unfold SnapshotBuilder.confirmed_direction. cbv zeta.
  set (major := List.filter _ choch). split.
  - destruct (py_max_opt _ bms) as [b|] eqn:Eb, (py_max_opt _ major) as [c|] eqn:Ec; try done;
      first [apply (newest_iff BreakInMarketStructure.timestamp) in Eb|apply py_max_opt_None in Eb];
      first [apply (newest_iff ChangeOfCharacter.timestamp) in Ec|apply py_max_opt_None in Ec]; intros [= <-].
    + pose proof (newest_In _ _ _ Eb) as [_ Hb]. pose proof (newest_In _ _ _ Ec) as [_ Hc]. unfold dt_ltb.
      destruct (Z.ltb_spec (instant (ChangeOfCharacter.timestamp c)) (instant (BreakInMarketStructure.timestamp b))).
      * left; [done|]. intros c' Hin Hm. specialize (Hc c' (proj2 (major_In _ _) (conj Hin Hm))). lia.
      * right; [done|]. intros b' Hin. specialize (Hb b' Hin). lia.
    + left; [done|]. intros c' Hin Hm. pose proof (proj2 (major_In _ _) (conj Hin Hm)) as H.
      fold major in H. by rewrite Ec in H.
    + right; [done|]. by rewrite Eb.
  - intros [b Hb Hlt|c Hc Hle].
    + rewrite (proj2 (newest_iff _ _ _) Hb). destruct (py_max_opt _ major) as [c|] eqn:Ec; [|done].
      apply (newest_iff ChangeOfCharacter.timestamp) in Ec. apply newest_In in Ec as [Hin _]. apply major_In in Hin as [Hin Hm].
      unfold dt_ltb. by rewrite (proj2 (Z.ltb_lt _ _)) by auto.
    + fold major in Hc. rewrite (proj2 (newest_iff _ _ _) Hc). destruct (py_max_opt _ bms) as [b|] eqn:Eb; [|done].
      apply (newest_iff BreakInMarketStructure.timestamp) in Eb. apply newest_In in Eb as [Hin _].
      unfold dt_ltb. by rewrite (proj2 (Z.ltb_ge _ _)) by auto.
Qed.

Lemma unconfirmed_iff bms choch :
  SnapshotBuilder.confirmed_direction bms choch = None <-> unconfirmed bms choch.
Proof.
  unfold SnapshotBuilder.confirmed_direction, unconfirmed. cbv zeta. split.
  - destruct (py_max_opt _ bms) as [b|] eqn:Eb, (py_max_opt _ (List.filter _ choch)) as [c|] eqn:Ec; try done.
    apply py_max_opt_None in Eb. apply py_max_opt_None in Ec. intros _. split; [done|]. intros c Hc.
    destruct (ChangeOfCharacter.is_minor c) eqn:E; [done|].
    pose proof (proj2 (major_In _ _) (conj Hc E)) as H. by rewrite Ec in H.
  - intros [-> H]. destruct (py_max_opt _ (List.filter _ choch)) as [c|] eqn:Ec; [|done].
    apply (newest_iff ChangeOfCharacter.timestamp) in Ec. apply newest_In in Ec as [Hin _]. apply major_In in Hin as [Hin Hm].
    rewrite H in Hm by done. discriminate.
Qed.

(** ** Layer 3 *)

Section Ladder.
Context {A : Type} `{SwingLevel A} (up : bool).

Definition step (a b : A) : Prop :=
  if up then fv (lv_price a) < fv (lv_price b) else fv (lv_price b) < fv (lv_price a).

(** At least two swings, and the last three in time order step the same way. *)
Definition ladder (swings : list A) : Prop :=
  (2 <= length swings)%nat /\ Sorted step (drop (length swings - 3) (by_time swings)).

Lemma steps_sorted (l before : list A) a rest :
  l = before ++ a :: rest -> Forall (fun s => num (lv_price s)) l ->
  yields (SnapshotBuilder.steps up l (py_range (py_len before + 1) (py_len l)))
    (fun b => b = true <-> Sorted step (a :: rest)).
Proof.
  intros -> Hn. revert before a Hn. induction rest as [|b rest IH]; intros before a Hn.
  { rewrite py_range_nil by (unfold py_len; rewrite length_app; simpl; lia).
    apply yields_ret. split; [repeat constructor|done]. }
  rewrite py_range_cons
    by (rewrite py_len_app, !py_len_cons; pose proof (py_len_nonneg rest); lia).
  cbn [SnapshotBuilder.steps].
  assert (Ea : py_index (before ++ a :: b :: rest) (py_len before + 1 - 1) = Ok a).
  { rewrite Z.add_simpl_r. apply py_index_nat. by apply list_lookup_middle. }
  assert (Eb : py_index (before ++ a :: b :: rest) (py_len before + 1) = Ok b).
  { replace (py_len before + 1) with (Z.of_nat (S (length before))) by (unfold py_len; lia). apply py_index_nat.
    change (a :: b :: rest) with ([a] ++ b :: rest). rewrite app_assoc. apply list_lookup_middle.
    rewrite length_app. simpl. lia. }
  rewrite Eb, Ea. cbn [mbind res_bind].
  assert (num (lv_price a) /\ num (lv_price b)) as [Na Nb].
  { rewrite List.Forall_forall in Hn. split; apply Hn, in_app_iff; right; simpl; auto. }
  specialize (IH (before ++ [a]) b). rewrite <- app_assoc in IH. specialize (IH Hn).
  replace (py_len (before ++ [a]) + 1) with (py_len before + 1 + 1) in IH by (rewrite py_len_app; done).
  assert (Hstep : (if up then flt (lv_price a) (lv_price b) else flt (lv_price b) (lv_price a)) = true <-> step a b).
  { unfold step. destruct up; rewrite flt_fv by done; apply Z.ltb_lt. }
  destruct (if up then _ else _).
  - eapply yields_weaken; [exact IH|]. intros r ->. split.
    + intros Hs. constructor; [done|]. constructor. by apply Hstep.
    + by inversion 1.
  - apply yields_ret. split; [done|]. inversion 1 as [|? ? ? Hd]; subst. inversion Hd; subst. by apply Hstep.
Qed.

Lemma monotone_exact (swings : list A) :
  Forall (fun s => num (lv_price s)) swings ->
  yields (SnapshotBuilder.monotone up swings) (fun b => b = true <-> ladder swings).
Proof.
  intros Hn. unfold SnapshotBuilder.monotone, ladder. cbv zeta.
  assert (El : length (by_time swings) = length swings) by apply py_sorted_length.
  assert (Er : py_slice_from (by_time swings) (-3) = drop (length swings - 3) (by_time swings)).
  { unfold py_slice_from, py_slice_bound. f_equal. unfold py_len. rewrite El. cbn [Z.ltb Z.compare]. lia. }
  rewrite Er. set (recent := drop _ _).
  assert (Hr : length recent = (length swings - (length swings - 3))%nat) by (unfold recent; by rewrite length_drop, El).
  destruct (Z.leb_spec 2 (py_len recent)) as [H2|H2]; unfold py_len in H2.
  - destruct recent as [|a rest] eqn:E; [simpl in H2; lia|]. rewrite <- E.
    eapply yields_weaken; [apply (steps_sorted recent [] a rest); [done|]|].
    + rewrite E. rewrite List.Forall_forall in Hn |- *. intros s Hs. apply Hn. rewrite <- E in Hs.
      apply In_drop in Hs. by apply py_sorted_In in Hs.
    + intros b ->. rewrite E. split; [|by intros [_ ?]]. intros Hs. split; [lia|done].
  - apply yields_ret. split; [done|]. intros [? _]. lia.
Qed.
End Ladder.

(** ** The bias *)

Section Trend.
Context (c : float) (highs : list SwingHigh.t) (lows : list SwingLow.t)
  (bms : list BreakInMarketStructure.t) (choch : list ChangeOfCharacter.t).

Definition above_highs : Prop := forall h, In h highs -> fv (SwingHigh.price h) < fv c.
Definition below_lows : Prop := forall l, In l lows -> fv c < fv (SwingLow.price l).

(** Both sides have swings and no event decides. *)
Definition open_bias : Prop := highs <> [] /\ lows <> [] /\ unconfirmed bms choch.

(** The close [c] is on the premium side of the middle of the swing range. *)
Definition premium : Prop :=
  exists h l, fmax_list (map SwingHigh.price highs) = Ok h /\ fmin_list (map SwingLow.price lows) = Ok l /\
    fle (fdiv_ieee (fadd h l) (of_Z 2)) c = true.

(** The layers, each reached when the ones before it do not decide. *)
Inductive trend : Direction -> Prop :=
| trend_no_swings : highs = [] \/ lows = [] -> trend NEUTRAL
| trend_confirmed d : highs <> [] -> lows <> [] -> confirmed bms choch d -> trend d
| trend_above : open_bias -> above_highs -> trend BULLISH
| trend_below : open_bias -> ~ above_highs -> below_lows -> trend BEARISH
| trend_rising : open_bias -> ~ above_highs -> ~ below_lows -> ladder true highs -> trend BULLISH
| trend_falling : open_bias -> ~ above_highs -> ~ below_lows -> ~ ladder true highs -> ladder false lows ->
    trend BEARISH
| trend_premium : open_bias -> ~ above_highs -> ~ below_lows -> ~ ladder true highs -> ~ ladder false lows ->
    premium -> trend BULLISH
| trend_discount : open_bias -> ~ above_highs -> ~ below_lows -> ~ ladder true highs -> ~ ladder false lows ->
    ~ premium -> trend BEARISH.

Lemma confirmed_unique d d' : confirmed bms choch d -> confirmed bms choch d' -> d = d'.
Proof. rewrite <- !confirmed_iff. congruence. Qed.

Lemma confirmed_not_open d : confirmed bms choch d -> unconfirmed bms choch -> False.
Proof. rewrite <- confirmed_iff, <- unconfirmed_iff. congruence. Qed.

Lemma trend_unique d d' : trend d -> trend d' -> d = d'.
Proof.
  intros H H'. destruct H; destruct H'; try reflexivity;
    repeat match goal with X : open_bias |- _ => destruct X as (? & ? & ?) end; try tauto;
    solve [eauto using confirmed_unique | exfalso; eauto using confirmed_not_open].
Qed.
End Trend.

Lemma high_extreme c highs h :
  highs <> [] -> num c -> Forall (fun s => num (lv_price s)) highs ->
  fmax_list (map SwingHigh.price highs) = Ok h -> flt h c = true <-> above_highs c highs.
Proof.
  intros Hne Hc Hn Eh. apply fmax_list_spec in Eh as [Hin Hmax]; [|by apply Forall_map].
  apply in_map_iff in Hin as (s & <- & Hs). rewrite List.Forall_forall in Hn.
  rewrite flt_fv by (done || by apply (Hn s)). rewrite Z.ltb_lt. split.
  - intros H x Hx. specialize (Hmax _ (in_map _ _ _ Hx)). lia.
  - intros H. by apply H.
Qed.

Lemma low_extreme c lows l :
  lows <> [] -> num c -> Forall (fun s => num (lv_price s)) lows ->
  fmin_list (map SwingLow.price lows) = Ok l -> flt c l = true <-> below_lows c lows.
Proof.
  intros Hne Hc Hn El. apply fmin_list_spec in El as [Hin Hmin]; [|by apply Forall_map].
  apply in_map_iff in Hin as (s & <- & Hs). rewrite List.Forall_forall in Hn.
  rewrite flt_fv by (done || by apply (Hn s)). rewrite Z.ltb_lt. split.
  - intros H x Hx. specialize (Hmin _ (in_map _ _ _ Hx)). lia.
  - intros H. by apply H.
Qed.

Lemma trend_returns q k highs lows bms choch :
  last (CandleSequence.candles q) = Some k -> num (Candle.close k) ->
  Forall (fun s => num (lv_price s)) highs -> Forall (fun s => num (lv_price s)) lows ->
  yields (SnapshotBuilder._determine_trend_direction q highs lows bms choch)
    (trend (Candle.close k) highs lows bms choch).
Proof.
  intros Ek Hc Hh Hl. unfold SnapshotBuilder._determine_trend_direction.
  destruct (decide (highs = [])) as [->|highs']; [by apply yields_ret, trend_no_swings; left|].
  destruct (decide (lows = [])) as [->|lows'].
  { destruct highs; by apply yields_ret, trend_no_swings; right. }
  assert (E : forall A (x y : A), match highs, lows with [], _ | _, [] => x | _, _ => y end = y)
    by (intros; by destruct highs, lows).
  rewrite E. clear E.
  destruct (SnapshotBuilder.confirmed_direction bms choch) as [d|] eqn:Ec.
  { apply confirmed_iff in Ec. by apply yields_ret, trend_confirmed. }
  apply unconfirmed_iff in Ec. rewrite Ek. cbn [fmap option_fmap option_map].
  assert (Hop : open_bias highs lows bms choch) by done.
  destruct (SessionFacts.fmax_list_nonempty (map SwingHigh.price highs)) as [h Eh]; [by destruct highs|].
  destruct (SessionFacts.fmin_list_nonempty (map SwingLow.price lows)) as [l El]; [by destruct lows|].
  rewrite Eh, El. cbn [mbind res_bind].
  pose proof (high_extreme _ _ _ highs' Hc Hh Eh) as HA. pose proof (low_extreme _ _ _ lows' Hc Hl El) as HB.
  destruct (flt h (Candle.close k)).
  { apply yields_ret, trend_above; [done|by apply HA]. }
  assert (NA : ~ above_highs (Candle.close k) highs) by (rewrite <- HA; done).
  destruct (flt (Candle.close k) l).
  { apply yields_ret, trend_below; [done|done|by apply HB]. }
  assert (NB : ~ below_lows (Candle.close k) lows) by (rewrite <- HB; done).
  eapply yields_bind; [by apply (monotone_exact true)|]. intros [|] HU.
  { apply yields_ret, trend_rising; try done. by apply HU. }
  assert (NU : ~ ladder true highs) by (rewrite <- HU; done).
  eapply yields_bind; [by apply (monotone_exact false)|]. intros [|] HD.
  { apply yields_ret, trend_falling; try done. by apply HD. }
  assert (ND : ~ ladder false lows) by (rewrite <- HD; done).
  change (fdiv (fadd h l) (of_Z 2)) with (@Ok float (fdiv_ieee (fadd h l) (of_Z 2))). cbn [mbind res_bind].
  apply yields_ret. destruct (fle _ (Candle.close k)) eqn:E.
  - apply trend_premium; try done. by exists h, l.
  - apply trend_discount; try done. intros (h' & l' & Eh' & El' & E'). congruence.
Qed.

(** C38: the bias of a timeframe.  For a sequence with a last candle and swings
    whose prices are numbers, [_determine_trend_direction] returns, and returns a
    direction exactly when the layered rules give it: no swings on a side is
    neutral; else the newer of the latest break of structure and the latest major
    change of character decides (a tie goes to the change of character); else a
    close beyond every confirmed swing; else three (or two) last swings stepping
    strictly the same way, highs first; else the side of the middle of the swing
    range the close is on.  The rules exclude one another. *)
Theorem trend_direction_exact q k highs lows bms choch :
  last (CandleSequence.candles q) = Some k -> num (Candle.close k) ->
  Forall (fun s => num (lv_price s)) highs -> Forall (fun s => num (lv_price s)) lows ->
  (exists d, SnapshotBuilder._determine_trend_direction q highs lows bms choch = Ok d) /\
  forall d, SnapshotBuilder._determine_trend_direction q highs lows bms choch = Ok d <->
    trend (Candle.close k) highs lows bms choch d.
Proof.
  intros Ek Hc Hh Hl. destruct (trend_returns q k highs lows bms choch) as (d & E & Ht); [done..|].
  split; [by exists d|]. intros d'. rewrite E. split; [by intros [= <-]|].
  intros Ht'. f_equal. by eapply trend_unique.
Qed.

(** ** Alignment *)

(** What a conversion to a zone relies on. *)
Definition convertible {A} `{ZoneLike A} (a : A) : Prop :=
  ZoneFacts.zone_ok a /\ num (z_upper a) /\ num (z_lower a) /\ 3 <= str_len (str_strip (z_symbol a)) <= 30.

Definition zone_of {A} `{ZoneLike A} (a : A) : Zone.t :=
  Zone.mk (normalize_symbol (str_strip (z_symbol a))) (z_timeframe a) z_type (z_upper a) (z_lower a)
    (z_timestamp a) (z_index a) (z_direction a).

Record zones_ok (s : TechnicalSnapshot.t) : Prop := {
  zs_obs : Forall convertible (TechnicalSnapshot.order_blocks s);
  zs_fvgs : Forall convertible (TechnicalSnapshot.fvgs s);
  zs_breakers : Forall convertible (TechnicalSnapshot.breaker_blocks s);
  zs_supply : Forall convertible (TechnicalSnapshot.supply_zones s);
  zs_demand : Forall convertible (TechnicalSnapshot.demand_zones s) }.

Definition zones_of (s : TechnicalSnapshot.t) : list Zone.t :=
  map zone_of (TechnicalSnapshot.order_blocks s) ++ map zone_of (TechnicalSnapshot.fvgs s) ++
  map zone_of (TechnicalSnapshot.breaker_blocks s) ++ map zone_of (TechnicalSnapshot.supply_zones s) ++
  map zone_of (TechnicalSnapshot.demand_zones s).

Lemma convert_all {A} `{ZoneLikeLaws A} (l : list A) :
  Forall convertible l -> res_map z_to_zone l = Ok (map zone_of l).
Proof.
  intros Hl. apply res_map_pure. eapply Forall_impl; [exact Hl|]. intros a (Hok & _ & _ & Hs).
  rewrite ZoneFacts.to_zone_spec by done.
  by rewrite (proj2 (andb_true_iff _ _) (conj (proj2 (Z.leb_le _ _) (proj1 Hs)) (proj2 (Z.leb_le _ _) (proj2 Hs)))).
Qed.

Lemma get_all_zones_eq s : zones_ok s -> AlignmentService._get_all_zones s = Ok (zones_of s).
Proof.
  intros [H1 H2 H3 H4 H5]. unfold AlignmentService._get_all_zones.
  apply convert_all in H1, H2, H3, H4, H5. cbn in H1, H2, H3, H4, H5.
  rewrite H1, H2, H3, H4, H5. reflexivity.
Qed.

Lemma zones_num s z : zones_ok s -> In z (zones_of s) -> num (Zone.upper_bound z) /\ num (Zone.lower_bound z).
Proof.
  assert (H : forall A (ZA : ZoneLike A) (l : list A), Forall convertible l -> In z (map zone_of l) ->
    num (Zone.upper_bound z) /\ num (Zone.lower_bound z)).
  { intros A ZA l Hl Hin. apply in_map_iff in Hin as (a & <- & Ha). rewrite List.Forall_forall in Hl.
    destruct (Hl a Ha) as (_ & ? & ? & _). done. }
  intros [H1 H2 H3 H4 H5]. unfold zones_of. rewrite !in_app_iff. intros [Hz|[Hz|[Hz|[Hz|Hz]]]].
  all: first [exact (H _ _ _ H1 Hz) | exact (H _ _ _ H2 Hz) | exact (H _ _ _ H3 Hz)
    | exact (H _ _ _ H4 Hz) | exact (H _ _ _ H5 Hz)].
Qed.

(** [z] lies within [w], on the same side of the market. *)
Definition inside (z w : Zone.t) : Prop :=
  Zone.direction z = Zone.direction w /\
  fv (Zone.lower_bound w) <= fv (Zone.lower_bound z) /\ fv (Zone.upper_bound z) <= fv (Zone.upper_bound w).
#[global] Instance inside_dec z w : Decision (inside z w) := _.

Definition nested (outer : list Zone.t) (z : Zone.t) : Prop := Exists (inside z) outer.
#[global] Instance nested_dec outer z : Decision (nested outer z) := Exists_dec _ _.

Definition zone_num (z : Zone.t) : Prop := num (Zone.upper_bound z) /\ num (Zone.lower_bound z).

Lemma is_zone_nested_iff z w :
  zone_num z -> zone_num w -> AlignmentService._is_zone_nested z w = true <-> inside z w.
Proof.
  intros [] []. unfold AlignmentService._is_zone_nested, inside. rewrite !fle_fv by done.
  case_bool_decide; cbn [negb]; cbv iota; [|split; [done|tauto]]. rewrite andb_true_iff, !Z.leb_le. tauto.
Qed.

Lemma nested_count_filter zs outer :
  Forall zone_num zs -> Forall zone_num outer ->
  AlignmentService.nested_count zs outer = py_len (filter (nested outer) zs).
Proof.
  intros Hz Ho. unfold AlignmentService.nested_count.
  enough (H : forall n, fold_left (fun n z => if existsb (AlignmentService._is_zone_nested z) outer then n + 1 else n)
    zs n = n + py_len (filter (nested outer) zs)) by apply (H 0).
  induction Hz as [|z zs Nz _ IH]; intros n; cbn [fold_left]; [unfold py_len; simpl; lia|].
  assert (E : existsb (AlignmentService._is_zone_nested z) outer = true <-> nested outer z).
  { rewrite existsb_exists. unfold nested. rewrite List.Exists_exists. rewrite List.Forall_forall in Ho.
    split; intros (w & Hw & Hi); exists w; (split; [done|]); by apply is_zone_nested_iff; auto. }
  rewrite IH, filter_cons. destruct (existsb _ outer), (decide (nested outer z)) as [D|D];
    try (exfalso; intuition congruence); [rewrite py_len_cons|]; lia.
Qed.

(** At least half of the inner zones are nested. *)
Definition mostly_nested (outer inner : list Zone.t) : Prop :=
  outer <> [] /\ inner <> [] /\ py_len inner <= 2 * py_len (filter (nested outer) inner).

Lemma check_zone_nesting_exact htf ltf :
  zones_ok htf -> zones_ok ltf -> py_len (zones_of ltf) < 2 ^ 53 ->
  yields (AlignmentService._check_zone_nesting htf ltf)
    (fun b => b = true <-> mostly_nested (zones_of htf) (zones_of ltf)).
Proof.
  intros Hh Hl Hn. unfold AlignmentService._check_zone_nesting, mostly_nested. rewrite !get_all_zones_eq by done.
  cbn [mbind res_bind].
  destruct (decide (zones_of htf = [])) as [->|Nh].
  { apply yields_ret. split; [done|]. tauto. }
  destruct (decide (zones_of ltf = [])) as [->|Nl].
  { destruct (zones_of htf); apply yields_ret; (split; [done|]); tauto. }
  assert (E : forall A (x y : A), match zones_of htf, zones_of ltf with [], _ | _, [] => x | _, _ => y end = y)
    by (intros; by destruct (zones_of htf), (zones_of ltf)).
  rewrite E. clear E. rewrite nested_count_filter
    by (apply List.Forall_forall; intros z Hz; eapply zones_num; [|exact Hz]; done).
  set (n := py_len (filter _ _)). set (m := py_len (zones_of ltf)) in *.
  assert (Hm : 0 < m) by (unfold m; destruct (zones_of ltf); [done|rewrite py_len_cons; pose proof (py_len_nonneg l); lia]).
  assert (Hnm : 0 <= n <= m).
  { unfold n, m, py_len. pose proof (length_filter (nested (zones_of htf)) (zones_of ltf)). lia. }
  destruct (of_Z_exact n ltac:(lia)) as [Fn En], (of_Z_exact m ltac:(lia)) as [Fm Em].
  assert (0 < unit_pow 0) by done.
  destruct (fdiv_rounds (of_Z n) (of_Z m) Fn Fm) as [-> _]; [rewrite Em; nia|].
  cbn [mbind res_bind]. apply yields_ret. rewrite half_percent by lia. rewrite Z.leb_le. tauto.
Qed.

(** What the two trends must satisfy when alignment is required. *)
Definition same_trend (htf ltf : TechnicalSnapshot.t) : Prop :=
  TechnicalSnapshot.trend_direction htf = TechnicalSnapshot.trend_direction ltf /\
  TechnicalSnapshot.trend_direction htf <> NEUTRAL.

Lemma check_trend_alignment_iff self htf ltf :
  AlignmentService._check_trend_alignment self (TechnicalSnapshot.trend_direction htf)
    (TechnicalSnapshot.trend_direction ltf) = true <->
  (AlignmentService.require_trend_alignment self = true -> same_trend htf ltf).
Proof.
  unfold AlignmentService._check_trend_alignment, same_trend.
  destruct (AlignmentService.require_trend_alignment self); cbn [negb]; [|by split].
  case_bool_decide as HN; [|rewrite bool_decide_eq_true]; cbv iota.
  - split; [done|]. intros H. destruct (H eq_refl) as [E N]. rewrite <- E in HN. apply list_elem_of_In in HN. cbn in HN. intuition congruence.
  - split; [|tauto]. intros E _. split; [done|]. intros E'. apply HN. rewrite E'. left.
Qed.

(** Alignment of two timeframes.  On snapshots of different symbols
    [check_alignment] raises.  On snapshots of one symbol, whose zones convert, it
    returns the pair with both snapshots in it; the pair is aligned exactly when
    the trends agree and are not neutral (if that is required) and at least half
    of the lower timeframe's zones lie within a zone of the higher timeframe on
    the same side, neither side being empty (if that is required); its aligned
    candidates are exactly those of either snapshot that follow the higher
    timeframe's trend, and none when the pair is not aligned. *)
Theorem check_alignment_exact self htf ltf :
  zones_ok htf -> zones_ok ltf -> py_len (zones_of ltf) < 2 ^ 53 ->
  3 <= str_len (str_strip (TechnicalSnapshot.symbol htf)) <= 30 ->
  (TechnicalSnapshot.symbol htf <> TechnicalSnapshot.symbol ltf ->
     AlignmentService.check_alignment self htf ltf = Raise (ValueError "Symbol mismatch")) /\
  (TechnicalSnapshot.symbol htf = TechnicalSnapshot.symbol ltf ->
   exists m, AlignmentService.check_alignment self htf ltf = Ok m /\
     MultiTimeframeSnapshot.htf_snapshot m = htf /\ MultiTimeframeSnapshot.ltf_snapshot m = ltf /\
     (MultiTimeframeSnapshot.htf_ltf_aligned m = true <->
       (AlignmentService.require_trend_alignment self = true -> same_trend htf ltf) /\
       (AlignmentService.require_zone_nesting self = true -> mostly_nested (zones_of htf) (zones_of ltf))) /\
     (forall c, In c (MultiTimeframeSnapshot.get_aligned_candidates m) <->
       MultiTimeframeSnapshot.htf_ltf_aligned m = true /\
       (In c (TechnicalSnapshot.candidates htf) \/ In c (TechnicalSnapshot.candidates ltf)) /\
       TechnicalCandidate.direction c = TechnicalSnapshot.trend_direction htf)).
Proof.
  intros Hh Hl Hn Hs. unfold AlignmentService.check_alignment.
  destruct (String.eqb_spec (TechnicalSnapshot.symbol htf) (TechnicalSnapshot.symbol ltf)) as [Es|Es];
    cbn [negb]; (split; [done|]); [|done]. intros _. cbv zeta.
  destruct (check_zone_nesting_exact htf ltf Hh Hl Hn) as (b & -> & Hb). cbn [mbind res_bind].
  unfold MultiTimeframeSnapshot.create, symbol_3_30. rewrite CandleFacts.str_field_intro by done.
  cbn [fmap res_fmap mbind res_bind]. eexists. split; [reflexivity|]. cbn.
  split; [done|]. split; [done|]. split.
  - pose proof (check_trend_alignment_iff self htf ltf) as Ht.
    destruct (AlignmentService.require_zone_nesting self); rewrite ?andb_true_iff, Ht, ?Hb; [tauto|].
    split; [|tauto]. intros H. by split.
  - intros c. unfold MultiTimeframeSnapshot.get_aligned_candidates. cbn.
    destruct (if AlignmentService.require_zone_nesting self then _ else _); cbn [negb].
    + rewrite filter_In, bool_decide_eq_true. unfold MultiTimeframeSnapshot.get_all_candidates. cbn.
      rewrite in_app_iff. unfold MultiTimeframeSnapshot.htf_trend. cbn. tauto.
    + split; [done|]. by intros [? _].
Qed.

(** ** Samples *)

Definition sample_block (d : Direction) (lower upper : Z) : OrderBlock.t :=
  OrderBlock.mk "EURUSD" H1 (lit upper 4) (lit lower 4) (mk_datetime 0 (Some 0)) 0 d fzero false false None.

Definition sample_snapshot (tf : Timeframe) (trend : Direction) (obs : list OrderBlock.t) : TechnicalSnapshot.t :=
  TechnicalSnapshot.mk "EURUSD" tf (mk_datetime 0 (Some 0)) (CandleSequence.mk "EURUSD" tf []) [] [] [] [] [] []
    [] [] [] [] [] [] obs [] [] [] [] [] [] [] [] None trend [] [].

Lemma sample_zones_ok tf trend obs : Forall convertible obs -> zones_ok (sample_snapshot tf trend obs).
Proof. intros H. constructor; try constructor. exact H. Qed.

Lemma sample_block_ok d : convertible (sample_block d 10800 10900) /\ convertible (sample_block d 10820 10850).
Proof. repeat split; vm_compute; congruence. Qed.

Lemma check_alignment_exact_witness :
  exists m, AlignmentService.check_alignment (AlignmentService.mk true true)
      (sample_snapshot H4 BULLISH [sample_block BULLISH 10800 10900])
      (sample_snapshot H1 BULLISH [sample_block BULLISH 10820 10850]) = Ok m /\
    MultiTimeframeSnapshot.htf_ltf_aligned m = true.
Proof.
  destruct (sample_block_ok BULLISH) as [H1 H2].
  destruct (check_alignment_exact (AlignmentService.mk true true)
    (sample_snapshot H4 BULLISH [sample_block BULLISH 10800 10900])
    (sample_snapshot Constants.H1 BULLISH [sample_block BULLISH 10820 10850])) as [_ H];
    [by apply sample_zones_ok; constructor|by apply sample_zones_ok; constructor|reflexivity|by vm_compute|].
  destruct (H eq_refl) as (m & E & _ & _ & Ha & _). exists m. split; [exact E|].
  apply Ha. split; [done|]. intros _. split; [done|]. split; [done|]. by vm_compute.
Defined.

Definition sample_swing_high (k price : Z) : SwingHigh.t :=
  SwingHigh.mk "EURUSD" Constants.H1 (mk_datetime (k * us_per_hour) (Some 0)) (lit price 4) k 1 1 1 false None.
Definition sample_swing_low (k price : Z) : SwingLow.t :=
  SwingLow.mk "EURUSD" Constants.H1 (mk_datetime (k * us_per_hour) (Some 0)) (lit price 4) k 1 1 1 false None.
Definition sample_close (price : Z) : CandleSequence.t :=
  CandleSequence.mk "EURUSD" Constants.H1
    [Candle.mk "EURUSD" Constants.H1 (mk_datetime 0 (Some 0)) (lit price 4) (lit price 4) (lit price 4) (lit price 4) fzero].

Lemma trend_direction_exact_witness :
  trend (lit 10850 4) [sample_swing_high 1 10880; sample_swing_high 5 10900] [sample_swing_low 3 10800] [] [] BULLISH.
Proof.
  apply (trend_direction_exact (sample_close 10850)
    (Candle.mk "EURUSD" Constants.H1 (mk_datetime 0 (Some 0)) (lit 10850 4) (lit 10850 4) (lit 10850 4) (lit 10850 4) fzero)
    [sample_swing_high 1 10880; sample_swing_high 5 10900] [sample_swing_low 3 10800] [] []).
  - reflexivity.
  - by vm_compute.
  - repeat constructor; by vm_compute.
  - repeat constructor; by vm_compute.
  - by vm_compute.
Defined.
End SnapshotFacts.
