(* ===== verification/PyIO.v ===== *)
(** * PyIO: code that talks to the world

    A coroutine that awaits services outside the model is a function of the
    world's state [W]: it returns or raises, and leaves a new state.  [attempt] is
    [try: ... except Exception as e: ...].  The services are classes over [W], so
    that the clients are proved against the interfaces only.  [runs m w Q] is
    total correctness: from [w], [m] returns and the value and the final state
    satisfy [Q]. *)

From Stdlib Require Import ZArith Lia Bool String.
From stdpp Require Import base list strings.
From S2P Require Import Prelude Loops PyFloat PyText PyRepr.

#[local] Open Scope Z_scope.

Definition io (W A : Type) : Type := W -> res A * W.

#[global] Instance io_ret {W} : MRet (io W) := fun A a w => (Ok a, w).
#[global] Instance io_bind {W} : MBind (io W) := fun A B f m w =>
  let '(r, w) := m w in
  match r with Ok a => f a w | Raise e => (Raise e, w) end.
#[global] Instance io_fmap {W} : FMap (io W) := fun A B f m w =>
  let '(r, w) := m w in
  match r with Ok a => (Ok (f a), w) | Raise e => (Raise e, w) end.

(** A computation that does not touch the world. *)
Definition lift {W A} (m : res A) : io W A := fun w => (m, w).

Definition attempt {W A} (m : io W A) (handler : exn -> io W A) : io W A := fun w =>
  let '(r, w) := m w in
  match r with Ok a => (Ok a, w) | Raise e => handler e w end.

(** [for x in xs: ...] over local state. *)
Fixpoint io_for {W A B} (step : B -> A -> io W B) (xs : list A) (acc : B) : io W B :=
  match xs with
  | [] => mret acc
  | x :: xs => acc ← step acc x; io_for step xs acc
  end.

(** ** The clock *)

Class Clock (W : Type) := { now_utc : W -> datetime * W }.

Definition now {W} `{Clock W} : io W datetime := fun w => let '(t, w) := now_utc w in (Ok t, w).

(** Midnight of 0001-01-01, the least [datetime]. *)
Definition min_wall : Z := -62135596800 * 1000000.

(** [dt - timedelta(minutes=n)]. *)
Definition minus_minutes (d : datetime) (n : Z) : res datetime :=
  let w := wall d - n * us_per_minute in
  if w <? min_wall then Raise OverflowError else Ok (mk_datetime w (utcoffset d)).

(** [(b - a).total_seconds() * 1000]. *)
Definition elapsed_ms (a b : datetime) : float := fmul (lit (instant b - instant a) 6) (of_Z 1000).

(** ** Total correctness *)

Definition runs {W A} (m : io W A) (w : W) (Q : A -> W -> Prop) : Prop :=
  exists a w', m w = (Ok a, w') /\ Q a w'.

Section Rules.
Context {W : Type}.

Lemma runs_ret {A} (a : A) (w : W) (Q : A -> W -> Prop) : Q a w -> runs (mret a) w Q.
Proof. intros H. by exists a, w. Qed.

Lemma runs_bind {A B} (m : io W A) (f : A -> io W B) w (Q : A -> W -> Prop) (R : B -> W -> Prop) :
  runs m w Q -> (forall a w', Q a w' -> runs (f a) w' R) -> runs (m ≫= f) w R.
Proof.
  intros (a & w' & E & Ha) Hf. destruct (Hf a w' Ha) as (b & w'' & E' & Hb).
  exists b, w''. split; [|done]. unfold mbind, io_bind. by rewrite E.
Qed.

Lemma runs_weaken {A} (m : io W A) w (Q R : A -> W -> Prop) :
  runs m w Q -> (forall a w', Q a w' -> R a w') -> runs m w R.
Proof. intros (a & w' & E & Ha) H. exists a, w'. auto. Qed.

Lemma runs_lift {A} (m : res A) (w : W) (Q : A -> W -> Prop) :
  yields m (fun a => Q a w) -> runs (lift m) w Q.
Proof. intros (a & -> & H). by exists a, w. Qed.

Lemma runs_now `{Clock W} (w : W) (Q : datetime -> W -> Prop) :
  (forall t w', now_utc w = (t, w') -> Q t w') -> runs now w Q.
Proof. intros HQ. unfold runs, now. destruct (now_utc w) as [t w'] eqn:E. exists t, w'. auto. Qed.

(** What a sequence that returned went through. *)
Lemma io_bind_Ok {A B} (m : io W A) (f : A -> io W B) w b w2 :
  (m ≫= f) w = (Ok b, w2) -> exists a w1, m w = (Ok a, w1) /\ f a w1 = (Ok b, w2).
Proof. unfold mbind, io_bind. destruct (m w) as [[a|e] w1]; [eauto|done]. Qed.

Lemma lift_Ok {A} (m : res A) (w : W) a w' : lift m w = (Ok a, w') -> m = Ok a /\ w = w'.
Proof. unfold lift. intros E. by split; congruence. Qed.

(** Whatever happens inside, a handler that returns makes the whole return. *)
Lemma runs_attempt {A} (m : io W A) h w (Q : A -> W -> Prop) :
  match m w with
  | (Ok a, w') => Q a w'
  | (Raise e, w') => runs (h e) w' Q
  end -> runs (attempt m h) w Q.
Proof. unfold runs, attempt. destruct (m w) as [[a|e] w']; eauto. Qed.

Lemma runs_for {A B} (step : B -> A -> io W B) (P : list A -> B -> W -> Prop) xs acc w :
  P [] acc w ->
  (forall seen x acc w, P seen acc w -> In x xs -> runs (step acc x) w (fun acc' w' => P (seen ++ [x]) acc' w')) ->
  runs (io_for step xs acc) w (P xs).
Proof.
  enough (G : forall todo seen acc w, (forall x, In x todo -> In x xs) -> P seen acc w ->
    (forall seen x acc w, P seen acc w -> In x xs -> runs (step acc x) w (fun acc' w' => P (seen ++ [x]) acc' w')) ->
    runs (io_for step todo acc) w (P (seen ++ todo))) by (intros; by apply (G xs [])).
  induction todo as [|x todo IH]; intros seen acc' w' Hin H0 Hstep; cbn [io_for].
  { apply runs_ret. by rewrite app_nil_r. }
  eapply runs_bind; [apply Hstep; [exact H0|apply Hin; by left]|]. intros acc'' w'' H1.
  replace (seen ++ x :: todo) with ((seen ++ [x]) ++ todo) by (by rewrite <- app_assoc).
  apply IH; [|done|done]. intros y Hy. apply Hin. by right.
Qed.
End Rules.
