(* ===== verification/PyAsync.v ===== *)
(** * PyAsync: coroutines as programs that await commands

    A coroutine whose interleaving with others matters is a tree: it has finished,
    or it awaits a command and goes on with the reply, a value or an exception.
    The commands and the types of their replies are an [Effect].  [interp] runs
    one program alone against a handler; [pool_step] runs many over a shared
    world, one command at a time, in any order.

    [obeys] is the rely-guarantee side: along every path a program sends only the
    commands its label allows, where the label follows the replies it has seen.
    [pool_invariant] combines the labels of all programs with an invariant of the
    world. *)

From Stdlib Require Import ZArith Lia Bool String.
From stdpp Require Import base list strings relations.
From S2P Require Import Prelude.

Class Effect (E : Type) := reply : E -> Type.

(** ** Programs *)

(** [Spin] is a loop that has used the turns given to it. *)
Inductive prog (E : Type) `{Effect E} (A : Type) : Type :=
| Ret (r : res A)
| Await (c : E) (k : res (reply c) -> prog E A)
| Spin.
Arguments Ret {_ _ _} _.
Arguments Await {_ _ _} _ _.
Arguments Spin {_ _ _}.

Section Programs.
Context {E : Type} `{Effect E}.

(** What is done with the outcome of a program, whether a value or an exception. *)
Fixpoint settle {A B} (p : prog E A) (f : res A -> prog E B) : prog E B :=
  match p with
  | Ret r => f r
  | Await c k => Await c (fun r => settle (k r) f)
  | Spin => Spin
  end.

#[global] Instance prog_ret : MRet (prog E) := fun A a => Ret (Ok a).
#[global] Instance prog_bind : MBind (prog E) := fun A B f p =>
  settle p (fun r => match r with Ok a => f a | Raise e => Ret (Raise e) end).

(** [await c]. *)
Definition send (c : E) : prog E (reply c) := Await c Ret.

(** A computation that awaits nothing. *)
Definition pure {A} (r : res A) : prog E A := Ret r.

(** [try: p  except Exception as e: handler]. *)
Definition try_except {A} (p : prog E A) (handler : exn -> prog E A) : prog E A :=
  settle p (fun r => match r with Ok a => Ret (Ok a) | Raise e => handler e end).

(** [try: p  finally: f]: an exception of [f] replaces the outcome of [p]. *)
Definition try_finally {A} (p : prog E A) (f : prog E unit) : prog E A :=
  settle p (fun r => settle f (fun r' => match r' with Ok _ => Ret r | Raise e => Ret (Raise e) end)).

(** The command a program awaits. *)
Definition awaits {A} (p : prog E A) : option E := match p with Await c _ => Some c | _ => None end.

(** ** One program alone *)

Section Interp.
Context {W : Type} (handle : forall c : E, W -> res (reply c) * W).

(** [None]: the program spins. *)
Fixpoint interp {A} (p : prog E A) (w : W) : option (res A) * W :=
  match p with
  | Ret r => (Some r, w)
  | Await c k => let '(r, w) := handle c w in interp (k r) w
  | Spin => (None, w)
  end.

Lemma interp_settle {A B} (p : prog E A) (f : res A -> prog E B) w :
  interp (settle p f) w =
  match interp p w with (Some r, w') => interp (f r) w' | (None, w') => (None, w') end.
Proof.
  revert w. induction p as [r|c k IH|]; intros w; cbn [settle interp]; [done| |done].
  destruct (handle c w) as [r w']. apply IH.
Qed.

Lemma interp_bind {A B} (p : prog E A) (f : A -> prog E B) w :
  interp (p ≫= f) w =
  match interp p w with
  | (Some (Ok a), w') => interp (f a) w'
  | (Some (Raise e), w') => (Some (Raise e), w')
  | (None, w') => (None, w')
  end.
Proof. unfold mbind, prog_bind. rewrite interp_settle. by destruct (interp p w) as [[[a|e]|] w']. Qed.

Lemma interp_try {A} (p : prog E A) h w :
  interp (try_except p h) w =
  match interp p w with
  | (Some (Raise e), w') => interp (h e) w'
  | o => o
  end.
Proof. unfold try_except. rewrite interp_settle. by destruct (interp p w) as [[[a|e]|] w']. Qed.

Lemma interp_finally {A} (p : prog E A) f w :
  interp (try_finally p f) w =
  match interp p w with
  | (Some r, w') =>
      match interp f w' with
      | (Some (Ok _), w'') => (Some r, w'')
      | (Some (Raise e), w'') => (Some (Raise e), w'')
      | (None, w'') => (None, w'')
      end
  | (None, w') => (None, w')
  end.
Proof.
  unfold try_finally. rewrite interp_settle. destruct (interp p w) as [[r|] w']; [|done].
  rewrite interp_settle. by destruct (interp f w') as [[[]|] w''].
Qed.
End Interp.

(** ** Labels *)

Section Labels.
Context {G : Type} (allowed : G -> E -> Prop) (advance : G -> forall c : E, res (reply c) -> G).
(** The replies the environment may give. *)
Context (replies : forall c : E, res (reply c) -> Prop).

Fixpoint obeys {A} (g : G) (p : prog E A) (Q : G -> res A -> Prop) : Prop :=
  match p with
  | Ret r => Q g r
  | Await c k => allowed g c /\ forall r, replies c r -> obeys (advance g c r) (k r) Q
  | Spin => True
  end.

Lemma obeys_weaken {A} (p : prog E A) : forall g (Q R : G -> res A -> Prop),
  obeys g p Q -> (forall g r, Q g r -> R g r) -> obeys g p R.
Proof.
  induction p as [r|c k IH|]; intros g Q R HQ HR; [by apply HR| |done].
  destruct HQ as [Ha Hk]. split; [done|]. intros r Hr. eapply IH; eauto.
Qed.

Lemma obeys_settle {A B} (p : prog E A) (f : res A -> prog E B) : forall g Q R,
  obeys g p Q -> (forall g r, Q g r -> obeys g (f r) R) -> obeys g (settle p f) R.
Proof.
  induction p as [r|c k IH|]; intros g Q R HQ HR; cbn [settle]; [by apply HR| |done].
  destruct HQ as [Ha Hk]. split; [done|]. intros r Hr. eapply IH; eauto.
Qed.

Lemma obeys_bind {A B} (p : prog E A) (f : A -> prog E B) g Q R :
  obeys g p Q -> (forall g a, Q g (Ok a) -> obeys g (f a) R) -> (forall g e, Q g (Raise e) -> R g (Raise e)) ->
  obeys g (p ≫= f) R.
Proof. intros HQ Hf He. eapply obeys_settle; [exact HQ|]. intros g' [a|e] Hr; [by apply Hf|by apply He]. Qed.

Lemma obeys_try {A} (p : prog E A) h g Q R :
  obeys g p Q -> (forall g a, Q g (Ok a) -> R g (Ok a)) -> (forall g e, Q g (Raise e) -> obeys g (h e) R) ->
  obeys g (try_except p h) R.
Proof. intros HQ Hf He. eapply obeys_settle; [exact HQ|]. intros g' [a|e] Hr; [by apply Hf|by apply He]. Qed.

Lemma obeys_finally {A} (p : prog E A) f g Q S R :
  obeys g p Q -> (forall g r, Q g r -> obeys g f (S r)) ->
  (forall g r u, S r g (Ok u) -> R g r) -> (forall g r e, S r g (Raise e) -> R g (Raise e)) ->
  obeys g (try_finally p f) R.
Proof.
  intros HQ Hf Hok He. eapply obeys_settle; [exact HQ|]. intros g' r Hr.
  eapply obeys_settle; [by apply Hf|]. intros g'' [u|e] Hs; [by eapply Hok|by eapply He].
Qed.
End Labels.

(** ** Many programs over one world *)

Section Pool.
Context {W G A : Type} (advance : G -> forall c : E, res (reply c) -> G).
(** How the world answers a command, and what it does by itself; the labels say
    how far the programs are. *)
Context (serve : W -> forall c : E, res (reply c) -> W -> Prop) (drift : list G -> W -> W -> Prop).

Record task := mk_task { label : G; code : prog E A }.
Record pool := mk_pool { world : W; tasks : list task }.

Inductive pool_step : pool -> pool -> Prop :=
| step_task w ts i t c k r w' :
    ts !! i = Some t -> code t = Await c k -> serve w c r w' ->
    pool_step (mk_pool w ts) (mk_pool w' (<[i := mk_task (advance (label t) c r) (k r)]> ts))
| step_world w ts w' :
    drift (map label ts) w w' -> pool_step (mk_pool w ts) (mk_pool w' ts).

Definition reaches : pool -> pool -> Prop := rtc pool_step.

Section Invariant.
Context (allowed : G -> E -> Prop) (replies : forall c : E, res (reply c) -> Prop).
Context (Inv : W -> list G -> Prop) (Q : G -> res A -> Prop).
Hypothesis serve_replies : forall w c r w', serve w c r w' -> replies c r.
Hypothesis serve_ok : forall w gs i g c r w',
  Inv w gs -> gs !! i = Some g -> allowed g c -> serve w c r w' -> Inv w' (<[i := advance g c r]> gs).
Hypothesis drift_ok : forall w gs w', Inv w gs -> drift gs w w' -> Inv w' gs.

Definition obedient (s : pool) : Prop :=
  Inv (world s) (map label (tasks s)) /\
  Forall (fun t => obeys allowed advance replies (label t) (code t) Q) (tasks s).

Lemma pool_step_obedient s s' : obedient s -> pool_step s s' -> obedient s'.
Proof.
  intros [HI HF] Hs. destruct Hs as [w ts i t c k r w' Ht Hc Hsv|w ts w' Hd]; cbn [world tasks] in *.
  - assert (Hob := HF). rewrite Forall_lookup in Hob. specialize (Hob i t Ht). rewrite Hc in Hob.
    destruct Hob as [Ha Hk]. split.
    + cbn [world tasks]. rewrite list_fmap_insert. cbn [label].
      eapply serve_ok; [exact HI| |exact Ha|exact Hsv]. by rewrite list_lookup_fmap, Ht.
    + cbn [world tasks]. apply Forall_insert; [done|]. apply Hk. by eapply serve_replies.
  - split; [by eapply drift_ok|done].
Qed.

(** Obedience and the invariant hold in every state that can be reached. *)
Lemma pool_invariant s s' : obedient s -> reaches s s' -> obedient s'.
Proof. intros Ho Hr. induction Hr; [done|]. eauto using pool_step_obedient. Qed.
End Invariant.
End Pool.
End Programs.
Arguments mk_task {_ _ _ _} _ _.
Arguments mk_pool {_ _ _ _ _} _ _.
