(* ===== verification/SMCLiquidity.v ===== *)
(** * Session and sweep patterns: [engine/ta/smc/detectors/turtle_soup.py] and
    [amd.py]

    Turtle soups are sweeps that close back inside the swept level; the
    accumulation, manipulation and distribution phases are read off the Asian
    range and the London and New York candles. *)

From Stdlib Require Import ZArith Lia Bool String Sorting.Sorted.
From stdpp Require Import base list strings.
From S2P Require Import Prelude Loops PyFloat FloatRound PyRound PyText Constants PriceMath Candles Swings Sessions Fibonacci Liquidity ZoneModels StructureModels SMCConfig CandlePatterns SMCStructure.

#[local] Open Scope string_scope.
#[local] Open Scope Z_scope.
#[local] Open Scope list_scope.

(** ** Turtle soup *)

Module TurtleSoupDetector.

(** The inner iteration: one candle against one swing. *)
Definition soup_body {A} `{SwingLevel A} (config : SMCConfig.t) (sweep_analyzer : SweepAnalyzer.t)
    (is_high : bool) (i : Z) (candle : Candle.t) (swing : A) : res (option LiquiditySweep.t) :=
  if i <=? lv_index swing then Ok None
  else
    sweep ← SweepAnalyzer.detect_level_sweep sweep_analyzer is_high (if is_high then BSL else SSL) candle
              (lv_price swing) (lv_timestamp swing) i;
    Ok (match sweep with
        | None => None
        | Some s =>
            if negb (LiquiditySweep.closed_back_inside s) then None
            else if flt (LiquiditySweep.sweep_pips s) (SMCConfig.turtle_soup_min_pips config) then None
            else Some s
        end).

Definition detect_turtle_soup {A} `{SwingLevel A} (config : SMCConfig.t) (sweep_analyzer : SweepAnalyzer.t)
    (is_high : bool) (sequence : CandleSequence.t) (swings : list A) : res (list LiquiditySweep.t) :=
  (@List.concat LiquiditySweep.t) <$>
    res_map (fun '(i, candle) => collect (soup_body config sweep_analyzer is_high i candle) swings)
      (py_enumerate (CandleSequence.candles sequence)).

Definition detect_turtle_soup_short (config : SMCConfig.t) (sweep_analyzer : SweepAnalyzer.t)
    (sequence : CandleSequence.t) (swing_highs : list SwingHigh.t) :=
  detect_turtle_soup config sweep_analyzer true sequence swing_highs.
Definition detect_turtle_soup_long (config : SMCConfig.t) (sweep_analyzer : SweepAnalyzer.t)
    (sequence : CandleSequence.t) (swing_lows : list SwingLow.t) :=
  detect_turtle_soup config sweep_analyzer false sequence swing_lows.

Definition is_valid_turtle_soup (sweep_analyzer : SweepAnalyzer.t) (sweep : LiquiditySweep.t) : bool :=
  SweepAnalyzer.is_turtle_soup sweep_analyzer sweep.
End TurtleSoupDetector.

(** ** Accumulation, manipulation, distribution *)

Module AMDContext.
Record t := mk {
  symbol : string; timeframe : Timeframe; timestamp : datetime; phase : AMDPhase;
  asian_range : option DealingRange.t; manipulation_direction : option Direction;
  distribution_direction : option Direction }.
End AMDContext.

Module AMDDetector.

Definition _extract_asian_range (dealing_range_analyzer : DealingRangeAnalyzer.t)
    (sequence : CandleSequence.t) : res (option DealingRange.t) :=
  asian_range ← SessionAnalyzer.extract_most_recent_session_range sequence ASIA;
  match asian_range with
  | None => Ok None
  | Some r => DealingRangeAnalyzer.create_from_session dealing_range_analyzer r
  end.

(** [london_candles + ny_candles]. *)
Definition trading_candles (sequence : CandleSequence.t) : res (list Candle.t) :=
  london_candles ← SessionAnalyzer.get_session_candles sequence LONDON;
  ny_candles ← SessionAnalyzer.get_session_candles sequence NEW_YORK;
  Ok (london_candles ++ ny_candles).

Definition manipulates (asian_range : DealingRange.t) (candle : Candle.t) : option Direction :=
  if flt (DealingRange.high asian_range) (Candle.high candle) then Some BULLISH
  else if flt (Candle.low candle) (DealingRange.low asian_range) then Some BEARISH
  else None.

(** [(detected, direction)]: detected exactly when there is a direction. *)
Definition _detect_manipulation (sequence : CandleSequence.t) (asian_range : DealingRange.t)
    : res (option Direction) :=
  manipulation_candles ← trading_candles sequence;
  Ok (find_map (manipulates asian_range) manipulation_candles).

Definition _detect_distribution (sequence : CandleSequence.t) (asian_range : DealingRange.t)
    (manipulation_direction : option Direction) : res (option Direction) :=
  match manipulation_direction with
  | None => Ok None
  | Some d =>
      distribution_candles ← trading_candles sequence;
      match distribution_candles with
      | [] => Ok None
      | _ =>
          equilibrium ← DealingRange.equilibrium asian_range;
          Ok (match d with
              | BULLISH =>
                  if existsb (fun c => flt (Candle.close c) equilibrium) distribution_candles
                  then Some BEARISH else None
              | BEARISH =>
                  if existsb (fun c => flt equilibrium (Candle.close c)) distribution_candles
                  then Some BULLISH else None
              | NEUTRAL => None
              end)
      end
  end.

Definition detect_amd_context (dealing_range_analyzer : DealingRangeAnalyzer.t)
    (sequence : CandleSequence.t) : res (option AMDContext.t) :=
  asian_range ← _extract_asian_range dealing_range_analyzer sequence;
  match asian_range with
  | None => Ok None
  | Some range =>
      let context phase m d :=
        last ← py_index (CandleSequence.candles sequence) (-1);
        Ok (Some (AMDContext.mk (CandleSequence.symbol sequence) (CandleSequence.timeframe sequence)
                    (Candle.timestamp last) phase (Some range) m d)) in
      manipulation ← _detect_manipulation sequence range;
      match manipulation with
      | None => context ACCUMULATION None None
      | Some m =>
          distribution ← _detect_distribution sequence range (Some m);
          match distribution with
          | None => context MANIPULATION (Some m) None
          | Some d => context DISTRIBUTION (Some m) (Some d)
          end
      end
  end.
End AMDDetector.
