(* ===== verification/SMCZones.v ===== *)
(** * Zone detectors: [engine/ta/smc/zones/fvg.py], [order_block.py] and
    [breaker.py]

    Fair value gaps between three candles, the order block behind a break of
    structure, and order blocks that a later close has broken. *)

From Stdlib Require Import ZArith Lia Bool String Sorting.Sorted.
From stdpp Require Import base list strings.
From S2P Require Import Prelude Loops PyFloat FloatRound PyRound PyText Constants PriceMath Candles Swings Liquidity ZoneModels StructureModels SMCConfig CandlePatterns SMCStructure.

#[local] Open Scope string_scope.
#[local] Open Scope Z_scope.
#[local] Open Scope list_scope.

(** ** Fair value gaps *)

Module FVGDetector.

Definition fvg_body (config : SMCConfig.t) (sequence : CandleSequence.t) (i : Z)
    : res (option FairValueGap.t) :=
  candle1 ← py_index (CandleSequence.candles sequence) i;
  candle2 ← py_index (CandleSequence.candles sequence) (i + 1);
  candle3 ← py_index (CandleSequence.candles sequence) (i + 2);
  match CandleAnalyzer.detect_imbalance candle1 candle2 candle3 with
  | None => Ok None
  | Some (gap_low, gap_high) =>
      gap_size_pips ← calculate_pips gap_low gap_high (CandleSequence.symbol sequence);
      if flt gap_size_pips (SMCConfig.fvg_min_gap_pips config) then Ok None
      else
        fvg ← FairValueGap.create (CandleSequence.symbol sequence) (CandleSequence.timeframe sequence)
                gap_high gap_low (Candle.timestamp candle2) (i + 1)
                (if Candle.is_bullish candle2 then BULLISH else BEARISH) false None fzero;
        Ok (Some fvg)
  end.

Definition detect_fvgs (config : SMCConfig.t) (sequence : CandleSequence.t) : res (list FairValueGap.t) :=
  collect (fvg_body config sequence) (py_range 0 (py_len (CandleSequence.candles sequence) - 2)).

(** [((a - b) / range) * 100.0]. *)
Definition fill_of (a b range_size : float) : res float :=
  q ← fdiv (fsub a b) range_size; Ok (fmul q (of_Z 100)).

Definition fill_body (fvg : FairValueGap.t) (sequence : CandleSequence.t) (i : Z) : res (option float) :=
  candle ← py_index (CandleSequence.candles sequence) i;
  let lower := FairValueGap.lower_bound fvg in
  let upper := FairValueGap.upper_bound fvg in
  if fle (Candle.low candle) lower && fle upper (Candle.high candle) then Ok (Some (of_Z 100))
  else if fle lower (Candle.low candle) && fle (Candle.low candle) upper then
    p ← fill_of (Candle.high candle) lower (FairValueGap.range_size fvg); Ok (Some p)
  else if fle lower (Candle.high candle) && fle (Candle.high candle) upper then
    p ← fill_of upper (Candle.low candle) (FairValueGap.range_size fvg); Ok (Some p)
  else Ok None.

(** [(filled, percentage)]. *)
Definition check_fvg_fill (fvg : FairValueGap.t) (sequence : CandleSequence.t) : res (bool * option float) :=
  let n := py_len (CandleSequence.candles sequence) in
  if n - 1 <=? FairValueGap.candle_index fvg then Ok (false, None)
  else
    r ← search (fill_body fvg sequence) (py_range (FairValueGap.candle_index fvg + 1) n);
    Ok (match r with Some p => (true, Some p) | None => (false, None) end).

Definition get_unfilled_fvgs (fvgs : list FairValueGap.t) : list FairValueGap.t :=
  List.filter (fun f => negb (FairValueGap.filled f)) fvgs.
End FVGDetector.

(** ** Order blocks *)

Module OrderBlockDetector.

(** A bullish block is a bearish candle and conversely. *)
Definition opposes (bullish : bool) (c : Candle.t) : bool :=
  if bullish then Candle.is_bearish c else Candle.is_bullish c.

Definition ob_body (config : SMCConfig.t) (bullish : bool) (sequence : CandleSequence.t)
    (bms_event : BreakInMarketStructure.t) (i : Z) : res (option OrderBlock.t) :=
  candle ← py_index (CandleSequence.candles sequence) i;
  if negb (opposes bullish candle) then Ok None
  else
    body_pct ← calculate_body_percentage (Candle.open candle) (Candle.close candle)
                 (Candle.high candle) (Candle.low candle);
    if flt body_pct (SMCConfig.ob_body_percentage_threshold config) then Ok None
    else
      displacement ←
        (if bullish
         then calculate_pips (Candle.low candle) (BreakInMarketStructure.breakout_price bms_event)
                (CandleSequence.symbol sequence)
         else calculate_pips (BreakInMarketStructure.breakout_price bms_event) (Candle.high candle)
                (CandleSequence.symbol sequence));
      if flt displacement (SMCConfig.min_displacement_pips config) then Ok None
      else
        ob ← OrderBlock.create (CandleSequence.symbol sequence) (CandleSequence.timeframe sequence)
               (Candle.high candle) (Candle.low candle) (Candle.timestamp candle) i
               (direction_of bullish) displacement false false None;
        Ok (Some ob).

Definition detect_ob (config : SMCConfig.t) (bullish : bool) (sequence : CandleSequence.t)
    (bms_event : BreakInMarketStructure.t) : res (option OrderBlock.t) :=
  if negb (bool_decide (BreakInMarketStructure.direction bms_event = direction_of bullish)) then Ok None
  else if BreakInMarketStructure.candle_index bms_event <? 1 then Ok None
  else search (ob_body config bullish sequence bms_event)
         (py_range_down (BreakInMarketStructure.candle_index bms_event - 1) (-1)).

Definition detect_bullish_ob (config : SMCConfig.t) (sequence : CandleSequence.t)
    (bms_event : BreakInMarketStructure.t) := detect_ob config true sequence bms_event.
Definition detect_bearish_ob (config : SMCConfig.t) (sequence : CandleSequence.t)
    (bms_event : BreakInMarketStructure.t) := detect_ob config false sequence bms_event.

Definition choch_ob_body (bullish : bool) (sequence : CandleSequence.t) (i : Z) : res (option OrderBlock.t) :=
  candle ← py_index (CandleSequence.candles sequence) i;
  if opposes bullish candle then
    ob ← OrderBlock.create (CandleSequence.symbol sequence) (CandleSequence.timeframe sequence)
           (Candle.high candle) (Candle.low candle) (Candle.timestamp candle) i
           (direction_of bullish) fzero false false None;
    Ok (Some ob)
  else Ok None.

Definition detect_ob_from_choch (sequence : CandleSequence.t) (choch_event : ChangeOfCharacter.t)
    : res (option OrderBlock.t) :=
  if ChangeOfCharacter.candle_index choch_event <? 1 then Ok None
  else
    let bullish := bool_decide (ChangeOfCharacter.direction choch_event = BULLISH) in
    search (choch_ob_body bullish sequence)
      (py_range_down (ChangeOfCharacter.candle_index choch_event - 1) (-1)).
End OrderBlockDetector.

(** ** Breakers *)

(** [candle.close < ob.lower_bound] for a bullish block, [candle.close >
    ob.upper_bound] for any other: the test of the breaker detector and of the
    zone validator. *)
Definition breaks_ob (ob : OrderBlock.t) (c : Candle.t) : bool :=
  if bool_decide (OrderBlock.direction ob = BULLISH)
  then flt (Candle.close c) (OrderBlock.lower_bound ob)
  else flt (OrderBlock.upper_bound ob) (Candle.close c).

Module BreakerDetector.

Definition detect_breaker_from_ob (sequence : CandleSequence.t) (ob : OrderBlock.t)
    : res (option BreakerBlock.t) :=
  let candles := CandleSequence.candles sequence in
  if py_len candles - 1 <=? OrderBlock.candle_index ob then Ok None
  else
    r ← first_index candles (breaks_ob ob) (py_range (OrderBlock.candle_index ob + 1) (py_len candles));
    match r with
    | None => Ok None
    | Some i =>
        candle ← py_index candles i;
        b ← BreakerBlock.create (OrderBlock.symbol ob) (OrderBlock.timeframe ob) (OrderBlock.upper_bound ob)
              (OrderBlock.lower_bound ob) (OrderBlock.timestamp ob) (OrderBlock.candle_index ob)
              (if bool_decide (OrderBlock.direction ob = BULLISH) then BEARISH else BULLISH)
              (OrderBlock.timestamp ob) (Candle.timestamp candle) false None;
        Ok (Some b)
    end.

Definition touches_breaker (breaker : BreakerBlock.t) (c : Candle.t) : bool :=
  if bool_decide (BreakerBlock.direction breaker = BULLISH)
  then fle (Candle.low c) (BreakerBlock.lower_bound breaker)
  else fle (BreakerBlock.upper_bound breaker) (Candle.high c).

Definition check_breaker_mitigation (breaker : BreakerBlock.t) (sequence : CandleSequence.t) : res bool :=
  let candles := CandleSequence.candles sequence in
  if py_len candles - 1 <=? BreakerBlock.candle_index breaker then Ok false
  else
    r ← first_index candles (touches_breaker breaker)
          (py_range (BreakerBlock.candle_index breaker + 1) (py_len candles));
    Ok (match r with Some _ => true | None => false end).
End BreakerDetector.

Module ZoneDetectorFacts.
Import StructureFacts.

Section Sequence.
Context (config : SMCConfig.t) `{SMCConfig.valid_config config} (q : CandleSequence.t) `{Analysable q}.
Abbreviation v := (CandleSequence.candles q).

(** ** Gaps *)

(** The open interval between the wicks of the outer candles. *)
Definition gap (c1 c3 : Candle.t) (lo hi : float) : Prop :=
  (fv (Candle.high c1) < fv (Candle.low c3) /\ lo = Candle.high c1 /\ hi = Candle.low c3) \/
  (fv (Candle.high c3) < fv (Candle.low c1) /\ lo = Candle.high c3 /\ hi = Candle.low c1).

Lemma imbalance_gap i j k c1 c2 c3 lo hi :
  v !! i = Some c1 -> v !! j = Some c2 -> v !! k = Some c3 ->
  CandleAnalyzer.detect_imbalance c1 c2 c3 = Some (lo, hi) <-> gap c1 c3 lo hi.
Proof.
  intros E1 E2 E3.
  assert (Hin : forall n c, v !! n = Some c -> In c v).
  { intros n c E. apply list_elem_of_In. by eapply list_elem_of_lookup_2. }
  destruct (CandleSequence.wf_uniform v an_sequence c1 c2) as [S12 _]; [by eapply Hin..|].
  destruct (CandleSequence.wf_uniform v an_sequence c2 c3) as [S23 _]; [by eapply Hin..|].
  destruct (PatternFacts.an_at q _ _ E1) as [[] _], (PatternFacts.an_at q _ _ E3) as [[] _].
  unfold CandleAnalyzer.detect_imbalance, gap. rewrite S12, S23, String.eqb_refl. cbn [negb orb].
  rewrite !flt_fv, !andb_diag by done.
  destruct (Z.ltb_spec (fv (Candle.high c1)) (fv (Candle.low c3)));
    [|destruct (Z.ltb_spec (fv (Candle.high c3)) (fv (Candle.low c1)))]; split.
  - intros [= <- <-]. by left.
  - intros [(_ & -> & ->)|(Hc & _)]; [done|lia].
  - intros [= <- <-]. by right.
  - intros [(Hc & _)|(_ & -> & ->)]; [lia|done].
  - done.
  - intros [(Hc & _)|(Hc & _)]; lia.
Qed.

Record fvg_of (i : Z) (e : FairValueGap.t) (c1 c2 c3 : Candle.t) (lo hi p : float) : Prop := {
  fo_first : v !! Z.to_nat i = Some c1;
  fo_second : v !! Z.to_nat (i + 1) = Some c2;
  fo_third : v !! Z.to_nat (i + 2) = Some c3;
  fo_gap : gap c1 c3 lo hi;
  fo_pips : calculate_pips lo hi (CandleSequence.symbol q) = Ok p;
  fo_wide : flt p (SMCConfig.fvg_min_gap_pips config) = false;
  fo_event : e = FairValueGap.mk (stored_symbol q) (CandleSequence.timeframe q) hi lo
    (Candle.timestamp c2) (i + 1) (if Candle.is_bullish c2 then BULLISH else BEARISH) false None fzero }.

Definition fvg_spec (i : Z) (r : option FairValueGap.t) : Prop :=
  forall e, r = Some e <-> exists c1 c2 c3 lo hi p, fvg_of i e c1 c2 c3 lo hi p.

Lemma gap_prices i k c1 c3 lo hi :
  v !! i = Some c1 -> v !! k = Some c3 -> gap c1 c3 lo hi ->
  (fin lo /\ 0 < fv lo) /\ (fin hi /\ 0 < fv hi) /\ fv lo < fv hi.
Proof.
  intros E1 E3 Hg. destruct (PatternFacts.an_at q _ _ E1) as [W1 F1], (PatternFacts.an_at q _ _ E3) as [W3 F3].
  destruct (PatternFacts.an_prices c1 W1 F1) as (_ & ? & ? & _).
  destruct (PatternFacts.an_prices c3 W3 F3) as (_ & ? & ? & _).
  destruct Hg as [(? & -> & ->)|(? & -> & ->)]; done.
Qed.

Lemma bounds_field u l : num u -> num l -> fv l < fv u -> check_bounds u l = Ok tt.
Proof.
  intros Nu Nl Hlt. apply ZoneFacts.check_bounds_intro. rewrite fle_fv by done. by apply Z.leb_gt.
Qed.

Lemma fvg_body_spec i :
  0 <= i < py_len v - 2 -> yields (FVGDetector.fvg_body config q i) (fvg_spec i).
Proof.
  intros Hi. unfold FVGDetector.fvg_body.
  destruct (py_index_in_range v i) as (c1 & -> & E1); [lia|].
  destruct (py_index_in_range v (i + 1)) as (c2 & -> & E2); [lia|].
  destruct (py_index_in_range v (i + 2)) as (c3 & X3 & E3); [lia|]. rewrite X3. cbn [mbind res_bind].
  pose proof (fun lo hi => imbalance_gap _ _ _ c1 c2 c3 lo hi E1 E2 E3) as Hg.
  destruct (CandleAnalyzer.detect_imbalance c1 c2 c3) as [[lo hi]|] eqn:Ei.
  2:{ apply yields_ret. intros e. split; [done|]. intros (d1 & d2 & d3 & lo & hi & p & []). simplify_eq.
      by apply Hg in fo_gap0. }
  pose proof (proj1 (Hg lo hi) eq_refl) as Gap.
  destruct (gap_prices _ _ _ _ _ _ E1 E3 Gap) as ([Fl Pl] & [Fh Ph] & Hlt).
  destruct (PatternFacts.pips_yields lo hi (CandleSequence.symbol q)) as (p & Ep & Np & Pp); [done|done|lia|lia|].
  rewrite Ep. cbn [mbind res_bind].
  assert (Hu : forall e d1 d2 d3 lo' hi' p', fvg_of i e d1 d2 d3 lo' hi' p' ->
    d2 = c2 /\ lo' = lo /\ hi' = hi /\ p' = p).
  { intros e d1 d2 d3 lo' hi' p' []. simplify_eq. apply Hg in fo_gap0 as [= -> ->].
    repeat split; congruence. }
  destruct (flt p _) eqn:Ew.
  { apply yields_ret. intros e. split; [done|]. intros (d1 & d2 & d3 & lo' & hi' & p' & Hf).
    destruct (Hu _ _ _ _ _ _ _ Hf) as (-> & -> & -> & ->). destruct Hf. congruence. }
  unfold FairValueGap.create. rewrite symbol_field, !price_field, index_field by (done || lia).
  change (field_0_100 fzero) with (Ok fzero). cbn [mbind res_bind].
  rewrite bounds_field by auto with etradie. cbn [mbind res_bind]. apply yields_ret. intros e. split.
  - intros [= <-]. by exists c1, c2, c3, lo, hi, p.
  - intros (d1 & d2 & d3 & lo' & hi' & p' & Hf). destruct (Hu _ _ _ _ _ _ _ Hf) as (-> & -> & -> & ->).
    destruct Hf. by simplify_eq.
Qed.

Lemma detect_fvgs_spec :
  yields (FVGDetector.detect_fvgs config q) (fun gaps => exists f,
    gaps = omap f (py_range 0 (py_len v - 2)) /\ forall i, 0 <= i < py_len v - 2 -> fvg_spec i (f i)).
Proof.
  eapply yields_weaken; [apply (collect_spec _ fvg_spec)|].
  - intros i Hi. apply elem_of_py_range in Hi. by apply fvg_body_spec.
  - intros gaps (f & -> & Hf). exists f. split; [done|]. intros i Hi. apply Hf. by apply elem_of_py_range.
Qed.

(** The third candle of a gap touches one of its bounds. *)
Lemma fill_at_third i e c1 c2 c3 lo hi p :
  0 <= i -> fvg_of i e c1 c2 c3 lo hi p -> exists r, FVGDetector.fill_body e q (i + 2) = Ok (Some r).
Proof.
  intros Hi0 [E1 E2 E3 Hg _ _ ->]. unfold FVGDetector.fill_body.
  rewrite (proj2 (py_index_lookup v (i + 2) c3 ltac:(lia)) E3). cbn [mbind res_bind].
  cbn [FairValueGap.lower_bound FairValueGap.upper_bound].
  destruct (gap_prices _ _ _ _ _ _ E1 E3 Hg) as ([Fl Pl] & [Fh Ph] & Hlt).
  destruct (PatternFacts.an_at q _ _ E3) as [W3 F3].
  destruct (PatternFacts.an_prices c3 W3 F3) as (_ & [Fh3 _] & [Fl3 _] & _).
  assert (Hfill : forall a b, exists r, FVGDetector.fill_of a b (fsub hi lo) = Ok r).
  { intros a b. unfold FVGDetector.fill_of, fdiv. rewrite feq_fv by auto using fsub_num with etradie.
    pose proof (fsub_pos hi lo Fh Fl Hlt). rewrite fv_fzero, (proj2 (Z.eqb_neq _ _)) by lia. by eexists. }
  unfold FairValueGap.range_size. cbn [FairValueGap.lower_bound FairValueGap.upper_bound].
  destruct (fle (Candle.low c3) lo && fle hi (Candle.high c3)); [by eexists|].
  destruct Hg as [(_ & El & Eh)|(_ & El & Eh)].
  - replace (fle lo (Candle.low c3) && fle (Candle.low c3) hi) with true.
    + destruct (Hfill (Candle.high c3) lo) as [r ->]. by eexists.
    + symmetry. rewrite !fle_fv by auto with etradie. rewrite andb_true_iff, !Z.leb_le, Eh in *. lia.
  - destruct (fle lo (Candle.low c3) && fle (Candle.low c3) hi).
    { destruct (Hfill (Candle.high c3) lo) as [r ->]. by eexists. }
    replace (fle lo (Candle.high c3) && fle (Candle.high c3) hi) with true.
    + destruct (Hfill hi (Candle.low c3)) as [r ->]. by eexists.
    + symmetry. rewrite !fle_fv by auto with etradie. rewrite andb_true_iff, !Z.leb_le, El in *. lia.
Qed.

(** ** Order blocks *)

Section OrderBlocks.
Context (bullish : bool) (b : BreakInMarketStructure.t).
Abbreviation price := (BreakInMarketStructure.breakout_price b).

(** The block's displacement: from its far edge to the breakout close. *)
Definition ob_pips (c : Candle.t) : res float :=
  if bullish then calculate_pips (Candle.low c) price (CandleSequence.symbol q)
  else calculate_pips price (Candle.high c) (CandleSequence.symbol q).

(** A candle that can sponsor the break, with its displacement. *)
Definition qualifies (c : Candle.t) : option float :=
  if negb (OrderBlockDetector.opposes bullish c) then None
  else match calculate_body_percentage (Candle.open c) (Candle.close c) (Candle.high c) (Candle.low c), ob_pips c with
  | Ok p, Ok d => if flt p (SMCConfig.ob_body_percentage_threshold config) then None
                  else if flt d (SMCConfig.min_displacement_pips config) then None else Some d
  | _, _ => None
  end.
Definition qualifies_at (i : Z) : option float := v !! Z.to_nat i ≫= qualifies.

Definition block (i : Z) (c : Candle.t) (d : float) : OrderBlock.t :=
  OrderBlock.mk (stored_symbol q) (CandleSequence.timeframe q) (Candle.high c) (Candle.low c)
    (Candle.timestamp c) i (direction_of bullish) d false false None.

Hypothesis price_ok : fin price /\ 0 < fv price.

Lemma ob_pips_yields c : Candle.wf c -> Candle.finite c -> yields (ob_pips c) (fun d => num d /\ 0 <= fv d).
Proof.
  intros Hw Hf. destruct (PatternFacts.an_prices c Hw Hf) as (_ & [Fh Ph] & [Fl Pl] & _), price_ok as [Fb Pb].
  unfold ob_pips. destruct bullish; apply PatternFacts.pips_yields; done || lia.
Qed.

(** A candle with a body has a range. *)
Lemma opposing_range c : Candle.wf c -> OrderBlockDetector.opposes bullish c = true ->
  fv (Candle.low c) < fv (Candle.high c).
Proof.
  intros [] Ho. unfold OrderBlockDetector.opposes, Candle.is_bearish, Candle.is_bullish in Ho.
  destruct bullish; rewrite flt_fv in Ho by done; zbool; lia.
Qed.

Lemma block_create i c d :
  0 <= i -> Candle.wf c -> Candle.finite c -> fv (Candle.low c) < fv (Candle.high c) -> num d -> 0 <= fv d ->
  OrderBlock.create (CandleSequence.symbol q) (CandleSequence.timeframe q) (Candle.high c) (Candle.low c)
    (Candle.timestamp c) i (direction_of bullish) d false false None = Ok (block i c d).
Proof.
  intros Hi Hw Hf Hlt Nd Hd. destruct (PatternFacts.an_prices c Hw Hf) as (_ & [Fh Ph] & [Fl Pl] & _).
  unfold OrderBlock.create. rewrite symbol_field, !price_field, index_field, pips_field by done.
  cbn [mbind res_bind]. by rewrite bounds_field by auto with etradie.
Qed.

Lemma ob_body_pure i :
  0 <= i < py_len v ->
  OrderBlockDetector.ob_body config bullish q b i =
    Ok (c ← v !! Z.to_nat i; d ← qualifies c; Some (block i c d)).
Proof.
  intros Hi. unfold OrderBlockDetector.ob_body.
  destruct (py_index_in_range v i) as (c & -> & Ec); [lia|]. rewrite Ec. cbn [mbind res_bind option_bind].
  destruct (PatternFacts.an_at q _ _ Ec) as [Hw Hf]. unfold qualifies.
  destruct (OrderBlockDetector.opposes bullish c) eqn:Eo; cbn [negb]; [|done].
  destruct (PatternFacts.body_percentage_yields c Hw Hf) as (p & -> & _). cbn [mbind res_bind].
  destruct (ob_pips_yields c Hw Hf) as (d & Ed & Nd & Pd). rewrite Ed.
  destruct (flt p _); [done|]. unfold ob_pips in Ed. rewrite Ed. cbn [mbind res_bind].
  destruct (flt d _); [done|].
  rewrite block_create by (done || lia || by apply opposing_range). done.
Qed.

(** The search runs back from the break and takes the nearest candle that
    qualifies. *)
Lemma detect_ob_spec :
  BreakInMarketStructure.direction b = direction_of bullish ->
  BreakInMarketStructure.candle_index b <= py_len v ->
  yields (OrderBlockDetector.detect_ob config bullish q b) (fun r => forall ob, r = Some ob <->
    exists i c d, 0 <= i < BreakInMarketStructure.candle_index b /\ v !! Z.to_nat i = Some c /\
      qualifies c = Some d /\ ob = block i c d /\
      forall k, i < k < BreakInMarketStructure.candle_index b -> qualifies_at k = None).
Proof.
  intros Hd Hn. unfold OrderBlockDetector.detect_ob. rewrite bool_decide_true by done. cbn [negb].
  destruct (Z.ltb_spec (BreakInMarketStructure.candle_index b) 1).
  { apply yields_ret. intros ob. split; [done|]. intros (i & c & d & Hi & _). lia. }
  rewrite (search_pure _ (fun i => c ← v !! Z.to_nat i; d ← qualifies c; Some (block i c d))).
  2:{ intros i Hi. apply elem_of_py_range_down in Hi. apply ob_body_pure. lia. }
  apply yields_ret. intros ob. rewrite find_map_range_down. split.
  - intros (i & Hi & E & Hk). destruct (v !! Z.to_nat i) as [c|] eqn:Ec; [|done]. simpl in E.
    destruct (qualifies c) as [d|] eqn:Eq; [|done]. simpl in E. injection E as <-.
    exists i, c, d. repeat (split; [done||lia|]). intros k Hk'. specialize (Hk k ltac:(lia)).
    unfold qualifies_at. destruct (v !! Z.to_nat k) as [c'|]; [|done]. simpl in Hk |- *.
    by destruct (qualifies c').
  - intros (i & c & d & Hi & Ec & Eq & -> & Hk). exists i. split; [lia|]. rewrite Ec. simpl. rewrite Eq. simpl.
    split; [done|]. intros k Hk'. specialize (Hk k ltac:(lia)). unfold qualifies_at in Hk.
    destruct (v !! Z.to_nat k) as [c'|]; [|done]. simpl in Hk |- *. by rewrite Hk.
Qed.
End OrderBlocks.
End Sequence.

(** Fair value gaps are found exactly.  On an analysable sequence the
    detection returns, and it reports at each position exactly the three-candle
    gaps: the wicks of the first and third candle do not meet, and the gap between
    them measures at least the configured pips.  The gap carries the bounds of the
    open interval, the middle candle's time, and the middle candle's direction. *)
Theorem fvg_exact (config : SMCConfig.t) (q : CandleSequence.t) :
  SMCConfig.valid_config config -> Analysable q ->
  exists f, FVGDetector.detect_fvgs config q =
      Ok (omap f (py_range 0 (py_len (CandleSequence.candles q) - 2))) /\
    forall i e, 0 <= i < py_len (CandleSequence.candles q) - 2 ->
      f i = Some e <-> exists c1 c2 c3 lo hi p, fvg_of config q i e c1 c2 c3 lo hi p.
Proof.
  intros V An. destruct (detect_fvgs_spec config q) as (gaps & E & f & -> & Hf).
  exists f. split; [exact E|]. intros i e Hi. by apply Hf.
Qed.

Lemma fvg_exact_witness :
  (exists f, FVGDetector.detect_fvgs SMCConfig.default sample_impulse = Ok (omap f (py_range 0 2))) /\
  map FairValueGap.candle_index <$> FVGDetector.detect_fvgs SMCConfig.default sample_impulse = Ok [1; 2].
Proof.
  split; [|vm_compute; reflexivity].
  destruct (fvg_exact SMCConfig.default sample_impulse SMCConfig.default_valid sample_impulse_ok) as (f & E & _).
  exists f. exact E.
Defined.

(** Every gap that is detected counts as filled at once: the fill check starts at
    the gap's own third candle, which touches a bound of the gap by
    construction. *)
Lemma detected_gap_is_filled config q i e c1 c2 c3 lo hi p :
  Analysable q -> 0 <= i -> fvg_of config q i e c1 c2 c3 lo hi p ->
  exists r, FVGDetector.check_fvg_fill e q = Ok (true, Some r).
Proof.
  intros An Hi Hf. destruct (fill_at_third config q i e c1 c2 c3 lo hi p Hi Hf) as [r Er].
  pose proof Hf as [E1 E2 E3 _ _ _ ->]. unfold FVGDetector.check_fvg_fill.
  cbn [FairValueGap.candle_index]. apply lookup_lt_Some in E3.
  rewrite (proj2 (Z.leb_gt _ _)) by (unfold py_len; lia).
  replace (i + 1 + 1) with (i + 2) by lia. rewrite py_range_cons by (unfold py_len; lia).
  cbn [search]. rewrite Er. cbn [mbind res_bind]. by exists r.
Qed.

(** A gap up whose middle candle closes below its open is recorded as a bearish
    gap. *)
Definition sample_gap_up : CandleSequence.t :=
  CandleSequence.mk "EURUSD" H1
    [PatternFacts.sample_bar 0 10800 10810 10790 10805; PatternFacts.sample_bar 1 10850 10852 10808 10845;
     PatternFacts.sample_bar 2 10845 10870 10840 10860].

Lemma gap_up_recorded_bearish :
  map FairValueGap.direction <$> FVGDetector.detect_fvgs SMCConfig.default sample_gap_up = Ok [BEARISH].
Proof. vm_compute. reflexivity. Qed.

(** C11: the order block of a break is the nearest candle before it that could
    have sponsored it.  For a break inside an analysable sequence both detectors
    return; the block found, if any, is the candle of opposite direction closest
    before the break whose body and displacement reach the configured thresholds,
    no candle between the two qualifies, and none is found exactly when no earlier
    candle qualifies; a detector ignores breaks of the other direction. *)
Theorem order_block_exact (config : SMCConfig.t) (q : CandleSequence.t) (b : BreakInMarketStructure.t)
    (bullish : bool) :
  SMCConfig.valid_config config -> Analysable q ->
  fin (BreakInMarketStructure.breakout_price b) /\ 0 < fv (BreakInMarketStructure.breakout_price b) ->
  BreakInMarketStructure.direction b = direction_of bullish ->
  BreakInMarketStructure.candle_index b <= py_len (CandleSequence.candles q) ->
  (exists r, (if bullish then OrderBlockDetector.detect_bullish_ob config q b
              else OrderBlockDetector.detect_bearish_ob config q b) = Ok r /\
     forall ob, r = Some ob <->
       exists i c d, 0 <= i < BreakInMarketStructure.candle_index b /\
         CandleSequence.candles q !! Z.to_nat i = Some c /\
         qualifies config q bullish b c = Some d /\ ob = block q bullish i c d /\
         forall k, i < k < BreakInMarketStructure.candle_index b -> qualifies_at config q bullish b k = None) /\
  (if bullish then OrderBlockDetector.detect_bearish_ob config q b
   else OrderBlockDetector.detect_bullish_ob config q b) = Ok None.
Proof.
  intros V An Hp Hd Hn. split.
  - destruct (detect_ob_spec config q bullish b Hp Hd Hn) as (r & E & Hob).
    exists r. split; [by destruct bullish|exact Hob].
  - unfold OrderBlockDetector.detect_bullish_ob, OrderBlockDetector.detect_bearish_ob, OrderBlockDetector.detect_ob.
    rewrite Hd. by destruct bullish.
Qed.

Definition sample_bms : BreakInMarketStructure.t :=
  BreakInMarketStructure.mk "EURUSD" H1 (mk_datetime (2 * us_per_hour) (Some 0)) BULLISH (lit 10850 4)
    (mk_datetime 0 (Some 0)) (lit 10905 4) 1 (of_Z 55) true.

Lemma order_block_exact_witness :
  (exists r, OrderBlockDetector.detect_bullish_ob SMCConfig.default sample_impulse sample_bms = Ok r) /\
  fmap (M := option) OrderBlock.candle_index <$>
    OrderBlockDetector.detect_bullish_ob SMCConfig.default sample_impulse sample_bms = Ok (Some 0).
Proof.
  split; [|vm_compute; reflexivity].
  destruct (order_block_exact SMCConfig.default sample_impulse sample_bms true SMCConfig.default_valid
    sample_impulse_ok) as [(r & E & _) _].
  - split; [split; reflexivity|]. vm_compute. reflexivity.
  - reflexivity.
  - vm_compute. congruence.
  - exists r. exact E.
Defined.
End ZoneDetectorFacts.
