(* ===== verification/SMCValidators.v ===== *)
(** * Validators: [engine/ta/smc/validators/zone/validator.py] and
    [ltf/confirmation.py]

    The rules an order block must pass before a candidate is built on it, the
    context attached to candidates, and the seven confirmations of an entry. *)

From Stdlib Require Import ZArith Lia Bool String Sorting.Sorted.
From stdpp Require Import base list strings.
From S2P Require Import Prelude Loops PyFloat FloatRound PyRound PyText Constants PriceMath Candles Swings Sessions Fibonacci Liquidity ZoneModels StructureModels SMCConfig CandlePatterns SMCStructure SMCZones.

#[local] Open Scope string_scope.
#[local] Open Scope Z_scope.
#[local] Open Scope list_scope.

(** ** Zone validator *)

Module ZoneValidator.

Definition _ranges_overlap (a_lower a_upper b_lower b_upper : float) : bool :=
  fle a_lower b_upper && fle b_lower a_upper.

(** The test of one gap. *)
Definition associated (config : SMCConfig.t) (ob : OrderBlock.t) (fvg : FairValueGap.t) : bool :=
  bool_decide (FairValueGap.direction fvg = OrderBlock.direction ob)
  && negb (SMCConfig.fvg_max_candle_distance config
           <? Z.abs (FairValueGap.candle_index fvg - OrderBlock.candle_index ob))
  && (_ranges_overlap (OrderBlock.lower_bound ob) (OrderBlock.upper_bound ob)
        (FairValueGap.lower_bound fvg) (FairValueGap.upper_bound fvg)
      || (if bool_decide (OrderBlock.direction ob = BULLISH)
          then fle (OrderBlock.lower_bound ob) (FairValueGap.lower_bound fvg)
          else fle (FairValueGap.upper_bound fvg) (OrderBlock.upper_bound ob))).

Definition get_associated_fvg (config : SMCConfig.t) (ob : OrderBlock.t) (fvgs : list FairValueGap.t)
    : option FairValueGap.t := List.find (associated config ob) fvgs.

Definition validate_ob_has_fvg (config : SMCConfig.t) (ob : OrderBlock.t) (fvgs : list FairValueGap.t) : bool :=
  if negb (SMCConfig.require_fvg_with_ob config) then true
  else match get_associated_fvg config ob fvgs with Some _ => true | None => false end.

Definition sweep_near (config : SMCConfig.t) (ob : OrderBlock.t) (sweep : option LiquiditySweep.t) : bool :=
  match sweep with
  | None => false
  | Some s => Z.abs (LiquiditySweep.candle_index s - OrderBlock.candle_index ob)
              <=? SMCConfig.fvg_max_candle_distance config
  end.

Definition inducement_near (config : SMCConfig.t) (ob : OrderBlock.t) (e : InducementEvent.t) : bool :=
  match InducementEvent.cleared e, InducementEvent.cleared_timestamp e with
  | true, Some ts =>
      dt_leb ts (OrderBlock.timestamp ob)
      || (Z.abs (InducementEvent.candle_index e - OrderBlock.candle_index ob)
          <=? SMCConfig.fvg_max_candle_distance config)
  | _, _ => false
  end.

Definition validate_ob_has_liquidity (config : SMCConfig.t) (ob : OrderBlock.t)
    (liquidity_sweeps : list (option LiquiditySweep.t)) (inducement_events : list InducementEvent.t) : bool :=
  if existsb (sweep_near config ob) liquidity_sweeps then true
  else if existsb (inducement_near config ob) inducement_events then true
  else true.

Definition score_ob_fib_confluence (config : SMCConfig.t) (ob : OrderBlock.t)
    (retracement : option FibonacciRetracement.t) : res Z :=
  match retracement with
  | None => Ok 0
  | Some r =>
      let midpoint := OrderBlock.midpoint ob in
      ote ← FibonacciAnalyzer.is_at_ote midpoint r (SMCConfig.fibonacci_tolerance_pips config);
      if ote : bool then Ok 3
      else
        zone ← FibonacciAnalyzer.get_zone_for_price midpoint r;
        Ok (if bool_decide (OrderBlock.direction ob = BULLISH) && bool_decide (zone = DISCOUNT) then 2
            else if bool_decide (OrderBlock.direction ob = BEARISH) && bool_decide (zone = PREMIUM) then 2
            else if bool_decide (zone = EQUILIBRIUM) then 1
            else 0)
  end.

Definition validate_ob_at_premium_discount (ob : OrderBlock.t)
    (retracement : option FibonacciRetracement.t) : bool := true.

(** The geometric test on a cleared inducement. *)
Definition relevant_inducement (ob : OrderBlock.t) (direction : Direction)
    (bms_breakout_price : option float) (idm : InducementEvent.t) : bool :=
  let level := InducementEvent.inducement_level idm in
  InducementEvent.cleared idm
  && bool_decide (InducementEvent.direction idm = direction)
  && (if bool_decide (direction = BULLISH)
      then negb (flt level (OrderBlock.lower_bound ob))
           && match bms_breakout_price with Some p => negb (flt p level) | None => true end
      else negb (flt (OrderBlock.upper_bound ob) level)
           && match bms_breakout_price with Some p => negb (flt level p) | None => true end).

Definition cleared_ts (idm : InducementEvent.t) : datetime :=
  match InducementEvent.cleared_timestamp idm with
  | Some ts => ts
  | None => InducementEvent.inducement_timestamp idm
  end.

Definition select_relevant_inducement (ob : OrderBlock.t) (direction : Direction)
    (inducement_events : list InducementEvent.t) (bms_breakout_price : option float)
    : option InducementEvent.t :=
  py_max_opt (fun a b => dt_ltb (cleared_ts b) (cleared_ts a))
    (List.filter (relevant_inducement ob direction bms_breakout_price) inducement_events).

Record SweepContext := mk_sweep_context {
  sc_liquidity_type : LiquidityType; sc_sweep_pips : float; sc_closed_back_inside : bool;
  sc_is_major_sweep : bool }.

Definition build_sweep_context (sweep : option LiquiditySweep.t) : res (option SweepContext) :=
  match sweep with
  | None => Ok None
  | Some s =>
      p ← py_round (LiquiditySweep.sweep_pips s) 2;
      Ok (Some (mk_sweep_context (LiquiditySweep.liquidity_type s) p (LiquiditySweep.closed_back_inside s)
                  (LiquiditySweep.is_major_sweep s)))
  end.

Record FibContext := mk_fib_context {
  fc_percentage : float; fc_zone : PriceZone; fc_is_in_ote : bool; fc_nearest_level_name : string }.

(** [str(value)] of the values of [FIBONACCI_VALUES]. *)
Definition level_name (level : FibonacciLevel) : string :=
  match level with
  | LEVEL_0 => "0.0" | LEVEL_236 => "0.236" | LEVEL_382 => "0.382" | LEVEL_50 => "0.5"
  | LEVEL_618 => "0.618" | LEVEL_705 => "0.705" | LEVEL_786 => "0.786" | LEVEL_79 => "0.79"
  | LEVEL_100 => "1.0"
  end.

Definition build_fib_context (config : SMCConfig.t) (price : float)
    (retracement : option FibonacciRetracement.t) : res (option FibContext) :=
  match retracement with
  | None => Ok None
  | Some r =>
      let high := FibonacciRetracement.swing_high r in
      let low := FibonacciRetracement.swing_low r in
      let range_size := fsub high low in
      if fle range_size fzero then Ok None
      else if flt price low || flt high price then Ok None
      else
        percentage ← (if FibonacciRetracement.is_bullish r then fdiv (fsub high price) range_size
                      else fdiv (fsub price low) range_size);
        zone ← FibonacciAnalyzer.get_zone_for_price price r;
        is_in_ote ← FibonacciAnalyzer.is_at_ote price r (SMCConfig.fibonacci_tolerance_pips config);
        nearest_level ← py_max (fun a b => flt (fabs (fsub percentage (snd a))) (fabs (fsub percentage (snd b))))
                          FIBONACCI_VALUES;
        percentage_rounded ← py_round percentage 4;
        Ok (Some (mk_fib_context percentage_rounded zone is_in_ote (level_name (fst nearest_level))))
  end.

Definition validate_zone_freshness (ob : OrderBlock.t) (sequence : CandleSequence.t) : res bool :=
  let candles := CandleSequence.candles sequence in
  if py_len candles - 1 <=? OrderBlock.candle_index ob then Ok true
  else
    r ← first_index candles (breaks_ob ob) (py_range (OrderBlock.candle_index ob + 1) (py_len candles));
    Ok (match r with Some _ => false | None => true end).

Definition overlap_body (ob other_ob : OrderBlock.t) : res (option unit) :=
  if dt_eqb (OrderBlock.timestamp other_ob) (OrderBlock.timestamp ob) then Ok None
  else
    a ← OrderBlock.to_zone ob;
    b ← OrderBlock.to_zone other_ob;
    Ok (if Zone.overlaps_with a b then Some tt else None).

Definition validate_zone_no_overlap (ob : OrderBlock.t) (other_obs : list OrderBlock.t) : res bool :=
  r ← search (overlap_body ob) other_obs;
  Ok (match r with Some _ => false | None => true end).

Definition validate_all_ob_rules (config : SMCConfig.t) (ob : OrderBlock.t) (fvgs : list FairValueGap.t)
    (liquidity_sweeps : list (option LiquiditySweep.t)) (inducement_events : list InducementEvent.t)
    (retracement : option FibonacciRetracement.t) (sequence : CandleSequence.t) (other_obs : list OrderBlock.t)
    : res bool :=
  let has_fvg := validate_ob_has_fvg config ob fvgs in
  let has_liquidity := validate_ob_has_liquidity config ob liquidity_sweeps inducement_events in
  let at_premium_discount := validate_ob_at_premium_discount ob retracement in
  is_fresh ← validate_zone_freshness ob sequence;
  fib_score ← score_ob_fib_confluence config ob retracement;
  Ok (has_fvg && has_liquidity && at_premium_discount && is_fresh).
End ZoneValidator.

(** ** Confirmations on the lower timeframe *)

Module LTFConfirmationValidator.

Definition validate_liquidity_taken (sweep : option LiquiditySweep.t) : bool :=
  match sweep with None => false | Some s => LiquiditySweep.closed_back_inside s end.

Definition validate_choch_present (choch : option ChangeOfCharacter.t) (sweep : option LiquiditySweep.t) : bool :=
  match choch, sweep with
  | None, _ => false
  | Some _, None => true
  | Some c, Some s => LiquiditySweep.candle_index s <=? ChangeOfCharacter.candle_index c
  end.

Definition validate_bms_confirmed (bms : option BreakInMarketStructure.t) (choch : option ChangeOfCharacter.t)
    : bool :=
  match bms, choch with
  | Some b, Some c =>
      (ChangeOfCharacter.candle_index c <=? BreakInMarketStructure.candle_index b)
      && bool_decide (BreakInMarketStructure.direction b = ChangeOfCharacter.direction c)
  | _, _ => false
  end.

Definition validate_rto_to_ob (ob : option OrderBlock.t) (bms : option BreakInMarketStructure.t)
    (current_price : float) : bool :=
  match ob, bms with
  | Some o, Some b =>
      if dt_leb (OrderBlock.timestamp o) (BreakInMarketStructure.timestamp b) then false
      else fle (OrderBlock.lower_bound o) current_price && fle current_price (OrderBlock.upper_bound o)
  | _, _ => false
  end.

Definition validate_session_timing (config : SMCConfig.t) (session_analyzer : SessionAnalyzer.t)
    (sequence : CandleSequence.t) : res bool :=
  if negb (SMCConfig.require_session_timing config) then Ok true
  else
    latest_candle ← py_index (CandleSequence.candles sequence) (-1);
    session_state ← SessionAnalyzer.identify_session session_analyzer (Candle.timestamp latest_candle);
    Ok (bool_decide (SessionState.active_session session_state ∈ [LONDON; NEW_YORK; OVERLAP_LONDON_NY])).

Definition validate_inducement_cleared (inducement_events : list InducementEvent.t)
    (ob : option OrderBlock.t) : bool :=
  match ob with
  | None => false
  | Some o =>
      let relevant_inducements :=
        List.filter (fun idm => dt_ltb (InducementEvent.timestamp idm) (OrderBlock.timestamp o)
                                && bool_decide (InducementEvent.direction idm = OrderBlock.direction o))
          inducement_events in
      match relevant_inducements with
      | [] => true
      | _ => forallb InducementEvent.cleared relevant_inducements
      end
  end.

Definition validate_ltf_fvg_present (ltf_fvgs : list FairValueGap.t) (ob : option OrderBlock.t) : bool :=
  match ob with
  | None => false
  | Some o =>
      match ltf_fvgs with
      | [] => false
      | _ => existsb (fun f => bool_decide (FairValueGap.direction f = OrderBlock.direction o)) ltf_fvgs
      end
  end.

Definition validate_all_ltf_confirmations (config : SMCConfig.t) (session_analyzer : SessionAnalyzer.t)
    (sweep : option LiquiditySweep.t) (choch : option ChangeOfCharacter.t)
    (bms : option BreakInMarketStructure.t) (ob : option OrderBlock.t)
    (inducement_events : list InducementEvent.t) (sequence : CandleSequence.t) (current_price : float)
    (ltf_fvgs : list FairValueGap.t) : res bool :=
  let liquidity_ok := validate_liquidity_taken sweep in
  let choch_ok := validate_choch_present choch sweep in
  let bms_ok := validate_bms_confirmed bms choch in
  let rto_ok := validate_rto_to_ob ob bms current_price in
  session_ok ← validate_session_timing config session_analyzer sequence;
  let inducement_ok := validate_inducement_cleared inducement_events ob in
  let fvg_ok := validate_ltf_fvg_present ltf_fvgs ob in
  Ok (liquidity_ok && choch_ok && bms_ok && rto_ok && session_ok && inducement_ok && fvg_ok).
End LTFConfirmationValidator.

Module ValidatorFacts.
Import StructureFacts ZoneDetectorFacts.

Section Freshness.
Context (q : CandleSequence.t) (ob : OrderBlock.t).
Abbreviation v := (CandleSequence.candles q).

(** A candle after the block closes beyond its far edge. *)
Definition broken_at (j : Z) : bool := holds_at v (breaks_ob ob) j.

(** Both scans look for the first such candle. *)
Lemma break_search :
  0 <= OrderBlock.candle_index ob ->
  exists r, first_index v (breaks_ob ob) (py_range (OrderBlock.candle_index ob + 1) (py_len v)) = Ok r /\
    match r with
    | Some j => OrderBlock.candle_index ob < j < py_len v /\ broken_at j = true /\
        forall k, OrderBlock.candle_index ob < k < j -> broken_at k = false
    | None => forall j, OrderBlock.candle_index ob < j < py_len v -> broken_at j = false
    end.
Proof.
  intros Hi. rewrite first_index_spec by lia. eexists. split; [done|]. destruct (find_map _ _) as [j|] eqn:E.
  - apply first_hit_range in E as (Hj & Hb & Hn). repeat (split; [done||lia|]). intros k Hk. apply Hn. lia.
  - rewrite first_miss_range in E. intros j Hj. apply E. lia.
Qed.

Lemma freshness_spec :
  0 <= OrderBlock.candle_index ob ->
  exists b, ZoneValidator.validate_zone_freshness ob q = Ok b /\
    (b = true <-> forall j, OrderBlock.candle_index ob < j < py_len v -> broken_at j = false).
Proof.
  intros Hi. unfold ZoneValidator.validate_zone_freshness. cbv zeta.
  destruct (Z.leb_spec (py_len v - 1) (OrderBlock.candle_index ob)).
  { exists true. split; [done|]. split; [|done]. lia. }
  destruct (break_search Hi) as (r & -> & Hr). cbn [mbind res_bind]. eexists. split; [done|].
  destruct r as [j|]; split; [done| |done|done]. destruct Hr as (Hj & Hb & _). intros Hn.
  rewrite Hn in Hb by done. done.
Qed.

Hypothesis ob_ok : ZoneFacts.zone_ok ob.
Hypothesis ob_symbol : 3 <= str_len (str_strip (OrderBlock.symbol ob)) <= 30.

Lemma breaker_spec :
  exists r, BreakerDetector.detect_breaker_from_ob q ob = Ok r /\
    match r with
    | Some b => exists j c, OrderBlock.candle_index ob < j < py_len v /\ v !! Z.to_nat j = Some c /\
        broken_at j = true /\ (forall k, OrderBlock.candle_index ob < k < j -> broken_at k = false) /\
        BreakerBlock.broken_timestamp b = Candle.timestamp c /\
        BreakerBlock.upper_bound b = OrderBlock.upper_bound ob /\
        BreakerBlock.lower_bound b = OrderBlock.lower_bound ob /\
        BreakerBlock.direction b =
          (if bool_decide (OrderBlock.direction ob = BULLISH) then BEARISH else BULLISH)
    | None => forall j, OrderBlock.candle_index ob < j < py_len v -> broken_at j = false
    end.
Proof.
  destruct ob_ok as [Hu Hl Hb Hi]. cbn in Hu, Hl, Hb, Hi. unfold BreakerDetector.detect_breaker_from_ob. cbv zeta.
  destruct (Z.leb_spec (py_len v - 1) (OrderBlock.candle_index ob)); [exists None; split; [done|lia]|].
  destruct (break_search Hi) as (r & -> & Hr). cbn [mbind res_bind].
  destruct r as [j|]; [|by exists None]. destruct Hr as (Hj & Hbr & Hn).
  destruct (py_index_in_range v j) as (c & -> & Ec); [lia|]. cbn [mbind res_bind].
  unfold BreakerBlock.create. rewrite SwingFacts.symbol_3_30_intro, !field_gt0_intro, index_field by done.
  cbn [mbind res_bind]. rewrite ZoneFacts.check_bounds_intro by done. cbn [mbind res_bind].
  eexists. split; [done|]. exists j, c. repeat (split; [done|]). done.
Qed.
End Freshness.

(** A block is fresh exactly when it is not a breaker.  For every order block
    that satisfies its model's invariant, the validator's freshness test and the
    breaker detector, written separately, agree on every sequence: both return,
    the block is fresh if and only if no breaker is found, and that is the case if
    and only if no candle after the block's own closes beyond its far edge; a
    breaker keeps the bounds, flips the direction and carries the time of the
    first such close. *)
Theorem freshness_is_no_breaker (q : CandleSequence.t) (ob : OrderBlock.t) :
  ZoneFacts.zone_ok ob -> 3 <= str_len (str_strip (OrderBlock.symbol ob)) <= 30 ->
  exists fresh r, ZoneValidator.validate_zone_freshness ob q = Ok fresh /\
    BreakerDetector.detect_breaker_from_ob q ob = Ok r /\ (fresh = true <-> r = None) /\
    (fresh = true <-> forall j, OrderBlock.candle_index ob < j < py_len (CandleSequence.candles q) ->
       holds_at (CandleSequence.candles q) (breaks_ob ob) j = false) /\
    (forall b, r = Some b -> BreakerBlock.direction b <> OrderBlock.direction ob /\
       BreakerBlock.upper_bound b = OrderBlock.upper_bound ob /\
       BreakerBlock.lower_bound b = OrderBlock.lower_bound ob /\
       exists j c, CandleSequence.candles q !! Z.to_nat j = Some c /\
         BreakerBlock.broken_timestamp b = Candle.timestamp c /\ breaks_ob ob c = true).
Proof.
  intros Hok Hs. destruct (freshness_spec q ob) as (fresh & Ef & Hf); [by apply Hok|].
  destruct (breaker_spec q ob Hok Hs) as (r & Er & Hr).
  exists fresh, r. repeat (split; [done|]). destruct r as [b|].
  - destruct Hr as (j & c & Hj & Ec & Hb & _ & Hts & Hu & Hl & Hd). split; [|split; [done|]].
    + rewrite Hf. split; [|done]. intros Hn. rewrite Hn in Hb by done. done.
    + intros b' [= <-]. split; [|split; [done|split; [done|]]].
      * rewrite Hd. by destruct (OrderBlock.direction ob).
      * exists j, c. split; [done|]. split; [done|]. unfold broken_at, holds_at in Hb. by rewrite Ec in Hb.
  - split; [|split; [done|by intros b [=]]]. by rewrite Hf.
Qed.

Definition sample_ob : OrderBlock.t :=
  OrderBlock.mk "EURUSD" H1 (lit 10850 4) (lit 10790 4) (mk_datetime 0 (Some 0)) 0 BULLISH (of_Z 115)
    false false None.

Lemma freshness_is_no_breaker_witness :
  exists fresh, ZoneValidator.validate_zone_freshness sample_ob sample_impulse = Ok fresh /\ fresh = true.
Proof.
  destruct (freshness_is_no_breaker sample_impulse sample_ob) as (fresh & r & E & _).
  - constructor; vm_compute; congruence.
  - vm_compute. split; congruence.
  - exists fresh. split; [exact E|]. vm_compute in E. injection E as <-. reflexivity.
Defined.

(** What the rules for a tradeable block really test.  Whenever the Fibonacci
    score is defined, it lies between 0 and 3 and the rules return exactly the
    conjunction of the gap requirement (an associated gap, unless the requirement
    is switched off) and freshness; liquidity and the premium or discount position
    never reject a block. *)
Theorem ob_rules_effective (config : SMCConfig.t) (ob : OrderBlock.t) (fvgs : list FairValueGap.t)
    (sweeps : list (option LiquiditySweep.t)) (idms : list InducementEvent.t)
    (retracement : option FibonacciRetracement.t) (q : CandleSequence.t) (others : list OrderBlock.t) (score : Z) :
  0 <= OrderBlock.candle_index ob ->
  ZoneValidator.score_ob_fib_confluence config ob retracement = Ok score ->
  0 <= score <= 3 /\
  exists ok, ZoneValidator.validate_all_ob_rules config ob fvgs sweeps idms retracement q others = Ok ok /\
    (ok = true <->
     (SMCConfig.require_fvg_with_ob config = true -> exists f, In f fvgs /\ ZoneValidator.associated config ob f = true) /\
     forall j, OrderBlock.candle_index ob < j < py_len (CandleSequence.candles q) ->
       holds_at (CandleSequence.candles q) (breaks_ob ob) j = false).
Proof.
  intros Hi Hs. split.
  { unfold ZoneValidator.score_ob_fib_confluence in Hs. destruct retracement as [r|]; [|injection Hs as <-; lia].
    cbv zeta in Hs. inv_binds. destruct a; [injection Hs as <-; lia|]. inv_binds. subst score.
    repeat case_match; lia. }
  unfold ZoneValidator.validate_all_ob_rules. cbv zeta. destruct (freshness_spec q ob Hi) as (fresh & -> & Hf).
  cbn [mbind res_bind]. rewrite Hs. cbn [mbind res_bind]. eexists. split; [done|].
  replace (ZoneValidator.validate_ob_has_liquidity config ob sweeps idms) with true
    by (unfold ZoneValidator.validate_ob_has_liquidity; by repeat case_match).
  unfold ZoneValidator.validate_ob_at_premium_discount. rewrite !andb_true_r, andb_true_iff, Hf.
  apply and_iff_compat_r. unfold ZoneValidator.validate_ob_has_fvg, ZoneValidator.get_associated_fvg.
  destruct (SMCConfig.require_fvg_with_ob config); cbn [negb]; [|done].
  destruct (List.find _ fvgs) as [f|] eqn:Ef; split; [|done|done|].
  - intros _ _. exists f. by apply find_some in Ef.
  - intros Hx. destruct (Hx eq_refl) as (f & Hin & Ha). by rewrite (find_none _ _ Ef f Hin) in Ha.
Qed.

Lemma ob_rules_effective_witness :
  exists ok, ZoneValidator.validate_all_ob_rules SMCConfig.default sample_ob [] [] [] None sample_impulse [] = Ok ok /\
    ok = false.
Proof.
  destruct (ob_rules_effective SMCConfig.default sample_ob [] [] [] None sample_impulse [] 0) as [_ (ok & E & _)].
  - vm_compute. congruence.
  - reflexivity.
  - exists ok. split; [exact E|]. vm_compute in E. injection E as <-. reflexivity.
Defined.

(** An entry is never confirmed on the block of its own break.  Whatever the
    other evidence, when the order block was found from the very break it is
    confirmed with, the seven confirmations never hold together: the return to
    the block is only accepted for a block later than the break, and the block of
    a break always precedes it. *)
Theorem own_block_never_confirms (config : SMCConfig.t) (q : CandleSequence.t) (bullish : bool)
    {A : Type} `{SwingLevel A} (s : A) (b : BreakInMarketStructure.t) (ob : OrderBlock.t)
    (j : Z) (c k : Candle.t) (p d : float) (analyzer : SessionAnalyzer.t)
    (sweep : option LiquiditySweep.t) (choch : option ChangeOfCharacter.t) (idms : list InducementEvent.t)
    (sequence : CandleSequence.t) (price : float) (fvgs : list FairValueGap.t) :
  SMCConfig.valid_config config -> Analysable q -> level_ok s -> bms_of config bullish q s b j c k p d ->
  OrderBlockDetector.detect_ob config bullish q b = Ok (Some ob) ->
  LTFConfirmationValidator.validate_rto_to_ob (Some ob) (Some b) price = false /\
  LTFConfirmationValidator.validate_all_ltf_confirmations config analyzer sweep choch (Some b) (Some ob)
    idms sequence price fvgs <> Ok true.
Proof.
  intros V An Hs Hb Ho. pose proof Hb as [Hbr Ec _ _ _ Hh Ek ->].
  destruct (break_candle bullish q s j Hs Hbr) as (c' & _ & Ec' & Hw & Hf).
  assert (c' = c) as -> by congruence. destruct (PatternFacts.an_prices c Hw Hf) as (_ & _ & _ & Hp).
  pose proof (required_range config q d) as Hr. destruct Hbr as [Hj _].
  match type of Ho with OrderBlockDetector.detect_ob _ _ _ ?b = _ =>
    destruct (detect_ob_spec config q bullish b Hp eq_refl ltac:(cbn; lia)) as (r & Er & Hob) end.
  rewrite Ho in Er. injection Er as <-. destruct (proj1 (Hob ob) eq_refl) as (i & ci & di & Hi & Eci & _ & -> & _).
  cbn [BreakInMarketStructure.candle_index] in Hi. destruct Hs as [_ _ Hidx].
  assert (Hrto : LTFConfirmationValidator.validate_rto_to_ob (Some (block q bullish i ci di))
    (Some (BreakInMarketStructure.mk (stored_symbol q) (CandleSequence.timeframe q) (Candle.timestamp k)
       (direction_of bullish) (lv_price s) (lv_timestamp s) (Candle.close c) j d true)) price = false).
  { cbn. replace (dt_leb (Candle.timestamp ci) (Candle.timestamp k)) with true; [done|].
    symmetry. apply Z.leb_le. pose proof (CandleSequence.wf_sorted _ an_sequence) as Hsort.
    assert (CandleSequence.instant_of ci < CandleSequence.instant_of k); [|unfold CandleSequence.instant_of in *; lia].
    apply (sorted_lookup CandleSequence.instant_of _ (Z.to_nat i) (Z.to_nat (j + required config q d - 1)) ci k Hsort);
      [lia|done|done]. }
  split; [exact Hrto|]. unfold LTFConfirmationValidator.validate_all_ltf_confirmations. rewrite Hrto. cbv zeta.
  destruct (LTFConfirmationValidator.validate_session_timing config analyzer sequence); cbn [mbind res_bind]; [|done].
  by rewrite !andb_false_r.
Qed.

(** The break of the sample impulse and its block. *)
Definition sample_pips : float :=
  match calculate_pips (lit 10850 4) (lit 10905 4) "EURUSD" with Ok p => p | Raise _ => fzero end.
Definition sample_block : OrderBlock.t :=
  match OrderBlockDetector.detect_bullish_ob SMCConfig.default sample_impulse sample_bms with
  | Ok (Some ob) => ob
  | _ => sample_ob
  end.

Lemma sample_bms_of :
  bms_of SMCConfig.default true sample_impulse sample_high sample_bms 1
    (PatternFacts.sample_bar 1 10800 10910 10799 10905) (PatternFacts.sample_bar 2 10905 10960 10900 10955)
    sample_pips (of_Z 55).
Proof.
  assert (Hr : required SMCConfig.default sample_impulse (of_Z 55) = 2) by (vm_compute; reflexivity).
  constructor; try (vm_compute; reflexivity).
  - split; [vm_compute; split; reflexivity|]. split; [vm_compute; reflexivity|].
    change (lv_index sample_high) with 0. intros k Hk. lia.
  - rewrite Hr. split; [vm_compute; congruence|]. intros k Hk.
    assert (k = 1 \/ k = 2) as [->| ->] by lia; vm_compute; reflexivity.
Qed.

Lemma own_block_never_confirms_witness :
  OrderBlockDetector.detect_ob SMCConfig.default true sample_impulse sample_bms = Ok (Some sample_block) /\
  LTFConfirmationValidator.validate_rto_to_ob (Some sample_block) (Some sample_bms) (lit 10820 4) = false.
Proof.
  assert (H : OrderBlockDetector.detect_ob SMCConfig.default true sample_impulse sample_bms = Ok (Some sample_block))
    by (vm_compute; reflexivity).
  split; [exact H|].
  apply (own_block_never_confirms SMCConfig.default sample_impulse true sample_high sample_bms sample_block 1 _ _ _ _
    (SessionAnalyzer.mk (SessionWindow.mk ASIA 0 9) (SessionWindow.mk LONDON 7 16) (SessionWindow.mk NEW_YORK 12 21))
    None None [] sample_impulse (lit 10820 4) [] SMCConfig.default_valid sample_impulse_ok
    (sample_high_ok sample_high (or_introl eq_refl)) sample_bms_of H).
Defined.
End ValidatorFacts.
