(* ===== verification/SMCBuilders.v ===== *)
(** * Candidate builders: [engine/ta/smc/builders/]

    [fib_leg.py], [continuation.py], [reversal.py] and [amd/candidates.py].  The
    bullish and the bearish method of a builder are one definition over a flag;
    the target search, the stop, the level text and the metadata are written out
    identically in every builder and are shared here.  Log lines are left out. *)

From Stdlib Require Import ZArith Lia Bool String Sorting.Sorted.
From stdpp Require Import base list strings.
From S2P Require Import Prelude Loops PyFloat FloatRound PyRound PyText PyRepr Constants PriceMath StopLoss Candles Swings Sessions Fibonacci Liquidity ZoneModels StructureModels SMCConfig Candidates CandlePatterns SMCStructure SMCLiquidity SMCZones SMCValidators.

#[local] Open Scope string_scope.
#[local] Open Scope Z_scope.
#[local] Open Scope list_scope.

Definition is_some {A} (x : option A) : bool := match x with Some _ => true | None => false end.

(** ** Fibonacci legs *)

Module FibLeg.

(** [try: ... except ConfigurationError: return None]. *)
Definition catch_configuration {A} (m : res A) : res (option A) :=
  match m with
  | Ok a => Ok (Some a)
  | Raise (ConfigurationError _) => Ok None
  | Raise e => Raise e
  end.

Definition _build (symbol : string) (timeframe : Timeframe) (swing_high swing_low : option float)
    (swing_high_timestamp swing_low_timestamp : option datetime) (is_bullish : bool)
    : res (option FibonacciRetracement.t) :=
  match swing_high, swing_low with
  | Some high, Some low =>
      match swing_high_timestamp, swing_low_timestamp with
      | Some high_ts, Some low_ts =>
          if fle high low then Ok None
          else catch_configuration
                 (FibonacciRetracement.create symbol timeframe high low high_ts low_ts is_bullish)
      | _, _ => Ok None
      end
  | _, _ => Ok None
  end.

(** The leg from an origin to a terminus: upward when bullish. *)
Definition leg (symbol : string) (timeframe : Timeframe) (is_bullish : bool)
    (origin : option float) (origin_ts : option datetime) (terminus : option float) (terminus_ts : option datetime)
    : res (option FibonacciRetracement.t) :=
  if is_bullish then _build symbol timeframe terminus origin terminus_ts origin_ts true
  else _build symbol timeframe origin terminus origin_ts terminus_ts false.

Definition select_leg_for_sh_bms_rto (symbol : string) (timeframe : Timeframe)
    (htf_bms : BreakInMarketStructure.t) (sweep : option LiquiditySweep.t) (is_bullish : bool)
    : res (option FibonacciRetracement.t) :=
  match sweep with
  | None => Ok None
  | Some s =>
      leg symbol timeframe is_bullish (Some (LiquiditySweep.swept_level s)) (Some (LiquiditySweep.timestamp s))
        (Some (BreakInMarketStructure.breakout_price htf_bms)) (Some (BreakInMarketStructure.timestamp htf_bms))
  end.

Definition select_leg_for_sms_bms_rto (symbol : string) (timeframe : Timeframe)
    (htf_sms : ShiftInMarketStructure.t) (ltf_bms : BreakInMarketStructure.t) (is_bullish : bool)
    : res (option FibonacciRetracement.t) :=
  leg symbol timeframe is_bullish (Some (ShiftInMarketStructure.failed_level htf_sms))
    (Some (ShiftInMarketStructure.failed_level_timestamp htf_sms))
    (Some (BreakInMarketStructure.breakout_price ltf_bms)) (Some (BreakInMarketStructure.timestamp ltf_bms)).

Definition select_leg_for_choch_bms_rto (symbol : string) (timeframe : Timeframe)
    (htf_choch : ChangeOfCharacter.t) (is_bullish : bool) : res (option FibonacciRetracement.t) :=
  leg symbol timeframe is_bullish (Some (ChangeOfCharacter.broken_level htf_choch))
    (Some (ChangeOfCharacter.broken_level_timestamp htf_choch))
    (Some (ChangeOfCharacter.breakout_price htf_choch)) (Some (ChangeOfCharacter.timestamp htf_choch)).

Definition select_leg_for_amd (symbol : string) (timeframe : Timeframe)
    (asian_range_high asian_range_low : option float) (asian_range_start asian_range_end : option datetime)
    (ltf_bms : BreakInMarketStructure.t) (is_bullish : bool) : res (option FibonacciRetracement.t) :=
  let asian_range_end :=
    match asian_range_end with Some e => Some e | None => Some (BreakInMarketStructure.timestamp ltf_bms) end in
  let asian_range_start := match asian_range_start with Some s => Some s | None => asian_range_end end in
  leg symbol timeframe is_bullish (if is_bullish then asian_range_low else asian_range_high) asian_range_start
    (Some (BreakInMarketStructure.breakout_price ltf_bms)) (Some (BreakInMarketStructure.timestamp ltf_bms)).

(** The swing beyond the swept level that is nearest to it. *)
Definition select_leg_for_turtle_soup {A} `{SwingLevel A} (long : bool) (symbol : string) (timeframe : Timeframe)
    (sweep : option LiquiditySweep.t) (swings : option (list A)) : res (option FibonacciRetracement.t) :=
  match sweep with
  | None => Ok None
  | Some s =>
      let level := LiquiditySweep.swept_level s in
      let beyond p := if long then flt level p else flt p level in
      let distance p := if long then fsub p level else fsub level p in
      let eligible := List.filter (fun x => beyond (lv_price x)) (default [] swings) in
      match py_max_opt (fun a b => flt (distance (lv_price a)) (distance (lv_price b))) eligible with
      | None => Ok None
      | Some anchor =>
          leg symbol timeframe long (Some level) (Some (LiquiditySweep.timestamp s))
            (Some (lv_price anchor)) (Some (lv_timestamp anchor))
      end
  end.

Definition select_leg_for_turtle_soup_long (symbol : string) (timeframe : Timeframe)
    (sweep : option LiquiditySweep.t) (swing_highs : option (list SwingHigh.t)) :=
  select_leg_for_turtle_soup true symbol timeframe sweep swing_highs.
Definition select_leg_for_turtle_soup_short (symbol : string) (timeframe : Timeframe)
    (sweep : option LiquiditySweep.t) (swing_lows : option (list SwingLow.t)) :=
  select_leg_for_turtle_soup false symbol timeframe sweep swing_lows.
End FibLeg.

(** ** What the builders share *)

Module Builder.

(** The nearest price on the target side at a distance of at least
    [min_reward]: [min] of the prices above the entry, [max] of those below. *)
Definition nearest_target (above : bool) (entry_price : float) (prices : list float) (min_reward : float)
    : option float :=
  let eligible p :=
    if above then flt entry_price p && fle min_reward (fsub p entry_price)
    else flt p entry_price && fle min_reward (fsub entry_price p) in
  py_max_opt (fun a b => if above then flt a b else flt b a) (List.filter eligible prices).

Definition find_nearest_target {A} `{SwingLevel A} (config : SMCConfig.t) (above : bool) (entry_price : float)
    (swings : list A) (stop_loss min_tp_rr : option float) : option float :=
  let rr := match min_tp_rr with Some r => r | None => SMCConfig.min_take_profit_rr config end in
  let min_reward :=
    match stop_loss with Some s => fmul (fabs (fsub entry_price s)) rr | None => fzero end in
  nearest_target above entry_price (map lv_price swings) min_reward.

Definition ob_edge (ob : OrderBlock.t) (direction : Direction) : float :=
  if bool_decide (direction = BULLISH) then OrderBlock.lower_bound ob else OrderBlock.upper_bound ob.

Definition structural_stop_loss (ob : OrderBlock.t) (direction : Direction) (protective_level : option float)
    : float :=
  let invalidation_level := match protective_level with Some p => p | None => ob_edge ob direction end in
  compute_structural_stop_loss (OrderBlock.symbol ob) (OrderBlock.timeframe ob) direction invalidation_level
    (Some (ob_edge ob direction)) None.

Definition fib_level_str (config : SMCConfig.t) (price : float) (retracement : option FibonacciRetracement.t)
    : res (option string) :=
  context ← ZoneValidator.build_fib_context config price retracement;
  Ok (match context with
      | None => None
      | Some c => Some (fixed_str (ZoneValidator.fc_percentage c) 3)
      end).

Definition fib_dict (c : ZoneValidator.FibContext) : value :=
  VDict [("percentage", VFloat (ZoneValidator.fc_percentage c));
         ("zone", VStr (price_zone_value (ZoneValidator.fc_zone c)));
         ("is_in_ote", VBool (ZoneValidator.fc_is_in_ote c));
         ("nearest_level_name", VStr (ZoneValidator.fc_nearest_level_name c))].

Definition sweep_dict (c : ZoneValidator.SweepContext) : value :=
  VDict [("liquidity_type", VStr (liquidity_value (ZoneValidator.sc_liquidity_type c)));
         ("sweep_pips", VFloat (ZoneValidator.sc_sweep_pips c));
         ("closed_back_inside", VBool (ZoneValidator.sc_closed_back_inside c));
         ("is_major_sweep", VBool (ZoneValidator.sc_is_major_sweep c))].

Definition build_metadata (config : SMCConfig.t) (base : dict) (price : float)
    (retracement : option FibonacciRetracement.t) (sweep : option LiquiditySweep.t) : res dict :=
  fib_context ← ZoneValidator.build_fib_context config price retracement;
  sweep_context ← ZoneValidator.build_sweep_context sweep;
  Ok (base ++
      match fib_context with Some c => [("fib_context", fib_dict c)] | None => [] end ++
      match sweep_context with Some c => [("sweep_context", sweep_dict c)] | None => [] end).

(** The points of the confluence counters. *)
Definition point (b : bool) : Z := if b then 1 else 0.
Definition swept_inside (sweep : option LiquiditySweep.t) : bool :=
  match sweep with Some s => LiquiditySweep.closed_back_inside s | None => false end.
Definition any_aligned (ob : OrderBlock.t) (fvgs : list FairValueGap.t) : bool :=
  existsb (fun fvg => bool_decide (FairValueGap.direction fvg = OrderBlock.direction ob)) fvgs.
Definition fib_points (fib_score : Z) : Z :=
  if 3 <=? fib_score then 2 else if 2 <=? fib_score then 1 else 0.
Definition displacement_point (config : SMCConfig.t) (ob : OrderBlock.t) : res Z :=
  if flt fzero (OrderBlock.displacement_pips ob) then
    displacement_in_pips ← fdiv (OrderBlock.displacement_pips ob) (pip_float (OrderBlock.symbol ob));
    Ok (point (fle (SMCConfig.bms_strong_displacement_pips config) displacement_in_pips))
  else Ok 0.
End Builder.

(** ** Continuation: stop hunt, break, return *)

Module ContinuationBuilder.

Definition _count_confluences (config : SMCConfig.t) (htf_bms ltf_bms : BreakInMarketStructure.t)
    (sweep : option LiquiditySweep.t) (choch : option ChangeOfCharacter.t) (ob : OrderBlock.t)
    (fvgs : list FairValueGap.t) (retracement : option FibonacciRetracement.t)
    (inducement_events : list InducementEvent.t) : res Z :=
  fib_score ← ZoneValidator.score_ob_fib_confluence config ob retracement;
  displacement ← Builder.displacement_point config ob;
  Ok (1 + Builder.point (BreakInMarketStructure.confirmed htf_bms)
      + Builder.point (BreakInMarketStructure.confirmed ltf_bms)
      + Builder.point (Builder.swept_inside sweep)
      + Builder.point (is_some choch)
      + Builder.point (Builder.any_aligned ob fvgs)
      + Builder.fib_points fib_score
      + Builder.point (existsb InducementEvent.cleared inducement_events)
      + displacement
      + Builder.point (OrderBlock.is_breaker ob)).

Definition _find_nearest_bsl_target (config : SMCConfig.t) (entry_price : float) (swing_highs : list SwingHigh.t)
    (stop_loss min_tp_rr : option float) : option float :=
  Builder.find_nearest_target config true entry_price swing_highs stop_loss min_tp_rr.
Definition _find_nearest_ssl_target (config : SMCConfig.t) (entry_price : float) (swing_lows : list SwingLow.t)
    (stop_loss min_tp_rr : option float) : option float :=
  Builder.find_nearest_target config false entry_price swing_lows stop_loss min_tp_rr.
Definition _compute_structural_stop_loss := Builder.structural_stop_loss.
Definition _fib_level_str := Builder.fib_level_str.
Definition _build_metadata := Builder.build_metadata.

Definition _get_swing_highs_from_sequence (sequence : CandleSequence.t) : res (list SwingHigh.t) :=
  let candles := CandleSequence.candles sequence in
  collect (fun i =>
      c ← py_index candles i;
      p ← py_index candles (i - 1);
      n ← py_index candles (i + 1);
      if flt (Candle.high p) (Candle.high c) && flt (Candle.high n) (Candle.high c) then
        s ← SwingHigh.create (CandleSequence.symbol sequence) (CandleSequence.timeframe sequence)
              (Candle.timestamp c) (Candle.high c) i 1 1 1 false None;
        Ok (Some s)
      else Ok None)
    (py_range 1 (py_len candles - 1)).

Definition _get_swing_lows_from_sequence (sequence : CandleSequence.t) : res (list SwingLow.t) :=
  let candles := CandleSequence.candles sequence in
  collect (fun i =>
      c ← py_index candles i;
      p ← py_index candles (i - 1);
      n ← py_index candles (i + 1);
      if flt (Candle.low c) (Candle.low p) && flt (Candle.low c) (Candle.low n) then
        s ← SwingLow.create (CandleSequence.symbol sequence) (CandleSequence.timeframe sequence)
              (Candle.timestamp c) (Candle.low c) i 1 1 1 false None;
        Ok (Some s)
      else Ok None)
    (py_range 1 (py_len candles - 1)).

(** The target of either direction, from the pivots of the higher timeframe. *)
Definition continuation_target (config : SMCConfig.t) (bullish : bool) (htf_sequence : CandleSequence.t)
    (entry_price stop_loss min_tp_rr : float) : res (option float) :=
  if bullish then
    highs ← _get_swing_highs_from_sequence htf_sequence;
    Ok (_find_nearest_bsl_target config entry_price highs (Some stop_loss) (Some min_tp_rr))
  else
    lows ← _get_swing_lows_from_sequence htf_sequence;
    Ok (_find_nearest_ssl_target config entry_price lows (Some stop_loss) (Some min_tp_rr)).

Definition build_continuation (config : SMCConfig.t) (session_analyzer : SessionAnalyzer.t) (bullish : bool)
    (htf_sequence ltf_sequence : CandleSequence.t) (htf_bms : BreakInMarketStructure.t)
    (ltf_sweep : option LiquiditySweep.t) (ltf_choch : option ChangeOfCharacter.t)
    (ltf_bms : BreakInMarketStructure.t) (ltf_ob : OrderBlock.t) (ltf_fvgs : list FairValueGap.t)
    (inducement_events : list InducementEvent.t) : res (option SMCCandidate.t) :=
  let direction := direction_of bullish in
  if negb (bool_decide (BreakInMarketStructure.direction htf_bms = direction)) then Ok None
  else if negb (bool_decide (BreakInMarketStructure.direction ltf_bms = direction)) then Ok None
  else if negb (bool_decide (OrderBlock.direction ltf_ob = direction)) then Ok None
  else
    candidate_retracement ←
      FibLeg.select_leg_for_sh_bms_rto (CandleSequence.symbol ltf_sequence)
        (CandleSequence.timeframe ltf_sequence) ltf_bms ltf_sweep bullish;
    valid ← ZoneValidator.validate_all_ob_rules config ltf_ob ltf_fvgs
              (match ltf_sweep with Some s => [Some s] | None => [] end) inducement_events
              candidate_retracement ltf_sequence [];
    if negb valid then Ok None
    else
      last ← py_index (CandleSequence.candles ltf_sequence) (-1);
      ltf_confirmed ←
        LTFConfirmationValidator.validate_all_ltf_confirmations config session_analyzer ltf_sweep ltf_choch
          (Some ltf_bms) (Some ltf_ob) inducement_events ltf_sequence (Candle.close last) ltf_fvgs;
      confluences ← _count_confluences config htf_bms ltf_bms ltf_sweep ltf_choch ltf_ob ltf_fvgs
                      candidate_retracement inducement_events;
      let entry_price := OrderBlock.midpoint ltf_ob in
      let stop_loss :=
        _compute_structural_stop_loss ltf_ob direction
          (if bullish then LiquiditySweep.sweep_low <$> ltf_sweep else LiquiditySweep.sweep_high <$> ltf_sweep) in
      min_tp_rr ← resolve_min_tp_rr (Some (OrderBlock.timeframe ltf_ob)) None None;
      take_profit ← continuation_target config bullish htf_sequence entry_price stop_loss min_tp_rr;
      let associated_fvg := ZoneValidator.get_associated_fvg config ltf_ob ltf_fvgs in
      let relevant_idm :=
        ZoneValidator.select_relevant_inducement ltf_ob direction inducement_events
          (Some (BreakInMarketStructure.breakout_price ltf_bms)) in
      fib_level ← _fib_level_str config entry_price candidate_retracement;
      metadata ← _build_metadata config [("confluences", VInt confluences)] entry_price candidate_retracement
                   ltf_sweep;
      candidate ← SMCCandidate.create {|
        SMCCandidate.symbol := CandleSequence.symbol ltf_sequence;
        SMCCandidate.timeframe := CandleSequence.timeframe ltf_sequence;
        SMCCandidate.pattern := if bullish then SH_BMS_RTO_BULLISH else SH_BMS_RTO_BEARISH;
        SMCCandidate.direction := direction;
        SMCCandidate.timestamp := Candle.timestamp last;
        SMCCandidate.entry_price := entry_price;
        SMCCandidate.stop_loss := stop_loss;
        SMCCandidate.take_profit := take_profit;
        SMCCandidate.htf_timeframe := CandleSequence.timeframe htf_sequence;
        SMCCandidate.ltf_timeframe := CandleSequence.timeframe ltf_sequence;
        SMCCandidate.bms_detected := true;
        SMCCandidate.bms_price := Some (BreakInMarketStructure.breakout_price ltf_bms);
        SMCCandidate.bms_timestamp := Some (BreakInMarketStructure.timestamp ltf_bms);
        SMCCandidate.choch_detected := is_some ltf_choch;
        SMCCandidate.choch_price := ChangeOfCharacter.breakout_price <$> ltf_choch;
        SMCCandidate.choch_timestamp := ChangeOfCharacter.timestamp <$> ltf_choch;
        SMCCandidate.sms_detected := false; SMCCandidate.sms_price := None; SMCCandidate.sms_timestamp := None;
        SMCCandidate.order_block_upper := Some (OrderBlock.upper_bound ltf_ob);
        SMCCandidate.order_block_lower := Some (OrderBlock.lower_bound ltf_ob);
        SMCCandidate.order_block_timestamp := Some (OrderBlock.timestamp ltf_ob);
        SMCCandidate.fvg_upper := FairValueGap.upper_bound <$> associated_fvg;
        SMCCandidate.fvg_lower := FairValueGap.lower_bound <$> associated_fvg;
        SMCCandidate.fvg_timestamp := FairValueGap.timestamp <$> associated_fvg;
        SMCCandidate.liquidity_swept := is_some ltf_sweep;
        SMCCandidate.swept_level := LiquiditySweep.swept_level <$> ltf_sweep;
        SMCCandidate.sweep_timestamp := LiquiditySweep.timestamp <$> ltf_sweep;
        SMCCandidate.inducement_cleared := is_some relevant_idm;
        SMCCandidate.inducement_level := InducementEvent.inducement_level <$> relevant_idm;
        SMCCandidate.ltf_confirmation := ltf_confirmed;
        SMCCandidate.ltf_confirmation_timestamp := if ltf_confirmed then Some (Candle.timestamp last) else None;
        SMCCandidate.displacement_pips := Some (BreakInMarketStructure.displacement_pips ltf_bms);
        SMCCandidate.fib_level := fib_level;
        SMCCandidate.session_context := None;
        SMCCandidate.metadata := metadata |};
      Ok (Some candidate).

Definition build_bullish_continuation (config : SMCConfig.t) (session_analyzer : SessionAnalyzer.t) :=
  build_continuation config session_analyzer true.
Definition build_bearish_continuation (config : SMCConfig.t) (session_analyzer : SessionAnalyzer.t) :=
  build_continuation config session_analyzer false.
End ContinuationBuilder.

(** ** Reversals: failure swings and turtle soups *)

Module ReversalBuilder.

Definition _count_sms_confluences (config : SMCConfig.t) (bms : BreakInMarketStructure.t)
    (choch : option ChangeOfCharacter.t) (ob : OrderBlock.t) (fvgs : list FairValueGap.t)
    (retracement : option FibonacciRetracement.t) (inducement_events : list InducementEvent.t) : res Z :=
  fib_score ← ZoneValidator.score_ob_fib_confluence config ob retracement;
  displacement ← Builder.displacement_point config ob;
  Ok (2 + Builder.point (BreakInMarketStructure.confirmed bms)
      + Builder.point (is_some choch)
      + Builder.point (Builder.any_aligned ob fvgs)
      + Builder.fib_points fib_score
      + Builder.point (existsb InducementEvent.cleared inducement_events)
      + displacement
      + Builder.point (OrderBlock.is_breaker ob)).

Definition _find_nearest_bsl_target (config : SMCConfig.t) (entry_price : float) (swing_highs : list SwingHigh.t)
    (stop_loss min_tp_rr : option float) : option float :=
  Builder.find_nearest_target config true entry_price swing_highs stop_loss min_tp_rr.
Definition _find_nearest_ssl_target (config : SMCConfig.t) (entry_price : float) (swing_lows : list SwingLow.t)
    (stop_loss min_tp_rr : option float) : option float :=
  Builder.find_nearest_target config false entry_price swing_lows stop_loss min_tp_rr.
Definition _compute_structural_stop_loss := Builder.structural_stop_loss.
Definition _fib_level_str := Builder.fib_level_str.
Definition _build_metadata := Builder.build_metadata.

(** The swings are highs for a bullish reversal and lows for a bearish one. *)
Definition build_sms_reversal {A} `{SwingLevel A} (config : SMCConfig.t) (session_analyzer : SessionAnalyzer.t)
    (bullish : bool) (htf_sequence ltf_sequence : CandleSequence.t) (htf_sms : ShiftInMarketStructure.t)
    (ltf_bms : BreakInMarketStructure.t) (ltf_choch : option ChangeOfCharacter.t) (ltf_ob : OrderBlock.t)
    (ltf_fvgs : list FairValueGap.t) (inducement_events : list InducementEvent.t)
    (swings : option (list A)) : res (option SMCCandidate.t) :=
  let direction := direction_of bullish in
  if negb (bool_decide (ShiftInMarketStructure.direction htf_sms = direction)) then Ok None
  else if negb (bool_decide (BreakInMarketStructure.direction ltf_bms = direction)) then Ok None
  else if negb (bool_decide (OrderBlock.direction ltf_ob = direction)) then Ok None
  else
    candidate_retracement ←
      FibLeg.select_leg_for_sms_bms_rto (CandleSequence.symbol ltf_sequence)
        (CandleSequence.timeframe ltf_sequence) htf_sms ltf_bms bullish;
    valid ← ZoneValidator.validate_all_ob_rules config ltf_ob ltf_fvgs [] inducement_events
              candidate_retracement ltf_sequence [];
    if negb valid then Ok None
    else
      last ← py_index (CandleSequence.candles ltf_sequence) (-1);
      ltf_confirmed ←
        LTFConfirmationValidator.validate_all_ltf_confirmations config session_analyzer None ltf_choch
          (Some ltf_bms) (Some ltf_ob) inducement_events ltf_sequence (Candle.close last) ltf_fvgs;
      confluences ← _count_sms_confluences config ltf_bms ltf_choch ltf_ob ltf_fvgs
                      candidate_retracement inducement_events;
      let entry_price := OrderBlock.midpoint ltf_ob in
      let stop_loss :=
        _compute_structural_stop_loss ltf_ob direction (Some (ShiftInMarketStructure.failed_level htf_sms)) in
      min_tp_rr ← resolve_min_tp_rr (Some (OrderBlock.timeframe ltf_ob)) None None;
      let take_profit :=
        Builder.find_nearest_target config bullish entry_price (default [] swings) (Some stop_loss)
          (Some min_tp_rr) in
      let associated_fvg := ZoneValidator.get_associated_fvg config ltf_ob ltf_fvgs in
      let relevant_idm :=
        ZoneValidator.select_relevant_inducement ltf_ob direction inducement_events
          (Some (BreakInMarketStructure.breakout_price ltf_bms)) in
      fib_level ← _fib_level_str config entry_price candidate_retracement;
      metadata ← _build_metadata config [("confluences", VInt confluences)] entry_price candidate_retracement
                   None;
      candidate ← SMCCandidate.create {|
        SMCCandidate.symbol := CandleSequence.symbol ltf_sequence;
        SMCCandidate.timeframe := CandleSequence.timeframe ltf_sequence;
        SMCCandidate.pattern := if bullish then SMS_BMS_RTO_BULLISH else SMS_BMS_RTO_BEARISH;
        SMCCandidate.direction := direction;
        SMCCandidate.timestamp := Candle.timestamp last;
        SMCCandidate.entry_price := entry_price;
        SMCCandidate.stop_loss := stop_loss;
        SMCCandidate.take_profit := take_profit;
        SMCCandidate.htf_timeframe := CandleSequence.timeframe htf_sequence;
        SMCCandidate.ltf_timeframe := CandleSequence.timeframe ltf_sequence;
        SMCCandidate.bms_detected := true;
        SMCCandidate.bms_price := Some (BreakInMarketStructure.breakout_price ltf_bms);
        SMCCandidate.bms_timestamp := Some (BreakInMarketStructure.timestamp ltf_bms);
        SMCCandidate.choch_detected := if bullish then is_some ltf_choch else true;
        SMCCandidate.choch_price := ChangeOfCharacter.breakout_price <$> ltf_choch;
        SMCCandidate.choch_timestamp := ChangeOfCharacter.timestamp <$> ltf_choch;
        SMCCandidate.sms_detected := true;
        SMCCandidate.sms_price := Some (ShiftInMarketStructure.failed_level htf_sms);
        SMCCandidate.sms_timestamp := Some (ShiftInMarketStructure.timestamp htf_sms);
        SMCCandidate.order_block_upper := Some (OrderBlock.upper_bound ltf_ob);
        SMCCandidate.order_block_lower := Some (OrderBlock.lower_bound ltf_ob);
        SMCCandidate.order_block_timestamp := Some (OrderBlock.timestamp ltf_ob);
        SMCCandidate.fvg_upper := FairValueGap.upper_bound <$> associated_fvg;
        SMCCandidate.fvg_lower := FairValueGap.lower_bound <$> associated_fvg;
        SMCCandidate.fvg_timestamp := FairValueGap.timestamp <$> associated_fvg;
        SMCCandidate.liquidity_swept := false; SMCCandidate.swept_level := None;
        SMCCandidate.sweep_timestamp := None;
        SMCCandidate.inducement_cleared := is_some relevant_idm;
        SMCCandidate.inducement_level := InducementEvent.inducement_level <$> relevant_idm;
        SMCCandidate.ltf_confirmation := ltf_confirmed;
        SMCCandidate.ltf_confirmation_timestamp := if ltf_confirmed then Some (Candle.timestamp last) else None;
        SMCCandidate.displacement_pips := Some (BreakInMarketStructure.displacement_pips ltf_bms);
        SMCCandidate.fib_level := fib_level;
        SMCCandidate.session_context := None;
        SMCCandidate.metadata := metadata |};
      Ok (Some candidate).

Definition build_bullish_sms_reversal (config : SMCConfig.t) (session_analyzer : SessionAnalyzer.t) :=
  build_sms_reversal (A := SwingHigh.t) config session_analyzer true.
Definition build_bearish_sms_reversal (config : SMCConfig.t) (session_analyzer : SessionAnalyzer.t) :=
  build_sms_reversal (A := SwingLow.t) config session_analyzer false.

Definition build_turtle_soup {A} `{SwingLevel A} (config : SMCConfig.t) (session_analyzer : SessionAnalyzer.t)
    (long : bool) (ltf_sequence : CandleSequence.t) (sweep : LiquiditySweep.t) (swings : option (list A))
    : res (option SMCCandidate.t) :=
  if negb (LiquiditySweep.closed_back_inside sweep) then Ok None
  else if flt (LiquiditySweep.sweep_pips sweep) (SMCConfig.turtle_soup_min_pips config) then Ok None
  else
    session_ok ← LTFConfirmationValidator.validate_session_timing config session_analyzer ltf_sequence;
    if negb session_ok then Ok None
    else
      let pip_val := pip_float (CandleSequence.symbol ltf_sequence) in
      let direction := direction_of long in
      let entry_price := LiquiditySweep.swept_level sweep in
      let extreme := if long then LiquiditySweep.sweep_low sweep else LiquiditySweep.sweep_high sweep in
      let structural_sl :=
        compute_structural_stop_loss (CandleSequence.symbol ltf_sequence) (CandleSequence.timeframe ltf_sequence)
          direction extreme None None in
      let min_distance := fmul (SMCConfig.turtle_soup_min_sl_pips config) pip_val in
      let stop_loss :=
        if long then fmin structural_sl (fsub extreme min_distance)
        else fmax structural_sl (fadd extreme min_distance) in
      min_tp_rr ← resolve_min_tp_rr (Some (CandleSequence.timeframe ltf_sequence)) None None;
      let take_profit :=
        Builder.find_nearest_target config long entry_price (default [] swings) (Some stop_loss)
          (Some min_tp_rr) in
      sweep_context ← ZoneValidator.build_sweep_context (Some sweep);
      let turtle_metadata :=
        match sweep_context with Some c => [("sweep_context", Builder.sweep_dict c)] | None => [] end in
      candidate ← SMCCandidate.create {|
        SMCCandidate.symbol := CandleSequence.symbol ltf_sequence;
        SMCCandidate.timeframe := CandleSequence.timeframe ltf_sequence;
        SMCCandidate.pattern := if long then TURTLE_SOUP_LONG else TURTLE_SOUP_SHORT;
        SMCCandidate.direction := direction;
        SMCCandidate.timestamp := LiquiditySweep.timestamp sweep;
        SMCCandidate.entry_price := entry_price;
        SMCCandidate.stop_loss := stop_loss;
        SMCCandidate.take_profit := take_profit;
        SMCCandidate.htf_timeframe := CandleSequence.timeframe ltf_sequence;
        SMCCandidate.ltf_timeframe := CandleSequence.timeframe ltf_sequence;
        SMCCandidate.bms_detected := false; SMCCandidate.bms_price := None; SMCCandidate.bms_timestamp := None;
        SMCCandidate.choch_detected := false; SMCCandidate.choch_price := None;
        SMCCandidate.choch_timestamp := None;
        SMCCandidate.sms_detected := false; SMCCandidate.sms_price := None; SMCCandidate.sms_timestamp := None;
        SMCCandidate.order_block_upper := None; SMCCandidate.order_block_lower := None;
        SMCCandidate.order_block_timestamp := None;
        SMCCandidate.fvg_upper := None; SMCCandidate.fvg_lower := None; SMCCandidate.fvg_timestamp := None;
        SMCCandidate.liquidity_swept := true;
        SMCCandidate.swept_level := Some (LiquiditySweep.swept_level sweep);
        SMCCandidate.sweep_timestamp := Some (LiquiditySweep.timestamp sweep);
        SMCCandidate.inducement_cleared := false; SMCCandidate.inducement_level := None;
        SMCCandidate.ltf_confirmation := true;
        SMCCandidate.ltf_confirmation_timestamp := Some (LiquiditySweep.timestamp sweep);
        SMCCandidate.displacement_pips := None;
        SMCCandidate.fib_level := None;
        SMCCandidate.session_context := None;
        SMCCandidate.metadata := turtle_metadata |};
      Ok (Some candidate).

Definition build_turtle_soup_long (config : SMCConfig.t) (session_analyzer : SessionAnalyzer.t) :=
  build_turtle_soup (A := SwingHigh.t) config session_analyzer true.
Definition build_turtle_soup_short (config : SMCConfig.t) (session_analyzer : SessionAnalyzer.t) :=
  build_turtle_soup (A := SwingLow.t) config session_analyzer false.
End ReversalBuilder.

(** ** Distribution after an Asian-range manipulation *)

Module AMDCandidateBuilder.

Definition _count_amd_confluences (config : SMCConfig.t) (sweep : option LiquiditySweep.t)
    (choch : option ChangeOfCharacter.t) (ob : OrderBlock.t) (fvgs : list FairValueGap.t)
    (retracement : option FibonacciRetracement.t) (inducement_events : list InducementEvent.t) : res Z :=
  fib_score ← ZoneValidator.score_ob_fib_confluence config ob retracement;
  Ok (2 + Builder.point (is_some choch)
      + Builder.point (Builder.swept_inside sweep)
      + Builder.point (Builder.any_aligned ob fvgs)
      + Builder.fib_points fib_score
      + Builder.point (existsb InducementEvent.cleared inducement_events)).

Definition _find_nearest_bsl_target (config : SMCConfig.t) (entry_price : float) (swing_highs : list SwingHigh.t)
    (stop_loss min_tp_rr : option float) : option float :=
  Builder.find_nearest_target config true entry_price swing_highs stop_loss min_tp_rr.
Definition _find_nearest_ssl_target (config : SMCConfig.t) (entry_price : float) (swing_lows : list SwingLow.t)
    (stop_loss min_tp_rr : option float) : option float :=
  Builder.find_nearest_target config false entry_price swing_lows stop_loss min_tp_rr.
Definition _compute_structural_stop_loss := Builder.structural_stop_loss.
Definition _fib_level_str := Builder.fib_level_str.
Definition _build_metadata := Builder.build_metadata.

Definition build_amd {A} `{SwingLevel A} (config : SMCConfig.t) (session_analyzer : SessionAnalyzer.t)
    (bullish : bool) (htf_sequence ltf_sequence : CandleSequence.t) (amd_context : AMDContext.t)
    (ltf_sweep : option LiquiditySweep.t) (ltf_bms : BreakInMarketStructure.t)
    (ltf_choch : option ChangeOfCharacter.t) (ltf_ob : OrderBlock.t) (ltf_fvgs : list FairValueGap.t)
    (inducement_events : list InducementEvent.t) (swings : option (list A)) : res (option SMCCandidate.t) :=
  let direction := direction_of bullish in
  if negb (bool_decide (AMDContext.phase amd_context = DISTRIBUTION)) then Ok None
  else if negb (bool_decide (AMDContext.distribution_direction amd_context = Some direction)) then Ok None
  else if negb (bool_decide (BreakInMarketStructure.direction ltf_bms = direction)) then Ok None
  else if negb (bool_decide (OrderBlock.direction ltf_ob = direction)) then Ok None
  else
    let asian_range := AMDContext.asian_range amd_context in
    candidate_retracement ←
      FibLeg.select_leg_for_amd (CandleSequence.symbol ltf_sequence) (CandleSequence.timeframe ltf_sequence)
        (DealingRange.high <$> asian_range) (DealingRange.low <$> asian_range)
        (DealingRange.start_time <$> asian_range)
        (match asian_range with Some r => DealingRange.end_time r | None => None end) ltf_bms bullish;
    valid ← ZoneValidator.validate_all_ob_rules config ltf_ob ltf_fvgs
              (match ltf_sweep with Some s => [Some s] | None => [] end) inducement_events
              candidate_retracement ltf_sequence [];
    if negb valid then Ok None
    else
      last ← py_index (CandleSequence.candles ltf_sequence) (-1);
      ltf_confirmed ←
        LTFConfirmationValidator.validate_all_ltf_confirmations config session_analyzer ltf_sweep ltf_choch
          (Some ltf_bms) (Some ltf_ob) inducement_events ltf_sequence (Candle.close last) ltf_fvgs;
      confluences ← _count_amd_confluences config ltf_sweep ltf_choch ltf_ob ltf_fvgs
                      candidate_retracement inducement_events;
      let entry_price := OrderBlock.midpoint ltf_ob in
      let stop_loss :=
        _compute_structural_stop_loss ltf_ob direction
          (if bullish then DealingRange.low <$> asian_range else DealingRange.high <$> asian_range) in
      min_tp_rr ← resolve_min_tp_rr (Some (OrderBlock.timeframe ltf_ob)) None None;
      let take_profit :=
        Builder.find_nearest_target config bullish entry_price (default [] swings) (Some stop_loss)
          (Some min_tp_rr) in
      let associated_fvg := ZoneValidator.get_associated_fvg config ltf_ob ltf_fvgs in
      let relevant_idm :=
        ZoneValidator.select_relevant_inducement ltf_ob direction inducement_events
          (Some (BreakInMarketStructure.breakout_price ltf_bms)) in
      fib_level ← _fib_level_str config entry_price candidate_retracement;
      metadata ← _build_metadata config [("confluences", VInt confluences)] entry_price candidate_retracement
                   ltf_sweep;
      candidate ← SMCCandidate.create {|
        SMCCandidate.symbol := CandleSequence.symbol ltf_sequence;
        SMCCandidate.timeframe := CandleSequence.timeframe ltf_sequence;
        SMCCandidate.pattern := if bullish then AMD_BULLISH else AMD_BEARISH;
        SMCCandidate.direction := direction;
        SMCCandidate.timestamp := Candle.timestamp last;
        SMCCandidate.entry_price := entry_price;
        SMCCandidate.stop_loss := stop_loss;
        SMCCandidate.take_profit := take_profit;
        SMCCandidate.htf_timeframe := CandleSequence.timeframe htf_sequence;
        SMCCandidate.ltf_timeframe := CandleSequence.timeframe ltf_sequence;
        SMCCandidate.bms_detected := true;
        SMCCandidate.bms_price := Some (BreakInMarketStructure.breakout_price ltf_bms);
        SMCCandidate.bms_timestamp := Some (BreakInMarketStructure.timestamp ltf_bms);
        SMCCandidate.choch_detected := is_some ltf_choch;
        SMCCandidate.choch_price := ChangeOfCharacter.breakout_price <$> ltf_choch;
        SMCCandidate.choch_timestamp := ChangeOfCharacter.timestamp <$> ltf_choch;
        SMCCandidate.sms_detected := false; SMCCandidate.sms_price := None; SMCCandidate.sms_timestamp := None;
        SMCCandidate.order_block_upper := Some (OrderBlock.upper_bound ltf_ob);
        SMCCandidate.order_block_lower := Some (OrderBlock.lower_bound ltf_ob);
        SMCCandidate.order_block_timestamp := Some (OrderBlock.timestamp ltf_ob);
        SMCCandidate.fvg_upper := FairValueGap.upper_bound <$> associated_fvg;
        SMCCandidate.fvg_lower := FairValueGap.lower_bound <$> associated_fvg;
        SMCCandidate.fvg_timestamp := FairValueGap.timestamp <$> associated_fvg;
        SMCCandidate.liquidity_swept := is_some ltf_sweep;
        SMCCandidate.swept_level := LiquiditySweep.swept_level <$> ltf_sweep;
        SMCCandidate.sweep_timestamp := LiquiditySweep.timestamp <$> ltf_sweep;
        SMCCandidate.inducement_cleared := is_some relevant_idm;
        SMCCandidate.inducement_level := InducementEvent.inducement_level <$> relevant_idm;
        SMCCandidate.ltf_confirmation := ltf_confirmed;
        SMCCandidate.ltf_confirmation_timestamp := if ltf_confirmed then Some (Candle.timestamp last) else None;
        SMCCandidate.displacement_pips := Some (BreakInMarketStructure.displacement_pips ltf_bms);
        SMCCandidate.fib_level := fib_level;
        SMCCandidate.session_context := Some "AMD_DISTRIBUTION";
        SMCCandidate.metadata := metadata |};
      Ok (Some candidate).

Definition build_bullish_amd (config : SMCConfig.t) (session_analyzer : SessionAnalyzer.t) :=
  build_amd (A := SwingHigh.t) config session_analyzer true.
Definition build_bearish_amd (config : SMCConfig.t) (session_analyzer : SessionAnalyzer.t) :=
  build_amd (A := SwingLow.t) config session_analyzer false.
End AMDCandidateBuilder.
