(* ===== verification/SMCDetector.v ===== *)
(** * The SMC detector: [engine/ta/smc/detector.py]

    The orchestration of the framework: structure on the higher timeframe,
    structure, gaps, inducements and sweeps on the lower one, and a candidate for
    every pairing the five pattern families admit.  The bullish and the bearish
    half of every method are one definition over a flag. *)

From Stdlib Require Import ZArith Lia Bool String Sorting.Sorted.
From stdpp Require Import base list strings.
From S2P Require Import Prelude Loops PyFloat FloatRound PyRound PyText PyRepr Constants PriceMath StopLoss Candles Swings Sessions Fibonacci Liquidity ZoneModels StructureModels SMCConfig Candidates CandlePatterns SMCStructure SMCLiquidity SMCZones SMCValidators SMCBuilders.

#[local] Open Scope string_scope.
#[local] Open Scope Z_scope.
#[local] Open Scope list_scope.

Module SMCDetector.

(** The analyzers the modelled methods read. *)
Record t := mk {
  config : SMCConfig.t; swing_analyzer : SwingAnalyzer.t; session_analyzer : SessionAnalyzer.t;
  sweep_analyzer : SweepAnalyzer.t; dealing_range_analyzer : DealingRangeAnalyzer.t }.

(** *** Helpers *)

(** The liquidity a sweep must have taken for a candidate of this direction. *)
Definition side_matches (direction : Direction) (l : LiquidityType) : bool :=
  (bool_decide (direction = BULLISH) && bool_decide (l ∈ [SSL; EQUAL_LOWS; PDL_SWEEP]))
  || (bool_decide (direction = BEARISH) && bool_decide (l ∈ [BSL; EQUAL_HIGHS; PDH_SWEEP])).

Definition sweep_step (max_distance : Z) (direction : Direction) (bms : BreakInMarketStructure.t)
    (best : option LiquiditySweep.t * Z) (sweep : LiquiditySweep.t) : option LiquiditySweep.t * Z :=
  let '(best_sweep, best_distance) := best in
  let distance := Z.abs (LiquiditySweep.candle_index sweep - BreakInMarketStructure.candle_index bms) in
  if max_distance <? distance then best
  else if side_matches direction (LiquiditySweep.liquidity_type sweep) && (distance <? best_distance)
  then (Some sweep, distance) else best.

Definition _find_relevant_sweep (self : t) (sweeps : list LiquiditySweep.t) (direction : Direction)
    (bms : BreakInMarketStructure.t) : option LiquiditySweep.t :=
  let max_distance := SMCConfig.sweep_max_candle_distance (config self) in
  fst (fold_left (sweep_step max_distance direction bms) sweeps (None, max_distance + 1)).

Definition _find_bsl_target (entry_price : float) (swing_highs : list SwingHigh.t) (min_reward : float)
    : option float := Builder.nearest_target true entry_price (map lv_price swing_highs) min_reward.
Definition _find_ssl_target (entry_price : float) (swing_lows : list SwingLow.t) (min_reward : float)
    : option float := Builder.nearest_target false entry_price (map lv_price swing_lows) min_reward.

Definition _fib_level_str_for_candidate := Builder.fib_level_str.
Definition _build_choch_metadata := Builder.build_metadata.

(** [bms_detector.detect_*_bms(sequence, swing_analyzer.detect_swing_*(sequence))]. *)
Definition own_bms (self : t) (bullish : bool) (sequence : CandleSequence.t)
    : res (list BreakInMarketStructure.t) :=
  if bullish then
    highs ← SwingAnalyzer.detect_swing_highs (swing_analyzer self) sequence;
    BMSDetector.detect_bullish_bms (config self) sequence highs
  else
    lows ← SwingAnalyzer.detect_swing_lows (swing_analyzer self) sequence;
    BMSDetector.detect_bearish_bms (config self) sequence lows.

(** *** Changes of character as origin *)

Definition _count_choch_confluences (self : t) (htf_choch : ChangeOfCharacter.t)
    (ltf_bms : BreakInMarketStructure.t) (ltf_choch : option ChangeOfCharacter.t)
    (ltf_sweep : option LiquiditySweep.t) (ob : OrderBlock.t) (fvgs : list FairValueGap.t)
    (retracement : option FibonacciRetracement.t) (inducement_events : list InducementEvent.t) : res Z :=
  fib_score ← ZoneValidator.score_ob_fib_confluence (config self) ob retracement;
  displacement ← Builder.displacement_point (config self) ob;
  Ok (1 + Builder.point (negb (ChangeOfCharacter.is_minor htf_choch)) + 1
      + Builder.point (BreakInMarketStructure.confirmed ltf_bms)
      + Builder.point (is_some ltf_choch)
      + Builder.point (Builder.swept_inside ltf_sweep)
      + Builder.point (Builder.any_aligned ob fvgs)
      + Builder.fib_points fib_score
      + Builder.point (existsb InducementEvent.cleared inducement_events)
      + displacement
      + Builder.point (OrderBlock.is_breaker ob)).

Definition _build_choch_candidate (self : t) (htf_sequence ltf_sequence : CandleSequence.t)
    (htf_choch : ChangeOfCharacter.t) (ltf_bms : BreakInMarketStructure.t)
    (ltf_choch : option ChangeOfCharacter.t) (ltf_sweep : option LiquiditySweep.t) (ob : OrderBlock.t)
    (ltf_fvgs : list FairValueGap.t) (inducement_events : list InducementEvent.t) (direction : Direction)
    (swing_highs : option (list SwingHigh.t)) (swing_lows : option (list SwingLow.t))
    : res (option SMCCandidate.t) :=
  let bullish := bool_decide (direction = BULLISH) in
  candidate_retracement ←
    FibLeg.select_leg_for_choch_bms_rto (CandleSequence.symbol ltf_sequence)
      (CandleSequence.timeframe ltf_sequence) htf_choch bullish;
  valid ← ZoneValidator.validate_all_ob_rules (config self) ob ltf_fvgs
            (match ltf_sweep with Some s => [Some s] | None => [] end) inducement_events
            candidate_retracement ltf_sequence [];
  if negb valid then Ok None
  else
    last ← py_index (CandleSequence.candles ltf_sequence) (-1);
    ltf_confirmed ←
      LTFConfirmationValidator.validate_all_ltf_confirmations (config self) (session_analyzer self) ltf_sweep
        ltf_choch (Some ltf_bms) (Some ob) inducement_events ltf_sequence (Candle.close last) ltf_fvgs;
    confluences ← _count_choch_confluences self htf_choch ltf_bms ltf_choch ltf_sweep ob ltf_fvgs
                    candidate_retracement inducement_events;
    let entry_price := OrderBlock.midpoint ob in
    let stop_loss :=
      compute_structural_stop_loss (CandleSequence.symbol ltf_sequence) (CandleSequence.timeframe ltf_sequence)
        (direction_of bullish) (ChangeOfCharacter.broken_level htf_choch)
        (Some (if bullish then OrderBlock.lower_bound ob else OrderBlock.upper_bound ob)) None in
    min_rr ← resolve_min_tp_rr (Some (CandleSequence.timeframe ltf_sequence)) None None;
    let min_reward := fmul (fabs (fsub entry_price stop_loss)) min_rr in
    let take_profit :=
      if bullish then _find_bsl_target entry_price (default [] swing_highs) min_reward
      else _find_ssl_target entry_price (default [] swing_lows) min_reward in
    let relevant_idm :=
      ZoneValidator.select_relevant_inducement ob direction inducement_events
        (Some (BreakInMarketStructure.breakout_price ltf_bms)) in
    fib_level ← _fib_level_str_for_candidate (config self) entry_price candidate_retracement;
    metadata ←
      _build_choch_metadata (config self)
        [("confluences", VInt confluences); ("htf_choch_is_minor", VBool (ChangeOfCharacter.is_minor htf_choch))]
        entry_price candidate_retracement ltf_sweep;
    candidate ← SMCCandidate.create {|
      SMCCandidate.symbol := CandleSequence.symbol ltf_sequence;
      SMCCandidate.timeframe := CandleSequence.timeframe ltf_sequence;
      SMCCandidate.pattern := if bullish then CHOCH_BMS_RTO_BULLISH else CHOCH_BMS_RTO_BEARISH;
      SMCCandidate.direction := direction;
      SMCCandidate.timestamp := Candle.timestamp last;
      SMCCandidate.entry_price := entry_price;
      SMCCandidate.stop_loss := stop_loss;
      SMCCandidate.take_profit := take_profit;
      SMCCandidate.htf_timeframe := CandleSequence.timeframe htf_sequence;
      SMCCandidate.ltf_timeframe := CandleSequence.timeframe ltf_sequence;
      SMCCandidate.bms_detected := true;
      SMCCandidate.bms_price := Some (BreakInMarketStructure.breakout_price ltf_bms);
      SMCCandidate.bms_timestamp := Some (BreakInMarketStructure.timestamp ltf_bms);
      SMCCandidate.choch_detected := true;
      SMCCandidate.choch_price := Some (ChangeOfCharacter.breakout_price htf_choch);
      SMCCandidate.choch_timestamp := Some (ChangeOfCharacter.timestamp htf_choch);
      SMCCandidate.sms_detected := false; SMCCandidate.sms_price := None; SMCCandidate.sms_timestamp := None;
      SMCCandidate.order_block_upper := Some (OrderBlock.upper_bound ob);
      SMCCandidate.order_block_lower := Some (OrderBlock.lower_bound ob);
      SMCCandidate.order_block_timestamp := Some (OrderBlock.timestamp ob);
      SMCCandidate.fvg_upper := None; SMCCandidate.fvg_lower := None; SMCCandidate.fvg_timestamp := None;
      SMCCandidate.liquidity_swept := is_some ltf_sweep;
      SMCCandidate.swept_level := LiquiditySweep.swept_level <$> ltf_sweep;
      SMCCandidate.sweep_timestamp := LiquiditySweep.timestamp <$> ltf_sweep;
      SMCCandidate.inducement_cleared := is_some relevant_idm;
      SMCCandidate.inducement_level := InducementEvent.inducement_level <$> relevant_idm;
      SMCCandidate.ltf_confirmation := ltf_confirmed;
      SMCCandidate.ltf_confirmation_timestamp := if ltf_confirmed then Some (Candle.timestamp last) else None;
      SMCCandidate.displacement_pips := Some (BreakInMarketStructure.displacement_pips ltf_bms);
      SMCCandidate.fib_level := fib_level;
      SMCCandidate.session_context := None;
      SMCCandidate.metadata := metadata |};
    Ok (Some candidate).

(** One half of [_build_choch_reversal_candidates]. *)
Definition choch_half (self : t) (bullish : bool) (htf_sequence ltf_sequence : CandleSequence.t)
    (htf_choch : list ChangeOfCharacter.t) (ltf_bms_list : list BreakInMarketStructure.t)
    (ltf_choch_list : list ChangeOfCharacter.t) (ltf_fvgs : list FairValueGap.t)
    (inducement_events : list InducementEvent.t) (sweeps : list LiquiditySweep.t)
    (ltf_swing_highs : option (list SwingHigh.t)) (ltf_swing_lows : option (list SwingLow.t))
    : res (list SMCCandidate.t) :=
  match CHOCHDetector.get_latest_choch htf_choch with
  | None => Ok []
  | Some latest_htf_choch =>
      refined ← collect (fun ltf_bms =>
          ltf_ob ← OrderBlockDetector.detect_ob (config self) bullish ltf_sequence ltf_bms;
          match ltf_ob with
          | None => Ok None
          | Some ob =>
              _build_choch_candidate self htf_sequence ltf_sequence latest_htf_choch ltf_bms
                (CHOCHDetector.get_latest_choch ltf_choch_list)
                (_find_relevant_sweep self sweeps (direction_of bullish) ltf_bms) ob ltf_fvgs
                inducement_events (direction_of bullish) ltf_swing_highs ltf_swing_lows
          end) ltf_bms_list;
      fallback ←
        match ltf_bms_list with
        | _ :: _ => Ok []
        | [] =>
            htf_bms_from_choch ← own_bms self bullish htf_sequence;
            match BMSDetector.get_latest_bms htf_bms_from_choch with
            | None => Ok []
            | Some latest_htf_bms =>
                htf_ob ← OrderBlockDetector.detect_ob (config self) bullish htf_sequence latest_htf_bms;
                match htf_ob with
                | None => Ok []
                | Some ob =>
                    candidate ←
                      _build_choch_candidate self htf_sequence ltf_sequence latest_htf_choch latest_htf_bms
                        None None ob ltf_fvgs inducement_events (direction_of bullish) ltf_swing_highs
                        ltf_swing_lows;
                    Ok (option_list candidate)
                end
            end
        end;
      Ok (refined ++ fallback)
  end.

Definition _build_choch_reversal_candidates (self : t) (htf_sequence ltf_sequence : CandleSequence.t)
    (htf_choch_bullish htf_choch_bearish : list ChangeOfCharacter.t)
    (ltf_bms_bullish ltf_bms_bearish : list BreakInMarketStructure.t)
    (ltf_choch_bullish ltf_choch_bearish : list ChangeOfCharacter.t) (ltf_fvgs : list FairValueGap.t)
    (inducement_events : list InducementEvent.t) (sweeps : list LiquiditySweep.t)
    (ltf_swing_highs : option (list SwingHigh.t)) (ltf_swing_lows : option (list SwingLow.t))
    : res (list SMCCandidate.t) :=
  bullish ← choch_half self true htf_sequence ltf_sequence htf_choch_bullish ltf_bms_bullish ltf_choch_bullish
              ltf_fvgs inducement_events sweeps ltf_swing_highs ltf_swing_lows;
  bearish ← choch_half self false htf_sequence ltf_sequence htf_choch_bearish ltf_bms_bearish ltf_choch_bearish
              ltf_fvgs inducement_events sweeps ltf_swing_highs ltf_swing_lows;
  Ok (bullish ++ bearish).

(** *** Continuations *)

(** One half of [_build_continuation_candidates]: blocks of the breaks of the
    higher timeframe, of the lower one, and of the lower changes of character. *)
Definition continuation_half (self : t) (bullish : bool) (htf_sequence ltf_sequence : CandleSequence.t)
    (htf_bms_list ltf_bms_list : list BreakInMarketStructure.t) (ltf_choch_list : list ChangeOfCharacter.t)
    (ltf_fvgs : list FairValueGap.t) (inducement_events : list InducementEvent.t)
    (sweeps : list LiquiditySweep.t) : res (list SMCCandidate.t) :=
  let direction := direction_of bullish in
  match BMSDetector.get_latest_bms htf_bms_list with
  | None => Ok []
  | Some latest_htf_bms =>
      let build ltf_sweep ltf_choch bms ob :=
        ContinuationBuilder.build_continuation (config self) (session_analyzer self) bullish htf_sequence
          ltf_sequence latest_htf_bms ltf_sweep ltf_choch bms ob ltf_fvgs inducement_events in
      let from_breaks sequence bms_list :=
        collect (fun bms =>
          ob ← OrderBlockDetector.detect_ob (config self) bullish sequence bms;
          match ob with
          | None => Ok None
          | Some ob =>
              build (_find_relevant_sweep self sweeps direction bms)
                (CHOCHDetector.get_latest_choch ltf_choch_list) bms ob
          end) bms_list in
      from_htf ← from_breaks htf_sequence htf_bms_list;
      from_ltf ← from_breaks ltf_sequence ltf_bms_list;
      from_choch ←
          collect (fun ltf_choch_event =>
            choch_ob ← OrderBlockDetector.detect_ob_from_choch ltf_sequence ltf_choch_event;
            match choch_ob with
            | None => Ok None
            | Some ob =>
                if negb (bool_decide (OrderBlock.direction ob = direction)) then Ok None
                else build (_find_relevant_sweep self sweeps direction latest_htf_bms)
                       (Some ltf_choch_event) latest_htf_bms ob
            end) ltf_choch_list;
      Ok (from_htf ++ from_ltf ++ from_choch)
  end.

Definition _build_continuation_candidates (self : t) (htf_sequence ltf_sequence : CandleSequence.t)
    (htf_bms_bullish htf_bms_bearish ltf_bms_bullish ltf_bms_bearish : list BreakInMarketStructure.t)
    (ltf_choch_bullish ltf_choch_bearish : list ChangeOfCharacter.t) (ltf_fvgs : list FairValueGap.t)
    (inducement_events : list InducementEvent.t) (sweeps : list LiquiditySweep.t) : res (list SMCCandidate.t) :=
  bullish ← continuation_half self true htf_sequence ltf_sequence htf_bms_bullish ltf_bms_bullish
              ltf_choch_bullish ltf_fvgs inducement_events sweeps;
  bearish ← continuation_half self false htf_sequence ltf_sequence htf_bms_bearish ltf_bms_bearish
              ltf_choch_bearish ltf_fvgs inducement_events sweeps;
  Ok (bullish ++ bearish).

(** *** Failure swings *)

(** The window for a pairing of a failure swing with a block, in microseconds. *)
Definition sms_coherence_window (self : t) (htf_sequence : CandleSequence.t) : Z :=
  TIMEFRAME_MINUTES (CandleSequence.timeframe htf_sequence) * SMCConfig.sms_max_ob_candle_distance (config self)
  * us_per_minute.

Definition incoherent (window : Z) (ob : OrderBlock.t) (sms : ShiftInMarketStructure.t) : bool :=
  window <? Z.abs (instant (OrderBlock.timestamp ob) - instant (ShiftInMarketStructure.timestamp sms)).

(** One half of [_build_reversal_candidates]. *)
Definition reversal_half {A} `{SwingLevel A} (self : t) (bullish : bool)
    (htf_sequence ltf_sequence : CandleSequence.t) (htf_sms_list : list ShiftInMarketStructure.t)
    (ltf_bms_list : list BreakInMarketStructure.t) (ltf_choch_list : list ChangeOfCharacter.t)
    (ltf_fvgs : list FairValueGap.t) (inducement_events : list InducementEvent.t)
    (ltf_swings : option (list A)) : res (list SMCCandidate.t) :=
  let window := sms_coherence_window self htf_sequence in
  match SMSDetector.get_latest_sms htf_sms_list with
  | None => Ok []
  | Some latest_htf_sms =>
      let build bms choch ob :=
        ReversalBuilder.build_sms_reversal (config self) (session_analyzer self) bullish htf_sequence ltf_sequence
          latest_htf_sms bms choch ob ltf_fvgs inducement_events ltf_swings in
      refined ← collect (fun ltf_bms =>
          ltf_ob ← OrderBlockDetector.detect_ob (config self) bullish ltf_sequence ltf_bms;
          match ltf_ob with
          | None => Ok None
          | Some ob =>
              if incoherent window ob latest_htf_sms then Ok None
              else build ltf_bms (CHOCHDetector.get_latest_choch ltf_choch_list) ob
          end) ltf_bms_list;
      fallback ←
        match ltf_bms_list with
        | _ :: _ => Ok []
        | [] =>
            collect (fun _htf_sms =>
              htf_bms_from_sms ← own_bms self bullish htf_sequence;
              match BMSDetector.get_latest_bms htf_bms_from_sms with
              | None => Ok None
              | Some latest_htf_bms =>
                  htf_ob ← OrderBlockDetector.detect_ob (config self) bullish htf_sequence latest_htf_bms;
                  match htf_ob with
                  | None => Ok None
                  | Some ob =>
                      if incoherent window ob latest_htf_sms then Ok None else build latest_htf_bms None ob
                  end
              end) htf_sms_list
        end;
      Ok (refined ++ fallback)
  end.

Definition _build_reversal_candidates (self : t) (htf_sequence ltf_sequence : CandleSequence.t)
    (htf_sms_bullish htf_sms_bearish : list ShiftInMarketStructure.t)
    (ltf_bms_bullish ltf_bms_bearish : list BreakInMarketStructure.t)
    (ltf_choch_bullish ltf_choch_bearish : list ChangeOfCharacter.t) (ltf_fvgs : list FairValueGap.t)
    (inducement_events : list InducementEvent.t) (ltf_swing_highs : option (list SwingHigh.t))
    (ltf_swing_lows : option (list SwingLow.t)) : res (list SMCCandidate.t) :=
  bullish ← reversal_half self true htf_sequence ltf_sequence htf_sms_bullish ltf_bms_bullish
              ltf_choch_bullish ltf_fvgs inducement_events ltf_swing_highs;
  bearish ← reversal_half self false htf_sequence ltf_sequence htf_sms_bearish ltf_bms_bearish
              ltf_choch_bearish ltf_fvgs inducement_events ltf_swing_lows;
  Ok (bullish ++ bearish).

(** *** Turtle soups *)

Definition latest_sweep (sweeps : list LiquiditySweep.t) : option LiquiditySweep.t :=
  py_max_opt (fun a b => dt_ltb (LiquiditySweep.timestamp b) (LiquiditySweep.timestamp a)) sweeps.

Definition _build_turtle_soup_candidates (self : t) (ltf_sequence : CandleSequence.t)
    (turtle_soup_long turtle_soup_short : list LiquiditySweep.t) (ltf_swing_highs : option (list SwingHigh.t))
    (ltf_swing_lows : option (list SwingLow.t)) : res (list SMCCandidate.t) :=
  long ← match latest_sweep turtle_soup_long with
         | None => Ok None
         | Some latest_long =>
             ReversalBuilder.build_turtle_soup_long (config self) (session_analyzer self) ltf_sequence latest_long
               ltf_swing_highs
         end;
  short ← match latest_sweep turtle_soup_short with
          | None => Ok None
          | Some latest_short =>
              ReversalBuilder.build_turtle_soup_short (config self) (session_analyzer self) ltf_sequence latest_short
                ltf_swing_lows
          end;
  Ok (option_list long ++ option_list short).

(** *** Distribution *)

Definition amd_half {A} `{SwingLevel A} (self : t) (bullish : bool) (htf_sequence ltf_sequence : CandleSequence.t)
    (amd_context : AMDContext.t) (ltf_bms_list : list BreakInMarketStructure.t)
    (ltf_choch_list : list ChangeOfCharacter.t) (ltf_fvgs : list FairValueGap.t)
    (inducement_events : list InducementEvent.t) (sweeps : list LiquiditySweep.t) (ltf_swings : option (list A))
    : res (list SMCCandidate.t) :=
  collect (fun ltf_bms =>
    ltf_ob ← OrderBlockDetector.detect_ob (config self) bullish ltf_sequence ltf_bms;
    match ltf_ob with
    | None => Ok None
    | Some ob =>
        AMDCandidateBuilder.build_amd (config self) (session_analyzer self) bullish htf_sequence ltf_sequence
          amd_context (_find_relevant_sweep self sweeps (direction_of bullish) ltf_bms) ltf_bms
          (CHOCHDetector.get_latest_choch ltf_choch_list) ob ltf_fvgs inducement_events ltf_swings
    end) ltf_bms_list.

Definition _build_amd_candidates (self : t) (htf_sequence ltf_sequence : CandleSequence.t)
    (amd_context : AMDContext.t) (ltf_bms_bullish ltf_bms_bearish : list BreakInMarketStructure.t)
    (ltf_choch_bullish ltf_choch_bearish : list ChangeOfCharacter.t) (ltf_fvgs : list FairValueGap.t)
    (inducement_events : list InducementEvent.t) (sweeps : list LiquiditySweep.t)
    (ltf_swing_highs : option (list SwingHigh.t)) (ltf_swing_lows : option (list SwingLow.t))
    : res (list SMCCandidate.t) :=
  if bool_decide (AMDContext.distribution_direction amd_context = Some BULLISH) then
    amd_half self true htf_sequence ltf_sequence amd_context ltf_bms_bullish ltf_choch_bullish ltf_fvgs
      inducement_events sweeps ltf_swing_highs
  else if bool_decide (AMDContext.distribution_direction amd_context = Some BEARISH) then
    amd_half self false htf_sequence ltf_sequence amd_context ltf_bms_bearish ltf_choch_bearish ltf_fvgs
      inducement_events sweeps ltf_swing_lows
  else Ok [].

(** *** The entry point *)

Definition detect_patterns (self : t) (htf_sequence ltf_sequence : CandleSequence.t)
    : res (list SMCCandidate.t) :=
  let cfg := config self in
  if negb (SMCConfig.enabled cfg) then Ok []
  else
    htf_swing_highs ← SwingAnalyzer.detect_swing_highs (swing_analyzer self) htf_sequence;
    htf_swing_lows ← SwingAnalyzer.detect_swing_lows (swing_analyzer self) htf_sequence;
    htf_bms_bullish ← BMSDetector.detect_bullish_bms cfg htf_sequence htf_swing_highs;
    htf_bms_bearish ← BMSDetector.detect_bearish_bms cfg htf_sequence htf_swing_lows;
    htf_sms_bullish ← SMSDetector.detect_bullish_sms htf_sequence htf_swing_lows;
    htf_sms_bearish ← SMSDetector.detect_bearish_sms htf_sequence htf_swing_highs;
    htf_choch_bullish ← CHOCHDetector.detect_bullish_choch htf_sequence htf_swing_highs;
    htf_choch_bearish ← CHOCHDetector.detect_bearish_choch htf_sequence htf_swing_lows;
    ltf_swing_highs ← SwingAnalyzer.detect_swing_highs (swing_analyzer self) ltf_sequence;
    ltf_swing_lows ← SwingAnalyzer.detect_swing_lows (swing_analyzer self) ltf_sequence;
    ltf_bms_bullish ← BMSDetector.detect_bullish_bms cfg ltf_sequence ltf_swing_highs;
    ltf_bms_bearish ← BMSDetector.detect_bearish_bms cfg ltf_sequence ltf_swing_lows;
    ltf_choch_bullish ← CHOCHDetector.detect_bullish_choch ltf_sequence ltf_swing_highs;
    ltf_choch_bearish ← CHOCHDetector.detect_bearish_choch ltf_sequence ltf_swing_lows;
    ltf_fvgs ← FVGDetector.detect_fvgs cfg ltf_sequence;
    ltf_inducement_bullish ← InducementDetector.detect_bullish_inducement cfg ltf_sequence ltf_swing_lows;
    ltf_inducement_bearish ← InducementDetector.detect_bearish_inducement cfg ltf_sequence ltf_swing_highs;
    turtle_soup_long ←
      (if SMCConfig.enable_turtle_soup cfg
       then TurtleSoupDetector.detect_turtle_soup_long cfg (sweep_analyzer self) ltf_sequence ltf_swing_lows
       else Ok []);
    turtle_soup_short ←
      (if SMCConfig.enable_turtle_soup cfg
       then TurtleSoupDetector.detect_turtle_soup_short cfg (sweep_analyzer self) ltf_sequence ltf_swing_highs
       else Ok []);
    amd_context ←
      (if SMCConfig.enable_amd cfg
       then AMDDetector.detect_amd_context (dealing_range_analyzer self) ltf_sequence else Ok None);
    htf_fvgs ← FVGDetector.detect_fvgs cfg htf_sequence;
    let all_fvgs := ltf_fvgs ++ htf_fvgs in
    let all_inducements := ltf_inducement_bullish ++ ltf_inducement_bearish in
    ltf_all_sweeps ← SweepAnalyzer.detect_sweeps_in_sequence (sweep_analyzer self) ltf_sequence ltf_swing_highs
                       ltf_swing_lows;
    let all_sweeps := ltf_all_sweeps ++ turtle_soup_long ++ turtle_soup_short in
    continuation ←
      (if SMCConfig.enable_sh_bms_rto cfg
       then _build_continuation_candidates self htf_sequence ltf_sequence htf_bms_bullish htf_bms_bearish
              ltf_bms_bullish ltf_bms_bearish ltf_choch_bullish ltf_choch_bearish all_fvgs all_inducements
              all_sweeps
       else Ok []);
    reversal ←
      (if SMCConfig.enable_sms_bms_rto cfg
       then _build_reversal_candidates self htf_sequence ltf_sequence htf_sms_bullish htf_sms_bearish
              ltf_bms_bullish ltf_bms_bearish ltf_choch_bullish ltf_choch_bearish all_fvgs all_inducements
              (Some ltf_swing_highs) (Some ltf_swing_lows)
       else Ok []);
    choch_reversal ←
      (if SMCConfig.enable_choch_reversal cfg
       then _build_choch_reversal_candidates self htf_sequence ltf_sequence htf_choch_bullish htf_choch_bearish
              ltf_bms_bullish ltf_bms_bearish ltf_choch_bullish ltf_choch_bearish all_fvgs all_inducements
              all_sweeps (Some ltf_swing_highs) (Some ltf_swing_lows)
       else Ok []);
    turtle_soup ←
      (if SMCConfig.enable_turtle_soup cfg
       then _build_turtle_soup_candidates self ltf_sequence turtle_soup_long turtle_soup_short
              (Some ltf_swing_highs) (Some ltf_swing_lows)
       else Ok []);
    amd ←
      match SMCConfig.enable_amd cfg, amd_context with
      | true, Some context =>
          _build_amd_candidates self htf_sequence ltf_sequence context ltf_bms_bullish ltf_bms_bearish
            ltf_choch_bullish ltf_choch_bearish all_fvgs all_inducements all_sweeps (Some ltf_swing_highs)
            (Some ltf_swing_lows)
      | _, _ => Ok []
      end;
    Ok (continuation ++ reversal ++ choch_reversal ++ turtle_soup ++ amd).
End SMCDetector.
