(* ===== verification/SMCSoundness.v ===== *)
(** * Soundness of the SMC candidates

    Every candidate a builder returns has its stop on the losing side of the
    entry, beyond the order block and the invalidation level, and its target, when
    it has one, on the winning side at no less than the multiple of the risk that
    the timeframe of its block, or of the lower sequence, requires.  The detector composes the builders with events taken from candles, so
    the same holds of everything it emits. *)

From Stdlib Require Import ZArith Lia Bool String Sorting.Sorted.
From stdpp Require Import base list strings.
From S2P Require Import Prelude Loops PyFloat FloatRound FloatMono FloatGrid PyRound PyText PyRepr Constants PriceMath StopLoss Candles Swings Sessions Fibonacci Liquidity ZoneModels StructureModels SMCConfig Candidates CandlePatterns SMCStructure SMCLiquidity SMCZones SMCValidators SMCBuilders SMCDetector.

#[local] Open Scope string_scope.
#[local] Open Scope Z_scope.
#[local] Open Scope list_scope.

Module BuilderFacts.
Import ZoneFacts CandidateFacts.

(** ** Targets *)

Section Target.
Context (above : bool) (entry : float) (prices : list float) (min_reward : float).

Definition eligible (p : float) : bool :=
  if above then flt entry p && fle min_reward (fsub p entry)
  else flt p entry && fle min_reward (fsub entry p).

(** Nearer to the entry on the target side. *)
Definition nearer (p q : float) : Prop := if above then fv p <= fv q else fv q <= fv p.

Lemma nearest_target_None :
  Builder.nearest_target above entry prices min_reward = None <-> forall p, In p prices -> eligible p = false.
Proof.
  unfold Builder.nearest_target. cbv zeta. fold eligible.
  assert (Hf : List.filter eligible prices = [] <-> forall p, In p prices -> eligible p = false).
  { induction prices as [|x l IH]; cbn [List.filter In]; [split; [by intros|done]|].
    destruct (eligible x) eqn:E.
    - split; [done|]. intros H. specialize (H x (or_introl eq_refl)). congruence.
    - rewrite IH. split; [intros H p [<-|Hp]; auto|auto]. }
  rewrite <- Hf. by destruct (List.filter eligible prices).
Qed.

Lemma nearest_target_Some p :
  (forall x, In x prices -> num x) ->
  Builder.nearest_target above entry prices min_reward = Some p ->
  In p prices /\ eligible p = true /\ forall q, In q prices -> eligible q = true -> nearer p q.
Proof.
  intros Hn. unfold Builder.nearest_target. cbv zeta. fold eligible.
  destruct (List.filter eligible prices) as [|x l] eqn:E; [done|]. cbn [py_max_opt]. intros [= <-].
  set (m := py_max_from _ x l).
  assert (Hin : forall y, In y (x :: l) <-> In y prices /\ eligible y = true)
    by (intros y; rewrite <- E; apply filter_In).
  assert (Hm : In m (x :: l)).
  { unfold m. destruct (py_max_from_In (fun a b => if above then flt a b else flt b a) l x) as [->|H];
      [by left|by right]. }
  apply Hin in Hm as [Hm1 Hm2]. split; [done|]. split; [done|]. intros q Hq1 Hq2.
  assert (Hub := py_max_from_ub (fun a b => if above then flt a b else flt b a)
    (fun a => if above then - fv a else fv a) l x).
  unfold nearer. assert (Hq : In q (x :: l)) by (by apply Hin).
  specialize (Hub ltac:(intros a b Ha Hb; apply Hin in Ha as [Ha _], Hb as [Hb _];
    destruct above; rewrite flt_fv by auto; [apply Bool.eq_iff_eq_true; rewrite !Z.ltb_lt; lia|done]) q Hq).
  cbv beta in Hub. fold m in Hub. destruct above; lia.
Qed.
End Target.

(** ** Order blocks as entries *)

Record ob_ok (ob : OrderBlock.t) : Prop := {
  ob_upper : price_ok (OrderBlock.upper_bound ob); ob_lower : price_ok (OrderBlock.lower_bound ob);
  ob_order : fv (OrderBlock.lower_bound ob) < fv (OrderBlock.upper_bound ob) }.

(** Twice a price is a float. *)
Lemma double_price x : price_ok x -> exists z, fin z /\ fv z = 2 * fv x.
Proof.
  intros [Fx Hx]. apply double_moderate. split; [done|]. assert (fv max_price < 2 ^ 53 * unit_pow 0) by done. lia.
Qed.

(** The average of two prices is between them. *)
Lemma average_between u l :
  price_ok u -> price_ok l -> fv l <= fv u ->
  fdiv (fadd u l) (of_Z 2) = Ok (fdiv_ieee (fadd u l) (of_Z 2)) /\
  fin (fdiv_ieee (fadd u l) (of_Z 2)) /\ fv l <= fv (fdiv_ieee (fadd u l) (of_Z 2)) <= fv u.
Proof.
  intros Hu Hl Ho. destruct (double_price _ Hu) as (zu & Fzu & Ezu), (double_price _ Hl) as (zl & Fzl & Ezl).
  destruct Hu as [Fu Hu], Hl as [Fl Hl]. pose proof (fadd_rounds u l Fu Fl) as R.
  assert (Fs : fin (fadd u l)) by (apply (rounds_fin _ _ _ zl zu R); done || lia).
  assert (Hs : 2 * fv l <= fv (fadd u l) <= 2 * fv u).
  { destruct R as (_ & Rup & Rlo). split; [rewrite <- Ezl; apply Rlo|rewrite <- Ezu; apply Rup]; done || lia. }
  assert (F2 : fin (of_Z 2)) by done. assert (E2 : fv (of_Z 2) = 2 * unit_pow 0) by (apply of_Z_exact; lia).
  assert (HU : 0 < unit_pow 0) by done.
  destruct (fdiv_rounds (fadd u l) (of_Z 2) Fs F2 ltac:(lia)) as [-> R2]. rewrite E2 in R2.
  split; [done|]. split; [apply (rounds_fin _ _ _ l u R2); [done|done|nia|nia]|].
  destruct R2 as (_ & Rup & Rlo). split; [apply Rlo|apply Rup]; done || nia.
Qed.

Lemma midpoint_between ob :
  ob_ok ob -> fin (OrderBlock.midpoint ob) /\
    fv (OrderBlock.lower_bound ob) <= fv (OrderBlock.midpoint ob) <= fv (OrderBlock.upper_bound ob).
Proof.
  intros [Hu Hl Ho]. unfold OrderBlock.midpoint, half.
  destruct (average_between _ _ Hu Hl ltac:(lia)) as [-> ?]. done.
Qed.

(** ** Stops *)

(** The stop of either direction, beyond the level and beyond the edge. *)
Lemma stop_spec symbol tf (bullish : bool) level edge :
  price_ok level -> edge_ok edge ->
  let sl := compute_structural_stop_loss symbol tf (direction_of bullish) level edge None in
  num sl /\ (if bullish then fv sl < fv level else fv level < fv sl) /\
  forall e, edge = Some e -> if bullish then fv sl < fv e else fv e < fv sl.
Proof.
  intros [Fl Hl] He sl. subst sl. unfold compute_structural_stop_loss. cbv zeta.
  destruct (structural_buffer_facts symbol tf None I) as (Fb & _).
  assert (Hup := fun x Fx Hx => stop_above symbol tf None x I Fx Hx).
  assert (Hdn := fun x Fx Hx => stop_below symbol tf None x I Fx Hx).
  destruct bullish; cbn [direction_of]; case_decide; try done; (destruct edge as [e|]; [destruct He as [Fe He]|]).
  - destruct (fmin_num (fsub level (structural_buffer symbol tf None)) (fsub e (structural_buffer symbol tf None)))
      as [N E]; [by apply fsub_num..|].
    specialize (Hdn level Fl Hl) as H1. specialize (Hdn e Fe He) as H2. rewrite E.
    split; [done|]. split; [lia|]. intros e' [= <-]. lia.
  - split; [by apply fsub_num|]. split; [by apply Hdn|done].
  - destruct (fmax_num (fadd level (structural_buffer symbol tf None)) (fadd e (structural_buffer symbol tf None)))
      as [N E]; [by apply fadd_num..|].
    specialize (Hup level Fl ltac:(lia)) as H1. specialize (Hup e Fe ltac:(lia)) as H2. rewrite E.
    split; [done|]. split; [lia|]. intros e' [= <-]. lia.
  - split; [by apply fadd_num|]. split; [apply Hup; [done|lia]|done].
Qed.

(** ** Sound candidates *)

Definition pattern_side (p : CandidatePattern) : option bool :=
  match p with
  | TURTLE_SOUP_LONG | SH_BMS_RTO_BULLISH | SMS_BMS_RTO_BULLISH | CHOCH_BMS_RTO_BULLISH | AMD_BULLISH => Some true
  | TURTLE_SOUP_SHORT | SH_BMS_RTO_BEARISH | SMS_BMS_RTO_BEARISH | CHOCH_BMS_RTO_BEARISH | AMD_BEARISH =>
      Some false
  | _ => None
  end.

(** [a] is below [b], or above it on the other side. *)
Definition beneath (bullish : bool) (a b : float) : bool := if bullish then flt a b else flt b a.

(** The patterns whose multiple goes by the timeframe of their order block. *)
Definition block_priced (p : CandidatePattern) : bool :=
  match p with
  | SH_BMS_RTO_BULLISH | SH_BMS_RTO_BEARISH | SMS_BMS_RTO_BULLISH | SMS_BMS_RTO_BEARISH => true
  | _ => false
  end.

(** The sequence whose timeframe sets the multiple of a candidate: for a continuation
    and a failure swing the one that holds the candle of the order block, otherwise
    the lower one. *)
Definition priced_by (htf ltf : CandleSequence.t) (c : SMCCandidate.t) (q : CandleSequence.t) : Prop :=
  if block_priced (SMCCandidate.pattern c) then
    (q = htf \/ q = ltf) /\
    exists k, In k (CandleSequence.candles q) /\ SMCCandidate.order_block_upper c = Some (Candle.high k) /\
      SMCCandidate.order_block_lower c = Some (Candle.low k) /\
      SMCCandidate.order_block_timestamp c = Some (Candle.timestamp k)
  else q = ltf.

(** Pattern and direction agree; the candidate is of the lower timeframe; the stop is
    on the losing side of the entry and, with an order block, beyond the block that
    contains the entry; the target is on the winning side and pays the multiple of
    the risk its timeframe requires. *)
Definition sound (htf ltf : CandleSequence.t) (c : SMCCandidate.t) : Prop :=
  exists bullish q, pattern_side (SMCCandidate.pattern c) = Some bullish /\
    SMCCandidate.direction c = direction_of bullish /\
    SMCCandidate.timeframe c = CandleSequence.timeframe ltf /\ priced_by htf ltf c q /\
    beneath bullish (SMCCandidate.stop_loss c) (SMCCandidate.entry_price c) = true /\
    (forall l u, SMCCandidate.order_block_lower c = Some l -> SMCCandidate.order_block_upper c = Some u ->
       fle l (SMCCandidate.entry_price c) = true /\ fle (SMCCandidate.entry_price c) u = true /\
       beneath bullish (SMCCandidate.stop_loss c) (if bullish then l else u) = true) /\
    (forall tp, SMCCandidate.take_profit c = Some tp ->
       beneath bullish (SMCCandidate.entry_price c) tp = true /\
       fle (fmul (fabs (fsub (SMCCandidate.entry_price c) (SMCCandidate.stop_loss c)))
              (timeframe_min_tp_rr (CandleSequence.timeframe q)))
           (if bullish then fsub tp (SMCCandidate.entry_price c)
            else fsub (SMCCandidate.entry_price c) tp) = true).

(** The block is a candle of the sequence. *)
Definition found_in (q : CandleSequence.t) (ob : OrderBlock.t) : Prop :=
  OrderBlock.timeframe ob = CandleSequence.timeframe q /\
  exists k, In k (CandleSequence.candles q) /\ OrderBlock.upper_bound ob = Candle.high k /\
    OrderBlock.lower_bound ob = Candle.low k /\ OrderBlock.timestamp ob = Candle.timestamp k.

Lemma resolve_tf tf : resolve_min_tp_rr (Some tf) None None = Ok (timeframe_min_tp_rr tf).
Proof. reflexivity. Qed.

(** The constructor keeps the priced fields. *)
Lemma create_keeps a c :
  SMCCandidate.create a = Ok c ->
  SMCCandidate.pattern c = SMCCandidate.pattern a /\ SMCCandidate.direction c = SMCCandidate.direction a /\
  SMCCandidate.entry_price c = SMCCandidate.entry_price a /\ SMCCandidate.stop_loss c = SMCCandidate.stop_loss a /\
  SMCCandidate.take_profit c = SMCCandidate.take_profit a /\
  SMCCandidate.order_block_lower c = SMCCandidate.order_block_lower a /\
  SMCCandidate.order_block_upper c = SMCCandidate.order_block_upper a /\
  SMCCandidate.order_block_timestamp c = SMCCandidate.order_block_timestamp a /\
  SMCCandidate.timeframe c = SMCCandidate.timeframe a.
Proof. unfold SMCCandidate.create. intros H. inv_binds. inv_candidate. subst c. done. Qed.

(** A target found by any of the selectors. *)
Lemma target_pays above entry prices risk tf tp :
  Builder.nearest_target above entry prices (fmul risk (timeframe_min_tp_rr tf)) = Some tp ->
  beneath above entry tp = true /\
  fle (fmul risk (timeframe_min_tp_rr tf)) (if above then fsub tp entry else fsub entry tp) = true.
Proof.
  unfold Builder.nearest_target. cbv zeta. set (f := List.filter _ prices).
  assert (Hf : forall x, In x f -> eligible above entry (fmul risk (timeframe_min_tp_rr tf)) x = true)
    by (intros x Hx; by apply filter_In in Hx as [_ Hx]).
  destruct f as [|x l]; [done|]. cbn [py_max_opt]. intros [= <-].
  assert (Hin : In (py_max_from (fun a b => if above then flt a b else flt b a) x l) (x :: l)).
  { destruct (py_max_from_In (fun a b => if above then flt a b else flt b a) l x) as [->|H]; [by left|by right]. }
  apply Hf in Hin. unfold eligible, beneath in *. destruct above; by apply andb_prop in Hin.
Qed.

Lemma sound_of_block a c bullish htf ltf q ob symbol tf level prices rr :
  SMCCandidate.create a = Ok c -> ob_ok ob -> price_ok level -> priced_by htf ltf a q ->
  rr = timeframe_min_tp_rr (CandleSequence.timeframe q) ->
  pattern_side (SMCCandidate.pattern a) = Some bullish -> SMCCandidate.direction a = direction_of bullish ->
  SMCCandidate.timeframe a = CandleSequence.timeframe ltf ->
  SMCCandidate.entry_price a = OrderBlock.midpoint ob ->
  SMCCandidate.stop_loss a =
    compute_structural_stop_loss symbol tf (direction_of bullish) level
      (Some (if bullish then OrderBlock.lower_bound ob else OrderBlock.upper_bound ob)) None ->
  SMCCandidate.take_profit a =
    Builder.nearest_target bullish (OrderBlock.midpoint ob) prices
      (fmul (fabs (fsub (OrderBlock.midpoint ob) (SMCCandidate.stop_loss a))) rr) ->
  SMCCandidate.order_block_lower a = Some (OrderBlock.lower_bound ob) ->
  SMCCandidate.order_block_upper a = Some (OrderBlock.upper_bound ob) ->
  sound htf ltf c.
Proof.
  intros Hc Hob Hlv Hq -> Hp Hd Htf He Hs Ht Hl Hu.
  apply create_keeps in Hc as (Ep & Ed & Ee & Es & Et & El & Eu & Ets & Etf).
  destruct (midpoint_between ob Hob) as [Fm Hm]. destruct Hob as [[Fu Hup] [Fl Hlp] Ho].
  destruct (stop_spec symbol tf bullish level
    (Some (if bullish then OrderBlock.lower_bound ob else OrderBlock.upper_bound ob)) Hlv) as (Ns & _ & Hedge).
  { destruct bullish; cbn; split; try done; lia. }
  specialize (Hedge _ eq_refl). rewrite <- Hs in Ns, Hedge.
  exists bullish, q. unfold priced_by in *.
  rewrite Ep, Ed, Ee, Es, Et, El, Eu, Ets, Etf, He. split; [done|]. split; [done|]. split; [done|]. split; [done|].
  rewrite Hl, Hu. split; [|split].
  - unfold beneath. destruct bullish; rewrite flt_fv by auto with etradie; apply Z.ltb_lt; lia.
  - intros l u [= <-] [= <-]. rewrite !fle_fv, !Z.leb_le by auto with etradie. split; [lia|]. split; [lia|].
    unfold beneath. destruct bullish; rewrite flt_fv by auto with etradie; apply Z.ltb_lt; lia.
  - intros tp Htp. rewrite Ht in Htp. by apply target_pays in Htp.
Qed.

(** *** The builders *)

(** Walk a builder that returned a candidate: its guards passed. *)
Ltac inv_builder H :=
  repeat first
    [ progress inv_binds
    | match type of H with
      | (if negb ?b then _ else _) = _ => destruct b eqn:?; cbn [negb] in H
      | (if ?b then _ else _) = _ => destruct b eqn:?
      end ];
  try discriminate H.

(** The level a stop is anchored at: the protective level, else the edge. *)
Lemma structural_stop_eq ob bullish prot :
  Builder.structural_stop_loss ob (direction_of bullish) prot =
  compute_structural_stop_loss (OrderBlock.symbol ob) (OrderBlock.timeframe ob) (direction_of bullish)
    (default (if bullish then OrderBlock.lower_bound ob else OrderBlock.upper_bound ob) prot)
    (Some (if bullish then OrderBlock.lower_bound ob else OrderBlock.upper_bound ob)) None.
Proof. unfold Builder.structural_stop_loss, Builder.ob_edge. cbv zeta. by destruct bullish, prot. Qed.

Lemma protective_ok ob (bullish : bool) prot :
  ob_ok ob -> (forall p, prot = Some p -> price_ok p) ->
  price_ok (default (if bullish then OrderBlock.lower_bound ob else OrderBlock.upper_bound ob) prot).
Proof. intros [Hu Hl _] Hp. destruct prot as [p|]; cbn; [by apply Hp|]. by destruct bullish. Qed.

Definition sweep_priced (s : LiquiditySweep.t) : Prop :=
  price_ok (LiquiditySweep.sweep_low s) /\ price_ok (LiquiditySweep.sweep_high s).

(** A target of a selector: the nearest eligible price. *)
Definition selected (bullish : bool) (entry stop rr : float) (tp : option float) : Prop :=
  exists prices, tp = Builder.nearest_target bullish entry prices (fmul (fabs (fsub entry stop)) rr).

Lemma continuation_target_selected config bullish htf entry stop rr tp :
  ContinuationBuilder.continuation_target config bullish htf entry stop rr = Ok tp ->
  selected bullish entry stop rr tp.
Proof.
  unfold ContinuationBuilder.continuation_target. destruct bullish; intros H; inv_binds; subst tp;
    eexists; reflexivity.
Qed.

(** The call of the constructor that ends a builder.  Left over: the price of
    the level the stop is anchored at, the sequence that sets the multiple, and its
    timeframe. *)
Ltac by_block bullish ob q :=
  match goal with Hc : SMCCandidate.create _ = Ok ?c, Hob : ob_ok ob |- sound _ _ ?c =>
    eapply (sound_of_block _ _ bullish _ _ q ob _ _ _ _ _ Hc Hob);
    [ | | | first [reflexivity | by destruct bullish] | reflexivity | reflexivity | reflexivity
      | first [reflexivity | apply structural_stop_eq] | reflexivity | reflexivity | reflexivity ]
  end.

(** A block of one of the two sequences sets the multiple of the patterns that go by
    it. *)
Lemma priced_by_block htf ltf a ob q :
  found_in q ob -> q = htf \/ q = ltf -> block_priced (SMCCandidate.pattern a) = true ->
  SMCCandidate.order_block_upper a = Some (OrderBlock.upper_bound ob) ->
  SMCCandidate.order_block_lower a = Some (OrderBlock.lower_bound ob) ->
  SMCCandidate.order_block_timestamp a = Some (OrderBlock.timestamp ob) -> priced_by htf ltf a q.
Proof.
  intros (_ & k & Hk & Eu & El & Et) Hq Hp Hu Hl Ht. unfold priced_by. rewrite Hp, Hu, Hl, Ht, Eu, El, Et.
  split; [done|]. by exists k.
Qed.

Lemma continuation_sound config sa bullish htf ltf q htf_bms sweep choch bms ob fvgs idms c :
  ob_ok ob -> found_in q ob -> q = htf \/ q = ltf -> (forall s, sweep = Some s -> sweep_priced s) ->
  ContinuationBuilder.build_continuation config sa bullish htf ltf htf_bms sweep choch bms ob fvgs idms =
    Ok (Some c) -> sound htf ltf c.
Proof.
  intros Hob Hf Hq Hsw H. unfold ContinuationBuilder.build_continuation in H. cbv zeta in H. inv_builder H. subst c.
  match goal with E : resolve_min_tp_rr _ _ _ = Ok _ |- _ => rewrite resolve_tf in E; injection E as <- end.
  match goal with E : ContinuationBuilder.continuation_target _ _ _ _ _ _ = Ok _ |- _ =>
    apply continuation_target_selected in E as [prices ->] end.
  by_block bullish ob q.
  - apply protective_ok; [done|]. intros p. destruct bullish, sweep as [s|]; cbn; intros [= <-]; by apply Hsw.
  - apply (priced_by_block _ _ _ ob); try done. by destruct bullish.
  - by rewrite (proj1 Hf).
Qed.

(** The multiple of the timeframe, in every builder. *)
Ltac inv_multiple :=
  match goal with E : resolve_min_tp_rr _ _ _ = Ok _ |- _ => rewrite resolve_tf in E; injection E as <- end.

Lemma sms_reversal_sound {A} `{SwingLevel A} config sa bullish htf ltf q sms bms choch ob fvgs idms
    (swings : option (list A)) c :
  ob_ok ob -> found_in q ob -> q = htf \/ q = ltf -> price_ok (ShiftInMarketStructure.failed_level sms) ->
  ReversalBuilder.build_sms_reversal config sa bullish htf ltf sms bms choch ob fvgs idms swings = Ok (Some c) ->
  sound htf ltf c.
Proof.
  intros Hob Hf Hq Hsms Hr. unfold ReversalBuilder.build_sms_reversal in Hr. cbv zeta in Hr. inv_builder Hr. subst c.
  inv_multiple. by_block bullish ob q; [done| |by rewrite (proj1 Hf)].
  apply (priced_by_block _ _ _ ob); try done. by destruct bullish.
Qed.

Lemma amd_sound {A} `{SwingLevel A} config sa bullish htf ltf ctx sweep bms choch ob fvgs idms
    (swings : option (list A)) c :
  ob_ok ob -> OrderBlock.timeframe ob = CandleSequence.timeframe ltf ->
  (forall r, AMDContext.asian_range ctx = Some r -> price_ok (DealingRange.low r) /\ price_ok (DealingRange.high r)) ->
  AMDCandidateBuilder.build_amd config sa bullish htf ltf ctx sweep bms choch ob fvgs idms swings = Ok (Some c) ->
  sound htf ltf c.
Proof.
  intros Hob Htf Hrange Hr. unfold AMDCandidateBuilder.build_amd in Hr. cbv zeta in Hr. inv_builder Hr. subst c.
  inv_multiple. by_block bullish ob ltf; [|by destruct bullish|by rewrite Htf]. apply protective_ok; [done|].
  intros p. destruct bullish, (AMDContext.asian_range ctx) as [r|]; cbn; intros [= <-]; by apply Hrange.
Qed.

Lemma choch_candidate_sound self htf ltf choch bms lc sweep ob fvgs idms (bullish : bool) highs lows c :
  ob_ok ob -> price_ok (ChangeOfCharacter.broken_level choch) ->
  SMCDetector._build_choch_candidate self htf ltf choch bms lc sweep ob fvgs idms (direction_of bullish) highs lows
    = Ok (Some c) -> sound htf ltf c.
Proof.
  intros Hob Hlv Hr. unfold SMCDetector._build_choch_candidate in Hr.
  replace (bool_decide (direction_of bullish = BULLISH)) with bullish in Hr by (by destruct bullish).
  cbv zeta in Hr. inv_builder Hr. subst c. inv_multiple.
  destruct bullish; [by_block true ob ltf|by_block false ob ltf]; done.
Qed.

(** *** Turtle soups *)

(** A sweep of the side a turtle soup trades: its extreme is beyond its level. *)
Definition soup_priced (long : bool) (s : LiquiditySweep.t) : Prop :=
  price_ok (LiquiditySweep.swept_level s) /\ sweep_priced s /\
  (if long then fv (LiquiditySweep.sweep_low s) <= fv (LiquiditySweep.swept_level s)
   else fv (LiquiditySweep.swept_level s) <= fv (LiquiditySweep.sweep_high s)).

Lemma turtle_soup_sound {A} `{SwingLevel A} config sa long htf ltf sweep (swings : option (list A)) c :
  soup_priced long sweep -> fin (SMCConfig.turtle_soup_min_sl_pips config) ->
  fin (fmul (SMCConfig.turtle_soup_min_sl_pips config) (pip_float (CandleSequence.symbol ltf))) ->
  ReversalBuilder.build_turtle_soup config sa long ltf sweep swings = Ok (Some c) -> sound htf ltf c.
Proof.
  intros (Hlv & [Hlo Hhi] & Hside) _ Fd Hr. unfold ReversalBuilder.build_turtle_soup in Hr. cbv zeta in Hr.
  inv_builder Hr. subst c. inv_multiple.
  match goal with E : SMCCandidate.create _ = Ok _ |- _ => apply create_keeps in E; cbn in E;
    destruct E as (Ep & Ed & Ee & Es & Et & El & Eu & Ets & Etf) end.
  assert (Hstop : beneath long (if long
      then fmin (compute_structural_stop_loss (CandleSequence.symbol ltf) (CandleSequence.timeframe ltf)
                   (direction_of true) (LiquiditySweep.sweep_low sweep) None None)
             (fsub (LiquiditySweep.sweep_low sweep)
                (fmul (SMCConfig.turtle_soup_min_sl_pips config) (pip_float (CandleSequence.symbol ltf))))
      else fmax (compute_structural_stop_loss (CandleSequence.symbol ltf) (CandleSequence.timeframe ltf)
                   (direction_of false) (LiquiditySweep.sweep_high sweep) None None)
             (fadd (LiquiditySweep.sweep_high sweep)
                (fmul (SMCConfig.turtle_soup_min_sl_pips config) (pip_float (CandleSequence.symbol ltf)))))
      (LiquiditySweep.swept_level sweep) = true).
  { destruct Hlv as [Flv _]. unfold beneath. destruct long.
    - destruct (stop_spec (CandleSequence.symbol ltf) (CandleSequence.timeframe ltf) true _ None Hlo I) as (N & Hs & _).
      destruct (fmin_num _ (fsub (LiquiditySweep.sweep_low sweep)
        (fmul (SMCConfig.turtle_soup_min_sl_pips config) (pip_float (CandleSequence.symbol ltf)))) N) as [N' E'].
      { apply fsub_num; [apply Hlo|done]. }
      rewrite flt_fv by auto with etradie. apply Z.ltb_lt. rewrite E'. lia.
    - destruct (stop_spec (CandleSequence.symbol ltf) (CandleSequence.timeframe ltf) false _ None Hhi I) as (N & Hs & _).
      destruct (fmax_num _ (fadd (LiquiditySweep.sweep_high sweep)
        (fmul (SMCConfig.turtle_soup_min_sl_pips config) (pip_float (CandleSequence.symbol ltf)))) N) as [N' E'].
      { apply fadd_num; [apply Hhi|done]. }
      rewrite flt_fv by auto with etradie. apply Z.ltb_lt. rewrite E'. lia. }
  exists long, ltf. unfold priced_by. rewrite Ep, Ed, Ee, Es, Et, El, Eu, Etf. split; [by destruct long|]. split; [done|].
  split; [done|]. split; [by destruct long|].
  split; [destruct long; exact Hstop|]. split; [done|]. intros tp Htp. unfold Builder.find_nearest_target in Htp.
  cbv zeta in Htp. by apply target_pays in Htp.
Qed.
End BuilderFacts.

(** ** Where the detector's events come from *)

Module DetectorFacts.
Import ZoneFacts BuilderFacts.

(** Candles of a sequence: consistent, with prices up to [10^12]. *)
Definition candle_priced (c : Candle.t) : Prop := Candle.wf c /\ fv (Candle.high c) <= fv max_price.
Definition priced (q : CandleSequence.t) : Prop := forall c, In c (CandleSequence.candles q) -> candle_priced c.

Lemma num_price x : num x -> 0 < fv x <= fv max_price -> price_ok x.
Proof.
  intros N H. split; [|done]. apply (num_finite_of_bounds x fzero max_price); [done..|]. rewrite fv_fzero. lia.
Qed.

Lemma candle_prices c :
  candle_priced c ->
  price_ok (Candle.open c) /\ price_ok (Candle.high c) /\ price_ok (Candle.low c) /\ price_ok (Candle.close c).
Proof. intros [[] Hm]. split_and!; apply num_price; done || lia. Qed.

(** *** Order blocks *)

Lemma block_ok s tf c ts i d dp b m mts ob :
  candle_priced c -> OrderBlock.create s tf (Candle.high c) (Candle.low c) ts i d dp b m mts = Ok ob -> ob_ok ob.
Proof.
  intros Hc H. destruct (candle_prices c Hc) as (_ & Hh & Hl & _).
  pose proof (OrderBlock_create_ok _ _ _ _ _ _ _ _ _ _ _ _ H) as [_ _ Hb _].
  unfold OrderBlock.create in H. inv_binds. inv_fields. subst ob. cbn in Hb |- *. constructor; cbn; try done.
  rewrite fle_fv in Hb by (destruct Hh, Hl; auto with etradie). zbool. done.
Qed.

Lemma block_found q c i d dp b m mts ob :
  In c (CandleSequence.candles q) ->
  OrderBlock.create (CandleSequence.symbol q) (CandleSequence.timeframe q) (Candle.high c) (Candle.low c)
    (Candle.timestamp c) i d dp b m mts = Ok ob -> found_in q ob.
Proof.
  intros Hc H. unfold OrderBlock.create in H. inv_binds. inv_fields. subst ob. split; [done|]. by exists c.
Qed.

Lemma detect_ob_ok config bullish q b ob :
  priced q -> OrderBlockDetector.detect_ob config bullish q b = Ok (Some ob) -> ob_ok ob /\ found_in q ob.
Proof.
  intros Hq H. unfold OrderBlockDetector.detect_ob in H. repeat (case_hyp H; [done|]).
  apply search_In in H as (i & _ & H). unfold OrderBlockDetector.ob_body in H.
  inv_binds. apply py_index_In in E. inv_builder H. subst. split; [apply Hq in E; by eapply block_ok|by eapply block_found].
Qed.

Lemma choch_ob_ok q e ob :
  priced q -> OrderBlockDetector.detect_ob_from_choch q e = Ok (Some ob) -> ob_ok ob /\ found_in q ob.
Proof.
  intros Hq H. unfold OrderBlockDetector.detect_ob_from_choch in H. case_hyp H; [done|].
  apply search_In in H as (i & _ & H). unfold OrderBlockDetector.choch_ob_body in H.
  inv_binds. apply py_index_In in E. inv_builder H. subst. split; [apply Hq in E; by eapply block_ok|by eapply block_found].
Qed.

(** *** Swings *)

Lemma highs_priced a q l : priced q -> SwingAnalyzer.detect_swing_highs a q = Ok l ->
  forall s, In s l -> price_ok (SwingHigh.price s).
Proof.
  intros Hq H. unfold SwingAnalyzer.detect_swing_highs in H. cbv zeta in H.
  destruct (SwingAnalyzer._get_effective_bars a q) as [el er].
  eapply (for_each_inv _ (fun l => forall s, In s l -> price_ok (SwingHigh.price s)) _ _ _ H); [done|].
  intros b i b' Hb _ E. unfold SwingAnalyzer.step_high in E. inv_binds. apply py_index_In, Hq in E0.
  inv_builder E; subst; [|done].
  intros s Hs. apply in_app_or in Hs as [Hs|[<-|[]]]; [by apply Hb|].
  match goal with E : SwingHigh.create _ _ _ _ _ _ _ _ _ _ = Ok _ |- _ => unfold SwingHigh.create in E end.
  inv_binds. inv_fields. subst. by apply candle_prices.
Qed.

Lemma lows_priced a q l : priced q -> SwingAnalyzer.detect_swing_lows a q = Ok l ->
  forall s, In s l -> price_ok (SwingLow.price s).
Proof.
  intros Hq H. unfold SwingAnalyzer.detect_swing_lows in H. cbv zeta in H.
  destruct (SwingAnalyzer._get_effective_bars a q) as [el er].
  eapply (for_each_inv _ (fun l => forall s, In s l -> price_ok (SwingLow.price s)) _ _ _ H); [done|].
  intros b i b' Hb _ E. unfold SwingAnalyzer.step_low in E. inv_binds. apply py_index_In, Hq in E0.
  inv_builder E; subst; [|done].
  intros s Hs. apply in_app_or in Hs as [Hs|[<-|[]]]; [by apply Hb|].
  match goal with E : SwingLow.create _ _ _ _ _ _ _ _ _ _ = Ok _ |- _ => unfold SwingLow.create in E end.
  inv_binds. inv_fields. subst. by apply candle_prices.
Qed.

(** *** Structure events keep the price of their swing *)

Lemma sms_priced {A} `{SwingLevel A} bullish q (swings : list A) l :
  (forall s, In s swings -> price_ok (lv_price s)) ->
  SMSDetector.detect_sms bullish q swings = Ok l ->
  forall e, In e l -> price_ok (ShiftInMarketStructure.failed_level e).
Proof.
  intros Hs Hr e He. unfold SMSDetector.detect_sms in Hr. case_hyp Hr; [by injection Hr as <-|].
  destruct (collect_In _ _ _ _ Hr He) as (i & _ & E). unfold SMSDetector.sms_body in E. inv_binds.
  inv_builder E. subst.
  match goal with E : py_index (by_time swings) (_ + 1) = Ok _ |- _ =>
    apply py_index_In, py_sorted_In, Hs in E end.
  match goal with E : ShiftInMarketStructure.create _ _ _ _ _ _ _ _ _ = Ok _ |- _ =>
    unfold ShiftInMarketStructure.create in E end.
  inv_binds. inv_fields. by subst.
Qed.

Lemma choch_priced {A} `{SwingLevel A} bullish q (swings : list A) l :
  (forall s, In s swings -> price_ok (lv_price s)) ->
  CHOCHDetector.detect_choch bullish q swings = Ok l ->
  forall e, In e l -> price_ok (ChangeOfCharacter.broken_level e).
Proof.
  intros Hs Hr e He. unfold CHOCHDetector.detect_choch in Hr.
  assert (Hc : exists s, In s swings /\ CHOCHDetector.choch_body bullish q s = Ok (Some e)).
  { destruct swings as [|s0 swings]; [by injection Hr as <-|].
    destruct (collect_In _ _ _ _ Hr He) as (s & Hin & E). exists s. split; [|done]. by apply py_sorted_In in Hin. }
  destruct Hc as (s & Hin & E). unfold CHOCHDetector.choch_body in E. cbv zeta in E. inv_builder E.
  destruct a as [j|]; [|done]. inv_builder E. subst.
  match goal with E : ChangeOfCharacter.create _ _ _ _ _ _ _ _ _ = Ok _ |- _ =>
    unfold ChangeOfCharacter.create in E end.
  inv_binds. inv_fields. subst. by apply Hs.
Qed.
(** *** Sweeps keep the extremes of their candle *)

Lemma enumerate_In {A} (l : list A) i x : In (i, x) (py_enumerate l) -> In x l.
Proof.
  intros H. apply py_enumerate_from_spec in H as [_ H]. by apply list_elem_of_In, (list_elem_of_lookup_2 _ _ _ H).
Qed.

Ltac inv_sweep :=
  match goal with E : LiquiditySweep.create _ _ _ _ _ _ _ _ _ _ _ _ _ = Ok _ |- _ =>
    unfold LiquiditySweep.create in E; inv_binds; inv_fields; subst end.

Lemma level_sweep_priced sa (is_high : bool) lt c level ts i s :
  candle_priced c -> price_ok level ->
  SweepAnalyzer.detect_level_sweep sa is_high lt c level ts i = Ok (Some s) -> soup_priced (negb is_high) s.
Proof.
  intros Hc Hlv H. destruct (candle_prices c Hc) as (_ & Hh & Hl & _).
  unfold SweepAnalyzer.detect_level_sweep in H. inv_builder H. subst. inv_sweep.
  split; [done|]. split; [done|]. destruct Hh, Hl, Hlv. destruct is_high; cbn in *;
    match goal with E : fle _ _ = false |- _ => rewrite fle_fv in E by auto with etradie; apply Z.leb_gt in E end; lia.
Qed.

Lemma previous_day_priced sa is_high c i level st st' :
  candle_priced c -> Forall sweep_priced (fst st) ->
  SweepAnalyzer.previous_day_step sa is_high c i level st = Ok st' -> Forall sweep_priced (fst st').
Proof.
  intros Hc Hst H. destruct (candle_prices c Hc) as (_ & Hh & Hl & _). destruct st as [sweeps inv].
  unfold SweepAnalyzer.previous_day_step in H. inv_builder H; subst; try done.
  inv_sweep. apply Forall_app; split; [done|]. by apply Forall_singleton.
Qed.

Lemma swing_step_priced sa is_high c i st lv st' :
  candle_priced c -> price_ok (SweepAnalyzer.lv_price lv) -> Forall sweep_priced (fst st) ->
  SweepAnalyzer.swing_step sa is_high c i st lv = Ok st' -> Forall sweep_priced (fst st').
Proof.
  intros Hc Hlv Hst H. destruct st as [sweeps inv].
  unfold SweepAnalyzer.swing_step in H. inv_builder H; subst; try done.
  destruct a as [s|]; [|done]. apply Forall_app; split; [done|]. apply Forall_singleton.
  by apply (level_sweep_priced _ _ _ _ _ _ _ _ Hc Hlv) in E as (_ & E & _).
Qed.

Lemma candle_step_priced sa dh dl highs lows acc x acc' :
  candle_priced (snd x) -> (forall lv, In lv (highs ++ lows) -> price_ok (SweepAnalyzer.lv_price lv)) ->
  Forall sweep_priced (fst (fst acc)) ->
  SweepAnalyzer.candle_step sa dh dl highs lows acc x = Ok acc' -> Forall sweep_priced (fst (fst acc')).
Proof.
  intros Hc Hlv Hacc H. destruct acc as [[sweeps ih] il], x as [i c]. unfold SweepAnalyzer.candle_step in H.
  inv_binds. destruct a as [[s1 ih1] il1]. assert (H1 : Forall sweep_priced s1).
  { clear H. destruct (SweepAnalyzer.previous_day _ _) as [z|]; [|by simplify_eq].
    destruct (dh !! z) as [pdh|], (dl !! z) as [pdl|]; [|done..].
    inv_binds. destruct a as [s2 ih2]. inv_binds. destruct a as [s3 il3]. simplify_eq.
    apply (previous_day_priced _ _ _ _ _ _ _ Hc) in E0; [|done].
    by apply (previous_day_priced _ _ _ _ _ _ _ Hc) in E1. }
  inv_binds. destruct a as [s2 ih2]. inv_binds. destruct a as [s3 il3]. simplify_eq. cbn.
  assert (H2 : Forall sweep_priced s2).
  { refine (for_each_inv _ (fun st => Forall sweep_priced (fst st)) _ _ _ E0 H1 _).
    intros b lv b' Hb Hin. apply swing_step_priced; [done| |done]. apply Hlv, in_or_app. by left. }
  refine (for_each_inv _ (fun st => Forall sweep_priced (fst st)) _ _ _ E1 H2 _).
  intros b lv b' Hb Hin. apply swing_step_priced; [done| |done]. apply Hlv, in_or_app. by right.
Qed.

Lemma sweeps_priced sa q highs lows l :
  priced q -> (forall s, In s highs -> price_ok (SwingHigh.price s)) ->
  (forall s, In s lows -> price_ok (SwingLow.price s)) ->
  SweepAnalyzer.detect_sweeps_in_sequence sa q highs lows = Ok l -> Forall sweep_priced l.
Proof.
  intros Hq Hh Hl H. unfold SweepAnalyzer.detect_sweeps_in_sequence in H. cbv zeta in H.
  inv_binds. destruct a as [dh dl]. inv_binds. destruct a as [[sw ih] il]. simplify_eq.
  refine (for_each_inv _ (fun st => Forall sweep_priced (fst (fst st))) _ _ _ E0 _ _); [by constructor|].
  intros b [i c] b' Hb Hin. apply candle_step_priced; [by apply enumerate_In, Hq in Hin| |done].
  intros lv Hlv. apply in_app_or in Hlv as [Hlv|Hlv]; apply in_map_iff in Hlv as (s & <- & Hs); cbn; auto.
Qed.

Lemma soups_priced {A} `{SwingLevel A} config sa (is_high : bool) q (swings : list A) l :
  priced q -> (forall s, In s swings -> price_ok (lv_price s)) ->
  TurtleSoupDetector.detect_turtle_soup config sa is_high q swings = Ok l ->
  Forall (soup_priced (negb is_high)) l.
Proof.
  intros Hq Hs Hr. unfold TurtleSoupDetector.detect_turtle_soup in Hr. inv_binds. subst l.
  apply Forall_forall. intros s Hin%list_elem_of_In. apply in_concat in Hin as (ys & Hys & Hin).
  apply res_map_Forall2 in E. apply list_elem_of_In, list_elem_of_lookup in Hys as [k Hk].
  destruct (Forall2_lookup_r _ _ _ _ _ E Hk) as ([i c] & Hx & Ec). cbn in Ec.
  apply (collect_In _ _ _ s) in Ec as (sw & Hsw & E'); [|done].
  apply list_elem_of_lookup_2, list_elem_of_In, enumerate_In, Hq in Hx.
  unfold TurtleSoupDetector.soup_body in E'. inv_builder E'. destruct a0 as [s0|]; [|done].
  repeat (case_hyp E'; [done|]). injection E' as ->.
  eapply level_sweep_priced; [exact Hx|by apply Hs|exact E0].
Qed.

(** *** The range of a session *)

Lemma session_range_priced q s r :
  priced q -> SessionAnalyzer.extract_most_recent_session_range q s = Ok (Some r) ->
  price_ok (SessionRange.low r) /\ price_ok (SessionRange.high r).
Proof.
  intros Hq H. unfold SessionAnalyzer.extract_most_recent_session_range in H. cbv zeta in H. inv_binds.
  destruct (CandleSequence.candles q) as [|c0 v0] eqn:Ev; [done|]. rewrite <- Ev in H. inv_binds.
  destruct a0 as [e|]; [|done]. inv_binds. simplify_eq. unfold SessionAnalyzer.range_of in E2. inv_binds.
  unfold SessionRange.create in E2. inv_binds. inv_fields. subst. cbn.
  repeat match goal with E : fmax_list _ = Ok _ |- _ => apply py_max_In, in_map_iff in E as (? & <- & E)
  | E : fmin_list _ = Ok _ |- _ => apply py_max_In, in_map_iff in E as (? & <- & E) end.
  repeat match goal with E : In _ (py_slice _ _ _) |- _ => apply py_slice_In, Hq, candle_prices in E end.
  split_hyps. done.
Qed.

Lemma amd_context_priced da q ctx :
  priced q -> AMDDetector.detect_amd_context da q = Ok (Some ctx) ->
  forall r, AMDContext.asian_range ctx = Some r -> price_ok (DealingRange.low r) /\ price_ok (DealingRange.high r).
Proof.
  intros Hq H r Hr. unfold AMDDetector.detect_amd_context in H. inv_binds. destruct a as [range|]; [|done].
  assert (AMDContext.asian_range ctx = Some range) as Hctx.
  { inv_binds. destruct a as [m|]; [inv_binds; destruct a as [d|]|]; inv_binds; by subst ctx. }
  simplify_eq. unfold AMDDetector._extract_asian_range in E. inv_binds. destruct a as [s|]; [|done].
  apply session_range_priced in E0 as [Hl Hh]; [|done].
  unfold DealingRangeAnalyzer.create_from_session in E. inv_builder E. simplify_eq.
  match goal with E : DealingRange.create _ _ _ _ _ _ = Ok _ |- _ => unfold DealingRange.create in E end.
  inv_binds. inv_fields. by subst.
Qed.
(** *** Everything the detector emits *)

Lemma collect_Forall {A B} (body : A -> res (option B)) (P : B -> Prop) xs ys :
  collect body xs = Ok ys -> (forall x y, In x xs -> body x = Ok (Some y) -> P y) -> Forall P ys.
Proof.
  intros H HP. apply Forall_forall. intros y Hy%list_elem_of_In.
  destruct (collect_In _ _ _ _ H Hy) as (x & Hx & E). by eapply HP.
Qed.

Lemma relevant_sweep_In self sweeps d bms s :
  SMCDetector._find_relevant_sweep self sweeps d bms = Some s -> In s sweeps.
Proof.
  unfold SMCDetector._find_relevant_sweep. cbv zeta. set (k := SMCConfig.sweep_max_candle_distance _).
  assert (H : forall l b, (forall s, fst b = Some s -> In s sweeps) -> (forall s, In s l -> In s sweeps) ->
    forall s, fst (fold_left (SMCDetector.sweep_step k d bms) l b) = Some s -> In s sweeps).
  { induction l as [|x l IH]; intros b Hb Hl; cbn [fold_left]; [done|]. apply IH; [|intros; apply Hl; by right].
    intros y. destruct b as [best dist]. unfold SMCDetector.sweep_step. repeat case_match; cbn; intros Hy;
      [by apply Hb|injection Hy as <-; apply Hl; by left|by apply Hb]. }
  by apply H.
Qed.

(** The block, break or event an [is not None] guard found. *)
Ltac some_of H :=
  match type of H with match ?o with _ => _ end = Ok _ => destruct o; [|by simplify_eq] end.

Section Emitted.
Context (self : SMCDetector.t) (htf ltf : CandleSequence.t).
Context (Hhtf : priced htf) (Hltf : priced ltf).

Lemma relevant_priced sweeps d bms s :
  Forall sweep_priced sweeps -> SMCDetector._find_relevant_sweep self sweeps d bms = Some s -> sweep_priced s.
Proof. intros Hs H. by apply relevant_sweep_In, (proj1 (List.Forall_forall _ _) Hs) in H. Qed.

Lemma continuation_half_sound bullish hb lb lc fvgs idms sweeps cs :
  Forall sweep_priced sweeps ->
  SMCDetector.continuation_half self bullish htf ltf hb lb lc fvgs idms sweeps = Ok cs -> Forall (sound htf ltf) cs.
Proof.
  intros Hs H. unfold SMCDetector.continuation_half in H. cbv zeta in H.
  destruct (BMSDetector.get_latest_bms hb) as [b0|]; [|by simplify_eq]. inv_binds. subst cs.
  apply Forall_app; split; [|apply Forall_app; split]; (eapply collect_Forall; [eassumption|]); cbv beta;
    intros x y _ Hy; inv_binds; some_of Hy; try (case_hyp Hy; [done|]);
    match goal with
    | E : OrderBlockDetector.detect_ob _ _ _ _ = Ok (Some _) |- _ => apply detect_ob_ok in E as [? ?]; [|done]
    | E : OrderBlockDetector.detect_ob_from_choch _ _ = Ok (Some _) |- _ => apply choch_ob_ok in E as [? ?]; [|done]
    end;
    (eapply continuation_sound; [done|eassumption|auto| |exact Hy]); intros s; by apply relevant_priced.
Qed.

Lemma reversal_half_sound {A} `{SwingLevel A} bullish sms lb lc fvgs idms (swings : option (list A)) cs :
  (forall e, In e sms -> price_ok (ShiftInMarketStructure.failed_level e)) ->
  SMCDetector.reversal_half self bullish htf ltf sms lb lc fvgs idms swings = Ok cs -> Forall (sound htf ltf) cs.
Proof.
  intros Hs Hr. unfold SMCDetector.reversal_half in Hr. cbv zeta in Hr.
  destruct (SMSDetector.get_latest_sms sms) as [e|] eqn:Ee; [|by simplify_eq]. apply py_max_opt_In in Ee.
  inv_binds. subst cs. apply Forall_app; split; [|destruct lb; [|by simplify_eq]];
    (eapply collect_Forall; [eassumption|]); cbv beta; intros x y _ Hy; inv_binds.
  - some_of Hy. case_hyp Hy; [done|].
    apply (detect_ob_ok _ _ ltf) in E1 as [? ?]; [|done].
    eapply sms_reversal_sound; [done|eassumption|by right|by apply Hs|exact Hy].
  - some_of Hy. inv_binds. some_of Hy.
    case_hyp Hy; [done|].
    apply (detect_ob_ok _ _ htf) in E2 as [? ?]; [|done].
    eapply sms_reversal_sound; [done|eassumption|by left|by apply Hs|exact Hy].
Qed.

Lemma choch_half_sound bullish hc lb lc fvgs idms sweeps highs lows cs :
  (forall e, In e hc -> price_ok (ChangeOfCharacter.broken_level e)) ->
  SMCDetector.choch_half self bullish htf ltf hc lb lc fvgs idms sweeps highs lows = Ok cs -> Forall (sound htf ltf) cs.
Proof.
  intros Hs Hr. unfold SMCDetector.choch_half in Hr.
  destruct (CHOCHDetector.get_latest_choch hc) as [e|] eqn:Ee; [|by simplify_eq]. apply py_max_opt_In in Ee.
  inv_binds. subst cs. apply Forall_app; split.
  - eapply collect_Forall; [eassumption|]. cbv beta. intros x y _ Hy. inv_binds. some_of Hy.
    eapply choch_candidate_sound; [by eapply (proj1 (detect_ob_ok _ _ ltf _ _ Hltf ltac:(eassumption)))|by apply Hs|exact Hy].
  - destruct lb; [|by simplify_eq]. inv_binds.
    match goal with E : _ = Ok a0 |- _ => some_of E; inv_binds; some_of E; inv_binds; subst a0 end.
    match goal with |- Forall _ (option_list ?c) => destruct c; [|done] end. apply Forall_singleton.
    eapply choch_candidate_sound; [by eapply (proj1 (detect_ob_ok _ _ htf _ _ Hhtf ltac:(eassumption)))|by apply Hs|eassumption].
Qed.

Lemma soup_distance_fin symbol :
  SMCConfig.valid_config (SMCDetector.config self) ->
  fin (SMCConfig.turtle_soup_min_sl_pips (SMCDetector.config self)) /\
  fin (fmul (SMCConfig.turtle_soup_min_sl_pips (SMCDetector.config self)) (pip_float symbol)).
Proof.
  intros Hv. destruct (SMCConfig.r_soup_sl _ (SMCConfig.valid_ranges _ Hv)) as [Fx Hx]. split; [done|].
  destruct (pip_float_fin symbol) as [Fp Hp].
  assert (E5 : fv (of_Z 5) = 5 * unit_pow 0) by (apply of_Z_exact; lia).
  assert (E30 : fv (of_Z 30) = 30 * unit_pow 0) by (apply of_Z_exact; lia). assert (0 < unit_pow 0) by done.
  apply (rounds_fin _ _ _ fzero (of_Z 30) (fmul_rounds _ _ Fx Fp)); [done|done| |]; rewrite ?fv_fzero; nia.
Qed.

Lemma soup_half_sound (long : bool) {A} `{SwingLevel A} sweeps (swings : option (list A)) c :
  SMCConfig.valid_config (SMCDetector.config self) -> Forall (soup_priced long) sweeps ->
  match SMCDetector.latest_sweep sweeps with
  | None => Ok None
  | Some s => ReversalBuilder.build_turtle_soup (SMCDetector.config self) (SMCDetector.session_analyzer self) long
                ltf s swings
  end = Ok c -> Forall (sound htf ltf) (option_list c).
Proof.
  intros Hv Hs Hr. destruct (SMCDetector.latest_sweep sweeps) as [s|] eqn:Es; [|by simplify_eq].
  apply py_max_opt_In, (proj1 (List.Forall_forall _ _) Hs) in Es. destruct c as [c|]; [|done].
  destruct (soup_distance_fin (CandleSequence.symbol ltf) Hv). apply Forall_singleton. by eapply turtle_soup_sound.
Qed.

Lemma amd_half_sound {A} `{SwingLevel A} bullish ctx lb lc fvgs idms sweeps (swings : option (list A)) cs :
  (forall r, AMDContext.asian_range ctx = Some r -> price_ok (DealingRange.low r) /\ price_ok (DealingRange.high r)) ->
  SMCDetector.amd_half self bullish htf ltf ctx lb lc fvgs idms sweeps swings = Ok cs -> Forall (sound htf ltf) cs.
Proof.
  intros Hctx Hr. eapply collect_Forall; [exact Hr|]. cbv beta. intros x y _ Hy. inv_binds.
  some_of Hy. apply (detect_ob_ok _ _ ltf) in E as [? [? _]]; [|done]. eapply amd_sound; [done|done|exact Hctx|exact Hy].
Qed.
(** The five families. *)

Lemma continuation_family_sound hbb hbs lbb lbs lcb lcs fvgs idms sweeps cs :
  Forall sweep_priced sweeps ->
  SMCDetector._build_continuation_candidates self htf ltf hbb hbs lbb lbs lcb lcs fvgs idms sweeps = Ok cs ->
  Forall (sound htf ltf) cs.
Proof.
  intros Hs R. unfold SMCDetector._build_continuation_candidates in R. inv_binds. subst cs.
  apply Forall_app; split; (eapply continuation_half_sound; [exact Hs|eassumption]).
Qed.

Lemma reversal_family_sound smsb smss lbb lbs lcb lcs fvgs idms highs lows cs :
  (forall e, In e smsb -> price_ok (ShiftInMarketStructure.failed_level e)) ->
  (forall e, In e smss -> price_ok (ShiftInMarketStructure.failed_level e)) ->
  SMCDetector._build_reversal_candidates self htf ltf smsb smss lbb lbs lcb lcs fvgs idms highs lows = Ok cs ->
  Forall (sound htf ltf) cs.
Proof.
  intros Hb Hs R. unfold SMCDetector._build_reversal_candidates in R. inv_binds. subst cs.
  apply Forall_app. split.
  - exact (reversal_half_sound (A:=SwingHigh.t) true _ _ _ _ _ _ _ Hb E).
  - exact (reversal_half_sound (A:=SwingLow.t) false _ _ _ _ _ _ _ Hs E0).
Qed.

Lemma choch_family_sound hcb hcs lbb lbs lcb lcs fvgs idms sweeps highs lows cs :
  (forall e, In e hcb -> price_ok (ChangeOfCharacter.broken_level e)) ->
  (forall e, In e hcs -> price_ok (ChangeOfCharacter.broken_level e)) ->
  SMCDetector._build_choch_reversal_candidates self htf ltf hcb hcs lbb lbs lcb lcs fvgs idms sweeps highs lows
    = Ok cs -> Forall (sound htf ltf) cs.
Proof.
  intros Hb Hs R. unfold SMCDetector._build_choch_reversal_candidates in R. inv_binds. subst cs.
  apply Forall_app. split.
  - exact (choch_half_sound true _ _ _ _ _ _ _ _ _ Hb E).
  - exact (choch_half_sound false _ _ _ _ _ _ _ _ _ Hs E0).
Qed.

Lemma soup_family_sound long short highs lows cs :
  SMCConfig.valid_config (SMCDetector.config self) ->
  Forall (soup_priced true) long -> Forall (soup_priced false) short ->
  SMCDetector._build_turtle_soup_candidates self ltf long short highs lows = Ok cs -> Forall (sound htf ltf) cs.
Proof.
  intros Hv Hl Hs R. unfold SMCDetector._build_turtle_soup_candidates in R. inv_binds. subst cs.
  apply Forall_app. split.
  - exact (soup_half_sound true (A:=SwingHigh.t) _ _ _ Hv Hl E).
  - exact (soup_half_sound false (A:=SwingLow.t) _ _ _ Hv Hs E0).
Qed.

Lemma amd_family_sound ctx lbb lbs lcb lcs fvgs idms sweeps highs lows cs :
  (forall r, AMDContext.asian_range ctx = Some r -> price_ok (DealingRange.low r) /\ price_ok (DealingRange.high r)) ->
  SMCDetector._build_amd_candidates self htf ltf ctx lbb lbs lcb lcs fvgs idms sweeps highs lows = Ok cs ->
  Forall (sound htf ltf) cs.
Proof.
  intros Hctx R. unfold SMCDetector._build_amd_candidates in R.
  case_hyp R; [exact (amd_half_sound (A:=SwingHigh.t) true _ _ _ _ _ _ _ _ Hctx R)|].
  case_hyp R; [exact (amd_half_sound (A:=SwingLow.t) false _ _ _ _ _ _ _ _ Hctx R)|]. by simplify_eq.
Qed.
End Emitted.
(** C4: whatever two sequences of consistent candles, with prices up to 10^12,
    the detector is run on, under any configuration its constructor accepts, every
    candidate [detect_patterns] returns is sound: the pattern and the direction
    agree; it is of the lower timeframe; the stop is strictly on the losing side of
    the entry; with an order block, the entry is inside the block and the stop beyond
    its far edge; and a target is strictly on the winning side and pays at least the
    minimum multiple of the distance to the stop, for a continuation and a failure
    swing that of the timeframe of the sequence its order block is a candle of, for
    the other patterns that of the lower timeframe. *)
Theorem detected_candidates_sound (self : SMCDetector.t) (htf ltf : CandleSequence.t) cs :
  SMCConfig.valid_config (SMCDetector.config self) -> priced htf -> priced ltf ->
  SMCDetector.detect_patterns self htf ltf = Ok cs -> Forall (sound htf ltf) cs.
Proof.
  intros Hv Hh Hl H. unfold SMCDetector.detect_patterns in H. cbv zeta in H.
  case_hyp H; [by simplify_eq|]. apply bind_Ok in H as (hh & Ehh & H). apply bind_Ok in H as (hl & Ehl & H).
  do 2 apply bind_Ok in H as (? & _ & H). apply bind_Ok in H as (smsb & Esmsb & H).
  apply bind_Ok in H as (smss & Esmss & H). apply bind_Ok in H as (chb & Echb & H).
  apply bind_Ok in H as (chs & Echs & H). apply bind_Ok in H as (lh & Elh & H).
  apply bind_Ok in H as (ll & Ell & H). do 7 apply bind_Ok in H as (? & _ & H).
  apply bind_Ok in H as (tl & Etl & H). apply bind_Ok in H as (ts & Ets & H).
  apply bind_Ok in H as (amd & Eamd & H). apply bind_Ok in H as (? & _ & H).
  apply bind_Ok in H as (sw & Esw & H). inv_binds. subst cs.
  pose proof (highs_priced _ _ _ Hh Ehh) as Phh. pose proof (lows_priced _ _ _ Hh Ehl) as Phl.
  pose proof (highs_priced _ _ _ Hl Elh) as Plh. pose proof (lows_priced _ _ _ Hl Ell) as Pll.
  apply sweeps_priced in Esw; [|done..].
  assert (Hts : Forall (soup_priced false) ts)
    by (case_hyp Ets; [by apply soups_priced in Ets|by simplify_eq]).
  assert (Htl : Forall (soup_priced true) tl)
    by (case_hyp Etl; [by apply soups_priced in Etl|by simplify_eq]).
  assert (Hsw : Forall sweep_priced (sw ++ tl ++ ts)).
  { rewrite !Forall_app. split; [done|]. split; (eapply Forall_impl; [eassumption|]); by intros ? (_ & ? & _). }
  pose proof (sms_priced (A:=SwingLow.t) true _ _ _ Phl Esmsb) as Hsmsb. pose proof (sms_priced (A:=SwingHigh.t) false _ _ _ Phh Esmss) as Hsmss.
  pose proof (choch_priced (A:=SwingHigh.t) true _ _ _ Phh Echb) as Hchb. pose proof (choch_priced (A:=SwingLow.t) false _ _ _ Phl Echs) as Hchs.
  rewrite !Forall_app. split_and!;
    match goal with |- Forall (sound _ _) ?l => match goal with E : _ = Ok l |- _ =>
      case_hyp E; [|by simplify_eq] end end.
  - exact (continuation_family_sound _ _ _ Hh Hl _ _ _ _ _ _ _ _ _ _ Hsw E).
  - exact (reversal_family_sound _ _ _ Hh Hl _ _ _ _ _ _ _ _ _ _ _ Hsmsb Hsmss E0).
  - exact (choch_family_sound _ _ _ Hh Hl _ _ _ _ _ _ _ _ _ _ _ _ Hchb Hchs E1).
  - exact (soup_family_sound _ _ _ _ _ _ _ _ Hv Htl Hts E2).
  - destruct amd as [ctx|]; [|by simplify_eq].
    exact (amd_family_sound _ _ _ Hl _ _ _ _ _ _ _ _ _ _ _ (amd_context_priced _ _ _ Hl Eamd) E3).
Qed.

(** A session of four quarter-hours: a swing low, and its sweep. *)
Definition quarter (i : Z) (o h l c : Z) : Candle.t :=
  Candle.mk "EURUSD" M15 (mk_datetime (10 * us_per_hour + i * 15 * us_per_minute) (Some 0))
    (lit o 4) (lit h 4) (lit l 4) (lit c 4) fzero.

Definition swept_session : CandleSequence.t :=
  CandleSequence.mk "EURUSD" M15
    [quarter 0 11010 11015 11000 11005; quarter 1 11005 11010 10990 11000;
     quarter 2 11000 11012 10995 11010; quarter 3 11010 11015 10980 11005].

Definition sample_detector (sessions : SessionAnalyzer.t) : SMCDetector.t :=
  SMCDetector.mk SMCConfig.default (SwingAnalyzer.mk 1 1 (lit 20 1)) sessions
    SweepAnalyzer.default DealingRangeAnalyzer.default.

Lemma swept_session_priced : priced swept_session.
Proof.
  intros c Hc. cbn in Hc. repeat destruct Hc as [<-|Hc]; [..|done];
    (split; [constructor|]; vm_compute; repeat split; congruence).
Qed.

Lemma detected_candidates_sound_witness :
  exists s c, SessionAnalyzer.create = Ok s /\
    SMCDetector.detect_patterns (sample_detector s) swept_session swept_session = Ok [c] /\
    SMCCandidate.pattern c = TURTLE_SOUP_LONG /\ sound swept_session swept_session c.
Proof.
  destruct SessionAnalyzer.create as [s|] eqn:Es; [|by vm_compute in Es]. exists s.
  destruct (SMCDetector.detect_patterns (sample_detector s) swept_session swept_session) as [cs|] eqn:Ec.
  2:{ exfalso. vm_compute in Es. injection Es as <-. vm_compute in Ec. discriminate Ec. }
  pose proof (detected_candidates_sound (sample_detector s) _ _ cs SMCConfig.default_valid swept_session_priced
    swept_session_priced Ec) as H.
  vm_compute in Es. injection Es as <-. vm_compute in Ec. injection Ec as <-.
  eexists. split; [reflexivity|]. split; [reflexivity|]. split; [reflexivity|]. by inversion H.
Defined.
End DetectorFacts.
