(* ===== verification/LTFConfirmation.v ===== *)
(** * LTF confirmation: [engine/ta/common/services/ltf_confirmation/service.py]

    The fast confirmation of an approved setup: first the higher timeframe is
    searched for reasons to drop the setup, then seven checks run on the lower
    timeframe.  The broker and the clock are interfaces over the state of the
    world; the text of an exception is a parameter. *)

From Stdlib Require Import ZArith Lia Bool String SpecFloat.
From stdpp Require Import base list strings.
From S2P Require Import Prelude Loops PyFloat FloatRound PyText PyRepr PyIO Constants Candles Swings Sessions Liquidity ZoneModels StructureModels CandlePatterns SMCConfig SMCStructure SMCZones SMCValidators.

#[local] Open Scope string_scope.
#[local] Open Scope Z_scope.
#[local] Open Scope list_scope.

(** What the services ask of [BrokerBase]: candles of a symbol and timeframe
    between two times, at most [count] of them. *)
Class Broker (W : Type) := {
  fetch_candles : string -> Timeframe -> datetime -> datetime -> Z -> io W (option CandleSequence.t) }.

(** [f"{x:.5f}"]. *)
Definition format_5f (x : float) : string :=
  match x with
  | S754_infinity s => if s then "-inf" else "inf"
  | S754_nan => "nan"
  | _ => fixed_str x 5
  end.

Module LTFConfirmationRequest.
Record t := mk {
  symbol : string; direction : string; ltf_timeframe : string; ob_upper : float; ob_lower : float;
  entry_price : float; trace_id : option string; stop_loss : option float; htf_timeframe : option string }.

Definition create (r : t) : res t :=
  u ← field_gt0 (ob_upper r);
  l ← field_gt0 (ob_lower r);
  e ← field_gt0 (entry_price r);
  s ← match stop_loss r with Some x => y ← field_gt0 x; Ok (Some y) | None => Ok None end;
  Ok (mk (symbol r) (direction r) (ltf_timeframe r) u l e (trace_id r) s (htf_timeframe r)).
End LTFConfirmationRequest.

(** The named results of a layer, in the order of the dictionary. *)
Abbreviation check_results := (list (string * bool)).

Module LTFConfirmationResponse.
Record t := mk {
  confirmed : bool; symbol : string; direction : string; ltf_timeframe : string; checks : check_results;
  duration_ms : float; error : option string; invalidated : bool; invalidation_reason : option string;
  invalidation_checks : option check_results }.
End LTFConfirmationResponse.

Module LTFConfirmationService.

Record t := mk {
  _config : SMCConfig.t; _swing_analyzer : SwingAnalyzer.t; _session_analyzer : SessionAnalyzer.t;
  _sweep_analyzer : SweepAnalyzer.t }.

Definition LTF_LOOKBACK : Z := 150.
Definition HTF_LOOKBACK : Z := 50.

(** *** Layer 1 *)

Definition _resolve_htf_timeframe (explicit_htf : option string) (ltf : Timeframe) : res (option Timeframe) :=
  let derive :=
    parent ← get_parent_timeframe ltf 2;
    match parent with Some _ => Ok parent | None => get_parent_timeframe ltf 1 end in
  match explicit_htf with
  | None | Some "" => derive
  | Some s => match timeframe_of_value s with Ok tf => Ok (Some tf) | Raise _ => derive end
  end.

(** A close beyond the far edge of the zone, or beyond the stop. *)
Definition closes_against (direction : Direction) (below above : float) (candle : Candle.t) : bool :=
  match direction with
  | BULLISH => flt (Candle.close candle) below
  | BEARISH => flt above (Candle.close candle)
  | NEUTRAL => false
  end.

Definition _check_ob_still_fresh (sequence : CandleSequence.t) (direction : Direction) (ob_upper ob_lower : float)
    : bool :=
  if fle (fsub ob_upper ob_lower) fzero then true
  else negb (existsb (closes_against direction ob_lower ob_upper) (CandleSequence.candles sequence)).

Definition _check_no_opposing_bms (self : t) (sequence : CandleSequence.t) (direction : Direction) : res bool :=
  let candles := CandleSequence.candles sequence in
  let recency_window := Z.min 20 (py_len candles) in
  let recent_candles := py_slice_from candles (- recency_window) in
  swing_highs ← SwingAnalyzer.detect_swing_highs (_swing_analyzer self) sequence;
  swing_lows ← SwingAnalyzer.detect_swing_lows (_swing_analyzer self) sequence;
  opposing_bms ←
    (if bool_decide (direction = BULLISH)
     then BMSDetector.detect_bearish_bms (_config self) sequence swing_lows
     else BMSDetector.detect_bullish_bms (_config self) sequence swing_highs);
  let opposing_bms :=
    match recent_candles with
    | first :: _ =>
        List.filter (fun bms => dt_leb (Candle.timestamp first) (BreakInMarketStructure.timestamp bms)) opposing_bms
    | [] => opposing_bms
    end in
  Ok (match opposing_bms with [] => true | _ => false end).

Definition _check_sl_not_blown (sequence : CandleSequence.t) (direction : Direction) (stop_loss : option float)
    : bool :=
  match stop_loss with
  | None => true
  | Some stop_loss =>
      if fle stop_loss fzero then true
      else
        let candles := CandleSequence.candles sequence in
        let recent := if 10 <? py_len candles then py_slice_from candles (-10) else candles in
        negb (existsb (closes_against direction stop_loss stop_loss) recent)
  end.

Record invalidation := mk_invalidation { is_invalidated : bool; reason : option string; inv_checks : check_results }.

Section WithWorld.
Context {W : Type} `{CW : Clock W, BW : Broker W} (exn_str : exn -> string).

Definition _fetch_candles (symbol : string) (timeframe : Timeframe) (lookback : Z) : io W (option CandleSequence.t) :=
  end_time ← now;
  let minutes := TIMEFRAME_MINUTES timeframe in
  start_time ← lift (minus_minutes end_time (minutes * lookback));
  attempt (fetch_candles symbol timeframe start_time end_time lookback) (fun _ => mret None).

Definition _run_invalidation_layer (self : t) (symbol : string) (direction : Direction) (htf_tf : Timeframe)
    (ob_upper ob_lower : float) (stop_loss : option float) : io W invalidation :=
  let passed :=
    mk_invalidation false None [("ob_still_fresh", true); ("no_opposing_bms", true); ("sl_not_blown", true)] in
  sequence ← _fetch_candles symbol htf_tf HTF_LOOKBACK;
  match sequence with
  | None => mret passed
  | Some sequence =>
      if CandleSequence.count sequence <? 5 then mret passed
      else
        let ob_fresh := _check_ob_still_fresh sequence direction ob_upper ob_lower in
        no_opposing_bms ← lift (_check_no_opposing_bms self sequence direction);
        let sl_not_blown := _check_sl_not_blown sequence direction stop_loss in
        let checks :=
          [("ob_still_fresh", ob_fresh); ("no_opposing_bms", no_opposing_bms); ("sl_not_blown", sl_not_blown)] in
        mret (if negb ob_fresh then
          mk_invalidation true
            (Some ("OB zone (" ++ format_5f ob_lower ++ "-" ++ format_5f ob_upper ++
                   ") has been body-mitigated on " ++ timeframe_value htf_tf)) checks
        else if negb no_opposing_bms then
          let opposing := if bool_decide (direction = BULLISH) then "BEARISH" else "BULLISH" in
          mk_invalidation true
            (Some ("New " ++ opposing ++ " BMS detected on " ++ timeframe_value htf_tf ++ ", breaking the " ++
                   direction_value direction ++ " structure")) checks
        else if negb sl_not_blown then
          mk_invalidation true
            (Some ("Price has already closed beyond stop loss (" ++
                   match stop_loss with Some x => format_5f x | None => "None" end ++ ") on " ++
                   timeframe_value htf_tf)) checks
        else mk_invalidation false None checks)%string
  end.

(** *** Layer 2 *)

Definition _run_ltf_checks (self : t) (sequence : CandleSequence.t) (direction : Direction)
    (ob_upper ob_lower entry_price : float) : res check_results :=
  swing_highs ← SwingAnalyzer.detect_swing_highs (_swing_analyzer self) sequence;
  swing_lows ← SwingAnalyzer.detect_swing_lows (_swing_analyzer self) sequence;
  let bullish := bool_decide (direction = BULLISH) in
  bms_events ←
    (if bullish then BMSDetector.detect_bullish_bms (_config self) sequence swing_highs
     else BMSDetector.detect_bearish_bms (_config self) sequence swing_lows);
  choch_events ←
    (if bullish then CHOCHDetector.detect_bullish_choch sequence swing_highs
     else CHOCHDetector.detect_bearish_choch sequence swing_lows);
  inducements ←
    (if bullish then InducementDetector.detect_bullish_inducement (_config self) sequence swing_lows
     else InducementDetector.detect_bearish_inducement (_config self) sequence swing_highs);
  sweeps ← SweepAnalyzer.detect_sweeps_in_sequence (_sweep_analyzer self) sequence swing_highs swing_lows;
  fvgs ← FVGDetector.detect_fvgs (_config self) sequence;
  latest_candle ← py_index (CandleSequence.candles sequence) (-1);
  let current_price := Candle.close latest_candle in
  let sweep_ok := existsb LiquiditySweep.closed_back_inside sweeps in
  let choch_ok := 0 <? py_len choch_events in
  let bms_ok := 0 <? py_len bms_events in
  let rto_ok := fle ob_lower current_price && fle current_price ob_upper in
  session_state ← SessionAnalyzer.identify_session (_session_analyzer self) (Candle.timestamp latest_candle);
  let session_ok :=
    if negb (SMCConfig.require_session_timing (_config self)) then true
    else bool_decide (SessionState.active_session session_state ∈ [LONDON; NEW_YORK; OVERLAP_LONDON_NY]) in
  let relevant_inducements :=
    List.filter (fun idm => bool_decide (InducementEvent.direction idm = direction)) inducements in
  let inducement_ok := forallb InducementEvent.cleared relevant_inducements in
  let fvg_ok := existsb (fun fvg => bool_decide (FairValueGap.direction fvg = direction)) fvgs in
  Ok [("liquidity_swept", sweep_ok); ("choch_present", choch_ok); ("bms_confirmed", bms_ok);
      ("rto_to_ob", rto_ok); ("session_timing", session_ok); ("inducement_cleared", inducement_ok);
      ("fvg_present", fvg_ok)].

(** *** The pipeline *)

(** The response the code builds at each of its returns. *)
Definition respond (request : LTFConfirmationRequest.t) (start : datetime) (confirmed : bool) (checks : check_results)
    (error : option string) (invalidated : option invalidation) : io W LTFConfirmationResponse.t :=
  stop ← now;
  mret (LTFConfirmationResponse.mk confirmed (LTFConfirmationRequest.symbol request)
    (LTFConfirmationRequest.direction request) (LTFConfirmationRequest.ltf_timeframe request) checks
    (elapsed_ms start stop) error
    (match invalidated with Some _ => true | None => false end)
    (invalidated ≫= reason) (inv_checks <$> invalidated)).

(** The body of the [try]. *)
Definition confirm_body (self : t) (request : LTFConfirmationRequest.t) (start : datetime) (direction : Direction)
    (ltf_tf : Timeframe) : io W LTFConfirmationResponse.t :=
  let symbol := LTFConfirmationRequest.symbol request in
  htf_tf ← lift (_resolve_htf_timeframe (LTFConfirmationRequest.htf_timeframe request) ltf_tf);
  invalidation ←
    match htf_tf with
    | Some htf_tf =>
        i ← _run_invalidation_layer self symbol direction htf_tf (LTFConfirmationRequest.ob_upper request)
              (LTFConfirmationRequest.ob_lower request) (LTFConfirmationRequest.stop_loss request);
        mret (if is_invalidated i then Some i else None)
    | None => mret None
    end;
  match invalidation with
  | Some i => respond request start false [] None (Some i)
  | None =>
      sequence ← _fetch_candles symbol ltf_tf LTF_LOOKBACK;
      match sequence with
      | Some sequence =>
          if CandleSequence.count sequence <? 10
          then respond request start false [] (Some "Insufficient LTF candle data") None
          else
            checks ← lift (_run_ltf_checks self sequence direction (LTFConfirmationRequest.ob_upper request)
                             (LTFConfirmationRequest.ob_lower request) (LTFConfirmationRequest.entry_price request));
            respond request start (forallb snd checks) checks None None
      | None => respond request start false [] (Some "Insufficient LTF candle data") None
      end
  end.

Definition confirm (self : t) (request : LTFConfirmationRequest.t) : io W LTFConfirmationResponse.t :=
  start ← now;
  direction ← lift (direction_of_value (LTFConfirmationRequest.direction request));
  ltf_tf ← lift (timeframe_of_value (LTFConfirmationRequest.ltf_timeframe request));
  attempt (confirm_body self request start direction ltf_tf)
    (fun e => respond request start false [] (Some (exn_str e)) None).
End WithWorld.
End LTFConfirmationService.

Module ConfirmationFacts.
Import LTFConfirmationService.

(** The seven checks, as what they say of the events found. *)
Definition ready (self : t) (q : CandleSequence.t) (d : Direction) (upper lower : float) : Prop :=
  exists highs lows bms choch inducements sweeps fvgs k session,
    SwingAnalyzer.detect_swing_highs (_swing_analyzer self) q = Ok highs /\
    SwingAnalyzer.detect_swing_lows (_swing_analyzer self) q = Ok lows /\
    (if bool_decide (d = BULLISH) then BMSDetector.detect_bullish_bms (_config self) q highs
     else BMSDetector.detect_bearish_bms (_config self) q lows) = Ok bms /\
    (if bool_decide (d = BULLISH) then CHOCHDetector.detect_bullish_choch q highs
     else CHOCHDetector.detect_bearish_choch q lows) = Ok choch /\
    (if bool_decide (d = BULLISH) then InducementDetector.detect_bullish_inducement (_config self) q lows
     else InducementDetector.detect_bearish_inducement (_config self) q highs) = Ok inducements /\
    SweepAnalyzer.detect_sweeps_in_sequence (_sweep_analyzer self) q highs lows = Ok sweeps /\
    FVGDetector.detect_fvgs (_config self) q = Ok fvgs /\
    py_index (CandleSequence.candles q) (-1) = Ok k /\
    SessionAnalyzer.identify_session (_session_analyzer self) (Candle.timestamp k) = Ok session /\
    (exists s, In s sweeps /\ LiquiditySweep.closed_back_inside s = true) /\
    choch <> [] /\ bms <> [] /\
    fle lower (Candle.close k) = true /\ fle (Candle.close k) upper = true /\
    (SMCConfig.require_session_timing (_config self) = true ->
       SessionState.active_session session ∈ [LONDON; NEW_YORK; OVERLAP_LONDON_NY]) /\
    (forall i, In i inducements -> InducementEvent.direction i = d -> InducementEvent.cleared i = true) /\
    (exists g, In g fvgs /\ FairValueGap.direction g = d).

(** No reason to drop the setup on the higher timeframe. *)
Record stands (self : t) (q : CandleSequence.t) (d : Direction) (upper lower : float) (stop : option float) : Prop := {
  st_zone : fle (fsub upper lower) fzero = true \/
    forall k, In k (CandleSequence.candles q) -> closes_against d lower upper k = false;
  st_structure : exists highs lows bms,
    SwingAnalyzer.detect_swing_highs (_swing_analyzer self) q = Ok highs /\
    SwingAnalyzer.detect_swing_lows (_swing_analyzer self) q = Ok lows /\
    (if bool_decide (d = BULLISH) then BMSDetector.detect_bearish_bms (_config self) q lows
     else BMSDetector.detect_bullish_bms (_config self) q highs) = Ok bms /\
    forall e k, In e bms -> CandleSequence.candles q !! (length (CandleSequence.candles q) - 20)%nat = Some k ->
      instant (BreakInMarketStructure.timestamp e) < instant (Candle.timestamp k);
  st_stop : forall x, stop = Some x -> fle x fzero = false ->
    forall k, In k (drop (length (CandleSequence.candles q) - 10) (CandleSequence.candles q)) ->
      closes_against d x x k = false }.

Lemma existsb_false {A} (f : A -> bool) l : existsb f l = false <-> forall x, In x l -> f x = false.
Proof.
  rewrite <- not_true_iff_false, existsb_exists. split.
  - intros H x Hx. apply not_true_iff_false. intros E. apply H. by exists x.
  - intros H (x & Hx & E). by rewrite H in E.
Qed.

Lemma fresh_iff q d upper lower :
  _check_ob_still_fresh q d upper lower = true <->
  fle (fsub upper lower) fzero = true \/
  forall k, In k (CandleSequence.candles q) -> closes_against d lower upper k = false.
Proof.
  unfold _check_ob_still_fresh. destruct (fle _ fzero); [tauto|].
  rewrite negb_true_iff, existsb_false. split; [tauto|]. by intros [|].
Qed.

Lemma py_slice_last {A} (l : list A) (n : Z) :
  0 <= n -> py_slice_from l (- n) = if n =? 0 then l else drop (length l - Z.to_nat n) l.
Proof.
  intros Hn. unfold py_slice_from, py_slice_bound. destruct (Z.eqb_spec n 0) as [->|].
  - cbn. unfold py_len. by rewrite Z.min_l by lia.
  - rewrite (proj2 (Z.ltb_lt _ _)) by lia. f_equal. unfold py_len. lia.
Qed.

Lemma stop_iff q d stop :
  _check_sl_not_blown q d stop = true <->
  forall x, stop = Some x -> fle x fzero = false ->
    forall k, In k (drop (length (CandleSequence.candles q) - 10) (CandleSequence.candles q)) ->
      closes_against d x x k = false.
Proof.
  unfold _check_sl_not_blown. destruct stop as [x|]; [|split; [done|by intros]]. cbv zeta.
  set (v := CandleSequence.candles q).
  assert (E : (if 10 <? py_len v then py_slice_from v (-10) else v) = drop (length v - 10) v).
  { destruct (Z.ltb_spec 10 (py_len v)) as [H|H]; unfold py_len in H; [exact (py_slice_last v 10 ltac:(lia))|].
    by replace (length v - 10)%nat with 0%nat by lia. }
  rewrite E. destruct (fle x fzero) eqn:Ex; [split; [|done]; by intros _ ? [= <-] ?; congruence|].
  rewrite negb_true_iff, existsb_false. split; [by intros H ? [= <-]|]. intros H. by apply H.
Qed.

Lemma opposing_spec self q d b :
  CandleSequence.candles q <> [] -> _check_no_opposing_bms self q d = Ok b ->
  exists highs lows bms,
    SwingAnalyzer.detect_swing_highs (_swing_analyzer self) q = Ok highs /\
    SwingAnalyzer.detect_swing_lows (_swing_analyzer self) q = Ok lows /\
    (if bool_decide (d = BULLISH) then BMSDetector.detect_bearish_bms (_config self) q lows
     else BMSDetector.detect_bullish_bms (_config self) q highs) = Ok bms /\
    (b = true <-> forall e k, In e bms ->
       CandleSequence.candles q !! (length (CandleSequence.candles q) - 20)%nat = Some k ->
       instant (BreakInMarketStructure.timestamp e) < instant (Candle.timestamp k)).
Proof.
  intros Hne H. unfold _check_no_opposing_bms in H. cbv zeta in H. inv_binds.
  rename a into highs, a0 into lows, a1 into bms. exists highs, lows, bms. repeat (split; [done|]). subst b.
  set (v := CandleSequence.candles q) in *.
  assert (Er : py_slice_from v (- Z.min 20 (py_len v)) = drop (length v - 20) v).
  { assert (0 < py_len v) by (unfold py_len; destruct v; [done|simpl; lia]).
    rewrite py_slice_last by lia. rewrite (proj2 (Z.eqb_neq _ _)) by lia. f_equal. unfold py_len. lia. }
  rewrite Er. destruct (drop (length v - 20) v) as [|first rest] eqn:Ed.
  { exfalso. apply (f_equal length) in Ed. rewrite length_drop in Ed. destruct v; [done|simpl in Ed; lia]. }
  assert (Ef : v !! (length v - 20)%nat = Some first).
  { rewrite <- (Nat.add_0_r (length v - 20)), <- lookup_drop, Ed. done. }
  destruct (List.filter _ bms) as [|e es] eqn:Eb; split; try done.
  - intros _ e k He Ek. rewrite Ef in Ek. injection Ek as <-. apply Z.nle_gt. intros Hle.
    assert (Hin : In e (List.filter (fun bms => dt_leb (Candle.timestamp first) (BreakInMarketStructure.timestamp bms)) bms))
      by (apply filter_In; split; [done|]; unfold dt_leb; by apply Z.leb_le).
    by rewrite Eb in Hin.
  - intros Hall. exfalso.
    assert (Hin : In e (e :: es)) by (by left). rewrite <- Eb in Hin. apply filter_In in Hin as [Hin Hle].
    specialize (Hall e first Hin Ef). unfold dt_leb in Hle. apply Z.leb_le in Hle. lia.
Qed.

Lemma ltf_checks_spec self q d upper lower entry :
  (exists checks, _run_ltf_checks self q d upper lower entry = Ok checks /\ forallb snd checks = true) <->
  ready self q d upper lower.
Proof.
  unfold _run_ltf_checks. cbv zeta. split.
  - intros (checks & H & Hall). inv_binds. subst checks. cbn [forallb snd] in Hall.
    rewrite !andb_true_iff in Hall. destruct Hall as (Hs & Hc & Hb & (Hl & Hu) & Ht & Hi & Hg & _).
    unfold ready. do 9 eexists. repeat (split; [eassumption|]).
    split; [by apply existsb_exists in Hs|]. split; [by intros ->|]. split; [by intros ->|].
    split; [done|]. split; [done|]. split.
    { intros Hr. rewrite Hr in Ht. cbn [negb] in Ht. by apply bool_decide_eq_true in Ht. }
    split.
    + intros i Hin Hd. rewrite forallb_forall in Hi. apply Hi. apply filter_In. split; [done|]. by apply bool_decide_eq_true.
    + apply existsb_exists in Hg as (g & Hin & Hd). apply bool_decide_eq_true in Hd. by exists g.
  - intros (hs & ls & bms & choch & idm & sw & gaps & k & st & -> & -> & Eb & Ec & Ei & E1 & E2 & E3 & E4 &
      Hs & Hc & Hb & Hl & Hu & Ht & Hi & Hg).
    cbn [mbind res_bind]. rewrite Eb. cbn [mbind res_bind]. rewrite Ec. cbn [mbind res_bind].
    rewrite Ei. cbn [mbind res_bind]. rewrite E1, E2, E3. cbn [mbind res_bind]. rewrite E4. cbn [mbind res_bind].
    eexists. split; [reflexivity|]. cbn [forallb snd].
    assert (Hp : forall A (l : list A), l <> [] -> (0 <? py_len l) = true)
      by (intros A l Hl'; apply Z.ltb_lt; destruct l; [done|rewrite py_len_cons; pose proof (py_len_nonneg l); lia]).
    rewrite (Hp _ _ Hc), (Hp _ _ Hb), Hl, Hu, (proj2 (existsb_exists _ _) Hs). cbn [andb].
    rewrite !andb_true_iff. split; [|split; [|split; [|done]]].
    + destruct (SMCConfig.require_session_timing _); cbn [negb]; [|done]. apply bool_decide_eq_true. by apply Ht.
    + apply forallb_forall. intros i Hin. apply filter_In in Hin as [Hin Hd]. apply bool_decide_eq_true in Hd. auto.
    + apply existsb_exists. destruct Hg as (g & Hin & Hd). exists g. split; [done|]. by apply bool_decide_eq_true.
Qed.

Lemma resolve_returns htf tf : exists r, _resolve_htf_timeframe htf tf = Ok r.
Proof.
  unfold _resolve_htf_timeframe.
  assert (D : exists r, (parent ← get_parent_timeframe tf 2;
    match parent with Some _ => Ok parent | None => get_parent_timeframe tf 1 end) = Ok r)
    by (destruct tf; eexists; vm_compute; reflexivity).
  destruct htf as [s|]; [|done]. destruct s; [done|]. destruct (timeframe_of_value _); [by eexists|done].
Qed.

Section Confirm.
Context {W : Type} `{CW : Clock W, BW : Broker W} (exn_str : exn -> string) (self : t).

(** The layer's verdict on a sequence long enough to be judged. *)
Definition verdict (q : CandleSequence.t) (d : Direction) (upper lower : float) (stop : option float) (b : bool) : bool :=
  _check_ob_still_fresh q d upper lower && b && _check_sl_not_blown q d stop.

Lemma verdict_iff q d upper lower stop b :
  CandleSequence.candles q <> [] -> _check_no_opposing_bms self q d = Ok b ->
  verdict q d upper lower stop b = true <-> stands self q d upper lower stop.
Proof.
  intros Hne Hb. destruct (opposing_spec self q d b Hne Hb) as (hs & ls & bms & Eh & El & Eb & Hiff).
  unfold verdict. rewrite !andb_true_iff, fresh_iff, stop_iff, Hiff. split.
  - intros [[Hz Hs] Hst]. constructor; [done| |done]. by exists hs, ls, bms.
  - intros [Hz (hs' & ls' & bms' & Eh' & El' & Eb' & Hs) Hst]. split; [|done]. split; [done|].
    rewrite Eh in Eh'. injection Eh' as <-. rewrite El in El'. injection El' as <-.
    rewrite Eb in Eb'. by injection Eb' as <-.
Qed.

Lemma stands_opposing q d upper lower stop :
  CandleSequence.candles q <> [] -> stands self q d upper lower stop -> exists b, _check_no_opposing_bms self q d = Ok b.
Proof.
  intros Hne [_ (hs & ls & bms & Eh & El & Eb & _) _]. unfold _check_no_opposing_bms. cbv zeta.
  rewrite Eh, El. cbn [mbind res_bind]. rewrite Eb. cbn [mbind res_bind]. by eexists.
Qed.

Lemma layer1_invalidated symbol d htf upper lower stop w :
  forall i w', _run_invalidation_layer self symbol d htf upper lower stop w = (i, w') ->
  exists h, _fetch_candles symbol htf HTF_LOOKBACK w = (h, w') /\
    match h with
    | Raise e => i = Raise e
    | Ok (Some q) =>
        if CandleSequence.count q <? 5 then exists inv, i = Ok inv /\ is_invalidated inv = false
        else match _check_no_opposing_bms self q d with
             | Ok b => exists inv, i = Ok inv /\ is_invalidated inv = negb (verdict q d upper lower stop b)
             | Raise e => i = Raise e
             end
    | Ok None => exists inv, i = Ok inv /\ is_invalidated inv = false
    end.
Proof.
  intros i w'. unfold _run_invalidation_layer, mbind, io_bind. cbv zeta.
  destruct (_fetch_candles symbol htf HTF_LOOKBACK w) as [[[q|]|e] w1].
  - destruct (CandleSequence.count q <? 5) eqn:Ec.
    { intros [= <- <-]. eexists. split; [done|]. cbn. rewrite Ec. by eexists. }
    unfold lift. destruct (_check_no_opposing_bms self q d) as [b|e] eqn:Eb; intros [= <- <-];
      (eexists; split; [done|]); cbn; rewrite Ec, Eb; [|done].
    eexists. split; [done|]. unfold verdict.
    by destruct (_check_ob_still_fresh q d upper lower), b, (_check_sl_not_blown q d stop).
  - intros [= <- <-]. eexists. split; [done|]. by eexists.
  - intros [= <- <-]. by eexists.
Qed.

(** What the fetch of the higher timeframe sees, the state it leaves, and what
    the fetch of the lower timeframe then sees. *)
Definition htf_fetch (request : LTFConfirmationRequest.t) (htf : option Timeframe) (w : W)
    : res (option CandleSequence.t) * W :=
  match htf with
  | Some htf => _fetch_candles (LTFConfirmationRequest.symbol request) htf HTF_LOOKBACK w
  | None => (Ok None, w)
  end.

Section Pipeline.
Context (request : LTFConfirmationRequest.t) (d : Direction).
Abbreviation upper := (LTFConfirmationRequest.ob_upper request).
Abbreviation lower := (LTFConfirmationRequest.ob_lower request).
Abbreviation stop := (LTFConfirmationRequest.stop_loss request).

(** The first layer lets the setup through: the fetch did not fail and, if there
    is enough to judge, the setup stands. *)
Definition passes (h : res (option CandleSequence.t)) : Prop :=
  exists oh, h = Ok oh /\ forall q, oh = Some q -> 5 <= CandleSequence.count q -> stands self q d upper lower stop.

Definition refused (h : res (option CandleSequence.t)) : Prop :=
  exists q b, h = Ok (Some q) /\ 5 <= CandleSequence.count q /\ _check_no_opposing_bms self q d = Ok b /\
    ~ stands self q d upper lower stop.

Definition confirmable (l : res (option CandleSequence.t)) : Prop :=
  exists q, l = Ok (Some q) /\ 10 <= CandleSequence.count q /\ ready self q d upper lower.

Lemma respond_eq start b cs e i w :
  exists r w', respond request start b cs e i w = (Ok r, w') /\ LTFConfirmationResponse.confirmed r = b /\
    LTFConfirmationResponse.checks r = cs /\ LTFConfirmationResponse.error r = e /\
    LTFConfirmationResponse.invalidated r = (match i with Some _ => true | None => false end).
Proof.
  unfold respond, mbind, io_bind, now. destruct (now_utc w) as [stop w']. eexists _, w'. split; [reflexivity|]. done.
Qed.

Lemma count_nonempty q n : 0 < n -> n <= CandleSequence.count q -> CandleSequence.candles q <> [].
Proof. unfold CandleSequence.count. intros Hn H E. rewrite E in H. unfold py_len in H. simpl in H. lia. Qed.

(** The outcome of the first layer, by what the fetch saw. *)
Lemma layer1_cases htf w :
  exists i w', (match htf with
    | Some htf_tf =>
        i ← _run_invalidation_layer self (LTFConfirmationRequest.symbol request) d htf_tf upper lower stop;
        mret (if is_invalidated i then Some i else None)
    | None => mret None
    end : io W (option invalidation)) w = (i, w') /\ snd (htf_fetch request htf w) = w' /\
    match i with
    | Ok None => passes (fst (htf_fetch request htf w)) /\ ~ refused (fst (htf_fetch request htf w))
    | Ok (Some _) => ~ passes (fst (htf_fetch request htf w)) /\ refused (fst (htf_fetch request htf w))
    | Raise _ => ~ passes (fst (htf_fetch request htf w)) /\ ~ refused (fst (htf_fetch request htf w))
    end.
Proof.
  destruct htf as [htf|]; cbn [htf_fetch].
  2: { exists (Ok None), w. split; [done|]. split; [done|]. split; [by exists None|]. by intros (q & b & [=] & _). }
  unfold mbind, io_bind at 1.
  destruct (_run_invalidation_layer self _ d htf upper lower stop w) as [i w'] eqn:E.
  apply layer1_invalidated in E as (h & -> & Hi). cbn [fst snd].
  destruct h as [[q|]|e].
  - destruct (Z.ltb_spec (CandleSequence.count q) 5) as [Hc|Hc].
    + destruct Hi as (inv & -> & ->). eexists _, w'. split; [done|]. split; [done|].
      split; [|intros (q' & b & [= <-] & ? & _); lia]. eexists. split; [done|]. intros ? [= <-]. lia.
    + pose proof (count_nonempty q 5 ltac:(lia) Hc) as Hne.
      destruct (_check_no_opposing_bms self q d) as [b|e] eqn:Eb.
      * destruct Hi as (inv & -> & ->).
        pose proof (verdict_iff q d upper lower stop b Hne Eb) as Hv.
        destruct (verdict q d upper lower stop b); cbn [negb]; eexists _, w'; (split; [done|]); (split; [done|]).
        -- split; [eexists; split; [done|]; intros ? [= <-] _; by apply Hv|].
           intros (q' & b' & [= <-] & _ & _ & Hn). apply Hn. by apply Hv.
        -- assert (Hn : ~ stands self q d upper lower stop) by (rewrite <- Hv; done).
           split; [|by exists q, b]. intros (oh & [= <-] & Hall). apply Hn. by apply Hall.
      * subst i. eexists _, w'. split; [done|]. split; [done|].
        split; [|intros (q' & b & [= <-] & _ & Eb' & _); congruence].
        intros (oh & [= <-] & Hall). destruct (stands_opposing q d upper lower stop Hne (Hall q eq_refl Hc)). congruence.
  - destruct Hi as (inv & -> & ->). eexists _, w'. split; [done|]. split; [done|].
    split; [by exists None|]. by intros (q & b & [=] & _).
  - subst i. eexists _, w'. split; [done|]. split; [done|].
    split; [by intros (? & [=] & _)|by intros (? & ? & [=] & _)].
Qed.

(** The outcome of the body of the [try]. *)
Lemma body_spec start tf htf w :
  _resolve_htf_timeframe (LTFConfirmationRequest.htf_timeframe request) tf = Ok htf ->
  let '(h, w2) := htf_fetch request htf w in
  let l := fst (_fetch_candles (LTFConfirmationRequest.symbol request) tf LTF_LOOKBACK w2) in
  exists o w', confirm_body self request start d tf w = (o, w') /\
    match o with
    | Ok r => (LTFConfirmationResponse.confirmed r = true <-> passes h /\ confirmable l) /\
              (LTFConfirmationResponse.invalidated r = true <-> refused h)
    | Raise _ => ~ (passes h /\ confirmable l) /\ ~ refused h
    end.
Proof.
  intros Er. destruct (htf_fetch request htf w) as [h w2] eqn:Eh. cbv zeta. unfold confirm_body. cbv zeta.
  rewrite Er. unfold mbind at 1, io_bind at 1, lift at 1.
  destruct (layer1_cases htf w) as (i & w' & E1 & Ew & Hi). rewrite Eh in Ew, Hi. cbn [fst snd] in Ew, Hi. subst w'.
  unfold mbind at 1, io_bind at 1. rewrite E1. destruct i as [[inv|]|e].
  - destruct (respond_eq start false [] None (Some inv) w2) as (r & w' & E & Hc & _ & _ & Hin).
    exists (Ok r), w'. split; [exact E|]. rewrite Hc, Hin. split; [split; [done|tauto]|]. split; [tauto|done].
  - unfold mbind at 1, io_bind at 1.
    destruct (_fetch_candles _ tf LTF_LOOKBACK w2) as [[[q|]|e] w3]; cbn [fst].
    + destruct (Z.ltb_spec (CandleSequence.count q) 10) as [Hc|Hc].
      * destruct (respond_eq start false [] (Some "Insufficient LTF candle data") None w3) as (r & w' & E & Hr & _ & _ & Hin).
        exists (Ok r), w'. split; [exact E|]. rewrite Hr, Hin. split; [|by split; [|tauto]]. split; [done|].
        intros [_ (q' & [= <-] & ? & _)]. lia.
      * pose proof (ltf_checks_spec self q d upper lower (LTFConfirmationRequest.entry_price request)) as Hk.
        unfold mbind at 1, io_bind at 1, lift at 1.
        destruct (_run_ltf_checks self q d upper lower _) as [cs|e] eqn:Ek.
        -- destruct (respond_eq start (forallb snd cs) cs None None w3) as (r & w' & E & Hr & _ & _ & Hin).
           exists (Ok r), w'. split; [exact E|]. rewrite Hr, Hin. split; [|by split; [|tauto]]. split.
           ++ intros Hall. split; [tauto|]. exists q. split; [done|]. split; [done|]. apply Hk. by exists cs.
           ++ intros [_ (q' & [= <-] & _ & Hrd)]. apply Hk in Hrd as (cs' & [= <-] & Hall). done.
        -- exists (Raise e), w3. split; [done|]. split; [|tauto].
           intros [_ (q' & [= <-] & _ & Hrd)]. by apply Hk in Hrd as (cs' & ? & _).
    + destruct (respond_eq start false [] (Some "Insufficient LTF candle data") None w3) as (r & w' & E & Hr & _ & _ & Hin).
      exists (Ok r), w'. split; [exact E|]. rewrite Hr, Hin. split; [|by split; [|tauto]]. split; [done|]. by intros [_ (q' & [=] & _)].
    + exists (Raise e), w3. split; [done|]. split; [|tauto]. by intros [_ (q' & [=] & _)].
  - exists (Raise e), w2. split; [done|]. tauto.
Qed.
End Pipeline.

(** C14: the confirmation pulse.  Given a direction and a timeframe that parse, the
    service always answers, whatever the broker, the clock and the detectors do,
    and the answer is exact: it confirms exactly when the higher timeframe's fetch
    worked and either gave too little to judge or a sequence on which the setup
    stands (no close beyond the zone, no recent opposing break, no close beyond the
    stop), and the lower timeframe's fetch gave at least ten candles on which all
    seven checks hold; it says invalidated exactly when a sequence long enough was
    judged and the setup does not stand. *)
Theorem confirm_exact request d tf htf (w : W) :
  direction_of_value (LTFConfirmationRequest.direction request) = Ok d ->
  timeframe_of_value (LTFConfirmationRequest.ltf_timeframe request) = Ok tf ->
  _resolve_htf_timeframe (LTFConfirmationRequest.htf_timeframe request) tf = Ok htf ->
  let '(h, w2) := htf_fetch request htf (snd (now_utc w)) in
  let l := fst (_fetch_candles (LTFConfirmationRequest.symbol request) tf LTF_LOOKBACK w2) in
  exists r w', confirm exn_str self request w = (Ok r, w') /\
    (LTFConfirmationResponse.confirmed r = true <-> passes request d h /\ confirmable request d l) /\
    (LTFConfirmationResponse.invalidated r = true <-> refused request d h).
Proof.
  intros Ed Et Er. unfold confirm, now. unfold mbind at 1, io_bind at 1.
  destruct (now_utc w) as [start w1] eqn:En. cbn [snd].
  pose proof (body_spec request d start tf htf w1 Er) as Hb.
  destruct (htf_fetch request htf w1) as [h w2]. cbv zeta in *. destruct Hb as (o & w' & Eb & Ho).
  rewrite Ed, Et. unfold mbind, io_bind at 1, lift at 1. unfold io_bind at 1, lift at 1, attempt. rewrite Eb.
  destruct o as [r|e]; [by exists r, w'|].
  destruct (respond_eq request start false [] (Some (exn_str e)) None w') as (r & w'' & E & Hc & _ & _ & Hi).
  exists r, w''. split; [exact E|]. rewrite Hc, Hi. destruct Ho as [H1 H2]. split; split; try done; tauto.
Qed.
End Confirm.

(** ** Freshness, against the validator *)

(** The service's freshness test is stricter than the validator's, which the
    code calls its single source of truth.  On every sequence, a block with a zone
    that the service calls fresh is fresh for [validate_zone_freshness]; but the
    service reads every fetched candle, also those before the block formed, so a
    block the validator calls fresh is dropped when an earlier candle closed
    beyond its edge. *)
Theorem service_freshness_stricter :
  (forall q ob, OrderBlock.direction ob <> NEUTRAL -> 0 <= OrderBlock.candle_index ob ->
     fle (fsub (OrderBlock.upper_bound ob) (OrderBlock.lower_bound ob)) fzero = false ->
     _check_ob_still_fresh q (OrderBlock.direction ob) (OrderBlock.upper_bound ob) (OrderBlock.lower_bound ob) = true ->
     ZoneValidator.validate_zone_freshness ob q = Ok true) /\
  (exists q ob, OrderBlock.direction ob = BULLISH /\ 0 <= OrderBlock.candle_index ob /\
     ZoneValidator.validate_zone_freshness ob q = Ok true /\
     (forall j k, CandleSequence.candles q !! j = Some k ->
        closes_against BULLISH (OrderBlock.lower_bound ob) (OrderBlock.upper_bound ob) k = true ->
        Z.of_nat j < OrderBlock.candle_index ob) /\
     _check_ob_still_fresh q BULLISH (OrderBlock.upper_bound ob) (OrderBlock.lower_bound ob) = false).
Proof.
  split.
  - intros q ob Hd Hi Hz Hf. destruct (ValidatorFacts.freshness_spec q ob Hi) as (b & E & Hb). rewrite E. f_equal.
    apply Hb. intros j Hj. apply fresh_iff in Hf as [Hf|Hf]; [congruence|].
    unfold ValidatorFacts.broken_at, holds_at. destruct (CandleSequence.candles q !! Z.to_nat j) as [k|] eqn:Ek; [|done].
    specialize (Hf k (proj1 (list_elem_of_In _ _) (list_elem_of_lookup_2 _ _ _ Ek))).
    unfold breaks_ob. unfold closes_against in Hf.
    destruct (OrderBlock.direction ob); [done|done|done].
  - pose (bar := fun (h c : Z) => Candle.mk "EURUSD" H1 (mk_datetime (h * us_per_hour) (Some 0)) (lit c 4)
      (lit (c + 10) 4) (lit (c - 10) 4) (lit c 4) fzero).
    exists (CandleSequence.mk "EURUSD" H1 [bar 0 10700; bar 1 10850; bar 2 10950]),
      (OrderBlock.mk "EURUSD" H1 (lit 10900 4) (lit 10800 4) (mk_datetime us_per_hour (Some 0)) 1 BULLISH fzero false false None).
    repeat split; [done|].
    intros [|[|[|j]]] k Hk Hc; cbn in Hk; try discriminate Hk; injection Hk as <-; vm_compute in Hc; done.
Qed.

(** ** Samples *)

(** A world in which the clock stands still and the broker has one sequence. *)
#[local] Instance sample_clock : Clock unit := {| now_utc := fun w => (mk_datetime (10 ^ 15) (Some 0), w) |}.
#[local] Instance sample_broker : Broker unit := {| fetch_candles := fun _ tf _ _ _ w =>
  (Ok (Some (CandleSequence.mk "EURUSD" tf (map (fun h => Candle.mk "EURUSD" tf (mk_datetime (h * us_per_hour) (Some 0))
    (lit 10700 4) (lit 10710 4) (lit 10690 4) (lit 10700 4) fzero) [0; 1; 2; 3; 4; 5]))), w) |}.

Definition sample_request : LTFConfirmationRequest.t :=
  LTFConfirmationRequest.mk "EURUSD" "BULLISH" "M5" (lit 10900 4) (lit 10800 4) (lit 10850 4) None None None.
Definition sample_service : t :=
  mk SMCConfig.default SwingAnalyzer.default
    (SessionAnalyzer.mk (SessionWindow.mk ASIA 0 9) (SessionWindow.mk LONDON 7 16) (SessionWindow.mk NEW_YORK 12 21))
    SweepAnalyzer.default.

Lemma confirm_exact_witness :
  exists r w', confirm (fun _ => "error") sample_service sample_request tt = (Ok r, w') /\
    LTFConfirmationResponse.invalidated r = true /\ LTFConfirmationResponse.confirmed r = false.
Proof.
  pose proof (confirm_exact (fun _ => "error") sample_service sample_request BULLISH M5 (Some M30) tt
    eq_refl eq_refl eq_refl) as H.
  cbv zeta in H. destruct (htf_fetch _ _ _) as [h w2]. destruct H as (r & w' & E & _). exists r, w'. split; [exact E|].
  vm_compute in E. injection E as <- <-. split; reflexivity.
Defined.
End ConfirmationFacts.
