(* ===== verification/Compression.v ===== *)
(** * Compression: [engine/ta/common/analyzers/compression.py]

    The search for stretches of candles whose range stays within a band, and
    its correctness: the search returns, and finds disjoint stretches that
    cover every window that qualifies. *)

From Stdlib Require Import ZArith Lia Bool String Sorting.Sorted.
From stdpp Require Import base list strings sorting.
From S2P Require Import Prelude PyFloat FloatRound PyText Constants PriceMath Candles Swings Sessions Liquidity.

#[local] Open Scope string_scope.
#[local] Open Scope Z_scope.
#[local] Open Scope list_scope.

Module CompressionAnalyzer.

Record t := mk { min_candles : Z; max_range_pips : float; min_range_pips : float }.

Definition default : t := mk 3 (lit 150 1) (lit 50 1).

Definition _determine_compression_direction (candles : list Candle.t) : res Direction :=
  match candles with
  | [] => Ok NEUTRAL
  | _ =>
      first ← py_index candles 0;
      last ← py_index candles (-1);
      Ok (if flt (Candle.close first) (Candle.close last) then BULLISH
          else if flt (Candle.close last) (Candle.close first) then BEARISH else NEUTRAL)
  end.

(** The scan from a start candle: [high], [low] and [candle_count] so far. *)
Fixpoint extend (self : t) (candles : list Candle.t) (start_index : Z) (start_candle : Candle.t)
    (high low : float) (candle_count : Z) (js : list Z) : res (option CompressionEvent.t) :=
  match js with
  | [] => Ok None
  | i :: js =>
      current ← py_index candles i;
      let temp_high := fmax high (Candle.high current) in
      let temp_low := fmin low (Candle.low current) in
      temp_range_pips ← calculate_pips temp_low temp_high (Candle.symbol current);
      if flt (max_range_pips self) temp_range_pips then Ok None
      else
        let candle_count := candle_count + 1 in
        if min_candles self <=? candle_count then
          range_pips ← calculate_pips temp_low temp_high (Candle.symbol current);
          if flt range_pips (min_range_pips self)
          then extend self candles start_index start_candle temp_high temp_low candle_count js
          else
            direction ← _determine_compression_direction (py_slice candles start_index (i + 1));
            e ← CompressionEvent.create (Candle.symbol start_candle) (Candle.timeframe start_candle)
                  (Candle.timestamp start_candle) (Some (Candle.timestamp current)) temp_high temp_low
                  direction candle_count start_index (Some i) false None;
            Ok (Some e)
        else extend self candles start_index start_candle temp_high temp_low candle_count js
  end.

Definition _find_compression_at_index (self : t) (sequence : CandleSequence.t) (start_index : Z)
    : res (option CompressionEvent.t) :=
  let candles := CandleSequence.candles sequence in
  if py_len candles <? start_index + min_candles self then Ok None
  else
    start_candle ← py_index candles start_index;
    extend self candles start_index start_candle (Candle.high start_candle) (Candle.low start_candle) 1
      (py_range (start_index + 1) (py_len candles)).

(** The [while] loop; [None] when the fuel runs out. *)
Fixpoint detect_loop (self : t) (sequence : CandleSequence.t) (fuel : nat) (i : Z)
    (compressions : list CompressionEvent.t) : res (option (list CompressionEvent.t)) :=
  if i <? py_len (CandleSequence.candles sequence) - min_candles self + 1 then
    match fuel with
    | O => Ok None
    | S fuel =>
        c ← _find_compression_at_index self sequence i;
        match c with
        | Some c =>
            detect_loop self sequence fuel
              (match CompressionEvent.end_index c with
               | Some e => if e =? 0 then i + 1 else e + 1
               | None => i + 1
               end) (compressions ++ [c])
        | None => detect_loop self sequence fuel (i + 1) compressions
        end
    end
  else Ok (Some compressions).

Definition detect_compression (self : t) (sequence : CandleSequence.t)
    : res (option (list CompressionEvent.t)) :=
  detect_loop self sequence (S (length (CandleSequence.candles sequence) + Z.to_nat (- min_candles self)))
    0 [].

Definition detect_breakout (compression : CompressionEvent.t) (sequence : CandleSequence.t)
    : res (option Direction) :=
  match CompressionEvent.end_index compression with
  | None => Ok None
  | Some e =>
      if py_len (CandleSequence.candles sequence) <=? e + 1 then Ok None
      else
        c ← py_index (CandleSequence.candles sequence) (e + 1);
        Ok (if flt (CompressionEvent.high compression) (Candle.close c) then Some BULLISH
            else if flt (Candle.close c) (CompressionEvent.low compression) then Some BEARISH else None)
  end.

Definition in_range (self : t) (range_pips : float) : bool :=
  negb (flt range_pips (min_range_pips self) || flt (max_range_pips self) range_pips).

Definition is_compression (self : t) (candles : list Candle.t) (symbol : string) : res bool :=
  if py_len candles <? min_candles self then Ok false
  else
    low ← fmin_list (map Candle.low candles);
    high ← fmax_list (map Candle.high candles);
    range_pips ← calculate_pips low high symbol;
    Ok (in_range self range_pips).

Definition is_valid_compression (self : t) (c : CompressionEvent.t) : res bool :=
  if CompressionEvent.candle_count c <? min_candles self then Ok false
  else
    range_pips ← calculate_pips (CompressionEvent.low c) (CompressionEvent.high c) (CompressionEvent.symbol c);
    Ok (in_range self range_pips).

Definition get_compression_midpoint (c : CompressionEvent.t) : res float :=
  fdiv (fadd (CompressionEvent.high c) (CompressionEvent.low c)) (of_Z 2).

End CompressionAnalyzer.

(** ** Correctness *)

Module CompressionFacts.
Import CompressionAnalyzer.

Section Search.
Context (self : t) (v : list Candle.t).
Hypotheses (Hmin : 1 <= min_candles self) (Nmax : num (max_range_pips self)) (Nmin : num (min_range_pips self))
  (Hv : forall c, In c v -> Candle.wf c /\ Candle.finite c /\ 3 <= str_len (str_strip (Candle.symbol c)) <= 30).

(** The candle at an index of the window from [s] to [t]. *)
Definition inside (s t : Z) (c : Candle.t) : Prop := exists k, s <= k <= t /\ v !! Z.to_nat k = Some c.

(** [high] and [low] are the extremes of the window. *)
Record extent (s t : Z) (h l : float) : Prop := {
  ext_h : exists c, inside s t c /\ Candle.high c = h;
  ext_l : exists c, inside s t c /\ Candle.low c = l;
  ext_max : forall c, inside s t c -> fv (Candle.high c) <= fv h;
  ext_min : forall c, inside s t c -> fv l <= fv (Candle.low c) }.

(** The range of the window, in pips, satisfies [P]. *)
Definition range_is (P : float -> bool) (s t : Z) : Prop :=
  forall h l c, extent s t h l -> v !! Z.to_nat t = Some c ->
    exists p, calculate_pips l h (Candle.symbol c) = Ok p /\ P p = true.

(** The window qualifies: long enough, never wider than the maximum while it
    grows, and in the end not narrower than the minimum. *)
Definition qualifies (s t : Z) : Prop :=
  s < t < py_len v /\ min_candles self <= t - s + 1 /\
  (forall k, s < k <= t -> range_is (fun p => fle p (max_range_pips self)) s k) /\
  range_is (fun p => fle (min_range_pips self) p) s t.

(** The event describes the window it spans. *)
Definition event_ok (e : CompressionEvent.t) : Prop :=
  let s := CompressionEvent.start_index e in
  exists t a b p, 0 <= s < t /\ t < py_len v /\ CompressionEvent.end_index e = Some t /\
    CompressionEvent.candle_count e = t - s + 1 /\ min_candles self <= t - s + 1 /\
    v !! Z.to_nat s = Some a /\ v !! Z.to_nat t = Some b /\
    CompressionEvent.start_timestamp e = Candle.timestamp a /\
    CompressionEvent.end_timestamp e = Some (Candle.timestamp b) /\
    extent s t (CompressionEvent.high e) (CompressionEvent.low e) /\
    calculate_pips (CompressionEvent.low e) (CompressionEvent.high e) (Candle.symbol b) = Ok p /\
    in_range self p = true /\
    (CompressionEvent.direction e = BULLISH <-> fv (Candle.close a) < fv (Candle.close b)) /\
    (CompressionEvent.direction e = BEARISH <-> fv (Candle.close b) < fv (Candle.close a)).

Definition end_of (e : CompressionEvent.t) : Z :=
  match CompressionEvent.end_index e with Some t => t | None => 0 end.

Lemma at_facts k c : v !! Z.to_nat k = Some c ->
  fin (Candle.high c) /\ fin (Candle.low c) /\ num (Candle.close c) /\ 0 < fv (Candle.low c) /\
  fv (Candle.low c) <= fv (Candle.high c) /\ 3 <= str_len (str_strip (Candle.symbol c)) <= 30.
Proof.
  intros H. destruct (Hv c) as (Hw & Hf & Hs); [by eapply list_elem_of_In, list_elem_of_lookup_2|].
  destruct (CandleFacts.finite_fin c Hw Hf) as (_ & Fh & Fl & Fc). destruct Hw.
  do 3 (split; [done|]). split; [done|]. split; [lia|done].
Qed.

Lemma extent_facts s t h l : extent s t h l -> fin h /\ fin l /\ 0 < fv l /\ 0 < fv h.
Proof.
  intros [(c & (k & _ & Hc) & <-) (d & (j & _ & Hd) & <-) _ _].
  destruct (at_facts k c Hc) as (Fh & _ & _ & H1 & H2 & _). destruct (at_facts j d Hd) as (_ & Fl & _ & H3 & _).
  split; [done|]. split; [done|]. lia.
Qed.

Lemma extent_one s c : v !! Z.to_nat s = Some c -> extent s s (Candle.high c) (Candle.low c).
Proof.
  intros Hc. assert (Hi : inside s s c) by (exists s; split; [lia|done]).
  assert (Hu : forall d, inside s s d -> d = c).
  { intros d (k & Hk & Hd). replace k with s in Hd by lia. congruence. }
  constructor; [by exists c|by exists c| |]; intros d Hd; by rewrite (Hu d Hd).
Qed.

Lemma extent_snoc s t h l c :
  s <= t -> extent s t h l -> v !! Z.to_nat (t + 1) = Some c ->
  extent s (t + 1) (fmax h (Candle.high c)) (fmin l (Candle.low c)).
Proof.
  intros Hst He Hc. destruct (extent_facts _ _ _ _ He) as (Fh & Fl & _ & _). destruct He as [Ih Il Mh Ml].
  destruct (at_facts _ _ Hc) as (Fch & Fcl & _).
  destruct (fmax_num h (Candle.high c)) as [_ Eh]; [auto with etradie..|].
  destruct (fmin_num l (Candle.low c)) as [_ El]; [auto with etradie..|].
  assert (Hnew : inside s (t + 1) c) by (exists (t + 1); split; [lia|done]).
  assert (Hold : forall d, inside s t d -> inside s (t + 1) d) by (intros d (k & Hk & Hd); exists k; split; [lia|done]).
  assert (Hsp : forall d, inside s (t + 1) d -> inside s t d \/ d = c).
  { intros d (k & Hk & Hd). destruct (decide (k = t + 1)) as [->|]; [right; congruence|left].
    exists k. split; [lia|done]. }
  constructor.
  - unfold fmax. destruct (flt h (Candle.high c)); [by exists c|]. destruct Ih as (d & Hd & E). exists d. auto.
  - unfold fmin. destruct (flt (Candle.low c) l); [by exists c|]. destruct Il as (d & Hd & E). exists d. auto.
  - intros d Hd. rewrite Eh. destruct (Hsp d Hd) as [H| ->]; [pose proof (Mh d H)|]; lia.
  - intros d Hd. rewrite El. destruct (Hsp d Hd) as [H| ->]; [pose proof (Ml d H)|]; lia.
Qed.

(** The direction compares the closes at the two ends of the window. *)
Lemma direction_spec s t a b :
  0 <= s < t -> v !! Z.to_nat s = Some a -> v !! Z.to_nat t = Some b ->
  exists d, _determine_compression_direction (py_slice v s (t + 1)) = Ok d /\
    (d = BULLISH <-> fv (Candle.close a) < fv (Candle.close b)) /\
    (d = BEARISH <-> fv (Candle.close b) < fv (Candle.close a)).
Proof.
  intros Hst Ha Hb. destruct (at_facts _ _ Ha) as (_ & _ & Na & _). destruct (at_facts _ _ Hb) as (_ & _ & Nb & _).
  destruct (SessionFacts.slice_ends v (Z.to_nat s) (Z.to_nat t)) as (x & y & Hx & Hy & H0 & H1);
    [lia|by eapply lookup_lt_Some|].
  rewrite Ha in Hx. injection Hx as <-. rewrite Hb in Hy. injection Hy as <-. rewrite !Z2Nat.id in H0, H1 by lia. unfold _determine_compression_direction.
  destruct (py_slice v s (t + 1)) as [|x l]; [discriminate H0|]. rewrite H0, H1. cbn [mbind res_bind].
  eexists. split; [done|]. rewrite !flt_fv by done.
  destruct (fv (Candle.close a) <? _) eqn:E1; [|destruct (fv (Candle.close b) <? _) eqn:E2]; zbool;
    split; split; intros; done || lia.
Qed.

(** The event the search builds when the window from [s] to [t] first
    qualifies. *)
Lemma event_Ok s t a b h l p :
  0 <= s < t -> t < py_len v -> v !! Z.to_nat s = Some a -> v !! Z.to_nat t = Some b -> extent s t h l ->
  min_candles self <= t - s + 1 -> calculate_pips l h (Candle.symbol b) = Ok p -> in_range self p = true ->
  exists e,
    (direction ← _determine_compression_direction (py_slice v s (t + 1));
     e ← CompressionEvent.create (Candle.symbol a) (Candle.timeframe a) (Candle.timestamp a)
           (Some (Candle.timestamp b)) h l direction (t - s + 1) s (Some t) false None;
     Ok (Some e)) = Ok (Some e) /\ event_ok e /\ CompressionEvent.start_index e = s.
Proof.
  intros Hst Ht Ha Hb He Hn Hp Hr. destruct (direction_spec s t a b Hst Ha Hb) as (d & -> & Hd1 & Hd2).
  destruct (extent_facts _ _ _ _ He) as (Fh & Fl & Pl & Ph). destruct (at_facts _ _ Ha) as (_ & _ & _ & _ & _ & Hs).
  cbn [mbind res_bind]. unfold CompressionEvent.create. rewrite SwingFacts.symbol_3_30_intro by done.
  rewrite !field_gt0_intro by (rewrite CandleFacts.flt_fzero by auto with etradie; by apply Z.ltb_lt).
  cbn [mbind res_bind]. rewrite !SwingFacts.int_field_intro by (lia || (intros; discriminate)). cbn [mbind res_bind].
  eexists. split; [done|]. split; [|done]. exists t, a, b, p. cbn. repeat (split; [done|]). done.
Qed.

Lemma in_range_spec p : num p ->
  flt (max_range_pips self) p = false -> flt p (min_range_pips self) = false -> in_range self p = true.
Proof. intros Np H1 H2. unfold in_range. by rewrite H1, H2. Qed.

(** The scan from a start: it finds an event there, or no window from there
    qualifies. *)
Lemma extend_spec s a : forall n j h l,
  v !! Z.to_nat s = Some a -> 0 <= s < j -> Z.of_nat n = py_len v - j ->
  extent s (j - 1) h l -> (forall t, t < j -> ~ qualifies s t) ->
  exists r, extend self v s a h l (j - s) (py_range j (py_len v)) = Ok r /\
    match r with
    | Some e => event_ok e /\ CompressionEvent.start_index e = s
    | None => forall t, ~ qualifies s t
    end.
Proof.
  induction n as [|n IH]; intros j h l Ha Hj Hn He Hq.
  { rewrite py_range_nil by lia. eexists. split; [done|]. intros t Hc. apply (Hq t); [destruct Hc; lia|done]. }
  rewrite py_range_cons by lia. cbn [extend].
  destruct (py_index_in_range v j) as (b & -> & Hb); [lia|]. cbn [mbind res_bind]. cbv zeta.
  assert (Hext : extent s j (fmax h (Candle.high b)) (fmin l (Candle.low b))).
  { replace j with (j - 1 + 1) by lia. apply extent_snoc; [lia|done|]. by replace (j - 1 + 1) with j by lia. }
  set (h' := fmax h (Candle.high b)) in *. set (l' := fmin l (Candle.low b)) in *.
  destruct (extent_facts _ _ _ _ Hext) as (Fh & Fl & Pl & Ph).
  destruct (calculate_pips_facts l' h' (Candle.symbol b)) as (p & Ep & _ & Np & _); [done|done|lia|lia|].
  rewrite Ep. cbn [mbind res_bind].
  destruct (flt (max_range_pips self) p) eqn:Emax.
  { eexists. split; [done|]. intros t Hc. destruct (Z.lt_ge_cases t j) as [Hlt|Hge]; [by apply (Hq t)|].
    destruct Hc as (_ & _ & Hw & _). destruct (Hw j ltac:(lia) h' l' b Hext Hb) as (p' & Ep' & Hp').
    rewrite Ep in Ep'. injection Ep' as <-. rewrite flt_fv in Emax by done. rewrite fle_fv in Hp' by done. zbool. lia. }
  replace (j - s + 1) with (j + 1 - s) by lia.
  assert (Hnext : ~ qualifies s j -> exists r,
    extend self v s a h' l' (j + 1 - s) (py_range (j + 1) (py_len v)) = Ok r /\
    match r with
    | Some e => event_ok e /\ CompressionEvent.start_index e = s
    | None => forall t, ~ qualifies s t
    end).
  { intros Hno. apply IH; [done|lia|lia|by replace (j + 1 - 1) with j by lia|].
    intros t Ht Hc. destruct (decide (t = j)) as [->|]; [done|]. apply (Hq t); [lia|done]. }
  destruct (min_candles self <=? j + 1 - s) eqn:En; zbool.
  2:{ apply Hnext. intros (_ & H & _). lia. }
  destruct (flt p (min_range_pips self)) eqn:Emin.
  { apply Hnext. intros (_ & _ & _ & Hw). destruct (Hw h' l' b Hext Hb) as (p' & Ep' & Hp').
    rewrite Ep in Ep'. injection Ep' as <-. rewrite flt_fv in Emin by done. rewrite fle_fv in Hp' by done. zbool. lia. }
  destruct (event_Ok s j a b h' l' p) as (e & Ee & Hok & Hs); try done; try lia; [by apply in_range_spec|].
  replace (j + 1 - s) with (j - s + 1) by lia. rewrite Ee. by eexists.
Qed.

Lemma find_spec q i :
  CandleSequence.candles q = v -> 0 <= i -> i + min_candles self <= py_len v ->
  exists r, _find_compression_at_index self q i = Ok r /\
    match r with
    | Some e => event_ok e /\ CompressionEvent.start_index e = i
    | None => forall t, ~ qualifies i t
    end.
Proof.
  intros Eq Hi Hl. unfold _find_compression_at_index. rewrite Eq. cbv zeta.
  rewrite (proj2 (Z.ltb_ge _ _)) by lia. destruct (py_index_in_range v i) as (a & -> & Ha); [lia|].
  cbn [mbind res_bind].
  pose proof (extend_spec i a (Z.to_nat (py_len v - (i + 1))) (i + 1) (Candle.high a) (Candle.low a) Ha) as H.
  replace (i + 1 - i) with 1 in H by lia. apply H; [lia|lia| |].
  - replace (i + 1 - 1) with i by lia. by apply extent_one.
  - intros t Ht (Hlt & _). lia.
Qed.

(** The events found before index [i]. *)
Record found (i : Z) (es : list CompressionEvent.t) : Prop := {
  fd_ok : Forall event_ok es;
  fd_end : Forall (fun e => end_of e < i) es;
  fd_sorted : StronglySorted (fun a b => end_of a < CompressionEvent.start_index b) es;
  fd_cover : forall s t, 0 <= s < i -> qualifies s t ->
    exists e, In e es /\ CompressionEvent.start_index e <= s <= end_of e }.

Lemma found_skip i es : found i es -> (forall t, ~ qualifies i t) -> found (i + 1) es.
Proof.
  intros [H1 H2 H3 H4] Hn. constructor; [done| |done|].
  - eapply Forall_impl; [exact H2|]. intros e He. simpl in *. lia.
  - intros s t Hs Hc. destruct (decide (s = i)) as [->|]; [by destruct (Hn t)|]. apply (H4 s t); [lia|done].
Qed.

Lemma found_push i es e :
  found i es -> event_ok e -> CompressionEvent.start_index e = i -> found (end_of e + 1) (es ++ [e]).
Proof.
  intros [H1 H2 H3 H4] He Hi. pose proof He as (t & a & b & p & Hst & Ht & Et & _).
  assert (Ee : end_of e = t) by (unfold end_of; by rewrite Et). rewrite Hi in Hst. constructor.
  - apply Forall_app. auto.
  - apply Forall_app. split; [|constructor; [lia|constructor]].
    eapply Forall_impl; [exact H2|]. intros x Hx. simpl in *. lia.
  - apply StronglySorted_app_2; [|done|repeat constructor]. intros x y Hx Hy.
    apply list_elem_of_singleton in Hy as ->. rewrite List.Forall_forall in H2. apply list_elem_of_In, H2 in Hx. lia.
  - intros s t' Hs Hc. destruct (Z.lt_ge_cases s i) as [Hlt|Hge].
    + destruct (H4 s t' ltac:(lia) Hc) as (x & Hx & Hr). exists x. split; [apply in_or_app; by left|done].
    + exists e. split; [apply in_or_app; right; by left|]. lia.
Qed.

Lemma detect_loop_spec q fuel : forall i es,
  CandleSequence.candles q = v -> 0 <= i -> py_len v - i < Z.of_nat fuel -> found i es ->
  exists es' n, detect_loop self q fuel i es = Ok (Some es') /\ found n es' /\ py_len v - min_candles self < n.
Proof.
  induction fuel as [|fuel IH]; intros i es Eq Hi Hf Hfd; cbn [detect_loop]; rewrite Eq.
  { rewrite (proj2 (Z.ltb_ge _ _)) by lia. exists es, i. split; [done|]. split; [done|lia]. }
  destruct (i <? py_len v - min_candles self + 1) eqn:E; zbool; [|exists es, i; split; [done|split; [done|lia]]].
  destruct (find_spec q i Eq Hi ltac:(lia)) as (r & -> & Hr). cbn [mbind res_bind]. destruct r as [e|].
  - destruct Hr as [He Hs]. pose proof (found_push i es e Hfd He Hs) as Hp.
    destruct He as (t & a & b & p & Hst & Ht & Et & _). rewrite Et. rewrite Hs in Hst.
    rewrite (proj2 (Z.eqb_neq _ _)) by lia. unfold end_of in Hp. rewrite Et in Hp. apply IH; [done|lia|lia|done].
  - apply IH; [done|lia|lia|by apply found_skip].
Qed.
End Search.

(** The compression search returns, and finds every quiet stretch once.
    On finite well-formed candles, with at least one candle required,
    [detect_compression] ends; its events are disjoint and in order; each one
    describes its window: the candle count, times, extremes and direction are
    those of the window, which is long enough and whose range in pips is within
    the configured minimum and maximum; and a window that qualifies (long enough,
    within the maximum while it grows, at least the minimum in the end) starts
    inside some event. *)
Theorem compression_exact (self : t) (q : CandleSequence.t) :
  let v := CandleSequence.candles q in
  1 <= min_candles self -> num (max_range_pips self) -> num (min_range_pips self) ->
  (forall c, In c v -> Candle.wf c /\ Candle.finite c /\ 3 <= str_len (str_strip (Candle.symbol c)) <= 30) ->
  exists es, detect_compression self q = Ok (Some es) /\
    Forall (event_ok self v) es /\
    StronglySorted (fun a b => end_of a < CompressionEvent.start_index b) es /\
    (forall s t, 0 <= s -> qualifies self v s t ->
       exists e, In e es /\ CompressionEvent.start_index e <= s <= end_of e).
Proof.
  intros v Hmin Nmax Nmin Hv. unfold detect_compression. fold v.
  destruct (detect_loop_spec self v Hmin Nmax Nmin Hv q (S (length v + Z.to_nat (- min_candles self))) 0 [])
    as (es & n & -> & [H1 _ H3 H4] & Hn); [done|lia|unfold py_len; lia| |].
  { constructor; [constructor|constructor|constructor|intros; lia]. }
  exists es. do 3 (split; [done|]). intros s t Hs Hc. apply (H4 s t); [|done].
  destruct Hc as (Hst & Hlen & _). lia.
Qed.

(** Four quiet candles, and then a wide one. *)
Definition sample_quiet : CandleSequence.t :=
  CandleSequence.mk "EURUSD" H1
    [SweepFacts.sample_bar 0 110080 110000 110040; SweepFacts.sample_bar 1 110090 110010 110050;
     SweepFacts.sample_bar 2 110085 110005 110045; SweepFacts.sample_bar 3 110080 110010 110050;
     SweepFacts.sample_bar 4 112000 110000 111000].

Lemma compression_exact_witness :
  exists es, detect_compression default sample_quiet = Ok (Some es) /\
    map (fun e => (CompressionEvent.start_index e, end_of e)) es = [(0, 2)] /\
    Forall (event_ok default (CandleSequence.candles sample_quiet)) es.
Proof.
  destruct (compression_exact default sample_quiet) as (es & E & H & _).
  - vm_compute. congruence.
  - vm_compute. split; congruence.
  - vm_compute. split; congruence.
  - intros c [<-|[<-|[<-|[<-|[<-|[]]]]]];
      (split; [constructor; vm_compute; repeat split; congruence|]);
      (split; [vm_compute; repeat split; congruence|vm_compute; split; discriminate]).
  - exists es. split; [exact E|]. split; [|exact H]. vm_compute in E. injection E as <-. vm_compute. reflexivity.
Defined.
End CompressionFacts.
