(* ===== verification/SnDConfig.v ===== *)
(** * SND configuration: [engine/ta/snd/config.py]

    The settings object of the supply and demand framework: every numeric field
    with its bounds and the two extra validators. *)

From Stdlib Require Import ZArith Lia Bool String.
From stdpp Require Import base list strings.
From S2P Require Import Prelude PyFloat FloatRound Candles SMCConfig.

#[local] Open Scope Z_scope.

Module SnDConfig.
Record t := mk {
  enabled : bool;
  marubozu_body_percentage_threshold : float;
  marubozu_max_wick_percentage : float;
  min_previous_touches : Z;
  previous_level_tolerance_pips : float;
  min_fakeout_tests : Z;
  compression_min_candles : Z;
  compression_max_range_pips : float;
  require_premium_discount : bool;
  require_fibonacci_confluence : bool;
  fibonacci_tolerance_pips : float;
  enable_qml_baseline : bool;
  enable_qml_mpl : bool;
  enable_qml_previous_levels_type1 : bool;
  enable_qml_previous_levels_type2 : bool;
  enable_triple_fakeout : bool;
  enable_fakeout_king : bool;
  enable_sop : bool }.

(** The two field validators: a [ValueError] becomes a [ValidationError]. *)
Definition validate_min_previous_touches (v : Z) : res Z :=
  if v <? 2 then Raise ValidationError else Ok v.
Definition validate_marubozu_threshold (v : float) : res float :=
  if flt v (of_Z 80) then Raise ValidationError else Ok v.

(** Validation of a candidate record: the constraint of every field. *)
Definition create (c : t) : res t :=
  _ ← float_field (of_Z 70) (of_Z 95) (marubozu_body_percentage_threshold c);
  _ ← validate_marubozu_threshold (marubozu_body_percentage_threshold c);
  _ ← float_field (of_Z 5) (of_Z 20) (marubozu_max_wick_percentage c);
  _ ← int_field 2 (Some 10) (min_previous_touches c);
  _ ← validate_min_previous_touches (min_previous_touches c);
  _ ← float_field (of_Z 1) (of_Z 10) (previous_level_tolerance_pips c);
  _ ← int_field 1 (Some 10) (min_fakeout_tests c);
  _ ← int_field 2 (Some 10) (compression_min_candles c);
  _ ← float_field (of_Z 5) (of_Z 30) (compression_max_range_pips c);
  _ ← float_field (of_Z 2) (of_Z 15) (fibonacci_tolerance_pips c);
  Ok c.

Definition default : t := {|
  enabled := true;
  marubozu_body_percentage_threshold := of_Z 80;
  marubozu_max_wick_percentage := of_Z 10;
  min_previous_touches := 2;
  previous_level_tolerance_pips := of_Z 3;
  min_fakeout_tests := 1;
  compression_min_candles := 3;
  compression_max_range_pips := of_Z 15;
  require_premium_discount := true;
  require_fibonacci_confluence := false;
  fibonacci_tolerance_pips := of_Z 5;
  enable_qml_baseline := true;
  enable_qml_mpl := true;
  enable_qml_previous_levels_type1 := true;
  enable_qml_previous_levels_type2 := true;
  enable_triple_fakeout := true;
  enable_fakeout_king := true;
  enable_sop := true |}.

Definition float_fields (c : t) : list float :=
  [marubozu_body_percentage_threshold c; marubozu_max_wick_percentage c; previous_level_tolerance_pips c;
   compression_max_range_pips c; fibonacci_tolerance_pips c].

(** The configurations the constructor lets through, with machine floats. *)
Class valid_config (c : t) : Prop := {
  validated : create c = Ok c;
  canonical : forall x, In x (float_fields c) -> valid x = true }.

#[export] Instance default_valid : valid_config default.
Proof.
  constructor; [vm_compute; reflexivity|]. intros x Hx.
  apply (proj1 (List.Forall_forall (fun x => valid x = true) (float_fields default))); [|exact Hx].
  repeat constructor.
Qed.

(** What the constraints say of the values the components compute with. *)
Record ranges (c : t) : Prop := {
  r_body : fin (marubozu_body_percentage_threshold c) /\
    fv (of_Z 80) <= fv (marubozu_body_percentage_threshold c) <= fv (of_Z 95);
  r_wick : fin (marubozu_max_wick_percentage c);
  r_touches : 2 <= min_previous_touches c <= 10;
  r_tolerance : fin (previous_level_tolerance_pips c) /\
    fv (of_Z 1) <= fv (previous_level_tolerance_pips c) <= fv (of_Z 10);
  r_tests : 1 <= min_fakeout_tests c <= 10;
  r_compression : 2 <= compression_min_candles c <= 10;
  r_fib : fin (fibonacci_tolerance_pips c) /\
    fv (of_Z 2) <= fv (fibonacci_tolerance_pips c) <= fv (of_Z 15) }.

Lemma snd_ranges c : valid_config c -> ranges c.
Proof.
  intros [V C]. unfold create in V. inv_binds. unfold float_fields in C. simpl in C.
  repeat match goal with
  | H : int_field _ (Some _) _ = Ok _ |- _ => apply SMCConfig.int_field_range in H
  | H : float_field ?lo ?hi ?x = Ok _ |- _ =>
      apply SMCConfig.float_field_range in H as (? & ? & ?); [|by vm_compute|by vm_compute|by apply C; tauto]
  end.
  constructor; try assumption; try (split_and?; assumption).
  split; [assumption|]. split; [|assumption].
  match goal with H : validate_marubozu_threshold _ = Ok _ |- _ =>
    unfold validate_marubozu_threshold in H; destruct (flt _ _) eqn:E in H; [done|] end.
  rewrite flt_fv in E by (apply fin_num; done || by vm_compute). by apply Z.ltb_ge in E.
Qed.
End SnDConfig.
