(* ===== verification/SnDDetectors.v ===== *)
(** * SND detectors: [engine/ta/snd/detectors/]

    Quasimodo levels, support/resistance flips, mini price levels, fakeouts,
    previous levels and supply/demand zones.  The bearish and the bullish half of
    every detector are one definition over a flag. *)

From Stdlib Require Import ZArith Lia Bool String Sorting.Sorted.
From stdpp Require Import base list strings.
From S2P Require Import Prelude Loops PyFloat FloatRound PyText Constants PriceMath Candles Swings ZoneModels StructureModels CandlePatterns SMCConfig SMCStructure Compression SnDConfig.

#[local] Open Scope string_scope.
#[local] Open Scope Z_scope.
#[local] Open Scope list_scope.

(** ** Quasimodo levels: [qm.py] *)

Module QMDetector.

Definition _get_required_confirmations (timeframe : Timeframe) : Z :=
  if bool_decide (timeframe ∈ [M1; M5]) then 1
  else if bool_decide (timeframe ∈ [M15; M30]) then 2
  else 3.

(** The neckline: the lowest low (QML) or the highest high (QMH) strictly
    between the shoulder and the head; the first one on ties. *)
Definition neck_step {B} `{SwingLevel B} (bullish : bool) (shoulder head : datetime)
    (acc : option B * float) (x : B) : option B * float :=
  let '(_, best) := acc in
  if dt_ltb shoulder (lv_timestamp x) && dt_ltb (lv_timestamp x) head
     && (if bullish then flt best (lv_price x) else flt (lv_price x) best)
  then (Some x, lv_price x) else acc.

Definition find_neck {B} `{SwingLevel B} (bullish : bool) (shoulder head : datetime) (necks : list B) : option B :=
  fst (fold_left (neck_step bullish shoulder head) necks (None, if bullish then fneg finf else finf)).

(** The level that is recorded: the shoulder, the head, the neckline and the
    candle that completes the break. *)
Definition qm_level {A B} `{SwingLevel A} `{SwingLevel B} (bullish : bool) (sequence : CandleSequence.t)
    (h hh : A) (neck : B) (break_candle_idx : Z) (confirm : Candle.t) : res QuasiModoLevel.t :=
  let shoulder_price := Some (lv_price h) in
  let head_price := Some (lv_price hh) in
  let neck_price := Some (lv_price neck) in
  let close := Some (Candle.close confirm) in
  let shoulder_ts := Some (lv_timestamp h) in
  let head_ts := Some (lv_timestamp hh) in
  let neck_ts := Some (lv_timestamp neck) in
  let break_ts := Candle.timestamp confirm in
  if bullish then
    QuasiModoLevel.create (CandleSequence.symbol sequence) (CandleSequence.timeframe sequence) (lv_price h)
      (lv_timestamp h) break_candle_idx BULLISH
      neck_price close neck_ts (Some break_ts) None
      shoulder_price head_price shoulder_ts head_ts (Some (lv_index hh)) break_ts true false None
  else
    QuasiModoLevel.create (CandleSequence.symbol sequence) (CandleSequence.timeframe sequence) (lv_price h)
      (lv_timestamp h) break_candle_idx BEARISH
      shoulder_price head_price shoulder_ts head_ts (Some (lv_index hh))
      neck_price close neck_ts (Some break_ts) None break_ts true false None.

(** One iteration over the shoulders in time order. *)
Definition qm_body {A B} `{SwingLevel A} `{SwingLevel B} (bullish : bool) (sequence : CandleSequence.t)
    (heads : list A) (necks : list B) (i : Z) : res (option QuasiModoLevel.t) :=
  let candles := CandleSequence.candles sequence in
  let required_closes := _get_required_confirmations (CandleSequence.timeframe sequence) in
  h ← py_index heads i;
  hh ← py_index heads (i + 1);
  if (if bullish then fle (lv_price h) (lv_price hh) else fle (lv_price hh) (lv_price h)) then Ok None
  else
    match find_neck bullish (lv_timestamp h) (lv_timestamp hh) necks with
    | None => Ok None
    | Some neckline =>
        r ← first_break bullish (lv_price neckline) candles (lv_index hh + 1);
        match r with
        | None => Ok None
        | Some first_break_idx =>
            _ ← py_index candles first_break_idx;
            confirmed_count ← count_closes bullish (lv_price neckline) candles required_closes first_break_idx;
            if confirmed_count <? required_closes then Ok None
            else
              candle ← confirm_candle candles first_break_idx required_closes;
              qm ← qm_level bullish sequence h hh neckline first_break_idx candle;
              Ok (Some qm)
        end
    end.

Definition detect_qm {A B} `{SwingLevel A} `{SwingLevel B} (bullish : bool) (sequence : CandleSequence.t)
    (heads : list A) (necks : list B) : res (list QuasiModoLevel.t) :=
  match necks with
  | [] => Ok []
  | _ =>
      if py_len heads <? 2 then Ok []
      else
        let sorted := by_time heads in
        collect (qm_body bullish sequence sorted (by_time necks)) (py_range 0 (py_len sorted - 1))
  end.

Definition detect_qml (sequence : CandleSequence.t) (swing_highs : list SwingHigh.t)
    (swing_lows : list SwingLow.t) := detect_qm false sequence swing_highs swing_lows.
Definition detect_qmh (sequence : CandleSequence.t) (swing_lows : list SwingLow.t)
    (swing_highs : list SwingHigh.t) := detect_qm true sequence swing_lows swing_highs.

Definition get_latest_qml (levels : list QuasiModoLevel.t) : option QuasiModoLevel.t :=
  py_max_opt (fun a b => dt_ltb (QuasiModoLevel.timestamp b) (QuasiModoLevel.timestamp a))
    (List.filter QuasiModoLevel.is_valid levels).
Definition get_latest_qmh : list QuasiModoLevel.t -> option QuasiModoLevel.t := get_latest_qml.
End QMDetector.

(** ** Flips: [sr_flip.py] and [rs_flip.py] *)

(** One iteration over the swings: the first marubozu of the direction that
    closes beyond the level, with its index. *)
Definition flip_test (analyzer : MarubozuAnalyzer.t) (bullish : bool) (sequence : CandleSequence.t)
    (level : float) (i : Z) : res (option (Z * Candle.t)) :=
  candle ← py_index (CandleSequence.candles sequence) i;
  b ← (if bullish
       then MarubozuAnalyzer.is_bullish_marubozu_for_timeframe analyzer candle (CandleSequence.timeframe sequence)
       else MarubozuAnalyzer.is_bearish_marubozu_for_timeframe analyzer candle (CandleSequence.timeframe sequence));
  if negb b then Ok None
  else if (if bullish then fle (Candle.close candle) level else fle level (Candle.close candle)) then Ok None
  else Ok (Some (i, candle)).

Definition find_flip {A} `{SwingLevel A} (analyzer : MarubozuAnalyzer.t) (bullish : bool)
    (sequence : CandleSequence.t) (swing : A) : res (option (Z * Candle.t)) :=
  let n := py_len (CandleSequence.candles sequence) in
  if n - 1 <=? lv_index swing then Ok None
  else search (flip_test analyzer bullish sequence (lv_price swing)) (py_range (lv_index swing + 1) n).

Module SRFlipDetector.

Definition flip_body (analyzer : MarubozuAnalyzer.t) (sequence : CandleSequence.t) (swing_low : SwingLow.t)
    : res (option SRFlip.t) :=
  r ← find_flip analyzer false sequence swing_low;
  match r with
  | None => Ok None
  | Some (i, candle) =>
      sr_flip ← SRFlip.create (CandleSequence.symbol sequence) (CandleSequence.timeframe sequence)
                  (Candle.timestamp candle) (SwingLow.price swing_low) (SwingLow.timestamp swing_low) i
                  (Candle.close candle) (SwingLow.price swing_low) BEARISH true;
      Ok (Some sr_flip)
  end.

Definition detect_sr_flips (analyzer : MarubozuAnalyzer.t) (sequence : CandleSequence.t)
    (swing_lows : list SwingLow.t) : res (list SRFlip.t) := collect (flip_body analyzer sequence) swing_lows.

Definition get_latest_sr_flip (sr_flips : list SRFlip.t) : option SRFlip.t :=
  py_max_opt (fun a b => dt_ltb (SRFlip.timestamp b) (SRFlip.timestamp a)) (List.filter SRFlip.is_valid sr_flips).

Definition validate_sr_flip_with_marubozu (analyzer : MarubozuAnalyzer.t) (sr_flip : SRFlip.t)
    (sequence : CandleSequence.t) : res bool :=
  if py_len (CandleSequence.candles sequence) <=? SRFlip.breakout_candle_index sr_flip then Ok false
  else
    breakout_candle ← py_index (CandleSequence.candles sequence) (SRFlip.breakout_candle_index sr_flip);
    MarubozuAnalyzer.is_bearish_marubozu_for_timeframe analyzer breakout_candle (CandleSequence.timeframe sequence).
End SRFlipDetector.

Module RSFlipDetector.

Definition flip_body (analyzer : MarubozuAnalyzer.t) (sequence : CandleSequence.t) (swing_high : SwingHigh.t)
    : res (option RSFlip.t) :=
  r ← find_flip analyzer true sequence swing_high;
  match r with
  | None => Ok None
  | Some (i, candle) =>
      rs_flip ← RSFlip.create (CandleSequence.symbol sequence) (CandleSequence.timeframe sequence)
                  (Candle.timestamp candle) (SwingHigh.price swing_high) (SwingHigh.timestamp swing_high) i
                  (Candle.close candle) (SwingHigh.price swing_high) BULLISH true;
      Ok (Some rs_flip)
  end.

Definition detect_rs_flips (analyzer : MarubozuAnalyzer.t) (sequence : CandleSequence.t)
    (swing_highs : list SwingHigh.t) : res (list RSFlip.t) := collect (flip_body analyzer sequence) swing_highs.

Definition get_latest_rs_flip (rs_flips : list RSFlip.t) : option RSFlip.t :=
  py_max_opt (fun a b => dt_ltb (RSFlip.timestamp b) (RSFlip.timestamp a)) (List.filter RSFlip.is_valid rs_flips).

Definition validate_rs_flip_with_marubozu (analyzer : MarubozuAnalyzer.t) (rs_flip : RSFlip.t)
    (sequence : CandleSequence.t) : res bool :=
  if py_len (CandleSequence.candles sequence) <=? RSFlip.breakout_candle_index rs_flip then Ok false
  else
    breakout_candle ← py_index (CandleSequence.candles sequence) (RSFlip.breakout_candle_index rs_flip);
    MarubozuAnalyzer.is_bullish_marubozu_for_timeframe analyzer breakout_candle (CandleSequence.timeframe sequence).
End RSFlipDetector.

(** ** Mini price levels: [mpl.py] *)

Module MPLDetector.

Definition _check_internal_engulfing (prev_candle candle next_candle : Candle.t) : bool :=
  if Candle.is_bullish candle then
    flt (Candle.close prev_candle) (Candle.open candle) && flt (Candle.close candle) (Candle.open next_candle)
    && flt (Candle.close next_candle) (Candle.open candle)
  else
    flt (Candle.open candle) (Candle.close prev_candle) && flt (Candle.open next_candle) (Candle.close candle)
    && flt (Candle.open candle) (Candle.close next_candle).

(** One candle before the head.  Both branches record the level; they differ in
    the type. *)
Definition mpl_body (bullish : bool) (sequence : CandleSequence.t) (i : Z) : res (option MiniPriceLevel.t) :=
  let candles := CandleSequence.candles sequence in
  if (i <? 1) || (py_len candles - 1 <=? i) then Ok None
  else
    candle ← py_index candles i;
    prev_candle ← py_index candles (i - 1);
    next_candle ← py_index candles (i + 1);
    let has_internal_structure := _check_internal_engulfing prev_candle candle next_candle in
    if (if bullish then Candle.is_bearish candle else Candle.is_bullish candle) then
      mpl ← MiniPriceLevel.create (CandleSequence.symbol sequence) (CandleSequence.timeframe sequence)
              (if bullish then Candle.low candle else Candle.high candle) (Candle.timestamp candle) i
              (direction_of bullish) has_internal_structure has_internal_structure false None;
      Ok (Some mpl)
    else Ok None.

Definition detect_mpl (bullish : bool) (sequence : CandleSequence.t) (index : Z) : res (list MiniPriceLevel.t) :=
  if index <? 2 then Ok [] else collect (mpl_body bullish sequence) (py_range (index - 10) index).

Definition detect_bearish_mpl (sequence : CandleSequence.t) (qml_level : float) (h2_index : Z) :=
  detect_mpl false sequence h2_index.
Definition detect_bullish_mpl (sequence : CandleSequence.t) (qmh_level : float) (l2_index : Z) :=
  detect_mpl true sequence l2_index.
End MPLDetector.

(** ** Fakeouts: [fakeouts.py] *)

Module FakeoutTest.
Record t := mk {
  symbol : string; timeframe : Timeframe; test_number : Z; level : float; timestamp : datetime;
  candle_index : Z; direction : Direction; is_diamond_fakeout : bool }.
End FakeoutTest.

Module FakeoutDetector.

Definition _check_diamond_fakeout (sequence : CandleSequence.t) (candle_index : Z) (direction : Direction)
    : res bool :=
  let candles := CandleSequence.candles sequence in
  if (candle_index <? 2) || (py_len candles - 1 <=? candle_index) then Ok false
  else
    prev_candle ← py_index candles (candle_index - 1);
    candle ← py_index candles candle_index;
    next_candle ← py_index candles (candle_index + 1);
    Ok (if bool_decide (direction = BEARISH) then
          flt (Candle.high prev_candle) (Candle.high candle) && flt (Candle.high next_candle) (Candle.high candle)
          && flt (Candle.close candle) (Candle.close prev_candle)
        else
          flt (Candle.low candle) (Candle.low prev_candle) && flt (Candle.low candle) (Candle.low next_candle)
          && flt (Candle.close prev_candle) (Candle.close candle)).

(** The candle touches the level and closes back on its side. *)
Definition rejects (bullish : bool) (level : float) (candle : Candle.t) : bool :=
  if bullish then fle (Candle.low candle) level && flt level (Candle.close candle)
  else fle level (Candle.high candle) && flt (Candle.close candle) level.

(** The candle closes through the level, which ends the scan. *)
Definition closes_through (bullish : bool) (level : float) (candle : Candle.t) : bool :=
  if bullish then flt (Candle.close candle) level else flt level (Candle.close candle).

Fixpoint fakeout_loop (bullish : bool) (sequence : CandleSequence.t) (level : float) (test_number : Z)
    (indices : list Z) : res (list FakeoutTest.t) :=
  match indices with
  | [] => Ok []
  | i :: indices =>
      candle ← py_index (CandleSequence.candles sequence) i;
      found ←
        (if rejects bullish level candle then
           is_diamond ← _check_diamond_fakeout sequence i (direction_of bullish);
           Ok [FakeoutTest.mk (CandleSequence.symbol sequence) (CandleSequence.timeframe sequence) test_number
                 level (Candle.timestamp candle) i (direction_of bullish) is_diamond]
         else Ok []);
      if closes_through bullish level candle then Ok found
      else
        rest ← fakeout_loop bullish sequence level (test_number + py_len found) indices;
        Ok (found ++ rest)
  end.

Definition detect_fakeouts (bullish : bool) (sequence : CandleSequence.t) (level : float) (flip_index : Z)
    : res (list FakeoutTest.t) :=
  fakeout_loop bullish sequence level 1 (py_range (flip_index + 1) (py_len (CandleSequence.candles sequence))).

Definition detect_resistance_fakeouts (sequence : CandleSequence.t) (sr_flip_level : float) (sr_flip_index : Z) :=
  detect_fakeouts false sequence sr_flip_level sr_flip_index.
Definition detect_support_fakeouts (sequence : CandleSequence.t) (rs_flip_level : float) (rs_flip_index : Z) :=
  detect_fakeouts true sequence rs_flip_level rs_flip_index.

Definition check_compression_at_fakeout (config : SnDConfig.t) (analyzer : CompressionAnalyzer.t)
    (sequence : CandleSequence.t) (fakeout_index : Z) : res bool :=
  if fakeout_index <? SnDConfig.compression_min_candles config then Ok false
  else
    let start_index := Z.max 0 (fakeout_index - SnDConfig.compression_min_candles config) in
    CompressionAnalyzer.is_compression analyzer
      (py_slice (CandleSequence.candles sequence) start_index (fakeout_index + 1)) (CandleSequence.symbol sequence).

(** The candle is a marubozu of the direction that closes beyond the level. *)
Definition breaks_fakeout (analyzer : MarubozuAnalyzer.t) (direction : Direction) (level : float)
    (candle : Candle.t) : res bool :=
  if bool_decide (direction = BULLISH) then
    b ← MarubozuAnalyzer.is_bullish_marubozu analyzer candle; Ok (b && flt level (Candle.close candle))
  else
    b ← MarubozuAnalyzer.is_bearish_marubozu analyzer candle; Ok (b && flt (Candle.close candle) level).

Definition check_fakeout_broken_by_marubozu (analyzer : MarubozuAnalyzer.t) (sequence : CandleSequence.t)
    (fakeout_level : float) (direction : Direction) (last_fakeout_index : Z) : res (option Z) :=
  search (fun i =>
      candle ← py_index (CandleSequence.candles sequence) i;
      b ← breaks_fakeout analyzer direction fakeout_level candle;
      Ok (if b : bool then Some i else None))
    (py_range (last_fakeout_index + 1) (py_len (CandleSequence.candles sequence))).
End FakeoutDetector.

(** ** Previous highs and lows: [previous_levels.py] *)

(** [swing.timeframe], of either kind of swing. *)
Class SwingTimeframe (A : Type) := swing_timeframe : A -> Timeframe.
#[export] Instance SwingHigh_timeframe : SwingTimeframe SwingHigh.t := SwingHigh.timeframe.
#[export] Instance SwingLow_timeframe : SwingTimeframe SwingLow.t := SwingLow.timeframe.

Module PreviousHighsLows.
(** [timeframe] is [str] of the enumeration member, its value. *)
Record t (A : Type) := mk {
  symbol : string; timeframe : Timeframe; level : float; direction : Direction; touches : list A;
  touch_count : Z }.
#[global] Arguments mk {A}. #[global] Arguments symbol {A}. #[global] Arguments timeframe {A}.
#[global] Arguments level {A}. #[global] Arguments direction {A}. #[global] Arguments touches {A}.
#[global] Arguments touch_count {A}.
End PreviousHighsLows.

Module PreviousLevelDetector.
Section Levels.
Context {A : Type} `{SwingLevel A} `{SwingTimeframe A} (config : SnDConfig.t).

(** [abs(calculate_pips(a, b, symbol)) <= tolerance]. *)
Definition within (a b : float) (symbol : string) : res bool :=
  pips ← calculate_pips a b symbol;
  Ok (fle (fabs pips) (SnDConfig.previous_level_tolerance_pips config)).

(** The inner loop: touches of the cluster of swing [i], and the set of
    processed indices. *)
Definition touch_step (symbol : string) (i : Z) (swing : A) (acc : list A * list Z) (x : Z * A)
    : res (list A * list Z) :=
  let '(cluster_touches, processed) := acc in
  let '(j, other_swing) := x in
  if bool_decide (j ∈ processed) || (j =? i) then Ok acc
  else
    near ← within (lv_price swing) (lv_price other_swing) symbol;
    Ok (if near : bool then (cluster_touches ++ [other_swing], j :: processed) else acc).

Definition cluster_step (swings : list A) (symbol : string) (direction : Direction)
    (acc : list (PreviousHighsLows.t A) * list Z) (x : Z * A) : res (list (PreviousHighsLows.t A) * list Z) :=
  let '(clusters, processed) := acc in
  let '(i, swing) := x in
  if bool_decide (i ∈ processed) then Ok acc
  else
    '(cluster_touches, processed) ←
      for_each (touch_step symbol i swing) (py_enumerate swings) ([swing], i :: processed);
    if SnDConfig.min_previous_touches config <=? py_len cluster_touches then
      avg_level ← fdiv (fsum (map lv_price cluster_touches)) (of_Z (py_len cluster_touches));
      first ← py_index cluster_touches 0;
      Ok (clusters ++ [PreviousHighsLows.mk symbol (swing_timeframe first) avg_level direction cluster_touches
                         (py_len cluster_touches)], processed)
    else Ok (clusters, processed).

Definition _cluster_levels (swings : list A) (symbol : string) (direction : Direction)
    : res (list (PreviousHighsLows.t A)) :=
  '(clusters, _) ← for_each (cluster_step swings symbol direction) (py_enumerate swings) ([], []);
  Ok clusters.

Definition detect_previous (sequence : CandleSequence.t) (direction : Direction) (swings : list A)
    : res (list (PreviousHighsLows.t A)) :=
  if py_len swings <? SnDConfig.min_previous_touches config then Ok []
  else
    clusters ← _cluster_levels swings (CandleSequence.symbol sequence) direction;
    Ok (List.filter (fun c => SnDConfig.min_previous_touches config <=? PreviousHighsLows.touch_count c) clusters).

Definition find_previous_at (previous : list (PreviousHighsLows.t A)) (level : float) (symbol : string)
    : res (list (PreviousHighsLows.t A)) :=
  res_filter (fun c => within (PreviousHighsLows.level c) level symbol) previous.
End Levels.

Definition detect_previous_highs (config : SnDConfig.t) (sequence : CandleSequence.t)
    (swing_highs : list SwingHigh.t) := detect_previous config sequence BEARISH swing_highs.
Definition detect_previous_lows (config : SnDConfig.t) (sequence : CandleSequence.t)
    (swing_lows : list SwingLow.t) := detect_previous config sequence BULLISH swing_lows.
Definition find_previous_highs_at_qml (config : SnDConfig.t)
    (previous_highs : list (PreviousHighsLows.t SwingHigh.t)) (qml_level : float) (symbol : string) :=
  find_previous_at config previous_highs qml_level symbol.
Definition find_previous_lows_at_qmh (config : SnDConfig.t)
    (previous_lows : list (PreviousHighsLows.t SwingLow.t)) (qmh_level : float) (symbol : string) :=
  find_previous_at config previous_lows qmh_level symbol.
End PreviousLevelDetector.

(** ** Zones: [supply_demand.py] *)

Module SupplyDemandDetector.

Definition create_supply_zone (sequence : CandleSequence.t) (qml_level : float) (qml_timestamp : datetime)
    (sr_flip_level : float) (sr_flip_timestamp : datetime) : res SupplyZone.t :=
  SupplyZone.create (CandleSequence.symbol sequence) (CandleSequence.timeframe sequence)
    (fmax qml_level sr_flip_level) (fmin qml_level sr_flip_level) sr_flip_timestamp qml_level qml_timestamp
    sr_flip_level sr_flip_timestamp true 1 false 0 false None.

Definition create_demand_zone (sequence : CandleSequence.t) (qmh_level : float) (qmh_timestamp : datetime)
    (rs_flip_level : float) (rs_flip_timestamp : datetime) : res DemandZone.t :=
  DemandZone.create (CandleSequence.symbol sequence) (CandleSequence.timeframe sequence)
    (fmax qmh_level rs_flip_level) (fmin qmh_level rs_flip_level) rs_flip_timestamp qmh_level qmh_timestamp
    rs_flip_level rs_flip_timestamp true 1 false 0 false None.

Definition check_price_in_supply_zone (z : SupplyZone.t) (current_price : float) : bool :=
  fle (SupplyZone.lower_bound z) current_price && fle current_price (SupplyZone.upper_bound z).
Definition check_price_in_demand_zone (z : DemandZone.t) (current_price : float) : bool :=
  fle (DemandZone.lower_bound z) current_price && fle current_price (DemandZone.upper_bound z).
End SupplyDemandDetector.
