(* ===== verification/SnDValidators.v ===== *)
(** * SND validators: [engine/ta/snd/validators/]

    The quality of a marubozu and the four confirmations on the lower
    timeframe. *)

From Stdlib Require Import ZArith Lia Bool String Sorting.Sorted.
From stdpp Require Import base list strings.
From S2P Require Import Prelude Loops PyFloat FloatRound PyText Constants PriceMath Candles Swings Fibonacci ZoneModels StructureModels CandlePatterns SMCConfig SMCStructure Compression SnDConfig SnDDetectors.

#[local] Open Scope string_scope.
#[local] Open Scope Z_scope.
#[local] Open Scope list_scope.

(** ** Marubozu quality: [marubozu/validator.py] *)

Module MarubozuValidator.

(** Both directions; the wicks are measured from the ends of the body. *)
Definition validate_marubozu (config : SnDConfig.t) (bullish : bool) (candle : Candle.t) : res bool :=
  if negb (if bullish then Candle.is_bullish candle else Candle.is_bearish candle) then Ok false
  else
    body_pct ← calculate_body_percentage (Candle.open candle) (Candle.close candle) (Candle.high candle)
                 (Candle.low candle);
    if flt body_pct (SnDConfig.marubozu_body_percentage_threshold config) then Ok false
    else
      let total_range := fsub (Candle.high candle) (Candle.low candle) in
      if feq total_range fzero then Ok false
      else
        let upper_wick := fsub (Candle.high candle) (if bullish then Candle.close candle else Candle.open candle) in
        let lower_wick := fsub (if bullish then Candle.open candle else Candle.close candle) (Candle.low candle) in
        upper ← fdiv upper_wick total_range;
        lower ← fdiv lower_wick total_range;
        let upper_wick_pct := fmul upper (of_Z 100) in
        let lower_wick_pct := fmul lower (of_Z 100) in
        Ok (if flt (SnDConfig.marubozu_max_wick_percentage config) upper_wick_pct then false
            else if flt (SnDConfig.marubozu_max_wick_percentage config) lower_wick_pct then false
            else true).

Definition validate_bullish_marubozu (config : SnDConfig.t) (candle : Candle.t) : res bool :=
  validate_marubozu config true candle.
Definition validate_bearish_marubozu (config : SnDConfig.t) (candle : Candle.t) : res bool :=
  validate_marubozu config false candle.

Definition validate_fakeout_breakout_marubozu (config : SnDConfig.t) (sequence : CandleSequence.t)
    (breakout_candle_index : Z) (is_bullish : bool) : res bool :=
  if py_len (CandleSequence.candles sequence) <=? breakout_candle_index then Ok false
  else
    candle ← py_index (CandleSequence.candles sequence) breakout_candle_index;
    if is_bullish then validate_bullish_marubozu config candle else validate_bearish_marubozu config candle.

Definition validate_sr_flip_marubozu (config : SnDConfig.t) (sequence : CandleSequence.t) (index : Z) : res bool :=
  validate_fakeout_breakout_marubozu config sequence index false.
Definition validate_rs_flip_marubozu (config : SnDConfig.t) (sequence : CandleSequence.t) (index : Z) : res bool :=
  validate_fakeout_breakout_marubozu config sequence index true.
End MarubozuValidator.

(** ** Confirmations: [ltf/confirmation.py] *)

Module LTFConfirmationValidator.

Definition validate_compression_at_zone (config : SnDConfig.t) (analyzer : CompressionAnalyzer.t)
    (sequence : CandleSequence.t) (fakeout_tests : list FakeoutTest.t) : res bool :=
  match last fakeout_tests with
  | None => Ok false
  | Some last_fakeout =>
      let index := FakeoutTest.candle_index last_fakeout in
      if index <? SnDConfig.compression_min_candles config then Ok false
      else
        let start_index := Z.max 0 (index - SnDConfig.compression_min_candles config) in
        let end_index := index + 1 in
        CompressionAnalyzer.is_compression analyzer
          (py_slice (CandleSequence.candles sequence) start_index end_index) (CandleSequence.symbol sequence)
  end.

Definition validate_fakeout_broken_by_marubozu (breakout_candle_index : option Z) : bool :=
  match breakout_candle_index with Some _ => true | None => false end.

Definition validate_decision_point (sequence : CandleSequence.t) (fakeout_tests : list FakeoutTest.t)
    (direction : Direction) : res (option Candle.t) :=
  match last fakeout_tests with
  | None => Ok None
  | Some last_fakeout =>
      if py_len (CandleSequence.candles sequence) <=? FakeoutTest.candle_index last_fakeout then Ok None
      else
        decision_candle ← py_index (CandleSequence.candles sequence) (FakeoutTest.candle_index last_fakeout);
        Ok (if FakeoutDetector.rejects (bool_decide (direction = BULLISH)) (FakeoutTest.level last_fakeout)
                 decision_candle
            then Some decision_candle else None)
  end.

Definition check_fibonacci_alignment (config : SnDConfig.t) (zone_price : float)
    (retracement : option FibonacciRetracement.t) : res bool :=
  match retracement with
  | None => Ok false
  | Some r =>
      nearest_level ← FibonacciAnalyzer.get_nearest_fib_level zone_price r;
      match nearest_level with
      | None => Ok false
      | Some level =>
          level_price ← FibonacciRetracement.get_level_price r level;
          if feq level_price fzero then Ok false
          else
            price_diff_pips ← calculate_pips zone_price level_price (FibonacciRetracement.symbol r);
            Ok (negb (flt (SnDConfig.fibonacci_tolerance_pips config) (fabs price_diff_pips)))
      end
  end.

Definition validate_all_ltf_confirmations (config : SnDConfig.t) (analyzer : CompressionAnalyzer.t)
    (sequence : CandleSequence.t) (fakeout_tests : list FakeoutTest.t) (breakout_candle_index : option Z)
    (direction : Direction) (zone_price : float) (retracement : option FibonacciRetracement.t) : res bool :=
  compression ← validate_compression_at_zone config analyzer sequence fakeout_tests;
  if negb compression then Ok false
  else if negb (validate_fakeout_broken_by_marubozu breakout_candle_index) then Ok false
  else
    decision_point ← validate_decision_point sequence fakeout_tests direction;
    match decision_point with
    | None => Ok false
    | Some _ =>
        is_aligned ← check_fibonacci_alignment config zone_price retracement;
        Ok (negb (SnDConfig.require_fibonacci_confluence config && negb is_aligned))
    end.
End LTFConfirmationValidator.
