(* ===== verification/SnDBuilders.v ===== *)
(** * SND candidate builders: [engine/ta/snd/builders/]

    [levels.py] turns a structural anchor into entry, stop and target, or into
    nothing when the geometry is impossible; the three builder classes turn the
    evidence into candidates.  The short and the long method of every builder are
    one definition over a flag. *)

From Stdlib Require Import ZArith Lia Bool String Sorting.Sorted.
From stdpp Require Import base list strings.
From S2P Require Import Prelude Loops PyFloat FloatRound PyText PyRepr Constants PriceMath StopLoss Candles Swings Fibonacci ZoneModels StructureModels Candidates CandlePatterns SMCConfig SMCStructure Compression SnDConfig SnDDetectors SnDValidators.

#[local] Open Scope string_scope.
#[local] Open Scope Z_scope.
#[local] Open Scope list_scope.

(** ** Levels: [levels.py] *)

Module TradeLevels.
Record t := mk { entry_price : float; stop_loss : float; take_profit : float; risk : float }.
End TradeLevels.

Definition _is_positive_finite (value : float) : bool := is_finite value && flt fzero value.
Definition _is_non_negative_finite (value : float) : bool := is_finite value && fle fzero value.

Definition _validate_geometry (direction : Direction) (entry_price stop_loss take_profit risk : float) : bool :=
  _is_positive_finite entry_price && _is_positive_finite stop_loss && _is_positive_finite take_profit
  && _is_positive_finite risk
  && (if bool_decide (direction = BEARISH) then flt take_profit entry_price && flt entry_price stop_loss
      else flt stop_loss entry_price && flt entry_price take_profit).

(** The stop before the guard that re-seats it off the entry. *)
Definition seated_stop (symbol : string) (bullish : bool) (entry_price anchor sl_buffer_pips : float) : res float :=
  let sl_buffer_price := fmul (pip_float symbol) sl_buffer_pips in
  stop_loss ← calculate_price_from_pips anchor sl_buffer_pips symbol (if bullish then -1 else 1);
  Ok (if bullish
      then if fle entry_price stop_loss then fsub entry_price sl_buffer_price else stop_loss
      else if fle stop_loss entry_price then fadd entry_price sl_buffer_price else stop_loss).

Definition compute_trade_levels (symbol : string) (direction : Direction) (entry_price : float)
    (structural_extreme : option float) (sl_buffer_pips : float) (risk_reward : option float)
    (timeframe : option Timeframe) : res (option TradeLevels.t) :=
  if negb (_is_positive_finite entry_price) then Ok None
  else if negb (_is_non_negative_finite sl_buffer_pips) then Ok None
  else
    risk_reward ←
      match risk_reward, timeframe with
      | Some r, _ => Ok r
      | None, Some tf => resolve_min_tp_rr (Some tf) None None
      | None, None => Ok (lit 30 1)
      end;
    if negb (_is_positive_finite risk_reward) then Ok None
    else if match structural_extreme with Some x => negb (_is_positive_finite x) | None => false end then Ok None
    else if negb (bool_decide (direction ∈ [BEARISH; BULLISH])) then Ok None
    else
      let sl_buffer_pips :=
        match timeframe with Some tf => fmax sl_buffer_pips (timeframe_floor_pips tf) | None => sl_buffer_pips end in
      let bullish := negb (bool_decide (direction = BEARISH)) in
      stop_loss ← seated_stop symbol bullish entry_price (default entry_price structural_extreme) sl_buffer_pips;
      let risk := if bullish then fsub entry_price stop_loss else fsub stop_loss entry_price in
      let take_profit :=
        if bullish then fadd entry_price (fmul risk risk_reward) else fsub entry_price (fmul risk risk_reward) in
      Ok (if _validate_geometry direction entry_price stop_loss take_profit risk
          then Some (TradeLevels.mk entry_price stop_loss take_profit risk) else None).

(** ** What the builder classes share *)

Module SnDBuilder.

(** The analyzers the builders reach through their validators. *)
Record t := mk { config : SnDConfig.t; compression_analyzer : CompressionAnalyzer.t }.

Definition _check_compression (self : t) (sequence : CandleSequence.t) (fakeout_tests : list FakeoutTest.t)
    : res bool :=
  match fakeout_tests with
  | [] => Ok false
  | _ => LTFConfirmationValidator.validate_compression_at_zone (config self) (compression_analyzer self) sequence
           fakeout_tests
  end.

Definition fib_step (r : FibonacciRetracement.t) (price tolerance : float) (acc : option FibonacciLevel * float)
    (level : FibonacciLevel) : res (option FibonacciLevel * float) :=
  level_price ← FibonacciRetracement.get_level_price r level;
  let distance := fabs (fsub price level_price) in
  Ok (if fle distance tolerance && flt distance (snd acc) then (Some level, distance) else acc).

Definition _get_fib_level (self : t) (price : float) (r : FibonacciRetracement.t) : res (option string) :=
  let tolerance :=
    fmul (SnDConfig.fibonacci_tolerance_pips (config self)) (pip_float (FibonacciRetracement.symbol r)) in
  '(best_level, _) ← for_each (fib_step r price tolerance) OTE_LEVELS (None, finf);
  match best_level with
  | None => Ok None
  | Some level =>
      match fib_get level with Some x => Ok (Some (py_str_float x)) | None => Raise KeyError end
  end.

(** [(is_valid, timestamp)]: the time is that of the candle when it is valid. *)
Definition _validate_marubozu (self : t) (sequence : CandleSequence.t) (breakout_candle_index : option Z)
    (direction : Direction) : res (bool * option datetime) :=
  match breakout_candle_index with
  | None => Ok (false, None)
  | Some i =>
      if py_len (CandleSequence.candles sequence) <=? i then Ok (false, None)
      else
        candle ← py_index (CandleSequence.candles sequence) i;
        is_valid ← (if bool_decide (direction = BEARISH)
                    then MarubozuValidator.validate_bearish_marubozu (config self) candle
                    else MarubozuValidator.validate_bullish_marubozu (config self) candle);
        Ok (is_valid, if is_valid : bool then Some (Candle.timestamp candle) else None)
  end.

(** [1 if retracement and aligned: +2]. *)
Definition fib_bonus (self : t) (price : float) (retracement : option FibonacciRetracement.t) : res Z :=
  aligned ← LTFConfirmationValidator.check_fibonacci_alignment (config self) price retracement;
  Ok (if aligned : bool then 2 else 0).

(** Touches count from two on. *)
Definition touches_bonus (touch_count : option Z) : Z :=
  match touch_count with Some n => if 2 <=? n then n else 0 | None => 0 end.

Definition mpl_bonus (mpl : option MiniPriceLevel.t) : Z :=
  match mpl with Some m => if MiniPriceLevel.is_type1 m then 2 else 1 | None => 0 end.

Definition is_type1 (mpl : option MiniPriceLevel.t) : bool :=
  match mpl with Some m => MiniPriceLevel.is_type1 m | None => false end.

(** What all builders do once their guards have passed. *)
Definition assemble (self : t) (bullish : bool) (pattern : CandidatePattern) (htf_sequence ltf_sequence : CandleSequence.t)
    (qm : option QuasiModoLevel.t) (flip_level : float) (fakeout_tests : list FakeoutTest.t)
    (breakout_candle_index : option Z) (touch_count : Z) (mpl : option MiniPriceLevel.t)
    (retracement : option FibonacciRetracement.t) (zone_price entry_price : float)
    (structural_extreme : option float) (count : res Z) (metadata : list (string * value)) : res (option SnDCandidate.t) :=
  let direction := direction_of bullish in
  ltf_confirmed ← LTFConfirmationValidator.validate_all_ltf_confirmations (config self) (compression_analyzer self)
                    ltf_sequence fakeout_tests breakout_candle_index direction zone_price retracement;
  confluences ← count;
  '(marubozu_valid, marubozu_ts) ← _validate_marubozu self ltf_sequence breakout_candle_index direction;
  levels ← compute_trade_levels (CandleSequence.symbol ltf_sequence) direction entry_price structural_extreme
             (SnDConfig.previous_level_tolerance_pips (config self)) None (Some (CandleSequence.timeframe ltf_sequence));
  match levels with
  | None => Ok None
  | Some levels =>
      last_candle ← py_index (CandleSequence.candles ltf_sequence) (-1);
      compression ← _check_compression self ltf_sequence fakeout_tests;
      fib_level ← match retracement with
                  | Some r => _get_fib_level self (TradeLevels.entry_price levels) r
                  | None => Ok None
                  end;
      candidate ← SnDCandidate.create {|
        SnDCandidate.symbol := CandleSequence.symbol ltf_sequence;
        SnDCandidate.timeframe := CandleSequence.timeframe ltf_sequence;
        SnDCandidate.pattern := pattern;
        SnDCandidate.direction := direction;
        SnDCandidate.timestamp := Candle.timestamp last_candle;
        SnDCandidate.entry_price := TradeLevels.entry_price levels;
        SnDCandidate.stop_loss := TradeLevels.stop_loss levels;
        SnDCandidate.take_profit := Some (TradeLevels.take_profit levels);
        SnDCandidate.htf_timeframe := CandleSequence.timeframe htf_sequence;
        SnDCandidate.ltf_timeframe := CandleSequence.timeframe ltf_sequence;
        SnDCandidate.qml_detected := match qm with Some _ => true | None => false end;
        SnDCandidate.qml_price := QuasiModoLevel.level <$> qm;
        SnDCandidate.qml_timestamp := QuasiModoLevel.timestamp <$> qm;
        SnDCandidate.sr_flip_detected := negb bullish;
        SnDCandidate.sr_flip_price := if bullish then None else Some flip_level;
        SnDCandidate.sr_flip_timestamp := None;
        SnDCandidate.rs_flip_detected := bullish;
        SnDCandidate.rs_flip_price := if bullish then Some flip_level else None;
        SnDCandidate.rs_flip_timestamp := None;
        SnDCandidate.mpl_detected := match mpl with Some _ => true | None => false end;
        SnDCandidate.mpl_price := MiniPriceLevel.level <$> mpl;
        SnDCandidate.mpl_timestamp := None;
        SnDCandidate.supply_zone_upper := None; SnDCandidate.supply_zone_lower := None;
        SnDCandidate.supply_zone_timestamp := None;
        SnDCandidate.demand_zone_upper := None; SnDCandidate.demand_zone_lower := None;
        SnDCandidate.demand_zone_timestamp := None;
        SnDCandidate.fakeout_detected := 0 <? py_len fakeout_tests;
        SnDCandidate.fakeout_level := FakeoutTest.level <$> last fakeout_tests;
        SnDCandidate.fakeout_timestamp := FakeoutTest.timestamp <$> last fakeout_tests;
        SnDCandidate.previous_highs_count := if bullish then 0 else touch_count;
        SnDCandidate.previous_lows_count := if bullish then touch_count else 0;
        SnDCandidate.marubozu_detected := marubozu_valid;
        SnDCandidate.marubozu_timestamp := marubozu_ts;
        SnDCandidate.compression_detected := compression;
        SnDCandidate.compression_candle_count := None;
        SnDCandidate.ltf_confirmation := ltf_confirmed;
        SnDCandidate.ltf_confirmation_timestamp :=
          if ltf_confirmed then Some (Candle.timestamp last_candle) else None;
        SnDCandidate.fib_level := fib_level;
        SnDCandidate.session_context := None;
        SnDCandidate.metadata := ("confluences", VInt confluences) :: metadata |};
      Ok (Some candidate)
  end.
End SnDBuilder.

(** ** Quasimodo candidates: [candidates/qm.py] *)

Module QMCandidateBuilder.
Import SnDBuilder.

(** [_count_qml_confluences] and [_count_qmh_confluences]. *)
Definition _count_qm_confluences (self : t) (qm : QuasiModoLevel.t) (fakeout_tests : list FakeoutTest.t)
    (touch_count : option Z) (mpl : option MiniPriceLevel.t) (retracement : option FibonacciRetracement.t) : res Z :=
  bonus ← fib_bonus self (QuasiModoLevel.level qm) retracement;
  Ok (1 + py_len fakeout_tests + touches_bonus touch_count + mpl_bonus mpl + bonus).

(** The head of the pattern. *)
Definition extreme (bullish : bool) (qm : QuasiModoLevel.t) : option float :=
  if bullish then QuasiModoLevel.ll_price qm else QuasiModoLevel.hh_price qm.

Definition build_qm_baseline (self : t) (bullish : bool) (htf_sequence ltf_sequence : CandleSequence.t)
    (qm : QuasiModoLevel.t) (flip_level : float) (fakeout_tests : list FakeoutTest.t)
    (breakout_candle_index : option Z) (retracement : option FibonacciRetracement.t)
    : res (option SnDCandidate.t) :=
  if negb (QuasiModoLevel.is_valid qm) then Ok None
  else if py_len fakeout_tests <? SnDConfig.min_fakeout_tests (config self) then Ok None
  else
    assemble self bullish (if bullish then QMH_BASELINE else QML_BASELINE) htf_sequence ltf_sequence (Some qm)
      flip_level fakeout_tests breakout_candle_index 0 None retracement (QuasiModoLevel.level qm)
      (QuasiModoLevel.level qm) (extreme bullish qm)
      (_count_qm_confluences self qm fakeout_tests None None retracement)
      [("pattern_type", VStr (if bullish then "qmh_baseline" else "qml_baseline"))].

Definition build_qm_killer_setup (self : t) (bullish : bool) (htf_sequence ltf_sequence : CandleSequence.t)
    (qm : QuasiModoLevel.t) (flip_level : float) (fakeout_tests : list FakeoutTest.t)
    (breakout_candle_index : option Z) (touch_count : Z) (mpl : option MiniPriceLevel.t)
    (retracement : option FibonacciRetracement.t) : res (option SnDCandidate.t) :=
  if negb (QuasiModoLevel.is_valid qm) then Ok None
  else if touch_count <? SnDConfig.min_previous_touches (config self) then Ok None
  else if py_len fakeout_tests <? SnDConfig.min_fakeout_tests (config self) then Ok None
  else
    assemble self bullish
      (if bullish then if is_type1 mpl then QMH_KILLER_TYPE1 else QMH_KILLER_TYPE2
       else if is_type1 mpl then QML_KILLER_TYPE1 else QML_KILLER_TYPE2)
      htf_sequence ltf_sequence (Some qm) flip_level fakeout_tests breakout_candle_index touch_count mpl retracement
      (QuasiModoLevel.level qm) (QuasiModoLevel.level qm) (extreme bullish qm)
      (_count_qm_confluences self qm fakeout_tests (Some touch_count) mpl retracement)
      [("pattern_type", VStr (if bullish then if is_type1 mpl then "qmh_killer_type1" else "qmh_killer_type2"
                              else if is_type1 mpl then "qml_killer_type1" else "qml_killer_type2"));
       ("is_90_percent_setup", VBool true)].

Definition _count_qml_confluences := _count_qm_confluences.
Definition _count_qmh_confluences := _count_qm_confluences.
Definition build_qml_baseline_short (self : t) := build_qm_baseline self false.
Definition build_qmh_baseline_long (self : t) := build_qm_baseline self true.
Definition build_qml_killer_setup_short (self : t) := build_qm_killer_setup self false.
Definition build_qmh_killer_setup_long (self : t) := build_qm_killer_setup self true.
End QMCandidateBuilder.

(** ** Fakeout candidates: [candidates/fakeout.py] *)

Module FakeoutCandidateBuilder.
Import SnDBuilder.

Definition _count_fakeout_confluences (self : t) (fakeout_tests : list FakeoutTest.t) (touch_count : option Z)
    (retracement : option FibonacciRetracement.t) (zone_price : float) : res Z :=
  bonus ← fib_bonus self zone_price retracement;
  Ok (0 + py_len fakeout_tests + touches_bonus touch_count + bonus
      + (if existsb FakeoutTest.is_diamond_fakeout fakeout_tests then 1 else 0)).

Definition build_fakeout_king (self : t) (bullish : bool) (htf_sequence ltf_sequence : CandleSequence.t)
    (flip_level : float) (fakeout_tests : list FakeoutTest.t) (breakout_candle_index : option Z)
    (touch_count : option Z) (retracement : option FibonacciRetracement.t) : res (option SnDCandidate.t) :=
  if py_len fakeout_tests <? SnDConfig.min_fakeout_tests (config self) then Ok None
  else
    assemble self bullish (if 3 <=? py_len fakeout_tests then FAKEOUT_KING else SOP) htf_sequence ltf_sequence None
      flip_level fakeout_tests breakout_candle_index (default 0 touch_count) None retracement flip_level flip_level None
      (_count_fakeout_confluences self fakeout_tests touch_count retracement flip_level)
      [("pattern_type", VStr (if 3 <=? py_len fakeout_tests then "fakeout_king" else "sop"))].

Definition build_fakeout_king_short (self : t) := build_fakeout_king self false.
Definition build_fakeout_king_long (self : t) := build_fakeout_king self true.
End FakeoutCandidateBuilder.

(** ** Continuations: [candidates/continuation.py] *)

Module ContinuationCandidateBuilder.
Import SnDBuilder.

Definition _count_continuation_confluences (self : t) (qm_level : QuasiModoLevel.t)
    (fakeout_tests : list FakeoutTest.t) (touch_count : option Z)
    (retracement : option FibonacciRetracement.t) : res Z :=
  bonus ← fib_bonus self (QuasiModoLevel.level qm_level) retracement;
  Ok (1 + py_len fakeout_tests + touches_bonus touch_count + bonus).

(** The confirmations are checked at the quasimodo level, the trade is seated at
    the flip. *)
Definition build_continuation (self : t) (bullish : bool) (htf_sequence ltf_sequence : CandleSequence.t)
    (qm : QuasiModoLevel.t) (flip_level : float) (fakeout_tests : list FakeoutTest.t)
    (breakout_candle_index : option Z) (touch_count : option Z) (retracement : option FibonacciRetracement.t)
    : res (option SnDCandidate.t) :=
  if negb (QuasiModoLevel.is_valid qm) then Ok None
  else if py_len fakeout_tests <? 2 then Ok None
  else
    match touch_count with
    | None => Ok None
    | Some n =>
        if n <? 2 then Ok None
        else
          assemble self bullish SND_CONTINUATION htf_sequence ltf_sequence (Some qm) flip_level fakeout_tests
            breakout_candle_index n None retracement (QuasiModoLevel.level qm) flip_level None
            (_count_continuation_confluences self qm fakeout_tests touch_count retracement)
            [("pattern_type", VStr "snd_continuation")]
    end.

Definition build_continuation_short (self : t) := build_continuation self false.
Definition build_continuation_long (self : t) := build_continuation self true.
End ContinuationCandidateBuilder.
