(* ===== verification/SnDDetector.v ===== *)
(** * The SND detector: [engine/ta/snd/detector.py]

    Quasimodo levels and previous levels of the higher timeframe are paired with
    the flips of the lower one; of all the candidates the best of each timeframe
    and direction is kept. *)

From Stdlib Require Import ZArith Lia Bool String Sorting.Sorted.
From stdpp Require Import base list strings.
From S2P Require Import Prelude Loops PyFloat FloatRound PyText PyRepr Constants PriceMath StopLoss Candles Swings Fibonacci ZoneModels StructureModels Candidates CandlePatterns SMCConfig SMCStructure Compression SnDConfig SnDDetectors SnDValidators SnDBuilders.

#[local] Open Scope string_scope.
#[local] Open Scope Z_scope.
#[local] Open Scope list_scope.

Module SnDDetector.

Record t := mk {
  config : SnDConfig.t; swing_analyzer : SwingAnalyzer.t; marubozu_analyzer : MarubozuAnalyzer.t;
  compression_analyzer : CompressionAnalyzer.t }.

Definition builder (self : t) : SnDBuilder.t := SnDBuilder.mk (config self) (compression_analyzer self).

(** *** Selection *)

Definition key : Type := Timeframe * Direction.
Definition key_of (c : SnDCandidate.t) : key := (SnDCandidate.timeframe c, SnDCandidate.direction c).

(** [metadata.get("confluences", 0)]: the builders store an integer. *)
Definition confluences_of (c : SnDCandidate.t) : Z :=
  match dict_lookup "confluences" (SnDCandidate.metadata c) with Some (VInt n) => n | _ => 0 end.

(** A candidate replaces the one kept so far. *)
Definition replaces (candidate existing : SnDCandidate.t) : bool :=
  (confluences_of existing <? confluences_of candidate)
  || (confluences_of candidate =? confluences_of existing)
     && dt_ltb (SnDCandidate.timestamp existing) (SnDCandidate.timestamp candidate).

(** One iteration on the dictionary [best], in insertion order: replacing a
    value keeps the place of its key. *)
Fixpoint put_best (candidate : SnDCandidate.t) (best : list (key * SnDCandidate.t)) : list (key * SnDCandidate.t) :=
  match best with
  | [] => [(key_of candidate, candidate)]
  | (k, existing) :: best =>
      if bool_decide (k = key_of candidate)
      then (k, if replaces candidate existing then candidate else existing) :: best
      else (k, existing) :: put_best candidate best
  end.

Definition _select_best_per_direction (candidates : list SnDCandidate.t) : list SnDCandidate.t :=
  map snd (fold_left (fun best c => put_best c best) candidates []).

(** *** Detection *)

Definition _create_fibonacci_retracement (swing_highs : list SwingHigh.t) (swing_lows : list SwingLow.t)
    : res (option FibonacciRetracement.t) :=
  match SwingAnalyzer.get_latest_swing_high swing_highs, SwingAnalyzer.get_latest_swing_low swing_lows with
  | Some latest_high, Some latest_low =>
      if fle (SwingHigh.price latest_high) (SwingLow.price latest_low) then Ok None
      else
        r ← FibonacciAnalyzer.create_retracement latest_high latest_low
              (dt_ltb (SwingHigh.timestamp latest_high) (SwingLow.timestamp latest_low));
        Ok (Some r)
  | _, _ => Ok None
  end.

(** One flip against one quasimodo level: the candidates of the four families,
    in order. *)
Definition flip_candidates {A} (self : t) (bullish : bool) (htf_sequence ltf_sequence : CandleSequence.t)
    (qm : QuasiModoLevel.t) (matching : list (PreviousHighsLows.t A)) (retracement : option FibonacciRetracement.t)
    (flip_level : float) (flip_index : Z) : res (list SnDCandidate.t) :=
  let cfg := config self in
  let touches := map PreviousHighsLows.touch_count matching in
  fakeout_tests ← FakeoutDetector.detect_fakeouts bullish ltf_sequence flip_level flip_index;
  match last fakeout_tests with
  | None => Ok []
  | Some last_test =>
      breakout ← FakeoutDetector.check_fakeout_broken_by_marubozu (marubozu_analyzer self) ltf_sequence flip_level
                   (direction_of bullish) (FakeoutTest.candle_index last_test);
      mpl_levels ← MPLDetector.detect_mpl bullish htf_sequence
                     (default 0 (if bullish then QuasiModoLevel.ll_index qm else QuasiModoLevel.hh_index qm));
      baseline ←
        (if SnDConfig.enable_qml_baseline cfg then
           option_list <$> QMCandidateBuilder.build_qm_baseline (builder self) bullish htf_sequence ltf_sequence qm
                             flip_level fakeout_tests breakout retracement
         else Ok []);
      killer ←
        (if SnDConfig.enable_qml_previous_levels_type1 cfg || SnDConfig.enable_qml_previous_levels_type2 cfg then
           collect (fun n => QMCandidateBuilder.build_qm_killer_setup (builder self) bullish htf_sequence ltf_sequence
                               qm flip_level fakeout_tests breakout n (head mpl_levels) retracement) touches
         else Ok []);
      king ←
        (if SnDConfig.enable_fakeout_king cfg then
           collect (fun n => FakeoutCandidateBuilder.build_fakeout_king (builder self) bullish htf_sequence
                               ltf_sequence flip_level fakeout_tests breakout (Some n) retracement) touches
         else Ok []);
      continuation ←
        (if 2 <=? py_len fakeout_tests then
           collect (fun n => ContinuationCandidateBuilder.build_continuation (builder self) bullish htf_sequence
                               ltf_sequence qm flip_level fakeout_tests breakout (Some n) retracement) touches
         else Ok []);
      Ok (baseline ++ killer ++ king ++ continuation)
  end.

(** The loop over the quasimodo levels and, inside, over the flips: the level
    and the candle of each. *)
Definition qm_candidates {A} (self : t) (bullish : bool) (htf_sequence ltf_sequence : CandleSequence.t)
    (qm_levels : list QuasiModoLevel.t) (previous : list (PreviousHighsLows.t A)) (flips : list (float * Z))
    (retracement : option FibonacciRetracement.t) : res (list SnDCandidate.t) :=
  (@List.concat SnDCandidate.t) <$> res_map (fun qm =>
    matching ← PreviousLevelDetector.find_previous_at (config self) previous (QuasiModoLevel.level qm)
                 (CandleSequence.symbol htf_sequence);
    (@List.concat SnDCandidate.t) <$> res_map (fun '(flip_level, flip_index) =>
      flip_candidates self bullish htf_sequence ltf_sequence qm matching retracement flip_level flip_index) flips)
    qm_levels.

Definition detect_patterns (self : t) (htf_sequence ltf_sequence : CandleSequence.t) : res (list SnDCandidate.t) :=
  let cfg := config self in
  if negb (SnDConfig.enabled cfg) then Ok []
  else
    htf_swing_highs ← SwingAnalyzer.detect_swing_highs (swing_analyzer self) htf_sequence;
    htf_swing_lows ← SwingAnalyzer.detect_swing_lows (swing_analyzer self) htf_sequence;
    htf_qml_levels ← QMDetector.detect_qml htf_sequence htf_swing_highs htf_swing_lows;
    htf_qmh_levels ← QMDetector.detect_qmh htf_sequence htf_swing_lows htf_swing_highs;
    htf_previous_highs ← PreviousLevelDetector.detect_previous_highs cfg htf_sequence htf_swing_highs;
    htf_previous_lows ← PreviousLevelDetector.detect_previous_lows cfg htf_sequence htf_swing_lows;
    ltf_swing_highs ← SwingAnalyzer.detect_swing_highs (swing_analyzer self) ltf_sequence;
    ltf_swing_lows ← SwingAnalyzer.detect_swing_lows (swing_analyzer self) ltf_sequence;
    ltf_sr_flips ← SRFlipDetector.detect_sr_flips (marubozu_analyzer self) ltf_sequence ltf_swing_lows;
    ltf_rs_flips ← RSFlipDetector.detect_rs_flips (marubozu_analyzer self) ltf_sequence ltf_swing_highs;
    retracement ← _create_fibonacci_retracement htf_swing_highs htf_swing_lows;
    bearish ← qm_candidates self false htf_sequence ltf_sequence htf_qml_levels htf_previous_highs
                (map (fun f => (SRFlip.new_resistance_level f, SRFlip.breakout_candle_index f)) ltf_sr_flips)
                retracement;
    bullish ← qm_candidates self true htf_sequence ltf_sequence htf_qmh_levels htf_previous_lows
                (map (fun f => (RSFlip.new_support_level f, RSFlip.breakout_candle_index f)) ltf_rs_flips)
                retracement;
    Ok (_select_best_per_direction (bearish ++ bullish)).
End SnDDetector.
