(* ===== verification/SnDSoundness.v ===== *)
(** * Correctness of the SND detector

    The selection keeps the best candidate of every timeframe and direction; the
    trade levels never raise and never invert the geometry; and on any analysable
    pair of sequences the whole detection returns, with at most one candidate per
    direction. *)

From Stdlib Require Import ZArith Lia Bool String Sorting.Sorted SpecFloat.
From stdpp Require Import base list strings.
From S2P Require Import Prelude Loops PyFloat FloatRound FloatMono FloatGrid FloatSum PyText PyRepr Constants PriceMath StopLoss Candles Swings Fibonacci ZoneModels StructureModels Candidates CandlePatterns SMCConfig SMCStructure Compression SnDConfig SnDDetectors SnDValidators SnDBuilders SnDDetector.

#[local] Open Scope string_scope.
#[local] Open Scope Z_scope.
#[local] Open Scope list_scope.

(** ** Selection *)

Module SelectionFacts.
Import SnDDetector.

(** More confluences, or as many and a later time. *)
Definition outranks (a b : SnDCandidate.t) : Prop :=
  confluences_of b < confluences_of a \/
  confluences_of a = confluences_of b /\ instant (SnDCandidate.timestamp b) < instant (SnDCandidate.timestamp a).

Lemma replaces_outranks a b : replaces a b = true <-> outranks a b.
Proof. unfold replaces, outranks, dt_ltb. rewrite orb_true_iff, andb_true_iff, !Z.ltb_lt, Z.eqb_eq. done. Qed.

Lemma outranks_trans a b c : outranks a b -> outranks b c -> outranks a c.
Proof. unfold outranks. lia. Qed.

(** What the dictionary holds after the candidates [seen]. *)
Record best_of (seen : list SnDCandidate.t) (best : list (key * SnDCandidate.t)) : Prop := {
  b_unique : NoDup (map fst best);
  b_entry : forall k c, In (k, c) best -> k = key_of c /\ In c seen /\
    forall c', In c' seen -> key_of c' = k -> ~ outranks c' c;
  b_all : forall c, In c seen -> In (key_of c) (map fst best) }.

Lemma put_best_keys c best :
  map fst (put_best c best) =
  map fst best ++ (if bool_decide (key_of c ∈ map fst best) then [] else [key_of c]).
Proof.
  induction best as [|[k e] best IH]; cbn [put_best map fst]; [done|].
  destruct (bool_decide_reflect (k = key_of c)) as [->|Hne].
  - rewrite bool_decide_true by (by apply list_elem_of_In; left). cbn [map fst]. by rewrite app_nil_r.
  - cbn [map fst]. rewrite IH. cbn [app]. f_equal. f_equal.
    rewrite (bool_decide_ext _ (key_of c ∈ k :: map fst best)); [done|]. rewrite elem_of_cons.
    split; [by right|]. intros [E|?]; [by rewrite E in Hne|done].
Qed.

Lemma put_best_entry c best k x :
  NoDup (map fst best) -> In (k, x) (put_best c best) ->
  (k <> key_of c /\ In (k, x) best) \/
  (k = key_of c /\ x = c /\ forall e, In (k, e) best -> outranks c e) \/
  (k = key_of c /\ In (k, x) best /\ ~ outranks c x).
Proof.
  induction best as [|[k' e] best IH]; cbn [put_best map fst]; intros Hn Hin.
  - destruct Hin as [[= <- <-]|[]]. right; left. split; [done|]. split; [done|]. by intros e [].
  - apply NoDup_cons in Hn as [Hk Hn]. rewrite list_elem_of_In in Hk.
    assert (Hout : forall y, In (k', y) best -> False) by (intros y Hy; apply Hk, in_map_iff; by exists (k', y)).
    destruct (bool_decide_reflect (k' = key_of c)) as [Ek|Hne].
    + destruct Hin as [[= <- <-]|Hin].
      * destruct (replaces c e) eqn:Er.
        -- right; left. split; [done|]. split; [done|]. intros y [[= <-]|Hy]; [by apply replaces_outranks|].
           by apply Hout in Hy.
        -- right; right. split; [done|]. split; [by left|]. rewrite <- replaces_outranks. by rewrite Er.
      * left. split; [|by right]. intros ->. rewrite <- Ek in Hin. by apply Hout in Hin.
    + destruct Hin as [[= <- <-]|Hin]; [left; split; [done|by left]|].
      destruct (IH Hn Hin) as [[? ?]|[(? & ? & H)|(? & ? & ?)]].
      * left. split; [done|by right].
      * right; left. split; [done|]. split; [done|]. intros y [[= <- <-]|Hy]; [done|by apply H].
      * right; right. split; [done|]. split; [by right|done].
Qed.

Lemma put_best_ok seen best c : best_of seen best -> best_of (seen ++ [c]) (put_best c best).
Proof.
  intros [Hu He Ha]. constructor.
  - rewrite put_best_keys. case_bool_decide as Hin; [by rewrite app_nil_r|].
    apply NoDup_app. split; [done|]. split; [|apply NoDup_singleton].
    intros k Hk1 Hk2. by apply list_elem_of_singleton in Hk2 as ->.
  - intros k x Hx. destruct (put_best_entry _ _ _ _ Hu Hx) as [[Hk Hin]|[(-> & -> & Hout)|(-> & Hin & Hno)]].
    + destruct (He _ _ Hin) as (-> & Hs & Hb). split; [done|]. split; [apply in_or_app; by left|].
      intros c' Hc' Ek. apply in_app_or in Hc' as [Hc'|[<-|[]]]; [by apply Hb|congruence].
    + split; [done|]. split; [apply in_or_app; right; by left|]. intros c' Hc' Ek.
      apply in_app_or in Hc' as [Hc'|[<-|[]]]; [|unfold outranks; lia].
      pose proof (Ha _ Hc') as Hin. apply in_map_iff in Hin as ([k e] & Hk & Hin). cbn in Hk. subst k.
      rewrite Ek in Hin. destruct (He _ _ Hin) as (_ & _ & Hb). intros Hr. specialize (Hb c' Hc' Ek).
      apply Hb. eapply outranks_trans; [exact Hr|]. by apply Hout.
    + destruct (He _ _ Hin) as (Hk & Hs & Hb). split; [done|]. split; [apply in_or_app; by left|].
      intros c' Hc' Ek. apply in_app_or in Hc' as [Hc'|[<-|[]]]; [by apply Hb|done].
  - intros x Hx. rewrite put_best_keys. apply in_or_app. case_bool_decide as Hin.
    + left. apply in_app_or in Hx as [Hx|[<-|[]]]; [by apply Ha|by apply list_elem_of_In].
    + apply in_app_or in Hx as [Hx|[<-|[]]]; [left; by apply Ha|right; by left].
Qed.

Lemma select_best_of cands :
  best_of cands (fold_left (fun best c => put_best c best) cands []).
Proof.
  assert (H : forall l seen best, best_of seen best ->
    best_of (seen ++ l) (fold_left (fun best c => put_best c best) l best)).
  { induction l as [|c l IH]; intros seen best Hb; cbn [fold_left]; [by rewrite app_nil_r|].
    replace (seen ++ c :: l) with ((seen ++ [c]) ++ l) by (by rewrite <- app_assoc).
    by apply IH, put_best_ok. }
  apply (H cands [] []). constructor; [constructor|by intros|by intros].
Qed.

Lemma select_keys cands :
  map key_of (_select_best_per_direction cands) =
  map fst (fold_left (fun best c => put_best c best) cands []).
Proof.
  unfold _select_best_per_direction. rewrite map_map. apply map_ext_in. intros [k c] Hin.
  by destruct (b_entry _ _ (select_best_of cands) k c Hin) as [-> _].
Qed.

Lemma selected cands :
  NoDup (map key_of (_select_best_per_direction cands)) /\
  forall c, In c (_select_best_per_direction cands) -> In c cands.
Proof.
  pose proof (select_best_of cands) as [Hu He _]. rewrite select_keys. split; [done|].
  intros c Hc. apply in_map_iff in Hc as ([k x] & <- & Hin). by destruct (He _ _ Hin) as (_ & Hs & _).
Qed.

(** The selection keeps exactly the best.  Of any candidates it returns one
    per timeframe and direction that occurs, each one of the candidates, and no
    candidate of the same timeframe and direction has more confluences, or as
    many and a later time. *)
Theorem select_best_exact (cands : list SnDCandidate.t) :
  NoDup (map key_of (_select_best_per_direction cands)) /\
  (forall c, In c (_select_best_per_direction cands) -> In c cands /\
     forall c', In c' cands -> key_of c' = key_of c -> ~ outranks c' c) /\
  (forall c, In c cands -> exists b, In b (_select_best_per_direction cands) /\ key_of b = key_of c).
Proof.
  pose proof (select_best_of cands) as [Hu He Ha]. rewrite select_keys. split; [done|]. split.
  - intros c Hc. apply in_map_iff in Hc as ([k x] & <- & Hin). destruct (He _ _ Hin) as (-> & Hs & Hb). by split.
  - intros c Hc. specialize (Ha c Hc). rewrite <- select_keys in Ha. apply in_map_iff in Ha as (b & Hk & Hb).
    by exists b.
Qed.
End SelectionFacts.

(** ** Trade levels *)

Module LevelFacts.

(** The next early return of a computation that must return. *)
Ltac early E := match goal with |- returns (if ?b then _ else _) => destruct b eqn:E; [by eexists|] end.

Lemma levels_return symbol d entry extreme buffer rr tf :
  returns (compute_trade_levels symbol d entry extreme buffer rr tf).
Proof.
  unfold compute_trade_levels. early E1. early E0.
  apply negb_false_iff, andb_true_iff in E1 as [_ Hentry].
  assert (exists r, (match rr, tf with
      | Some r, _ => Ok r | None, Some tf => resolve_min_tp_rr (Some tf) None None | None, None => Ok (lit 30 1)
      end) = Ok r) as [r ->] by (destruct rr, tf; by eexists).
  cbn [mbind res_bind]. early E3. early E2. early E4.
  assert (Hanchor : flt (default entry extreme) fzero = false).
  { assert (H : flt fzero (default entry extreme) = true).
    { destruct extreme as [x|]; cbn; [|done]. by apply negb_false_iff, andb_true_iff in E2 as [_ E2]. }
    unfold flt, SFltb in *. destruct (default entry extreme) as [[]|[]| |[] m e]; cbn in *; done. }
  cbv zeta. unfold seated_stop, calculate_price_from_pips. rewrite Hanchor. cbv zeta.
  destruct (negb (bool_decide (d = BEARISH))); cbn [negb orb Z.eqb]; by eexists.
Qed.

(** The buffer of the configured range, in price. *)
Definition buffer_pips (buffer : float) (tf : Timeframe) : float := fmax buffer (timeframe_floor_pips tf).
Definition buffer_ok (buffer : float) : Prop := fin buffer /\ 0 <= fv buffer <= fv (of_Z 10).

Lemma floor_pips_range tf :
  fin (timeframe_floor_pips tf) /\ 0 <= fv (timeframe_floor_pips tf) <= fv (of_Z (2 ^ 20)).
Proof. destruct tf; (split; [done|]; vm_compute; split; congruence). Qed.

Lemma buffer_facts buffer tf symbol :
  buffer_ok buffer ->
  let b := fmul (buffer_pips buffer tf) (pip_float symbol) in
  fin b /\ fv (lit 8 4) <= fv b <= fv (of_Z (2 ^ 20)).
Proof.
  intros [Fb Hb]. destruct (floor_pips_range tf) as [Ff Hf]. destruct (floor_facts symbol tf) as [_ Hmin].
  destruct (pip_float_fin symbol) as [Fp [Hp0 Hp1]].
  destruct (fmax_num buffer (timeframe_floor_pips tf)) as [_ Em]; [by apply fin_num..|].
  assert (Fm : fin (buffer_pips buffer tf)) by (by apply fmax_fin).
  assert (Hten : fv (of_Z 10) <= fv (of_Z (2 ^ 20))) by (vm_compute; congruence).
  fold (buffer_pips buffer tf) in Em. intros b.
  assert (Hlo : fv (fmul (timeframe_floor_pips tf) (pip_float symbol)) <= fv b).
  { apply fmul_mono; [done..|]. apply Z.mul_le_mono_nonneg_r; lia. }
  assert (Hhi : fv b <= fv (of_Z (2 ^ 20))).
  { apply (fmul_rounds _ _ Fm Fp); [done|]. nia. }
  split; [|lia]. apply (num_finite_of_bounds _ (lit 8 4) (of_Z (2 ^ 20))); [by apply fmul_num|done|done|lia].
Qed.

(** [pips * pip_value * direction] is the signed buffer. *)
Lemma signed_buffer b (s : Z) :
  fin b -> s = 1 \/ s = -1 -> fin (fmul b (of_Z s)) /\ fv (fmul b (of_Z s)) = s * fv b.
Proof.
  intros Fb Hs. assert (Fs : fin (of_Z s)) by (by destruct Hs as [->| ->]).
  assert (Es : fv (of_Z s) = s * unit_pow 0) by (by destruct Hs as [->| ->]).
  assert (exists z, fin z /\ fv z = s * fv b) as (z & Fz & Ez).
  { destruct Hs as [->| ->]; [exists b|exists (fneg b)]; (split; [by auto with etradie|]); rewrite ?fv_fneg; lia. }
  pose proof (fmul_rounds b (of_Z s) Fb Fs) as R. rewrite Es in R.
  assert (H0 : 0 < unit_pow 0) by done. split.
  - apply (rounds_fin _ _ _ z z R); [done|done|rewrite Ez; lia|rewrite Ez; lia].
  - rewrite <- Ez. eapply rounds_representable; [exact H0|exact R|done|]. rewrite Ez. ring.
Qed.

(** Adding the signed buffer is adding or subtracting it. *)
Lemma add_signed a b (s : Z) :
  fin a -> fin b -> s = 1 \/ s = -1 ->
  fv (fadd a (fmul b (of_Z s))) = fv (if bool_decide (s = 1) then fadd a b else fsub a b).
Proof.
  intros Fa Fb Hs. destruct (signed_buffer b s Fb Hs) as [Fz Ez].
  destruct Hs as [->| ->]; cbn [bool_decide]; [|rewrite fsub_fadd];
    apply Z.le_antisymm; apply fadd_mono; auto with etradie; rewrite ?Ez, ?fv_fneg; lia.
Qed.
(** *** Room between entry and stop *)

(** On prices up to [10^12] the buffer is several grid units wide. *)
Definition room : float := lit 6 4.

Lemma room_facts : fin room /\ fv room + unit_pow (-13) <= fv (lit 8 4) /\ fv max_price <= 2 ^ 52 * fv room /\
  fv max_price + fv (of_Z (2 ^ 20)) + unit_pow (-13) < (2 ^ 53 - 1) * unit_pow (-13).
Proof. vm_compute. split_and!; congruence. Qed.

Lemma add_room x b :
  price_ok x -> fin b -> fv (lit 8 4) <= fv b <= fv (of_Z (2 ^ 20)) -> fv x + fv room <= fv (fadd x b).
Proof.
  intros [Fx Hx] Fb Hb. destruct room_facts as (_ & Hr & _ & Hmax). set (u := unit_pow (-13)) in *.
  assert (Hu : 0 < u) by done. assert (Hp : 0 < fv room) by done.
  set (n := fv x + fv room). set (k := n / u + 1).
  pose proof (Z.mul_div_le n u Hu) as Hfl. pose proof (Z.mul_succ_div_gt n u Hu) as Hce.
  assert (Hk : 0 <= k < 2 ^ 53).
  { unfold k. split; [assert (0 <= n / u) by (apply Z.div_pos; unfold n; lia); lia|].
    assert (n / u < 2 ^ 53 - 1) by (apply Z.div_lt_upper_bound; unfold n; lia). lia. }
  destruct (grid_fin k (-13) Hk ltac:(lia)) as (z & Fz & Ez). fold u in Ez.
  apply Z.le_trans with (fv z); [rewrite Ez; fold n; unfold k; lia|].
  apply (fadd_rounds x b Fx Fb); [done|]. rewrite Ez. unfold k. fold n. lia.
Qed.

Lemma sub_room x b :
  price_ok x -> fin b -> fv (lit 8 4) <= fv b -> fv (fsub x b) <= 0 \/ fv (fsub x b) + fv room <= fv x.
Proof.
  intros [Fx Hx] Fb Hb. destruct room_facts as (_ & Hr & _ & Hmax).
  destruct (Z.le_gt_cases (fv x) (fv b)) as [Hle|Hgt].
  - left. destruct (fsub_rounds x b Fx Fb) as (_ & Hup & _). specialize (Hup fzero fin_fzero).
    rewrite fv_fzero in Hup. lia.
  - right. destruct (rounds_ceil _ 1 _ (-13) ltac:(lia) (fsub_rounds x b Fx Fb)) as [H|H]; [lia|lia| |lia].
    exfalso. assert (0 < fv (of_Z (2 ^ 20))) by done. assert (0 < unit_pow (-13)) by done.
    assert (0 < fv (lit 8 4)) by done. lia.
Qed.
(** *** The computed triple *)

Section Seated.
Context (symbol : string) (tf : Timeframe) (bullish : bool) (entry : float) (extreme : option float) (buffer : float).
Context (Hentry : price_ok entry) (Hbuffer : buffer_ok buffer).
Context (Hextreme : forall x, extreme = Some x ->
  price_ok x /\ if bullish then fv x <= fv entry else fv entry <= fv x).

Definition anchor : float := default entry extreme.
Definition price_buffer : float := fmul (buffer_pips buffer tf) (pip_float symbol).
Definition stop : float := fadd anchor (fmul price_buffer (of_Z (if bullish then -1 else 1))).
Definition risk : float := if bullish then fsub entry stop else fsub stop entry.
Definition gain : float := fmul risk (timeframe_min_tp_rr tf).
Definition target : float := if bullish then fadd entry gain else fsub entry gain.

(** A bound of everything in play. *)
Definition ceiling : float := of_Z (2 ^ 42).
Lemma ceiling_facts : fin ceiling /\ 4 * fv max_price + 4 * fv (of_Z (2 ^ 20)) <= fv ceiling.
Proof. vm_compute. split_and!; congruence. Qed.

Lemma anchor_ok : price_ok anchor /\ if bullish then fv anchor <= fv entry else fv entry <= fv anchor.
Proof. unfold anchor. destruct extreme as [x|]; cbn; [by apply Hextreme|]. split; [done|]. destruct bullish; lia. Qed.

Lemma stop_facts :
  fin stop /\ Z.abs (fv stop) <= fv ceiling /\
  (if bullish then fv stop < fv anchor /\ (fv stop <= 0 \/ fv stop + fv room <= fv entry)
   else fv anchor < fv stop /\ fv entry + fv room <= fv stop).
Proof.
  destruct anchor_ok as [Ha Hside]. pose proof Ha as [Fa Pa]. pose proof Hentry as [Fe Pe].
  destruct (buffer_facts buffer tf symbol Hbuffer) as [Fb Hb]. fold price_buffer in Fb, Hb.
  destruct ceiling_facts as [Fc Hc]. assert (H8 : 0 < fv (lit 8 4)) by done.
  assert (Hr : 0 < fv room) by done. assert (Hm : fv max_price <= 2 ^ 52 * fv (lit 8 4)) by (vm_compute; congruence).
  assert (Hs : (if bullish then -1 else 1) = 1 \/ (if bullish then -1 else 1) = -1) by (destruct bullish; lia).
  pose proof (add_signed anchor price_buffer _ Fa Fb Hs) as Es. fold stop in Es.
  destruct (signed_buffer price_buffer _ Fb Hs) as [Fz _].
  assert (Ns : num stop) by (by apply fadd_num). destruct bullish; cbn [bool_decide] in Es.
  - change (bool_decide (-1 = 1)) with false in Es. cbv iota in Es.
    destruct (fsub_rounds anchor price_buffer Fa Fb) as (_ & Hup & Hlo).
    assert (fv (fsub anchor price_buffer) < fv anchor) by (apply fsub_lt; first [assumption|lia]).
    specialize (Hlo (fneg price_buffer) (fneg_fin _ Fb)). rewrite fv_fneg in Hlo.
    assert (Hmono : fv (fsub anchor price_buffer) <= fv (fsub entry price_buffer)) by (apply fsub_mono; [done..|lia]).
    pose proof (sub_room entry price_buffer Hentry Fb ltac:(lia)) as Hroom.
    split; [|split; [lia|split; [lia|]]].
    + apply (num_finite_of_bounds _ (fneg price_buffer) anchor); [done|by apply fneg_fin|done|]. rewrite fv_fneg. lia.
    + rewrite Es. destruct Hroom; [left|right]; lia.
  - change (bool_decide (1 = 1)) with true in Es. cbv iota in Es.
    destruct (fadd_rounds anchor price_buffer Fa Fb) as (_ & Hup & _).
    assert (Hgt : fv anchor < fv (fadd anchor price_buffer)).
    { apply fadd_gt; [done|done| |lia|lia]. split; [lia|]. apply Z.le_lt_trans with (fv max_price); [lia|done]. }
    specialize (Hup ceiling Fc ltac:(lia)).
    assert (Hmono : fv (fadd entry price_buffer) <= fv (fadd anchor price_buffer)) by (apply fadd_mono; [done..|lia]).
    pose proof (add_room entry price_buffer Hentry Fb Hb) as Hroom.
    split; [|split; [lia|split; lia]]. apply (num_finite_of_bounds _ anchor ceiling); [done..|lia].
Qed.

Lemma risk_facts :
  fin risk /\ 0 < fv risk <= 2 * fv ceiling /\ fv entry <= 2 ^ 52 * fv risk.
Proof.
  destruct stop_facts as (Fs & Hs & Hside). pose proof Hentry as [Fe Pe]. destruct ceiling_facts as [Fc Hc].
  destruct room_facts as (Fr & _ & Hroom & _). assert (Hr : 0 < fv room) by done.
  assert (Hz : 0 < fv (of_Z (2 ^ 20))) by done.
  assert (exists z, fin z /\ fv z = 2 * fv ceiling) as (zz & Fzz & Ezz) by (exists (of_Z (2 ^ 43)); done).
  unfold risk. destruct bullish.
  - destruct (fsub_rounds entry stop Fe Fs) as (N & Hup & Hlo). specialize (Hup zz Fzz ltac:(lia)).
    assert (Hlow : fv entry <= fv (fsub entry stop) \/ fv room <= fv (fsub entry stop)).
    { destruct Hside as [_ [H|H]]; [left|right]; apply Hlo; first [assumption|lia]. }
    split; [|lia]. apply (num_finite_of_bounds _ fzero zz); [done..|]. rewrite fv_fzero. lia.
  - destruct (fsub_rounds stop entry Fs Fe) as (N & Hup & Hlo). specialize (Hup zz Fzz ltac:(lia)).
    assert (Hlow : fv room <= fv (fsub stop entry)) by (apply Hlo; [done|lia]).
    split; [|lia]. apply (num_finite_of_bounds _ fzero zz); [done..|]. rewrite fv_fzero. lia.
Qed.
Lemma rr_facts : fin (timeframe_min_tp_rr tf) /\ unit_pow 0 <= fv (timeframe_min_tp_rr tf) <= 5 * unit_pow 0.
Proof. destruct tf; vm_compute; split_and!; congruence. Qed.

Lemma gain_facts : fin gain /\ fv risk <= fv gain <= 10 * fv ceiling.
Proof.
  destruct risk_facts as (Fr & Hr & _). destruct rr_facts as [Ft Ht]. destruct ceiling_facts as [Fc _].
  assert (exists z, fin z /\ fv z = 10 * fv ceiling) as (z & Fz & Ez) by (exists (of_Z (10 * 2 ^ 42)); done).
  destruct (fmul_rounds risk (timeframe_min_tp_rr tf) Fr Ft) as (N & Hup & Hlo).
  specialize (Hlo risk Fr). specialize (Hup z Fz). fold gain in N, Hup, Hlo. rewrite Ez in Hup.
  assert (H1 : fv risk <= fv gain) by (apply Hlo; nia). assert (H2 : fv gain <= 10 * fv ceiling) by (apply Hup; nia).
  split; [|lia]. apply (num_finite_of_bounds _ risk z); [done..|]. rewrite Ez. lia.
Qed.

Lemma target_facts : fin target /\ if bullish then fv entry < fv target else fv target < fv entry.
Proof.
  destruct risk_facts as (Fr & Hr & Hrel). destruct gain_facts as [Fg Hg]. pose proof Hentry as [Fe Pe].
  destruct ceiling_facts as [Fc Hc]. assert (Hz : 0 < fv (of_Z (2 ^ 20))) by done.
  assert (exists z, fin z /\ fv z = 16 * fv ceiling) as (z & Fz & Ez) by (exists (of_Z (2 ^ 46)); done).
  unfold target. destruct bullish.
  - assert (Hgt : fv entry < fv (fadd entry gain)).
    { apply fadd_gt; [done|done| |lia|lia]. split; [lia|]. apply Z.le_lt_trans with (fv max_price); [lia|done]. }
    destruct (fadd_rounds entry gain Fe Fg) as (N & Hup & _). specialize (Hup z Fz ltac:(lia)).
    split; [|done]. apply (num_finite_of_bounds _ entry z); [done..|lia].
  - assert (Hlt : fv (fsub entry gain) < fv entry) by (apply fsub_lt; first [assumption|lia]).
    destruct (fsub_rounds entry gain Fe Fg) as (N & _ & Hlo).
    specialize (Hlo (fneg z) (fneg_fin _ Fz)). rewrite fv_fneg in Hlo.
    split; [|done]. apply (num_finite_of_bounds _ (fneg z) entry); [done|by apply fneg_fin|done|]. rewrite fv_fneg. lia.
Qed.

(** The price on the low side of the trade. *)
Definition lower_end : float := if bullish then stop else target.

Lemma positive_finite x : fin x -> _is_positive_finite x = bool_decide (0 < fv x).
Proof.
  intros F. unfold _is_positive_finite. pose proof (fin_num _ F). destruct F as [_ ->].
  rewrite flt_fv, fv_fzero by auto with etradie. cbn [andb].
  apply eq_true_iff_eq. by rewrite Z.ltb_lt, bool_decide_eq_true.
Qed.

Lemma geometry_iff :
  _validate_geometry (direction_of bullish) entry stop target risk = bool_decide (0 < fv lower_end).
Proof.
  destruct stop_facts as (Fs & _ & Hs). destruct target_facts as (Ft & Ht). destruct risk_facts as (Fr & Hr & _).
  destruct anchor_ok as [_ Ha]. pose proof Hentry as [Fe Pe]. assert (Hroom : 0 < fv room) by done.
  unfold _validate_geometry, lower_end. rewrite !positive_finite, !flt_fv by auto with etradie.
  destruct bullish; cbn [direction_of]; rewrite (bool_decide_true (0 < fv entry)), (bool_decide_true (0 < fv risk)) by lia.
  - rewrite (bool_decide_true (0 < fv target)) by lia. cbn [andb bool_decide].
    replace (fv stop <? fv entry) with true by (symmetry; apply Z.ltb_lt; lia).
    replace (fv entry <? fv target) with true by (symmetry; apply Z.ltb_lt; lia). by case_bool_decide.
  - rewrite (bool_decide_true (0 < fv stop)) by lia. cbn [andb bool_decide].
    replace (fv target <? fv entry) with true by (symmetry; apply Z.ltb_lt; lia).
    replace (fv entry <? fv stop) with true by (symmetry; apply Z.ltb_lt; lia). by case_bool_decide.
Qed.

(** The guard that re-seats the stop off the entry never fires. *)
Lemma seated_value : seated_stop symbol bullish entry anchor (buffer_pips buffer tf) = Ok stop.
Proof.
  destruct stop_facts as (Fs & _ & Hs). destruct anchor_ok as [[Fa Pa] Ha]. pose proof Hentry as [Fe Pe].
  assert (Hroom : 0 < fv room) by done.
  unfold seated_stop, calculate_price_from_pips. rewrite (flt_fv anchor fzero), fv_fzero by auto with etradie.
  rewrite (proj2 (Z.ltb_ge (fv anchor) 0)) by lia. cbv zeta. fold price_buffer.
  replace (negb _) with false by (by destruct bullish). cbn [mbind res_bind]. fold stop. f_equal.
  rewrite !fle_fv by auto with etradie. destruct bullish; rewrite (proj2 (Z.leb_gt _ _)); done || lia.
Qed.

Lemma levels_value :
  compute_trade_levels symbol (direction_of bullish) entry extreme buffer None (Some tf) =
  Ok (if bool_decide (0 < fv lower_end) then Some (TradeLevels.mk entry stop target risk) else None).
Proof.
  pose proof Hentry as [Fe Pe]. destruct Hbuffer as [Fb Pb]. destruct rr_facts as [Ft Ht].
  assert (Hu : 0 < unit_pow 0) by done.
  unfold compute_trade_levels. rewrite (positive_finite entry), bool_decide_true by first [assumption|lia]. cbn [negb].
  unfold _is_non_negative_finite. rewrite fle_fv, fv_fzero by auto with etradie. destruct Fb as [_ Fb]. rewrite Fb.
  rewrite (proj2 (Z.leb_le 0 (fv buffer))) by lia. cbn [negb andb].
  change (resolve_min_tp_rr (Some tf) None None) with (Ok (timeframe_min_tp_rr tf)). cbn [mbind res_bind].
  rewrite (positive_finite (timeframe_min_tp_rr tf)), bool_decide_true by first [assumption|lia]. cbn [negb].
  replace (match extreme with Some x => negb (_is_positive_finite x) | None => false end) with false.
  2:{ destruct extreme as [x|] eqn:Ex; [|done]. destruct (Hextreme x eq_refl) as [[Fx Px] _].
      by rewrite positive_finite, bool_decide_true by first [assumption|lia]. }
  rewrite <- geometry_iff.
  replace (negb (bool_decide (direction_of bullish ∈ [BEARISH; BULLISH]))) with false by (by destruct bullish).
  replace (negb (bool_decide (direction_of bullish = BEARISH))) with bullish by (by destruct bullish).
  fold anchor (buffer_pips buffer tf). cbv zeta. rewrite seated_value. cbn [mbind res_bind].
  unfold target, gain, risk. by destruct bullish.
Qed.
End Seated.

(** C18: the trade levels are exact.  For an entry and a structural extreme of real
    prices, the extreme on the losing side, and a buffer of the configured range,
    the computation returns: the stop is the extreme moved by the larger of the
    buffer and the timeframe's floor and lands strictly beyond it, the target pays
    the timeframe's multiple of the risk and lands strictly on the winning side,
    and the triple is refused exactly when its lowest price is not positive. *)
Theorem trade_levels_exact (symbol : string) (tf : Timeframe) (bullish : bool) (entry : float) (extreme : option float)
    (buffer : float) :
  price_ok entry -> buffer_ok buffer ->
  (forall x, extreme = Some x -> price_ok x /\ if bullish then fv x <= fv entry else fv entry <= fv x) ->
  let anchor := default entry extreme in
  let pips := fmul (fmax buffer (timeframe_floor_pips tf)) (pip_float symbol) in
  let stop := fadd anchor (fmul pips (of_Z (if bullish then -1 else 1))) in
  let risk := if bullish then fsub entry stop else fsub stop entry in
  let gain := fmul risk (timeframe_min_tp_rr tf) in
  let target := if bullish then fadd entry gain else fsub entry gain in
  (if bullish then fv stop < fv anchor /\ fv entry < fv target else fv anchor < fv stop /\ fv target < fv entry) /\
  0 < fv risk <= fv gain /\
  compute_trade_levels symbol (direction_of bullish) entry extreme buffer None (Some tf) =
  Ok (if bool_decide (0 < fv (if bullish then stop else target))
      then Some (TradeLevels.mk entry stop target risk) else None).
Proof.
  intros He Hb Hx. cbv zeta.
  destruct (stop_facts symbol tf bullish entry extreme buffer He Hb Hx) as (_ & _ & Hs).
  destruct (target_facts symbol tf bullish entry extreme buffer He Hb Hx) as (_ & Ht).
  destruct (risk_facts symbol tf bullish entry extreme buffer He Hb Hx) as (_ & Hr & _).
  destruct (gain_facts symbol tf bullish entry extreme buffer He Hb Hx) as (_ & Hg).
  split; [destruct bullish; by destruct Hs as [Hs _]|]. split; [split; [apply Hr|apply Hg]|].
  exact (levels_value symbol tf bullish entry extreme buffer He Hb Hx).
Qed.

Lemma trade_levels_exact_witness :
  exists l, compute_trade_levels "EURUSD" (direction_of true) (lit 11 1) (Some (lit 1095 3)) (lit 2 0) None (Some H1)
    = Ok (Some l) /\ fv (TradeLevels.stop_loss l) < fv (lit 1095 3).
Proof.
  destruct (trade_levels_exact "EURUSD" H1 true (lit 11 1) (Some (lit 1095 3)) (lit 2 0)) as ((Hs & _) & _ & E).
  - vm_compute. split_and!; congruence.
  - vm_compute. split_and!; congruence.
  - intros x [= <-]. vm_compute. split_and!; congruence.
  - eexists. rewrite E. rewrite bool_decide_true by (vm_compute; congruence). split; [reflexivity|exact Hs].
Defined.
End LevelFacts.
