(* ===== verification/SnDTotality.v ===== *)
(** * The SND detection never fails

    Every component of the SND detection returns on analysable input: the
    quasimodo levels are exactly the patterns of the definition, the previous
    levels average real prices, the fakeouts are exactly the rejections before the
    first close through the level, and the candidates that come out of the whole
    detection are positive, ordered and at most one per direction. *)

From Stdlib Require Import ZArith Lia Bool String Sorting.Sorted SpecFloat.
From stdpp Require Import base list strings.
From S2P Require Import Prelude Loops PyFloat FloatRound FloatMono FloatGrid FloatSum PyText PyRepr Constants PriceMath StopLoss Candles Swings Fibonacci Liquidity ZoneModels StructureModels Candidates CandlePatterns SMCConfig SMCStructure Compression SnDConfig SnDDetectors SnDValidators SnDBuilders SnDDetector SnDSoundness.

#[local] Open Scope string_scope.
#[local] Open Scope Z_scope.
#[local] Open Scope list_scope.

(** ** A sample: a head and its shoulder, the break and one fakeout *)

Definition sample_month (d o hi lo c : Z) : Candle.t :=
  Candle.mk "EURUSD" MN1 (mk_datetime (d * 30 * us_per_day) (Some 0)) (lit o 3) (lit hi 3) (lit lo 3) (lit c 3) fzero.
Definition sample_months : CandleSequence.t :=
  CandleSequence.mk "EURUSD" MN1
    [sample_month 0 1100 1110 1095 1105; sample_month 1 1105 1130 1100 1125; sample_month 2 1125 1200 1120 1150;
     sample_month 3 1150 1155 1110 1115; sample_month 4 1115 1125 1080 1120; sample_month 5 1120 1180 1115 1175;
     sample_month 6 1175 1250 1170 1200; sample_month 7 1200 1201 1049 1050; sample_month 8 1050 1085 1040 1060;
     sample_month 9 1060 1065 1030 1035; sample_month 10 1035 1040 1020 1030].

#[export] Instance sample_months_ok : Analysable sample_months.
Proof.
  constructor.
  - intros c Hc. apply List.Forall_forall with (2 := Hc). repeat constructor; vm_compute; congruence.
  - vm_compute. split; congruence.
  - constructor; [done| |repeat constructor; vm_compute; done]. intros a b Ha Hb.
    assert (H : forall x, In x (CandleSequence.candles sample_months) -> Candle.symbol x = "EURUSD" /\ Candle.timeframe x = MN1).
    { apply List.Forall_forall. by repeat constructor. }
    destruct (H a Ha), (H b Hb). split; congruence.
Qed.

Definition sample_shoulder : SwingHigh.t :=
  SwingHigh.mk "EURUSD" MN1 (mk_datetime (2 * 30 * us_per_day) (Some 0)) (lit 1200 3) 2 4 2 1 false None.
Definition sample_head : SwingHigh.t :=
  SwingHigh.mk "EURUSD" MN1 (mk_datetime (6 * 30 * us_per_day) (Some 0)) (lit 1250 3) 6 4 2 1 false None.
Definition sample_neck : SwingLow.t :=
  SwingLow.mk "EURUSD" MN1 (mk_datetime (4 * 30 * us_per_day) (Some 0)) (lit 1080 3) 4 4 2 1 false None.

(** ** Quasimodo levels *)

Module QMFacts.
Import QMDetector StructureFacts.

Lemma finite_below_inf x : fin x -> - finf_val < fv x < finf_val.
Proof.
  intros F. pose proof (fin_value x F). pose proof finf_val_big.
  change (2 ^ 53 * unit_pow 971) with (2 ^ 3224) in *. lia.
Qed.

Section Neck.
Context {B : Type} `{SwingLevel B} (bullish : bool) (shoulder head : datetime).

Definition between (x : B) : bool := dt_ltb shoulder (lv_timestamp x) && dt_ltb (lv_timestamp x) head.
Definition beyond (x y : float) : Prop := if bullish then fv y < fv x else fv x < fv y.
#[local] Instance beyond_dec x y : Decision (beyond x y).
Proof. unfold beyond. destruct bullish; apply _. Defined.

(** The first of the most extreme swings between shoulder and head. *)
Definition neck_of (necks : list B) (n : B) : Prop :=
  exists before after, necks = before ++ n :: after /\ between n = true /\
    (forall x, In x before -> between x = true -> beyond (lv_price n) (lv_price x)) /\
    (forall x, In x after -> between x = true -> ~ beyond (lv_price x) (lv_price n)).

Lemma neck_of_unique necks n n' : neck_of necks n -> neck_of necks n' -> n = n'.
Proof.
  intros (b & a & E & Hn & Hb & Ha) (b' & a' & E' & Hn' & Hb' & Ha').
  rewrite E in E'. destruct (app_eq_app _ _ _ _ E') as (l & [[-> E2]|[-> E2]]);
    (destruct l as [|y l]; [by injection E2|injection E2 as <- ->]); exfalso.
  - specialize (Hb n' ltac:(apply in_or_app; right; by left) Hn').
    specialize (Ha' n ltac:(apply in_or_app; right; by left) Hn). by apply Ha'.
  - specialize (Hb' n ltac:(apply in_or_app; right; by left) Hn).
    specialize (Ha n' ltac:(apply in_or_app; right; by left) Hn'). by apply Ha.
Qed.

(** What the scan knows after some of the swings. *)
Definition scanned (seen : list B) (acc : option B * float) : Prop :=
  match acc with
  | (None, best) => best = (if bullish then fneg finf else finf) /\ forall x, In x seen -> between x = false
  | (Some n, best) => best = lv_price n /\ neck_of seen n
  end.

Lemma beyond_test x best :
  num x -> num best -> (if bullish then flt best x else flt x best) = bool_decide (beyond x best).
Proof.
  intros Nx Nb. unfold beyond. apply eq_true_iff_eq. rewrite bool_decide_eq_true.
  destruct bullish; by rewrite flt_fv, Z.ltb_lt.
Qed.

Lemma neck_step_ok seen acc x :
  (forall y, In y (seen ++ [x]) -> fin (lv_price y)) -> scanned seen acc ->
  scanned (seen ++ [x]) (neck_step bullish shoulder head acc x).
Proof.
  intros Hfin Hs. destruct acc as [[n|] best]; destruct Hs as [-> Hs]; cbn [neck_step].
  - destruct Hs as (b & a & -> & Hn & Hb & Ha).
    assert (Fn : fin (lv_price n)) by (apply Hfin; rewrite !in_app_iff; simpl; auto).
    assert (Fx : fin (lv_price x)) by (apply Hfin, in_or_app; right; by left).
    rewrite beyond_test by (by apply fin_num). fold (between x).
    destruct (between x) eqn:Ex; cbn [andb]; [case_bool_decide as Hx|].
    + split; [done|]. exists (b ++ n :: a), []. split; [done|]. split; [done|]. split; [|by intros y []].
      intros y Hy Ey. apply in_app_iff in Hy as [Hy|[<-|Hy]]; [|done|].
      * specialize (Hb y Hy Ey). unfold beyond in *. destruct bullish; lia.
      * specialize (Ha y Hy Ey). unfold beyond in *. destruct bullish; lia.
    + split; [done|]. exists b, (a ++ [x]). split; [by rewrite <- app_assoc|]. split; [done|]. split; [done|].
      intros y Hy Ey. apply in_app_iff in Hy as [Hy|[<-|[]]]; [by apply Ha|done].
    + split; [done|]. exists b, (a ++ [x]). split; [by rewrite <- app_assoc|]. split; [done|]. split; [done|].
      intros y Hy Ey. apply in_app_iff in Hy as [Hy|[<-|[]]]; [by apply Ha|congruence].
  - assert (Fx : fin (lv_price x)) by (apply Hfin, in_or_app; right; by left).
    pose proof (finite_below_inf _ Fx) as Hinf.
    replace (if bullish then flt (if bullish then fneg finf else finf) (lv_price x)
             else flt (lv_price x) (if bullish then fneg finf else finf)) with true.
    2:{ destruct bullish; rewrite flt_fv by (done || by apply fin_num); symmetry; apply Z.ltb_lt;
          [change (fv (fneg finf)) with (- finf_val)|change (fv finf) with finf_val]; lia. }
    fold (between x). destruct (between x) eqn:Ex; cbn [andb].
    + split; [done|]. exists seen, []. split; [done|]. split; [done|]. split; [|by intros y []].
      intros y Hy Ey. rewrite Hs in Ey by done. done.
    + split; [done|]. intros y Hy. apply in_app_iff in Hy as [Hy|[<-|[]]]; [by apply Hs|done].
Qed.

Lemma find_neck_spec necks :
  (forall y, In y necks -> fin (lv_price y)) ->
  forall n, find_neck bullish shoulder head necks = Some n <-> neck_of necks n.
Proof.
  intros Hfin. unfold find_neck. set (init := (None, _) : option B * float).
  assert (H' : scanned necks (fold_left (neck_step bullish shoulder head) necks init)).
  { revert Hfin. induction necks as [|x necks IH] using rev_ind; intros Hfin; [done|].
    rewrite fold_left_app. apply neck_step_ok; [done|]. apply IH. intros y Hy. apply Hfin, in_or_app. by left. }
  destruct (fold_left _ necks init) as [[n|] best]; cbn [fst]; destruct H' as [_ H']; intros m; split.
  - by intros [= <-].
  - intros Hm. f_equal. by eapply neck_of_unique.
  - done.
  - intros (b & a & -> & Hm & _). rewrite H' in Hm by (rewrite in_app_iff; simpl; auto). done.
Qed.
End Neck.

Section QM.
Context {A B : Type} `{SwingLevel A} `{SwingLevel B} (bullish : bool) (q : CandleSequence.t) `{Analysable q}.
Abbreviation v := (CandleSequence.candles q).
Abbreviation closes := (_get_required_confirmations (CandleSequence.timeframe q)).

(** The neckline's price watched from the head on. *)
#[local] Instance necked : SwingLevel (B * A) := {|
  lv_price := fun x => lv_price (fst x); lv_timestamp := fun x => lv_timestamp (fst x);
  lv_index := fun x => lv_index (snd x); lv_strength := fun x => lv_strength (fst x) |}.

(** [e] is the pattern whose shoulder is the swing at position [i] in time order:
    the next swing goes beyond the shoulder, the neckline lies between the two,
    and after the head the price closes beyond the neckline for the required
    number of candles. *)
Record qm_of (heads : list A) (necks : list B) (i : Z) (e : QuasiModoLevel.t) (h hh : A) (neck : B) (j : Z)
    (k : Candle.t) : Prop := {
  qo_shoulder : heads !! Z.to_nat i = Some h;
  qo_head : heads !! Z.to_nat (i + 1) = Some hh;
  qo_beyond : if bullish then fv (lv_price hh) < fv (lv_price h) else fv (lv_price h) < fv (lv_price hh);
  qo_neck : neck_of bullish (lv_timestamp h) (lv_timestamp hh) necks neck;
  qo_break : is_break bullish q (neck, hh) j;
  qo_held : sustained bullish q (lv_price neck) j closes;
  qo_confirm : v !! Z.to_nat (j + closes - 1) = Some k;
  qo_event : qm_level bullish q h hh neck j k = Ok e }.

Definition qm_spec (heads : list A) (necks : list B) (i : Z) (r : option QuasiModoLevel.t) : Prop :=
  forall e, r = Some e <-> exists h hh neck j k, qm_of heads necks i e h hh neck j k.

Lemma qm_spec_None heads necks i :
  (forall e h hh neck j k, ~ qm_of heads necks i e h hh neck j k) -> qm_spec heads necks i None.
Proof. intros Hn e. split; [done|]. intros (h & hh & n & j & k & H'). by apply Hn in H'. Qed.

Lemma qm_closes_range : 1 <= closes <= 3.
Proof. unfold _get_required_confirmations. repeat case_bool_decide; lia. Qed.

Lemma opt_price x : fin x -> 0 < fv x -> opt_gt0 (Some x) = Ok (Some x).
Proof. intros F P. cbn [opt_gt0]. by rewrite price_field. Qed.
Lemma opt_index i : 0 <= i -> opt_ge0 (Some i) = Ok (Some i).
Proof. intros Hi. cbn [opt_ge0]. by rewrite index_field. Qed.

Lemma qm_level_Ok (h hh : A) (neck : B) j k :
  level_ok h -> level_ok hh -> level_ok neck -> 0 <= j -> Candle.wf k -> Candle.finite k ->
  yields (qm_level bullish q h hh neck j k) (fun e =>
    QuasiModoLevel.level e = lv_price h /\ QMCandidateBuilder.extreme bullish e = Some (lv_price hh)).
Proof.
  intros [Fh Ph _] [Fhh Phh Ihh] [Fn Pn _] Hj Hw Hf. destruct (PatternFacts.an_prices k Hw Hf) as (_ & _ & _ & [Fk Pk]).
  unfold qm_level. cbv zeta. destruct bullish; unfold QuasiModoLevel.create;
    rewrite symbol_field, !price_field, index_field, !opt_price, opt_index by done; by apply yields_ret.
Qed.

Lemma qm_body_spec (heads : list A) (necks : list B) i :
  (forall s, In s heads -> level_ok s) -> (forall s, In s necks -> level_ok s) -> 0 <= i < py_len heads - 1 ->
  yields (qm_body bullish q heads necks i) (qm_spec heads necks i).
Proof.
  intros Hh Hn Hi. pose proof qm_closes_range as Hr. unfold qm_body. cbv zeta.
  destruct (py_index_in_range heads i) as (h & -> & Eh); [lia|].
  destruct (py_index_in_range heads (i + 1)) as (hh & -> & Ehh); [lia|]. cbn [mbind res_bind].
  assert (Hl : forall k s, heads !! k = Some s -> level_ok s).
  { intros k s E. apply Hh, list_elem_of_In. by eapply list_elem_of_lookup_2. }
  pose proof (Hl _ _ Eh) as Oh. pose proof (Hl _ _ Ehh) as Ohh.
  assert (Ht : (if bullish then fle (lv_price h) (lv_price hh) else fle (lv_price hh) (lv_price h)) = false <->
    (if bullish then fv (lv_price hh) < fv (lv_price h) else fv (lv_price h) < fv (lv_price hh))).
  { destruct Oh as [Fh _ _], Ohh as [Fhh _ _]. destruct bullish; by rewrite fle_fv, Z.leb_gt by (by apply fin_num). }
  destruct (if bullish then fle (lv_price h) (lv_price hh) else fle (lv_price hh) (lv_price h)) eqn:Eb.
  { apply yields_ret, qm_spec_None. intros e ? ? n j k []. simplify_eq. by apply Ht in qo_beyond0. }
  pose proof (proj1 Ht eq_refl) as Hb.
  pose proof (find_neck_spec bullish (lv_timestamp h) (lv_timestamp hh) necks (fun y Hy => lo_fin _ (Hn y Hy))) as Hneck.
  destruct (find_neck _ _ _ necks) as [n|].
  2:{ apply yields_ret, qm_spec_None. intros e ? ? n j k []. simplify_eq. by apply Hneck in qo_neck0. }
  pose proof (proj1 (Hneck n) eq_refl) as Hnk.
  assert (On : level_ok n) by (destruct Hnk as (b & a & -> & _); apply Hn; rewrite in_app_iff; simpl; auto).
  assert (Hidx : 0 <= lv_index (n, hh)) by apply Ohh.
  destruct (first_break_spec bullish q (n, hh) Hidx) as [(j & E & Hj)|[E Hnone]];
    cbn [lv_price lv_index necked fst snd] in E; rewrite E; cbn [mbind res_bind].
  2:{ apply yields_ret, qm_spec_None. intros e ? ? n' j k []. simplify_eq.
      pose proof (neck_of_unique _ _ _ _ _ _ qo_neck0 Hnk) as ->. by apply (Hnone j). }
  assert (Hj0 : 0 <= j < py_len v) by (destruct Hj as [[] _], Ohh; cbn in *; lia).
  destruct (py_index_in_range v j) as (c & -> & _); [lia|]. cbn [mbind res_bind].
  destruct (count_closes_spec bullish q (lv_price n) j closes) as (m & -> & Hm); [lia|lia|]. cbn [mbind res_bind].
  assert (Hu : forall e h' hh' n' j' k, qm_of heads necks i e h' hh' n' j' k -> h' = h /\ hh' = hh /\ n' = n /\ j' = j).
  { intros e h' hh' n' j' k []. simplify_eq. pose proof (neck_of_unique _ _ _ _ _ _ qo_neck0 Hnk) as ->.
    by pose proof (is_break_unique _ _ _ _ _ qo_break0 Hj) as ->. }
  destruct (m <? closes) eqn:Em.
  { apply yields_ret, qm_spec_None. intros e h' hh' n' j' k Hq. destruct (Hu _ _ _ _ _ _ Hq) as (-> & -> & -> & ->).
    destruct Hq. apply Hm in qo_held0. congruence. }
  pose proof (proj1 Hm eq_refl) as Hheld.
  destruct (confirm_candle_spec bullish q (lv_price n) j closes) as (k & -> & Ek); [lia|lia|done|]. cbn [mbind res_bind].
  destruct (PatternFacts.an_at q _ _ Ek) as [Hw Hf].
  destruct (qm_level_Ok h hh n j k) as (e & Ee & _); [done|done|done|lia|done|done|]. rewrite Ee. cbn [mbind res_bind].
  apply yields_ret. intros e'. split.
  - intros [= <-]. by exists h, hh, n, j, k.
  - intros (h' & hh' & n' & j' & k' & Hq). destruct (Hu _ _ _ _ _ _ Hq) as (-> & -> & -> & ->).
    destruct Hq. simplify_eq. congruence.
Qed.

Lemma detect_qm_spec (heads : list A) (necks : list B) :
  (forall s, In s heads -> level_ok s) -> (forall s, In s necks -> level_ok s) ->
  yields (detect_qm bullish q heads necks) (fun levels => exists f,
    levels = omap f (py_range 0 (py_len heads - 1)) /\
    forall i, 0 <= i < py_len heads - 1 -> qm_spec (by_time heads) (by_time necks) i (f i)).
Proof.
  intros Hh Hn. unfold detect_qm.
  assert (El : py_len (by_time heads) = py_len heads) by (unfold py_len, by_time; by rewrite py_sorted_length).
  assert (Hs : forall (s : A), In s (by_time heads) -> level_ok s) by (intros s Hs; apply Hh; by apply py_sorted_In in Hs).
  assert (Hsn : forall (s : B), In s (by_time necks) -> level_ok s) by (intros s Hs'; apply Hn; by apply py_sorted_In in Hs').
  destruct necks as [|n0 nrest] eqn:En.
  { apply yields_ret. exists (fun _ => None). split.
    - by induction (py_range 0 (py_len heads - 1)).
    - intros i Hi. apply qm_spec_None. intros e h hh n j k []. by destruct qo_neck0 as ([|] & ? & ? & _). }
  rewrite <- En in *. destruct (Z.ltb_spec (py_len heads) 2).
  { apply yields_ret. exists (fun _ => None). rewrite py_range_nil by lia. split; [done|]. lia. }
  cbv zeta. rewrite El.
  eapply yields_weaken; [apply (collect_spec _ (qm_spec (by_time heads) (by_time necks)))|].
  - intros i Hi. apply elem_of_py_range in Hi. apply qm_body_spec; [done|done|lia].
  - intros levels (f & -> & Hf). exists f. split; [done|]. intros i Hi. apply Hf. by apply elem_of_py_range.
Qed.

(** What the builders use of a detected level. *)
Record qm_ok (e : QuasiModoLevel.t) : Prop := {
  qk_fin : fin (QuasiModoLevel.level e); qk_pos : 0 < fv (QuasiModoLevel.level e) }.

Lemma detect_qm_ok (heads : list A) (necks : list B) :
  (forall s, In s heads -> level_ok s) -> (forall s, In s necks -> level_ok s) ->
  yields (detect_qm bullish q heads necks) (Forall qm_ok).
Proof.
  intros Hh Hn. eapply yields_weaken; [by apply detect_qm_spec|]. intros levels (f & -> & Hf).
  apply List.Forall_forall. intros e He. apply omap_In in He as (i & Hi & Ei). apply elem_of_py_range in Hi.
  apply (Hf i Hi) in Ei as (h & hh & n & j & k & []).
  assert (Hm : forall {C} `{SwingLevel C} (l : list C) (x : C) m, by_time l !! m = Some x -> In x l).
  { intros C HC l x m E. apply (py_sorted_In (fun a b => dt_ltb (lv_timestamp a) (lv_timestamp b)) l x), list_elem_of_In.
    by eapply list_elem_of_lookup_2. }
  pose proof (Hh _ (Hm _ _ _ _ _ qo_shoulder0)) as Oh. pose proof (Hh _ (Hm _ _ _ _ _ qo_head0)) as Ohh.
  assert (On : level_ok n).
  { destruct qo_neck0 as (b & a & E & _). apply Hn. eapply (py_sorted_In (fun a b => dt_ltb (lv_timestamp a) (lv_timestamp b))).
    unfold by_time in E. rewrite E, in_app_iff. simpl. auto. }
  destruct (PatternFacts.an_at q _ _ qo_confirm0) as [Hw Hf'].
  destruct (qm_level_Ok h hh n j k Oh Ohh On) as (e' & E' & El & _); [|done|done|].
  { destruct qo_break0 as [[] _], Ohh; cbn in *; lia. }
  assert (e' = e) as -> by congruence. destruct Oh. constructor; rewrite El; done.
Qed.
End QM.
(** C12: quasimodo levels are found exactly.  On an analysable sequence and finite
    swings both detections return, and they report exactly the positions in time
    order at which the next swing goes beyond the shoulder, a swing of the other
    kind lies between the two (the most extreme one is the neckline, the first on
    ties) and the first close beyond the neckline after the head is sustained for
    the timeframe's number of candles. *)
Theorem qm_exact (q : CandleSequence.t) (highs : list SwingHigh.t) (lows : list SwingLow.t) :
  Analysable q -> (forall h, In h highs -> level_ok h) -> (forall l, In l lows -> level_ok l) ->
  (exists f, detect_qml q highs lows = Ok (omap f (py_range 0 (py_len highs - 1))) /\
     forall i e, 0 <= i < py_len highs - 1 ->
       f i = Some e <-> exists h hh neck j k, qm_of false q (by_time highs) (by_time lows) i e h hh neck j k) /\
  (exists f, detect_qmh q lows highs = Ok (omap f (py_range 0 (py_len lows - 1))) /\
     forall i e, 0 <= i < py_len lows - 1 ->
       f i = Some e <-> exists l ll neck j k, qm_of true q (by_time lows) (by_time highs) i e l ll neck j k).
Proof.
  intros An Hh Hl. split.
  - destruct (detect_qm_spec false q highs lows Hh Hl) as (levels & E & f & -> & Hf).
    exists f. split; [exact E|]. intros i e Hi. by apply Hf.
  - destruct (detect_qm_spec true q lows highs Hl Hh) as (levels & E & f & -> & Hf).
    exists f. split; [exact E|]. intros i e Hi. by apply Hf.
Qed.

Lemma qm_exact_witness :
  (exists f, detect_qml sample_months [sample_shoulder; sample_head] [sample_neck] = Ok (omap f (py_range 0 1))) /\
  map QuasiModoLevel.candle_index <$> detect_qml sample_months [sample_shoulder; sample_head] [sample_neck] = Ok [7].
Proof.
  split; [|vm_compute; reflexivity].
  destruct (qm_exact sample_months [sample_shoulder; sample_head] [sample_neck] sample_months_ok) as [(f & E & _) _].
  - intros h [<-|[<-|[]]]; constructor; vm_compute; done.
  - intros l [<-|[]]; constructor; vm_compute; done.
  - exists f. exact E.
Defined.
End QMFacts.

(** ** Fakeouts *)

Module FakeoutFacts.
Import FakeoutDetector.

Section Scan.
Context (bullish : bool) (q : CandleSequence.t) `{Analysable q} (level : float).
Abbreviation v := (CandleSequence.candles q).

Definition rejected (i : Z) : bool := holds_at v (rejects bullish level) i.
Definition pierced (i : Z) : bool := holds_at v (closes_through bullish level) i.

(** Candle [i] rejects the level and no candle from [a] on closed through it
    before. *)
Definition fakeout (a i : Z) : bool := rejected i && forallb (fun j => negb (pierced j)) (py_range a i).

(** The record of the fakeout at candle [i]. *)
Record test_of (t : FakeoutTest.t) (c : Candle.t) : Prop := {
  to_range : 0 <= FakeoutTest.candle_index t;
  to_candle : v !! Z.to_nat (FakeoutTest.candle_index t) = Some c;
  to_level : FakeoutTest.level t = level;
  to_time : FakeoutTest.timestamp t = Candle.timestamp c;
  to_direction : FakeoutTest.direction t = direction_of bullish;
  to_diamond : _check_diamond_fakeout q (FakeoutTest.candle_index t) (direction_of bullish) =
    Ok (FakeoutTest.is_diamond_fakeout t) }.

Lemma diamond_returns i d : 0 <= i < py_len v -> returns (_check_diamond_fakeout q i d).
Proof.
  intros Hi. unfold _check_diamond_fakeout. cbv zeta.
  destruct ((i <? 2) || (py_len v - 1 <=? i)) eqn:E; [by eexists|]. apply orb_false_iff in E as [E1 E2]. zbool.
  destruct (py_index_in_range v (i - 1)) as (c1 & -> & _); [lia|].
  destruct (py_index_in_range v i) as (c2 & -> & _); [lia|].
  destruct (py_index_in_range v (i + 1)) as (c3 & -> & _); [lia|]. by eexists.
Qed.

Lemma filter_none {A} (f : A -> bool) l : (forall x, In x l -> f x = false) -> List.filter f l = [].
Proof. induction l as [|x l IH]; simpl; intros Hf; [done|]. rewrite Hf by auto. auto. Qed.
Lemma filter_same {A} (f g : A -> bool) l : (forall x, In x l -> f x = g x) -> List.filter f l = List.filter g l.
Proof. intros Hf. by apply List.filter_ext_in. Qed.

Lemma fakeout_loop_spec n : forall a k,
  0 <= a -> py_len v - a <= Z.of_nat n ->
  yields (fakeout_loop bullish q level k (py_range a (py_len v))) (fun ts =>
    map FakeoutTest.candle_index ts = List.filter (fakeout a) (py_range a (py_len v)) /\
    map FakeoutTest.test_number ts = py_range k (k + py_len ts) /\
    Forall (fun t => exists c, test_of t c) ts).
Proof.
  induction n as [|n IH]; intros a k Ha Hn; (destruct (Z.le_gt_cases (py_len v) a) as [Hle|Hlt];
    [rewrite py_range_nil by lia; apply yields_ret; split; [done|]; split; [by rewrite py_range_nil by (unfold py_len; simpl; lia)|constructor]|]);
    [lia|].
  rewrite py_range_cons by lia. cbn [fakeout_loop].
  destruct (py_index_in_range v a) as (c & -> & Ec); [lia|]. cbn [mbind res_bind].
  assert (Hr : rejected a = rejects bullish level c) by (unfold rejected, holds_at; by rewrite Ec).
  assert (Hp : pierced a = closes_through bullish level c) by (unfold pierced, holds_at; by rewrite Ec).
  assert (H0 : fakeout a a = rejects bullish level c) by (unfold fakeout; rewrite py_range_nil by lia; cbn; by rewrite andb_true_r).
  assert (Hrest : forall i, In i (py_range (a + 1) (py_len v)) ->
    fakeout a i = negb (closes_through bullish level c) && fakeout (a + 1) i).
  { intros i Hi. apply elem_of_py_range in Hi. unfold fakeout. rewrite (py_range_cons a i) by lia. cbn [forallb].
    rewrite Hp. by destruct (rejected i), (closes_through bullish level c). }
  destruct (diamond_returns a (direction_of bullish)) as [d Ed]; [lia|].
  set (one := FakeoutTest.mk (CandleSequence.symbol q) (CandleSequence.timeframe q) k level (Candle.timestamp c) a
                (direction_of bullish) d).
  apply yields_bind with (Q := fun found => found = if rejects bullish level c then [one] else []).
  { destruct (rejects bullish level c); [|by apply yields_ret]. rewrite Ed. by apply yields_ret. }
  intros found ->. cbn [List.filter]. rewrite H0.
  assert (Hone : exists c', test_of one c') by (by exists c; constructor).
  destruct (closes_through bullish level c) eqn:Et.
  - rewrite (filter_none (fakeout a) (py_range (a + 1) (py_len v))) by (intros i Hi; by rewrite Hrest).
    apply yields_ret. destruct (rejects bullish level c); cbn [map].
    + split; [done|]. split; [|by repeat constructor]. rewrite py_len_cons, py_range_cons by (unfold py_len; simpl; lia).
      by rewrite py_range_nil by (unfold py_len; simpl; lia).
    + split; [done|]. split; [|constructor]. by rewrite py_range_nil by (unfold py_len; simpl; lia).
  - rewrite (filter_same (fakeout a) (fakeout (a + 1))) by (intros i Hi; by rewrite Hrest).
    destruct (IH (a + 1) (k + py_len (if rejects bullish level c then [one] else []))) as (ts & -> & E1 & E2 & F);
      [lia|lia|]. cbn [mbind res_bind]. apply yields_ret.
    destruct (rejects bullish level c); cbn [app map].
    + rewrite E1, E2. change (py_len [one]) with 1. split; [done|]. split; [|by constructor].
      rewrite py_len_cons, (py_range_cons k) by (pose proof (py_len_nonneg ts); lia). f_equal. f_equal. lia.
    + split; [done|]. split; [|done]. rewrite E2. f_equal; unfold py_len; simpl; lia.
Qed.
End Scan.

(** The fakeouts are exact.  From a flip on, the scan returns exactly the
    candles that touch the level and close back on its side before any candle has
    closed through it, numbered from one, each with its own price and time. *)
Theorem fakeouts_exact (bullish : bool) (q : CandleSequence.t) (level : float) (flip_index : Z) :
  Analysable q -> -1 <= flip_index ->
  exists ts, detect_fakeouts bullish q level flip_index = Ok ts /\
    map FakeoutTest.candle_index ts =
      List.filter (fakeout bullish q level (flip_index + 1))
        (py_range (flip_index + 1) (py_len (CandleSequence.candles q))) /\
    map FakeoutTest.test_number ts = py_range 1 (1 + py_len ts) /\
    Forall (fun t => exists c, test_of bullish q level t c) ts.
Proof.
  intros An Hf. set (v := CandleSequence.candles q).
  destruct (fakeout_loop_spec bullish q level (Z.to_nat (py_len v)) (flip_index + 1) 1) as (ts & E & H);
    [lia|pose proof (py_len_nonneg v); unfold v in *; lia|].
  by exists ts.
Qed.

Lemma fakeouts_returns bullish q level i :
  Analysable q -> -1 <= i ->
  yields (detect_fakeouts bullish q level i) (Forall (fun t => exists c, test_of bullish q level t c)).
Proof.
  intros An Hi. destruct (fakeout_loop_spec bullish q level (Z.to_nat (py_len (CandleSequence.candles q))) (i + 1) 1)
    as (ts & E & _ & _ & F); [lia|pose proof (py_len_nonneg (CandleSequence.candles q)); lia|]. by exists ts.
Qed.

Lemma fakeouts_exact_witness :
  exists ts, detect_fakeouts false sample_months (lit 1080 3) 7 = Ok ts /\ map FakeoutTest.candle_index ts = [8].
Proof.
  destruct (fakeouts_exact false sample_months (lit 1080 3) 7 sample_months_ok ltac:(lia)) as (ts & E & Hi & _).
  exists ts. split; [exact E|]. rewrite Hi. vm_compute. reflexivity.
Defined.
End FakeoutFacts.

(** ** Previous levels *)

Module PreviousFacts.
Import StructureFacts PreviousLevelDetector.

Lemma of_Z_positive n : 1 <= n -> num (of_Z n) /\ 0 < fv (of_Z n).
Proof.
  intros Hn. destruct (binary_normalize_bounds n 0 false ltac:(done)) as (N & _ & Hlo). split; [exact N|].
  specialize (Hlo fone fin_fone). rewrite fv_fone in Hlo. assert (0 < unit_pow 0) by done.
  assert (unit_pow 0 <= fv (of_Z n)) by (apply Hlo; nia). lia.
Qed.

Lemma infinite_positive x : num x -> 0 <= fv x -> is_finite x = false -> x = finf.
Proof. intros Nx Hx Ex. apply overflow_infinite; [done|done|]. intros [_ F]. congruence. Qed.

(** A quotient of non-negative numbers is not below zero, infinities included. *)
Lemma div_not_negative x y :
  num x -> 0 <= fv x -> num y -> 0 < fv y -> flt (fdiv_ieee x y) fzero = false.
Proof.
  intros Nx Hx Ny Hy. destruct (is_finite x) eqn:Ex, (is_finite y) eqn:Ey.
  - assert (Fx : fin x) by (by destruct Nx). assert (Fy : fin y) by (by destruct Ny).
    rewrite flt_fv, fv_fzero by (done || by apply fdiv_num). apply Z.ltb_ge. by apply fdiv_nonneg.
  - rewrite (infinite_positive y) by (done || lia). by destruct x as [[]|[]| |[] m e].
  - rewrite (infinite_positive x) by (done || lia). destruct y as [s|s| |[] m e]; [by destruct s|done|done| |done].
    cbn [fv] in Hy. pose proof (fv_mag_bound _ _ _ (proj1 Ny)). lia.
  - by rewrite (infinite_positive x), (infinite_positive y) by (done || lia).
Qed.

Lemma pips_returns a b s :
  flt a fzero = false -> flt b fzero = false -> returns (calculate_pips a b s).
Proof.
  intros Ha Hb. unfold calculate_pips. rewrite Ha, Hb. cbn [orb]. cbv zeta.
  destruct (pip_float_fin s) as [Fp [Hp0 _]]. unfold fdiv. rewrite feq_fv by auto with etradie. rewrite fv_fzero.
  rewrite (proj2 (Z.eqb_neq _ _)) by lia. by eexists.
Qed.

Section Clusters.
Context {A : Type} `{SwingLevel A} `{SwingTimeframe A} (config : SnDConfig.t) (swings : list A) (symbol : string)
  (direction : Direction).
Context (Hswings : forall s, In s swings -> level_ok s).

Lemma within_returns a b : flt a fzero = false -> flt b fzero = false -> returns (within config a b symbol).
Proof. intros Ha Hb. unfold within. destruct (pips_returns a b symbol Ha Hb) as [p ->]. by eexists. Qed.

Lemma swing_guard s : In s swings -> flt (lv_price s) fzero = false.
Proof. intros Hs. destruct (Hswings s Hs). apply price_guard; [done|lia]. Qed.

(** A level and the swings that made it: all near the first, their mean. *)
Record cluster_of (c : PreviousHighsLows.t A) (seed : A) (others : list A) : Prop := {
  cl_touches : PreviousHighsLows.touches c = seed :: others;
  cl_from : forall t, In t (seed :: others) -> In t swings;
  cl_near : forall t, In t others -> within config (lv_price seed) (lv_price t) symbol = Ok true;
  cl_count : PreviousHighsLows.touch_count c = 1 + py_len others;
  cl_enough : SnDConfig.min_previous_touches config <= PreviousHighsLows.touch_count c;
  cl_level : fdiv (fsum (map lv_price (seed :: others))) (of_Z (PreviousHighsLows.touch_count c)) =
    Ok (PreviousHighsLows.level c);
  cl_direction : PreviousHighsLows.direction c = direction }.

Definition processed_ok (processed : list Z) : Prop :=
  NoDup processed /\ forall j, j ∈ processed -> 0 <= j < py_len swings.

Lemma enumerate_swing i s : In (i, s) (py_enumerate swings) -> In s swings /\ 0 <= i < py_len swings.
Proof.
  intros Hi. apply py_enumerate_from_spec in Hi as [Hlo E]. rewrite Z.sub_0_r in E.
  split; [apply list_elem_of_In; by eapply list_elem_of_lookup_2|]. apply lookup_lt_Some in E. unfold py_len. lia.
Qed.

Lemma touches_spec i seed processed :
  In (i, seed) (py_enumerate swings) -> processed_ok processed -> i ∉ processed ->
  yields (for_each (touch_step config symbol i seed) (py_enumerate swings) ([seed], i :: processed)) (fun r =>
    exists others, fst r = seed :: others /\ processed_ok (snd r) /\
      (forall t, In t others -> In t swings /\ within config (lv_price seed) (lv_price t) symbol = Ok true) /\
      py_len (snd r) = py_len processed + 1 + py_len others).
Proof.
  intros Hi Hp Hn. destruct (enumerate_swing _ _ Hi) as [Hseed Hr].
  apply (for_each_list _ (fun _ r => exists others, fst r = seed :: others /\ processed_ok (snd r) /\
      (forall t, In t others -> In t swings /\ within config (lv_price seed) (lv_price t) symbol = Ok true) /\
      py_len (snd r) = py_len processed + 1 + py_len others)).
  - exists []. cbn [fst snd]. split; [done|]. split; [|split; [by intros t []|rewrite py_len_cons; unfold py_len; simpl; lia]].
    destruct Hp as [Hd Hin]. split; [by apply NoDup_cons|]. intros j. rewrite elem_of_cons. intros [->|?]; auto.
  - intros pre [j other] rest [ts pr] E (others & Ets & [Hd Hin] & Ho & Hl). cbn [fst snd] in *. subst ts.
    assert (Hj : In (j, other) (py_enumerate swings)) by (rewrite E, in_app_iff; simpl; auto).
    destruct (enumerate_swing _ _ Hj) as [Hother Hjr]. cbn [touch_step].
    destruct (bool_decide (j ∈ pr) || (j =? i)) eqn:Eskip.
    { eexists. split; [done|]. exists others. done. }
    apply orb_false_iff in Eskip as [Ej _]. apply bool_decide_eq_false in Ej.
    destruct (within_returns (lv_price seed) (lv_price other)) as [b Eb]; [by apply swing_guard..|].
    rewrite Eb. cbn [mbind res_bind]. eexists. split; [done|]. destruct b; [|exists others; done].
    exists (others ++ [other]). cbn [fst snd]. split; [done|]. split; [|split].
    + split; [by apply NoDup_cons|]. intros k. rewrite elem_of_cons. intros [->|?]; auto.
    + intros t Ht. apply in_app_iff in Ht as [Ht|[<-|[]]]; auto.
    + rewrite py_len_cons, py_len_app, Hl. unfold py_len. simpl. lia.
Qed.

Lemma cluster_level_Ok n x : 1 <= n -> num x -> 0 <= fv x ->
  fdiv x (of_Z n) = Ok (fdiv_ieee x (of_Z n)) /\ flt (fdiv_ieee x (of_Z n)) fzero = false.
Proof.
  intros Hn Nx Hx. destruct (of_Z_positive n Hn) as [Nn Pn]. split; [|by apply div_not_negative].
  unfold fdiv. rewrite feq_fv, fv_fzero by auto with etradie. by rewrite (proj2 (Z.eqb_neq _ _)) by lia.
Qed.

(** Every swing is counted at most once over all the levels. *)
Definition counted (clusters : list (PreviousHighsLows.t A)) : Z :=
  foldr (fun c n => PreviousHighsLows.touch_count c + n) 0 clusters.

Lemma counted_app l k : counted (l ++ k) = counted l + counted k.
Proof. unfold counted. induction l as [|c l IH]; simpl; lia. Qed.

Lemma processed_length processed : processed_ok processed -> py_len processed <= py_len swings.
Proof.
  intros [Hd Hin]. unfold py_len. apply inj_le. apply NoDup_ListNoDup in Hd.
  replace (length swings) with (length (map Z.of_nat (seq 0 (length swings)))) by (by rewrite length_map, length_seq).
  apply List.NoDup_incl_length; [done|]. intros j Hj. apply list_elem_of_In, Hin in Hj. unfold py_len in Hj.
  apply in_map_iff. exists (Z.to_nat j). split; [lia|]. apply in_seq. lia.
Qed.

Lemma clusters_spec :
  yields (_cluster_levels config swings symbol direction) (fun clusters =>
    Forall (fun c => exists seed others, cluster_of c seed others) clusters /\ counted clusters <= py_len swings).
Proof.
  unfold _cluster_levels.
  destruct (for_each_list (cluster_step config swings symbol direction) (fun _ r =>
      Forall (fun c => exists seed others, cluster_of c seed others) (fst r) /\ processed_ok (snd r) /\
      counted (fst r) <= py_len (snd r)) (py_enumerate swings) ([], [])) as ([clusters pr] & -> & F & Hp & Hc).
  - split; [constructor|]. split; [split; [constructor|by intros j Hj%elem_of_nil]|done].
  - intros pre [i seed] rest [clusters pr] E (F & Hp & Hc). cbn [fst snd] in *.
    assert (Hi : In (i, seed) (py_enumerate swings)) by (rewrite E, in_app_iff; simpl; auto).
    destruct (enumerate_swing _ _ Hi) as [Hseed _]. cbn [cluster_step].
    case_bool_decide as Hin; [by eexists|].
    destruct (touches_spec i seed pr Hi Hp Hin) as ([ts pr'] & -> & others & Ets & Hp' & Ho & Hl). cbn [fst snd] in *.
    subst ts. cbn [mbind res_bind]. rewrite py_len_cons. pose proof (py_len_nonneg others).
    destruct (Z.leb_spec (SnDConfig.min_previous_touches config) (1 + py_len others)).
    2:{ eexists. split; [done|]. cbn [fst snd]. split; [done|]. split; [done|]. lia. }
    assert (Hin' : forall t, In t (seed :: others) -> In t swings) by (intros t [<-|Ht]; [done|by apply Ho]).
    destruct (fsum_nonneg (map lv_price (seed :: others))) as [Ns Hs].
    { intros x Hx. apply in_map_iff in Hx as (t & <- & Ht). by destruct (Hswings t (Hin' t Ht)). }
    destruct (cluster_level_Ok (1 + py_len others) _ ltac:(lia) Ns Hs) as [Ed _]. rewrite Ed. cbn [mbind res_bind].
    change (py_index (seed :: others) 0) with (@Ok A seed). cbn [mbind res_bind].
    eexists. split; [done|]. cbn [fst snd]. split; [|split; [done|]].
    + apply Forall_app. split; [done|]. constructor; [|constructor]. exists seed, others. constructor; cbn; auto.
      * intros t Ht. by apply Ho.
    + rewrite counted_app. cbn. lia.
  - cbn [mbind res_bind fst snd] in *. apply yields_ret. split; [done|].
    pose proof (processed_length pr Hp). lia.
Qed.

Lemma cluster_level c seed others : cluster_of c seed others -> flt (PreviousHighsLows.level c) fzero = false.
Proof.
  intros []. destruct (fsum_nonneg (map lv_price (seed :: others))) as [Ns Hs].
  { intros x Hx. apply in_map_iff in Hx as (t & <- & Ht). by destruct (Hswings t (cl_from0 t Ht)). }
  destruct (cluster_level_Ok (PreviousHighsLows.touch_count c) _ ltac:(pose proof (py_len_nonneg others); lia) Ns Hs)
    as [Ed Hd]. rewrite Ed in cl_level0. by injection cl_level0 as <-.
Qed.

Lemma counted_filter f clusters :
  Forall (fun c => 0 <= PreviousHighsLows.touch_count c) clusters -> counted (List.filter f clusters) <= counted clusters.
Proof. unfold counted. induction 1 as [|c l Hc Hl IH]; simpl; [lia|]. destruct (f c); simpl; lia. Qed.
End Clusters.

Section Detect.
Context {A : Type} `{SwingLevel A} `{SwingTimeframe A} (config : SnDConfig.t) (q : CandleSequence.t)
  (direction : Direction) (swings : list A).
Context (Hswings : forall s, In s swings -> level_ok s).

Lemma previous_spec :
  yields (detect_previous config q direction swings) (fun clusters =>
    Forall (fun c => exists seed others,
      cluster_of config swings (CandleSequence.symbol q) direction c seed others) clusters /\
    counted clusters <= py_len swings).
Proof.
  unfold detect_previous. destruct (_ <? _).
  { apply yields_ret. split; [constructor|apply py_len_nonneg]. }
  destruct (clusters_spec config swings (CandleSequence.symbol q) direction Hswings) as (cs & -> & F & Hc).
  cbn [mbind res_bind]. apply yields_ret. split.
  - apply List.Forall_forall. intros c Hin. apply filter_In in Hin as [Hin _]. by apply (proj1 (List.Forall_forall _ _) F).
  - etrans; [|exact Hc]. apply counted_filter. eapply Forall_impl; [exact F|]. intros c (seed & others & []).
    pose proof (py_len_nonneg others). lia.
Qed.
End Detect.

(** Previous levels are sound.  Over finite positive swings the detection
    returns; every level it reports is the mean of a swing and of others within
    the tolerance of it, at least the configured number in all, and all the
    levels together count no swing twice. *)
Theorem previous_levels_sound (config : SnDConfig.t) (q : CandleSequence.t) (highs : list SwingHigh.t)
    (lows : list SwingLow.t) :
  (forall h, In h highs -> level_ok h) -> (forall l, In l lows -> level_ok l) ->
  (exists cs, detect_previous_highs config q highs = Ok cs /\
    (forall c, In c cs -> exists seed others,
       cluster_of config highs (CandleSequence.symbol q) BEARISH c seed others) /\
    counted cs <= py_len highs) /\
  (exists cs, detect_previous_lows config q lows = Ok cs /\
    (forall c, In c cs -> exists seed others,
       cluster_of config lows (CandleSequence.symbol q) BULLISH c seed others) /\
    counted cs <= py_len lows).
Proof.
  intros Hh Hl. split.
  - destruct (previous_spec config q BEARISH highs Hh) as (cs & E & F & Hc).
    exists cs. split; [exact E|]. split; [|done]. by apply List.Forall_forall.
  - destruct (previous_spec config q BULLISH lows Hl) as (cs & E & F & Hc).
    exists cs. split; [exact E|]. split; [|done]. by apply List.Forall_forall.
Qed.

Lemma previous_levels_sound_witness :
  (exists cs, detect_previous_highs SnDConfig.default sample_months [sample_head; sample_shoulder; sample_head] = Ok cs /\
     counted cs <= 3) /\
  map PreviousHighsLows.touch_count <$>
    detect_previous_highs SnDConfig.default sample_months [sample_head; sample_shoulder; sample_head] = Ok [2].
Proof.
  split; [|vm_compute; reflexivity].
  destruct (previous_levels_sound SnDConfig.default sample_months [sample_head; sample_shoulder; sample_head]
    [sample_neck]) as [(cs & E & _ & Hc) _].
  - intros h [<-|[<-|[<-|[]]]]; constructor; vm_compute; done.
  - intros l [<-|[]]; constructor; vm_compute; done.
  - exists cs. split; [exact E|exact Hc].
Defined.
End PreviousFacts.

(** ** Flips, mini price levels, confirmations *)

Module ComponentFacts.
Import StructureFacts.

(** A search whose body returns returns a hit of the body. *)
Lemma search_returns {A B} (body : A -> res (option B)) xs :
  (forall x, In x xs -> returns (body x)) ->
  yields (search body xs) (fun r => forall y, r = Some y -> exists x, In x xs /\ body x = Ok (Some y)).
Proof.
  induction xs as [|x xs IH]; intros Hb; cbn [search]; [by apply yields_ret|].
  destruct (Hb x (or_introl eq_refl)) as [r Er]. rewrite Er. cbn [mbind res_bind]. destruct r as [y|].
  - apply yields_ret. intros y' [= <-]. exists x. split; [by left|done].
  - eapply yields_weaken; [apply IH; intros; apply Hb; by right|]. intros r Hr y Hy.
    destruct (Hr y Hy) as (z & Hz & E). exists z. split; [by right|done].
Qed.

Lemma collect_all {A B} (body : A -> res (option B)) (Q : B -> Prop) xs :
  (forall x, In x xs -> yields (body x) (fun r => forall y, r = Some y -> Q y)) -> yields (collect body xs) (Forall Q).
Proof.
  intros Hb. eapply yields_weaken; [apply (collect_spec body (fun _ r => forall y, r = Some y -> Q y)); done|].
  intros ys (f & -> & Hf). apply List.Forall_forall. intros y Hy. apply omap_In in Hy as (x & Hx & E). by apply (Hf x Hx).
Qed.

Lemma res_filter_returns {A} (f : A -> res bool) xs :
  (forall x, In x xs -> returns (f x)) -> yields (res_filter f xs) (fun ys => forall y, In y ys -> In y xs).
Proof.
  induction xs as [|x xs IH]; intros Hf; cbn [res_filter]; [by apply yields_ret|].
  destruct (Hf x (or_introl eq_refl)) as [b ->]. cbn [mbind res_bind].
  destruct IH as (ys & -> & Hys); [intros; apply Hf; by right|]. apply yields_ret.
  destruct b; simpl; intros y; [intros [->|Hy]|intros Hy]; auto.
Qed.

Section Sequence.
Context (q : CandleSequence.t) `{Analysable q}.
Abbreviation v := (CandleSequence.candles q).

Lemma sequence_candle i : 0 <= i < py_len v -> exists c, py_index v i = Ok c /\ Candle.wf c /\ Candle.finite c.
Proof.
  intros Hi. destruct (py_index_in_range v i Hi) as (c & E & Ec). exists c. split; [done|].
  by apply (PatternFacts.an_at q _ c Ec).
Qed.

Lemma marubozu_any (m : MarubozuAnalyzer.t) c tf :
  Candle.wf c -> Candle.finite c ->
  returns (MarubozuAnalyzer.is_bullish_marubozu_for_timeframe m c tf) /\
  returns (MarubozuAnalyzer.is_bearish_marubozu_for_timeframe m c tf) /\
  returns (MarubozuAnalyzer.is_bullish_marubozu m c) /\ returns (MarubozuAnalyzer.is_bearish_marubozu m c).
Proof.
  intros Hw Hf. pose proof (PatternFacts.marubozu_returns m c) as Hm.
  unfold MarubozuAnalyzer.is_bullish_marubozu_for_timeframe, MarubozuAnalyzer.is_bearish_marubozu_for_timeframe,
    MarubozuAnalyzer.is_bullish_marubozu, MarubozuAnalyzer.is_bearish_marubozu,
    MarubozuAnalyzer.is_marubozu, MarubozuAnalyzer.is_marubozu_for_timeframe.
  destruct (Candle.is_bullish c), (Candle.is_bearish c); split_and!; first [by apply Hm|by eexists].
Qed.

Lemma flip_test_spec m bullish level i :
  0 <= i < py_len v ->
  yields (flip_test m bullish q level i) (fun r => forall j c, r = Some (j, c) -> j = i /\ Candle.wf c /\ Candle.finite c).
Proof.
  intros Hi. unfold flip_test. destruct (sequence_candle i Hi) as (c & -> & Hw & Hf). cbn [mbind res_bind].
  destruct (marubozu_any m c (CandleSequence.timeframe q) Hw Hf) as ([b1 E1] & [b2 E2] & _).
  destruct bullish; [rewrite E1|rewrite E2]; cbn [mbind res_bind]; repeat case_match; apply yields_ret; intros j c' [=];
    by subst.
Qed.

Lemma find_flip_spec {A} `{SwingLevel A} m bullish (s : A) :
  0 <= lv_index s ->
  yields (find_flip m bullish q s) (fun r => forall j c, r = Some (j, c) -> 0 <= j < py_len v /\ Candle.wf c /\ Candle.finite c).
Proof.
  intros Hi. unfold find_flip. cbv zeta. destruct (_ <=? _); [by apply yields_ret|].
  eapply yields_weaken; [apply search_returns|].
  - intros i Hin. apply elem_of_py_range in Hin.
    destruct (flip_test_spec m bullish (lv_price s) i) as (r & E & _); [lia|]. by exists r.
  - intros r Hr j c ->. destruct (Hr _ eq_refl) as (i & Hin & E). apply elem_of_py_range in Hin.
    destruct (flip_test_spec m bullish (lv_price s) i) as (r & E' & Hs); [lia|]. rewrite E in E'. injection E' as <-.
    destruct (Hs _ _ eq_refl) as (-> & Hw & Hf). split; [lia|done].
Qed.

(** A flip: the level that flipped and the candle that broke it. *)
Definition flip_ok (f : float * Z) : Prop := fin (fst f) /\ 0 < fv (fst f) /\ 0 <= snd f < py_len v.

Lemma sr_flips_spec m lows :
  (forall s, In s lows -> level_ok s) ->
  yields (SRFlipDetector.detect_sr_flips m q lows) (Forall (fun f =>
    flip_ok (SRFlip.new_resistance_level f, SRFlip.breakout_candle_index f))).
Proof.
  intros Hok. apply collect_all. intros s Hs. destruct (Hok s Hs) as [Fs Ps Is]. unfold SRFlipDetector.flip_body.
  destruct (find_flip_spec m false s Is) as (r & -> & Hr). cbn [mbind res_bind].
  destruct r as [[i c]|]; [|by apply yields_ret]. destruct (Hr _ _ eq_refl) as (Hi & Hw & Hf).
  destruct (PatternFacts.an_prices c Hw Hf) as (_ & _ & _ & [Fc Pc]). cbn [lv_price SwingLow_level] in Fs, Ps.
  unfold SRFlip.create. rewrite symbol_field, !price_field, index_field by (done || lia). cbn [mbind res_bind].
  apply yields_ret. by intros f [= <-].
Qed.

Lemma rs_flips_spec m highs :
  (forall s, In s highs -> level_ok s) ->
  yields (RSFlipDetector.detect_rs_flips m q highs) (Forall (fun f =>
    flip_ok (RSFlip.new_support_level f, RSFlip.breakout_candle_index f))).
Proof.
  intros Hok. apply collect_all. intros s Hs. destruct (Hok s Hs) as [Fs Ps Is]. unfold RSFlipDetector.flip_body.
  destruct (find_flip_spec m true s Is) as (r & -> & Hr). cbn [mbind res_bind].
  destruct r as [[i c]|]; [|by apply yields_ret]. destruct (Hr _ _ eq_refl) as (Hi & Hw & Hf).
  destruct (PatternFacts.an_prices c Hw Hf) as (_ & _ & _ & [Fc Pc]). cbn [lv_price SwingHigh_level] in Fs, Ps.
  unfold RSFlip.create. rewrite symbol_field, !price_field, index_field by (done || lia). cbn [mbind res_bind].
  apply yields_ret. by intros f [= <-].
Qed.

Definition mpl_ok (m : MiniPriceLevel.t) : Prop := fin (MiniPriceLevel.level m) /\ 0 < fv (MiniPriceLevel.level m).

Lemma mpl_spec bullish i : yields (MPLDetector.detect_mpl bullish q i) (Forall mpl_ok).
Proof.
  unfold MPLDetector.detect_mpl. destruct (i <? 2); [by apply yields_ret|]. apply collect_all. intros k _.
  unfold MPLDetector.mpl_body. cbv zeta. destruct ((k <? 1) || (py_len v - 1 <=? k)) eqn:E; [by apply yields_ret|].
  apply orb_false_iff in E as [E1 E2]. zbool.
  destruct (sequence_candle k) as (c & -> & Hw & Hf); [lia|]. destruct (sequence_candle (k - 1)) as (c1 & -> & _); [lia|].
  destruct (sequence_candle (k + 1)) as (c2 & -> & _); [lia|]. cbn [mbind res_bind].
  destruct (if bullish then _ else _); [|by apply yields_ret].
  destruct (PatternFacts.an_prices c Hw Hf) as (_ & [Fh Ph] & [Fl Pl] & _).
  assert (Hp : fin (if bullish then Candle.low c else Candle.high c) /\ 0 < fv (if bullish then Candle.low c else Candle.high c))
    by (by destruct bullish). destruct Hp as [Fp Pp].
  unfold MiniPriceLevel.create. rewrite symbol_field, price_field, index_field by (done || lia). cbn [mbind res_bind].
  apply yields_ret. by intros m [= <-].
Qed.

Lemma breakout_spec m level d i :
  -1 <= i ->
  yields (FakeoutDetector.check_fakeout_broken_by_marubozu m q level d i)
    (fun r => forall j, r = Some j -> 0 <= j < py_len v).
Proof.
  intros Hi. unfold FakeoutDetector.check_fakeout_broken_by_marubozu.
  assert (Hb : forall j, 0 <= j < py_len v -> exists b, (candle ← py_index v j;
      b ← FakeoutDetector.breaks_fakeout m d level candle; Ok (if b : bool then Some j else None)) =
      Ok (if b : bool then Some j else None)).
  { intros j Hj. destruct (sequence_candle j Hj) as (c & -> & Hw & Hf). cbn [mbind res_bind]. unfold FakeoutDetector.breaks_fakeout.
    destruct (marubozu_any m c (CandleSequence.timeframe q) Hw Hf) as (_ & _ & [b1 E1] & [b2 E2]).
    case_bool_decide; [rewrite E1|rewrite E2]; cbn [mbind res_bind]; by eexists. }
  eapply yields_weaken; [apply search_returns|].
  - intros j Hj. apply elem_of_py_range in Hj. destruct (Hb j) as [b E]; [lia|]. rewrite E. by eexists.
  - intros r Hr j ->. destruct (Hr _ eq_refl) as (k & Hk & E). apply elem_of_py_range in Hk.
    destruct (Hb k) as [b E']; [lia|]. rewrite E' in E. destruct b; [|done]. injection E as <-. lia.
Qed.

(** The compression test of any part of the sequence. *)
Lemma compression_returns (a : CompressionAnalyzer.t) s e symbol :
  1 <= CompressionAnalyzer.min_candles a ->
  returns (CompressionAnalyzer.is_compression a (py_slice v s e) symbol).
Proof.
  intros Hm. unfold CompressionAnalyzer.is_compression.
  destruct (Z.ltb_spec (py_len (py_slice v s e)) (CompressionAnalyzer.min_candles a)); [by eexists|].
  assert (Hc : forall c, In c (py_slice v s e) -> Candle.wf c /\ Candle.finite c)
    by (intros c Hc; apply an_candles; by eapply py_slice_In).
  destruct (py_slice v s e) as [|c0 l] eqn:El; [unfold py_len in *; simpl in *; lia|]. rewrite <- El in *.
  assert (Hlist : forall (f : Candle.t -> float) (g : float -> float -> bool),
    exists x, py_max g (map f (py_slice v s e)) = Ok x /\ In x (map f (py_slice v s e))).
  { intros f g. rewrite El. cbn [map py_max]. eexists. split; [done|]. apply (py_max_In g (f c0 :: map f l)). done. }
  destruct (Hlist Candle.low (fun x y => flt x y)) as (lo & Elo & Hlo).
  destruct (Hlist Candle.high (fun x y => flt y x)) as (hi & Ehi & Hhi).
  unfold fmin_list, fmax_list. rewrite Elo, Ehi. cbn [mbind res_bind].
  apply in_map_iff in Hlo as (c1 & <- & H1). apply in_map_iff in Hhi as (c2 & <- & H2).
  destruct (Hc c1 H1) as [Hw1 Hf1], (Hc c2 H2) as [Hw2 Hf2].
  destruct (PatternFacts.an_prices c1 Hw1 Hf1) as (_ & _ & [F1 P1] & _).
  destruct (PatternFacts.an_prices c2 Hw2 Hf2) as (_ & [F2 P2] & _).
  destruct (PatternFacts.pips_yields (Candle.low c1) (Candle.high c2) symbol) as (p & -> & _); [done|done|lia|lia|].
  by eexists.
Qed.
End Sequence.
End ComponentFacts.

(** ** Builders *)

Module BuilderFacts.
Import StructureFacts ComponentFacts FibFacts.

Lemma level_price_guard r level :
  retr_ok r -> exists p, FibonacciRetracement.get_level_price r level = Ok p /\ flt p fzero = false.
Proof.
  intros Hr. destruct (fib_get_Some level) as (x & E & Fx & Bx). rewrite (get_level_price_eq r _ _ E).
  destruct (part_facts r x Hr Fx Bx) as [FP HP]. destruct Hr as [Fh Fl Hp Ho].
  pose proof (fsub_le_l (FibonacciRetracement.swing_high r) (FibonacciRetracement.swing_low r) Fh Fl ltac:(lia)) as Hle.
  fold (FibonacciRetracement.range_size r) in Hle.
  eexists. split; [done|]. destruct (FibonacciRetracement.is_bullish r).
  - rewrite flt_fv, fv_fzero by auto with etradie. apply Z.ltb_ge, fsub_nonneg; [done|done|lia].
  - rewrite flt_fv, fv_fzero by auto with etradie. apply Z.ltb_ge.
    pose proof (fadd_ge_l _ _ Fl FP ltac:(lia)). lia.
Qed.

Lemma alignment_returns cfg price retracement :
  flt price fzero = false -> (forall r, retracement = Some r -> retr_ok r) ->
  returns (LTFConfirmationValidator.check_fibonacci_alignment cfg price retracement).
Proof.
  intros Hp Hr. unfold LTFConfirmationValidator.check_fibonacci_alignment. destruct retracement as [r|]; [|by eexists].
  specialize (Hr r eq_refl). unfold FibonacciAnalyzer.get_nearest_fib_level, FibonacciRetracement.get_all_levels.
  destruct (levels_of_Ok r (map fst FIBONACCI_VALUES)) as (l & -> & _). cbn [mbind res_bind].
  destruct l as [|x l]; cbn [mbind res_bind]; [by eexists|].
  destruct (fst (foldl _ _ _)) as [level|]; [|by eexists].
  destruct (level_price_guard r level Hr) as (p & -> & Hg). cbn [mbind res_bind].
  destruct (feq p fzero); [by eexists|].
  destruct (PreviousFacts.pips_returns price p (FibonacciRetracement.symbol r) Hp Hg) as [d ->]. by eexists.
Qed.

Lemma fib_level_returns b price r : retr_ok r -> returns (SnDBuilder._get_fib_level b price r).
Proof.
  intros Hr. unfold SnDBuilder._get_fib_level. cbv zeta.
  destruct (for_each_list (SnDBuilder.fib_step r price
      (fmul (SnDConfig.fibonacci_tolerance_pips (SnDBuilder.config b)) (pip_float (FibonacciRetracement.symbol r))))
      (fun _ _ => True) OTE_LEVELS (None, finf)) as ([best d] & -> & _); [done| |].
  - intros pre level rest acc _ _. unfold SnDBuilder.fib_step. destruct (level_price_guard r level Hr) as (p & -> & _).
    by eexists.
  - cbn [mbind res_bind]. destruct best as [level|]; [|by eexists].
    destruct (fib_get_Some level) as (x & -> & _). by eexists.
Qed.

Lemma quality_returns cfg bullish c :
  Candle.wf c -> Candle.finite c -> returns (MarubozuValidator.validate_marubozu cfg bullish c).
Proof.
  intros Hw Hf. unfold MarubozuValidator.validate_marubozu. destruct (negb _); [by eexists|].
  destruct (PatternFacts.body_percentage_yields c Hw Hf) as (p & -> & _). cbn [mbind res_bind].
  destruct (flt _ _); [by eexists|]. cbv zeta. destruct (feq _ fzero) eqn:E; [by eexists|].
  unfold fdiv. rewrite E. cbn [mbind res_bind]. by eexists.
Qed.

(** The levels that come back are valid: positive and in order. *)
Lemma levels_geometry symbol d entry extreme buffer rr tf l :
  compute_trade_levels symbol d entry extreme buffer rr tf = Ok (Some l) ->
  TradeLevels.entry_price l = entry /\
  _validate_geometry d entry (TradeLevels.stop_loss l) (TradeLevels.take_profit l) (TradeLevels.risk l) = true.
Proof.
  unfold compute_trade_levels. intros E.
  destruct (negb _); [done|]. destruct (negb _); [done|]. apply bind_Ok in E as (r & _ & E).
  destruct (negb _); [done|]. destruct (match extreme with Some _ => _ | None => _ end); [done|].
  destruct (negb _); [done|]. cbv zeta in E. apply bind_Ok in E as (s & _ & E).
  destruct (_validate_geometry _ _ _ _ _) eqn:G in E; [|done]. by injection E as <-.
Qed.

Lemma geometry_sound d entry stop target risk :
  _validate_geometry d entry stop target risk = true ->
  flt fzero entry = true /\ flt fzero stop = true /\ flt fzero target = true /\
  if bool_decide (d = BEARISH) then flt target entry = true /\ flt entry stop = true
  else flt stop entry = true /\ flt entry target = true.
Proof.
  unfold _validate_geometry, _is_positive_finite. rewrite !andb_true_iff.
  intros [[[[[_ ?] [_ ?]] [_ ?]] _] Ho]. case_bool_decide; by apply andb_true_iff in Ho.
Qed.

Lemma py_index_last_nonempty {A} (l : list A) : 1 <= py_len l -> returns (py_index l (-1)).
Proof.
  intros Hl. destruct (list_eq_nil_dec l) as [->|Hn]; [unfold py_len in Hl; simpl in Hl; lia|].
  destruct (exists_last Hn) as (l' & x & ->). exists x. apply py_index_last.
Qed.

(** The fields of a candidate that pass its validation. *)
Record fields_ok (c : SnDCandidate.t) : Prop := {
  fo_symbol : SequenceFacts.symbol_stable (SnDCandidate.symbol c);
  fo_entry : flt fzero (SnDCandidate.entry_price c) = true;
  fo_stop : flt fzero (SnDCandidate.stop_loss c) = true;
  fo_prices : Forall CandidateFacts.opt_pos
    [SnDCandidate.take_profit c; SnDCandidate.qml_price c; SnDCandidate.sr_flip_price c; SnDCandidate.rs_flip_price c;
     SnDCandidate.mpl_price c; SnDCandidate.supply_zone_upper c; SnDCandidate.supply_zone_lower c;
     SnDCandidate.demand_zone_upper c; SnDCandidate.demand_zone_lower c; SnDCandidate.fakeout_level c];
  fo_highs : 0 <= SnDCandidate.previous_highs_count c; fo_lows : 0 <= SnDCandidate.previous_lows_count c;
  fo_count : SnDCandidate.compression_candle_count c = None }.

Lemma create_accepts c : fields_ok c -> SnDCandidate.create c = Ok c.
Proof.
  intros [Hs He Hl Hp H1 H2 H3]. repeat (apply Forall_cons in Hp as [? Hp]). unfold SnDCandidate.create.
  rewrite CandidateFacts.symbol_2_20_stable, !field_gt0_intro, !CandidateFacts.opt_gt0_intro, !index_field, H3 by done.
  destruct c. cbn in *. by subst.
Qed.

(** A candidate that can be traded: positive prices, the stop on the losing side
    and the target on the winning side. *)
Record sound (bullish : bool) (tf : Timeframe) (c : SnDCandidate.t) : Prop := {
  sn_direction : SnDCandidate.direction c = direction_of bullish;
  sn_timeframe : SnDCandidate.timeframe c = tf;
  sn_levels : exists tp, SnDCandidate.take_profit c = Some tp /\
    let e := SnDCandidate.entry_price c in
    let s := SnDCandidate.stop_loss c in
    if bullish then flt fzero s = true /\ flt s e = true /\ flt e tp = true
    else flt fzero tp = true /\ flt tp e = true /\ flt e s = true }.

Definition found (bullish : bool) (tf : Timeframe) (r : option SnDCandidate.t) : Prop :=
  forall c, r = Some c -> sound bullish tf c.

Section Build.
Context (b : SnDBuilder.t) (bullish : bool) (htf ltf : CandleSequence.t) `{Analysable ltf}.
Context (Hsym : SequenceFacts.symbol_stable (CandleSequence.symbol ltf))
  (Hcomp : 1 <= CompressionAnalyzer.min_candles (SnDBuilder.compression_analyzer b)).
Abbreviation v := (CandleSequence.candles ltf).

(** The evidence around one flip. *)
Context (flip : float) (tests : list FakeoutTest.t) (breakout : option Z) (retracement : option FibonacciRetracement.t).
Context (Fflip : fin flip) (Pflip : 0 < fv flip)
  (Htests : Forall (fun t => exists c, FakeoutFacts.test_of bullish ltf flip t c) tests)
  (Hbreak : forall j, breakout = Some j -> 0 <= j < py_len v)
  (Hretr : forall r, retracement = Some r -> retr_ok r).

Lemma zone_compression_returns :
  returns (LTFConfirmationValidator.validate_compression_at_zone (SnDBuilder.config b)
    (SnDBuilder.compression_analyzer b) ltf tests).
Proof.
  unfold LTFConfirmationValidator.validate_compression_at_zone. destruct (last tests); [|by eexists].
  cbv zeta. destruct (_ <? _); [by eexists|]. by apply compression_returns.
Qed.

Lemma check_compression_returns : returns (SnDBuilder._check_compression b ltf tests).
Proof. pose proof zone_compression_returns. unfold SnDBuilder._check_compression. by destruct tests; [eexists|]. Qed.

Lemma decision_returns d : returns (LTFConfirmationValidator.validate_decision_point ltf tests d).
Proof.
  unfold LTFConfirmationValidator.validate_decision_point. destruct (last tests) as [t|] eqn:El; [|by eexists].
  destruct (Z.leb_spec (py_len v) (FakeoutTest.candle_index t)); [by eexists|].
  assert (Ht : t ∈ tests) by (rewrite last_lookup in El; by eapply list_elem_of_lookup_2).
  destruct (proj1 (List.Forall_forall _ _) Htests t) as (c & []); [by apply list_elem_of_In|].
  destruct (sequence_candle ltf (FakeoutTest.candle_index t)) as (k & -> & _); [lia|]. by eexists.
Qed.

Lemma confirmations_return d price :
  flt price fzero = false ->
  returns (LTFConfirmationValidator.validate_all_ltf_confirmations (SnDBuilder.config b)
    (SnDBuilder.compression_analyzer b) ltf tests breakout d price retracement).
Proof.
  intros Hp. unfold LTFConfirmationValidator.validate_all_ltf_confirmations.
  destruct zone_compression_returns as [x ->]. cbn [mbind res_bind]. destruct (negb x); [by eexists|].
  destruct (negb _); [by eexists|]. destruct (decision_returns d) as [y ->]. cbn [mbind res_bind].
  destruct y; [|by eexists]. destruct (alignment_returns (SnDBuilder.config b) price retracement Hp Hretr) as [z ->].
  by eexists.
Qed.

Lemma validate_marubozu_returns d : returns (SnDBuilder._validate_marubozu b ltf breakout d).
Proof.
  unfold SnDBuilder._validate_marubozu. destruct breakout as [j|]; [|by eexists].
  destruct (_ <=? _); [by eexists|]. destruct (sequence_candle ltf j) as (c & -> & Hw & Hf); [by apply Hbreak|].
  cbn [mbind res_bind]. unfold MarubozuValidator.validate_bearish_marubozu, MarubozuValidator.validate_bullish_marubozu.
  case_bool_decide; [destruct (quality_returns (SnDBuilder.config b) false c Hw Hf) as [x ->]|
    destruct (quality_returns (SnDBuilder.config b) true c Hw Hf) as [x ->]]; by eexists.
Qed.

Lemma fib_bonus_returns price : flt price fzero = false -> returns (SnDBuilder.fib_bonus b price retracement).
Proof.
  intros Hp. unfold SnDBuilder.fib_bonus.
  destruct (alignment_returns (SnDBuilder.config b) price retracement Hp Hretr) as [x ->]. by eexists.
Qed.

Lemma pos_flt x : fin x -> 0 < fv x -> flt fzero x = true.
Proof. intros F P. rewrite flt_fv, fv_fzero by auto with etradie. by apply Z.ltb_lt. Qed.

Lemma assemble_spec pattern qm touches mpl zone entry extreme count metadata :
  (forall e, qm = Some e -> QMFacts.qm_ok e) -> (forall m, mpl = Some m -> mpl_ok m) -> 0 <= touches ->
  flt zone fzero = false -> returns count ->
  yields (SnDBuilder.assemble b bullish pattern htf ltf qm flip tests breakout touches mpl retracement zone entry
    extreme count metadata) (found bullish (CandleSequence.timeframe ltf)).
Proof.
  intros Hqm Hmpl Ht Hzone [n En]. unfold SnDBuilder.assemble. cbv zeta.
  destruct (confirmations_return (direction_of bullish) zone Hzone) as [conf ->]. cbn [mbind res_bind].
  rewrite En. cbn [mbind res_bind].
  destruct (validate_marubozu_returns (direction_of bullish)) as [[mv mts] ->]. cbn [mbind res_bind].
  destruct (LevelFacts.levels_return (CandleSequence.symbol ltf) (direction_of bullish) entry extreme
    (SnDConfig.previous_level_tolerance_pips (SnDBuilder.config b)) None (Some (CandleSequence.timeframe ltf)))
    as [levels El]. rewrite El. cbn [mbind res_bind]. destruct levels as [l|]; [|by apply yields_ret].
  destruct (levels_geometry _ _ _ _ _ _ _ _ El) as [Ee G].
  destruct (py_index_last_nonempty v (PatternFacts.an_nonempty ltf)) as [k ->]. cbn [mbind res_bind].
  destruct check_compression_returns as [comp ->]. cbn [mbind res_bind].
  assert (exists f, match retracement with Some r => SnDBuilder._get_fib_level b (TradeLevels.entry_price l) r
    | None => Ok None end = Ok f) as [f ->].
  { destruct retracement as [r|]; [by apply fib_level_returns, Hretr|by eexists]. }
  cbn [mbind res_bind]. destruct (geometry_sound _ _ _ _ _ G) as (Pe & Ps & Pt & Hord).
  match goal with |- context [SnDCandidate.create ?c] => assert (F : fields_ok c) end.
  { constructor; cbn [SnDCandidate.symbol SnDCandidate.entry_price SnDCandidate.stop_loss SnDCandidate.previous_highs_count
      SnDCandidate.previous_lows_count SnDCandidate.compression_candle_count]; rewrite ?Ee; try done; [|by destruct bullish..].
    repeat constructor; cbn; try done.
    - destruct qm as [e|]; [|done]. destruct (Hqm e eq_refl). by apply pos_flt.
    - destruct bullish; [done|by apply pos_flt].
    - destruct bullish; [by apply pos_flt|done].
    - destruct mpl as [m|]; [|done]. destruct (Hmpl m eq_refl). by apply pos_flt.
    - destruct (last tests) as [t|] eqn:El'; [|done]. cbn.
      assert (Hin : In t tests) by (apply list_elem_of_In; rewrite last_lookup in El'; by eapply list_elem_of_lookup_2).
      destruct (proj1 (List.Forall_forall _ _) Htests t Hin) as (c & [_ _ Hlev _ _ _]). rewrite Hlev. by apply pos_flt. }
  rewrite (create_accepts _ F). cbn [mbind res_bind]. apply yields_ret. intros c [= <-].
  constructor; [done|done|]. eexists. split; [done|]. cbn. rewrite Ee. by destruct bullish.
Qed.
End Build.
End BuilderFacts.

(** ** Detection *)

Module DetectionFacts.
Import StructureFacts ComponentFacts FibFacts BuilderFacts SnDDetector.

(** Analyzers in their documented ranges. *)
Record analyzers_ok (self : t) : Prop := {
  ao_left : 1 <= SwingAnalyzer.left_bars (swing_analyzer self);
  ao_right : 1 <= SwingAnalyzer.right_bars (swing_analyzer self);
  ao_tol : num (SwingAnalyzer.equal_tolerance_pips (swing_analyzer self));
  ao_tol_nonneg : 0 <= fv (SwingAnalyzer.equal_tolerance_pips (swing_analyzer self));
  ao_compression : 1 <= CompressionAnalyzer.min_candles (compression_analyzer self) }.

(** A sequence the detection can work on.  The candle models guarantee less: they
    also accept two-character symbols, symbols that stripping blanks would change, and
    infinite prices. *)
Class Detectable (q : CandleSequence.t) : Prop := {
  de_analysable :: Analysable q;
  de_symbol : SequenceFacts.symbol_stable (CandleSequence.symbol q);
  de_candles : forall c, In c (CandleSequence.candles q) ->
    SequenceFacts.symbol_stable (Candle.symbol c) /\ 3 <= str_len (Candle.symbol c) }.

Definition named (s : string) : Prop := SequenceFacts.symbol_stable s /\ 3 <= str_len s.

Section Swings.
Context (self : t) (Hself : analyzers_ok self) (q : CandleSequence.t) `{Detectable q}.
Abbreviation v := (CandleSequence.candles q).

Lemma swing_input l r :
  SwingAnalyzer._get_effective_bars (swing_analyzer self) q = (l, r) -> SwingFacts.input_ok (swing_analyzer self) v l r.
Proof.
  intros E. destruct Hself.
  assert (Hlr : 1 <= l /\ 1 <= r).
  { unfold SwingAnalyzer._get_effective_bars in E.
    destruct (SwingAnalyzer._HTF_BAR_OVERRIDES (CandleSequence.timeframe q)) as [[l' r']|] eqn:Eo.
    - destruct (CandleSequence.timeframe q); cbn in Eo; simplify_eq; lia.
    - simplify_eq. done. }
  constructor; [apply Hlr|apply Hlr|done|done|]. intros c Hc. destruct (an_candles c Hc) as [Hw Hf].
  destruct (de_candles c Hc) as [(Es & _ & Hl) H3]. split; [done|]. split; [done|]. rewrite Es. lia.
Qed.

Definition swing_ok {A} `{SwingLevel A} (symbol : A -> string) (s : A) : Prop := level_ok s /\ named (symbol s).

Lemma extremes_range is_high l r i a b : In i (SwingFacts.extremes is_high v l r a b) -> a <= i.
Proof. unfold SwingFacts.extremes. rewrite filter_In, elem_of_py_range. lia. Qed.

Lemma candle_named c : In c v -> named (normalize_symbol (str_strip (Candle.symbol c))).
Proof. intros Hc. destruct (de_candles c Hc) as [(Es & En & Hl) H3]. rewrite Es, En. by split. Qed.

Lemma highs_spec :
  yields (SwingAnalyzer.detect_swing_highs (swing_analyzer self) q) (Forall (swing_ok SwingHigh.symbol)).
Proof.
  destruct (SwingAnalyzer._get_effective_bars (swing_analyzer self) q) as [l r] eqn:Eb.
  pose proof (swing_input l r Eb) as Hin. destruct (SwingFacts.detect_highs_spec _ _ l r Eb Hin) as (hs & E & Ei & F).
  exists hs. split; [done|]. apply List.Forall_forall. intros s Hs.
  assert (Hidx : l <= SwingHigh.index s) by (eapply extremes_range; rewrite <- Ei; by apply in_map).
  destruct (proj1 (List.Forall_forall _ _) F s Hs) as (c & Ec & Ep & _ & _ & _ & _ & _ & _ & Esym).
  assert (Hc : In c v) by (apply list_elem_of_In; by eapply list_elem_of_lookup_2).
  destruct (an_candles c Hc) as [Hw Hf]. destruct (PatternFacts.an_prices c Hw Hf) as (_ & [Fh Ph] & _).
  split; [|rewrite Esym; by apply candle_named].
  destruct Hin. constructor; cbn [lv_price lv_index SwingHigh_level]; rewrite ?Ep; done || lia.
Qed.

Lemma lows_spec :
  yields (SwingAnalyzer.detect_swing_lows (swing_analyzer self) q) (Forall (swing_ok SwingLow.symbol)).
Proof.
  destruct (SwingAnalyzer._get_effective_bars (swing_analyzer self) q) as [l r] eqn:Eb.
  pose proof (swing_input l r Eb) as Hin. destruct (SwingFacts.detect_lows_spec _ _ l r Eb Hin) as (hs & E & Ei & F).
  exists hs. split; [done|]. apply List.Forall_forall. intros s Hs.
  assert (Hidx : l <= SwingLow.index s) by (eapply extremes_range; rewrite <- Ei; by apply in_map).
  destruct (proj1 (List.Forall_forall _ _) F s Hs) as (c & Ec & Ep & _ & _ & _ & _ & _ & _ & Esym).
  assert (Hc : In c v) by (apply list_elem_of_In; by eapply list_elem_of_lookup_2).
  destruct (an_candles c Hc) as [Hw Hf]. destruct (PatternFacts.an_prices c Hw Hf) as (_ & _ & [Fh Ph] & _).
  split; [|rewrite Esym; by apply candle_named].
  destruct Hin. constructor; cbn [lv_price lv_index SwingLow_level]; rewrite ?Ep; done || lia.
Qed.
End Swings.

Lemma retracement_spec highs lows :
  Forall (swing_ok SwingHigh.symbol) highs -> Forall (swing_ok SwingLow.symbol) lows ->
  yields (_create_fibonacci_retracement highs lows) (fun r => forall x, r = Some x -> retr_ok x).
Proof.
  intros Hh Hl. unfold _create_fibonacci_retracement.
  destruct (SwingAnalyzer.get_latest_swing_high highs) as [h|] eqn:Eh; [|by apply yields_ret].
  destruct (SwingAnalyzer.get_latest_swing_low lows) as [l|] eqn:El; [|by apply yields_ret].
  destruct (fle _ _) eqn:Ele; [by apply yields_ret|].
  apply py_max_opt_In in Eh, El.
  destruct (proj1 (List.Forall_forall _ _) Hh h Eh) as [[Fh Ph _] [Hs H3]].
  destruct (proj1 (List.Forall_forall _ _) Hl l El) as [[Fl Pl _] _].
  cbn [lv_price SwingHigh_level SwingLow_level] in *.
  unfold FibonacciAnalyzer.create_retracement, FibonacciRetracement.create.
  rewrite SwingFacts.symbol_3_30_intro by (destruct Hs as (-> & _ & ?); lia).
  rewrite !price_field by done. cbn [mbind res_bind]. unfold FibonacciRetracement.model_post_init. cbn.
  rewrite Ele. cbn. apply yields_ret. intros x [= <-]. rewrite fle_fv in Ele by auto with etradie. zbool.
  by constructor.
Qed.

Section Candidates.
Context (self : t) (Hself : analyzers_ok self) (bullish : bool) (htf ltf : CandleSequence.t)
  `{Detectable htf} `{Detectable ltf}.
Context (retracement : option FibonacciRetracement.t) (Hretr : forall r, retracement = Some r -> retr_ok r).
Abbreviation sound_here := (sound bullish (CandleSequence.timeframe ltf)).

Lemma qm_guard qm : QMFacts.qm_ok qm -> flt (QuasiModoLevel.level qm) fzero = false.
Proof. intros []. apply price_guard; [done|lia]. Qed.

(** The next guard of a builder. *)
Ltac reject := match goal with |- yields (if ?b then Ok None else _) _ => destruct b; [by apply yields_ret|] end.

Section Flip.
Context (flip : float) (index : Z) (Hflip : flip_ok ltf (flip, index)) (tests : list FakeoutTest.t)
  (breakout : option Z).
Context (Htests : Forall (fun t => exists c, FakeoutFacts.test_of bullish ltf flip t c) tests)
  (Hbreak : forall j, breakout = Some j -> 0 <= j < py_len (CandleSequence.candles ltf)).

(** Every builder returns, and what it builds is sound. *)
Lemma assembled pattern qm touches mpl zone entry extreme count metadata :
  (forall e, qm = Some e -> QMFacts.qm_ok e) -> (forall m, mpl = Some m -> mpl_ok m) -> 0 <= touches ->
  flt zone fzero = false -> returns count ->
  yields (SnDBuilder.assemble (builder self) bullish pattern htf ltf qm flip tests breakout touches mpl retracement
    zone entry extreme count metadata) (found bullish (CandleSequence.timeframe ltf)).
Proof.
  destruct Hflip as (Ff & Pf & _). apply assemble_spec; try done; [apply _|apply de_symbol|apply Hself].
Qed.

Lemma bonus_then {A} price (f : Z -> res A) :
  flt price fzero = false -> (forall n, returns (f n)) ->
  returns (bonus ← SnDBuilder.fib_bonus (builder self) price retracement; f bonus).
Proof.
  intros Hp Hf. destruct (fib_bonus_returns (builder self) retracement Hretr price Hp) as [n ->]. apply Hf.
Qed.

Lemma baseline_spec qm : QMFacts.qm_ok qm ->
  yields (QMCandidateBuilder.build_qm_baseline (builder self) bullish htf ltf qm flip tests breakout retracement)
    (found bullish (CandleSequence.timeframe ltf)).
Proof.
  intros Hq. unfold QMCandidateBuilder.build_qm_baseline. repeat reject.
  apply assembled; [by intros e [= <-]|done|done|by apply qm_guard|].
  apply bonus_then; [by apply qm_guard|by eexists].
Qed.

Lemma killer_spec qm n mpl : QMFacts.qm_ok qm -> 0 <= n -> (forall m, mpl = Some m -> mpl_ok m) ->
  yields (QMCandidateBuilder.build_qm_killer_setup (builder self) bullish htf ltf qm flip tests breakout n mpl retracement)
    (found bullish (CandleSequence.timeframe ltf)).
Proof.
  intros Hq Hn Hm. unfold QMCandidateBuilder.build_qm_killer_setup. repeat reject.
  apply assembled; [by intros e [= <-]|done|done|by apply qm_guard|].
  apply bonus_then; [by apply qm_guard|by eexists].
Qed.

Lemma king_spec n : 0 <= n ->
  yields (FakeoutCandidateBuilder.build_fakeout_king (builder self) bullish htf ltf flip tests breakout (Some n) retracement)
    (found bullish (CandleSequence.timeframe ltf)).
Proof.
  intros Hn. destruct Hflip as (Ff & Pf & _).
  assert (Hg : flt flip fzero = false) by (apply price_guard; [done|cbn in Pf; lia]).
  unfold FakeoutCandidateBuilder.build_fakeout_king. reject.
  apply assembled; [done|done|done|done|]. by apply bonus_then; [|eexists].
Qed.

Lemma continuation_spec qm n : QMFacts.qm_ok qm -> 0 <= n ->
  yields (ContinuationCandidateBuilder.build_continuation (builder self) bullish htf ltf qm flip tests breakout (Some n)
    retracement) (found bullish (CandleSequence.timeframe ltf)).
Proof.
  intros Hq Hn. unfold ContinuationCandidateBuilder.build_continuation.
  repeat reject.
  apply assembled; [by intros e [= <-]|done|done|by apply qm_guard|].
  apply bonus_then; [by apply qm_guard|by eexists].
Qed.
End Flip.

Lemma collected {A} (body : A -> res (option SnDCandidate.t)) xs :
  (forall x, In x xs -> yields (body x) (found bullish (CandleSequence.timeframe ltf))) ->
  yields (collect body xs) (Forall sound_here).
Proof. intros Hb. by apply collect_all. Qed.

(** An enabled family, or nothing. *)
Lemma enabled (on : bool) (m : res (list SnDCandidate.t)) :
  yields m (Forall sound_here) -> yields (if on then m else Ok []) (Forall sound_here).
Proof. intros Hm. destruct on; [done|]. apply yields_ret. constructor. Qed.

Lemma flip_candidates_spec {A} qm (matching : list (PreviousHighsLows.t A)) flip index :
  QMFacts.qm_ok qm -> (forall c, In c matching -> 0 <= PreviousHighsLows.touch_count c) ->
  flip_ok ltf (flip, index) ->
  yields (flip_candidates self bullish htf ltf qm matching retracement flip index) (Forall sound_here).
Proof.
  intros Hq Hm Hf. unfold flip_candidates. cbv zeta. pose proof Hf as (_ & _ & Hi). cbn [snd] in Hi.
  assert (Ht : forall n, In n (map PreviousHighsLows.touch_count matching) -> 0 <= n)
    by (intros n Hn; apply in_map_iff in Hn as (c & <- & Hc); auto).
  destruct (FakeoutFacts.fakeouts_returns bullish ltf flip index) as (tests & -> & Htests); [apply _|lia|].
  cbn [mbind res_bind]. destruct (last tests) as [t|] eqn:El; [|apply yields_ret; constructor].
  assert (Hin : In t tests) by (apply list_elem_of_In; rewrite last_lookup in El; by eapply list_elem_of_lookup_2).
  destruct (proj1 (List.Forall_forall _ _) Htests t Hin) as (ct & [Hidx _ _ _ _ _]).
  destruct (breakout_spec ltf (marubozu_analyzer self) flip (direction_of bullish) (FakeoutTest.candle_index t))
    as (br & -> & Hbr); [lia|]. cbn [mbind res_bind].
  destruct (mpl_spec htf bullish (default 0 (if bullish then QuasiModoLevel.ll_index qm else QuasiModoLevel.hh_index qm)))
    as (mpls & -> & Hmpl). cbn [mbind res_bind].
  assert (Hhead : forall m, head mpls = Some m -> mpl_ok m).
  { intros m Em. destruct mpls as [|m' mpls]; [done|]. injection Em as ->. by apply Forall_cons in Hmpl as [? _]. }
  destruct (enabled (SnDConfig.enable_qml_baseline (config self)) (option_list <$>
    QMCandidateBuilder.build_qm_baseline (builder self) bullish htf ltf qm flip tests br retracement)) as (c1 & -> & F1).
  { apply yields_fmap. eapply yields_weaken; [by eapply baseline_spec|]. intros [c|] Hc; [|constructor].
    constructor; [by apply Hc|constructor]. }
  cbn [mbind res_bind].
  destruct (enabled (SnDConfig.enable_qml_previous_levels_type1 (config self)
    || SnDConfig.enable_qml_previous_levels_type2 (config self)) (collect (fun n =>
      QMCandidateBuilder.build_qm_killer_setup (builder self) bullish htf ltf qm flip tests br n (head mpls) retracement)
      (map PreviousHighsLows.touch_count matching))) as (c2 & -> & F2).
  { apply collected. intros n Hn. by eapply killer_spec; eauto. }
  cbn [mbind res_bind].
  destruct (enabled (SnDConfig.enable_fakeout_king (config self)) (collect (fun n =>
      FakeoutCandidateBuilder.build_fakeout_king (builder self) bullish htf ltf flip tests br (Some n) retracement)
      (map PreviousHighsLows.touch_count matching))) as (c3 & -> & F3).
  { apply collected. intros n Hn. by eapply king_spec; eauto. }
  cbn [mbind res_bind].
  destruct (enabled (2 <=? py_len tests) (collect (fun n =>
      ContinuationCandidateBuilder.build_continuation (builder self) bullish htf ltf qm flip tests br (Some n) retracement)
      (map PreviousHighsLows.touch_count matching))) as (c4 & -> & F4).
  { apply collected. intros n Hn. by eapply continuation_spec; eauto. }
  cbn [mbind res_bind]. apply yields_ret. by rewrite !Forall_app.
Qed.

Lemma concat_Forall {A B} (f : A -> res (list B)) (Q : B -> Prop) xs :
  (forall x, In x xs -> yields (f x) (Forall Q)) -> yields ((@List.concat B) <$> res_map f xs) (Forall Q).
Proof.
  intros Hf. apply yields_fmap. eapply yields_weaken; [by apply (res_map_Forall f (Forall Q))|].
  intros ls Hl. by apply List.Forall_concat.
Qed.

Lemma qm_candidates_spec {A} `{SwingLevel A} (swings : list A) qms (previous : list (PreviousHighsLows.t A)) flips d :
  Forall QMFacts.qm_ok qms -> (forall s, In s swings -> level_ok s) ->
  Forall (fun c => exists seed others, PreviousFacts.cluster_of (config self) swings (CandleSequence.symbol htf) d c seed
    others) previous ->
  Forall (flip_ok ltf) flips ->
  yields (qm_candidates self bullish htf ltf qms previous flips retracement) (Forall sound_here).
Proof.
  intros Hq Hs Hp Hf. apply concat_Forall. intros qm Hin. pose proof (proj1 (List.Forall_forall _ _) Hq qm Hin) as Hqm.
  unfold PreviousLevelDetector.find_previous_at.
  eapply yields_bind; [apply res_filter_returns|].
  - intros c Hc. destruct (proj1 (List.Forall_forall _ _) Hp c Hc) as (seed & others & Hcl).
    apply PreviousFacts.within_returns; [by eapply PreviousFacts.cluster_level|by apply qm_guard].
  - intros matching Hm. apply concat_Forall. intros [flip index] Hfi.
    apply flip_candidates_spec; [done| |by apply (proj1 (List.Forall_forall _ _) Hf)].
    intros c Hc. destruct (proj1 (List.Forall_forall _ _) Hp c (Hm c Hc)) as (seed & others & []).
    rewrite cl_count. pose proof (py_len_nonneg others). lia.
Qed.
End Candidates.

Lemma ok_levels {A} `{SwingLevel A} (symbol : A -> string) l : Forall (swing_ok symbol) l -> forall s, In s l -> level_ok s.
Proof. intros F s Hs. by destruct (proj1 (List.Forall_forall _ _) F s Hs). Qed.

Lemma all_sound self htf ltf :
  analyzers_ok self -> Detectable htf -> Detectable ltf ->
  exists cands, detect_patterns self htf ltf = Ok (_select_best_per_direction cands) /\
    forall c, In c cands -> exists bullish, sound bullish (CandleSequence.timeframe ltf) c.
Proof.
  intros Hself Hh Hl. unfold detect_patterns. cbv zeta.
  destruct (negb _); [by exists []|].
  destruct (highs_spec self Hself htf) as (hh & -> & Fhh). cbn [mbind res_bind]. pose proof (ok_levels _ _ Fhh) as Lhh.
  destruct (lows_spec self Hself htf) as (hl & -> & Fhl). cbn [mbind res_bind]. pose proof (ok_levels _ _ Fhl) as Lhl.
  destruct (QMFacts.detect_qm_ok false htf hh hl Lhh Lhl) as (qmls & E & Fqml). unfold QMDetector.detect_qml. rewrite E.
  cbn [mbind res_bind]. clear E.
  destruct (QMFacts.detect_qm_ok true htf hl hh Lhl Lhh) as (qmhs & E & Fqmh). unfold QMDetector.detect_qmh. rewrite E.
  cbn [mbind res_bind]. clear E.
  destruct (PreviousFacts.previous_spec (config self) htf BEARISH hh Lhh) as (ph & E & Fph & _).
  unfold PreviousLevelDetector.detect_previous_highs. rewrite E. cbn [mbind res_bind]. clear E.
  destruct (PreviousFacts.previous_spec (config self) htf BULLISH hl Lhl) as (pl & E & Fpl & _).
  unfold PreviousLevelDetector.detect_previous_lows. rewrite E. cbn [mbind res_bind]. clear E.
  destruct (highs_spec self Hself ltf) as (lh & -> & Flh). cbn [mbind res_bind]. pose proof (ok_levels _ _ Flh) as Llh.
  destruct (lows_spec self Hself ltf) as (ll & -> & Fll). cbn [mbind res_bind]. pose proof (ok_levels _ _ Fll) as Lll.
  destruct (sr_flips_spec ltf (marubozu_analyzer self) ll Lll) as (srs & -> & Fsr). cbn [mbind res_bind].
  destruct (rs_flips_spec ltf (marubozu_analyzer self) lh Llh) as (rss & -> & Frs). cbn [mbind res_bind].
  destruct (retracement_spec hh hl Fhh Fhl) as (r & -> & Hr). cbn [mbind res_bind].
  destruct (qm_candidates_spec self Hself false htf ltf r Hr hh qmls ph
    (map (fun f => (SRFlip.new_resistance_level f, SRFlip.breakout_candle_index f)) srs) BEARISH Fqml Lhh Fph)
    as (c1 & -> & F1); [by apply Forall_map|]. cbn [mbind res_bind].
  destruct (qm_candidates_spec self Hself true htf ltf r Hr hl qmhs pl
    (map (fun f => (RSFlip.new_support_level f, RSFlip.breakout_candle_index f)) rss) BULLISH Fqmh Lhl Fpl)
    as (c2 & -> & F2); [by apply Forall_map|]. cbn [mbind res_bind].
  eexists. split; [done|]. intros c Hc. apply in_app_iff in Hc as [Hc|Hc]; eexists;
    [exact (proj1 (List.Forall_forall _ _) F1 c Hc)|exact (proj1 (List.Forall_forall _ _) F2 c Hc)].
Qed.

(** C5: the detection always returns, and returns sound candidates.  For every
    configuration, analyzers in their ranges and any two sequences with finite prices
    whose symbols are normalised and have at least three characters,
    [detect_patterns] raises nothing; it returns at most one candidate per direction,
    all of the lower timeframe, and each has positive prices with the stop on the
    losing side of the entry and the target on the winning side.  The condition on the
    symbols is needed: the candle models accept two characters, with which the
    detection raises ([short_symbol_raises]). *)
Theorem snd_detection_total (self : t) (htf ltf : CandleSequence.t) :
  analyzers_ok self -> Detectable htf -> Detectable ltf ->
  exists cs, detect_patterns self htf ltf = Ok cs /\
    NoDup (map SnDCandidate.direction cs) /\ (length cs <= 2)%nat /\
    forall c, In c cs -> exists bullish, sound bullish (CandleSequence.timeframe ltf) c.
Proof.
  intros Hself Hh Hl. destruct (all_sound self htf ltf Hself Hh Hl) as (cands & E & Hs).
  exists (_select_best_per_direction cands). split; [done|].
  destruct (SelectionFacts.selected cands) as (Hd & Hin).
  assert (Hall : forall c, In c (_select_best_per_direction cands) ->
    exists bullish, sound bullish (CandleSequence.timeframe ltf) c) by auto.
  assert (Hdir : NoDup (map SnDCandidate.direction (_select_best_per_direction cands))).
  { apply (NoDup_fmap_1 (fun d => (CandleSequence.timeframe ltf, d))). eapply eq_ind; [exact Hd|].
    change (fmap ?f ?l) with (map f l). rewrite map_map. apply map_ext_in. intros c Hc. destruct (Hall c Hc) as (bl & [_ Et _]).
    unfold key_of. by rewrite Et. }
  split; [done|]. split; [|done].
  apply NoDup_ListNoDup in Hdir. rewrite <- (length_map SnDCandidate.direction).
  apply (List.NoDup_incl_length (l' := [BULLISH; BEARISH]) Hdir). intros d Hdin.
  apply in_map_iff in Hdin as (c & <- & Hc). destruct (Hall c Hc) as ([] & [-> _ _]); simpl; auto.
Qed.

Definition sample_detector : t :=
  mk SnDConfig.default SwingAnalyzer.default MarubozuAnalyzer.default CompressionAnalyzer.default.

(** The same candles under the name of crude oil: every candle is accepted, and the
    detection raises at the first swing. *)
Definition short_months : CandleSequence.t :=
  CandleSequence.mk "CL" MN1
    (map (fun c => Candle.mk "CL" (Candle.timeframe c) (Candle.timestamp c) (Candle.open c) (Candle.high c) (Candle.low c)
                     (Candle.close c) (Candle.volume c)) (CandleSequence.candles sample_months)).

Example short_symbol_raises :
  CandleSequence.create "CL" MN1 (CandleSequence.candles short_months) = Ok short_months /\
  Forall (fun c => Candle.create (Candle.symbol c) (Candle.timeframe c) (Candle.timestamp c) (Candle.open c) (Candle.high c)
                     (Candle.low c) (Candle.close c) (Candle.volume c) = Ok c) (CandleSequence.candles short_months) /\
  detect_patterns sample_detector short_months short_months = Raise ValidationError.
Proof. split; [vm_compute; reflexivity|]. split; [repeat constructor|vm_compute; reflexivity]. Qed.

Lemma snd_detection_total_witness :
  (exists cs, detect_patterns sample_detector sample_months sample_months = Ok cs /\ (length cs <= 2)%nat) /\
  map SnDCandidate.pattern <$> detect_patterns sample_detector sample_months sample_months = Ok [QML_BASELINE].
Proof.
  split; [|vm_compute; reflexivity].
  assert (Hd : Detectable sample_months).
  { constructor; [apply _|vm_compute; split_and!; congruence|].
    apply List.Forall_forall. repeat constructor; vm_compute; congruence. }
  destruct (snd_detection_total sample_detector sample_months sample_months) as (cs & E & _ & Hl & _).
  - constructor; vm_compute; split_and?; congruence.
  - exact Hd.
  - exact Hd.
  - exists cs. split; [exact E|exact Hl].
Defined.
End DetectionFacts.
