(* ===== verification/Orchestrator.v ===== *)
(** * The orchestrator: [engine/ta/orchestrator.py]

    One analysis of a symbol: candles of every configured timeframe are fetched,
    each timeframe gets a snapshot of its structure, the two frameworks run on
    adjacent timeframes, the snapshots are aligned, the candidates deduplicated,
    everything is stored, and a trimmed view is returned.  The broker, the clock,
    the database and the status channel are interfaces over the state of the
    world. *)

From Stdlib Require Import ZArith Lia Bool Ascii String SpecFloat.
From stdpp Require Import base list strings.
From S2P Require Import Prelude Loops PyFloat FloatRound FloatFloor PyRound PyText PyRepr PyIO Constants PriceMath Candles Swings Sessions Fibonacci Liquidity ZoneModels StructureModels Candidates CandlePatterns SMCConfig SMCStructure SMCZones SMCValidators SMCDetector Compression SnDConfig SnDDetectors SnDDetector Snapshots LTFConfirmation.

#[local] Open Scope string_scope.
#[local] Open Scope Z_scope.
#[local] Open Scope list_scope.

(** ** Interfaces *)

(** A row of the candle table. *)
Record CandleRow := mk_row {
  row_symbol : string; row_timeframe : string; row_timestamp : datetime; row_open : float;
  row_high : float; row_low : float; row_close : float; row_volume : option float }.

(** The repositories behind a unit of work; [uow_enter] opens a transaction and
    [uow_exit] commits it.  A snapshot row has its user, symbol, timeframe and
    time, and the columns. *)
Class Storage (W : Type) := {
  find_by_time_range : string -> string -> datetime -> datetime -> string -> io W (list CandleRow);
  uow_enter : io W unit;
  uow_exit : io W unit;
  snapshot_create : string -> string -> string -> datetime -> dict -> io W unit;
  bulk_create_smc_candidates : list SMCCandidate.t -> string -> io W unit;
  bulk_create_snd_candidates : list SnDCandidate.t -> string -> io W unit }.

(** The status channel: emitting never raises. *)
Class Pulse (W : Type) := { publish : string -> string -> bool -> W -> W }.

(** ** Dictionaries keyed by timeframe, in insertion order *)

Section Tables.
Context {K V : Type} `{EqDecision K}.

Fixpoint table_get (k : K) (d : list (K * V)) : option V :=
  match d with
  | [] => None
  | (k', v) :: d => if bool_decide (k = k') then Some v else table_get k d
  end.

Fixpoint table_set (k : K) (v : V) (d : list (K * V)) : list (K * V) :=
  match d with
  | [] => [(k, v)]
  | (k', v') :: d => if bool_decide (k = k') then (k', v) :: d else (k', v') :: table_set k v d
  end.

Definition table_has (k : K) (d : list (K * V)) : bool :=
  match table_get k d with Some _ => true | None => false end.

(** [d\[k\]]. *)
Definition table_index (k : K) (d : list (K * V)) : res V :=
  match table_get k d with Some v => Ok v | None => Raise KeyError end.
End Tables.

(** [l\[i\], l\[i + 1\]] for [i in range(len(l) - 1)]. *)
Fixpoint adjacent {A} (l : list A) : list (A * A) :=
  match l with
  | a :: (b :: _) as l' => (a, b) :: adjacent l'
  | _ => []
  end.

(** ** Candidates of either framework

    What deduplication reads of a candidate; a flag the class does not have reads
    as [False]. *)
Class Candidate (A : Type) := {
  c_symbol : A -> string; c_timeframe : A -> Timeframe; c_pattern : A -> CandidatePattern;
  c_direction : A -> Direction; c_entry_price : A -> float; c_metadata : A -> dict;
  c_flags : A -> list bool; c_zone : A -> option float * option float }.

(** [bms_detected], [choch_detected], [sms_detected], [liquidity_swept],
    [inducement_cleared], [qml_detected], [sr_rs_flip_detected], [mpl_detected],
    [fakeout_detected], [marubozu_detected], [compression_detected],
    [ltf_confirmation]; the zone is the order block, else the gap. *)
#[export] Instance SMC_candidate : Candidate SMCCandidate.t := {|
  c_symbol := SMCCandidate.symbol; c_timeframe := SMCCandidate.timeframe; c_pattern := SMCCandidate.pattern;
  c_direction := SMCCandidate.direction; c_entry_price := SMCCandidate.entry_price;
  c_metadata := SMCCandidate.metadata;
  c_flags := fun c => [SMCCandidate.bms_detected c; SMCCandidate.choch_detected c; SMCCandidate.sms_detected c;
    SMCCandidate.liquidity_swept c; SMCCandidate.inducement_cleared c; false; false; false; false; false; false;
    SMCCandidate.ltf_confirmation c];
  c_zone := fun c =>
    match SMCCandidate.order_block_lower c, SMCCandidate.order_block_upper c with
    | Some lower, Some upper => (Some lower, Some upper)
    | _, _ => (SMCCandidate.fvg_lower c, SMCCandidate.fvg_upper c)
    end |}.

(** The zone is the supply zone, else the demand zone, bound by bound. *)
#[export] Instance SnD_candidate : Candidate SnDCandidate.t := {|
  c_symbol := SnDCandidate.symbol; c_timeframe := SnDCandidate.timeframe; c_pattern := SnDCandidate.pattern;
  c_direction := SnDCandidate.direction; c_entry_price := SnDCandidate.entry_price;
  c_metadata := SnDCandidate.metadata;
  c_flags := fun c => [false; false; false; false; false; SnDCandidate.qml_detected c; false;
    SnDCandidate.mpl_detected c; SnDCandidate.fakeout_detected c; SnDCandidate.marubozu_detected c;
    SnDCandidate.compression_detected c; SnDCandidate.ltf_confirmation c];
  c_zone := fun c =>
    (float_or (SnDCandidate.supply_zone_lower c) (SnDCandidate.demand_zone_lower c),
     float_or (SnDCandidate.supply_zone_upper c) (SnDCandidate.demand_zone_upper c)) |}.

(** [int(v or 0)], with the exceptions the caller turns into 0. *)
Definition is_digit (a : ascii) : bool :=
  let n := nat_of_ascii a in ((48 <=? n) && (n <=? 57))%nat.

Fixpoint digits_value (acc : Z) (s : string) : option Z :=
  match s with
  | EmptyString => Some acc
  | String a s =>
      if is_digit a then digits_value (acc * 10 + Z.of_nat (nat_of_ascii a - 48)) s
      else if Ascii.eqb a "_" then
        match s with String b _ => if is_digit b then digits_value acc s else None | EmptyString => None end
      else None
  end.

(** [int(s)] of a string: blanks around, a sign, digits with single underscores
    between them. *)
Definition int_of_str (s : string) : option Z :=
  let unsigned (s : string) : option Z :=
    match s with String a _ => if is_digit a then digits_value 0 s else None | EmptyString => None end in
  match str_strip s with
  | String a rest =>
      if Ascii.eqb a "-" then Z.opp <$> unsigned rest
      else if Ascii.eqb a "+" then unsigned rest else unsigned (String a rest)
  | EmptyString => None
  end.

Definition int_or_zero (v : option value) : res Z :=
  match v with
  | None | Some VNone => Ok 0
  | Some (VBool b) => Ok (if b then 1 else 0)
  | Some (VInt n) => Ok n
  | Some (VFloat x) =>
      match py_int x with Raise (ValueError _) => Ok 0 | r => r end
  | Some (VStr s) => Ok (default 0 (int_of_str s))
  | Some (VDict _) | Some (VList _) => Ok 0
  end.

Module TAOrchestrator.

(** ** Deduplication by zone *)

Definition _ZONE_PIP_TOLERANCE (tf : Timeframe) : Z :=
  match tf with M1 | M5 => 5 | M15 | M30 => 15 | _ => 30 end.

Section Dedupe.
Context {A : Type} `{Candidate A}.

Definition _candidate_rank_key (c : A) : res (Z * Z * float) :=
  confluences ← int_or_zero (dict_lookup "confluences" (c_metadata c));
  let flag_count := py_len (List.filter id (c_flags c)) in
  Ok (confluences, flag_count, c_entry_price c).

(** [a > b] on the tuples. *)
Definition rank_gt (a b : Z * Z * float) : bool :=
  let '(a1, a2, a3) := a in
  let '(b1, b2, b3) := b in
  if negb (a1 =? b1) then b1 <? a1
  else if negb (a2 =? b2) then b2 <? a2
  else flt b3 a3.

Definition _zone_bucket (lower upper : option float) (timeframe : Timeframe) (symbol : string) : res (option Z) :=
  match lower, upper with
  | Some lower, Some upper =>
      if fle lower fzero || fle upper fzero then Ok None
      else
        midpoint ← fdiv (fadd lower upper) (of_Z 2);
        if fle midpoint fzero then Ok None
        else
          let pip_value := pip_float symbol in
          if fle pip_value fzero then Ok None
          else
            let tolerance_pips := _ZONE_PIP_TOLERANCE timeframe in
            let bucket_width := fmul (fmul (of_Z 2) (of_Z tolerance_pips)) pip_value in
            if fle bucket_width fzero then Ok None
            else
              q ← py_floordiv midpoint bucket_width;
              n ← py_int q;
              Ok (Some n)
  | _, _ => Ok None
  end.

Definition zone_key : Type := Timeframe * Direction * Z.

(** One iteration: the dictionary of the best of each zone, and the candidates
    kept without a zone. *)
Definition dedupe_step (symbol : string) (acc : list (zone_key * A) * list A) (c : A)
    : res (list (zone_key * A) * list A) :=
  let '(best_in_bucket, bypass) := acc in
  let '(zone_lower, zone_upper) := c_zone c in
  bucket ← _zone_bucket zone_lower zone_upper (c_timeframe c) symbol;
  match bucket with
  | None => Ok (best_in_bucket, bypass ++ [c])
  | Some bucket =>
      let key : zone_key := (c_timeframe c, c_direction c, bucket) in
      better ←
        match table_get key best_in_bucket with
        | None => Ok true
        | Some existing =>
            a ← _candidate_rank_key c;
            b ← _candidate_rank_key existing;
            Ok (rank_gt a b)
        end;
      Ok (if better : bool then table_set key c best_in_bucket else best_in_bucket, bypass)
  end.

Definition _dedupe_candidates_by_zone (candidates : list A) (symbol : string) : res (list A) :=
  '(best_in_bucket, bypass) ← for_each (dedupe_step symbol) candidates ([], []);
  Ok (map snd best_in_bucket ++ bypass).

(** ** Deduplication across timeframe pairs *)

Definition setup_key : Type := string * CandidatePattern * Direction * float.

Definition setup_eqb (a b : setup_key) : bool :=
  let '(s1, p1, d1, x1) := a in
  let '(s2, p2, d2, x2) := b in
  String.eqb s1 s2 && bool_decide (p1 = p2) && bool_decide (d1 = d2) && feq x1 x2.

Definition unique_step (acc : list setup_key * list A) (c : A) : res (list setup_key * list A) :=
  let '(seen, unique) := acc in
  price ← py_round (c_entry_price c) 4;
  let key := (c_symbol c, c_pattern c, c_direction c, price) in
  Ok (if existsb (setup_eqb key) seen then (seen, unique) else (seen ++ [key], unique ++ [c])).

Definition _deduplicate_candidates (candidates : list A) : res (list A) :=
  '(_, unique) ← for_each unique_step candidates ([], []);
  Ok unique.
End Dedupe.

Definition _dedupe_smc_candidates_by_zone (candidates : list SMCCandidate.t) (symbol : string) :=
  _dedupe_candidates_by_zone candidates symbol.
Definition _dedupe_snd_candidates_by_zone (candidates : list SnDCandidate.t) (symbol : string) :=
  _dedupe_candidates_by_zone candidates symbol.
Definition _deduplicate_smc_candidates (candidates : list SMCCandidate.t) := _deduplicate_candidates candidates.
Definition _deduplicate_snd_candidates (candidates : list SnDCandidate.t) := _deduplicate_candidates candidates.

(** ** Serializers *)

Definition iso (d : datetime) : value := VStr (isoformat d).
Definition dir (d : Direction) : value := VStr (direction_value d).

(** [x.isoformat()] of a field that may be [None]. *)
Definition iso_required (d : option datetime) : res value :=
  match d with Some d => Ok (iso d) | None => Raise AttributeError end.

Definition _serialize_swing_highs (l : list SwingHigh.t) : value :=
  VList (map (fun s => VDict [("price", VFloat (SwingHigh.price s)); ("timestamp", iso (SwingHigh.timestamp s));
    ("strength", VInt (SwingHigh.strength s))]) l).

Definition _serialize_swing_lows (l : list SwingLow.t) : value :=
  VList (map (fun s => VDict [("price", VFloat (SwingLow.price s)); ("timestamp", iso (SwingLow.timestamp s));
    ("strength", VInt (SwingLow.strength s))]) l).

Definition _serialize_bms_events (l : list BreakInMarketStructure.t) : value :=
  VList (map (fun b => VDict [("breakout_price", VFloat (BreakInMarketStructure.breakout_price b));
    ("broken_level", VFloat (BreakInMarketStructure.broken_level b));
    ("timestamp", iso (BreakInMarketStructure.timestamp b)); ("direction", dir (BreakInMarketStructure.direction b));
    ("displacement_pips", VFloat (BreakInMarketStructure.displacement_pips b));
    ("confirmed", VBool (BreakInMarketStructure.confirmed b))]) l).

Definition _serialize_choch_events (l : list ChangeOfCharacter.t) : value :=
  VList (map (fun c => VDict [("breakout_price", VFloat (ChangeOfCharacter.breakout_price c));
    ("broken_level", VFloat (ChangeOfCharacter.broken_level c)); ("timestamp", iso (ChangeOfCharacter.timestamp c));
    ("direction", dir (ChangeOfCharacter.direction c)); ("is_minor", VBool (ChangeOfCharacter.is_minor c))]) l).

Definition _serialize_sms_events (l : list ShiftInMarketStructure.t) : value :=
  VList (map (fun s => VDict [("failed_level", VFloat (ShiftInMarketStructure.failed_level s));
    ("reversal_price", VFloat (ShiftInMarketStructure.reversal_price s));
    ("timestamp", iso (ShiftInMarketStructure.timestamp s)); ("direction", dir (ShiftInMarketStructure.direction s));
    ("is_failure_swing", VBool (ShiftInMarketStructure.is_failure_swing s))]) l).

Definition _serialize_order_blocks (l : list OrderBlock.t) : value :=
  VList (map (fun b => VDict [("upper_bound", VFloat (OrderBlock.upper_bound b));
    ("lower_bound", VFloat (OrderBlock.lower_bound b)); ("timestamp", iso (OrderBlock.timestamp b));
    ("direction", dir (OrderBlock.direction b)); ("displacement_pips", VFloat (OrderBlock.displacement_pips b));
    ("is_breaker", VBool (OrderBlock.is_breaker b)); ("mitigated", VBool (OrderBlock.mitigated b))]) l).

Definition _serialize_fvgs (l : list FairValueGap.t) : value :=
  VList (map (fun g => VDict [("upper_bound", VFloat (FairValueGap.upper_bound g));
    ("lower_bound", VFloat (FairValueGap.lower_bound g)); ("timestamp", iso (FairValueGap.timestamp g));
    ("direction", dir (FairValueGap.direction g)); ("filled", VBool (FairValueGap.filled g))]) l).

Definition _serialize_breaker_blocks (l : list BreakerBlock.t) : value :=
  VList (map (fun b => VDict [("upper_bound", VFloat (BreakerBlock.upper_bound b));
    ("lower_bound", VFloat (BreakerBlock.lower_bound b)); ("timestamp", iso (BreakerBlock.timestamp b));
    ("direction", dir (BreakerBlock.direction b));
    ("original_ob_timestamp", iso (BreakerBlock.original_ob_timestamp b));
    ("broken_timestamp", iso (BreakerBlock.broken_timestamp b)); ("mitigated", VBool (BreakerBlock.mitigated b))]) l).

Definition _serialize_sweeps (l : list LiquiditySweep.t) : value :=
  VList (map (fun s => VDict [("swept_level", VFloat (LiquiditySweep.swept_level s));
    ("timestamp", iso (LiquiditySweep.timestamp s));
    ("liquidity_type", VStr (liquidity_value (LiquiditySweep.liquidity_type s)));
    ("sweep_pips", VFloat (LiquiditySweep.sweep_pips s));
    ("closed_back_inside", VBool (LiquiditySweep.closed_back_inside s))]) l).

Definition _serialize_inducements (l : list InducementEvent.t) : value :=
  VList (map (fun i => VDict [("inducement_level", VFloat (InducementEvent.inducement_level i));
    ("timestamp", iso (InducementEvent.timestamp i)); ("direction", dir (InducementEvent.direction i));
    ("cleared", VBool (InducementEvent.cleared i));
    ("cleared_timestamp", VOptTime (InducementEvent.cleared_timestamp i));
    ("is_internal", VBool (InducementEvent.is_internal i))]) l).

Definition _serialize_equal_highs_lows (l : list EqualHighsLows.t) : value :=
  VList (map (fun e => VDict [("price_level", VFloat (EqualHighsLows.price_level e));
    ("liquidity_type", VStr (liquidity_value (EqualHighsLows.liquidity_type e)));
    ("touch_count", VInt (EqualHighsLows.touch_count e));
    ("timestamps", VList (map iso (EqualHighsLows.timestamps e)));
    ("tolerance_pips", VFloat (EqualHighsLows.tolerance_pips e)); ("swept", VBool (EqualHighsLows.swept e))]) l).

Definition _serialize_liquidity_grabs (l : list LiquidityGrab.t) : value :=
  VList (map (fun g => VDict [("grab_price", VFloat (LiquidityGrab.grab_price g));
    ("grabbed_level", VFloat (LiquidityGrab.grabbed_level g)); ("timestamp", iso (LiquidityGrab.timestamp g));
    ("direction", dir (LiquidityGrab.direction g)); ("reversal_price", VOptFloat (LiquidityGrab.reversal_price g));
    ("confirmed", VBool (LiquidityGrab.confirmed g))]) l).

Definition _serialize_qm_levels (l : list QuasiModoLevel.t) : res value :=
  vs ← res_map (fun q =>
    h_ts ← iso_required (QuasiModoLevel.h_timestamp q);
    hh_ts ← iso_required (QuasiModoLevel.hh_timestamp q);
    Ok (VDict [("qml_price", VFloat (QuasiModoLevel.qml_price q)); ("timestamp", iso (QuasiModoLevel.timestamp q));
      ("direction", dir (QuasiModoLevel.direction q)); ("h_price", VOptFloat (QuasiModoLevel.h_price q));
      ("hh_price", VOptFloat (QuasiModoLevel.hh_price q)); ("h_timestamp", h_ts); ("hh_timestamp", hh_ts);
      ("tested", VBool (QuasiModoLevel.tested q))])) l;
  Ok (VList vs).

Definition _serialize_sr_flips (l : list SRFlip.t) : value :=
  VList (map (fun f => VDict [("flip_level", VFloat (SRFlip.flip_level f));
    ("breakout_price", VFloat (SRFlip.breakout_price f)); ("timestamp", iso (SRFlip.timestamp f));
    ("previous_role", VStr (SRFlip.previous_role f)); ("new_role", VStr (SRFlip.new_role f))]) l).

Definition _serialize_rs_flips (l : list RSFlip.t) : value :=
  VList (map (fun f => VDict [("flip_level", VFloat (RSFlip.flip_level f));
    ("breakout_price", VFloat (RSFlip.breakout_price f)); ("timestamp", iso (RSFlip.timestamp f));
    ("previous_role", VStr (RSFlip.previous_role f)); ("new_role", VStr (RSFlip.new_role f))]) l).

Definition _serialize_mpl_levels (l : list MiniPriceLevel.t) : value :=
  VList (map (fun m => VDict [("mpl_price", VFloat (MiniPriceLevel.mpl_price m));
    ("timestamp", iso (MiniPriceLevel.timestamp m)); ("direction", dir (MiniPriceLevel.direction m));
    ("has_internal_structure", VBool (MiniPriceLevel.has_internal_structure m));
    ("tested", VBool (MiniPriceLevel.tested m))]) l).

Definition _serialize_supply_zones (l : list SupplyZone.t) : value :=
  VList (map (fun z => VDict [("upper_bound", VFloat (SupplyZone.upper_bound z));
    ("lower_bound", VFloat (SupplyZone.lower_bound z)); ("timestamp", iso (SupplyZone.timestamp z));
    ("strength", VInt (SupplyZone.strength z)); ("tested", VBool (SupplyZone.tested z));
    ("test_count", VInt (SupplyZone.test_count z)); ("broken", VBool (SupplyZone.broken z))]) l).

Definition _serialize_demand_zones (l : list DemandZone.t) : value :=
  VList (map (fun z => VDict [("upper_bound", VFloat (DemandZone.upper_bound z));
    ("lower_bound", VFloat (DemandZone.lower_bound z)); ("timestamp", iso (DemandZone.timestamp z));
    ("strength", VInt (DemandZone.strength z)); ("tested", VBool (DemandZone.tested z));
    ("test_count", VInt (DemandZone.test_count z)); ("broken", VBool (DemandZone.broken z))]) l).

Definition _serialize_fibonacci (l : list FibonacciRetracement.t) : value :=
  VList (map (fun f => VDict [("swing_high", VFloat (FibonacciRetracement.swing_high f));
    ("swing_low", VFloat (FibonacciRetracement.swing_low f));
    ("swing_high_timestamp", iso (FibonacciRetracement.swing_high_timestamp f));
    ("swing_low_timestamp", iso (FibonacciRetracement.swing_low_timestamp f));
    ("is_bullish", VBool (FibonacciRetracement.is_bullish f));
    ("range_size", VFloat (FibonacciRetracement.range_size f))]) l).

Definition _serialize_dealing_ranges (l : list DealingRange.t) : res value :=
  vs ← res_map (fun r =>
    equilibrium ← DealingRange.equilibrium r;
    Ok (VDict [("high", VFloat (DealingRange.high r)); ("low", VFloat (DealingRange.low r));
      ("equilibrium", VFloat equilibrium); ("start_time", iso (DealingRange.start_time r));
      ("end_time", VOptTime (DealingRange.end_time r)); ("range_size", VFloat (DealingRange.range_size r))])) l;
  Ok (VList vs).

(** ** The view of a snapshot *)

Definition _LTF_TIMEFRAMES : list Timeframe := [M30; M15; M5; M1].
Definition _LTF_NOISE_TIMEFRAMES : list Timeframe := [M1; M5].

Definition _swing_cap_for (tf : Timeframe) : Z := if bool_decide (tf ∈ _LTF_TIMEFRAMES) then 5 else 8.
Definition _array_cap_for (tf : Timeframe) : Z := if bool_decide (tf ∈ _LTF_NOISE_TIMEFRAMES) then 3 else 5.

(** What is still tradeable of a snapshot. *)
Definition live_obs (s : TechnicalSnapshot.t) : list OrderBlock.t :=
  List.filter (fun ob => negb (OrderBlock.mitigated ob)) (TechnicalSnapshot.order_blocks s).
Definition live_breakers (s : TechnicalSnapshot.t) : list BreakerBlock.t :=
  List.filter (fun bb => negb (BreakerBlock.mitigated bb)) (TechnicalSnapshot.breaker_blocks s).
Definition live_fvgs (s : TechnicalSnapshot.t) : list FairValueGap.t :=
  List.filter (fun fvg => negb (FairValueGap.filled fvg)) (TechnicalSnapshot.fvgs s).
Definition live_qms (s : TechnicalSnapshot.t) : list QuasiModoLevel.t :=
  List.filter (fun qm => negb (QuasiModoLevel.tested qm)) (TechnicalSnapshot.qml_levels s).
Definition live_mpls (s : TechnicalSnapshot.t) : list MiniPriceLevel.t :=
  List.filter (fun mpl => negb (MiniPriceLevel.tested mpl)) (TechnicalSnapshot.mpl_levels s).
Definition live_supply (s : TechnicalSnapshot.t) : list SupplyZone.t :=
  List.filter (fun sz => negb (SupplyZone.broken sz)) (TechnicalSnapshot.supply_zones s).
Definition live_demand (s : TechnicalSnapshot.t) : list DemandZone.t :=
  List.filter (fun dz => negb (DemandZone.broken dz)) (TechnicalSnapshot.demand_zones s).

Definition _serialize_snapshot (s : TechnicalSnapshot.t) : res dict :=
  let tf := TechnicalSnapshot.timeframe s in
  let swing_cap := _swing_cap_for tf in
  let arr_cap := _array_cap_for tf in
  qm_levels ← _serialize_qm_levels (py_slice_from (live_qms s) (- arr_cap));
  let out :=
    [("timestamp", iso (TechnicalSnapshot.timestamp s));
     ("trend_direction", dir (TechnicalSnapshot.trend_direction s));
     ("swing_highs", _serialize_swing_highs (py_slice_from (TechnicalSnapshot.swing_highs s) (- swing_cap)));
     ("swing_lows", _serialize_swing_lows (py_slice_from (TechnicalSnapshot.swing_lows s) (- swing_cap)));
     ("bms_events", _serialize_bms_events (py_slice_from (TechnicalSnapshot.bms_events s) (- arr_cap)));
     ("choch_events", _serialize_choch_events (py_slice_from (TechnicalSnapshot.choch_events s) (- arr_cap)));
     ("sms_events", _serialize_sms_events (py_slice_from (TechnicalSnapshot.sms_events s) (- arr_cap)));
     ("order_blocks", _serialize_order_blocks (py_slice_from (live_obs s) (- arr_cap)));
     ("fair_value_gaps", _serialize_fvgs (py_slice_from (live_fvgs s) (- arr_cap)));
     ("breaker_blocks", _serialize_breaker_blocks (py_slice_from (live_breakers s) (- arr_cap)));
     ("liquidity_sweeps", _serialize_sweeps (py_slice_from (TechnicalSnapshot.liquidity_sweeps s) (- arr_cap)));
     ("inducement_events",
        _serialize_inducements (py_slice_from (TechnicalSnapshot.inducement_events s) (- arr_cap)));
     ("qm_levels", qm_levels);
     ("sr_flips", _serialize_sr_flips (py_slice_from (TechnicalSnapshot.sr_flips s) (- arr_cap)));
     ("rs_flips", _serialize_rs_flips (py_slice_from (TechnicalSnapshot.rs_flips s) (- arr_cap)));
     ("mpl_levels", _serialize_mpl_levels (py_slice_from (live_mpls s) (- arr_cap)));
     ("supply_zones", _serialize_supply_zones (py_slice_from (live_supply s) (- arr_cap)));
     ("demand_zones", _serialize_demand_zones (py_slice_from (live_demand s) (- arr_cap)))] in
  if bool_decide (tf ∈ _LTF_NOISE_TIMEFRAMES) then Ok out
  else
    dealing_ranges ← _serialize_dealing_ranges (py_slice_from (TechnicalSnapshot.dealing_ranges s) (-1));
    Ok (out ++
      [("equal_highs_lows",
          _serialize_equal_highs_lows (py_slice_from (TechnicalSnapshot.equal_highs_lows s) (- arr_cap)));
       ("liquidity_grabs",
          _serialize_liquidity_grabs (py_slice_from (TechnicalSnapshot.liquidity_grabs s) (- arr_cap)));
       ("fibonacci_retracements",
          _serialize_fibonacci (py_slice_from (TechnicalSnapshot.fibonacci_retracements s) (-1)));
       ("dealing_ranges", dealing_ranges)]).

(** ** The stored form of a snapshot *)

(** [getattr(latest, "premium", None)] and [getattr(latest, "discount", None)]:
    [DealingRange] has no attribute of either name. *)
Definition dealing_range_premium (r : DealingRange.t) : option value := None.
Definition dealing_range_discount (r : DealingRange.t) : option value := None.

Definition _build_snapshot_metadata (s : TechnicalSnapshot.t) : res dict :=
  let meta :=
    [("trend_direction", dir (TechnicalSnapshot.trend_direction s));
     ("live_order_block_count", VInt (py_len (live_obs s)));
     ("live_breaker_block_count", VInt (py_len (live_breakers s)));
     ("live_fvg_count", VInt (py_len (live_fvgs s)));
     ("live_qm_count", VInt (py_len (live_qms s)));
     ("live_mpl_count", VInt (py_len (live_mpls s)));
     ("swing_high_count", VInt (py_len (TechnicalSnapshot.swing_highs s)));
     ("swing_low_count", VInt (py_len (TechnicalSnapshot.swing_lows s)))] in
  match last (TechnicalSnapshot.dealing_ranges s) with
  | None => Ok meta
  | Some latest =>
      equilibrium ← DealingRange.equilibrium latest;
      match dealing_range_premium latest, dealing_range_discount latest with
      | None, None => Ok meta
      | premium, discount =>
          Ok (dict_set "dealing_range" (VDict [("premium", default VNone premium);
                ("discount", default VNone discount); ("equilibrium", VFloat equilibrium)]) meta)
      end
  end.

(** The JSON columns [snapshot_repo.create] is called with. *)
Definition snapshot_columns (s : TechnicalSnapshot.t) : res dict :=
  qm_levels ← _serialize_qm_levels (TechnicalSnapshot.qml_levels s);
  dealing_ranges ← _serialize_dealing_ranges (TechnicalSnapshot.dealing_ranges s);
  metadata ← _build_snapshot_metadata s;
  Ok [("swing_highs", _serialize_swing_highs (TechnicalSnapshot.swing_highs s));
      ("swing_lows", _serialize_swing_lows (TechnicalSnapshot.swing_lows s));
      ("bms_events", _serialize_bms_events (TechnicalSnapshot.bms_events s));
      ("choch_events", _serialize_choch_events (TechnicalSnapshot.choch_events s));
      ("sms_events", _serialize_sms_events (TechnicalSnapshot.sms_events s));
      ("order_blocks", _serialize_order_blocks (TechnicalSnapshot.order_blocks s));
      ("fair_value_gaps", _serialize_fvgs (TechnicalSnapshot.fvgs s));
      ("liquidity_sweeps", _serialize_sweeps (TechnicalSnapshot.liquidity_sweeps s));
      ("inducement_events", _serialize_inducements (TechnicalSnapshot.inducement_events s));
      ("qm_levels", qm_levels);
      ("sr_flips", _serialize_sr_flips (TechnicalSnapshot.sr_flips s));
      ("rs_flips", _serialize_rs_flips (TechnicalSnapshot.rs_flips s));
      ("previous_levels", _serialize_equal_highs_lows (TechnicalSnapshot.equal_highs_lows s));
      ("mpl_levels", _serialize_mpl_levels (TechnicalSnapshot.mpl_levels s));
      ("fakeout_tests", _serialize_liquidity_grabs (TechnicalSnapshot.liquidity_grabs s));
      ("supply_zones", _serialize_supply_zones (TechnicalSnapshot.supply_zones s));
      ("demand_zones", _serialize_demand_zones (TechnicalSnapshot.demand_zones s));
      ("fibonacci_retracements", _serialize_fibonacci (TechnicalSnapshot.fibonacci_retracements s));
      ("breaker_blocks", _serialize_breaker_blocks (TechnicalSnapshot.breaker_blocks s));
      ("dealing_ranges", dealing_ranges);
      ("metadata", VDict metadata)].

(** ** Trend and lookback *)

Fixpoint _determine_overall_trend (snapshots : list (Timeframe * TechnicalSnapshot.t)) (ordered_tfs : list Timeframe)
    : string :=
  match ordered_tfs with
  | [] => direction_value NEUTRAL
  | tf :: ordered_tfs =>
      match table_get tf snapshots with
      | Some snap =>
          if negb (bool_decide (TechnicalSnapshot.trend_direction snap = NEUTRAL))
          then direction_value (TechnicalSnapshot.trend_direction snap)
          else _determine_overall_trend snapshots ordered_tfs
      | None => _determine_overall_trend snapshots ordered_tfs
      end
  end.

(** [mapping.get(timeframe, default_lookback)]; the mapping has every timeframe. *)
Definition _get_adaptive_lookback (timeframe : Timeframe) (default_lookback : Z) : Z :=
  match timeframe with
  | MN1 => 72 | W1 => 250 | D1 => 60 | H12 => 80 | H8 => 100 | H6 => 120 | H4 => 150 | H3 => 200
  | H1 => 300 | M30 => 500 | M15 => 750 | M5 => 1000 | M1 => 1500
  end.

Definition _calculate_start_time (end_time : datetime) (timeframe : Timeframe) (lookback_periods : Z) : res datetime :=
  minus_minutes end_time (TIMEFRAME_MINUTES timeframe * lookback_periods).

(** ** The result *)

Record result := mk_result {
  status : string; r_symbol : string; r_htf_timeframes : list string; r_ltf_timeframes : list string;
  r_snapshots : list (string * dict); smc_candidates : list dict; snd_candidates : list dict;
  smc_candidates_count : Z; snd_candidates_count : Z; alignment : list (string * dict);
  overall_trend : string; error : option string }.

(** The points of interest that are gone, by timeframe and time. *)
Definition dead_points (of_snapshot : TechnicalSnapshot.t -> list datetime)
    (snapshots : list (Timeframe * TechnicalSnapshot.t)) : list (Timeframe * datetime) :=
  flat_map (fun kv => map (fun ts => (TechnicalSnapshot.timeframe (snd kv), ts)) (of_snapshot (snd kv))) snapshots.

Definition dead_obs (s : TechnicalSnapshot.t) : list datetime :=
  map OrderBlock.timestamp (List.filter OrderBlock.mitigated (TechnicalSnapshot.order_blocks s)).
Definition dead_fvgs (s : TechnicalSnapshot.t) : list datetime :=
  map FairValueGap.timestamp (List.filter FairValueGap.filled (TechnicalSnapshot.fvgs s)).
Definition dead_qms (s : TechnicalSnapshot.t) : list datetime :=
  map QuasiModoLevel.timestamp (List.filter QuasiModoLevel.tested (TechnicalSnapshot.qml_levels s)).

Definition is_dead (tf : Timeframe) (ts : option datetime) (dead : list (Timeframe * datetime)) : bool :=
  match ts with
  | Some ts => existsb (fun p => bool_decide (fst p = tf) && dt_eqb (snd p) ts) dead
  | None => false
  end.

Definition _smc_is_live (snapshots : list (Timeframe * TechnicalSnapshot.t)) (c : SMCCandidate.t) : bool :=
  if is_dead (SMCCandidate.ltf_timeframe c) (SMCCandidate.order_block_timestamp c) (dead_points dead_obs snapshots)
  then false
  else if is_dead (SMCCandidate.ltf_timeframe c) (SMCCandidate.fvg_timestamp c) (dead_points dead_fvgs snapshots)
  then false
  else true.

Definition _snd_is_live (snapshots : list (Timeframe * TechnicalSnapshot.t)) (c : SnDCandidate.t) : bool :=
  negb (is_dead (SnDCandidate.htf_timeframe c) (SnDCandidate.qml_timestamp c) (dead_points dead_qms snapshots)).

Definition flatten_alignment (pair_data : dict) : dict :=
  let metadata := match dict_lookup "alignment_metadata" pair_data with Some (VDict d) => d | _ => [] end in
  let flat_entry := dict_pop "alignment_metadata" pair_data in
  match dict_lookup "zones_nested" metadata with
  | None | Some VNone => flat_entry
  | Some zones_nested => dict_set "zones_nested" zones_nested flat_entry
  end.

Section WithDump.
(** [model_dump(mode="json")] of pydantic. *)
Context (smc_dump : SMCCandidate.t -> res dict) (snd_dump : SnDCandidate.t -> res dict).

Definition _build_result (symbol status : string) (htf_timeframes ltf_timeframes : list Timeframe)
    (snapshots : list (Timeframe * TechnicalSnapshot.t)) (smc_list : list SMCCandidate.t)
    (snd_list : list SnDCandidate.t) (alignments : list (string * dict)) (overall_trend : string)
    (error : option string) : res result :=
  let ordered_for_prompt :=
    py_sorted (fun a b => TIMEFRAME_MINUTES (fst a) <? TIMEFRAME_MINUTES (fst b)) snapshots in
  serialized_snapshots ← for_each (fun acc kv =>
      d ← _serialize_snapshot (snd kv); Ok (table_set (timeframe_value (fst kv)) d acc)) ordered_for_prompt [];
  let live_smc := List.filter (_smc_is_live snapshots) smc_list in
  let live_snd := List.filter (_snd_is_live snapshots) snd_list in
  deduped_smc ← _dedupe_smc_candidates_by_zone live_smc symbol;
  deduped_snd ← _dedupe_snd_candidates_by_zone live_snd symbol;
  let flat_alignments :=
    fold_left (fun acc kv => table_set (fst kv) (flatten_alignment (snd kv)) acc) alignments [] in
  serialized_smc ← res_map (fun c => d ← smc_dump c; Ok (dict_pop "symbol" d)) deduped_smc;
  serialized_snd ← res_map (fun c => d ← snd_dump c; Ok (dict_pop "symbol" d)) deduped_snd;
  Ok (mk_result status symbol (map timeframe_value htf_timeframes) (map timeframe_value ltf_timeframes)
        serialized_snapshots serialized_smc serialized_snd (py_len deduped_smc) (py_len deduped_snd)
        flat_alignments overall_trend error).
End WithDump.

(** ** Structure of one timeframe *)

Record TAConfig := mk_config { htf_timeframes : list Timeframe; ltf_timeframes : list Timeframe }.

Record t := mk {
  smc_detector : SMCDetector.t; snd_detector : SnDDetector.t; snapshot_builder : SnapshotBuilder.t;
  alignment_service : AlignmentService.t; _config : TAConfig }.

Section Structure.
Context (self : t).
Abbreviation smc_config := (SMCDetector.config (smc_detector self)).
Abbreviation marubozu := (SnDDetector.marubozu_analyzer (snd_detector self)).

(** The order block behind each break, where there is one. *)
Definition order_blocks_of (sequence : CandleSequence.t) (all_bms : list BreakInMarketStructure.t)
    : res (list OrderBlock.t) :=
  collect (fun bms_event =>
    if bool_decide (BreakInMarketStructure.direction bms_event = BULLISH)
    then OrderBlockDetector.detect_bullish_ob smc_config sequence bms_event
    else OrderBlockDetector.detect_bearish_ob smc_config sequence bms_event) all_bms.

(** [ob.model_copy(update={"mitigated": True})]. *)
Definition with_mitigated (ob : OrderBlock.t) : OrderBlock.t :=
  OrderBlock.mk (OrderBlock.symbol ob) (OrderBlock.timeframe ob) (OrderBlock.upper_bound ob)
    (OrderBlock.lower_bound ob) (OrderBlock.timestamp ob) (OrderBlock.candle_index ob) (OrderBlock.direction ob)
    (OrderBlock.displacement_pips ob) (OrderBlock.is_breaker ob) true (OrderBlock.mitigation_timestamp ob).

Definition mark_mitigated (sequence : CandleSequence.t) (order_blocks : list OrderBlock.t) : res (list OrderBlock.t) :=
  res_map (fun ob =>
    is_fresh ← ZoneValidator.validate_zone_freshness ob sequence;
    Ok (if is_fresh : bool then ob else with_mitigated ob)) order_blocks.

Definition supply_zones_of (sequence : CandleSequence.t) (qml_levels : list QuasiModoLevel.t) (sr_flips : list SRFlip.t)
    : res (list SupplyZone.t) :=
  zones ← res_map (fun qml => res_map (fun sr_flip =>
    SupplyDemandDetector.create_supply_zone sequence (QuasiModoLevel.level qml) (QuasiModoLevel.timestamp qml)
      (SRFlip.new_resistance_level sr_flip) (SRFlip.timestamp sr_flip)) sr_flips) qml_levels;
  Ok (concat zones).

Definition demand_zones_of (sequence : CandleSequence.t) (qmh_levels : list QuasiModoLevel.t) (rs_flips : list RSFlip.t)
    : res (list DemandZone.t) :=
  zones ← res_map (fun qmh => res_map (fun rs_flip =>
    SupplyDemandDetector.create_demand_zone sequence (QuasiModoLevel.level qmh) (QuasiModoLevel.timestamp qmh)
      (RSFlip.new_support_level rs_flip) (RSFlip.timestamp rs_flip)) rs_flips) qmh_levels;
  Ok (concat zones).

Definition retracements_of (swing_highs : list SwingHigh.t) (swing_lows : list SwingLow.t)
    : res (list FibonacciRetracement.t) :=
  match SwingAnalyzer.get_latest_swing_high swing_highs, SwingAnalyzer.get_latest_swing_low swing_lows with
  | Some latest_high, Some latest_low =>
      let is_bullish := dt_ltb (SwingHigh.timestamp latest_high) (SwingLow.timestamp latest_low) in
      fib ← FibonacciAnalyzer.create_retracement latest_high latest_low is_bullish;
      Ok [fib]
  | _, _ => Ok []
  end.

Definition dealing_ranges_of (sequence : CandleSequence.t) : res (list DealingRange.t) :=
  collect (fun session =>
    session_range ← SessionAnalyzer.extract_session_range sequence session;
    match session_range with
    | Some r =>
        DealingRangeAnalyzer.create_from_session (SnapshotBuilder.dealing_range_analyzer (snapshot_builder self)) r
    | None => Ok None
    end) [ASIA; LONDON; NEW_YORK].

Section WithWorld.
Context {W : Type} `{PW : Pulse W}.

Definition emit (pulse : bool) (phase message : string) (completed : bool) : io W unit := fun w =>
  (Ok tt, if pulse then publish phase message completed w else w).

(** The body of the [try] of [_build_enriched_snapshot]. *)
Definition enriched_snapshot (sequence : CandleSequence.t) (pulse : bool) : io W TechnicalSnapshot.t :=
  let tfv := timeframe_value (CandleSequence.timeframe sequence) in
  let _p (phase message : string) := emit pulse phase (tfv ++ message)%string false in
  _ ← _p "DETECTING" " detecting swing highs/lows";
  swing_highs ← lift (SwingAnalyzer.detect_swing_highs (SnapshotBuilder.swing_analyzer (snapshot_builder self)) sequence);
  swing_lows ← lift (SwingAnalyzer.detect_swing_lows (SnapshotBuilder.swing_analyzer (snapshot_builder self)) sequence);
  _ ← _p "DETECTING" " detecting break of market structure";
  bms_bullish ← lift (BMSDetector.detect_bullish_bms smc_config sequence swing_highs);
  bms_bearish ← lift (BMSDetector.detect_bearish_bms smc_config sequence swing_lows);
  let all_bms := bms_bullish ++ bms_bearish in
  _ ← _p "DETECTING" " detecting change of character";
  choch_bullish ← lift (CHOCHDetector.detect_bullish_choch sequence swing_highs);
  choch_bearish ← lift (CHOCHDetector.detect_bearish_choch sequence swing_lows);
  _ ← _p "DETECTING" " detecting shift in market structure";
  sms_bullish ← lift (SMSDetector.detect_bullish_sms sequence swing_lows);
  sms_bearish ← lift (SMSDetector.detect_bearish_sms sequence swing_highs);
  _ ← _p "SHIMMING" " scanning fair value gaps";
  fvgs ← lift (FVGDetector.detect_fvgs smc_config sequence);
  _ ← _p "SHIMMING" " identifying institutional order blocks";
  order_blocks ← lift (order_blocks_of sequence all_bms);
  order_blocks ← lift (mark_mitigated sequence order_blocks);
  _ ← _p "SHIMMING" " detecting breaker blocks";
  breaker_blocks ← lift (collect (BreakerDetector.detect_breaker_from_ob sequence) order_blocks);
  _ ← _p "PONTIFICATING" " detecting inducements";
  inducement_bullish ← lift (InducementDetector.detect_bullish_inducement smc_config sequence swing_lows);
  inducement_bearish ← lift (InducementDetector.detect_bearish_inducement smc_config sequence swing_highs);
  _ ← _p "PONTIFICATING" " scanning liquidity sweeps";
  liquidity_sweeps ←
    lift (SweepAnalyzer.detect_sweeps_in_sequence (SnapshotBuilder.sweep_analyzer (snapshot_builder self)) sequence
            swing_highs swing_lows);
  equal_highs ←
    lift (LiquidityAnalyzer.detect_equal_highs (SnapshotBuilder.liquidity_analyzer (snapshot_builder self)) swing_highs);
  equal_lows ←
    lift (LiquidityAnalyzer.detect_equal_lows (SnapshotBuilder.liquidity_analyzer (snapshot_builder self)) swing_lows);
  sr_flips ← lift (SRFlipDetector.detect_sr_flips marubozu sequence swing_lows);
  rs_flips ← lift (RSFlipDetector.detect_rs_flips marubozu sequence swing_highs);
  _ ← _p "PONTIFICATING" " mapping QML/QMH levels";
  qml_levels ← lift (QMDetector.detect_qml sequence swing_highs swing_lows);
  qmh_levels ← lift (QMDetector.detect_qmh sequence swing_lows swing_highs);
  _ ← _p "PONTIFICATING" " building supply/demand zones";
  supply_zones ← lift (supply_zones_of sequence qml_levels sr_flips);
  demand_zones ← lift (demand_zones_of sequence qmh_levels rs_flips);
  _ ← _p "PONTIFICATING" " calculating fibonacci retracements";
  fibonacci_retracements ← lift (retracements_of swing_highs swing_lows);
  _ ← _p "PONTIFICATING" " extracting session dealing ranges";
  dealing_ranges ← lift (dealing_ranges_of sequence);
  lift (SnapshotBuilder.build_snapshot (snapshot_builder self) sequence
    (SnapshotBuilder.mk_arguments [] (choch_bullish ++ choch_bearish) all_bms (sms_bullish ++ sms_bearish)
       sr_flips rs_flips liquidity_sweeps [] (inducement_bullish ++ inducement_bearish) (equal_highs ++ equal_lows)
       order_blocks fvgs breaker_blocks supply_zones demand_zones (qml_levels ++ qmh_levels) []
       fibonacci_retracements dealing_ranges [] [])).

Definition _build_enriched_snapshot (sequence : CandleSequence.t) (pulse : bool) : io W (option TechnicalSnapshot.t) :=
  attempt (s ← enriched_snapshot sequence pulse; mret (Some s)) (fun _ => mret None).
End WithWorld.
End Structure.

(** ** The analysis *)

Section Analysis.
Context {W : Type} `{CW : Clock W, SW : Storage W, PW : Pulse W}.
Context (exn_str : exn -> string) (smc_dump : SMCCandidate.t -> res dict) (snd_dump : SnDCandidate.t -> res dict).
Context (self : t) (fallback_client : option (Broker W)).

(** A fetch whose failure, or an empty answer, is no answer. *)
Definition try_broker (broker : Broker W) (symbol : string) (timeframe : Timeframe) (start_time end_time : datetime)
    (count : Z) : io W (option CandleSequence.t) :=
  attempt
    (sequence ← @fetch_candles W broker symbol timeframe start_time end_time count;
     mret (match sequence with
           | Some s => if 0 <? CandleSequence.count s then Some s else None
           | None => None
           end))
    (fun _ => mret None).

Definition candle_of_row (row : CandleRow) : res Candle.t :=
  tf ← timeframe_of_value (row_timeframe row);
  Candle.create (row_symbol row) tf (row_timestamp row) (row_open row) (row_high row) (row_low row) (row_close row)
    (match row_volume row with Some v => v | None => fzero end).

Definition _fetch_candles (symbol : string) (timeframe : Timeframe) (lookback_periods : Z)
    (broker : option (Broker W)) (user_id : string) : io W (option CandleSequence.t) :=
  end_time ← now;
  start_time ← lift (_calculate_start_time end_time timeframe lookback_periods);
  stored_rows ← find_by_time_range symbol (timeframe_value timeframe) start_time end_time user_id;
  fetched ←
    (if flt (of_Z (py_len stored_rows)) (fmul (of_Z lookback_periods) (lit 8 1)) then
       match broker with
       | None => mret None
       | Some broker =>
           sequence ← try_broker broker symbol timeframe start_time end_time lookback_periods;
           match sequence, fallback_client with
           | Some s, _ => mret (Some s)
           | None, Some fallback => try_broker fallback symbol timeframe start_time end_time lookback_periods
           | None, None => mret None
           end
       end
     else mret None);
  match fetched, stored_rows with
  | Some s, _ => mret (Some s)
  | None, [] => mret None
  | None, _ =>
      candles ← lift (res_map candle_of_row stored_rows);
      s ← lift (CandleSequence.create symbol timeframe candles);
      mret (Some s)
  end.

Definition _persist_snapshot (snapshot : TechnicalSnapshot.t) (user_id : string) : io W unit :=
  attempt
    (columns ← lift (snapshot_columns snapshot);
     snapshot_create user_id (TechnicalSnapshot.symbol snapshot)
       (timeframe_value (TechnicalSnapshot.timeframe snapshot)) (TechnicalSnapshot.timestamp snapshot) columns)
    (fun _ => mret tt).

Definition _persist_all_results (snapshots : list (Timeframe * TechnicalSnapshot.t)) (smc : list SMCCandidate.t)
    (snd : list SnDCandidate.t) (user_id : string) : io W unit :=
  _ ← uow_enter;
  _ ← io_for (fun _ kv => _persist_snapshot (Datatypes.snd kv) user_id) snapshots tt;
  _ ← attempt (bulk_create_smc_candidates smc user_id) (fun _ => mret tt);
  _ ← attempt (bulk_create_snd_candidates snd user_id) (fun _ => mret tt);
  uow_exit.

Definition _run_smc_detection (htf ltf : CandleSequence.t) : res (list SMCCandidate.t) :=
  SMCDetector.detect_patterns (smc_detector self) htf ltf.
Definition _run_snd_detection (htf ltf : CandleSequence.t) : res (list SnDCandidate.t) :=
  SnDDetector.detect_patterns (snd_detector self) htf ltf.

Definition found : Type := list SMCCandidate.t * list SnDCandidate.t.

(** Both frameworks on one pair of timeframes; the messages come before each. *)
Definition detect_pair (sequences : list (Timeframe * CandleSequence.t)) (pulse : bool)
    (announce_smc announce_snd : io W unit) (acc : found) (higher_tf lower_tf : Timeframe) : io W found :=
  _ ← announce_smc;
  htf ← lift (table_index higher_tf sequences);
  ltf ← lift (table_index lower_tf sequences);
  smc ← lift (_run_smc_detection htf ltf);
  _ ← announce_snd;
  snd ← lift (_run_snd_detection htf ltf);
  mret (fst acc ++ smc, Datatypes.snd acc ++ snd).

Definition arrow (higher_tf lower_tf : Timeframe) : string :=
  (timeframe_value higher_tf ++ "→" ++ timeframe_value lower_tf)%string.

(** Phases 3 to 5. *)
Definition detect_all (sequences : list (Timeframe * CandleSequence.t)) (available_htfs available_ltfs : list Timeframe)
    (pulse : bool) : io W found :=
  acc ← io_for (fun acc '(higher_tf, lower_tf) =>
      detect_pair sequences pulse
        (emit pulse "SHIMMING" ("Scanning " ++ arrow higher_tf lower_tf ++ " SMC zones")%string false)
        (emit pulse "SHIMMING" ("Scanning " ++ arrow higher_tf lower_tf ++ " SnD zones")%string false)
        acc higher_tf lower_tf) (adjacent available_htfs) ([], []);
  acc ← io_for (fun acc '(higher_tf, lower_tf) =>
      detect_pair sequences pulse
        (emit pulse "PONTIFICATING" ("LTF confirmation " ++ arrow higher_tf lower_tf)%string false) (mret tt)
        acc higher_tf lower_tf) (adjacent available_ltfs) acc;
  match last available_htfs, available_ltfs with
  | Some lowest_htf, highest_ltf :: _ =>
      if table_has lowest_htf sequences && table_has highest_ltf sequences
         && TimeframeManager.is_htf_of lowest_htf highest_ltf
      then detect_pair sequences pulse (mret tt) (mret tt) acc lowest_htf highest_ltf
      else mret acc
  | _, _ => mret acc
  end.

(** Phase 6. *)
Definition alignment_entry (higher_tf lower_tf : Timeframe) (m : MultiTimeframeSnapshot.t) : dict :=
  [("htf_timeframe", VStr (timeframe_value higher_tf)); ("ltf_timeframe", VStr (timeframe_value lower_tf));
   ("trends_aligned", VBool (MultiTimeframeSnapshot.trends_aligned m));
   ("htf_ltf_aligned", VBool (MultiTimeframeSnapshot.htf_ltf_aligned m));
   ("htf_trend", VStr (direction_value (MultiTimeframeSnapshot.htf_trend m)));
   ("ltf_trend", VStr (direction_value (MultiTimeframeSnapshot.ltf_trend m)));
   ("alignment_metadata", VDict (MultiTimeframeSnapshot.alignment_metadata m))].

Definition align_all (snapshots : list (Timeframe * TechnicalSnapshot.t)) (ordered_tfs : list Timeframe)
    : res (list (string * dict)) :=
  for_each (fun acc '(higher_tf, lower_tf) =>
    htf ← table_index higher_tf snapshots;
    ltf ← table_index lower_tf snapshots;
    m ← AlignmentService.check_alignment (alignment_service self) htf ltf;
    Ok (table_set (timeframe_value higher_tf ++ "_" ++ timeframe_value lower_tf)%string
          (alignment_entry higher_tf lower_tf m) acc)) (adjacent ordered_tfs) [].

Definition by_minutes_desc (tfs : list Timeframe) : list Timeframe :=
  py_sorted (fun a b => TIMEFRAME_MINUTES b <? TIMEFRAME_MINUTES a) tfs.

(** Phases 1 and 2. *)
Definition fetch_all (symbol : string) (lookback_periods : Z) (broker : Broker W) (user_id : string) (pulse : bool)
    (all_timeframes : list Timeframe) : io W (list (Timeframe * CandleSequence.t)) :=
  io_for (fun sequences tf =>
    _ ← emit pulse "SHARDING" ("Fetching " ++ timeframe_value tf ++ " candle data")%string false;
    seq ← _fetch_candles symbol tf (_get_adaptive_lookback tf lookback_periods) (Some broker) user_id;
    mret (match seq with Some s => table_set tf s sequences | None => sequences end)) all_timeframes [].

Definition snapshot_all (sequences : list (Timeframe * CandleSequence.t)) (pulse : bool)
    : io W (list (Timeframe * TechnicalSnapshot.t)) :=
  io_for (fun snapshots '(tf, seq) =>
    _ ← emit pulse "DETECTING" ("Analyzing " ++ timeframe_value tf ++ " market structure")%string false;
    snapshot ← _build_enriched_snapshot self seq pulse;
    mret (match snapshot with Some s => table_set tf s snapshots | None => snapshots end)) sequences [].

(** The body of the [try]. *)
Definition analyze_body (symbol : string) (lookback_periods : Z) (broker : Broker W) (user_id : string) (pulse : bool)
    (htf_timeframes ltf_timeframes : list Timeframe) : io W result :=
  let all_timeframes := htf_timeframes ++ ltf_timeframes in
  let insufficient :=
    lift (_build_result smc_dump snd_dump symbol "insufficient_data" htf_timeframes ltf_timeframes [] [] [] []
            "NEUTRAL" None) in
  _ ← emit pulse "LOADING" "Initialisation complete" true;
  sequences ← fetch_all symbol lookback_periods broker user_id pulse all_timeframes;
  match sequences with
  | [] => insufficient
  | _ =>
      _ ← emit pulse "SHARDING" "Candle acquisition complete" true;
      snapshots ← snapshot_all sequences pulse;
      match snapshots with
      | [] => insufficient
      | _ =>
          _ ← emit pulse "DETECTING" "Structural analysis complete" true;
          let available_htfs := List.filter (fun tf => table_has tf sequences) htf_timeframes in
          let available_ltfs := List.filter (fun tf => table_has tf sequences) ltf_timeframes in
          '(all_smc, all_snd) ← detect_all sequences available_htfs available_ltfs pulse;
          _ ← emit pulse "SHIMMING" "Zone scanning complete" true;
          _ ← emit pulse "PONTIFICATING" "Liquidity & confirmation complete" true;
          _ ← emit pulse "FERMENTING" "Performing multi-timeframe trend alignment" false;
          let ordered_tfs := List.filter (fun tf => table_has tf snapshots) all_timeframes in
          alignments ← lift (align_all snapshots ordered_tfs);
          let overall_trend := _determine_overall_trend snapshots ordered_tfs in
          _ ← emit pulse "FERMENTING" "Deduplicating candidates" false;
          all_smc ← lift (_deduplicate_smc_candidates all_smc);
          all_snd ← lift (_deduplicate_snd_candidates all_snd);
          _ ← emit pulse "ACTIONING" "Persisting analysis results" false;
          _ ← _persist_all_results snapshots all_smc all_snd user_id;
          _ ← emit pulse "ACTIONING" "Analysis results persisted" true;
          _ ← emit pulse "FERMENTING" ("TA complete — " ++ str_nat (py_len all_smc) ++ " SMC, " ++
                str_nat (py_len all_snd) ++ " SnD candidates")%string true;
          lift (_build_result smc_dump snd_dump symbol "success" htf_timeframes ltf_timeframes snapshots all_smc
                  all_snd alignments overall_trend None)
      end
  end.

Definition analyze (symbol : string) (lookback_periods : Z) (broker_client : option (Broker W)) (user_id : string)
    (pulse : bool) : io W result :=
  match broker_client with
  | None =>
      lift (_build_result smc_dump snd_dump symbol "error" (htf_timeframes (_config self)) (ltf_timeframes (_config self))
              [] [] [] [] "NEUTRAL"
              (Some "No broker connection configured. Please set up a broker connection via the dashboard."))
  | Some broker =>
      let htf := by_minutes_desc (htf_timeframes (_config self)) in
      let ltf := by_minutes_desc (ltf_timeframes (_config self)) in
      attempt (analyze_body symbol lookback_periods broker user_id pulse htf ltf)
        (fun e => lift (_build_result smc_dump snd_dump symbol "error" htf ltf [] [] [] [] "NEUTRAL"
                          (Some (exn_str e))))
  end.
End Analysis.
End TAOrchestrator.
