(* ===== verification/OrchestratorFacts.v ===== *)
(** * Correctness of the orchestrator

    Deduplication, the filtered result, the structure of one timeframe, and the
    whole analysis against its interfaces. *)

From Stdlib Require Import ZArith Lia Bool String SpecFloat Sorting.Sorted.
From stdpp Require Import base list strings relations.
From S2P Require Import Prelude Loops PyFloat FloatRound FloatMono FloatGrid FloatSum FloatFloor PyRound PyText PyRepr PyIO Constants PriceMath StopLoss Candles Swings Sessions Fibonacci Liquidity ZoneModels StructureModels Candidates CandlePatterns SMCConfig SMCStructure SMCZones SMCValidators SMCDetector SMCSoundness Compression SnDConfig SnDDetectors SnDDetector Snapshots LTFConfirmation Orchestrator.

#[local] Open Scope string_scope.
#[local] Open Scope Z_scope.
#[local] Open Scope list_scope.

(** ** Tables *)

Module TableFacts.
Section Tables.
Context {K V : Type} `{EqDecision K}.
Implicit Types (d : list (K * V)) (k : K).

Lemma table_get_set_eq k v d : table_get k (table_set k v d) = Some v.
Proof.
  induction d as [|[k' v'] d IH]; cbn [table_set table_get]; [by rewrite bool_decide_true|].
  destruct (bool_decide (k = k')) eqn:E; cbn [table_get]; rewrite E; done.
Qed.

Lemma table_get_set_ne k k' v d : k' <> k -> table_get k' (table_set k v d) = table_get k' d.
Proof.
  intros Hne. induction d as [|[k2 v2] d IH]; cbn [table_set table_get]; [by rewrite bool_decide_false|].
  destruct (bool_decide_reflect (k = k2)) as [->|]; cbn [table_get]; [by rewrite bool_decide_false|].
  destruct (bool_decide (k' = k2)); [done|apply IH].
Qed.

Lemma table_get_In k d : forall v, table_get k d = Some v -> In (k, v) d.
Proof.
  induction d as [|[k2 v2] d IH]; cbn [table_get]; [done|]. intros v.
  destruct (bool_decide_reflect (k = k2)) as [->|]; [intros [= ->]; by left|]. intros Hg. right. auto.
Qed.

Lemma table_get_NoDup k v d : NoDup (map fst d) -> In (k, v) d -> table_get k d = Some v.
Proof.
  induction d as [|[k2 v2] d IH]; cbn [map fst table_get]; intros Hn Hin; [done|].
  apply NoDup_cons in Hn as [Hk Hn]. destruct Hin as [[= -> ->]|Hin]; [by rewrite bool_decide_true|].
  rewrite bool_decide_false; [auto|]. intros ->. apply Hk, list_elem_of_In, in_map_iff. by exists (k2, v).
Qed.

Lemma table_set_keys k v d :
  map fst (table_set k v d) = map fst d ++ (if bool_decide (k ∈ map fst d) then [] else [k]).
Proof.
  induction d as [|[k2 v2] d IH]; cbn [table_set map fst]; [done|].
  destruct (bool_decide_reflect (k = k2)) as [->|Hne]; cbn [map fst].
  - rewrite bool_decide_true by (by left). by rewrite app_nil_r.
  - rewrite IH. cbn [app]. f_equal. f_equal.
    rewrite (bool_decide_ext _ (k ∈ k2 :: map fst d)); [done|]. rewrite elem_of_cons. naive_solver.
Qed.

Lemma table_set_NoDup k v d : NoDup (map fst d) -> NoDup (map fst (table_set k v d)).
Proof.
  intros Hn. rewrite table_set_keys. destruct (bool_decide_reflect (k ∈ map fst d)); [by rewrite app_nil_r|].
  apply NoDup_app. split; [done|]. split; [|apply NoDup_singleton]. intros x Hx Hin. apply list_elem_of_singleton in Hin. by subst.
Qed.


End Tables.
End TableFacts.

(** ** Deduplication *)

Module DedupeFacts.
Import TAOrchestrator TableFacts.

Section Setups.
Context {A : Type} `{Candidate A}.

(** The entry price on the grid of four decimals. *)
Definition rounded (c : A) : float := match py_round (c_entry_price c) 4 with Ok p => p | Raise _ => S754_nan end.

Definition setup_ok (c : A) : Prop := py_round (c_entry_price c) 4 = Ok (rounded c) /\ num (rounded c).

(** An entry price that is a number and not negative. *)
Definition priced (c : A) : Prop := num (c_entry_price c) /\ 0 <= fv (c_entry_price c).

Lemma priced_setup_ok c : priced c -> setup_ok c.
Proof.
  intros [Nc Hc]. destruct (py_round_num _ 4 Nc Hc) as (r & E & Nr & _).
  unfold setup_ok, rounded. rewrite E. auto.
Qed.

(** The same symbol, pattern and direction, and the same price on the grid. *)
Definition same_setup (a b : A) : Prop :=
  c_symbol a = c_symbol b /\ c_pattern a = c_pattern b /\ c_direction a = c_direction b /\ fv (rounded a) = fv (rounded b).

Definition setup_of (c : A) : setup_key := (c_symbol c, c_pattern c, c_direction c, rounded c).

Lemma setup_eqb_iff a b : setup_ok a -> setup_ok b -> setup_eqb (setup_of a) (setup_of b) = true <-> same_setup a b.
Proof.
  intros [_ Na] [_ Nb]. unfold setup_eqb, setup_of, same_setup. rewrite !andb_true_iff, String.eqb_eq, !bool_decide_eq_true.
  rewrite feq_fv by done. rewrite Z.eqb_eq. tauto.
Qed.

Lemma same_setup_sym a b : same_setup a b -> same_setup b a.
Proof. unfold same_setup. intuition. Qed.
Lemma same_setup_trans a b c : same_setup a b -> same_setup b c -> same_setup a c.
Proof. unfold same_setup. intuition congruence. Qed.

(** Position [i] holds the first candidate of its setup. *)
Definition first_at (l : list A) (i : nat) : Prop :=
  exists c, l !! i = Some c /\ forall j c', (j < i)%nat -> l !! j = Some c' -> ~ same_setup c' c.

(** What the loop holds after the candidates [done]. *)
Record deduped (done : list A) (acc : list setup_key * list A) : Prop := {
  dd_seen : fst acc = map setup_of (snd acc);
  dd_kept : forall u, In u (snd acc) -> In u done;
  dd_cover : forall c, In c done -> exists u, In u (snd acc) /\ same_setup u c;
  dd_index : exists idx, StronglySorted lt idx /\ Forall2 (fun i c => done !! i = Some c) idx (snd acc) /\
    forall i, In i idx <-> first_at done i }.

Lemma first_at_snoc l x i : (i < length l)%nat -> first_at (l ++ [x]) i <-> first_at l i.
Proof.
  intros Hi. unfold first_at. rewrite lookup_app_l by done. split; intros (c & Ec & Hf); exists c; (split; [done|]).
  - intros j c' Hj Ej. apply (Hf j); [done|]. by rewrite lookup_app_l by lia.
  - intros j c' Hj Ej. rewrite lookup_app_l in Ej by lia. eauto.
Qed.

Lemma first_at_length l i : first_at l i -> (i < length l)%nat.
Proof. intros (c & Ec & _). by apply lookup_lt_Some in Ec. Qed.

Lemma unique_step_spec done x acc :
  Forall setup_ok done -> setup_ok x -> deduped done acc ->
  exists acc', unique_step acc x = Ok acc' /\ deduped (done ++ [x]) acc'.
Proof.
  intros Hok Hx [Hseen Hkept Hcov (idx & Hs & Hf & Hi)]. destruct acc as [seen unique]. cbn [fst snd] in *. subst seen.
  rewrite List.Forall_forall in Hok. unfold unique_step. rewrite (proj1 Hx). cbn [mbind res_bind].
  change (c_symbol x, c_pattern x, c_direction x, rounded x) with (setup_of x). eexists. split; [reflexivity|].
  assert (He : existsb (setup_eqb (setup_of x)) (map setup_of unique) = true <-> exists c, In c done /\ same_setup c x).
  { rewrite existsb_exists. split.
    - intros (k & Hk & Ek). apply in_map_iff in Hk as (u & <- & Hu). exists u. split; [auto|].
      apply same_setup_sym, setup_eqb_iff; auto.
    - intros (c & Hc & Hsame). destruct (Hcov c Hc) as (u & Hu & Huc). exists (setup_of u). split; [by apply in_map|].
      apply setup_eqb_iff; [done|auto|]. apply same_setup_sym. by eapply same_setup_trans. }
  assert (Hidx : forall i, In i idx -> (i < length done)%nat) by (intros i Hin; by apply first_at_length, Hi).
  assert (Hlast : first_at (done ++ [x]) (length done) <-> ~ exists c, In c done /\ same_setup c x).
  { unfold first_at. rewrite list_lookup_middle by done. split.
    - intros (c & [= <-] & Hn) (c' & Hin & Hsame). apply list_elem_of_In, list_elem_of_lookup in Hin as (j & Hj).
      apply (Hn j c'); [by apply lookup_lt_Some in Hj| |done]. by apply lookup_app_l_Some.
    - intros Hn. exists x. split; [done|]. intros j c' Hj Ej Hsame. apply Hn. exists c'. split; [|done].
      rewrite lookup_app_l in Ej by done. apply list_elem_of_lookup_2 in Ej. by apply list_elem_of_In. }
  assert (Hf' : Forall2 (fun i c => (done ++ [x]) !! i = Some c) idx unique).
  { eapply Forall2_impl; [exact Hf|]. intros i c E. by apply lookup_app_l_Some. }
  assert (Hi' : forall i, In i idx \/ (i = length done /\ first_at (done ++ [x]) i) <-> first_at (done ++ [x]) i).
  { intros i. split.
    - intros [Hin|[_ ?]]; [|done]. apply first_at_snoc; auto. by apply Hi.
    - intros Hfa. destruct (decide (i < length done)%nat) as [Hlt|]; [left; apply Hi; by apply first_at_snoc in Hfa|].
      right. split; [|done]. apply first_at_length in Hfa. rewrite length_app in Hfa. simpl in Hfa. lia. }
  destruct (existsb _ (map setup_of unique)) eqn:E.
  - assert (Hdup : exists c, In c done /\ same_setup c x) by (by apply He). constructor; cbn [fst snd]; [done| | |].
    + intros u Hu. apply in_app_iff. auto.
    + intros c Hc. apply in_app_iff in Hc as [Hc|[<-|[]]]; [auto|].
      destruct Hdup as (c & Hc & Hsame). destruct (Hcov c Hc) as (u & Hu & Huc). exists u. split; [done|].
      by eapply same_setup_trans.
    + exists idx. split; [done|]. split; [done|]. intros i. rewrite <- Hi'. split; [by left|].
      intros [?|[-> Hfa]]; [done|]. by apply Hlast in Hfa.
  - assert (Hnew : ~ exists c, In c done /\ same_setup c x) by (rewrite <- He; congruence).
    constructor; cbn [fst snd].
    + by rewrite map_app.
    + intros u Hu. apply in_app_iff in Hu as [Hu|Hu]; apply in_app_iff; auto.
    + intros c Hc. apply in_app_iff in Hc as [Hc|[<-|[]]].
      * destruct (Hcov c Hc) as (u & Hu & Huc). exists u. split; [apply in_app_iff; auto|done].
      * exists x. split; [apply in_app_iff; right; by left|]. by unfold same_setup.
    + exists (idx ++ [length done]). split; [|split].
      * apply StronglySorted_snoc_lt; [done|]. auto.
      * apply Forall2_app; [done|]. constructor; [|constructor]. by apply list_lookup_middle.
      * intros i. rewrite <- Hi', in_app_iff. split; [intros [?|[<-|[]]]; [by left|right; split; [done|by apply Hlast]]|].
        intros [?|[-> _]]; [by left|right; by left].
Qed.

(** Deduplication across timeframe pairs keeps exactly the first candidate of
    each setup.  For candidates whose entry price is a number the function
    returns; the kept candidates sit at increasing positions of the input, and a
    position is kept if and only if no earlier candidate has the same symbol,
    pattern, direction and entry price rounded to four decimals. *)
Theorem unique_exact (l : list A) :
  Forall priced l ->
  exists unique idx, _deduplicate_candidates l = Ok unique /\ StronglySorted lt idx /\
    Forall2 (fun i c => l !! i = Some c) idx unique /\ forall i, In i idx <-> first_at l i.
Proof.
  intros Hl. assert (Hok : Forall setup_ok l) by (eapply Forall_impl; [exact Hl|apply priced_setup_ok]).
  destruct (for_each_list unique_step deduped l ([], [])) as ((seen & unique) & E & Hd).
  - constructor; [done..|]. exists []. split; [constructor|]. split; [constructor|]. intros i. split; [done|].
    intros Hf. apply first_at_length in Hf. simpl in Hf. lia.
  - intros pre x rest acc -> Hacc. apply Forall_app in Hok as [Hpre Hrest]. apply Forall_cons in Hrest as [Hx _].
    by apply unique_step_spec.
  - destruct Hd as [_ _ _ (idx & Hs & Hf & Hi)]. exists unique, idx. split; [|done].
    unfold _deduplicate_candidates. by rewrite E.
Qed.
End Setups.

(** ** The best candidate of each zone *)

Section Zones.
Context {A : Type} `{Candidate A} (symbol : string).
Implicit Types (c : A) (l : list A) (k : zone_key).

(** The zone a candidate falls in, where it has one. *)
Definition key_of c : option zone_key :=
  match _zone_bucket (fst (c_zone c)) (snd (c_zone c)) (c_timeframe c) symbol with
  | Ok (Some b) => Some (c_timeframe c, c_direction c, b)
  | _ => None
  end.

Definition rank_of c : Z * Z * float :=
  match _candidate_rank_key c with Ok r => r | Raise _ => (0, 0, S754_nan) end.

Definition rankable c : Prop :=
  (exists b, _zone_bucket (fst (c_zone c)) (snd (c_zone c)) (c_timeframe c) symbol = Ok b) /\
  _candidate_rank_key c = Ok (rank_of c) /\ num (snd (rank_of c)).

(** What is not beaten by [b] is not beaten by what [b] does not beat. *)
Lemma rank_gt_negtrans a b d : num (snd a) -> num (snd b) -> num (snd d) ->
  rank_gt d b = true -> rank_gt a b = false -> rank_gt a d = false.
Proof.
  destruct a as [[a1 a2] a3], b as [[b1 b2] b3], d as [[d1 d2] d3]. cbn [snd rank_gt]. intros Na Nb Nd.
  rewrite !flt_fv by done. repeat case_match; lia.
Qed.

Lemma rank_gt_le_trans a b d : num (snd a) -> num (snd b) -> num (snd d) ->
  rank_gt a b = true -> rank_gt d b = false -> rank_gt a d = true.
Proof.
  destruct a as [[a1 a2] a3], b as [[b1 b2] b3], d as [[d1 d2] d3]. cbn [snd rank_gt]. intros Na Nb Nd.
  rewrite !flt_fv by done. repeat case_match; lia.
Qed.

Lemma rank_gt_irrefl a : num (snd a) -> rank_gt a a = false.
Proof. destruct a as [[a1 a2] a3]. cbn [snd rank_gt]. intros Na. rewrite flt_fv by done. rewrite !Z.eqb_refl. cbn. lia. Qed.

(** [c] at position [i] is the first of the highest rank in zone [k]. *)
Definition best_of l k (i : nat) c : Prop :=
  l !! i = Some c /\ key_of c = Some k /\
  forall j c', l !! j = Some c' -> key_of c' = Some k ->
    rank_gt (rank_of c') (rank_of c) = false /\ ((j < i)%nat -> rank_gt (rank_of c) (rank_of c') = true).

Definition no_zone c : bool := match key_of c with None => true | Some _ => false end.

Record zoned (done : list A) (acc : list (zone_key * A) * list A) : Prop := {
  zd_keys : NoDup (map fst (fst acc));
  zd_bypass : snd acc = List.filter no_zone done;
  zd_best : forall k, match table_get k (fst acc) with
    | Some c => exists i, best_of done k i c
    | None => forall c, In c done -> key_of c <> Some k
    end }.

Lemma best_of_snoc l x k i c :
  best_of l k i c -> (key_of x = Some k -> rank_gt (rank_of x) (rank_of c) = false) -> best_of (l ++ [x]) k i c.
Proof.
  intros (Hi & Hk & Hb) Hx. split; [by apply lookup_app_l_Some|]. split; [done|]. intros j c' Hj Hk'.
  apply lookup_app_Some in Hj as [Hj|[Hlen Hj]]; [eauto|].
  apply list_lookup_singleton_Some in Hj as [_ <-]. split; [auto|]. apply lookup_lt_Some in Hi. lia.
Qed.

Lemma best_of_last l x k :
  key_of x = Some k -> num (snd (rank_of x)) ->
  (forall c, In c l -> key_of c = Some k -> rank_gt (rank_of c) (rank_of x) = false /\ rank_gt (rank_of x) (rank_of c) = true) ->
  best_of (l ++ [x]) k (length l) x.
Proof.
  intros Hk Nx Hb. split; [by apply list_lookup_middle|]. split; [done|]. intros j c' Hj Hk'.
  apply lookup_app_Some in Hj as [Hj|[Hlen Hj]].
  - apply list_elem_of_lookup_2 in Hj. apply list_elem_of_In in Hj. destruct (Hb c' Hj Hk'). auto.
  - apply list_lookup_singleton_Some in Hj as [Hz <-]. split; [by apply rank_gt_irrefl|lia].
Qed.

Lemma filter_snoc (p : A -> bool) l x : List.filter p (l ++ [x]) = List.filter p l ++ (if p x then [x] else []).
Proof. by rewrite List.filter_app. Qed.

Lemma dedupe_step_spec done x acc :
  Forall rankable done -> rankable x -> zoned done acc ->
  exists acc', dedupe_step symbol acc x = Ok acc' /\ zoned (done ++ [x]) acc'.
Proof.
  intros Hok ((b & Eb) & Er & Nx) [Hn Hby Hbest]. destruct acc as [best bypass]. cbn [fst snd] in *. subst bypass.
  rewrite List.Forall_forall in Hok. unfold dedupe_step. destruct (c_zone x) as [zl zu] eqn:Ez.
  cbn [fst snd] in Eb. rewrite Eb. cbn [mbind res_bind].
  assert (Hkey : key_of x = match b with Some b => Some (c_timeframe x, c_direction x, b) | None => None end).
  { unfold key_of. rewrite Ez. cbn [fst snd]. by rewrite Eb. }
  destruct b as [b|]; [set (k := (c_timeframe x, c_direction x, b) : zone_key) in *|]; cycle 1.
  { eexists. split; [reflexivity|]. constructor; cbn [fst snd]; [done| |].
    - rewrite filter_snoc. unfold no_zone at 3. by rewrite Hkey.
    - intros k. specialize (Hbest k). destruct (table_get k best) as [c|].
      + destruct Hbest as (i & Hi). exists i. apply best_of_snoc; [done|]. by rewrite Hkey.
      + intros c Hc. apply in_app_iff in Hc as [Hc|[<-|[]]]; [auto|]. by rewrite Hkey. }
  assert (Hfil : List.filter no_zone (done ++ [x]) = List.filter no_zone done).
  { rewrite filter_snoc. unfold no_zone at 2. by rewrite Hkey, app_nil_r. }
  assert (Hother : forall k', k' <> k -> match table_get k' best with
    | Some c => exists i, best_of (done ++ [x]) k' i c
    | None => forall c, In c (done ++ [x]) -> key_of c <> Some k' end).
  { intros k' Hne. specialize (Hbest k'). destruct (table_get k' best) as [c|].
    - destruct Hbest as (i & Hi). exists i. apply best_of_snoc; [done|]. rewrite Hkey. congruence.
    - intros c Hc. apply in_app_iff in Hc as [Hc|[<-|[]]]; [auto|]. rewrite Hkey. congruence. }
  pose proof (Hbest k) as Hk. destruct (table_get k best) as [c|] eqn:Eg.
  - destruct Hk as (i & Hi). assert (Hc : In c done) by (by eapply list_elem_of_In, list_elem_of_lookup_2, (proj1 Hi)).
    destruct (Hok c Hc) as (_ & Ec & Nc). rewrite Er, Ec. cbn [mbind res_bind].
    destruct (rank_gt (rank_of x) (rank_of c)) eqn:Egt; eexists; (split; [reflexivity|]); constructor; cbn [fst snd].
    + by apply table_set_NoDup.
    + by rewrite Hfil.
    + intros k'. destruct (decide (k' = k)) as [->|Hne]; [|rewrite table_get_set_ne by done; by apply Hother].
      rewrite table_get_set_eq. exists (length done). apply best_of_last; [done|done|]. intros d Hd Hkd.
      apply list_elem_of_In, list_elem_of_lookup in Hd as (j & Hj).
      destruct Hi as (_ & _ & Hb). destruct (Hb j d Hj Hkd) as [Hge _].
      assert (Nd : num (snd (rank_of d))) by (apply Hok; by eapply list_elem_of_In, list_elem_of_lookup_2).
      split; [by apply (rank_gt_negtrans _ (rank_of c))|].
      by apply (rank_gt_le_trans _ (rank_of c)).
    + done.
    + by rewrite Hfil.
    + intros k'. destruct (decide (k' = k)) as [->|Hne]; [|by apply Hother]. rewrite Eg. exists i. by apply best_of_snoc.
  - cbn [mbind res_bind]. eexists. split; [reflexivity|]. constructor; cbn [fst snd].
    + by apply table_set_NoDup.
    + by rewrite Hfil.
    + intros k'. destruct (decide (k' = k)) as [->|Hne]; [|rewrite table_get_set_ne by done; by apply Hother].
      rewrite table_get_set_eq. exists (length done). apply best_of_last; [done|done|]. intros d Hd Hkd. by destruct (Hk d Hd).
Qed.


(** *** The bucket of a zone *)

Definition bucket_width (tf : Timeframe) : float :=
  fmul (fmul (of_Z 2) (of_Z (_ZONE_PIP_TOLERANCE tf))) (pip_float symbol).

(** Prices up to 10^11. *)
Definition zone_cap : float := of_Z (10 ^ 11).

Lemma bucket_width_facts tf :
  fin (bucket_width tf) /\ unit_pow (-900) <= fv (bucket_width tf) /\ fv zone_cap < 2 ^ 49 * fv (bucket_width tf).
Proof.
  unfold bucket_width. destruct (pip_float_cases symbol) as [->|[->| ->]], tf; vm_compute; repeat split; congruence.
Qed.

Definition zone_midpoint (lower upper : float) : float := fdiv_ieee (fadd lower upper) (of_Z 2).

(** Both bounds are prices, in order. *)
Definition zone_ok (lower upper : float) : Prop :=
  price_ok lower /\ price_ok upper /\ fv lower <= fv upper <= fv zone_cap.

(** The bucket is the floor of the midpoint over the width, exactly. *)
Lemma zone_bucket_exact lower upper tf :
  zone_ok lower upper ->
  fv lower <= fv (zone_midpoint lower upper) <= fv upper /\
  _zone_bucket (Some lower) (Some upper) tf symbol =
    Ok (Some (fv (zone_midpoint lower upper) / fv (bucket_width tf))).
Proof.
  intros (Hl & Hu & Ho). destruct (BuilderFacts.average_between upper lower Hu Hl ltac:(lia)) as (E & Fm & Hm).
  unfold zone_midpoint. rewrite (fadd_comm lower upper). split; [done|].
  destruct Hl as [Fl Hl], Hu as [Fu Hu]. destruct (bucket_width_facts tf) as (Fw & Hw & Hq).
  assert (0 < unit_pow (-900)) by done. unfold _zone_bucket. rewrite (fadd_comm lower upper), E. cbn [mbind res_bind].
  destruct (pip_float_fin symbol) as [Fp Hp].
  fold (bucket_width tf).
  set (m := fdiv_ieee (fadd upper lower) (of_Z 2)) in *. set (w := bucket_width tf) in *.
  clearbody m w. assert (N0 := fin_num _ fin_fzero).
  rewrite !fle_fv by (assumption || (apply fin_num; assumption)). rewrite fv_fzero.
  rewrite !(proj2 (Z.leb_gt _ _)) by lia. cbn [orb].
  destruct (floordiv_exact m w Fm Fw) as (q & -> & Eq); [|done| |cbn [mbind res_bind]; by rewrite Eq].
  - split; [lia|]. assert (fv zone_cap < unit_pow 900) by done. lia.
  - apply Z.div_lt_upper_bound; lia.
Qed.

(** What the ranking and the bucket read: prices in order where there is a zone,
    an entry price that is a number, and a count of confluences, if there is one,
    that is not an infinite float. *)
Definition rankable_data c : Prop :=
  match c_zone c with (Some lower, Some upper) => zone_ok lower upper | _ => True end /\
  num (c_entry_price c) /\ returns (int_or_zero (dict_lookup "confluences" (c_metadata c))).

Lemma rankable_of_data c : rankable_data c -> rankable c.
Proof.
  intros (Hz & Np & (n & En)). unfold rankable, rank_of, _candidate_rank_key. rewrite En. cbn [mbind res_bind].
  split; [|done]. destruct (c_zone c) as [[lo|] [up|]]; cbn [fst snd]; [|by eexists..].
  destruct (zone_bucket_exact lo up (c_timeframe c) Hz) as [_ ->]. by eexists.
Qed.

Lemma zone_best l :
  Forall rankable_data l ->
  exists best, _dedupe_candidates_by_zone l symbol = Ok (map snd best ++ List.filter no_zone l) /\
    NoDup (map fst best) /\
    (forall k c, In (k, c) best -> exists i, best_of l k i c) /\
    (forall c k, In c l -> key_of c = Some k -> In k (map fst best)).
Proof.
  intros Hl. assert (Hok : Forall rankable l) by (eapply Forall_impl; [exact Hl|apply rankable_of_data]).
  destruct (for_each_list (dedupe_step symbol) zoned l ([], [])) as ((best & bypass) & E & [Hn Hby Hb]).
  - constructor; [constructor|done|]. intros k. cbn [table_get fst]. intros c [].
  - intros pre x rest acc -> Hacc. apply Forall_app in Hok as [Hpre Hrest]. apply Forall_cons in Hrest as [Hx _].
    by apply dedupe_step_spec.
  - cbn [fst snd] in *. subst bypass. exists best. unfold _dedupe_candidates_by_zone. rewrite E.
    split; [done|]. split; [done|]. split.
    + intros k c Hin. specialize (Hb k). by rewrite (table_get_NoDup k c best Hn Hin) in Hb.
    + intros c k Hc Hk. specialize (Hb k). destruct (table_get k best) as [d|] eqn:Eg; [|by destruct (Hb c Hc)].
      apply table_get_In in Eg. by apply (in_map fst) in Eg.
Qed.

(** C16: deduplication by zone keeps exactly the best candidate of each zone.  A
    candidate with a zone falls in the bucket given by its timeframe, its direction
    and the floor of the zone's midpoint over the width of a bucket, computed
    without rounding error (prices up to 10^11).  The function returns one candidate
    for each bucket that occurs, the first of the highest rank (confluences, then
    flags, then entry price), followed by every candidate without a zone in the
    order given. *)
Theorem zone_dedupe_exact l :
  Forall rankable_data l ->
  (forall c lower upper, In c l -> c_zone c = (Some lower, Some upper) ->
     key_of c = Some (c_timeframe c, c_direction c,
                      fv (zone_midpoint lower upper) / fv (bucket_width (c_timeframe c)))) /\
  exists best, _dedupe_candidates_by_zone l symbol = Ok (map snd best ++ List.filter no_zone l) /\
    NoDup (map fst best) /\
    (forall k c, In (k, c) best -> exists i, best_of l k i c) /\
    (forall c k, In c l -> key_of c = Some k -> In k (map fst best)).
Proof.
  intros Hl. split; [|by apply zone_best]. intros c lo up Hc Ez. rewrite List.Forall_forall in Hl.
  destruct (Hl c Hc) as [Hz _]. rewrite Ez in Hz. destruct (zone_bucket_exact lo up (c_timeframe c) Hz) as [_ E].
  unfold key_of. rewrite Ez. cbn [fst snd]. by rewrite E.
Qed.
End Zones.

(** *** Concrete candidates *)

(** A long on EURUSD with an order block as its zone. *)
Definition sample_candidate (pattern : CandidatePattern) (h entry lower upper confluences : Z)
    : SMCCandidate.t :=
  SMCCandidate.mk "EURUSD" H1 pattern BULLISH (mk_datetime 0 (Some 0)) (lit entry 5) (lit 107000 5) None H4 H1
    true None None false None None false None None (Some (lit upper 5)) (Some (lit lower 5))
    (Some (mk_datetime (h * us_per_hour) (Some 0))) None None None false None None false None false None None None None
    [("confluences", VInt confluences)].

(** Two of one setup: the entry prices agree to four decimals. *)
Definition sample_setups : list SMCCandidate.t :=
  [sample_candidate SH_BMS_RTO_BULLISH 0 108004 107900 108100 2;
   sample_candidate SH_BMS_RTO_BULLISH 2 107996 107900 108100 5;
   sample_candidate TURTLE_SOUP_LONG 1 108004 107900 108100 3].

Lemma unique_exact_witness :
  (exists unique idx, _deduplicate_candidates sample_setups = Ok unique /\ StronglySorted lt idx /\
     Forall2 (fun i c => sample_setups !! i = Some c) idx unique /\ forall i, In i idx <-> first_at sample_setups i) /\
  map (fun c => SMCCandidate.pattern c) <$> _deduplicate_candidates sample_setups =
    Ok [SH_BMS_RTO_BULLISH; TURTLE_SOUP_LONG].
Proof.
  split; [|vm_compute; reflexivity]. apply (unique_exact sample_setups).
  repeat constructor; vm_compute; congruence.
Defined.

Lemma sample_setups_ok : Forall rankable_data sample_setups.
Proof.
  unfold sample_setups. repeat apply Forall_cons_2; [..|apply Forall_nil_2];
    (split; [vm_compute; repeat split; congruence|split; [vm_compute; repeat split; congruence|eexists; reflexivity]]).
Qed.

Lemma zone_dedupe_exact_witness :
  (exists best : list (zone_key * SMCCandidate.t), _dedupe_candidates_by_zone sample_setups "EURUSD" =
     Ok (map snd best ++ List.filter (no_zone "EURUSD") sample_setups) /\ NoDup (map fst best)) /\
  map (fun c => SMCCandidate.metadata c) <$> _dedupe_candidates_by_zone sample_setups "EURUSD" =
    Ok [[("confluences", VInt 5)]].
Proof.
  split; [|vm_compute; reflexivity].
  destruct (zone_dedupe_exact "EURUSD" sample_setups) as [_ (best & E & Hn & _)]; [exact sample_setups_ok|].
  exists best. split; [exact E|exact Hn].
Defined.

(** Two zones a fifth of a pip apart can still fall in different buckets. *)
Example bucket_boundary :
  _zone_bucket (Some (lit 107939 5)) (Some (lit 108059 5)) H1 "EURUSD" = Ok (Some 179) /\
  _zone_bucket (Some (lit 107941 5)) (Some (lit 108061 5)) H1 "EURUSD" = Ok (Some 180).
Proof. vm_compute. auto. Qed.
End DedupeFacts.

(** ** The filtered result *)

Module ResultFacts.
Import TAOrchestrator TableFacts DedupeFacts.

(** No point of interest of a snapshot on [tf], formed at [ts], is gone. *)
Definition anchored_live (gone : TechnicalSnapshot.t -> list datetime) (snapshots : list (Timeframe * TechnicalSnapshot.t))
    (tf : Timeframe) (ts : option datetime) : Prop :=
  forall tf' s a, ts = Some a -> In (tf', s) snapshots -> TechnicalSnapshot.timeframe s = tf ->
    forall b, In b (gone s) -> instant b <> instant a.

Lemma is_dead_false gone snapshots tf ts :
  is_dead tf ts (dead_points gone snapshots) = false <-> anchored_live gone snapshots tf ts.
Proof.
  unfold is_dead, anchored_live, dead_points. destruct ts as [a|]; [|by split; [intros _ ? ? ? [=]|]].
  rewrite <- not_true_iff_false, existsb_exists. split.
  - intros Hn tf' s a' [= <-] Hs Htf b Hb Eb. apply Hn. exists (tf, b). split.
    + apply in_flat_map. exists (tf', s). split; [done|]. cbn [snd]. rewrite Htf. by apply (in_map (pair tf)).
    + cbn [fst snd]. rewrite bool_decide_true by done. unfold dt_eqb. by rewrite Eb, Z.eqb_refl.
  - intros Hl ([tf1 b] & Hin & E). apply in_flat_map in Hin as ((tf' & s) & Hs & Hin). cbn [fst snd] in *.
    apply in_map_iff in Hin as (b' & [= <- <-] & Hb). apply andb_true_iff in E as [E1 E2].
    apply bool_decide_eq_true in E1. apply Z.eqb_eq in E2. by destruct (Hl tf' s a eq_refl Hs E1 b' Hb).
Qed.

(** An order block, a gap or a level that is gone, by its time. *)
Lemma dead_obs_In s ts : In ts (dead_obs s) <->
  exists ob, In ob (TechnicalSnapshot.order_blocks s) /\ OrderBlock.mitigated ob = true /\ OrderBlock.timestamp ob = ts.
Proof. unfold dead_obs. rewrite in_map_iff. setoid_rewrite filter_In. naive_solver. Qed.

Definition smc_live snapshots (c : SMCCandidate.t) : Prop :=
  anchored_live dead_obs snapshots (SMCCandidate.ltf_timeframe c) (SMCCandidate.order_block_timestamp c) /\
  anchored_live dead_fvgs snapshots (SMCCandidate.ltf_timeframe c) (SMCCandidate.fvg_timestamp c).

Definition snd_live snapshots (c : SnDCandidate.t) : Prop :=
  anchored_live dead_qms snapshots (SnDCandidate.htf_timeframe c) (SnDCandidate.qml_timestamp c).

Lemma smc_is_live_iff snapshots c : _smc_is_live snapshots c = true <-> smc_live snapshots c.
Proof.
  unfold _smc_is_live, smc_live. rewrite <- !is_dead_false. repeat case_match; naive_solver.
Qed.

Lemma snd_is_live_iff snapshots c : _snd_is_live snapshots c = true <-> snd_live snapshots c.
Proof. unfold _snd_is_live, snd_live. rewrite <- is_dead_false. by rewrite negb_true_iff. Qed.

(** The candidates [kept] out of [l] by [live] and the zone of each. *)
Record kept_of {A} `{Candidate A} (symbol : string) (live : A -> Prop) (l kept : list A) : Prop := {
  ko_sound : forall c, In c kept -> In c l /\ live c;
  ko_complete : forall c, In c l -> live c -> exists c', In c' kept /\
    (c' = c \/ (key_of symbol c' = key_of symbol c /\ rank_gt (rank_of c) (rank_of c') = false));
  ko_distinct : forall c c' k, In c kept -> In c' kept -> key_of symbol c = Some k -> key_of symbol c' = Some k -> c = c' }.

Lemma dedupe_kept {A} `{Candidate A} symbol (live : A -> bool) (P : A -> Prop) l :
  (forall c, live c = true <-> P c) -> Forall (rankable_data) l ->
  yields (_dedupe_candidates_by_zone (List.filter live l) symbol) (kept_of symbol P l).
Proof.
  intros Hlive Hl. set (l' := List.filter live l).
  assert (Hl' : Forall rankable_data l').
  { rewrite List.Forall_forall in *. intros c Hc. apply filter_In in Hc as [Hc _]. auto. }
  assert (Hin : forall c, In c l' <-> In c l /\ P c) by (intros c; unfold l'; by rewrite filter_In, Hlive).
  destruct (zone_best symbol l' Hl') as (best & E & Hn & Hb & Hc). rewrite E. apply yields_ret.
  assert (Hbest : forall c, In c (map snd best ++ List.filter (no_zone symbol) l') ->
    In c l' /\ ((exists k, In (k, c) best /\ key_of symbol c = Some k) \/ key_of symbol c = None)).
  { intros c Hk. apply in_app_iff in Hk as [Hk|Hk].
    - apply in_map_iff in Hk as ((k & c') & <- & Hk). destruct (Hb k c' Hk) as (i & Ei & Ek & _). split.
      + by eapply list_elem_of_In, list_elem_of_lookup_2.
      + left. eauto.
    - apply filter_In in Hk as [Hk En]. split; [done|]. right. unfold no_zone in En. by destruct (key_of symbol c). }
  constructor.
  - intros c Hk. apply Hin. by apply Hbest.
  - intros c Hcl HP. assert (Hc' : In c l') by (by apply Hin). destruct (key_of symbol c) as [k|] eqn:Ek.
    + destruct (proj1 (in_map_iff _ _ _) (Hc c k Hc' Ek)) as ((k' & c') & Ek' & Hk'). cbn [fst] in Ek'. subst k'.
      exists c'. split; [apply in_app_iff; left; by apply (in_map snd) in Hk'|]. right.
      destruct (Hb k c' Hk') as (i & _ & Ekc & Hr). split; [by rewrite Ekc|].
      apply list_elem_of_In, list_elem_of_lookup in Hc' as (j & Hj). by apply (Hr j).
    + exists c. split; [|by left]. apply in_app_iff. right. apply filter_In. split; [done|]. unfold no_zone. by rewrite Ek.
  - intros c c' k Hk1 Hk2 E1 E2. apply Hbest in Hk1 as [_ [(k1 & H1 & E1')|H1]]; [|congruence].
    apply Hbest in Hk2 as [_ [(k2 & H2 & E2')|H2]]; [|congruence]. assert (k1 = k) by congruence. assert (k2 = k) by congruence.
    subst. apply (table_get_NoDup _ _ _ Hn) in H1, H2. congruence.
Qed.

(** *** Serialization *)

Definition qm_dated (q : QuasiModoLevel.t) : Prop :=
  is_Some (QuasiModoLevel.h_timestamp q) /\ is_Some (QuasiModoLevel.hh_timestamp q).

Lemma slice_from_In {A} (l : list A) a x : In x (py_slice_from l a) -> In x l.
Proof. unfold py_slice_from. intros Hx. rewrite <- (take_drop (py_slice_bound l a) l). apply in_app_iff. by right. Qed.

Lemma dumped {A} (dump : A -> res dict) kept ds :
  res_map (fun c => d ← dump c; Ok (dict_pop "symbol" d)) kept = Ok ds ->
  Forall2 (fun c d => dict_pop "symbol" <$> dump c = Ok d) kept ds.
Proof. intros E. apply res_map_Forall2 in E. eapply Forall2_impl; [exact E|]. intros c d. cbv beta. by destruct (dump c). Qed.

Lemma dumps {A} (dump : A -> res dict) kept :
  (forall c, In c kept -> returns (dump c)) ->
  yields (res_map (fun c => d ← dump c; Ok (dict_pop "symbol" d)) kept) (fun ds =>
    Forall2 (fun c d => dict_pop "symbol" <$> dump c = Ok d) kept ds).
Proof.
  intros Hd. destruct (res_map_Forall (fun c => d ← dump c; Ok (dict_pop "symbol" d)) (fun _ => True) kept) as (ds & E & _).
  { intros c Hc. destruct (Hd c Hc) as [d ->]. by apply yields_ret. }
  rewrite E. apply yields_ret. by apply dumped.
Qed.

Lemma serialize_qm_returns l : Forall qm_dated l -> returns (_serialize_qm_levels l).
Proof.
  intros Hl. unfold _serialize_qm_levels. apply yields_returns.
  eapply (yields_bind _ _ (fun _ => True)); [|intros; by apply yields_ret].
  eapply yields_weaken; [apply (res_map_Forall _ (fun _ => True))|done].
  intros q Hq. rewrite List.Forall_forall in Hl. destruct (Hl q Hq) as [[a Ea] [b Eb]].
  unfold iso_required. rewrite Ea, Eb. by apply yields_ret.
Qed.

Lemma serialize_dealing_returns l : returns (_serialize_dealing_ranges l).
Proof.
  unfold _serialize_dealing_ranges. apply yields_returns.
  eapply (yields_bind _ _ (fun _ => True)); [|intros; by apply yields_ret].
  eapply yields_weaken; [apply (res_map_Forall _ (fun _ => True))|done]. intros r _. by apply yields_ret.
Qed.

Lemma serialize_snapshot_returns s : Forall qm_dated (TechnicalSnapshot.qml_levels s) -> returns (_serialize_snapshot s).
Proof.
  intros Hq. unfold _serialize_snapshot. cbv zeta.
  destruct (serialize_qm_returns (py_slice_from (live_qms s) (- _array_cap_for (TechnicalSnapshot.timeframe s)))) as [v ->].
  { rewrite List.Forall_forall in *. intros q Hin. apply slice_from_In, filter_In in Hin as [Hin _]. auto. }
  cbn [mbind res_bind]. case_match; [by eexists|].
  destruct (serialize_dealing_returns (py_slice_from (TechnicalSnapshot.dealing_ranges s) (-1))) as [d ->]. by eexists.
Qed.

Section Result.
Context (smc_dump : SMCCandidate.t -> res dict) (snd_dump : SnDCandidate.t -> res dict).

(** The result shows exactly the live candidates, one for each zone.  When the
    levels are dated and the candidates can be ranked and dumped, [_build_result]
    returns.  Every candidate shown is one of those given and is not anchored to an
    order block its timeframe's snapshot marks mitigated, a gap marked filled or a
    level marked tested; every given candidate that is live is shown, or one of the
    same zone that it does not outrank is; no two shown candidates share a zone; and
    the counts are the numbers shown. *)
Theorem build_result_exact symbol status htfs ltfs snapshots smc snd alignments trend error :
  (forall tf s, In (tf, s) snapshots -> Forall qm_dated (TechnicalSnapshot.qml_levels s)) ->
  Forall rankable_data smc -> Forall rankable_data snd ->
  (forall c, In c smc -> returns (smc_dump c)) -> (forall c, In c snd -> returns (snd_dump c)) ->
  exists r kept_smc kept_snd,
    _build_result smc_dump snd_dump symbol status htfs ltfs snapshots smc snd alignments trend error = Ok r /\
    kept_of symbol (smc_live snapshots) smc kept_smc /\ kept_of symbol (snd_live snapshots) snd kept_snd /\
    Forall2 (fun c d => dict_pop "symbol" <$> smc_dump c = Ok d) kept_smc (smc_candidates r) /\
    Forall2 (fun c d => dict_pop "symbol" <$> snd_dump c = Ok d) kept_snd (snd_candidates r) /\
    smc_candidates_count r = py_len kept_smc /\ snd_candidates_count r = py_len kept_snd.
Proof.
  intros Hqm Hsmc Hsnd Dsmc Dsnd. unfold _build_result. cbv zeta.
  set (ordered := py_sorted _ snapshots).
  assert (Ho : forall kv, In kv ordered -> In kv snapshots).
  { intros kv. unfold ordered. by rewrite py_sorted_In. }
  clearbody ordered.
  destruct (for_each_list (fun acc kv => d ← _serialize_snapshot (Datatypes.snd kv); Ok (table_set (timeframe_value (fst kv)) d acc))
    (fun _ _ => True) ordered []) as (ser & -> & _); [done| |].
  { intros pre [tf s] rest acc -> _. cbn [fst Datatypes.snd].
    destruct (serialize_snapshot_returns s) as [d ->]; [|by eexists].
    apply (Hqm tf). apply Ho, in_app_iff. right. by left. }
  cbn [mbind res_bind].
  destruct (dedupe_kept symbol (_smc_is_live snapshots) (smc_live snapshots) smc (smc_is_live_iff snapshots) Hsmc)
    as (ks & E1 & K1). unfold _dedupe_smc_candidates_by_zone. rewrite E1. cbn [mbind res_bind].
  destruct (dedupe_kept symbol (_snd_is_live snapshots) (snd_live snapshots) snd (snd_is_live_iff snapshots) Hsnd)
    as (kd & E2 & K2). unfold _dedupe_snd_candidates_by_zone. rewrite E2. cbn [mbind res_bind].
  destruct (dumps smc_dump ks) as (ds & E3 & F3); [intros c Hc; apply Dsmc; by apply K1|]. rewrite E3. cbn [mbind res_bind].
  destruct (dumps snd_dump kd) as (dd & E4 & F4); [intros c Hc; apply Dsnd; by apply K2|]. rewrite E4. cbn [mbind res_bind].
  by eexists _, ks, kd.
Qed.


End Result.

(** A snapshot whose block of 02:00 is mitigated. *)
Definition sample_snapshot : TechnicalSnapshot.t :=
  TechnicalSnapshot.mk "EURUSD" H1 (mk_datetime 0 (Some 0)) (CandleSequence.mk "EURUSD" H1 [])
    [] [] [] [] [] [] [] [] [] [] [] []
    [OrderBlock.mk "EURUSD" H1 (lit 108100 5) (lit 107900 5) (mk_datetime (2 * us_per_hour) (Some 0)) 2 BULLISH (of_Z 30)
       false true None]
    [] [] [] [] [] [] [] [] None BULLISH [] [].

Definition sample_dump (c : SMCCandidate.t) : res dict :=
  Ok [("symbol", VStr (SMCCandidate.symbol c)); ("entry_price", VFloat (SMCCandidate.entry_price c))].

Lemma build_result_exact_witness :
  exists r kept, _build_result sample_dump (fun _ => Ok []) "EURUSD" "success" [] [H1] [(H1, sample_snapshot)] sample_setups
      [] [] "BULLISH" None = Ok r /\
    kept_of "EURUSD" (smc_live [(H1, sample_snapshot)]) sample_setups kept /\
    smc_candidates r = [[("entry_price", VFloat (lit 108004 5))]].
Proof.
  destruct (build_result_exact sample_dump (fun _ => Ok []) "EURUSD" "success" [] [H1] [(H1, sample_snapshot)] sample_setups
    [] [] "BULLISH" None) as (r & kept & kd & E & K & _).
  - intros tf s [[= <- <-]|[]]. apply Forall_nil_2.
  - exact sample_setups_ok.
  - apply Forall_nil_2.
  - intros c _. eexists. reflexivity.
  - intros c [].
  - exists r, kept. split; [exact E|]. split; [exact K|]. vm_compute in E. injection E as <-. reflexivity.
Defined.
End ResultFacts.

(** ** The structure of one timeframe *)

Module StructureFacts.
Import ZoneFacts TAOrchestrator ResultFacts.

(** *** What the detectors leave in their results *)

Lemma detect_ob_unmarked config bullish q b ob :
  OrderBlockDetector.detect_ob config bullish q b = Ok (Some ob) ->
  OrderBlock.mitigated ob = false /\ 0 <= OrderBlock.candle_index ob.
Proof.
  unfold OrderBlockDetector.detect_ob. repeat (case_match; [done|]). intros E. apply search_In in E as (i & _ & E).
  unfold OrderBlockDetector.ob_body in E. inv_binds. repeat (case_match; inv_binds; [done|]). subst.
  match goal with H : OrderBlock.create _ _ _ _ _ _ _ _ _ _ _ = Ok _ |- _ => unfold OrderBlock.create in H end.
  inv_binds. subst. match goal with H : int_field _ _ _ = Ok _ |- _ => apply int_field_Ok in H as (-> & ? & _) end. done.
Qed.

Lemma detect_fvgs_unfilled config q l :
  FVGDetector.detect_fvgs config q = Ok l -> Forall (fun g => FairValueGap.filled g = false) l.
Proof.
  intros E. apply List.Forall_forall. intros g Hg. unfold FVGDetector.detect_fvgs in E.
  apply (collect_In _ _ _ _ E) in Hg as (i & _ & Hb). unfold FVGDetector.fvg_body in Hb. inv_binds.
  repeat (case_match; inv_binds; try done). simplify_eq.
  all: match goal with H : FairValueGap.create _ _ _ _ _ _ _ _ _ _ = Ok _ |- _ => unfold FairValueGap.create in H end.
  all: inv_binds; by subst.
Qed.

Lemma detect_qm_untested {A B} `{SwingLevel A} `{SwingLevel B} bullish q (heads : list A) (necks : list B) l :
  QMDetector.detect_qm bullish q heads necks = Ok l ->
  Forall (fun m => QuasiModoLevel.tested m = false /\ qm_dated m) l.
Proof.
  intros E. apply List.Forall_forall. intros m Hm. unfold QMDetector.detect_qm in E.
  repeat (case_match; inv_binds; [by subst|]).
  apply (collect_In _ _ _ _ E) in Hm as (i & _ & Hb). unfold QMDetector.qm_body in Hb. inv_binds.
  repeat (case_match; inv_binds; try done). simplify_eq.
  all: match goal with H : QMDetector.qm_level _ _ _ _ _ _ _ = Ok _ |- _ =>
    unfold QMDetector.qm_level, QuasiModoLevel.create in H end.
  all: try destruct bullish; inv_binds; subst; (split; [done|by split]).
Qed.

(** *** Mitigated blocks and breakers *)

Section Blocks.
Context (q : CandleSequence.t).

(** A later candle closes beyond the far edge of the block. *)
Definition is_broken (ob : OrderBlock.t) : Prop :=
  exists j, OrderBlock.candle_index ob < j < py_len (CandleSequence.candles q) /\ ValidatorFacts.broken_at q ob j = true.

(** The breaker of a block: the same bounds, the other direction, and the time of
    the first candle that closed beyond the block. *)
Definition breaker_of (ob : OrderBlock.t) (b : BreakerBlock.t) : Prop :=
  BreakerBlock.upper_bound b = OrderBlock.upper_bound ob /\ BreakerBlock.lower_bound b = OrderBlock.lower_bound ob /\
  BreakerBlock.direction b = (if bool_decide (OrderBlock.direction ob = BULLISH) then BEARISH else BULLISH) /\
  exists j c, OrderBlock.candle_index ob < j /\ CandleSequence.candles q !! Z.to_nat j = Some c /\
    breaks_ob ob c = true /\ BreakerBlock.broken_timestamp b = Candle.timestamp c /\
    forall k, OrderBlock.candle_index ob < k < j -> ValidatorFacts.broken_at q ob k = false.

Lemma breaker_inv ob r :
  0 <= OrderBlock.candle_index ob -> BreakerDetector.detect_breaker_from_ob q ob = Ok r ->
  match r with Some b => is_broken ob /\ breaker_of ob b | None => ~ is_broken ob end.
Proof.
  intros Hi. unfold BreakerDetector.detect_breaker_from_ob. cbv zeta.
  destruct (Z.leb_spec (py_len (CandleSequence.candles q) - 1) (OrderBlock.candle_index ob)).
  { intros [= <-] (j & Hj & _). lia. }
  destruct (ValidatorFacts.break_search q ob Hi) as (f & -> & Hf). cbn [mbind res_bind]. destruct f as [j|].
  - destruct Hf as (Hj & Hb & Hn). intros E. apply bind_Ok in E as (c & Ec & E). apply bind_Ok in E as (b & Eb & [= <-]). split; [by exists j|].
    apply py_index_lookup in Ec; [|lia]. unfold BreakerBlock.create in Eb. inv_binds. inv_fields. subst b.
    split; [done|]. split; [done|]. split; [done|]. exists j, c. unfold ValidatorFacts.broken_at at 1, holds_at in Hb. rewrite Ec in Hb.
    repeat (split; [done||lia|]). done.
  - intros [= <-] (j & Hj & Hb). by rewrite Hf in Hb.
Qed.

Lemma freshness_inv ob :
  0 <= OrderBlock.candle_index ob ->
  exists fresh, ZoneValidator.validate_zone_freshness ob q = Ok fresh /\ if fresh then ~ is_broken ob else is_broken ob.
Proof.
  intros Hi. unfold ZoneValidator.validate_zone_freshness. cbv zeta.
  destruct (Z.leb_spec (py_len (CandleSequence.candles q) - 1) (OrderBlock.candle_index ob)).
  { exists true. split; [done|]. intros (j & Hj & _). lia. }
  destruct (ValidatorFacts.break_search q ob Hi) as (f & -> & Hf). cbn [mbind res_bind]. eexists. split; [done|].
  destruct f as [j|]; [exists j; naive_solver|]. intros (j & Hj & Hb). by rewrite Hf in Hb.
Qed.

Lemma mark_mitigated_spec obs obs' :
  Forall (fun ob => OrderBlock.mitigated ob = false /\ 0 <= OrderBlock.candle_index ob) obs ->
  mark_mitigated q obs = Ok obs' ->
  Forall (fun ob => 0 <= OrderBlock.candle_index ob /\ (OrderBlock.mitigated ob = true <-> is_broken ob)) obs'.
Proof.
  intros Hobs E. apply res_map_Forall2 in E. revert Hobs. induction E as [|ob ob' obs obs' E _ IH]; intros Hobs; [constructor|].
  apply Forall_cons in Hobs as [[Hm Hi] Hobs]. constructor; [|auto].
  destruct (freshness_inv ob Hi) as (b & Eb & Hb). rewrite Eb in E. cbn [mbind res_bind] in E.
  injection E as <-. destruct b; (split; [done|]); [|done]. rewrite Hm. split; [done|]. by intros Hbr; destruct Hb.
Qed.

Lemma breakers_spec obs bs :
  Forall (fun ob => 0 <= OrderBlock.candle_index ob /\ (OrderBlock.mitigated ob = true <-> is_broken ob)) obs ->
  collect (BreakerDetector.detect_breaker_from_ob q) obs = Ok bs ->
  Forall2 breaker_of (List.filter OrderBlock.mitigated obs) bs.
Proof.
  intros Hobs. revert bs. induction Hobs as [|ob obs [Hi Hm] _ IH]; cbn [collect List.filter]; intros bs E.
  { injection E as <-. constructor. }
  inv_binds. apply breaker_inv in E0; [|done]. destruct a as [b|].
  - destruct E0 as [Hb Hof]. rewrite (proj2 Hm Hb). subst bs. constructor; auto.
  - destruct (OrderBlock.mitigated ob) eqn:Em; [|subst bs; auto]. destruct E0. by apply Hm.
Qed.
End Blocks.

(** *** The whole snapshot *)

Lemma build_snapshot_keeps self q x s :
  SnapshotBuilder.build_snapshot self q x = Ok s ->
  TechnicalSnapshot.order_blocks s = SnapshotBuilder.a_order_blocks x /\
  TechnicalSnapshot.breaker_blocks s = SnapshotBuilder.a_breaker_blocks x /\
  TechnicalSnapshot.fvgs s = SnapshotBuilder.a_fvgs x /\
  TechnicalSnapshot.qml_levels s = SnapshotBuilder.a_qml_levels x.
Proof. unfold SnapshotBuilder.build_snapshot, TechnicalSnapshot.create. intros E. inv_binds. by subst s. Qed.

Section Snapshot.
Context {W : Type} {PW : Pulse W} (self : t) (q : CandleSequence.t) (pulse : bool).
Implicit Types (w : W).

Abbreviation analyzer := (SnapshotBuilder.swing_analyzer (snapshot_builder self)).

(** The steps a snapshot that was built went through. *)
Lemma enriched_inv w s w' :
  enriched_snapshot self q pulse w = (Ok s, w') ->
  exists highs lows bull bear gaps obs0 obs breakers qml qmh fibs args,
    SwingAnalyzer.detect_swing_highs analyzer q = Ok highs /\ SwingAnalyzer.detect_swing_lows analyzer q = Ok lows /\
    FVGDetector.detect_fvgs (SMCDetector.config (smc_detector self)) q = Ok gaps /\
    order_blocks_of self q (bull ++ bear) = Ok obs0 /\ mark_mitigated q obs0 = Ok obs /\
    collect (BreakerDetector.detect_breaker_from_ob q) obs = Ok breakers /\
    QMDetector.detect_qml q highs lows = Ok qml /\ QMDetector.detect_qmh q lows highs = Ok qmh /\
    retracements_of highs lows = Ok fibs /\
    SnapshotBuilder.build_snapshot (snapshot_builder self) q args = Ok s /\
    SnapshotBuilder.a_order_blocks args = obs /\ SnapshotBuilder.a_breaker_blocks args = breakers /\
    SnapshotBuilder.a_fvgs args = gaps /\ SnapshotBuilder.a_qml_levels args = qml ++ qmh.
Proof.
  unfold enriched_snapshot. cbv zeta. intros E.
  repeat (let Ei := fresh "E" in apply io_bind_Ok in E as (? & ? & Ei & E)).
  repeat match goal with Hl : lift _ _ = (Ok _, _) |- _ => apply lift_Ok in Hl as [Hl _] end.
  do 12 eexists. repeat (split; [eassumption|]). done.
Qed.

Lemma order_blocks_unmarked bms obs :
  order_blocks_of self q bms = Ok obs ->
  Forall (fun ob => OrderBlock.mitigated ob = false /\ 0 <= OrderBlock.candle_index ob) obs.
Proof.
  intros E. apply List.Forall_forall. intros ob Hob. apply (collect_In _ _ _ _ E) in Hob as (b & _ & Eb).
  case_match; by eapply detect_ob_unmarked.
Qed.

(** What the flags of a snapshot say.  In every snapshot that is built an order
    block is marked mitigated exactly when a candle after its own closed beyond its
    far edge, and the breakers are, one for one and in order, the breakers of the
    mitigated blocks: the same bounds, the other direction, the time of the first
    such close.  No gap of a snapshot is ever marked filled and no Quasimodo level
    tested, although later stages filter on both flags; every level has the two
    times its serialized form needs. *)
Theorem snapshot_marks w s w' :
  enriched_snapshot self q pulse w = (Ok s, w') ->
  (forall ob, In ob (TechnicalSnapshot.order_blocks s) -> OrderBlock.mitigated ob = true <-> is_broken q ob) /\
  Forall2 (breaker_of q) (List.filter OrderBlock.mitigated (TechnicalSnapshot.order_blocks s))
    (TechnicalSnapshot.breaker_blocks s) /\
  Forall (fun g => FairValueGap.filled g = false) (TechnicalSnapshot.fvgs s) /\
  Forall (fun m => QuasiModoLevel.tested m = false /\ qm_dated m) (TechnicalSnapshot.qml_levels s).
Proof.
  intros E. apply enriched_inv in E as (hs & ls & bull & bear & gaps & obs0 & obs & bs & qml & qmh & fibs & args &
    _ & _ & Eg & Eo & Em & Eb & Eq & Eq' & _ & Es & Ao & Ab & Ag & Aq).
  apply build_snapshot_keeps in Es as (-> & -> & -> & ->). rewrite Ao, Ab, Ag, Aq.
  pose proof (mark_mitigated_spec q obs0 obs (order_blocks_unmarked _ _ Eo) Em) as Hobs.
  split; [intros ob Hob; rewrite List.Forall_forall in Hobs; by apply Hobs|].
  split; [by apply breakers_spec|]. split; [by eapply detect_fvgs_unfilled|].
  apply Forall_app. split; [exact (detect_qm_untested _ _ _ _ _ Eq)|exact (detect_qm_untested _ _ _ _ _ Eq')].
Qed.

(** A timeframe whose latest swing high is not above its latest swing low has no
    snapshot.  The retracement between the two refuses such a pair, the exception
    ends the whole build, and the timeframe is dropped from the analysis with all
    the structure already found in it. *)
Theorem snapshot_lost w highs lows high low :
  SwingAnalyzer.detect_swing_highs analyzer q = Ok highs -> SwingAnalyzer.detect_swing_lows analyzer q = Ok lows ->
  SwingAnalyzer.get_latest_swing_high highs = Some high -> SwingAnalyzer.get_latest_swing_low lows = Some low ->
  fle (SwingHigh.price high) (SwingLow.price low) = true ->
  exists w', _build_enriched_snapshot self q pulse w = (Ok None, w').
Proof.
  intros Eh El Lh Ll Hle. unfold _build_enriched_snapshot, attempt.
  destruct (enriched_snapshot self q pulse w) as [[s|e] w'] eqn:E.
  - exfalso. apply enriched_inv in E as (hs & ls & bull & bear & gaps & obs0 & obs & bs & qml & qmh & fibs & args &
      Eh' & El' & _ & _ & _ & _ & _ & _ & Ef & _). assert (hs = highs) as -> by congruence. assert (ls = lows) as -> by congruence.
    unfold retracements_of in Ef. rewrite Lh, Ll in Ef. cbv zeta in Ef. inv_binds.
    unfold FibonacciAnalyzer.create_retracement, FibonacciRetracement.create in *. inv_binds. inv_fields.
    unfold FibonacciRetracement.model_post_init in *. cbn [FibonacciRetracement.swing_high FibonacciRetracement.swing_low] in *.
    by rewrite Hle in *.
  - exists w'. unfold mbind, io_bind. by rewrite E.
Qed.
End Snapshot.

(** *** Concrete snapshots *)

(** The status channel as a count of messages. *)
#[local] Instance counting_pulse : Pulse nat := {| publish := fun _ _ _ n => S n |}.

Definition sample_orchestrator (sessions : SessionAnalyzer.t) : TAOrchestrator.t :=
  let swings := SwingAnalyzer.mk 1 1 (lit 20 1) in
  mk (DetectorFacts.sample_detector sessions)
    (SnDDetector.mk SnDConfig.default swings MarubozuAnalyzer.default CompressionAnalyzer.default)
    (SnapshotBuilder.mk swings sessions LiquidityAnalyzer.default SweepAnalyzer.default DealingRangeAnalyzer.default)
    AlignmentService.default (mk_config [H4] [H1]).

(** An impulse from an order block, and a fall that closes below the block. *)
Definition broken_block : CandleSequence.t :=
  CandleSequence.mk "EURUSD" H1
    [PatternFacts.sample_bar 0 10800 10810 10795 10805; PatternFacts.sample_bar 1 10805 10830 10800 10825;
     PatternFacts.sample_bar 2 10825 10826 10790 10792; PatternFacts.sample_bar 3 10792 10890 10791 10885;
     PatternFacts.sample_bar 4 10885 10900 10860 10870; PatternFacts.sample_bar 5 10870 10872 10750 10760;
     PatternFacts.sample_bar 6 10760 10800 10755 10790].

Lemma snapshot_marks_witness :
  exists sessions s w', SessionAnalyzer.create = Ok sessions /\
    enriched_snapshot (sample_orchestrator sessions) broken_block true 0%nat = (Ok s, w') /\
    Forall2 (breaker_of broken_block) (List.filter OrderBlock.mitigated (TechnicalSnapshot.order_blocks s))
      (TechnicalSnapshot.breaker_blocks s) /\ length (TechnicalSnapshot.breaker_blocks s) = 1%nat.
Proof.
  destruct SessionAnalyzer.create as [sessions|] eqn:Es; [|by vm_compute in Es]. exists sessions.
  destruct (enriched_snapshot (sample_orchestrator sessions) broken_block true 0%nat) as [[s|e] w'] eqn:E.
  - pose proof (snapshot_marks _ _ _ _ _ _ E) as (_ & Hb & _). exists s, w'.
    repeat (split; [done|]). vm_compute in Es. injection Es as <-. vm_compute in E. injection E as <- _. reflexivity.
  - exfalso. vm_compute in Es. injection Es as <-. vm_compute in E. discriminate E.
Defined.

(** A strong rise: the last pullback stays above the last swing high. *)
Definition strong_rise : CandleSequence.t :=
  CandleSequence.mk "EURUSD" H1
    [PatternFacts.sample_bar 0 10800 10810 10795 10805; PatternFacts.sample_bar 1 10805 10830 10800 10825;
     PatternFacts.sample_bar 2 10825 10826 10805 10820; PatternFacts.sample_bar 3 10865 10900 10860 10885;
     PatternFacts.sample_bar 4 10885 10910 10850 10900; PatternFacts.sample_bar 5 10900 10950 10870 10940].

Lemma snapshot_lost_witness :
  exists sessions w', SessionAnalyzer.create = Ok sessions /\
    _build_enriched_snapshot (sample_orchestrator sessions) strong_rise true 0%nat = (Ok None, w').
Proof.
  destruct SessionAnalyzer.create as [sessions|] eqn:Es; [|by vm_compute in Es]. exists sessions.
  destruct (snapshot_lost (sample_orchestrator sessions) strong_rise true 0%nat
    (match SwingAnalyzer.detect_swing_highs (SwingAnalyzer.mk 1 1 (lit 20 1)) strong_rise with Ok l => l | Raise _ => [] end)
    (match SwingAnalyzer.detect_swing_lows (SwingAnalyzer.mk 1 1 (lit 20 1)) strong_rise with Ok l => l | Raise _ => [] end)
    (SwingHigh.mk "EURUSD" H1 (mk_datetime us_per_hour (Some 0)) (lit 10830 4) 1 3 1 1 false None)
    (SwingLow.mk "EURUSD" H1 (mk_datetime (4 * us_per_hour) (Some 0)) (lit 10850 4) 4 3 1 1 false None)) as (w' & E).
  1-5: vm_compute; reflexivity.
  exists w'. split; [reflexivity|exact E].
Defined.
End StructureFacts.

(** ** The whole analysis *)

Module AnalysisFacts.
Import ZoneFacts TAOrchestrator ResultFacts.

Section Analysis.
Context {W : Type} {CW : Clock W} {SW : Storage W} {PW : Pulse W}.
Context (exn_str : exn -> string) (smc_dump : SMCCandidate.t -> res dict) (snd_dump : SnDCandidate.t -> res dict).
Context (self : t) (fallback_client : option (Broker W)).












End Analysis.

(** *** A run against interfaces in memory *)

Record memory := mk_memory { messages : nat; rows : list string }.
Definition store (row : string) : io memory unit := fun m => (Ok tt, mk_memory (messages m) (rows m ++ [row])).

#[local] Instance memory_clock : Clock memory := {| now_utc m := (mk_datetime (8 * us_per_hour) (Some 0), m) |}.
#[local] Instance memory_pulse : Pulse memory := {| publish _ _ _ m := mk_memory (S (messages m)) (rows m) |}.
#[local] Instance memory_storage : Storage memory := {|
  find_by_time_range _ _ _ _ _ := mret []; uow_enter := store "begin"; uow_exit := store "commit";
  snapshot_create _ _ tf _ _ := store ("snapshot " ++ tf)%string;
  bulk_create_smc_candidates l _ := store ("smc " ++ str_nat (py_len l))%string;
  bulk_create_snd_candidates l _ := store ("snd " ++ str_nat (py_len l))%string |}.
Definition memory_broker : Broker memory := {|
  fetch_candles symbol tf _ _ _ :=
    mret (Some (CandleSequence.mk symbol tf (CandleSequence.candles StructureFacts.broken_block))) |}.

(** Two timeframes of the same candles: the analysis succeeds, and both snapshots
    and the candidates are stored in one transaction. *)
Example analyze_runs :
  (sessions ← SessionAnalyzer.create;
   let '(r, m) := analyze (fun _ => "error") sample_dump (fun _ => Ok []) (StructureFacts.sample_orchestrator sessions) None
                    "EURUSD" 100 (Some memory_broker) "user" true (mk_memory 0 []) in
   r ← r; Ok (status r, map fst (r_snapshots r), overall_trend r, rows m)) =
  Ok ("success", ["H1"; "H4"], "BULLISH", ["begin"; "snapshot H4"; "snapshot H1"; "smc 0"; "snd 0"; "commit"]).
Proof. vm_compute. reflexivity. Qed.

(** A database in which every write fails while transactions open and commit. *)
Definition refusing_storage : Storage memory := {|
  find_by_time_range _ _ _ _ _ := mret []; uow_enter := store "begin"; uow_exit := store "commit";
  snapshot_create _ _ _ _ _ := fun m => (Raise (OSError "disk"), m);
  bulk_create_smc_candidates _ _ := fun m => (Raise (OSError "disk"), m);
  bulk_create_snd_candidates _ _ := fun m => (Raise (OSError "disk"), m) |}.

(** Then nothing is stored, and the answer is still a success. *)
Example success_without_rows :
  (sessions ← SessionAnalyzer.create;
   let '(r, m) := analyze (SW := refusing_storage) (fun _ => "error") sample_dump (fun _ => Ok [])
                    (StructureFacts.sample_orchestrator sessions) None
                    "EURUSD" 100 (Some memory_broker) "user" true (mk_memory 0 []) in
   r ← r; Ok (status r, rows m)) = Ok ("success", ["begin"; "commit"]).
Proof. vm_compute. reflexivity. Qed.
End AnalysisFacts.
