(* ===== verification/PyValues.v ===== *)
(** * PyValues: strings and JSON values of the services

    String methods beyond those of PyText, integers printed, and the values a JSON
    document decodes to.  Strings are ASCII here; an object keeps its keys in
    order. *)

From Stdlib Require Import ZArith Lia Bool Ascii String.
From stdpp Require Import base list strings.
From S2P Require Import Prelude PyFloat PyText PyRepr FloatFloor.

#[local] Open Scope string_scope.
#[local] Open Scope Z_scope.
#[local] Open Scope list_scope.

(** ** Strings *)

Definition lower_ascii (a : ascii) : ascii :=
  let n := nat_of_ascii a in
  if ((65 <=? n) && (n <=? 90))%nat then ascii_of_nat (n + 32) else a.

Fixpoint str_lower (s : string) : string :=
  match s with
  | EmptyString => EmptyString
  | String a s => String (lower_ascii a) (str_lower s)
  end.

(** [p in s]. *)
Fixpoint str_contains (p s : string) : bool :=
  String.prefix p s || match s with String _ s => str_contains p s | EmptyString => false end.

(** [sep.join(l)]. *)
Fixpoint str_join (sep : string) (l : list string) : string :=
  match l with
  | [] => ""
  | [s] => s
  | s :: l => (s ++ sep ++ str_join sep l)%string
  end.

(** [str(n)] of an integer. *)
Definition str_int (n : Z) : string := if n <? 0 then ("-" ++ str_nat (- n))%string else str_nat n.

Definition str_empty (s : string) : bool := String.eqb s "".

(** [x in (a, b, ...)]. *)
Definition str_in (s : string) (l : list string) : bool := existsb (String.eqb s) l.

(** ** JSON values *)

Inductive json :=
| JNull
| JBool (b : bool)
| JInt (n : Z)
| JFloat (x : float)
| JStr (s : string)
| JArr (l : list json)
| JObj (d : list (string * json)).

Definition object : Type := list (string * json).

Fixpoint obj_get (k : string) (d : object) : option json :=
  match d with
  | [] => None
  | (k', v) :: d => if String.eqb k k' then Some v else obj_get k d
  end.

(** [d\[k\] = v] for a key the object has. *)
Fixpoint obj_set (k : string) (v : json) (d : object) : object :=
  match d with
  | [] => [(k, v)]
  | (k', v') :: d => if String.eqb k k' then (k', v) :: d else (k', v') :: obj_set k v d
  end.

(** [type(v).__name__]. *)
Definition json_type_name (v : json) : string :=
  match v with
  | JNull => "NoneType" | JBool _ => "bool" | JInt _ => "int" | JFloat _ => "float" | JStr _ => "str"
  | JArr _ => "list" | JObj _ => "dict"
  end.

(** [int(s)] of a string: blanks around, a sign, digits with single underscores
    between them. *)
Definition digit_value (a : ascii) : option Z :=
  let n := Z.of_nat (nat_of_ascii a) in
  if ((48 <=? n) && (n <=? 57))%bool then Some (n - 48) else None.

Fixpoint int_digits (s : string) (acc : Z) : option Z :=
  match s with
  | EmptyString => Some acc
  | String a s =>
      match digit_value a with
      | Some d => int_digits s (10 * acc + d)
      | None =>
          match s with
          | String b s' =>
              if Ascii.eqb a "_" then match digit_value b with Some d => int_digits s' (10 * acc + d) | None => None end
              else None
          | EmptyString => None
          end
      end
  end.

Definition int_of_str (s : string) : res Z :=
  let fail := Raise (ValueError ("invalid literal for int() with base 10: '" ++ s ++ "'")) in
  let unsigned (s : string) : option Z :=
    match s with
    | String a s => match digit_value a with Some d => int_digits s d | None => None end
    | EmptyString => None
    end in
  match str_strip s with
  | String a r =>
      match (if Ascii.eqb a "-" then Z.opp <$> unsigned r else if Ascii.eqb a "+" then unsigned r
             else unsigned (String a r)) with
      | Some n => Ok n
      | None => fail
      end
  | EmptyString => fail
  end.

(** [int(v)]. *)
Definition json_int (v : json) : res Z :=
  match v with
  | JBool b => Ok (if b then 1 else 0)
  | JInt n => Ok n
  | JFloat x => py_int x
  | JStr s => int_of_str s
  | JNull | JArr _ | JObj _ => Raise TypeError
  end.

(** [bool(v)]. *)
Definition json_truthy (v : json) : bool :=
  match v with
  | JNull => false
  | JBool b => b
  | JInt n => negb (n =? 0)
  | JFloat x => negb (feq x fzero)
  | JStr s => negb (str_empty s)
  | JArr l => match l with [] => false | _ => true end
  | JObj d => match d with [] => false | _ => true end
  end.

Example int_of_str_samples :
  map int_of_str [" 1_000 "; "-7"; "+7"; "1__0"; "_1"; ""; "12x"] =
    [Ok 1000; Ok (-7); Ok 7] ++ map (fun s => Raise (ValueError ("invalid literal for int() with base 10: '" ++ s ++ "'")))
      ["1__0"; "_1"; ""; "12x"].
Proof. vm_compute. reflexivity. Qed.

Lemma str_app_cancel (p s t : string) : (p ++ s)%string = (p ++ t)%string -> s = t.
Proof.
  induction p as [|a p IH]; [by rewrite !ReprFacts.str_nil_app|].
  rewrite !ReprFacts.str_cons_app. intros [= E]. by apply IH.
Qed.
