(* ===== verification/ResponseParser.v ===== *)
(** * From the model's answer to an analysis: [engine/processor/parsing]

    The raw text of a language model is cut down to a JSON object
    ([_extract_json]), nulls are replaced where lists are declared
    ([_coerce_null_collections]), the result is validated against the schema and
    then against the trading rules ([validators.py]); every rule that fails is a
    message, and the wording of the message decides whether it blocks the trade.

    The JSON decoder and the schema validation are libraries and parameters of
    [parse_llm_response]. *)

From Stdlib Require Import ZArith Lia Bool Ascii String SpecFloat.
From stdpp Require Import base list strings.
From S2P Require Import Prelude Loops PyFloat FloatRound PyText PyRepr PyValues Constants PriceMath StopLoss.

#[local] Open Scope string_scope.
#[local] Open Scope Z_scope.
#[local] Open Scope list_scope.

(** ** Constants: [engine/processor/constants.py] *)

Definition CONFLUENCE_SCORE_MIN : float := of_Z 0.
Definition CONFLUENCE_SCORE_MAX : float := of_Z 10.
Definition CONFLUENCE_REJECT_THRESHOLD : float := of_Z 5.
Definition MAX_LLM_RESPONSE_LENGTH : Z := 65536.
Definition MAX_REASONING_LENGTH : Z := 8192.
Definition MAX_CITATIONS : Z := 30.
Definition MAX_TAKE_PROFIT_LEVELS : Z := 3.

(** A Python string as its code points, where lengths and blanks matter beyond
    ASCII. *)
Definition text : Type := list Z.

(** ** The schema: [engine/processor/models/analysis.py] *)

Record EvidenceItem := mk_evidence {
  ev_doc_id : option string; ev_chunk_id : option string; ev_section : option string;
  ev_rule_id : option string; ev_content_preview : option string }.
Record CurrencyBias := mk_currency_bias { cb_bias : string; cb_evidence : list EvidenceItem }.
Record MacroBiasOutput := mk_macro_bias { base_currency : CurrencyBias; quote_currency : CurrencyBias }.
Record DXYBiasOutput := mk_dxy { dxy_direction : string; dxy_evidence : list EvidenceItem }.
Record COTSignalOutput := mk_cot {
  cot_summary : string; week_over_week : option string; extreme_flag : bool; cot_evidence : list EvidenceItem }.
Record EventRiskItem := mk_event {
  event : string; event_time : option string; impact : string; event_currency : option string }.
Record TimeframeBias := mk_timeframe_bias { structure : string; key_levels : list float; bias_notes : string }.
Record SetupZone := mk_setup_zone {
  zone_type : option string; zone_id : option string; zone_quality : option string; bounds : list float;
  zone_evidence : list EvidenceItem }.
Record WyckoffPhaseOutput := mk_wyckoff { phase : string; phase_evidence : list EvidenceItem }.
Record ConfluenceFactor := mk_factor {
  factor_name : string; present : bool; factor_value : float; factor_notes : string }.
Record ConfluenceScoreOutput := mk_score { score : float; factors : list ConfluenceFactor }.
Record EntryZone := mk_entry_zone { low : option float; high : option float }.
Record StopLossOutput := mk_stop_loss {
  price : option float; reason : string; stop_evidence : list EvidenceItem }.
Record TakeProfitLevel := mk_take_profit { level : option float; size_pct : Z; basis : string }.
Record RAGSourceCitation := mk_citation {
  rag_doc_id : option string; rag_chunk_id : option string; rag_section : option string;
  relevance_score : option float }.
Record RetrievalAudit := mk_retrieval {
  query_summary : string; strategy_used : option string; top_k : Z; chunks_returned : list RAGSourceCitation }.
Record AnalysisAudit := mk_audit { retrieval : RetrievalAudit; citations : list RAGSourceCitation }.

Record AnalysisOutput := mk_analysis {
  analysis_id : string; pair : string; timestamp : datetime; trading_style : string; session : string;
  macro_bias : MacroBiasOutput; dxy_bias : DXYBiasOutput; cot_signal : COTSignalOutput;
  event_risk : list EventRiskItem; htf_bias : TimeframeBias; mtf_bias : TimeframeBias;
  entry_setup : SetupZone; wyckoff_phase : WyckoffPhaseOutput; confluence_score : ConfluenceScoreOutput;
  setup_grade : string; direction : string; entry_zone : EntryZone; stop_loss : StopLossOutput;
  take_profits : list TakeProfitLevel; rr_ratio : option float; confidence : string;
  proceed_to_module_b : string; execution_mode : option string; ltf_confirmed : bool;
  explainable_reasoning : text; rag_sources : list RAGSourceCitation; audit : AnalysisAudit }.

(** ** The rules: [engine/processor/parsing/validators.py] *)

Section Validators.
(** The order a set prints its members in. *)
Context (set_order : list string -> list string).

Definition set_repr (l : list string) : string :=
  ("{" ++ str_join ", " (map (fun s => "'" ++ s ++ "'") (set_order l)) ++ "}")%string.

Definition _validate_identity (o : AnalysisOutput) : list string :=
  (if str_empty (analysis_id o) then ["analysis_id is empty"] else []) ++
  (if str_empty (pair o) then ["pair is empty"] else []) ++
  (if str_empty (trading_style o) then ["trading_style is empty"] else []).

Definition valid_directions : list string := ["LONG"; "SHORT"; "NO SETUP"].
Definition valid_grades : list string := ["A+"; "A"; "B"; "REJECT"].

Definition _validate_direction_consistency (o : AnalysisOutput) : list string :=
  (if negb (str_in (direction o) valid_directions)
   then [("direction '" ++ direction o ++ "' not in " ++ set_repr valid_directions)%string] else []) ++
  (if String.eqb (direction o) "NO SETUP" then
     (if negb (String.eqb (setup_grade o) "REJECT")
      then [("direction is NO SETUP but setup_grade is '" ++ setup_grade o ++ "' (expected REJECT)")%string] else []) ++
     (if String.eqb (proceed_to_module_b o) "YES"
      then ["direction is NO SETUP but proceed_to_module_b is YES"] else [])
   else []).

Definition _validate_confluence_score (o : AnalysisOutput) : list string :=
  let score := score (confluence_score o) in
  if flt score CONFLUENCE_SCORE_MIN || flt CONFLUENCE_SCORE_MAX score
  then [("confluence_score " ++ py_str_float score ++ " outside bounds [" ++ py_str_float CONFLUENCE_SCORE_MIN ++ ", " ++
         py_str_float CONFLUENCE_SCORE_MAX ++ "]")%string]
  else [].

Definition _validate_grade_consistency (o : AnalysisOutput) : list string :=
  let score := score (confluence_score o) in
  (if negb (str_in (setup_grade o) valid_grades)
   then [("setup_grade '" ++ setup_grade o ++ "' not in " ++ set_repr valid_grades)%string] else []) ++
  (if flt score CONFLUENCE_REJECT_THRESHOLD && negb (String.eqb (setup_grade o) "REJECT")
   then [("confluence_score " ++ py_str_float score ++ " < " ++ py_str_float CONFLUENCE_REJECT_THRESHOLD ++
          " but grade is '" ++ setup_grade o ++ "' (expected REJECT)")%string] else []).

Definition is_trade (o : AnalysisOutput) : bool := str_in (direction o) ["LONG"; "SHORT"].

Definition _validate_trade_construction (o : AnalysisOutput) : list string :=
  if is_trade o then
    (match low (entry_zone o), high (entry_zone o) with
     | Some _, Some _ => []
     | _, _ => ["trade approved but entry_zone has null bounds"]
     end) ++
    (match price (stop_loss o) with
     | None => ["trade approved but stop_loss.price is null"]
     | Some _ => []
     end) ++
    (match take_profits o with [] => ["trade approved but take_profits is empty"] | _ => [] end) ++
    (match low (entry_zone o), high (entry_zone o) with
     | Some l, Some h =>
         (if flt h l
          then [("entry_zone.low (" ++ py_str_float l ++ ") > entry_zone.high (" ++ py_str_float h ++ ")")%string]
          else []) ++
         (if fle l fzero
          then [("entry_zone.low (" ++ py_str_float l ++ ") must be positive")%string] else [])
     | _, _ => []
     end) ++
    (match price (stop_loss o) with
     | Some p => if fle p fzero then [("stop_loss.price (" ++ py_str_float p ++ ") must be positive")%string] else []
     | None => []
     end)
  else [].

(** The least reward to risk of the style, the intraday one for a style that is
    not known. *)
Definition min_rr (o : AnalysisOutput) : float :=
  match style_min_tp_rr (Some (str_upper (trading_style o))) with Some r => r | None => MIN_RR_INTRADAY end.

Definition _validate_rr_ratio (o : AnalysisOutput) : list string :=
  if negb (is_trade o) then []
  else
    match rr_ratio o with
    | None => ["trade approved but rr_ratio is null"]
    | Some r =>
        if fle r fzero then [("rr_ratio (" ++ py_str_float r ++ ") must be positive")%string]
        else if flt r (min_rr o)
        then [("rr_ratio " ++ py_str_float r ++ " below minimum " ++ py_str_float (min_rr o) ++ " for style " ++
               str_upper (trading_style o))%string]
        else []
    end.

Definition _validate_proceed_consistency (o : AnalysisOutput) : list string :=
  if String.eqb (proceed_to_module_b o) "YES" then
    (if negb (str_in (setup_grade o) ["A+"; "A"; "B"])
     then [("proceed_to_module_b is YES but grade is '" ++ setup_grade o ++ "' (requires A+, A, or B)")%string]
     else []) ++
    (if String.eqb (direction o) "NO SETUP"
     then ["proceed_to_module_b is YES but direction is NO SETUP"] else [])
  else [].

Definition _validate_reasoning (o : AnalysisOutput) : list string :=
  match explainable_reasoning o with
  | [] => ["explainable_reasoning is empty"]
  | r =>
      if MAX_REASONING_LENGTH <? py_len r
      then [("explainable_reasoning exceeds " ++ str_int MAX_REASONING_LENGTH ++ " chars")%string]
      else []
  end.

Definition tp_level_error (i : Z) (tp : TakeProfitLevel) : list string :=
  match level tp with
  | Some l =>
      if fle l fzero
      then [("take_profits[" ++ str_int i ++ "].level (" ++ py_str_float l ++ ") must be positive")%string] else []
  | None => []
  end.

Definition _validate_tp_structure (o : AnalysisOutput) : list string :=
  if negb (is_trade o) then []
  else
    (if MAX_TAKE_PROFIT_LEVELS <? py_len (take_profits o)
     then [("take_profits has " ++ str_int (py_len (take_profits o)) ++ " levels (max " ++
            str_int MAX_TAKE_PROFIT_LEVELS ++ ")")%string] else []) ++
    (let total_pct := foldr Z.add 0 (map size_pct (take_profits o)) in
     match take_profits o with
     | [] => []
     | _ =>
         if negb (total_pct =? 100)
         then [("take_profits size_pct sum is " ++ str_int total_pct ++ " (expected 100)")%string] else []
     end) ++
    flat_map (fun '(i, tp) => tp_level_error i tp) (py_enumerate (take_profits o)).

Definition _validate_citations (o : AnalysisOutput) : list string :=
  (match rag_sources o with [] => ["rag_sources is empty (citations required)"] | _ => [] end) ++
  (if MAX_CITATIONS <? py_len (rag_sources o)
   then [("rag_sources has " ++ str_int (py_len (rag_sources o)) ++ " items (max " ++ str_int MAX_CITATIONS ++ ")")%string]
   else []).

Definition validate_analysis_output (o : AnalysisOutput) (require_citations : bool) : list string :=
  _validate_identity o ++ _validate_direction_consistency o ++ _validate_confluence_score o ++
  _validate_grade_consistency o ++ _validate_trade_construction o ++ _validate_rr_ratio o ++
  _validate_proceed_consistency o ++ _validate_reasoning o ++ _validate_tp_structure o ++
  (if require_citations then _validate_citations o else []).
End Validators.

(** The whitelist of messages that do not block the trade. *)
Definition _is_non_fatal_warning (error : string) : bool :=
  let error_lower := str_lower error in
  if str_contains "explainable_reasoning" error_lower then true
  else if str_contains "rag_sources" error_lower then true
  else str_contains "take_profits size_pct sum" error_lower.

Definition _error_to_rule (error : string) : string :=
  if str_contains "confluence_score" error then "confluence_score_bounds"
  else if str_contains "rr_ratio" error then "rr_ratio_minimum"
  else if str_contains "entry_zone" error then "entry_zone_invalid"
  else if str_contains "stop_loss" error then "stop_loss_invalid"
  else if str_contains "take_profits" error then "take_profits_invalid"
  else if str_contains "direction" error then "direction_consistency"
  else if str_contains "grade" error || str_contains "setup_grade" error then "grade_consistency"
  else if str_contains "proceed" error then "proceed_consistency"
  else if str_contains "rag_sources" error || str_contains "citation" error then "citations_missing"
  else if str_contains "reasoning" error then "reasoning_invalid"
  else "other".

(** ** The JSON object of a noisy answer *)

(** [str.isspace] of one character, which is also [\s] of a pattern. *)
Definition cp_space (c : Z) : bool :=
  ((9 <=? c) && (c <=? 13)) || ((28 <=? c) && (c <=? 32)) || (c =? 133) || (c =? 160) || (c =? 5760)
  || ((8192 <=? c) && (c <=? 8202)) || (c =? 8232) || (c =? 8233) || (c =? 8239) || (c =? 8287) || (c =? 12288).

Fixpoint skip_space (s : text) : text :=
  match s with
  | c :: s' => if cp_space c then skip_space s' else s
  | [] => []
  end.

Definition text_strip (s : text) : text := rev (skip_space (rev (skip_space s))).

Fixpoint drop_prefix (p s : text) : option text :=
  match p, s with
  | [], _ => Some s
  | c :: p, d :: s => if c =? d then drop_prefix p s else None
  | _ :: _, [] => None
  end.

Definition lbrace : Z := 123.
Definition rbrace : Z := 125.
Definition fence : text := [96; 96; 96].
Definition json_word : text := [106; 115; 111; 110].

(** [\s*```]. *)
Definition closes (s : text) : bool :=
  match drop_prefix fence (skip_space s) with Some _ => true | None => false end.

(** [.*?}\s*```]: up to the first brace that a fence follows. *)
Fixpoint lazy_body (s : text) : option text :=
  match s with
  | [] => None
  | c :: s => if (c =? rbrace) && closes s then Some [c] else cons c <$> lazy_body s
  end.

(** A match of [```(?:json)?\s*\n?(\{.*?})\s*```] that starts here: its group. *)
Definition block_at (s : text) : option text :=
  match drop_prefix fence s with
  | None => None
  | Some s =>
      let s := match drop_prefix json_word s with Some s' => s' | None => s end in
      match skip_space s with
      | c :: s => if c =? lbrace then cons c <$> lazy_body s else None
      | [] => None
      end
  end.

(** [.*}]: up to the last brace. *)
Fixpoint greedy_body (s : text) : option text :=
  match s with
  | [] => None
  | c :: s =>
      match greedy_body s with
      | Some g => Some (c :: g)
      | None => if c =? rbrace then Some [c] else None
      end
  end.

(** A match of [(\{.*})] that starts here. *)
Definition object_at (s : text) : option text :=
  match s with
  | c :: s => if c =? lbrace then cons c <$> greedy_body s else None
  | [] => None
  end.

(** [pattern.search(s)]: the leftmost match. *)
Fixpoint re_search (match_at : text -> option text) (s : text) : option text :=
  match match_at s with
  | Some g => Some g
  | None => match s with [] => None | _ :: s => re_search match_at s end
  end.

Definition _JSON_BLOCK_RE : text -> option text := re_search block_at.
Definition _JSON_OBJECT_RE : text -> option text := re_search object_at.

Definition starts_with (c : Z) (s : text) : bool := match s with d :: _ => c =? d | [] => false end.
Definition ends_with (c : Z) (s : text) : bool := match last s with Some d => c =? d | None => false end.

Definition _extract_json (raw_text : text) : text :=
  let stripped := text_strip raw_text in
  if starts_with lbrace stripped && ends_with rbrace stripped then stripped
  else
    match _JSON_BLOCK_RE stripped with
    | Some g => text_strip g
    | None =>
        match _JSON_OBJECT_RE stripped with
        | Some g => text_strip g
        | None => stripped
        end
    end.

(** ** Nulls where lists are declared *)

Definition _NULLABLE_LIST_PATHS : list (list string) :=
  [["event_risk"]; ["take_profits"]; ["rag_sources"]; ["audit"; "citations"];
   ["audit"; "retrieval"; "chunks_returned"]; ["htf_bias"; "key_levels"]; ["mtf_bias"; "key_levels"];
   ["entry_setup"; "bounds"]; ["entry_setup"; "evidence"]; ["stop_loss"; "evidence"];
   ["wyckoff_phase"; "evidence"]; ["dxy_bias"; "evidence"]; ["cot_signal"; "evidence"];
   ["macro_bias"; "base_currency"; "evidence"]; ["macro_bias"; "quote_currency"; "evidence"];
   ["confluence_score"; "factors"]].

(** One path: walk to its parent, and replace a null leaf. *)
Fixpoint coerce_path (path : list string) (d : object) : object :=
  match path with
  | [] => d
  | [leaf] => match obj_get leaf d with Some JNull => obj_set leaf (JArr []) d | _ => d end
  | p :: path => match obj_get p d with Some (JObj d') => obj_set p (JObj (coerce_path path d')) d | _ => d end
  end.

Definition _coerce_null_collections (raw : object) : object :=
  fold_left (fun d path => coerce_path path d) _NULLABLE_LIST_PATHS raw.

(** ** Parsing *)

Section Parse.
Context (set_order : list string -> list string).
(** [orjson.loads], and the schema validation of pydantic: its errors as locations
    with messages. *)
Context (loads : text -> string + json) (model_validate : object -> list (string * string) + AnalysisOutput).

Definition parse_llm_response (raw_text : text) (require_citations : bool) : res (AnalysisOutput * list string) :=
  match text_strip raw_text with
  | [] => Raise (ProcessorError "LLM returned empty response")
  | _ =>
      if MAX_LLM_RESPONSE_LENGTH <? py_len raw_text
      then Raise (ProcessorError ("LLM response exceeds " ++ str_int MAX_LLM_RESPONSE_LENGTH ++ " chars (" ++
                    str_int (py_len raw_text) ++ ")"))
      else
        match loads (_extract_json raw_text) with
        | inl exc => Raise (ProcessorError ("Failed to parse LLM JSON: " ++ exc))
        | inr (JObj raw_dict) =>
            match model_validate (_coerce_null_collections raw_dict) with
            | inl errs =>
                let error_details := map (fun '(loc, msg) => (loc ++ ": " ++ msg)%string) errs in
                Raise (LLMSchemaViolationError
                  ("LLM response failed schema validation: " ++ str_join "; " (firstn 5 error_details)) error_details)
            | inr output =>
                let validation_errors := validate_analysis_output set_order output require_citations in
                let warnings := List.filter _is_non_fatal_warning validation_errors in
                let fatal_errors := List.filter (fun e => negb (_is_non_fatal_warning e)) validation_errors in
                match fatal_errors with
                | [] => Ok (output, warnings)
                | _ => Raise (ProcessorError ("Analysis output failed validation: " ++
                                str_join "; " (firstn 5 fatal_errors)))
                end
            end
        | inr v =>
            Raise (ProcessorError ("LLM response is not a JSON object (got " ++ json_type_name v ++ ")"))
        end
  end.
End Parse.
