(* ===== verification/ParserFacts.v ===== *)
(** * Correctness of the response parser

    The object cut out of an answer, the nulls it replaces, the exact meaning of
    the trading rules, and the parse as a whole. *)

From Stdlib Require Import ZArith Lia Bool Ascii String SpecFloat Permutation.
From stdpp Require Import base list strings pretty.
From S2P Require Import Prelude Loops PyFloat FloatRound PyText PyRepr Constants PriceMath StopLoss PyValues ResponseParser.

#[local] Open Scope string_scope.
#[local] Open Scope Z_scope.
#[local] Open Scope list_scope.

Module ExtractFacts.

(** ** Blanks *)

Definition blank (s : text) : Prop := Forall (fun c => cp_space c = true) s.

Lemma skip_space_split s : exists ws, s = ws ++ skip_space s /\ blank ws.
Proof.
  induction s as [|c s IH]; cbn [skip_space]; [by exists []; repeat constructor|].
  destruct (cp_space c) eqn:E; [|by exists []; repeat constructor].
  destruct IH as (ws & Es & Hw). exists (c :: ws). split; [by rewrite Es at 1|by constructor].
Qed.

Lemma skip_space_blank ws s : blank ws -> skip_space (ws ++ s) = skip_space s.
Proof. induction 1 as [|c ws Hc _ IH]; cbn [app skip_space]; [done|]. by rewrite Hc. Qed.

Lemma skip_space_app a c s : cp_space c = false -> skip_space (a ++ c :: s) = skip_space a ++ c :: s.
Proof.
  intros Hc. induction a as [|d a IH]; cbn [app skip_space]; [by rewrite Hc|]. by destruct (cp_space d).
Qed.

Lemma text_strip_split s : exists a b, s = a ++ text_strip s ++ b.
Proof.
  unfold text_strip. destruct (skip_space_split s) as (a & Ea & _).
  destruct (skip_space_split (rev (skip_space s))) as (b & Eb & _). exists a, (rev b).
  rewrite <- rev_app_distr, <- Eb, rev_involutive. done.
Qed.

(** Trimming stops at the first and last characters that are not blank. *)
Lemma text_strip_app a c m d b :
  cp_space c = false -> cp_space d = false ->
  text_strip (a ++ (c :: m ++ [d]) ++ b) = skip_space a ++ (c :: m ++ [d]) ++ rev (skip_space (rev b)).
Proof.
  intros Hc Hd. unfold text_strip. cbn [app]. rewrite skip_space_app by done.
  assert (G : forall t, skip_space a ++ c :: (m ++ [d]) ++ t = (skip_space a ++ c :: m) ++ d :: t).
  { intros t. rewrite <- !app_assoc. done. }
  rewrite !G. set (A := skip_space a ++ c :: m). rewrite rev_app_distr. cbn [rev]. rewrite <- app_assoc. cbn [app].
  rewrite skip_space_app, rev_app_distr by done. cbn [rev]. rewrite rev_involutive. by rewrite <- app_assoc.
Qed.

Lemma text_strip_braces m : text_strip (lbrace :: m ++ [rbrace]) = lbrace :: m ++ [rbrace].
Proof. pose proof (text_strip_app [] lbrace m rbrace [] eq_refl eq_refl) as E. cbn [app] in E. by rewrite !app_nil_r in E. Qed.

(** ** The patterns *)

Lemma lazy_body_spec s g :
  lazy_body s = Some g -> exists pre post, s = g ++ post /\ g = pre ++ [rbrace] /\ closes post = true.
Proof.
  revert g. induction s as [|c s IH]; cbn [lazy_body]; intros g; [done|].
  destruct ((c =? rbrace) && closes s) eqn:E.
  - intros [= <-]. apply andb_true_iff in E as [Ec Es]. apply Z.eqb_eq in Ec. subst c. by exists [], s.
  - destruct (lazy_body s) as [g'|]; [|done]. intros [= <-]. destruct (IH g' eq_refl) as (pre & post & -> & -> & Hp).
    by exists (c :: pre), post.
Qed.

Lemma greedy_body_spec s :
  match greedy_body s with
  | Some g => exists pre post, s = g ++ post /\ g = pre ++ [rbrace] /\ ~ In rbrace post
  | None => ~ In rbrace s
  end.
Proof.
  induction s as [|c s IH]; cbn [greedy_body]; [by intros []|]. destruct (greedy_body s) as [g|].
  - destruct IH as (pre & post & -> & -> & Hn). by exists (c :: pre), post.
  - destruct (Z.eqb_spec c rbrace) as [->|Hc]; [by exists [], s|]. intros [E|Hin]; [congruence|auto].
Qed.

Lemma re_search_spec match_at s :
  match re_search match_at s with
  | Some g => exists a s', s = a ++ s' /\ match_at s' = Some g /\ forall b b', a = b ++ b' -> b' <> [] -> match_at (b' ++ s') = None
  | None => forall a s', s = a ++ s' -> match_at s' = None
  end.
Proof.
  induction s as [|c s IH]; cbn [re_search].
  - destruct (match_at []) as [g|] eqn:E.
    + exists [], []. split; [done|]. split; [done|]. intros b b' Hb Hne. symmetry in Hb. by apply app_nil in Hb as [_ ->].
    + intros a s' H. symmetry in H. by apply app_nil in H as [-> ->].
  - destruct (match_at (c :: s)) as [g|] eqn:E.
    + exists [], (c :: s). split; [done|]. split; [done|]. intros b b' Hb Hne. symmetry in Hb. by apply app_nil in Hb as [_ ->].
    + destruct (re_search match_at s) as [g|].
      * destruct IH as (a & s' & -> & Hm & Hb). exists (c :: a), s'. split; [done|]. split; [done|].
        intros b b' Eb Hne. destruct b as [|d b]; cbn [app] in Eb; [by subst b'|]. injection Eb as -> ->. by eapply Hb.
      * intros [|d a] s' H; cbn [app] in H; [by subst s'|]. injection H as -> ->. by eapply IH.
Qed.

Lemma drop_prefix_spec p s r : drop_prefix p s = Some r <-> s = p ++ r.
Proof.
  revert s. induction p as [|c p IH]; intros [|d s]; cbn [drop_prefix app]; [naive_solver..|].
  destruct (Z.eqb_spec c d) as [->|]; [|naive_solver]. rewrite IH. naive_solver.
Qed.

Lemma drop_prefix_app p r : drop_prefix p (p ++ r) = Some r.
Proof. by apply drop_prefix_spec. Qed.

Lemma block_at_spec s g :
  block_at s = Some g -> exists a m b, s = a ++ g ++ b /\ g = lbrace :: m ++ [rbrace].
Proof.
  unfold block_at. destruct (drop_prefix fence s) as [s1|] eqn:E1; [|done]. apply drop_prefix_spec in E1.
  cbv zeta. set (s2 := match drop_prefix json_word s1 with Some s' => s' | None => s1 end).
  assert (E2 : exists x, s1 = x ++ s2).
  { unfold s2. destruct (drop_prefix json_word s1) as [s'|] eqn:E; [|by exists []]. apply drop_prefix_spec in E. eauto. }
  destruct E2 as (x & E2). destruct (skip_space_split s2) as (ws & E3 & _).
  destruct (skip_space s2) as [|c s3]; [done|]. destruct (Z.eqb_spec c lbrace) as [->|]; [|done].
  destruct (lazy_body s3) as [g'|] eqn:El; [|done]. intros [= <-].
  apply lazy_body_spec in El as (pre & post & -> & -> & _). exists (fence ++ x ++ ws), pre, post.
  split; [|done]. rewrite E1, E2, E3, <- !app_assoc. cbn [app]. by rewrite <- app_assoc.
Qed.

Lemma object_at_spec s :
  match object_at s with
  | Some g => exists m b, s = g ++ b /\ g = lbrace :: m ++ [rbrace] /\ ~ In rbrace b
  | None => forall m b, s <> lbrace :: m ++ rbrace :: b
  end.
Proof.
  destruct s as [|c s]; cbn [object_at]; [done|]. destruct (Z.eqb_spec c lbrace) as [->|]; [|by intros m b [= ? _]].
  pose proof (greedy_body_spec s) as G. destruct (greedy_body s) as [g|]; cbn [fmap option_fmap option_map].
  - destruct G as (pre & post & -> & -> & Hn). by exists pre, post.
  - intros m b [= ->]. apply G, in_app_iff. right. by left.
Qed.

(** ** What is cut out *)

Lemma braced_of_ends s :
  starts_with lbrace s && ends_with rbrace s = true -> exists m, s = lbrace :: m ++ [rbrace].
Proof.
  intros E. apply andb_true_iff in E as [E1 E2]. destruct s as [|c s]; [done|]. cbn [starts_with] in E1.
  apply Z.eqb_eq in E1 as <-. unfold ends_with in E2. destruct (last (lbrace :: s)) as [d|] eqn:E; [|done].
  apply Z.eqb_eq in E2 as <-. apply last_Some in E as (m & Em). destruct m as [|x m]; [by injection Em|].
  injection Em as <- ->. by exists m.
Qed.

Lemma greedy_body_last m b : ~ In rbrace b -> greedy_body (m ++ rbrace :: b) = Some (m ++ [rbrace]).
Proof.
  intros Hb. induction m as [|c m IH]; cbn [app greedy_body]; [|by rewrite IH].
  pose proof (greedy_body_spec b) as G. destruct (greedy_body b) as [g|]; [|done].
  destruct G as (pre & post & -> & -> & _). destruct Hb. rewrite !in_app_iff. left. right. by left.
Qed.

(** The pattern runs from the first opening to the last closing brace. *)
Lemma object_search a m b :
  ~ In lbrace a -> ~ In rbrace b -> _JSON_OBJECT_RE (a ++ lbrace :: m ++ rbrace :: b) = Some (lbrace :: m ++ [rbrace]).
Proof.
  intros Ha Hb. unfold _JSON_OBJECT_RE. induction a as [|c a IH]; cbn [app re_search object_at].
  - by rewrite Z.eqb_refl, greedy_body_last.
  - rewrite (proj2 (Z.eqb_neq c lbrace)) by (intros ->; apply Ha; by left). apply IH. intros Hin. apply Ha. by right.
Qed.

Lemma object_search_spec s :
  match _JSON_OBJECT_RE s with
  | Some g => exists a m b, s = a ++ g ++ b /\ g = lbrace :: m ++ [rbrace]
  | None => forall a m b, s <> a ++ lbrace :: m ++ rbrace :: b
  end.
Proof.
  unfold _JSON_OBJECT_RE. pose proof (re_search_spec object_at s) as R. destruct (re_search object_at s) as [g|].
  - destruct R as (a & s' & -> & Hm & _). pose proof (object_at_spec s') as O. rewrite Hm in O.
    destruct O as (m & b & -> & E & _). by exists a, m, b.
  - intros a m b ->. specialize (R a _ eq_refl). pose proof (object_at_spec (lbrace :: m ++ rbrace :: b)) as O.
    rewrite R in O. by apply (O m b).
Qed.

Lemma block_search_spec s :
  match _JSON_BLOCK_RE s with
  | Some g => exists a m b, s = a ++ g ++ b /\ g = lbrace :: m ++ [rbrace]
  | None => True
  end.
Proof.
  unfold _JSON_BLOCK_RE. pose proof (re_search_spec block_at s) as R. destruct (re_search block_at s) as [g|]; [|done].
  destruct R as (a & s' & -> & Hm & _). apply block_at_spec in Hm as (a' & m & b & -> & ->).
  exists (a ++ a'), m, b. by rewrite <- app_assoc.
Qed.

Lemma block_search_no_fence s : ~ In 96 s -> _JSON_BLOCK_RE s = None.
Proof.
  intros Hn. unfold _JSON_BLOCK_RE. pose proof (re_search_spec block_at s) as R.
  destruct (re_search block_at s) as [g|]; [|done]. destruct R as (a & s' & -> & Hm & _). exfalso.
  unfold block_at in Hm. destruct (drop_prefix fence s') as [r|] eqn:E; [|done]. apply drop_prefix_spec in E as ->.
  apply Hn, in_app_iff. right. by left.
Qed.

(** Trimming keeps the braces and what is between them. *)
Lemma strip_around a m b :
  exists a' b', text_strip (a ++ lbrace :: m ++ rbrace :: b) = a' ++ lbrace :: m ++ rbrace :: b' /\
    (forall c, In c a' -> In c a) /\ (forall c, In c b' -> In c b).
Proof.
  pose proof (text_strip_app a lbrace m rbrace b eq_refl eq_refl) as E. cbn [app] in E. rewrite <- !app_assoc in E.
  exists (skip_space a), (rev (skip_space (rev b))). split; [exact E|]. split; intros c Hc.
  - destruct (skip_space_split a) as (ws & -> & _). apply in_app_iff. by right.
  - apply in_rev in Hc. apply in_rev. destruct (skip_space_split (rev b)) as (ws & -> & _). apply in_app_iff. by right.
Qed.

(** The text cut out of an answer is a piece of it, and is shaped like an object
    whenever the answer holds a brace that opens before one that closes.  Without a
    code fence it runs from the first opening brace to the last closing one. *)
Theorem extract_json_exact raw :
  (exists a b, raw = a ++ _extract_json raw ++ b) /\
  ((exists a m b, raw = a ++ lbrace :: m ++ rbrace :: b) -> exists m, _extract_json raw = lbrace :: m ++ [rbrace]) /\
  (~ In 96 raw -> forall a m b, raw = a ++ lbrace :: m ++ rbrace :: b -> ~ In lbrace a -> ~ In rbrace b ->
     _extract_json raw = lbrace :: m ++ [rbrace]).
Proof.
  destruct (text_strip_split raw) as (x & y & Er).
  assert (Hcut : forall g, (exists a m b, text_strip raw = a ++ g ++ b /\ g = lbrace :: m ++ [rbrace]) ->
    (exists a b, raw = a ++ g ++ b) /\ text_strip g = g /\ exists m, g = lbrace :: m ++ [rbrace]).
  { intros g (a & m & b & E & ->). split; [|split; [apply text_strip_braces|by exists m]].
    exists (x ++ a), (b ++ y). rewrite Er, E at 1. by rewrite <- !app_assoc. }
  unfold _extract_json. cbv zeta. destruct (starts_with lbrace (text_strip raw) && ends_with rbrace (text_strip raw)) eqn:Ed.
  { destruct (braced_of_ends _ Ed) as (m & Em). split; [by exists x, y|]. split; [by exists m|].
    intros _ a m' b -> Ha Hb. destruct (strip_around a m' b) as (a' & b' & E & Ha' & Hb'). rewrite E in Em |- *.
    destruct a' as [|c a']; [|injection Em as -> _; destruct Ha; apply Ha'; by left].
    destruct b' as [|c b'] using rev_ind; [done|]. exfalso. apply Hb, Hb', in_app_iff. right. left.
    cbn [app] in Em. injection Em as Em. rewrite app_comm_cons, app_assoc in Em. by apply app_inj_tail in Em as [_ ->]. }
  pose proof (block_search_spec (text_strip raw)) as B. destruct (_JSON_BLOCK_RE (text_strip raw)) as [g|] eqn:Eb.
  { destruct (Hcut g B) as (H1 & -> & H2). split; [done|]. split; [done|]. intros Hn. exfalso.
    rewrite block_search_no_fence in Eb; [done|]. intros Hin. apply Hn. rewrite Er, !in_app_iff. auto. }
  pose proof (object_search_spec (text_strip raw)) as O. destruct (_JSON_OBJECT_RE (text_strip raw)) as [g|] eqn:Eo.
  - destruct (Hcut g O) as (H1 & -> & H2). split; [done|]. split; [done|]. intros _ a m b -> Ha Hb.
    destruct (strip_around a m b) as (a' & b' & E & Ha' & Hb'). rewrite E, object_search in Eo; [by injection Eo|auto..].
  - split; [by exists x, y|]. assert (Hno : forall a m b, raw <> a ++ lbrace :: m ++ rbrace :: b).
    { intros a m b ->. destruct (strip_around a m b) as (a' & b' & E & _). by apply (O a' m b'). }
    split; [intros (a & m & b & E)|intros _ a m b E]; by destruct (Hno a m b).
Qed.

(** *** Reading back a fenced object *)

Lemma closes_false m r : ~ In 96 m -> closes (m ++ rbrace :: r) = false.
Proof.
  intros Hm. unfold closes. induction m as [|c m IH]; [done|]. cbn [app skip_space]. destruct (cp_space c).
  - apply IH. intros Hin. apply Hm. by right.
  - cbn [drop_prefix fence]. rewrite (proj2 (Z.eqb_neq 96 c)); [done|]. intros <-. apply Hm. by left.
Qed.

Lemma closes_true ws r : blank ws -> closes (ws ++ fence ++ r) = true.
Proof. intros Hw. unfold closes. rewrite skip_space_blank by done. done. Qed.

Lemma lazy_body_fenced m ws r :
  ~ In 96 m -> blank ws -> lazy_body (m ++ rbrace :: ws ++ fence ++ r) = Some (m ++ [rbrace]).
Proof.
  intros Hm Hw. induction m as [|c m IH]; cbn [app lazy_body].
  - rewrite closes_true by done. by rewrite Z.eqb_refl.
  - assert (Hm' : ~ In 96 m) by (intros Hin; apply Hm; by right). by rewrite closes_false, andb_false_r, IH.
Qed.

Lemma blank_not c ws : blank ws -> cp_space c = false -> starts_with c ws = false.
Proof.
  intros Hw Hc. destruct Hw as [|d ws Hd _]; cbn [starts_with]; [done|]. apply Z.eqb_neq. intros ->. congruence.
Qed.

Lemma block_at_fenced (tagged : bool) ws m ws' post :
  blank ws -> blank ws' -> ~ In 96 m ->
  block_at (fence ++ (if tagged then json_word else []) ++ ws ++ (lbrace :: m ++ [rbrace]) ++ ws' ++ fence ++ post) =
    Some (lbrace :: m ++ [rbrace]).
Proof.
  intros Hw Hw' Hm. unfold block_at. rewrite drop_prefix_app. cbv zeta.
  set (rest := ws ++ (lbrace :: m ++ [rbrace]) ++ ws' ++ fence ++ post).
  replace (match drop_prefix json_word ((if tagged then json_word else []) ++ rest) with
           | Some s' => s' | None => (if tagged then json_word else []) ++ rest end) with rest.
  2: { destruct tagged; [by rewrite drop_prefix_app|]. cbn [app]. unfold rest.
       pose proof (blank_not 106 ws Hw eq_refl) as Hb. destruct ws as [|c ws]; [done|].
       cbn [starts_with] in Hb. cbn [app drop_prefix json_word]. by rewrite Hb. }
  unfold rest. rewrite skip_space_blank by done. cbn [app]. rewrite <- app_assoc. cbn [app].
  change (skip_space (lbrace :: m ++ rbrace :: ws' ++ fence ++ post)) with (lbrace :: m ++ rbrace :: ws' ++ fence ++ post).
  cbv iota. by rewrite Z.eqb_refl, lazy_body_fenced.
Qed.

Lemma block_search_fenced pre s g : ~ In 96 pre -> block_at (fence ++ s) = Some g -> _JSON_BLOCK_RE (pre ++ fence ++ s) = Some g.
Proof.
  intros Hp Hg. unfold _JSON_BLOCK_RE. induction pre as [|c pre IH].
  - cbn [app fence re_search] in *. by rewrite Hg.
  - cbn [app re_search]. replace (block_at (c :: pre ++ fence ++ s)) with (@None text).
    + apply IH. intros Hin. apply Hp. by right.
    + unfold block_at. cbn [drop_prefix fence]. rewrite (proj2 (Z.eqb_neq 96 c)); [done|]. intros <-. apply Hp. by left.
Qed.

(** An object printed inside a code fence is read back.  Whatever text without a
    backtick precedes it, with or without the language tag, with any blanks around
    the object and anything after the fence, the object is exactly what is cut out,
    unless the whole answer itself starts and ends with braces. *)
Theorem extract_fenced pre (tagged : bool) ws m ws' post :
  ~ In 96 pre -> blank ws -> blank ws' -> ~ In 96 m ->
  let raw := pre ++ fence ++ (if tagged then json_word else []) ++ ws ++ (lbrace :: m ++ [rbrace]) ++ ws' ++ fence ++ post in
  starts_with lbrace (text_strip raw) && ends_with rbrace (text_strip raw) = false ->
  _extract_json raw = lbrace :: m ++ [rbrace].
Proof.
  intros Hp Hw Hw' Hm raw Hd. unfold _extract_json. rewrite Hd. cbv zeta.
  set (tag := if tagged then json_word else []) in *.
  pose proof (text_strip_app pre 96 ([96; 96] ++ tag ++ ws ++ (lbrace :: m ++ [rbrace]) ++ ws' ++ [96; 96]) 96 post
    eq_refl eq_refl) as E. set (pre' := skip_space pre) in E. set (post' := rev (skip_space (rev post))) in E.
  assert (Es : text_strip raw = pre' ++ fence ++ tag ++ ws ++ (lbrace :: m ++ [rbrace]) ++ ws' ++ fence ++ post').
  { unfold raw, fence. cbn [app] in E |- *. rewrite <- !app_assoc in E. cbn [app] in E. rewrite <- !app_assoc in E.
    cbn [app] in E. rewrite <- !app_assoc in E. cbn [app] in E. rewrite <- !app_assoc. cbn [app]. exact E. }
  assert (Hp' : ~ In 96 pre').
  { intros Hin. apply Hp. destruct (skip_space_split pre) as (x & -> & _). apply in_app_iff. by right. }
  assert (Eb : _JSON_BLOCK_RE (text_strip raw) = Some (lbrace :: m ++ [rbrace])).
  { rewrite Es. exact (block_search_fenced pre' _ _ Hp' (block_at_fenced tagged ws m ws' post' Hw Hw' Hm)). }
  rewrite Eb. apply text_strip_braces.
Qed.

(** "Here it is:" and a tagged fence. *)
Lemma extract_fenced_witness :
  let pre := [72; 105; 58; 10] in
  let raw := pre ++ fence ++ json_word ++ [10] ++ (lbrace :: [34; 97; 34; 58; 123; 125] ++ [rbrace]) ++ [10] ++ fence ++ [10] in
  _extract_json raw = lbrace :: [34; 97; 34; 58; 123; 125] ++ [rbrace].
Proof.
  intros pre raw. apply (extract_fenced pre true [10] [34; 97; 34; 58; 123; 125] [10] [10]).
  - intros H. repeat destruct H as [H|H]; discriminate || done.
  - repeat constructor.
  - repeat constructor.
  - intros H. repeat destruct H as [H|H]; discriminate || done.
  - reflexivity.
Defined.
End ExtractFacts.

(** ** Nulls where lists are declared *)

Module CoerceFacts.

(** What a path leads to. *)
Fixpoint json_at (path : list string) (v : json) : option json :=
  match path with
  | [] => Some v
  | p :: path =>
      match v with
      | JObj d => match obj_get p d with Some v' => json_at path v' | None => None end
      | _ => None
      end
  end.

(** A value with the contents of an object's members left out: its keys stay. *)
Definition view (v : json) : json :=
  match v with JObj d => JObj (map (fun kv => (fst kv, JNull)) d) | _ => v end.

Definition is_null (v : option json) : bool := match v with Some JNull => true | _ => false end.

Lemma obj_get_set k k' v d :
  obj_get k' (obj_set k v d) = if String.eqb k' k then Some v else obj_get k' d.
Proof.
  induction d as [|[k2 v2] d IH]; cbn [obj_set obj_get]; [done|].
  destruct (String.eqb_spec k k2) as [->|Hne]; cbn [obj_get].
  - by destruct (String.eqb_spec k' k2).
  - rewrite IH. destruct (String.eqb_spec k' k2) as [->|]; [|done]. by rewrite (proj2 (String.eqb_neq _ _)) by congruence.
Qed.

Lemma obj_set_keys k v d :
  obj_get k d <> None -> map (fun kv => (fst kv, JNull)) (obj_set k v d) = map (fun kv => (fst kv, JNull)) d.
Proof.
  induction d as [|[k2 v2] d IH]; cbn [obj_set obj_get map fst]; [done|].
  destruct (String.eqb k k2); cbn [map fst]; [done|]. intros Hk. by rewrite IH.
Qed.

Lemma coerce_path_keys path d : view (JObj (coerce_path path d)) = view (JObj d).
Proof.
  cbn [view]. destruct path as [|p [|q path]]; cbn [coerce_path]; [done| |];
    (destruct (obj_get p d) as [v|] eqn:E; [|done]; destruct v; try done; by rewrite obj_set_keys by congruence).
Qed.

(** One path changes only what it leads to, and only from null to the empty list. *)
Lemma coerce_path_at path q d :
  path <> [] -> view <$> json_at q (JObj (coerce_path path d)) =
    if bool_decide (q = path) && is_null (json_at q (JObj d)) then Some (JArr []) else view <$> json_at q (JObj d).
Proof.
  revert q d. induction path as [|p path IH]; intros q d Hp; [done|]. clear Hp.
  destruct q as [|k q].
  { rewrite bool_decide_false by done. cbn [andb json_at fmap option_fmap option_map]. by rewrite coerce_path_keys. }
  destruct path as [|p2 path].
  - cbn [coerce_path]. destruct (is_null (obj_get p d)) eqn:En.
    + assert (E : obj_get p d = Some JNull) by (destruct (obj_get p d) as [[]|]; done). rewrite E.
      cbn [json_at]. rewrite obj_get_set. destruct (String.eqb_spec k p) as [->|Hne].
      * rewrite E. destruct q as [|k2 q]; [by rewrite bool_decide_true|]. rewrite bool_decide_false by congruence. done.
      * rewrite bool_decide_false by congruence. done.
    + replace (match obj_get p d with Some JNull => obj_set p (JArr []) d | _ => d end) with d
        by (destruct (obj_get p d) as [[]|]; done).
      destruct (decide (k :: q = [p])) as [[= -> ->]|]; [|by rewrite bool_decide_false].
      rewrite bool_decide_true by done. cbn [json_at]. destruct (obj_get p d) as [[]|]; done.
  - specialize (IH q). change (coerce_path (p :: p2 :: path) d) with
      (match obj_get p d with Some (JObj d') => obj_set p (JObj (coerce_path (p2 :: path) d')) d | _ => d end).
    destruct (obj_get p d) as [v|] eqn:E.
    + destruct v as [| | | | | |d'];
        try (cbn [json_at]; destruct (bool_decide_reflect (k :: q = p :: p2 :: path)) as [[= -> ->]|]; [|done]; by rewrite E).
      cbn [json_at]. rewrite obj_get_set. destruct (String.eqb_spec k p) as [->|Hne].
      * rewrite E, IH by done. by rewrite (bool_decide_ext (p :: q = p :: p2 :: path) (q = p2 :: path)) by naive_solver.
      * rewrite bool_decide_false by congruence. done.
    + cbn [json_at]. destruct (bool_decide_reflect (k :: q = p :: p2 :: path)) as [[= -> ->]|]; [|done]. by rewrite E.
Qed.

Lemma is_null_view v : is_null (view <$> v) = is_null v.
Proof. by destruct v as [[]|]. Qed.

(** Replacing the nulls changes nothing else.  After [_coerce_null_collections] a
    listed path that led to null leads to the empty list; whatever any other path led
    to it still leads to, and no object gains or loses a key. *)
Theorem coerce_exact raw q :
  view <$> json_at q (JObj (_coerce_null_collections raw)) =
    if bool_decide (q ∈ _NULLABLE_LIST_PATHS) && is_null (json_at q (JObj raw)) then Some (JArr [])
    else view <$> json_at q (JObj raw).
Proof.
  unfold _coerce_null_collections.
  assert (Hne : Forall (fun p => p <> []) _NULLABLE_LIST_PATHS) by (repeat constructor; done).
  revert raw Hne. induction _NULLABLE_LIST_PATHS as [|p ps IH]; intros raw Hne; cbn [fold_left]; [done|].
  apply Forall_cons in Hne as [Hp Hne]. rewrite IH by done. pose proof (coerce_path_at p q raw Hp) as C.
  rewrite <- (is_null_view (json_at q (JObj (coerce_path p raw)))), C.
  rewrite <- (is_null_view (json_at q (JObj raw))).
  rewrite (bool_decide_ext (q ∈ p :: ps) (q = p \/ q ∈ ps)) by apply elem_of_cons.
  rewrite bool_decide_or. destruct (bool_decide (q = p)), (bool_decide (q ∈ ps)); cbn [orb andb]; try done;
    destruct (is_null (view <$> json_at q (JObj raw))) eqn:En; by rewrite ?En.
Qed.
End CoerceFacts.
