(* ===== verification/RuleFacts.v ===== *)
(** * The trading rules, exactly

    What an analysis that passes the rules satisfies, which of the messages block
    it, and the parse as a whole. *)

From Stdlib Require Import ZArith Lia Bool Ascii String SpecFloat Permutation.
From stdpp Require Import base list strings pretty.
From S2P Require Import Prelude Loops PyFloat FloatRound PyText PyRepr Constants PriceMath StopLoss PyValues ResponseParser ParserFacts.

#[local] Open Scope string_scope.
#[local] Open Scope Z_scope.
#[local] Open Scope list_scope.

(** ** Substrings *)

Module TextFacts.
Import ReprFacts.

Fixpoint has (c : ascii) (s : string) : bool :=
  match s with EmptyString => false | String a s => Ascii.eqb c a || has c s end.

Fixpoint str_all (p : ascii -> bool) (s : string) : bool :=
  match s with EmptyString => true | String a s => p a && str_all p s end.

Lemma has_app c s t : has c (s ++ t)%string = has c s || has c t.
Proof. induction s as [|a s IH]; [done|]. rewrite str_cons_app. cbn [has]. by rewrite IH, orb_assoc. Qed.

Lemma str_all_app p s t : str_all p (s ++ t)%string = str_all p s && str_all p t.
Proof. induction s as [|a s IH]; [done|]. rewrite str_cons_app. cbn [str_all]. by rewrite IH, andb_assoc. Qed.

Lemma str_all_has p c s : str_all p s = true -> p c = false -> has c s = false.
Proof.
  intros Hs Hc. induction s as [|a s IH]; [done|]. cbn in *. apply andb_true_iff in Hs as [Ha Hs].
  rewrite IH by done. destruct (Ascii.eqb_spec c a) as [->|]; [congruence|done].
Qed.

Lemma str_lower_app s t : str_lower (s ++ t)%string = (str_lower s ++ str_lower t)%string.
Proof. induction s as [|a s IH]; [done|]. rewrite str_cons_app. cbn [str_lower append]. rewrite str_cons_app. by rewrite IH. Qed.

Lemma prefix_has c p s : String.prefix p s = true -> has c p = true -> has c s = true.
Proof.
  revert s. induction p as [|a p IH]; intros [|b s]; cbn; try done. destruct (ascii_dec a b) as [->|]; [|done].
  intros Hp Hc. apply orb_true_iff in Hc as [->|Hc]; [done|]. by rewrite (IH s), orb_true_r.
Qed.

Lemma contains_has c p s : str_contains p s = true -> has c p = true -> has c s = true.
Proof.
  intros Hs Hc. induction s as [|a s IH]; cbn [str_contains] in Hs; apply orb_true_iff in Hs as [Hs|Hs];
    [by eapply prefix_has in Hs|done|by eapply prefix_has in Hs|].
  cbn [has]. by rewrite IH, orb_true_r.
Qed.

(** A pattern that has a character the text has not does not occur in it. *)
Lemma contains_absent c p s : has c s = false -> has c p = true -> str_contains p s = false.
Proof. intros Hs Hp. apply not_true_iff_false. intros H. eapply contains_has in H; [|exact Hp]. congruence. Qed.

Lemma prefix_sep p q a b :
  has q p = false -> String.prefix p (a ++ String q b)%string = true -> String.prefix p a = true.
Proof.
  revert a. induction p as [|c p IH]; intros [|d a] Hq; rewrite ?str_nil_app, ?str_cons_app; cbn [String.prefix]; try done.
  - cbn [has] in Hq. apply orb_false_iff in Hq as [Hq _]. destruct (ascii_dec c q) as [->|]; [|done].
    by rewrite Ascii.eqb_refl in Hq.
  - cbn [has] in Hq. apply orb_false_iff in Hq as [_ Hq]. destruct (ascii_dec c d); [|done]. by apply IH.
Qed.

(** A pattern without the separator lies on one side of it. *)
Lemma contains_sep p q a b :
  has q p = false -> str_contains p a = false -> str_contains p b = false ->
  str_contains p (a ++ String q b)%string = false.
Proof.
  intros Hq Ha Hb. apply not_true_iff_false. induction a as [|c a IH]; rewrite ?str_nil_app, ?str_cons_app; cbn [str_contains] in *.
  - apply orb_false_iff in Ha as [Ha _]. rewrite Hb, orb_false_r. intros Hp.
    apply (prefix_sep p q "" b Hq) in Hp. by rewrite Hp in Ha.
  - apply orb_false_iff in Ha as [Ha Ha']. intros Hc. apply orb_true_iff in Hc as [Hc|Hc]; [|by apply IH].
    apply (prefix_sep p q (String c a) b Hq) in Hc. by rewrite Hc in Ha.
Qed.

Lemma contains_app_r p a b : str_contains p b = true -> str_contains p (a ++ b)%string = true.
Proof. intros Hb. induction a as [|c a IH]; [done|]. rewrite str_cons_app. cbn [str_contains]. by rewrite IH, orb_true_r. Qed.

Lemma lower_upper_ascii a : lower_ascii (upper_ascii a) = lower_ascii a.
Proof. destruct a as [[] [] [] [] [] [] [] []]; reflexivity. Qed.

Lemma lower_upper s : str_lower (str_upper s) = str_lower s.
Proof. induction s as [|a s IH]; cbn; [done|]. by rewrite lower_upper_ascii, IH. Qed.

(** *** Numbers *)

Definition number_char (a : ascii) : bool := has a "0123456789.e+-infa".

Lemma pretty_N_char_ok x : (x < 10)%N -> number_char (pretty_N_char x) = true.
Proof.
  intros Hx. rewrite <- (N2Z.id x). apply (Z_below (fun z => number_char (pretty_N_char (Z.to_N z))) 10); [|lia].
  vm_compute. reflexivity.
Qed.

Lemma pretty_N_go_ok x s : str_all number_char s = true -> str_all number_char (pretty_N_go x s) = true.
Proof.
  revert s. induction (N.lt_wf_0 x) as [x _ IH]. intros s Hs. destruct (decide (0 < x)%N) as [Hx|].
  - rewrite pretty_N_go_step by done. apply IH; [apply N.div_lt; lia|]. cbn [str_all].
    rewrite pretty_N_char_ok; [done|]. apply N.mod_lt. lia.
  - replace x with 0%N by lia. by rewrite pretty_N_go_0.
Qed.

Lemma str_nat_ok n : str_all number_char (str_nat n) = true.
Proof. unfold str_nat, pretty, pretty_N. case_decide; [done|]. by apply pretty_N_go_ok. Qed.

Lemma zeros_ok n : str_all number_char (zeros n) = true.
Proof. induction n; cbn; [done|]. by rewrite IHn. Qed.

Lemma str_take_ok p n s : str_all p s = true -> str_all p (str_take n s) = true.
Proof. revert s. induction n as [|n IH]; intros [|a s]; cbn; try done. intros H. apply andb_true_iff in H as [-> H]. by rewrite IH. Qed.

Lemma str_drop_ok p n s : str_all p s = true -> str_all p (str_drop n s) = true.
Proof. revert s. induction n as [|n IH]; intros [|a s]; cbn; try done. intros H. apply andb_true_iff in H as [_ H]. by apply IH. Qed.

#[local] Hint Resolve str_nat_ok zeros_ok str_take_ok str_drop_ok : core.

Lemma float_layout_ok m e : str_all number_char (float_layout m e) = true.
Proof.
  unfold float_layout. cbv zeta. repeat case_match; rewrite ?str_all_app, ?andb_true_iff; repeat split; auto.
Qed.

Lemma py_str_float_ok x : str_all number_char (py_str_float x) = true.
Proof.
  destruct x as [s|s| |s m e]; cbn [py_str_float]; [by destruct s..|done|].
  cbv zeta. destruct (shortest _ _ _ _ _ _) as [m1 e1]. destruct (strip_zeros _ _ _) as [m2 e2].
  rewrite str_all_app, float_layout_ok. by destruct s.
Qed.

Lemma str_int_ok n : str_all number_char (str_int n) = true.
Proof. unfold str_int. case_match; [by rewrite str_all_app, str_nat_ok|auto]. Qed.

Lemma number_char_lower a : number_char a = true -> lower_ascii a = a.
Proof. destruct a as [[] [] [] [] [] [] [] []]; done. Qed.

Lemma number_lower s : str_all number_char s = true -> str_lower s = s.
Proof.
  induction s as [|a s IH]; cbn; [done|]. intros H. apply andb_true_iff in H as [Ha H].
  by rewrite number_char_lower, IH.
Qed.
End TextFacts.

(** ** Which messages block a trade *)

Module MessageFacts.
Import TextFacts.

Definition reasoning_marker : string := "explainable_reasoning".
Definition sources_marker : string := "rag_sources".
Definition sum_marker : string := "take_profits size_pct sum".

(** The marker does not occur, in any case. *)
Definition clean (p s : string) : Prop := str_contains p (str_lower s) = false.

Lemma non_fatal_iff s :
  _is_non_fatal_warning s = false <-> clean reasoning_marker s /\ clean sources_marker s /\ clean sum_marker s.
Proof.
  unfold _is_non_fatal_warning, clean, reasoning_marker, sources_marker, sum_marker. cbv zeta. repeat case_match; naive_solver.
Qed.

Lemma clean_sep p q a b :
  has q p = false -> lower_ascii q = q -> clean p a -> clean p b -> clean p (a ++ String q b)%string.
Proof. intros Hq Hl Ha Hb. unfold clean. rewrite str_lower_app. cbn [str_lower]. rewrite Hl. by apply contains_sep. Qed.

Lemma clean_number p s : str_all number_char s = true -> has "r" p = true -> clean p s.
Proof. intros Hs Hp. unfold clean. rewrite number_lower by done. apply (contains_absent "r"); [by eapply str_all_has|done]. Qed.

Lemma clean_absent c p s : has c (str_lower s) = false -> has c p = true -> clean p s.
Proof. intros Hs Hp. by apply (contains_absent c). Qed.

Lemma has_lower_number c s t :
  str_all number_char s = true -> number_char c = false -> has c (str_lower (s ++ t)%string) = has c (str_lower t).
Proof. intros Hs Hc. rewrite str_lower_app, has_app, number_lower by done. by rewrite (str_all_has number_char). Qed.

Lemma has_lower_app c s t : has c (str_lower (s ++ t)%string) = has c (str_lower s) || has c (str_lower t).
Proof. by rewrite str_lower_app, has_app. Qed.

Definition fatal (s : string) : Prop := _is_non_fatal_warning s = false.

Lemma float_no c x : number_char c = false -> has c (str_lower (py_str_float x)) = false.
Proof. intros Hc. rewrite number_lower by apply py_str_float_ok. by eapply str_all_has; [apply py_str_float_ok|]. Qed.
Lemma int_no c n : number_char c = false -> has c (str_lower (str_int n)) = false.
Proof. intros Hc. rewrite number_lower by apply str_int_ok. by eapply str_all_has; [apply str_int_ok|]. Qed.

(** Rule a marker out by a character it has and the message has not. *)
Ltac by_char c :=
  apply (clean_absent c); [rewrite ?has_lower_app, ?float_no, ?int_no by reflexivity; reflexivity|reflexivity].

(** A quoted part does not combine with what surrounds it. *)
Lemma fatal_quoted a g b : fatal a -> fatal g -> fatal b -> fatal (a ++ String "'" (g ++ String "'" b))%string.
Proof.
  unfold fatal. rewrite !non_fatal_iff. intros (A1 & A2 & A3) (G1 & G2 & G3) (B1 & B2 & B3).
  repeat split; repeat (apply clean_sep; [done..| |]; try done).
Qed.

Lemma fatal_score_bounds x y z :
  fatal ("confluence_score " ++ py_str_float x ++ " outside bounds [" ++ py_str_float y ++ ", " ++ py_str_float z ++ "]")%string.
Proof. unfold fatal. rewrite non_fatal_iff. split; [by_char "x"%char|split; [by_char "g"%char|by_char "k"%char]]. Qed.

Lemma fatal_score_grade x y g :
  fatal g ->
  fatal ("confluence_score " ++ py_str_float x ++ " < " ++ py_str_float y ++ " but grade is '" ++ g ++ "' (expected REJECT)")%string.
Proof.
  intros Hg.
  replace ("confluence_score " ++ py_str_float x ++ " < " ++ py_str_float y ++ " but grade is '" ++ g ++ "' (expected REJECT)")%string
    with (("confluence_score " ++ py_str_float x ++ " < " ++ py_str_float y ++ " but grade is ") ++
          String "'" (g ++ String "'" " (expected REJECT)"))%string by (by rewrite !ReprFacts.str_app_assoc).
  apply fatal_quoted; [|done|reflexivity]. unfold fatal. rewrite non_fatal_iff.
  split; [by_char "x"%char|]. split; [|by_char "k"%char].
  change ("confluence_score " ++ py_str_float x ++ " < " ++ py_str_float y ++ " but grade is ")%string with
    ("confluence_score" ++ String " " (py_str_float x ++ String " " ("<" ++ String " " (py_str_float y ++ String " " "but grade is "))))%string.
  repeat (apply clean_sep; [reflexivity..| |]); reflexivity || (apply clean_number; [apply py_str_float_ok|reflexivity]).
Qed.

Lemma fatal_rr_style x y style :
  clean reasoning_marker style -> clean sources_marker style -> has "k" (str_lower style) = false ->
  fatal ("rr_ratio " ++ py_str_float x ++ " below minimum " ++ py_str_float y ++ " for style " ++ style)%string.
Proof.
  intros H1 H2 H3. unfold fatal. rewrite non_fatal_iff. split; [|split].
  3: { apply (clean_absent "k"); [|reflexivity]. by rewrite !has_lower_app, !float_no, H3. }
  all: change ("rr_ratio " ++ py_str_float x ++ " below minimum " ++ py_str_float y ++ " for style " ++ style)%string with
    ("rr_ratio" ++ String " " (py_str_float x ++ String " " ("below minimum" ++ String " " (py_str_float y ++ String " " ("for style" ++ String " " style)))))%string;
    repeat (apply clean_sep; [reflexivity..| |]);
    reflexivity || assumption || (apply clean_number; [apply py_str_float_ok|reflexivity]).
Qed.

Lemma fatal_entry_order x y :
  fatal ("entry_zone.low (" ++ py_str_float x ++ ") > entry_zone.high (" ++ py_str_float y ++ ")")%string.
Proof. unfold fatal. rewrite non_fatal_iff. split; [by_char "x"%char|split; [by_char "s"%char|by_char "k"%char]]. Qed.

Lemma fatal_entry_positive x : fatal ("entry_zone.low (" ++ py_str_float x ++ ") must be positive")%string.
Proof. unfold fatal. rewrite non_fatal_iff. split; [by_char "x"%char|split; [by_char "g"%char|by_char "k"%char]]. Qed.

Lemma fatal_stop_positive x : fatal ("stop_loss.price (" ++ py_str_float x ++ ") must be positive")%string.
Proof. unfold fatal. rewrite non_fatal_iff. split; [by_char "x"%char|split; [by_char "g"%char|by_char "k"%char]]. Qed.

Lemma fatal_rr_positive x : fatal ("rr_ratio (" ++ py_str_float x ++ ") must be positive")%string.
Proof. unfold fatal. rewrite non_fatal_iff. split; [by_char "x"%char|split; [by_char "g"%char|by_char "k"%char]]. Qed.

Lemma fatal_tp_count n m : fatal ("take_profits has " ++ str_int n ++ " levels (max " ++ str_int m ++ ")")%string.
Proof. unfold fatal. rewrite non_fatal_iff. split; [by_char "g"%char|split; [by_char "g"%char|by_char "z"%char]]. Qed.

Lemma fatal_tp_level n x : fatal ("take_profits[" ++ str_int n ++ "].level (" ++ py_str_float x ++ ") must be positive")%string.
Proof. unfold fatal. rewrite non_fatal_iff. split; [by_char "x"%char|split; [by_char "g"%char|by_char "z"%char]]. Qed.

(** The three kinds of message that do not block, whatever they print. *)
Lemma cosmetic_reasoning n : _is_non_fatal_warning ("explainable_reasoning exceeds " ++ str_int n ++ " chars")%string = true.
Proof. reflexivity. Qed.
Lemma cosmetic_sources n m : _is_non_fatal_warning ("rag_sources has " ++ str_int n ++ " items (max " ++ str_int m ++ ")")%string = true.
Proof. unfold _is_non_fatal_warning. cbv zeta. case_match; [done|]. reflexivity. Qed.
Lemma cosmetic_sum n : _is_non_fatal_warning ("take_profits size_pct sum is " ++ str_int n ++ " (expected 100)")%string = true.
Proof. unfold _is_non_fatal_warning. cbv zeta. repeat (case_match; [done|]). reflexivity. Qed.

(** *** The printed sets *)

Lemma has_join c sep l :
  has c (str_lower sep) = false -> Forall (fun s => has c (str_lower s) = false) l -> has c (str_lower (str_join sep l)) = false.
Proof.
  intros Hs. induction 1 as [|s l H _ IH]; [done|]. cbn [str_join]. destruct l as [|s' l]; [done|].
  by rewrite !has_lower_app, H, Hs, IH.
Qed.

Lemma has_set_repr order c l :
  Permutation (order l) l -> has c "{}', " = false -> Forall (fun s => has c (str_lower s) = false) l ->
  has c (str_lower (set_repr order l)) = false.
Proof.
  intros Hp Hc Hl. assert (Hq : has c (str_lower "'") = false /\ has c (str_lower ", ") = false /\
    has c (str_lower "{") = false /\ has c (str_lower "}") = false).
  { cbn in Hc |- *. rewrite !orb_false_iff in *. tauto. }
  destruct Hq as (H1 & H2 & H3 & H4). unfold set_repr. rewrite !has_lower_app, H3, H4, orb_false_r. cbn [orb].
  apply has_join; [done|]. apply Forall_map. rewrite Hp. eapply Forall_impl; [exact Hl|]. intros s Hs.
  by rewrite !has_lower_app, H1, Hs.
Qed.
End MessageFacts.

(** ** The rules *)

Module RuleFacts.
Import TextFacts MessageFacts.

(** What an analysis that no rule blocks satisfies; a comparison that must not hold
    is stated as such, since a number may be [nan]. *)
Record trade_ok (o : AnalysisOutput) : Prop := {
  tr_entry : exists l h, low (entry_zone o) = Some l /\ high (entry_zone o) = Some h /\
    flt h l = false /\ fle l fzero = false;
  tr_stop : exists p, price (stop_loss o) = Some p /\ fle p fzero = false;
  tr_targets : 1 <= py_len (take_profits o) <= MAX_TAKE_PROFIT_LEVELS;
  tr_levels : forall tp l, In tp (take_profits o) -> level tp = Some l -> fle l fzero = false;
  tr_reward : exists r, rr_ratio o = Some r /\ fle r fzero = false /\ flt r (min_rr o) = false }.

Record tradeable (o : AnalysisOutput) : Prop := {
  td_identity : analysis_id o <> "" /\ pair o <> "" /\ trading_style o <> "";
  td_direction : In (direction o) valid_directions;
  td_grade : In (setup_grade o) valid_grades;
  td_score : flt (score (confluence_score o)) CONFLUENCE_SCORE_MIN = false /\
             flt CONFLUENCE_SCORE_MAX (score (confluence_score o)) = false;
  td_reject : flt (score (confluence_score o)) CONFLUENCE_REJECT_THRESHOLD = true -> setup_grade o = "REJECT";
  td_no_setup : direction o = "NO SETUP" -> setup_grade o = "REJECT";
  td_proceed : proceed_to_module_b o = "YES" -> setup_grade o <> "REJECT" /\ direction o <> "NO SETUP";
  td_trade : direction o = "LONG" \/ direction o = "SHORT" -> trade_ok o }.

(** The strings of the answer that messages quote do not hold a marker; a style,
    which is printed without quotes, has no [k] either. *)
Record plain (o : AnalysisOutput) : Prop := {
  pl_direction : fatal (direction o);
  pl_grade : fatal (setup_grade o);
  pl_style : clean reasoning_marker (trading_style o) /\ clean sources_marker (trading_style o) /\
             has "k" (str_lower (trading_style o)) = false }.

Definition blocking (e : string) : bool := negb (_is_non_fatal_warning e).

Lemma filter_fatal l : Forall fatal l -> List.filter blocking l = l.
Proof. induction 1 as [|e l He _ IH]; cbn [List.filter]; [done|]. unfold blocking at 1. rewrite He. cbn [negb]. by rewrite IH. Qed.

Lemma filter_cosmetic l : Forall (fun e => _is_non_fatal_warning e = true) l -> List.filter blocking l = [].
Proof. induction 1 as [|e l He _ IH]; cbn [List.filter]; [done|]. unfold blocking at 1. rewrite He. done. Qed.

Lemma str_in_iff s l : str_in s l = true <-> In s l.
Proof.
  unfold str_in. rewrite existsb_exists. split; [intros (x & Hx & E); apply String.eqb_eq in E; by subst|].
  intros H. exists s. by rewrite String.eqb_refl.
Qed.

Lemma str_in_false s l : str_in s l = false <-> ~ In s l.
Proof. rewrite <- str_in_iff. by destruct (str_in s l). Qed.

Lemma fatal_intro s : _is_non_fatal_warning s = false -> fatal s.
Proof. done. Qed.
Lemma fatal_iff s : fatal s <-> clean reasoning_marker s /\ clean sources_marker s /\ clean sum_marker s.
Proof. apply non_fatal_iff. Qed.
Lemma non_fatal_not_fatal s : _is_non_fatal_warning s = false <-> fatal s.
Proof. done. Qed.

(** A message without a hole. *)
Ltac closed_fatal := apply fatal_intro; vm_compute; reflexivity.

Lemma marked_non_fatal e : str_contains sources_marker (str_lower e) = true -> _is_non_fatal_warning e = true.
Proof. intros H. unfold _is_non_fatal_warning. cbv zeta. case_match; [done|]. unfold sources_marker in H. by rewrite H. Qed.

#[local] Opaque py_str_float str_int fatal _is_non_fatal_warning.

(** A list of at most one message, which blocks. *)
Ltac fatals :=
  first [apply Forall_nil_2
        |apply Forall_singleton;
         first [apply fatal_score_bounds|apply fatal_entry_order|apply fatal_entry_positive|apply fatal_stop_positive
               |apply fatal_rr_positive|apply fatal_tp_count|apply fatal_tp_level
               |closed_fatal]].

Lemma guard_nil {A} (b : bool) (l : list A) : l <> [] -> (if b then l else []) = [] <-> b = false.
Proof. by destruct b. Qed.

Lemma str_empty_iff s : str_empty s = false <-> s <> "".
Proof. unfold str_empty. apply String.eqb_neq. Qed.

Lemma identity_rule o :
  Forall fatal (_validate_identity o) /\
  (_validate_identity o = [] <-> analysis_id o <> "" /\ pair o <> "" /\ trading_style o <> "").
Proof.
  unfold _validate_identity. split.
  - repeat (apply Forall_app; split); case_match; fatals.
  - rewrite !app_nil, !guard_nil, !str_empty_iff by done. tauto.
Qed.

Section Order.
Context (order : list string -> list string) (Hd : Permutation (order valid_directions) valid_directions)
  (Hg : Permutation (order valid_grades) valid_grades).

Lemma fatal_direction d : fatal d -> fatal ("direction '" ++ d ++ "' not in " ++ set_repr order valid_directions)%string.
Proof.
  intros Hf. change ("direction '" ++ d ++ "' not in " ++ set_repr order valid_directions)%string with
    ("direction " ++ String "'" (d ++ String "'" (" not in " ++ set_repr order valid_directions)))%string.
  apply fatal_quoted; [closed_fatal|done|]. rewrite fatal_iff.
  split; [apply (clean_absent "x")|split; [apply (clean_absent "c")|apply (clean_absent "k")]]; try reflexivity;
    rewrite has_lower_app, has_set_repr; try done; repeat constructor.
Qed.

Lemma fatal_grade g : fatal g -> fatal ("setup_grade '" ++ g ++ "' not in " ++ set_repr order valid_grades)%string.
Proof.
  intros Hf. change ("setup_grade '" ++ g ++ "' not in " ++ set_repr order valid_grades)%string with
    ("setup_grade " ++ String "'" (g ++ String "'" (" not in " ++ set_repr order valid_grades)))%string.
  apply fatal_quoted; [closed_fatal|done|]. rewrite fatal_iff.
  split; [apply (clean_absent "x")|split; [apply (clean_absent "s")|apply (clean_absent "k")]]; try reflexivity;
    rewrite has_lower_app, has_set_repr; try done; repeat constructor.
Qed.

Lemma direction_rule o :
  plain o -> Forall fatal (_validate_direction_consistency order o) /\
  (_validate_direction_consistency order o = [] <->
     In (direction o) valid_directions /\
     (direction o = "NO SETUP" -> setup_grade o = "REJECT" /\ proceed_to_module_b o <> "YES")).
Proof.
  intros [Pd Pg _]. unfold _validate_direction_consistency. split.
  - apply Forall_app. split; [case_match; [by apply Forall_singleton, fatal_direction|constructor]|].
    case_match; [|constructor]. apply Forall_app. split; case_match; try fatals. apply Forall_singleton.
    apply (fatal_quoted "direction is NO SETUP but setup_grade is " (setup_grade o) " (expected REJECT)"); [closed_fatal|done|closed_fatal].
  - rewrite app_nil, guard_nil, negb_false_iff, str_in_iff by done.
    destruct (String.eqb_spec (direction o) "NO SETUP") as [E|Hne]; [|naive_solver].
    rewrite app_nil, !guard_nil, negb_false_iff, String.eqb_eq, String.eqb_neq by done. naive_solver.
Qed.

Lemma score_rule o :
  Forall fatal (_validate_confluence_score o) /\
  (_validate_confluence_score o = [] <-> flt (score (confluence_score o)) CONFLUENCE_SCORE_MIN = false /\
     flt CONFLUENCE_SCORE_MAX (score (confluence_score o)) = false).
Proof.
  unfold _validate_confluence_score. cbv zeta. split; [case_match; fatals|].
  by rewrite guard_nil, orb_false_iff.
Qed.

Lemma grade_rule o :
  plain o -> Forall fatal (_validate_grade_consistency order o) /\
  (_validate_grade_consistency order o = [] <->
     In (setup_grade o) valid_grades /\
     (flt (score (confluence_score o)) CONFLUENCE_REJECT_THRESHOLD = true -> setup_grade o = "REJECT")).
Proof.
  intros [_ Pg _]. unfold _validate_grade_consistency. cbv zeta. split.
  - apply Forall_app. split; case_match; try apply Forall_nil_2; apply Forall_singleton; [by apply fatal_grade|by apply fatal_score_grade].
  - rewrite app_nil, !guard_nil, negb_false_iff, str_in_iff, andb_false_iff, negb_false_iff, String.eqb_eq by done.
    destruct (flt _ _); naive_solver.
Qed.

Lemma is_trade_iff o : is_trade o = true <-> direction o = "LONG" \/ direction o = "SHORT".
Proof. unfold is_trade. rewrite str_in_iff. simpl. naive_solver. Qed.

Lemma construction_rule o :
  Forall fatal (_validate_trade_construction o) /\
  (_validate_trade_construction o = [] <-> (is_trade o = true ->
     (exists l h, low (entry_zone o) = Some l /\ high (entry_zone o) = Some h /\ flt h l = false /\ fle l fzero = false) /\
     (exists p, price (stop_loss o) = Some p /\ fle p fzero = false) /\ take_profits o <> [])).
Proof.
  unfold _validate_trade_construction. destruct (is_trade o); [|by split; [constructor|]]. split.
  - apply Forall_app. split; [destruct (low (entry_zone o)), (high (entry_zone o)); fatals|].
    apply Forall_app. split; [destruct (price (stop_loss o)); fatals|].
    apply Forall_app. split; [destruct (take_profits o); fatals|].
    apply Forall_app. split; [destruct (low (entry_zone o)) as [l|], (high (entry_zone o)) as [h|]; try fatals|].
    + apply Forall_app. split; [destruct (flt h l)|destruct (fle l fzero)]; fatals.
    + destruct (price (stop_loss o)) as [p|]; [destruct (fle p fzero)|]; fatals.
  - rewrite !app_nil. destruct (low (entry_zone o)) as [l|]; [destruct (high (entry_zone o)) as [h|]|].
    + rewrite !app_nil, !guard_nil by done. destruct (price (stop_loss o)) as [p|].
      * rewrite guard_nil by done. split.
        -- intros (_ & _ & Ht & (E1 & E2) & E3) _. split; [by exists l, h|]. split; [by exists p|]. by destruct (take_profits o).
        -- intros H. destruct (H eq_refl) as ((l' & h' & [= <-] & [= <-] & E1 & E2) & (p' & [= <-] & E3) & Ht).
           repeat split; try done. by destruct (take_profits o).
      * split; [by intros (_ & [=] & _)|]. intros H. by destruct (H eq_refl) as (_ & (p & [=] & _) & _).
    + split; [by intros ([=] & _)|]. intros H. by destruct (H eq_refl) as ((l' & h & _ & [=] & _) & _).
    + split; [by intros ([=] & _)|]. intros H. by destruct (H eq_refl) as ((l' & h & [=] & _) & _).
Qed.

Lemma rr_rule o :
  plain o -> Forall fatal (_validate_rr_ratio o) /\
  (_validate_rr_ratio o = [] <-> (is_trade o = true ->
     exists r, rr_ratio o = Some r /\ fle r fzero = false /\ flt r (min_rr o) = false)).
Proof.
  intros [_ _ (S1 & S2 & S3)]. unfold _validate_rr_ratio. destruct (is_trade o); cbn [negb]; [|by split; [constructor|]].
  destruct (rr_ratio o) as [r|]; [|split; [fatals|split; [by intros [=]|intros H; by destruct (H eq_refl) as (r & [=] & _)]]].
  destruct (fle r fzero) eqn:E1; [split; [fatals|split; [by intros [=]|]]|].
  { intros H. destruct (H eq_refl) as (r' & [= <-] & E & _). congruence. }
  destruct (flt r (min_rr o)) eqn:E2; [|split; [constructor|split; [by intros _ _; exists r|done]]].
  split; [|split; [by intros [=]|intros H; destruct (H eq_refl) as (r' & [= <-] & _ & E); congruence]].
  apply Forall_singleton, fatal_rr_style; unfold clean in *; by rewrite lower_upper.
Qed.

Lemma proceed_rule o :
  plain o -> Forall fatal (_validate_proceed_consistency o) /\
  (_validate_proceed_consistency o = [] <->
     (proceed_to_module_b o = "YES" -> In (setup_grade o) ["A+"; "A"; "B"] /\ direction o <> "NO SETUP")).
Proof.
  intros [_ Pg _]. unfold _validate_proceed_consistency.
  destruct (String.eqb_spec (proceed_to_module_b o) "YES") as [E|]; [|by split; [constructor|]]. split.
  - apply Forall_app. split; case_match; try fatals. apply Forall_singleton.
    apply (fatal_quoted "proceed_to_module_b is YES but grade is " (setup_grade o) " (requires A+, A, or B)"); [closed_fatal|done|closed_fatal].
  - rewrite app_nil, !guard_nil, negb_false_iff, str_in_iff, String.eqb_neq by done. naive_solver.
Qed.

Lemma reasoning_rule o : Forall (fun e => _is_non_fatal_warning e = true) (_validate_reasoning o).
Proof.
  unfold _validate_reasoning. case_match; [apply Forall_singleton; vm_compute; reflexivity|].
  case_match; [apply Forall_singleton, cosmetic_reasoning|constructor].
Qed.

Lemma citations_rule o : Forall (fun e => _is_non_fatal_warning e = true) (_validate_citations o).
Proof.
  unfold _validate_citations. apply Forall_app. split; case_match; try apply Forall_nil_2; apply Forall_singleton;
    [vm_compute; reflexivity|apply cosmetic_sources].
Qed.

Lemma level_errors o :
  let errors := flat_map (fun '(i, tp) => tp_level_error i tp) (py_enumerate (take_profits o)) in
  Forall fatal errors /\
  (errors = [] <-> forall tp l, In tp (take_profits o) -> level tp = Some l -> fle l fzero = false).
Proof.
  cbv zeta. unfold py_enumerate. generalize 0. induction (take_profits o) as [|tp tps IH]; intros k.
  { split; [constructor|]. split; [by intros _ tp l []|done]. }
  cbn [py_enumerate_from flat_map]. destruct (IH (k + 1)) as [IHf IHn]. split.
  - apply Forall_app. split; [|done]. unfold tp_level_error. repeat case_match; fatals.
  - rewrite app_nil, IHn. unfold tp_level_error. split.
    + intros [Hh Ht] tp' l [<-|Hin] El; [|eauto]. rewrite El in Hh. by destruct (fle l fzero).
    + intros Hall. split; [|intros; eapply Hall; [by right|done]]. destruct (level tp) as [l|] eqn:El; [|done].
      by rewrite (Hall tp l (or_introl eq_refl) El).
Qed.

Lemma targets_rule o :
  List.filter blocking (_validate_tp_structure o) = [] <->
  (is_trade o = true -> py_len (take_profits o) <= MAX_TAKE_PROFIT_LEVELS /\
     forall tp l, In tp (take_profits o) -> level tp = Some l -> fle l fzero = false).
Proof.
  unfold _validate_tp_structure. destruct (is_trade o); cbn [negb]; [|done].
  destruct (level_errors o) as [Lf Ln]. rewrite !List.filter_app, !app_nil. rewrite (filter_fatal (flat_map _ _)) by done.
  rewrite (filter_fatal (if MAX_TAKE_PROFIT_LEVELS <? _ then _ else _)) by (destruct (_ <? _); fatals).
  rewrite guard_nil, Z.ltb_ge, Ln by done.
  rewrite filter_cosmetic; [naive_solver|]. cbv zeta. destruct (take_profits o); [constructor|].
  destruct (negb _); [apply Forall_singleton, cosmetic_sum|constructor].
Qed.

Lemma no_blocking_iff o require_citations :
  plain o ->
  List.filter blocking (validate_analysis_output order o require_citations) = [] <-> tradeable o.
Proof.
  intros Hp. destruct (identity_rule o) as [F1 N1]. destruct (direction_rule o Hp) as [F2 N2].
  destruct (score_rule o) as [F3 N3]. destruct (grade_rule o Hp) as [F4 N4].
  destruct (construction_rule o) as [F5 N5]. destruct (rr_rule o Hp) as [F6 N6]. destruct (proceed_rule o Hp) as [F7 N7].
  unfold validate_analysis_output. rewrite !List.filter_app, !app_nil, targets_rule.
  rewrite (filter_fatal _ F1), (filter_fatal _ F2), (filter_fatal _ F3), (filter_fatal _ F4), (filter_fatal _ F5),
    (filter_fatal _ F6), (filter_fatal _ F7), N1, N2, N3, N4, N5, N6, N7.
  rewrite (filter_cosmetic (_validate_reasoning o)) by apply reasoning_rule.
  rewrite (filter_cosmetic (if require_citations then _ else _)) by (destruct require_citations; [apply citations_rule|constructor]).
  rewrite is_trade_iff. split.
  - intros (I & [D DN] & Sc & [G R] & C & RR & P & _ & T & _).
    constructor; [exact I|exact D|exact G|exact Sc|exact R|intros E; exact (proj1 (DN E))| |].
    + intros Hy. destruct (P Hy) as [Hin Hn]. split; [|exact Hn]. intros E. rewrite E in Hin.
      by destruct Hin as [[=]|[[=]|[[=]|[]]]].
    + intros Ht. destruct (C Ht) as (E & S & Hne). destruct (T Ht) as [Hl Hlev].
      constructor; [exact E|exact S| |exact Hlev|exact (RR Ht)]. split; [|exact Hl].
      destruct (take_profits o); [by destruct Hne|]. rewrite py_len_cons. pose proof (py_len_nonneg l). lia.
  - intros [I D G Sc R NS P T]. split; [exact I|]. split; [split; [exact D|]|].
    { intros E. split; [exact (NS E)|]. intros Hy. by destruct (P Hy). }
    split; [exact Sc|]. split; [by split|]. split; [|split; [|split; [|split; [reflexivity|split; [|reflexivity]]]]].
    + intros Ht. destruct (T Ht) as [E S Hn _ _]. split; [exact E|]. split; [exact S|]. intros E0. rewrite E0 in Hn. destruct Hn as [Hn _]. exact (Hn eq_refl).
    + intros Ht. exact (tr_reward _ (T Ht)).
    + intros Hy. destruct (P Hy) as [Hr Hn]. split; [|exact Hn]. unfold valid_grades in G. cbn [In] in G |- *. intuition congruence.
    + intros Ht. destruct (T Ht) as [_ _ Hn Hlev _]. split; [lia|exact Hlev].
Qed.

(** C7: the rules let through exactly the tradeable analyses.  For an analysis whose
    direction, grade and style do not hold one of the phrases the whitelist looks for,
    no message blocks it if and only if it is identified, its direction and grade are
    known ones, its score is within bounds and at least 5 unless rejected, a missing
    setup is rejected, only an accepted grade with a setup proceeds, and a trade has
    an ordered entry zone and a stop above zero, one to three targets, those given
    above zero, and a reward to risk not below the minimum of its style.  How the sizes
    of the targets add up does not matter: the code counts that message among the
    warnings, although the docstring of the whitelist lists it as fatal. *)
Theorem rules_exact o require_citations :
  plain o ->
  List.filter blocking (validate_analysis_output order o require_citations) = [] <-> tradeable o.
Proof. apply no_blocking_iff. Qed.

(** *** The parse as a whole *)


(** *** A phrase that defeats the rules *)

Lemma contains_app_l p a b : str_contains p a = true -> str_contains p (a ++ b)%string = true.
Proof.
  assert (Hpre : forall p a, String.prefix p a = true -> String.prefix p (a ++ b)%string = true).
  { intros p0. induction p0 as [|d p0 IH]; intros [|c a0] H0; [by destruct (EmptyString ++ b)%string|by destruct (String c a0 ++ b)%string|discriminate H0|].
    revert H0.
    rewrite ReprFacts.str_cons_app. cbn [String.prefix]. destruct (ascii_dec d c); [|by intros [=]]. apply IH. }
  induction a as [|c a IH]; cbn [str_contains]; rewrite ?ReprFacts.str_cons_app; intros H.
  - apply orb_true_iff in H as [H|]; [|done]. rewrite ReprFacts.str_nil_app. destruct p; [by destruct b|done].
  - cbn [str_contains]. rewrite <- ReprFacts.str_cons_app. apply orb_true_iff in H as [H|H]; [by rewrite Hpre|].
    by rewrite IH, orb_true_r.
Qed.

Lemma marked_inside a g b : str_contains sources_marker (str_lower g) = true -> _is_non_fatal_warning (a ++ g ++ b)%string = true.
Proof. intros H. apply marked_non_fatal. rewrite !str_lower_app. by apply contains_app_r, contains_app_l. Qed.

(** An answer can word its way past the rules.  A message counts as cosmetic when
    it holds the phrase [rag_sources], and messages quote the answer: a grade that
    holds the phrase passes the rules on grades whatever the score, and a style that
    holds it passes any reward to risk above zero, however low. *)
Theorem quoted_phrase_defeats_rules o :
  (str_contains sources_marker (str_lower (setup_grade o)) = true ->
     List.filter blocking (_validate_grade_consistency order o) = []) /\
  (str_contains sources_marker (str_lower (trading_style o)) = true ->
     forall r, rr_ratio o = Some r -> fle r fzero = false -> List.filter blocking (_validate_rr_ratio o) = []).
Proof.
  split.
  - intros H. apply filter_cosmetic. unfold _validate_grade_consistency. cbv zeta. apply Forall_app.
    split; case_match; try apply Forall_nil_2; apply Forall_singleton; [by apply marked_inside|].
    rewrite <- !ReprFacts.str_app_assoc. rewrite ReprFacts.str_app_assoc. by apply marked_inside.
  - intros H r Er Hr. apply filter_cosmetic. unfold _validate_rr_ratio. rewrite Er, Hr.
    repeat case_match; try apply Forall_nil_2. apply Forall_singleton. rewrite <- !ReprFacts.str_app_assoc.
    apply marked_non_fatal. rewrite str_lower_app, lower_upper. by apply contains_app_r.
Qed.
End Order.

#[local] Transparent py_str_float str_int fatal _is_non_fatal_warning.

(** *** Concrete analyses *)

Definition sample_analysis (style grade : string) (rr : float) : AnalysisOutput :=
  mk_analysis "a-1" "EURUSD" (mk_datetime 0 (Some 0)) style "LONDON"
    (mk_macro_bias (mk_currency_bias "BULLISH" []) (mk_currency_bias "BEARISH" [])) (mk_dxy "NEUTRAL" []) (mk_cot "" None false [])
    [] (mk_timeframe_bias "bullish" [] "") (mk_timeframe_bias "bullish" [] "") (mk_setup_zone None None None [] [])
    (mk_wyckoff "markup" []) (mk_score (of_Z 8) []) grade "LONG" (mk_entry_zone (Some (lit 10800 4)) (Some (lit 10820 4)))
    (mk_stop_loss (Some (lit 10780 4)) "" []) [mk_take_profit (Some (lit 10900 4)) 100 ""] (Some rr) "HIGH" "YES" None true
    [66; 79; 83] [mk_citation None None None None] (mk_audit (mk_retrieval "" None 0 []) []).

Lemma sample_plain style : fatal style -> has "k" (str_lower style) = false -> plain (sample_analysis style "A" (of_Z 4)).
Proof.
  intros Hs Hk. constructor; [reflexivity|reflexivity|]. apply non_fatal_iff in Hs as (H1 & H2 & _). done.
Qed.

Lemma rules_exact_witness :
  tradeable (sample_analysis "INTRADAY" "A" (of_Z 4)) /\
  validate_analysis_output id (sample_analysis "INTRADAY" "A" (of_Z 4)) true = [].
Proof.
  split; [|vm_compute; reflexivity].
  apply (rules_exact id (Permutation_refl _) (Permutation_refl _) (sample_analysis "INTRADAY" "A" (of_Z 4)) true).
  - apply sample_plain; reflexivity.
  - vm_compute. reflexivity.
Defined.


(** A reward to risk of a tenth, which the rules put at no less than three. *)
Lemma quoted_phrase_defeats_rules_witness :
  let o := sample_analysis "rag_sources" "A" (lit 1 1) in
  List.filter blocking (_validate_rr_ratio o) = [] /\ ~ tradeable o /\
  parse_llm_response id (fun _ => inr (JObj [])) (fun _ => inr o) [lbrace; rbrace] true =
    Ok (o, ["rr_ratio 0.1 below minimum 3.0 for style RAG_SOURCES"]).
Proof.
  intros o. split; [|split].
  - apply (proj2 (quoted_phrase_defeats_rules id o) eq_refl (lit 1 1)); vm_compute; reflexivity.
  - intros [_ _ _ _ _ _ _ T]. destruct (T (or_introl eq_refl)) as [_ _ _ _ (r & [= <-] & _ & Hr)]. vm_compute in Hr. discriminate Hr.
  - vm_compute. reflexivity.
Defined.

(** Sizes of 65 and 65 are accepted with a warning. *)
Example size_sum_is_a_warning :
  let o := sample_analysis "INTRADAY" "A" (of_Z 4) in
  let o := mk_analysis (analysis_id o) (pair o) (timestamp o) (trading_style o) (session o) (macro_bias o) (dxy_bias o)
    (cot_signal o) (event_risk o) (htf_bias o) (mtf_bias o) (entry_setup o) (wyckoff_phase o) (confluence_score o)
    (setup_grade o) (direction o) (entry_zone o) (stop_loss o)
    [mk_take_profit (Some (lit 10900 4)) 65 ""; mk_take_profit (Some (lit 10950 4)) 65 ""]
    (rr_ratio o) (confidence o) (proceed_to_module_b o) (execution_mode o) (ltf_confirmed o) (explainable_reasoning o)
    (rag_sources o) (audit o) in
  parse_llm_response id (fun _ => inr (JObj [])) (fun _ => inr o) [lbrace; rbrace] true =
    Ok (o, ["take_profits size_pct sum is 130 (expected 100)"]).
Proof. vm_compute. reflexivity. Qed.

(** A stop above the entry of a long, and a target without a price, pass. *)
Example unchecked_sides :
  let o := sample_analysis "INTRADAY" "A" (of_Z 4) in
  let o := mk_analysis (analysis_id o) (pair o) (timestamp o) (trading_style o) (session o) (macro_bias o) (dxy_bias o)
    (cot_signal o) (event_risk o) (htf_bias o) (mtf_bias o) (entry_setup o) (wyckoff_phase o) (confluence_score o)
    (setup_grade o) (direction o) (entry_zone o) (mk_stop_loss (Some (lit 10900 4)) "" []) [mk_take_profit None 100 ""]
    (rr_ratio o) (confidence o) (proceed_to_module_b o) (execution_mode o) (ltf_confirmed o) (explainable_reasoning o)
    (rag_sources o) (audit o) in
  validate_analysis_output id o true = [].
Proof. vm_compute. reflexivity. Qed.
End RuleFacts.
