(* ===== verification/OutputMapper.v ===== *)
(** * From an analysis to the gateway's decision: [engine/processor/mapping/output_mapper.py]

    and the model [ProcessorOutput] of [engine/processor/models/io.py].  The input
    is an analysis as the parser returns it; the theorem composes the mapping with
    the rules the parser enforces. *)

From Stdlib Require Import ZArith Lia Bool Ascii String Permutation.
From stdpp Require Import base list strings.
From S2P Require Import Prelude Loops PyFloat FloatRound FloatMono FloatGrid PyText PyRepr PyValues Constants PriceMath StopLoss SMCSoundness ResponseParser ParserFacts RuleFacts.

#[local] Open Scope string_scope.
#[local] Open Scope Z_scope.
#[local] Open Scope list_scope.

Definition RISK_PERCENT_A_PLUS : float := lit 10 1.
Definition RISK_PERCENT_A : float := lit 10 1.
Definition RISK_PERCENT_B : float := lit 5 1.

Module ProcessorOutput.

Record t := mk {
  trade_valid : bool; direction : option string; symbol : option string; confidence : float; grade : option string;
  risk_percentage : option float; reasoning : text; entry_price : option float; stop_loss : option float;
  take_profit : option float; rejection_rules : list string; raw_response : object;
  entry_zone_low : option float; entry_zone_high : option float;
  tp1_price : option float; tp1_pct : Z; tp2_price : option float; tp2_pct : Z; tp3_price : option float; tp3_pct : Z;
  trading_style : option string; session : option string; rr_ratio : option float; confluence_score : float;
  analysis_id : option string; execution_mode : option string; ltf_confirmed : bool; setup_type : option string }.

(** Construction: blanks around strings are dropped, the confidence is within
    [0, 1] and the risk within [0, 5]. *)
Definition create (p : t) : res t :=
  if fle fzero (confidence p) && fle (confidence p) fone &&
     match risk_percentage p with Some r => fle fzero r && fle r (of_Z 5) | None => true end
  then Ok (mk (trade_valid p) (str_strip <$> direction p) (str_strip <$> symbol p) (confidence p) (str_strip <$> grade p)
             (risk_percentage p) (text_strip (reasoning p)) (entry_price p) (stop_loss p) (take_profit p)
             (map str_strip (rejection_rules p)) (raw_response p) (entry_zone_low p) (entry_zone_high p)
             (tp1_price p) (tp1_pct p) (tp2_price p) (tp2_pct p) (tp3_price p) (tp3_pct p)
             (str_strip <$> trading_style p) (str_strip <$> session p) (rr_ratio p) (confluence_score p)
             (str_strip <$> analysis_id p) (str_strip <$> execution_mode p) (ltf_confirmed p) (str_strip <$> setup_type p))
  else Raise ValidationError.
End ProcessorOutput.

Definition _confidence_to_float (confidence : string) : float :=
  let c := str_upper confidence in
  if String.eqb c "HIGH" then lit 85 2
  else if String.eqb c "MEDIUM" then lit 60 2
  else if String.eqb c "LOW" then lit 35 2
  else fzero.

Definition _grade_to_risk_percent (grade : string) : float :=
  if String.eqb grade "A+" then RISK_PERCENT_A_PLUS
  else if String.eqb grade "A" then RISK_PERCENT_A
  else if String.eqb grade "B" then RISK_PERCENT_B
  else fzero.

Definition is_trade_valid (analysis : AnalysisOutput) : bool :=
  str_in (direction analysis) ["LONG"; "SHORT"] && str_in (setup_grade analysis) ["A+"; "A"; "B"] &&
  String.eqb (proceed_to_module_b analysis) "YES".

(** The price and the share of the [i]-th target. *)
Definition target (tps : list TakeProfitLevel) (i : nat) : option float * Z :=
  match nth_error tps i with Some tp => (level tp, size_pct tp) | None => (None, 0) end.

Definition _rejection_rules (analysis : AnalysisOutput) : list string :=
  if negb (is_trade_valid analysis) && String.eqb (direction analysis) "NO SETUP"
  then map (fun f => ("missing_" ++ factor_name f)%string)
         (List.filter (fun f => negb (present f) && feq (factor_value f) fzero) (factors (confluence_score analysis)))
  else [].

Definition map_to_processor_output (analysis : AnalysisOutput) (raw_response : option object) : res ProcessorOutput.t :=
  let trade_valid := is_trade_valid analysis in
  let tps := take_profits analysis in
  ProcessorOutput.create (ProcessorOutput.mk
    trade_valid
    (if String.eqb (direction analysis) "NO SETUP" then None else Some (direction analysis))
    (Some (pair analysis))
    (_confidence_to_float (confidence analysis))
    (Some (setup_grade analysis))
    (if trade_valid then Some (_grade_to_risk_percent (setup_grade analysis)) else None)
    (explainable_reasoning analysis)
    (match low (entry_zone analysis), high (entry_zone analysis) with
     | Some l, Some h => Some (fdiv_ieee (fadd l h) (of_Z 2))
     | _, _ => None
     end)
    (price (stop_loss analysis))
    (match last tps with Some tp => level tp | None => None end)
    (_rejection_rules analysis)
    (match raw_response with Some d => d | None => [] end)
    (low (entry_zone analysis)) (high (entry_zone analysis))
    (fst (target tps 0)) (snd (target tps 0)) (fst (target tps 1)) (snd (target tps 1)) (fst (target tps 2)) (snd (target tps 2))
    (Some (trading_style analysis)) (Some (session analysis)) (rr_ratio analysis) (score (confluence_score analysis))
    (Some (match zone_id (entry_setup analysis) with
           | Some z => if str_empty z then analysis_id analysis else z
           | None => analysis_id analysis
           end))
    (execution_mode analysis) (ltf_confirmed analysis) (zone_type (entry_setup analysis))).

(** ** Correctness *)

Module MapperFacts.
Import RuleFacts.

Lemma strip_side s : s = "LONG" \/ s = "SHORT" -> str_strip s = s.
Proof. by intros [->| ->]. Qed.

Lemma confidence_bounds c : fle fzero (_confidence_to_float c) && fle (_confidence_to_float c) fone = true.
Proof. unfold _confidence_to_float. cbv zeta. by repeat case_match. Qed.

Lemma risk_bounds g : fle fzero (_grade_to_risk_percent g) && fle (_grade_to_risk_percent g) (of_Z 5) = true.
Proof. unfold _grade_to_risk_percent. by repeat case_match. Qed.

(** The constructor accepts what the mapping gives it. *)
Lemma mapping_total o raw : exists p, map_to_processor_output o raw = Ok p /\
  ProcessorOutput.trade_valid p = is_trade_valid o /\
  ProcessorOutput.direction p = (if String.eqb (direction o) "NO SETUP" then None else Some (str_strip (direction o))) /\
  ProcessorOutput.risk_percentage p = (if is_trade_valid o then Some (_grade_to_risk_percent (setup_grade o)) else None) /\
  ProcessorOutput.entry_zone_low p = low (entry_zone o) /\ ProcessorOutput.entry_zone_high p = high (entry_zone o) /\
  ProcessorOutput.entry_price p = match low (entry_zone o), high (entry_zone o) with
    | Some l, Some h => Some (fdiv_ieee (fadd l h) (of_Z 2)) | _, _ => None end /\
  ProcessorOutput.stop_loss p = price (stop_loss o) /\ ProcessorOutput.rr_ratio p = rr_ratio o /\
  ProcessorOutput.take_profit p = match last (take_profits o) with Some tp => level tp | None => None end /\
  [(ProcessorOutput.tp1_price p, ProcessorOutput.tp1_pct p); (ProcessorOutput.tp2_price p, ProcessorOutput.tp2_pct p);
   (ProcessorOutput.tp3_price p, ProcessorOutput.tp3_pct p)] = map (target (take_profits o)) [0; 1; 2]%nat.
Proof.
  unfold map_to_processor_output, ProcessorOutput.create. cbv zeta.
  cbn [ProcessorOutput.confidence ProcessorOutput.risk_percentage]. rewrite confidence_bounds.
  assert (Hr : match (if is_trade_valid o then Some (_grade_to_risk_percent (setup_grade o)) else None) with
    | Some r => fle fzero r && fle r (of_Z 5) | None => true end = true) by (destruct (is_trade_valid o); [apply risk_bounds|done]).
  rewrite Hr. cbn [andb]. eexists. split; [reflexivity|].
  cbn [ProcessorOutput.trade_valid ProcessorOutput.direction ProcessorOutput.risk_percentage ProcessorOutput.entry_zone_low
    ProcessorOutput.entry_zone_high ProcessorOutput.entry_price ProcessorOutput.stop_loss ProcessorOutput.rr_ratio
    ProcessorOutput.take_profit ProcessorOutput.tp1_price ProcessorOutput.tp1_pct ProcessorOutput.tp2_price ProcessorOutput.tp2_pct
    ProcessorOutput.tp3_price ProcessorOutput.tp3_pct map].
  split; [reflexivity|]. split; [by destruct (String.eqb _ _)|]. do 7 (split; [reflexivity|]).
  by destruct (target _ 0), (target _ 1), (target _ 2).
Qed.

Lemma trade_valid_iff o :
  is_trade_valid o = true <->
  (direction o = "LONG" \/ direction o = "SHORT") /\ In (setup_grade o) ["A+"; "A"; "B"] /\ proceed_to_module_b o = "YES".
Proof.
  unfold is_trade_valid. rewrite !andb_true_iff, !str_in_iff, String.eqb_eq. cbn [In]. intuition congruence.
Qed.

(** The three slots hold all targets when there are at most three. *)
Lemma targets_kept tps : (length tps <= 3)%nat ->
  take (length tps) (map (target tps) [0; 1; 2]%nat) = map (fun tp => (level tp, size_pct tp)) tps.
Proof. destruct tps as [|a [|b [|c [|]]]]; cbn; intros; try done. lia. Qed.

(** C17: what the gateway is told to trade is complete.  The mapping always returns.  Its
    decision is valid exactly for a side, an accepted grade and the word to
    proceed, and carries a risk exactly then.  If the analysis passed the rules,
    a valid decision has its side, a risk above zero and at most one percent, the
    bounds of an entry zone with the entry price between them, a stop above zero,
    a reward to risk not below the minimum of its style, and every target of the
    analysis with its share, at least one. *)
Theorem mapped_trade_complete o raw :
  exists p, map_to_processor_output o raw = Ok p /\
    (ProcessorOutput.trade_valid p = true <->
       (direction o = "LONG" \/ direction o = "SHORT") /\ In (setup_grade o) ["A+"; "A"; "B"] /\ proceed_to_module_b o = "YES") /\
    (ProcessorOutput.trade_valid p = false -> ProcessorOutput.risk_percentage p = None) /\
    (tradeable o -> ProcessorOutput.trade_valid p = true ->
       ProcessorOutput.direction p = Some (direction o) /\
       (exists r, ProcessorOutput.risk_percentage p = Some r /\ 0 < fv r <= unit_pow 0) /\
       (exists l h m, ProcessorOutput.entry_zone_low p = Some l /\ ProcessorOutput.entry_zone_high p = Some h /\
          ProcessorOutput.entry_price p = Some m /\ (price_ok l -> price_ok h -> fv l <= fv m <= fv h)) /\
       (exists s, ProcessorOutput.stop_loss p = Some s /\ fle s fzero = false) /\
       (exists r, ProcessorOutput.rr_ratio p = Some r /\ flt r (min_rr o) = false) /\
       take_profits o <> [] /\
       take (length (take_profits o))
         [(ProcessorOutput.tp1_price p, ProcessorOutput.tp1_pct p); (ProcessorOutput.tp2_price p, ProcessorOutput.tp2_pct p);
          (ProcessorOutput.tp3_price p, ProcessorOutput.tp3_pct p)] =
         map (fun tp => (level tp, size_pct tp)) (take_profits o)).
Proof.
  destruct (mapping_total o raw) as (p & E & Ev & Ed & Er & El & Eh & Ee & Es & Err & _ & Et). exists p. split; [exact E|].
  rewrite Ev. split; [apply trade_valid_iff|]. split; [intros Hv; by rewrite Er, Hv|].
  intros Ho Hv. pose proof Hv as Hv'. apply trade_valid_iff in Hv as (Hside & Hg & Hp).
  destruct (td_trade _ Ho Hside) as [(l & h & Hl & Hh & Hlh & _) (s & Hs & Hs0) Hn _ (r & Hr & _ & Hrr)].
  repeat match goal with |- _ /\ _ => split end.
  - rewrite Ed, strip_side by done. destruct Hside as [->| ->]; done.
  - rewrite Er, Hv'. eexists. split; [reflexivity|]. destruct Hg as [<-|[<-|[<-|[]]]]; vm_compute; split; congruence.
  - exists l, h, (fdiv_ieee (fadd l h) (of_Z 2)). rewrite El, Eh, Ee, Hl, Hh. do 3 (split; [reflexivity|]). intros [Fl Bl] [Fh Bh].
    rewrite flt_fv in Hlh by (by apply fin_num). zbool. assert (H : fv max_price < 2 ^ 53 * unit_pow 0) by (vm_compute; reflexivity).
    assert (Ml : moderate l) by (split; [exact Fl|clear -H Bl; lia]). assert (Mh : moderate h) by (split; [exact Fh|clear -H Bh; lia]).
    apply (average_in l h l h Ml Mh Fl Fh); clear -Hlh; lia.
  - exists s. by rewrite Es.
  - exists r. by rewrite Err.
  - intros E0. rewrite E0 in Hn. destruct Hn as [Hn _]. exact (Hn eq_refl).
  - rewrite Et. apply targets_kept. unfold py_len, MAX_TAKE_PROFIT_LEVELS in Hn. lia.
Qed.

Lemma sample_tradeable : tradeable (sample_analysis "INTRADAY" "A" (of_Z 4)).
Proof.
  apply (no_blocking_iff id (Permutation_refl _) (Permutation_refl _) (sample_analysis "INTRADAY" "A" (of_Z 4)) true).
  - apply sample_plain; reflexivity.
  - vm_compute. reflexivity.
Qed.

Lemma mapped_trade_complete_witness :
  exists p, map_to_processor_output (sample_analysis "INTRADAY" "A" (of_Z 4)) None = Ok p /\
    ProcessorOutput.trade_valid p = true /\ ProcessorOutput.direction p = Some "LONG" /\
    exists r, ProcessorOutput.risk_percentage p = Some r /\ 0 < fv r <= unit_pow 0.
Proof.
  destruct (mapped_trade_complete (sample_analysis "INTRADAY" "A" (of_Z 4)) None) as (p & E & Hv & _ & Hc). exists p.
  assert (Hp : ProcessorOutput.trade_valid p = true) by (apply Hv; split; [left; reflexivity|]; split; [right; left; reflexivity|reflexivity]).
  destruct (Hc sample_tradeable Hp) as (Hd & Hr & _). split; [exact E|]. split; [exact Hp|]. split; [exact Hd|exact Hr].
Defined.

(** A decision that is refused keeps its prices. *)
Example rejected_keeps_prices :
  exists p, map_to_processor_output (sample_analysis "INTRADAY" "REJECT" (of_Z 4)) None = Ok p /\
    ProcessorOutput.trade_valid p = false /\ ProcessorOutput.direction p = Some "LONG" /\
    ProcessorOutput.stop_loss p = Some (lit 10780 4).
Proof. eexists. split; [reflexivity|]. vm_compute. repeat split. Qed.
End MapperFacts.
