(* ===== verification/RateLimiter.v ===== *)
(** * RateLimiter: [engine/ta/broker/connectivity/outbound_limiter.py]

    The token bucket of one broker connection.  The state is the bucket; the
    asyncio lock makes the refill-and-take section atomic, so it is one
    function of the state and of the clock reading it makes.  A blocking
    [acquire] is a loop over such sections: between two of them the coroutine
    sleeps and other callers run theirs, which an [iteration] of the
    environment lists, with the two clock readings of the loop body.
    Prometheus counters and log lines are not modelled. *)

From Stdlib Require Import ZArith Lia Bool String SpecFloat.
From stdpp Require Import base list strings.
From S2P Require Import Prelude PyFloat FloatRound FloatMono FloatGrid.

#[local] Open Scope string_scope.
#[local] Open Scope Z_scope.
#[local] Open Scope list_scope.

Module OutboundRateLimiter.

Record t := mk {
  provider : string; account_id : string; rate : float; burst : Z;
  tokens : float; last_refill : float }.

(** [float(n)] of an integer: raises beyond the range of a float. *)
Definition float_of_int (n : Z) : res float :=
  if is_finite (of_Z n) then Ok (of_Z n) else Raise OverflowError.

(** [__init__]; [now] is the reading of [time.monotonic()]. *)
Definition create (provider account_id : string) (rate_per_second : float) (burst_size : Z)
    (now : float) : res t :=
  if fle rate_per_second fzero then Raise (ValueError "rate_per_second must be > 0")
  else if burst_size <=? 0 then Raise (ValueError "burst_size must be > 0")
  else
    toks ← float_of_int burst_size;
    Ok (mk provider (if String.eqb account_id "" then "unknown" else account_id)
          rate_per_second burst_size toks now).

Definition set_tokens (s : t) (toks : float) : t :=
  mk (provider s) (account_id s) (rate s) (burst s) toks (last_refill s).

Definition _refill_locked (s : t) (now : float) : t :=
  let elapsed := fmax fzero (fsub now (last_refill s)) in
  if fle elapsed fzero then s
  else mk (provider s) (account_id s) (rate s) (burst s)
         (fmin (of_Z (burst s)) (fadd (tokens s) (fmul elapsed (rate s)))) now.

(** The section under the lock: refill, then take [weight] tokens if there are
    enough. *)
Definition locked_take (s : t) (now : float) (weight : Z) : res (bool * t) :=
  let s := _refill_locked s now in
  w ← float_of_int weight;
  if fle w (tokens s) then Ok (true, set_tokens s (fsub (tokens s) w))
  else Ok (false, s).

Definition try_acquire (s : t) (weight : Z) (now : float) : res (bool * t) :=
  if weight <=? 0 then Raise (ValueError "weight must be > 0")
  else locked_take s now weight.

Record LimitDecision := mk_decision { allowed : bool; waited_secs : float; reason : string }.

(** What the environment does in one turn of the [while] loop: the sections
    other callers run before ours, the reading under the lock and the one after
    it. *)
Record iteration := mk_iteration {
  others : list (float * Z); now_locked : float; now_after : float }.

(** Sections of other callers, one after the other. *)
Fixpoint run_sections (s : t) (xs : list (float * Z)) : res t :=
  match xs with
  | [] => Ok s
  | (now, w) :: xs => '(_, s) ← locked_take s now w; run_sections s xs
  end.

(** How one turn ends: with a decision, or asleep for a duration. *)
Inductive turn :=
| Decided (d : LimitDecision)
| Sleeping (secs : float).

Definition acquire_turn (s : t) (weight : Z) (deadline_secs : option float) (start deadline : float)
    (it : iteration) : res (turn * t) :=
  s ← run_sections s (others it);
  '(taken, s) ← locked_take s (now_locked it) weight;
  if taken : bool then Ok (Decided (mk_decision true (fsub (now_locked it) start) "allowed"), s)
  else
    let deficit := fsub (of_Z weight) (tokens s) in
    wait_for ← fdiv deficit (rate s);
    if match deadline_secs with None => true | Some d => fle d fzero end
    then Ok (Decided (mk_decision false fzero "exhausted"), s)
    else
      let remaining := fsub deadline (now_after it) in
      if fle remaining fzero
      then Ok (Decided (mk_decision false (fsub (now_after it) start) "exhausted"), s)
      else
        secs ← fmin_list [wait_for; remaining; lit 5 2];
        Ok (Sleeping secs, s).

(** The loop, with the sleeps it asked for; [None] when the environment given
    ends before the loop does. *)
Fixpoint acquire_loop (s : t) (weight : Z) (deadline_secs : option float) (start deadline : float)
    (env : list iteration) : res (list float * option LimitDecision * t) :=
  match env with
  | [] => Ok ([], None, s)
  | it :: env =>
      '(r, s) ← acquire_turn s weight deadline_secs start deadline it;
      match r with
      | Decided d => Ok ([], Some d, s)
      | Sleeping secs =>
          '(secs', d, s) ← acquire_loop s weight deadline_secs start deadline env;
          Ok (secs :: secs', d, s)
      end
  end.

(** [deadline_secs or 0.0]. *)
Definition or_zero (d : option float) : float :=
  match d with Some x => if feq x fzero then fzero else x | None => fzero end.

Definition acquire (s : t) (weight : Z) (deadline_secs : option float) (start : float)
    (env : list iteration) : res (list float * option LimitDecision * t) :=
  if weight <=? 0 then Raise (ValueError "weight must be > 0")
  else acquire_loop s weight deadline_secs start (fadd start (or_zero deadline_secs)) env.

Definition raise_if_exhausted (s : t) (weight : Z) (deadline_secs : option float) (start : float)
    (env : list iteration) : res (option (res unit) * t) :=
  '(_, decision, s) ← acquire s weight deadline_secs start env;
  Ok (option_map (fun d => if allowed d then Ok tt else Raise OutboundRateLimitExceededError) decision, s).

End OutboundRateLimiter.

(** ** Correctness *)

Module LimiterFacts.
Import OutboundRateLimiter.

(** The invariant of a bucket: a positive finite rate, and between zero and
    [burst] tokens. *)
Record wf (s : t) : Prop := {
  wf_rate : fin (rate s); wf_rate_pos : 0 < fv (rate s);
  wf_burst : 0 < burst s < 2 ^ 53;
  wf_tokens : fin (tokens s);
  wf_range : 0 <= fv (tokens s) <= burst s * unit_pow 0;
  wf_last : fin (last_refill s); wf_last_nonneg : 0 <= fv (last_refill s) }.

(** A reading of the monotonic clock. *)
Definition reading (now : float) : Prop := fin now /\ 0 <= fv now.

Lemma elapsed_facts a b :
  reading a -> reading b ->
  let e := fmax fzero (fsub b a) in
  fin e /\ 0 <= fv e /\ (fle e fzero = true <-> fv b <= fv a).
Proof.
  intros [Fa Ha] [Fb Hb] e. assert (Nd : num (fsub b a)) by auto with etradie.
  destruct (fmax_num fzero (fsub b a)) as [Ne Ee]; [auto with etradie|done|]. fold e in Ne, Ee.
  rewrite fv_fzero in Ee. rewrite fle_fv by auto with etradie. rewrite fv_fzero, Z.leb_le.
  destruct (Z.le_gt_cases (fv b) (fv a)) as [H|H].
  - assert (fv (fsub b a) <= 0) by (rewrite <- fv_fzero; apply fsub_upper; auto with etradie; rewrite fv_fzero; lia).
    assert (fv e = 0) by lia. split; [|split; lia].
    apply num_finite_of_bounds with fzero fzero; auto with etradie. rewrite fv_fzero. lia.
  - pose proof (fsub_pos b a Fb Fa H).
    assert (fin (fsub b a)) by (apply fsub_fin; auto; lia).
    split; [apply fmax_fin; auto with etradie|]. split; lia.
Qed.

(** An infinite refill only fills the bucket. *)
Lemma fadd_nonneg_num x p : fin x -> num p -> 0 <= fv p -> num (fadd x p) /\ fv x <= fv (fadd x p).
Proof.
  intros Fx Np Hp. destruct (is_finite p) eqn:E.
  - assert (fin p) by (destruct Np; split; done). split; [auto with etradie|by apply fadd_ge_l].
  - destruct Np as [V N]. destruct p as [s|s| |s m e]; try discriminate.
    destruct s; [exfalso; cbn [fv] in Hp; assert (0 < finf_val) by (apply Z.pow_pos_nonneg; lia); lia|].
    pose proof (fin_value x Fx) as B. change (2 ^ 53 * unit_pow 971) with (2 ^ 3224) in B.
    assert (E' : fadd x (S754_infinity false) = S754_infinity false)
      by (destruct Fx as [_ F]; destruct x as [[]|[]| |[] mx ex]; try discriminate F; reflexivity).
    rewrite E'. split; [done|]. cbn [fv]. pose proof finf_val_big. lia.
Qed.

Lemma fmul_nonneg_num x y : fin x -> fin y -> 0 <= fv x -> 0 <= fv y -> num (fmul x y) /\ 0 <= fv (fmul x y).
Proof. intros. split; auto with etradie. Qed.

(** What a refill does: nothing when the clock has not advanced, otherwise the
    bucket only grows, up to [burst]. *)
Lemma refill_wf s now :
  wf s -> reading now ->
  let s' := _refill_locked s now in
  wf s' /\ fv (tokens s) <= fv (tokens s') /\
  (fv now <= fv (last_refill s) -> s' = s) /\
  fv (last_refill s') = Z.max (fv now) (fv (last_refill s)) /\
  rate s' = rate s /\ burst s' = burst s.
Proof.
  intros Hw Hr s'. pose proof Hw as [Fr Hrp Hb Ft Ht Fl Hl].
  destruct (elapsed_facts (last_refill s) now) as (Fe & He & Hle); [split; done|done|].
  unfold s', _refill_locked. set (e := fmax fzero (fsub now (last_refill s))) in *. cbv zeta.
  destruct (fle e fzero) eqn:E.
  - assert (fv now <= fv (last_refill s)) by (by apply Hle).
    split; [done|]. split; [lia|]. split; [done|]. split; [lia|done].
  - assert (Hn : fv (last_refill s) < fv now).
    { apply Z.nle_gt. intros Hx. apply Hle in Hx. congruence. }
    destruct (fmul_nonneg_num e (rate s)) as [Np Hp]; [done|done|lia|lia|].
    destruct (fadd_nonneg_num (tokens s) (fmul e (rate s))) as [Na Ha]; [done..|].
    destruct (of_Z_exact (burst s)) as [FB EB]; [lia|].
    destruct (fmin_num (of_Z (burst s)) (fadd (tokens s) (fmul e (rate s)))) as [Nm Em];
      [auto with etradie|done|]. destruct Hr as [Fn Hn0].
    cbn [tokens last_refill rate burst].
    split; [constructor; cbn [tokens last_refill rate burst]; try done|].
    + apply num_finite_of_bounds with fzero (of_Z (burst s)); auto with etradie. rewrite fv_fzero. lia.
    + lia.
    + split; [lia|]. split; [lia|]. split; [lia|done].
Qed.

Lemma float_of_int_small n : 0 <= n < 2 ^ 53 -> float_of_int n = Ok (of_Z n).
Proof. intros H. unfold float_of_int. destruct (of_Z_exact n H) as [[_ ->] _]. done. Qed.

(** The critical section: it takes exactly [weight] tokens or nothing, and it
    takes them exactly when the refilled bucket has them. *)
Lemma locked_take_spec s now weight :
  wf s -> reading now -> 0 < weight < 2 ^ 53 ->
  let r := _refill_locked s now in
  exists b s', locked_take s now weight = Ok (b, s') /\ wf s' /\
    (b = true <-> weight * unit_pow 0 <= fv (tokens r)) /\
    fv (tokens s') = fv (tokens r) - (if b then weight * unit_pow 0 else 0) /\
    last_refill s' = last_refill r /\ rate s' = rate s /\ burst s' = burst s.
Proof.
  intros Hw Hr Hwt r. destruct (refill_wf s now Hw Hr) as (Wr & _ & _ & _ & Er & Eb). fold r in Wr, Er, Eb.
  unfold locked_take. fold r. cbv zeta. rewrite float_of_int_small by lia. cbn [mbind res_bind].
  pose proof Wr as [Fr Hrp Hb Ft Ht Fl Hl]. destruct (of_Z_exact weight) as [FW EW]; [lia|].
  rewrite fle_fv, EW by auto with etradie.
  destruct (weight * unit_pow 0 <=? fv (tokens r)) eqn:E; zbool.
  - destruct (fsub_int_exact (tokens r) weight) as [Fs Es]; [done|lia| |].
    { split; [done|]. apply Z.le_lt_trans with (1 := proj2 Ht). apply Z.mul_lt_mono_pos_r; [done|lia]. }
    exists true, (set_tokens r (fsub (tokens r) (of_Z weight))). unfold set_tokens.
    split; [done|]. split; [|split; [tauto|]; split; [exact Es|]; done].
    assert (0 < weight * unit_pow 0) by (apply Z.mul_pos_pos; [lia|done]).
    constructor; cbn [tokens last_refill rate burst]; try done. rewrite Es. lia.
  - exists false, r. split; [done|]. split; [done|]. split; [split; [done|lia]|]. split; [lia|done].
Qed.

(** The weight granted by a sequence of sections, and the bucket after it. *)
Fixpoint granted (s : t) (xs : list (float * Z)) : res (Z * t) :=
  match xs with
  | [] => Ok (0, s)
  | (now, w) :: xs =>
      '(b, s) ← locked_take s now w;
      '(n, s) ← granted s xs;
      Ok ((if b : bool then w else 0) + n, s)
  end.

(** Clock readings on a common grid: multiples of [2^g] seconds below
    [2^(53 + g)], as all readings of one binade are. *)
Definition on_grid (g : Z) (x : float) : Prop :=
  fin x /\ exists k, 0 <= k < 2 ^ 53 /\ fv x = k * unit_pow g.

Lemma on_grid_reading g x : -1074 <= g <= 971 -> on_grid g x -> reading x.
Proof.
  intros Hg (Fx & k & Hk & Ek). split; [done|]. rewrite Ek.
  apply Z.mul_nonneg_nonneg; [lia|]. apply Z.lt_le_incl, unit_pow_pos. unfold ebase. lia.
Qed.

Lemma elapsed_exact g a b :
  -1074 <= g <= 971 -> on_grid g a -> on_grid g b -> fv a < fv b ->
  fmax fzero (fsub b a) = fsub b a /\ fv (fsub b a) = fv b - fv a.
Proof.
  intros Hg (Fa & j & Hj & Ej) (Fb & k & Hk & Ek) H.
  assert (Hu : 0 < unit_pow g) by (apply unit_pow_pos; unfold ebase; lia).
  destruct (fsub_grid_exact b a k j g) as [Fd Ed]; [done..| |].
  { rewrite Ej, Ek in H. nia. }
  split; [|done]. unfold fmax. rewrite flt_fv by auto with etradie.
  rewrite fv_fzero, Ed, (proj2 (Z.ltb_lt _ _)) by lia. done.
Qed.

(** The credit of one refill exceeds the exact product of the elapsed time and
    the rate by at most two units of any grid that covers the burst. *)
Lemma refill_credit s now g f :
  wf s -> -1074 <= g <= 971 -> on_grid g (last_refill s) -> on_grid g now ->
  -1074 <= f <= 971 -> burst s * unit_pow 0 <= (2 ^ 53 - 1) * unit_pow f ->
  let s' := _refill_locked s now in
  unit_pow 0 * fv (tokens s') <=
    unit_pow 0 * fv (tokens s) + (fv (last_refill s') - fv (last_refill s)) * fv (rate s)
    + 2 * (unit_pow 0 * unit_pow f).
Proof.
  intros Hw Hg Gl Gn Hf Hbf s'. pose proof (on_grid_reading g _ Hg Gn) as Rn.
  assert (HU : 0 < unit_pow 0) by done.
  assert (Hu : 0 < unit_pow f) by (apply unit_pow_pos; unfold ebase; lia).
  destruct (refill_wf s now Hw Rn) as (Wr & _ & Hsame & Elast & _ & Ebur). fold s' in Wr, Hsame, Elast, Ebur.
  destruct (Z.le_gt_cases (fv now) (fv (last_refill s))) as [Hle|Hgt].
  { rewrite (Hsame Hle). set (U := unit_pow 0) in *. set (u := unit_pow f) in *. clearbody U u. nia. }
  destruct (elapsed_exact g _ _ Hg Gl Gn Hgt) as [Em Ed].
  destruct (elapsed_facts (last_refill s) now) as (Fe & He & Hle);
    [exact (on_grid_reading g _ Hg Gl)|done|]. rewrite Em in Fe, He, Hle.
  rewrite Elast, Z.max_l by lia. rewrite <- Ed. set (e := fsub now (last_refill s)) in *.
  pose proof Hw as [Fr Hrp Hb Ft Ht Fl Hl].
  assert (Hs' : tokens s' = fmin (of_Z (burst s)) (fadd (tokens s) (fmul e (rate s)))).
  { unfold s', _refill_locked. fold e. rewrite Em. cbv zeta.
    destruct (fle e fzero); [|done]. pose proof (proj1 Hle eq_refl). lia. }
  pose proof (wf_range _ Wr) as [_ Hcap]. rewrite Ebur in Hcap.
  pose proof (fmul_rounds e (rate s) Fe Fr) as Rp.
  set (P := fv e * fv (rate s)) in *. assert (HP : 0 <= P) by (apply Z.mul_nonneg_nonneg; lia).
  set (U := unit_pow 0) in *. set (u := unit_pow f) in *.
  destruct (Z.le_gt_cases (U * ((2 ^ 53 - 1) * u)) P) as [Hbig|Hsmall].
  { assert (U * fv (tokens s') <= U * ((2 ^ 53 - 1) * u)) by (apply Z.mul_le_mono_nonneg_l; lia). nia. }
  pose proof (rounds_ceil P U _ f HU Rp HP Hf) as Hp. fold u in Hp. destruct Hp as [?|Hp]; [lia|].
  destruct (grid_fin (2 ^ 53 - 1) f) as (z & Fz & Ez); [lia|lia|]. fold u in Ez.
  assert (Fp : fin (fmul e (rate s))).
  { apply (rounds_fin _ _ _ fzero z Rp); [done|done|rewrite fv_fzero; lia|rewrite Ez; lia]. }
  pose proof (fadd_rounds _ _ Ft Fp) as Ra.
  assert (Hp0 : 0 <= fv (fmul e (rate s))) by (apply fmul_nonneg; done || lia).
  destruct (rounds_ceil _ 1 _ f ltac:(lia) Ra) as [Hc|Hc]; [lia|done| |]; fold u in Hc.
  - assert (U * fv (tokens s') <= U * (fv (tokens s) + fv (fmul e (rate s))))
      by (apply Z.mul_le_mono_nonneg_l; lia). nia.
  - destruct (of_Z_exact (burst s)) as [FB _]; [lia|].
    destruct (fmin_num (of_Z (burst s)) (fadd (tokens s) (fmul e (rate s)))) as [_ Emin]; [auto with etradie..|].
    assert (fv (tokens s') <= fv (tokens s) + fv (fmul e (rate s)) + u) by (rewrite Hs', Emin; lia).
    assert (U * fv (tokens s') <= U * (fv (tokens s) + fv (fmul e (rate s)) + u))
      by (apply Z.mul_le_mono_nonneg_l; lia). lia.
Qed.

Lemma refill_on_grid g s now :
  on_grid g (last_refill s) -> on_grid g now -> on_grid g (last_refill (_refill_locked s now)).
Proof. intros. unfold _refill_locked. cbv zeta. by case_match. Qed.

(** What a caller may ask of the bucket. *)
Definition request_ok (g : Z) (x : float * Z) : Prop := on_grid g x.1 /\ 0 < x.2 < 2 ^ 53.

Lemma granted_bound g f s xs :
  -1074 <= g <= 971 -> -1074 <= f <= 971 ->
  wf s -> on_grid g (last_refill s) -> burst s * unit_pow 0 <= (2 ^ 53 - 1) * unit_pow f ->
  Forall (request_ok g) xs ->
  exists n s', granted s xs = Ok (n, s') /\ wf s' /\ rate s' = rate s /\ burst s' = burst s /\
    unit_pow 0 * (n * unit_pow 0 + fv (tokens s')) <=
      unit_pow 0 * fv (tokens s) + (fv (last_refill s') - fv (last_refill s)) * fv (rate s)
      + py_len xs * (2 * (unit_pow 0 * unit_pow f)).
Proof.
  intros Hg Hf. revert s. induction xs as [|[now w] xs IH]; intros s Hw Hl Hb Hxs.
  - exists 0, s. simpl. repeat (split; [done|]). change (py_len (@nil (float * Z))) with 0. lia.
  - apply Forall_cons in Hxs as [[Hn Hwt] Hxs]. simpl in Hn, Hwt.
    pose proof (refill_credit s now g f Hw Hg Hl Hn Hf Hb) as Hc. cbv zeta in Hc.
    destruct (locked_take_spec s now w Hw (on_grid_reading g _ Hg Hn) Hwt)
      as (b & s1 & E1 & W1 & _ & T1 & L1 & R1 & B1).
    destruct (IH s1) as (n & s' & E' & W' & R' & B' & H'); [done| |by rewrite B1|done|].
    { rewrite L1. by apply refill_on_grid. }
    exists ((if b then w else 0) + n), s'. simpl. rewrite E1. cbn [mbind res_bind]. rewrite E'.
    cbn [mbind res_bind]. split; [done|]. split; [done|]. split; [congruence|]. split; [congruence|].
    rewrite py_len_cons. rewrite R1, L1 in H'.
    set (U := unit_pow 0) in *. set (u := unit_pow f) in *. clearbody U u.
    rewrite T1 in H'. destruct b; lia.
Qed.

(** C9.  The bucket limits the rate.  Whatever sequence of requests the
    callers of one connection make, over whatever clock readings, the total
    weight granted is at most the burst size plus the configured rate times the
    time that passed, up to two units in the last place of the burst per
    request; and the bucket stays well-formed.  (Values are scaled by
    [unit_pow 0], the value of 1.0.) *)
Theorem bucket_rate_bound (g f : Z) (s : t) (xs : list (float * Z)) :
  -1074 <= g <= 971 -> -1074 <= f <= 971 ->
  wf s -> on_grid g (last_refill s) -> burst s * unit_pow 0 <= (2 ^ 53 - 1) * unit_pow f ->
  Forall (request_ok g) xs ->
  exists n s', granted s xs = Ok (n, s') /\ wf s' /\
    unit_pow 0 * (n * unit_pow 0) <=
      unit_pow 0 * (burst s * unit_pow 0)
      + (fv (last_refill s') - fv (last_refill s)) * fv (rate s)
      + py_len xs * (2 * (unit_pow 0 * unit_pow f)).
Proof.
  intros Hg Hf Hw Hl Hb Hxs.
  destruct (granted_bound g f s xs Hg Hf Hw Hl Hb Hxs) as (n & s' & E & W & _ & _ & H).
  exists n, s'. split; [done|]. split; [done|].
  pose proof (wf_range s Hw) as [_ Ht]. pose proof (wf_range s' W) as [Ht' _].
  assert (HU : 0 < unit_pow 0) by done. set (U := unit_pow 0) in *. clearbody U.
  assert (0 <= U * fv (tokens s')) by (apply Z.mul_nonneg_nonneg; lia).
  assert (U * fv (tokens s) <= U * (burst s * U)) by (apply Z.mul_le_mono_nonneg_l; lia).
  lia.
Qed.

(** Five requests per second, bursts of ten, created at second 1024; readings
    are whole seconds and the credits are exact to [2^-49] tokens. *)
Definition sample_bucket : t :=
  mk "mt5" "acc" (of_Z 5) 10 (of_Z 10) (of_Z 1024).

Lemma sample_bucket_wf : wf sample_bucket.
Proof. constructor; vm_compute; (split; congruence) || congruence. Qed.

Lemma of_Z_on_grid n : 0 <= n < 2 ^ 53 -> on_grid 0 (of_Z n).
Proof. intros H. destruct (of_Z_exact n H). split; [done|]. by exists n. Qed.

Lemma bucket_rate_bound_witness :
  exists n s', granted sample_bucket [(of_Z 1024, 8); (of_Z 1025, 9); (of_Z 1026, 3)] = Ok (n, s') /\ n = 11 /\
    unit_pow 0 * (n * unit_pow 0) <=
      unit_pow 0 * (10 * unit_pow 0)
      + (fv (last_refill s') - fv (of_Z 1024)) * fv (of_Z 5)
      + 3 * (2 * (unit_pow 0 * unit_pow (-49))).
Proof.
  destruct (bucket_rate_bound 0 (-49) sample_bucket [(of_Z 1024, 8); (of_Z 1025, 9); (of_Z 1026, 3)])
    as (n & s' & E & _ & H).
  - lia.
  - lia.
  - exact sample_bucket_wf.
  - apply of_Z_on_grid. lia.
  - vm_compute. congruence.
  - repeat first [apply Forall_nil_2 | apply Forall_cons_2; [split; [apply of_Z_on_grid; lia|simpl; lia]|]].
  - exists n, s'. split; [exact E|]. split; [|exact H].
    vm_compute in E. injection E as <- _. reflexivity.
Defined.

(** [try_acquire] is exact.  A non-positive weight is rejected; otherwise
    the call returns, keeps the bucket between zero and [burst] tokens, and
    grants the request if and only if the refilled bucket holds [weight]
    tokens, in which case it removes exactly [weight] of them (the float
    subtraction does not round) and otherwise none. *)
Theorem try_acquire_exact (s : t) (weight : Z) (now : float) :
  wf s -> reading now -> weight < 2 ^ 53 ->
  (weight <= 0 /\ try_acquire s weight now = Raise (ValueError "weight must be > 0")) \/
  (0 < weight /\ exists b s', try_acquire s weight now = Ok (b, s') /\ wf s' /\
     let r := _refill_locked s now in
     fv (tokens s) <= fv (tokens r) <= burst s * unit_pow 0 /\
     (b = true <-> weight * unit_pow 0 <= fv (tokens r)) /\
     fv (tokens s') = fv (tokens r) - (if b then weight * unit_pow 0 else 0)).
Proof.
  intros Hw Hr Hwt. unfold try_acquire. destruct (weight <=? 0) eqn:E; zbool; [by left|right].
  split; [done|]. destruct (locked_take_spec s now weight Hw Hr ltac:(lia)) as (b & s' & E' & W & Hb & Ht & _).
  exists b, s'. split; [done|]. split; [done|]. cbv zeta.
  destruct (refill_wf s now Hw Hr) as (Wr & Hge & _ & _ & _ & Eb). pose proof (wf_range _ Wr) as [_ Hc].
  rewrite Eb in Hc. auto.
Qed.

Lemma try_acquire_exact_witness :
  exists b s', try_acquire sample_bucket 4 (of_Z 1024) = Ok (b, s') /\ b = true /\
    fv (tokens s') = 6 * unit_pow 0.
Proof.
  destruct (try_acquire_exact sample_bucket 4 (of_Z 1024)) as [[H _]|(_ & b & s' & E & _ & _ & _ & Ht)].
  - exact sample_bucket_wf.
  - split; vm_compute; [split; reflexivity|congruence].
  - reflexivity.
  - lia.
  - exists b, s'. split; [exact E|]. vm_compute in E. injection E as <- <-. split; reflexivity.
Defined.

(** ** The blocking acquire *)

Definition other_ok (x : float * Z) : Prop := reading x.1 /\ 0 < x.2 < 2 ^ 53.
Definition iteration_ok (it : iteration) : Prop :=
  Forall other_ok (others it) /\ reading (now_locked it) /\ reading (now_after it).

Lemma run_sections_wf s xs :
  wf s -> Forall other_ok xs -> exists s', run_sections s xs = Ok s' /\ wf s'.
Proof.
  intros Hw Hxs. revert s Hw. induction Hxs as [|[now w] xs [Hn Hwt] _ IH]; intros s Hw; [by eexists|].
  destruct (locked_take_spec s now w Hw Hn Hwt) as (b & s1 & E & W & _).
  simpl. rewrite E. by apply IH.
Qed.

Lemma fle_fsub_zero x y : fin x -> fin y -> fle (fsub x y) fzero = true <-> fv x <= fv y.
Proof.
  intros Fx Fy. rewrite fle_fv by auto with etradie. rewrite fv_fzero, Z.leb_le. split; intros H.
  - apply Z.nlt_ge. intros Hlt. pose proof (fsub_pos x y Fx Fy Hlt). lia.
  - rewrite <- fv_fzero. apply fsub_upper; auto with etradie. rewrite fv_fzero. lia.
Qed.

(** The duration a turn sleeps: never negative, at most 50 ms, and never past
    the deadline. *)
Definition sleep_ok (deadline now secs : float) : Prop :=
  0 <= fv secs <= fv (lit 5 2) /\ fv secs <= fv (fsub deadline now).

Section Turn.
Context (weight : Z) (deadline_secs : option float) (start deadline : float)
  (Hweight : 0 < weight < 2 ^ 53) (Fdeadline : fin deadline).

Lemma acquire_turn_spec s it :
  wf s -> iteration_ok it ->
  exists r s', acquire_turn s weight deadline_secs start deadline it = Ok (r, s') /\ wf s' /\
    match r with
    | Decided d => reason d = if allowed d then "allowed" else "exhausted"
    | Sleeping secs => deadline_secs <> None /\ fv (now_after it) < fv deadline /\
        sleep_ok deadline (now_after it) secs
    end.
Proof.
  intros Hw (Ho & Hl & [Fa Ha]). unfold acquire_turn.
  destruct (run_sections_wf s (others it) Hw Ho) as (s1 & -> & W1). cbn [mbind res_bind].
  destruct (locked_take_spec s1 (now_locked it) weight W1 Hl Hweight)
    as (b & s2 & -> & W2 & Hb & Ht & _). cbn [mbind res_bind].
  destruct b; [by eexists _, _|].
  assert (Hlt : fv (tokens s2) < weight * unit_pow 0).
  { rewrite Ht, Z.sub_0_r. apply Z.nle_gt. intros Hx. by apply Hb in Hx. }
  pose proof W2 as [Fr Hrp _ Ft Htr _ _]. destruct (of_Z_exact weight) as [FW EW]; [lia|].
  assert (Fd : fin (fsub (of_Z weight) (tokens s2))) by (apply fsub_fin; done || lia).
  assert (Hd : 0 <= fv (fsub (of_Z weight) (tokens s2))) by (apply fsub_nonneg; done || lia).
  destruct (fdiv_rounds _ _ Fd Fr Hrp) as [-> _]. cbn [mbind res_bind].
  destruct deadline_secs as [ds|]; [|by eexists _, _]. destruct (fle ds fzero); [by eexists _, _|].
  destruct (fle (fsub deadline (now_after it)) fzero) eqn:Er; [by eexists _, _|].
  assert (Hrem : fv (now_after it) < fv deadline).
  { apply Z.nle_gt. intros Hx. apply fle_fsub_zero in Hx; congruence. }
  destruct (fmin_list _) as [secs|] eqn:Em; [|discriminate Em]. cbn [mbind res_bind].
  eexists _, _. split; [done|]. split; [done|]. split; [done|]. split; [done|].
  apply fmin_list_spec in Em as [Hin Hmin].
  2:{ apply Forall_cons_2; [by apply fdiv_num|]. apply Forall_cons_2; [by apply fsub_num|].
      apply Forall_cons_2; [by vm_compute|apply Forall_nil_2]. }
  pose proof (fdiv_nonneg _ _ Fd Fr Hd Hrp). pose proof (fsub_pos deadline (now_after it) Fdeadline Fa Hrem).
  split; [split|]; [|apply Hmin; simpl; auto..].
  simpl in Hin. destruct Hin as [<-|[<-|[<-|[]]]]; [done|lia|vm_compute; congruence].
Qed.

Lemma acquire_loop_spec env : forall s,
  wf s -> Forall iteration_ok env ->
  exists sleeps d s', acquire_loop s weight deadline_secs start deadline env = Ok (sleeps, d, s') /\ wf s' /\
    (exists its rest, env = its ++ rest /\
       Forall2 (fun it secs => fv (now_after it) < fv deadline /\ sleep_ok deadline (now_after it) secs) its sleeps /\
       (d = None <-> rest = [])) /\
    (deadline_secs = None -> sleeps = []) /\
    (forall x, d = Some x -> reason x = if allowed x then "allowed" else "exhausted").
Proof.
  induction env as [|it env IH]; intros s Hw He.
  - exists [], None, s. split; [done|]. split; [done|]. split; [by exists [], []|]. done.
  - apply Forall_cons in He as [Hit He].
    destruct (acquire_turn_spec s it Hw Hit) as (r & s1 & E1 & W1 & Hr). simpl. rewrite E1. cbn [mbind res_bind].
    destruct r as [d|secs].
    + exists [], (Some d), s1. split; [done|]. split; [done|]. split; [by exists [], (it :: env)|].
      split; [done|]. by intros x [= <-].
    + destruct Hr as (Hds & Hlt & Hsl).
      destruct (IH s1 W1 He) as (sleeps & d & s2 & -> & W2 & (its & rest & -> & H2 & Hd) & _ & Hre).
      cbn [mbind res_bind]. exists (secs :: sleeps), d, s2. split; [done|]. split; [done|].
      split; [|split; [done|done]]. exists (it :: its), rest. split; [done|]. split; [by constructor|done].
Qed.
End Turn.

(** A blocking [acquire] sleeps safely and gives up in time.  Under any
    interleaving with other callers it returns a decision on the first turn
    whose clock reading has reached the deadline, if not before, and on the
    first turn of all when there is no deadline; every sleep is between zero
    and 50 ms and ends no later than the deadline; and the bucket stays
    well-formed. *)
Theorem acquire_safe (s : t) (weight : Z) (deadline_secs : option float) (start : float)
    (env : list iteration) :
  let deadline := fadd start (or_zero deadline_secs) in
  wf s -> 0 < weight < 2 ^ 53 -> fin deadline -> Forall iteration_ok env ->
  exists sleeps d s', acquire s weight deadline_secs start env = Ok (sleeps, d, s') /\ wf s' /\
    Forall2 (fun it secs => fv (now_after it) < fv deadline /\ sleep_ok deadline (now_after it) secs)
      (take (length sleeps) env) sleeps /\
    (env <> [] -> deadline_secs = None \/ (exists it, In it env /\ fv deadline <= fv (now_after it)) ->
       d <> None) /\
    (forall x, d = Some x -> reason x = if allowed x then "allowed" else "exhausted").
Proof.
  intros deadline Hw Hwt Fd He. unfold acquire. rewrite (proj2 (Z.leb_gt _ _)) by lia. fold deadline.
  destruct (acquire_loop_spec weight deadline_secs start deadline Hwt Fd env s Hw He)
    as (sleeps & d & s' & -> & W & (its & rest & -> & H2 & Hd) & Hn & Hre).
  exists sleeps, d, s'. split; [done|]. split; [done|].
  split; [by rewrite <- (Forall2_length _ _ _ H2), take_app_length|]. split; [|done].
  intros Hne Hc Hd'. apply Hd in Hd' as ->. rewrite app_nil_r in *. destruct Hc as [Hc|(it & Hin & Hle)].
  - rewrite (Hn Hc) in H2. inversion H2; subst; done.
  - apply list_elem_of_In, list_elem_of_lookup in Hin as [i Hi].
    destruct (Forall2_lookup_l _ _ _ _ _ H2 Hi) as (y & _ & Hlt & _). lia.
Qed.

(** An exhausted bucket refilling at five tokens per second: the first turn
    sleeps 50 ms, the second finds the deadline reached. *)
Definition sample_empty : t := mk "mt5" "acc" (of_Z 5) 10 fzero (of_Z 1024).
Definition sample_env : list iteration :=
  [ mk_iteration [] (of_Z 1024) (of_Z 1024); mk_iteration [(of_Z 1025, 5)] (of_Z 1025) (of_Z 1026) ].

Lemma acquire_safe_witness :
  exists sleeps d s', acquire sample_empty 2 (Some (of_Z 1)) (of_Z 1024) sample_env = Ok (sleeps, d, s') /\
    sleeps = [lit 5 2] /\ d = Some (mk_decision false (of_Z 2) "exhausted") /\ wf s'.
Proof.
  destruct (acquire_safe sample_empty 2 (Some (of_Z 1)) (of_Z 1024) sample_env)
    as (sleeps & d & s' & E & W & _).
  - constructor; vm_compute; (split; congruence) || congruence.
  - lia.
  - vm_compute. split; reflexivity.
  - assert (R : forall n, 0 <= n < 2 ^ 53 -> reading (of_Z n)).
    { intros n Hn. apply (on_grid_reading 0); [lia|]. by apply of_Z_on_grid. }
    apply Forall_cons_2; [|apply Forall_cons_2; [|apply Forall_nil_2]].
    + split; [apply Forall_nil_2|]. split; apply R; lia.
    + split; [apply Forall_cons_2; [split; [apply R; lia|simpl; lia]|apply Forall_nil_2]|].
      split; apply R; lia.
  - exists sleeps, d, s'. split; [exact E|]. vm_compute in E. injection E as <- <- <-.
    split; [reflexivity|]. split; [reflexivity|exact W].
Defined.
End LimiterFacts.
