(* ===== verification/Connectivity.v ===== *)
(** * Connectivity: the reconnect policy and the tick freshness guard

    [engine/ta/broker/connectivity/reconnect.py] and
    [engine/ta/broker/connectivity/freshness.py].

    The operation the policy retries is a parameter: [call k] is what the
    coroutine made for attempt [k] does, a value or an exception.  So is the
    generator: [random k] is the number in [\[0, 1)] the [k]-th [random.uniform]
    draws.  Counters, log lines and the waiting itself are not modelled; the
    durations asked of [asyncio.sleep] are. *)

From Stdlib Require Import ZArith Lia Bool String.
From stdpp Require Import base list strings.
From S2P Require Import Prelude PyFloat FloatRound FloatMono FloatGrid RateLimiter.

#[local] Open Scope string_scope.
#[local] Open Scope Z_scope.
#[local] Open Scope list_scope.

Module ReconnectPolicy.

Record t := mk {
  base_secs : float; cap_secs : float; max_attempts : Z;
  policy_provider : string; policy_account_id : string }.

Definition default : t := mk (lit 10 1) (lit 300 1) 10 "unknown" "unknown".

(** [min(self.cap_secs, self.base_secs * (2 ** (attempt - 1)))]: the integer
    power is converted to a float, which raises when it is too large. *)
Definition schedule (p : t) (attempt : Z) : res float :=
  pow ← OutboundRateLimiter.float_of_int (2 ^ (attempt - 1));
  Ok (fmin (cap_secs p) (fmul (base_secs p) pow)).

(** [random.uniform(a, b)] is [a + (b - a) * random()]. *)
Definition uniform (a b random : float) : float := fadd a (fmul (fsub b a) random).

Definition next_delay (p : t) (attempt : Z) (random : float) : res float :=
  if attempt <? 1 then Ok fzero
  else s ← schedule p attempt; Ok (uniform fzero s random).

Definition exhausted (p : t) (attempt : Z) : bool := max_attempts p <? attempt.

Section Retry.
Context {T : Type} (p : t) (retry_on : exn -> bool) (call : Z -> res T) (random : Z -> float).

(** What a run did: the attempts made, the sleeps asked for and how it
    ended; [None] when the fuel ran out. *)
Record run := mk_run { calls : Z; sleeps : list float; outcome : option (res T) }.

Fixpoint retry_loop (fuel : nat) (attempt : Z) (last_exc : option exn) (slept : list float) : run :=
  match fuel with
  | O => mk_run attempt slept None
  | S fuel =>
      let attempt := attempt + 1 in
      if exhausted p attempt then
        mk_run (attempt - 1) slept
          (Some (match last_exc with
                 | Some e => Raise e
                 | None => Raise (RuntimeError "ReconnectPolicy exhausted with no exception captured")
                 end))
      else
        match call attempt with
        | Ok v => mk_run attempt slept (Some (Ok v))
        | Raise e =>
            if retry_on e then
              match next_delay p attempt (random attempt) with
              | Ok delay => retry_loop fuel attempt (Some e) (slept ++ [delay])
              | Raise e' => mk_run attempt slept (Some (Raise e'))
              end
            else mk_run attempt slept (Some (Raise e))
        end
  end.

Definition run_with_retry : run :=
  retry_loop (S (Z.to_nat (max_attempts p))) 0 None [].
End Retry.

End ReconnectPolicy.

(** ** Correctness of the policy *)

Module ReconnectFacts.
Import ReconnectPolicy.

(** Policy values as deployments set them: finite, non-negative, and few enough
    attempts for the power of two to be a float. *)
Record policy_ok (p : t) : Prop := {
  ok_base : fin (base_secs p); ok_base_nonneg : 0 <= fv (base_secs p);
  ok_cap : fin (cap_secs p); ok_cap_nonneg : 0 <= fv (cap_secs p);
  ok_attempts : max_attempts p <= 53 }.

Definition unit_random (u : float) : Prop := fin u /\ 0 <= fv u <= unit_pow 0.

Lemma schedule_Ok p k :
  policy_ok p -> 1 <= k <= 53 ->
  exists s, schedule p k = Ok s /\ fin s /\ 0 <= fv s <= fv (cap_secs p) /\
    s = fmin (cap_secs p) (fmul (base_secs p) (of_Z (2 ^ (k - 1)))).
Proof.
  intros [Fb Hb Fc Hc _] Hk. unfold schedule.
  assert (Hp : 0 <= 2 ^ (k - 1) < 2 ^ 53).
  { split; [apply Z.pow_nonneg; lia|]. apply Z.pow_lt_mono_r; lia. }
  rewrite LimiterFacts.float_of_int_small by done. destruct (of_Z_exact _ Hp) as [Fp Ep].
  assert (0 <= fv (of_Z (2 ^ (k - 1)))) by (rewrite Ep; apply Z.mul_nonneg_nonneg; [lia|done]).
  destruct (fmin_num (cap_secs p) (fmul (base_secs p) (of_Z (2 ^ (k - 1))))) as [Nm Em];
    [auto with etradie..|].
  assert (Hm : 0 <= fv (fmul (base_secs p) (of_Z (2 ^ (k - 1))))) by (apply fmul_nonneg; done).
  eexists. split; [done|]. split; [|split; [|done]].
  - apply num_finite_of_bounds with fzero (cap_secs p); auto with etradie. rewrite fv_fzero. lia.
  - lia.
Qed.

Lemma fsub_zero_r x : fin x -> fv (fsub x fzero) = fv x /\ fin (fsub x fzero).
Proof.
  intros Fx. pose proof (fsub_rounds x fzero Fx fin_fzero) as R. rewrite fv_fzero, Z.sub_0_r in R. split.
  - apply (rounds_representable _ 1 _ x) in R; try done; lia.
  - by apply (rounds_fin _ _ _ x x R); try lia.
Qed.

Lemma fadd_zero_l x : fin x -> fv (fadd fzero x) = fv x.
Proof.
  intros Fx. pose proof (fadd_rounds fzero x fin_fzero Fx) as R. rewrite fv_fzero, Z.add_0_l in R.
  apply (rounds_representable _ 1 _ x) in R; try done; lia.
Qed.

Lemma uniform_range s u :
  fin s -> 0 <= fv s -> unit_random u -> 0 <= fv (uniform fzero s u) <= fv s.
Proof.
  intros Fs Hs [Fu Hu]. unfold uniform. destruct (fsub_zero_r s Fs) as [Ed Fd].
  assert (Hlo : 0 <= fv (fmul (fsub s fzero) u)) by (apply fmul_nonneg; done || lia).
  assert (Hhi : fv (fmul (fsub s fzero) u) <= fv s).
  { rewrite <- Ed. apply (fmul_rounds _ _ Fd Fu); [done|]. apply Z.mul_le_mono_nonneg_l; lia. }
  rewrite fadd_zero_l; [done|].
  apply num_finite_of_bounds with fzero s; auto with etradie.
Qed.

Section Retry.
Context {T : Type} (p : t) (retry_on : exn -> bool) (call : Z -> res T) (random : Z -> float).
Hypothesis Hp : policy_ok p.

(** Attempt [k] fails with an exception the policy retries. *)
Definition retried (k : Z) : Prop := exists e, call k = Raise e /\ retry_on e = true.

(** The delays of the first [n] attempts. *)
Definition delays (n : Z) : list float :=
  map (fun k => match next_delay p k (random k) with Ok d => d | Raise _ => fzero end) (py_range 1 (n + 1)).

Lemma delays_snoc n : 0 <= n ->
  delays (n + 1) = delays n ++ [match next_delay p (n + 1) (random (n + 1)) with Ok d => d | Raise _ => fzero end].
Proof.
  intros Hn. unfold delays. rewrite (py_range_snoc 1 (n + 1)) by lia. rewrite map_app. done.
Qed.

Lemma next_delay_Ok k : 1 <= k <= max_attempts p -> exists d, next_delay p k (random k) = Ok d.
Proof.
  intros Hk. unfold next_delay. rewrite (proj2 (Z.ltb_ge _ _)) by lia.
  destruct (schedule_Ok p k Hp) as (s & -> & _); [destruct Hp; lia|]. by eexists.
Qed.

(** From any point of the loop: it stops at the first attempt that is not a
    retried failure, or re-raises the last failure once the attempts are
    used. *)
Lemma retry_loop_spec fuel : forall attempt last,
  0 < max_attempts p -> 0 <= attempt <= max_attempts p -> (Z.to_nat (max_attempts p - attempt) < fuel)%nat ->
  (0 < attempt -> exists e, last = Some e /\ call attempt = Raise e) ->
  let r := retry_loop p retry_on call random fuel attempt last (delays attempt) in
  (exists k, attempt < k <= max_attempts p /\ (forall j, attempt < j < k -> retried j) /\ ~ retried k /\
     r = mk_run k (delays (k - 1)) (Some (call k))) \/
  ((forall j, attempt < j <= max_attempts p -> retried j) /\
     r = mk_run (max_attempts p) (delays (max_attempts p)) (Some (call (max_attempts p)))).
Proof.
  induction fuel as [|fuel IH]; intros attempt last Hpos Ha Hf Hl; [lia|]. cbv zeta. cbn [retry_loop].
  unfold exhausted. destruct (max_attempts p <? attempt + 1) eqn:E; zbool.
  - assert (attempt = max_attempts p) as Eq by lia.
    right. split; [intros j Hj; lia|].
    destruct (Hl ltac:(lia)) as (e & -> & Ec). rewrite <- Eq, Ec. f_equal. lia.
  - destruct (call (attempt + 1)) as [v|e] eqn:Ec.
    { left. exists (attempt + 1). split; [lia|]. split; [intros j Hj; lia|].
      split; [intros (e & He & _); congruence|]. rewrite Ec. f_equal. f_equal. lia. }
    destruct (retry_on e) eqn:Er.
    2:{ left. exists (attempt + 1). split; [lia|]. split; [intros j Hj; lia|].
        split; [intros (e' & He & Hr); congruence|]. rewrite Ec. f_equal. f_equal. lia. }
    destruct (next_delay_Ok (attempt + 1) ltac:(lia)) as (d & Ed). rewrite Ed.
    assert (Edl : delays attempt ++ [d] = delays (attempt + 1)) by (by rewrite delays_snoc, Ed by lia).
    rewrite Edl.
    destruct (IH (attempt + 1) (Some e)) as [(k & Hk & Hj & Hnk & ->)|(Hj & ->)];
      [lia|lia|lia|by exists e| |].
    + left. exists k. split; [lia|]. split; [|done]. intros j Hjk.
      destruct (Z.eq_dec j (attempt + 1)) as [->|]; [by exists e|apply Hj; lia].
    + right. split; [|done]. intros j Hjk.
      destruct (Z.eq_dec j (attempt + 1)) as [->|]; [by exists e|apply Hj; lia].
Qed.

(** The retry loop is total and stops where it should.  With at least one
    attempt allowed it makes as many calls as it takes to reach the first
    attempt that succeeds or fails with an exception outside [retry_on], and
    ends with exactly that outcome; when all [max_attempts] fail it re-raises
    the last failure unchanged.  It sleeps once per retried failure, for the
    delay of that attempt; with no attempt allowed it makes no call and raises
    [RuntimeError]. *)
Theorem run_with_retry_exact :
  let r := run_with_retry p retry_on call random in
  (max_attempts p <= 0 /\ r = mk_run 0 []
     (Some (Raise (RuntimeError "ReconnectPolicy exhausted with no exception captured")))) \/
  (exists k, 1 <= k <= max_attempts p /\ (forall j, 1 <= j < k -> retried j) /\ ~ retried k /\
     r = mk_run k (delays (k - 1)) (Some (call k))) \/
  (0 < max_attempts p /\ (forall j, 1 <= j <= max_attempts p -> retried j) /\
     r = mk_run (max_attempts p) (delays (max_attempts p)) (Some (call (max_attempts p)))).
Proof.
  unfold run_with_retry. destruct (Z.le_gt_cases (max_attempts p) 0) as [H|H]; cbv zeta.
  - left. split; [done|]. cbn [retry_loop]. unfold exhausted. by rewrite (proj2 (Z.ltb_lt _ _)) by lia.
  - right. destruct (retry_loop_spec (S (Z.to_nat (max_attempts p))) 0 None)
      as [(k & Hk & Hj & Hn & Er)|(Hj & Er)]; [done|lia|lia|lia| |];
      change (delays 0) with (@nil float) in Er; rewrite Er.
    + left. exists k. split; [lia|]. split; [intros; apply Hj; lia|done].
    + right. split; [done|]. split; [intros; apply Hj; lia|done].
Qed.

(** Delays are jittered within the exponential schedule: for every
    attempt of a run the delay is between zero and the schedule, the schedule
    never exceeds the cap, and it never decreases from one attempt to the
    next. *)
Theorem next_delay_bounded (k : Z) :
  1 <= k <= max_attempts p -> unit_random (random k) ->
  exists d s, next_delay p k (random k) = Ok d /\ schedule p k = Ok s /\
    0 <= fv d <= fv s /\ fv s <= fv (cap_secs p) /\
    forall s', k < max_attempts p -> schedule p (k + 1) = Ok s' -> fv s <= fv s'.
Proof.
  intros Hk Hu. pose proof Hp as [Fb Hb Fc Hc Hm].
  destruct (schedule_Ok p k Hp ltac:(lia)) as (s & Es & Fs & Hs & Eqs).
  unfold next_delay. rewrite (proj2 (Z.ltb_ge _ _)), Es by lia. cbn [mbind res_bind].
  exists (uniform fzero s (random k)), s. split; [done|]. split; [done|].
  split; [apply uniform_range; done || lia|]. split; [lia|]. intros s' Hk' Es'.
  destruct (schedule_Ok p (k + 1) Hp ltac:(lia)) as (s2 & Es2 & _ & _ & Eqs2).
  rewrite Es' in Es2. injection Es2 as <-. rewrite Eqs, Eqs2.
  assert (P1 : 0 <= 2 ^ (k - 1) < 2 ^ 53).
  { split; [apply Z.pow_nonneg; lia|]. apply Z.pow_lt_mono_r; lia. }
  assert (P2 : 0 <= 2 ^ (k + 1 - 1) < 2 ^ 53).
  { split; [apply Z.pow_nonneg; lia|]. apply Z.pow_lt_mono_r; lia. }
  destruct (of_Z_exact _ P1) as [F1 E1], (of_Z_exact _ P2) as [F2 E2].
  assert (2 ^ (k - 1) <= 2 ^ (k + 1 - 1)) by (apply Z.pow_le_mono_r; lia).
  assert (Hv : fv (of_Z (2 ^ (k - 1))) <= fv (of_Z (2 ^ (k + 1 - 1)))).
  { rewrite E1, E2. apply Z.mul_le_mono_nonneg_r; [apply Z.lt_le_incl; done|done]. }
  assert (fv (fmul (base_secs p) (of_Z (2 ^ (k - 1)))) <= fv (fmul (base_secs p) (of_Z (2 ^ (k + 1 - 1))))).
  { apply fmul_mono; try done. apply Z.mul_le_mono_nonneg_l; [lia|done]. }
  destruct (fmin_num (cap_secs p) (fmul (base_secs p) (of_Z (2 ^ (k - 1))))) as [_ ->]; [auto with etradie..|].
  destruct (fmin_num (cap_secs p) (fmul (base_secs p) (of_Z (2 ^ (k + 1 - 1))))) as [_ ->]; [auto with etradie..|].
  lia.
Qed.
End Retry.

Lemma default_ok : policy_ok default.
Proof. constructor; vm_compute; (split; reflexivity) || congruence. Qed.

(** A factory whose first two calls fail, and whose third returns. *)
Definition sample_call (k : Z) : res Z := if k <? 3 then Raise IndexError else Ok k.
Definition retry_index (e : exn) : bool := match e with IndexError => true | _ => false end.
Definition half (k : Z) : float := lit 5 1.

Lemma run_with_retry_exact_witness :
  run_with_retry default retry_index sample_call half =
    mk_run 3 (delays default half 2) (Some (Ok 3)).
Proof.
  destruct (run_with_retry_exact default retry_index sample_call half default_ok)
    as [[H _]|[(k & Hk & Hj & Hn & E)|(_ & Hj & _)]].
  - vm_compute in H. congruence.
  - assert (k = 3) as ->; [|exact E].
    destruct (Z.lt_trichotomy k 3) as [Hlt|[Heq|Hgt]]; [exfalso|exact Heq|exfalso].
    + apply Hn. exists IndexError. split; [|reflexivity].
      unfold sample_call. rewrite (proj2 (Z.ltb_lt _ _)) by exact Hlt. reflexivity.
    + destruct (Hj 3 ltac:(lia)) as (e & He & _). discriminate He.
  - destruct (Hj 3) as (e & He & _); [vm_compute; split; congruence|]. discriminate He.
Defined.

Lemma next_delay_bounded_witness :
  exists d s, next_delay default 4 (half 4) = Ok d /\ schedule default 4 = Ok s /\
    0 <= fv d <= fv s /\ s = of_Z 8.
Proof.
  destruct (next_delay_bounded default half default_ok 4) as (d & s & Ed & Es & Hd & _).
  - vm_compute. split; congruence.
  - vm_compute. repeat split; congruence.
  - exists d, s. split; [exact Ed|]. split; [exact Es|]. split; [exact Hd|].
    vm_compute in Es. injection Es as <-. reflexivity.
Defined.
End ReconnectFacts.

(** ** The freshness guard *)

Module TickFreshnessGuard.

Record t := mk { max_age_seconds : float; provider : string; account_id : string }.

(** [tick_unix_ts: int | float]. *)
Inductive number := Int (n : Z) | Float (x : float).

Definition not_positive (x : number) : bool :=
  match x with Int n => n <=? 0 | Float f => fle f fzero end.
Definition to_float (x : number) : res float :=
  match x with Int n => OutboundRateLimiter.float_of_int n | Float f => Ok f end.

(** [now_ts] is the reading of [time.time()]; the reason is the exception's
    detail. *)
Definition assert_fresh (g : t) (tick_unix_ts : number) (now_ts : float) : res unit :=
  if fle (max_age_seconds g) fzero then Ok tt
  else if not_positive tick_unix_ts then Raise (ProviderStalePriceError "stale_by_session")
  else
    ts ← to_float tick_unix_ts;
    let age := fsub now_ts ts in
    if flt (max_age_seconds g) age then Raise (ProviderStalePriceError "stale_by_age") else Ok tt.

End TickFreshnessGuard.

Module FreshnessFacts.
Import TickFreshnessGuard.

(** The guard accepts exactly the fresh ticks.  With the guard on, a
    finite positive tick is accepted if and only if its age, rounded to a
    float, is at most the maximum; in particular a tick from the future is
    accepted, and a tick that is accepted stays accepted when it is newer or
    the clock reads less.  A tick without a timestamp is always rejected. *)
Theorem freshness_monotone (g : t) (ts now : float) :
  num (max_age_seconds g) -> 0 < fv (max_age_seconds g) -> fin ts -> fin now ->
  (fv ts <= 0 -> assert_fresh g (Float ts) now = Raise (ProviderStalePriceError "stale_by_session")) /\
  (0 < fv ts -> (assert_fresh g (Float ts) now = Ok tt <-> fv (fsub now ts) <= fv (max_age_seconds g))) /\
  (0 < fv ts -> fv now <= fv ts -> assert_fresh g (Float ts) now = Ok tt) /\
  (forall ts' now', fin ts' -> fin now' -> fv ts <= fv ts' -> fv now' <= fv now ->
     assert_fresh g (Float ts) now = Ok tt -> assert_fresh g (Float ts') now' = Ok tt).
Proof.
  intros Na Ha Fts Fnow.
  assert (Heq : forall ts now, fin ts -> fin now ->
    assert_fresh g (Float ts) now =
      if fv ts <=? 0 then Raise (ProviderStalePriceError "stale_by_session")
      else if fv (max_age_seconds g) <? fv (fsub now ts)
      then Raise (ProviderStalePriceError "stale_by_age") else Ok tt).
  { intros x y Fx Fy. unfold assert_fresh. cbn [not_positive to_float mbind res_bind].
    rewrite !fle_fv, flt_fv by auto with etradie.
    by rewrite fv_fzero, (proj2 (Z.leb_gt _ _)) by done. }
  rewrite (Heq ts now) by done. split; [|split; [|split]].
  - intros H. by rewrite (proj2 (Z.leb_le _ _)) by done.
  - intros H. rewrite (proj2 (Z.leb_gt _ _)) by done. destruct (_ <? _) eqn:E; zbool; [|done].
    split; [done|lia].
  - intros H Hle. rewrite (proj2 (Z.leb_gt _ _)) by done.
    assert (fv (fsub now ts) <= 0) by (rewrite <- fv_fzero; apply fsub_upper; auto with etradie; rewrite fv_fzero; lia).
    by rewrite (proj2 (Z.ltb_ge _ _)) by lia.
  - intros ts' now' F' Fn' Hts Hnow H. rewrite (Heq ts' now') by done.
    assert (fv (fsub now' ts') <= fv (fsub now ts)) by (apply fsub_mono; done || lia).
    destruct (fv ts <=? 0) eqn:E; [done|]. destruct (_ <? fv (fsub now ts)) eqn:E'; [done|]. zbool.
    by rewrite (proj2 (Z.leb_gt _ _)), (proj2 (Z.ltb_ge _ _)) by lia.
Qed.

Lemma freshness_monotone_witness :
  assert_fresh (mk (lit 50 1) "mt5" "acc") (Float (lit 17000000005 1)) (lit 17000000030 1) = Ok tt /\
  assert_fresh (mk (lit 50 1) "mt5" "acc") (Float (lit 17000000005 1)) (of_Z 1700000001) = Ok tt.
Proof.
  assert (H : assert_fresh (mk (lit 50 1) "mt5" "acc") (Float (lit 17000000005 1)) (lit 17000000030 1) = Ok tt)
    by (vm_compute; reflexivity).
  split; [exact H|].
  pose proof (freshness_monotone (mk (lit 50 1) "mt5" "acc") (lit 17000000005 1) (lit 17000000030 1)) as T.
  do 4 (specialize (T ltac:(vm_compute; split; reflexivity))). destruct T as (_ & _ & _ & Hm).
  apply (Hm (lit 17000000005 1) (of_Z 1700000001));
    first [exact H | vm_compute; split; reflexivity | vm_compute; congruence].
Defined.
End FreshnessFacts.
