(* ===== verification/ClockSkew.v ===== *)
(** * The clock of the terminal: [engine/ta/broker/mt5/clock_skew.py]

    The monitor keeps the last differences between the engine's clock and the
    broker's and reports their median.  The lock of the monitor makes each
    operation atomic; counters and log lines are not modelled. *)

From Stdlib Require Import ZArith Lia Bool String Sorted Permutation.
From stdpp Require Import base list strings.
From S2P Require Import Prelude Loops PyFloat FloatRound FloatMono FloatGrid PyText PyRepr PyValues RateLimiter Connectivity.

#[local] Open Scope string_scope.
#[local] Open Scope Z_scope.
#[local] Open Scope list_scope.

Module EAClockSample.
Record t := mk { server_time : Z; ea_local_time : Z; tick_time : Z }.

(** [int(raw.get(key, 0) or 0)]. *)
Definition int_field (raw : object) (key : string) : res Z :=
  match obj_get key raw with
  | Some v => if json_truthy v then json_int v else Ok 0
  | None => Ok 0
  end.

Definition from_dict (raw : object) : res t :=
  server_time ← int_field raw "server_time";
  ea_local_time ← int_field raw "ea_local_time";
  tick_time ← int_field raw "tick_time";
  Ok (mk server_time ea_local_time tick_time).
End EAClockSample.

(** [statistics.median] of a non-empty list. *)
Definition median (data : list float) : float :=
  let data := py_sorted flt data in
  let n := length data in
  if Nat.odd n then nth (Nat.div2 n) data fzero
  else fdiv_ieee (fadd (nth (Nat.div2 n - 1) data fzero) (nth (Nat.div2 n) data fzero)) (of_Z 2).

Module ClockSkewMonitor.

Record t := mk {
  provider : string; account_id : string; maxlen : Z; _window : list float; _max_skew : float }.

Definition create (provider account_id : string) (window_size : Z) (max_acceptable_skew_secs : float) : res t :=
  if window_size <? 3 then Raise (ValueError "window_size must be >= 3 for a useful median")
  else if fle max_acceptable_skew_secs fzero then Raise (ValueError "max_acceptable_skew_secs must be > 0")
  else Ok (mk provider (if str_empty account_id then "unknown" else account_id) window_size [] max_acceptable_skew_secs).

Definition skew_seconds (m : t) : float :=
  match _window m with [] => fzero | w => median w end.

(** [deque.append] of a bounded deque: the oldest items make room. *)
Definition append (m : t) (skew : float) : t :=
  let w := _window m ++ [skew] in
  mk (provider m) (account_id m) (maxlen m) (drop (length w - Z.to_nat (maxlen m)) w) (_max_skew m).

Definition sample (m : t) (engine_now_unix : float) (s : EAClockSample.t) : res (float * t) :=
  if EAClockSample.server_time s <=? 0 then Ok (skew_seconds m, m)
  else
    server ← OutboundRateLimiter.float_of_int (EAClockSample.server_time s);
    let m := append m (fsub engine_now_unix server) in
    Ok (median (_window m), m).

Definition now_compensated (m : t) (engine_now_unix : float) : float := fsub engine_now_unix (skew_seconds m).

Definition is_degraded (m : t) : bool := flt (_max_skew m) (fabs (skew_seconds m)).

Definition assert_within_tolerance (m : t) : res unit :=
  let skew := skew_seconds m in
  if flt (_max_skew m) (fabs skew)
  then Raise (EAClockSkewError
         ("EA clock skew " ++ fixed_str skew 2 ++ "s exceeds maximum " ++ fixed_str (_max_skew m) 2 ++ "s"))
  else Ok tt.
End ClockSkewMonitor.

(** ** Correctness *)

Module SkewFacts.
Import ClockSkewMonitor.

(** *** The middle of a sorted list *)

Definition count {A} (p : A -> bool) (l : list A) : nat := length (List.filter p l).

Lemma count_perm {A} (p : A -> bool) l l' : Permutation l l' -> count p l = count p l'.
Proof.
  unfold count. induction 1 as [|x l l' _ IH|x y l|l l' l'' _ IH1 _ IH2]; cbn [List.filter]; [done| | |lia].
  - destruct (p x); cbn [length]; lia.
  - by destruct (p x), (p y).
Qed.

Lemma count_split {A} (p q : A -> bool) l : (forall x, p x && q x = false) -> (count p l + count q l <= length l)%nat.
Proof.
  intros Hd. unfold count. induction l as [|x l IH]; cbn [List.filter length]; [lia|].
  specialize (Hd x). destruct (p x), (q x); cbn [length] in *; try discriminate Hd; lia.
Qed.

Section Sorted.
Context {A : Type} (k : A -> Z).

Lemma low_prefix l i x lo :
  StronglySorted (fun a b => k a <= k b) l -> l !! i = Some x -> k x < lo -> (i < count (fun a => k a <? lo)%Z l)%nat.
Proof.
  intros Hs. revert i. unfold count. induction Hs as [|a l Hs IH Hf]; intros [|i] Hi Hx; simplify_eq/=.
  - rewrite (proj2 (Z.ltb_lt _ _)) by done. cbn [length]. lia.
  - rewrite List.Forall_forall in Hf. assert (k a <= k x) by (apply Hf, list_elem_of_In; by eapply list_elem_of_lookup_2).
    rewrite (proj2 (Z.ltb_lt _ _)) by lia. cbn [length]. specialize (IH i Hi Hx). lia.
Qed.

Lemma high_suffix l i x hi :
  StronglySorted (fun a b => k a <= k b) l -> l !! i = Some x -> hi < k x ->
  (length l - i <= count (fun a => hi <? k a)%Z l)%nat.
Proof.
  intros Hs. revert i. unfold count. induction Hs as [|a l Hs IH Hf]; intros [|i] Hi Hx; simplify_eq/=.
  - rewrite List.Forall_forall in Hf. rewrite (proj2 (Z.ltb_lt _ _)) by done. cbn [length].
    assert (List.filter (fun a => hi <? k a) l = l) as ->; [|lia]. clear IH Hs.
    induction l as [|b l IH]; cbn [List.filter]; [done|]. rewrite (proj2 (Z.ltb_lt _ _)) by (specialize (Hf b (or_introl eq_refl)); lia).
    rewrite IH; [done|]. intros c Hc. apply Hf. by right.
  - specialize (IH i Hi Hx). destruct (hi <? k a); cbn [length]; lia.
Qed.
End Sorted.

(** *** The median *)

Definition within (lo hi x : float) : bool := (fv lo <=? fv x) && (fv x <=? fv hi).

Lemma median_robust lo hi w :
  moderate lo -> moderate hi -> Forall fin w -> (length w < 2 * count (within lo hi) w)%nat ->
  num (median w) /\ fv lo <= fv (median w) <= fv hi.
Proof.
  intros Hlo Hhi Hw Hc. unfold median. cbv zeta. set (l := py_sorted flt w).
  assert (Hp : Permutation l w) by apply py_sorted_perm. rewrite <- (count_perm _ _ _ Hp) in Hc.
  assert (Hl : length l = length w) by (by apply Permutation_length). rewrite <- Hl in Hc. rewrite List.Forall_forall in Hw.
  assert (Fl : forall x, In x l -> fin x) by (intros x Hx; apply Hw; by apply (Permutation_in _ Hp)).
  assert (Hs : StronglySorted (fun a b => fv a <= fv b) l).
  { apply py_sorted_sorted. intros x y Hx Hy. apply flt_fv; apply fin_num, Hw; done. }
  assert (Hlow : (count (within lo hi) l + count (fun a => fv a <? fv lo)%Z l <= length l)%nat).
  { apply count_split. intros x. unfold within. destruct (Z.leb_spec (fv lo) (fv x)), (Z.ltb_spec (fv x) (fv lo)); try lia; by destruct (_ <=? _). }
  assert (Hhigh : (count (within lo hi) l + count (fun a => fv hi <? fv a)%Z l <= length l)%nat).
  { apply count_split. intros x. unfold within. destruct (Z.leb_spec (fv x) (fv hi)), (Z.ltb_spec (fv hi) (fv x)); try lia;
      by destruct (_ <=? _). }
  assert (Hin : forall i, (i < length l)%nat -> (count (fun a => fv a <? fv lo)%Z l <= i)%nat ->
    (count (fun a => fv hi <? fv a)%Z l < length l - i)%nat ->
    fin (nth i l fzero) /\ fv lo <= fv (nth i l fzero) <= fv hi).
  { intros i Hi H1 H2. assert (Hx : l !! i = Some (nth i l fzero)) by (by apply lookup_lt_is_Some_2 in Hi as [x Ex]; rewrite nth_lookup, Ex).
    split; [by apply Fl, nth_In|]. split; apply Z.nlt_ge; intros Hlt.
    - pose proof (low_prefix fv l i _ _ Hs Hx Hlt). lia.
    - pose proof (high_suffix fv l i _ _ Hs Hx Hlt). lia. }
  pose proof (Nat.div2_odd (length l)) as Ho. destruct (Nat.odd (length l)); cbn [Nat.b2n] in Ho.
  - destruct (Hin (Nat.div2 (length l))) as [F B]; [lia..|]. split; [by apply fin_num|done].
  - destruct (Hin (Nat.div2 (length l) - 1)%nat) as [F1 B1]; [lia..|]. destruct (Hin (Nat.div2 (length l))) as [F2 B2]; [lia..|].
    by apply average_in.
Qed.

(** *** The window *)

(** One sample after the other. *)
Fixpoint feed (m : t) (l : list (float * EAClockSample.t)) : res t :=
  match l with
  | [] => Ok m
  | (now, s) :: l => '(_, m) ← sample m now s; feed m l
  end.

(** The differences the samples show; one without a server time shows none. *)
Definition skews (l : list (float * EAClockSample.t)) : list float :=
  omap (fun '(now, s) =>
    if EAClockSample.server_time s <=? 0 then None else Some (fsub now (of_Z (EAClockSample.server_time s)))) l.

Definition last_of {A} (n : nat) (l : list A) : list A := drop (length l - n) l.

Lemma last_of_snoc {A} (n : nat) (l : list A) x : (0 < n)%nat -> last_of n (last_of n l ++ [x]) = last_of n (l ++ [x]).
Proof.
  intros Hn. unfold last_of. destruct (Nat.le_gt_cases (length l) n) as [H|H].
  - by replace (length l - n)%nat with 0%nat by lia.
  - rewrite !length_app, length_drop. cbn [length].
    replace (length l - (length l - n) + 1 - n)%nat with 1%nat by lia.
    rewrite (drop_app_le l [x] (length l + 1 - n)) by lia.
    destruct (drop (length l - n) l) as [|y r] eqn:E; [apply (f_equal length) in E; rewrite length_drop in E; cbn in E; lia|].
    cbn [drop app]. rewrite drop_0. f_equal. replace (length l + 1 - n)%nat with (length l - n + 1)%nat by lia.
    by rewrite <- drop_drop, E.
Qed.

(** Clock readings of the size they have: seconds below 2^52. *)
Definition reading_ok (r : float * EAClockSample.t) : Prop :=
  fin (fst r) /\ 0 <= fv (fst r) < 2 ^ 52 * unit_pow 0 /\ EAClockSample.server_time (snd r) < 2 ^ 52.

Lemma skew_fin now n : fin now -> 0 <= fv now -> 0 <= n < 2 ^ 53 -> fin (fsub now (of_Z n)).
Proof.
  intros Fn Hn Hs. destruct (of_Z_exact n Hs) as [Fs Es]. pose proof (fsub_rounds now (of_Z n) Fn Fs) as R.
  assert (0 <= fv (of_Z n)) by (rewrite Es; apply Z.mul_nonneg_nonneg; [lia|done]).
  apply (rounds_fin _ _ _ (fneg (of_Z n)) now R); [by apply fneg_fin|done|rewrite fv_fneg; lia|lia].
Qed.

Lemma feed_window l : forall m seen,
  Forall reading_ok l -> 3 <= maxlen m -> _window m = last_of (Z.to_nat (maxlen m)) seen ->
  exists m', feed m l = Ok m' /\ maxlen m' = maxlen m /\ _max_skew m' = _max_skew m /\
    _window m' = last_of (Z.to_nat (maxlen m)) (seen ++ skews l).
Proof.
  induction l as [|[now s] l IH]; intros m seen Hl Hm Hw.
  { exists m. cbn. by rewrite app_nil_r. }
  apply Forall_cons in Hl as [(Fn & Hn & Hs) Hl]. cbn [fst snd] in *. cbn [feed]. unfold sample, skews. cbn [omap list_omap].
  fold (skews l). destruct (Z.leb_spec (EAClockSample.server_time s) 0) as [Hz|Hz]; cbn [mbind res_bind].
  { by apply IH. }
  rewrite LimiterFacts.float_of_int_small by lia. cbn [mbind res_bind].
  destruct (IH (append m (fsub now (of_Z (EAClockSample.server_time s)))) (seen ++ [fsub now (of_Z (EAClockSample.server_time s))]))
    as (m' & E & Em & Ex & Ew); [done|done| |].
  { cbn [append _window maxlen]. rewrite Hw. apply last_of_snoc. lia. }
  exists m'. split; [exact E|]. split; [done|]. split; [done|]. rewrite Ew. cbn [append maxlen]. by rewrite <- app_assoc.
Qed.

(** C25: a minority of bad samples does not move the skew.  Feeding a fresh monitor any
    sequence of samples, with clocks below 2^52 seconds, succeeds and leaves in the
    window exactly the differences of the last [window_size] samples that carry a
    server time; whenever more than half of those lie between [lo] and [hi], so does
    the reported skew, whatever the others are, and then the connection is not degraded if the bounds are
    within the tolerance. *)
Theorem skew_robust provider account_id window_size max_skew m l lo hi :
  create provider account_id window_size max_skew = Ok m -> num max_skew -> Forall reading_ok l ->
  moderate lo -> moderate hi ->
  exists m', feed m l = Ok m' /\ _window m' = last_of (Z.to_nat window_size) (skews l) /\
    (Z.of_nat (length (_window m')) <= window_size) /\
    ((length (_window m') < 2 * count (within lo hi) (_window m'))%nat ->
       fv lo <= fv (skew_seconds m') <= fv hi /\
       (- fv max_skew <= fv lo -> fv hi <= fv max_skew -> is_degraded m' = false /\ assert_within_tolerance m' = Ok tt)).
Proof.
  unfold create. destruct (Z.ltb_spec window_size 3) as [|H3]; [done|]. destruct (fle max_skew fzero); [done|]. intros [= <-] Nm Hl Hlo Hhi.
  destruct (feed_window l (mk provider (if str_empty account_id then "unknown" else account_id) window_size [] max_skew) [])
    as (m' & E & Em & Ex & Ew); [done|done|done|]. cbn [maxlen _max_skew app] in *.
  exists m'. split; [exact E|]. split; [exact Ew|]. split.
  { rewrite Ew. unfold last_of. rewrite length_drop. lia. }
  intros Hc. assert (Hfin : Forall fin (_window m')).
  { rewrite Ew. apply Forall_drop. unfold skews. apply List.Forall_forall. intros x Hx. apply omap_In in Hx as ([now s] & Hin & Es).
    rewrite List.Forall_forall in Hl. destruct (Hl _ Hin) as (Fn & Hn & Hs). cbn [fst snd] in *.
    destruct (Z.leb_spec (EAClockSample.server_time s) 0); [done|]. injection Es as <-. apply skew_fin; [done|lia|lia]. }
  assert (num (skew_seconds m') /\ fv lo <= fv (skew_seconds m') <= fv hi) as [Nsk Hmed].
  { unfold skew_seconds. destruct (_window m') as [|x w] eqn:Ewin; [cbn in Hc; lia|]. by apply median_robust. }
  split; [exact Hmed|]. intros H1 H2.
  assert (Hd : flt (_max_skew m') (fabs (skew_seconds m')) = false).
  { rewrite Ex. rewrite flt_fv, fv_fabs by (done || by apply fabs_num). apply Z.ltb_ge. lia. }
  unfold is_degraded, assert_within_tolerance. by rewrite Hd.
Qed.

(** Two samples a tenth of a second off, and one that is minutes off. *)
Definition at_time (now : float) (server : Z) : float * EAClockSample.t := (now, EAClockSample.mk server server server).
Definition sample_readings : list (float * EAClockSample.t) :=
  [at_time (lit 17000000001 1) 1700000000; at_time (lit 17000006000 1) 1700000001; at_time (lit 17000000031 1) 1700000003].

Lemma skew_robust_witness :
  exists m m', create "mt5" "" 16 (lit 100 1) = Ok m /\ feed m sample_readings = Ok m' /\
    fv fzero <= fv (skew_seconds m') <= fv (lit 5 1) /\ is_degraded m' = false.
Proof.
  destruct (create "mt5" "" 16 (lit 100 1)) as [m|e] eqn:Ec; [|vm_compute in Ec; discriminate Ec].
  destruct (skew_robust "mt5" "" 16 (lit 100 1) m sample_readings fzero (lit 5 1) Ec) as (m' & E & Ew & _ & Hr).
  - vm_compute. split; reflexivity.
  - repeat constructor; vm_compute; congruence.
  - vm_compute. repeat split.
  - vm_compute. repeat split.
  - exists m, m'. split; [reflexivity|]. split; [exact E|]. rewrite Ew in Hr.
    destruct Hr as [Hb Hd]; [vm_compute; repeat constructor|]. split; [exact Hb|].
    destruct Hd as [Hdeg _]; [vm_compute; congruence|vm_compute; congruence|exact Hdeg].
Defined.

(** The freshness guard reads the engine's clock and not the compensated one: with a
    broker a minute behind, a tick of this very second is refused, which the
    compensated clock would have accepted. *)
Example guard_ignores_skew :
  exists m, create "mt5" "" 16 (lit 100 1) = Ok m /\
    exists m', feed m [at_time (of_Z 1700000060) 1700000000] = Ok m' /\
      let g := TickFreshnessGuard.mk (lit 300 1) "mt5" "acc" in
      TickFreshnessGuard.assert_fresh g (TickFreshnessGuard.Int 1700000000) (of_Z 1700000060) =
        Raise (ProviderStalePriceError "stale_by_age") /\
      TickFreshnessGuard.assert_fresh g (TickFreshnessGuard.Int 1700000000) (now_compensated m' (of_Z 1700000060)) = Ok tt.
Proof. eexists. split; [reflexivity|]. eexists. split; [reflexivity|]. split; vm_compute; reflexivity. Qed.
End SkewFacts.
