(* ===== verification/SymbolResolver.v ===== *)
(** * Names of instruments at a broker: [engine/ta/broker/connectivity/symbol_resolver.py]

    A logical symbol is looked up in Redis, then in the table of the broker's
    symbols, then among the names the broker lists, with the usual suffixes.  The
    three services are an interface over the world; whatever they raise is caught,
    and the next layer is asked.  Counters and log lines are not modelled. *)

From Stdlib Require Import ZArith Lia Bool String.
From stdpp Require Import base list strings.
From S2P Require Import Prelude Loops PyFloat PyText PyRepr PyValues PyIO.

#[local] Open Scope string_scope.
#[local] Open Scope Z_scope.
#[local] Open Scope list_scope.

(** The services: the Redis client, the session of a unit of work with the
    repository of broker symbols, and the broker's [get_all_symbol_names]. *)
Class SymbolServices (W : Type) := {
  redis_get : string -> io W (option string);
  redis_set : string -> string -> Z -> io W unit;
  uow_enter : io W unit;
  uow_exit : bool -> io W unit;
  repo_get_by_name : string -> string -> string -> io W (option string);
  repo_get_all_by_account : string -> string -> io W (list string);
  repo_upsert : string -> string -> string -> io W unit;
  fetch_all_names : io W (list string) }.

Section WithUow.
Context {W : Type} `{SymbolServices W}.

(** [async with self.uow_factory() as uow: body]: the exit commits or rolls back, and
    what it raises replaces the outcome of the body. *)
Definition with_uow {A} (body : io W A) : io W A := fun w =>
  match uow_enter w with
  | (Raise e, w) => (Raise e, w)
  | (Ok _, w) =>
      let '(r, w) := body w in
      match uow_exit (match r with Ok _ => true | Raise _ => false end) w with
      | (Raise e, w) => (Raise e, w)
      | (Ok _, w) => (r, w)
      end
  end.
End WithUow.

Definition _SUFFIX_PROBES : list string := [""; "m"; ".r"; "_"; ".a"; ".PRO"; "-"; ".pro"; "+"].

Module SymbolResolver.

Record t := mk { provider : string; account_id : string; cache_ttl_secs : Z }.

Definition REDIS_KEY_PREFIX : string := "etradie:symbol:resolve:".

Section Resolver.
Context {W : Type} `{SymbolServices W} (self : t).

Definition _redis_key (logical : string) : string :=
  (REDIS_KEY_PREFIX ++ provider self ++ ":" ++ account_id self ++ ":" ++ logical)%string.

Definition _cache (logical broker_name : string) : io W unit :=
  attempt (redis_set (_redis_key logical) broker_name (cache_ttl_secs self)) (fun _ => mret tt).

Definition _persist_db (broker_name : string) : io W unit :=
  attempt (with_uow (repo_upsert (provider self) (account_id self) broker_name)) (fun _ => mret tt).

(** The row is the logical name with one of the suffixes, the empty one aside. *)
Definition is_variant (logical row : string) : bool :=
  existsb (fun suf => negb (str_empty suf) && String.eqb row (logical ++ suf)%string) _SUFFIX_PROBES.

(** The first layer; [None] goes on to the next. *)
Definition from_redis (logical : string) : io W (option string) :=
  attempt (redis_get (_redis_key logical)) (fun _ => mret None).

Definition from_db (logical : string) : io W (option string) :=
  attempt
    (with_uow
       (exact ← repo_get_by_name (provider self) (account_id self) logical;
        match exact with
        | Some name => _ ← _cache logical name; mret (Some name)
        | None =>
            rows ← repo_get_all_by_account (provider self) (account_id self);
            match List.find (is_variant logical) rows with
            | Some row => _ ← _cache logical row; mret (Some row)
            | None => mret None
            end
        end))
    (fun _ => mret None).

Definition from_broker (logical : string) : io W string :=
  names ← attempt fetch_all_names (fun _ => mret []);
  match List.find (fun suf => str_in (logical ++ suf)%string names) _SUFFIX_PROBES with
  | Some suf =>
      let candidate := (logical ++ suf)%string in
      _ ← _cache logical candidate;
      _ ← _persist_db candidate;
      mret candidate
  | None => lift (Raise (ProviderResponseError ("Symbol '" ++ logical ++ "' is not available on this broker")))
  end.

Definition resolve (logical_symbol : string) : io W string :=
  let logical := str_strip logical_symbol in
  if str_empty logical then lift (Raise (ProviderResponseError "Empty symbol passed to SymbolResolver"))
  else
    cached ← from_redis logical;
    match cached with
    | Some name => mret name
    | None =>
        known ← from_db logical;
        match known with
        | Some name => mret name
        | None => from_broker logical
        end
    end.
End Resolver.
End SymbolResolver.

(** ** Correctness *)

(** What the services promise: [entries] is what Redis holds; a write that fails may or may not have happened; a read that
    returns, returns what is there. *)
Class SymbolLaws (W : Type) `{SymbolServices W} := {
  entries : W -> string -> option string;
  redis_get_law : forall k w, let '(r, w') := redis_get k w in
    (forall k', entries w' k' = entries w k') /\ match r with Ok v => v = entries w k | Raise _ => True end;
  redis_set_law : forall k v ttl w, let '(_, w') := redis_set k v ttl w in
    forall k', entries w' k' = entries w k' \/ (k' = k /\ entries w' k' = Some v);
  uow_law : forall b w, (forall k, entries (snd (uow_enter w)) k = entries w k) /\ (forall k, entries (snd (uow_exit b w)) k = entries w k);
  by_name_law : forall p a n w, let '(r, w') := repo_get_by_name p a n w in
    (forall k, entries w' k = entries w k) /\ match r with Ok (Some n') => n' = n | _ => True end;
  all_law : forall p a w, let '(_, w') := repo_get_all_by_account p a w in forall k, entries w' k = entries w k;
  upsert_law : forall p a n w, let '(_, w') := repo_upsert p a n w in forall k, entries w' k = entries w k;
  fetch_law : forall w k, entries (snd (fetch_all_names w)) k = entries w k }.

Module ResolverFacts.
Import SymbolResolver.
Section Facts.
Context {W : Type} `{SymbolLaws W} (self : t).

(** A name of the logical symbol at the broker. *)
Definition variant (logical name : string) : Prop := exists suf, In suf _SUFFIX_PROBES /\ name = (logical ++ suf)%string.

(** Redis maps logical symbols of this connection to their own variants. *)
Definition coherent (w : W) : Prop := forall logical name, entries w (_redis_key self logical) = Some name -> variant logical name.

Lemma redis_key_inj a b : _redis_key self a = _redis_key self b -> a = b.
Proof. unfold _redis_key. intros E. by do 5 apply str_app_cancel in E. Qed.

Lemma coherent_same w w' : (forall k, entries w' k = entries w k) -> coherent w -> coherent w'.
Proof. intros E Hc l n. rewrite E. apply Hc. Qed.

Lemma is_variant_variant logical row : is_variant logical row = true -> variant logical row.
Proof.
  unfold is_variant. rewrite existsb_exists. intros (suf & Hin & Hs). apply andb_true_iff in Hs as [_ Hs].
  apply String.eqb_eq in Hs. by exists suf.
Qed.

(** *** Coherence, on every path *)

Definition keeps {A} (m : io W A) (Q : A -> Prop) : Prop := forall w, coherent w ->
  let '(r, w') := m w in coherent w' /\ match r with Ok a => Q a | Raise _ => True end.

Lemma keeps_ret {A} (a : A) (Q : A -> Prop) : Q a -> keeps (mret a) Q.
Proof. by intros HQ w Hw. Qed.

Lemma keeps_raise {A} e (Q : A -> Prop) : keeps (lift (Raise e)) Q.
Proof. by intros w Hw. Qed.

Lemma keeps_bind {A B} (m : io W A) (f : A -> io W B) Q R :
  keeps m Q -> (forall a, Q a -> keeps (f a) R) -> keeps (m ≫= f) R.
Proof.
  intros Hm Hf w Hw. unfold mbind, io_bind. specialize (Hm w Hw). destruct (m w) as [[a|e] w1]; destruct Hm as [Hw1 Ha]; [|by split].
  by apply Hf.
Qed.

Lemma keeps_attempt {A} (m : io W A) h Q : keeps m Q -> (forall e, keeps (h e) Q) -> keeps (attempt m h) Q.
Proof.
  intros Hm Hh w Hw. unfold attempt. specialize (Hm w Hw). destruct (m w) as [[a|e] w1]; destruct Hm as [Hw1 Ha]; [by split|].
  by apply Hh.
Qed.

Lemma keeps_uow {A} (body : io W A) Q : keeps body Q -> keeps (with_uow body) Q.
Proof.
  intros Hb w Hw. unfold with_uow. pose proof (proj1 (uow_law true w)) as He. destruct (uow_enter w) as [[u|e] w1]; cbn [snd] in He.
  2:{ split; [by apply (coherent_same w)|done]. }
  specialize (Hb w1 (coherent_same w w1 He Hw)). destruct (body w1) as [r w2]. destruct Hb as [Hw2 Hr].
  set (b := match r with Ok _ => true | Raise _ => false end). pose proof (proj2 (uow_law b w2)) as Hx.
  destruct (uow_exit b w2) as [[u'|e] w3]; cbn [snd] in Hx; (split; [by apply (coherent_same w2)|done]).
Qed.

(** An operation that leaves Redis alone. *)
Lemma keeps_same {A} (m : io W A) (Q : A -> Prop) :
  (forall w, (forall k, entries (snd (m w)) k = entries w k) /\ match fst (m w) with Ok a => Q a | Raise _ => True end) -> keeps m Q.
Proof.
  intros Hm w Hw. specialize (Hm w). destruct (m w) as [r w1]. cbn [fst snd] in Hm. destruct Hm as [He Hr].
  split; [by apply (coherent_same w)|done].
Qed.

Lemma keeps_cache logical name : variant logical name -> keeps (_cache self logical name) (fun _ => True).
Proof.
  intros Hv. apply keeps_attempt; [|intros e; by apply keeps_ret]. intros w Hw.
  pose proof (redis_set_law (_redis_key self logical) name (cache_ttl_secs self) w) as Hs.
  destruct (redis_set _ _ _ w) as [r w1]. split; [|by destruct r]. intros l n Hl.
  destruct (Hs (_redis_key self l)) as [E|[Ek E]]; [rewrite E in Hl; by apply Hw|].
  apply redis_key_inj in Ek as ->. rewrite E in Hl. by injection Hl as <-.
Qed.

Lemma keeps_persist name : keeps (_persist_db self name) (fun _ => True).
Proof.
  apply keeps_attempt; [|intros e; by apply keeps_ret]. apply keeps_uow, keeps_same. intros w.
  pose proof (upsert_law (provider self) (account_id self) name w) as Hu. destruct (repo_upsert _ _ _ w) as [[]]; by split.
Qed.

Definition opt_variant (logical : string) (o : option string) : Prop := match o with Some n => variant logical n | None => True end.

Lemma keeps_db logical : keeps (from_db self logical) (opt_variant logical).
Proof.
  apply keeps_attempt; [|intros e; by apply keeps_ret]. apply keeps_uow.
  apply (keeps_bind _ _ (fun o => match o with Some n => n = logical | None => True end)).
  { apply keeps_same. intros w. pose proof (by_name_law (provider self) (account_id self) logical w) as Hb.
    destruct (repo_get_by_name _ _ _ w) as [[[n|]|e] w1]; exact Hb. }
  intros [name|] Hn.
  - subst name. assert (Hv : variant logical logical) by (exists ""; split; [by left|by rewrite ReprFacts.str_app_nil]).
    eapply keeps_bind; [by apply keeps_cache|]. intros _ _. by apply keeps_ret.
  - apply (keeps_bind _ _ (fun _ => True)).
    { apply keeps_same. intros w. pose proof (all_law (provider self) (account_id self) w) as Ha.
      destruct (repo_get_all_by_account _ _ w) as [[]]; by split. }
    intros rows _. destruct (List.find _ rows) as [row|] eqn:Ef; [|by apply keeps_ret].
    apply find_some in Ef as [_ Hv%is_variant_variant]. eapply keeps_bind; [by apply keeps_cache|]. intros _ _. by apply keeps_ret.
Qed.

Lemma keeps_broker logical : keeps (from_broker self logical) (variant logical).
Proof.
  apply (keeps_bind _ _ (fun _ => True)).
  { apply keeps_attempt; [|intros e; by apply keeps_ret]. apply keeps_same. intros w. pose proof (fetch_law w) as Hf.
    destruct (fetch_all_names w) as [r w1]. split; [exact Hf|by destruct r]. }
  intros names _. destruct (List.find _ _SUFFIX_PROBES) as [suf|] eqn:Ef; [|apply keeps_raise].
  apply find_some in Ef as [Hin _]. assert (Hv : variant logical (logical ++ suf)%string) by (by exists suf).
  eapply keeps_bind; [by apply keeps_cache|]. intros _ _. eapply keeps_bind; [apply keeps_persist|]. intros _ _. by apply keeps_ret.
Qed.

Lemma keeps_resolve symbol : keeps (resolve self symbol) (variant (str_strip symbol)).
Proof.
  unfold resolve. cbv zeta. destruct (str_empty (str_strip symbol)); [apply keeps_raise|].
  apply (keeps_bind _ _ (opt_variant (str_strip symbol))).
  { apply keeps_attempt; [|intros e; by apply keeps_ret]. intros w Hw.
    pose proof (redis_get_law (_redis_key self (str_strip symbol)) w) as Hg.
    destruct (redis_get _ w) as [[v|e] w1]; destruct Hg as [He Hv]; (split; [by apply (coherent_same w)|]); [|done].
    subst v. destruct (entries w _) as [n|] eqn:En; [by apply Hw|done]. }
  intros [n|] Hn; [by apply keeps_ret|]. apply (keeps_bind _ _ (opt_variant (str_strip symbol))); [apply keeps_db|].
  intros [n|] Hn'; [by apply keeps_ret|apply keeps_broker].
Qed.

(** *** Outages *)

Lemma attempt_returns {A} (m : io W A) a w : exists b w', attempt m (fun _ => mret a) w = (Ok b, w').
Proof. unfold attempt. destruct (m w) as [[b|e] w']; by eexists _, _. Qed.

Lemma from_broker_run logical names w :
  (forall w, exists w', fetch_all_names w = (Ok names, w')) ->
  match List.find (fun suf => str_in (logical ++ suf)%string names) _SUFFIX_PROBES with
  | Some suf => exists w', from_broker self logical w = (Ok (logical ++ suf)%string, w')
  | None => exists w', from_broker self logical w =
      (Raise (ProviderResponseError ("Symbol '" ++ logical ++ "' is not available on this broker")), w')
  end.
Proof.
  intros Hf. destruct (Hf w) as (w1 & E).
  assert (E1 : attempt fetch_all_names (fun _ => mret []) w = (Ok names, w1)) by (unfold attempt; by rewrite E).
  unfold from_broker, mbind, io_bind. rewrite E1.
  destruct (List.find _ _) as [suf|]; [|exists w1; reflexivity]. cbv zeta.
  destruct (attempt_returns (redis_set (_redis_key self logical) (logical ++ suf)%string (cache_ttl_secs self)) tt w1) as (u & w2 & E2).
  unfold _cache. rewrite E2.
  destruct (attempt_returns (with_uow (repo_upsert (provider self) (account_id self) (logical ++ suf)%string)) tt w2) as (u' & w3 & E3).
  unfold _persist_db. rewrite E3. by exists w3.
Qed.

(** C36: a symbol resolves to one of its own names, and does so while the broker answers.
    From a coherent cache, whatever fails on the way, the cache stays coherent and
    the name returned is the logical symbol with one of the probed suffixes.  If
    the broker's list holds such a name the call returns, even with Redis and the
    database out of order; an exception is always [ProviderResponseError]. *)
Theorem resolve_sound symbol names w :
  coherent w -> str_empty (str_strip symbol) = false -> (forall w, exists w', fetch_all_names w = (Ok names, w')) ->
  let '(r, w') := resolve self symbol w in
  coherent w' /\
  match r with
  | Ok name => variant (str_strip symbol) name
  | Raise e => (exists msg, e = ProviderResponseError msg) /\
      forall suf, In suf _SUFFIX_PROBES -> ~ In (str_strip symbol ++ suf)%string names
  end.
Proof.
  intros Hw He Hf. pose proof (keeps_resolve symbol w Hw) as Hk.
  destruct (resolve self symbol w) as [[n|e] w'] eqn:Er; [done|]. split; [by destruct Hk|]. clear Hk.
  unfold resolve, mbind, io_bind in Er. cbv zeta in Er. rewrite He in Er. unfold from_redis, from_db in Er.
  destruct (attempt_returns (redis_get (_redis_key self (str_strip symbol))) None w) as (o1 & w1 & E1). rewrite E1 in Er.
  destruct o1 as [n|]; [done|].
  match type of Er with context [attempt ?m (fun _ => mret None) w1] => destruct (attempt_returns m None w1) as (o2 & w2 & E2) end.
  rewrite E2 in Er. destruct o2 as [n|]; [done|].
  pose proof (from_broker_run (str_strip symbol) names w2 Hf) as Hb.
  destruct (List.find _ _) as [suf|] eqn:Ef; destruct Hb as (w3 & E3); rewrite E3 in Er; [done|].
  injection Er as <- <-. split; [by eexists|]. intros suf Hin Hn.
  apply (find_none _ _ Ef) in Hin. cbv beta in Hin. apply not_true_iff_false in Hin. apply Hin.
  unfold str_in. apply existsb_exists. eexists. split; [exact Hn|apply String.eqb_refl].
Qed.
End Facts.

(** *** Small services *)

(** Redis as a list of pairs, rows and names that stay as they are; Redis and the
    database are up or down. *)
Definition world : Type := list (string * string).

Definition down {A} : io world A := lift (Raise RedisConnectionError).

Definition small (up : bool) (rows names : list string) : SymbolServices world := {|
  redis_get k := if up then fun w => (Ok (snd <$> List.find (fun e => String.eqb (fst e) k) w), w) else down;
  redis_set k v _ := if up then fun w => (Ok tt, (k, v) :: w) else down;
  uow_enter := if up then mret tt else down;
  uow_exit _ := if up then mret tt else down;
  repo_get_by_name _ _ n := mret (if str_in n rows then Some n else None);
  repo_get_all_by_account _ _ := mret rows;
  repo_upsert _ _ _ := mret tt;
  fetch_all_names := mret names |}.

Definition small_laws up rows names : @SymbolLaws world (small up rows names).
Proof.
  refine {| entries := fun w k => snd <$> List.find (fun e => String.eqb (fst e) k) w |}.
  - intros k w. by destruct up.
  - intros k v ttl w. destruct up; cbn; intros k'; [|by left]. destruct (String.eqb_spec k k') as [->|]; [by right|by left].
  - intros b w. by destruct up.
  - intros p a n w. cbn. split; [done|]. by destruct (str_in n rows).
  - done.
  - done.
  - done.
Defined.

Definition sample_resolver : t := mk "mt5" "acc" 3600.

Lemma resolve_sound_witness :
  exists w', @resolve world (small false [] ["GBPUSDm"; "EURUSDm"]) sample_resolver " EURUSD " [] = (Ok "EURUSDm", w') /\
    variant "EURUSD" "EURUSDm".
Proof.
  pose proof (@resolve_sound world (small false [] ["GBPUSDm"; "EURUSDm"]) (small_laws _ _ _) sample_resolver " EURUSD "
    ["GBPUSDm"; "EURUSDm"] []) as T.
  destruct (@resolve world (small false [] ["GBPUSDm"; "EURUSDm"]) sample_resolver " EURUSD " []) as [r w'] eqn:E.
  destruct T as [_ T].
  - intros l n Hn. discriminate Hn.
  - reflexivity.
  - intros w. exists w. reflexivity.
  - exists w'. vm_compute in E. injection E as <- <-. split; [reflexivity|exact T].
Defined.

(** The table is searched row by row, the broker's list suffix by suffix: with two
    variants the answers differ. *)
Example layers_disagree :
  fst (@resolve world (small true ["EURUSD.r"; "EURUSDm"] []) sample_resolver "EURUSD" []) = Ok "EURUSD.r" /\
  fst (@resolve world (small true [] ["EURUSD.r"; "EURUSDm"]) sample_resolver "EURUSD" []) = Ok "EURUSDm".
Proof. vm_compute. split; reflexivity. Qed.
End ResolverFacts.
