(* ===== verification/ClientPool.v ===== *)
(** * ClientPool: [engine/ta/broker/mt5/client_pool.py]

    The process-wide cache of broker clients.  [BrokerClientPool] holds the
    operations on the cache itself, each a section of the code that runs
    without awaiting.  [System] composes them the way the coroutines do: a
    state with the cache, the per-key locks and the point every coroutine has
    reached, and one step per section between two awaits (an await that may
    complete without suspending counts as one), so that every interleaving the
    event loop can produce is a sequence of steps.  The
    factory is a parameter of a step: it yields a new client or fails.  A
    coroutine that awaits the lock, the factory or a client's [close()] may be
    cancelled there; the one that runs [stop] is not.  Metrics and log lines are not modelled. *)

From Stdlib Require Import ZArith Lia Bool String.
From stdpp Require Import base list strings gmap.
From S2P Require Import Prelude PyFloat FloatRound.

#[local] Open Scope string_scope.
#[local] Open Scope Z_scope.

Abbreviation client := nat.
Abbreviation key := (string * string)%type.

Module BrokerClientPool.

Record PoolEntry := mk_entry {
  entry_client : client; created_at : float; last_used : float;
  provider : string; account_id : string }.

Record t := mk {
  idle_timeout : float; sweep_interval : float;
  entries : gmap key PoolEntry; closing : bool }.

Definition create (idle_timeout_secs sweep_interval_secs : float) : res t :=
  if fle idle_timeout_secs fzero then Raise (ValueError "idle_timeout_secs must be > 0")
  else if fle sweep_interval_secs fzero then Raise (ValueError "sweep_interval_secs must be > 0")
  else Ok (mk idle_timeout_secs sweep_interval_secs ∅ false).

Definition set_entries (p : t) (m : gmap key PoolEntry) : t :=
  mk (idle_timeout p) (sweep_interval p) m (closing p).

(** [(provider, account_id or "unknown")]. *)
Definition pool_key (provider account_id : string) : key :=
  (provider, if String.eqb account_id "" then "unknown" else account_id).

(** The lookup of [get], before and after the lock: a hit refreshes
    [last_used]. *)
Definition lookup_touch (p : t) (k : key) (now : float) : option client * t :=
  match entries p !! k with
  | Some e => (Some (entry_client e),
               set_entries p (<[k := mk_entry (entry_client e) (created_at e) now (provider e) (account_id e)]>
                 (entries p)))
  | None => (None, p)
  end.

(** The first section of [get]: refused when closing, else the fast path. *)
Definition get_begin (p : t) (k : key) (now : float) : res (option client * t) :=
  if closing p then Raise (RuntimeError "BrokerClientPool is closed") else Ok (lookup_touch p k now).

(** The section of [get] after the factory returned. *)
Definition get_insert (p : t) (k : key) (c : client) (now : float) : t :=
  set_entries p (<[k := mk_entry c now now (fst k) (snd k)]> (entries p)).

(** [self._entries.pop(key, None)], the first section of [evict]. *)
Definition evict_pop (p : t) (k : key) : option client * t :=
  match entries p !! k with
  | Some e => (Some (entry_client e), set_entries p (delete k (entries p)))
  | None => (None, p)
  end.

Definition is_idle (p : t) (now : float) (e : PoolEntry) : bool :=
  flt (idle_timeout p) (fsub now (last_used e)).

(** The first section of [_sweep_once]: the keys to evict. *)
Definition sweep_scan (p : t) (now : float) : list key :=
  (filter (fun x : key * PoolEntry => is_idle p now (snd x) = true) (map_to_list (entries p))).*1.

(** [_sweep_once] when no other coroutine runs while it closes clients: the
    number of keys it evicted and the pool it leaves. *)
Definition _sweep_once (p : t) (now : float) : Z * t :=
  let to_evict := sweep_scan p now in
  (py_len to_evict, foldl (fun p k => snd (evict_pop p k)) p to_evict).

(** The sections of [stop]. *)
Definition stop_begin (p : t) : t := mk (idle_timeout p) (sweep_interval p) (entries p) true.
Definition stop_clear (p : t) : list client * t :=
  (map (fun x => entry_client (snd x)) (map_to_list (entries p)), set_entries p ∅).

Definition size (p : t) : Z := Z.of_nat (base.size (entries p)).

End BrokerClientPool.

(** ** The coroutines *)

Module System.
Import BrokerClientPool.

Abbreviation task := nat.

(** Where a coroutine is suspended, or how it ended. *)
Inductive point :=
| AwaitLock (k : key)                      (* get: waiting for the key's lock *)
| Building (k : key)                       (* get: awaiting the factory, lock held *)
| Returned (c : client)                    (* get returned a client *)
| Refused                                  (* get raised: pool closed, or factory failed *)
| Closing (rest : list key)                (* evict awaiting a client's close(), then evicting [rest] *)
| Evicting (rest : list key)               (* evict/_sweep_once between two keys *)
| StopWait                                 (* stop: awaiting the cancelled sweeper *)
| StopClosing (cs : list client)           (* stop: closing the snapshot *)
| Finished.

(** [closed] holds the clients on which [close()] was called. *)
Record t := mk_sys {
  pool : BrokerClientPool.t;
  locks : gmap key task;
  points : gmap task point;
  next_client : client;
  closed : gset client }.

Definition set_point (s : t) (i : task) (x : point) : t :=
  mk_sys (pool s) (locks s) (<[i := x]> (points s)) (next_client s) (closed s).
Definition set_pool (s : t) (p : BrokerClientPool.t) : t :=
  mk_sys p (locks s) (points s) (next_client s) (closed s).
Definition set_locks (s : t) (l : gmap key task) : t :=
  mk_sys (pool s) l (points s) (next_client s) (closed s).
Definition close_client (s : t) (c : client) : t :=
  mk_sys (pool s) (locks s) (points s) (next_client s) ({[c]} ∪ closed s).

Inductive step : t -> t -> Prop :=
(* get: first section *)
| step_get_refused s i k now e :
    points s !! i = None -> get_begin (pool s) k now = Raise e ->
    step s (set_point s i Refused)
| step_get_hit s i k now c p :
    points s !! i = None -> get_begin (pool s) k now = Ok (Some c, p) ->
    step s (set_point (set_pool s p) i (Returned c))
| step_get_miss s i k now p :
    points s !! i = None -> get_begin (pool s) k now = Ok (None, p) ->
    step s (set_point (set_pool s p) i (AwaitLock k))
(* get: the lock is free; look again, under the lock *)
| step_lock_hit s i k now c p :
    points s !! i = Some (AwaitLock k) -> locks s !! k = None ->
    lookup_touch (pool s) k now = (Some c, p) ->
    step s (set_point (set_pool s p) i (Returned c))
| step_lock_build s i k now p :
    points s !! i = Some (AwaitLock k) -> locks s !! k = None ->
    lookup_touch (pool s) k now = (None, p) ->
    step s (set_point (set_locks (set_pool s p) (<[k := i]> (locks s))) i (Building k))
(* get: the factory returned a new client, or raised *)
| step_built s i k now :
    points s !! i = Some (Building k) ->
    step s (set_point (mk_sys (get_insert (pool s) k (next_client s) now) (delete k (locks s)) (points s)
                         (S (next_client s)) (closed s)) i (Returned (next_client s)))
| step_build_failed s i k :
    points s !! i = Some (Building k) ->
    step s (set_point (set_locks s (delete k (locks s))) i Refused)
| step_wait_cancelled s i k :
    points s !! i = Some (AwaitLock k) -> step s (set_point s i Refused)
(* evict(key) and _sweep_once: a list of keys to evict, one after the other *)
| step_evict s i k :
    points s !! i = None -> step s (set_point s i (Evicting [k]))
| step_sweep s i now :
    points s !! i = None -> step s (set_point s i (Evicting (sweep_scan (pool s) now)))
| step_evict_one s i k rest c p :
    points s !! i = Some (Evicting (k :: rest)) -> evict_pop (pool s) k = (Some c, p) ->
    step s (set_point (close_client (set_pool s p) c) i (Closing rest))
| step_evict_absent s i k rest p :
    points s !! i = Some (Evicting (k :: rest)) -> evict_pop (pool s) k = (None, p) ->
    step s (set_point (set_pool s p) i (Evicting rest))
| step_evict_closed s i rest :
    points s !! i = Some (Closing rest) -> step s (set_point s i (Evicting rest))
| step_evict_cancelled s i rest :
    points s !! i = Some (Closing rest) -> step s (set_point s i Finished)
| step_evict_end s i :
    points s !! i = Some (Evicting []) -> step s (set_point s i Finished)
(* stop *)
| step_stop s i :
    points s !! i = None -> step s (set_point (set_pool s (stop_begin (pool s))) i StopWait)
| step_stop_clear s i cs p :
    points s !! i = Some StopWait -> stop_clear (pool s) = (cs, p) ->
    step s (set_point (set_pool s p) i (StopClosing cs))
| step_stop_close s i c cs :
    points s !! i = Some (StopClosing (c :: cs)) ->
    step s (set_point (close_client s c) i (StopClosing cs))
| step_stop_end s i :
    points s !! i = Some (StopClosing []) -> step s (set_point s i Finished).

Inductive reachable (s0 : t) : t -> Prop :=
| reach_refl : reachable s0 s0
| reach_step s s' : reachable s0 s -> step s s' -> reachable s0 s'.

Definition initial (p : BrokerClientPool.t) : t := mk_sys p ∅ ∅ 0%nat ∅.

End System.

(** ** Safety of every interleaving *)

Module PoolFacts.
Import BrokerClientPool System.

(** The cache without its timestamps. *)
Definition clients (p : BrokerClientPool.t) : gmap key client := entry_client <$> entries p.

(** Clients [stop] has taken out of the cache and has yet to close. *)
Definition dying (x : point) : list client :=
  match x with StopClosing cs => cs | _ => [] end.

(** A coroutine builds for a key exactly while it holds its lock, and then the
    key is not cached; a client is cached under one key at most, and a client
    that is closed or about to be is not cached. *)
Record inv (s : t) : Prop := {
  inv_lock : forall k i, locks s !! k = Some i <-> points s !! i = Some (Building k);
  inv_build : forall k i, locks s !! k = Some i -> clients (pool s) !! k = None;
  inv_known : forall k c, clients (pool s) !! k = Some c -> (c < next_client s)%nat /\ c ∉ closed s;
  inv_distinct : forall k k' c, clients (pool s) !! k = Some c -> clients (pool s) !! k' = Some c -> k = k';
  inv_dying : forall i x c, points s !! i = Some x -> In c (dying x) ->
    (c < next_client s)%nat /\ forall k, clients (pool s) !! k <> Some c;
  inv_closed : forall c, c ∈ closed s -> (c < next_client s)%nat }.

Definition is_building (x : option point) : bool := match x with Some (Building _) => true | _ => false end.

Lemma inv_initial p : entries p = ∅ -> inv (initial p).
Proof.
  intros E. assert (Ec : clients (pool (initial p)) = ∅).
  { unfold clients, initial. simpl. rewrite E. apply fmap_empty. }
  constructor; rewrite ?Ec; simpl; intros; rewrite ?lookup_empty in *; try done; set_solver.
Qed.

(** Moving a coroutine between points that do not build. *)
Lemma inv_move s i x :
  inv s -> is_building (points s !! i) = false -> is_building (Some x) = false ->
  (forall c, In c (dying x) -> (c < next_client s)%nat /\ forall k, clients (pool s) !! k <> Some c) ->
  inv (set_point s i x).
Proof.
  intros [Hl Hb Hk Hd Hy Hc] Hi Hx Hdy. constructor; simpl; try done.
  - intros k j. rewrite Hl. destruct (decide (i = j)) as [->|Hne].
    + rewrite lookup_insert_eq. split; intros E; [rewrite E in Hi; done|].
      injection E as ->. done.
    + by rewrite lookup_insert_ne.
  - intros j y c Hj Hin. destruct (decide (i = j)) as [->|Hne].
    + rewrite lookup_insert_eq in Hj. injection Hj as <-. auto.
    + rewrite lookup_insert_ne in Hj by done. eauto.
Qed.

(** A change of the pool that keeps the cached clients. *)
Lemma inv_same_clients s p : inv s -> clients p = clients (pool s) -> inv (set_pool s p).
Proof. intros [] E. constructor; simpl; rewrite ?E; done. Qed.

Lemma clients_touch p k now c p' : lookup_touch p k now = (c, p') -> clients p' = clients p /\ clients p !! k = c.
Proof.
  unfold lookup_touch, clients. destruct (entries p !! k) as [e|] eqn:E; intros [= <- <-]; simpl.
  - split; [|by rewrite lookup_fmap, E]. rewrite fmap_insert. simpl. apply insert_id. by rewrite lookup_fmap, E.
  - by rewrite lookup_fmap, E.
Qed.

Lemma clients_begin p k now c p' :
  get_begin p k now = Ok (c, p') -> clients p' = clients p /\ clients p !! k = c.
Proof.
  unfold get_begin. destruct (closing p); [done|]. intros [= E]. by eapply clients_touch.
Qed.

Lemma clients_pop p k c p' :
  evict_pop p k = (c, p') -> clients p !! k = c /\
  clients p' = match c with Some _ => delete k (clients p) | None => clients p end.
Proof.
  unfold evict_pop, clients. destruct (entries p !! k) as [e|] eqn:E; intros [= <- <-]; simpl;
    rewrite lookup_fmap, E; [by rewrite fmap_delete|done].
Qed.

Lemma clients_clear p cs p' :
  stop_clear p = (cs, p') -> clients p' = ∅ /\ forall c, In c cs -> exists k, clients p !! k = Some c.
Proof.
  unfold stop_clear, clients. intros [= <- <-]. split; [apply fmap_empty|].
  intros c Hc. apply in_map_iff in Hc as ([k e] & <- & Hin). exists k.
  apply list_elem_of_In, elem_of_map_to_list in Hin. by rewrite lookup_fmap, Hin.
Qed.

(** Taking clients out of the cache. *)
Lemma inv_shrink s p :
  inv s -> clients p ⊆ clients (pool s) -> inv (set_pool s p).
Proof.
  intros [Hl Hb Hk Hd Hy Hc] Hsub.
  assert (Hin : forall k c, clients p !! k = Some c -> clients (pool s) !! k = Some c)
    by (intros; by eapply lookup_weaken).
  constructor; simpl; try done.
  - intros k i Hi. specialize (Hb k i Hi). destruct (clients p !! k) eqn:E; [|done].
    apply Hin in E. congruence.
  - eauto.
  - eauto.
  - intros i x c Hx Hi. destruct (Hy i x c Hx Hi) as [Hlt Hno]. split; [done|].
    intros k Hk'. by apply (Hno k), Hin.
Qed.

(** Closing a client that left the cache. *)
Lemma inv_close s c :
  inv s -> (c < next_client s)%nat -> (forall k, clients (pool s) !! k <> Some c) ->
  inv (close_client s c).
Proof.
  intros [Hl Hb Hk Hd Hy Hc] Hlt Hno. constructor; simpl; try done.
  - intros k d E. destruct (Hk k d E). split; [done|].
    apply not_elem_of_union. split; [|done]. intros Hx. apply elem_of_singleton in Hx as ->. by apply (Hno k).
  - intros d Hdd. apply elem_of_union in Hdd as [Hx|]; [|auto].
    by apply elem_of_singleton in Hx as ->.
Qed.

Lemma inv_lock_take s i k :
  inv s -> points s !! i = Some (AwaitLock k) -> locks s !! k = None -> clients (pool s) !! k = None ->
  inv (set_point (set_locks s (<[k := i]> (locks s))) i (Building k)).
Proof.
  intros [Hl Hb Hk Hd Hy Hc] Hi Hfree Hnone. constructor; simpl; try done.
  - intros k' j. destruct (decide (i = j)) as [<-|Hij], (decide (k = k')) as [<-|Hkk].
    + by rewrite !lookup_insert_eq.
    + rewrite lookup_insert_eq, lookup_insert_ne by done. rewrite Hl, Hi. split; congruence.
    + rewrite lookup_insert_eq, lookup_insert_ne by done. rewrite <- Hl, Hfree. split; congruence.
    + rewrite !lookup_insert_ne by done. apply Hl.
  - intros k' j Hj. destruct (decide (k = k')) as [<-|Hkk]; [done|].
    rewrite lookup_insert_ne in Hj by done. eauto.
  - intros j x c Hj Hin. destruct (decide (i = j)) as [<-|Hij].
    + rewrite lookup_insert_eq in Hj. injection Hj as <-. done.
    + rewrite lookup_insert_ne in Hj by done. eauto.
Qed.

(** Releasing the lock of a coroutine that stops building. *)
Lemma inv_lock_release s i k x :
  inv s -> points s !! i = Some (Building k) -> is_building (Some x) = false -> dying x = [] ->
  inv (set_point (set_locks s (delete k (locks s))) i x).
Proof.
  intros [Hl Hb Hk Hd Hy Hc] Hi Hx Hdx. constructor; simpl; try done.
  - intros k' j. destruct (decide (i = j)) as [<-|Hij], (decide (k = k')) as [<-|Hkk].
    + rewrite lookup_insert_eq, lookup_delete_eq. split; [done|]. intros [= ->]. done.
    + rewrite lookup_insert_eq, lookup_delete_ne by done. rewrite Hl, Hi. split; [congruence|].
      intros [= ->]. done.
    + rewrite lookup_delete_eq, lookup_insert_ne by done. rewrite <- Hl. split; [done|].
      intros Hj. apply Hl in Hi. congruence.
    + rewrite lookup_delete_ne, lookup_insert_ne by done. apply Hl.
  - intros k' j Hj. apply lookup_delete_Some in Hj as [_ Hj]. eauto.
  - intros j y c Hj Hin. destruct (decide (i = j)) as [<-|Hij].
    + rewrite lookup_insert_eq in Hj. injection Hj as <-. by rewrite Hdx in Hin.
    + rewrite lookup_insert_ne in Hj by done. eauto.
Qed.

(** Caching a new client under a key that is not cached. *)
Lemma inv_insert s k now :
  inv s -> locks s !! k = None -> clients (pool s) !! k = None ->
  inv (mk_sys (get_insert (pool s) k (next_client s) now) (locks s) (points s) (S (next_client s)) (closed s)).
Proof.
  intros [Hl Hb Hk Hd Hy Hc] Hfree Hnone.
  assert (Ec : clients (get_insert (pool s) k (next_client s) now) = <[k := next_client s]> (clients (pool s)))
    by (unfold clients, get_insert; simpl; by rewrite fmap_insert).
  assert (Hnew : forall k' c, clients (pool s) !! k' = Some c -> c <> next_client s)
    by (intros k' c E ->; destruct (Hk _ _ E); lia).
  constructor; simpl; rewrite ?Ec; try done.
  - intros k' i Hi. rewrite lookup_insert_ne by congruence. eauto.
  - intros k' c. rewrite lookup_insert_Some. intros [[<- <-]|[_ E]].
    + split; [lia|]. intros Hin. apply Hc in Hin. lia.
    + destruct (Hk _ _ E). split; [lia|done].
  - intros k1 k2 c. rewrite !lookup_insert_Some.
    intros [[<- <-]|[_ E1]] [[<- E]|[_ E2]]; [done| | |by eapply Hd].
    + by apply Hnew in E2.
    + by apply Hnew in E1.
  - intros i x c Hx Hin. destruct (Hy i x c Hx Hin) as [Hlt Hno]. split; [lia|].
    intros k'. rewrite lookup_insert_Some. intros [[_ E]|[_ E]]; [lia|by apply (Hno k')].
  - intros c Hin. apply Hc in Hin. lia.
Qed.

Ltac free_point := match goal with H : points _ !! _ = _ |- _ => simpl; rewrite H; reflexivity end.

Theorem pool_inv_step s s' : inv s -> step s s' -> inv s'.
Proof.
  intros Hinv Hs. destruct Hs as [s i k now e Hp _|s i k now c p Hp Hg|s i k now p Hp Hg|s i k now c p Hp Hl Ht
    |s i k now p Hp Hl Ht|s i k now Hp|s i k Hp|s i k Hp|s i k Hp|s i now Hp|s i k rest c p Hp He|s i k rest p Hp He
    |s i rest Hp|s i rest Hp|s i Hp|s i Hp|s i cs p Hp Hc|s i c cs Hp|s i Hp].
  - apply inv_move; [done|free_point|done|done].
  - apply clients_begin in Hg as [Ec _]. apply inv_move; [by apply inv_same_clients|free_point|done|done].
  - apply clients_begin in Hg as [Ec _]. apply inv_move; [by apply inv_same_clients|free_point|done|done].
  - apply clients_touch in Ht as [Ec _]. apply inv_move; [by apply inv_same_clients|free_point|done|done].
  - apply clients_touch in Ht as [Ec En].
    apply (inv_lock_take (set_pool s p)); [by apply inv_same_clients|done|done|by simpl; rewrite Ec].
  - pose proof (proj2 (inv_lock s Hinv k i) Hp) as Hlk.
    refine (inv_insert (set_point (set_locks s (delete k (locks s))) i (Returned (next_client s))) k now _ _ _).
    + by apply inv_lock_release.
    + exact (lookup_delete_eq (locks s) k).
    + cbn [pool set_point set_locks]. by eapply inv_build.
  - by apply inv_lock_release.
  - apply inv_move; [done|free_point|done|done].
  - apply inv_move; [done|free_point|done|done].
  - apply inv_move; [done|free_point|done|done].
  - apply clients_pop in He as [Ek Ec]. destruct (inv_known s Hinv k c Ek) as [Hlt _].
    apply inv_move; [|free_point|done|done].
    apply inv_close; [apply inv_shrink; [done|]; rewrite Ec; apply delete_subseteq|done|].
    simpl. intros k' Hk'. rewrite Ec in Hk'. apply lookup_delete_Some in Hk' as [Hne Hk']. by apply Hne, (inv_distinct s Hinv k k' c).
  - apply clients_pop in He as [Ek Ec]. apply inv_move; [by apply inv_same_clients|free_point|done|done].
  - apply inv_move; [done|free_point|done|done].
  - apply inv_move; [done|free_point|done|done].
  - apply inv_move; [done|free_point|done|done].
  - apply inv_move; [by apply inv_same_clients|free_point|done|done].
  - apply clients_clear in Hc as [Ec Hcs].
    apply inv_move; [apply inv_shrink; [done|]; rewrite Ec; apply map_empty_subseteq|free_point|done|].
    intros c Hin. simpl in *. destruct (Hcs c Hin) as [k Hk]. destruct (inv_known s Hinv k c Hk).
    split; [done|]. intros k'. by rewrite Ec, lookup_empty.
  - pose proof (inv_dying s Hinv i _ c Hp ltac:(by left)) as [Hlt Hno].
    apply inv_move; [by apply inv_close|free_point|done|].
    intros c' Hin. apply (inv_dying s Hinv i _ c' Hp). by right.
  - apply inv_move; [done|free_point|done|done].
Qed.

Lemma pool_inv_reachable p s : entries p = ∅ -> reachable (initial p) s -> inv s.
Proof. intros E. induction 1 as [|s s' _ IH Hs]; [by apply inv_initial|by eapply pool_inv_step]. Qed.

(** C1.  One client per key, under every interleaving.  From an empty pool,
    whatever the coroutines do: at most one of them is constructing a client
    for a key, no client is cached for a key that is under construction, a
    cached client is cached under one key only, and a client on which
    [close()] was called is never in the cache, so a hit never returns one. *)
Theorem pool_single_flight (p : BrokerClientPool.t) (s : t) :
  entries p = ∅ -> reachable (initial p) s ->
  (forall k i j, points s !! i = Some (Building k) -> points s !! j = Some (Building k) -> i = j) /\
  (forall k i, points s !! i = Some (Building k) -> entries (pool s) !! k = None) /\
  (forall k e, entries (pool s) !! k = Some e -> entry_client e ∉ closed s) /\
  (forall k k' e e', entries (pool s) !! k = Some e -> entries (pool s) !! k' = Some e' ->
     entry_client e = entry_client e' -> k = k').
Proof.
  intros E Hr. pose proof (pool_inv_reachable p s E Hr) as [Hl Hb Hk Hd _ _].
  assert (Hc : forall k e, entries (pool s) !! k = Some e -> clients (pool s) !! k = Some (entry_client e))
    by (intros k e He; unfold clients; by rewrite lookup_fmap, He).
  split; [|split; [|split]].
  - intros k i j Hi Hj. apply Hl in Hi, Hj. congruence.
  - intros k i Hi. apply Hl in Hi. specialize (Hb k i Hi). unfold clients in Hb.
    rewrite lookup_fmap in Hb. by destruct (entries (pool s) !! k).
  - intros k e He. by destruct (Hk k _ (Hc k e He)).
  - intros k k' e e' He He' Heq. apply (Hd k k' (entry_client e)); [auto|]. rewrite Heq. auto.
Qed.

(** Every client ever built is in the cache, or closed, or [stop] will close
    it. *)
Definition accounted (s : t) : Prop :=
  forall c, (c < next_client s)%nat ->
    (exists k, clients (pool s) !! k = Some c) \/
    (exists i x, points s !! i = Some x /\ In c (dying x)) \/ c ∈ closed s.

(** A coroutine moves, and what it was about to close is accounted for; the
    cache may lose clients if the coroutine takes them. *)
Lemma accounted_move s s' i x :
  accounted s -> points s' = <[i := x]> (points s) -> next_client s' = next_client s ->
  closed s ⊆ closed s' ->
  (forall y c, points s !! i = Some y -> In c (dying y) -> In c (dying x) \/ c ∈ closed s') ->
  (forall k c, clients (pool s) !! k = Some c -> clients (pool s') !! k = Some c \/ In c (dying x) \/ c ∈ closed s') ->
  accounted s'.
Proof.
  intros Ha Ep En Hsub Hy Hc c Hlt. rewrite En in Hlt.
  assert (Hin : In c (dying x) -> exists j z, points s' !! j = Some z /\ In c (dying z)).
  { intros Hx. exists i, x. by rewrite Ep, lookup_insert_eq. }
  destruct (Ha c Hlt) as [[k Hk]|[(j & z & Hj & Hz)|Hcl]]; [| |right; right; set_solver].
  - destruct (Hc k c Hk) as [|[|]]; [left; eauto|right; left; auto|by right; right].
  - destruct (decide (i = j)) as [<-|Hij].
    + destruct (Hy z c Hj Hz); [right; left; auto|by right; right].
    + right; left. exists j, z. by rewrite Ep, lookup_insert_ne.
Qed.

Lemma accounted_built s i k now :
  inv s -> accounted s -> points s !! i = Some (Building k) ->
  accounted (set_point (mk_sys (get_insert (pool s) k (next_client s) now) (delete k (locks s)) (points s)
                         (S (next_client s)) (closed s)) i (Returned (next_client s))).
Proof.
  intros Hinv Ha Hp c Hlt. simpl in Hlt.
  assert (Ec : clients (get_insert (pool s) k (next_client s) now) = <[k := next_client s]> (clients (pool s)))
    by (unfold clients, get_insert; simpl; by rewrite fmap_insert).
  assert (Hnone : clients (pool s) !! k = None) by (eapply inv_build, inv_lock; done).
  destruct (decide (c = next_client s)) as [->|Hne].
  - left. exists k. simpl. by rewrite Ec, lookup_insert_eq.
  - destruct (Ha c ltac:(lia)) as [[k' Hk']|[(j & z & Hj & Hz)|Hcl]]; [| |by right; right].
    + left. exists k'. simpl. rewrite Ec, lookup_insert_ne; [done|].
      intros <-. by rewrite Hnone in Hk'.
    + right; left. exists j, z. simpl. rewrite lookup_insert_ne; [done|]. intros <-.
      rewrite Hp in Hj. by injection Hj as <-.
Qed.

Lemma accounted_step s s' : inv s -> accounted s -> step s s' -> accounted s'.
Proof.
  intros Hinv Ha Hs. destruct Hs as [s i k now e Hp _|s i k now c p Hp Hg|s i k now p Hp Hg|s i k now c p Hp Hl Ht
    |s i k now p Hp Hl Ht|s i k now Hp|s i k Hp|s i k Hp|s i k Hp|s i now Hp|s i k rest c p Hp He|s i k rest p Hp He
    |s i rest Hp|s i rest Hp|s i Hp|s i Hp|s i cs p Hp Hc|s i c cs Hp|s i Hp];
    try (by apply accounted_built);
    (eapply accounted_move; [exact Ha|done|done|simpl; set_solver| |]);
    try (intros y c' Hy Hin; rewrite Hp in Hy; first [discriminate Hy | injection Hy as <-; destruct Hin; fail]);
    try (by auto).
  - apply clients_begin in Hg as [Ec _]. simpl. rewrite Ec. auto.
  - apply clients_begin in Hg as [Ec _]. simpl. rewrite Ec. auto.
  - apply clients_touch in Ht as [Ec _]. simpl. rewrite Ec. auto.
  - apply clients_touch in Ht as [Ec _]. simpl. rewrite Ec. auto.
  - apply clients_pop in He as [Ek Ec]. cbn [pool set_point set_pool close_client closed]. rewrite Ec. intros k' c' Hk'.
    destruct (decide (k = k')) as [<-|Hne]; [|left; by rewrite lookup_delete_ne].
    right; right. rewrite Hk' in Ek. injection Ek as ->. set_solver.
  - apply clients_pop in He as [_ Ec]. simpl. rewrite Ec. auto.
  - unfold stop_clear in Hc. injection Hc as <- <-. simpl. intros k c Hk. right; left. unfold clients in Hk.
    rewrite lookup_fmap in Hk. destruct (entries (pool s) !! k) as [e|] eqn:E; [|done]. injection Hk as <-.
    apply in_map_iff. exists (k, e). split; [done|]. apply list_elem_of_In. by apply elem_of_map_to_list.
  - intros y c' Hy Hin. rewrite Hp in Hy. injection Hy as <-. destruct Hin as [<-|Hin]; [right; set_solver|by left].
Qed.

Lemma accounted_reachable p s : entries p = ∅ -> reachable (initial p) s -> inv s /\ accounted s.
Proof.
  intros E. induction 1 as [|s s' Hr [Hi Ha] Hs].
  - split; [by apply inv_initial|]. intros c Hc. simpl in Hc. lia.
  - split; [by eapply pool_inv_step|by eapply accounted_step].
Qed.

(** A trace: a miss on a key, its construction, an eviction and the close. *)
Definition sample_pool : BrokerClientPool.t := mk (of_Z 600) (of_Z 60) ∅ false.
Definition sample_key : key := ("mt5", "acc").

Lemma step_trans s0 s s' : step s0 s -> reachable s s' -> reachable s0 s'.
Proof.
  intros H. induction 1 as [|s1 s2 _ IH Hs]; [eapply reach_step; [apply reach_refl|done]|].
  by eapply reach_step.
Qed.

Lemma reach_building :
  exists s, reachable (initial sample_pool) s /\ points s = <[0%nat := Building sample_key]> ∅ /\
    pool s = sample_pool /\ locks s = {[sample_key := 0%nat]} /\ next_client s = 0%nat /\ closed s = ∅.
Proof.
  eexists. split.
  - eapply step_trans; [apply (step_get_miss _ 0%nat sample_key fzero); reflexivity|].
    eapply step_trans; [eapply (step_lock_build _ 0%nat sample_key fzero); reflexivity|].
    apply reach_refl.
  - split_and!; vm_compute; reflexivity.
Qed.

Lemma pool_single_flight_witness :
  exists s, reachable (initial sample_pool) s /\ points s !! 0%nat = Some (Building sample_key) /\
    entries (pool s) !! sample_key = None.
Proof.
  destruct reach_building as (s & Hr & Hp & _).
  exists s. split; [exact Hr|]. assert (H0 : points s !! 0%nat = Some (Building sample_key)) by (rewrite Hp; reflexivity).
  split; [exact H0|].
  destruct (pool_single_flight sample_pool s eq_refl Hr) as (_ & H & _). exact (H sample_key 0%nat H0).
Defined.

(** No client is lost.  In every reachable state each client the
    factories ever returned is cached, had its [close()] called, or is in the
    list that [stop] is closing; so while no [stop] is at work, every client
    that is not cached has had [close()] called, also when the coroutine that
    evicted it was cancelled. *)
Theorem pool_clients_accounted (p : BrokerClientPool.t) (s : t) :
  entries p = ∅ -> reachable (initial p) s ->
  (forall i x, points s !! i = Some x -> dying x = []) ->
  forall c, (c < next_client s)%nat ->
    (exists k e, entries (pool s) !! k = Some e /\ entry_client e = c) \/ c ∈ closed s.
Proof.
  intros E Hr Hq c Hc. destruct (accounted_reachable p s E Hr) as [_ Ha].
  destruct (Ha c Hc) as [[k Hk]|[(i & x & Hi & Hx)|Hcl]]; [left| |by right].
  - unfold clients in Hk. rewrite lookup_fmap in Hk. destruct (entries (pool s) !! k) as [e|] eqn:Ek; [|done].
    injection Hk as Hk. eauto.
  - by rewrite (Hq i x Hi) in Hx.
Qed.

(** The trace above continued: the client is built, then evicted and closed. *)
Lemma pool_clients_accounted_witness :
  exists s, reachable (initial sample_pool) s /\ next_client s = 1%nat /\ 0%nat ∈ closed s.
Proof.
  assert (exists s, reachable (initial sample_pool) s /\ next_client s = 1%nat /\ entries (pool s) = ∅ /\
    points s = <[1%nat := Finished]> (<[0%nat := Returned 0%nat]> ∅)) as (s & Hr & Hn & He & Hp).
  { eexists. split.
    - eapply step_trans; [apply (step_get_miss _ 0%nat sample_key fzero); reflexivity|].
      eapply step_trans; [eapply (step_lock_build _ 0%nat sample_key fzero); reflexivity|].
      eapply step_trans; [eapply (step_built _ 0%nat sample_key fzero); reflexivity|].
      eapply step_trans; [eapply (step_evict _ 1%nat sample_key); reflexivity|].
      eapply step_trans; [eapply (step_evict_one _ 1%nat sample_key); reflexivity|].
      eapply step_trans; [eapply (step_evict_closed _ 1%nat); reflexivity|].
      eapply step_trans; [eapply (step_evict_end _ 1%nat); reflexivity|].
      apply reach_refl.
    - split_and!; vm_compute; reflexivity. }
  exists s. split; [exact Hr|]. split; [exact Hn|].
  destruct (pool_clients_accounted sample_pool s eq_refl Hr) with (c := 0%nat) as [(k & e & Hk & _)|H]; [| | |exact H].
  - intros i x Hi. rewrite Hp in Hi. apply lookup_insert_Some in Hi as [[_ <-]|[_ Hi]]; [reflexivity|].
    apply lookup_insert_Some in Hi as [[_ <-]|[_ Hi]]; [reflexivity|]. rewrite lookup_empty in Hi. discriminate Hi.
  - rewrite Hn. lia.
  - exfalso. rewrite He, lookup_empty in Hk. discriminate Hk.
Defined.

(** Stopping the pool while a [get] is constructing its client leaks it:
    [closing] is tested only at the start of [get], so the client is cached
    after [stop] has cleared and closed the cache.  There is a reachable state
    where [stop] has finished, every coroutine has ended, the pool refuses new
    requests, and a client is in the cache and was never closed. *)
Theorem stop_leaks_client :
  exists s k e, reachable (initial sample_pool) s /\ closing (pool s) = true /\
    points s !! 1%nat = Some Finished /\
    (forall i x, points s !! i = Some x -> x = Finished \/ exists c, x = Returned c) /\
    entries (pool s) !! k = Some e /\ entry_client e ∉ closed s.
Proof.
  assert (exists s, reachable (initial sample_pool) s /\ closing (pool s) = true /\ closed s = ∅ /\
    entries (pool s) = {[sample_key := mk_entry 0 (of_Z 5) (of_Z 5) "mt5" "acc"]} /\
    points s = <[0%nat := Returned 0%nat]> {[1%nat := Finished]}) as (s & Hr & Hcl & Hd & He & Hp).
  { eexists. split.
    - eapply step_trans; [apply (step_get_miss _ 0%nat sample_key fzero); reflexivity|].
      eapply step_trans; [eapply (step_lock_build _ 0%nat sample_key fzero); reflexivity|].
      eapply step_trans; [eapply (step_stop _ 1%nat); reflexivity|].
      eapply step_trans; [eapply (step_stop_clear _ 1%nat); reflexivity|].
      eapply step_trans; [eapply (step_stop_end _ 1%nat); reflexivity|].
      eapply step_trans; [eapply (step_built _ 0%nat sample_key (of_Z 5)); reflexivity|].
      apply reach_refl.
    - split_and!; vm_compute; reflexivity. }
  exists s, sample_key, (mk_entry 0 (of_Z 5) (of_Z 5) "mt5" "acc"). split; [done|]. split; [done|].
  rewrite Hp, He, Hd. split; [done|]. split; [|split; [done|set_solver]].
  intros i x Hi. apply lookup_insert_Some in Hi as [[_ <-]|[_ Hi]]; [right; by eexists|].
  apply lookup_singleton_Some in Hi as [_ <-]. by left.
Qed.

(** Eviction of a list of keys. *)
Lemma evict_all ks : forall p k,
  let p' := foldl (fun p k => snd (evict_pop p k)) p ks in
  entries p' !! k = (if decide (k ∈ ks) then None else entries p !! k) /\ closing p' = closing p.
Proof.
  induction ks as [|k0 ks IH]; intros p k; cbn [foldl].
  - split; [|done]. case_decide as H; [by apply elem_of_nil in H|done].
  - destruct (IH (snd (evict_pop p k0)) k) as [-> ->].
    assert (He : entries (snd (evict_pop p k0)) = delete k0 (entries p) /\ closing (snd (evict_pop p k0)) = closing p).
    { unfold evict_pop. destruct (entries p !! k0) eqn:E; [done|]. simpl. split; [|done].
      by rewrite delete_id. }
    destruct He as [-> ->]. split; [|done].
    destruct (decide (k ∈ ks)) as [Hin|Hin]; case_decide as Hc; rewrite elem_of_cons in Hc.
    + done.
    + tauto.
    + destruct Hc as [->|]; [apply lookup_delete_eq|done].
    + rewrite lookup_delete_ne; [done|]. intros ->. tauto.
Qed.

(** The sweep evicts exactly the idle entries: it removes an entry if and
    only if it was last used more than the idle timeout before the sweep, it
    leaves every other entry untouched, and the count it reports is the number
    of entries removed. *)
Theorem sweep_evicts_idle (p : BrokerClientPool.t) (now : float) :
  let '(n, p') := _sweep_once p now in
  n = size p - size p' /\
  forall k, entries p' !! k =
    match entries p !! k with
    | Some e => if flt (idle_timeout p) (fsub now (last_used e)) then None else Some e
    | None => None
    end.
Proof.
  unfold _sweep_once. set (ks := sweep_scan p now). cbv zeta.
  assert (Hks : forall k, k ∈ ks <-> exists e, entries p !! k = Some e /\ is_idle p now e = true).
  { intros k. unfold ks, sweep_scan. rewrite list_elem_of_fmap. split.
    - intros ([k' e] & -> & H). apply list_elem_of_filter in H as [Hi H]. apply elem_of_map_to_list in H.
      by exists e.
    - intros (e & He & Hi). exists (k, e). split; [done|]. apply list_elem_of_filter.
      split; [done|]. by apply elem_of_map_to_list. }
  assert (Hlook : forall k, entries (foldl (fun p k => snd (evict_pop p k)) p ks) !! k =
    match entries p !! k with Some e => if is_idle p now e then None else Some e | None => None end).
  { intros k. destruct (evict_all ks p k) as [-> _]. destruct (decide (k ∈ ks)) as [Hin|Hin].
    - apply Hks in Hin as (e & -> & ->). done.
    - destruct (entries p !! k) as [e|] eqn:E; [|done]. destruct (is_idle p now e) eqn:Ei; [|done].
      exfalso. apply Hin, Hks. eauto. }
  split; [|done].
  assert (Hnd : NoDup ks).
  { unfold ks, sweep_scan. apply NoDup_fmap_fst.
    - intros k e e' H H'. apply list_elem_of_filter in H as [_ H], H' as [_ H'].
      apply elem_of_map_to_list in H, H'. congruence.
    - apply NoDup_filter, NoDup_map_to_list. }
  assert (Hsz : base.size (entries p) = (length ks + base.size (entries (foldl (fun p k => snd (evict_pop p k)) p ks)))%nat).
  { revert Hnd Hks. clear. clearbody ks. revert p. induction ks as [|k ks IH]; intros p Hnd Hks; simpl; [done|].
    apply NoDup_cons in Hnd as [Hk Hnd].
    destruct (proj1 (Hks k)) as (e & He & Hi); [by left|].
    assert (Ep : entries (snd (evict_pop p k)) = delete k (entries p)) by (unfold evict_pop; by rewrite He).
    assert (Et : idle_timeout (snd (evict_pop p k)) = idle_timeout p) by (unfold evict_pop; by rewrite He).
    rewrite <- (IH (snd (evict_pop p k))).
    - rewrite Ep, map_size_delete_Some by (by exists e).
      assert (base.size (entries p) <> 0%nat) by (eapply map_size_ne_0_lookup_2; by exists e). lia.
    - done.
    - intros k'. rewrite Ep. unfold is_idle. rewrite Et. fold (is_idle p now).
      split.
      + intros Hk'. destruct (proj1 (Hks k')) as (e' & He' & Hi'); [by right|].
        exists e'. rewrite lookup_delete_ne by congruence. done.
      + intros (e' & He' & Hi'). apply lookup_delete_Some in He' as [Hne He'].
        assert (Hin : k' ∈ k :: ks) by (apply Hks; eauto). apply elem_of_cons in Hin as [->|]; done. }
  unfold size, py_len. rewrite Hsz. lia.
Qed.
End PoolFacts.
