(* ===== verification/Coordinator.v ===== *)
(** * Coordinator: [engine/shared/concurrency/background_coordinator.py] and
    [engine/ta/broker/priority.py]

    [BackgroundTaskCoordinator] schedules waves of background work.  None of its
    critical sections awaits while it holds a key's lock, so the lock is never
    contended and each section, with the task creation that follows it, is one
    atomic operation; the locks therefore do not appear in the state.  A task
    is an identifier with the key of its wave (or none, for [create_task]);
    what its coroutine does is a parameter, the way it ends.  Log lines are not
    modelled. *)

From Stdlib Require Import ZArith Lia Bool String.
From stdpp Require Import base list strings gmap.
From S2P Require Import Prelude PyFloat FloatRound.

#[local] Open Scope string_scope.
#[local] Open Scope Z_scope.

Module BackgroundTaskCoordinator.

Abbreviation task := nat.

Record t := mk {
  last_started : gmap string float;
  in_flight : gmap string Z;
  tasks : gmap task (option string);
  next_task : task;
  is_shutdown : bool }.

Definition create : t := mk ∅ ∅ ∅ 0%nat false.

(** Add a live task. *)
Definition spawn (s : t) (k : option string) : task * t :=
  (next_task s,
   mk (last_started s) (in_flight s) (<[next_task s := k]> (tasks s)) (S (next_task s)) (is_shutdown s)).

Definition schedule_once (s : t) (key : string) (cooldown_s now : float) : bool * t :=
  if is_shutdown s then (false, s)
  else if 0 <? default 0 (in_flight s !! key) then (false, s)
  else
    let last := default fzero (last_started s !! key) in
    if flt (fsub now last) cooldown_s then (false, s)
    else
      let s := mk (<[key := now]> (last_started s))
                  (<[key := default 0 (in_flight s !! key) + 1]> (in_flight s))
                  (tasks s) (next_task s) (is_shutdown s) in
      (true, snd (spawn s (Some key))).

(** The [finally] block of [_run_guarded]. *)
Definition release (s : t) (key : string) : t :=
  let n := default 0 (in_flight s !! key) - 1 in
  mk (last_started s) (if n <=? 0 then delete key (in_flight s) else <[key := n]> (in_flight s))
     (tasks s) (next_task s) (is_shutdown s).

Definition end_task (s : t) (i : task) : t :=
  mk (last_started s) (in_flight s) (delete i (tasks s)) (next_task s) (is_shutdown s).

(** How [asyncio.wait_for(factory(), timeout)] ends. *)
Inductive ending := Completed | TimedOut | Cancelled | Failed (e : exn).

(** [_run_guarded] from the end of the factory on: whether the task ends
    cancelled (every other ending is swallowed), and the state it leaves. *)
Definition _run_guarded (s : t) (i : task) (key : string) (e : ending) : bool * t :=
  (match e with Cancelled => true | _ => false end, end_task (release s key) i).

Definition create_task (s : t) : res (task * t) :=
  if is_shutdown s then Raise (RuntimeError "BackgroundTaskCoordinator is shut down")
  else Ok (spawn s None).

(** [shutdown]: the tasks it cancels, and the state. *)
Definition shutdown (s : t) : list task * t :=
  if is_shutdown s then ([], s)
  else (map fst (map_to_list (tasks s)),
        mk (last_started s) (in_flight s) (tasks s) (next_task s) true).

(** A started wave. *)
Record start := mk_start { wave : string; at_time : float; cooldown : float }.

(** The operations in any order the event loop runs them, with the starts so
    far, latest first.  A task cancelled before its first step ends without
    running [_run_guarded]; only [shutdown] cancels tasks. *)
Inductive step : t * list start -> t * list start -> Prop :=
| step_schedule s log key cd now s' :
    schedule_once s key cd now = (true, s') -> step (s, log) (s', mk_start key now cd :: log)
| step_suppressed s log key cd now s' :
    schedule_once s key cd now = (false, s') -> step (s, log) (s', log)
| step_wave_ends s log i key e b s' :
    tasks s !! i = Some (Some key) -> _run_guarded s i key e = (b, s') -> step (s, log) (s', log)
| step_create s log i s' : create_task s = Ok (i, s') -> step (s, log) (s', log)
| step_task_ends s log i : tasks s !! i = Some None -> step (s, log) (end_task s i, log)
| step_shutdown s log ts s' : shutdown s = (ts, s') -> step (s, log) (s', log)
| step_cancelled_unstarted s log i k :
    is_shutdown s = true -> tasks s !! i = Some k -> step (s, log) (end_task s i, log).

Inductive reachable : t * list start -> Prop :=
| reach_create : reachable (create, [])
| reach_step x y : reachable x -> step x y -> reachable y.

End BackgroundTaskCoordinator.

Module CoordinatorFacts.
Import BackgroundTaskCoordinator.


(** The most recent start of a key. *)
Fixpoint latest (key : string) (log : list start) : option float :=
  match log with
  | [] => None
  | x :: log => if String.eqb (wave x) key then Some (at_time x) else latest key log
  end.

(** Every start respects its cooldown: measured from the previous start of the
    key, or from the clock's zero when there is none. *)
Fixpoint spaced (log : list start) : Prop :=
  match log with
  | [] => True
  | x :: log =>
      flt (fsub (at_time x) (default fzero (latest (wave x) log))) (cooldown x) = false /\ spaced log
  end.

Record inv (x : t * list start) : Prop := {
  inv_fresh : forall i k, tasks x.1 !! i = Some k -> (i < next_task x.1)%nat;
  inv_live : forall i key, tasks x.1 !! i = Some (Some key) -> in_flight x.1 !! key = Some 1;
  inv_one : forall i j key, tasks x.1 !! i = Some (Some key) -> tasks x.1 !! j = Some (Some key) -> i = j;
  inv_count : forall key n, in_flight x.1 !! key = Some n -> n = 1 /\
    (is_shutdown x.1 = false -> exists i, tasks x.1 !! i = Some (Some key));
  inv_last : forall key, last_started x.1 !! key = latest key x.2;
  inv_spaced : spaced x.2 }.

Lemma coord_inv_create : inv (create, []).
Proof. constructor; simpl; intros; rewrite ?lookup_empty in *; done. Qed.

(** Adding a task whose wave, if any, is not in flight yet. *)
Lemma schedule_true s key cd now s' :
  schedule_once s key cd now = (true, s') ->
  is_shutdown s = false /\ ~ 0 < default 0 (in_flight s !! key) /\
  flt (fsub now (default fzero (last_started s !! key))) cd = false /\
  s' = mk (<[key := now]> (last_started s)) (<[key := default 0 (in_flight s !! key) + 1]> (in_flight s))
          (<[next_task s := Some key]> (tasks s)) (S (next_task s)) (is_shutdown s).
Proof.
  unfold schedule_once. destruct (is_shutdown s) eqn:Es; [done|].
  destruct (0 <? _) eqn:Ef; [done|]. destruct (flt _ _) eqn:Ec; [done|].
  intros [= <-]. zbool. split; [done|]. split; [lia|done].
Qed.

Lemma schedule_false s key cd now s' : schedule_once s key cd now = (false, s') -> s' = s.
Proof.
  unfold schedule_once. destruct (is_shutdown s); [by intros [= <-]|].
  destruct (0 <? _); [by intros [= <-]|]. destruct (flt _ _); [by intros [= <-]|done].
Qed.

Lemma inv_schedule s log key cd now s' :
  inv (s, log) -> schedule_once s key cd now = (true, s') -> inv (s', mk_start key now cd :: log).
Proof.
  intros [Hf Hl Ho Hc Hls Hsp] H. apply schedule_true in H as (Es & Hn & Hcd & ->). simpl in *.
  assert (Hnone : in_flight s !! key = None).
  { destruct (in_flight s !! key) as [n|] eqn:E; [|done]. destruct (Hc key n E) as [-> _]. simpl in Hn. lia. }
  assert (Hno : forall i, tasks s !! i <> Some (Some key)).
  { intros i Hi. apply Hl in Hi. congruence. }
  rewrite Hnone. constructor; simpl.
  - intros i k. rewrite lookup_insert_Some. intros [[<- _]|[_ Hi]]; [lia|]. apply Hf in Hi. lia.
  - intros i key'. rewrite lookup_insert_Some. intros [[_ [= <-]]|[_ Hi]]; [by rewrite lookup_insert_eq|].
    rewrite lookup_insert_ne; [by eapply Hl|]. intros <-. by apply Hno in Hi.
  - intros i j key'. rewrite !lookup_insert_Some. intros [[<- [= <-]]|[_ Hi]] [[<- E]|[_ Hj]].
    + done.
    + by apply Hno in Hj.
    + injection E as <-. by apply Hno in Hi.
    + by eapply Ho.
  - intros key' n. rewrite lookup_insert_Some. intros [[<- <-]|[Hne Hn']].
    + split; [done|]. intros _. exists (next_task s). by rewrite lookup_insert_eq.
    + destruct (Hc _ _ Hn') as [-> Hex]. split; [done|]. intros Hsd.
      destruct (Hex Hsd) as [i Hi]. exists i. rewrite lookup_insert_ne; [done|].
      intros <-. apply Hf in Hi. lia.
  - intros key'. destruct (String.eqb_spec key key') as [->|Hne]; [by rewrite lookup_insert_eq|].
    rewrite lookup_insert_ne by done. apply Hls.
  - rewrite Hls in Hcd. done.
Qed.

(** A wave ends: its key is no longer in flight. *)
Lemma inv_end_wave s log i key :
  inv (s, log) -> tasks s !! i = Some (Some key) -> inv (end_task (release s key) i, log).
Proof.
  intros [Hf Hl Ho Hc Hls Hsp] Hi. simpl in *. pose proof (Hl i key Hi) as Hk.
  unfold end_task, release. rewrite Hk. simpl. constructor; simpl; try done.
  - intros j k Hj. apply lookup_delete_Some in Hj as [_ Hj]. eauto.
  - intros j key' Hj. apply lookup_delete_Some in Hj as [Hne Hj].
    rewrite lookup_delete_ne; [by eapply Hl|]. intros <-. by apply Hne, (Ho i j key).
  - intros j j' key' Hj Hj'. apply lookup_delete_Some in Hj as [_ Hj], Hj' as [_ Hj']. by eapply Ho.
  - intros key' n Hn. apply lookup_delete_Some in Hn as [Hne Hn]. destruct (Hc _ _ Hn) as [-> Hex].
    split; [done|]. intros Hsd. destruct (Hex Hsd) as [j Hj]. exists j. rewrite lookup_delete_ne; [done|].
    intros <-. congruence.
Qed.

Lemma inv_end_task s log i k :
  inv (s, log) -> tasks s !! i = Some k -> k = None \/ is_shutdown s = true -> inv (end_task s i, log).
Proof.
  intros [Hf Hl Ho Hc Hls Hsp] Hi Hk. simpl in *. unfold end_task. constructor; simpl; try done.
  - intros j k' Hj. apply lookup_delete_Some in Hj as [_ Hj]. eauto.
  - intros j key' Hj. apply lookup_delete_Some in Hj as [_ Hj]. eauto.
  - intros j j' key' Hj Hj'. apply lookup_delete_Some in Hj as [_ Hj], Hj' as [_ Hj']. by eapply Ho.
  - intros key' n Hn. destruct (Hc _ _ Hn) as [-> Hex]. split; [done|]. intros Hsd.
    destruct (Hex Hsd) as [j Hj]. exists j. rewrite lookup_delete_ne; [done|]. intros <-.
    destruct Hk as [->|]; congruence.
Qed.

Lemma inv_create_task s log i s' : inv (s, log) -> create_task s = Ok (i, s') -> inv (s', log).
Proof.
  intros [Hf Hl Ho Hc Hls Hsp]. unfold create_task. destruct (is_shutdown s) eqn:Es; [done|].
  intros [= <- <-]. simpl in *. rewrite Es in *. constructor; simpl; try done.
  - intros j k. rewrite lookup_insert_Some. intros [[<- _]|[_ Hj]]; [lia|]. apply Hf in Hj. lia.
  - intros j key. rewrite lookup_insert_Some. intros [[_ ?]|[_ Hj]]; [done|eauto].
  - intros j j' key. rewrite !lookup_insert_Some. intros [[_ ?]|[_ Hj]] [[_ ?]|[_ Hj']]; try done. by eapply Ho.
  - intros key n Hn. destruct (Hc _ _ Hn) as [-> Hex]. split; [done|]. intros _.
    destruct (Hex eq_refl) as [j Hj]. exists j. rewrite lookup_insert_ne; [done|]. intros <-. apply Hf in Hj. lia.
Qed.

Lemma inv_shutdown s log ts s' : inv (s, log) -> shutdown s = (ts, s') -> inv (s', log).
Proof.
  intros [Hf Hl Ho Hc Hls Hsp]. unfold shutdown. destruct (is_shutdown s) eqn:Es; intros [= <- <-]; [done|].
  simpl in *. constructor; simpl; try done. intros key n Hn. by destruct (Hc _ _ Hn).
Qed.

Lemma coord_inv_step x y : inv x -> step x y -> inv y.
Proof.
  intros Hi Hs. destruct Hs as [s log key cd now s' H|s log key cd now s' H|s log i key e b s' Hk H|s log i s' H
    |s log i H|s log ts s' H|s log i k Hsd H].
  - by eapply inv_schedule.
  - apply schedule_false in H as ->. done.
  - injection H as _ <-. by apply inv_end_wave.
  - by eapply inv_create_task.
  - apply (inv_end_task s log i None); auto.
  - by eapply inv_shutdown.
  - apply (inv_end_task s log i k); auto.
Qed.

Lemma coord_inv_reachable x : reachable x -> inv x.
Proof. induction 1 as [|x y _ IH Hs]; [apply coord_inv_create|by eapply coord_inv_step]. Qed.

(** C39.  At most one wave per key is alive, and starts respect the cooldown,
    under every order of operations.  In a reachable state two live waves of
    one key are the same task, the in-flight count of a key is 1 when it has
    one, and while the coordinator runs a positive count means that such a wave
    is alive, so the guard neither duplicates nor strands a key; and every
    start came at least its cooldown after the previous start of its key (or
    after the clock's zero). *)
Theorem coordinator_single_flight (s : t) (log : list start) :
  reachable (s, log) ->
  (forall i j key, tasks s !! i = Some (Some key) -> tasks s !! j = Some (Some key) -> i = j) /\
  (forall key, in_flight s !! key = None \/ in_flight s !! key = Some 1) /\
  (is_shutdown s = false ->
     forall key, in_flight s !! key = Some 1 <-> exists i, tasks s !! i = Some (Some key)) /\
  (forall key, last_started s !! key = latest key log) /\ spaced log.
Proof.
  intros Hr. destruct (coord_inv_reachable _ Hr) as [Hf Hl Ho Hc Hls Hsp]. simpl in *.
  split; [done|]. split; [|split; [|done]].
  - intros key. destruct (in_flight s !! key) as [n|] eqn:E; [|by left].
    destruct (Hc _ _ E) as [-> _]. by right.
  - intros Hsd key. split.
    + intros E. by apply (Hc _ _ E).
    + intros [i Hi]. by eapply Hl.
Qed.

Lemma coordinator_single_flight_witness :
  exists s log, reachable (s, log) /\ log = [mk_start "u:EURUSD" (of_Z 100) (of_Z 60)] /\
    in_flight s !! "u:EURUSD" = Some 1 /\ spaced log.
Proof.
  eexists _, _. assert (Hr : reachable (snd (schedule_once create "u:EURUSD" (of_Z 60) (of_Z 100)),
    [mk_start "u:EURUSD" (of_Z 100) (of_Z 60)])).
  { eapply reach_step; [apply reach_create|]. apply step_schedule. vm_compute. reflexivity. }
  split; [exact Hr|]. split; [reflexivity|]. split; [vm_compute; reflexivity|].
  apply (coordinator_single_flight _ _ Hr).
Defined.

(** A wave is scheduled exactly when it is eligible.  [schedule_once]
    starts a wave if and only if the coordinator is running, no wave of the key
    is in flight and the cooldown has passed since the recorded start; when it
    does not, the state is unchanged.  For a key that never ran the recorded
    start defaults to 0.0, so its first wave is suppressed while the monotonic
    clock reads less than the cooldown. *)
Theorem schedule_once_eligible (s : t) (key : string) (cd now : float) :
  let '(started, s') := schedule_once s key cd now in
  (started = true <->
     is_shutdown s = false /\ default 0 (in_flight s !! key) <= 0 /\
     flt (fsub now (default fzero (last_started s !! key))) cd = false) /\
  (started = false -> s' = s) /\
  (started = true -> last_started s' !! key = Some now /\
     in_flight s' !! key = Some (default 0 (in_flight s !! key) + 1) /\
     tasks s' !! next_task s = Some (Some key)) /\
  (is_shutdown s = false -> in_flight s !! key = None -> last_started s !! key = None ->
     started = negb (flt (fsub now fzero) cd)).
Proof.
  unfold schedule_once. destruct (is_shutdown s) eqn:Es.
  { split; [split; [done|]; by intros [? _]|]. split; [done|]. by split. }
  destruct (0 <? default 0 (in_flight s !! key)) eqn:Ef; zbool.
  { split; [split; [done|]; intros (_ & ? & _); lia|]. split; [done|]. split; [done|].
    intros _ E. rewrite E in Ef. simpl in Ef. lia. }
  destruct (flt _ cd) eqn:Ec.
  { split; [split; [done|]; by intros (_ & _ & ?)|]. split; [done|]. split; [done|].
    intros _ _ E. rewrite E in Ec. simpl in Ec. by rewrite Ec. }
  split; [done|]. split; [done|]. split.
  - intros _. cbn [snd spawn last_started in_flight tasks]. by rewrite !lookup_insert_eq.
  - intros _ _ E. rewrite E in Ec. simpl in Ec. by rewrite Ec.
Qed.

End CoordinatorFacts.

(** ** Request priority: [engine/ta/broker/priority.py] *)

Module Priority.

Inductive BrokerRequestPriority : Set := FOREGROUND | BACKGROUND.

(** The context variable of one task: unset, or set to a priority. *)
Definition context := option BrokerRequestPriority.

Definition get_priority (c : context) : BrokerRequestPriority := default FOREGROUND c.

(** [with broker_priority(p): body]: the variable is set for the body and reset
    to its previous value at the exit, whether the body returns or raises. *)
Definition broker_priority {A} (p : BrokerRequestPriority)
    (body : context -> res A * context) (c : context) : res A * context :=
  let '(r, _) := body (Some p) in (r, c).

End Priority.
