(* ===== verification/Heartbeat.v ===== *)
(** * Heartbeat: [engine/ta/broker/connectivity/heartbeat.py]

    The per-connection health state machine and the service that runs one probe
    loop per connection.  What a probe does is a parameter, the [probe_outcome]
    of one [asyncio.wait_for]; a loop is a task identifier, live until it is
    cancelled.  Writes to Redis are values: the key, the fields and the expiry.
    The free-form debugging payload and the error text of a result, counters
    and log lines are not modelled. *)

From Stdlib Require Import ZArith Lia Bool String SpecFloat.
From stdpp Require Import base list strings gmap.
From S2P Require Import Prelude PyFloat FloatRound.

#[local] Open Scope string_scope.
#[local] Open Scope Z_scope.
#[local] Open Scope list_scope.

(** [int(x)] of a float: truncation towards zero. *)
Definition int_of_float (x : float) : res Z :=
  match x with
  | S754_zero _ => Ok 0
  | S754_infinity _ => Raise OverflowError
  | S754_nan => Raise (ValueError "cannot convert float NaN to integer")
  | S754_finite s m e =>
      let q := if 0 <=? e then Zpos m * 2 ^ e else Zpos m / 2 ^ (- e) in
      Ok (if s then - q else q)
  end.

Inductive HeartbeatState : Set := CONNECTED | DEGRADED | DISCONNECTED | UNKNOWN.

#[global] Instance HeartbeatState_eq_dec : EqDecision HeartbeatState.
Proof. solve_decision. Defined.

Record HeartbeatResult := mk_result {
  ok : bool; broker_connected : bool; authenticated : bool;
  uptime_seconds : float; error_type : string }.

(** [_ConnState]; the probe is a parameter of the loop. *)
Record ConnState := mk_conn {
  provider : string; account_id : string; consecutive_failures : Z;
  state : HeartbeatState; last_success_ts : float; loop_task : nat }.

Module BrokerHeartbeatService.

Record t := mk {
  interval : float; timeout : float; failure_threshold : Z;
  connections : gmap (string * string) ConnState;
  live : gset nat; next_task : nat; stopped : bool }.

Definition create (interval_secs timeout_secs : float) (failure_threshold : Z) : res t :=
  if fle interval_secs fzero then Raise (ValueError "interval_secs must be > 0")
  else if fle timeout_secs fzero || flt interval_secs timeout_secs
  then Raise (ValueError "timeout_secs must be > 0 and <= interval_secs")
  else if failure_threshold <? 1 then Raise (ValueError "failure_threshold must be >= 1")
  else Ok (mk interval_secs timeout_secs failure_threshold ∅ ∅ 0%nat false).

Definition set_conns (s : t) (m : gmap (string * string) ConnState) (l : gset nat) : t :=
  mk (interval s) (timeout s) (failure_threshold s) m l (next_task s) (stopped s).

(** The tasks still live after a connection's loop is cancelled. *)
Definition cancel_loop (s : t) (c : option ConnState) : gset nat :=
  match c with Some c => live s ∖ {[loop_task c]} | None => live s end.

Definition register (s : t) (provider account_id : string) : t :=
  let key := (provider, account_id) in
  let l := cancel_loop s (connections s !! key) in
  let c := mk_conn provider account_id 0 UNKNOWN fzero (next_task s) in
  mk (interval s) (timeout s) (failure_threshold s) (<[key := c]> (connections s))
     ({[next_task s]} ∪ l) (S (next_task s)) (stopped s).

(** [unregister]: also the Redis key it deletes, if the connection existed. *)
Definition REDIS_HASH_PREFIX : string := "etradie:broker:hb:".
Definition hash_key (provider account_id : string) : string :=
  String.append REDIS_HASH_PREFIX (String.append provider (String.append ":" account_id)).

Definition unregister (s : t) (provider account_id : string) : option string * t :=
  let key := (provider, account_id) in
  match connections s !! key with
  | None => (None, s)
  | Some c => (Some (hash_key provider account_id),
               set_conns s (delete key (connections s)) (cancel_loop s (Some c)))
  end.

Definition stop (s : t) : t :=
  mk (interval s) (timeout s) (failure_threshold s) ∅
     (live s ∖ list_to_set (map (fun x => loop_task (snd x)) (map_to_list (connections s))))
     (next_task s) true.

Definition state_of (s : t) (provider account_id : string) : HeartbeatState :=
  match connections s !! (provider, account_id) with Some c => state c | None => UNKNOWN end.

(** How one guarded probe ends; a cancellation ends the loop instead. *)
Inductive probe_outcome := Probed (r : HeartbeatResult) | ProbeTimeout | ProbeRaised (type_name : string).

Definition result_of (o : probe_outcome) : HeartbeatResult :=
  match o with
  | Probed r => r
  | ProbeTimeout => mk_result false false false fzero "TimeoutError"
  | ProbeRaised type_name => mk_result false false false fzero type_name
  end.

(** [_apply_result]; [now] is the reading of [time.time()]. *)
Definition _apply_result (threshold : Z) (c : ConnState) (result : HeartbeatResult) (now : float) : ConnState :=
  if ok result then mk_conn (provider c) (account_id c) 0 CONNECTED now (loop_task c)
  else
    let failures := consecutive_failures c + 1 in
    let st := if threshold <=? failures
              then if negb (broker_connected result) then DISCONNECTED else DEGRADED
              else state c in
    mk_conn (provider c) (account_id c) failures st (last_success_ts c) (loop_task c).

(** What [_write_hash] sends: the hash key, the state, the flags, the truncated
    numbers, and the expiry in seconds. *)
Record hash_write := mk_write {
  w_key : string; w_state : HeartbeatState; w_ok : bool; w_broker_connected : bool; w_authenticated : bool;
  w_uptime : Z; w_last_seen_at : Z; w_failures : Z; w_error_type : string; w_expire : Z }.

Definition _write_hash (s : t) (c : ConnState) (result : HeartbeatResult) (now : float) : res hash_write :=
  uptime ← int_of_float (uptime_seconds result);
  seen ← int_of_float now;
  ttl ← int_of_float (fmul (interval s) (of_Z 4));
  Ok (mk_write (hash_key (provider c) (account_id c)) (state c) (ok result) (broker_connected result)
        (authenticated result) uptime seen (consecutive_failures c) (error_type result) ttl).

(** One turn of [_loop] for a connection whose loop is live: the state it
    leaves and the write it schedules (evaluated in that state), of which a
    failure is swallowed. *)
Definition loop_turn (s : t) (key : string * string) (o : probe_outcome) (now : float)
    : option hash_write * t :=
  match connections s !! key with
  | None => (None, s)
  | Some c =>
      let c' := _apply_result (failure_threshold s) c (result_of o) now in
      (match _write_hash s c' (result_of o) now with Ok w => Some w | Raise _ => None end,
       set_conns s (<[key := c']> (connections s)) (live s))
  end.

(** The operations in any order.  Only a live loop of the registered connection
    takes a turn: a replaced or removed connection's loop was cancelled.
    Connections are registered while the service runs ([stop] is the engine's
    shutdown). *)
Inductive step : t -> t -> Prop :=
| step_register s p a : stopped s = false -> step s (register s p a)
| step_unregister s p a : step s (snd (unregister s p a))
| step_turn s key c o now :
    connections s !! key = Some c -> loop_task c ∈ live s -> stopped s = false ->
    step s (snd (loop_turn s key o now))
| step_stop s : step s (stop s).

Inductive reachable (s0 : t) : t -> Prop :=
| reach_refl : reachable s0 s0
| reach_step s s' : reachable s0 s -> step s s' -> reachable s0 s'.

End BrokerHeartbeatService.

(** ** The state machine *)

Module HeartbeatFacts.
Import BrokerHeartbeatService.

(** The state after a sequence of results, oldest first. *)
Definition run (threshold : Z) (c : ConnState) (rs : list (HeartbeatResult * float)) : ConnState :=
  foldl (fun c x => _apply_result threshold c (fst x) (snd x)) c rs.

(** The results since the last success, newest first. *)
Fixpoint failing_suffix (newest_first : list (HeartbeatResult * float)) : list HeartbeatResult :=
  match newest_first with
  | [] => []
  | (r, _) :: rest => if ok r then [] else r :: failing_suffix rest
  end.

(** Reference: what the state should be, from the whole history.  Degraded or
    disconnected once the failures since the last success reach the threshold,
    as the latest failure reports the broker; otherwise connected if there was
    a success at all. *)
Definition expected_state (threshold : Z) (rs : list (HeartbeatResult * float)) : HeartbeatState :=
  let fs := failing_suffix (rev rs) in
  if threshold <=? py_len fs then
    match fs with r :: _ => if broker_connected r then DEGRADED else DISCONNECTED | [] => UNKNOWN end
  else if existsb (fun x => ok (fst x)) rs then CONNECTED else UNKNOWN.

Definition fresh_conn (p a : string) (i : nat) : ConnState := mk_conn p a 0 UNKNOWN fzero i.

Lemma failing_suffix_all rs : existsb (fun x => ok (fst x)) rs = false -> py_len (failing_suffix rs) = py_len rs.
Proof.
  induction rs as [|[r x] rs IH]; simpl; [done|]. destruct (ok r); simpl; [done|].
  intros H. rewrite !py_len_cons, IH; done.
Qed.

Lemma existsb_rev {A} (f : A -> bool) l : existsb f (rev l) = existsb f l.
Proof.
  induction l as [|x l IH]; simpl; [done|]. rewrite existsb_app, IH. simpl.
  rewrite orb_false_r. apply orb_comm.
Qed.

Lemma run_spec threshold p a i rs :
  1 <= threshold ->
  let c := run threshold (fresh_conn p a i) rs in
  consecutive_failures c = py_len (failing_suffix (rev rs)) /\ state c = expected_state threshold rs.
Proof.
  intros Ht. induction rs as [|[r now] rs [IHf IHs]] using rev_ind; cbv zeta.
  { split; [done|]. unfold expected_state. simpl. by rewrite (proj2 (Z.leb_gt _ _)) by (unfold py_len; simpl; lia). }
  cbv zeta in IHf, IHs. unfold run in *. rewrite foldl_app. cbn [foldl fst snd].
  set (c := foldl _ _ rs) in *. unfold _apply_result, expected_state in *.
  rewrite rev_app_distr. cbn [rev app failing_suffix]. rewrite existsb_app. cbn [existsb fst].
  destruct (ok r) eqn:Eo; cbn [consecutive_failures state].
  - split; [done|]. rewrite (proj2 (Z.leb_gt _ _)) by (unfold py_len; simpl; lia). by rewrite orb_true_r.
  - rewrite py_len_cons, <- IHf, orb_false_r. split; [lia|].
    replace (1 + consecutive_failures c) with (consecutive_failures c + 1) by lia.
    destruct (threshold <=? consecutive_failures c + 1) eqn:E; zbool; [by destruct (broker_connected r)|].
    rewrite IHs, <- IHf. by rewrite (proj2 (Z.leb_gt _ _)) by lia.
Qed.

(** C40.  The health state is a function of the history.
    After any sequence of probe results on a new connection the failure counter
    is the number of failures since the last success, and the state is
    [CONNECTED] after a success until [failure_threshold] consecutive failures,
    from then on [DISCONNECTED] or [DEGRADED] as the latest failure reports the
    broker, and [UNKNOWN] while neither has happened; a single success recovers
    it. *)
Theorem heartbeat_state_exact (threshold : Z) (p a : string) (i : nat)
    (rs : list (HeartbeatResult * float)) :
  1 <= threshold ->
  let c := run threshold (fresh_conn p a i) rs in
  state c = expected_state threshold rs /\
  consecutive_failures c = py_len (failing_suffix (rev rs)) /\
  (forall r now, ok r = true -> state (_apply_result threshold c r now) = CONNECTED /\
     consecutive_failures (_apply_result threshold c r now) = 0).
Proof.
  intros Ht c. destruct (run_spec threshold p a i rs Ht) as [Hf Hs]. fold c in Hf, Hs.
  split; [done|]. split; [done|]. intros r now Hr. unfold _apply_result. by rewrite Hr.
Qed.

Definition good : HeartbeatResult := mk_result true true true fzero "".
Definition bad : HeartbeatResult := mk_result false false false fzero "TimeoutError".

Lemma heartbeat_state_exact_witness :
  state (run 2 (fresh_conn "mt5" "acc" 0) [(good, of_Z 1); (bad, of_Z 2); (bad, of_Z 3)]) = DISCONNECTED.
Proof.
  destruct (heartbeat_state_exact 2 "mt5" "acc" 0 [(good, of_Z 1); (bad, of_Z 2); (bad, of_Z 3)]) as [E _]; [lia|].
  rewrite E. reflexivity.
Defined.

(** ** The service *)

(** Live loops are exactly the loops of the registered connections, each of
    its own connection. *)
Record inv (s : t) : Prop := {
  inv_live : forall i, i ∈ live s <-> exists k c, connections s !! k = Some c /\ loop_task c = i;
  inv_distinct : forall k k' c c', connections s !! k = Some c -> connections s !! k' = Some c' ->
    loop_task c = loop_task c' -> k = k';
  inv_fresh : forall i, i ∈ live s -> (i < next_task s)%nat;
  inv_key : forall p a c, connections s !! (p, a) = Some c -> provider c = p /\ account_id c = a }.

Lemma service_inv_create i t n s : create i t n = Ok s -> inv s.
Proof.
  unfold create. intros H. repeat case_hyp H; try done. injection H as <-.
  constructor; simpl; intros.
  - split; [set_solver|]. intros (k & c & E & _). by rewrite lookup_empty in E.
  - by rewrite lookup_empty in *.
  - set_solver.
  - by rewrite lookup_empty in *.
Qed.

(** Removing a connection cancels exactly its loop. *)
Lemma cancel_live s k j :
  inv s -> j ∈ cancel_loop s (connections s !! k) <->
  exists k' c, k' <> k /\ connections s !! k' = Some c /\ loop_task c = j.
Proof.
  intros [Hl Hd Hf Hk]. unfold cancel_loop. destruct (connections s !! k) as [c|] eqn:E.
  - rewrite elem_of_difference, elem_of_singleton, Hl. split.
    + intros [(k' & c' & E' & <-) Hne]. exists k', c'. split; [|done]. intros ->. congruence.
    + intros (k' & c' & Hne & E' & <-). split; [eauto|]. intros Heq. apply Hne.
      by apply (Hd k' k c' c).
  - rewrite Hl. split.
    + intros (k' & c' & E' & <-). exists k', c'. split; [|done]. intros ->. congruence.
    + intros (k' & c' & _ & E' & <-). eauto.
Qed.

Lemma inv_register s p a : inv s -> inv (register s p a).
Proof.
  intros Hi. pose proof (cancel_live s (p, a)) as Hc. pose proof Hi as [Hl Hd Hf Hk].
  assert (Hn : forall k c, connections s !! k = Some c -> (loop_task c < next_task s)%nat)
    by (intros k c E; apply Hf, Hl; eauto).
  constructor; simpl.
  - intros i. rewrite elem_of_union, elem_of_singleton, Hc by done. split.
    + intros [->|(k' & c & Hne & E & <-)].
      * eexists _, _. by rewrite lookup_insert_eq.
      * exists k', c. by rewrite lookup_insert_ne.
    + intros (k' & c & E & <-). apply lookup_insert_Some in E as [[<- <-]|[Hne E]]; [by left|].
      right. exists k', c. done.
  - intros k k' c c'. rewrite !lookup_insert_Some. intros [[<- <-]|[Hne E]] [[<- <-]|[Hne' E']]; simpl.
    + done.
    + intros Heq. apply Hn in E'. lia.
    + intros Heq. apply Hn in E. lia.
    + by eapply Hd.
  - intros i. rewrite elem_of_union, elem_of_singleton, Hc by done.
    intros [->|(k' & c & _ & E & <-)]; [lia|]. apply Hn in E. lia.
  - intros p' a' c. rewrite lookup_insert_Some. intros [[[= <- <-] <-]|[_ E]]; [done|by apply Hk].
Qed.

Lemma inv_unregister s p a : inv s -> inv (snd (unregister s p a)).
Proof.
  intros Hi. unfold unregister. destruct (connections s !! (p, a)) as [c0|] eqn:E0; [|done].
  pose proof (cancel_live s (p, a)) as Hc. rewrite E0 in Hc. pose proof Hi as [Hl Hd Hf Hk].
  constructor; cbn [snd set_conns live connections next_task].
  - intros i. rewrite Hc by done. split.
    + intros (k' & c & Hne & E & <-). exists k', c. by rewrite lookup_delete_ne.
    + intros (k' & c & E & <-). apply lookup_delete_Some in E as [Hne E]. exists k', c. done.
  - intros k k' c c' E E'. apply lookup_delete_Some in E as [_ E], E' as [_ E']. by eapply Hd.
  - intros i. rewrite Hc by done. intros (k' & c & _ & E & <-). apply Hf, Hl. eauto.
  - intros p' a' c E. apply lookup_delete_Some in E as [_ E]. by apply Hk.
Qed.

(** A turn changes neither the keys nor the loops. *)
Lemma inv_turn s key c o now :
  inv s -> connections s !! key = Some c -> inv (snd (loop_turn s key o now)).
Proof.
  intros [Hl Hd Hf Hk] E. unfold loop_turn. rewrite E. set (c' := _apply_result _ _ _ _).
  assert (Et : loop_task c' = loop_task c /\ provider c' = provider c /\ account_id c' = account_id c)
    by (unfold c', _apply_result; by case_match).
  destruct Et as (Et & Ep & Ea). clearbody c'.
  constructor; cbn [snd set_conns live connections next_task].
  - intros i. rewrite Hl. split.
    + intros (k & d & Ed & <-). destruct (decide (key = k)) as [<-|Hne].
      * exists key, c'. rewrite lookup_insert_eq. split; [done|]. congruence.
      * exists k, d. by rewrite lookup_insert_ne.
    + intros (k & d & Ed & <-). apply lookup_insert_Some in Ed as [[<- <-]|[_ Ed]]; [rewrite Et|]; eauto.
  - intros k k' d d'. rewrite !lookup_insert_Some.
    intros [[<- <-]|[Hne Ed]] [[<- <-]|[Hne' Ed']]; rewrite ?Et; intros Heq; try done.
    + by apply (Hd key k' c d').
    + by apply (Hd k key d c).
    + by apply (Hd k k' d d').
  - done.
  - intros p a d. rewrite lookup_insert_Some. intros [[-> <-]|[_ Ed]]; [|by apply Hk].
    rewrite Ep, Ea. by apply Hk.
Qed.

Lemma inv_stop s : inv s -> inv (stop s).
Proof.
  intros [Hl Hd Hf Hk].
  assert (He : live (stop s) = ∅).
  { unfold stop. cbn [live]. apply set_eq. intros i. rewrite elem_of_difference, elem_of_list_to_set. split; [|set_solver].
    intros [Hi Hn]. exfalso. apply Hn. apply Hl in Hi as (k & c & E & <-).
    apply list_elem_of_In, in_map_iff. exists (k, c). split; [done|]. apply list_elem_of_In. by apply elem_of_map_to_list. }
  constructor; rewrite ?He; simpl; intros; rewrite ?lookup_empty in *; try done.
  - split; [set_solver|]. intros (k & c & E & _). by rewrite lookup_empty in E.
Qed.

Lemma service_inv_reachable s0 s : inv s0 -> reachable s0 s -> inv s.
Proof.
  intros H0. induction 1 as [|s s' _ IH Hs]; [done|]. destruct Hs.
  - by apply inv_register.
  - by apply inv_unregister.
  - by eapply inv_turn.
  - by apply inv_stop.
Qed.

(** One loop per connection, and no orphan loop.  From a new service,
    whatever the order of registrations, re-registrations, removals and turns:
    every registered connection has exactly one live probe loop, no two
    connections share one, every live loop belongs to a registered connection,
    and after [stop] no loop is live and every state reads [UNKNOWN]. *)
Theorem heartbeat_one_loop (i t : float) (n : Z) (s0 s : BrokerHeartbeatService.t) :
  create i t n = Ok s0 -> reachable s0 s ->
  (forall k c, connections s !! k = Some c -> loop_task c ∈ live s) /\
  (forall j, j ∈ live s -> exists k c, connections s !! k = Some c /\ loop_task c = j /\
     forall k' c', connections s !! k' = Some c' -> loop_task c' = j -> k' = k) /\
  (live (stop s) = ∅ /\ forall p a, state_of (stop s) p a = UNKNOWN).
Proof.
  intros Hc Hr. pose proof (service_inv_reachable s0 s (service_inv_create _ _ _ _ Hc) Hr) as Hi.
  pose proof Hi as [Hl Hd Hf Hk]. split; [|split; [|split]].
  - intros k c E. apply Hl. eauto.
  - intros j Hj. apply Hl in Hj as (k & c & E & <-). exists k, c. split; [done|]. split; [done|].
    intros k' c' E' Heq. by apply (Hd k' k c' c).
  - apply set_eq. intros j. split; [|set_solver]. intros Hj.
    apply (inv_live _ (inv_stop s Hi)) in Hj as (k & c & E & _). simpl in E. by rewrite lookup_empty in E.
  - intros p a. unfold state_of. simpl. by rewrite lookup_empty.
Qed.

Lemma heartbeat_one_loop_witness :
  exists s0 s, create (of_Z 10) (of_Z 5) 3 = Ok s0 /\ reachable s0 s /\
    live s = {[1%nat]} /\ exists c, connections s !! ("mt5", "acc") = Some c /\ loop_task c ∈ live s.
Proof.
  eexists. exists (register (register (mk (of_Z 10) (of_Z 5) 3 ∅ ∅ 0 false) "mt5" "acc") "mt5" "acc").
  assert (Hc : create (of_Z 10) (of_Z 5) 3 = Ok (mk (of_Z 10) (of_Z 5) 3 ∅ ∅ 0 false)) by (vm_compute; reflexivity).
  split; [exact Hc|].
  assert (Hr : reachable (mk (of_Z 10) (of_Z 5) 3 ∅ ∅ 0 false)
    (register (register (mk (of_Z 10) (of_Z 5) 3 ∅ ∅ 0 false) "mt5" "acc") "mt5" "acc")).
  { eapply reach_step; [eapply reach_step; [apply reach_refl|]|]; apply step_register; reflexivity. }
  split; [exact Hr|]. split; [vm_compute; reflexivity|].
  destruct (heartbeat_one_loop _ _ _ _ _ Hc Hr) as [H _].
  eexists. split; [vm_compute; reflexivity|]. apply (H ("mt5", "acc")). vm_compute. reflexivity.
Defined.
End HeartbeatFacts.
