(* ===== verification/RedisCache.v ===== *)
(** * The shared cache: [engine/shared/cache/redis_cache.py]

    A client of a Redis server.  Every operation checks its key, sends one command
    with retries on lost connections and timeouts, and decodes the reply.  The
    commands are awaited one at a time ([PyAsync]); an attempt that
    [asyncio.timeout] cuts short is a reply [TimeoutError].  The server is the
    environment of the programs, the JSON codec ([orjson]) and the texts of
    exceptions are parameters.  Counters, log lines, the publish-subscribe object
    and the closing of the connection pool are not modelled. *)

From Stdlib Require Import ZArith Lia Bool Ascii String.
From stdpp Require Import base list strings.
From S2P Require Import Prelude PyFloat FloatRound FloatFloor PyText PyRepr PyValues PyAsync RateLimiter.

#[local] Open Scope string_scope.
#[local] Open Scope Z_scope.
#[local] Open Scope list_scope.

(** ** Commands *)

(** What the client asks of the server; [R_release] is the script that deletes a
    key holding the given value. *)
Inductive redis :=
| R_get (key : string)
| R_set (key value : string) (ex : Z)
| R_set_nx (key value : string) (ex : Z)
| R_release (key value : string)
| R_delete (key : string)
| R_ping
| R_incr (key : string)
| R_expire (key : string) (seconds : Z)
| R_publish (channel message : string).

#[global] Instance redis_effect : Effect redis := fun c =>
  match c with
  | R_get _ => option string
  | R_set _ _ _ | R_set_nx _ _ _ | R_ping | R_expire _ _ => bool
  | R_release _ _ | R_delete _ | R_incr _ | R_publish _ _ => Z
  end.

(** Commands of a service: the server's, the event loop's and its own. *)
Inductive cmd (X : Type) :=
| Redis (c : redis)
| Sleep (delay : float)
| Monotonic
| UnixTime
| Uuid
| Call (x : X).
Arguments Redis {_} _.
Arguments Sleep {_} _.
Arguments Monotonic {_}.
Arguments UnixTime {_}.
Arguments Uuid {_}.
Arguments Call {_} _.

#[global] Instance cmd_effect {X} `{Effect X} : Effect (cmd X) := fun c =>
  match c with
  | Redis c => reply c
  | Sleep _ => unit
  | Monotonic => float
  | UnixTime => Z
  | Uuid => string
  | Call x => reply x
  end.

(** ** Exceptions *)

Definition is_transient (e : exn) : bool :=
  match e with TimeoutError | RedisConnectionError | RedisTimeoutError => true | _ => false end.

Definition is_redis_error (e : exn) : bool :=
  match e with RedisConnectionError | RedisTimeoutError | RedisError => true | _ => false end.

(** [CacheError] and its subclasses. *)
Definition is_cache_error (e : exn) : bool :=
  match e with
  | CacheValidationError _ | CacheTimeoutError _ | CacheConnectionError _ | CacheError _ => true
  | _ => false
  end.

(** [except (CacheValidationError, CacheTimeoutError, CacheConnectionError)]. *)
Definition is_reraised (e : exn) : bool :=
  match e with CacheValidationError _ | CacheTimeoutError _ | CacheConnectionError _ => true | _ => false end.

(** ** The client *)

Definition MAX_CACHE_VALUE_SIZE : Z := 10 * 1024 * 1024.
Definition MAX_KEY_LENGTH : Z := 256.
Definition MAX_NAMESPACE_LENGTH : Z := 64.

Definition is_alnum (a : ascii) : bool :=
  let n := nat_of_ascii a in
  ((48 <=? n) && (n <=? 57) || (65 <=? n) && (n <=? 90) || (97 <=? n) && (n <=? 122))%nat.

Fixpoint all_chars (p : ascii -> bool) (s : string) : bool :=
  match s with EmptyString => true | String a s => p a && all_chars p s end.

Definition str_isalnum (s : string) : bool := negb (str_empty s) && all_chars is_alnum s.

Module RedisCache.

Record t := mk { _key_prefix : string; _operation_timeout : float; _max_retries : Z }.

Definition default : t := mk "etradie" (lit 30 1) 3.

Definition _validate_namespace (namespace : string) : res unit :=
  if str_empty namespace then Raise (CacheValidationError "Namespace cannot be empty")
  else if MAX_NAMESPACE_LENGTH <? str_len namespace
  then Raise (CacheValidationError ("Namespace exceeds maximum length of " ++ str_int MAX_NAMESPACE_LENGTH))
  else if negb (str_isalnum (str_remove "-" (str_remove "_" namespace)))
  then Raise (CacheValidationError "Namespace must contain only alphanumeric characters, hyphens, and underscores")
  else Ok tt.

(** A new line, a carriage return or a blank. *)
Definition is_forbidden (a : ascii) : bool :=
  let n := nat_of_ascii a in ((n =? 10) || (n =? 13) || (n =? 32))%nat.

Definition _validate_key (key : string) : res unit :=
  if str_empty key then Raise (CacheValidationError "Key cannot be empty")
  else if MAX_KEY_LENGTH <? str_len key
  then Raise (CacheValidationError ("Key exceeds maximum length of " ++ str_int MAX_KEY_LENGTH))
  else if negb (all_chars (fun a => negb (is_forbidden a)) key)
  then Raise (CacheValidationError "Key contains invalid characters")
  else Ok tt.

Section Client.
Context {X : Type} `{Effect X}.
(** [orjson.loads] and [orjson.dumps], and [str(e)]. *)
Context (loads : string -> res json) (dumps : json -> res string) (str_exn : exn -> string).
Context (self : t).

Definition _make_key (namespace key : string) : res string :=
  _ ← _validate_namespace namespace;
  _ ← _validate_key key;
  Ok (_key_prefix self ++ ":" ++ namespace ++ ":" ++ key)%string.

(** [base_delay * (2**attempt) * (1 + time.monotonic() % 0.1)]. *)
Definition retry_delay (attempt : Z) (monotonic : float) : res float :=
  pow ← OutboundRateLimiter.float_of_int (2 ^ attempt);
  Ok (fmul (fmul (lit 1 1) pow) (fadd fone (ffmod monotonic (lit 1 1)))).

(** The exception raised when the attempts are used. *)
Definition exhausted (operation : string) (last_error : option exn) : exn :=
  match last_error with
  | Some TimeoutError =>
      CacheTimeoutError (operation ++ " exceeded timeout of " ++ py_str_float (_operation_timeout self) ++ "s")
  | Some RedisConnectionError | Some RedisTimeoutError => CacheConnectionError (operation ++ " connection failed")
  | _ => CacheError (operation ++ " failed after " ++ str_int (_max_retries self) ++ " retries")
  end.

(** The attempts numbered [todo]. *)
Fixpoint attempts (operation : string) (c : redis) (todo : list Z) (last_error : option exn) :
    prog (cmd X) (reply c) :=
  match todo with
  | [] => Ret (Raise (exhausted operation last_error))
  | attempt :: todo =>
      Await (Redis c : cmd X) (fun r =>
        match r with
        | Ok v => Ret (Ok v)
        | Raise e =>
            if is_transient e then
              if attempt <? _max_retries self - 1 then
                now ← send Monotonic;
                delay ← pure (retry_delay attempt now);
                _ ← send (Sleep delay);
                attempts operation c todo (Some e)
              else attempts operation c todo (Some e)
            else Ret (Raise e)
        end)
  end.

Definition _execute_with_retry (operation : string) (c : redis) : prog (cmd X) (reply c) :=
  attempts operation c (py_range 0 (_max_retries self)) None.

(** [None] is [JNull]. *)
Definition get (namespace key : string) : prog (cmd X) json :=
  full_key ← pure (_make_key namespace key);
  try_except
    (raw ← _execute_with_retry "get" (R_get full_key);
     match raw with
     | None => mret JNull
     | Some raw => pure (loads raw)
     end)
    (fun e =>
       if is_reraised e then Ret (Raise e)
       else if is_redis_error e then Ret (Raise (CacheError ("Redis error during get: " ++ str_exn e)))
       else Ret (Raise (CacheError ("Unexpected error during get: " ++ str_exn e)))).

Definition set (namespace key : string) (value : json) (ttl_seconds : Z) : prog (cmd X) bool :=
  full_key ← pure (_make_key namespace key);
  if ttl_seconds <=? 0 then Ret (Raise (CacheValidationError "TTL must be positive"))
  else
    try_except
      (raw ← pure (dumps value);
       if MAX_CACHE_VALUE_SIZE <? str_len raw
       then Ret (Raise (CacheValidationError
              ("Value size " ++ str_int (str_len raw) ++ " exceeds maximum of " ++ str_int MAX_CACHE_VALUE_SIZE ++ " bytes")))
       else
         _ ← _execute_with_retry "set" (R_set full_key raw ttl_seconds);
         mret true)
      (fun e => if is_reraised e then Ret (Raise e) else mret false).

Definition delete (namespace key : string) : prog (cmd X) bool :=
  full_key ← pure (_make_key namespace key);
  try_except
    (_ ← _execute_with_retry "delete" (R_delete full_key);
     mret true)
    (fun e => if is_reraised e then Ret (Raise e) else mret false).

Definition health_check : prog (cmd X) bool :=
  try_except (_execute_with_retry "health_check" R_ping : prog (cmd X) bool) (fun _ => mret false).

(** Raw keys: neither prefix nor validation. *)
Definition increment (raw_key : string) : prog (cmd X) Z := _execute_with_retry "incr" (R_incr raw_key).

Definition expire (raw_key : string) (seconds : Z) : prog (cmd X) unit :=
  _ ← _execute_with_retry "expire" (R_expire raw_key seconds);
  mret tt.

Definition publish (channel : string) (message : json) : prog (cmd X) Z :=
  try_except
    (raw ← pure (dumps message);
     (_execute_with_retry "publish" (R_publish channel raw) : prog (cmd X) Z))
    (fun _ => mret 0).

(** *** Entries with the time they were stored *)

Definition set_with_meta (namespace key : string) (value : json) (ttl_seconds : Z) : prog (cmd X) bool :=
  t ← send UnixTime;
  set namespace key (JObj [("v", value); ("t", JInt t)]) ttl_seconds.

(** [max(0, int(time.time()) - int(t))], or [None] on [TypeError] and [ValueError]. *)
Definition entry_age (t : json) : prog (cmd X) (option Z) :=
  try_except
    (now ← send UnixTime;
     t ← pure (json_int t);
     mret (Some (Z.max 0 (now - t))))
    (fun e => match e with TypeError | ValueError _ => mret None | _ => Ret (Raise e) end).

Definition get_with_meta (namespace key : string) : prog (cmd X) (json * option Z) :=
  raw ← get namespace key;
  match raw with
  | JNull => mret (JNull, None)
  | JObj d =>
      match obj_get "v" d, obj_get "t" d with
      | Some v, Some t => age ← entry_age t; mret (v, age)
      | _, _ => mret (raw, None)
      end
  | _ => mret (raw, None)
  end.

Definition get_meta_only (namespace key : string) : prog (cmd X) (bool * option Z) :=
  full_key ← pure (_make_key namespace key);
  settle (_execute_with_retry "get_meta_only" (R_get full_key)) (fun r =>
    match r with
    | Raise e => if is_cache_error e then mret (false, None) else Ret (Raise e)
    | Ok None => mret (false, None)
    | Ok (Some raw_bytes) =>
        match loads raw_bytes with
        | Raise _ => mret (true, None)
        | Ok (JObj d) =>
            match obj_get "t" d, obj_get "v" d with
            | Some t, Some _ => age ← entry_age t; mret (true, age)
            | _, _ => mret (true, None)
            end
        | Ok _ => mret (true, None)
        end
    end).

(** *** The lock *)

Definition try_acquire_lock (namespace key token : string) (ttl_seconds : Z) : prog (cmd X) bool :=
  full_key ← pure (_make_key namespace key);
  if str_empty token then Ret (Raise (CacheValidationError "Lock token must not be empty"))
  else if ttl_seconds <=? 0 then Ret (Raise (CacheValidationError "Lock TTL must be positive"))
  else
    try_except
      (_execute_with_retry "set_nx" (R_set_nx full_key token ttl_seconds) : prog (cmd X) bool)
      (fun e => if is_cache_error e then mret false else Ret (Raise e)).

Definition release_lock (namespace key token : string) : prog (cmd X) bool :=
  full_key ← pure (_make_key namespace key);
  if str_empty token then mret false
  else
    try_except
      (result ← (_execute_with_retry "release_lock" (R_release full_key token) : prog (cmd X) Z);
       mret (negb (result =? 0)))
      (fun e => if is_cache_error e then mret false else Ret (Raise e)).
End Client.
End RedisCache.
