(* ===== verification/Idempotency.v ===== *)
(** * One model call per input: [engine/processor/idempotency.py]

    and [_execute_guarded] of [engine/processor/service.py].  Requests for the same
    user, symbol and prompt share a digest; the first takes a lock in the cache
    and runs the pipeline, the others wait for its result.

    The pipeline itself ([_execute]) is a command, [Execute], awaited like any
    other: between its sending and its reply the call to the language model is
    running.  The input of a request is abstract with its symbol and its prompt
    hash; the output is abstract with the conversions to and from JSON. *)

From Stdlib Require Import ZArith Lia Bool Ascii String.
From stdpp Require Import base list strings.
From S2P Require Import Prelude PyFloat PyText PyRepr PyValues Sha256 PyAsync RedisCache.

#[local] Open Scope string_scope.
#[local] Open Scope Z_scope.
#[local] Open Scope list_scope.

Definition _NAMESPACE : string := "proc_idem".
Definition _LOCK_TTL_SECONDS : Z := 600.
Definition _RESULT_TTL_SECONDS : Z := 120.
Definition _AWAIT_TIMEOUT_SECONDS : float := lit 50 1.
Definition _AWAIT_POLL_INTERVAL_SECONDS : float := lit 25 2.

Definition compute_digest (user_id symbol prompt_hash : string) : string :=
  sha256_hexdigest (user_id ++ ":" ++ symbol ++ ":" ++ prompt_hash)%string.

Definition _lock_key (digest : string) : string := ("lock:" ++ digest)%string.
Definition _result_key (digest : string) : string := ("result:" ++ digest)%string.

Record LockHandle := mk_handle { digest : string; token : string }.

(** The pipeline as a command. *)
Inductive pipeline (Context Output : Type) := Execute (context : Context) (user_id : string).
Arguments Execute {_ _} _ _.

#[global] Instance pipeline_effect {C Out} : Effect (pipeline C Out) := fun _ => Out.

Module ProcessorIdempotency.
Section Guard.
Context {C Out : Type}.
Context (loads : string -> res json) (dumps : json -> res string) (str_exn : exn -> string).
(** [output.model_dump(mode="json")] and [ProcessorOutput( **raw)]. *)
Context (model_dump : Out -> json) (of_dict : object -> res Out).
Context (_cache : RedisCache.t).

Notation program := (prog (cmd (pipeline C Out))).

Definition check_cached (digest : string) : program (option Out) :=
  settle (RedisCache.get loads str_exn _cache _NAMESPACE (_result_key digest)) (fun r =>
    match r with
    | Raise _ => mret None
    | Ok (JObj raw) => match of_dict raw with Ok o => mret (Some o) | Raise _ => mret None end
    | Ok _ => mret None
    end).

Definition acquire (digest : string) : program (option LockHandle) :=
  token ← send Uuid;
  settle (RedisCache.try_acquire_lock _cache _NAMESPACE (_lock_key digest) token _LOCK_TTL_SECONDS) (fun r =>
    match r with
    | Raise _ => mret (Some (mk_handle digest token))
    | Ok acquired => mret (if acquired then Some (mk_handle digest token) else None)
    end).

(** [while time.monotonic() < deadline], [turns] times at most. *)
Fixpoint await_loop (turns : nat) (digest : string) (deadline : float) : program (option Out) :=
  match turns with
  | O => Spin
  | S turns =>
      now ← send Monotonic;
      if flt now deadline then
        cached ← check_cached digest;
        match cached with
        | Some o => mret (Some o)
        | None => _ ← send (Sleep _AWAIT_POLL_INTERVAL_SECONDS); await_loop turns digest deadline
        end
      else mret None
  end.

Definition await_result (turns : nat) (digest : string) : program (option Out) :=
  now ← send Monotonic;
  await_loop turns digest (fadd now _AWAIT_TIMEOUT_SECONDS).

Definition store_result (digest : string) (output : Out) : program unit :=
  settle (RedisCache.set dumps _cache _NAMESPACE (_result_key digest) (model_dump output) _RESULT_TTL_SECONDS)
    (fun _ => mret tt).

Definition release (handle : LockHandle) : program unit :=
  settle (RedisCache.release_lock _cache _NAMESPACE (_lock_key (digest handle)) (token handle)) (fun _ => mret tt).
End Guard.
End ProcessorIdempotency.

(** ** The guarded call: [engine/processor/service.py] *)

Module AnalysisProcessor.
Import ProcessorIdempotency.
Section Process.
Context {C Out : Type} (symbol_of : C -> string) (prompt_hash_of : C -> string).
Context (loads : string -> res json) (dumps : json -> res string) (str_exn : exn -> string).
Context (model_dump : Out -> json) (of_dict : object -> res Out).

Notation program := (prog (cmd (pipeline C Out))).

Definition _execute (context : C) (user_id : string) : program Out := send (Call (Execute context user_id)).

Definition request_digest (context : C) (user_id : string) : string :=
  compute_digest user_id (symbol_of context) (prompt_hash_of context).

Definition _execute_guarded (turns : nat) (_cache : option RedisCache.t) (context : C) (user_id : string) :
    program Out :=
  match _cache with
  | None => _execute context user_id
  | Some _cache =>
      if str_empty user_id then _execute context user_id
      else
        let digest := request_digest context user_id in
        cached ← check_cached loads str_exn of_dict _cache digest;
        match cached with
        | Some o => mret o
        | None =>
            handle ← acquire _cache digest;
            match handle with
            | None =>
                owner_result ← await_result loads str_exn of_dict _cache turns digest;
                match owner_result with
                | Some o => mret o
                | None => Ret (Raise LLMDuplicateSuppressedError)
                end
            | Some handle =>
                try_finally
                  (result ← _execute context user_id;
                   _ ← store_result dumps model_dump _cache digest result;
                   mret result)
                  (release _cache handle)
            end
        end
  end.
End Process.
End AnalysisProcessor.
