(* ===== verification/GuardFacts.v ===== *)
(** * GuardFacts: what the idempotency guard guarantees

    The server is an interface ([RedisServer]) with the laws the guard relies on,
    and an instance over finite maps.  Requests run concurrently, one command at a
    time, in any order; a command that raises (a lost connection, a time limit, an
    error reply) may still take effect later ([flight]), and any key may expire at
    any time ([expired]). *)

From Stdlib Require Import ZArith Lia Bool Ascii String.
From stdpp Require Import base list strings gmap relations.
From S2P Require Import Prelude PyFloat FloatRound FloatMono FloatGrid FloatFloor PyText PyRepr PyValues Sha256 PyAsync RateLimiter RedisCache Idempotency.

#[local] Open Scope string_scope.
#[local] Open Scope Z_scope.
#[local] Open Scope list_scope.

(** ** Keys *)

Module KeyFacts.

Lemma all_chars_app p s t : all_chars p (s ++ t)%string = all_chars p s && all_chars p t.
Proof.
  induction s as [|a s IH]; [by rewrite ReprFacts.str_nil_app|].
  rewrite ReprFacts.str_cons_app. cbn [all_chars]. by rewrite IH, andb_assoc.
Qed.

Definition plain_char (a : ascii) : bool := negb (RedisCache.is_forbidden a).

Lemma hex_digit_plain n : 0 <= n < 16 -> plain_char (hex_digit n) = true.
Proof.
  apply (Z_below (fun n => plain_char (hex_digit n)) 16). vm_compute. reflexivity.
Qed.

Lemma hex_plain w n : all_chars plain_char (hex w n) = true.
Proof.
  revert n. induction w as [|w IH]; intros n; cbn [hex]; [done|].
  rewrite all_chars_app, IH. cbn [all_chars]. rewrite hex_digit_plain by (apply Z.mod_pos_bound; lia). done.
Qed.

Lemma digest_plain s : all_chars plain_char (sha256_hexdigest s) = true.
Proof.
  unfold sha256_hexdigest. generalize (sha256 (str_bytes s)) as ws.
  induction ws as [|w ws IH]; cbn [fold_right]; [done|]. by rewrite all_chars_app, hex_plain, IH.
Qed.

(** The keys of the guard. *)
Definition lock_name (c : RedisCache.t) (d : string) : string :=
  (RedisCache._key_prefix c ++ ":" ++ _NAMESPACE ++ ":" ++ _lock_key d)%string.
Definition result_name (c : RedisCache.t) (d : string) : string :=
  (RedisCache._key_prefix c ++ ":" ++ _NAMESPACE ++ ":" ++ _result_key d)%string.

Definition short_plain (d : string) : Prop := (String.length d <= 64)%nat /\ all_chars plain_char d = true.

Lemma digest_short_plain s : short_plain (sha256_hexdigest s).
Proof. split; [by rewrite sha256_hexdigest_length|apply digest_plain]. Qed.

Lemma make_key_valid c key :
  str_empty key = false -> (String.length key <= 256)%nat -> all_chars plain_char key = true ->
  RedisCache._make_key c _NAMESPACE key = Ok (RedisCache._key_prefix c ++ ":" ++ _NAMESPACE ++ ":" ++ key)%string.
Proof.
  intros He Hl Hp. unfold RedisCache._make_key. change (RedisCache._validate_namespace _NAMESPACE) with (Ok tt).
  cbn [mbind res_bind]. unfold RedisCache._validate_key. rewrite He. unfold str_len, MAX_KEY_LENGTH.
  rewrite (proj2 (Z.ltb_ge _ _)) by lia. unfold plain_char in Hp. by rewrite Hp.
Qed.

Lemma lock_key_made c d : short_plain d -> RedisCache._make_key c _NAMESPACE (_lock_key d) = Ok (lock_name c d).
Proof.
  intros [Hl Hp]. apply make_key_valid; [done| |].
  - unfold _lock_key. rewrite ReprFacts.str_length_app. cbn [String.length]. lia.
  - unfold _lock_key. by rewrite all_chars_app, Hp.
Qed.

Lemma result_key_made c d : short_plain d -> RedisCache._make_key c _NAMESPACE (_result_key d) = Ok (result_name c d).
Proof.
  intros [Hl Hp]. apply make_key_valid; [done| |].
  - unfold _result_key. rewrite ReprFacts.str_length_app. cbn [String.length]. lia.
  - unfold _result_key. by rewrite all_chars_app, Hp.
Qed.

Lemma lock_name_inj c d d' : lock_name c d = lock_name c d' -> d = d'.
Proof. unfold lock_name, _lock_key. intros E. by do 4 apply str_app_cancel in E; apply str_app_cancel in E. Qed.

Lemma result_not_lock c d d' : result_name c d <> lock_name c d'.
Proof.
  unfold result_name, lock_name. intros E. do 4 apply str_app_cancel in E. unfold _result_key, _lock_key in E.
  rewrite !ReprFacts.str_cons_app in E. discriminate E.
Qed.
End KeyFacts.

(** ** The server *)

(** What the guard relies on: the value a key has, and the effect of the four
    commands it sends. *)
Class RedisServer (S : Type) := {
  look : S -> string -> option string;
  exec : forall c : redis, S -> reply c * S;
  get_law : forall s k, fst (exec (R_get k) s) = look s k /\ forall k', look (snd (exec (R_get k) s)) k' = look s k';
  set_law : forall s k v ex k', look (snd (exec (R_set k v ex) s)) k' = if decide (k' = k) then Some v else look s k';
  set_nx_law : forall s k v ex,
    fst (exec (R_set_nx k v ex) s) = match look s k with Some _ => false | None => true end /\
    forall k', look (snd (exec (R_set_nx k v ex) s)) k' =
      if decide (k' = k /\ look s k = None) then Some v else look s k';
  release_law : forall s k v,
    fst (exec (R_release k v) s) = (if decide (look s k = Some v) then 1 else 0) /\
    forall k', look (snd (exec (R_release k v) s)) k' =
      if decide (k' = k /\ look s k = Some v) then None else look s k' }.

(** A server over finite maps. *)
Definition map_exec (c : redis) (m : gmap string string) : reply c * gmap string string :=
  match c return reply c * gmap string string with
  | R_get k => (m !! k, m)
  | R_set k v _ => (true, <[k := v]> m)
  | R_set_nx k v _ => match m !! k with Some _ => (false, m) | None => (true, <[k := v]> m) end
  | R_release k v => if decide (m !! k = Some v) then (1, delete k m) else (0, m)
  | R_delete k => (match m !! k with Some _ => 1 | None => 0 end, delete k m)
  | R_ping => (true, m)
  | R_incr k => (1, <[k := "1"]> m)
  | R_expire k _ => (match m !! k with Some _ => true | None => false end, m)
  | R_publish _ _ => (0, m)
  end.

#[global, refine] Instance map_server : RedisServer (gmap string string) :=
  {| look := fun m k => m !! k; exec := map_exec |}.
Proof.
  - done.
  - intros s k v ex k'. cbn. destruct (decide (k' = k)) as [->|]; [by rewrite lookup_insert_eq|by rewrite lookup_insert_ne].
  - intros s k v ex. cbn. destruct (s !! k) as [x|] eqn:E; (split; [done|]); intros k'; cbn [snd].
    + by destruct (decide _) as [[_ [=]]|].
    + destruct (decide _) as [[-> _]|Hn]; [by rewrite lookup_insert_eq|]. rewrite lookup_insert_ne; [done|]. intros <-. by apply Hn.
  - intros s k v. cbn. destruct (decide (s !! k = Some v)) as [E|E]; (split; [done|]); intros k'; cbn [snd].
    + destruct (decide _) as [[-> _]|Hn]; [by rewrite lookup_delete_eq|]. rewrite lookup_delete_ne; [done|]. intros <-. by apply Hn.
    + by destruct (decide _) as [[_ ?]|].
Defined.

(** ** Concurrent requests *)

Module Flight.
Import KeyFacts RedisCache ProcessorIdempotency AnalysisProcessor.

(** How far a request is: it has no token yet, a token, the lock, its [SET NX] was
    answered with an error that is not a lost connection, or it has asked for the
    release. *)
Inductive stage :=
| Fresh | Named (token : string) | Holding (key token : string) | Open (token : string) | Released (token : string).

Definition token_of (g : stage) : option string :=
  match g with Fresh => None | Named t | Holding _ t | Open t | Released t => Some t end.

Section Flight.
Context {C Out : Type} (symbol_of prompt_hash_of : C -> string).
Context {S : Type} `{RedisServer S} (cache : RedisCache.t).

Notation command := (cmd (pipeline C Out)).

Definition advance (g : stage) (c : command) : res (reply c) -> stage :=
  match c return res (reply c) -> stage with
  | Uuid => fun r => match r with Ok t => Named t | Raise _ => g end
  | Redis (R_set_nx k v _) => fun r =>
      match r with Ok true => Holding k v | Ok false => g | Raise e => if is_transient e then g else Open v end
  | Redis (R_release _ v) => fun _ => Released v
  | _ => fun _ => g
  end.

(** The server's data, the commands that may still take effect, the tokens drawn so
    far, and the keys that expired with the values they had. *)
Record service := mk_service {
  data : S; flight : list redis; issued : list string; expired : list (string * string) }.

(** A command is executed and answered, or raises any exception (a lost connection,
    a time limit, an error reply) and may be executed later or never.  Tokens are
    new. *)
Definition serve (w : service) (c : command) : res (reply c) -> service -> Prop :=
  match c return res (reply c) -> service -> Prop with
  | Redis rc => fun r w' =>
      (r = Ok (fst (exec rc (data w))) /\ w' = mk_service (snd (exec rc (data w))) (flight w) (issued w) (expired w)) \/
      (exists e, r = Raise e /\ w' = mk_service (data w) (rc :: flight w) (issued w) (expired w))
  | Uuid => fun r w' =>
      exists t, r = Ok t /\ t <> "" /\ t ∉ issued w /\ w' = mk_service (data w) (flight w) (t :: issued w) (expired w)
  | Sleep _ | Monotonic | UnixTime => fun r w' => (exists v, r = Ok v) /\ w' = w
  | Call _ => fun r w' => w' = w
  end.

(** An unanswered command takes effect; a key expires, a lock that is being held
    too. *)
Inductive drift (gs : list stage) (w : service) : service -> Prop :=
| drift_land a rc b :
    flight w = a ++ rc :: b -> drift gs w (mk_service (snd (exec rc (data w))) (a ++ b) (issued w) (expired w))
| drift_expire k x s' :
    look (data w) k = Some x -> (forall k', look s' k' = if decide (k' = k) then None else look (data w) k') ->
    drift gs w (mk_service s' (flight w) (issued w) ((k, x) :: expired w)).

(** Requests start with nothing in hand. *)
Definition request (loads : string -> res json) (dumps : json -> res string) (str_exn : exn -> string)
    (model_dump : Out -> json) (of_dict : object -> res Out) (turns : nat) (cu : C * string) :
    task (E := command) (G := stage) (A := Out) :=
  mk_task Fresh (_execute_guarded symbol_of prompt_hash_of loads dumps str_exn model_dump of_dict turns
    (Some cache) (fst cu) (snd cu)).

Definition moves : pool (E := command) -> pool (E := command) -> Prop := reaches (E := command) (A := Out) advance serve drift.

(** A request is running the pipeline. *)
Definition running (t : task (E := command) (G := stage) (A := Out)) (context : C) (user_id : string) : Prop :=
  awaits (code t) = Some (Call (Execute context user_id)).

(** The [SET NX] of the request was answered with an error. *)
Definition refused (t : task (E := command) (G := stage) (A := Out)) : Prop := exists v, label t = Open v.

(** The request got the lock, which expired before it was released. *)
Definition outlived (w : service) (t : task (E := command) (G := stage) (A := Out)) : Prop :=
  exists k v, label t = Holding k v /\ (k, v) ∈ expired w.

(** *** What a request may send *)

Definition is_lock (k : string) : Prop := exists d, k = lock_name cache d.

Definition allowed (g : stage) (c : command) : Prop :=
  match c with
  | Redis (R_get _) | Sleep _ | Monotonic => True
  | Redis (R_set k _ _) => ~ is_lock k
  | Redis (R_set_nx k v _) => is_lock k /\ g = Named v
  | Redis (R_release k v) => g = Holding k v \/ g = Open v \/ g = Released v
  | Uuid => g = Fresh
  | Call (Execute context user_id) =>
      exists t, g = Holding (lock_name cache (request_digest symbol_of prompt_hash_of context user_id)) t \/ g = Open t
  | _ => False
  end.

Definition replies (c : command) : res (reply c) -> Prop :=
  match c return res (reply c) -> Prop with
  | Uuid => fun r => exists t, r = Ok t /\ t <> ""
  | Sleep _ | Monotonic | UnixTime => fun r => exists v, r = Ok v
  | Redis _ | Call _ => fun _ => True
  end.

Notation obeys := (obeys (E := command) allowed advance replies).

(** The attempts of one command: [P] says what is known between them. *)
Lemma execute_obeys operation (c : redis) (P : stage -> Prop) (Q : stage -> res (reply c) -> Prop) g :
  _max_retries cache <= 53 ->
  (forall g, P g -> allowed g (Redis c)) ->
  (forall g v, P g -> Q (advance g (Redis c) (Ok v)) (Ok v)) ->
  (forall g e, P g -> is_transient e = true -> P (advance g (Redis c) (Raise e))) ->
  (forall g e, P g -> is_transient e = false -> Q (advance g (Redis c) (Raise e)) (Raise e)) ->
  (forall g e, P g -> is_cache_error e = true -> Q g (Raise e)) ->
  P g -> obeys g (_execute_with_retry cache operation c) Q.
Proof.
  intros Hr Ha Hok Hre Hfatal Hex. unfold _execute_with_retry.
  assert (Hrange : forall a, In a (py_range 0 (_max_retries cache)) -> 0 <= a < 53) by (intros a Ha'; apply elem_of_py_range in Ha'; lia).
  revert Hrange. generalize (py_range 0 (_max_retries cache)) as todo. intros todo.
  assert (Hlast : forall last, exists e, exhausted cache operation last = e /\ is_cache_error e = true).
  { intros [[]|]; eexists; (split; [reflexivity|reflexivity]). }
  generalize (@None exn) as last. revert g. induction todo as [|a todo IH]; intros g last Hrange HP.
  { destruct (Hlast last) as (e & E & He). cbn [attempts]. rewrite E. by apply Hex. }
  cbn [attempts]. split; [by apply Ha|]. intros [v|e] _; [by apply Hok|].
  destruct (is_transient e) eqn:Et; [|by apply Hfatal].
  destruct (a <? _); [|apply IH; [intros b Hb; apply Hrange; by right|by apply Hre]].
  eapply (obeys_bind _ _ _ _ _ _ (fun g' r => g' = advance g (Redis c) (Raise e) /\ exists t, r = Ok t)).
  { split; [done|]. intros r Hrr. by split. }
  2:{ intros g' e' [_ [t [=]]]. }
  intros g' t [-> _].
  assert (exists d, retry_delay a t = Ok d) as [d Ed].
  { unfold retry_delay. destruct (Hrange a (or_introl eq_refl)).
    rewrite LimiterFacts.float_of_int_small; [by eexists|]. split; [apply Z.pow_nonneg; lia|apply Z.pow_lt_mono_r; lia]. }
  rewrite Ed. split; [done|]. intros r (u & ->). cbn. apply IH; [intros b Hb; apply Hrange; by right|by apply Hre].
Qed.

(** *** The operations of the guard *)

Section Operations.
Context (loads : string -> res json) (dumps : json -> res string) (str_exn : exn -> string).
Context (model_dump : Out -> json) (of_dict : object -> res Out).
Hypothesis few_retries : _max_retries cache <= 53.

Lemma get_obeys g key : obeys g (get loads str_exn cache _NAMESPACE key) (fun g' _ => g' = g).
Proof.
  unfold get. destruct (_make_key cache _NAMESPACE key) as [k|e]; [|done].
  eapply (obeys_try _ _ _ _ _ _ (fun g' _ => g' = g)); [|done|].
  - eapply (obeys_bind _ _ _ _ _ _ (fun g' _ => g' = g)); [|intros g' [raw|] ->; done|done].
    by apply (execute_obeys "get" (R_get k) (fun g' => g' = g)); [..|done]; try (intros; subst; done).
  - intros g' e ->. by destruct (is_reraised e); [|destruct (is_redis_error e)].
Qed.

Lemma set_obeys g d value ttl :
  short_plain d -> obeys g (set dumps cache _NAMESPACE (_result_key d) value ttl) (fun g' _ => g' = g).
Proof.
  intros Hd. unfold set. rewrite result_key_made by done. cbn [pure mbind prog_bind settle].
  destruct (ttl <=? 0); [done|]. eapply (obeys_try _ _ _ _ _ _ (fun g' _ => g' = g)); [|done|].
  - destruct (dumps value) as [raw|e]; [|done]. cbn [pure mbind prog_bind settle]. destruct (_ <? _); [done|].
    eapply (obeys_bind _ _ _ _ _ _ (fun g' _ => g' = g)); [|by intros g' [] ->|done].
    apply (execute_obeys "set" (R_set (result_name cache d) raw ttl) (fun g' => g' = g)); try (intros; subst; done).
    intros _ _ (d' & E). by apply result_not_lock in E.
  - intros g' e ->. by destruct (is_reraised e).
Qed.

Lemma try_acquire_obeys d tok :
  short_plain d -> tok <> "" ->
  obeys (Named tok) (try_acquire_lock cache _NAMESPACE (_lock_key d) tok _LOCK_TTL_SECONDS)
    (fun g r => (g = Holding (lock_name cache d) tok /\ r = Ok true) \/ (g = Named tok /\ r = Ok false) \/ g = Open tok).
Proof.
  intros Hd Ht. unfold try_acquire_lock. rewrite lock_key_made by done. cbn [pure mbind prog_bind settle].
  assert (str_empty tok = false) as -> by (by apply String.eqb_neq). change (_LOCK_TTL_SECONDS <=? 0) with false. cbv iota.
  eapply (obeys_try _ _ _ _ _ _ (fun g r =>
    match r with Ok b => g = (if b : bool then Holding (lock_name cache d) tok else Named tok)
               | Raise e => (g = Named tok /\ is_cache_error e = true) \/ g = Open tok end)).
  - apply (execute_obeys "set_nx" (R_set_nx (lock_name cache d) tok _LOCK_TTL_SECONDS) (fun g => g = Named tok)); try done.
    + intros g ->. split; [by exists d|done].
    + intros g [] ->; done.
    + intros g e -> He. cbn [advance]. by rewrite He.
    + intros g e -> He. cbn [advance]. rewrite He. by right.
    + intros g e -> He. by left.
  - intros g [] ->; auto.
  - intros g e [[-> ->]| ->]; [by right; left|]. destruct (is_cache_error e); by right; right.
Qed.

Lemma release_obeys d tok h :
  short_plain d -> h = Holding (lock_name cache d) tok \/ h = Open tok ->
  obeys h (release cache (mk_handle d tok)) (fun _ _ => True).
Proof.
  intros Hd Hg. unfold release. cbn [digest token]. eapply (obeys_settle _ _ _ _ _ _ (fun _ _ => True)); [|done].
  unfold release_lock. rewrite lock_key_made by done. cbn [pure mbind prog_bind settle].
  destruct (str_empty tok); [done|]. eapply (obeys_try _ _ _ _ _ _ (fun _ _ => True)); [|done|].
  - eapply (obeys_bind _ _ _ _ _ _ (fun _ _ => True)); [|done|done].
    apply (execute_obeys "release_lock" (R_release (lock_name cache d) tok)
      (fun g => g = Holding (lock_name cache d) tok \/ g = Open tok \/ g = Released tok)); try done;
      [intros; by right; right|destruct Hg; auto].
  - intros g e _. by destruct (is_cache_error e).
Qed.

Lemma check_cached_obeys g d : obeys g (check_cached loads str_exn of_dict cache d) (fun g' r => g' = g /\ exists o, r = Ok o).
Proof.
  unfold check_cached. eapply (obeys_settle _ _ _ _ _ _ (fun g' _ => g' = g)); [apply get_obeys|].
  intros g' r ->. destruct r as [[]|e]; try (split; [done|by eexists]). destruct (of_dict d0); (split; [done|by eexists]).
Qed.

Lemma await_obeys g turns d : obeys g (await_result loads str_exn of_dict cache turns d) (fun _ _ => True).
Proof.
  unfold await_result. split; [done|]. intros r (t & ->). cbn [settle]. generalize (fadd t _AWAIT_TIMEOUT_SECONDS) as deadline.
  induction turns as [|turns IH]; intros deadline; [done|]. cbn [await_loop]. split; [done|]. intros r (now & ->). cbn [settle].
  destruct (flt now deadline); [|done].
  eapply (obeys_bind _ _ _ _ _ _ (fun g' r => g' = g /\ exists o, r = Ok o)); [apply check_cached_obeys| |done].
  intros g' [o|] [-> _]; [done|]. split; [done|]. intros r (u & ->). apply IH.
Qed.

Lemma store_obeys g d o : short_plain d -> obeys g (store_result dumps model_dump cache d o) (fun g' r => g' = g /\ r = Ok tt).
Proof.
  intros Hd. unfold store_result. eapply (obeys_settle _ _ _ _ _ _ (fun g' _ => g' = g)); [by apply set_obeys|]. by intros g' r ->.
Qed.

(** A request sends the pipeline's command only after it got the lock of its digest
    or an error instead, and asks for the release only of that lock. *)
Lemma guarded_obeys turns context user_id :
  str_empty user_id = false ->
  obeys Fresh (_execute_guarded symbol_of prompt_hash_of loads dumps str_exn model_dump of_dict turns
    (Some cache) context user_id) (fun _ _ => True).
Proof.
  intros Hu. unfold _execute_guarded. rewrite Hu. cbv zeta. set (d := request_digest _ _ _ _).
  assert (Hd : short_plain d) by apply digest_short_plain.
  eapply (obeys_bind _ _ _ _ _ _ (fun g' r => g' = Fresh /\ exists o, r = Ok o)); [apply check_cached_obeys| |done].
  intros g' [o|] [-> _]; [done|].
  eapply (obeys_bind _ _ _ _ _ _ (fun g r => exists tok,
    ((g = Holding (lock_name cache d) tok \/ g = Open tok) /\ r = Ok (Some (mk_handle d tok))) \/ r = Ok None)); [| |done].
  { split; [done|]. intros r (tok & -> & Ht). cbn [settle].
    eapply (obeys_settle _ _ _ _ _ _ _); [by apply try_acquire_obeys|].
    intros g r [[-> ->]|[[-> ->]| ->]]; [exists tok; left; by split; [left|]|exists tok; by right|].
    destruct r as [[]|e]; exists tok; [left; by split; [right|]|by right|left; by split; [right|]]. }
  intros g [h|] (tok & [[Hg [= ->]]|[=]]).
  - eapply (obeys_finally _ _ _ _ _ _ (fun g' _ => g' = g) (fun _ _ _ => True)); [| |done|done].
    + eapply (obeys_bind _ _ _ _ _ _ (fun g' _ => g' = g)); [| |done].
      { split; [by exists tok|]. done. }
      intros g' o ->. eapply (obeys_bind _ _ _ _ _ _ _); [by apply store_obeys|by intros g' u [-> _]|by intros g' e [-> _]].
    + intros g' r ->. by apply release_obeys.
  - eapply (obeys_bind _ _ _ _ _ _ (fun _ _ => True)); [apply await_obeys|by intros g' [o|] _|done].
Qed.
End Operations.

(** *** The invariant *)

(** What may be in flight: nothing that could remove a lock somebody holds. *)
Definition harmless (w : service) (gs : list stage) (c : redis) : Prop :=
  match c with
  | R_get _ | R_set_nx _ _ _ => True
  | R_set k _ _ => ~ is_lock k
  | R_release _ v => v ∈ issued w /\ forall i g, gs !! i = Some g -> token_of g = Some v -> g = Released v
  | _ => False
  end.

Record flight_ok (w : service) (gs : list stage) : Prop := {
  fo_issued : forall i g t, gs !! i = Some g -> token_of g = Some t -> t ∈ issued w;
  fo_distinct : forall i j g g' t, gs !! i = Some g -> gs !! j = Some g' ->
    token_of g = Some t -> token_of g' = Some t -> i = j;
  fo_lock : forall i k t, gs !! i = Some (Holding k t) ->
    is_lock k /\ (look (data w) k = Some t \/ (k, t) ∈ expired w);
  fo_flight : Forall (harmless w gs) (flight w) }.

Notation holds_locks s x gs :=
  (forall i k t, gs !! i = Some (Holding k t) -> is_lock k /\ (look s k = Some t \/ (k, t) ∈ x)).

(** A harmless command leaves every lock that has not expired with its holder. *)
Lemma harmless_exec w gs c :
  harmless w gs c -> holds_locks (data w) (expired w) gs -> holds_locks (snd (exec c (data w))) (expired w) gs.
Proof.
  intros Hc HL i k t Hi. destruct (HL i k t Hi) as [Hk [Hl|Hx]]; (split; [done|]); [left|by right].
  destruct c as [k'|k' v ex|k' v ex|k' v| | | | |]; try done.
  - by rewrite (proj2 (get_law _ _)).
  - rewrite set_law. destruct (decide (k = k')) as [->|]; [by destruct Hc|done].
  - rewrite (proj2 (set_nx_law _ _ _ _)). destruct (decide _) as [[-> E]|]; [congruence|done].
  - rewrite (proj2 (release_law _ _ _)). destruct (decide _) as [[-> E]|]; [|done].
    destruct Hc as [_ Hc]. rewrite Hl in E. injection E as ->. by specialize (Hc i _ Hi eq_refl).
Qed.

(** Replacing a label by one with the same token. *)
Lemma lookup_same_token (gs : list stage) i g g' j h t :
  gs !! i = Some g -> token_of g' = token_of g ->
  <[i := g']> gs !! j = Some h -> token_of h = Some t -> exists h', gs !! j = Some h' /\ token_of h' = Some t.
Proof.
  intros Hi Ht Hj Hh. destruct (decide (i = j)) as [<-|Hne].
  - rewrite list_lookup_insert_eq in Hj by (by apply lookup_lt_Some in Hi). injection Hj as <-. exists g. split; congruence.
  - rewrite list_lookup_insert_ne in Hj by done. eauto.
Qed.

(** A step that changes no token; the lock of a new holder must be right. *)
Lemma flight_ok_same_token w w' gs i g g' :
  flight_ok w gs -> gs !! i = Some g -> token_of g' = token_of g -> issued w' = issued w ->
  holds_locks (data w') (expired w') (<[i := g']> gs) -> Forall (harmless w' (<[i := g']> gs)) (flight w') ->
  flight_ok w' (<[i := g']> gs).
Proof.
  intros [F1 F2 F3 F4] Hi Ht Hw HL HF. constructor; [| |exact HL|exact HF].
  - intros j h t Hj Hh. rewrite Hw. destruct (lookup_same_token gs i g g' j h t Hi Ht Hj Hh) as (h' & ? & ?). eauto.
  - intros j j' h h' t Hj Hj' Hh Hh'.
    destruct (lookup_same_token gs i g g' j h t Hi Ht Hj Hh) as (x & ? & ?).
    destruct (lookup_same_token gs i g g' j' h' t Hi Ht Hj' Hh') as (y & ? & ?). eauto.
Qed.

Lemma harmless_relabel w w' gs i g g' c :
  gs !! i = Some g -> token_of g' = token_of g -> (forall v, g = Released v -> g' = Released v) -> issued w' = issued w ->
  harmless w gs c -> harmless w' (<[i := g']> gs) c.
Proof.
  intros Hi Ht Hrel Hw. destruct c as [| | |k v| | | | |]; try done. cbn [harmless]. rewrite Hw. intros [Hin Hall]. split; [done|].
  intros j h Hj Hh. destruct (decide (i = j)) as [<-|Hne].
  - rewrite list_lookup_insert_eq in Hj by (by apply lookup_lt_Some in Hi). injection Hj as <-.
    apply Hrel. apply (Hall i g Hi). congruence.
  - rewrite list_lookup_insert_ne in Hj by done. eauto.
Qed.

Lemma flight_relabel w w' gs i g g' :
  gs !! i = Some g -> token_of g' = token_of g -> (forall v, g = Released v -> g' = Released v) -> issued w' = issued w ->
  Forall (harmless w gs) (flight w) -> Forall (harmless w' (<[i := g']> gs)) (flight w).
Proof. intros ? ? ? ? HF. eapply List.Forall_impl; [|exact HF]. intros c. by eapply harmless_relabel. Qed.

(** The locks after a relabelling: the others keep theirs, the new holder has his. *)
Lemma holds_relabel s (x : list (string * string)) (gs : list stage) i g g' :
  gs !! i = Some g ->
  (forall j k t, j <> i -> gs !! j = Some (Holding k t) -> is_lock k /\ (look s k = Some t \/ (k, t) ∈ x)) ->
  (forall k t, g' = Holding k t -> is_lock k /\ (look s k = Some t \/ (k, t) ∈ x)) ->
  holds_locks s x (<[i := g']> gs).
Proof.
  intros Hi Ho Hn j k t Hj. destruct (decide (i = j)) as [<-|Hne].
  - rewrite list_lookup_insert_eq in Hj by (by apply lookup_lt_Some in Hi). injection Hj as ->. by apply Hn.
  - rewrite list_lookup_insert_ne in Hj by done. apply (Ho j); congruence || done.
Qed.

(** A command that leaves the label as it is. *)
Lemma serve_unlabelled w gs i g rc :
  flight_ok w gs -> gs !! i = Some g -> harmless w gs rc ->
  flight_ok (mk_service (snd (exec rc (data w))) (flight w) (issued w) (expired w)) (<[i := g]> gs) /\
  flight_ok (mk_service (data w) (rc :: flight w) (issued w) (expired w)) (<[i := g]> gs).
Proof.
  intros Hw Hi Hc. rewrite list_insert_id by done. destruct Hw as [F1 F2 F3 F4].
  split; constructor; cbn [data flight issued expired]; try done; [by apply harmless_exec|by constructor].
Qed.

Lemma serve_set_nx w gs i k v ex r w' :
  flight_ok w gs -> gs !! i = Some (Named v) -> is_lock k -> serve w (Redis (R_set_nx k v ex)) r w' ->
  flight_ok w' (<[i := advance (Named v) (Redis (R_set_nx k v ex)) r]> gs).
Proof.
  intros Hw Hi Hk [[-> ->]|(e & -> & ->)].
  2:{ cbn [advance]. destruct (is_transient e); [by apply (serve_unlabelled w gs i (Named v) (R_set_nx k v ex))|].
      eapply (flight_ok_same_token w); cbn [data flight issued expired]; [exact Hw|exact Hi|done|done| |].
      - eapply holds_relabel; [exact Hi|intros j k' t _ Hj; by apply (fo_lock _ _ Hw j)|done].
      - constructor; [done|]. eapply flight_relabel; [exact Hi|done|done|done|exact (fo_flight _ _ Hw)]. }
  cbn [advance]. destruct (set_nx_law (data w) k v ex) as [Ef El]. rewrite Ef.
  destruct (look (data w) k) as [x|] eqn:E; [by apply (serve_unlabelled w gs i (Named v) (R_set_nx k v ex))|].
  eapply (flight_ok_same_token w); cbn [data flight issued expired]; [exact Hw|exact Hi|done|done| |].
  - eapply holds_relabel; [exact Hi| |].
    + intros j k' t _ Hj. by apply (harmless_exec w gs (R_set_nx k v ex) I (fo_lock _ _ Hw) j).
    + intros k' t [= <- <-]. split; [done|]. left. rewrite El. by destruct (decide _) as [|[]].
  - eapply flight_relabel; [exact Hi|done|done|done|exact (fo_flight _ _ Hw)].
Qed.

Lemma serve_release w gs i g k v r w' :
  flight_ok w gs -> gs !! i = Some g -> g = Holding k v \/ g = Open v \/ g = Released v -> serve w (Redis (R_release k v)) r w' ->
  flight_ok w' (<[i := Released v]> gs).
Proof.
  intros Hw Hi Hg Hs. assert (Ht : token_of (Released v) = token_of g) by (by destruct Hg as [->|[->| ->]]).
  assert (Hrel : forall v', g = Released v' -> Released v = Released v') by (destruct Hg as [->|[->| ->]]; congruence).
  assert (Hother : forall j k' t, j <> i -> gs !! j = Some (Holding k' t) -> t <> v).
  { intros j k' t Hne Hj ->. apply Hne. eapply (fo_distinct _ _ Hw); [exact Hj|exact Hi|done|]. by rewrite <- Ht. }
  destruct Hs as [[-> ->]|(e & -> & ->)];
    (eapply (flight_ok_same_token w); cbn [data flight issued expired]; [exact Hw|exact Hi|done|done| |]).
  - eapply holds_relabel; [exact Hi| |done]. intros j k' t Hne Hj. destruct (fo_lock _ _ Hw j k' t Hj) as [Hk' Hl'].
    split; [done|]. destruct Hl' as [Hl'|Hx]; [left|by right].
    rewrite (proj2 (release_law _ _ _)). destruct (decide _) as [[-> E]|]; [|done].
    exfalso. apply (Hother j k t Hne Hj). congruence.
  - eapply flight_relabel; [exact Hi|done|done|done|exact (fo_flight _ _ Hw)].
  - eapply holds_relabel; [exact Hi| |done]. intros j k' t _ Hj. by apply (fo_lock _ _ Hw j).
  - constructor; [|eapply flight_relabel; [exact Hi|done|done|done|exact (fo_flight _ _ Hw)]]. cbn [harmless issued].
    split; [eapply (fo_issued _ _ Hw); [exact Hi|by rewrite <- Ht]|]. intros j h Hj Hh. destruct (decide (i = j)) as [<-|Hne].
    + rewrite list_lookup_insert_eq in Hj by (by apply lookup_lt_Some in Hi). by injection Hj as <-.
    + rewrite list_lookup_insert_ne in Hj by done. destruct Hne. symmetry.
      eapply (fo_distinct _ _ Hw); [exact Hj|exact Hi|exact Hh|]. by rewrite <- Ht.
Qed.

Lemma serve_uuid w gs i t :
  flight_ok w gs -> gs !! i = Some Fresh -> t ∉ issued w ->
  flight_ok (mk_service (data w) (flight w) (t :: issued w) (expired w)) (<[i := Named t]> gs).
Proof.
  intros [F1 F2 F3 F4] Hi Hn.
  assert (Hc : forall j h u, <[i := Named t]> gs !! j = Some h -> token_of h = Some u ->
    (j = i /\ u = t /\ h = Named t) \/ (j <> i /\ gs !! j = Some h /\ u <> t)).
  { intros j h u Hj Hh. destruct (decide (i = j)) as [<-|Hne].
    - rewrite list_lookup_insert_eq in Hj by (by apply lookup_lt_Some in Hi). injection Hj as <-. left. split; [done|].
      by injection Hh as <-.
    - rewrite list_lookup_insert_ne in Hj by done. right. split; [done|]. split; [done|]. intros ->. by apply Hn, (F1 j h). }
  constructor; cbn [data flight issued expired].
  - intros j h u Hj Hh. destruct (Hc j h u Hj Hh) as [(_ & -> & _)|(_ & Hj' & _)]; [by left|]. right. eauto.
  - intros j j' h h' u Hj Hj' Hh Hh'.
    destruct (Hc j h u Hj Hh) as [(-> & -> & _)|(Hne & E & Hu)], (Hc j' h' _ Hj' Hh') as [(-> & Eu & _)|(Hne' & E' & Hu')]; try done. eauto.
  - eapply holds_relabel; [exact Hi|intros j k u _ Hj; by apply (F3 j)|done].
  - eapply List.Forall_impl; [|exact F4]. intros [| | |k v| | | | |]; try done. cbn [harmless]. intros [Hv Hall]. split; [by right|].
    intros j h Hj Hh. destruct (Hc j h v Hj Hh) as [(_ & -> & _)|(_ & Hj' & _)]; [done|eauto].
Qed.

Lemma serve_flight_ok w gs i g c r w' :
  flight_ok w gs -> gs !! i = Some g -> allowed g c -> serve w c r w' -> flight_ok w' (<[i := advance g c r]> gs).
Proof.
  intros Hw Hi Ha Hs. destruct c as [rc|d| | | |[context user_id]]; try done.
  - destruct rc as [k|k v ex|k v ex|k v| | | | |]; try done.
    + destruct Hs as [[-> ->]|(e & -> & ->)]; by apply (serve_unlabelled w gs i g (R_get k)).
    + destruct Hs as [[-> ->]|(e & -> & ->)]; by apply (serve_unlabelled w gs i g (R_set k v ex)).
    + destruct Ha as [Hk ->]. by apply (serve_set_nx w gs i k v ex r w').
    + by apply (serve_release w gs i g k v r w').
  - destruct Hs as [_ ->]. cbn [advance]. by rewrite list_insert_id.
  - destruct Hs as [_ ->]. cbn [advance]. by rewrite list_insert_id.
  - cbn in Ha. subst g. destruct Hs as (t & -> & _ & Hn & ->). by apply serve_uuid.
  - cbn in Hs. subst w'. cbn [advance]. by rewrite list_insert_id.
Qed.

Lemma drift_flight_ok w gs w' : flight_ok w gs -> drift gs w w' -> flight_ok w' gs.
Proof.
  intros [F1 F2 F3 F4] [a rc b E|k x s' Hk Hs]; constructor; cbn [data flight issued expired]; try done.
  - rewrite E, Forall_app, Forall_cons in F4. destruct F4 as (_ & Hrc & _). by apply harmless_exec.
  - rewrite E, Forall_app, Forall_cons in F4. destruct F4 as (Fa & _ & Fb). by apply Forall_app.
  - intros i k' t Hi. destruct (F3 i k' t Hi) as [Hl He]. split; [done|]. rewrite Hs.
    destruct He as [He|Hx]; [|right; by right]. destruct (decide (k' = k)) as [->|]; [|by left].
    right. rewrite Hk in He. injection He as ->. by left.
Qed.

(** *** One pipeline at a time *)

Section Requests.
Context (loads : string -> res json) (dumps : json -> res string) (str_exn : exn -> string).
Context (model_dump : Out -> json) (of_dict : object -> res Out) (turns : nat).
Hypothesis few_retries : _max_retries cache <= 53.

Definition start (s : S) (requests : list (C * string)) : pool (E := command) :=
  mk_pool (mk_service s [] [] []) (map (request loads dumps str_exn model_dump of_dict turns) requests).

Lemma start_obedient s requests :
  Forall (fun cu => str_empty (snd cu) = false) requests ->
  obedient (E := command) advance allowed replies flight_ok (fun _ _ => True) (start s requests).
Proof.
  intros Hu. split; cbn [start world tasks].
  - assert (Hf : forall i g, map label (map (request loads dumps str_exn model_dump of_dict turns) requests) !! i = Some g -> g = Fresh).
    { intros i g Hi. rewrite map_map in Hi. apply list_lookup_fmap_Some in Hi as (cu & -> & _). done. }
    constructor; cbn [data flight issued expired]; [| | |done]; intros; repeat match goal with Hi : _ !! _ = Some _ |- _ => apply Hf in Hi; subst end; done.
  - apply List.Forall_map. eapply List.Forall_impl; [|exact Hu]. intros [c u] He. by apply guarded_obeys.
Qed.

(** What holds for every request at every moment. *)
Lemma reached_obedient s requests p :
  Forall (fun cu => str_empty (snd cu) = false) requests -> moves (start s requests) p ->
  obedient (E := command) advance allowed replies flight_ok (fun _ _ => True) p.
Proof.
  intros Hu Hm. eapply (pool_invariant advance serve drift allowed replies flight_ok); [| | |by apply start_obedient|exact Hm].
  - intros w c r w' Hs. destruct c as [rc|d| | | |x]; cbn in *; [done|by destruct Hs as [[v ->] _]; eexists..| |done].
    by destruct Hs as (t & -> & Ht & _); exists t.
  - intros. by eapply serve_flight_ok.
  - intros. by eapply drift_flight_ok.
Qed.

(** What a running request has in hand. *)
Lemma running_labels p :
  flight_ok (world p) (map label (tasks p)) ->
  Forall (fun t => obeys (label t) (code t) (fun _ _ => True)) (tasks p) ->
  forall i t c u, tasks p !! i = Some t -> running t c u ->
  let key := lock_name cache (request_digest symbol_of prompt_hash_of c u) in
  refused t \/ outlived (world p) t \/
  exists v, label t = Holding key v /\ look (data (world p)) key = Some v /\ map label (tasks p) !! i = Some (Holding key v).
Proof.
  intros HI HF i t c u Hi Hr key. rewrite Forall_lookup in HF. specialize (HF i t Hi). unfold running in Hr.
  destruct (code t) as [r|cm kk|]; try done. cbn in Hr. injection Hr as ->.
  destruct HF as [(v & [Hl|Hl]) _]; [|left; by exists v]. fold key in Hl.
  assert (Hg : map label (tasks p) !! i = Some (Holding key v)) by (by rewrite list_lookup_fmap, Hi, <- Hl).
  right. destruct (fo_lock _ _ HI _ _ _ Hg) as [_ [Hd|Hx]]; [right; by exists v|left; by exists key, v].
Qed.

(** C2: two pipelines of one digest never run at a time, unless the server refused a
    lock or a lock expired under its holder.  Whatever number of requests come in, for
    any users and inputs, in any interleaving of their commands, and whatever the
    server does (lost connections, late effects, error replies to any command, keys
    that expire at any time): a request that is running the pipeline has the lock of
    its digest in the server, or its [SET NX] was answered with an error, on which the
    code runs without a lock, or its lock has expired; and when two requests with the
    same digest are running, this is so of one of them.  Each command is tried at
    most 53 times. *)
Theorem single_flight s requests p i ti ci ui :
  Forall (fun cu => str_empty (snd cu) = false) requests -> moves (start s requests) p ->
  tasks p !! i = Some ti -> running ti ci ui ->
  let key := lock_name cache (request_digest symbol_of prompt_hash_of ci ui) in
  (refused ti \/ outlived (world p) ti \/ exists v, label ti = Holding key v /\ look (data (world p)) key = Some v) /\
  forall j tj cj uj, tasks p !! j = Some tj -> running tj cj uj ->
    request_digest symbol_of prompt_hash_of ci ui = request_digest symbol_of prompt_hash_of cj uj ->
    i = j \/ refused ti \/ outlived (world p) ti \/ refused tj \/ outlived (world p) tj.
Proof.
  intros Hu Hm Hi Ri key. destruct (reached_obedient s requests p Hu Hm) as [HI HF].
  assert (Hh := running_labels p HI HF). pose proof (Hh i ti ci ui Hi Ri) as Ha. fold key in Ha.
  split; [destruct Ha as [?|[?|(v & ? & ? & ?)]]; eauto|]. intros j tj cj uj Hj Rj Ed.
  pose proof (Hh j tj cj uj Hj Rj) as Hb. rewrite <- Ed in Hb. fold key in Hb.
  destruct Ha as [?|[?|(a & La & Da & Ga)]]; [tauto..|]. destruct Hb as [?|[?|(b & Lb & Db & Gb)]]; [tauto..|].
  left. rewrite Da in Db. injection Db as ->. eapply (fo_distinct _ _ HI); [exact Ga|exact Gb|done|done].
Qed.
End Requests.
End Flight.
End Flight.

(** ** Schedules *)

(** A run of the system given event by event, which can be evaluated. *)
Module Schedule.
Import KeyFacts AnalysisProcessor Flight.

(** Of the [i]-th request: its command is executed and answered; its connection
    fails; the server answers with an error; it draws a token; it reads the clock; it sleeps; its pipeline ends.  The
    [n]-th command in flight takes effect. *)
Inductive event (Out : Type) :=
| Answer (i : nat) | Lose (i : nat) | Refuse (i : nat) | Draw (i : nat) (t : string) | Clock (i : nat) (x : float) | Nap (i : nat)
| Finish (i : nat) (r : res Out) | Land (n : nat).
Arguments Answer {_} _.
Arguments Lose {_} _.
Arguments Refuse {_} _.
Arguments Draw {_} _ _.
Arguments Clock {_} _ _.
Arguments Nap {_} _.
Arguments Finish {_} _ _.
Arguments Land {_} _.

Section Schedule.
Context {C Out : Type}.
Notation server := (gmap string string).
Notation command := (cmd (pipeline C Out)).
Notation state := (pool (E := command) (W := service (S := server)) (G := stage) (A := Out)).

(** The reply and the next world an event gives the [i]-th request, if it awaits
    that kind of command. *)
Definition outcome (w : service (S := server)) (e : event Out) (c : command) : option (res (reply c) * service (S := server)) :=
  match c return option (res (reply c) * service (S := server)) with
  | Redis rc =>
      match e with
      | Answer _ => Some (Ok (fst (exec rc (data w))), mk_service (snd (exec rc (data w))) (flight w) (issued w) (expired w))
      | Lose _ => Some (Raise TimeoutError, mk_service (data w) (rc :: flight w) (issued w) (expired w))
      | Refuse _ => Some (Raise RedisError, mk_service (data w) (rc :: flight w) (issued w) (expired w))
      | _ => None
      end
  | Uuid =>
      match e with
      | Draw _ t =>
          if decide (t <> "" /\ t ∉ issued w) then Some (Ok t, mk_service (data w) (flight w) (t :: issued w) (expired w)) else None
      | _ => None
      end
  | Monotonic => match e with Clock _ x => Some (Ok x, w) | _ => None end
  | Sleep _ => match e with Nap _ => Some (Ok tt, w) | _ => None end
  | Call (Execute _ _) => match e with Finish _ r => Some (r, w) | _ => None end
  | UnixTime => None
  end.

Definition fire_task (p : state) (e : event Out) (i : nat) : option state :=
  t ← tasks p !! i;
  match code t with
  | Await c k =>
      '(r, w) ← outcome (world p) e c;
      Some (mk_pool w (<[i := mk_task (advance (label t) c r) (k r)]> (tasks p)))
  | _ => None
  end.

Definition fire (p : state) (e : event Out) : option state :=
  match e with
  | Answer i | Lose i | Refuse i | Draw i _ | Clock i _ | Nap i | Finish i _ => fire_task p e i
  | Land n =>
      rc ← flight (world p) !! n;
      Some (mk_pool (mk_service (snd (exec rc (data (world p)))) (delete n (flight (world p)))
              (issued (world p)) (expired (world p))) (tasks p))
  end.

Fixpoint play (p : state) (es : list (event Out)) : option state :=
  match es with [] => Some p | e :: es => p ← fire p e; play p es end.

Lemma outcome_serve w e c r w' : outcome w e c = Some (r, w') -> serve w c r w'.
Proof.
  destruct c as [rc|d| | | |[context user_id]]; cbn [outcome serve].
  - destruct e; try done; intros [= <- <-]; [by left|right; by eexists..].
  - destruct e; try done. intros [= <- <-]. split; [by eexists|done].
  - destruct e; try done. intros [= <- <-]. split; [by eexists|done].
  - done.
  - destruct e; try done. case_decide as Hd; [|done]. intros [= <- <-]. exists t. destruct Hd. done.
  - destruct e; try done. by intros [= <- <-].
Qed.

Lemma fire_step p e p' : fire p e = Some p' -> pool_step (E := command) (A := Out) advance serve drift p p'.
Proof.
  assert (Ht : forall i, fire_task p e i = Some p' -> pool_step (E := command) (A := Out) advance serve drift p p').
  { intros i. unfold fire_task. destruct (tasks p !! i) as [t|] eqn:Ei; [|done]. cbn [mbind option_bind].
    destruct (code t) as [r|c k|] eqn:Ec; try done. destruct (outcome (world p) e c) as [[r w]|] eqn:Eo; [|done].
    intros [= <-]. destruct p as [w0 ts]. cbn [world tasks] in *. eapply step_task; [exact Ei|exact Ec|by apply outcome_serve in Eo]. }
  destruct e; try apply Ht. cbn [fire]. destruct p as [w ts]. cbn [world tasks].
  destruct (flight w !! n) as [rc|] eqn:En; [|done]. intros [= <-]. apply step_world.
  rewrite delete_take_drop. change (map_exec rc (data w)) with (exec rc (data w)).
  apply drift_land. by rewrite take_drop_middle.
Qed.

Lemma play_moves p es p' : play p es = Some p' -> moves p p'.
Proof.
  revert p. induction es as [|e es IH]; intros p; cbn [play]; [intros [= <-]; constructor|].
  destruct (fire p e) as [q|] eqn:Ef; [|done]. intros Hp. eapply rtc_l; [by apply (fire_step p e)|by apply IH].
Qed.

Definition is_running (t : task (E := command) (G := stage) (A := Out)) : bool :=
  match code t with Await (Call _) _ => true | _ => false end.
End Schedule.

(** *** A small instance *)

Definition sample_loads (s : string) : res json := if String.eqb s "{}" then Ok (JObj []) else Raise (ValueError "json").
Definition sample_dumps (_ : json) : res string := Ok "{}".
Definition sample_start (requests : list (unit * string)) :=
  start (Out := Z) (S := gmap string string) (fun _ => "EURUSD") (fun _ => "hash") RedisCache.default
    sample_loads sample_dumps (fun _ => "") (fun _ => JObj []) (fun _ => Ok 7) 25 ∅ requests.

Definition two_requests : list (unit * string) := [(tt, "user"); (tt, "user")].
Definition three_requests : list (unit * string) := [(tt, "user"); (tt, "user"); (tt, "user")].
Definition sample_digest : string := request_digest (fun _ : unit => "EURUSD") (fun _ => "hash") tt "user".

(** The outcome of a finished request. *)
Definition finished {E A G} `{Effect E} (t : task (E := E) (G := G) (A := A)) : option (res A) :=
  match code t with Ret r => Some r | _ => None end.

Definition runs_for (t : task (E := cmd (pipeline unit Z)) (G := stage) (A := Z)) (user_id : string) : bool :=
  match code t with Await (Call (Execute _ u)) _ => String.eqb u user_id | _ => false end.

Lemma runs_for_running t u : runs_for t u = true -> running t tt u.
Proof.
  unfold runs_for, running. destruct (code t) as [r|c k|]; try done. destruct c as [| | | | |[[] u']]; try done.
  intros E%String.eqb_eq. by rewrite E.
Qed.

(** An evaluated run ends in a state that can be reached. *)
Lemma played {P : _ -> Prop} p es :
  match play p es with Some p' => P p' | None => False end -> exists p', moves (C := unit) (Out := Z) p p' /\ P p'.
Proof. destruct (play p es) as [p'|] eqn:E; [|done]. intros HP. exists p'. split; [by eapply play_moves|done]. Qed.

(** The first request takes the lock, the second gets an error instead of a lock and
    runs too, and the third waits: of the two that run, one was refused, and the lock
    of the other is in the server. *)
Lemma single_flight_witness :
  exists p t0 t1, moves (sample_start three_requests) p /\ tasks p !! 0%nat = Some t0 /\ tasks p !! 1%nat = Some t1 /\
    running t0 tt "user" /\ running t1 tt "user" /\
    look (data (world p)) (lock_name RedisCache.default sample_digest) = Some "a" /\
    (refused t0 \/ outlived (world p) t0 \/ refused t1 \/ outlived (world p) t1).
Proof.
  destruct (played (P := fun p => match tasks p with
      | [t0; t1; t2] => runs_for t0 "user" = true /\ runs_for t1 "user" = true /\
          look (data (world p)) (lock_name RedisCache.default sample_digest) = Some "a"
      | _ => False end)
    (sample_start three_requests)
    [Answer 1; Answer 0; Answer 2; Draw 0 "a"; Answer 0; Draw 1 "b"; Refuse 1; Draw 2 "c"; Answer 2])
    as (p & Hm & Hp); [vm_compute; repeat split|].
  destruct (tasks p) as [|t0 [|t1 [|t2 [|]]]] eqn:E; try done. destruct Hp as (H0 & H1 & H2).
  apply runs_for_running in H0, H1. exists p, t0, t1. split; [exact Hm|].
  split; [by rewrite E|]. split; [by rewrite E|]. do 2 (split; [done|]). split; [exact H2|].
  destruct (single_flight (fun _ : unit => "EURUSD") (fun _ => "hash") RedisCache.default sample_loads sample_dumps
    (fun _ => "") (fun _ : Z => JObj []) (fun _ => Ok 7) 25 ltac:(vm_compute; congruence)
    (∅ : gmap string string) three_requests p 0%nat t0 tt "user") as [_ H].
  - repeat constructor.
  - exact Hm.
  - rewrite E. reflexivity.
  - exact H0.
  - destruct (H 1%nat t1 tt "user") as [Hc|Hc]; [rewrite E; reflexivity|exact H1|reflexivity|discriminate Hc|exact Hc].
Defined.

(** A duplicate can run the model again although the result is there.  The cache is
    looked at before the lock is taken and not again after: of two identical
    requests the second looks while the first is at work and takes the lock after
    the first has stored its result and released; it then runs the pipeline a
    second time. *)
Theorem stored_result_run_again :
  exists p t0 t1, moves (sample_start two_requests) p /\ tasks p = [t0; t1] /\
    finished t0 = Some (Ok 5) /\ running t1 tt "user" /\
    look (data (world p)) (result_name RedisCache.default sample_digest) = Some "{}".
Proof.
  destruct (played (P := fun p => match tasks p with
      | [t0; t1] => finished t0 = Some (Ok 5) /\ runs_for t1 "user" = true /\
          look (data (world p)) (result_name RedisCache.default sample_digest) = Some "{}"
      | _ => False end)
    (sample_start two_requests)
    [Answer 1; Answer 0; Draw 0 "a"; Answer 0; Finish 0 (Ok 5); Answer 0; Answer 0; Draw 1 "b"; Answer 1])
    as (p & Hm & Hp); [vm_compute; repeat split|].
  destruct (tasks p) as [|t0 [|t1 [|]]] eqn:E; try done. destruct Hp as (H0 & H1 & H2).
  exists p, t0, t1. split; [exact Hm|]. split; [exact E|]. split; [exact H0|]. split; [by apply runs_for_running|exact H2].
Qed.

(** One lost reply locks a request out.  A single request whose [SET NX] takes
    effect but whose reply is lost sends it again, finds its own lock, takes itself
    for a duplicate, and is refused although nobody runs the pipeline; the lock
    stays. *)
Theorem lost_reply_locks_out :
  exists p t, moves (sample_start [(tt, "user")]) p /\ tasks p = [t] /\
    finished t = Some (Raise LLMDuplicateSuppressedError) /\ label t = Named "a" /\
    look (data (world p)) (lock_name RedisCache.default sample_digest) = Some "a" /\ flight (world p) = [].
Proof.
  destruct (played (P := fun p => match tasks p with
      | [t] => finished t = Some (Raise LLMDuplicateSuppressedError) /\ label t = Named "a" /\
          look (data (world p)) (lock_name RedisCache.default sample_digest) = Some "a" /\ flight (world p) = []
      | _ => False end)
    (sample_start [(tt, "user")])
    [Answer 0; Draw 0 "a"; Lose 0; Land 0; Clock 0 (of_Z 100); Nap 0; Answer 0;
     Clock 0 (of_Z 100); Clock 0 (of_Z 100); Answer 0; Nap 0; Clock 0 (of_Z 106)])
    as (p & Hm & Hp); [vm_compute; repeat split|].
  destruct (tasks p) as [|t [|]] eqn:E; try done. exists p, t. split; [exact Hm|]. split; [exact E|exact Hp].
Qed.
End Schedule.

(** ** Waiting for the owner, and a server that is down *)

Module OutageFacts.
Import KeyFacts ProcessorIdempotency AnalysisProcessor.
Section Outage.
Context {C Out W : Type} (symbol_of prompt_hash_of : C -> string).
Context (handle : forall c : cmd (pipeline C Out), W -> res (reply c) * W) (clock : W -> float).
Context (loads : string -> res json) (dumps : json -> res string) (str_exn : exn -> string).
Context (model_dump : Out -> json) (of_dict : object -> res Out) (cache : RedisCache.t).

Notation run := (interp (E := cmd (pipeline C Out)) handle).

(** The monotonic clock never goes back, and a sleep of a poll interval takes at
    least that long, while the clock is below 2^50 seconds. *)
Record steady : Prop := {
  sd_read : forall w, handle Monotonic w = (Ok (clock w), w);
  sd_num : forall w, num (clock w);
  sd_sleep : forall d w, exists w', handle (Sleep d) w = (Ok tt, w') /\ fv (clock w) <= fv (clock w');
  sd_poll : forall w, fv (clock w) < 2 ^ 50 * unit_pow 0 ->
    fv (clock w) + fv _AWAIT_POLL_INTERVAL_SECONDS <= fv (clock (snd (handle (Sleep _AWAIT_POLL_INTERVAL_SECONDS) w)));
  sd_redis : forall c w, fv (clock w) <= fv (clock (snd (handle (Redis c) w))) }.

Hypothesis clock_steady : steady.
Hypothesis few_retries : RedisCache._max_retries cache <= 53.

(** A command with its retries ends; if every attempt fails, in an error of the
    cache. *)
Lemma execute_run operation c w :
  exists r w', run (RedisCache._execute_with_retry cache operation c) w = (Some r, w') /\ fv (clock w) <= fv (clock w') /\
    ((forall w, exists e, fst (handle (Redis c) w) = Raise e /\ is_transient e = true) ->
     exists e, r = Raise e /\ is_cache_error e = true).
Proof.
  unfold RedisCache._execute_with_retry.
  assert (Hrange : forall a, In a (py_range 0 (RedisCache._max_retries cache)) -> 0 <= a < 53)
    by (intros a Ha; apply elem_of_py_range in Ha; lia).
  revert Hrange. generalize (py_range 0 (RedisCache._max_retries cache)) as todo. intros todo. generalize (@None exn) as last. revert w.
  induction todo as [|a todo IH]; intros w last Hrange; cbn [RedisCache.attempts interp].
  { eexists _, _. split; [reflexivity|]. split; [done|]. intros _. eexists. split; [reflexivity|]. by destruct last as [[]|]. }
  assert (Hrest : forall b, In b todo -> 0 <= b < 53) by (intros b Hb; apply Hrange; by right).
  pose proof (sd_redis clock_steady c w) as Hm. destruct (handle (Redis c) w) as [r w1] eqn:E1. cbn [snd] in Hm.
  destruct r as [v|e].
  { eexists _, _. split; [reflexivity|]. split; [done|]. intros Hall. destruct (Hall w) as (e & He & _). by rewrite E1 in He. }
  destruct (is_transient e) eqn:Et.
  2:{ eexists _, _. split; [reflexivity|]. split; [done|]. intros Hall. destruct (Hall w) as (e' & He & He'). rewrite E1 in He.
      injection He as ->. congruence. }
  destruct (a <? _).
  2:{ destruct (IH w1 (Some e) Hrest) as (r & w2 & E2 & H2 & H3). exists r, w2. split; [exact E2|]. split; [lia|done]. }
  rewrite !interp_bind. cbn [interp send]. rewrite (sd_read clock_steady). cbn [fst snd].
  assert (exists d, RedisCache.retry_delay a (clock w1) = Ok d) as [d Ed].
  { unfold RedisCache.retry_delay. destruct (Hrange a (or_introl eq_refl)).
    rewrite LimiterFacts.float_of_int_small; [by eexists|]. split; [apply Z.pow_nonneg; lia|apply Z.pow_lt_mono_r; lia]. }
  rewrite interp_bind, Ed. cbn [pure interp]. rewrite interp_bind. cbn [send interp].
  destruct (sd_sleep clock_steady d w1) as (w2 & E2 & H2). rewrite E2.
  destruct (IH w2 (Some e) Hrest) as (r & w3 & E3 & H3 & H4). exists r, w3. split; [exact E3|]. split; [lia|done].
Qed.

Definition down : Prop := forall c w, exists e, fst (handle (Redis c) w) = Raise e /\ is_transient e = true.

Lemma check_cached_run d w :
  exists o w', run (check_cached loads str_exn of_dict cache d) w = (Some (Ok o), w') /\ fv (clock w) <= fv (clock w') /\
    (down -> o = None).
Proof.
  unfold check_cached, RedisCache.get. rewrite interp_settle, interp_bind.
  destruct (RedisCache._make_key cache _NAMESPACE (_result_key d)) as [k|e]; cbn [pure interp]; [|by eexists _, _].
  rewrite interp_try, interp_bind. destruct (execute_run "get" (R_get k) w) as (r & w' & E & Hm & Hd).
  change (reply (R_get k)) with (option string) in E, r. rewrite E. destruct r as [[raw|]|e]; cbn [interp].
  - cbn [pure interp]. destruct (loads raw) as [v|e]; cbn [interp].
    + destruct v as [| | | | | |dict]; cbn [interp]; try (eexists _, _; split; [reflexivity|]; split; [done|done]).
      destruct (of_dict dict); (eexists _, _; split; [reflexivity|]; split; [done|]); try done.
      intros Hdn. destruct (Hd (Hdn (R_get k))) as (e' & He & _). discriminate He.
    + destruct (is_reraised e), (is_redis_error e); (eexists _, _; split; [reflexivity|]; by split).
  - eexists _, _. split; [reflexivity|]. by split.
  - destruct (is_reraised e), (is_redis_error e); (eexists _, _; split; [reflexivity|]; by split).
Qed.

Lemma poll_interval : num _AWAIT_POLL_INTERVAL_SECONDS /\ fv _AWAIT_POLL_INTERVAL_SECONDS = unit_pow (-2).
Proof. vm_compute. repeat split. Qed.

(** The loop ends once the sleeps that remain reach the deadline. *)
Lemma await_loop_run d deadline turns : forall w,
  num deadline -> fv deadline < 2 ^ 50 * unit_pow 0 -> (1 <= turns)%nat ->
  fv deadline <= fv (clock w) + (Z.of_nat turns - 1) * unit_pow (-2) ->
  exists o w', run (await_loop loads str_exn of_dict cache turns d deadline) w = (Some (Ok o), w') /\ (down -> o = None).
Proof.
  destruct poll_interval as [_ Eq]. assert (0 < unit_pow (-2)) by (by apply unit_pow_pos).
  induction turns as [|turns IH]; intros w Hn Hlim Ht Hd; [lia|]. cbn [await_loop].
  rewrite interp_bind. cbn [send interp]. rewrite (sd_read clock_steady).
  rewrite flt_fv by (done || apply (sd_num clock_steady)). destruct (Z.ltb_spec (fv (clock w)) (fv deadline)) as [Hlt|Hge].
  2:{ by eexists _, _. }
  rewrite interp_bind. destruct (check_cached_run d w) as (o & w1 & E1 & H1 & Ho). rewrite E1.
  destruct o as [o|]; [eexists _, _; split; [reflexivity|]; intros Hdn; by specialize (Ho Hdn)|].
  rewrite interp_bind. cbn [send interp]. destruct (sd_sleep clock_steady _AWAIT_POLL_INTERVAL_SECONDS w1) as (w2 & E2 & H2).
  rewrite E2. assert (1 <= turns)%nat by (destruct turns; [rewrite Nat2Z.inj_succ in Hd; cbn in Hd; lia|lia]).
  destruct (Z.lt_ge_cases (fv (clock w1)) (2 ^ 50 * unit_pow 0)) as [Hin|Hout].
  - pose proof (sd_poll clock_steady w1 Hin) as Hp. rewrite E2, Eq in Hp. cbn [snd] in Hp. apply IH; [done|done|done|nia].
  - apply IH; [done|done|done|]. assert (0 <= (Z.of_nat turns - 1) * unit_pow (-2)) by nia. lia.
Qed.

Lemma await_run d turns w :
  fin (clock w) -> 0 <= fv (clock w) < 2 ^ 40 * unit_pow 0 -> (22 <= turns)%nat ->
  exists o w', run (await_result loads str_exn of_dict cache turns d) w = (Some (Ok o), w') /\ (down -> o = None).
Proof.
  intros Hf Hc Ht. unfold await_result. rewrite interp_bind. cbn [send interp]. rewrite (sd_read clock_steady).
  assert (F5 : fin _AWAIT_TIMEOUT_SECONDS) by (vm_compute; by split).
  assert (E5 : fv _AWAIT_TIMEOUT_SECONDS = 5 * unit_pow 0) by (vm_compute; reflexivity).
  pose proof (fadd_rounds _ _ Hf F5) as R. rewrite E5 in R.
  assert (U0 : 0 < unit_pow 0) by (by apply unit_pow_pos).
  assert (U3 : 0 < unit_pow (-3)) by (by apply unit_pow_pos).
  assert (Es : unit_pow 0 = 8 * unit_pow (-3)) by (vm_compute; reflexivity).
  assert (E2 : unit_pow (-2) = 2 * unit_pow (-3)) by (vm_compute; reflexivity).
  destruct (rounds_ceil _ _ _ (-3) Z.lt_0_1 R) as [Hbig|Hup]; [lia|lia|exfalso; lia|].
  apply await_loop_run; [by apply fadd_num|lia|lia|]. rewrite E2. nia.
Qed.

(** C31: a duplicate waits a bounded time.  On a clock that starts below 2^40 seconds,
    whatever the server answers and however long its answers take, [await_result]
    ends after at most 21 polls: with a result, or with none. *)
Theorem await_result_bounded d turns w :
  fin (clock w) -> 0 <= fv (clock w) < 2 ^ 40 * unit_pow 0 -> (22 <= turns)%nat ->
  exists o w', run (await_result loads str_exn of_dict cache turns d) w = (Some (Ok o), w').
Proof. intros Hf Hc Ht. destruct (await_run d turns w Hf Hc Ht) as (o & w' & E & _). by exists o, w'. Qed.

Lemma acquire_down d w :
  down -> (forall w, exists t, t <> "" /\ handle Uuid w = (Ok t, w)) -> short_plain d ->
  exists w', run (acquire cache d) w = (Some (Ok None), w').
Proof.
  intros Hdown Huuid Hd. unfold acquire. rewrite interp_bind. cbn [send interp]. destruct (Huuid w) as (t & Ht & Eu). rewrite Eu.
  rewrite interp_settle. unfold RedisCache.try_acquire_lock. rewrite interp_bind, lock_key_made by done. cbn [pure interp].
  assert (str_empty t = false) as -> by (by apply String.eqb_neq). change (_LOCK_TTL_SECONDS <=? 0) with false. cbv iota.
  rewrite interp_try. destruct (execute_run "set_nx" (R_set_nx (lock_name cache d) t _LOCK_TTL_SECONDS) w) as (r & w' & E & _ & He).
  change (reply (R_set_nx (lock_name cache d) t _LOCK_TTL_SECONDS)) with bool in E, r. rewrite E.
  destruct (He (Hdown _)) as (e & -> & Hce). rewrite Hce. by exists w'.
Qed.

(** C23: an outage refuses every analysis.  While no command reaches the server, a guarded
    request of a user ends in [LLMDuplicateSuppressedError], whatever the pipeline
    would have answered: [try_acquire_lock] reports an unreachable server as a
    lock that is held. *)
Theorem outage_suppresses turns context user_id w :
  let d := request_digest symbol_of prompt_hash_of context user_id in
  let waiting := snd (run (_ ← check_cached loads str_exn of_dict cache d; acquire cache d) w) in
  down -> (forall w, exists t, t <> "" /\ handle Uuid w = (Ok t, w)) -> str_empty user_id = false ->
  fin (clock waiting) -> 0 <= fv (clock waiting) < 2 ^ 40 * unit_pow 0 -> (22 <= turns)%nat ->
  exists w', run (_execute_guarded symbol_of prompt_hash_of loads dumps str_exn model_dump of_dict turns
    (Some cache) context user_id) w = (Some (Raise LLMDuplicateSuppressedError), w').
Proof.
  intros d waiting Hdown Huuid Hu Hf Hc Ht. unfold _execute_guarded. rewrite Hu. cbv zeta. fold d.
  unfold waiting in *. rewrite interp_bind in Hf, Hc |- *.
  destruct (check_cached_run d w) as (o & w1 & E1 & _ & Ho). rewrite E1 in *. specialize (Ho Hdown) as ->.
  rewrite interp_bind. destruct (acquire_down d w1 Hdown Huuid) as (w2 & E2); [apply digest_short_plain|]. rewrite E2 in *.
  rewrite interp_bind. destruct (await_run d turns w2 Hf Hc Ht) as (o & w3 & E3 & Ho). rewrite E3.
  specialize (Ho Hdown) as ->. by exists w3.
Qed.
End Outage.

(** *** A clock of quarter seconds, and a server that never answers *)

Definition ticks (w : nat) : Z := Z.min (Z.of_nat w) (2 ^ 52).
Definition tick_clock (w : nat) : float := fmul (of_Z (ticks w)) (lit 25 2).

Definition silent (c : cmd (pipeline unit Z)) (w : nat) : res (reply c) * nat :=
  match c return res (reply c) * nat with
  | Redis _ => (Raise TimeoutError, (w + 12)%nat)
  | Sleep _ => (Ok tt, S w)
  | Monotonic => (Ok (tick_clock w), w)
  | UnixTime => (Ok 0, w)
  | Uuid => (Ok "t", w)
  | Call (Execute _ _) => (Ok 5, w)
  end.

Lemma tick_clock_exact w : fin (tick_clock w) /\ fv (tick_clock w) = ticks w * unit_pow (-2).
Proof.
  assert (Hk : 0 <= ticks w < 2 ^ 53) by (unfold ticks; lia). destruct (of_Z_exact _ Hk) as [Fk Ek].
  assert (Fq : fin (lit 25 2)) by (vm_compute; by split). assert (Eq : fv (lit 25 2) = unit_pow (-2)) by (vm_compute; reflexivity).
  pose proof (fmul_rounds _ _ Fk Fq) as R. rewrite Ek, Eq in R. destruct (grid_fin (ticks w) (-2) Hk) as (z & Fz & Ez); [lia|].
  assert (U0 : 0 < unit_pow 0) by (by apply unit_pow_pos).
  assert (E : fv z * unit_pow 0 = ticks w * unit_pow 0 * unit_pow (-2)) by (rewrite Ez; ring). split.
  - apply (rounds_fin _ _ _ z z R Fz Fz); lia.
  - rewrite <- Ez. by apply (rounds_representable _ _ _ z U0 R Fz).
Qed.

Lemma silent_steady : steady silent tick_clock.
Proof.
  assert (U2 : 0 < unit_pow (-2)) by (by apply unit_pow_pos).
  assert (Hm : forall w w', (w <= w')%nat -> fv (tick_clock w) <= fv (tick_clock w')).
  { intros w w' Hw. rewrite !(proj2 (tick_clock_exact _)). apply Z.mul_le_mono_nonneg_r; [lia|]. unfold ticks. lia. }
  constructor.
  - done.
  - intros w. apply fin_num, tick_clock_exact.
  - intros d w. exists (S w). split; [done|]. apply Hm. lia.
  - intros w. cbn [silent snd]. rewrite !(proj2 (tick_clock_exact _)), (proj2 poll_interval).
    assert (unit_pow 0 = 4 * unit_pow (-2)) as -> by (vm_compute; reflexivity). intros Hlt.
    assert (ticks w < 2 ^ 52) by nia. assert (ticks (S w) = ticks w + 1) as -> by (unfold ticks in *; lia). nia.
  - intros c w. cbn [silent snd]. apply Hm. lia.
Qed.

Lemma await_result_bounded_witness :
  exists o w', interp silent (await_result Schedule.sample_loads (fun _ => "") (fun _ => Ok 7) RedisCache.default 22 "d") 0%nat
    = (Some (Ok o), w').
Proof.
  apply (await_result_bounded silent tick_clock Schedule.sample_loads (fun _ => "") (fun _ => Ok 7) RedisCache.default silent_steady).
  - vm_compute. congruence.
  - vm_compute. split; reflexivity.
  - vm_compute. split; congruence.
  - exact (le_n 22).
Defined.

Lemma outage_suppresses_witness :
  exists w', interp silent (_execute_guarded (fun _ => "EURUSD") (fun _ => "hash") Schedule.sample_loads Schedule.sample_dumps
    (fun _ => "") (fun _ => JObj []) (fun _ => Ok 7) 22 (Some RedisCache.default) tt "user") 0%nat
    = (Some (Raise LLMDuplicateSuppressedError), w').
Proof.
  apply (outage_suppresses (fun _ => "EURUSD") (fun _ => "hash") silent tick_clock Schedule.sample_loads Schedule.sample_dumps
    (fun _ => "") (fun _ => JObj []) (fun _ => Ok 7) RedisCache.default silent_steady).
  - vm_compute. congruence.
  - intros c w. exists TimeoutError. split; reflexivity.
  - intros w. exists "t". split; [discriminate|reflexivity].
  - reflexivity.
  - vm_compute. split; reflexivity.
  - vm_compute. split; congruence.
  - exact (le_n 22).
Defined.
End OutageFacts.

(** ** A server that answers *)

Module HealthyFacts.
Import KeyFacts ProcessorIdempotency AnalysisProcessor.
Section Healthy.
Context {C Out S : Type} `{RedisServer S} (symbol_of prompt_hash_of : C -> string).
Context (loads : string -> res json) (dumps : json -> res string) (str_exn : exn -> string).
Context (model_dump : Out -> json) (of_dict : object -> res Out) (cache : RedisCache.t).
(** What the pipeline answers, and the token drawn. *)
Context (answer : C -> string -> res Out) (tok : string).

(** The server's data and the runs of the pipeline. *)
Record site := mk_site { db : S; log : list (C * string) }.

Definition healthy (c : cmd (pipeline C Out)) (w : site) : res (reply c) * site :=
  match c return res (reply c) * site with
  | Redis rc => (Ok (fst (exec rc (db w))), mk_site (snd (exec rc (db w))) (log w))
  | Sleep _ => (Ok tt, w)
  | Monotonic => (Ok fzero, w)
  | UnixTime => (Ok 0, w)
  | Uuid => (Ok tok, w)
  | Call (Execute context user_id) => (answer context user_id, mk_site (db w) (log w ++ [(context, user_id)]))
  end.

Notation run := (interp (E := cmd (pipeline C Out)) healthy).

Hypothesis some_attempt : 0 < RedisCache._max_retries cache.
Hypothesis token_given : tok <> "".

Lemma execute_healthy operation (c : redis) w :
  run (RedisCache._execute_with_retry cache operation c) w =
    (Some (Ok (fst (exec c (db w)))), mk_site (snd (exec c (db w))) (log w)).
Proof. unfold RedisCache._execute_with_retry. by rewrite py_range_cons. Qed.

Lemma check_cached_healthy d w :
  short_plain d ->
  exists s', (forall k, look s' k = look (db w) k) /\
  run (check_cached loads str_exn of_dict cache d) w =
    (Some (Ok (match look (db w) (result_name cache d) with
               | Some raw => match loads raw with Ok (JObj dict) => match of_dict dict with Ok o => Some o | Raise _ => None end | _ => None end
               | None => None
               end)), mk_site s' (log w)).
Proof.
  intros Hd. unfold check_cached, RedisCache.get. rewrite interp_settle, interp_bind, result_key_made by done. cbn [pure interp].
  rewrite interp_try, interp_bind. pose proof (execute_healthy "get" (R_get (result_name cache d)) w) as E.
  change (reply (R_get (result_name cache d))) with (option string) in E. rewrite E.
  destruct (get_law (db w) (result_name cache d)) as [Eg El]. exists (snd (exec (R_get (result_name cache d)) (db w))).
  split; [exact El|]. change (reply (R_get (result_name cache d))) with (option string) in Eg. rewrite Eg.
  destruct (look (db w) (result_name cache d)) as [raw|]; [|done]. cbn [pure interp].
  destruct (loads raw) as [[| | | | | |dict]|e]; try done; [by destruct (of_dict dict)|].
  by destruct (is_reraised e), (is_redis_error e).
Qed.

Lemma acquire_healthy d w :
  short_plain d -> look (db w) (lock_name cache d) = None ->
  exists s', (forall k, look s' k = if decide (k = lock_name cache d) then Some tok else look (db w) k) /\
  run (acquire cache d) w = (Some (Ok (Some (mk_handle d tok))), mk_site s' (log w)).
Proof.
  intros Hd Hl. unfold acquire. rewrite interp_bind. cbn [send interp healthy]. rewrite interp_settle.
  unfold RedisCache.try_acquire_lock. rewrite interp_bind, lock_key_made by done. cbn [pure interp].
  assert (str_empty tok = false) as -> by (by apply String.eqb_neq). change (_LOCK_TTL_SECONDS <=? 0) with false. cbv iota.
  rewrite interp_try. set (c := R_set_nx (lock_name cache d) tok _LOCK_TTL_SECONDS).
  pose proof (execute_healthy "set_nx" c w) as E. change (reply c) with bool in E. rewrite E.
  destruct (set_nx_law (db w) (lock_name cache d) tok _LOCK_TTL_SECONDS) as [Er Ek]. exists (snd (exec c (db w))). split.
  - intros k. unfold c. rewrite Ek. destruct (decide (k = lock_name cache d)) as [->|], (decide _) as [[]|]; naive_solver.
  - change (reply (R_set_nx (lock_name cache d) tok _LOCK_TTL_SECONDS)) with bool in Er. unfold c at 1. rewrite Er, Hl. done.
Qed.

Lemma store_healthy d o w :
  short_plain d ->
  exists s', (forall k, k <> result_name cache d -> look s' k = look (db w) k) /\
  (forall raw, dumps (model_dump o) = Ok raw -> str_len raw <= MAX_CACHE_VALUE_SIZE -> look s' (result_name cache d) = Some raw) /\
  run (store_result dumps model_dump cache d o) w = (Some (Ok tt), mk_site s' (log w)).
Proof.
  intros Hd. unfold store_result, RedisCache.set. rewrite interp_settle, interp_bind, result_key_made by done.
  cbn [pure interp]. change (_RESULT_TTL_SECONDS <=? 0) with false. cbv iota. rewrite interp_try, interp_bind.
  destruct (dumps (model_dump o)) as [raw|e]; cbn [pure interp].
  2:{ exists (db w). split; [done|]. split; [done|]. destruct w. by destruct (is_reraised e). }
  destruct (Z.ltb_spec MAX_CACHE_VALUE_SIZE (str_len raw)) as [Hlen|Hlen]; cbn [interp].
  { exists (db w). split; [done|]. split; [intros raw' [= <-] Hle; lia|]. by destruct w. }
  rewrite interp_bind. set (c := R_set (result_name cache d) raw _RESULT_TTL_SECONDS).
  pose proof (execute_healthy "set" c w) as E. rewrite E. exists (snd (exec c (db w))).
  split; [intros k Hk; unfold c; rewrite set_law; by rewrite decide_False|]. split; [|done].
  intros raw' [= <-] _. unfold c. rewrite set_law. by rewrite decide_True.
Qed.

Lemma release_healthy d w :
  short_plain d -> look (db w) (lock_name cache d) = Some tok ->
  exists s', (forall k, look s' k = if decide (k = lock_name cache d) then None else look (db w) k) /\
  run (release cache (mk_handle d tok)) w = (Some (Ok tt), mk_site s' (log w)).
Proof.
  intros Hd Hl. unfold release. cbn [digest token]. rewrite interp_settle. unfold RedisCache.release_lock.
  rewrite interp_bind, lock_key_made by done. cbn [pure interp].
  assert (str_empty tok = false) as -> by (by apply String.eqb_neq). rewrite interp_try, interp_bind.
  set (c := R_release (lock_name cache d) tok). pose proof (execute_healthy "release_lock" c w) as E.
  change (reply c) with Z in E. rewrite E. exists (snd (exec c (db w))). split; [|done].
  intros k. unfold c. rewrite (proj2 (release_law _ _ _)).
  destruct (decide (k = lock_name cache d)) as [->|], (decide _) as [[]|]; naive_solver.
Qed.

Notation guarded := (_execute_guarded symbol_of prompt_hash_of loads dumps str_exn model_dump of_dict).

(** C13: with a server that answers, the pipeline runs once and its result is served.  A
    request whose digest has neither a result nor a lock runs the pipeline once,
    returns what it answers and leaves no lock; if that is an output that survives
    the conversion to JSON and back, the same request made again returns the same
    output without running the pipeline, and if it is an exception nothing is
    stored. *)
Theorem healthy_guard turns context user_id w :
  let d := request_digest symbol_of prompt_hash_of context user_id in
  str_empty user_id = false ->
  look (db w) (lock_name cache d) = None -> look (db w) (result_name cache d) = None ->
  exists w1, run (guarded turns (Some cache) context user_id) w = (Some (answer context user_id), w1) /\
    log w1 = log w ++ [(context, user_id)] /\ look (db w1) (lock_name cache d) = None /\
    (forall e, answer context user_id = Raise e -> look (db w1) (result_name cache d) = None) /\
    (forall o raw dict, answer context user_id = Ok o -> dumps (model_dump o) = Ok raw -> str_len raw <= MAX_CACHE_VALUE_SIZE ->
       loads raw = Ok (JObj dict) -> of_dict dict = Ok o ->
       exists w2, run (guarded turns (Some cache) context user_id) w1 = (Some (Ok o), w2) /\ log w2 = log w1).
Proof.
  intros d Hu Hl Hr. assert (Hd : short_plain d) by apply digest_short_plain.
  assert (Hne : lock_name cache d <> result_name cache d) by (intros E; by apply (result_not_lock cache d d)).
  set (a := answer context user_id). unfold _execute_guarded at 1. rewrite Hu. cbv zeta. fold d. rewrite interp_bind.
  destruct (check_cached_healthy d w Hd) as (s1 & L1 & E1). rewrite E1, Hr. rewrite interp_bind.
  destruct (acquire_healthy d (mk_site s1 (log w)) Hd) as (s2 & L2 & E2); [cbn [db]; by rewrite L1|]. rewrite E2.
  rewrite interp_finally, interp_bind. cbn [_execute send interp healthy db log]. fold a. cbn [db log] in L2.
  destruct a as [o|e] eqn:Ea.
  - rewrite interp_bind. destruct (store_healthy d o (mk_site s2 (log w ++ [(context, user_id)])) Hd) as (s3 & L3 & L3' & E3).
    rewrite E3. cbn [mret prog_ret interp]. cbn [db log] in L3.
    destruct (release_healthy d (mk_site s3 (log w ++ [(context, user_id)])) Hd) as (s4 & L4 & E4).
    { cbn [db]. rewrite L3, L2, decide_True by done. done. }
    cbn [log] in E4 |- *. rewrite E4. eexists. split; [reflexivity|]. cbn [db log] in L4 |- *. split; [done|].
    split; [by rewrite L4, decide_True|]. split; [done|]. intros o' raw dict [= <-] Hdump Hlen Hload Hof.
    unfold _execute_guarded. rewrite Hu. cbv zeta. fold d. rewrite interp_bind.
    destruct (check_cached_healthy d (mk_site s4 (log w ++ [(context, user_id)])) Hd) as (s5 & L5 & E5). rewrite E5. cbn [db log].
    rewrite L4, decide_False by done. rewrite (L3' raw Hdump Hlen), Hload, Hof. by eexists.
  - destruct (release_healthy d (mk_site s2 (log w ++ [(context, user_id)])) Hd) as (s4 & L4 & E4).
    { cbn [db]. rewrite L2, decide_True by done. done. }
    cbn [log] in E4 |- *. rewrite E4. eexists. split; [reflexivity|]. cbn [db log] in L4 |- *. split; [done|].
    split; [by rewrite L4, decide_True|]. split; [|done]. intros e' _. by rewrite L4, decide_False, L2, decide_False, L1, Hr by done.
Qed.
End Healthy.

Lemma healthy_guard_witness :
  exists w1 w2 : site, log w2 = [(tt, "user")] /\
    interp (healthy (S := gmap string string) (fun _ _ => Ok 7) "a")
      (_execute_guarded (fun _ : unit => "EURUSD") (fun _ => "hash") Schedule.sample_loads Schedule.sample_dumps (fun _ => "")
         (fun _ => JObj []) (fun _ => Ok 7) 22 (Some RedisCache.default) tt "user") (mk_site ∅ []) = (Some (Ok 7), w1) /\
    interp (healthy (S := gmap string string) (fun _ _ => Ok 7) "a")
      (_execute_guarded (fun _ : unit => "EURUSD") (fun _ => "hash") Schedule.sample_loads Schedule.sample_dumps (fun _ => "")
         (fun _ => JObj []) (fun _ => Ok 7) 22 (Some RedisCache.default) tt "user") w1 = (Some (Ok 7), w2).
Proof.
  destruct (healthy_guard (S := gmap string string) (fun _ : unit => "EURUSD") (fun _ => "hash") Schedule.sample_loads
    Schedule.sample_dumps (fun _ => "") (fun _ : Z => JObj []) (fun _ => Ok 7) RedisCache.default (fun _ _ => Ok 7) "a"
    eq_refl ltac:(discriminate) 22 tt "user" (mk_site ∅ [])) as (w1 & E1 & L1 & _ & _ & Hagain).
  - reflexivity.
  - vm_compute. reflexivity.
  - vm_compute. reflexivity.
  - destruct (Hagain 7 "{}" []) as (w2 & E2 & L2); [reflexivity|reflexivity|vm_compute; congruence|reflexivity|reflexivity|].
    exists w1, w2. split; [rewrite L2, L1; reflexivity|]. split; [exact E1|exact E2].
Defined.
End HealthyFacts.
