(* ===== verification/LLMRetry.v ===== *)
(** * Retries of the model call: [engine/processor/llm/retry.py]

    [retry_llm_call] awaits the call, classifies what it raised, sleeps for a
    jittered exponential delay and tries again.  The call, the random numbers and
    the sleep are commands; the text of an exception is a parameter.  Counters and
    log lines are not modelled. *)

From Stdlib Require Import ZArith Lia Bool Ascii String.
From stdpp Require Import base list strings.
From S2P Require Import Prelude PyFloat FloatRound FloatMono FloatGrid PyText PyRepr PyValues PyAsync RateLimiter Connectivity.

#[local] Open Scope string_scope.
#[local] Open Scope Z_scope.
#[local] Open Scope list_scope.

(** ** Exceptions *)

(** [type(exc).__name__]. *)
Definition type_name (e : exn) : string :=
  match e with
  | ConfigurationError _ => "ConfigurationError" | ValidationError => "ValidationError" | ValueError _ => "ValueError"
  | RuntimeError _ => "RuntimeError" | ProviderStalePriceError _ => "ProviderStalePriceError"
  | OutboundRateLimitExceededError => "OutboundRateLimitExceededError" | ZeroDivisionError => "ZeroDivisionError"
  | OverflowError => "OverflowError" | IndexError => "IndexError" | KeyError => "KeyError"
  | AttributeError => "AttributeError" | TypeError => "TypeError" | TimeoutError => "TimeoutError"
  | ProviderResponseError _ => "ProviderResponseError" | EAClockSkewError _ => "EAClockSkewError" | ProcessorError _ => "ProcessorError"
  | LLMTruncatedError _ => "LLMTruncatedError" | LLMSchemaViolationError _ _ => "LLMSchemaViolationError"
  | LLMSafetyFilterError _ => "LLMSafetyFilterError" | LLMRateLimitedError _ => "LLMRateLimitedError"
  | LLMTransientError _ => "LLMTransientError" | LLMDuplicateSuppressedError => "LLMDuplicateSuppressedError"
  | CacheValidationError _ => "CacheValidationError" | CacheTimeoutError _ => "CacheTimeoutError"
  | CacheConnectionError _ => "CacheConnectionError" | CacheError _ => "CacheError"
  | RedisConnectionError => "ConnectionError" | RedisTimeoutError => "TimeoutError" | RedisError => "RedisError"
  | ProviderUnavailableError _ => "ProviderUnavailableError" | ProviderTimeoutError _ => "ProviderTimeoutError"
  | ProviderValidationError _ => "ProviderValidationError" | HttpClientError _ => "HttpClientError"
  | ClientError _ => "ClientError" | OSError _ => "OSError" | CredentialDecryptionError _ => "CredentialDecryptionError"
  | InvalidToken => "InvalidToken" | InvalidTag => "InvalidTag" | QuotaExceededError _ _ => "QuotaExceededError"
  | MeteringUnavailableError _ _ => "MeteringUnavailableError"
  | ProcessorInsufficientDataError _ => "ProcessorInsufficientDataError"
  | CollectorAllProvidersFailedError _ => "CollectorAllProvidersFailedError" | RAGIngestError _ => "RAGIngestError"
  | RAGValidationError _ => "RAGValidationError" | RAGEmbeddingError _ => "RAGEmbeddingError"
  | RAGVectorStoreError _ => "RAGVectorStoreError" | RAGVectorStoreConnectionError _ => "RAGVectorStoreConnectionError"
  | RAGVectorStoreUpsertError _ => "RAGVectorStoreUpsertError"
  | ForeignError name _ _ => name
  end.

(** [isinstance(exc, LLMError)]. *)
Definition is_llm_error (e : exn) : bool :=
  match e with
  | LLMTruncatedError _ | LLMSchemaViolationError _ _ | LLMSafetyFilterError _ | LLMRateLimitedError _
  | LLMTransientError _ | LLMDuplicateSuppressedError => true
  | _ => false
  end.

(** The [status_code] attribute. *)
Definition status_code (e : exn) : option Z := match e with ForeignError _ code _ => code | _ => None end.

(** ** The retries *)

Definition _RETRYABLE_STATUS_CODES : list Z := [500; 502; 504].
Definition _NON_RETRYABLE_ERROR_TYPES : list string :=
  ["AuthenticationError"; "PermissionDeniedError"; "BadRequestError"; "NotFoundError"; "RateLimitError"].

Record ProcessorConfig := mk_config {
  llm_provider : string; max_retries : Z; retry_backoff_base_seconds : float; retry_backoff_max_seconds : float }.

(** The ranges the configuration declares. *)
Definition config_ok (c : ProcessorConfig) : bool :=
  (0 <=? max_retries c) && (max_retries c <=? 5) &&
  fle (lit 5 1) (retry_backoff_base_seconds c) && fle (retry_backoff_base_seconds c) (lit 100 1) &&
  fle (lit 50 1) (retry_backoff_max_seconds c) && fle (retry_backoff_max_seconds c) (lit 1200 1).

(** One call of the model, [random.random()] and [asyncio.sleep]. *)
Inductive retry_cmd (T : Type) := CallModel | Random | SleepFor (delay : float).
Arguments CallModel {_}.
Arguments Random {_}.
Arguments SleepFor {_} _.

#[global] Instance retry_effect {T} : Effect (retry_cmd T) := fun c =>
  match c with CallModel => T | Random => float | SleepFor _ => unit end.

Section Retry.
Context {T : Type} (str_exn : exn -> string).

Definition _is_retryable (e : exn) : bool :=
  match e with
  | LLMRateLimitedError _ => false
  | LLMTransientError _ => true
  | TimeoutError => true
  | _ =>
      let error_type := type_name e in
      if str_in error_type _NON_RETRYABLE_ERROR_TYPES then false
      else
        match status_code e with
        | Some code => existsb (Z.eqb code) _RETRYABLE_STATUS_CODES
        | None =>
            let msg := str_lower (str_exn e) in
            if existsb (fun p => str_contains p msg)
                 ["rate limit"; "ratelimit"; "429"; "resource_exhausted"; "insufficient_quota"; "overloaded"; "503"; "529"]
            then false
            else if str_contains "timeout" msg || str_contains "connection" msg then true
            else str_in error_type ["InternalServerError"; "APIConnectionError"; "APITimeoutError"]
        end
  end.

(** [random.uniform(0, min(base * 2**attempt, max))]. *)
Definition _compute_delay (attempt : Z) (config : ProcessorConfig) (random : float) : res float :=
  pow ← OutboundRateLimiter.float_of_int (2 ^ attempt);
  let exp_delay := fmul (retry_backoff_base_seconds config) pow in
  let capped := fmin exp_delay (retry_backoff_max_seconds config) in
  Ok (ReconnectPolicy.uniform fzero capped random).

(** What is raised for an exception that is not retried. *)
Definition non_retryable (config : ProcessorConfig) (e : exn) : exn :=
  if is_llm_error e then e
  else ProcessorError ("Non-retryable LLM error (" ++ llm_provider config ++ "): " ++ type_name e ++ ": " ++ str_exn e).

(** What is raised when the attempts are used. *)
Definition exhausted (config : ProcessorConfig) (last_exc : option exn) : exn :=
  match last_exc with
  | Some e =>
      if is_llm_error e then e
      else ProcessorError ("LLM call failed after " ++ str_int (max_retries config + 1) ++ " attempts (" ++
             llm_provider config ++ "): " ++ str_exn e)
  | None => ProcessorError ("LLM call failed after " ++ str_int (max_retries config + 1) ++ " attempts (" ++
              llm_provider config ++ "): None")
  end.

Fixpoint llm_attempts (config : ProcessorConfig) (todo : list Z) (last_exc : option exn) : prog (retry_cmd T) T :=
  match todo with
  | [] => Ret (Raise (exhausted config last_exc))
  | attempt :: todo =>
      Await (CallModel : retry_cmd T) (fun r =>
        match r with
        | Ok v => Ret (Ok v)
        | Raise e =>
            if negb (_is_retryable e) then Ret (Raise (non_retryable config e))
            else if max_retries config <=? attempt then Ret (Raise (exhausted config (Some e)))
            else
              random ← send Random;
              delay ← pure (_compute_delay attempt config random);
              _ ← send (SleepFor delay);
              llm_attempts config todo (Some e)
        end)
  end.

Definition retry_llm_call (config : ProcessorConfig) : prog (retry_cmd T) T :=
  llm_attempts config (py_range 0 (max_retries config + 1)) None.
End Retry.

(** ** Correctness *)

Module RetryFacts.
Section Facts.
Context {T : Type} (str_exn : exn -> string) (config : ProcessorConfig).
(** What the [k]-th call does, and the number drawn after it. *)
Context (call : Z -> res T) (random : Z -> float).
Hypothesis config_valid : config_ok config = true.
Hypothesis config_num : num (retry_backoff_base_seconds config) /\ num (retry_backoff_max_seconds config).
Hypothesis random_unit : forall k, ReconnectFacts.unit_random (random k).

Record trail := mk_trail { calls : Z; naps : list float }.

Definition scripted (c : retry_cmd T) (w : trail) : res (reply c) * trail :=
  match c return res (reply c) * trail with
  | CallModel => (call (calls w), mk_trail (calls w + 1) (naps w))
  | Random => (Ok (random (calls w)), w)
  | SleepFor d => (Ok tt, mk_trail (calls w) (naps w ++ [d]))
  end.

Notation run := (interp (E := retry_cmd T) scripted).

(** Call [k] fails with an exception that is retried. *)
Definition retried (k : Z) : Prop := exists e, call k = Raise e /\ _is_retryable str_exn e = true.

Lemma config_bounds :
  0 <= max_retries config <= 5 /\ fin (retry_backoff_base_seconds config) /\ 0 <= fv (retry_backoff_base_seconds config) /\
  fin (retry_backoff_max_seconds config) /\ 0 <= fv (retry_backoff_max_seconds config) <= 120 * unit_pow 0.
Proof.
  destruct config_num as [Nb Nm]. unfold config_ok in config_valid. rewrite !andb_true_iff, !Z.leb_le in config_valid.
  destruct config_valid as (((((H0 & H5) & B0) & B1) & M0) & M1).
  rewrite fle_fv in B0, B1, M0, M1 by (done || (vm_compute; by split)). zbool.
  change (fv (lit 1200 1)) with (120 * unit_pow 0) in M1.
  assert (0 <= fv (lit 5 1)) by (vm_compute; congruence). assert (0 <= fv (lit 50 1)) by (vm_compute; congruence).
  split; [lia|]. split; [|split; [lia|]; split; [|split; [lia|done]]].
  - apply (num_finite_of_bounds _ (lit 5 1) (lit 100 1)); try done; vm_compute; by split.
  - apply (num_finite_of_bounds _ (lit 50 1) (lit 1200 1)); try done; vm_compute; by split.
Qed.

(** The delay after attempt [a]: within the cap. *)
Lemma compute_delay_bounds a u :
  0 <= a < 53 -> ReconnectFacts.unit_random u ->
  exists d, _compute_delay a config u = Ok d /\ 0 <= fv d <= fv (retry_backoff_max_seconds config).
Proof.
  intros Ha Hu. destruct config_bounds as (_ & Fb & Hb & Fm & Hm). unfold _compute_delay.
  assert (Hp : 0 <= 2 ^ a < 2 ^ 53) by (split; [apply Z.pow_nonneg; lia|apply Z.pow_lt_mono_r; lia]).
  rewrite LimiterFacts.float_of_int_small by done. cbn [mbind res_bind]. eexists. split; [reflexivity|].
  destruct (of_Z_exact _ Hp) as [Fp Ep].
  assert (0 <= fv (of_Z (2 ^ a))) by (rewrite Ep; apply Z.mul_nonneg_nonneg; [lia|done]).
  set (x := fmul (retry_backoff_base_seconds config) (of_Z (2 ^ a))).
  assert (0 <= fv x) by (by apply fmul_nonneg).
  destruct (fmin_num x (retry_backoff_max_seconds config)) as [Nc Ec]; [by apply fmul_num|by apply fin_num|].
  assert (Fc : fin (fmin x (retry_backoff_max_seconds config))).
  { apply (num_finite_of_bounds _ fzero (retry_backoff_max_seconds config)); auto with etradie; rewrite ?fv_fzero; lia. }
  pose proof (ReconnectFacts.uniform_range _ u Fc ltac:(lia) Hu). lia.
Qed.

(** What a run from attempt [a] did: it stopped at the first call that is not
    retried, or used all attempts. *)
Definition ran (a : Z) (w : trail) (r : res T) (w' : trail) : Prop :=
  exists k, a <= k <= max_retries config /\ (forall j, a <= j < k -> retried j) /\ (k < max_retries config -> ~ retried k) /\
    calls w' = k + 1 /\ length (naps w') = (length (naps w) + Z.to_nat (k - a))%nat /\
    (Forall (fun d => 0 <= fv d <= fv (retry_backoff_max_seconds config)) (naps w) ->
     Forall (fun d => 0 <= fv d <= fv (retry_backoff_max_seconds config)) (naps w')) /\
    r = match call k with
        | Ok v => Ok v
        | Raise e => Raise (if _is_retryable str_exn e then exhausted str_exn config (Some e) else non_retryable str_exn config e)
        end.

Lemma attempts_run n : forall a last w,
  Z.of_nat n = max_retries config + 1 - a -> (0 < n)%nat -> 0 <= a -> calls w = a ->
  exists r w', run (llm_attempts str_exn config (py_range a (max_retries config + 1)) last) w = (Some r, w') /\ ran a w r w'.
Proof.
  destruct config_bounds as (Hmax & _). induction n as [|n IH]; intros a last w Hn Hpos Ha Hw; [lia|].
  rewrite py_range_cons by lia. cbn [llm_attempts interp scripted]. rewrite Hw.
  destruct (call a) as [v|e] eqn:Ec.
  { eexists _, _. split; [reflexivity|]. exists a. cbn [calls naps]. rewrite Ec. replace (a - a) with 0 by lia.
    repeat split; try lia; try done. intros _ (e & He & _). congruence. }
  destruct (_is_retryable str_exn e) eqn:Er; cbn [negb].
  2:{ eexists _, _. split; [reflexivity|]. exists a. cbn [calls naps]. rewrite Ec, Er. replace (a - a) with 0 by lia.
      repeat split; try lia; try done. intros _ (e' & He & He'). congruence. }
  destruct (Z.leb_spec (max_retries config) a) as [Hle|Hlt].
  { eexists _, _. split; [reflexivity|]. exists a. cbn [calls naps]. rewrite Ec, Er. replace (a - a) with 0 by lia.
    repeat split; try lia; done. }
  rewrite interp_bind. cbn [send interp scripted calls naps].
  destruct (compute_delay_bounds a (random (a + 1))) as (d & Ed & Hd); [lia|apply random_unit|].
  rewrite interp_bind, Ed. cbn [pure interp]. rewrite interp_bind. cbn [send interp scripted calls naps].
  destruct (IH (a + 1) (Some e) (mk_trail (a + 1) (naps w ++ [d]))) as (r & w' & E & k & Hk & Hj & Hnk & Hc & Hl & Hb & Er');
    [lia|lia|lia|done|].
  exists r, w'. split; [exact E|]. exists k. cbn [naps] in *. split; [lia|]. split; [|split; [exact Hnk|split; [exact Hc|]]].
  - intros j Hj'. destruct (Z.eq_dec j a) as [->|]; [by exists e|apply Hj; lia].
  - split; [rewrite Hl, length_app; cbn [length]; lia|]. split; [|exact Er'].
    intros Hall. apply Hb, Forall_app. split; [done|]. by constructor.
Qed.

(** C32: the model is called again exactly after the failures that are worth it.  The call
    is made until one returns or fails with an exception that is not retried, at
    most [max_retries + 1] times; each retry sleeps once, within the configured cap.
    The outcome is the value of the last call, or its exception: unchanged if it is
    a typed one of the processor, wrapped in a [ProcessorError] otherwise.  A rate
    limit is never followed by another call. *)
Theorem retry_llm_exact :
  exists k w, run (retry_llm_call str_exn config) (mk_trail 0 []) =
      (Some (match call k with
             | Ok v => Ok v
             | Raise e => Raise (if _is_retryable str_exn e then exhausted str_exn config (Some e)
                                 else non_retryable str_exn config e)
             end), w) /\
    0 <= k <= max_retries config /\ calls w = k + 1 /\
    (forall j, 0 <= j < k -> retried j) /\ (k < max_retries config -> ~ retried k) /\
    length (naps w) = Z.to_nat k /\ Forall (fun d => 0 <= fv d <= fv (retry_backoff_max_seconds config)) (naps w) /\
    (forall j msg, 0 <= j < k -> call j <> Raise (LLMRateLimitedError msg)) /\
    (forall e, is_llm_error e = true -> call k = Raise e ->
       run (retry_llm_call str_exn config) (mk_trail 0 []) = (Some (Raise e), w)).
Proof.
  destruct config_bounds as (Hmax & _). unfold retry_llm_call.
  destruct (attempts_run (Z.to_nat (max_retries config + 1)) 0 None (mk_trail 0 [])) as (r & w & E & k & Hk & Hj & Hnk & Hc & Hl & Hb & ->);
    [lia|lia|lia|done|].
  exists k, w. split; [exact E|]. cbn [naps length] in Hl, Hb. split; [lia|]. split; [done|]. split; [done|]. split; [done|].
  split; [rewrite Hl; f_equal; lia|]. split; [by apply Hb|]. split.
  - intros j msg Hj' Ej. destruct (Hj j Hj') as (e & He & Hr). rewrite Ej in He. injection He as <-. discriminate Hr.
  - intros e Hllm Ek. rewrite E, Ek. unfold exhausted, non_retryable. rewrite Hllm. by destruct (_is_retryable str_exn e).
Qed.
End Facts.

(** A provider that is briefly down, then answers. *)
Definition sample_config : ProcessorConfig := mk_config "anthropic" 3 (lit 10 1) (lit 300 1).
Definition sample_call (k : Z) : res Z :=
  if k <? 1 then Raise (ForeignError "InternalServerError" (Some 502) "bad gateway")
  else if k <? 2 then Raise TimeoutError else Ok k.

Lemma retry_llm_exact_witness :
  exists w, interp (scripted sample_call (fun _ => lit 5 1)) (retry_llm_call (fun _ => "") sample_config) (mk_trail 0 []) = (Some (Ok 2), w) /\
    calls w = 3 /\ length (naps w) = 2%nat.
Proof.
  destruct (retry_llm_exact (fun _ => "") sample_config sample_call (fun _ => lit 5 1)) as (k & w & E & Hk & Hc & Hj & Hn & Hl & _).
  - vm_compute. reflexivity.
  - vm_compute. repeat split.
  - intros _. vm_compute. repeat split; congruence.
  - assert (k = 2) as ->.
    { change (max_retries sample_config) with 3 in Hk, Hn. destruct (Z.lt_trichotomy k 2) as [H|[H|H]]; [exfalso|exact H|exfalso].
      - apply Hn; [lia|]. assert (k = 0 \/ k = 1) as [->| ->] by lia; eexists; (split; [reflexivity|reflexivity]).
      - destruct (Hj 2 ltac:(lia)) as (e & He & _). discriminate He. }
    exists w. split; [exact E|]. split; [exact Hc|exact Hl].
Defined.
End RetryFacts.
