(* ===== verification/HttpClient.v ===== *)
(** * The shared HTTP client: [engine/shared/http/client.py]

    A circuit breaker per provider and a request loop with retries.  The methods
    of a breaker hold its lock without awaiting, so each is one atomic function of
    the breaker and of the clock reading it takes; the breakers of a client are
    shared by all its requests.  A request is a program ([PyAsync]) that awaits
    the session, the network, the body of a response, the generator and the
    clock.  Parameters: the check of a bracketed host ([ipaddress]), the reading of
    an HTTP date ([email.utils]), the printed length of a JSON value and the text
    of an exception.  URLs are ASCII.  Counters, log lines, trace ids and the
    [details] of exceptions are not modelled. *)

From Stdlib Require Import ZArith Lia Bool Ascii String Floats.SpecFloat.
From stdpp Require Import base list strings gmap.
From S2P Require Import Prelude PyFloat FloatFloor PyText PyRepr PyValues PyAsync RateLimiter Connectivity.

#[local] Open Scope string_scope.
#[local] Open Scope Z_scope.
#[local] Open Scope list_scope.

Definition _NON_RETRYABLE_STATUS : list Z := [400; 401; 403; 404; 405; 422].
Definition MAX_RESPONSE_SIZE : Z := 50 * 1024 * 1024.
Definition _SENSITIVE_HEADERS : list string :=
  ["authorization"; "api-key"; "x-api-key"; "cookie"; "set-cookie"; "proxy-authorization"].

Inductive CircuitState := CLOSED | OPEN | HALF_OPEN.

#[global] Instance CircuitState_eq : EqDecision CircuitState.
Proof. solve_decision. Defined.

(** ** The circuit breaker *)

Module CircuitBreaker.

Record t := mk {
  _failure_threshold : Z; _recovery_timeout : Z; _half_open_max : Z;
  _state : CircuitState; _failure_count : Z; _half_open_successes : Z; _last_failure_time : float }.

Definition create (failure_threshold recovery_timeout half_open_max_calls : Z) : t :=
  mk failure_threshold recovery_timeout half_open_max_calls CLOSED 0 0 fzero.

(** The property [state]; [now] is the reading of [time.monotonic()]. *)
Definition state (now : float) (b : t) : CircuitState * t :=
  match _state b with
  | OPEN =>
      if fle (of_Z (_recovery_timeout b)) (fsub now (_last_failure_time b))
      then (HALF_OPEN, mk (_failure_threshold b) (_recovery_timeout b) (_half_open_max b)
                         HALF_OPEN (_failure_count b) 0 (_last_failure_time b))
      else (OPEN, b)
  | s => (s, b)
  end.

Definition record_success (b : t) : t :=
  match _state b with
  | HALF_OPEN =>
      let successes := _half_open_successes b + 1 in
      if _half_open_max b <=? successes
      then mk (_failure_threshold b) (_recovery_timeout b) (_half_open_max b)
             CLOSED 0 successes (_last_failure_time b)
      else mk (_failure_threshold b) (_recovery_timeout b) (_half_open_max b)
             HALF_OPEN (_failure_count b) successes (_last_failure_time b)
  | s => mk (_failure_threshold b) (_recovery_timeout b) (_half_open_max b)
           s 0 (_half_open_successes b) (_last_failure_time b)
  end.

Definition record_failure (now : float) (b : t) : t :=
  let count := _failure_count b + 1 in
  mk (_failure_threshold b) (_recovery_timeout b) (_half_open_max b)
    (if _failure_threshold b <=? count then OPEN else _state b) count (_half_open_successes b) now.
End CircuitBreaker.

(** ** URLs *)

(** What [urlparse] finds before the path. *)
Record url_parts := mk_url { scheme : string; netloc : string }.

Definition is_alpha (a : ascii) : bool :=
  let n := nat_of_ascii a in ((65 <=? n) && (n <=? 90) || (97 <=? n) && (n <=? 122))%nat.
Definition is_scheme_char (a : ascii) : bool :=
  let n := nat_of_ascii a in
  is_alpha a || ((48 <=? n) && (n <=? 57) || (n =? 43) || (n =? 45) || (n =? 46))%nat.

(** A control character or a blank, at the left of a URL. *)
Fixpoint strip_c0 (s : string) : string :=
  match s with
  | String a r => if (nat_of_ascii a <=? 32)%nat then strip_c0 r else s
  | EmptyString => s
  end.

(** Tabs and line ends anywhere in a URL are dropped. *)
Fixpoint drop_unsafe (s : string) : string :=
  match s with
  | String a r =>
      let n := nat_of_ascii a in
      if ((n =? 9) || (n =? 10) || (n =? 13))%nat then drop_unsafe r else String a (drop_unsafe r)
  | EmptyString => EmptyString
  end.

(** The characters before the first that satisfies [p], and the rest. *)
Fixpoint str_break (p : ascii -> bool) (s : string) : string * string :=
  match s with
  | String a r => if p a then (EmptyString, s) else let '(x, y) := str_break p r in (String a x, y)
  | EmptyString => (EmptyString, EmptyString)
  end.

Fixpoint str_all (p : ascii -> bool) (s : string) : bool :=
  match s with EmptyString => true | String a s => p a && str_all p s end.

Section Url.
Context (check_bracketed_host : string -> res unit).

Definition urlparse (url : string) : res url_parts :=
  let url := drop_unsafe (strip_c0 url) in
  let '(before, after) := str_break (Ascii.eqb ":") url in
  let '(scheme, rest) :=
    match before, after with
    | String a _, String _ after =>
        if is_alpha a && str_all is_scheme_char before then (str_lower before, after) else ("", url)
    | _, _ => ("", url)
    end in
  if str_startswith rest "//" then
    let netloc := fst (str_break (fun a => Ascii.eqb a "/" || Ascii.eqb a "?" || Ascii.eqb a "#") (str_drop 2 rest)) in
    let opens := str_contains "[" netloc in
    let closes := str_contains "]" netloc in
    if xorb opens closes then Raise (ValueError "Invalid IPv6 URL")
    else
      _ ← (if opens then
             match snd (str_break (Ascii.eqb "[") netloc) with
             | String _ host => check_bracketed_host (fst (str_break (Ascii.eqb "]") host))
             | EmptyString => Ok tt
             end
           else Ok tt);
      Ok (mk_url scheme netloc)
  else Ok (mk_url scheme "").

Context (str_exn : exn -> string).

Definition _validate_url (url : string) : res unit :=
  match
    (parsed ← urlparse url;
     if str_empty (scheme parsed) then Raise (ValueError "Missing URL scheme")
     else if negb (str_in (scheme parsed) ["http"; "https"])
     then Raise (ValueError ("Unsupported scheme: " ++ scheme parsed))
     else if str_empty (netloc parsed) then Raise (ValueError "Missing URL hostname")
     else Ok tt)
  with
  | Ok _ => Ok tt
  | Raise e => Raise (ProviderValidationError ("Invalid URL: " ++ str_exn e))
  end.
End Url.

Definition _sanitize_headers (headers : option (list (string * string))) : list (string * string) :=
  match headers with
  | None => []
  | Some hs => map (fun '(k, v) => (k, if str_in (str_lower k) _SENSITIVE_HEADERS then "***REDACTED***" else v)) hs
  end.

(** ** [float] of a string *)

Definition is_digit (a : ascii) : bool := if digit_value a then true else false.

(** Underscores are allowed between digits, and dropped. *)
Fixpoint drop_underscores (after_digit : bool) (s : string) : option string :=
  match s with
  | EmptyString => Some EmptyString
  | String a s =>
      if Ascii.eqb a "_" then
        match s with
        | String b _ => if after_digit && is_digit b then drop_underscores false s else None
        | EmptyString => None
        end
      else String a <$> drop_underscores (is_digit a) s
  end.

(** The digits at the left: their value after [acc], their number and the rest. *)
Fixpoint take_digits (s : string) (acc n : Z) : Z * Z * string :=
  match s with
  | String a r => match digit_value a with Some d => take_digits r (10 * acc + d) (n + 1) | None => (acc, n, s) end
  | EmptyString => (acc, n, s)
  end.

(** The exponent, if there is one, up to the end. *)
Definition take_exponent (s : string) : option Z :=
  match s with
  | EmptyString => Some 0
  | String a r =>
      if Ascii.eqb a "e" then
        let '(sign, r) := match r with
                          | String b r' => if Ascii.eqb b "-" then (-1, r') else if Ascii.eqb b "+" then (1, r') else (1, r)
                          | EmptyString => (1, r)
                          end in
        match take_digits r 0 0 with
        | (v, n, EmptyString) => if 0 <? n then Some (sign * v) else None
        | _ => None
        end
      else None
  end.

Definition unsigned_float (s : string) : option float :=
  if str_in s ["inf"; "infinity"] then Some finf
  else if String.eqb s "nan" then Some S754_nan
  else
    let '(whole, n, r) := take_digits s 0 0 in
    let '(m, k, r) := match r with
                      | String a r' => if Ascii.eqb a "." then take_digits r' whole 0 else (whole, 0, r)
                      | EmptyString => (whole, 0, r)
                      end in
    if 0 <? n + k then (fun e => dec_float m (e - k)) <$> take_exponent r else None.

(** [None]: the call raises [ValueError]. *)
Definition float_of_str (s : string) : option float :=
  s ← drop_underscores false (str_lower (str_strip s));
  match s with
  | String a r =>
      if Ascii.eqb a "-" then fneg <$> unsigned_float r
      else if Ascii.eqb a "+" then unsigned_float r
      else unsigned_float s
  | EmptyString => None
  end.

(** ** Commands *)

(** The status and the headers of a response; its body is read by a command. *)
Record response := mk_response { status : Z; header : string -> option string }.

Record request_args := mk_request {
  method : string; url : string; headers : option (list (string * string)); params : option object;
  json_body : option object; timeout_total : Z; allow_redirects : bool }.

Inductive circuit_op := C_state | C_success | C_failure.

Inductive http_cmd :=
| Circuit (op : circuit_op) (provider_name : string)
| GetSession
| Send (rq : request_args)
| ReadText (resp : response)
| ReadJson (resp : response)
| Sleep (delay : float)
| Random
| UtcNow.

#[global] Instance http_effect : Effect http_cmd := fun c =>
  match c with
  | Circuit C_state _ => CircuitState
  | Circuit _ _ | GetSession | Sleep _ => unit
  | Send _ => response
  | ReadText _ => string
  | ReadJson _ => json
  | Random => float
  | UtcNow => datetime
  end.

Inductive body := BJson (v : json) | BText (s : string).

(** ** The client *)

Module HttpClient.

Record t := mk {
  _timeout : Z; _max_retries : Z; _backoff_base : float; _backoff_max : float; _max_response_size : Z;
  cb_failure_threshold : Z; cb_recovery_timeout : Z; cb_half_open_max : Z }.

Definition default : t := mk 30 3 (lit 10 1) (lit 600 1) MAX_RESPONSE_SIZE 5 60 3.

(** The breakers of the client, and whether its session is closed. *)
Record shared := mk_shared { _circuits : gmap string CircuitBreaker.t; _session : option bool }.

Section Shared.
Context (c : t).

Definition _get_circuit (provider_name : string) (s : shared) : CircuitBreaker.t * shared :=
  match _circuits s !! provider_name with
  | Some b => (b, s)
  | None =>
      let b := CircuitBreaker.create (cb_failure_threshold c) (cb_recovery_timeout c) (cb_half_open_max c) in
      (b, mk_shared (<[provider_name := b]> (_circuits s)) (_session s))
  end.

Definition put_circuit (provider_name : string) (b : CircuitBreaker.t) (s : shared) : shared :=
  mk_shared (<[provider_name := b]> (_circuits s)) (_session s).

Definition circuit_state (provider_name : string) (now : float) (s : shared) : CircuitState * shared :=
  let '(b, s) := _get_circuit provider_name s in
  let '(st, b) := CircuitBreaker.state now b in
  (st, put_circuit provider_name b s).

Definition circuit_success (provider_name : string) (s : shared) : shared :=
  let '(b, s) := _get_circuit provider_name s in
  put_circuit provider_name (CircuitBreaker.record_success b) s.

Definition circuit_failure (provider_name : string) (now : float) (s : shared) : shared :=
  let '(b, s) := _get_circuit provider_name s in
  put_circuit provider_name (CircuitBreaker.record_failure now b) s.

(** [create] is what constructing a session does. *)
Definition _get_session (create : res unit) (s : shared) : res unit * shared :=
  match _session s with
  | Some false => (Ok tt, s)
  | _ => match create with
         | Ok _ => (Ok tt, mk_shared (_circuits s) (Some false))
         | Raise e => (Raise e, s)
         end
  end.

(** [closing] is what closing a session does. *)
Definition close (closing : res unit) (s : shared) : res unit * shared :=
  match _session s with
  | Some false =>
      match closing with
      | Ok _ => (Ok tt, mk_shared (_circuits s) (Some true))
      | Raise e => (Raise e, s)
      end
  | _ => (Ok tt, s)
  end.
End Shared.

Section Requests.
Context (check_bracketed_host : string -> res unit) (str_exn : exn -> string).
Context (parsedate_to_datetime : string -> res datetime).
Context (json_str_len : json -> Z).
Context (c : t).

Notation program := (prog http_cmd).

Definition sleep (delay : float) : program unit := send (Sleep delay).

(** [2**attempt] becomes a float in the product. *)
Definition backoff (attempt : Z) (random : float) : res float :=
  pow ← OutboundRateLimiter.float_of_int (2 ^ attempt);
  let delay := fmin (fmul (_backoff_base c) pow) (_backoff_max c) in
  let jitter := ReconnectPolicy.uniform fzero (fmul delay (lit 5 1)) random in
  Ok (fadd delay jitter).

Definition _backoff_delay (attempt : Z) : program float :=
  random ← send Random;
  pure (backoff attempt random).

(** [(a - b).total_seconds()]; a naive operand raises. *)
Definition seconds_between (a b : datetime) : res float :=
  match utcoffset a, utcoffset b with
  | Some _, Some _ => Ok (lit (instant a - instant b) 6)
  | _, _ => Raise TypeError
  end.

(** The delay an HTTP date asks for, at least a second. *)
Definition http_date_delay (raw_retry : string) : program float :=
  target_dt ← pure (parsedate_to_datetime raw_retry);
  now ← send UtcNow;
  delta ← pure (seconds_between target_dt now);
  mret (fmax delta fone).

Definition _handle_rate_limit (resp : response) (attempt : Z) : program unit :=
  fallback ← _backoff_delay attempt;
  retry_after ←
    (match header resp "Retry-After" with
     | None => mret fallback
     | Some raw_retry =>
         match float_of_str raw_retry with
         | Some x => mret x
         | None => try_except (http_date_delay raw_retry) (fun _ => mret fallback)
         end
     end : program float);
  sleep retry_after.

Definition _handle_non_retryable_error {A} (resp : response) (provider_name : string) : program A :=
  _ ← send (ReadText resp);
  Ret (Raise (ProviderUnavailableError (provider_name ++ " returned " ++ str_int (status resp)))).

Definition _handle_server_error (resp : response) (provider_name : string) : program unit :=
  _ ← send (Circuit C_failure provider_name);
  _ ← send (ReadText resp);
  mret tt.

Definition _parse_response (resp : response) : program body :=
  _ ← match header resp "Content-Length" with
      | Some content_length =>
          if str_empty content_length then mret tt
          else
            n ← pure (int_of_str content_length);
            if _max_response_size c <? n
            then Ret (Raise (ProviderValidationError ("Response size " ++ content_length ++ " exceeds maximum " ++
                                                      str_int (_max_response_size c))))
            else mret tt
      | None => mret tt
      end;
  let content_type := match header resp "Content-Type" with Some s => s | None => "" end in
  data ← (if str_contains "json" content_type || str_contains "javascript" content_type
          then v ← send (ReadJson resp); mret (BJson v)
          else s ← send (ReadText resp); mret (BText s));
  let response_size := match data with BJson v => json_str_len v | BText s => str_len s end in
  if _max_response_size c <? response_size
  then Ret (Raise (ProviderValidationError ("Response size " ++ str_int response_size ++ " exceeds maximum " ++
                                            str_int (_max_response_size c))))
  else mret data.

(** How one attempt leaves its [try]: with a value, by [continue] with the
    [last_exc] it set, or through an [except] clause that goes on. *)
Inductive turn := Done (data : body) | Continue (last_exc : option exn) | Failed (last_exc : exn).

(** The body of the [try]. *)
Definition attempt_once (provider_name : string) (rq : request_args) (attempt : Z) : program turn :=
  resp ← send (Send rq);
  if status resp =? 429 then
    _ ← _handle_rate_limit resp attempt;
    mret (Continue None)
  else
    _ ← (if existsb (Z.eqb (status resp)) _NON_RETRYABLE_STATUS
         then _handle_non_retryable_error resp provider_name else mret tt);
    if 500 <=? status resp then
      _ ← _handle_server_error resp provider_name;
      let last_exc := ProviderUnavailableError (provider_name ++ " server error " ++ str_int (status resp)) in
      if attempt <? _max_retries c then
        delay ← _backoff_delay attempt;
        _ ← sleep delay;
        mret (Continue (Some last_exc))
      else Ret (Raise last_exc)
    else
      data ← _parse_response resp;
      _ ← send (Circuit C_success provider_name);
      mret (Done data).

(** The [except] clauses. *)
Definition handle_attempt (provider_name : string) (rq : request_args) (e : exn) : program turn :=
  match e with
  | TimeoutError =>
      _ ← send (Circuit C_failure provider_name);
      mret (Failed (ProviderTimeoutError (provider_name ++ " timed out after " ++ str_int (timeout_total rq) ++ "s")))
  | ClientError _ =>
      _ ← send (Circuit C_failure provider_name);
      mret (Failed (ProviderUnavailableError (provider_name ++ " connection error: " ++ str_exn e)))
  | ProviderUnavailableError _ | ProviderValidationError _ => Ret (Raise e)
  | _ =>
      _ ← send (Circuit C_failure provider_name);
      Ret (Raise (HttpClientError ("Unexpected error during " ++ provider_name ++ " request: " ++ str_exn e)))
  end.

Fixpoint attempts (provider_name : string) (rq : request_args) (todo : list Z) (last_exc : option exn) : program body :=
  match todo with
  | [] =>
      Ret (Raise match last_exc with
                 | Some e => e
                 | None => ProviderUnavailableError (provider_name ++ " all retries exhausted")
                 end)
  | attempt :: todo =>
      t ← try_except (attempt_once provider_name rq attempt) (handle_attempt provider_name rq);
      match t with
      | Done data => mret data
      | Continue e => attempts provider_name rq todo (match e with Some _ => e | None => last_exc end)
      | Failed e =>
          _ ← (if attempt <? _max_retries c then delay ← _backoff_delay attempt; sleep delay else mret tt);
          attempts provider_name rq todo (Some e)
      end
  end.

Definition request (method url provider_name : string) (headers : option (list (string * string)))
    (params json_body : option object) (timeout_override : option Z) : program body :=
  _ ← pure (_validate_url check_bracketed_host str_exn url);
  circuit_state ← send (Circuit C_state provider_name);
  if decide (circuit_state = OPEN)
  then Ret (Raise (ProviderUnavailableError ("Circuit breaker OPEN for " ++ provider_name)))
  else
    _ ← send GetSession;
    let timeout := match timeout_override with Some n => if n =? 0 then _timeout c else n | None => _timeout c end in
    attempts provider_name (mk_request method url headers params json_body timeout true)
      (py_range 0 (_max_retries c + 1)) None.

Definition get (url provider_name : string) (headers : option (list (string * string))) (params : option object)
    (timeout_override : option Z) : program body :=
  request "GET" url provider_name headers params None timeout_override.

Definition post (url provider_name : string) (headers : option (list (string * string))) (params json_body : option object)
    (timeout_override : option Z) : program body :=
  request "POST" url provider_name headers params json_body timeout_override.

Definition delete (url provider_name : string) (headers : option (list (string * string))) (params : option object)
    (timeout_override : option Z) : program body :=
  request "DELETE" url provider_name headers params None timeout_override.

(** [int(timeout) if timeout else None]. *)
Definition head_timeout (timeout_override : option Z) (timeout : option float) : res (option Z) :=
  match timeout_override, timeout with
  | Some n, _ => Ok (Some n)
  | None, Some x => if feq x fzero then Ok None else n ← py_int x; Ok (Some n)
  | None, None => Ok None
  end.

(** The result is the status of the response. *)
Definition head (url provider_name : string) (headers : option (list (string * string))) (follow_redirects : bool)
    (timeout : option float) (timeout_override : option Z) : program Z :=
  _ ← pure (_validate_url check_bracketed_host str_exn url);
  effective_timeout ← pure (head_timeout timeout_override timeout);
  let request_timeout := match effective_timeout with Some n => if n =? 0 then _timeout c else n | None => _timeout c end in
  circuit_state ← send (Circuit C_state provider_name);
  if decide (circuit_state = OPEN)
  then Ret (Raise (ProviderUnavailableError ("Circuit breaker OPEN for " ++ provider_name)))
  else
    _ ← send GetSession;
    try_except
      (resp ← send (Send (mk_request "HEAD" url headers None None request_timeout follow_redirects));
       _ ← send (Circuit C_success provider_name);
       mret (status resp))
      (fun e =>
         match e with
         | TimeoutError =>
             _ ← send (Circuit C_failure provider_name);
             Ret (Raise (ProviderTimeoutError (provider_name ++ " HEAD timed out")))
         | ClientError _ =>
             _ ← send (Circuit C_failure provider_name);
             Ret (Raise (ProviderUnavailableError (provider_name ++ " HEAD connection error: " ++ str_exn e)))
         | _ => Ret (Raise e)
         end).
End Requests.
End HttpClient.
