(* ===== verification/HttpFacts.v ===== *)
(** * The HTTP client: when a provider is cut off and what a request does

    [BreakerFacts]: the circuit breaker opens exactly on a run of failures, stays
    open for the whole recovery time whatever else is recorded, and closes only
    after the configured number of successes.  [RequestFacts]: what a request
    returns, how often it calls the network, what it records and how long it
    sleeps, for every behaviour of the network. *)

From Stdlib Require Import ZArith Lia Bool Ascii String.
From stdpp Require Import base list strings gmap.
From S2P Require Import Prelude PyFloat FloatRound FloatMono FloatGrid PyText PyRepr PyValues PyAsync RateLimiter Connectivity HttpClient.

#[local] Open Scope string_scope.
#[local] Open Scope Z_scope.
#[local] Open Scope list_scope.

Module BreakerFacts.
Import CircuitBreaker.

(** What is done to a breaker, with the clock readings. *)
Inductive event := Read (now : float) | Success | Failure (now : float).

Definition react (b : t) (e : event) : t :=
  match e with Read now => snd (state now b) | Success => record_success b | Failure now => record_failure now b end.

Definition history (b : t) (es : list event) : t := fold_left react es b.

Lemma history_app b es es' : history b (es ++ es') = history (history b es) es'.
Proof. apply fold_left_app. Qed.

Definition is_success (e : event) : bool := match e with Success => true | _ => false end.
Definition is_failure (e : event) : bool := match e with Failure _ => true | _ => false end.

Definition failures (es : list event) : Z := Z.of_nat (length (List.filter is_failure es)).

Lemma failures_app es es' : failures (es ++ es') = failures es + failures es'.
Proof. unfold failures. rewrite List.filter_app, length_app. lia. Qed.

(** [n] failures with no success between them. *)
Definition tripped (n : Z) (es : list event) : Prop :=
  exists before during after, es = before ++ during ++ after /\ existsb is_success during = false /\ n <= failures during.

(** The time of the last failure. *)
Fixpoint last_failure (es : list event) (since : float) : float :=
  match es with
  | [] => since
  | Failure now :: es => last_failure es now
  | _ :: es => last_failure es since
  end.

(** Some read found the breaker ready to be tried again. *)
Definition probed (b : t) (es : list event) : Prop :=
  exists before now after, es = before ++ Read now :: after /\ fst (state now (history b before)) = HALF_OPEN.

Lemma last_failure_app es es' since : last_failure (es ++ es') since = last_failure es' (last_failure es since).
Proof. revert since. induction es as [|[] es IH]; intros since; cbn; auto. Qed.

Lemma react_config b e :
  _failure_threshold (react b e) = _failure_threshold b /\ _recovery_timeout (react b e) = _recovery_timeout b /\
  _half_open_max (react b e) = _half_open_max b.
Proof. destruct b as [? ? ? []], e; cbn; repeat case_match; done. Qed.

Lemma history_config b es :
  _failure_threshold (history b es) = _failure_threshold b /\ _recovery_timeout (history b es) = _recovery_timeout b /\
  _half_open_max (history b es) = _half_open_max b.
Proof.
  revert b. induction es as [|e es IH]; intros b; [done|].
  change (history b (e :: es)) with (history (react b e) es).
  destruct (IH (react b e)) as (-> & -> & ->). apply react_config.
Qed.

(** The longest run of failures that reaches the end. *)
Fixpoint streak (es : list event) (n : Z) : Z :=
  match es with
  | [] => n
  | Success :: es => streak es 0
  | Failure _ :: es => streak es (n + 1)
  | Read _ :: es => streak es n
  end.

Lemma streak_app es es' n : streak (es ++ es') n = streak es' (streak es n).
Proof. revert n. induction es as [|[] es IH]; intros n; cbn; auto. Qed.

Lemma streak_run es n : exists before during, es = before ++ during /\ existsb is_success during = false /\
  streak es n = failures during + (if existsb is_success es then 0 else n) /\ (existsb is_success es = false -> before = []).
Proof.
  revert n. induction es as [|e es IH] using rev_ind; intros n; [by exists [], []|].
  destruct (IH n) as (be & du & E & Hd & Hs & Hb). rewrite streak_app, existsb_app. cbn [existsb].
  destruct e as [now| |now]; cbn [streak is_success orb].
  - exists be, (du ++ [Read now]). rewrite existsb_app, Hd, failures_app, ?orb_false_r. change (failures [Read now]) with 0.
    split; [by rewrite app_assoc, <- E|]. split; [done|]. split; [by rewrite Z.add_0_r|done].
  - exists (es ++ [Success]), []. rewrite app_nil_r, orb_true_r. repeat split; done.
  - exists be, (du ++ [Failure now]). rewrite existsb_app, Hd, failures_app, ?orb_false_r. change (failures [Failure now]) with 1.
    split; [by rewrite app_assoc, <- E|]. split; [done|]. split; [lia|done].
Qed.

Lemma tripped_app n es es' : tripped n es -> tripped n (es ++ es').
Proof. intros (b & d & a & -> & Hd & Hn). exists b, d, (a ++ es'). by rewrite <- !app_assoc. Qed.

Lemma streak_tripped n es : 0 < n -> n <= streak es 0 -> tripped n es.
Proof.
  intros Hn Hs. destruct (streak_run es 0) as (b & d & E & Hd & Hf & _). exists b, d, []. rewrite app_nil_r.
  split; [done|]. split; [done|]. rewrite Hf in Hs. destruct (existsb _ _); lia.
Qed.

(** A run that ends in the last event is the streak. *)
Lemma tripped_snoc n es e : 0 < n ->
  tripped n (es ++ [e]) <-> tripped n es \/ n <= streak (es ++ [e]) 0.
Proof.
  intros Hn. split.
  - intros (b & d & a & E & Hd & Hf). destruct a as [|x a] using rev_ind.
    + rewrite app_nil_r in E. right. rewrite E, streak_app. clear E.
      assert (Hs : forall d n, existsb is_success d = false -> streak d n = failures d + n).
      { clear. induction d as [|[] d IH]; intros n Hd; cbn in *; [done|by apply IH|done|rewrite IH by done; unfold failures; cbn; lia]. }
      rewrite Hs by done. assert (H0 : forall b n, 0 <= n -> 0 <= streak b n).
      { clear. induction b as [|[] b IH]; intros n Hn; cbn; [done|by apply IH|by apply IH|apply IH; lia]. }
      specialize (H0 b 0 ltac:(lia)). lia.
    + clear IHa. left. rewrite !app_assoc in E. apply app_inj_tail in E as [-> _]. exists b, d, a. by rewrite app_assoc.
  - intros [Ht|Hs]; [by apply tripped_app|by apply streak_tripped].
Qed.

Lemma probed_app b es es' : ~ probed b (es ++ es') -> ~ probed b es.
Proof. intros H (x & now & y & -> & Hn). apply H. exists x, now, (y ++ es'). by rewrite <- app_assoc. Qed.

(** A breaker that was never tried again: its fields are functions of its history. *)
Lemma untried th rt hm es :
  0 < th -> ~ probed (create th rt hm) es ->
  let b := history (create th rt hm) es in
  _failure_count b = streak es 0 /\ _last_failure_time b = last_failure es fzero /\
  _state b <> HALF_OPEN /\ (_state b = OPEN <-> tripped th es).
Proof.
  intros Hth. induction es as [|e es IH] using rev_ind; intros Hp; cbn zeta.
  { repeat split; try done. intros (b & d & a & E & _ & Hn). destruct b; [|done]. destruct d; [|done]. unfold failures in Hn. cbn in Hn. lia. }
  destruct (IH (probed_app _ _ _ Hp)) as (Hc & Hl & Hh & Ho). clear IH. rewrite history_app, streak_app, last_failure_app.
  rewrite tripped_snoc by done. rewrite streak_app.
  destruct (history_config (create th rt hm) es) as (Eth & Ert & _). cbn in Eth, Ert.
  assert (Hprobe : forall now, e = Read now -> fst (state now (history (create th rt hm) es)) <> HALF_OPEN).
  { intros now -> Hs. apply Hp. by exists es, now, []. }
  pose proof (streak_tripped th es Hth) as Hst. set (b := history (create th rt hm) es) in *.
  change (history b [e]) with (react b e). destruct e as [now| |now]; cbn [react streak last_failure].
  - specialize (Hprobe now eq_refl). assert (snd (state now b) = b) as ->; [|tauto].
    unfold state in *. destruct (_state b); [done| |done]. case_match; done.
  - assert (E : record_success b = mk th rt (_half_open_max b) (_state b) 0 (_half_open_successes b) (_last_failure_time b))
      by (unfold record_success; destruct (_state b); try done; by rewrite Eth, Ert).
    rewrite E. cbn. repeat split; try done; [tauto|]. intros [H|H]; [tauto|lia].
  - unfold record_failure. cbn. rewrite Eth, Hc. repeat split; try done.
    + by case_match.
    + destruct (Z.leb_spec th (streak es 0 + 1)); [by right|tauto].
    + destruct (Z.leb_spec th (streak es 0 + 1)); [done|]. intros [H'|H']; [tauto|lia].
Qed.

(** C33: a provider is cut off exactly after a run of failures.  For every history of
    a breaker that was not tried again yet: it is open if and only if the history
    contains [failure_threshold] failures with no success between them, and closed
    otherwise.  Once open, a request is refused as long as less than the recovery
    time has passed since the last failure of the history, whatever successes came
    after the run; the first read after that time lets a request through. *)
Theorem breaker_trips_exactly th rt hm es :
  0 < th -> ~ probed (create th rt hm) es ->
  let b := history (create th rt hm) es in
  (tripped th es -> forall now, fst (state now b) =
     if fle (of_Z rt) (fsub now (last_failure es fzero)) then HALF_OPEN else OPEN) /\
  (~ tripped th es -> forall now, state now b = (CLOSED, b)).
Proof.
  intros Hth Hp b. destruct (untried th rt hm es Hth Hp) as (_ & Hl & Hh & Ho). fold b in Hl, Hh, Ho.
  destruct (history_config (create th rt hm) es) as (_ & Ert & _). fold b in Ert. cbn in Ert. unfold state. split.
  - intros Ht now. rewrite (proj2 Ho Ht), Ert, Hl. by case_match.
  - intros Ht now. destruct (_state b) eqn:Es; tauto.
Qed.

(** Five failures, a success of a request that was already running, and a read a
    second later. *)
Definition sample_history : list event :=
  [Failure (of_Z 1); Read (of_Z 2); Failure (of_Z 2); Failure (of_Z 3); Failure (of_Z 4); Failure (of_Z 5); Success].

Lemma breaker_trips_exactly_witness :
  fst (state (of_Z 6) (history (create 5 60 3) sample_history)) = OPEN /\
  fst (state (of_Z 66) (history (create 5 60 3) sample_history)) = HALF_OPEN.
Proof.
  destruct (breaker_trips_exactly 5 60 3 sample_history) as [Ht _].
  - reflexivity.
  - intros (b & now & a & E & Hs). destruct b as [|e [|e' b]]; [discriminate E| |].
    + injection E as <- <- <-. vm_compute in Hs. discriminate Hs.
    + injection E as <- <- E. do 5 (destruct b as [|? b]; [discriminate E|injection E as <- E]). destruct b; discriminate E.
  - assert (Hd : tripped 5 sample_history).
    { exists [], (take 6 sample_history), [Success]. split; [reflexivity|]. split; [reflexivity|]. vm_compute. discriminate. }
    split; rewrite (Ht Hd); vm_compute; reflexivity.
Defined.

(** *** Probation *)

(** What happens while a breaker is half open: reads and successes. *)
Definition calm (es : list event) : Prop := Forall (fun e => is_failure e = false) es.
Definition successes (es : list event) : Z := Z.of_nat (length (List.filter is_success es)).

Lemma half_open_calm es : forall b, _state b = HALF_OPEN -> calm es ->
  let b' := history b es in
  (_half_open_successes b + successes es < _half_open_max b ->
     _state b' = HALF_OPEN /\ _failure_count b' = _failure_count b /\
     _half_open_successes b' = _half_open_successes b + successes es) /\
  (_half_open_max b <= _half_open_successes b + successes es -> 0 < successes es -> _state b' = CLOSED /\ _failure_count b' = 0).
Proof.
  assert (Hclosed : forall l b, _state b = CLOSED -> _failure_count b = 0 -> calm l ->
    _state (history b l) = CLOSED /\ _failure_count (history b l) = 0).
  { induction l as [|e es' IH]; intros b Hs Hf Hc; [done|]. inversion Hc as [|? ? He Hc']; subst.
    change (history b (e :: es')) with (history (react b e) es').
    apply IH; [| |done]; (destruct e; [..|discriminate He]); cbn; unfold state, record_success; rewrite Hs; cbn; done. }
  induction es as [|e es IH]; intros b Hs Hc; cbn zeta.
  { unfold successes. cbn. split; [intros; repeat split; try done; lia|lia]. }
  inversion Hc as [|? ? He Hc']; subst. change (history b (e :: es)) with (history (react b e) es).
  destruct e as [now| |now]; [| |done].
  - assert (react b (Read now) = b) as -> by (cbn; unfold state; by rewrite Hs). apply IH; done.
  - assert (Hsu : successes (Success :: es) = successes es + 1) by (unfold successes; cbn; lia). rewrite Hsu.
    cbn [react]. unfold record_success. rewrite Hs. assert (0 <= successes es) by (unfold successes; lia).
    destruct (Z.leb_spec (_half_open_max b) (_half_open_successes b + 1)).
    + split; [lia|]. intros _ _. apply Hclosed; done.
    + set (b1 := mk _ _ _ _ _ _ _). destruct (IH b1 eq_refl Hc') as [H1 H2]. cbn in H1, H2. split.
      * intros Hlt. destruct H1 as (A & B & C); [lia|]. split; [done|]. split; [done|]. rewrite C. lia.
      * intros Hle _. apply H2; lia.
Qed.

(** A provider that was cut off has to prove itself.  From a breaker that opened on its
    failures and recorded no success since, the first read after the recovery
    time half-opens it; then it closes once [half_open_max] successes are
    recorded, and a failure before that opens it again for the whole recovery
    time. *)
Theorem breaker_probation b now es tf :
  _state b = OPEN -> _failure_threshold b <= _failure_count b -> 0 < _half_open_max b ->
  fle (of_Z (_recovery_timeout b)) (fsub now (_last_failure_time b)) = true -> calm es ->
  let b' := history b (Read now :: es) in
  (_half_open_max b <= successes es <-> _state b' = CLOSED) /\
  (successes es < _half_open_max b ->
     _state b' = HALF_OPEN /\
     forall later, fst (state later (history b' [Failure tf])) =
       if fle (of_Z (_recovery_timeout b)) (fsub later tf) then HALF_OPEN else OPEN).
Proof.
  intros Ho Hf Hm Hr Hc b'. change (history b (Read now :: es)) with (history (react b (Read now)) es) in b'.
  assert (Eb : react b (Read now) = mk (_failure_threshold b) (_recovery_timeout b) (_half_open_max b) HALF_OPEN (_failure_count b) 0 (_last_failure_time b))
    by (cbn; unfold state; by rewrite Ho, Hr).
  subst b'. rewrite Eb. set (b1 := mk _ _ _ _ _ _ _). destruct (half_open_calm es b1 eq_refl Hc) as [H1 H2]. cbn in H1, H2.
  destruct (history_config b1 es) as (E1 & E2 & E3). split; [split|].
  - intros Hle. apply H2; lia.
  - intros Hs. destruct (Z.lt_ge_cases (successes es) (_half_open_max b)) as [Hlt|Hge]; [|done].
    destruct (H1 Hlt) as [Hs' _]. congruence.
  - intros Hlt. destruct (H1 Hlt) as (Hs & Hc' & _). split; [done|]. intros later.
    change (history (history b1 es) [Failure tf]) with (record_failure tf (history b1 es)).
    unfold record_failure. rewrite E1, Hc'. cbn [_failure_threshold b1]. rewrite (proj2 (Z.leb_le _ _)) by (cbn; lia).
    unfold state. cbn. rewrite E2. cbn. by case_match.
Qed.

Lemma breaker_probation_witness :
  fst (state (of_Z 100) (history (history (create 1 60 2) [Failure (of_Z 1)]) [Read (of_Z 70); Success; Failure (of_Z 90)])) = OPEN.
Proof.
  destruct (breaker_probation (history (create 1 60 2) [Failure (of_Z 1)]) (of_Z 70) [Success] (of_Z 90)) as [_ H].
  - reflexivity.
  - vm_compute. discriminate.
  - reflexivity.
  - vm_compute. reflexivity.
  - constructor; [reflexivity|constructor].
  - destruct H as [_ H]; [vm_compute; reflexivity|]. specialize (H (of_Z 100)). vm_compute in H |- *. exact H.
Defined.

(** A success recorded while the breaker is open forgets the failures: the
    half-open breaker then survives a failure and lets every request through. *)
Example success_while_open :
  let b := history (create 5 60 3) (sample_history ++ [Read (of_Z 66); Failure (of_Z 67)]) in
  fst (state (of_Z 68) b) = HALF_OPEN /\ _failure_count b = 1.
Proof. vm_compute. split; reflexivity. Qed.
End BreakerFacts.

(** ** Requests *)

Module RequestFacts.
Import HttpClient.

Section Facts.
Context (check_bracketed_host : string -> res unit) (str_exn : exn -> string).
Context (parsedate_to_datetime : string -> res datetime) (json_str_len : json -> Z).
Context (c : t) (p : string).
(** The network: what the [k]-th call does, and what reading its body does; what
    creating a session and sleeping do; the clocks and the generator. *)
Context (net : Z -> res response) (text : Z -> res string) (parsed : Z -> res json).
Context (session : res unit) (nap : float -> res unit).
Context (clock : Z -> float) (utc : datetime) (random : Z -> float).

Record world := mk_world { sends : Z; ticks : Z; naps : list float; sh : shared }.

Definition serve (cmd : http_cmd) (w : world) : res (reply cmd) * world :=
  match cmd return res (reply cmd) * world with
  | Circuit C_state q =>
      let '(st, s) := circuit_state c q (clock (ticks w)) (sh w) in (Ok st, mk_world (sends w) (ticks w + 1) (naps w) s)
  | Circuit C_success q => (Ok tt, mk_world (sends w) (ticks w + 1) (naps w) (circuit_success c q (sh w)))
  | Circuit C_failure q =>
      (Ok tt, mk_world (sends w) (ticks w + 1) (naps w) (circuit_failure c q (clock (ticks w)) (sh w)))
  | GetSession => let '(r, s) := _get_session session (sh w) in (r, mk_world (sends w) (ticks w) (naps w) s)
  | Send _ => (net (sends w), mk_world (sends w + 1) (ticks w) (naps w) (sh w))
  | ReadText _ => (text (sends w - 1), w)
  | ReadJson _ => (parsed (sends w - 1), w)
  | Sleep d => (nap d, mk_world (sends w) (ticks w) (naps w ++ [d]) (sh w))
  | Random => (Ok (random (ticks w)), mk_world (sends w) (ticks w + 1) (naps w) (sh w))
  | UtcNow => (Ok utc, w)
  end.

Notation run := (interp (E := http_cmd) serve).

Hypothesis retries_small : 0 <= _max_retries c < 53.
Hypothesis base_ok : fin (_backoff_base c) /\ 0 <= fv (_backoff_base c).
Hypothesis max_ok : fin (_backoff_max c) /\ 0 <= fv (_backoff_max c) <= 2 ^ 50 * unit_pow 0.
Hypothesis random_unit : forall k, ReconnectFacts.unit_random (random k).
(** [asyncio.sleep] returns after a finite delay. *)
Hypothesis nap_finite : forall d, is_finite d = true -> nap d = Ok tt.

(** *** What the attempts should come to *)

Inductive verdict := Return (data : body) | Stop (e : exn) | Again (e : option exn).

(** An exception of attempt [k]: the failures it counts for, and what follows. *)
Definition on_exception (rq : request_args) (e : exn) : nat * verdict :=
  match e with
  | TimeoutError => (1%nat, Again (Some (ProviderTimeoutError (p ++ " timed out after " ++ str_int (timeout_total rq) ++ "s"))))
  | ClientError _ => (1%nat, Again (Some (ProviderUnavailableError (p ++ " connection error: " ++ str_exn e))))
  | ProviderUnavailableError _ | ProviderValidationError _ => (0%nat, Stop e)
  | _ => (1%nat, Stop (HttpClientError ("Unexpected error during " ++ p ++ " request: " ++ str_exn e)))
  end.

(** The delay a rate limit asks for, when the backoff would be [fallback]. *)
Definition asked (resp : response) (fallback : float) : float :=
  match header resp "Retry-After" with
  | None => fallback
  | Some raw =>
      match float_of_str raw with
      | Some x => x
      | None =>
          match (target ← parsedate_to_datetime raw; seconds_between target utc) with
          | Ok delta => fmax delta fone
          | Raise _ => fallback
          end
      end
  end.

Definition too_large (n : Z) : bool := _max_response_size c <? n.

(** The data of a response, by its headers and its body. *)
Definition content (resp : response) (k : Z) : res body :=
  _ ← match header resp "Content-Length" with
      | Some s =>
          if str_empty s then Ok tt
          else n ← int_of_str s;
               if too_large n
               then Raise (ProviderValidationError ("Response size " ++ s ++ " exceeds maximum " ++ str_int (_max_response_size c)))
               else Ok tt
      | None => Ok tt
      end;
  let ct := match header resp "Content-Type" with Some s => s | None => "" end in
  data ← (if str_contains "json" ct || str_contains "javascript" ct
          then v ← parsed k; Ok (BJson v) else s ← text k; Ok (BText s));
  let n := match data with BJson v => json_str_len v | BText s => str_len s end in
  if too_large n
  then Raise (ProviderValidationError ("Response size " ++ str_int n ++ " exceeds maximum " ++ str_int (_max_response_size c)))
  else Ok data.

Definition judged (rq : request_args) (k : Z) : nat * verdict :=
  match net k with
  | Raise e => on_exception rq e
  | Ok resp =>
      if status resp =? 429 then
        match nap (asked resp fzero) with Ok _ => (0%nat, Again None) | Raise e => on_exception rq e end
      else if existsb (Z.eqb (status resp)) _NON_RETRYABLE_STATUS then
        match text k with
        | Ok _ => (0%nat, Stop (ProviderUnavailableError (p ++ " returned " ++ str_int (status resp))))
        | Raise e => on_exception rq e
        end
      else if 500 <=? status resp then
        match text k with
        | Ok _ =>
            let e := ProviderUnavailableError (p ++ " server error " ++ str_int (status resp)) in
            (1%nat, if k <? _max_retries c then Again (Some e) else Stop e)
        | Raise e => let '(n, v) := on_exception rq e in (S n, v)
        end
      else
        match content resp k with Ok d => (0%nat, Return d) | Raise e => on_exception rq e end
  end.

(** *** Delays *)

(** The delays of the backoff: at most twice the cap. *)
Definition bounded (d : float) : Prop := is_finite d = true /\ 0 <= fv d <= 2 * fv (_backoff_max c).

Lemma capped_delay a : 0 <= a < 53 ->
  let d := fmin (fmul (_backoff_base c) (of_Z (2 ^ a))) (_backoff_max c) in fin d /\ 0 <= fv d <= fv (_backoff_max c).
Proof.
  intros Ha d. destruct base_ok as [Fb Hb], max_ok as [Fm Hm].
  assert (Hp : 0 <= 2 ^ a < 2 ^ 53) by (split; [apply Z.pow_nonneg; lia|apply Z.pow_lt_mono_r; lia]).
  destruct (of_Z_exact _ Hp) as [Fp Ep].
  assert (0 <= fv (of_Z (2 ^ a))) by (rewrite Ep; apply Z.mul_nonneg_nonneg; [lia|done]).
  assert (0 <= fv (fmul (_backoff_base c) (of_Z (2 ^ a)))) by (by apply fmul_nonneg).
  destruct (fmin_num (fmul (_backoff_base c) (of_Z (2 ^ a))) (_backoff_max c)) as [Nc Ec]; [by apply fmul_num|by apply fin_num|].
  fold d in Nc, Ec. split; [|lia]. apply (num_finite_of_bounds _ fzero (_backoff_max c)); auto with etradie; rewrite ?fv_fzero; lia.
Qed.

Lemma uniform_fin s u : fin s -> 0 <= fv s -> ReconnectFacts.unit_random u -> fin (ReconnectPolicy.uniform fzero s u).
Proof.
  intros Fs Hs Hu. pose proof (ReconnectFacts.uniform_range s u Fs Hs Hu) as Hr. destruct Hu as [Fu Hu].
  destruct (ReconnectFacts.fsub_zero_r s Fs) as [Ed Fd]. unfold ReconnectPolicy.uniform in *.
  assert (Fm : fin (fmul (fsub s fzero) u)).
  { apply (num_finite_of_bounds _ fzero s); auto with etradie; rewrite ?fv_fzero. split.
    - apply fmul_nonneg; done || lia.
    - rewrite <- Ed. apply (fmul_rounds _ _ Fd Fu); [done|]. apply Z.mul_le_mono_nonneg_l; lia. }
  apply (num_finite_of_bounds _ fzero s); auto with etradie; rewrite ?fv_fzero; lia.
Qed.

Lemma backoff_bounded a u : 0 <= a < 53 -> ReconnectFacts.unit_random u ->
  exists d, backoff c a u = Ok d /\ bounded d.
Proof.
  intros Ha Hu. destruct (capped_delay a Ha) as [Fd Hd]. unfold backoff.
  rewrite LimiterFacts.float_of_int_small by (split; [apply Z.pow_nonneg; lia|apply Z.pow_lt_mono_r; lia]).
  cbn [mbind res_bind]. eexists. split; [reflexivity|]. set (d := fmin _ _) in *.
  assert (Fh : fin (lit 5 1)) by (vm_compute; by split).
  assert (Hh : 0 <= fv (lit 5 1) <= unit_pow 0) by (vm_compute; split; congruence).
  set (h := fmul d (lit 5 1)). assert (Hj : 0 <= fv h <= fv d).
  { split; [apply fmul_nonneg; done || lia|]. apply (fmul_rounds _ _ Fd Fh); [done|]. apply Z.mul_le_mono_nonneg_l; lia. }
  assert (Fj : fin h).
  { apply (num_finite_of_bounds _ fzero d); [by apply fmul_num|auto with etradie|done|rewrite fv_fzero; lia]. }
  pose proof (ReconnectFacts.uniform_range h u Fj ltac:(lia) Hu) as Hu'.
  destruct (double_moderate (_backoff_max c)) as (z & Fz & Ez).
  { destruct max_ok as [Fm Hm]. split; [done|]. assert (0 < unit_pow 0) by (by apply unit_pow_pos). lia. }
  set (j := ReconnectPolicy.uniform fzero h u) in *. assert (Fu : fin j) by (apply uniform_fin; [exact Fj|lia|exact Hu]).
  pose proof (fadd_rounds d j Fd Fu) as R. assert (F : fin (fadd d j)).
  { apply (rounds_fin _ _ _ fzero z R); auto with etradie; rewrite ?fv_fzero; lia. }
  split; [apply F|]. destruct R as (_ & Rup & Rlo). rewrite <- Ez. split; [|apply Rup; [done|lia]].
  rewrite <- fv_fzero. apply Rlo; auto with etradie. rewrite fv_fzero. lia.
Qed.

(** *** The breaker *)

Definition breaker (s : shared) : CircuitBreaker.t := fst (_get_circuit c p s).
Definition fail_at (b : CircuitBreaker.t) (now : float) : CircuitBreaker.t := CircuitBreaker.record_failure now b.

(** From [s] to [s'] the provider's breaker recorded failures at [ts], then a
    success if [ok]; the other breakers are as they were. *)
Definition recorded (ts : list float) (ok : bool) (s s' : shared) : Prop :=
  breaker s' = (if ok then CircuitBreaker.record_success (fold_left fail_at ts (breaker s)) else fold_left fail_at ts (breaker s)) /\
  forall q, q <> p -> _circuits s' !! q = _circuits s !! q.

Lemma recorded_nil s : recorded [] false s s.
Proof. by split. Qed.

Lemma breaker_put b s : breaker (put_circuit p b s) = b.
Proof. unfold breaker, put_circuit, _get_circuit. cbn. by rewrite lookup_insert_eq. Qed.

Lemma get_circuit_snd q s : q <> p -> _circuits (snd (_get_circuit c p s)) !! q = _circuits s !! q.
Proof.
  intros Hq. unfold _get_circuit. destruct (_circuits s !! p) eqn:E; [done|]. cbn. by rewrite lookup_insert_ne by congruence.
Qed.

Lemma recorded_failure ts now s s' :
  recorded ts false s s' -> recorded (ts ++ [now]) false s (circuit_failure c p now s').
Proof.
  intros [Hb Ho]. unfold circuit_failure. destruct (_get_circuit c p s') as [b s1] eqn:E.
  assert (Eb : b = breaker s') by (unfold breaker; by rewrite E). split.
  - rewrite breaker_put, fold_left_app, Eb, Hb. done.
  - intros q Hq. cbn. rewrite lookup_insert_ne by congruence. rewrite <- Ho by done.
    rewrite <- (get_circuit_snd q s' Hq), E. done.
Qed.

Lemma recorded_success ts s s' :
  recorded ts false s s' -> recorded ts true s (circuit_success c p s').
Proof.
  intros [Hb Ho]. unfold circuit_success. destruct (_get_circuit c p s') as [b s1] eqn:E.
  assert (Eb : b = breaker s') by (unfold breaker; by rewrite E). split.
  - rewrite breaker_put, Eb, Hb. done.
  - intros q Hq. cbn. rewrite lookup_insert_ne by congruence. rewrite <- Ho by done.
    rewrite <- (get_circuit_snd q s' Hq), E. done.
Qed.

Lemma recorded_trans ts ts' ok s s' s'' :
  recorded ts false s s' -> recorded ts' ok s' s'' -> recorded (ts ++ ts') ok s s''.
Proof.
  intros [Hb Ho] [Hb' Ho']. split.
  - rewrite Hb', Hb, fold_left_app. by destruct ok.
  - intros q Hq. by rewrite Ho', Ho.
Qed.

(** A sleep that was not asked for by the provider is bounded. *)
Definition excused (d : float) : Prop :=
  bounded d \/ exists k resp d0, net k = Ok resp /\ status resp = 429 /\ d = asked resp d0.

(** [w'] follows [w] after [m] calls, [n] failures and, if [ok], a success. *)
Definition progress (m : Z) (n : nat) (ok : bool) (w w' : world) : Prop :=
  sends w' = sends w + m /\ (exists ts, length ts = n /\ recorded ts ok (sh w) (sh w')) /\
  exists ds, naps w' = naps w ++ ds /\ Forall excused ds.

Lemma progress_refl w : progress 0 0 false w w.
Proof. split; [lia|]. split; [by exists []|]. exists []. by rewrite app_nil_r. Qed.

Lemma progress_trans m n w w' m' n' ok w'' :
  progress m n false w w' -> progress m' n' ok w' w'' -> progress (m + m') (n + n') ok w w''.
Proof.
  intros (Hs & (ts & Ht & Hr) & ds & Hn & Hd) (Hs' & (ts' & Ht' & Hr') & ds' & Hn' & Hd').
  split; [lia|]. split.
  - exists (ts ++ ts'). rewrite length_app. split; [lia|]. by eapply recorded_trans.
  - exists (ds ++ ds'). rewrite Hn', Hn, <- app_assoc. split; [done|]. by apply Forall_app.
Qed.

(** *** One attempt *)

Lemma backoff_run a w : 0 <= a < 53 ->
  exists d, run (_backoff_delay c a) w = (Some (Ok d), mk_world (sends w) (ticks w + 1) (naps w) (sh w)) /\ bounded d.
Proof.
  intros Ha. destruct (backoff_bounded a (random (ticks w)) Ha (random_unit _)) as (d & E & Hd). exists d. split; [|done].
  unfold _backoff_delay. rewrite interp_bind. cbn [send interp serve pure]. by rewrite E.
Qed.

(** Reading the body, in the program and in the reference. *)
Local Ltac read_body :=
  cbn [interp mret prog_ret mbind res_bind]; rewrite interp_bind; destruct (_ || _); rewrite interp_bind; cbn [send interp serve];
  [destruct (parsed _)|destruct (text _)]; try done; cbn [interp mret prog_ret mbind res_bind]; by case_match.

Lemma content_run resp w : run (_parse_response json_str_len c resp) w = (Some (content resp (sends w - 1)), w).
Proof.
  unfold _parse_response, content, too_large. rewrite interp_bind.
  destruct (header resp "Content-Length") as [s|]; [|read_body].
  destruct (str_empty s); [read_body|]. rewrite interp_bind. cbn [pure interp].
  destruct (int_of_str s) as [n|e]; [|done]. cbn [mbind res_bind]. destruct (_max_response_size c <? n); [done|read_body].
Qed.

Lemma rate_limit_run resp a w : 0 <= a < 53 ->
  exists d, run (_handle_rate_limit parsedate_to_datetime c resp a) w =
      (Some (nap (asked resp d)), mk_world (sends w) (ticks w + 1) (naps w ++ [asked resp d]) (sh w)) /\ bounded d.
Proof.
  intros Ha. destruct (backoff_run a w Ha) as (d & E & Hd). exists d. split; [|done].
  unfold _handle_rate_limit. rewrite interp_bind, E, interp_bind. unfold asked.
  destruct (header resp "Retry-After") as [raw|]; [|done]. destruct (float_of_str raw) as [x|]; [done|].
  rewrite interp_try. unfold http_date_delay. rewrite interp_bind. cbn [pure interp].
  destruct (parsedate_to_datetime raw) as [target|e]; cbn [mbind res_bind]; [|done].
  rewrite interp_bind. cbn [send interp serve]. rewrite interp_bind. cbn [pure interp].
  by destruct (seconds_between target utc).
Qed.

(** How a program that stands for an attempt ends. *)
Definition settled (v : verdict) (r : res turn) : Prop :=
  match r with
  | Ok (Done d) => v = Return d
  | Ok (Continue e) => v = Again e
  | Ok (Failed e) => v = Again (Some e)
  | Raise e => v = Stop e
  end.

Definition returned (v : verdict) : bool := match v with Return _ => true | _ => false end.

Lemma handler_run rq e w :
  exists r w', run (handle_attempt str_exn p rq e) w = (Some r, w') /\
    settled (snd (on_exception rq e)) r /\ progress 0 (fst (on_exception rq e)) false w w' /\ returned (snd (on_exception rq e)) = false.
Proof.
  assert (Hf : progress 0 1 false w (mk_world (sends w) (ticks w + 1) (naps w) (circuit_failure c p (clock (ticks w)) (sh w)))).
  { split; [cbn; lia|]. split; [|exists []; by rewrite app_nil_r]. eexists. split; [|apply (recorded_failure []), recorded_nil]. done. }
  destruct e; (eexists _, _; split; [reflexivity|]; split; [reflexivity|]; split; [exact Hf || apply progress_refl|reflexivity]).
Qed.

Lemma called m n ok w w' : progress m n ok (mk_world (sends w + 1) (ticks w) (naps w) (sh w)) w' -> progress (1 + m) n ok w w'.
Proof. intros (Hs & Hr & Hd). split; [cbn in Hs; lia|done]. Qed.

Notation attempt_program rq k :=
  (try_except (attempt_once parsedate_to_datetime json_str_len c p rq k) (handle_attempt str_exn p rq)).

(** Attempt [k] from [w] ends as the verdict says, after [n] failures. *)
Definition ends (rq : request_args) (k : Z) (w : world) (j : nat * verdict) : Prop :=
  exists r w', run (attempt_program rq k) w = (Some r, w') /\ settled (snd j) r /\ progress 1 (fst j) (returned (snd j)) w w'.

(** The world after the call. *)
Definition after_send (w : world) : world := mk_world (sends w + 1) (ticks w) (naps w) (sh w).

Lemma after_send_progress w : progress 1 0 false w (after_send w).
Proof. apply (called 0), progress_refl. Qed.

Lemma send_run rq w (f : response -> prog http_cmd turn) :
  run (send (Send rq) ≫= f) w =
  match net (sends w) with Ok resp => run (f resp) (after_send w) | Raise e => (Some (Raise e), after_send w) end.
Proof. rewrite interp_bind. cbn [send interp serve]. by destruct (net (sends w)). Qed.

(** An exception inside the [try] after [n] failures. *)
Lemma caught rq k e n w w1 :
  run (attempt_once parsedate_to_datetime json_str_len c p rq k) w = (Some (Raise e), w1) -> progress 1 n false w w1 ->
  ends rq k w ((n + fst (on_exception rq e))%nat, snd (on_exception rq e)).
Proof.
  intros Em Hp. destruct (handler_run rq e w1) as (r & w' & E & Hs & Hp' & Hr). exists r, w'.
  rewrite interp_try, Em. cbn [fst snd]. rewrite Hr. split; [done|]. split; [done|]. by apply (progress_trans 1 n w w1 0).
Qed.

Lemma nap_asked resp d : bounded d -> match nap (asked resp d), nap (asked resp fzero) with
  | Ok _, Ok _ => True | Raise e, Raise e' => e = e' | _, _ => False end.
Proof.
  intros [Hd _]. unfold asked. assert (H0 : nap fzero = Ok tt) by (by apply nap_finite). assert (H1 : nap d = Ok tt) by (by apply nap_finite).
  destruct (header resp _) as [raw|]; [|by rewrite H0, H1]. destruct (float_of_str raw) as [x|]; [by destruct (nap x)|].
  destruct (parsedate_to_datetime raw ≫= _) as [delta|]; [by destruct (nap (fmax delta fone))|by rewrite H0, H1].
Qed.

Section Attempt.
Context (rq : request_args) (k : Z) (w : world) (resp : response).
Hypothesis Hk : 0 <= k <= _max_retries c.
Hypothesis Hw : sends w = k.
Hypothesis Hnet : net (sends w) = Ok resp.

Lemma attempt_limited : status resp = 429 ->
  ends rq k w (match nap (asked resp fzero) with Ok _ => (0%nat, Again None) | Raise e => on_exception rq e end).
Proof.
  intros H. apply Z.eqb_eq in H. destruct (rate_limit_run resp k (after_send w)) as (d & El & Hd); [lia|]. pose proof (nap_asked resp d Hd) as Hn.
  assert (P : progress 1 0 false w (mk_world (sends w + 1) (ticks w + 1) (naps w ++ [asked resp d]) (sh w))).
  { apply (called 0). split; [cbn; lia|]. split; [by exists []|]. exists [asked resp d]. split; [done|].
    constructor; [|done]. right. exists (sends w), resp, d. by apply Z.eqb_eq in H. }
  destruct (nap (asked resp fzero)) as [u|e], (nap (asked resp d)) as [u'|e']; try done.
  - eexists _, _. unfold attempt_once. rewrite interp_try, send_run, Hnet, H, interp_bind, El. by split.
  - subst e'. destruct (on_exception rq e) as [n v] eqn:Eo. eapply (caught rq k e 0) in P; [by rewrite Eo in P|].
    unfold attempt_once. by rewrite send_run, Hnet, H, interp_bind, El.
Qed.

Lemma text_run r' : run (send (ReadText r')) (after_send w) = (Some (text k), after_send w).
Proof. cbn [send interp serve after_send sends]. rewrite Hw. replace (k + 1 - 1) with k by lia. by destruct (text k). Qed.

Lemma attempt_refused : status resp <> 429 -> existsb (Z.eqb (status resp)) _NON_RETRYABLE_STATUS = true ->
  ends rq k w (match text k with
               | Ok _ => (0%nat, Stop (ProviderUnavailableError (p ++ " returned " ++ str_int (status resp))))
               | Raise e => on_exception rq e
               end).
Proof.
  intros H Hn. apply Z.eqb_neq in H.
  assert (E : run (attempt_once parsedate_to_datetime json_str_len c p rq k) w =
    (Some (Raise (match text k with Ok _ => ProviderUnavailableError (p ++ " returned " ++ str_int (status resp)) | Raise e => e end)), after_send w)).
  { unfold attempt_once. rewrite send_run, Hnet, H, interp_bind, Hn. unfold _handle_non_retryable_error.
    rewrite interp_bind, text_run. by destruct (text k). }
  eapply (caught rq k _ 0) in E; [|apply after_send_progress]. destruct (text k) as [s|e]; [done|].
  by destruct (on_exception rq e).
Qed.

(** A server error counts once, whatever follows. *)
Lemma server_error_run (f : unit -> prog http_cmd turn) :
  let w2 := mk_world (sends w + 1) (ticks w + 1) (naps w) (circuit_failure c p (clock (ticks w)) (sh w)) in
  run (_handle_server_error resp p ≫= f) (after_send w) =
    match text k with Ok _ => run (f tt) w2 | Raise e => (Some (Raise e), w2) end /\ progress 1 1 false w w2.
Proof.
  intros w2. split.
  - unfold _handle_server_error. rewrite interp_bind, interp_bind. cbn [send interp serve after_send ticks sends naps sh].
    rewrite interp_bind. cbn [send interp serve sends]. fold w2. rewrite Hw. replace (k + 1 - 1) with k by lia. by destruct (text k).
  - apply (called 0). split; [cbn; lia|]. split; [|exists []; by rewrite app_nil_r]. eexists. split; [|apply (recorded_failure []), recorded_nil]. done.
Qed.

Lemma attempt_down : status resp <> 429 -> existsb (Z.eqb (status resp)) _NON_RETRYABLE_STATUS = false -> (500 <=? status resp) = true ->
  ends rq k w (match text k with
               | Ok _ =>
                   let e := ProviderUnavailableError (p ++ " server error " ++ str_int (status resp)) in
                   (1%nat, if k <? _max_retries c then Again (Some e) else Stop e)
               | Raise e => let '(n, v) := on_exception rq e in (S n, v)
               end).
Proof.
  intros H Hn H5. apply Z.eqb_neq in H. set (w2 := mk_world (sends w + 1) (ticks w + 1) (naps w) (circuit_failure c p (clock (ticks w)) (sh w))).
  assert (E : exists f, run (attempt_once parsedate_to_datetime json_str_len c p rq k) w = run (_handle_server_error resp p ≫= f) (after_send w) /\
    f = fun _ => if k <? _max_retries c
                 then delay ← _backoff_delay c k; _ ← sleep delay; mret (Continue (Some (ProviderUnavailableError (p ++ " server error " ++ str_int (status resp)))))
                 else Ret (Raise (ProviderUnavailableError (p ++ " server error " ++ str_int (status resp))))).
  { eexists. split; [|reflexivity]. unfold attempt_once. rewrite send_run, Hnet, H, interp_bind, Hn. cbn [interp mret prog_ret]. by rewrite H5. }
  destruct E as (f & E & Ef). destruct (server_error_run f) as [Es P]. fold w2 in Es, P. rewrite Es in E.
  destruct (text k) as [s|e].
  2:{ eapply (caught rq k e 1) in P; [|exact E]. by destruct (on_exception rq e). }
  rewrite Ef in E. destruct (k <? _max_retries c); [|by eapply (caught rq k _ 1) in P; [|exact E]].
  destruct (backoff_run k w2) as (d & Eb & Hd); [lia|].
  rewrite interp_bind, Eb, interp_bind in E. cbn [sleep send interp serve] in E. rewrite (nap_finite d) in E by apply Hd.
  eexists _, _. rewrite interp_try, E. split; [reflexivity|]. split; [reflexivity|].
  apply (progress_trans 1 1 w w2 0 0 false _ P). split; [cbn; lia|]. split; [by exists []|]. exists [d]. split; [done|]. apply Forall_singleton. by left.
Qed.

Lemma attempt_answered : status resp <> 429 -> existsb (Z.eqb (status resp)) _NON_RETRYABLE_STATUS = false -> (500 <=? status resp) = false ->
  ends rq k w (match content resp k with Ok d => (0%nat, Return d) | Raise e => on_exception rq e end).
Proof.
  intros H Hn H5. apply Z.eqb_neq in H. pose proof (after_send_progress w) as P.
  assert (E : forall f, run (_parse_response json_str_len c resp ≫= f) (after_send w) =
    match content resp k with Ok d => run (f d) (after_send w) | Raise e => (Some (Raise e), after_send w) end :> option (res turn) * world).
  { intros f. rewrite interp_bind, content_run. cbn [sends after_send]. rewrite Hw. replace (k + 1 - 1) with k by lia. by destruct (content resp k). }
  destruct (content resp k) as [data|e].
  - eexists _, _. unfold attempt_once. rewrite interp_try, send_run, Hnet, H, interp_bind, Hn. cbn [interp mret prog_ret]. rewrite H5, E.
    rewrite interp_bind. cbn [send interp serve]. split; [reflexivity|]. split; [reflexivity|].
    apply (progress_trans 1 0 w (after_send w) 0 0 true); [exact P|]. split; [cbn; lia|]. split; [|exists []; by rewrite app_nil_r].
    exists []. split; [done|]. apply recorded_success, recorded_nil.
  - eapply (caught rq k e 0) in P; [by destruct (on_exception rq e)|].
    unfold attempt_once. rewrite send_run, Hnet, H, interp_bind, Hn. cbn [interp mret prog_ret]. by rewrite H5, E.
Qed.
End Attempt.

Lemma attempt_ends rq k w : 0 <= k <= _max_retries c -> sends w = k -> ends rq k w (judged rq k).
Proof.
  intros Hk Hw. unfold judged. destruct (net k) as [resp|e] eqn:En.
  2:{ pose proof (after_send_progress w) as P. eapply (caught rq k e 0) in P; [by destruct (on_exception rq e)|].
      unfold attempt_once. by rewrite send_run, Hw, En. }
  rewrite <- Hw in En. destruct (Z.eqb_spec (status resp) 429); [by apply attempt_limited|].
  destruct (existsb _ _) eqn:Enr; [by apply attempt_refused|].
  destruct (500 <=? status resp) eqn:E5; [by apply attempt_down|by apply attempt_answered].
Qed.

(** *** The request *)

Section Request.
Context (rq : request_args).

Definition again (k : Z) : Prop := exists e, snd (judged rq k) = Again e.
Definition strikes (ks : list Z) : nat := foldr (fun k n => (fst (judged rq k) + n)%nat) 0%nat ks.
Definition last_error (ks : list Z) (last : option exn) : option exn :=
  fold_left (fun last k => match snd (judged rq k) with Again (Some e) => Some e | _ => last end) ks last.

(** The outcome when attempt [k] is the last and [last] the exception kept. *)
Definition outcome (k : Z) (last : option exn) : res body :=
  match snd (judged rq k) with
  | Return d => Ok d
  | Stop e => Raise e
  | Again _ => Raise (match last with Some e => e | None => ProviderUnavailableError (p ++ " all retries exhausted") end)
  end.

(** Between two attempts: the sleep of an [except] clause. *)
Lemma pause_run k w (f : unit -> prog http_cmd body) : 0 <= k < 53 ->
  exists w', run ((if k <? _max_retries c then delay ← _backoff_delay c k; sleep delay else mret tt) ≫= f) w = run (f tt) w' /\
    progress 0 0 false w w'.
Proof.
  intros Hk. destruct (k <? _max_retries c); [|exists w; split; [by rewrite interp_bind|apply progress_refl]].
  destruct (backoff_run k w Hk) as (d & E & Hd). eexists. rewrite interp_bind, interp_bind, E. cbn [sleep send interp serve].
  rewrite (nap_finite d) by apply Hd. split; [reflexivity|]. split; [cbn; lia|]. split; [by exists []|]. exists [d]. split; [done|].
  apply Forall_singleton. by left.
Qed.

Notation retrying a := (attempts str_exn parsedate_to_datetime json_str_len c p rq (py_range a (_max_retries c + 1))).

(** A loop that starts at attempt [a] from [w]: it stops at attempt [k]. *)
Definition summary (a : Z) (last : option exn) (w : world) (o : option (res body) * world) (k : Z) : Prop :=
  fst o = Some (outcome k (last_error (py_range a (k + 1)) last)) /\
  a <= k <= _max_retries c /\ (forall j, a <= j < k -> again j) /\ (k < _max_retries c -> ~ again k) /\
  progress (k + 1 - a) (strikes (py_range a (k + 1))) (returned (snd (judged rq k))) w (snd o).

Lemma summary_last a last w w1 r : 0 <= a <= _max_retries c ->
  progress 1 (fst (judged rq a)) (returned (snd (judged rq a))) w w1 -> (a < _max_retries c -> ~ again a) ->
  r = outcome a (last_error [a] last) -> summary a last w (Some r, w1) a.
Proof.
  intros Ha P Hna ->. unfold summary. rewrite py_range_cons, py_range_nil by lia. split; [done|]. split; [lia|]. split; [lia|].
  split; [done|]. cbn [strikes foldr snd]. rewrite Nat.add_0_r. by replace (a + 1 - a) with 1 by lia.
Qed.

Lemma summary_next a last w w1 e o k : snd (judged rq a) = Again e -> progress 1 (fst (judged rq a)) false w w1 ->
  summary (a + 1) (match e with Some _ => e | None => last end) w1 o k -> summary a last w o k.
Proof.
  intros Ea P (Eo & Hk & Hj & Hn & P'). unfold summary. rewrite (py_range_cons a) by lia. split.
  { rewrite Eo. do 2 f_equal. unfold last_error. cbn [fold_left]. rewrite Ea. by destruct e. }
  split; [lia|]. split.
  { intros j Hj'. destruct (Z.eq_dec j a) as [->|]; [by exists e|apply Hj; lia]. }
  split; [done|]. cbn [strikes foldr]. replace (k + 1 - a) with (1 + (k + 1 - (a + 1))) by lia. by eapply progress_trans.
Qed.

Lemma request_attempts_run n : forall a last w,
  Z.of_nat n = _max_retries c + 1 - a -> (0 < n)%nat -> 0 <= a -> sends w = a ->
  exists k, summary a last w (run (retrying a last) w) k.
Proof.
  induction n as [|n IH]; intros a last w Hn Hpos Ha Hw; [lia|].
  rewrite py_range_cons by lia. cbn [attempts]. rewrite interp_bind.
  destruct (attempt_ends rq a w ltac:(lia) Hw) as (r & w1 & E & Hs & P). rewrite E. clear E.
  assert (Hgo : forall e w2, snd (judged rq a) = Again e -> progress 1 (fst (judged rq a)) false w w2 ->
    exists k, summary a last w (run (retrying (a + 1) (match e with Some _ => e | None => last end)) w2) k).
  { intros e w2 Ea P2. destruct n as [|n].
    - rewrite py_range_nil by lia. exists a. apply summary_last; [lia|by rewrite Ea|lia|].
      unfold outcome, last_error. cbn [fold_left]. rewrite Ea. by destruct e.
    - destruct (IH (a + 1) (match e with Some _ => e | None => last end) w2) as (k & Hsum); [lia|lia|lia|destruct P2; lia|].
      exists k. by eapply summary_next. }
  unfold settled in Hs. destruct r as [[d|e|e]|e].
  - exists a. apply summary_last; [lia|done|intros _ (e & He); congruence|]. unfold outcome. by rewrite Hs.
  - rewrite Hs in P. by apply Hgo.
  - rewrite Hs in P. destruct (pause_run a w1 (fun _ => retrying (a + 1) (Some e))) as (w2 & E & P'); [lia|].
    rewrite E. apply (Hgo (Some e)); [done|]. pose proof (progress_trans _ _ _ _ _ _ _ _ P P') as P2. by rewrite Nat.add_0_r in P2.
  - exists a. apply summary_last; [lia|done|intros _ (e' & He); congruence|]. unfold outcome. by rewrite Hs.
Qed.

(** The errors a request answers with. *)
Definition provider_error (e : exn) : Prop :=
  match e with
  | ProviderUnavailableError _ | ProviderTimeoutError _ | ProviderValidationError _ | HttpClientError _ => True
  | _ => False
  end.

Lemma on_exception_error e : match snd (on_exception rq e) with Stop e' | Again (Some e') => provider_error e' | _ => True end.
Proof. by destruct e. Qed.

Lemma judged_error k : match snd (judged rq k) with Stop e | Again (Some e) => provider_error e | _ => True end.
Proof.
  unfold judged. destruct (net k) as [resp|e]; [|apply on_exception_error].
  destruct (status resp =? 429); [destruct (nap _); [done|apply on_exception_error]|].
  destruct (existsb _ _); [destruct (text k); [done|apply on_exception_error]|].
  destruct (500 <=? status resp); [|destruct (content resp k); [done|apply on_exception_error]].
  destruct (text k) as [s|e]; cbn; [by destruct (k <? _max_retries c)|]. pose proof (on_exception_error e) as H. by destruct (on_exception rq e).
Qed.

Lemma last_error_known ks last : match last with Some e => provider_error e | None => True end ->
  match last_error ks last with Some e => provider_error e | None => True end.
Proof.
  revert last. induction ks as [|k ks IH]; intros last Hl; [done|]. cbn [last_error fold_left]. apply IH.
  pose proof (judged_error k) as Hk. by destruct (snd (judged rq k)) as [| |[e|]].
Qed.

Lemma outcome_error k e : outcome k (last_error (py_range 0 (k + 1)) None) = Raise e -> provider_error e.
Proof.
  unfold outcome. pose proof (judged_error k) as Hk. pose proof (last_error_known (py_range 0 (k + 1)) None I) as Hl.
  destruct (snd (judged rq k)) as [d|e'|e']; [done| |]; intros E; injection E as <-; [done|].
  by destruct (last_error _ _).
Qed.
End Request.

Notation request_program method url headers params json_body timeout_override :=
  (request check_bracketed_host str_exn parsedate_to_datetime json_str_len c method url p headers params json_body timeout_override).

Definition timeout_of (timeout_override : option Z) : Z :=
  match timeout_override with Some n => if n =? 0 then _timeout c else n | None => _timeout c end.

Lemma state_run s now : exists s', circuit_state c p now s = (fst (CircuitBreaker.state now (breaker s)), s') /\
  breaker s' = snd (CircuitBreaker.state now (breaker s)) /\ (forall q, q <> p -> _circuits s' !! q = _circuits s !! q) /\
  _session s' = _session s.
Proof.
  unfold circuit_state, breaker. pose proof (fun q => get_circuit_snd q s) as Ho.
  assert (Hs : _session (snd (_get_circuit c p s)) = _session s) by (unfold _get_circuit; by destruct (_ !! _)).
  destruct (_get_circuit c p s) as [b s1]. cbn [fst snd] in *.
  destruct (CircuitBreaker.state now b) as [st b']. eexists. split; [reflexivity|]. split; [apply breaker_put|]. split; [|done].
  intros q Hq. cbn. rewrite lookup_insert_ne by congruence. by apply Ho.
Qed.

(** C20: what a request does, for every behaviour of the network.  A bad URL or an open
    circuit is refused without calling the network.  Otherwise the attempts
    [0 .. k] are made, [k] at most [max_retries]: each but the last is a rate limit,
    a server error, a timeout or a connection error, and the result is the data of
    attempt [k], or its error, or the last error kept when the attempts are used
    up.  The provider's breaker records exactly the failures of those attempts, and
    a success exactly if data are returned; no other breaker changes.  Every sleep
    is bounded by twice the cap, or was asked for by a rate limit.  The error is
    always one of the client's own. *)
Theorem request_exact method url hs params json_body timeout_override w :
  sends w = 0 ->
  let prog := request_program method url hs params json_body timeout_override in
  let rq := mk_request method url hs params json_body (timeout_of timeout_override) true in
  let now := clock (ticks w) in
  match _validate_url check_bracketed_host str_exn url with
  | Raise e => run prog w = (Some (Raise e), w)
  | Ok _ =>
      exists r w', run prog w = (Some r, w') /\
      (forall q, q <> p -> _circuits (sh w') !! q = _circuits (sh w) !! q) /\
      let b := snd (CircuitBreaker.state now (breaker (sh w))) in
      if decide (fst (CircuitBreaker.state now (breaker (sh w))) = OPEN) then
        r = Raise (ProviderUnavailableError ("Circuit breaker OPEN for " ++ p)) /\ sends w' = 0 /\ naps w' = naps w /\ breaker (sh w') = b
      else
        forall u, fst (_get_session session (sh w)) = Ok u ->
        exists k ts ds, 0 <= k <= _max_retries c /\ sends w' = k + 1 /\
          (forall j, 0 <= j < k -> again rq j) /\ (k < _max_retries c -> ~ again rq k) /\
          r = outcome rq k (last_error rq (py_range 0 (k + 1)) None) /\ (forall e, r = Raise e -> provider_error e) /\
          length ts = strikes rq (py_range 0 (k + 1)) /\
          breaker (sh w') = (match r with Ok _ => CircuitBreaker.record_success (fold_left fail_at ts b) | Raise _ => fold_left fail_at ts b end) /\
          naps w' = naps w ++ ds /\ Forall excused ds
  end.
Proof.
  intros Hw prog rq now. subst prog. unfold request. rewrite interp_bind. cbn [pure interp].
  destruct (_validate_url check_bracketed_host str_exn url) as [[]|e]; [|done].
  rewrite interp_bind. cbn [send interp serve]. fold now.
  destruct (state_run (sh w) now) as (s1 & E & Hb & Ho & Hse). rewrite E. cbn [interp]. rewrite <- Hb.
  destruct (decide _) as [Hd|Hd].
  { eexists _, _. split; [reflexivity|]. split; [exact Ho|]. repeat split; done. }
  rewrite interp_bind. cbn [send interp serve].
  assert (Hg : fst (_get_session session s1) = fst (_get_session session (sh w)) /\ _circuits (snd (_get_session session s1)) = _circuits s1).
  { unfold _get_session. rewrite Hse. by destruct (_session (sh w)) as [[]|], session. }
  destruct Hg as [Hg1 Hg2]. cbn [sh]. destruct (_get_session session s1) as [g s2]. cbn [fst snd] in Hg1, Hg2. subst g.
  assert (Hb2 : breaker s2 = breaker s1) by (unfold breaker, _get_circuit; by rewrite Hg2; destruct (_circuits s1 !! p)).
  destruct (fst (_get_session session (sh w))) as [u|e].
  2:{ eexists _, _. split; [reflexivity|]. split; [cbn; by rewrite Hg2|]. done. }
  cbn [sends ticks naps sh]. set (w2 := mk_world (sends w) (ticks w + 1) (naps w) s2).
  destruct (request_attempts_run rq (Z.to_nat (_max_retries c + 1)) 0 None w2) as (k & Er & Hk & Hj & Hn & P); [lia|lia|lia|done|].
  fold (timeout_of timeout_override). fold rq. 
  set (o := run _ w2) in *. destruct P as (Hs & (ts & Ht & Hr & Hq) & ds & Hds & Hex).
  exists (outcome rq k (last_error rq (py_range 0 (k + 1)) None)), (snd o). split; [by rewrite <- Er, <- surjective_pairing|].
  split; [intros q Hne; rewrite Hq by done; cbn; rewrite Hg2; by apply Ho|].
  intros _ _. exists k, ts, ds. split; [lia|]. split; [cbn in Hs; lia|]. split; [done|]. split; [done|]. split; [done|].
  split; [intros e; apply outcome_error|]. split; [done|]. split; [|done].
  rewrite Hr. cbn [sh w2]. rewrite Hb2. unfold outcome. by destruct (snd (judged rq k)).
Qed.
End Facts.

(** *** A provider *)

Definition json_header (name : string) : option string := if String.eqb name "Content-Type" then Some "application/json" else None.
Definition plain (code : Z) : response := mk_response code json_header.
Definition idle : world := mk_world 0 0 [] (mk_shared ∅ None).

(** The request of a scripted network against the default client. *)
Definition scripted (client : t) (net : Z -> res response) (text : Z -> res string) (w : world) :=
  interp (serve client net text (fun _ => Ok (JObj [])) (Ok tt) (fun _ => Ok tt) of_Z (mk_datetime 0 (Some 0)) (fun _ => fzero))
    (get (fun _ => Ok tt) (fun _ => "") (fun _ => Raise (ValueError "")) (fun _ => 2) client "https://api.example.com/x" "fred" None None None) w.

(** Down once, then slow once, then well. *)
Definition recovering (k : Z) : res response :=
  if k =? 0 then Ok (plain 502) else if k =? 1 then Raise TimeoutError else Ok (plain 200).

Lemma request_exact_witness :
  exists w', scripted default recovering (fun _ => Ok "") idle = (Some (Ok (BJson (JObj []))), w') /\ sends w' = 3 /\
    exists ds, naps w' = ds /\ Forall (excused (fun _ => Raise (ValueError "")) default recovering (mk_datetime 0 (Some 0))) ds.
Proof.
  pose proof (request_exact (fun _ => Ok tt) (fun _ => "") (fun _ => Raise (ValueError "")) (fun _ => 2) default "fred" recovering
    (fun _ => Ok "") (fun _ => Ok (JObj [])) (Ok tt) (fun _ => Ok tt) of_Z (mk_datetime 0 (Some 0)) (fun _ => fzero)) as H.
  destruct (H ltac:(vm_compute; split; congruence) ltac:(vm_compute; repeat split; congruence) ltac:(vm_compute; repeat split; congruence)
              ltac:(intros ?; vm_compute; repeat split; congruence) ltac:(intros; reflexivity)
              "GET" "https://api.example.com/x" None None None None idle eq_refl) as (r & w' & E & _ & Hk).
  destruct (Hk tt eq_refl) as (k & ts & ds & Hk' & Hs & Hj & Hn & Er & _ & _ & _ & Hnaps & Hds).
  assert (Ek : k = 2).
  { change (_max_retries default) with 3 in Hk', Hn. destruct (Z.lt_trichotomy k 2) as [Hl|[Hl|Hl]]; [exfalso|exact Hl|exfalso].
    - apply Hn; [lia|]. assert (k = 0 \/ k = 1) as [->| ->] by lia; eexists; vm_compute; reflexivity.
    - destruct (Hj 2 ltac:(lia)) as [e He]. vm_compute in He. discriminate He. }
  assert (Er' : r = Ok (BJson (JObj []))) by (rewrite Er, Ek; vm_compute; reflexivity). rewrite Er' in E. rewrite Ek in Hs.
  exists w'. split; [exact E|]. split; [exact Hs|]. exists ds. split; [exact Hnaps|exact Hds].
Defined.

(** A provider that times out: the second request opens the breaker, the third is
    refused without a call. *)
Example down_provider_cut_off :
  let down := scripted default (fun _ => Raise TimeoutError) (fun _ => Ok "") in
  let w2 := snd (down (snd (down idle))) in
  sends w2 = 8 /\ fst (down w2) = Some (Raise (ProviderUnavailableError "Circuit breaker OPEN for fred")) /\ sends (snd (down w2)) = 8.
Proof. vm_compute. repeat split. Qed.

(** A client error that is not on the list is returned as data and counts as a
    success. *)
Example unlisted_status_succeeds :
  fst (scripted default (fun _ => Ok (plain 409)) (fun _ => Ok "") idle) = Some (Ok (BJson (JObj []))).
Proof. vm_compute. reflexivity. Qed.

(** Rate limits alone: every attempt sleeps, the last too, the error is not about
    the rate, and no failure is recorded. *)
Example rate_limited_to_the_end :
  let limited := fun _ => Ok (mk_response 429 (fun h => if String.eqb h "Retry-After" then Some "86400" else None)) in
  let '(r, w) := scripted default limited (fun _ => Ok "") idle in
  r = Some (Raise (ProviderUnavailableError "fred all retries exhausted")) /\ map fv (naps w) = map fv (repeat (of_Z 86400) 4) /\
  CircuitBreaker._failure_count (breaker default "fred" (sh w)) = 0.
Proof. vm_compute. repeat split. Qed.

(** A server error whose body cannot be read counts twice. *)
Example unreadable_error_counts_twice :
  let once := mk 30 0 (lit 10 1) (lit 600 1) MAX_RESPONSE_SIZE 5 60 3 in
  let '(_, w) := scripted once (fun _ => Ok (plain 503)) (fun _ => Raise (ClientError "")) idle in
  sends w = 1 /\ CircuitBreaker._failure_count (breaker once "fred" (sh w)) = 2.
Proof. vm_compute. repeat split. Qed.

(** A HEAD timeout under a second becomes zero, which stands for the default. *)
Example head_timeout_below_a_second : head_timeout None (Some (lit 5 1)) = Ok (Some 0).
Proof. vm_compute. reflexivity. Qed.
End RequestFacts.
