(* ===== verification/Codec.v ===== *)
(** * Codec: bytes, UTF-8, base 64 and decimal integers

    The encodings the stored credentials use, each with its round trip:
    [str.encode]/[bytes.decode], [base64.urlsafe_b64encode]/[urlsafe_b64decode] as
    CPython decodes (characters outside the alphabet are skipped), [str]/[int] of
    a natural number, and [str.split] at a separator.  Bytes and code points are
    integers. *)

From Stdlib Require Import ZArith Lia Bool Ascii String.
From stdpp Require Import base list strings pretty.
From S2P Require Import Prelude PyText PyRepr PyValues.

#[local] Open Scope string_scope.
#[local] Open Scope Z_scope.
#[local] Open Scope list_scope.

Definition bytes : Type := list Z.
Definition byte_ok (b : Z) : Prop := 0 <= b < 256.
Definition bytes_ok (bs : bytes) : Prop := Forall byte_ok bs.

Definition char_code (a : ascii) : Z := Z.of_nat (nat_of_ascii a).

(** [s.encode()] of an ASCII string. *)
Definition ascii_encode (s : string) : bytes := map char_code (String.list_ascii_of_string s).

(** ** UTF-8 *)

(** A Unicode scalar value: what [str.encode] accepts. *)
Definition scalar (c : Z) : bool := (0 <=? c) && (c <? 1114112) && negb ((55296 <=? c) && (c <? 57344)).

Definition utf8_char (c : Z) : bytes :=
  if c <? 128 then [c]
  else if c <? 2048 then [192 + c / 64; 128 + c mod 64]
  else if c <? 65536 then [224 + c / 4096; 128 + (c / 64) mod 64; 128 + c mod 64]
  else [240 + c / 262144; 128 + (c / 4096) mod 64; 128 + (c / 64) mod 64; 128 + c mod 64].

Definition unicode_error : exn := ValueError "UnicodeError".

Fixpoint utf8_encode (s : list Z) : res bytes :=
  match s with
  | [] => Ok []
  | c :: s => if scalar c then bs ← utf8_encode s; Ok (utf8_char c ++ bs) else Raise unicode_error
  end.

Definition continuation (b : Z) : bool := (128 <=? b) && (b <? 192).

Fixpoint utf8_decode (bs : bytes) : res (list Z) :=
  match bs with
  | [] => Ok []
  | a :: bs1 =>
      if a <? 128 then s ← utf8_decode bs1; Ok (a :: s)
      else
        match bs1 with
        | b :: bs2 =>
            if negb (continuation b) then Raise unicode_error
            else if (194 <=? a) && (a <? 224) then s ← utf8_decode bs2; Ok ((a - 192) * 64 + (b - 128) :: s)
            else
              match bs2 with
              | c :: bs3 =>
                  if negb (continuation c) then Raise unicode_error
                  else if (224 <=? a) && (a <? 240) then
                    let v := (a - 224) * 4096 + (b - 128) * 64 + (c - 128) in
                    if (2048 <=? v) && scalar v then s ← utf8_decode bs3; Ok (v :: s) else Raise unicode_error
                  else
                    match bs3 with
                    | d :: bs4 =>
                        let v := (a - 240) * 262144 + (b - 128) * 4096 + (c - 128) * 64 + (d - 128) in
                        if continuation d && (240 <=? a) && (a <? 245) && (65536 <=? v) && scalar v
                        then s ← utf8_decode bs4; Ok (v :: s) else Raise unicode_error
                    | [] => Raise unicode_error
                    end
              | [] => Raise unicode_error
              end
        | [] => Raise unicode_error
        end
  end.

(** ** Base 64, the URL-safe alphabet *)

Definition b64_alphabet : string := "ABCDEFGHIJKLMNOPQRSTUVWXYZabcdefghijklmnopqrstuvwxyz0123456789-_".

Definition b64_char (n : Z) : ascii := match String.get (Z.to_nat n) b64_alphabet with Some a => a | None => "="%char end.

Fixpoint urlsafe_b64encode (bs : bytes) : string :=
  match bs with
  | a :: b :: c :: bs =>
      String (b64_char (a / 4)) (String (b64_char ((a mod 4) * 16 + b / 16))
        (String (b64_char ((b mod 16) * 4 + c / 64)) (String (b64_char (c mod 64)) (urlsafe_b64encode bs))))
  | [a; b] => String (b64_char (a / 4)) (String (b64_char ((a mod 4) * 16 + b / 16)) (String (b64_char ((b mod 16) * 4)) "="))
  | [a] => String (b64_char (a / 4)) (String (b64_char ((a mod 4) * 16)) "==")
  | [] => ""
  end.

(** Both spellings of the last two digits are read. *)
Definition b64_value (a : ascii) : option Z :=
  let n := char_code a in
  if (65 <=? n) && (n <=? 90) then Some (n - 65)
  else if (97 <=? n) && (n <=? 122) then Some (n - 71)
  else if (48 <=? n) && (n <=? 57) then Some (n + 4)
  else if (n =? 45) || (n =? 43) then Some 62
  else if (n =? 95) || (n =? 47) then Some 63
  else None.

(** [binascii.a2b_base64]: the position in the group, the bits left over and the
    padding seen so far. *)
Fixpoint b64_scan (s : string) (quad_pos leftchar pads : Z) : res bytes :=
  match s with
  | EmptyString =>
      if quad_pos =? 0 then Ok []
      else Raise (ValueError "Incorrect padding")
  | String a s =>
      if Ascii.eqb a "=" then
        if (2 <=? quad_pos) && (4 <=? quad_pos + (pads + 1)) then Ok [] else b64_scan s quad_pos leftchar (pads + 1)
      else
        match b64_value a with
        | None => b64_scan s quad_pos leftchar pads
        | Some v =>
            if quad_pos =? 0 then b64_scan s 1 v 0
            else if quad_pos =? 1 then r ← b64_scan s 2 (v mod 16) 0; Ok (leftchar * 4 + v / 16 :: r)
            else if quad_pos =? 2 then r ← b64_scan s 3 (v mod 4) 0; Ok (leftchar * 16 + v / 4 :: r)
            else r ← b64_scan s 0 0 0; Ok (leftchar * 64 + v :: r)
        end
  end.

Definition urlsafe_b64decode (s : string) : res bytes := b64_scan s 0 0 0.

(** ** Splitting *)

(** [s.split(sep, n)] for a one-character separator. *)
Fixpoint str_split_max (sep : ascii) (n : nat) (s : string) : list string :=
  match s with
  | EmptyString => [EmptyString]
  | String a r =>
      match n with
      | O => [s]
      | S n' =>
          if Ascii.eqb a sep then EmptyString :: str_split_max sep n' r
          else match str_split_max sep n r with
               | x :: xs => String a x :: xs
               | [] => [String a EmptyString]
               end
      end
  end.

(** [s.isdigit()], but for the empty string. *)
Definition all_digits (s : string) : bool := forallb (fun a => if digit_value a then true else false) (String.list_ascii_of_string s).

(** ** Round trips *)

Module CodecFacts.

Lemma b64_char_value n : 0 <= n < 64 -> b64_value (b64_char n) = Some n /\ Ascii.eqb (b64_char n) "=" = false /\ Ascii.eqb (b64_char n) ":" = false.
Proof.
  intros Hn. assert (H : (match b64_value (b64_char n) with Some m => m =? n | None => false end &&
    negb (Ascii.eqb (b64_char n) "=") && negb (Ascii.eqb (b64_char n) ":")) = true).
  { apply (Z_below (fun n => match b64_value (b64_char n) with Some m => m =? n | None => false end &&
      negb (Ascii.eqb (b64_char n) "=") && negb (Ascii.eqb (b64_char n) ":")) 64); [vm_compute; reflexivity|lia]. }
  rewrite !andb_true_iff, !negb_true_iff in H. destruct H as [[H ->] ->]. destruct (b64_value _) as [m|]; [|done]. zbool. by subst.
Qed.

Lemma b64_scan_char n s q l pd : 0 <= n < 64 ->
  b64_scan (String (b64_char n) s) q l pd =
  (if q =? 0 then b64_scan s 1 n 0
   else if q =? 1 then r ← b64_scan s 2 (n mod 16) 0; Ok (l * 4 + n / 16 :: r)
   else if q =? 2 then r ← b64_scan s 3 (n mod 4) 0; Ok (l * 16 + n / 4 :: r)
   else r ← b64_scan s 0 0 0; Ok (l * 64 + n :: r)).
Proof. intros Hn. destruct (b64_char_value n Hn) as (Hv & He & _). cbn [b64_scan]. by rewrite He, Hv. Qed.

Ltac euclid := Z.to_euclidean_division_equations; lia.

(** Decoding undoes encoding. *)
Lemma b64_roundtrip bs : bytes_ok bs -> urlsafe_b64decode (urlsafe_b64encode bs) = Ok bs.
Proof.
  unfold urlsafe_b64decode, bytes_ok. revert bs. fix IH 1. intros [|a [|b [|c bs]]] H; cbn [urlsafe_b64encode]; [done|..];
    repeat (apply Forall_cons in H as [? H]); unfold byte_ok in *; rewrite !b64_scan_char by euclid; cbn [Z.eqb Pos.eqb].
  - change (b64_scan "==" 2 ((a mod 4 * 16) mod 16) 0) with (Ok (A := bytes) []). cbn [mbind res_bind]. do 2 f_equal. euclid.
  - change (b64_scan "=" 3 ((b mod 16 * 4) mod 4) 0) with (Ok (A := bytes) []). cbn [mbind res_bind]. do 2 f_equal; [euclid|]. f_equal. euclid.
  - rewrite IH by done. cbn [mbind res_bind]. do 2 f_equal; [euclid|]. f_equal; [euclid|]. f_equal. euclid.
Qed.

(** No separator in encoded bytes. *)
Fixpoint str_free (c : ascii) (s : string) : bool :=
  match s with EmptyString => true | String a s => negb (Ascii.eqb a c) && str_free c s end.

Lemma b64_free bs : bytes_ok bs -> str_free ":" (urlsafe_b64encode bs) = true.
Proof.
  assert (Hc : forall n s, 0 <= n < 64 -> str_free ":" (String (b64_char n) s) = str_free ":" s).
  { intros n s Hn. cbn [str_free]. by destruct (b64_char_value n Hn) as (_ & _ & ->). }
  unfold bytes_ok. revert bs. fix IH 1. intros [|a [|b [|c bs]]] H; cbn [urlsafe_b64encode]; [done|..];
    repeat (apply Forall_cons in H as [? H]); unfold byte_ok in *; rewrite !Hc by euclid; [done|done|by apply IH].
Qed.

(** Splitting undoes joining. *)
Lemma split_field sep n x r : str_free sep x = true -> str_split_max sep (S n) (x ++ String sep r) = x :: str_split_max sep n r.
Proof.
  induction x as [|a x IH]; intros Hx.
  - change ("" ++ String sep r)%string with (String sep r). cbn [str_split_max]. by rewrite Ascii.eqb_refl.
  - cbn [str_free] in Hx. apply andb_true_iff in Hx as [Ha Hx]. apply negb_true_iff in Ha.
    change (String a x ++ String sep r)%string with (String a (x ++ String sep r)). cbn [str_split_max]. rewrite Ha.
    fold (str_split_max sep (S n) (x ++ String sep r)). by rewrite IH.
Qed.

Lemma split_last sep x n : str_free sep x = true -> str_split_max sep n x = [x].
Proof.
  revert n. induction x as [|a x IH]; intros n Hx; [done|]. cbn [str_free] in Hx. apply andb_true_iff in Hx as [Ha Hx].
  apply negb_true_iff in Ha. destruct n as [|n]; [done|]. cbn [str_split_max]. rewrite Ha. fold (str_split_max sep (S n) x). by rewrite IH.
Qed.

(** *** UTF-8 *)

(** Settle the comparisons of the goal. *)
Ltac settle_bools :=
  repeat match goal with
  | |- context [?x <? ?y] => first [rewrite (proj2 (Z.ltb_lt x y)) by euclid|rewrite (proj2 (Z.ltb_ge x y)) by euclid]
  | |- context [?x <=? ?y] => first [rewrite (proj2 (Z.leb_le x y)) by euclid|rewrite (proj2 (Z.leb_gt x y)) by euclid]
  end; cbn [andb negb].

Lemma continuation_low n : continuation (128 + n mod 64) = true.
Proof. unfold continuation. settle_bools. done. Qed.

Lemma utf8_char_decode c bs : scalar c = true -> utf8_decode (utf8_char c ++ bs) = (s ← utf8_decode bs; Ok (c :: s)).
Proof.
  intros Hs. pose proof Hs as H. unfold scalar in H.
  rewrite !andb_true_iff, negb_true_iff, andb_false_iff, Z.leb_le, !Z.ltb_lt, Z.leb_gt, Z.ltb_ge in H. destruct H as [[H0 H1] _].
  unfold utf8_char. destruct (Z.ltb_spec c 128); [|destruct (Z.ltb_spec c 2048); [|destruct (Z.ltb_spec c 65536)]]; cbn [app utf8_decode];
    rewrite ?continuation_low; settle_bools; try done.
  - by replace ((192 + c / 64 - 192) * 64 + (128 + c mod 64 - 128)) with c by euclid.
  - replace ((224 + c / 4096 - 224) * 4096 + (128 + (c / 64) mod 64 - 128) * 64 + (128 + c mod 64 - 128)) with c by euclid.
    rewrite Hs. by settle_bools.
  - replace ((240 + c / 262144 - 240) * 262144 + (128 + (c / 4096) mod 64 - 128) * 4096 + (128 + (c / 64) mod 64 - 128) * 64 + (128 + c mod 64 - 128)) with c by euclid.
    rewrite Hs. by settle_bools.
Qed.

Lemma utf8_roundtrip s : Forall (fun c => scalar c = true) s -> exists bs, utf8_encode s = Ok bs /\ utf8_decode bs = Ok s /\ bytes_ok bs.
Proof.
  induction s as [|c s IH]; intros H; [exists []; repeat split; constructor|]. apply Forall_cons in H as [Hc H]. destruct (IH H) as (bs & E & D & B).
  exists (utf8_char c ++ bs). cbn [utf8_encode]. rewrite Hc, E. split; [done|]. split; [rewrite utf8_char_decode, D by done; done|].
  apply Forall_app. split; [|done]. unfold scalar in Hc. rewrite !andb_true_iff, Z.leb_le, Z.ltb_lt in Hc. destruct Hc as [[H0 H1] _].
  unfold utf8_char, byte_ok. repeat case_match; zbool; repeat constructor; euclid.
Qed.

(** *** Integers *)

Lemma digit_of_char x : (x < 10)%N -> digit_value (pretty_N_char x) = Some (Z.of_N x).
Proof.
  intros Hx. assert (H : match digit_value (pretty_N_char (Z.to_N (Z.of_N x))) with Some d => d =? Z.of_N x | None => false end = true).
  { apply (Z_below (fun z => match digit_value (pretty_N_char (Z.to_N z)) with Some d => d =? z | None => false end) 10); [vm_compute; reflexivity|lia]. }
  rewrite N2Z.id in H. destruct (digit_value _); [|done]. zbool. by subst.
Qed.

Lemma digits_value x : forall s, int_digits (pretty_N_go x s) 0 = int_digits s (Z.of_N x).
Proof.
  induction (N.lt_wf_0 x) as [x _ IH]. intros s. destruct (decide (0 < x)%N) as [Hx|].
  - rewrite pretty_N_go_step by done. rewrite IH by (apply N.div_lt; lia). cbn [int_digits].
    rewrite digit_of_char by (apply N.mod_lt; lia). f_equal. pose proof (N.div_mod x 10 ltac:(lia)). lia.
  - replace x with 0%N by lia. by rewrite pretty_N_go_0.
Qed.

Lemma go_digits x : forall s, all_digits s = true -> all_digits (pretty_N_go x s) = true.
Proof.
  induction (N.lt_wf_0 x) as [x _ IH]. intros s Hs. destruct (decide (0 < x)%N) as [Hx|].
  - rewrite pretty_N_go_step by done. apply IH; [apply N.div_lt; lia|]. unfold all_digits in *. cbn.
    rewrite digit_of_char by (apply N.mod_lt; lia). done.
  - replace x with 0%N by lia. by rewrite pretty_N_go_0.
Qed.

Lemma str_rev_app_rev s : forall acc, str_rev_app s acc = String.string_of_list_ascii (rev (String.list_ascii_of_string s) ++ String.list_ascii_of_string acc).
Proof.
  induction s as [|a s IH]; intros acc; cbn; [by rewrite String.string_of_list_ascii_of_string|].
  rewrite IH. cbn. by rewrite <- app_assoc.
Qed.

Lemma str_rev_list s : String.list_ascii_of_string (str_rev s) = rev (String.list_ascii_of_string s).
Proof. unfold str_rev. rewrite str_rev_app_rev. cbn. by rewrite app_nil_r, String.list_ascii_of_string_of_list_ascii. Qed.

Lemma str_rev_involutive s : str_rev (str_rev s) = s.
Proof.
  rewrite <- (String.string_of_list_ascii_of_string (str_rev (str_rev s))), !str_rev_list, rev_involutive.
  apply String.string_of_list_ascii_of_string.
Qed.

Lemma lstrip_id s : forallb (fun a => negb (is_space a)) (String.list_ascii_of_string s) = true -> str_lstrip s = s.
Proof. destruct s as [|a s]; [done|]. cbn. rewrite andb_true_iff, negb_true_iff. by intros [-> _]. Qed.

Lemma strip_id s : forallb (fun a => negb (is_space a)) (String.list_ascii_of_string s) = true -> str_strip s = s.
Proof.
  intros H. unfold str_strip. rewrite (lstrip_id s H). rewrite (lstrip_id (str_rev s)); [apply str_rev_involutive|].
  rewrite str_rev_list. apply forallb_forall. intros a Ha. apply in_rev in Ha. by apply (proj1 (forallb_forall _ _) H).
Qed.

Lemma digit_plain a d : digit_value a = Some d -> is_space a = false /\ Ascii.eqb a "-" = false /\ Ascii.eqb a "+" = false /\ Ascii.eqb a ":" = false.
Proof. destruct a as [[] [] [] [] [] [] [] []]; vm_compute; intros H; try discriminate H; repeat split. Qed.

Lemma nat_digits n : 0 <= n -> all_digits (str_nat n) = true /\ int_digits (str_nat n) 0 = Some n /\ str_nat n <> "".
Proof.
  intros Hn. unfold str_nat, pretty, pretty_N. case_decide as H0; [split; [done|]; split; [change (Some 0 = Some n); f_equal; lia|done]|].
  split; [by apply go_digits|]. rewrite digits_value. split; [cbn [int_digits]; f_equal; lia|].
  intros E. pose proof (digits_value (Z.to_N n) "") as Hv. rewrite E in Hv. cbn [int_digits] in Hv. injection Hv. lia.
Qed.

Lemma digits_plain s : all_digits s = true ->
  str_free ":" s = true /\ forallb (fun a => negb (is_space a)) (String.list_ascii_of_string s) = true.
Proof.
  unfold all_digits. induction s as [|a s IH]; intros Hd; [done|]. cbn in *. apply andb_true_iff in Hd as [Ha Hd].
  destruct (digit_value a) as [d|] eqn:E; [|done]. destruct (digit_plain a d E) as (-> & _ & _ & ->). destruct (IH Hd) as [-> ->]. done.
Qed.

(** [int] undoes [str]. *)
Lemma int_roundtrip n : int_of_str (str_int n) = Ok n /\ str_free ":" (str_int n) = true.
Proof.
  unfold str_int. destruct (Z.ltb_spec n 0) as [Hn|Hn].
  - destruct (nat_digits (- n) ltac:(lia)) as (Hd & Hv & Hne). set (s := str_nat (- n)) in *.
    destruct (digits_plain s Hd) as [Hf Hsp]. split; [|done]. change ("-" ++ s)%string with (String "-" s). unfold int_of_str.
    rewrite strip_id by (cbn; by rewrite Hsp). cbn [Ascii.eqb Bool.eqb]. destruct s as [|a s]; [done|].
    unfold all_digits in Hd. cbn in Hd. destruct (digit_value a) as [d|] eqn:E; [|done].
    cbn [int_digits] in Hv. rewrite E in *. change (10 * 0 + d) with d in Hv. rewrite Hv. cbn. f_equal. lia.
  - destruct (nat_digits n Hn) as (Hd & Hv & Hne). set (s := str_nat n) in *. destruct (digits_plain s Hd) as [Hf Hsp].
    split; [|done]. unfold int_of_str. rewrite (strip_id s Hsp). destruct s as [|a s]; [done|].
    unfold all_digits in Hd. cbn in Hd. destruct (digit_value a) as [d|] eqn:E; [|done]. destruct (digit_plain a d E) as (_ & Hm & Hp & _).
    rewrite Hm, Hp. cbn [int_digits] in Hv. rewrite E in *. change (10 * 0 + d) with d in Hv. by rewrite Hv.
Qed.

(** What decodes is a string of scalar values. *)
Lemma utf8_decode_scalar : forall bs s, bytes_ok bs -> utf8_decode bs = Ok s -> Forall (fun c => scalar c = true) s.
Proof.
  assert (Hb : forall (r : res (list Z)) c s, (forall x, r = Ok x -> Forall (fun c => scalar c = true) x) -> scalar c = true ->
    (x ← r; Ok (c :: x)) = Ok s -> Forall (fun c => scalar c = true) s).
  { intros [x|e] c s Hr Hc E; [|done]. injection E as <-. constructor; [done|by apply Hr]. }
  fix IH 1. intros [|a bs1] s H E; [injection E as <-; constructor|]. apply Forall_cons in H as [Ha H]. unfold byte_ok in Ha. cbn [utf8_decode] in E.
  destruct (Z.ltb_spec a 128). { eapply Hb; [intros x Ex; by apply (IH bs1)| |exact E]. unfold scalar. by settle_bools. }
  destruct bs1 as [|b bs2]; [done|]. apply Forall_cons in H as [Hb' H]. unfold byte_ok in Hb'. unfold continuation at 1 in E.
  destruct (Z.leb_spec 128 b), (Z.ltb_spec b 192); try done. cbn [andb negb] in E.
  destruct ((194 <=? a) && (a <? 224)) eqn:E2.
  { apply andb_true_iff in E2 as [? ?]. zbool. eapply Hb; [intros x Ex; by apply (IH bs2)| |exact E]. unfold scalar. by settle_bools. }
  destruct bs2 as [|c bs3]; [done|]. apply Forall_cons in H as [_ H]. destruct (continuation c); [|done]. cbn [negb] in E.
  destruct ((224 <=? a) && (a <? 240)).
  { case_match eqn:E3; [|done]. apply andb_true_iff in E3 as [_ E3]. eapply Hb; [intros x Ex; by apply (IH bs3)|exact E3|exact E]. }
  destruct bs3 as [|d bs4]; [done|]. apply Forall_cons in H as [_ H]. case_match eqn:E3; [|done]. apply andb_true_iff in E3 as [_ E3].
  eapply Hb; [intros x Ex; by apply (IH bs4)|exact E3|exact E].
Qed.

(** *** Errors: each decoder raises [ValueError] only *)

Lemma int_error s e : int_of_str s = Raise e -> exists msg, e = ValueError msg.
Proof. unfold int_of_str. destruct (str_strip s); [intros [= <-]; eauto|]. case_match; [done|]. intros [= <-]; eauto. Qed.

Lemma b64_error s e : urlsafe_b64decode s = Raise e -> exists msg, e = ValueError msg.
Proof.
  unfold urlsafe_b64decode. generalize 0 at 1 as q. generalize 0 at 1 as l. generalize 0 as pd.
  induction s as [|a s IH]; intros pd l q; cbn [b64_scan]; [case_match; [done|intros [= <-]; eauto]|].
  destruct (Ascii.eqb a "="); [case_match; [done|apply IH]|]. destruct (b64_value a) as [v|]; [|apply IH].
  repeat case_match; try apply IH; intros E; (destruct (b64_scan s _ _ _) as [r|e'] eqn:Es; [done|]); injection E as <-; by apply (IH _ _ _ Es).
Qed.

Lemma utf8_error : forall bs e, utf8_decode bs = Raise e -> e = unicode_error.
Proof.
  assert (Hb : forall (r : res (list Z)) (c : Z) e, (forall e', r = Raise e' -> e' = unicode_error) -> (x ← r; Ok (c :: x)) = Raise e -> e = unicode_error).
  { intros [x|e'] c e Hr E; [done|]. injection E as <-. by apply Hr. }
  fix IH 1. intros [|a bs1] e E; [done|]. cbn [utf8_decode] in E. destruct (a <? 128); [exact (Hb _ _ _ (IH bs1) E)|].
  destruct bs1 as [|b bs2]; [by injection E as <-|]. destruct (negb (continuation b)); [by injection E as <-|].
  destruct ((194 <=? a) && (a <? 224)); [exact (Hb _ _ _ (IH bs2) E)|].
  destruct bs2 as [|c bs3]; [by injection E as <-|]. destruct (negb (continuation c)); [by injection E as <-|].
  destruct ((224 <=? a) && (a <? 240)); [case_match; [exact (Hb _ _ _ (IH bs3) E)|by injection E as <-]|].
  destruct bs3 as [|d bs4]; [by injection E as <-|]. case_match; [exact (Hb _ _ _ (IH bs4) E)|by injection E as <-].
Qed.
End CodecFacts.
