(* ===== verification/CredentialCipher.v ===== *)
(** * Credentials at rest: [engine/shared/crypto/credential_cipher.py]

    Envelope encryption: a credential is encrypted with a fresh data key, the data
    key is wrapped with the active key-encryption key (KEK), and the version of the
    KEK is stored beside them.  [Fernet] and [AESGCM] of the package [cryptography]
    are the class [Cryptography], with [CryptographyLaws] what their documentation
    promises; random bytes are arguments.  Tokens and environment variables are
    ASCII, a credential is a list of code points.  The environment is an
    association list in its own order; the process-wide cipher is explicit state.
    Log lines and the [details] of exceptions are not modelled. *)

From Stdlib Require Import ZArith Lia Bool Ascii String Permutation.
From stdpp Require Import base list strings.
From S2P Require Import Prelude PyText PyRepr PyValues Sha256 Codec.

#[local] Open Scope string_scope.
#[local] Open Scope Z_scope.
#[local] Open Scope list_scope.

(** ** The package [cryptography] *)

Class Cryptography := {
  fernet : Type;
  (** [Fernet(key)]. *)
  Fernet : bytes -> res fernet;
  (** [f.encrypt(data)], with its time and its random bytes. *)
  fernet_encrypt : fernet -> bytes -> bytes -> bytes;
  fernet_decrypt : fernet -> bytes -> res bytes;
  (** [AESGCM(key).encrypt(nonce, data, None)]. *)
  aesgcm_encrypt : bytes -> bytes -> bytes -> res bytes;
  aesgcm_decrypt : bytes -> bytes -> bytes -> res bytes }.

Class CryptographyLaws (C : Cryptography) : Prop := {
  fernet_key digest : bytes_ok digest -> length digest = 32%nat ->
    exists f, Fernet (ascii_encode (urlsafe_b64encode digest)) = Ok f;
  fernet_open f seed m : bytes_ok m -> fernet_decrypt f (fernet_encrypt f seed m) = Ok m;
  (** A token is URL-safe base 64. *)
  fernet_text f seed m : Forall (fun b => exists a, b = char_code a /\ (b64_value a <> None \/ a = "="%char)) (fernet_encrypt f seed m);
  (** A token is authenticated: no key opens it to anything else. *)
  fernet_authentic f g seed m m' : bytes_ok m -> fernet_decrypt g (fernet_encrypt f seed m) = Ok m' -> m' = m;
  fernet_errors f token e : fernet_decrypt f token = Raise e -> e = InvalidToken;
  fernet_bytes f token m : fernet_decrypt f token = Ok m -> bytes_ok m;
  aesgcm_open key nonce m : bytes_ok m -> length key = 32%nat -> length nonce = 12%nat ->
    exists ct, aesgcm_encrypt key nonce m = Ok ct /\ bytes_ok ct /\ aesgcm_decrypt key nonce ct = Ok m;
  aesgcm_errors key nonce ct e : aesgcm_decrypt key nonce ct = Raise e -> e = InvalidTag \/ exists msg, e = ValueError msg;
  aesgcm_bytes key nonce ct m : aesgcm_decrypt key nonce ct = Ok m -> bytes_ok m }.

(** ** Constants *)

Definition _SCHEME_V2 : string := "v2".
Definition _ACTIVE_SCHEME : string := _SCHEME_V2.
Definition _FIELD_SEP : ascii := ":".
Definition _V2_FIELD_COUNT : nat := 5.
Definition _AES256_KEY_BYTES : nat := 32.
Definition _GCM_NONCE_BYTES : nat := 12.
Definition _BASE_KEY_ENV : string := "BROKER_ENCRYPTION_KEY".
Definition _VERSIONED_KEY_PREFIX : string := "BROKER_ENCRYPTION_KEY_V".
Definition _BASE_KEY_VERSION : Z := 1.
Definition _DEV_FALLBACK_RAW : string := "etradie-dev-only-broker-key-do-not-use-in-production".

(** ** Keys from the environment *)

Definition environ : Type := list (string * string).

Definition env_get (name : string) (env : environ) : option string :=
  snd <$> List.find (fun '(k, _) => String.eqb k name) env.

(** The digest as bytes. *)
Definition sha256_digest (m : bytes) : bytes := List.concat (map (be_bytes 4) (sha256 m)).

Definition _normalise_kek (raw : string) : bytes := ascii_encode (urlsafe_b64encode (sha256_digest (str_bytes raw))).

Definition _is_prod_like (env : environ) : bool :=
  str_in (str_lower (str_strip (default "development" (env_get "APP_ENV" env)))) ["production"; "staging"].

(** [d\[version\] = key]. *)
Fixpoint kek_set {K} (version : Z) (key : K) (d : list (Z * K)) : list (Z * K) :=
  match d with
  | [] => [(version, key)]
  | (v, k) :: d => if v =? version then (v, key) :: d else (v, k) :: kek_set version key d
  end.

Fixpoint kek_get {K} (version : Z) (d : list (Z * K)) : option K :=
  match d with [] => None | (v, k) :: d => if v =? version then Some k else kek_get version d end.

Definition str_isdigit (s : string) : bool := negb (str_empty s) && all_digits s.

(** One variable of the loop over [os.environ]. *)
Definition add_versioned (keks : list (Z * bytes)) (var : string * string) : res (list (Z * bytes)) :=
  let '(env_name, env_val) := var in
  if negb (str_startswith env_name _VERSIONED_KEY_PREFIX) then Ok keks
  else
    let suffix := str_drop (String.length _VERSIONED_KEY_PREFIX) env_name in
    if negb (str_isdigit suffix) then Ok keks
    else
      version ← int_of_str suffix;
      let val := str_strip env_val in
      if str_empty val then Ok keks else Ok (kek_set version (_normalise_kek val) keks).

Fixpoint add_all (keks : list (Z * bytes)) (env : environ) : res (list (Z * bytes)) :=
  match env with [] => Ok keks | var :: env => keks ← add_versioned keks var; add_all keks env end.

Definition _resolve_keks_from_env (env : environ) : res (list (Z * bytes)) :=
  let base := str_strip (default "" (env_get _BASE_KEY_ENV env)) in
  let keks := if str_empty base then [] else [(_BASE_KEY_VERSION, _normalise_kek base)] in
  keks ← add_all keks env;
  match keks with
  | [] =>
      if _is_prod_like env
      then Raise (ConfigurationError "BROKER_ENCRYPTION_KEY is required in production/staging. Set it via the engine ExternalSecret (Vault path etradie/services/engine/<env>:broker_encryption_key).")
      else Ok [(_BASE_KEY_VERSION, _normalise_kek _DEV_FALLBACK_RAW)]
  | _ => Ok keks
  end.

(** ** The cipher *)

Module CredentialCipher.
Section Cipher.
Context `{C : Cryptography}.

Record t := mk { _keks : list (Z * fernet); _active_version : Z; _trial_order : list Z }.

Definition create (keks_by_version : list (Z * bytes)) : res t :=
  match keks_by_version with
  | [] => Raise (ConfigurationError "CredentialCipher requires at least one KEK version")
  | _ =>
      keks ← res_map (fun '(ver, key) => f ← Fernet key; Ok (ver, f)) keks_by_version;
      active ← py_max (fun x y => y <? x) (map fst keks);
      Ok (mk keks active (py_sorted (fun x y => y <? x) (map fst keks)))
  end.

(** The fields of a token, joined by the separator. *)
Definition join_fields (fields : list string) : string := str_join ":" fields.

(** [dek], [nonce] and [seed] are the random bytes of the call. *)
Definition encrypt (c : t) (dek nonce seed : bytes) (plaintext : list Z) : res string :=
  data ← utf8_encode plaintext;
  ciphertext ← aesgcm_encrypt dek nonce data;
  match kek_get (_active_version c) (_keks c) with
  | None => Raise KeyError
  | Some kek =>
      let wrapped_dek := fernet_encrypt kek seed dek in
      Ok (join_fields [_SCHEME_V2; str_int (_active_version c); urlsafe_b64encode wrapped_dek;
                       urlsafe_b64encode nonce; urlsafe_b64encode ciphertext])
  end.

Definition _unwrap_dek (c : t) (version : Z) (wrapped_dek_b64 : string) : res bytes :=
  match kek_get version (_keks c) with
  | None => Raise (CredentialDecryptionError "Credential was wrapped with an unconfigured KEK version")
  | Some kek => wrapped_dek ← urlsafe_b64decode wrapped_dek_b64; fernet_decrypt kek wrapped_dek
  end.

Definition v2_prefix : string := _SCHEME_V2 ++ String _FIELD_SEP "".

Definition _decrypt_v2 (c : t) (token : string) : res (list Z) :=
  match str_split_max _FIELD_SEP (_V2_FIELD_COUNT - 1) token with
  | [_; version_str; wrapped_dek_b64; nonce_b64; ciphertext_b64] =>
      match int_of_str version_str with
      | Raise (ValueError _) => Raise (CredentialDecryptionError "Malformed v2 credential token")
      | Raise e => Raise e
      | Ok version =>
          match
            (dek ← _unwrap_dek c version wrapped_dek_b64;
             nonce ← urlsafe_b64decode nonce_b64;
             ciphertext ← urlsafe_b64decode ciphertext_b64;
             data ← aesgcm_decrypt dek nonce ciphertext;
             utf8_decode data)
          with
          | Raise (InvalidToken | InvalidTag | ValueError _ | TypeError) =>
              Raise (CredentialDecryptionError "Failed to decrypt v2 credential token")
          | r => r
          end
      end
  | _ => Raise (CredentialDecryptionError "Malformed v2 credential token")
  end.

Fixpoint try_keys (c : t) (raw : bytes) (versions : list Z) : res (list Z) :=
  match versions with
  | [] => Raise (CredentialDecryptionError "Failed to decrypt legacy credential token with any configured KEK")
  | version :: versions =>
      match kek_get version (_keks c) with
      | None => Raise KeyError
      | Some kek =>
          match (data ← fernet_decrypt kek raw; utf8_decode data) with
          | Raise InvalidToken => try_keys c raw versions
          | r => r
          end
      end
  end.

Definition _decrypt_legacy (c : t) (token : string) : res (list Z) := try_keys c (ascii_encode token) (_trial_order c).

Definition decrypt (c : t) (token : string) : res (list Z) :=
  if str_startswith token v2_prefix then _decrypt_v2 c token else _decrypt_legacy c token.

Definition key_version_of (token : string) : option Z :=
  if negb (str_startswith token v2_prefix) then None
  else
    match str_split_max _FIELD_SEP (_V2_FIELD_COUNT - 1) token with
    | [_; version_str; _; _; _] => match int_of_str version_str with Ok n => Some n | Raise _ => None end
    | _ => None
    end.

Definition needs_rewrap (c : t) (token : string) : bool :=
  if negb (str_startswith token v2_prefix) then true
  else match key_version_of token with None => false | Some version => negb (version =? _active_version c) end.

Definition rewrap (c : t) (dek nonce seed : bytes) (token : string) : res string :=
  plaintext ← decrypt c token;
  encrypt c dek nonce seed plaintext.

(** ** The process-wide cipher *)

Definition get_cipher (env : environ) (singleton : option t) : res t * option t :=
  match singleton with
  | Some c => (Ok c, singleton)
  | None =>
      match (keks ← _resolve_keks_from_env env; create keks) with
      | Ok c => (Ok c, Some c)
      | Raise e => (Raise e, None)
      end
  end.

Definition reset_cipher_for_tests (singleton : option t) : option t := None.

(** The module functions: the method of the process-wide cipher. *)
Definition with_cipher {A} (env : environ) (f : t -> res A) (singleton : option t) : res A * option t :=
  let '(c, singleton) := get_cipher env singleton in
  (c ← c; f c, singleton).
End Cipher.
End CredentialCipher.

(** ** Correctness *)

Module CipherFacts.
Import CredentialCipher CodecFacts.

Section Facts.
Context `{L : CryptographyLaws}.

(** A cipher as the constructor makes it. *)
Definition created (c : t) : Prop := exists keks, create keks = Ok c.

Definition text_ok (s : list Z) : Prop := Forall (fun c => scalar c = true) s.

(** The random bytes of a call. *)
Record fresh (dek nonce seed : bytes) : Prop := {
  dek_ok : bytes_ok dek /\ length dek = _AES256_KEY_BYTES;
  nonce_ok : bytes_ok nonce /\ length nonce = _GCM_NONCE_BYTES }.

Lemma kek_get_In {K} v (d : list (Z * K)) : In v (map fst d) -> exists k, kek_get v d = Some k.
Proof.
  induction d as [|[w k] d IH]; cbn; [done|]. intros [->|H]; [rewrite Z.eqb_refl; eauto|]. destruct (w =? v); eauto.
Qed.

Lemma created_active c : created c -> exists f, kek_get (_active_version c) (_keks c) = Some f.
Proof.
  intros (keks & E). unfold create in E. destruct keks as [|k keks]; [done|].
  destruct (res_map _ _) as [ks|]; [|done]. cbn [mbind res_bind] in E.
  destruct (py_max _ _) as [a|] eqn:Em; [|done]. injection E as <-. cbn. by apply kek_get_In, (py_max_In _ _ _ Em).
Qed.

Lemma created_order c v : created c -> In v (_trial_order c) <-> In v (map fst (_keks c)).
Proof.
  intros (keks & E). unfold create in E. destruct keks as [|k keks]; [done|].
  destruct (res_map _ _) as [ks|]; [|done]. cbn [mbind res_bind] in E.
  destruct (py_max _ _) as [a|]; [|done]. injection E as <-. cbn. apply py_sorted_In.
Qed.

(** *** Fields *)

Lemma fernet_token_bytes f seed m : bytes_ok (fernet_encrypt f seed m).
Proof.
  eapply Forall_impl; [apply (fernet_text f seed m)|]. intros b (a & -> & _). unfold byte_ok, char_code.
  pose proof (nat_ascii_bounded a). lia.
Qed.

Lemma fernet_token_free f seed m : str_free ":" (urlsafe_b64encode (fernet_encrypt f seed m)) = true.
Proof. apply b64_free, fernet_token_bytes. Qed.

(** The five fields of a token. *)
Definition token_of (version : Z) (wrapped nonce ct : bytes) : string :=
  join_fields [_SCHEME_V2; str_int version; urlsafe_b64encode wrapped; urlsafe_b64encode nonce; urlsafe_b64encode ct].

Lemma token_prefix version wrapped nonce ct : str_startswith (token_of version wrapped nonce ct) v2_prefix = true.
Proof.
  assert (Happ : forall p s, str_startswith (p ++ s)%string p = true).
  { induction p as [|a p IH]; intros s; [by destruct s|]. rewrite ReprFacts.str_cons_app. unfold str_startswith in *. cbn [String.prefix].
    destruct (ascii_dec a a); [apply IH|done]. }
  change (token_of version wrapped nonce ct) with (v2_prefix ++ (str_join ":" [str_int version; urlsafe_b64encode wrapped; urlsafe_b64encode nonce; urlsafe_b64encode ct]))%string.
  apply Happ.
Qed.

Lemma token_split version wrapped nonce ct :
  str_free ":" (urlsafe_b64encode wrapped) = true -> bytes_ok nonce -> bytes_ok ct ->
  str_split_max _FIELD_SEP (_V2_FIELD_COUNT - 1) (token_of version wrapped nonce ct) =
    [_SCHEME_V2; str_int version; urlsafe_b64encode wrapped; urlsafe_b64encode nonce; urlsafe_b64encode ct].
Proof.
  intros Hw Hn Hc. unfold token_of, join_fields, _FIELD_SEP, _V2_FIELD_COUNT. cbn [str_join Nat.sub].
  destruct (int_roundtrip version) as [_ Hv].
  assert (Happ : forall x r, (x ++ ":" ++ r)%string = (x ++ String ":" r)%string) by done. rewrite !Happ.
  rewrite (split_field ":" 3 _SCHEME_V2) by done. rewrite (split_field ":" 2) by done. rewrite (split_field ":" 1) by done.
  rewrite (split_field ":" 0) by (by apply b64_free). by rewrite split_last by (by apply b64_free).
Qed.

(** What [encrypt] writes is read back by every cipher that has the key. *)
Lemma encrypt_token c dek nonce seed s : created c -> text_ok s -> fresh dek nonce seed ->
  exists f ct data, kek_get (_active_version c) (_keks c) = Some f /\
    encrypt c dek nonce seed s = Ok (token_of (_active_version c) (fernet_encrypt f seed dek) nonce ct) /\
    bytes_ok ct /\ aesgcm_decrypt dek nonce ct = Ok data /\ utf8_decode data = Ok s.
Proof.
  intros Hc Hs [[Bd Ld] [Bn Ln]]. destruct (created_active c Hc) as (f & Ef). destruct (utf8_roundtrip s Hs) as (data & Ee & Ed & Bdata).
  destruct (aesgcm_open dek nonce data Bdata Ld Ln) as (ct & Ec & Bc & Eo). exists f, ct, data.
  unfold encrypt. rewrite Ee. cbn [mbind res_bind]. rewrite Ec. cbn [mbind res_bind]. rewrite Ef. done.
Qed.

Lemma decrypt_token c version f seed dek nonce ct data s :
  kek_get version (_keks c) = Some f -> bytes_ok dek -> bytes_ok nonce -> bytes_ok ct ->
  aesgcm_decrypt dek nonce ct = Ok data -> utf8_decode data = Ok s ->
  decrypt c (token_of version (fernet_encrypt f seed dek) nonce ct) = Ok s.
Proof.
  intros Ef Bd Bn Bc Ea Eu. unfold decrypt. rewrite token_prefix. unfold _decrypt_v2.
  rewrite token_split by (done || apply fernet_token_free). destruct (int_roundtrip version) as [-> _].
  unfold _unwrap_dek. rewrite Ef. rewrite !b64_roundtrip by (done || apply fernet_token_bytes).
  cbn [mbind res_bind]. rewrite fernet_open by done. cbn [mbind res_bind].
  rewrite Ea. cbn [mbind res_bind]. by rewrite Eu.
Qed.

Lemma token_version version wrapped nonce ct : str_free ":" (urlsafe_b64encode wrapped) = true -> bytes_ok nonce -> bytes_ok ct ->
  key_version_of (token_of version wrapped nonce ct) = Some version.
Proof.
  intros Hw Hn Hc. unfold key_version_of. rewrite token_prefix. cbn [negb]. rewrite token_split by done. by destruct (int_roundtrip version) as [-> _].
Qed.

(** C22: a stored credential is read back, across rotations.  Whatever was encrypted
    decrypts to the same text, under the cipher that wrote it and under every
    cipher that still has the key it was wrapped with.  Its version is the active
    one of the writer, and it is due for a re-wrap exactly under the ciphers that
    have another active version. *)
Theorem credential_roundtrip c c' dek nonce seed s :
  created c -> text_ok s -> fresh dek nonce seed ->
  kek_get (_active_version c) (_keks c') = kek_get (_active_version c) (_keks c) ->
  exists token, encrypt c dek nonce seed s = Ok token /\ decrypt c' token = Ok s /\
    key_version_of token = Some (_active_version c) /\
    (needs_rewrap c' token = false <-> _active_version c' = _active_version c).
Proof.
  intros Hc Hs Hf Hk. destruct (encrypt_token c dek nonce seed s Hc Hs Hf) as (f & ct & data & Ef & Ee & Bc & Ea & Eu).
  destruct Hf as [[Bd _] [Bn _]]. eexists. split; [exact Ee|]. split; [eapply decrypt_token; eauto; congruence|].
  pose proof (token_version (_active_version c) _ nonce ct (fernet_token_free f seed dek) Bn Bc) as Hv. split; [done|].
  unfold needs_rewrap. rewrite token_prefix. cbn [negb]. rewrite Hv, negb_false_iff, Z.eqb_eq. split; congruence.
Qed.

(** *** Old tokens *)

(** What the previous implementation stored. *)
Definition legacy_token (f : fernet) (seed : bytes) (data : bytes) : string :=
  String.string_of_list_ascii (map (fun b => ascii_of_nat (Z.to_nat b)) (fernet_encrypt f seed data)).

Lemma legacy_bytes f seed data : ascii_encode (legacy_token f seed data) = fernet_encrypt f seed data.
Proof.
  unfold legacy_token, ascii_encode. rewrite String.list_ascii_of_string_of_list_ascii, map_map. pose proof (fernet_text f seed data) as H.
  induction H as [|b bs (a & -> & _) _ IH]; [done|]. cbn. rewrite IH. f_equal. unfold char_code. by rewrite Nat2Z.id, ascii_nat_embedding.
Qed.

Lemma free_no_prefix s : str_free ":" s = true -> str_startswith s v2_prefix = false.
Proof.
  intros H. unfold str_startswith. change v2_prefix with "v2:".
  destruct s as [|a [|b [|x s]]]; cbn [String.prefix]; [done|by case_match|by repeat case_match|].
  destruct (ascii_dec "v" a); [|done]. destruct (ascii_dec "2" b); [|done]. destruct (ascii_dec ":" x) as [<-|]; [|done].
  cbn [str_free] in H. by rewrite Ascii.eqb_refl, !andb_false_r in H.
Qed.

Lemma legacy_no_prefix f seed data : str_startswith (legacy_token f seed data) v2_prefix = false.
Proof.
  apply free_no_prefix. unfold legacy_token. pose proof (fernet_text f seed data) as H. induction H as [|b bs (a & -> & Ha) _ IH]; [done|].
  cbn [map String.string_of_list_ascii str_free]. rewrite IH, andb_true_r. unfold char_code. rewrite Nat2Z.id, ascii_nat_embedding.
  destruct (Ascii.eqb_spec a ":") as [->|]; [|done]. destruct Ha as [Ha|Ha]; [by exfalso; apply Ha|done].
Qed.

Lemma try_keys_legacy c f seed data s versions :
  bytes_ok data -> utf8_decode data = Ok s -> Forall (fun v => exists g, kek_get v (_keks c) = Some g) versions ->
  (exists v, In v versions /\ kek_get v (_keks c) = Some f) ->
  try_keys c (fernet_encrypt f seed data) versions = Ok s.
Proof.
  intros Bd Eu Hall. induction Hall as [|v vs (g & Eg) Hall IH]; intros (v' & Hin & Ef); [done|]. cbn [try_keys]. rewrite Eg.
  destruct (fernet_decrypt g (fernet_encrypt f seed data)) as [m|e] eqn:Eg'.
  - apply fernet_authentic in Eg' as ->; [|done]. cbn [mbind res_bind]. by rewrite Eu.
  - apply fernet_errors in Eg' as He. subst e. cbn [mbind res_bind]. apply IH.
    destruct Hin as [->|Hin]; [|by exists v']. rewrite Ef in Eg. injection Eg as <-. by rewrite fernet_open in Eg'.
Qed.

Lemma decrypt_legacy c v f seed data s : created c -> kek_get v (_keks c) = Some f -> bytes_ok data -> utf8_decode data = Ok s ->
  decrypt c (legacy_token f seed data) = Ok s /\ needs_rewrap c (legacy_token f seed data) = true.
Proof.
  intros Hc Ef Bd Eu. unfold decrypt, needs_rewrap. rewrite legacy_no_prefix. split; [|done].
  unfold _decrypt_legacy. rewrite legacy_bytes. apply try_keys_legacy; try done.
  - apply Forall_forall. intros w Hw. apply kek_get_In. apply (created_order c w Hc). by apply list_elem_of_In.
  - exists v. split; [|done]. apply (created_order c v Hc). clear -Ef. induction (_keks c) as [|[w k] d IH]; [done|]. cbn in *.
    destruct (Z.eqb_spec w v); [by left|right; by apply IH].
Qed.

(** What a token decrypts to is a text. *)
Lemma decrypt_text c token s : decrypt c token = Ok s -> text_ok s.
Proof.
  assert (Hdec : forall r, (forall m, r = Ok m -> bytes_ok m) -> (data ← r; utf8_decode data) = Ok s -> text_ok s).
  { intros [m|e] Hm E; [|done]. by apply (utf8_decode_scalar m); [apply Hm|]. }
  unfold decrypt. destruct (str_startswith token v2_prefix).
  - unfold _decrypt_v2. destruct (str_split_max _ _ _) as [|? [|? [|? [|? [|? [|]]]]]]; try done.
    destruct (int_of_str _) as [version|[]]; try done.
    destruct (_unwrap_dek c version _) as [dek|[]]; cbn [mbind res_bind]; try done.
    destruct (urlsafe_b64decode s3) as [nonce|[]]; cbn [mbind res_bind]; try done.
    destruct (urlsafe_b64decode s4) as [ct|[]]; cbn [mbind res_bind]; try done.
    intros E. apply (Hdec (aesgcm_decrypt dek nonce ct)); [intros m Em; by eapply aesgcm_bytes|].
    destruct (_ ≫= _) as [x|[]]; done.
  - unfold _decrypt_legacy. induction (_trial_order c) as [|v vs IH]; [done|]. cbn [try_keys].
    destruct (kek_get v (_keks c)) as [g|]; [|done]. intros E. destruct (fernet_decrypt g (ascii_encode token)) as [m|e] eqn:Em.
    + apply (Hdec (Ok m)); [intros m' [= <-]; by eapply fernet_bytes|]. cbn [mbind res_bind] in *. destruct (utf8_decode m) as [x|e] eqn:Eu; [done|].
      by apply utf8_error in Eu as ->.
    + apply fernet_errors in Em as ->. by apply IH.
Qed.

Lemma rewrap_keeps c dek nonce seed token s : created c -> fresh dek nonce seed -> decrypt c token = Ok s ->
  exists token', rewrap c dek nonce seed token = Ok token' /\ needs_rewrap c token' = false /\
    forall c', kek_get (_active_version c) (_keks c') = kek_get (_active_version c) (_keks c) -> decrypt c' token' = Ok s.
Proof.
  intros Hc Hf E. destruct (encrypt_token c dek nonce seed s Hc (decrypt_text c token s E) Hf) as (f & ct & data & Ef & Ee & Bc & Ea & Eu).
  destruct Hf as [[Bd _] [Bn _]]. eexists. unfold rewrap. rewrite E. cbn [mbind res_bind]. split; [exact Ee|]. split.
  - unfold needs_rewrap. rewrite token_prefix. cbn [negb]. rewrite token_version by (done || apply fernet_token_free). by rewrite Z.eqb_refl.
  - intros c' Hk. eapply decrypt_token; eauto. congruence.
Qed.

(** Re-wrapping keeps the credential and retires the old keys.  A token that decrypts,
    of either format, is re-wrapped to one that is not due again and that decrypts
    to the same text under every cipher that has the active key, also when all
    other keys are removed.  Tokens of the previous implementation decrypt as long
    as their key is configured, and are due. *)
Theorem rewrap_retires_keys c dek nonce seed :
  created c -> fresh dek nonce seed ->
  (forall token s, decrypt c token = Ok s ->
     exists token', rewrap c dek nonce seed token = Ok token' /\ needs_rewrap c token' = false /\
       forall c', kek_get (_active_version c) (_keks c') = kek_get (_active_version c) (_keks c) -> decrypt c' token' = Ok s) /\
  (forall v f old data s, kek_get v (_keks c) = Some f -> bytes_ok data -> utf8_decode data = Ok s ->
     decrypt c (legacy_token f old data) = Ok s /\ needs_rewrap c (legacy_token f old data) = true).
Proof. intros Hc Hf. split; [intros; by apply rewrap_keeps|intros; by eapply decrypt_legacy]. Qed.

(** A token that is not due needs the active key only. *)
Lemma current_token c c' token s : needs_rewrap c token = false -> decrypt c token = Ok s ->
  kek_get (_active_version c) (_keks c') = kek_get (_active_version c) (_keks c) -> decrypt c' token = Ok s.
Proof.
  unfold needs_rewrap, key_version_of, decrypt. destruct (str_startswith token v2_prefix); [|done]. cbn [negb]. unfold _decrypt_v2.
  destruct (str_split_max _ _ _) as [|? [|vs [|ws [|ns [|cs [|]]]]]]; try done.
  destruct (int_of_str vs) as [version|e]; [|by destruct e]. rewrite negb_false_iff, Z.eqb_eq. intros ->. unfold _unwrap_dek. by intros E ->.
Qed.

(** C35: a damaged token is always reported as such.  Whatever a string with the
    current scheme contains, decrypting it returns a text or raises
    [CredentialDecryptionError]; so does every string of the old format whose bytes
    are text under each key that opens it. *)
Theorem decrypt_error_contract c token e :
  created c -> decrypt c token = Raise e ->
  str_startswith token v2_prefix = true \/
    (forall v f m, kek_get v (_keks c) = Some f -> fernet_decrypt f (ascii_encode token) = Ok m -> exists s, utf8_decode m = Ok s) ->
  exists msg, e = CredentialDecryptionError msg.
Proof.
  intros Hc E Hor. unfold decrypt in E. destruct (str_startswith token v2_prefix) eqn:Ep.
  - clear Hor. unfold _decrypt_v2 in E.
    destruct (str_split_max _ _ _) as [|? [|vs [|ws [|ns [|cs [|]]]]]]; try (injection E as <-; eexists; reflexivity).
    destruct (int_of_str vs) as [version|e'] eqn:Ei; [|destruct (int_error _ _ Ei) as [m ->]; injection E as <-; by eexists].
    assert (Hr : forall e', (dek ← _unwrap_dek c version ws; nonce ← urlsafe_b64decode ns; ct ← urlsafe_b64decode cs;
        data ← aesgcm_decrypt dek nonce ct; utf8_decode data) = Raise e' ->
        (exists msg, e' = CredentialDecryptionError msg) \/ e' = InvalidToken \/ e' = InvalidTag \/ exists msg, e' = ValueError msg).
    { intros e'. unfold _unwrap_dek. destruct (kek_get version (_keks c)) as [kek|]; [|intros [= <-]; left; by eexists].
      destruct (urlsafe_b64decode ws) as [w|] eqn:Ew; cbn [mbind res_bind]; [|intros [= <-]; apply b64_error in Ew; tauto].
      destruct (fernet_decrypt kek w) as [dek|] eqn:Ed; cbn [mbind res_bind]; [|intros [= <-]; apply fernet_errors in Ed; tauto].
      destruct (urlsafe_b64decode ns) as [nonce|] eqn:En; cbn [mbind res_bind]; [|intros [= <-]; apply b64_error in En; tauto].
      destruct (urlsafe_b64decode cs) as [ct|] eqn:Ec; cbn [mbind res_bind]; [|intros [= <-]; apply b64_error in Ec; tauto].
      destruct (aesgcm_decrypt dek nonce ct) as [data|] eqn:Ea; cbn [mbind res_bind]; [|intros [= <-]; apply aesgcm_errors in Ea; tauto].
      intros Eu. apply utf8_error in Eu as ->. do 3 right. by eexists. }
    destruct (_ ≫= _) as [x|e'] in E, Hr; [done|].
    destruct (Hr e' eq_refl) as [(msg & ->)|[->|[->|(msg & ->)]]]; injection E as <-; by eexists.
  - destruct Hor as [|Hor]; [done|]. unfold _decrypt_legacy in E.
    assert (Hall : Forall (fun v => exists g, kek_get v (_keks c) = Some g) (_trial_order c)).
    { apply Forall_forall. intros w Hw. apply kek_get_In. apply (created_order c w Hc). by apply list_elem_of_In. }
    induction Hall as [|v vs (g & Eg) _ IH]; cbn [try_keys] in E; [injection E as <-; eauto|]. rewrite Eg in E.
    destruct (fernet_decrypt g (ascii_encode token)) as [m|e'] eqn:Em; cbn [mbind res_bind] in E.
    + destruct (Hor v g m Eg Em) as [s Es]. by rewrite Es in E.
    + apply fernet_errors in Em as ->. by apply IH.
Qed.
End Facts.
End CipherFacts.

(** ** A transparent implementation

    Nothing is hidden, but every law holds: the laws can be met. *)

Module Transparent.
Import CredentialCipher CodecFacts CipherFacts.

Definition all_bytes (m : bytes) : bool := forallb (fun b => (0 <=? b) && (b <? 256)) m.

Lemma all_bytes_ok m : all_bytes m = true <-> bytes_ok m.
Proof.
  unfold all_bytes, bytes_ok, byte_ok. rewrite forallb_forall, Forall_forall. setoid_rewrite list_elem_of_In.
  setoid_rewrite andb_true_iff. setoid_rewrite Z.leb_le. setoid_rewrite Z.ltb_lt. done.
Qed.

Definition seal (f : Z) (m : bytes) : bytes := ascii_encode (urlsafe_b64encode (f mod 256 :: m)).
Definition unseal (f : Z) (token : bytes) : res bytes :=
  match urlsafe_b64decode (String.string_of_list_ascii (map (fun b => ascii_of_nat (Z.to_nat b)) token)) with
  | Ok (h :: m) => if (h =? f mod 256) && all_bytes m then Ok m else Raise InvalidToken
  | _ => Raise InvalidToken
  end.

#[global] Instance transparent : Cryptography := {|
  fernet := Z;
  Fernet key := Ok (fold_left Z.add key 0);
  fernet_encrypt f _ m := seal f m;
  fernet_decrypt := unseal;
  aesgcm_encrypt _ _ m := Ok m;
  aesgcm_decrypt _ _ ct := if all_bytes ct then Ok ct else Raise InvalidTag |}.

Lemma ascii_encode_inv s : String.string_of_list_ascii (map (fun b => ascii_of_nat (Z.to_nat b)) (ascii_encode s)) = s.
Proof.
  unfold ascii_encode, char_code. rewrite map_map. induction s as [|a s IH]; [done|]. cbn. rewrite IH.
  by rewrite Nat2Z.id, ascii_nat_embedding.
Qed.

Lemma unseal_seal f g m : bytes_ok m -> unseal g (seal f m) = if f mod 256 =? g mod 256 then Ok m else Raise InvalidToken.
Proof.
  intros Hm. unfold unseal, seal. rewrite ascii_encode_inv, b64_roundtrip.
  2:{ constructor; [apply Z.mod_pos_bound; lia|done]. }
  by rewrite (proj2 (all_bytes_ok m) Hm), andb_true_r.
Qed.

Lemma b64_char_text n : b64_value (b64_char n) <> None \/ b64_char n = "="%char.
Proof.
  destruct (decide (0 <= n < 64)) as [Hn|Hn]; [left; by destruct (b64_char_value n Hn) as [-> _]|].
  destruct (Z.lt_ge_cases n 0) as [H|H].
  - left. unfold b64_char. replace (Z.to_nat n) with 0%nat by lia. discriminate.
  - right. unfold b64_char. assert (E : (64 <= Z.to_nat n)%nat) by lia. revert E. generalize (Z.to_nat n) as k. intros k Hk.
    replace k with (64 + (k - 64))%nat by lia. generalize (k - 64)%nat as j. by intros [|j].
Qed.

Lemma b64_text bs : Forall (fun b => exists a, b = char_code a /\ (b64_value a <> None \/ a = "="%char)) (ascii_encode (urlsafe_b64encode bs)).
Proof.
  unfold ascii_encode. revert bs. fix IH 1. intros [|a [|b [|c bs]]]; cbn [urlsafe_b64encode String.list_ascii_of_string map]; [constructor|..];
    repeat (apply Forall_cons; split; [eexists; split; [reflexivity|apply b64_char_text || by right]|]); [constructor..|apply IH].
Qed.

#[global] Instance transparent_laws : CryptographyLaws transparent.
Proof.
  split.
  - intros digest _ _. by eexists.
  - intros f seed m Hm. cbn [fernet_decrypt fernet_encrypt aesgcm_encrypt aesgcm_decrypt transparent]. rewrite unseal_seal by done. by rewrite Z.eqb_refl.
  - intros f seed m. apply b64_text.
  - intros f g seed m m' Hm. cbn [fernet_decrypt fernet_encrypt aesgcm_encrypt aesgcm_decrypt transparent]. rewrite unseal_seal by done. case_match; congruence.
  - intros f token e. cbn [fernet_decrypt fernet_encrypt aesgcm_encrypt aesgcm_decrypt transparent]. unfold unseal. repeat case_match; congruence.
  - intros f token m. cbn [fernet_decrypt transparent]. unfold unseal. destruct (urlsafe_b64decode _) as [[|h m']|]; try done.
    destruct (h =? f mod 256); [|done]. destruct (all_bytes m') eqn:E; [|done]. intros [= <-]. by apply all_bytes_ok.
  - intros key nonce m Hm _ _. exists m. cbn [fernet_decrypt fernet_encrypt aesgcm_encrypt aesgcm_decrypt transparent]. by rewrite (proj2 (all_bytes_ok m) Hm).
  - intros key nonce ct e. cbn [fernet_decrypt fernet_encrypt aesgcm_encrypt aesgcm_decrypt transparent]. case_match; [done|]. intros [= <-]. by left.
  - intros key nonce ct m. cbn [fernet_decrypt fernet_encrypt aesgcm_encrypt aesgcm_decrypt transparent]. case_match; [|done]. intros [= <-]. by apply all_bytes_ok.
Qed.

(** Version 1, then version 2 beside it. *)
Definition old_cipher : t := mk [(1, 7)] 1 [1].
Definition new_cipher : t := mk [(1, 7); (2, 9)] 2 [2; 1].
Definition secret : list Z := [115; 8364; 233; 128274].
Definition sample_dek : bytes := repeat 5 32.
Definition sample_nonce : bytes := repeat 6 12.

Lemma sample_fresh : fresh sample_dek sample_nonce [].
Proof. split; (split; [apply all_bytes_ok|]; reflexivity). Qed.

Lemma old_created : created old_cipher.
Proof. exists [(1, [7])]. reflexivity. Qed.
Lemma new_created : created new_cipher.
Proof. exists [(1, [7]); (2, [9])]. reflexivity. Qed.

Lemma credential_roundtrip_witness :
  exists token, encrypt old_cipher sample_dek sample_nonce [] secret = Ok token /\ decrypt new_cipher token = Ok secret /\
    key_version_of token = Some 1 /\ needs_rewrap new_cipher token = true.
Proof.
  destruct (credential_roundtrip old_cipher new_cipher sample_dek sample_nonce [] secret) as (token & E & D & V & N).
  - exact old_created.
  - repeat constructor.
  - exact sample_fresh.
  - reflexivity.
  - exists token. split; [exact E|]. split; [exact D|]. split; [exact V|].
    destruct (needs_rewrap new_cipher token); [reflexivity|]. discriminate (proj1 N eq_refl).
Defined.

Definition old_token : string := legacy_token (C := transparent) 7 [] [104; 105].

Lemma rewrap_retires_keys_witness :
  exists token', rewrap new_cipher sample_dek sample_nonce [] old_token = Ok token' /\
    needs_rewrap new_cipher token' = false /\ decrypt (mk [(2, 9)] 2 [2]) token' = Ok [104; 105].
Proof.
  destruct (rewrap_retires_keys new_cipher sample_dek sample_nonce []) as [Hr Hl].
  - exact new_created.
  - exact sample_fresh.
  - destruct (Hr old_token [104; 105]) as (token' & E & N & D).
    + apply (Hl 1 7 [] [104; 105] [104; 105]); [reflexivity|apply all_bytes_ok; reflexivity|reflexivity].
    + exists token'. split; [exact E|]. split; [exact N|]. apply D. reflexivity.
Defined.

Lemma decrypt_error_contract_witness :
  exists msg, decrypt new_cipher "v2:3:x:y:z" = Raise (CredentialDecryptionError msg).
Proof.
  destruct (decrypt_error_contract new_cipher "v2:3:x:y:z" (CredentialDecryptionError "Credential was wrapped with an unconfigured KEK version")) as [msg E].
  - exact new_created.
  - reflexivity.
  - left. reflexivity.
  - exists msg. rewrite <- E. reflexivity.
Defined.

(** The variable for version 1 replaces the base key. *)
Example version_one_replaces_base :
  exists k, _resolve_keks_from_env [(_BASE_KEY_ENV, "base"); ("BROKER_ENCRYPTION_KEY_V1", "other")] = Ok [(1, k)] /\ k = _normalise_kek "other".
Proof. eexists. split; reflexivity. Qed.
End Transparent.
