(* ===== verification/Rewrap.v ===== *)
(** * Re-wrapping stored credentials: [engine/shared/crypto/rewrap_service.py]

    The maintenance job behind a key rotation.  It pages through the credential
    tables in the order of their keys, re-wraps every encrypted column that is not
    under the active key, and writes each changed row in a transaction of its own.
    The queries and the random bytes are commands ([PyAsync]); [RewrapFacts] gives
    them to a database that may refuse any of them.  The cipher is the
    process-wide one.  Log lines are not modelled. *)

From Stdlib Require Import ZArith Lia Bool Ascii String Sorting.Sorted.
From stdpp Require Import base list strings.
From S2P Require Import Prelude PyText PyRepr PyValues PyAsync Codec CredentialCipher.

#[local] Open Scope string_scope.
#[local] Open Scope Z_scope.
#[local] Open Scope list_scope.

(** [_Target]. *)
Record target := mk_target { table : string; id_column : string; encrypted_columns : list string; key_version_column : string }.

Definition _TARGETS : list target :=
  [mk_target "broker_connections" "id" ["mt5_password_encrypted"; "ea_auth_token_encrypted"] "key_version";
   mk_target "llm_connections" "id" ["api_key_encrypted"] "key_version"].

(** The counters of one table, and of the whole run. *)
Record table_stats := mk_table_stats { t_scanned_rows : Z; t_rewrapped_rows : Z; t_rewrapped_columns : Z; t_failed_columns : Z }.

Definition _empty_table_stats : table_stats := mk_table_stats 0 0 0 0.

Record RewrapStats := mk_stats {
  active_version : Z; scanned_rows : Z; rewrapped_columns : Z; rewrapped_rows : Z; failed_columns : Z;
  per_table : list (string * table_stats) }.

(** A row of a query: its key and the columns it selects. *)
Record row := mk_row { row_id : string; cells : list (string * option string) }.

(** [row.get(col)]. *)
Definition row_get (col : string) (r : row) : option string :=
  match List.find (fun '(k, _) => String.eqb k col) (cells r) with Some (_, v) => v | None => None end.

Inductive db_cmd :=
| FetchBatch (t : target) (cursor : option string) (limit : Z)
| UpdateRow (t : target) (id : string) (updates : list (string * string)) (key_version : Z)
| Entropy.

#[global] Instance db_effect : Effect db_cmd := fun c =>
  match c with FetchBatch _ _ _ => list row | UpdateRow _ _ _ _ => unit | Entropy => (bytes * bytes * bytes)%type end.

Module CredentialRewrapService.
Section Service.
Context `{C : Cryptography} (cipher : CredentialCipher.t) (_batch_size : Z).

Notation program := (prog db_cmd).
Notation counters := (RewrapStats * table_stats)%type.

Definition count_failure (st : counters) : counters :=
  let '(s, t) := st in
  (mk_stats (active_version s) (scanned_rows s) (rewrapped_columns s) (rewrapped_rows s) (failed_columns s + 1) (per_table s),
   mk_table_stats (t_scanned_rows t) (t_rewrapped_rows t) (t_rewrapped_columns t) (t_failed_columns t + 1)).

Definition _account_row (st : counters) (columns : Z) : counters :=
  let '(s, t) := st in
  (mk_stats (active_version s) (scanned_rows s) (rewrapped_columns s + columns) (rewrapped_rows s + 1) (failed_columns s) (per_table s),
   mk_table_stats (t_scanned_rows t) (t_rewrapped_rows t + 1) (t_rewrapped_columns t + columns) (t_failed_columns t)).

Definition count_scan (st : counters) : counters :=
  let '(s, t) := st in
  (mk_stats (active_version s) (scanned_rows s + 1) (rewrapped_columns s) (rewrapped_rows s) (failed_columns s) (per_table s),
   mk_table_stats (t_scanned_rows t + 1) (t_rewrapped_rows t) (t_rewrapped_columns t) (t_failed_columns t)).

(** The loop over the columns of a row: the new ciphertexts and the number of
    stale columns so far. *)
Fixpoint process_columns (r : row) (dry_run : bool) (cols : list string) (updates : list (string * string)) (stale_columns : Z)
    (st : counters) : program (list (string * string) * Z * counters) :=
  match cols with
  | [] => mret (updates, stale_columns, st)
  | col :: cols =>
      match row_get col r with
      | None => process_columns r dry_run cols updates stale_columns st
      | Some ciphertext =>
          if str_empty ciphertext || negb (CredentialCipher.needs_rewrap cipher ciphertext)
          then process_columns r dry_run cols updates stale_columns st
          else if dry_run then process_columns r dry_run cols updates (stale_columns + 1) st
          else
            random ← send Entropy;
            let '(dek, nonce, seed) := random in
            match CredentialCipher.rewrap cipher dek nonce seed ciphertext with
            | Ok token => process_columns r dry_run cols (updates ++ [(col, token)]) (stale_columns + 1) st
            | Raise _ => process_columns r dry_run cols updates (stale_columns + 1) (count_failure st)
            end
      end
  end.

Definition _persist_row (t : target) (id : string) (updates : list (string * string)) : program unit :=
  send (UpdateRow t id updates (CredentialCipher._active_version cipher)).

Definition _process_row (t : target) (r : row) (dry_run : bool) (st : counters) : program counters :=
  out ← process_columns r dry_run (encrypted_columns t) [] 0 st;
  let '(updates, stale_columns, st) := out in
  if dry_run then mret (if stale_columns =? 0 then st else _account_row st stale_columns)
  else
    match updates with
    | [] => mret st
    | _ =>
        _ ← _persist_row t (row_id r) updates;
        mret (_account_row st (Z.of_nat (length updates)))
    end.

Fixpoint process_rows (t : target) (dry_run : bool) (rows : list row) (cursor : option string) (st : counters) :
    program (option string * counters) :=
  match rows with
  | [] => mret (cursor, st)
  | r :: rows =>
      st ← _process_row t r dry_run (count_scan st);
      process_rows t dry_run rows (Some (row_id r)) st
  end.

(** [while True], [pages] times at most. *)
Fixpoint run_pages (pages : nat) (t : target) (dry_run : bool) (cursor : option string) (st : counters) : program counters :=
  match pages with
  | O => Spin
  | S pages =>
      rows ← send (FetchBatch t cursor _batch_size);
      match rows with
      | [] => mret st
      | _ =>
          out ← process_rows t dry_run rows cursor st;
          let '(cursor, st) := out in
          if Z.of_nat (length rows) <? _batch_size then mret st else run_pages pages t dry_run cursor st
      end
  end.

Definition _run_target (pages : nat) (t : target) (dry_run : bool) (stats : RewrapStats) : program counters :=
  run_pages pages t dry_run None (stats, _empty_table_stats).

Definition put_table (stats : RewrapStats) (name : string) (ts : table_stats) : RewrapStats :=
  mk_stats (active_version stats) (scanned_rows stats) (rewrapped_columns stats) (rewrapped_rows stats) (failed_columns stats)
    (per_table stats ++ [(name, ts)]).

Fixpoint run_targets (pages : nat) (dry_run : bool) (targets : list target) (stats : RewrapStats) : program RewrapStats :=
  match targets with
  | [] => mret stats
  | t :: targets =>
      out ← _run_target pages t dry_run stats;
      let '(stats, ts) := out in
      run_targets pages dry_run targets (put_table stats (table t) ts)
  end.

Definition run (pages : nat) (dry_run : bool) : program RewrapStats :=
  run_targets pages dry_run _TARGETS (mk_stats (CredentialCipher._active_version cipher) 0 0 0 0 []).
End Service.

(** The constructor. *)
Definition create (batch_size : Z) : res Z :=
  if batch_size <? 1 then Raise (ValueError "batch_size must be >= 1") else Ok batch_size.
End CredentialRewrapService.

(** ** Correctness *)

Module RewrapFacts.
Import CredentialCipher CipherFacts CredentialRewrapService.

(** A stored row: its key, its columns and its [key_version]. *)
Record stored := mk_stored { sid : string; columns : list (string * option string); version : option Z }.

Definition stored_get (col : string) (r : stored) : option string :=
  match List.find (fun '(k, _) => String.eqb k col) (columns r) with Some (_, v) => v | None => None end.

Definition select (t : target) (r : stored) : row := mk_row (sid r) (map (fun col => (col, stored_get col r)) (encrypted_columns t)).

Definition update_get (col : string) (updates : list (string * string)) : option string :=
  snd <$> List.find (fun '(k, _) => String.eqb k col) updates.

Definition write (updates : list (string * string)) (key_version : Z) (r : stored) : stored :=
  mk_stored (sid r)
    (map (fun '(k, v) => (k, match update_get k updates with Some token => Some token | None => v end)) (columns r)) (Some key_version).

Section Facts.
Context `{L : CryptographyLaws} (c : t) (batch : Z).
Context (entropy : nat -> bytes * bytes * bytes).
(** The order the database sorts keys by. *)
Context (before : string -> string -> bool).
Hypothesis before_irrefl : forall x, before x x = false.
Hypothesis before_trans : forall x y z, before x y = true -> before y z = true -> before x z = true.
Hypothesis c_created : created c.
Hypothesis batch_pos : 1 <= batch.
Hypothesis entropy_fresh : forall k, let '(dek, nonce, seed) := entropy k in fresh dek nonce seed.

(** The tables, each in the order of its keys, and what the next statements meet. *)
Record world := mk_world { tables : string -> list stored; draws : nat; faults : list (option exn) }.

Definition set_table (name : string) (rows : list stored) (tabs : string -> list stored) : string -> list stored :=
  fun n => if String.eqb n name then rows else tabs n.

Definition after (cursor : option string) (r : stored) : bool :=
  match cursor with None => true | Some k => before k (sid r) end.

(** A statement that meets a fault has no effect. *)
Definition statement {A} (w : world) (effect : A * (string -> list stored)) : res A * world :=
  match faults w with
  | Some e :: fs => (Raise e, mk_world (tables w) (draws w) fs)
  | fs => (Ok (fst effect), mk_world (snd effect) (draws w) (tail fs))
  end.

Definition serve (cmd : db_cmd) (w : world) : res (reply cmd) * world :=
  match cmd return res (reply cmd) * world with
  | FetchBatch t cursor limit =>
      statement w (map (select t) (take (Z.to_nat limit) (List.filter (after cursor) (tables w (table t)))), tables w)
  | UpdateRow t id updates key_version =>
      statement w (tt, set_table (table t) (map (fun r => if String.eqb (sid r) id then write updates key_version r else r)
                                              (tables w (table t))) (tables w))
  | Entropy => (Ok (entropy (draws w)), mk_world (tables w) (S (draws w)) (faults w))
  end.

Notation run_db := (interp (E := db_cmd) serve).

(** *** What a re-wrap may do *)

(** [token'] holds what [token] held, under the active key alone. *)
Definition rewrapped (token token' : string) : Prop :=
  needs_rewrap c token = true /\ needs_rewrap c token' = false /\
  exists s, decrypt c token = Ok s /\
    forall c', kek_get (_active_version c) (_keks c') = kek_get (_active_version c) (_keks c) -> decrypt c' token' = Ok s.

Definition cell_kept (old new : option string) : Prop :=
  new = old \/ exists token token', old = Some token /\ new = Some token' /\ rewrapped token token'.

Definition row_kept (t : target) (r r' : stored) : Prop :=
  sid r' = sid r /\
  forall col, cell_kept (stored_get col r) (stored_get col r') /\
    (~ In col (encrypted_columns t) -> stored_get col r' = stored_get col r).

(** A stored secret that is due, and one that is due but cannot be read. *)
Definition due_cell (cell : option string) : bool :=
  match cell with Some token => negb (str_empty token) && needs_rewrap c token | None => false end.
Definition unreadable (cell : option string) : bool :=
  match cell with Some token => match decrypt c token with Ok _ => false | Raise _ => true end | None => false end.

Definition due (r : stored) (col : string) : bool := due_cell (stored_get col r).
Definition lost (r : stored) (col : string) : bool := due r col && unreadable (stored_get col r).
Definition readable_due (r : stored) (col : string) : bool := due r col && negb (unreadable (stored_get col r)).

Definition count (p : string -> bool) (cols : list string) : nat := length (List.filter p cols).

(** After the job: what is still due cannot be read. *)
Definition row_done (t : target) (r r' : stored) : Prop :=
  row_kept t r r' /\ forall col, In col (encrypted_columns t) -> due r' col = true -> unreadable (stored_get col r') = true.

Lemma row_kept_refl t r : row_kept t r r.
Proof. split; [done|]. intros col. split; [by left|done]. Qed.

Lemma rewrap_outcome token k : needs_rewrap c token = true ->
  let '(dek, nonce, seed) := entropy k in
  match rewrap c dek nonce seed token with
  | Ok token' => rewrapped token token' /\ (exists s, decrypt c token = Ok s)
  | Raise _ => exists e, decrypt c token = Raise e
  end.
Proof.
  intros Hd. pose proof (entropy_fresh k) as Hf. destruct (entropy k) as [[dek nonce] seed].
  destruct (decrypt c token) as [s|e] eqn:E.
  - destruct (rewrap_keeps c dek nonce seed token s c_created Hf E) as (token' & -> & Hn & Hc). split; [|by exists s].
    split; [done|]. split; [done|]. by exists s.
  - unfold rewrap. rewrite E. by exists e.
Qed.

(** *** One row *)

Lemma find_map_key {A} (f : string -> A) col cols : In col cols ->
  List.find (fun '(k, _) => String.eqb k col) (map (fun k => (k, f k)) cols) = Some (col, f col).
Proof.
  induction cols as [|k cols IH]; [done|]. cbn. intros [->|H]; [by rewrite String.eqb_refl|].
  destruct (String.eqb_spec k col) as [->|]; [done|by apply IH].
Qed.

Lemma row_get_select t r col : In col (encrypted_columns t) -> row_get col (select t r) = stored_get col r.
Proof. intros H. unfold row_get, select. cbn [cells]. by rewrite find_map_key. Qed.

Definition failed (n : nat) (st : RewrapStats * table_stats) := Nat.iter n count_failure st.

Lemma columns_dry t r cols : (forall col, In col cols -> In col (encrypted_columns t)) -> forall ups n st w,
  run_db (process_columns c (select t r) true cols ups n st) w = (Some (Ok (ups, n + Z.of_nat (count (due r) cols), st)), w).
Proof.
  induction cols as [|col cols IH]; intros Hin ups n st w; cbn [process_columns].
  { unfold count. cbn. by rewrite Z.add_0_r. }
  rewrite row_get_select by (apply Hin; by left). assert (Hin' : forall x, In x cols -> In x (encrypted_columns t)) by (intros; apply Hin; by right).
  assert (Hc : count (due r) (col :: cols) = ((if due r col then 1 else 0) + count (due r) cols)%nat) by (unfold count; cbn; by destruct (due r col)).
  rewrite Hc. unfold due at 1, due_cell. destruct (stored_get col r) as [token|]; [|by apply IH].
  destruct (str_empty token); cbn [negb andb orb]; [by apply IH|].
  destruct (needs_rewrap c token); cbn [negb]; rewrite IH by done; [|done]. by rewrite Nat2Z.inj_add, Z.add_assoc.
Qed.

Lemma columns_live t r cols : (forall col, In col cols -> In col (encrypted_columns t)) -> forall ups n st w,
  exists ups' w', run_db (process_columns c (select t r) false cols ups n st) w =
      (Some (Ok (ups ++ ups', n + Z.of_nat (count (due r) cols), failed (count (lost r) cols) st)), w') /\
    tables w' = tables w /\ faults w' = faults w /\ map fst ups' = List.filter (readable_due r) cols /\
    Forall (fun '(col, token') => exists token, stored_get col r = Some token /\ rewrapped token token') ups'.
Proof.
  induction cols as [|col cols IH]; intros Hin ups n st w; cbn [process_columns].
  { exists [], w. unfold count. cbn. rewrite Z.add_0_r, app_nil_r. repeat split; constructor. }
  rewrite row_get_select by (apply Hin; by left). assert (Hin' : forall x, In x cols -> In x (encrypted_columns t)) by (intros; apply Hin; by right).
  specialize (IH Hin').
  assert (Hskip : due r col = false -> exists ups' w', run_db (process_columns c (select t r) false cols ups n st) w =
      (Some (Ok (ups ++ ups', n + Z.of_nat (count (due r) (col :: cols)), failed (count (lost r) (col :: cols)) st)), w') /\
    tables w' = tables w /\ faults w' = faults w /\ map fst ups' = List.filter (readable_due r) (col :: cols) /\
    Forall (fun '(col, token') => exists token, stored_get col r = Some token /\ rewrapped token token') ups').
  { intros Hd. unfold count. cbn [List.filter]. unfold lost at 1, readable_due at 1. rewrite Hd. apply IH. }
  unfold due at 1, due_cell in Hskip. destruct (stored_get col r) as [token|] eqn:Et; [|by apply Hskip].
  destruct (str_empty token) eqn:Ee; cbn [negb andb orb] in *; [by apply Hskip|].
  destruct (needs_rewrap c token) eqn:En; cbn [negb]; [|by apply Hskip]. clear Hskip.
  assert (Hd : due r col = true) by (unfold due, due_cell; by rewrite Et, Ee, En).
  rewrite interp_bind. cbn [send interp serve]. pose proof (rewrap_outcome token (draws w) En) as Ho.
  destruct (entropy (draws w)) as [[dek nonce] seed]. set (w1 := mk_world _ _ _).
  unfold count. cbn [List.filter]. unfold lost at 1, readable_due at 1. rewrite Hd, Et. cbn [andb].
  destruct (rewrap c dek nonce seed token) as [token'|e].
  - destruct Ho as [Hr (s & Es)]. unfold unreadable. rewrite Es. cbn [negb].
    destruct (IH (ups ++ [(col, token')]) (n + 1) st w1) as (ups' & w' & E & Ht & Hf & Hm & Ha). exists ((col, token') :: ups'), w'.
    rewrite E. split; [|split; [done|split; [done|split; [cbn; by rewrite Hm|by constructor; [exists token|]]]]].
    rewrite <- app_assoc. unfold count. cbn [app length]. by rewrite Nat2Z.inj_succ, <- Z.add_1_l, Z.add_assoc.
  - destruct Ho as [e' Es]. unfold unreadable. rewrite Es. cbn [negb].
    destruct (IH ups (n + 1) (count_failure st) w1) as (ups' & w' & E & Ht & Hf & Hm & Ha). exists ups', w'.
    rewrite E. split; [|done]. unfold count, failed. cbn [length]. rewrite Nat.iter_swap. by rewrite Nat2Z.inj_succ, <- Z.add_1_l, Z.add_assoc.
Qed.

Lemma stored_get_write col ups v r :
  (update_get col ups <> None -> stored_get col r <> None) ->
  stored_get col (write ups v r) = match update_get col ups with Some token => Some token | None => stored_get col r end.
Proof.
  unfold stored_get, write. cbn [columns]. intros H.
  assert (E : List.find (fun '(k, _) => String.eqb k col) (map (fun '(k, v) => (k, match update_get k ups with Some token => Some token | None => v end)) (columns r)) =
    (fun '(k, v) => (k, match update_get col ups with Some token => Some token | None => v end)) <$> List.find (fun '(k, _) => String.eqb k col) (columns r)).
  { clear H. induction (columns r) as [|[k x] cs IH]; [done|]. cbn. destruct (String.eqb_spec k col) as [->|]; [done|exact IH]. }
  rewrite E. destruct (List.find _ (columns r)) as [[k x]|]; cbn; [done|]. destruct (update_get col ups); [|done]. by destruct H.
Qed.

Lemma update_get_Some col ups token : update_get col ups = Some token -> In (col, token) ups.
Proof.
  unfold update_get. induction ups as [|[k x] ups IH]; [done|]. cbn. destruct (String.eqb_spec k col) as [->|]; [|by auto].
  intros [= ->]. by left.
Qed.

Lemma update_get_None col ups : update_get col ups = None -> ~ In col (map fst ups).
Proof.
  unfold update_get. induction ups as [|[k x] ups IH]; [by auto|]. cbn. destruct (String.eqb_spec k col); [done|]. intros E [H|H]; [done|by apply IH].
Qed.

(** The new row. *)
Lemma write_done t r ups v :
  map fst ups = List.filter (readable_due r) (encrypted_columns t) ->
  Forall (fun '(col, token') => exists token, stored_get col r = Some token /\ rewrapped token token') ups ->
  row_done t r (write ups v r).
Proof.
  intros Hm Ha. assert (Hu : forall col token', update_get col ups = Some token' ->
    In col (encrypted_columns t) /\ exists token, stored_get col r = Some token /\ rewrapped token token').
  { intros col token' E. apply update_get_Some in E. split.
    - assert (Hi : In col (map fst ups)) by (apply in_map_iff; by exists (col, token')). rewrite Hm in Hi. by apply filter_In in Hi as [? _].
    - rewrite Forall_forall in Ha. by apply (Ha (col, token')), list_elem_of_In. }
  assert (Hg : forall col, stored_get col (write ups v r) = match update_get col ups with Some token => Some token | None => stored_get col r end).
  { intros col. apply stored_get_write. destruct (update_get col ups) as [token'|] eqn:E; [|done]. intros _. destruct (Hu col token' E) as (_ & token & -> & _). done. }
  split; [split; [done|]|].
  - intros col. rewrite Hg. destruct (update_get col ups) as [token'|] eqn:E; [|split; [by left|done]].
    destruct (Hu col token' E) as (Hi & token & Et & Hr). split; [right; by exists token, token'|done].
  - intros col Hi. unfold due. rewrite Hg. destruct (update_get col ups) as [token'|] eqn:E.
    + destruct (Hu col token' E) as (_ & token & _ & _ & Hn & _). cbn. by rewrite Hn, andb_false_r.
    + intros Hd. destruct (unreadable (stored_get col r)) eqn:Hun; [done|]. exfalso. apply update_get_None in E. apply E.
      rewrite Hm. apply filter_In. split; [done|]. unfold readable_due, due. by rewrite Hd, Hun.
Qed.

(** Nothing to write. *)
Lemma unwritten_done t r : List.filter (readable_due r) (encrypted_columns t) = [] -> row_done t r r.
Proof.
  intros H. split; [apply row_kept_refl|]. intros col Hi Hd. destruct (unreadable (stored_get col r)) eqn:Hun; [done|].
  assert (Hin : In col (List.filter (readable_due r) (encrypted_columns t))) by (apply filter_In; split; [done|]; unfold readable_due; by rewrite Hd, Hun).
  by rewrite H in Hin.
Qed.

(** The counters after row [r] of a live run, and of a dry run. *)
Definition account_live (t : target) (st : RewrapStats * table_stats) (r : stored) : RewrapStats * table_stats :=
  let st := failed (count (lost r) (encrypted_columns t)) (count_scan st) in
  match count (readable_due r) (encrypted_columns t) with O => st | n => _account_row st (Z.of_nat n) end.

Definition account_dry (t : target) (st : RewrapStats * table_stats) (r : stored) : RewrapStats * table_stats :=
  match count (due r) (encrypted_columns t) with O => count_scan st | n => _account_row (count_scan st) (Z.of_nat n) end.

Definition ids (rows : list stored) : list string := map sid rows.

Lemma rewrite_one ups v pre r post : NoDup (ids (pre ++ r :: post)) ->
  map (fun x => if String.eqb (sid x) (sid r) then write ups v x else x) (pre ++ r :: post) = pre ++ write ups v r :: post.
Proof.
  assert (Hid : forall l, sid r ∉ ids l -> map (fun x => if String.eqb (sid x) (sid r) then write ups v x else x) l = l).
  { induction l as [|x l IH]; [done|]. cbn. intros H. apply not_elem_of_cons in H as [Hx H]. rewrite IH by done.
    destruct (String.eqb_spec (sid x) (sid r)); congruence. }
  unfold ids. rewrite map_app. cbn. intros H. apply NoDup_app in H as (_ & Hd & H). apply NoDup_cons in H as [Hn _].
  rewrite map_app. cbn. rewrite String.eqb_refl, (Hid post) by done. rewrite (Hid pre); [done|].
  intros Hp. apply (Hd _ Hp). by left.
Qed.

Lemma process_row_live t r st w pre post : tables w (table t) = pre ++ r :: post -> NoDup (ids (pre ++ r :: post)) ->
  exists o w', run_db (_process_row c t (select t r) false (count_scan st)) w = (Some o, w') /\
    match o with
    | Ok st' => st' = account_live t st r /\ exists r', row_done t r r' /\
        forall n, tables w' n = if String.eqb n (table t) then pre ++ r' :: post else tables w n
    | Raise _ => faults w <> [] /\ tables w' = tables w
    end /\ (faults w = [] -> faults w' = []).
Proof.
  intros Ht Hnd. unfold _process_row. rewrite interp_bind.
  destruct (columns_live t r (encrypted_columns t) (fun _ H => H) [] 0 (count_scan st) w) as (ups & w1 & E & Htab & Hf & Hm & Ha).
  rewrite E. cbn [app]. unfold account_live, count in *. rewrite <- Hm, length_map. destruct ups as [|u ups].
  - eexists _, _. split; [reflexivity|]. split; [|by rewrite Hf]. split; [done|]. exists r. split; [by apply unwritten_done|].
    intros n. rewrite Htab. by destruct (String.eqb_spec n (table t)) as [->|].
  - rewrite interp_bind. cbn [_persist_row send interp serve]. unfold statement. rewrite Hf. destruct (faults w) as [|[e|] fs].
    + eexists _, _. split; [reflexivity|]. split; [|done]. split; [done|]. eexists. split; [by apply (write_done t r (u :: ups))|].
      intros n. cbn [tables snd]. unfold set_table. rewrite Htab, Ht. cbn [row_id select]. rewrite rewrite_one by done. done.
    + eexists _, _. split; [reflexivity|]. split; [|done]. by split.
    + eexists _, _. split; [reflexivity|]. split; [|done]. split; [done|]. eexists. split; [by apply (write_done t r (u :: ups))|].
      intros n. cbn [tables snd]. unfold set_table. rewrite Htab, Ht. cbn [row_id select]. rewrite rewrite_one by done. done.
Qed.

Lemma process_row_dry t r st w :
  run_db (_process_row c t (select t r) true (count_scan st)) w = (Some (Ok (account_dry t st r)), w).
Proof.
  unfold _process_row. rewrite interp_bind, columns_dry by done. cbn [interp mret prog_ret]. unfold account_dry, count.
  by destruct (length _).
Qed.

(** *** One page *)

Lemma row_done_id t r r' : row_done t r r' -> sid r' = sid r.
Proof. by intros [[H _] _]. Qed.

Lemma ids_kept {P : stored -> stored -> Prop} rows rows' : (forall r r', P r r' -> sid r' = sid r) -> Forall2 P rows rows' -> ids rows' = ids rows.
Proof. intros H. unfold ids. induction 1 as [|r r' rows rows' Hr _ IH]; [done|]. cbn. by rewrite IH, (H r r'). Qed.

Lemma done_kept t rows rows' : Forall2 (row_done t) rows rows' -> Forall2 (row_kept t) rows rows'.
Proof. intros H. eapply Forall2_impl; [exact H|]. by intros r r' [Hr _]. Qed.

Lemma kept_refl t rows : Forall2 (row_kept t) rows rows.
Proof. induction rows; constructor; [apply row_kept_refl|done]. Qed.

Definition cursor_of (rows : list stored) (cur : option string) : option string :=
  match last rows with Some r => Some (sid r) | None => cur end.

Lemma last_cursor r page cur : cursor_of (r :: page) cur = cursor_of page (Some (sid r)).
Proof.
  unfold cursor_of. rewrite last_cons. by destruct (last page).
Qed.

Lemma rows_live t page : forall cur st w pre post,
  tables w (table t) = pre ++ page ++ post -> NoDup (ids (pre ++ page ++ post)) ->
  exists o w', run_db (process_rows c t false (map (select t) page) cur st) w = (Some o, w') /\
    match o with
    | Ok (cur', st') => st' = fold_left (account_live t) page st /\
        cur' = cursor_of page cur /\
        exists page', Forall2 (row_done t) page page' /\ forall n, tables w' n = if String.eqb n (table t) then pre ++ page' ++ post else tables w n
    | Raise _ => faults w <> [] /\
        exists page', Forall2 (row_kept t) page page' /\ forall n, tables w' n = if String.eqb n (table t) then pre ++ page' ++ post else tables w n
    end /\ (faults w = [] -> faults w' = []).
Proof.
  induction page as [|r page IH]; intros cur st w pre post Ht Hnd; cbn [map process_rows].
  { eexists _, _. split; [reflexivity|]. split; [|done]. repeat split. exists []. split; [constructor|].
    intros n. by destruct (String.eqb_spec n (table t)) as [->|]. }
  rewrite interp_bind. destruct (process_row_live t r st w pre (page ++ post)) as (o & w1 & E & Ho & Hf); [done|done|]. rewrite E.
  destruct o as [st1|e].
  2:{ destruct Ho as [Hne Htab]. eexists _, _. split; [reflexivity|]. split; [|done]. split; [done|]. exists (r :: page).
      split; [apply kept_refl|]. intros n. rewrite Htab. by destruct (String.eqb_spec n (table t)) as [->|]. }
  destruct Ho as [-> (r' & Hr & Htab)].
  assert (Hnd' : NoDup (ids ((pre ++ [r']) ++ page ++ post))).
  { unfold ids in *. rewrite !map_app in *. cbn in *. rewrite (row_done_id t r r' Hr). rewrite <- app_assoc. exact Hnd. }
  assert (Ht1 : tables w1 (table t) = (pre ++ [r']) ++ page ++ post) by (rewrite Htab, String.eqb_refl, <- app_assoc; done).
  destruct (IH (Some (sid r)) (account_live t st r) w1 (pre ++ [r']) post Ht1 Hnd') as (o & w2 & E2 & Ho & Hf2).
  change (row_id (select t r)) with (sid r). rewrite E2.
  assert (Hne : faults w1 <> [] -> faults w <> []) by (intros H1 H0; by apply H1, Hf).
  exists o, w2. split; [reflexivity|]. split; [|by auto]. destruct o as [[cur' st']|e].
  - destruct Ho as (-> & -> & page' & Hp & Htab2). split; [done|]. split; [by rewrite last_cursor|].
    exists (r' :: page'). split; [by constructor|]. intros n. rewrite Htab2, Htab. destruct (String.eqb n (table t)); [by rewrite <- app_assoc|done].
  - destruct Ho as (Hne1 & page' & Hp & Htab2). split; [by auto|]. exists (r' :: page'). split; [constructor; [apply Hr|done]|].
    intros n. rewrite Htab2, Htab. destruct (String.eqb n (table t)); [by rewrite <- app_assoc|done].
Qed.

Lemma rows_dry t page : forall cur st w,
  run_db (process_rows c t true (map (select t) page) cur st) w =
    (Some (Ok (cursor_of page cur, fold_left (account_dry t) page st)), w).
Proof.
  induction page as [|r page IH]; intros cur st w; cbn [map process_rows]; [done|]. rewrite interp_bind, process_row_dry.
  change (row_id (select t r)) with (sid r). rewrite IH. by rewrite last_cursor.
Qed.

(** *** One table *)

Definition ordered (rows : list stored) : Prop := StronglySorted (fun a b => before (sid a) (sid b) = true) rows.

Lemma ordered_ids rows rows' : ids rows = ids rows' -> ordered rows -> ordered rows'.
Proof.
  unfold ordered, ids. revert rows'. induction rows as [|r rows IH]; intros [|r' rows'] E Ho; try done.
  cbn in E. injection E as E1 E2. inversion Ho as [|? ? Hs Hf]; subst. constructor; [by apply IH|].
  rewrite <- E1. assert (Hm : Forall (fun k => before (sid r) k = true) (map sid rows)) by (by apply Forall_map).
  rewrite E2 in Hm. by apply Forall_map in Hm.
Qed.

Lemma ordered_nodup rows : ordered rows -> NoDup (ids rows).
Proof.
  unfold ordered, ids. induction 1 as [|r rows _ IH Hf]; cbn; [constructor|]. constructor; [|done]. intros Hin.
  apply list_elem_of_fmap in Hin as (x & E & Hx). rewrite Forall_forall in Hf. specialize (Hf x Hx). by rewrite E, before_irrefl in Hf.
Qed.

(** The rows after the last one of [pre]. *)
Lemma filter_after pre todo : ordered (pre ++ todo) -> List.filter (after (cursor_of pre None)) (pre ++ todo) = todo.
Proof.
  intros Ho. destruct (last pre) as [l|] eqn:El; unfold cursor_of; rewrite El.
  2:{ apply last_None in El as ->. cbn. clear. induction todo as [|x todo IH]; [done|]. cbn. by rewrite IH. }
  apply last_Some in El as [pre' ->]. unfold ordered in Ho. rewrite List.filter_app.
  assert (Hsplit : Forall (fun x => after (Some (sid l)) x = false) (pre' ++ [l]) /\ Forall (fun x => after (Some (sid l)) x = true) todo).
  { cbn [after]. induction pre' as [|x pre' IH].
    - cbn in Ho. inversion Ho as [|? ? _ Hf]; subst. split; [by repeat constructor|done].
    - cbn in Ho. inversion Ho as [|? ? Hs Hf]; subst. destruct (IH Hs) as [H1 H2]. split; [|done]. constructor; [|done].
      rewrite !Forall_app in Hf. destruct Hf as [[_ Hl] _]. inversion Hl as [|? ? Hxl _]; subst.
      destruct (before (sid l) (sid x)) eqn:E; [|done]. pose proof (before_trans _ _ _ Hxl E) as Hc. by rewrite before_irrefl in Hc. }
  destruct Hsplit as [H1 H2]. 
  assert (En : List.filter (after (Some (sid l))) (pre' ++ [l]) = []) by (clear -H1; induction H1 as [|x xs Hx _ IH]; [done|]; cbn [List.filter]; by rewrite Hx).
  rewrite En. cbn [app]. clear H1 Ho En. induction H2 as [|x todo Hx _ IH]; [done|]. cbn [List.filter]. by rewrite Hx, IH.
Qed.

Definition table_after (t : target) (w w' : world) (rows : list stored) : Prop :=
  forall n, tables w' n = if String.eqb n (table t) then rows else tables w n.

(** How the rest of a table is left. *)
Definition table_left (t : target) (pre todo : list stored) (st : RewrapStats * table_stats) (w : world)
    (o : res (RewrapStats * table_stats)) (w' : world) : Prop :=
  match o with
  | Ok st' => st' = fold_left (account_live t) todo st /\ exists todo', Forall2 (row_done t) todo todo' /\ table_after t w w' (pre ++ todo')
  | Raise _ => faults w <> [] /\ exists todo', Forall2 (row_kept t) todo todo' /\ table_after t w w' (pre ++ todo')
  end /\ (faults w = [] -> faults w' = []).

(** A page done, then the rest. *)
Lemma table_left_step t pre page rest st w w1 o w2 page' :
  tables w1 (table t) = pre ++ page' ++ rest -> table_after t w w1 (pre ++ page' ++ rest) -> Forall2 (row_done t) page page' ->
  (faults w = [] -> faults w1 = []) ->
  table_left t (pre ++ page') rest (fold_left (account_live t) page st) w1 o w2 -> table_left t pre (page ++ rest) st w o w2.
Proof.
  intros Ht Ha Hp Hf [Ho Hf2]. split; [|by auto].
  assert (Hta : forall rows, table_after t w1 w2 rows -> table_after t w w2 rows).
  { intros rows H n. rewrite H. destruct (String.eqb_spec n (table t)) as [|Hne]; [done|]. rewrite Ha. by apply String.eqb_neq in Hne as ->. }
  destruct o as [st'|e].
  - destruct Ho as (-> & rest' & Hr & Hw). rewrite fold_left_app. split; [done|]. exists (page' ++ rest'). split; [by apply Forall2_app|].
    rewrite app_assoc. by apply Hta.
  - destruct Ho as (Hne & rest' & Hr & Hw). split; [by auto|]. exists (page' ++ rest'). split; [by apply Forall2_app; [apply done_kept|]|].
    rewrite app_assoc. by apply Hta.
Qed.

Lemma cursor_done t pre page page' : Forall2 (row_done t) page page' -> cursor_of page (cursor_of pre None) = cursor_of (pre ++ page') None.
Proof.
  intros H. unfold cursor_of. rewrite last_app. destruct (last page) as [l|] eqn:El.
  - apply last_Some in El as [p ->]. apply Forall2_app_inv_l in H as (p' & q' & _ & Hq & ->). inversion Hq as [|? l' ? ? Hl Hn]; subst.
    inversion Hn; subst. rewrite last_snoc. by rewrite (row_done_id t l l' Hl).
  - apply last_None in El as ->. inversion H; subst. done.
Qed.

(** A page, if the rest of the table is handled. *)
Lemma page_live t k pre page rest st w :
  tables w (table t) = pre ++ page ++ rest -> ordered (pre ++ page ++ rest) ->
  (Z.of_nat (length page) < batch -> rest = []) ->
  (forall pre' st' w', tables w' (table t) = pre' ++ rest -> ordered (pre' ++ rest) ->
     exists o w'', run_db (run_pages c batch k t false (cursor_of pre' None) st') w' = (Some o, w'') /\ table_left t pre' rest st' w' o w'') ->
  exists o w', run_db (out ← process_rows c t false (map (select t) page) (cursor_of pre None) st;
      let '(cursor, st) := out in
      if Z.of_nat (length (map (select t) page)) <? batch then mret st else run_pages c batch k t false cursor st) w = (Some o, w') /\
    table_left t pre (page ++ rest) st w o w'.
Proof.
  intros Ht Ho Hrest Hgo. rewrite interp_bind.
  destruct (rows_live t page (cursor_of pre None) st w pre rest Ht (ordered_nodup _ Ho)) as (o & w1 & E & H & Hf). rewrite E. rewrite length_map.
  destruct o as [[cur st1]|e].
  2:{ destruct H as (Hne & page' & Hp & Hw). eexists _, _. split; [reflexivity|]. split; [|done]. split; [done|]. exists (page' ++ rest).
      split; [apply Forall2_app; [done|apply kept_refl]|]. exact Hw. }
  destruct H as (-> & -> & page' & Hp & Hw). assert (Ht1 : tables w1 (table t) = pre ++ page' ++ rest) by (by rewrite Hw, String.eqb_refl).
  destruct (Z.ltb_spec (Z.of_nat (length page)) batch) as [Hlt|Hge].
  - rewrite (Hrest Hlt) in *. eexists _, _. split; [reflexivity|]. eapply table_left_step; [exact Ht1|exact Hw|exact Hp|exact Hf|].
    split; [|done]. split; [done|]. exists []. split; [constructor|]. intros n. rewrite <- app_assoc. destruct (String.eqb_spec n (table t)) as [->|]; [by rewrite Ht1|done].
  - rewrite (cursor_done t pre page page' Hp). destruct (Hgo (pre ++ page') (fold_left (account_live t) page st) w1) as (o & w2 & E2 & Hl).
    + by rewrite <- app_assoc.
    + rewrite <- app_assoc. eapply ordered_ids; [|exact Ho]. unfold ids. rewrite !map_app. do 2 f_equal. symmetry.
      exact (ids_kept _ _ (row_done_id t) Hp).
    + exists o, w2. split; [exact E2|]. eapply table_left_step; [exact Ht1|exact Hw|exact Hp|exact Hf|exact Hl].
Qed.

Lemma pages_live t k : forall pre todo st w, (length todo < k)%nat ->
  tables w (table t) = pre ++ todo -> ordered (pre ++ todo) ->
  exists o w', run_db (run_pages c batch k t false (cursor_of pre None) st) w = (Some o, w') /\ table_left t pre todo st w o w'.
Proof.
  induction k as [|k IH]; intros pre todo st w Hk Ht Ho; [lia|]. cbn [run_pages]. rewrite interp_bind. cbn [send interp serve].
  rewrite Ht, filter_after by done. unfold statement. cbn [fst snd].
  assert (Hgo : forall w1, tables w1 = tables w -> (faults w1 <> [] -> faults w <> []) -> (faults w = [] -> faults w1 = []) ->
    exists o w', run_db match map (select t) (take (Z.to_nat batch) todo) with
      | [] => mret st
      | _ => out ← process_rows c t false (map (select t) (take (Z.to_nat batch) todo)) (cursor_of pre None) st;
             let '(cursor, st) := out in
             if Z.of_nat (length (map (select t) (take (Z.to_nat batch) todo))) <? batch then mret st else run_pages c batch k t false cursor st
      end w1 = (Some o, w') /\ table_left t pre todo st w o w').
  { intros w1 Et Hne Hf. destruct (decide (todo = [])) as [->|Hnn].
    - rewrite take_nil. eexists _, _. split; [reflexivity|]. split; [|done]. split; [done|]. exists []. split; [constructor|].
      intros n. rewrite Et. by destruct (String.eqb_spec n (table t)) as [->|].
    - destruct (page_live t k pre (take (Z.to_nat batch) todo) (drop (Z.to_nat batch) todo) st w1) as (o & w' & E & Hl).
      + by rewrite take_drop, Et.
      + by rewrite take_drop.
      + rewrite length_take. intros Hlt. apply nil_length_inv. rewrite length_drop. lia.
      + intros pre' st' w'' Ht' Ho'. apply IH; [|done|done]. rewrite length_drop. destruct todo; [done|]. cbn in *. lia.
      + exists o, w'. split; [|rewrite take_drop in Hl; destruct Hl as [Hl Hf']; split; [|by auto]].
        * rewrite <- E. destruct (map (select t) (take (Z.to_nat batch) todo)) eqn:Em; [|done]. exfalso.
          destruct (Z.to_nat batch) eqn:Eb; [lia|]. by destruct todo.
        * assert (Hta : forall rows, table_after t w1 w' rows -> table_after t w w' rows) by (intros rows H n; rewrite H, Et; done).
          destruct o; [destruct Hl as (-> & l & Hl1 & Hl2); split; [done|]; exists l; auto|destruct Hl as (Hn & l & Hl1 & Hl2); split; [by auto|]; exists l; auto]. }
  destruct (faults w) as [|[e|] fs] eqn:Ef.
  - apply Hgo; [done|done|done].
  - eexists _, _. split; [reflexivity|]. unfold table_left. rewrite Ef. split; [|done]. split; [done|]. exists todo. split; [apply kept_refl|].
    intros n. by destruct (String.eqb_spec n (table t)) as [->|].
  - apply Hgo; [done|congruence|congruence].
Qed.

Lemma pages_dry t k : forall pre todo st w, (length todo < k)%nat -> faults w = [] ->
  tables w (table t) = pre ++ todo -> ordered (pre ++ todo) ->
  exists w', run_db (run_pages c batch k t true (cursor_of pre None) st) w = (Some (Ok (fold_left (account_dry t) todo st)), w') /\
    tables w' = tables w /\ faults w' = [].
Proof.
  induction k as [|k IH]; intros pre todo st w Hk Hf Ht Ho; [lia|]. cbn [run_pages]. rewrite interp_bind. cbn [send interp serve].
  rewrite Ht, filter_after by done. unfold statement. rewrite Hf. cbn [fst snd tail].
  destruct (decide (todo = [])) as [->|Hnn]; [rewrite take_nil; eexists; by split|].
  set (page := take (Z.to_nat batch) todo). assert (Ept : page ++ drop (Z.to_nat batch) todo = todo) by apply take_drop.
  destruct (map (select t) page) as [|x xs] eqn:Em. { unfold page in Em. destruct (Z.to_nat batch) eqn:Eb; [lia|]. by destruct todo. }
  rewrite <- Em, interp_bind, rows_dry, length_map.
  assert (Ec : cursor_of page (cursor_of pre None) = cursor_of (pre ++ page) None) by (unfold cursor_of; rewrite last_app; by destruct (last page)).
  rewrite Ec. destruct (Z.ltb_spec (Z.of_nat (length page)) batch) as [Hlt|Hge].
  - assert (page = todo) as -> by (unfold page in *; rewrite length_take in Hlt; apply take_ge; lia). eexists. by split.
  - destruct (IH (pre ++ page) (drop (Z.to_nat batch) todo) (fold_left (account_dry t) page st) (mk_world (tables w) (draws w) [])) as (w' & E & Ht' & Hf').
    + rewrite length_drop. destruct todo; [done|]. cbn in *. lia.
    + done.
    + cbn. by rewrite <- app_assoc, Ept.
    + by rewrite <- app_assoc, Ept.
    + exists w'. rewrite E. rewrite <- fold_left_app, Ept. done.
Qed.

(** *** The counters *)

Definition total (f : stored -> nat) (rows : list stored) : Z := foldr (fun r n => Z.of_nat (f r) + n) 0 rows.
Lemma total_cons f r rows : total f (r :: rows) = Z.of_nat (f r) + total f rows.
Proof. done. Qed.

Definition some_of (f : stored -> nat) (r : stored) : nat := match f r with O => 0%nat | _ => 1%nat end.

Definition of_columns (p : stored -> string -> bool) (t : target) (r : stored) : nat := count (p r) (encrypted_columns t).

(** [stats'] is [stats] after rows with these numbers of re-wrapped and failed columns. *)
Definition tallied (fixed bad : stored -> nat) (rows : list stored) (s s' : RewrapStats) : Prop :=
  scanned_rows s' = scanned_rows s + total (fun _ => 1%nat) rows /\ rewrapped_columns s' = rewrapped_columns s + total fixed rows /\
  rewrapped_rows s' = rewrapped_rows s + total (some_of fixed) rows /\ failed_columns s' = failed_columns s + total bad rows /\
  active_version s' = active_version s.

Lemma failed_fst n st : fst (failed n st) = mk_stats (active_version (fst st)) (scanned_rows (fst st)) (rewrapped_columns (fst st))
  (rewrapped_rows (fst st)) (failed_columns (fst st) + Z.of_nat n) (per_table (fst st)).
Proof.
  induction n as [|n IH]; [cbn; rewrite Z.add_0_r; by destruct st as [[] ?]|]. change (failed (S n) st) with (count_failure (failed n st)).
  destruct (failed n st) as [s' t']. cbn [fst] in IH. subst s'. rewrite Nat2Z.inj_succ. cbn. f_equal. lia.
Qed.

Lemma live_tallied t rows st :
  tallied (of_columns readable_due t) (of_columns lost t) rows (fst st) (fst (fold_left (account_live t) rows st)).
Proof.
  revert st. induction rows as [|r rows IH]; intros st; [repeat split; cbn; lia|]. cbn [fold_left].
  destruct (IH (account_live t st r)) as (H1 & H2 & H3 & H4 & H5). unfold tallied. rewrite H1, H2, H3, H4, H5. clear.
  unfold account_live. rewrite !total_cons. cbn [length]. fold (of_columns readable_due t r) (of_columns lost t r). unfold some_of at 2.
  pose proof (failed_fst (of_columns lost t r) (count_scan st)) as Hf. destruct (failed _ _) as [s' ts']. cbn [fst] in Hf. subst s'.
  destruct st as [s0 t0]. destruct (of_columns readable_due t r) as [|m]; cbn -[Z.of_nat Z.add total]; repeat split; lia.
Qed.

Lemma dry_tallied t rows st :
  tallied (of_columns due t) (fun _ => 0%nat) rows (fst st) (fst (fold_left (account_dry t) rows st)).
Proof.
  revert st. induction rows as [|r rows IH]; intros st; [repeat split; cbn; lia|]. cbn [fold_left].
  destruct (IH (account_dry t st r)) as (H1 & H2 & H3 & H4 & H5). unfold tallied. rewrite H1, H2, H3, H4, H5. clear.
  unfold account_dry. rewrite !total_cons. cbn [length]. fold (of_columns due t r). unfold some_of at 2.
  destruct st as [s0 t0]. destruct (of_columns due t r) as [|m]; cbn -[Z.of_nat Z.add total]; repeat split; lia.
Qed.

(** *** The whole run *)

(** A sum over the rows of all tables. *)
Definition over (w : world) (ts : list target) (f : target -> stored -> nat) : Z :=
  foldr (fun t n => total (f t) (tables w (table t)) + n) 0 ts.

Definition tallied_all (fixed bad : target -> stored -> nat) (w : world) (ts : list target) (s s' : RewrapStats) : Prop :=
  scanned_rows s' = scanned_rows s + over w ts (fun _ _ => 1%nat) /\ rewrapped_columns s' = rewrapped_columns s + over w ts fixed /\
  rewrapped_rows s' = rewrapped_rows s + over w ts (fun t => some_of (fixed t)) /\ failed_columns s' = failed_columns s + over w ts bad /\
  active_version s' = active_version s.

Lemma over_same w w' ts f : (forall t, In t ts -> tables w' (table t) = tables w (table t)) -> over w' ts f = over w ts f.
Proof.
  intros H. unfold over. induction ts as [|t ts IH]; [done|]. cbn [foldr]. rewrite (H t) by (by left). rewrite IH; [done|]. intros; apply H; by right.
Qed.

Lemma tallied_step fixed bad w w1 t ts s s1 s2 name ts1 :
  tallied (fixed t) (bad t) (tables w (table t)) s s1 -> (forall t', In t' ts -> tables w1 (table t') = tables w (table t')) ->
  tallied_all fixed bad w1 ts (put_table s1 name ts1) s2 -> tallied_all fixed bad w (t :: ts) s s2.
Proof.
  intros (A1 & A2 & A3 & A4 & A5) Hs (B1 & B2 & B3 & B4 & B5). unfold tallied_all. cbn [over foldr].
  rewrite !(over_same w w1 ts _ Hs) in *. fold (over w ts (fun _ _ => 1%nat)) (over w ts fixed) (over w ts bad) (over w ts (fun t => some_of (fixed t))).
  cbn [put_table scanned_rows rewrapped_columns rewrapped_rows failed_columns active_version] in *. repeat split; lia || congruence.
Qed.

Definition ready (k : nat) (w : world) (ts : list target) : Prop :=
  forall t, In t ts -> ordered (tables w (table t)) /\ (length (tables w (table t)) < k)%nat.

Lemma other_tables (t : target) ts t' : ~ In (table t) (map table ts) -> In t' ts -> table t' <> table t.
Proof. intros Hn Hi E. apply Hn. rewrite <- E. by apply in_map. Qed.

Lemma targets_live k ts : forall s w, List.NoDup (map table ts) -> ready k w ts ->
  exists o w', run_db (run_targets c batch k false ts s) w = (Some o, w') /\
    (forall n, ~ In n (map table ts) -> tables w' n = tables w n) /\
    (forall t, In t ts -> Forall2 (row_kept t) (tables w (table t)) (tables w' (table t))) /\
    (faults w = [] -> exists s', o = Ok s' /\ tallied_all (of_columns readable_due) (of_columns lost) w ts s s' /\
       forall t, In t ts -> Forall2 (row_done t) (tables w (table t)) (tables w' (table t))).
Proof.
  induction ts as [|t ts IH]; intros s w Hnd Hr; cbn [run_targets].
  { eexists _, _. split; [reflexivity|]. split; [done|]. split; [done|]. intros _. eexists. split; [reflexivity|]. split; [|done].
    unfold tallied_all. cbn. repeat split; lia. }
  cbn in Hnd. inversion Hnd as [|? ? Hni Hnd']; subst. rewrite interp_bind. unfold _run_target.
  destruct (Hr t (or_introl eq_refl)) as [Hord Hlen].
  destruct (pages_live t k [] (tables w (table t)) (s, _empty_table_stats) w Hlen eq_refl Hord) as (o & w1 & E & Ho & Hf).
  change (cursor_of [] None) with (@None string) in E. rewrite E.
  assert (Hother : forall rows, table_after t w w1 rows -> forall t', In t' ts -> tables w1 (table t') = tables w (table t')).
  { intros rows Ha t' Ht'. rewrite Ha. pose proof (other_tables t ts t' Hni Ht') as Hne. by apply String.eqb_neq in Hne as ->. }
  assert (Hself : forall rows, table_after t w w1 rows -> tables w1 (table t) = rows) by (intros rows Ha; by rewrite Ha, String.eqb_refl).
  destruct o as [[s1 ts1]|e].
  2:{ destruct Ho as (Hne & rows & Hk & Ha). eexists _, _. split; [reflexivity|]. split.
      - intros n Hn. rewrite Ha. destruct (String.eqb_spec n (table t)) as [->|]; [exfalso; apply Hn; by left|done].
      - split; [|done]. intros t' [<-|Ht']; [by rewrite (Hself _ Ha)|]. rewrite (Hother _ Ha t' Ht'). apply kept_refl. }
  destruct Ho as (Est & rows & Hd & Ha). pose proof (live_tallied t (tables w (table t)) (s, _empty_table_stats)) as Htal. rewrite <- Est in Htal. cbn [fst] in Htal.
  destruct (IH (put_table s1 (table t) ts1) w1 Hnd') as (o & w2 & E2 & Hn2 & Hk2 & Hok).
  { intros t' Ht'. rewrite (Hother _ Ha t' Ht'). apply Hr. by right. }
  assert (Ht2 : tables w2 (table t) = rows) by (rewrite Hn2 by done; by apply Hself).
  exists o, w2. split; [exact E2|]. split; [|split].
  - intros n Hn. rewrite Hn2 by (intros H; apply Hn; by right). rewrite Ha.
    destruct (String.eqb_spec n (table t)) as [->|]; [exfalso; apply Hn; by left|done].
  - intros t' [<-|Ht']; [rewrite Ht2; by apply done_kept|]. rewrite <- (Hother _ Ha t' Ht'). by apply Hk2.
  - intros H0. destruct (Hok (Hf H0)) as (s2 & -> & Htal2 & Hd2). exists s2. split; [done|]. split; [by eapply (tallied_step _ _ w w1 t ts s s1); [exact Htal|exact (Hother _ Ha)|exact Htal2]|].
    intros t' [<-|Ht']; [by rewrite Ht2|]. rewrite <- (Hother _ Ha t' Ht'). by apply Hd2.
Qed.

Lemma targets_dry k ts : forall s w, ready k w ts -> faults w = [] ->
  exists s' w', run_db (run_targets c batch k true ts s) w = (Some (Ok s'), w') /\ tables w' = tables w /\
    tallied_all (of_columns due) (fun _ _ => 0%nat) w ts s s'.
Proof.
  induction ts as [|t ts IH]; intros s w Hr Hf; cbn [run_targets].
  { eexists _, _. split; [reflexivity|]. split; [done|]. unfold tallied_all. cbn. repeat split; lia. }
  rewrite interp_bind. unfold _run_target. destruct (Hr t (or_introl eq_refl)) as [Hord Hlen].
  destruct (pages_dry t k [] (tables w (table t)) (s, _empty_table_stats) w Hlen Hf eq_refl Hord) as (w1 & E & Ht & Hf1).
  change (cursor_of [] None) with (@None string) in E. rewrite E.
  pose proof (dry_tallied t (tables w (table t)) (s, _empty_table_stats)) as Htal. destruct (fold_left _ _ _) as [s1 ts1]. cbn [fst] in Htal.
  destruct (IH (put_table s1 (table t) ts1) w1) as (s2 & w2 & E2 & Ht2 & Htal2); [|done|].
  { intros t' Ht'. rewrite Ht. apply Hr. by right. }
  exists s2, w2. split; [exact E2|]. split; [congruence|]. eapply (tallied_step (of_columns due) (fun _ _ => 0%nat) w w1 t ts s s1); [exact Htal| |exact Htal2].
  intros t' _. by rewrite Ht.
Qed.

Lemma column_count_split r cols : Z.of_nat (count (due r) cols) = Z.of_nat (count (readable_due r) cols) + Z.of_nat (count (lost r) cols).
Proof.
  unfold count. induction cols as [|col cols IH]; [done|]. cbn [List.filter]. unfold readable_due at 1, lost at 1.
  destruct (due r col); [|done]. destruct (unreadable (stored_get col r)); cbn [andb negb length]; lia.
Qed.

Lemma over_split w ts : over w ts (of_columns due) = over w ts (of_columns readable_due) + over w ts (of_columns lost).
Proof.
  unfold over. induction ts as [|t ts IH]; [done|]. cbn [foldr]. rewrite IH.
  assert (H : forall rows, total (of_columns due t) rows = total (of_columns readable_due t) rows + total (of_columns lost t) rows).
  { induction rows as [|r rows IHr]; [done|]. rewrite !total_cons, IHr. pose proof (column_count_split r (encrypted_columns t)) as Hc. fold (of_columns due t r) (of_columns readable_due t r) (of_columns lost t r) in Hc. lia. }
  rewrite H. lia.
Qed.

Lemma over_zero w ts : over w ts (fun _ _ => 0%nat) = 0.
Proof.
  unfold over. induction ts as [|t ts IH]; [done|]. cbn [foldr]. rewrite IH.
  assert (H : forall rows, total (fun _ => 0%nat) rows = 0) by (induction rows as [|r rows IHr]; [done|by rewrite total_cons, IHr]).
  by rewrite H.
Qed.

Lemma tables_distinct : List.NoDup (map table _TARGETS).
Proof. repeat constructor; cbn; intuition discriminate. Qed.

(** C34: an interrupted rotation loses nothing.  Whatever statements the database refuses,
    and wherever, the job ends; every row is still there, and each of its columns
    either is what it was, or was due and now holds the same credential under the
    active key. *)
Theorem rewrap_interrupted k w : ready k w _TARGETS ->
  exists o w', run_db (run c batch k false) w = (Some o, w') /\
    forall t, In t _TARGETS -> Forall2 (row_kept t) (tables w (table t)) (tables w' (table t)).
Proof.
  intros Hr. destruct (targets_live k _TARGETS (mk_stats (_active_version c) 0 0 0 0 []) w tables_distinct Hr) as (o & w' & E & _ & Hk & _).
  by exists o, w'.
Qed.

(** C21: a rotation that is not interrupted is complete.  The live run returns; it scans
    every row once, and its counters are the numbers of columns and rows that were
    due and readable, and of those that were due and unreadable.  Afterwards every
    credential that the cipher could read is read to the same text by any cipher
    that has the active key, so the older keys can be removed.  A dry run writes
    nothing and scans the same rows, but counts as re-wrapped every column and row
    that is due, the unreadable ones too, and no failure: its columns are those the live
    run re-wraps together with those it fails on. *)
Theorem rotation_complete k w : ready k w _TARGETS -> faults w = [] ->
  (exists live dry w1 w2,
     run_db (run c batch k false) w = (Some (Ok live), w1) /\ run_db (run c batch k true) w = (Some (Ok dry), w2) /\
     tables w2 = tables w /\ scanned_rows live = over w _TARGETS (fun _ _ => 1%nat) /\ scanned_rows dry = scanned_rows live /\
     rewrapped_columns live = over w _TARGETS (of_columns readable_due) /\ failed_columns live = over w _TARGETS (of_columns lost) /\
     rewrapped_rows live = over w _TARGETS (fun t => some_of (of_columns readable_due t)) /\
     rewrapped_columns dry = over w _TARGETS (of_columns due) /\ failed_columns dry = 0 /\
     rewrapped_rows dry = over w _TARGETS (fun t => some_of (of_columns due t)) /\
     rewrapped_columns dry = rewrapped_columns live + failed_columns live /\
     forall t, In t _TARGETS ->
       Forall2 (fun r r' => sid r' = sid r /\
          forall col token s c', In col (encrypted_columns t) -> stored_get col r = Some token -> token <> "" ->
            decrypt c token = Ok s -> kek_get (_active_version c) (_keks c') = kek_get (_active_version c) (_keks c) ->
            exists token', stored_get col r' = Some token' /\ decrypt c' token' = Ok s)
         (tables w (table t)) (tables w1 (table t))).
Proof.
  intros Hr Hf. set (s0 := mk_stats (_active_version c) 0 0 0 0 []).
  destruct (targets_live k _TARGETS s0 w tables_distinct Hr) as (o & w1 & E & _ & _ & Hok). destruct (Hok Hf) as (live & -> & (L1 & L2 & L3 & L4 & _) & Hd).
  destruct (targets_dry k _TARGETS s0 w Hr Hf) as (dry & w2 & E2 & Ht & (D1 & D2 & D3 & D4 & _)).
  exists live, dry, w1, w2. cbn [s0 scanned_rows rewrapped_columns rewrapped_rows failed_columns] in *.
  split; [exact E|]. split; [exact E2|]. split; [done|]. split; [lia|]. split; [lia|]. split; [lia|]. split; [lia|]. split; [lia|].
  split; [lia|]. split; [rewrite D4; apply over_zero|]. split; [lia|].
  split; [rewrite D2, L2, L4, over_split; lia|].
  intros t Hin. eapply Forall2_impl; [exact (Hd t Hin)|]. intros r r' [[Hid Hk] Hdone]. split; [done|].
  intros col token s c' Hcol Eold Hne Es Hkey. destruct (Hk col) as [[Enew|(token0 & token' & Eo & En & Hrw)] _].
  - exists token. rewrite Enew, Eold. split; [done|]. apply (current_token c); [|done|done].
    destruct (needs_rewrap c token) eqn:Hn; [|done]. specialize (Hdone col Hcol). unfold due in Hdone. rewrite Enew, Eold in Hdone.
    assert (Hun : unreadable (Some token) = true).
    { apply Hdone. cbn. rewrite Hn, andb_true_r. unfold str_empty. apply String.eqb_neq in Hne. by rewrite Hne. }
    cbn in Hun. by rewrite Es in Hun.
  - exists token'. split; [done|]. rewrite Eold in Eo. injection Eo as <-. destruct Hrw as (_ & _ & s' & Es' & Hc'). rewrite Es in Es'. injection Es' as <-. by apply Hc'.
Qed.
End Facts.

(** *** Two tables during a rotation *)

Import Transparent.

Definition sample_entropy (_ : nat) : bytes * bytes * bytes := (sample_dek, sample_nonce, []).
Definition shorter (a b : string) : bool := (String.length a <? String.length b)%nat.

(** A password under the old key, a token of the old format that no key opens, and
    an API key that is current. *)
Definition old_password : string := match encrypt old_cipher sample_dek sample_nonce [] [104; 105] with Ok token => token | Raise _ => "" end.
Definition current_key : string := match encrypt new_cipher sample_dek sample_nonce [] [107] with Ok token => token | Raise _ => "" end.

Definition sample_tables (n : string) : list stored :=
  if String.eqb n "broker_connections" then
    [mk_stored "a" [("mt5_password_encrypted", Some old_password); ("ea_auth_token_encrypted", Some "gAAAA")] (Some 1);
     mk_stored "bb" [("mt5_password_encrypted", None); ("ea_auth_token_encrypted", Some old_token)] None]
  else if String.eqb n "llm_connections" then [mk_stored "a" [("api_key_encrypted", Some current_key)] (Some 2)]
  else [].

Definition sample_world : world := mk_world sample_tables 0 [].

Lemma sample_ready w : tables w = sample_tables -> ready shorter 5 w _TARGETS.
Proof.
  intros E t [<-|[<-|[]]]; rewrite E; (split; [|cbn; lia]); unfold ordered; cbn; repeat constructor.
Qed.

Lemma shorter_trans x y z : shorter x y = true -> shorter y z = true -> shorter x z = true.
Proof. unfold shorter. rewrite !Nat.ltb_lt. lia. Qed.

Lemma rewrap_interrupted_witness :
  exists o w', interp (serve sample_entropy shorter) (run new_cipher 2 5 false) (mk_world sample_tables 0 [None; Some (OSError "lost")]) = (Some o, w') /\
    Forall2 (row_kept new_cipher (nth 0 _TARGETS (mk_target "" "" [] ""))) (sample_tables "broker_connections") (tables w' "broker_connections").
Proof.
  destruct (rewrap_interrupted new_cipher 2 sample_entropy shorter ltac:(intros; apply Nat.ltb_irrefl) shorter_trans new_created ltac:(lia)
    ltac:(intros; exact sample_fresh) 5 (mk_world sample_tables 0 [None; Some (OSError "lost")])) as (o & w' & E & H).
  - apply sample_ready. reflexivity.
  - exists o, w'. split; [exact E|]. apply (H (nth 0 _TARGETS (mk_target "" "" [] ""))). left. reflexivity.
Defined.

Lemma rotation_complete_witness :
  exists live dry w1 w2, interp (serve sample_entropy shorter) (run new_cipher 2 5 false) sample_world = (Some (Ok live), w1) /\
    interp (serve sample_entropy shorter) (run new_cipher 2 5 true) sample_world = (Some (Ok dry), w2) /\
    scanned_rows live = 3 /\ rewrapped_columns live = 2 /\ failed_columns live = 1 /\ rewrapped_rows live = 2 /\
    rewrapped_columns dry = 3 /\ failed_columns dry = 0.
Proof.
  destruct (rotation_complete new_cipher 2 sample_entropy shorter ltac:(intros; apply Nat.ltb_irrefl) shorter_trans new_created ltac:(lia)
    ltac:(intros; exact sample_fresh) 5 sample_world) as (live & dry & w1 & w2 & E & E2 & _ & H1 & _ & H2 & H3 & H4 & H5 & H6 & _).
  - apply sample_ready. reflexivity.
  - reflexivity.
  - exists live, dry, w1, w2. split; [exact E|]. split; [exact E2|]. rewrite H1, H2, H3, H4, H5, H6. vm_compute. repeat split.
Defined.

(** A row of which one column failed is stamped with the active version, although
    that column is not under it. *)
Example failed_row_is_stamped :
  match interp (serve sample_entropy shorter) (run new_cipher 2 5 false) sample_world with
  | (_, w') => match tables w' "broker_connections" with
               | r :: _ => version r = Some 2 /\ stored_get "ea_auth_token_encrypted" r = Some "gAAAA"
               | [] => False
               end
  end.
Proof. vm_compute. split; reflexivity. Qed.

(** A database in which the user saves a new password right after the first page was read. *)
Definition new_password : string := match encrypt new_cipher sample_dek sample_nonce [] [110; 101; 119] with Ok token => token | Raise _ => "" end.

Definition racing (cmd : db_cmd) (w : world) : res (reply cmd) * world :=
  let '(r, w) := serve sample_entropy shorter cmd w in
  match cmd with
  | FetchBatch t None _ =>
      (r, if String.eqb (table t) "broker_connections"
          then mk_world (fun n => map (fun x => if String.eqb (sid x) "a" then write [("mt5_password_encrypted", new_password)] 2 x else x) (tables w n))
                 (draws w) (faults w)
          else w)
  | _ => (r, w)
  end.

(** The job then writes the old password back. *)
Example concurrent_save_is_lost :
  match interp racing (run new_cipher 2 5 false) sample_world with
  | (_, w') => match tables w' "broker_connections" with
               | r :: _ => (token ← stored_get "mt5_password_encrypted" r; match decrypt new_cipher token with Ok s => Some s | Raise _ => None end) = Some [104; 105]
               | [] => False
               end
  end.
Proof. vm_compute. reflexivity. Qed.
End RewrapFacts.
