(* ===== verification/Tasks.v ===== *)
(** * Tasks: coroutines that can be cancelled, and what they do on every run

    [asyncio] cancels a task at the command it awaits: the cancellation passes
    through [except Exception], runs the [finally] clauses and is turned into a
    [TimeoutError] by the [asyncio.timeout] that caused it.  A task is a program
    whose commands reply either a value or the cancellation, and which ends with
    one of the two; a program written without cancellation is run as a task, each
    of its commands by a task of its own.

    [does] says what a program does whatever its environment replies: every run
    ends, and its commands, with their replies, and its outcome are related as
    stated; [may] says so of the runs that end. *)

From Stdlib Require Import ZArith Lia Bool String.
From stdpp Require Import base list strings.
From S2P Require Import Prelude PyAsync.

(** ** Cancellation *)

Inductive signal (A : Type) := Returned (a : A) | Cancelled.
Arguments Returned {_} _.
Arguments Cancelled {_}.

Inductive awaited (E : Type) := Wait (c : E).
Arguments Wait {_} _.

#[global] Instance awaited_effect {E} `{Effect E} : Effect (awaited E) := fun a => match a with Wait c => signal (reply c) end.

Definition task (E : Type) `{Effect E} (A : Type) : Type := prog (awaited E) (signal A).

Section Tasks.
Context {E : Type} `{Effect E}.

#[global] Instance task_ret : MRet (task E) := fun A a => Ret (Ok (Returned a)).
#[global] Instance task_bind : MBind (task E) := fun A B f p =>
  settle p (fun r =>
    match r with
    | Ok (Returned a) => f a
    | Ok Cancelled => Ret (Ok Cancelled)
    | Raise e => Ret (Raise e)
    end).

Definition await (c : E) : task E (reply c) := Await (Wait c) Ret.
Definition raise {A} (e : exn) : task E A := Ret (Raise e).
Definition value {A} (r : res A) : task E A := Ret (Returned <$> r).

(** [try: p  except Exception as e: handler]. *)
Definition except {A} (p : task E A) (handler : exn -> task E A) : task E A :=
  settle p (fun r => match r with Raise e => handler e | Ok s => Ret (Ok s) end).

(** [try: p  finally: f]. *)
Definition finally {A} (p : task E A) (f : task E unit) : task E A :=
  settle p (fun r => settle f (fun r' =>
    match r' with
    | Ok (Returned _) => Ret r
    | Ok Cancelled => Ret (Ok Cancelled)
    | Raise e => Ret (Raise e)
    end)).

(** [async with asyncio.timeout(...)]: the cancellations are its own. *)
Definition timeout {A} (p : task E A) : task E A :=
  settle p (fun r => match r with Ok Cancelled => Ret (Raise TimeoutError) | r => Ret r end).

(** A program run as a task. *)
Fixpoint run_in {F} `{Effect F} (h : forall c : F, task E (reply c)) {A} (p : prog F A) : task E A :=
  match p with
  | Ret r => value r
  | Await c k =>
      settle (h c) (fun r =>
        match r with
        | Ok (Returned v) => run_in h (k (Ok v))
        | Ok Cancelled => Ret (Ok Cancelled)
        | Raise e => run_in h (k (Raise e))
        end)
  | Spin => Spin
  end.
End Tasks.

(** ** Runs *)

Section Runs.
Context {E : Type} `{Effect E}.
(** What is said of a loop that uses all its turns, and the replies the environment
    may give. *)
Context (spin : Prop) (replies : forall c : E, res (reply c) -> Prop).

Inductive exchange := Ev (c : E) (r : res (reply c)).

Fixpoint runs {A} (p : prog E A) (P : list exchange -> res A -> Prop) : Prop :=
  match p with
  | Ret r => P [] r
  | Await c k => forall r, replies c r -> runs (k r) (fun s v => P (Ev c r :: s) v)
  | Spin => spin
  end.

Lemma task_runs_weaken {A} (p : prog E A) : forall P Q : list exchange -> res A -> Prop,
  runs p P -> (forall s r, P s r -> Q s r) -> runs p Q.
Proof.
  induction p as [r|c k IH|]; intros P Q HP HQ; cbn [runs] in *; [by apply HQ| |done].
  intros r Hr. eapply IH; [by apply HP|]. intros s v. apply HQ.
Qed.

Lemma runs_settle_iff {A B} (p : prog E A) (f : res A -> prog E B) : forall R,
  runs (settle p f) R <-> runs p (fun s r => runs (f r) (fun s' v => R (s ++ s') v)).
Proof.
  induction p as [r|c k IH|]; intros R; cbn [runs settle]; [done| |done].
  split; intros Hd r Hr; apply (IH r (fun s v => R (Ev c r :: s) v)), Hd, Hr.
Qed.

Lemma runs_settle {A B} (p : prog E A) (f : res A -> prog E B) P R :
  runs p P -> (forall s r, P s r -> runs (f r) (fun s' v => R (s ++ s') v)) -> runs (settle p f) R.
Proof. intros HP Hf. apply runs_settle_iff. by eapply task_runs_weaken. Qed.
End Runs.
Arguments Ev {_ _} _ _.
Arguments exchange _ {_}.
Notation does := (runs False).
Notation may := (runs True).

Section Adequacy.
Context {E : Type} `{Effect E} (replies : forall c : E, res (reply c) -> Prop).
(** Adequacy: [does] speaks about the runs of [interp], their commands recorded. *)
Context {W : Type} (handle : forall c : E, W -> res (reply c) * W).

Definition recorded (c : E) (w : list (exchange E) * W) : res (reply c) * (list (exchange E) * W) :=
  let '(r, w') := handle c (snd w) in (r, (fst w ++ [Ev c r], w')).

Lemma does_adequate {A} (p : prog E A) : forall P s w,
  (forall c w r w', handle c w = (r, w') -> replies c r) -> does replies p P ->
  exists t r w', interp recorded p (s, w) = (Some r, (s ++ t, w')) /\ P t r.
Proof.
  induction p as [r|c k IH|]; intros P s w Hh HP; cbn [runs interp] in *; [|unfold recorded at 1|done].
  - exists [], r, w. by rewrite app_nil_r.
  - destruct (handle c (snd (s, w))) as [r w'] eqn:Ec. cbn [fst snd] in *.
    destruct (IH r _ (s ++ [Ev c r]) w' Hh (HP r (Hh _ _ _ _ Ec))) as (t & v & w'' & Ei & Hv).
    exists (Ev c r :: t), v, w''. split; [|done]. rewrite Ei. by rewrite <- app_assoc.
Qed.
End Adequacy.

Section TaskRuns.
Context {E : Type} `{Effect E}.
Context (spin : Prop) (replies : forall c : awaited E, res (reply c) -> Prop).
Notation runs := (runs spin replies).

Lemma task_runs_bind {A B} (p : task E A) (f : A -> task E B) (P : list (exchange (awaited E)) -> res (signal A) -> Prop) R :
  runs p P ->
  (forall s a, P s (Ok (Returned a)) -> runs (f a) (fun s' v => R (s ++ s') v)) ->
  (forall s, P s (Ok Cancelled) -> R s (Ok Cancelled)) ->
  (forall s e, P s (Raise e) -> R s (Raise e)) ->
  runs (p ≫= f) R.
Proof.
  intros HP Hf Hc He. eapply runs_settle; [exact HP|].
  intros s [[a|]|e] Hr; cbn; [by apply Hf| |]; rewrite app_nil_r; auto.
Qed.

Lemma runs_except {A} (p : task E A) h (P : list (exchange (awaited E)) -> res (signal A) -> Prop) R :
  runs p P -> (forall s v, P s (Ok v) -> R s (Ok v)) ->
  (forall s e, P s (Raise e) -> runs (h e) (fun s' v => R (s ++ s') v)) ->
  runs (except p h) R.
Proof.
  intros HP Hv He. eapply runs_settle; [exact HP|].
  intros s [v|e] Hr; cbn; [rewrite app_nil_r|]; auto.
Qed.

Lemma runs_await (c : E) (R : list (exchange (awaited E)) -> res (signal (reply c)) -> Prop) :
  (forall r, replies (Wait c) r -> R [Ev (Wait c) r] r) -> runs (await c) R.
Proof. done. Qed.

Lemma runs_value {A} (r : res A) (R : list (exchange (awaited E)) -> res (signal A) -> Prop) :
  R [] (Returned <$> r) -> runs (value r) R.
Proof. done. Qed.

(** A program run as a task: what it runs after its first part. *)
Lemma runs_run_settle {F} `{Effect F} (h : forall c : F, task E (reply c)) {A B} (p : prog F A) (f : res A -> prog F B) :
  forall (P : list (exchange (awaited E)) -> res (signal A) -> Prop) R,
  runs (run_in h p) P ->
  (forall s v, P s (Ok (Returned v)) -> runs (run_in h (f (Ok v))) (fun s' v => R (s ++ s') v)) ->
  (forall s, P s (Ok Cancelled) -> R s (Ok Cancelled)) ->
  (forall s e, P s (Raise e) -> runs (run_in h (f (Raise e))) (fun s' v => R (s ++ s') v)) ->
  runs (run_in h (settle p f)) R.
Proof.
  induction p as [r|c k IH|]; intros P R HP Hv Hc He; cbn [run_in settle] in *; [|apply runs_settle_iff in HP|done].
  - destruct r as [a|e]; [by apply (Hv [])|by apply (He [])].
  - apply runs_settle_iff. eapply task_runs_weaken; [exact HP|]. intros s [[v|]|e] Hs; cbn beta iota in Hs |- *.
    2: { cbn in *. rewrite app_nil_r in *. auto. }
    all: refine (IH _ _ _ Hs _ _ _); cbn beta; intros s' ?; [intros Hp|by apply Hc|intros Hp];
      (eapply task_runs_weaken; [first [exact (Hv _ _ Hp)|exact (He _ _ Hp)]|]); cbn beta; intros; by rewrite app_assoc.
Qed.
End TaskRuns.

(** ** Commands a task never sends

    [tame ok seen p]: along every path [p] sends only commands that are [ok], and it
    ends with a cancellation only where it was cancelled, now or before ([seen]). *)

Section Tame.
Context {E : Type} `{Effect E} (ok : E -> Prop).

Definition cancels {A} (r : res (signal A)) : bool := match r with Ok Cancelled => true | _ => false end.

Fixpoint tame {A} (seen : bool) (p : task E A) : Prop :=
  match p with
  | Ret r => cancels r = true -> seen = true
  | Await a k =>
      match a return (res (reply a) -> task E A) -> Prop with
      | Wait c => fun k => ok c /\ forall r : res (signal (reply c)), tame (seen || cancels r) (k r)
      end k
  | Spin => True
  end.

Lemma tame_settle {A B} (p : task E A) (f : res (signal A) -> task E B) : forall seen,
  tame seen p ->
  (forall seen' r, (seen = true -> seen' = true) -> (cancels r = true -> seen' = true) -> tame seen' (f r)) ->
  tame seen (settle p f).
Proof.
  induction p as [r|[c] k IH|]; intros seen Hp Hf; cbn [tame settle] in *; [by apply Hf| |done].
  destruct Hp as [Hc Hk]. split; [done|]. intros r. apply IH; [apply Hk|]. intros seen' r' Hs Hr. apply Hf; [|done].
  intros ->. by apply Hs.
Qed.

Lemma tame_bind {A B} seen (p : task E A) (f : A -> task E B) :
  tame seen p -> (forall seen a, tame seen (f a)) -> tame seen (p ≫= f).
Proof. intros Hp Hf. apply tame_settle; [done|]. intros seen' [[a|]|e] _ Hr; [apply Hf|exact Hr|done]. Qed.

Lemma tame_value {A B} seen (r : res A) (f : A -> task E B) :
  (forall a, r = Ok a -> tame seen (f a)) -> tame seen (value r ≫= f).
Proof. intros Hf. destruct r as [a|e]; [by apply Hf|done]. Qed.

Lemma tame_await seen (c : E) : ok c -> tame seen (await c).
Proof. intros Hc. split; [done|]. intros r Hr. by rewrite Hr, orb_true_r. Qed.

Lemma tame_except {A} seen (p : task E A) h : tame seen p -> (forall seen e, tame seen (h e)) -> tame seen (except p h).
Proof. intros Hp Hh. apply tame_settle; [done|]. intros seen' [v|e] _ Hr; [exact Hr|apply Hh]. Qed.

Lemma tame_finally {A} seen (p : task E A) f : tame seen p -> (forall seen, tame seen f) -> tame seen (finally p f).
Proof.
  intros Hp Hf. apply tame_settle; [done|]. intros seen' r _ Hr. apply tame_settle; [apply Hf|].
  intros seen'' [[u|]|e] Hs Hu; [|exact Hu|done]. intros Hc. by apply Hs, Hr.
Qed.

Lemma tame_run_in {F} `{Effect F} (h : forall c : F, task E (reply c)) {A} (p : prog F A) :
  (forall seen c, tame seen (h c)) -> forall seen, tame seen (run_in h p).
Proof.
  intros Hh. induction p as [r|c k IH|]; intros seen; cbn [run_in]; [by destruct r| |done].
  apply tame_settle; [apply Hh|]. intros seen' [[v|]|e] _ Hr; [apply IH|exact Hr|apply IH].
Qed.

Lemma tame_runs {A B} replies (g : exchange (awaited E) -> list B) (p : task E A) : forall seen,
  (forall c r, ok c -> g (Ev (Wait c) r) = []) -> tame seen p -> may replies p (fun s _ => flat_map g s = []).
Proof.
  intros seen Hg. revert seen. induction p as [r|[c] k IH|]; intros seen; cbn [tame runs]; [done| |done].
  intros [Hc Hk] r _. eapply task_runs_weaken; [eapply (IH r), Hk|]. intros s v Hs. cbn. by rewrite (Hg c r Hc), Hs.
Qed.

(** Alone with a handler that cancels nothing. *)
Lemma tame_calm {A W} (handle : forall c : awaited E, W -> res (reply c) * W) (p : task E A) : forall w,
  (forall c w, fst (handle (Wait c) w) <> Ok Cancelled) -> tame false p -> fst (interp handle p w) <> Some (Ok Cancelled).
Proof.
  intros w Hh. revert w. induction p as [r|[c] k IH|]; intros w; cbn [tame interp]; [|intros [_ Hk]|done].
  - intros Hr [= ->]. by discriminate Hr.
  - specialize (Hh c w). destruct (handle (Wait c) w) as [r w'] eqn:Eh. apply IH. specialize (Hk r).
    destruct r as [[v|]|e]; [exact Hk|done|exact Hk].
Qed.
End Tame.

(** ** A program run as a task, alone *)

Lemma interp_run_settle {E F W} `{Effect E} `{Effect F} (handle : forall c : awaited E, W -> res (reply c) * W)
    (h : forall c : F, task E (reply c)) {A B} (p : prog F A) (f : res A -> prog F B) : forall w,
  interp handle (run_in h (settle p f)) w =
  match interp handle (run_in h p) w with
  | (Some (Ok (Returned v)), w') => interp handle (run_in h (f (Ok v))) w'
  | (Some (Ok Cancelled), w') => (Some (Ok Cancelled), w')
  | (Some (Raise e), w') => interp handle (run_in h (f (Raise e))) w'
  | (None, w') => (None, w')
  end.
Proof.
  induction p as [r|c k IH|]; intros w; cbn [settle run_in]; [by destruct r| |done].
  rewrite !interp_settle. destruct (interp handle (h c) w) as [[[[v|]|e]|] w']; [apply IH|done|apply IH|done].
Qed.
