(* ===== verification/ErrorClassifier.v ===== *)
(** * Classes of model failures: [engine/processor/llm/error_classifier.py]

    A failure of a provider is recognised by the name of its class and by phrases
    of its message.  The text of an exception and which classes are those of the
    HTTP library are parameters. *)

From Stdlib Require Import ZArith Bool String.
From stdpp Require Import base list strings.
From S2P Require Import Prelude PyValues LLMRetry.

#[local] Open Scope string_scope.
#[local] Open Scope list_scope.

Record ClassifiedFailure := mk_failure { code : string; user_message : string }.

Definition CODE_QUOTA_EXCEEDED : string := "quota_exceeded".
Definition CODE_RATE_LIMITED : string := "rate_limited".
Definition CODE_AUTH_INVALID : string := "auth_invalid".
Definition CODE_MODEL_NOT_FOUND : string := "model_not_found".
Definition CODE_TIMEOUT : string := "timeout".
Definition CODE_TRANSIENT : string := "transient".
Definition CODE_UNKNOWN : string := "unknown".

(** One of the phrases occurs in the text. *)
Definition mentions (phrases : list string) (s : string) : bool := existsb (fun p => str_contains p s) phrases.

Section Classifier.
(** [str(exc)] and [isinstance(exc, (httpx.TimeoutException, httpx.HTTPError))]. *)
Context (str_exn : exn -> string) (is_httpx_error : exn -> bool).

Definition is_transient_llm_error (exc : option exn) : bool :=
  match exc with
  | None => false
  | Some e =>
      let name := str_lower (type_name e) in
      let msg := str_lower (str_exn e) in
      is_httpx_error e || str_contains "timeout" name || str_contains "ratelimit" name ||
      mentions ["timeout"; "timed out"; "deadline_exceeded"; "deadline exceeded"; "rate limit"; "429"; "resource_exhausted";
                " 500"; " 502"; " 503"; " 504"; "overloaded"; "unavailable"] msg
  end.

Definition classify_llm_failure (exc : option exn) : ClassifiedFailure :=
  match exc with
  | None => mk_failure CODE_UNKNOWN "AI service is temporarily unavailable; please try again"
  | Some e =>
      let name := str_lower (type_name e) in
      let msg := str_lower (str_exn e) in
      if mentions ["quota"; "insufficient_quota"; "credit balance"; "insufficient funds"; "resource_exhausted"] msg
      then mk_failure CODE_QUOTA_EXCEEDED
             "Your AI provider quota or credit is exhausted; please top up or switch keys and retry."
      else if mentions ["rate limit"; "429"; "too many requests"] msg || str_contains "ratelimit" name
      then mk_failure CODE_RATE_LIMITED "AI provider rate limit reached; please wait a moment and retry."
      else if mentions ["invalid api key"; "invalid_api_key"; "unauthorized"; "authentication"; "permission denied";
                        "api key not valid"; "api_key_invalid"; "permission_denied"] msg
      then mk_failure CODE_AUTH_INVALID "AI provider rejected the API key; please verify your key in Settings and retry."
      else if mentions ["model_not_found"; "model not found"; "unknown model"] msg ||
              (str_contains "does not exist" msg && str_contains "model" msg) ||
              (str_contains "is not found" msg && str_contains "model" msg)
      then mk_failure CODE_MODEL_NOT_FOUND
             "The configured AI model is not available for this key; please update the model in Settings and retry."
      else if str_contains "timeout" name || mentions ["timeout"; "timed out"] msg
      then mk_failure CODE_TIMEOUT "AI provider did not respond in time; please retry."
      else if is_transient_llm_error exc
      then mk_failure CODE_TRANSIENT "AI service is temporarily unavailable; please retry shortly."
      else mk_failure CODE_UNKNOWN
             "AI service returned an unexpected error; please retry. If this persists, contact support."
  end.
End Classifier.
