(* ===== verification/Metering.v ===== *)
(** * The metering client: [engine/shared/metering_client.py]

    Before a call of the model on the platform's key the engine reserves tokens at
    the gateway, and settles the reservation afterwards by a commit or a refund.
    The requests to the gateway and the wall clock are commands.  A response is
    its status, its headers and what decoding its body gives; the decoding of ISO
    dates and [str()] of a decoded value are parameters.  Log lines and the time
    limit of a request, which shows as an exception of the request, are left
    out. *)

From Stdlib Require Import ZArith Lia Bool Ascii String.
From stdpp Require Import base list strings.
From S2P Require Import Prelude PyFloat FloatFloor PyText PyRepr PyValues PyAsync HttpClient Codec CredentialCipher.

#[local] Open Scope string_scope.
#[local] Open Scope Z_scope.
#[local] Open Scope list_scope.

(** ** Strings *)

(** [s.rstrip(c)]. *)
Fixpoint str_rstrip (c : ascii) (s : string) : string :=
  match s with
  | EmptyString => EmptyString
  | String a s =>
      match str_rstrip c s with
      | EmptyString => if Ascii.eqb a c then EmptyString else String a EmptyString
      | s => String a s
      end
  end.

(** [s.replace(c, by)] for a single character. *)
Fixpoint str_replace_char (c : ascii) (by_ : string) (s : string) : string :=
  match s with
  | EmptyString => EmptyString
  | String a s => if Ascii.eqb a c then (by_ ++ str_replace_char c by_ s)%string else String a (str_replace_char c by_ s)
  end.

(** ** Configuration *)

Definition _ENABLED_TRUTHY : list string := ["1"; "true"; "yes"; "on"].

Record MeteringConfig := mk_metering { enabled : bool; gateway_url : string; secret : string }.

Definition _build_config (env : environ) : res MeteringConfig :=
  let raw := str_lower (str_strip (default "true" (env_get "METERING_ENABLED" env))) in
  let enabled := str_in raw _ENABLED_TRUTHY in
  let gateway_url := str_strip (str_rstrip "/" (default "" (env_get "METERING_GATEWAY_URL" env))) in
  let secret := str_strip (default "" (env_get "ENGINE_INTERNAL_SHARED_SECRET" env)) in
  let app_env := str_lower (default "" (env_get "APP_ENV" env)) in
  let is_prod_like := str_in app_env ["production"; "prod"; "staging"] in
  if enabled && is_prod_like && str_empty gateway_url
  then Raise (RuntimeError ("METERING_GATEWAY_URL is required when METERING_ENABLED=true in " ++ app_env ++
                            ". Set it to the gateway HTTP base URL."))
  else if enabled && is_prod_like && str_empty secret
  then Raise (RuntimeError ("ENGINE_INTERNAL_SHARED_SECRET is required when METERING_ENABLED=true in " ++ app_env ++ "."))
  else Ok (mk_metering (enabled && negb (str_empty gateway_url)) gateway_url secret).

(** The module's cached configuration, built on the first call that succeeds. *)
Definition get_config (env : environ) (_config : option MeteringConfig) : res MeteringConfig * option MeteringConfig :=
  match _config with
  | Some cfg => (Ok cfg, _config)
  | None => match _build_config env with Ok cfg => (Ok cfg, Some cfg) | Raise e => (Raise e, None) end
  end.

Definition reset_config_for_tests (_config : option MeteringConfig) : option MeteringConfig := None.

(** ** Requests to the gateway *)

Record meter_response := mk_meter_response { status_code : Z; headers : string -> option string; json_body : res json }.

Inductive meter_cmd :=
| Post (url : string) (payload : object) (headers : list (string * string))
| Now.

#[global] Instance meter_effect : Effect meter_cmd := fun c => match c with Post _ _ _ => meter_response | Now => datetime end.

(** Parse the body without raising. *)
Definition _safe_json (resp : meter_response) : json := match json_body resp with Ok v => v | Raise _ => JObj [] end.

(** [body.get(key, default)] of a decoded body, which need not be an object. *)
Definition body_get (key : string) (dflt : json) (body : json) : res json :=
  match body with
  | JObj d => Ok (default dflt (obj_get key d))
  | _ => Raise AttributeError
  end.

Definition header_or (name dflt : string) (resp : meter_response) : string := default dflt (headers resp name).

(** [resp.raise_for_status()]. *)
Definition raise_for_status (resp : meter_response) : res unit :=
  if (200 <=? status_code resp) && (status_code resp <? 300) then Ok tt
  else Raise (ForeignError "HTTPStatusError" None (str_int (status_code resp))).

Section Metering.
(** [datetime.fromisoformat] and [str(v)] of a decoded value. *)
Context (fromisoformat : string -> res datetime) (str_json : json -> string).
(** What [get_config()] gives: the environment does not change. *)
Context (config : res MeteringConfig).

Notation program := (prog meter_cmd).

(** The seconds until the date [resets_at], or [None] where the [try] fails. *)
Definition seconds_until (resets_at : json) : program (option Z) :=
  if json_truthy resets_at then
    settle
      (dt ← pure (match resets_at with JStr s => fromisoformat (str_replace_char "Z" "+00:00" s) | _ => Raise AttributeError end);
       now ← send Now;
       delta ← pure (HttpClient.seconds_between dt now);
       n ← pure (py_int delta);
       mret (Z.max 1 n))
      (fun r => match r with Ok n => mret (Some n) | Raise _ => mret None end)
  else mret None.

Definition _retry_after_seconds (resets_at : json) (header_value : string) : program Z :=
  parsed ← seconds_until resets_at;
  match parsed with
  | Some n => mret n
  | None =>
      mret (if str_empty header_value then 60
            else match int_of_str header_value with Ok n => Z.max 1 n | Raise _ => 60 end)
  end.

(** The exception of a refused reservation. *)
Definition quota_exceeded (resp : meter_response) : program json :=
  let body := _safe_json resp in
  dimension ← pure (body_get "dimension" (JStr "unknown") body);
  limit ← pure (body_get "limit" (JInt 0) body ≫= json_int);
  used ← pure (body_get "used" (JInt 0) body ≫= json_int);
  requested ← pure (body_get "requested" (JInt 0) body ≫= json_int);
  resets_at ← pure (body_get "resets_at" (JStr "") body);
  retry_after ← _retry_after_seconds resets_at (header_or "Retry-After" "" resp);
  Ret (Raise (QuotaExceededError
    ("LLM quota exceeded: " ++ str_json dimension ++ " (limit=" ++ str_int limit ++ " used=" ++ str_int used ++
     " requested=" ++ str_int requested ++ ")") retry_after)).

Definition reserve (user_id provider model : string) (estimated_input_tokens max_output_tokens : Z) (trace_id : string) :
    program json :=
  cfg ← pure config;
  if negb (enabled cfg) then mret (JStr "")
  else if str_empty user_id then mret (JStr "")
  else
    resp ← send (Post (gateway_url cfg ++ "/internal/metering/reserve")
      [("provider", JStr provider); ("model", JStr model); ("estimated_input_tokens", JInt (Z.max 0 estimated_input_tokens));
       ("max_output_tokens", JInt (Z.max 1 max_output_tokens)); ("trace_id", JStr trace_id)]
      [("X-Internal-Auth", secret cfg); ("X-User-Id", user_id); ("Content-Type", "application/json")]);
    if status_code resp =? 429 then quota_exceeded resp
    else if status_code resp =? 503 then
      retry_after ← _retry_after_seconds (JStr "") (header_or "Retry-After" "5" resp);
      Ret (Raise (MeteringUnavailableError "Metering layer is temporarily unavailable; please retry shortly." retry_after))
    else
      _ ← pure (if status_code resp =? 200 then Ok tt else raise_for_status resp);
      let header_id := str_strip (header_or "X-Reservation-Id" "" resp) in
      body_id ← pure (body_get "reservation_id" (JStr "") (_safe_json resp));
      mret (if str_empty header_id then body_id else JStr header_id).

(** Exceptions of the request are swallowed. *)
Definition post_quietly (url : string) (payload : object) (hs : list (string * string)) : program unit :=
  settle (send (Post url payload hs) : program meter_response) (fun _ => mret tt).

Definition commit (reservation_id : json) (actual_input_tokens actual_output_tokens : Z) : program unit :=
  cfg ← pure config;
  if negb (enabled cfg) || negb (json_truthy reservation_id) then mret tt
  else post_quietly (gateway_url cfg ++ "/internal/metering/commit")
         [("reservation_id", reservation_id); ("actual_input_tokens", JInt (Z.max 0 actual_input_tokens));
          ("actual_output_tokens", JInt (Z.max 0 actual_output_tokens))]
         [("X-Internal-Auth", secret cfg); ("Content-Type", "application/json")].

Definition refund (reservation_id : json) : program unit :=
  cfg ← pure config;
  if negb (enabled cfg) || negb (json_truthy reservation_id) then mret tt
  else post_quietly (gateway_url cfg ++ "/internal/metering/refund") [("reservation_id", reservation_id)]
         [("X-Internal-Auth", secret cfg); ("Content-Type", "application/json")].
End Metering.
