(* ===== verification/ProcessorService.v ===== *)
(** * The processor pipeline: [engine/processor/service.py]

    with [engine/processor/audit/logger.py], [engine/processor/models/audit.py] and
    [engine/processor/streaming.py].  [process] is what the gateway calls: within a
    time limit it runs the guarded pipeline, which reserves tokens, calls the model
    and streams its reasoning, settles the reservation, parses and maps the answer
    and stores the audit rows.

    Everything the service awaits is a command: the server of the cache, the
    gateway of the metering client, the next piece of a streamed answer, the frames
    and alerts it publishes, the unit of work of the database, clocks and sleeps.
    Parameters are the two builders of the prompts, the JSON decoder and the schema
    validation of the parser, and the text of an exception.  Log lines, counters
    and the files written for debugging, whose failures are ignored, are left
    out. *)

From Stdlib Require Import ZArith Lia Bool Ascii String.
From stdpp Require Import base list strings.
From S2P Require Import Prelude PyFloat PyText PyRepr PyValues Sha256 PyAsync Tasks Codec CredentialCipher RedisCache Idempotency LLMRetry ErrorClassifier ResponseParser OutputMapper Metering.

#[local] Open Scope string_scope.
#[local] Open Scope Z_scope.
#[local] Open Scope list_scope.

(** ** Streaming: [engine/processor/streaming.py] *)

Definition _STREAM_NAMESPACE : string := "etradie:stream:user".

Definition stream_channel_for_user (user_id : string) : res string :=
  if str_empty user_id then Raise (ValueError "stream_channel_for_user requires a non-empty user_id")
  else Ok (_STREAM_NAMESPACE ++ ":" ++ user_id)%string.

(** The frames of the channel. *)
Inductive frame :=
| Status (symbol message : string)
| ReasoningChunk (symbol : string) (chunk : text)
| Pulse (symbol phase message source : string) (completed : bool)
| Final (symbol message : string).

(** ** The reasoning inside a partial answer *)

Definition backslash : Z := 92.
Definition quote : Z := 34.
Definition newline : Z := 10.
Definition reasoning_key : text := quote :: ascii_encode "explainable_reasoning" ++ [quote].

(** The group of the pattern: escaped characters, and any but a quote and a
    backslash. *)
Fixpoint reasoning_body (s : text) : text :=
  match s with
  | [] => []
  | c :: s =>
      if c =? backslash then
        match s with
        | d :: s => if d =? newline then [] else c :: d :: reasoning_body s
        | [] => []
        end
      else if c =? quote then []
      else c :: reasoning_body s
  end.

(** The pattern at the start of [s]: the group it captures. *)
Definition reasoning_at (s : text) : option text :=
  match drop_prefix reasoning_key s with
  | None => None
  | Some s =>
      match skip_space s with
      | c :: s =>
          if c =? 58 then
            match skip_space s with
            | d :: s => if d =? quote then Some (reasoning_body s) else None
            | [] => None
            end
          else None
      | [] => None
      end
  end.

Definition _REASONING_RE : text -> option text := re_search reasoning_at.

(** [s.replace(a + b, by)] for a pair of characters. *)
Fixpoint replace_pair (a b by_ : Z) (s : text) : text :=
  match s with
  | c :: s' =>
      match s' with
      | d :: s'' => if (c =? a) && (d =? b) then by_ :: replace_pair a b by_ s'' else c :: replace_pair a b by_ s'
      | [] => [c]
      end
  | [] => []
  end.

(** Escaped newlines and quotes, in this order. *)
Definition unescape (s : text) : text :=
  replace_pair backslash quote quote (replace_pair backslash 110 newline s).

(** ** Audit rows *)

Record LLMResponse := mk_response {
  response_text : text; response_model : string; provider : string; input_tokens : Z; output_tokens : Z;
  duration_ms : float; stop_reason : string }.

Record AnalysisRecord := mk_analysis_record {
  r_user_id : string; r_analysis_id : string; r_pair : string; r_direction : string; r_setup_grade : string;
  r_confluence_score : float; r_confidence : string; r_proceed_to_module_b : string; r_rr_ratio : option float;
  r_entry_price_low : option float; r_entry_price_high : option float; r_stop_loss_price : option float;
  r_tp1_price : option float; r_tp2_price : option float; r_tp3_price : option float;
  r_trading_style : string; r_session : string; r_llm_provider : string; r_llm_model : string;
  r_status : string; r_error_message : option string; r_duration_ms : float; r_trace_id : option string;
  r_raw_output : object }.

Record AuditLogRecord := mk_audit_record {
  l_user_id : string; l_analysis_id : string; l_pair : string; l_timestamp : datetime;
  l_retrieval_query_summary : string; l_retrieval_strategy : option string; l_retrieval_chunks_count : Z;
  l_retrieval_coverage : bool; l_retrieval_coverage_details : string; l_retrieval_conflicts : bool;
  l_retrieval_conflict_details : string; l_llm_model : string; l_llm_prompt_hash : string; l_llm_input_tokens : Z;
  l_llm_output_tokens : Z; l_llm_duration_ms : float; l_llm_response : object; l_citations : list RAGSourceCitation;
  l_final_direction : string; l_final_grade : string; l_final_confidence : string; l_final_proceed : string;
  l_validation_passed : bool; l_validation_errors : list string; l_trace_id : option string }.

(** [raw_output.get(key, "")] of a field that must be a string. *)
Definition raw_string (key : string) (raw_output : object) : res string :=
  match obj_get key raw_output with
  | None => Ok ""
  | Some (JStr s) => Ok s
  | Some _ => Raise ValidationError
  end.

(** The models drop blanks around strings. *)
Definition build_analysis_record (output : AnalysisOutput) (user_id status : string) (error_message : option string)
    (duration_ms : float) (trace_id : option string) (raw_output : object) : res AnalysisRecord :=
  llm_provider ← raw_string "_llm_provider" raw_output;
  llm_model ← raw_string "_llm_model" raw_output;
  Ok (mk_analysis_record (str_strip user_id) (str_strip (analysis_id output)) (str_strip (pair output))
        (str_strip (direction output)) (str_strip (setup_grade output)) (score (confluence_score output))
        (str_strip (confidence output)) (str_strip (proceed_to_module_b output)) (rr_ratio output)
        (low (entry_zone output)) (high (entry_zone output)) (price (stop_loss output))
        (fst (target (take_profits output) 0)) (fst (target (take_profits output) 1)) (fst (target (take_profits output) 2))
        (str_strip (trading_style output)) (str_strip (session output)) (str_strip llm_provider) (str_strip llm_model)
        (str_strip status) (str_strip <$> error_message) duration_ms (str_strip <$> trace_id) raw_output).

Definition build_audit_log_record (output : AnalysisOutput) (llm_response : LLMResponse) (user_id prompt_hash : string)
    (validation_passed : bool) (validation_errors : list string) (trace_id : option string) : AuditLogRecord :=
  let retrieval := retrieval (audit output) in
  mk_audit_record (str_strip user_id) (str_strip (analysis_id output)) (str_strip (pair output)) (timestamp output)
    (str_strip (query_summary retrieval)) (str_strip <$> strategy_used retrieval) (top_k retrieval)
    (match chunks_returned retrieval with [] => false | _ => true end)
    (str_int (py_len (chunks_returned retrieval)) ++ " chunks returned") false ""
    (str_strip (response_model llm_response)) (str_strip prompt_hash) (input_tokens llm_response) (output_tokens llm_response)
    (duration_ms llm_response) [] (rag_sources output) (str_strip (direction output)) (str_strip (setup_grade output))
    (str_strip (confidence output)) (str_strip (proceed_to_module_b output)) validation_passed
    (map str_strip validation_errors) (str_strip <$> trace_id).

(** [now.strftime('%Y%m%d_%H%M%S')]. *)
Definition strftime_compact (d : datetime) : string :=
  let '(year, month, day) := civil (dt_day d) in
  let t := wall d mod us_per_day in
  zpad 4 year ++ zpad 2 month ++ zpad 2 day ++ "_" ++
  zpad 2 (t / us_per_hour) ++ zpad 2 (t / us_per_minute mod 60) ++ zpad 2 (t / 1000000 mod 60).

Definition build_error_analysis_record (now : datetime) (user_id pair error_message status : string) (duration_ms : float)
    (trace_id : option string) : AnalysisRecord :=
  mk_analysis_record (str_strip user_id) (str_strip ("error_" ++ pair ++ "_" ++ strftime_compact now)) (str_strip pair)
    "NO SETUP" "REJECT" fzero "NO SETUP" "NO" None None None None None None None "" "" "" ""
    (str_strip status) (Some (str_strip error_message)) duration_ms (str_strip <$> trace_id) [].

(** ** Inputs and commands *)

Record ProcessorInput := mk_input {
  symbol : string; ta_analysis : object; macro_analysis : object; retrieved_knowledge : object; metadata : object }.

(** The configuration the service reads; the retries have their own part. *)
Record service_config := mk_service_config {
  retry_config : ProcessorConfig; model_name : string; max_output_tokens : Z; total_timeout_seconds : Z;
  require_citations : bool; persist_audit_logs : bool; uses_platform_key : bool }.

(** What the provider wrote into [usage_out] by the end of a stream; [None] is a
    key that is not there. *)
Record usage := mk_usage { u_input_tokens : option Z; u_output_tokens : option Z; u_finish_reason : option string }.

Inductive piece := Piece (chunk : text) | EndOfStream (usage_out : usage).

Inductive service_cmd :=
| S_redis (c : redis)
| S_sleep (delay : float)
| S_monotonic
| S_unix_time
| S_uuid
| S_random
| S_now
| S_meter (c : meter_cmd)
(** The [i]-th piece of the answer to the prompts. *)
| S_next (system_prompt user_message : text) (i : Z)
| S_publish (channel : string) (message : frame)
(** [asyncio.create_task] of the alert. *)
| S_alert (user_id provider model detail code : string)
| S_uow_enter
| S_save_analysis (r : AnalysisRecord)
| S_save_audit_log (r : AuditLogRecord)
(** The end of the unit of work: commit or rollback. *)
| S_uow_exit (committed : bool).

#[global] Instance service_effect : Effect service_cmd := fun c =>
  match c with
  | S_redis c => reply c
  | S_sleep _ | S_alert _ _ _ _ _ | S_uow_enter | S_save_analysis _ | S_save_audit_log _ | S_uow_exit _ => unit
  | S_monotonic | S_random => float
  | S_unix_time | S_publish _ _ => Z
  | S_uuid => string
  | S_now => datetime
  | S_meter c => reply c
  | S_next _ _ _ => piece
  end.

(** [analysis_output.model_copy(update={"pair": symbol})]. *)
Definition with_pair (symbol : string) (o : AnalysisOutput) : AnalysisOutput :=
  mk_analysis (analysis_id o) symbol (timestamp o) (trading_style o) (session o) (macro_bias o) (dxy_bias o) (cot_signal o)
    (event_risk o) (htf_bias o) (mtf_bias o) (entry_setup o) (wyckoff_phase o) (confluence_score o) (setup_grade o)
    (direction o) (entry_zone o) (stop_loss o) (take_profits o) (rr_ratio o) (confidence o) (proceed_to_module_b o)
    (execution_mode o) (ltf_confirmed o) (explainable_reasoning o) (rag_sources o) (audit o).

Module Service.

(** The injected dependencies that are values: the configuration, the provider of
    the client, the cache, and whether there are a unit of work and alerts. *)
Record t := mk {
  _config : service_config; PROVIDER : string; _cache : option RedisCache.t; _uow_factory : bool; _alert_publisher : bool }.

Definition truthy (k : string) (d : object) : bool := match obj_get k d with Some v => json_truthy v | None => false end.

Definition _validate_context (context : ProcessorInput) : res unit :=
  if negb (json_truthy (JObj (ta_analysis context)))
  then Raise (ProcessorInsufficientDataError "ProcessorInput has empty ta_analysis")
  else if negb (truthy "smc_candidates" (ta_analysis context) || truthy "snd_candidates" (ta_analysis context))
  then Raise (ProcessorInsufficientDataError "ProcessorInput has no SMC or SnD candidates")
  else if negb (json_truthy (JObj (retrieved_knowledge context)))
  then Raise (ProcessorInsufficientDataError "ProcessorInput has empty retrieved_knowledge")
  else Ok tt.

(** The first half of the digest of the two prompts, separated by a line of dashes. *)
Definition compute_prompt_hash (system_prompt user_message : text) : res string :=
  bytes ← utf8_encode (system_prompt ++ newline :: ascii_encode "---" ++ newline :: user_message);
  Ok (String.substring 0 32 (fold_right (fun w acc => (hex 8 w ++ acc)%string) "" (sha256 bytes))).

(** A quarter of the bytes of the message. *)
Definition estimate_input (user_message : text) : res Z :=
  bytes ← utf8_encode user_message;
  Ok (Z.max 0 (py_len bytes / 4)).

Section Pipeline.
(** [build_system_prompt()] and [build_user_message(context)]. *)
Context (build_system_prompt : text) (build_user_message : ProcessorInput -> text).
(** The decoder and the schema of the parser, and the order a set prints in. *)
Context (set_order : list string -> list string) (loads : text -> string + json).
Context (model_validate : object -> list (string * string) + AnalysisOutput).
(** A string as a JSON value; [str(exc)]; the classes of the HTTP library. *)
Context (text_json : text -> json) (str_exn : exn -> string) (is_httpx_error : exn -> bool).
(** The metering client's parameters. *)
Context (fromisoformat : string -> res datetime) (str_json : json -> string) (metering : res MeteringConfig).
(** The cache's decoder and encoder, the conversions of a result. *)
Context (cache_loads : string -> res json) (cache_dumps : json -> res string).
Context (model_dump : ProcessorOutput.t -> json) (of_dict : object -> res ProcessorOutput.t).
(** The number of pieces a stream has at most, and the turns of a waiting request. *)
Context (pieces turns : nat).
Context (self : t).

Notation service := (task service_cmd).

Definition meter {A} (p : prog meter_cmd A) : service A := run_in (fun c => await (S_meter c)) p.

(** *** The model call *)

(** [if stream_channel: await self._cache.publish(stream_channel, message)]. *)
Definition publish (channel : option string) (message : frame) : service unit :=
  match channel with
  | None => mret tt
  | Some channel => _ ← await (S_publish channel message); mret tt
  end.

(** The rest of the stream from piece [i] on, [n] pieces at most. *)
Fixpoint stream (n : nat) (channel : option string) (symbol : string) (system_prompt user_message : text) (i : Z)
    (full_text last_published : text) : service (text * usage) :=
  match n with
  | O => Spin
  | S n =>
      p ← await (S_next system_prompt user_message i);
      match p with
      | EndOfStream usage_out => mret (full_text, usage_out)
      | Piece chunk =>
          let full_text := full_text ++ chunk in
          let current_extracted := match _REASONING_RE full_text with Some g => unescape g | None => [] end in
          if py_len last_published <? py_len current_extracted then
            let new_text := drop (length last_published) current_extracted in
            _ ← publish channel (ReasoningChunk symbol new_text);
            stream n channel symbol system_prompt user_message (i + 1) full_text current_extracted
          else stream n channel symbol system_prompt user_message (i + 1) full_text last_published
      end
  end.

Definition _llm_call (channel : option string) (symbol : string) (system_prompt user_message : text) : service LLMResponse :=
  start_llm ← await S_monotonic;
  _ ← publish channel (Status symbol "Analyzing...");
  out ← stream pieces channel symbol system_prompt user_message 0 [] [];
  let '(full_text, usage_out) := out in
  _ ← publish channel (Pulse symbol "REASONING" "AI decision finalised" "processor" true);
  _ ← publish channel (Final symbol "Analysis Complete");
  now ← await S_monotonic;
  mret (mk_response full_text (model_name (_config self)) (PROVIDER self) (default 0 (u_input_tokens usage_out))
          (default 0 (u_output_tokens usage_out)) (fmul (fsub now start_llm) (of_Z 1000))
          (default "STOP" (u_finish_reason usage_out))).

Definition retried (call : service LLMResponse) : service LLMResponse :=
  run_in (fun c : retry_cmd LLMResponse =>
    match c return service (reply c) with
    | CallModel => call
    | Random => await S_random
    | SleepFor delay => await (S_sleep delay)
    end) (retry_llm_call str_exn (retry_config (_config self))).

(** The alert for a user whose own provider is out of quota. *)
Definition notify_quota (user_id : string) (e : exn) : service unit :=
  if negb (uses_platform_key (_config self)) && _alert_publisher self && negb (str_empty user_id) then
    let classified := classify_llm_failure str_exn is_httpx_error (Some e) in
    if str_in (code classified) [CODE_QUOTA_EXCEEDED; CODE_RATE_LIMITED]
    then _ ← await (S_alert user_id (PROVIDER self) (model_name (_config self)) (str_exn e) (code classified)); mret tt
    else mret tt
  else mret tt.

(** [if reservation_id: await metering.refund(...)]. *)
Definition give_back (reservation_id : json) : service unit :=
  if json_truthy reservation_id then meter (refund metering reservation_id) else mret tt.

(** *** The answer *)

(** The answer decoded for the audit row, with the names of provider and model. *)
Definition raw_dict_of (r : LLMResponse) : res object :=
  let s := text_strip (response_text r) in
  let s := match drop_prefix (fence ++ json_word) s with
           | Some s' => s'
           | None => match drop_prefix fence s with Some s' => s' | None => s end
           end in
  let s := match drop_prefix (rev fence) (rev s) with Some s' => rev s' | None => s end in
  raw ← match loads (text_strip s) with
        | inl _ => Ok [("raw_text", text_json (firstn 4096 (response_text r)))]
        | inr (JObj d) => Ok d
        | inr _ => Raise TypeError
        end;
  Ok (obj_set "_llm_model" (JStr (response_model r)) (obj_set "_llm_provider" (JStr (provider r)) raw)).

(** [async with self._uow_factory() as uow]. *)
Definition with_uow {A} (body : service A) : service A :=
  _ ← await S_uow_enter;
  settle body (fun r =>
    let committed := match r with Ok (Returned _) => true | _ => false end in
    settle (await (S_uow_exit committed)) (fun r' =>
      match r' with
      | Ok (Returned _) => Ret r
      | Ok Cancelled => Ret (Ok Cancelled)
      | Raise e => Ret (Raise e)
      end)).

Definition _persist_success (user_id : string) (analysis_output : AnalysisOutput) (llm_response : LLMResponse)
    (prompt_hash : string) (validation_warnings : list string) (raw_dict : object) (elapsed_ms : float)
    (trace_id : option string) : service unit :=
  if negb (_uow_factory self) then mret tt
  else
    except
      (with_uow
         (record ← value (build_analysis_record analysis_output user_id
            (if String.eqb (direction analysis_output) "NO SETUP" then "no_setup" else "success") None elapsed_ms trace_id raw_dict);
          _ ← await (S_save_analysis record);
          _ ← await (S_save_audit_log (build_audit_log_record analysis_output llm_response user_id prompt_hash
            (match validation_warnings with [] => true | _ => false end) validation_warnings trace_id));
          mret tt))
      (fun _ => mret tt).

Definition _persist_error (user_id pair error_message status : string) (duration_ms : float) (trace_id : option string) :
    service unit :=
  if negb (_uow_factory self) then mret tt
  else
    except
      (with_uow
         (now ← await S_now;
          _ ← await (S_save_analysis (build_error_analysis_record now user_id pair error_message status duration_ms trace_id));
          mret tt))
      (fun _ => mret tt).

Definition truncated (r : LLMResponse) (finish_reason : string) : exn :=
  LLMTruncatedError ("LLM output was truncated (finish_reason=" ++ finish_reason ++ "). The model generated " ++
    str_int (output_tokens r) ++ " tokens out of " ++ str_int (max_output_tokens (_config self)) ++
    " allowed before the provider terminated the response. This is NOT a parsing error — the LLM provider stopped generating.").

(** Steps 6 to 9: from a complete answer to the output. *)
Definition conclude (context : ProcessorInput) (user_id prompt_hash : string) (trace_id : option string) (start : float)
    (llm_response : LLMResponse) : service ProcessorOutput.t :=
  parsed ← value (parse_llm_response set_order loads model_validate (response_text llm_response)
                    (require_citations (_config self)));
  let '(analysis_output, validation_warnings) := parsed in
  let analysis_output := with_pair (symbol context) analysis_output in
  raw_dict ← value (raw_dict_of llm_response);
  processor_output ← value (map_to_processor_output analysis_output (Some raw_dict));
  now ← await S_monotonic;
  let elapsed_ms := fmul (fsub now start) (of_Z 1000) in
  _ ← (if persist_audit_logs (_config self)
       then _persist_success user_id analysis_output llm_response prompt_hash validation_warnings raw_dict elapsed_ms trace_id
       else mret tt);
  mret processor_output.

Definition _execute (context : ProcessorInput) (user_id : string) (trace_id : option string) (start : float) :
    service ProcessorOutput.t :=
  _ ← value (_validate_context context);
  let system_prompt := build_system_prompt in
  let user_message := build_user_message context in
  prompt_hash ← value (compute_prompt_hash system_prompt user_message);
  estimated_input ← value (estimate_input user_message);
  reservation_id ←
    (if uses_platform_key (_config self)
     then meter (reserve fromisoformat str_json metering user_id (PROVIDER self) (model_name (_config self)) estimated_input
                   (max_output_tokens (_config self)) (default "" trace_id))
     else mret (JStr ""));
  channel ← (match _cache self with
             | Some _ => if str_empty user_id then mret None else c ← value (stream_channel_for_user user_id); mret (Some c)
             | None => mret None
             end);
  llm_response ←
    except (retried (_llm_call channel (symbol context) system_prompt user_message))
      (fun llm_exc => _ ← give_back reservation_id; _ ← notify_quota user_id llm_exc; raise llm_exc);
  let finish_reason := if str_empty (stop_reason llm_response) then "STOP" else stop_reason llm_response in
  if negb (str_in finish_reason ["STOP"; "stop"]) then
    _ ← give_back reservation_id;
    raise (truncated llm_response finish_reason)
  else
    _ ← (if json_truthy reservation_id
         then meter (commit metering reservation_id (input_tokens llm_response) (output_tokens llm_response))
         else mret tt);
    conclude context user_id prompt_hash trace_id start llm_response.

(** *** The guard, with cancellation *)

Definition guard {A} (p : prog (cmd (pipeline ProcessorInput ProcessorOutput.t)) A) (execute : service ProcessorOutput.t) : service A :=
  run_in (fun c : cmd (pipeline ProcessorInput ProcessorOutput.t) =>
    match c return service (reply c) with
    | Redis c => await (S_redis c)
    | Sleep delay => await (S_sleep delay)
    | Monotonic => await S_monotonic
    | UnixTime => await S_unix_time
    | Uuid => await S_uuid
    | Call _ => execute
    end) p.

Definition _execute_guarded (context : ProcessorInput) (user_id : string) (trace_id : option string) (start : float) :
    service ProcessorOutput.t :=
  let execute := _execute context user_id trace_id start in
  match _cache self with
  | None => execute
  | Some cache =>
      if str_empty user_id then execute
      else
        prompt_hash ← value (compute_prompt_hash build_system_prompt (build_user_message context));
        let digest := compute_digest user_id (symbol context) prompt_hash in
        cached ← guard (ProcessorIdempotency.check_cached cache_loads str_exn of_dict cache digest) execute;
        match cached with
        | Some o => mret o
        | None =>
            handle ← guard (ProcessorIdempotency.acquire cache digest) execute;
            match handle with
            | None =>
                owner_result ← guard (ProcessorIdempotency.await_result cache_loads str_exn of_dict cache turns digest) execute;
                match owner_result with
                | Some o => mret o
                | None => raise LLMDuplicateSuppressedError
                end
            | Some handle =>
                finally
                  (result ← execute;
                   _ ← guard (ProcessorIdempotency.store_result cache_dumps model_dump cache digest result) execute;
                   mret result)
                  (guard (ProcessorIdempotency.release cache handle) execute)
            end
        end
  end.

(** *** The entry point *)

Definition is_processor_error (e : exn) : bool :=
  match e with ProcessorError _ | ProcessorInsufficientDataError _ => true | _ => is_llm_error e end.

Definition process (context : ProcessorInput) (user_id : string) (trace_id : option string) : service ProcessorOutput.t :=
  start ← await S_monotonic;
  let fail (status error_message : string) (e : exn) : service ProcessorOutput.t :=
    now ← await S_monotonic;
    _ ← _persist_error user_id (symbol context) error_message status (fmul (fsub now start) (of_Z 1000)) trace_id;
    raise e in
  let timed_out := ("Processor timed out after " ++ str_int (total_timeout_seconds (_config self)) ++ "s")%string in
  except (timeout (_execute_guarded context user_id trace_id start))
    (fun e =>
       match e with
       | QuotaExceededError _ _ | MeteringUnavailableError _ _ => raise e
       | TimeoutError => fail "timeout" timed_out (ProcessorError timed_out)
       | ProcessorInsufficientDataError _ => _ ← await S_monotonic; raise e
       | _ =>
           if is_processor_error e then fail "llm_error" (str_exn e) e
           else fail "llm_error" (str_exn e) (ProcessorError ("Processor failed: " ++ str_exn e))
       end).
End Pipeline.
End Service.
