(* ===== verification/ServiceFacts.v ===== *)
(** * What the processor pipeline does on every run

    [SettleFacts]: the tokens reserved for a call of the model are settled exactly
    once, whatever the gateway, the provider, the cache and the database reply.
    [StreamFacts]: the reasoning published piece by piece.  [ContractFacts]: what
    [process] raises and which error rows it writes.  [GuardedFacts]: without
    cancellation the guard is the one of the interleaving model. *)

From Stdlib Require Import ZArith Lia Bool Ascii String.
From stdpp Require Import base list strings.
From S2P Require Import Prelude PyFloat PyText PyRepr PyValues Sha256 PyAsync Tasks Codec CredentialCipher RedisCache Idempotency LLMRetry ErrorClassifier ResponseParser RuleFacts OutputMapper Metering ProcessorService.

#[local] Open Scope string_scope.
#[local] Open Scope Z_scope.
#[local] Open Scope list_scope.

Notation trace := (list (exchange (awaited service_cmd))).
Notation service := (task service_cmd).

(** ** What a run sends *)

(** The requests to the metering gateway, in order. *)
Definition posts_of (ev : exchange (awaited service_cmd)) : list (string * object) :=
  match ev with Ev c _ => match c with Wait (S_meter (Post url payload _)) => [(url, payload)] | _ => [] end end.
Definition posts (s : trace) : list (string * object) := flat_map posts_of s.

(** The pieces the model's streams gave, in order. *)
Definition pieces_at (ev : exchange (awaited service_cmd)) : list piece :=
  match ev with
  | Ev c r =>
      match c return res (reply c) -> list piece with
      | Wait (S_next _ _ _) => fun r => match r with Ok (Returned p) => [p] | _ => [] end
      | _ => fun _ => []
      end r
  end.
Definition pieces_of (s : trace) : list piece := flat_map pieces_at s.

(** Whether the model was asked. *)
Definition asks (ev : exchange (awaited service_cmd)) : bool :=
  match ev with Ev c _ => match c with Wait (S_next _ _ _) => true | _ => false end end.
Definition asked (s : trace) : bool := existsb asks s.

Lemma posts_app s t : posts (s ++ t) = posts s ++ posts t.
Proof. apply flat_map_app. Qed.
Lemma pieces_app s t : pieces_of (s ++ t) = pieces_of s ++ pieces_of t.
Proof. apply flat_map_app. Qed.
Lemma asked_app s t : asked (s ++ t) = asked s || asked t.
Proof. apply existsb_app. Qed.

(** ** Specifications of tasks *)

Section Spec.
Context (replies : forall c : awaited service_cmd, res (reply c) -> Prop).

(** Every run ends, with a value as [V] says or an exception as [X] says. *)
Definition spec {A} (p : service A) (V : trace -> A -> Prop) (X : trace -> exn -> Prop) : Prop :=
  does replies p (fun s r => match r with Ok (Returned a) => V s a | Ok Cancelled => False | Raise e => X s e end).

Lemma spec_weaken {A} (p : service A) V X (V' : trace -> A -> Prop) (X' : trace -> exn -> Prop) :
  spec p V X -> (forall s a, V s a -> V' s a) -> (forall s e, X s e -> X' s e) -> spec p V' X'.
Proof. intros Hp HV HX. eapply task_runs_weaken; [exact Hp|]. intros s [[a|]|e]; auto. Qed.

Lemma spec_bind {A B} (p : service A) (f : A -> service B) V X V' X' :
  spec p V X ->
  (forall s a, V s a -> spec (f a) (fun s' b => V' (s ++ s') b) (fun s' e => X' (s ++ s') e)) ->
  (forall s e, X s e -> X' s e) ->
  spec (p ≫= f) V' X'.
Proof.
  intros Hp Hf HX. eapply task_runs_bind; [exact Hp| | |]; cbn beta iota.
  - intros s a Ha. apply (Hf s a Ha).
  - done.
  - exact HX.
Qed.

Lemma spec_except {A} (p : service A) h V X V' X' :
  spec p V X -> (forall s a, V s a -> V' s a) ->
  (forall s e, X s e -> spec (h e) (fun s' b => V' (s ++ s') b) (fun s' e => X' (s ++ s') e)) ->
  spec (except p h) V' X'.
Proof.
  intros Hp HV Hh. eapply runs_except; [exact Hp| |]; cbn beta iota.
  - intros s [a|]; [apply HV|done].
  - intros s e He. apply (Hh s e He).
Qed.

Lemma spec_ret {A} (a : A) (V : trace -> A -> Prop) X : V [] a -> spec (mret a) V X.
Proof. done. Qed.

Lemma spec_raise {A} e V (X : trace -> exn -> Prop) : X [] e -> spec (raise e : service A) V X.
Proof. done. Qed.

Lemma spec_value {A} (r : res A) (V : trace -> A -> Prop) (X : trace -> exn -> Prop) :
  (forall a, r = Ok a -> V [] a) -> (forall e, r = Raise e -> X [] e) -> spec (value r) V X.
Proof. intros HV HX. destruct r; [by apply HV|by apply HX]. Qed.

(** A command that may fail. *)
Lemma spec_await (c : service_cmd) (V : trace -> reply c -> Prop) (X : trace -> exn -> Prop) :
  (forall r, replies (Wait c) r -> r <> Ok Cancelled) ->
  (forall v, replies (Wait c) (Ok (Returned v)) -> V [Ev (Wait c) (Ok (Returned v))] v) ->
  (forall e, replies (Wait c) (Raise e) -> X [Ev (Wait c) (Raise e)] e) ->
  spec (await c) V X.
Proof. intros Hc HV HX r Hr. destruct r as [[v|]|e]; [by apply HV|by destruct (Hc _ Hr)|by apply HX]. Qed.
End Spec.

(** ** Settlement of reservations *)

Module SettleFacts.
Import Service.
Section Facts.
Context (build_system_prompt : text) (build_user_message : ProcessorInput -> text).
Context (set_order : list string -> list string) (loads : text -> string + json).
Context (model_validate : object -> list (string * string) + AnalysisOutput).
Context (text_json : text -> json) (str_exn : exn -> string) (is_httpx_error : exn -> bool).
Context (fromisoformat : string -> res datetime) (str_json : json -> string) (cfg : MeteringConfig).
Context (pieces : nat) (self : t).

(** The environment: nothing is cancelled, the clock does not raise, and no stream
    has more than [pieces] pieces. *)
Definition behaves (c : awaited service_cmd) : res (reply c) -> Prop :=
  match c with
  | Wait c => fun r => r <> Ok Cancelled /\
      match c return res (signal (reply c)) -> Prop with
      | S_monotonic => fun r => exists now, r = Ok (Returned now)
      | S_next _ _ i => fun r => forall chunk, r = Ok (Returned (Piece chunk)) -> i + 1 < Z.of_nat pieces
      | _ => fun _ => True
      end r
  end.

Notation spec := (spec behaves).
Notation execute := (_execute build_system_prompt build_user_message set_order loads model_validate text_json str_exn
  is_httpx_error fromisoformat str_json (Ok cfg) pieces self).

Definition quiet (s : trace) : Prop := posts s = [].
Definition silent (s : trace) : Prop := posts s = [] /\ pieces_of s = [].

Lemma publish_spec ch m : spec (publish ch m) (fun s _ => silent s) (fun s _ => quiet s).
Proof.
  destruct ch as [ch|]; [|by apply spec_ret]. eapply spec_bind; [apply spec_await| |].
  - by intros r [Hr _].
  - intros v _. instantiate (1 := fun s _ => silent s). done.
  - intros e _. instantiate (1 := fun s _ => quiet s). done.
  - intros s a [Hs Hp]. apply spec_ret. split; [by rewrite posts_app, Hs|by rewrite pieces_app, Hp].
  - done.
Qed.

(** The pieces of [s] are a whole stream. *)
Definition streamed (s : trace) (full_text : text) (u : usage) : Prop :=
  exists chunks, pieces_of s = map Piece chunks ++ [EndOfStream u] /\ full_text = List.concat chunks.

Lemma stream_spec ch sym sp um n : forall i full last, (0 < n)%nat -> i + Z.of_nat n = Z.of_nat pieces ->
  spec (stream n ch sym sp um i full last)
    (fun s out => quiet s /\ exists rest, streamed s rest (snd out) /\ fst out = full ++ rest) (fun s _ => quiet s).
Proof.
  induction n as [|n IH]; intros i full last Hpos Hn; [lia|]. cbn [stream].
  eapply spec_bind; [apply spec_await| |]; [by intros r [Hr _]|..].
  - intros p Hp. instantiate (1 := fun s p => s = [Ev (Wait (S_next sp um i)) (Ok (Returned p))] /\
      (forall chunk, p = Piece chunk -> i + 1 < Z.of_nat pieces)).
    split; [done|]. intros chunk ->. by apply (proj2 Hp chunk).
  - intros e _. instantiate (1 := fun s _ => quiet s). done.
  - intros s p [-> Hp]. destruct p as [chunk|u].
    + specialize (Hp chunk eq_refl). cbv zeta.
      assert (Hrec : forall last, spec (stream n ch sym sp um (i + 1) (full ++ chunk) last)
        (fun s out => quiet s /\ exists rest, streamed s rest (snd out) /\ fst out = (full ++ chunk) ++ rest) (fun s _ => quiet s))
        by (intros; apply IH; lia).
      assert (Hstep : forall s t full' u, silent s -> quiet t /\ (exists rest, streamed t rest u /\ full' = (full ++ chunk) ++ rest) ->
        quiet (Ev (Wait (S_next sp um i)) (Ok (Returned (Piece chunk))) :: s ++ t) /\
        exists rest, streamed (Ev (Wait (S_next sp um i)) (Ok (Returned (Piece chunk))) :: s ++ t) rest u /\ full' = full ++ rest).
      { intros s t full' u [Hs1 Hs2] (Ht & rest & (chunks & Ec & ->) & ->). split.
        - unfold quiet in *. cbn. fold (posts (s ++ t)). by rewrite posts_app, Hs1, Ht.
        - exists (chunk ++ List.concat chunks). split; [|by rewrite app_assoc]. exists (chunk :: chunks).
          split; [|done]. cbn. fold (pieces_of (s ++ t)). by rewrite pieces_app, Hs2, Ec. }
      destruct (_ <? _).
      * eapply spec_bind; [apply publish_spec| |].
        -- intros s ? Hs. eapply spec_weaken; [apply Hrec| |].
           ++ intros t [full' u] Ht. exact (Hstep s t full' u Hs Ht).
           ++ intros t e Ht. unfold quiet in *. cbn. fold (posts (s ++ t)). by rewrite posts_app, (proj1 Hs), Ht.
        -- intros s e Hs. unfold quiet in *. by cbn.
      * eapply spec_weaken; [apply Hrec| |].
        -- intros t [full' u] Ht. exact (Hstep [] t full' u (conj eq_refl eq_refl) Ht).
        -- intros t e Ht. unfold quiet in *. by cbn.
    + apply spec_ret. split; [done|]. exists []. split; [by exists []|by rewrite app_nil_r].
  - done.
Qed.

Lemma silent_app s t : silent s -> silent t -> silent (s ++ t).
Proof. intros [H1 H2] [H3 H4]. split; [by rewrite posts_app, H1, H3|by rewrite pieces_app, H2, H4]. Qed.

Lemma quiet_app s t : quiet s -> quiet t -> quiet (s ++ t).
Proof. unfold quiet. intros H1 H2. by rewrite posts_app, H1, H2. Qed.

Lemma streamed_in s t r ft u : silent s -> silent r -> streamed t ft u -> streamed (s ++ t ++ r) ft u.
Proof.
  intros [_ Hs] [_ Hr] (chunks & Ec & E). exists chunks. split; [|done]. by rewrite !pieces_app, Hs, Hr, Ec, app_nil_r.
Qed.

Lemma silent_quiet s : silent s -> quiet s.
Proof. by intros [? _]. Qed.

Lemma await_silent (c : service_cmd) :
  (forall r, silent [Ev (Wait c) r]) -> spec (await c) (fun s _ => silent s) (fun s _ => quiet s).
Proof. intros Hc. apply spec_await; [by intros r [Hr _]|auto|]. intros e _. apply silent_quiet, Hc. Qed.

(** The response [v] is what a whole stream in [s] gave. *)
Definition called (s : trace) (v : LLMResponse) : Prop :=
  exists u, streamed s (response_text v) u /\ input_tokens v = default 0 (u_input_tokens u) /\
    output_tokens v = default 0 (u_output_tokens u) /\ stop_reason v = default "STOP" (u_finish_reason u).

(** A part without requests to the gateway, and then the rest. *)
Lemma spec_quiet {A B} (p : service A) (f : A -> service B) (U : trace -> A -> Prop) (V : trace -> B -> Prop) :
  spec p U (fun s _ => quiet s) -> (forall s a, U s a -> quiet s) ->
  (forall a s, U s a -> spec (f a) (fun t b => V (s ++ t) b) (fun t _ => quiet t)) ->
  spec (p ≫= f) V (fun s _ => quiet s).
Proof.
  intros Hp HU Hf. eapply spec_bind; [exact Hp| |done]. intros s a Hs. eapply spec_weaken; [by apply (Hf a s)|done|].
  intros t e Ht. apply quiet_app; [by eapply HU|done].
Qed.

Lemma spec_silent {A B} (p : service A) (f : A -> service B) (V : trace -> B -> Prop) :
  spec p (fun s _ => silent s) (fun s _ => quiet s) ->
  (forall a s, silent s -> spec (f a) (fun t b => V (s ++ t) b) (fun t _ => quiet t)) ->
  spec (p ≫= f) V (fun s _ => quiet s).
Proof. intros Hp. apply spec_quiet; [exact Hp|]. intros s a. apply silent_quiet. Qed.

Hypothesis some_piece : (0 < pieces)%nat.

Lemma call_spec ch sym sp um :
  spec (_llm_call pieces self ch sym sp um) (fun s v => quiet s /\ called s v) (fun s _ => quiet s).
Proof.
  unfold _llm_call. apply spec_silent; [by apply await_silent|]. intros t0 s0 H0.
  apply spec_silent; [apply publish_spec|]. intros _ s1 H1.
  eapply spec_quiet; [apply (stream_spec ch sym sp um pieces 0); lia|by intros ? ? [? _]|].
  intros out s2 (H2 & rest & Hst & Eo). destruct out as [ft u]. cbn [fst snd app] in *. subst ft.
  apply spec_silent; [apply publish_spec|]. intros _ s3 H3.
  apply spec_silent; [apply publish_spec|]. intros _ s4 H4.
  apply spec_silent; [by apply await_silent|]. intros now s5 H5.
  apply spec_ret. split.
  - unfold quiet in *. rewrite !posts_app, H2. destruct H0 as [-> _], H1 as [-> _], H3 as [-> _], H4 as [-> _], H5 as [-> _]. done.
  - exists u. split; [|done]. cbn [response_text].
    replace (s0 ++ s1 ++ s2 ++ s3 ++ s4 ++ s5 ++ []) with ((s0 ++ s1) ++ s2 ++ (s3 ++ s4 ++ s5)) by (by rewrite app_nil_r, <- app_assoc).
    apply streamed_in; [by apply silent_app| |done]. apply silent_app; [done|by apply silent_app].
Qed.

(** The response the retries return is the one of the last call. *)
Lemma retried_spec (call : service LLMResponse) :
  spec call (fun s v => quiet s /\ called s v) (fun s _ => quiet s) ->
  spec (retried str_exn self call)
    (fun s v => quiet s /\ exists s1 s2, s = s1 ++ s2 /\ called s2 v) (fun s _ => quiet s).
Proof.
  intros Hcall. unfold retried, retry_llm_call. generalize (None : option exn) as last.
  induction (py_range 0 (max_retries (retry_config (_config self)) + 1)) as [|k todo IH]; intros last; [done|].
  cbn [llm_attempts run_in]. eapply runs_settle; [exact Hcall|]. intros s [[v|]|e] Hs; [|done|].
  - destruct Hs as [Hq Hc]. cbn. rewrite app_nil_r. split; [done|]. by exists [], s.
  - destruct (negb (_is_retryable str_exn e)); [cbn; by rewrite app_nil_r|].
    destruct (max_retries _ <=? k); [cbn; by rewrite app_nil_r|].
    cbn [mbind prog_bind settle send run_in await]. cbn [runs].
    assert (Hone : forall c r, quiet [Ev (Wait c) r] -> quiet (s ++ [Ev (Wait c) r])) by (intros; by apply quiet_app).
    intros [[x|]|e1] [Hr _]; [|done|by apply Hone].
    destruct (_compute_delay _ _ _) as [delay|e1]; cbn [pure mbind prog_bind settle run_in]; [|by apply Hone].
    intros [[u|]|e1] [Hr' _]; [|done|]; cbn beta iota.
    + eapply task_runs_weaken; [apply (IH (Some e))|]. intros t [[v|]|e2] Ht; [|done|].
      * destruct Ht as (Hq & s1 & s2 & -> & Hc). split; [by apply quiet_app|].
        eexists (s ++ _ :: _ :: s1), s2. split; [by rewrite <- app_assoc|done].
      * by apply quiet_app.
    + by apply quiet_app.
Qed.

(** *** Parts that touch neither the gateway nor the model *)

Definition mute {A} (p : service A) : Prop := spec p (fun s _ => silent s) (fun s _ => silent s).

Lemma mute_await (c : service_cmd) : (forall r, silent [Ev (Wait c) r]) -> mute (await c).
Proof. intros Hc. apply spec_await; [by intros r [Hr _]|auto|auto]. Qed.

Lemma clock_spec : spec (await S_monotonic) (fun s _ => silent s) (fun _ _ => False).
Proof. apply spec_await; [by intros r [Hr _]|done|]. by intros e [_ [now Hn]]. Qed.

Lemma mute_value {A} (r : res A) : mute (value r).
Proof. by apply spec_value. Qed.

Lemma mute_ret {A} (a : A) : mute (mret a).
Proof. done. Qed.

Lemma mute_bind {A B} (p : service A) (f : A -> service B) : mute p -> (forall a, mute (f a)) -> mute (p ≫= f).
Proof.
  intros Hp Hf. eapply spec_bind; [exact Hp| |done]. intros s a Hs.
  eapply spec_weaken; [apply Hf| |]; intros; by apply silent_app.
Qed.

Lemma mute_uow {A} (body : service A) : mute body -> mute (with_uow body).
Proof.
  intros Hb. apply mute_bind; [by apply mute_await|]. intros _. eapply runs_settle; [exact Hb|].
  intros s [[a|]|e] Hs; [|done|]; cbn beta iota in Hs |- *; intros [[u|]|e'] [Hr _]; try done; by apply silent_app.
Qed.

(** Failures of the database are swallowed. *)
Lemma swallowed (p : service unit) : mute p -> spec (except p (fun _ => mret tt)) (fun s _ => silent s) (fun _ _ => False).
Proof. intros Hp. eapply spec_except; [exact Hp|done|]. intros s e Hs. apply spec_ret. by rewrite app_nil_r. Qed.

Lemma persist_success_spec user o resp h ws raw ms tid :
  spec (_persist_success self user o resp h ws raw ms tid) (fun s _ => silent s) (fun _ _ => False).
Proof.
  unfold _persist_success. destruct (negb _); [done|]. apply swallowed, mute_uow.
  apply mute_bind; [apply mute_value|]. intros r. apply mute_bind; [by apply mute_await|]. intros _.
  apply mute_bind; [by apply mute_await|]. intros _. apply mute_ret.
Qed.

(** The output a complete answer stands for. *)
Definition answer (context : ProcessorInput) (r : LLMResponse) : res ProcessorOutput.t :=
  parsed ← parse_llm_response set_order loads model_validate (response_text r) (require_citations (_config self));
  raw_dict ← raw_dict_of loads text_json r;
  map_to_processor_output (with_pair (symbol context) (fst parsed)) (Some raw_dict).

Lemma conclude_spec context user h tid start r :
  spec (conclude set_order loads model_validate text_json self context user h tid start r)
    (fun s o => silent s /\ answer context r = Ok o) (fun s e => silent s /\ answer context r = Raise e).
Proof.
  unfold conclude, answer. destruct (parse_llm_response _ _ _ _ _) as [[o ws]|e]; [|done].
  cbn [value fmap res_fmap mbind task_bind settle res_bind fst].
  destruct (raw_dict_of _ _ _) as [raw|e]; [|done]. cbn [value fmap res_fmap mbind task_bind settle res_bind].
  destruct (map_to_processor_output _ _) as [out|e]; [|done]. cbn [value fmap res_fmap mbind task_bind settle res_bind].
  eapply spec_bind; [apply clock_spec| |done]. intros s now Hs.
  eapply (spec_bind _ _ _ (fun s _ => silent s) (fun _ _ => False)); [|intros t u Ht|done].
  - destruct (persist_audit_logs _); [apply persist_success_spec|done].
  - apply spec_ret. split; [|done]. rewrite app_nil_r. by apply silent_app.
Qed.

(** *** The gateway *)

Hypothesis metered : enabled cfg = true.

Definition reserve_post (user provider model trace : string) (estimate max_output : Z) : string * object :=
  ((gateway_url cfg ++ "/internal/metering/reserve")%string,
   [("provider", JStr provider); ("model", JStr model); ("estimated_input_tokens", JInt (Z.max 0 estimate));
    ("max_output_tokens", JInt (Z.max 1 max_output)); ("trace_id", JStr trace)]).
Definition refund_post (id : json) : string * object :=
  ((gateway_url cfg ++ "/internal/metering/refund")%string, [("reservation_id", id)]).
Definition commit_post (id : json) (i o : Z) : string * object :=
  ((gateway_url cfg ++ "/internal/metering/commit")%string,
   [("reservation_id", id); ("actual_input_tokens", JInt (Z.max 0 i)); ("actual_output_tokens", JInt (Z.max 0 o))]).

Lemma commit_spec id i o : json_truthy id = true ->
  spec (meter (commit (Ok cfg) id i o)) (fun s _ => posts s = [commit_post id i o] /\ pieces_of s = []) (fun _ _ => False).
Proof.
  intros Hid. unfold commit. cbn [pure mbind prog_bind settle]. rewrite metered, Hid. cbn [negb orb].
  intros [[r|]|e] [Hr _]; [done|done|done].
Qed.

Lemma give_back_spec id : json_truthy id = true ->
  spec (give_back (Ok cfg) id) (fun s _ => posts s = [refund_post id] /\ pieces_of s = []) (fun _ _ => False).
Proof.
  intros Hid. unfold give_back, refund. rewrite Hid. cbn [pure mbind prog_bind settle]. rewrite metered. cbn [negb orb].
  intros [[r|]|e] [Hr _]; [done|done|done].
Qed.

(** The first request was answered with the reservation [id]. *)
Definition granted (s : trace) (id : json) : Prop :=
  exists url payload hs resp body_id,
    s = [Ev (Wait (S_meter (Post url payload hs))) (Ok (Returned resp))] /\ 200 <= status_code resp < 300 /\
    body_get "reservation_id" (JStr "") (_safe_json resp) = Ok body_id /\
    id = (let header_id := str_strip (header_or "X-Reservation-Id" "" resp) in
          if str_empty header_id then body_id else JStr header_id).

(** Reading the retry delay of a refusal asks the wall clock at most. *)
Lemma retry_after_spec resets header :
  spec (meter (_retry_after_seconds fromisoformat resets header)) (fun s n => silent s /\ asked s = false /\ 1 <= n) (fun _ _ => False).
Proof.
  assert (Hdflt : 1 <= (if str_empty header then 60 else match int_of_str header with Ok n => Z.max 1 n | Raise _ => 60 end))
    by (repeat case_match; lia).
  unfold _retry_after_seconds, seconds_until. destruct (json_truthy resets); [|by cbn].
  destruct (match resets with JStr _ => _ | _ => _ end) as [dt|e]; [|by cbn].
  cbn [pure mbind prog_bind settle send meter run_in await].
  intros [[now|]|e] [Hr _]; [|done|by cbn].
  destruct (HttpClient.HttpClient.seconds_between dt now) as [delta|e]; [|by cbn].
  cbn [pure mbind prog_bind settle run_in]. destruct (FloatFloor.py_int delta) as [n|e]; [|by cbn].
  cbn. split; [done|]. split; [done|lia].
Qed.

Lemma reserve_spec user provider model estimate max_output tid : str_empty user = false ->
  spec (meter (reserve fromisoformat str_json (Ok cfg) user provider model estimate max_output tid))
    (fun s id => granted s id /\ posts s = [reserve_post user provider model tid estimate max_output])
    (fun s _ => posts s = [reserve_post user provider model tid estimate max_output] /\ asked s = false).
Proof.
  intros Hu. unfold reserve. cbn [pure mbind prog_bind settle]. rewrite metered, Hu. cbn [negb].
  cbn [send mbind prog_bind settle meter run_in await]. intros [[resp|]|e] [Hr _]; [|done|done]. cbn beta iota.
  destruct (status_code resp =? 429).
  - unfold quota_exceeded.
    destruct (body_get "dimension" _ _) as [dim|e]; [|done]. cbn [pure mbind prog_bind settle].
    destruct (body_get "limit" _ _ ≫= _) as [lim|e]; [|done]. cbn [pure mbind prog_bind settle].
    destruct (body_get "used" _ _ ≫= _) as [used|e]; [|done]. cbn [pure mbind prog_bind settle].
    destruct (body_get "requested" _ _ ≫= _) as [req|e]; [|done]. cbn [pure mbind prog_bind settle].
    destruct (body_get "resets_at" _ _) as [at_|e]; [|done]. cbn [pure mbind prog_bind settle].
    eapply runs_run_settle; [apply retry_after_spec| | |]; try done. intros s n (Hs & Ha & _). cbn. rewrite !app_nil_r.
    fold (posts s) (asked s). by rewrite (proj1 Hs).
  - destruct (status_code resp =? 503).
    + eapply runs_run_settle; [apply retry_after_spec| | |]; try done. intros s n (Hs & Ha & _). cbn. rewrite !app_nil_r.
      fold (posts s) (asked s). by rewrite (proj1 Hs).
    + assert (Hst : (if status_code resp =? 200 then Ok tt else raise_for_status resp) = Ok tt -> 200 <= status_code resp < 300).
      { unfold raise_for_status. destruct (Z.eqb_spec (status_code resp) 200); [lia|].
        destruct (_ && _) eqn:E; [|done]. apply andb_true_iff in E as [? ?]. zbool. lia. }
      destruct (if status_code resp =? 200 then _ else _) as [[]|e]; [|done]. cbn [pure mbind prog_bind settle].
      destruct (body_get _ _ _) as [b|e] eqn:Eb; [|done]. cbn. split; [|done]. unfold granted. by eauto 12.
Qed.

Definition finish_of (r : LLMResponse) : string := if str_empty (stop_reason r) then "STOP" else stop_reason r.
Definition complete (r : LLMResponse) : bool := str_in (finish_of r) ["STOP"; "stop"].

(** What follows the reservation [id]: a refund where the call failed or the
    answer was cut off, a commit of the tokens of a complete answer otherwise. *)
Definition settled (context : ProcessorInput) (id : json) (s : trace) (r : res ProcessorOutput.t) : Prop :=
  if json_truthy id then
    (posts s = [refund_post id] /\ exists e, r = Raise e) \/
    (exists v s1 s2 s3, s = s1 ++ s2 ++ s3 /\ called s2 v /\ complete v = true /\
       posts s = [commit_post id (input_tokens v) (output_tokens v)] /\ r = answer context v)
  else posts s = [].

(** The steps after the reservation. *)
Definition after_reservation (context : ProcessorInput) (user prompt_hash : string) (tid : option string) (start : float)
    (ch : option string) (id : json) : service ProcessorOutput.t :=
  llm_response ←
    except (retried str_exn self (_llm_call pieces self ch (symbol context) build_system_prompt (build_user_message context)))
      (fun llm_exc => _ ← give_back (Ok cfg) id; _ ← notify_quota str_exn is_httpx_error self user llm_exc; raise llm_exc);
  let finish_reason := if str_empty (stop_reason llm_response) then "STOP" else stop_reason llm_response in
  if negb (str_in finish_reason ["STOP"; "stop"]) then
    _ ← give_back (Ok cfg) id;
    raise (truncated self llm_response finish_reason)
  else
    _ ← (if json_truthy id then meter (commit (Ok cfg) id (input_tokens llm_response) (output_tokens llm_response)) else mret tt);
    conclude set_order loads model_validate text_json self context user prompt_hash tid start llm_response.

Lemma refund_or_not id : spec (give_back (Ok cfg) id)
  (fun s _ => posts s = if json_truthy id then [refund_post id] else []) (fun _ _ => False).
Proof.
  destruct (json_truthy id) eqn:Hid.
  - eapply spec_weaken; [by apply give_back_spec| |done]. by intros s a [? _].
  - unfold give_back. by rewrite Hid.
Qed.

Lemma notify_spec user e : mute (notify_quota str_exn is_httpx_error self user e).
Proof.
  unfold notify_quota. destruct (_ && _ && _); [|apply mute_ret]. cbv zeta. destruct (str_in _ _); [|apply mute_ret].
  apply mute_bind; [by apply mute_await|]. intros _. apply mute_ret.
Qed.

Lemma after_reservation_spec context user h tid start ch id :
  spec (after_reservation context user h tid start ch id)
    (fun s o => settled context id s (Ok o)) (fun s e => settled context id s (Raise e)).
Proof.
  unfold after_reservation.
  eapply (spec_bind _ _ _ (fun s v => quiet s /\ exists s1 s2, s = s1 ++ s2 /\ called s2 v)
    (fun s e => posts s = if json_truthy id then [refund_post id] else [])).
  - eapply spec_except; [apply retried_spec, call_spec|done|]. intros s e Hs.
    eapply spec_bind; [apply refund_or_not| |done]. intros s1 ? H1.
    eapply spec_bind; [apply notify_spec| |].
    + intros s2 ? [H2 _]. apply spec_raise. cbn beta. rewrite !posts_app, Hs, H1, H2. cbn. by rewrite app_nil_r.
    + intros s2 e2 [H2 _]. cbn beta. rewrite !posts_app, Hs, H1, H2. cbn. by rewrite app_nil_r.
  - intros s v (Hq & s1 & s2 & -> & Hc). cbv zeta. fold (finish_of v). fold (complete v). unfold settled.
    destruct (complete v) eqn:Ec; cbn [negb].
    + destruct (json_truthy id) eqn:Hid.
      * eapply spec_bind; [by apply commit_spec| |done]. intros s3 ? [H3 _].
        assert (Hgo : forall s4 r, silent s4 -> r = answer context v ->
          exists v0 a b c, (s1 ++ s2) ++ s3 ++ s4 = a ++ b ++ c /\ called b v0 /\ complete v0 = true /\
            posts ((s1 ++ s2) ++ s3 ++ s4) = [commit_post id (input_tokens v0) (output_tokens v0)] /\ r = answer context v0).
        { intros s4 r [H4 _] Hr. exists v, s1, s2, (s3 ++ s4). split; [by rewrite <- app_assoc|]. split; [done|]. split; [done|].
          split; [|done]. rewrite (posts_app (s1 ++ s2)), Hq, posts_app, H3, H4. done. }
        eapply spec_weaken; [apply conclude_spec| |]; cbn beta; intros s4 ? [H4 Ea]; right; by apply Hgo.
      * eapply spec_bind; [apply (spec_ret _ tt (fun s _ => s = []) (fun _ _ => False)); reflexivity| |done]. intros s3 ? ->.
        eapply spec_weaken; [apply conclude_spec| |]; cbn beta; intros s4 ? [[H4 _] _]; by rewrite posts_app, Hq.
    + eapply spec_bind; [apply refund_or_not| |done]. intros s3 ? H3. apply spec_raise. cbn beta.
      assert (Ep : posts ((s1 ++ s2) ++ s3 ++ []) = if json_truthy id then [refund_post id] else [])
        by (rewrite app_nil_r, posts_app, Hq, H3; done).
      destruct (json_truthy id); [left; split; [done|by eexists]|done].
  - intros s e Hs. unfold settled. destruct (json_truthy id); [left; split; [done|by exists e]|done].
Qed.

(** What the whole pipeline does with the gateway, for an outcome other than a
    cancellation. *)
Definition accounted (context : ProcessorInput) (user : string) (tid : option string) (s : trace) (r : res ProcessorOutput.t) : Prop :=
  if uses_platform_key (_config self) then
    (asked s = false /\ (exists e, r = Raise e) /\
     (posts s = [] \/ exists p, posts s = [p] /\ fst p = (gateway_url cfg ++ "/internal/metering/reserve")%string)) \/
    (exists estimate s0 s1 id, s = s0 ++ s1 /\ granted s0 id /\
       estimate_input (build_user_message context) = Ok estimate /\
       posts s0 = [reserve_post user (PROVIDER self) (model_name (_config self)) (default "" tid) estimate (max_output_tokens (_config self))] /\
       settled context id s1 r)
  else posts s = [].

Lemma execute_after context user h tid start id : str_empty user = false ->
  exists ch, (channel ← (match _cache self with
     | Some _ => if str_empty user then mret None else c ← value (stream_channel_for_user user); mret (Some c)
     | None => mret None
     end : service (option string));
   after_reservation context user h tid start channel id) = after_reservation context user h tid start ch id.
Proof.
  intros Hu. destruct (_cache self); [|by exists None]. unfold stream_channel_for_user. rewrite Hu. eexists. reflexivity.
Qed.

(** C3: the tokens reserved for a model call are settled exactly once.  Whatever the
    gateway, the provider, the cache and the database reply, a run of the pipeline
    that is not cancelled ends, and on the platform's key: either the model is not
    asked and the run fails, after one reservation at most; or the gateway granted a
    reservation first, and if it named one, exactly one request follows: a refund,
    and the run fails, or the commit of the token counts of a whole stream that
    ended normally, and the run gives what that answer stands for.  On a key of the
    user nothing is sent to the gateway. *)
Theorem reservations_settled context user tid start : str_empty user = false ->
  does behaves (execute context user tid start) (fun s r =>
    match r with
    | Ok (Returned o) => accounted context user tid s (Ok o)
    | Ok Cancelled => False
    | Raise e => accounted context user tid s (Raise e)
    end).
Proof.
  intros Hu. unfold _execute.
  assert (Hfail : forall e, accounted context user tid [] (Raise e)).
  { intros e. unfold accounted. destruct (uses_platform_key _); [|done]. left. split; [done|]. split; [by exists e|by left]. }
  destruct (_validate_context context) as [[]|e]; [|apply Hfail]. cbn [value fmap res_fmap mbind task_bind settle].
  destruct (compute_prompt_hash _ _) as [h|e]; [|apply Hfail]. cbn [value fmap res_fmap mbind task_bind settle].
  destruct (estimate_input _) as [est|e] eqn:Eest; [|apply Hfail]. cbn [value fmap res_fmap mbind task_bind settle].
  unfold accounted. destruct (uses_platform_key (_config self)) eqn:Eplat.
  - eapply spec_bind; [by apply reserve_spec| |]; cbn beta.
    + intros s id [Hg Hp]. destruct (execute_after context user h tid start id Hu) as [ch Ech].
      pose proof (after_reservation_spec context user h tid start ch id) as Hafter. rewrite <- Ech in Hafter.
      eapply spec_weaken; [exact Hafter| |]; cbn beta; intros t ? Ht; right; by eauto 10.
    + intros s e [Hp Ha]. left. split; [done|]. split; [by exists e|]. right. eexists. split; [exact Hp|done].
  - destruct (execute_after context user h tid start (JStr "") Hu) as [ch Ech].
    pose proof (after_reservation_spec context user h tid start ch (JStr "")) as Hafter. rewrite <- Ech in Hafter.
    eapply spec_weaken; [exact Hafter|done|done].
Qed.
End Facts.
End SettleFacts.

(** ** The streamed reasoning *)

Module StreamFacts.
Import Service.

Definition quotes (s : text) : nat := count_occ Z.eq_dec s quote.

Lemma quotes_app s t : quotes (s ++ t) = (quotes s + quotes t)%nat.
Proof. apply count_occ_app. Qed.

Lemma answer_prefix_dropped p : forall s r, drop_prefix p s = Some r <-> s = p ++ r.
Proof.
  induction p as [|c p IH]; intros s r; cbn [drop_prefix app].
  - split; [by intros [= ->]|by intros ->].
  - destruct s as [|d s]; [done|]. destruct (Z.eqb_spec c d) as [->|Hne]; [rewrite IH|]; split; intros E; simplify_eq/=; congruence.
Qed.

Lemma skip_space_over s c : 
  (skip_space s = [] /\ skip_space (s ++ c) = skip_space c /\ quotes s = 0%nat) \/
  (skip_space s <> [] /\ skip_space (s ++ c) = skip_space s ++ c).
Proof.
  induction s as [|a s IH]; [by left|]. cbn [skip_space app]. destruct (cp_space a) eqn:Ea; [|by right].
  destruct IH as [(H1 & H2 & H3)|[H1 H2]]; [left|by right]. split; [done|]. split; [done|].
  unfold quotes. rewrite count_occ_cons_neq; [done|]. intros ->. by vm_compute in Ea.
Qed.

Lemma skip_space_quotes s : quotes (skip_space s) = quotes s.
Proof.
  induction s as [|a s IH]; [done|]. cbn [skip_space]. destruct (cp_space a) eqn:Ea; [|done].
  rewrite IH. unfold quotes. rewrite count_occ_cons_neq; [done|]. intros ->. by vm_compute in Ea.
Qed.

(** A match holds three quotes. *)
Lemma match_quotes s g : reasoning_at s = Some g -> (3 <= quotes s)%nat.
Proof.
  unfold reasoning_at. destruct (drop_prefix reasoning_key s) as [r|] eqn:E; [|done]. apply answer_prefix_dropped in E as ->.
  rewrite quotes_app, <- (skip_space_quotes r). destruct (skip_space r) as [|c r1]; [done|].
  destruct (c =? 58); [|done]. destruct (skip_space r1) as [|d r2] eqn:E2; [done|].
  destruct (Z.eqb_spec d quote) as [->|]; [|done]. intros _.
  assert (quotes (c :: r1) >= 1)%nat; [|change (quotes reasoning_key) with 2%nat; lia].
  change (c :: r1) with ([c] ++ r1). rewrite quotes_app, <- (skip_space_quotes r1), E2.
  unfold quotes. rewrite (count_occ_cons_eq _ r2 eq_refl). lia.
Qed.

Lemma search_quotes s g : _REASONING_RE s = Some g -> (3 <= quotes s)%nat.
Proof.
  unfold _REASONING_RE. induction s as [|c s IH]; cbn [re_search].
  - destruct (reasoning_at []) eqn:E; [|done]. intros _. by eapply match_quotes.
  - destruct (reasoning_at (c :: s)) eqn:E; [intros _; by eapply match_quotes|].
    intros Hs. specialize (IH Hs). change (c :: s) with ([c] ++ s). rewrite quotes_app. lia.
Qed.

Lemma body_prefix c s : exists t, reasoning_body (s ++ c) = reasoning_body s ++ t.
Proof.
  remember (length s) as n eqn:En. revert s En. induction n as [n IH] using lt_wf_ind. intros s ->.
  destruct s as [|a s]; [by eexists|]. cbn [app reasoning_body]. destruct (a =? backslash).
  - destruct s as [|d s]; cbn [app]; [by eexists|]. destruct (d =? newline); [by exists []|].
    destruct (IH (length s) ltac:(cbn; lia) s eq_refl) as [t ->]. by exists t.
  - destruct (a =? quote); [by exists []|]. destruct (IH (length s) ltac:(cbn; lia) s eq_refl) as [t ->]. by exists t.
Qed.

(** More text does not change where the pattern matches, and extends the group. *)
Lemma at_extends s c g : reasoning_at s = Some g -> exists t, reasoning_at (s ++ c) = Some (g ++ t).
Proof.
  unfold reasoning_at. destruct (drop_prefix reasoning_key s) as [r|] eqn:E; [|done]. apply answer_prefix_dropped in E as ->.
  rewrite <- app_assoc, (proj2 (answer_prefix_dropped reasoning_key _ (r ++ c)) eq_refl).
  destruct (skip_space_over r c) as [(-> & _)|[_ ->]]; [done|]. destruct (skip_space r) as [|a r1]; [done|]. cbn [app].
  destruct (a =? 58); [|done]. destruct (skip_space_over r1 c) as [(-> & _)|[_ ->]]; [done|].
  destruct (skip_space r1) as [|d r2]; [done|]. cbn [app]. destruct (d =? quote); [|done].
  intros [= <-]. destruct (body_prefix c r2) as [t ->]. by exists t.
Qed.

(** A position that matches only later does not hold a whole match yet. *)
Lemma at_open s c g : reasoning_at s = None -> reasoning_at (s ++ c) = Some g -> (quotes s <= 2)%nat.
Proof.
  unfold reasoning_at. destruct (drop_prefix reasoning_key (s ++ c)) as [r|] eqn:E; [|done]. apply answer_prefix_dropped in E.
  apply app_eq_inv in E as [(l & -> & ->)|(l & Ek & ->)].
  2: { intros _ _. assert (Eq : quotes reasoning_key = (quotes s + quotes l)%nat) by (by rewrite Ek, quotes_app).
       change (quotes reasoning_key) with 2%nat in Eq. lia. }
  rewrite (proj2 (answer_prefix_dropped reasoning_key _ l) eq_refl), quotes_app. change (quotes reasoning_key) with 2%nat.
  destruct (skip_space_over l c) as [(_ & _ & ->)|[Hnl ->]]; [lia|]. rewrite <- (skip_space_quotes l).
  destruct (skip_space l) as [|a r1]; [done|]. cbn [app]. destruct (Z.eqb_spec a 58) as [->|]; [|done].
  destruct (skip_space_over r1 c) as [(_ & _ & E1)|[Hne ->]].
  - intros _ _. unfold quotes in *. rewrite count_occ_cons_neq by (unfold quote; lia). lia.
  - destruct (skip_space r1) as [|d r2]; [done|]. cbn [app]. by destruct (d =? quote).
Qed.

Lemma search_extends s c g : _REASONING_RE s = Some g -> exists t, _REASONING_RE (s ++ c) = Some (g ++ t).
Proof.
  unfold _REASONING_RE. induction s as [|a s IH]; cbn [re_search app].
  - by vm_compute.
  - destruct (reasoning_at (a :: s)) as [g'|] eqn:E.
    + intros [= <-]. destruct (at_extends _ c _ E) as [t Et]. cbn [app] in Et. rewrite Et. by exists t.
    + intros Hs. destruct (reasoning_at (a :: s ++ c)) as [g'|] eqn:E'; [exfalso|by apply IH].
      pose proof (at_open (a :: s) c g' E E') as H2. pose proof (search_quotes s g Hs) as H3.
      change (a :: s) with ([a] ++ s) in H2. rewrite quotes_app in H2. lia.
Qed.

(** *** Unescaping *)

Lemma replace_app a b y t : forall g, last g <> Some a -> replace_pair a b y (g ++ t) = replace_pair a b y g ++ replace_pair a b y t.
Proof.
  intros g. remember (length g) as n eqn:En. revert g En. induction n as [n IH] using lt_wf_ind. intros g -> Hl.
  destruct g as [|c g]; [done|]. destruct g as [|d g]; cbn [app].
  - destruct t as [|d t]; [done|]. cbn [replace_pair]. destruct (Z.eqb_spec c a) as [->|]; [done|done].
  - change (replace_pair a b y (c :: d :: g ++ t)) with
      (if (c =? a) && (d =? b) then y :: replace_pair a b y (g ++ t) else c :: replace_pair a b y ((d :: g) ++ t)).
    change (replace_pair a b y (c :: d :: g)) with
      (if (c =? a) && (d =? b) then y :: replace_pair a b y g else c :: replace_pair a b y (d :: g)).
    destruct ((c =? a) && (d =? b)) eqn:E.
    + destruct g as [|x g]; [done|]. by rewrite (IH (length (x :: g))) by (cbn; done || lia).
    + by rewrite (IH (length (d :: g))) by (cbn; done || lia).
Qed.

Lemma replace_nonempty a b y c g : replace_pair a b y (c :: g) <> [].
Proof. cbn [replace_pair]. destruct g; [done|]. by destruct (_ && _). Qed.

Lemma replace_last a b y : y <> a -> forall g, last g <> Some a -> last (replace_pair a b y g) <> Some a.
Proof.
  intros Hy g. remember (length g) as n eqn:En. revert g En. induction n as [n IH] using lt_wf_ind. intros g -> Hl.
  destruct g as [|c [|d g]]; [done|done|].
  change (replace_pair a b y (c :: d :: g)) with
    (if (c =? a) && (d =? b) then y :: replace_pair a b y g else c :: replace_pair a b y (d :: g)).
  destruct ((c =? a) && (d =? b)) eqn:E.
  - destruct g as [|x g]; [cbn; congruence|]. pose proof (IH (length (x :: g)) ltac:(cbn; lia) (x :: g) eq_refl Hl) as Hx.
    destruct (replace_pair a b y (x :: g)) as [|z l] eqn:Ez; [by apply replace_nonempty in Ez|done].
  - pose proof (IH (length (d :: g)) ltac:(cbn; lia) (d :: g) eq_refl Hl) as Hx.
    destruct (replace_pair a b y (d :: g)) as [|z l] eqn:Ez; [by apply replace_nonempty in Ez|done].
Qed.

Lemma unescape_app g t : last g <> Some backslash -> unescape (g ++ t) = unescape g ++ unescape t.
Proof. intros Hl. unfold unescape. rewrite (replace_app _ _ _ t g Hl). apply replace_app, replace_last; [done|exact Hl]. Qed.

(** Two backslashes in a row. *)
Fixpoint doubled (s : text) : bool :=
  match s with
  | a :: s => match s with b :: _ => (a =? backslash) && (b =? backslash) | [] => false end || doubled s
  | [] => false
  end.

Lemma doubled_app s t : doubled s = true -> doubled (s ++ t) = true.
Proof.
  induction s as [|a s IH]; [done|]. cbn [doubled app]. rewrite !orb_true_iff. intros [H|H]; [left|right; auto].
  by destruct s.
Qed.

(** Only an escaped backslash ends the group with a backslash. *)
Lemma body_last s : last (reasoning_body s) = Some backslash -> doubled (reasoning_body s) = true.
Proof.
  remember (length s) as n eqn:En. revert s En. induction n as [n IH] using lt_wf_ind. intros s ->.
  destruct s as [|a s]; [done|]. cbn [reasoning_body]. destruct (Z.eqb_spec a backslash) as [->|Ha].
  - destruct s as [|d s]; [done|]. destruct (d =? newline); [done|]. specialize (IH (length s) ltac:(cbn; lia) s eq_refl).
    destruct (reasoning_body s) as [|x r]; cbn [last]; [by intros [= ->]|]. intros Hl. specialize (IH Hl).
    cbn [doubled] in *. rewrite IH. by rewrite !orb_true_r.
  - destruct (a =? quote); [done|]. specialize (IH (length s) ltac:(cbn; lia) s eq_refl).
    destruct (reasoning_body s) as [|x r]; cbn [last]; [by intros [= ->]|]. intros Hl. specialize (IH Hl).
    cbn [doubled] in *. rewrite IH. by rewrite !orb_true_r.
Qed.

(** The reasoning in a partial answer, and what is shown of it. *)
Definition reasoning (s : text) : text := match _REASONING_RE s with Some g => g | None => [] end.
Definition shown (s : text) : text := match _REASONING_RE s with Some g => unescape g | None => [] end.

Lemma search_body s g : _REASONING_RE s = Some g -> exists r, g = reasoning_body r.
Proof.
  unfold _REASONING_RE. induction s as [|a s IH]; cbn [re_search]; [by vm_compute|].
  destruct (reasoning_at (a :: s)) as [g'|] eqn:E; [intros [= <-]|auto]. revert E. unfold reasoning_at.
  repeat case_match; try done. intros [= <-]. by eexists.
Qed.

Lemma reasoning_extends s c : exists t, reasoning (s ++ c) = reasoning s ++ t.
Proof.
  unfold reasoning. destruct (_REASONING_RE s) as [g|] eqn:E; [|by eexists].
  destruct (search_extends s c g E) as [t ->]. by exists t.
Qed.

Lemma doubled_extends s c : doubled (reasoning (s ++ c)) = false -> doubled (reasoning s) = false.
Proof.
  destruct (reasoning_extends s c) as [t ->]. intros Hd. destruct (doubled (reasoning s)) eqn:E; [|done].
  by rewrite (doubled_app _ t E) in Hd.
Qed.

Lemma shown_extends s c : doubled (reasoning s) = false -> exists t, shown (s ++ c) = shown s ++ t.
Proof.
  unfold reasoning, shown. destruct (_REASONING_RE s) as [g|] eqn:E; [|by eexists].
  destruct (search_extends s c g E) as [t ->]. destruct (search_body s g E) as [r ->]. intros Hd.
  rewrite unescape_app; [by eexists|]. intros Hl. by rewrite (body_last r Hl) in Hd.
Qed.

(** The pieces of reasoning a run publishes. *)
Definition chunk_at (ev : exchange (awaited service_cmd)) : list text :=
  match ev with Ev c _ => match c with Wait (S_publish _ (ReasoningChunk _ chunk)) => [chunk] | _ => [] end end.
Definition chunks_of (s : trace) : list text := flat_map chunk_at s.

Lemma chunks_app s t : chunks_of (s ++ t) = chunks_of s ++ chunks_of t.
Proof. apply flat_map_app. Qed.

Section Published.
Context (pieces : nat) (self : t).
Notation spec := (spec (SettleFacts.behaves pieces)).

Lemma stream_shown ch sym sp um n : forall i full lst, (0 < n)%nat -> i + Z.of_nat n = Z.of_nat pieces ->
  spec (stream n (Some ch) sym sp um i full lst)
    (fun s out => (exists rest, fst out = full ++ rest) /\
       (doubled (reasoning (fst out)) = false -> lst = shown full -> shown (fst out) = shown full ++ List.concat (chunks_of s)))
    (fun _ _ => True).
Proof.
  induction n as [|n IH]; intros i full lst Hpos Hn; [lia|]. cbn [stream].
  intros [[p|]|e] [Hr Hi]; [|done|done]. cbn beta iota. destruct p as [chunk|u].
  2: { split; [exists []; by rewrite app_nil_r|]. intros _ _. by rewrite app_nil_r. }
  specialize (Hi chunk eq_refl). cbn [settle]. fold (shown (full ++ chunk)).
  assert (Hrec : forall lst', spec (stream n (Some ch) sym sp um (i + 1) (full ++ chunk) lst') _ _) by (intros; apply IH; lia).
  assert (Hd : forall rest, doubled (reasoning ((full ++ chunk) ++ rest)) = false -> exists t, shown (full ++ chunk) = shown full ++ t)
    by (intros rest Hx; apply shown_extends, (doubled_extends _ chunk), (doubled_extends _ rest), Hx).
  destruct (Z.ltb_spec (py_len lst) (py_len (shown (full ++ chunk)))) as [Hlt|Hge].
  - intros [[v|]|e] [Hr1 _]; [|done|done]. cbn beta iota.
    eapply task_runs_weaken; [apply Hrec|]. intros t [[[ft u]|]|e] Ht; [|done|done]. destruct Ht as [[rest ->] Ht]. cbn [fst] in *.
    split; [exists (chunk ++ rest); by rewrite app_assoc|]. intros Hdb ->. destruct (Hd rest Hdb) as [x Ex].
    rewrite (Ht Hdb eq_refl), Ex. cbn [chunks_of flat_map chunk_at app List.concat].
    rewrite drop_app_length, <- app_assoc. done.
  - eapply task_runs_weaken; [apply Hrec|]. intros t [[[ft u]|]|e] Ht; [|done|done]. destruct Ht as [[rest ->] Ht]. cbn [fst] in *.
    split; [exists (chunk ++ rest); by rewrite app_assoc|]. intros Hdb ->. destruct (Hd rest Hdb) as [x Ex].
    assert (x = []) as ->. { rewrite Ex in Hge. unfold py_len in Hge. rewrite length_app in Hge. destruct x; [done|cbn in Hge; lia]. }
    rewrite app_nil_r in Ex. rewrite <- Ex in Ht |- *. by apply Ht.
Qed.

(** C26: the dashboard sees the reasoning of the answer.  On every run of a call that
    returns, the pieces of reasoning published on the user's channel, one after
    another, are the reasoning of the whole answer with its newlines and quotes
    unescaped, for every way the provider cuts the answer into pieces, unless the
    reasoning holds two backslashes in a row. *)
Theorem reasoning_streamed ch sym sp um : (0 < pieces)%nat ->
  does (SettleFacts.behaves pieces) (_llm_call pieces self (Some ch) sym sp um) (fun s r =>
    r <> Ok Cancelled /\
    forall v, r = Ok (Returned v) -> doubled (reasoning (response_text v)) = false ->
      List.concat (chunks_of s) = shown (response_text v)).
Proof.
  intros Hp.
  apply (task_runs_weaken _ _ _ (fun s r => match r with
    | Ok (Returned v) => doubled (reasoning (response_text v)) = false -> List.concat (chunks_of s) = shown (response_text v)
    | Ok Cancelled => False | Raise e => True end)).
  2: { intros s [[v|]|e] Hs; [|done|done]. split; [done|]. intros v' [= <-]. exact Hs. }
  unfold _llm_call. intros [[t0|]|e] [Hr _]; [|done|done]. cbn beta iota.
  intros [[n1|]|e] [Hr1 _]; [|done|done]. cbn beta iota.
  eapply task_runs_bind; [apply (stream_shown ch sym sp um pieces 0); lia| |done|done].
  intros s [ft u] [_ Hs]. cbn [fst] in Hs. cbn beta iota.
  intros [[n2|]|e] [Hr2 _]; [|done|done]. intros [[n3|]|e] [Hr3 _]; [|done|done]. intros [[t1|]|e] [Hr4 _]; [|done|done].
  cbn [chunks_of flat_map chunk_at app]. intros Hd. cbn [response_text] in *. rewrite (Hs Hd eq_refl), flat_map_app. f_equal.
  cbn [flat_map chunk_at app]. by rewrite app_nil_r.
Qed.
End Published.
End StreamFacts.

(** ** What leaves [process] *)

Module ContractFacts.
Import Service.
Section Facts.
Context (build_system_prompt : text) (build_user_message : ProcessorInput -> text).
Context (set_order : list string -> list string) (loads : text -> string + json).
Context (model_validate : object -> list (string * string) + AnalysisOutput).
Context (text_json : text -> json) (str_exn : exn -> string) (is_httpx_error : exn -> bool).
Context (fromisoformat : string -> res datetime) (str_json : json -> string) (metering : res MeteringConfig).
Context (cache_loads : string -> res json) (cache_dumps : json -> res string).
Context (model_dump : ProcessorOutput.t -> json) (of_dict : object -> res ProcessorOutput.t).
Context (pieces turns : nat) (self : t).

Notation execute := (_execute build_system_prompt build_user_message set_order loads model_validate text_json str_exn
  is_httpx_error fromisoformat str_json metering pieces self).
Notation execute_guarded := (_execute_guarded build_system_prompt build_user_message set_order loads model_validate text_json
  str_exn is_httpx_error fromisoformat str_json metering cache_loads cache_dumps model_dump of_dict pieces turns self).
Notation processed := (process build_system_prompt build_user_message set_order loads model_validate text_json str_exn
  is_httpx_error fromisoformat str_json metering cache_loads cache_dumps model_dump of_dict pieces turns self).

(** The rows a run writes about a failure: their status and message. *)
Definition is_failure (r : AnalysisRecord) : bool := str_in (r_status r) ["timeout"; "llm_error"].
Definition row_at (ev : exchange (awaited service_cmd)) : list (string * option string) :=
  match ev with
  | Ev c _ => match c with Wait (S_save_analysis r) => if is_failure r then [(r_status r, r_error_message r)] else [] | _ => [] end
  end.
Definition error_rows (s : trace) : list (string * option string) := flat_map row_at s.

Definition harmless (c : service_cmd) : Prop := match c with S_save_analysis r => is_failure r = false | _ => True end.

Lemma harmless_row c r : harmless c -> row_at (Ev (Wait c) r) = [].
Proof. destruct c; try done. cbn. by intros ->. Qed.

Notation tame := (tame harmless).

Ltac taming :=
  repeat match goal with
  | |- tame _ (mret _) => done
  | |- tame _ (raise _) => done
  | |- tame ?seen (await ?c) => exact (tame_await harmless seen c I)
  | |- tame _ (value _ ≫= _) => apply tame_value; intros
  | |- tame _ (_ ≫= _) => apply tame_bind; [|intros]
  | |- tame _ (except _ _) => apply tame_except; [|intros]
  | |- tame _ (meter _) => apply tame_run_in; intros
  | |- tame _ (let _ := _ in _) => cbv zeta
  | |- tame _ (if ?b then _ else _) => destruct b
  | |- tame _ (match ?x with _ => _ end) => destruct x
  end.

Lemma publish_tame ch m seen : tame seen (publish ch m).
Proof. unfold publish. taming. Qed.

Lemma stream_tame ch sym sp um n : forall i full lst seen, tame seen (stream n ch sym sp um i full lst).
Proof.
  induction n as [|n IH]; intros i full lst seen; cbn [stream]; [done|]. taming; [apply publish_tame|apply IH|apply IH].
Qed.

Lemma call_tame ch sym sp um seen : tame seen (_llm_call pieces self ch sym sp um).
Proof. unfold _llm_call. taming; first [apply publish_tame|apply stream_tame]. Qed.

Lemma retried_tame call seen : (forall seen, tame seen call) -> tame seen (retried str_exn self call).
Proof. intros Hc. apply tame_run_in. intros seen' []; [apply Hc|taming|taming]. Qed.

Lemma uow_tame {A} (body : service A) seen : (forall seen, tame seen body) -> tame seen (with_uow body).
Proof.
  intros Hb. unfold with_uow. taming. apply tame_settle; [apply Hb|]. intros seen' r _ Hr.
  apply tame_settle; [taming|]. intros seen'' [[u|]|e] Hs Hu; [|exact Hu|done]. intros Hc. by apply Hs, Hr.
Qed.

Lemma persist_success_tame user o resp h ws raw ms tid seen : tame seen (_persist_success self user o resp h ws raw ms tid).
Proof.
  unfold _persist_success. taming. apply uow_tame. intros seen'. apply tame_value. intros r Er. taming.
  apply (tame_await harmless _ (S_save_analysis r)). revert Er. unfold build_analysis_record. destruct (raw_string "_llm_provider" raw) as [lp|e]; [|done].
  destruct (raw_string "_llm_model" raw) as [lm|e]; [|done]. cbn [mbind res_bind]. intros [= <-]. cbn.
  by destruct (String.eqb (direction o) "NO SETUP").
Qed.

Lemma execute_tame context user tid start seen : tame seen (execute context user tid start).
Proof.
  unfold _execute, give_back, notify_quota, conclude. taming.
  all: try (apply retried_tame; intros; apply call_tame). all: try apply persist_success_tame.
Qed.

Lemma guard_tame {A} (p : prog (cmd (pipeline ProcessorInput ProcessorOutput.t)) A) e seen :
  (forall seen, tame seen e) -> tame seen (guard p e).
Proof. intros He. apply tame_run_in. intros seen' []; try taming. apply He. Qed.

Lemma guarded_tame context user tid start seen : tame seen (execute_guarded context user tid start).
Proof.
  pose proof (execute_tame context user tid start) as He. unfold _execute_guarded. taming; try apply He.
  all: try (by apply guard_tame). apply tame_finally; [|intros; by apply guard_tame]. taming; [apply He|by apply guard_tame].
Qed.

(** The clocks do not raise; everything else may reply, fail or be cancelled. *)
Definition timely (c : awaited service_cmd) : res (reply c) -> Prop :=
  match c with
  | Wait c =>
      match c return res (signal (reply c)) -> Prop with
      | S_monotonic => fun r => exists now, r = Ok (Returned now)
      | S_now => fun r => exists now, r = Ok (Returned now)
      | _ => fun _ => True
      end
  end.

(** The exceptions the documentation of [process] lists. *)
Definition documented (e : exn) : Prop :=
  match e with
  | QuotaExceededError _ _ | MeteringUnavailableError _ _ | ProcessorInsufficientDataError _ | ProcessorError _ => True
  | _ => is_llm_error e = true
  end.

Definition timed_out : string := ("Processor timed out after " ++ str_int (total_timeout_seconds (_config self)) ++ "s")%string.

(** What becomes of an exception of the pipeline: the row that is written, if any,
    and what is raised. *)
Definition failure (e : exn) : option (string * string) * exn :=
  match e with
  | QuotaExceededError _ _ | MeteringUnavailableError _ _ | ProcessorInsufficientDataError _ => (None, e)
  | TimeoutError => (Some ("timeout", timed_out), ProcessorError timed_out)
  | ProcessorError _ => (Some ("llm_error", str_exn e), e)
  | _ => (Some ("llm_error", str_exn e), if is_llm_error e then e else ProcessorError ("Processor failed: " ++ str_exn e))
  end.

(** The database refused a unit of work. *)
Definition db_down (s : trace) : Prop := exists r, In (Ev (Wait S_uow_enter) r) s /\ forall u, r <> Ok (Returned u).

Definition written (status message : string) (s : trace) : Prop :=
  error_rows s = [(status, Some (str_strip message))] \/ (error_rows s = [] /\ (_uow_factory self = false \/ db_down s)).

Lemma written_app s t status message : error_rows s = [] -> written status message t -> written status message (s ++ t).
Proof.
  intros Hs [Ht|[Ht Hd]]; [left|right]; unfold error_rows in *; rewrite flat_map_app, Hs; [done|]. split; [done|].
  destruct Hd as [?|(r & Hin & Hr)]; [by left|right]. exists r. split; [apply in_or_app; by right|done].
Qed.

Lemma persist_error_writes user pair message status ms tid : str_in status ["timeout"; "llm_error"] = true ->
  may timely (_persist_error self user pair message status ms tid)
    (fun s r => (r = Ok (Returned tt) \/ r = Ok Cancelled) /\ written status message s).
Proof.
  intros Hst. assert (Es : str_strip status = status).
  { cbn [str_in existsb] in Hst. destruct (String.eqb_spec status "timeout") as [->|]; [done|].
    destruct (String.eqb_spec status "llm_error") as [->|]; [done|done]. }
  unfold _persist_error. destruct (_uow_factory self) eqn:Eu; cbn [negb].
  2: { split; [by left|]. right. split; [done|by left]. }
  eapply (runs_except _ _ _ _ (fun s r => written status message s)).
  - intros r0 _. destruct r0 as [[[]|]|e0]; cbn [settle].
    2,3: right; split; [done|right]; eexists; split; [by left|done].
    intros r1 [now ->]. cbn [settle]. intros r2 _.
    assert (Hw : forall r0 r1 r2 tl, error_rows tl = [] -> written status message
      (Ev (Wait S_uow_enter) r0 :: Ev (Wait S_now) r1 :: Ev (Wait (S_save_analysis (build_error_analysis_record now user pair message status ms tid))) r2 :: tl)).
    { intros a b c tl Htl. left. unfold error_rows. cbn [flat_map row_at app]. fold (error_rows tl). rewrite Htl. unfold is_failure.
      cbn [build_error_analysis_record r_status r_error_message]. by rewrite Es, Hst. }
    destruct r2 as [[[]|]|e2]; cbn [settle]; intros r3 _; destruct r3 as [[[]|]|e3]; by apply Hw.
  - intros s [[]|] Hs; (split; [auto|done]).
  - intros s e Hs. split; [by left|]. by rewrite app_nil_r.
Qed.

Lemma fail_writes user pair message status ms0 tid e : str_in status ["timeout"; "llm_error"] = true ->
  may timely (now ← await S_monotonic;
              _ ← _persist_error self user pair message status (fmul (fsub now ms0) (of_Z 1000)) tid;
              raise e : service ProcessorOutput.t)
    (fun s r => match r with Ok (Returned _) => False | Ok Cancelled => True | Raise e' => e' = e /\ written status message s end).
Proof.
  intros Hst r [now ->]. cbn [settle]. eapply task_runs_bind; [by apply persist_error_writes| | |].
  - intros s a [_ Hw]. cbn. rewrite app_nil_r. split; [done|]. by apply (written_app [_]).
  - done.
  - by intros s e' [[|] _].
Qed.

(** The [except] clauses. *)
Lemma handler_writes user pair ms0 tid (e : exn) :
  let fail (status message : string) (e' : exn) : service ProcessorOutput.t :=
    now ← await S_monotonic;
    _ ← _persist_error self user pair message status (fmul (fsub now ms0) (of_Z 1000)) tid;
    raise e' in
  may timely
    (match e with
     | QuotaExceededError _ _ | MeteringUnavailableError _ _ => raise e
     | TimeoutError => fail "timeout" timed_out (ProcessorError timed_out)
     | ProcessorInsufficientDataError _ => _ ← await S_monotonic; raise e
     | _ =>
         if is_processor_error e then fail "llm_error" (str_exn e) e
         else fail "llm_error" (str_exn e) (ProcessorError ("Processor failed: " ++ str_exn e))
     end)
    (fun s r =>
       match r with
       | Ok (Returned _) => False
       | Ok Cancelled => True
       | Raise e' => e' = snd (failure e) /\
           match fst (failure e) with None => error_rows s = [] | Some (status, message) => written status message s end
       end).
Proof.
  cbv zeta. destruct e; cbn [is_processor_error is_llm_error failure fst snd];
    first [by apply fail_writes|by intros r [now ->]|done].
Qed.

Lemma failure_documented e : documented (snd (failure e)).
Proof. by destruct e. Qed.

(** C24: the contract of [process], whatever happens inside.  What it raises is one of
    the documented exceptions.  When it returns, no row about a failure is written; a
    quota, a metering outage and insufficient data are raised as they are, without a
    row; a time limit and any other exception are raised after exactly one row with
    their status and message, unless there is no database or it refuses the unit of
    work. *)
Theorem process_contract context user tid :
  may timely (processed context user tid) (fun s r =>
    match r with
    | Ok (Returned _) => error_rows s = []
    | Ok Cancelled => True
    | Raise e => documented e /\ exists e0, e = snd (failure e0) /\
        match fst (failure e0) with
        | None => error_rows s = []
        | Some (status, message) => written status message s
        end
    end).
Proof.
  unfold process. intros r [start ->]. cbn [settle]. cbv zeta.
  eapply (runs_except _ _ _ _ (fun s r => error_rows s = [] /\ r <> Ok Cancelled)).
  - eapply runs_settle; [apply (tame_runs harmless timely row_at _ false harmless_row), guarded_tame|].
    intros s v Hs. cbn beta. destruct v as [[o|]|e]; cbn; rewrite app_nil_r; done.
  - intros s [o|] [Hs Hn]; [|done]. unfold error_rows in *. cbn. exact Hs.
  - intros s e [Hs _]. eapply task_runs_weaken; [apply handler_writes|]. intros t [[o|]|e'] Ht; [done|done|].
    destruct Ht as [-> Ht]. split; [apply failure_documented|]. exists e. split; [done|].
    destruct (fst (failure e)) as [[status message]|].
    + by apply (written_app (_ :: s)).
    + unfold error_rows in *. change (flat_map row_at (s ++ t) = []). by rewrite flat_map_app, Hs, Ht.
Qed.

(** *** The guard *)

Section Guarded.
Context {W : Type} (handle : forall c : awaited service_cmd, W -> res (reply c) * W).
Hypothesis calm : forall c w, fst (handle (Wait c) w) <> Ok Cancelled.

Lemma interp_task_bind {A B} (p : service A) (f : A -> service B) w :
  interp handle (p ≫= f) w =
  match interp handle p w with
  | (Some (Ok (Returned a)), w') => interp handle (f a) w'
  | (Some (Ok Cancelled), w') => (Some (Ok Cancelled), w')
  | (Some (Raise e), w') => (Some (Raise e), w')
  | (None, w') => (None, w')
  end.
Proof. unfold mbind, task_bind. rewrite interp_settle. by destruct (interp handle p w) as [[[[a|]|e]|] w']. Qed.

Context (e : service ProcessorOutput.t).
Hypothesis e_tame : forall seen, tame seen e.

Lemma guard_execute context user w : interp handle (guard (AnalysisProcessor._execute context user) e) w = interp handle e w.
Proof.
  unfold guard, AnalysisProcessor._execute, send. cbn [run_in]. rewrite interp_settle.
  change (reply (Call (Execute context user))) with ProcessorOutput.t.
  by destruct (interp handle e w) as [[[[v|]|x]|] w'].
Qed.

Lemma guard_bind {A B} (p : prog (cmd (pipeline ProcessorInput ProcessorOutput.t)) A)
    (f : A -> prog (cmd (pipeline ProcessorInput ProcessorOutput.t)) B) w :
  interp handle (guard (p ≫= f) e) w =
  match interp handle (guard p e) w with
  | (Some (Ok (Returned a)), w') => interp handle (guard (f a) e) w'
  | (Some (Ok Cancelled), w') => (Some (Ok Cancelled), w')
  | (Some (Raise x), w') => (Some (Raise x), w')
  | (None, w') => (None, w')
  end.
Proof. unfold guard, mbind, prog_bind. rewrite interp_run_settle. by repeat case_match. Qed.

Lemma guard_finally {A} (p : prog (cmd (pipeline ProcessorInput ProcessorOutput.t)) A) f (p' : service A) w :
  interp handle (guard p e) w = interp handle p' w ->
  interp handle (guard (try_finally p f) e) w = interp handle (finally p' (guard f e)) w.
Proof.
  intros Ep. unfold guard, try_finally, finally. rewrite interp_run_settle, interp_settle. fold (guard p e). rewrite <- Ep.
  pose proof (tame_calm harmless handle (guard p e) w calm (guard_tame p e false e_tame)) as Hc.
  destruct (interp handle (guard p e) w) as [[[[v|]|x]|] w1]; [|done| |done].
  all: rewrite interp_run_settle, interp_settle; fold (guard f e);
    pose proof (tame_calm harmless handle (guard f e) w1 calm (guard_tame f e false e_tame)) as Hf;
    by destruct (interp handle (guard f e) w1) as [[[[u|]|y]|] w2].
Qed.
End Guarded.

(** Without cancellation the guarded pipeline of the service is the guard of the
    interleaving model, its command [Execute] carried out by the pipeline: the same
    outcome, the same commands and replies, for every behaviour of the
    environment. *)
Theorem guard_refines {W} (handle : forall c : awaited service_cmd, W -> res (reply c) * W) context user tid start h w :
  (forall c w, fst (handle (Wait c) w) <> Ok Cancelled) ->
  compute_prompt_hash build_system_prompt (build_user_message context) = Ok h ->
  interp handle (execute_guarded context user tid start) w =
  interp handle
    (guard (AnalysisProcessor._execute_guarded symbol (fun _ => h) cache_loads cache_dumps str_exn model_dump of_dict turns
              (_cache self) context user)
           (execute context user tid start)) w.
Proof.
  intros Hcalm Eh. pose proof (execute_tame context user tid start) as Ht.
  unfold _execute_guarded, AnalysisProcessor._execute_guarded. set (e := execute context user tid start) in *.
  destruct (_cache self) as [cache|]; [|by rewrite guard_execute]. destruct (str_empty user); [by rewrite guard_execute|].
  rewrite Eh. unfold AnalysisProcessor.request_digest. rewrite interp_task_bind.
  cbn [value fmap res_fmap interp]. cbv zeta.
  rewrite interp_task_bind, guard_bind. destruct (interp handle (guard (ProcessorIdempotency.check_cached _ _ _ _ _) e) w) as [[[[[o|]|]|x]|] w1]; try done.
  rewrite interp_task_bind, guard_bind. destruct (interp handle (guard (ProcessorIdempotency.acquire _ _) e) w1) as [[[[[hd|]|]|x]|] w2]; try done.
  - symmetry. apply guard_finally; [exact Hcalm|exact Ht|]. rewrite guard_bind, guard_execute, interp_task_bind.
    destruct (interp handle e w2) as [[[[o|]|x]|] w3]; try done. rewrite guard_bind, interp_task_bind. by repeat case_match.
  - rewrite interp_task_bind, guard_bind. by repeat case_match.
Qed.
End Facts.
End ContractFacts.

(** ** Concrete runs *)

Module Sample.
Import Service SettleFacts StreamFacts ContractFacts.

Definition gateway : MeteringConfig := mk_metering true "http://gateway:8080" "secret".
Definition service_on (platform : bool) : t :=
  mk (mk_service_config (mk_config "anthropic" 1 (lit 10 1) (lit 300 1)) "model" 4096 120 false true platform)
     "anthropic" None true true.
Definition input : ProcessorInput :=
  mk_input "EURUSD" [("smc_candidates", JArr [JObj []])] [] [("chunks", JArr [JNull])] [].

(** The environment replies to everything; the stream gives the pieces [ps] and ends
    with [finish]; the command number [cancel] is cancelled. *)
Definition replying (finish : string) (ps : list text) (cancel : option Z) (c : awaited service_cmd) (n : Z) : res (reply c) * Z :=
  match c return res (reply c) * Z with
  | Wait c =>
      (if bool_decide (cancel = Some n) then Ok Cancelled
       else Ok (Returned match c return reply c with
         | S_redis r => match r return reply r with R_get _ => None | R_set _ _ _ | R_set_nx _ _ _ | R_ping | R_expire _ _ => true | _ => 0 end
         | S_monotonic => of_Z n
         | S_random => fzero
         | S_unix_time => n
         | S_uuid => "token"
         | S_now => mk_datetime 0 (Some 0)
         | S_meter m =>
             match m return reply m with
             | Post _ _ _ => mk_meter_response 200 (fun h => if String.eqb h "X-Reservation-Id" then Some "res-1" else None) (Ok (JObj []))
             | Now => mk_datetime 0 (Some 0)
             end
         | S_next _ _ i =>
             match nth_error ps (Z.to_nat i) with
             | Some chunk => Piece chunk
             | None => EndOfStream (mk_usage (Some 100) (Some 20) (Some finish))
             end
         | S_publish _ _ => 0
         | _ => tt
         end), n + 1)
  end.

Definition sample_answer : text := ascii_encode "{}".
Definition schema (_ : object) : list (string * string) + AnalysisOutput := inr (RuleFacts.RuleFacts.sample_analysis "INTRADAY" "A" (of_Z 4)).

Definition sample_execute (self : t) : service ProcessorOutput.t :=
  _execute (ascii_encode "rules") (fun _ => ascii_encode "context") id (fun _ => inr (JObj [])) schema (fun _ => JNull) (fun _ => "")
    (fun _ => false) (fun _ => Raise (ValueError "")) (fun _ => "") (Ok gateway) 2 self input "user" None fzero.

Definition sample_process : service ProcessorOutput.t :=
  process (ascii_encode "rules") (fun _ => ascii_encode "context") id (fun _ => inr (JObj [])) schema (fun _ => JNull) (fun _ => "")
    (fun _ => false) (fun _ => Raise (ValueError "")) (fun _ => "") (Ok gateway) (fun _ => Raise (ValueError ""))
    (fun _ => Raise (ValueError "")) (fun _ => JNull) (fun _ => Raise (ValueError "")) 2 2 (service_on true) input "user" None.

Definition outcome {A} (finish : string) (ps : list text) (cancel : option Z) (p : service A) : option (res (signal A)) * trace :=
  let '(r, (s, _)) := interp (recorded (replying finish ps cancel)) p ([], 0) in (r, s).

Definition reserved : string * object :=
  reserve_post gateway "user" "anthropic" "model" "" 1 4096.

(** A complete answer is committed. *)
Example answer_committed :
  let '(r, s) := outcome "STOP" [sample_answer] None (sample_execute (service_on true)) in
  (exists o, r = Some (Ok (Returned o))) /\ posts s = [reserved; commit_post gateway (JStr "res-1") 100 20].
Proof. vm_compute. split; [by eexists|reflexivity]. Qed.

(** Anthropic ends a complete answer with [end_turn]: it is taken for truncated and
    refused, whatever it says. *)
Example end_turn_refused :
  let '(r, s) := outcome "end_turn" [sample_answer] None (sample_execute (service_on true)) in
  (exists m, r = Some (Raise (LLMTruncatedError m))) /\ posts s = [reserved; refund_post gateway (JStr "res-1")].
Proof. vm_compute. split; [by eexists|reflexivity]. Qed.

(** The time limit strikes while the model answers: the reservation is neither
    committed nor refunded. *)
Example timeout_keeps_reservation :
  let '(r, s) := outcome "STOP" [sample_answer] (Some 3) sample_process in
  r = Some (Raise (ProcessorError "Processor timed out after 120s")) /\ posts s = [reserved] /\
  error_rows s = [("timeout", Some "Processor timed out after 120s")].
Proof. vm_compute. repeat split. Qed.

Lemma replying_behaves finish ps c n r n' : (length ps < 2)%nat -> replying finish ps None c n = (r, n') -> behaves 2 c r.
Proof.
  intros Hp. destruct c as [c]. cbn [replying]. rewrite bool_decide_eq_false_2 by done. intros [= <- _]. split; [done|].
  destruct c; try done; [by eexists|]. intros chunk [= E]. destruct (nth_error ps (Z.to_nat i)) eqn:En; [|done].
  assert (nth_error ps (Z.to_nat i) <> None) as Hn by congruence. apply nth_error_Some in Hn. lia.
Qed.

Lemma reservations_settled_witness :
  exists s r n, interp (recorded (replying "STOP" [sample_answer] None)) (sample_execute (service_on true)) ([], 0) = (Some r, (s, n)) /\
    match r with Ok (Returned o) => accounted (fun _ => ascii_encode "context") id (fun _ => inr (JObj [])) schema (fun _ => JNull) gateway
      (service_on true) input "user" None s (Ok o) | _ => False end.
Proof.
  pose proof (reservations_settled (ascii_encode "rules") (fun _ => ascii_encode "context") id (fun _ => inr (JObj [])) schema
    (fun _ => JNull) (fun _ => "") (fun _ => false) (fun _ => Raise (ValueError "")) (fun _ => "") gateway 2 (service_on true)
    ltac:(lia) eq_refl input "user" None fzero eq_refl) as Hd.
  destruct (does_adequate _ (replying "STOP" [sample_answer] None) _ _ [] 0
    (fun c n r n' E => replying_behaves "STOP" [sample_answer] c n r n' (le_n 2) E) Hd) as (s & r & n & E & Hr).
  exists s, r, n. split; [exact E|]. destruct r as [[o|]|e]; [exact Hr|exact Hr|]. exfalso. clear -E. vm_compute in E. discriminate E.
Defined.

(** The gateway grants a reservation and names it in the header, but a proxy makes the
    body a list: the reservation is lost to an [AttributeError]. *)
Example list_body_loses_reservation :
  let granting (c : meter_cmd) (w : unit) : res (reply c) * unit :=
    (Ok match c return reply c with
        | Post _ _ _ => mk_meter_response 200 (fun h => if String.eqb h "X-Reservation-Id" then Some "res-1" else None) (Ok (JArr []))
        | Now => mk_datetime 0 (Some 0)
        end, w) in
  fst (interp granting (reserve (fun _ => Raise (ValueError "")) (fun _ => "") (Ok gateway) "user" "p" "m" 1 1 "") tt) = Some (Raise AttributeError).
Proof. reflexivity. Qed.

(** An answer whose reasoning is the text [body], as it is written in JSON. *)
Definition reasoned (body : text) : text := [123] ++ reasoning_key ++ [58; 32; 34] ++ body ++ [34; 125].

(** [a\nb]: an escaped newline cut between two pieces. *)
Lemma reasoning_streamed_witness :
  exists s v n, interp (recorded (replying "STOP" [reasoned [97; 92; 110; 98]] None))
      (_llm_call 2 (service_on false) (Some "channel") "EURUSD" [] []) ([], 0) = (Some (Ok (Returned v)), (s, n)) /\
    List.concat (chunks_of s) = shown (response_text v) /\ shown (response_text v) = [97; 10; 98].
Proof.
  pose proof (reasoning_streamed 2 (service_on false) "channel" "EURUSD" [] [] ltac:(lia)) as Hd.
  destruct (does_adequate _ (replying "STOP" [reasoned [97; 92; 110; 98]] None) _ _ [] 0
    (fun c n r n' E => replying_behaves "STOP" [reasoned [97; 92; 110; 98]] c n r n' (le_n 2) E) Hd) as (s & r & n & E & Hr).
  destruct r as [[v|]|e]; [|by destruct Hr|exfalso; clear -E; vm_compute in E; discriminate E].
  exists s, v, n. split; [exact E|]. assert (Ev : response_text v = reasoned [97; 92; 110; 98]).
  { clear -E. vm_compute in E. injection E as <- _ _. vm_compute. reflexivity. }
  split; [apply (proj2 Hr v eq_refl); rewrite Ev; vm_compute; reflexivity|rewrite Ev; vm_compute; reflexivity].
Defined.

(** A backslash written as two, cut before an [n]: what was published is not what
    the whole answer shows. *)
Example escaped_backslash_garbled :
  let full := reasoned [97; 92; 92; 110; 98] in
  let '(_, s) := outcome "STOP" [firstn 30 full; skipn 30 full] None (_llm_call 3 (service_on false) (Some "channel") "EURUSD" [] []) in
  List.concat (chunks_of s) = [97; 92; 92; 98] /\ shown full = [97; 92; 10; 98].
Proof. vm_compute. split; reflexivity. Qed.

Definition cached : t := mk (_config (service_on true)) "anthropic" (Some RedisCache.default) true true.

Lemma guard_refines_witness :
  let hash := match compute_prompt_hash (ascii_encode "rules") (ascii_encode "context") with Ok h => h | Raise _ => "" end in
  interp (replying "STOP" [sample_answer] None)
    (_execute_guarded (ascii_encode "rules") (fun _ => ascii_encode "context") id (fun _ => inr (JObj [])) schema (fun _ => JNull)
       (fun _ => "") (fun _ => false) (fun _ => Raise (ValueError "")) (fun _ => "") (Ok gateway) (fun _ => Raise (ValueError ""))
       (fun _ => Raise (ValueError "")) (fun _ => JNull) (fun _ => Raise (ValueError "")) 2 2 cached input "user" None fzero) 0 =
  interp (replying "STOP" [sample_answer] None)
    (guard (AnalysisProcessor._execute_guarded symbol (fun _ => hash) (fun _ => Raise (ValueError "")) (fun _ => Raise (ValueError ""))
       (fun _ => "") (fun _ => JNull) (fun _ => Raise (ValueError "")) 2 (_cache cached) input "user") (sample_execute cached)) 0.
Proof.
  apply guard_refines; [|vm_compute; reflexivity]. intros c n. cbn [replying fst]. by rewrite bool_decide_eq_false_2.
Defined.
End Sample.
