(* ===== verification/RagModels.v ===== *)
(** * The data of retrieval: [engine/rag/constants.py] and [engine/rag/models]

    The enumerations of the knowledge base, the models that retrieval passes
    around, the configuration it reads, and the identifiers ([uuid.UUID], an
    integer).  A dict is an association list in insertion order; a set is a list
    without duplicates whose order is not used.  Strings are ASCII. *)

From Stdlib Require Import ZArith Lia Bool Ascii String.
From stdpp Require Import base list strings sets.
From S2P Require Import Prelude PyFloat PyText PyRepr PyValues.

#[local] Open Scope string_scope.
#[local] Open Scope Z_scope.
#[local] Open Scope list_scope.

(** ** Dicts and sets *)

Section Dict.
Context {K V : Type} `{EqDecision K}.

(** [d.get(k)]. *)
Fixpoint dict_get (k : K) (d : list (K * V)) : option V :=
  match d with
  | [] => None
  | (k', v) :: d => if decide (k = k') then Some v else dict_get k d
  end.

(** [d\[k\] = v]: a new key goes to the end. *)
Fixpoint dict_set (k : K) (v : V) (d : list (K * V)) : list (K * V) :=
  match d with
  | [] => [(k, v)]
  | (k', v') :: d => if decide (k = k') then (k', v) :: d else (k', v') :: dict_set k v d
  end.

Lemma dict_get_set k k' v d :
  dict_get k (dict_set k' v d) = if decide (k = k') then Some v else dict_get k d.
Proof.
  induction d as [|[k1 v1] d IH]; simpl; [by repeat case_decide|].
  destruct (decide (k' = k1)) as [<-|]; simpl; [|rewrite IH]; by repeat case_decide; simplify_eq.
Qed.

Lemma dict_get_member k v d : dict_get k d = Some v -> In (k, v) d.
Proof. induction d as [|[k1 v1] d IH]; simpl; [done|]. case_decide; [intros [= ->]; left; by subst|auto]. Qed.

Lemma dict_set_keys k v d k' : In k' (map fst (dict_set k v d)) <-> k' = k \/ In k' (map fst d).
Proof. induction d as [|[k1 v1] d IH]; simpl; [naive_solver|]. case_decide; simpl; naive_solver. Qed.

Lemma dict_set_NoDup k v d : NoDup (map fst d) -> NoDup (map fst (dict_set k v d)).
Proof.
  induction d as [|[k1 v1] d IH]; simpl; [intros _; apply NoDup_singleton|].
  rewrite NoDup_cons. intros [Hk Hd]. case_decide; simpl; rewrite NoDup_cons; [done|].
  split; [|auto]. rewrite list_elem_of_In, dict_set_keys, <- list_elem_of_In. naive_solver.
Qed.

Lemma dict_In_get k v d : NoDup (map fst d) -> In (k, v) d -> dict_get k d = Some v.
Proof.
  induction d as [|[k1 v1] d IH]; simpl; [done|]. rewrite NoDup_cons. intros [Hk Hd] [[= -> ->]|H].
  - by rewrite decide_True.
  - rewrite decide_False; [auto|]. intros ->. apply Hk. rewrite list_elem_of_In. by apply (in_map fst) in H.
Qed.
End Dict.

(** [s.add(x)]. *)
Definition set_add {A} `{EqDecision A} (x : A) (s : list A) : list A :=
  if decide (x ∈ s) then s else s ++ [x].

Lemma elem_of_set_add {A} `{EqDecision A} (x y : A) s : y ∈ set_add x s <-> y = x \/ y ∈ s.
Proof. unfold set_add. case_decide; set_solver. Qed.

Lemma set_add_NoDup {A} `{EqDecision A} (x : A) s : NoDup s -> NoDup (set_add x s).
Proof.
  unfold set_add. case_decide; [done|]. intros. apply NoDup_app. split_and!; [done|set_solver|apply NoDup_singleton].
Qed.

(** ** Identifiers *)

Definition uuid : Type := Z.

(** [s.strip(chars)] for a class of characters. *)
Fixpoint lstrip_by (f : ascii -> bool) (s : string) : string :=
  match s with String a r => if f a then lstrip_by f r else s | EmptyString => EmptyString end.
Definition strip_by (f : ascii -> bool) (s : string) : string := str_rev (lstrip_by f (str_rev (lstrip_by f s))).

(** [s.replace(p, "")]. *)
Fixpoint str_remove_all (p : string) (skip : nat) (s : string) : string :=
  match s with
  | EmptyString => EmptyString
  | String a r =>
      match skip with
      | S k => str_remove_all p k r
      | O => if String.prefix p s then str_remove_all p (String.length p - 1) r else String a (str_remove_all p 0 r)
      end
  end.

Definition hex_value (a : ascii) : option Z :=
  let n := Z.of_nat (nat_of_ascii a) in
  if (48 <=? n) && (n <=? 57) then Some (n - 48)
  else if (65 <=? n) && (n <=? 70) then Some (n - 55)
  else if (97 <=? n) && (n <=? 102) then Some (n - 87)
  else None.

(** Digits, with single underscores between them. *)
Fixpoint hex_digits (s : string) (acc : Z) (after_digit : bool) : option Z :=
  match s with
  | EmptyString => if after_digit then Some acc else None
  | String a s =>
      if Ascii.eqb a "_" then if after_digit then hex_digits s acc false else None
      else match hex_value a with Some d => hex_digits s (16 * acc + d) true | None => None end
  end.

(** [int(s, 16)]. *)
Definition int_of_hex (s : string) : option Z :=
  let s := str_strip s in
  let '(neg, s) := match s with
                   | String "+" r => (false, r)
                   | String "-" r => (true, r)
                   | _ => (false, s)
                   end in
  let body := match s with
              | String "0" (String ("x" | "X") (String "_" r)) => r
              | String "0" (String ("x" | "X") r) => r
              | _ => s
              end in
  (fun n => if neg : bool then - n else n) <$> hex_digits body 0 false.

(** [UUID(s)]. *)
Definition UUID (s : string) : res uuid :=
  let h := str_remove_all "uuid:" 0 (str_remove_all "urn:" 0 s) in
  let h := str_remove "-" (strip_by (fun a => Ascii.eqb a "{" || Ascii.eqb a "}") h) in
  if negb (String.length h =? 32)%nat then Raise (ValueError "badly formed hexadecimal UUID string")
  else match int_of_hex h with
       | None => Raise (ValueError "invalid literal for int() with base 16")
       | Some n => if (0 <=? n) && (n <? 2 ^ 128) then Ok n else Raise (ValueError "int is out of range (need a 128-bit value)")
       end.

(** ** Enumerations *)

Inductive DocumentType :=
| MASTER_RULEBOOK | SMC_FRAMEWORK | SND_RULEBOOK | WYCKOFF_GUIDE | DXY_FRAMEWORK | COT_INTERPRETATION_GUIDE
| TRADING_STYLE_RULES | MACRO_TO_PRICE_GUIDE | CHART_SCENARIO_LIBRARY.

#[global] Instance DocumentType_eq_dec : EqDecision DocumentType.
Proof. solve_decision. Defined.

Definition document_types : list DocumentType :=
  [MASTER_RULEBOOK; SMC_FRAMEWORK; SND_RULEBOOK; WYCKOFF_GUIDE; DXY_FRAMEWORK; COT_INTERPRETATION_GUIDE;
   TRADING_STYLE_RULES; MACRO_TO_PRICE_GUIDE; CHART_SCENARIO_LIBRARY].

Definition doc_type_value (d : DocumentType) : string :=
  match d with
  | MASTER_RULEBOOK => "master_rulebook" | SMC_FRAMEWORK => "smc_framework" | SND_RULEBOOK => "snd_rulebook"
  | WYCKOFF_GUIDE => "wyckoff_guide" | DXY_FRAMEWORK => "dxy_framework"
  | COT_INTERPRETATION_GUIDE => "cot_interpretation_guide" | TRADING_STYLE_RULES => "trading_style_rules"
  | MACRO_TO_PRICE_GUIDE => "macro_to_price_guide" | CHART_SCENARIO_LIBRARY => "chart_scenario_library"
  end.

(** The member of an enumeration with a value. *)
Definition enum_of {E} (members : list E) (value : E -> string) (s : string) : res E :=
  match List.find (fun e => String.eqb (value e) s) members with
  | Some e => Ok e
  | None => Raise (ValueError "not a valid member")
  end.

Definition DocumentType_of : string -> res DocumentType := enum_of document_types doc_type_value.

Inductive RetrievalStrategy := RULE_FIRST | SCENARIO_FIRST | MACRO_BIAS | HYBRID.
Definition strategy_value (s : RetrievalStrategy) : string :=
  match s with
  | RULE_FIRST => "rule_first" | SCENARIO_FIRST => "scenario_first" | MACRO_BIAS => "macro_bias" | HYBRID => "hybrid"
  end.
Definition RetrievalStrategy_of : string -> res RetrievalStrategy :=
  enum_of [RULE_FIRST; SCENARIO_FIRST; MACRO_BIAS; HYBRID] strategy_value.

Inductive CoverageResult := SUFFICIENT | INSUFFICIENT | PARTIAL.
Definition coverage_value (c : CoverageResult) : string :=
  match c with SUFFICIENT => "sufficient" | INSUFFICIENT => "insufficient" | PARTIAL => "partial" end.

Inductive ConflictResult := NONE_DETECTED | CONFLICT_FOUND.
Definition conflict_value (c : ConflictResult) : string :=
  match c with NONE_DETECTED => "none_detected" | CONFLICT_FOUND => "conflict_found" end.

Inductive Framework := SMC | SND | WYCKOFF | DXY | COT | MACRO | STYLE.
#[global] Instance Framework_eq_dec : EqDecision Framework.
Proof. solve_decision. Defined.
Definition framework_value (f : Framework) : string :=
  match f with
  | SMC => "smc" | SND => "snd" | WYCKOFF => "wyckoff" | DXY => "dxy" | COT => "cot" | MACRO => "macro" | STYLE => "style"
  end.
Definition Framework_of : string -> res Framework := enum_of [SMC; SND; WYCKOFF; DXY; COT; MACRO; STYLE] framework_value.

Inductive SetupFamily :=
| ORDER_BLOCK | FAIR_VALUE_GAP | LIQUIDITY_SWEEP | BREAKER_BLOCK | SUPPLY_ZONE | DEMAND_ZONE | SPRING | UPTHRUST
| ACCUMULATION | DISTRIBUTION | MARKUP | MARKDOWN | QML | SR_FLIP | RS_FLIP | AMD | TURTLE_SOUP | COMPRESSION.
Definition setup_family_value (f : SetupFamily) : string :=
  match f with
  | ORDER_BLOCK => "order_block" | FAIR_VALUE_GAP => "fair_value_gap" | LIQUIDITY_SWEEP => "liquidity_sweep"
  | BREAKER_BLOCK => "breaker_block" | SUPPLY_ZONE => "supply_zone" | DEMAND_ZONE => "demand_zone"
  | SPRING => "spring" | UPTHRUST => "upthrust" | ACCUMULATION => "accumulation" | DISTRIBUTION => "distribution"
  | MARKUP => "markup" | MARKDOWN => "markdown" | QML => "qml" | SR_FLIP => "sr_flip" | RS_FLIP => "rs_flip"
  | AMD => "amd" | TURTLE_SOUP => "turtle_soup" | COMPRESSION => "compression"
  end.
Definition SetupFamily_of : string -> res SetupFamily :=
  enum_of [ORDER_BLOCK; FAIR_VALUE_GAP; LIQUIDITY_SWEEP; BREAKER_BLOCK; SUPPLY_ZONE; DEMAND_ZONE; SPRING; UPTHRUST;
           ACCUMULATION; DISTRIBUTION; MARKUP; MARKDOWN; QML; SR_FLIP; RS_FLIP; AMD; TURTLE_SOUP; COMPRESSION]
          setup_family_value.

Inductive TradeDirection := LONG | SHORT | NEUTRAL.
Definition direction_value (d : TradeDirection) : string :=
  match d with LONG => "long" | SHORT => "short" | NEUTRAL => "neutral" end.
Definition Direction_of : string -> res TradeDirection := enum_of [LONG; SHORT; NEUTRAL] direction_value.

Inductive ScenarioOutcome := VALID_WIN | VALID_LOSS | FAILED_SETUP | EDGE_CASE.
Definition outcome_value (o : ScenarioOutcome) : string :=
  match o with
  | VALID_WIN => "valid_win" | VALID_LOSS => "valid_loss" | FAILED_SETUP => "failed_setup" | EDGE_CASE => "edge_case"
  end.
Definition ScenarioOutcome_of : string -> res ScenarioOutcome :=
  enum_of [VALID_WIN; VALID_LOSS; FAILED_SETUP; EDGE_CASE] outcome_value.

Lemma DocumentType_of_value d : DocumentType_of (doc_type_value d) = Ok d.
Proof. by destruct d. Qed.

Lemma document_types_all d : d ∈ document_types.
Proof. destruct d; vm_compute; repeat (left + right); set_solver. Qed.

(** ** Models

    [str_strip_whitespace] of [FrozenModel] strips every string on construction,
    those inside a dict included. *)

Definition metadata_dict : Type := list (string * string).

Definition strip_dict (m : metadata_dict) : metadata_dict :=
  fold_left (fun d '(k, v) => dict_set (str_strip k) (str_strip v) d) m [].

(** The range [ge=0.0, le=1.0]. *)
Definition unit_range (x : float) : bool := fle (of_Z 0) x && fle x (of_Z 1).

Module RetrievedChunk.
Record t := mk {
  chunk_id : uuid; document_id : uuid; doc_type : DocumentType; content : string; score : float; rank : Z;
  section : option string; subsection : option string; metadata : metadata_dict }.

Definition create (p : t) : res t :=
  if unit_range (score p) && (0 <=? rank p)
  then Ok (mk (chunk_id p) (document_id p) (doc_type p) (str_strip (content p)) (score p) (rank p)
              (str_strip <$> section p) (str_strip <$> subsection p) (strip_dict (metadata p)))
  else Raise ValidationError.
End RetrievedChunk.

Module Citation.
Record t := mk {
  chunk_id : uuid; document_id : uuid; document_version_id : uuid; doc_type : DocumentType;
  section : option string; subsection : option string; scenario_id : option uuid;
  relevance_score : float; excerpt : string }.

Definition create (p : t) : res t :=
  let excerpt := str_strip (excerpt p) in
  if unit_range (relevance_score p) && (str_len excerpt <=? 2048)
  then Ok (mk (chunk_id p) (document_id p) (document_version_id p) (doc_type p) (str_strip <$> section p)
              (str_strip <$> subsection p) (scenario_id p) (relevance_score p) excerpt)
  else Raise ValidationError.
End Citation.

Record CoverageCheck := mk_coverage {
  result : CoverageResult; rule_chunks_found : Z; rule_chunks_required : Z; framework_chunks_found : Z;
  framework_chunks_required : Z; missing_doc_types : list DocumentType; missing_frameworks : list Framework;
  gaps : list string }.

Definition CoverageCheck_create (p : CoverageCheck) : res CoverageCheck :=
  if (0 <=? rule_chunks_found p) && (0 <=? rule_chunks_required p) &&
     (0 <=? framework_chunks_found p) && (0 <=? framework_chunks_required p)
  then Ok (mk_coverage (result p) (rule_chunks_found p) (rule_chunks_required p) (framework_chunks_found p)
             (framework_chunks_required p) (missing_doc_types p) (missing_frameworks p) (map str_strip (gaps p)))
  else Raise ValidationError.

Definition is_sufficient (c : CoverageCheck) : bool := match result c with SUFFICIENT => true | _ => false end.

Module Scenario.
Record t := mk {
  id : uuid; created_at : datetime; document_id : uuid; framework : Framework; setup_family : SetupFamily;
  direction : TradeDirection; timeframe : string; outcome : ScenarioOutcome; title : string;
  explanation_text : string; image_refs : list string; confluence_tags : list string; style_tags : list string;
  linked_chunk_ids : list uuid; metadata : metadata_dict; is_active : bool; notes : option string }.

Definition between (lo hi : Z) (s : string) : bool := (lo <=? str_len s) && (str_len s <=? hi).

Definition create (p : t) : res t :=
  let timeframe := str_strip (timeframe p) in
  let title := str_strip (title p) in
  let explanation_text := str_strip (explanation_text p) in
  if between 1 10 timeframe && between 1 512 title && (1 <=? str_len explanation_text)
  then Ok (mk (id p) (created_at p) (document_id p) (framework p) (setup_family p) (direction p) timeframe (outcome p)
              title explanation_text (map str_strip (image_refs p)) (remove_dups (map str_strip (confluence_tags p)))
              (remove_dups (map str_strip (style_tags p))) (linked_chunk_ids p) (strip_dict (metadata p)) (is_active p)
              (str_strip <$> notes p))
  else Raise ValidationError.
End Scenario.

Module ContextBundle.
Record t := mk {
  id : uuid; created_at : datetime; strategy_used : RetrievalStrategy; retrieved_chunks : list RetrievedChunk.t;
  citations : list Citation.t; matched_scenarios : list Scenario.t; coverage_result : CoverageResult;
  conflict_result : ConflictResult; coverage_gaps : list string; conflict_details : list string;
  total_chunks_considered : Z; total_chunks_returned : Z }.

Definition create (p : t) : res t :=
  if (0 <=? total_chunks_considered p) && (0 <=? total_chunks_returned p)
  then Ok (mk (id p) (created_at p) (strategy_used p) (retrieved_chunks p) (citations p) (matched_scenarios p)
              (coverage_result p) (conflict_result p) (map str_strip (coverage_gaps p))
              (map str_strip (conflict_details p)) (total_chunks_considered p) (total_chunks_returned p))
  else Raise ValidationError.
End ContextBundle.

(** ** Configuration: the fields of [RAGConfig] that retrieval and ingestion read *)

Record RAGConfig := mk_rag_config {
  collection_documents : string; collection_scenarios : string;
  chunk_size : Z; chunk_overlap : Z; chunk_min_size : Z; chunk_max_size : Z;
  retrieval_top_k : Z; retrieval_score_threshold : float; retrieval_default_strategy : string;
  rerank_enabled : bool; rerank_top_k : Z; coverage_min_rule_chunks : Z; coverage_min_framework_chunks : Z }.

Definition in_range (lo hi n : Z) : bool := (lo <=? n) && (n <=? hi).

(** The field ranges and [_validate_chunk_bounds]. *)
Definition RAGConfig_create (c : RAGConfig) : res RAGConfig :=
  if in_range 128 4096 (chunk_size c) && in_range 0 512 (chunk_overlap c) && in_range 16 512 (chunk_min_size c) &&
     in_range 256 8192 (chunk_max_size c) && in_range 1 500 (retrieval_top_k c) &&
     unit_range (retrieval_score_threshold c) &&
     str_in (retrieval_default_strategy c) ["rule_first"; "scenario_first"; "macro_bias"; "hybrid"] &&
     in_range 1 200 (rerank_top_k c) && in_range 1 20 (coverage_min_rule_chunks c) &&
     in_range 1 20 (coverage_min_framework_chunks c) &&
     negb (chunk_overlap c >=? chunk_size c) && negb (chunk_min_size c >=? chunk_size c) &&
     negb (rerank_top_k c >? 200)
  then Ok c
  else Raise ValidationError.
