(* ===== verification/Retrieval.v ===== *)
(** * Retrieval of knowledge: [engine/rag/retrieval]

    with [vectorstore/filters.py] and the interfaces [vectorstore/base.py] and
    [embeddings/base.py].  The chunks a model call must see are computed from the
    signals of the analysis, a strategy queries the vector store bucket by bucket,
    gaps are filled by targeted queries, and the chunks are reranked, checked for
    coverage and for conflicts, and cited.

    The vector store and the embedding provider are a class over the state of the
    world.  Where the code iterates a set of strings its order depends on the
    process; [iterate] is that order, a parameter.  Counters and log lines are left
    out. *)

From Stdlib Require Import ZArith Lia Bool Ascii String.
From stdpp Require Import base list strings sets.
From S2P Require Import Prelude PyFloat PyText PyRepr PyValues PyIO Codec RagModels.

#[local] Open Scope string_scope.
#[local] Open Scope Z_scope.
#[local] Open Scope list_scope.

Abbreviation chunk := RetrievedChunk.t.
Abbreviation chunk_id := RetrievedChunk.chunk_id.
Abbreviation doc_type := RetrievedChunk.doc_type.
Abbreviation score := RetrievedChunk.score.

(** [x if x else None] of an optional string, as the list of its values. *)
Definition one (o : option string) : list string :=
  match o with Some s => if str_empty s then [] else [s] | None => [] end.

(** Truth of an optional string. *)
Definition present (o : option string) : bool := match o with Some s => negb (str_empty s) | None => false end.

(** ** Where filters *)

(** The values a condition compares with are typed, as in the store. *)
Inductive operand := OpStr (s : string) | OpBool (b : bool).
Inductive condition :=
| CEq (key : string) (v : operand)
| CIn (key : string) (vs : list string)
| COr (cs : list condition)
| CAnd (cs : list condition).

(** The keyword arguments of a retrieval; [None] and an empty list are the same to
    the code. *)
Record filters := mk_filters {
  doc_types : list DocumentType; frameworks : list string; setup_families : list string; directions : list string;
  timeframes : list string; styles : list string; scenario_outcomes : list string }.

Definition single_value (key : string) (vs : list string) : list condition :=
  match vs with [] => [] | [v] => [CEq key (OpStr v)] | _ => [CIn key vs] end.

Definition flag (prefix : string) (v : string) : condition := CEq (prefix ++ v)%string (OpBool true).

Definition flags (prefix : string) (vs : list string) : list condition :=
  match vs with [] => [] | [v] => [flag prefix v] | _ => [COr (map (flag prefix) vs)] end.

Definition build_where_filter (f : filters) : option condition :=
  let conditions :=
    single_value "doc_type" (map doc_type_value (doc_types f)) ++ single_value "framework" (frameworks f) ++
    single_value "scenario_outcome" (scenario_outcomes f) ++ flags "direction_" (directions f) ++
    flags "setup_family_" (setup_families f) ++ flags "timeframe_" (timeframes f) in
  match conditions with [] => None | [c] => Some c | _ => Some (CAnd conditions) end.

(** ** Mandatory requirements *)

Definition normalised (symbol : string) : string := str_remove "_" (str_remove "." (str_remove "/" symbol)).
Definition _symbol_contains_usd (symbol : string) : bool := str_contains "USD" (normalised symbol).
Definition _symbol_is_metal (symbol : string) : bool :=
  str_contains "XAU" (normalised symbol) || str_contains "XAG" (normalised symbol).

Record MandatoryRequirements := mk_mandatory {
  doc_type_min_chunks : list (DocumentType * Z); force_doc_types : list DocumentType;
  force_rule_id_patterns : list string; is_usd_pair : bool; is_metal_pair : bool; detected_frameworks : list string }.

Definition _raise_min (store : list (DocumentType * Z)) (key : DocumentType) (value : Z) : list (DocumentType * Z) :=
  dict_set key (Z.max (default 0 (dict_get key store)) value) store.

(** The signals of an analysis. *)
Record Signals := mk_signals {
  symbol : option string; has_smc_candidates : bool; has_snd_candidates : bool; has_macro_data : bool;
  has_cot_data : bool; has_rate_decision : bool; has_high_impact_event : bool; has_dxy_data : bool; has_qe_qt : bool;
  has_stagflation : bool; has_cot_extremes : bool; has_tff_data : bool; has_core_inflation : bool;
  has_safe_haven_elevated : bool; has_commodity_currencies_weak : bool; dxy_momentum : option string;
  risk_environment : option string; sig_style : option string }.

Definition baseline_minimums : list (DocumentType * Z) :=
  [(MASTER_RULEBOOK, 15); (TRADING_STYLE_RULES, 13); (SMC_FRAMEWORK, 12); (SND_RULEBOOK, 12); (WYCKOFF_GUIDE, 12);
   (DXY_FRAMEWORK, 12); (COT_INTERPRETATION_GUIDE, 12); (MACRO_TO_PRICE_GUIDE, 13); (CHART_SCENARIO_LIBRARY, 13)].

Definition baseline_patterns : list string :=
  ["MR-REJECT"; "MR-RISK"; "MR-PHIL"; "MR-AI"; "STYLE-RR"; "STYLE-RISK"; "STYLE-SESSION"; "STYLE-AVOID";
   "MACRO-BIAS"; "MACRO-LIMIT"].

(** Each signal in turn: whether it is set, the minimums it raises and the rule
    patterns it adds. *)
Definition raises (s : Signals) : list (bool * list (DocumentType * Z) * list string) :=
  let is_usd := match symbol s with Some y => negb (str_empty y) && _symbol_contains_usd y | None => false end in
  let is_metal := match symbol s with Some y => negb (str_empty y) && _symbol_is_metal y | None => false end in
  let active o idle := match o with Some x => negb (str_empty x) && negb (str_in (str_upper x) [""; idle]) | None => false end in
  [(has_smc_candidates s, [(SMC_FRAMEWORK, 16)], ["SMC-ENTRY"; "SMC-OB"; "SMC-LIQ"; "SMC-INV"]);
   (has_snd_candidates s, [(SND_RULEBOOK, 16)], ["SND-ENTRY"; "SND-ZONE"; "SND-INV"; "SND-FILTER"]);
   (has_smc_candidates s && has_snd_candidates s, [(SMC_FRAMEWORK, 18); (SND_RULEBOOK, 18)], []);
   (is_usd, [(DXY_FRAMEWORK, 15)], ["DXY-TREND"; "DXY-PAIR"; "DXY-STRUCT"]);
   (is_metal, [(DXY_FRAMEWORK, 17)], ["DXY-PAIR-009"]);
   (has_dxy_data s, [(DXY_FRAMEWORK, 15)], []);
   (has_rate_decision s, [(MACRO_TO_PRICE_GUIDE, 17)], ["MACRO-CB"; "MACRO-RATE"; "MACRO-EVENT"]);
   (has_high_impact_event s, [(MACRO_TO_PRICE_GUIDE, 16)], ["MACRO-EVENT"]);
   (has_cot_data s, [(COT_INTERPRETATION_GUIDE, 15)], ["COT-EXTREME"; "COT-SHIFT"; "COT-TECH"; "COT-TREND"]);
   (has_qe_qt s, [(MACRO_TO_PRICE_GUIDE, 17)], ["MACRO-CB"; "MACRO-QE"; "MACRO-QT"; "MACRO-BALANCE"]);
   (has_stagflation s, [(MACRO_TO_PRICE_GUIDE, 17); (MASTER_RULEBOOK, 18)], ["MACRO-STAGFLATION"; "MR-RISK"]);
   (has_cot_extremes s, [(COT_INTERPRETATION_GUIDE, 16)], ["COT-EXTREME"; "COT-CONTRARIAN"]);
   (has_tff_data s, [(COT_INTERPRETATION_GUIDE, 16)], ["COT-TFF"]);
   (has_core_inflation s, [(MACRO_TO_PRICE_GUIDE, 17)], ["MACRO-CPI"; "MACRO-INFLATION"]);
   (has_safe_haven_elevated s, [(MACRO_TO_PRICE_GUIDE, 17)], ["MACRO-RISK"; "MACRO-SAFE-HAVEN"]);
   (has_commodity_currencies_weak s, [(MACRO_TO_PRICE_GUIDE, 16)], ["MACRO-COMMODITY"]);
   (active (dxy_momentum s) "FLAT", [(DXY_FRAMEWORK, 16)], ["DXY-MOMENTUM"; "DXY-TREND"]);
   (active (risk_environment s) "NEUTRAL", [(MACRO_TO_PRICE_GUIDE, 17); (MASTER_RULEBOOK, 18)], ["MACRO-RISK"])].

Definition compute_mandatory_requirements (s : Signals) : MandatoryRequirements :=
  let is_usd := match symbol s with Some y => negb (str_empty y) && _symbol_contains_usd y | None => false end in
  let is_metal := match symbol s with Some y => negb (str_empty y) && _symbol_is_metal y | None => false end in
  let '(min_chunks, rule_patterns) :=
    fold_left (fun '(mins, pats) '(set_, raised, added) =>
                 if set_ : bool
                 then (fold_left (fun m '(k, v) => _raise_min m k v) raised mins, pats ++ added)
                 else (mins, pats))
              (raises s) (baseline_minimums, baseline_patterns) in
  mk_mandatory min_chunks (map fst baseline_minimums)
    (py_sorted String.ltb (remove_dups rule_patterns)) is_usd is_metal
    ["smc"; "snd"; "wyckoff"; "dxy"; "cot"; "macro"].

(** ** The retriever *)

Record VectorSearchResult := mk_result {
  vs_chunk_id : string; vs_score : float; vs_metadata : metadata_dict; vs_content : string }.

Definition embedding : Type := list float.

(** The embedding provider and the vector store. *)
Class Knowledge (W : Type) := {
  embed_batch : list string -> io W (list embedding);
  store_query : string -> embedding -> Z -> option condition -> io W (list VectorSearchResult) }.

Definition _to_retrieved_chunk (rank : Z) (r : VectorSearchResult) : res (option chunk) :=
  let parts := (chunk_id ← UUID (vs_chunk_id r);
                doc_id ← UUID (default (vs_chunk_id r) (dict_get "doc_id" (vs_metadata r)));
                doc_type ← DocumentType_of (default "" (dict_get "doc_type" (vs_metadata r)));
                Ok (chunk_id, doc_id, doc_type)) in
  match parts with
  | Raise (ValueError _) => Ok None
  | Raise e => Raise e
  | Ok (chunk_id, doc_id, doc_type) =>
      c ← RetrievedChunk.create (RetrievedChunk.mk chunk_id doc_id doc_type (vs_content r) (vs_score r) rank
            (dict_get "section" (vs_metadata r)) (dict_get "subsection" (vs_metadata r)) (vs_metadata r));
      Ok (Some c)
  end.

Definition _to_retrieved_chunks (rs : list VectorSearchResult) : res (list chunk) :=
  (fun cs => flat_map (fun o => match o with Some c => [c] | None => [] end) cs)
    <$> res_map (fun '(rank, r) => _to_retrieved_chunk rank r) (py_enumerate rs).

Section Retriever.
Context {W : Type} `{Knowledge W} (config : RAGConfig).

Definition embed_single (text : string) : io W embedding :=
  results ← embed_batch [text];
  lift (py_index results 0).

Definition retrieve (query_text collection : string) (top_k : option Z) (score_threshold : option float)
    (f : filters) : io W (list chunk) :=
  let effective_top_k :=
    match top_k with Some k => if k =? 0 then retrieval_top_k config else k | None => retrieval_top_k config end in
  let effective_threshold := default (retrieval_score_threshold config) score_threshold in
  query_embedding ← embed_single query_text;
  raw_results ← store_query collection query_embedding effective_top_k (build_where_filter f);
  lift (_to_retrieved_chunks (List.filter (fun r => fle effective_threshold (vs_score r)) raw_results)).
End Retriever.

(** ** Counting *)

(** [counts.get(k, 0) + 1] over a list of chunks. *)
Definition count_types (cs : list chunk) : list (DocumentType * Z) :=
  fold_left (fun counts c => dict_set (doc_type c) (default 0 (dict_get (doc_type c) counts) + 1) counts) cs [].

(** The document types below their minimum, with how many are missing. *)
Definition deficits (counts : list (DocumentType * Z)) (m : MandatoryRequirements) : list (DocumentType * Z) :=
  fold_left (fun gaps '(doc_type, min_required) =>
               let current := default 0 (dict_get doc_type counts) in
               if current <? min_required then dict_set doc_type (min_required - current) gaps else gaps)
            (doc_type_min_chunks m) [].

(** ** The gap filler *)

Section GapFiller.
Context {W : Type} `{Knowledge W} (config : RAGConfig).

Definition _frameworks_for_doc_type (d : DocumentType) (m : MandatoryRequirements) : list string := [].

(** The chunks not seen yet, up to [deficit] of them. *)
Fixpoint take_fresh (deficit added : Z) (extra : list chunk) (st : list chunk * list uuid) : list chunk * list uuid :=
  match extra with
  | [] => st
  | c :: extra =>
      let '(supplemental, existing_ids) := st in
      if bool_decide (chunk_id c ∉ existing_ids) && (added <? deficit)
      then take_fresh deficit (added + 1) extra (supplemental ++ [c], set_add (chunk_id c) existing_ids)
      else take_fresh deficit added extra st
  end.

Definition fill_gap (m : MandatoryRequirements) (query_text doc_collection scenario_collection : string)
    (direction timeframe style : option string) (st : list chunk * list uuid) (gap : DocumentType * Z) :
    io W (list chunk * list uuid) :=
  let '(d, deficit) := gap in
  let collection := if decide (d = CHART_SCENARIO_LIBRARY) then scenario_collection else doc_collection in
  let fetch_k := deficit + 3 in
  extra ← attempt (Some <$> retrieve config query_text collection (Some fetch_k) (Some (lit 10 2))
                     (mk_filters [d] (_frameworks_for_doc_type d m) [] (one direction) (one timeframe) (one style) []))
                  (fun _ => mret None);
  match extra with
  | None => mret st
  | Some extra_chunks => mret (take_fresh deficit 0 extra_chunks st)
  end.

Definition fill_gaps (existing_chunks : list chunk) (m : MandatoryRequirements)
    (query_text doc_collection scenario_collection : string) (direction timeframe style : option string) :
    io W (list chunk) :=
  let existing_ids := fold_left (fun ids c => set_add (chunk_id c) ids) existing_chunks [] in
  let gaps := deficits (count_types existing_chunks) m in
  match gaps with
  | [] => mret existing_chunks
  | _ =>
      st ← io_for (fill_gap m query_text doc_collection scenario_collection direction timeframe style) gaps ([], existing_ids);
      mret (existing_chunks ++ st.1)
  end.
End GapFiller.

(** ** The reranker *)

Definition _DOC_TYPE_WEIGHTS (d : DocumentType) : float :=
  match d with
  | MASTER_RULEBOOK => lit 15 1 | SMC_FRAMEWORK => lit 13 1 | SND_RULEBOOK => lit 13 1
  | MACRO_TO_PRICE_GUIDE => lit 125 2 | DXY_FRAMEWORK => lit 12 1 | CHART_SCENARIO_LIBRARY => lit 12 1
  | COT_INTERPRETATION_GUIDE => lit 115 2 | WYCKOFF_GUIDE => lit 11 1 | TRADING_STYLE_RULES => lit 11 1
  end.

Definition _compute_weighted_score (c : chunk) : float :=
  let section_bonus := if present (RetrievedChunk.section c) then lit 2 2 else of_Z 0 in
  let section_bonus := if present (RetrievedChunk.subsection c) then fadd section_bonus (lit 1 2) else section_bonus in
  fmin (of_Z 1) (fadd (fmul (score c) (_DOC_TYPE_WEIGHTS (doc_type c))) section_bonus).

(** [sort(key=lambda x: x\[1\], reverse=True)]. *)
Definition sort_scored : list (chunk * float) -> list (chunk * float) := py_sorted (fun a b => flt b.2 a.2).

Definition _enforce_mandatory_minimums (selected overflow : list (chunk * float)) (m : MandatoryRequirements) :
    list (chunk * float) :=
  let needed := deficits (count_types (map fst selected)) m in
  match needed with
  | [] => selected
  | _ =>
      let available d := List.filter (fun item => bool_decide (doc_type item.1 = d)) overflow in
      let to_add := flat_map (fun '(d, deficit) => py_slice (available d) 0 deficit) needed in
      match to_add with
      | [] => selected
      | _ => sort_scored (selected ++ to_add)
      end
  end.

Definition rerank (config : RAGConfig) (chunks : list chunk) (top_k : option Z) (mandatory : option MandatoryRequirements) :
    res (list chunk) :=
  let configured_top_k := match top_k with Some k => if k =? 0 then rerank_top_k config else k | None => rerank_top_k config end in
  let mandatory_total :=
    match mandatory with Some m => fold_left Z.add (map snd (doc_type_min_chunks m)) 0 | None => 0 end in
  let effective_top_k := Z.max configured_top_k mandatory_total in
  let scored := sort_scored (map (fun c => (c, _compute_weighted_score c)) chunks) in
  let selected := py_slice scored 0 effective_top_k in
  let overflow := py_slice_from scored effective_top_k in
  let selected :=
    match mandatory with
    | Some m => match overflow with [] => selected | _ => _enforce_mandatory_minimums selected overflow m end
    | None => selected
    end in
  res_map (fun '(new_rank, (c, weighted_score)) =>
             RetrievedChunk.create (RetrievedChunk.mk (chunk_id c) (RetrievedChunk.document_id c) (doc_type c)
               (RetrievedChunk.content c) weighted_score new_rank (RetrievedChunk.section c) (RetrievedChunk.subsection c)
               (RetrievedChunk.metadata c)))
          (py_enumerate selected).

(** ** Coverage *)

Definition _RULE_DOC_TYPES : list DocumentType := [MASTER_RULEBOOK; TRADING_STYLE_RULES].

Definition _FRAMEWORK_DOC_TYPES : list (DocumentType * string) :=
  [(SMC_FRAMEWORK, "smc"); (SND_RULEBOOK, "snd"); (WYCKOFF_GUIDE, "wyckoff"); (DXY_FRAMEWORK, "dxy");
   (COT_INTERPRETATION_GUIDE, "cot"); (MACRO_TO_PRICE_GUIDE, "macro"); (TRADING_STYLE_RULES, "style")].

Definition _SCENARIO_DOC_TYPES : list DocumentType := [CHART_SCENARIO_LIBRARY].

Definition fw_doc_map : list (string * DocumentType) :=
  [("smc", SMC_FRAMEWORK); ("snd", SND_RULEBOOK); ("wyckoff", WYCKOFF_GUIDE); ("dxy", DXY_FRAMEWORK);
   ("cot", COT_INTERPRETATION_GUIDE); ("macro", MACRO_TO_PRICE_GUIDE)].

(** [sum(1 for c in chunks if ...)]. *)
Definition count_where (f : chunk -> bool) (cs : list chunk) : Z := py_len (List.filter f cs).

Definition absent (cs : list chunk) (ds : list DocumentType) : list DocumentType :=
  List.filter (fun d => negb (bool_decide (d ∈ map doc_type cs))) ds.

Definition ratio (a b : Z) : string := (str_int a ++ "/" ++ str_int b)%string.

(** The mandatory minimums: whether they hold, the types with no chunk at all, and
    the gaps. *)
Definition mandatory_gaps (cs : list chunk) (m : MandatoryRequirements) : bool * list DocumentType * list string :=
  fold_left (fun '(ok, missing, gaps) '(d, min_required) =>
               let actual := default 0 (dict_get d (count_types cs)) in
               if actual <? min_required
               then (false, (if decide (d ∈ map doc_type cs) then missing else set_add d missing),
                     gaps ++ [("Mandatory " ++ doc_type_value d ++ ": " ++ ratio actual min_required ++ " chunks")%string])
               else (ok, missing, gaps))
            (doc_type_min_chunks m) (true, [], []).

(** The detected frameworks without a chunk, in the order of the set. *)
Definition framework_gaps (cs : list chunk) (fws : list string) : list string :=
  List.filter (fun fw => match dict_get fw fw_doc_map with
                         | Some d => negb (bool_decide (d ∈ map doc_type cs))
                         | None => false
                         end) fws.

(** The required framework, when it has no chunk. *)
Definition required_missing (cs : list chunk) (required_framework : option string) : list string :=
  match required_framework with
  | Some fw =>
      if negb (str_empty fw) &&
         negb (existsb (fun c => bool_decide (dict_get (doc_type c) _FRAMEWORK_DOC_TYPES = Some fw)) cs)
      then [fw] else []
  | None => []
  end.

Definition verdict (rule_ok framework_ok : bool) (missing_frameworks : list string) (scenario_ok mandatory_ok : bool) :
    CoverageResult :=
  if rule_ok && framework_ok && bool_decide (missing_frameworks = []) && scenario_ok && mandatory_ok then SUFFICIENT
  else if rule_ok || framework_ok then PARTIAL else INSUFFICIENT.

Definition check_coverage (iterate : list string -> list string) (config : RAGConfig) (cs : list chunk)
    (required_framework strategy : option string) (mandatory : option MandatoryRequirements) : res CoverageCheck :=
  let rule_count := count_where (fun c => bool_decide (doc_type c ∈ _RULE_DOC_TYPES)) cs in
  let framework_count := count_where (fun c => bool_decide (doc_type c ∈ map fst _FRAMEWORK_DOC_TYPES)) cs in
  let scenario_count := count_where (fun c => bool_decide (doc_type c ∈ _SCENARIO_DOC_TYPES)) cs in
  let min_rule := coverage_min_rule_chunks config in
  let min_framework := coverage_min_framework_chunks config in
  let rules_short := rule_count <? min_rule in
  let frameworks_short := framework_count <? min_framework in
  let missing1 := if rules_short then absent cs _RULE_DOC_TYPES else [] in
  let gaps1 := if rules_short then [("Rule chunks: " ++ ratio rule_count min_rule ++ " required")%string] else [] in
  let missing2 := if frameworks_short then absent cs (map fst _FRAMEWORK_DOC_TYPES) else [] in
  let gaps2 := if frameworks_short then [("Framework chunks: " ++ ratio framework_count min_framework ++ " required")%string] else [] in
  let missing_fw1 := required_missing cs required_framework in
  let gaps3 := map (fun fw => ("No chunks from required framework '" ++ fw ++ "'")%string) missing_fw1 in
  let scenario_required := match strategy with Some s => str_in s ["hybrid"; "scenario_first"] | None => false end in
  let scenario_ok := negb (scenario_required && (scenario_count =? 0)) in
  let missing4 := if scenario_ok then [] else [CHART_SCENARIO_LIBRARY] in
  let gaps4 :=
    if scenario_ok then []
    else [("No scenario chunks retrieved (strategy=" ++ default "" strategy ++ " requires scenarios)")%string] in
  let '(mandatory_ok, missing5, gaps5) :=
    match mandatory with Some m => mandatory_gaps cs m | None => (true, [], []) end in
  let missing_fw2 := match mandatory with Some m => framework_gaps cs (iterate (detected_frameworks m)) | None => [] end in
  let gaps6 := map (fun fw => ("Detected framework '" ++ fw ++ "' has no chunks in result")%string) missing_fw2 in
  let missing_frameworks := remove_dups (missing_fw1 ++ missing_fw2) in
  let rule_ok := min_rule <=? rule_count in
  let framework_ok := min_framework <=? framework_count in
  fws ← res_map Framework_of missing_frameworks;
  CoverageCheck_create (mk_coverage (verdict rule_ok framework_ok missing_frameworks scenario_ok mandatory_ok)
    rule_count min_rule framework_count min_framework (remove_dups (missing1 ++ missing2 ++ missing4 ++ missing5)) fws
    (gaps1 ++ gaps2 ++ gaps3 ++ gaps4 ++ gaps5 ++ gaps6)).

(** ** Conflicts *)

Definition _REFERENCE_DOC_TYPES : list DocumentType := [MASTER_RULEBOOK; TRADING_STYLE_RULES; CHART_SCENARIO_LIBRARY].

(** [s.split(sep)]. *)
Definition str_split (sep : ascii) (s : string) : list string := str_split_max sep (String.length s) s.

Definition _extract_framework_direction_signals (cs : list chunk) : list (string * list string) :=
  fold_left (fun signals c =>
    if decide (doc_type c ∈ _REFERENCE_DOC_TYPES) then signals
    else
      let framework := default "" (dict_get "framework" (RetrievedChunk.metadata c)) in
      let direction_raw := default "" (dict_get "direction" (RetrievedChunk.metadata c)) in
      if str_empty framework || str_empty direction_raw then signals
      else match map str_strip (List.filter (fun d => negb (str_empty (str_strip d))) (str_split "," direction_raw)) with
           | [d] => dict_set framework (default [] (dict_get framework signals) ++ [d]) signals
           | _ => signals
           end) cs [].

Definition detect_conflicts (cs : list chunk) : ConflictResult * list string :=
  let framework_direction_map :=
    flat_map (fun '(framework, ds) => match remove_dups ds with [d] => [(framework, d)] | _ => [] end)
             (_extract_framework_direction_signals cs) in
  let all_directions := remove_dups (map snd framework_direction_map) in
  if (1 <? py_len all_directions) && (1 <? py_len framework_direction_map)
  then
    let conflicting_frameworks := framework_direction_map in
    if 1 <? py_len (remove_dups (map snd conflicting_frameworks))
    then
      let conflict_desc :=
        str_join ", " (map (fun '(fw, d) => (fw ++ "=" ++ d)%string)
                           (py_sorted (fun a b => String.ltb a.1 b.1) conflicting_frameworks)) in
      (CONFLICT_FOUND, [("Cross-framework directional conflict: " ++ conflict_desc)%string])
    else (NONE_DETECTED, [])
  else (NONE_DETECTED, []).

(** ** Citations *)

Definition cite (version_map : list (uuid * uuid)) (c : chunk) : res (option Citation.t) :=
  match dict_get (RetrievedChunk.document_id c) version_map with
  | None => Ok None
  | Some doc_version_id =>
      let scenario_id :=
        match dict_get "scenario_id" (RetrievedChunk.metadata c) with
        | Some raw => if str_empty raw then None else match UUID raw with Ok u => Some u | Raise _ => None end
        | None => None
        end in
      x ← Citation.create (Citation.mk (chunk_id c) (RetrievedChunk.document_id c) doc_version_id (doc_type c)
            (RetrievedChunk.section c) (RetrievedChunk.subsection c) scenario_id (score c)
            (str_take 2048 (RetrievedChunk.content c)));
      Ok (Some x)
  end.

Definition build_citations (cs : list chunk) (version_map : list (uuid * uuid)) : res (list Citation.t) :=
  (fun xs => flat_map (fun o => match o with Some x => [x] | None => [] end) xs) <$> res_map (cite version_map) cs.
