(* ===== verification/RagOrchestrator.v ===== *)
(** * The retrieval orchestrator: [engine/rag/orchestrator.py]

    with the four strategies of [retrieval/strategies], [retrieval/assembler.py],
    [scenarios/matcher.py], [services/audit.py] and [storage/uow.py].  One request
    computes its mandatory requirements, runs a strategy, fills the gaps, reranks,
    cites, matches scenarios, checks coverage and conflicts, and writes its audit
    rows.

    The repositories, the session, [uuid4] and the monotonic clock are a class over
    the state of the world.  A unit of work enters a session, and leaves it with
    the exception of its body, if any. *)

From Stdlib Require Import ZArith Lia Bool Ascii String.
From stdpp Require Import base list strings sets.
From S2P Require Import Prelude PyFloat PyText PyRepr PyValues PyIO RagModels Retrieval.

#[local] Open Scope string_scope.
#[local] Open Scope Z_scope.
#[local] Open Scope list_scope.

(** ** Rows *)

(** A row of the table of scenarios; [None] where a JSON column does not hold the
    expected kind of value. *)
Record ScenarioRow := mk_scenario_row {
  row_id : uuid; row_document_id : uuid; row_framework : string; row_setup_family : string; row_direction : string;
  row_timeframe : string; row_outcome : string; row_title : string; row_explanation_text : string;
  row_image_refs : option (list string); row_confluence_tags : option (list string);
  row_style_tags : option (list string); row_meta_data : option metadata_dict; row_is_active : bool;
  row_notes : option string }.

Record RetrievalLogRow := mk_log_row {
  log_user_id : string; log_query_text : string; log_strategy : string;
  log_filters : list (string * option (list string)); log_total_candidates : Z; log_chunks_returned : Z;
  log_score_threshold : float; log_coverage_result : CoverageResult; log_conflict_result : ConflictResult;
  log_duration_ms : float; log_trace_id : option string }.

Record AnalysisCitationRow := mk_citation_row {
  cite_user_id : string; cite_retrieval_log_id : uuid; cite_citation : Citation.t }.

Class RagDatabase (W : Type) := {
  session_enter : io W unit;
  session_exit : option exn -> io W unit;
  version_get_active : uuid -> io W (option uuid);
  scenario_match : option string -> option string -> option string -> option string -> option string -> Z ->
                   io W (list ScenarioRow);
  retrieval_log_add : RetrievalLogRow -> io W uuid;
  citation_log_add : AnalysisCitationRow -> io W unit;
  uuid4 : io W uuid;
  monotonic : io W float }.

(** [async with self._uow() as uow: ...]. *)
Definition with_uow {W A} `{RagDatabase W} (body : io W A) : io W A := fun w =>
  match session_enter w with
  | (Raise e, w) => (Raise e, w)
  | (Ok _, w) =>
      match body w with
      | (Ok a, w) => match session_exit None w with (Ok _, w) => (Ok a, w) | (Raise e, w) => (Raise e, w) end
      | (Raise e, w) => match session_exit (Some e) w with (Ok _, w) => (Raise e, w) | (Raise e', w) => (Raise e', w) end
      end
  end.

(** ** Strategies *)

(** [for chunk in ...: if chunk.chunk_id not in seen_ids: ...]. *)
Definition merge_new (st : list chunk * list uuid) (cs : list chunk) : list chunk * list uuid :=
  fold_left (fun '(merged, seen_ids) c =>
               if decide (chunk_id c ∈ seen_ids) then (merged, seen_ids)
               else (merged ++ [c], set_add (chunk_id c) seen_ids)) cs st.

(** [sort(key=lambda c: c.score, reverse=True)]. *)
Definition sort_by_score : list chunk -> list chunk := py_sorted (fun a b => flt (score b) (score a)).

Definition framework_doc_map : list (string * DocumentType) :=
  [("smc", SMC_FRAMEWORK); ("snd", SND_RULEBOOK); ("wyckoff", WYCKOFF_GUIDE)].

(** The set of frameworks to query. *)
Definition frameworks_to_retrieve (framework : option string) (all_frameworks : list string) : list string :=
  let known fw := if dict_get fw framework_doc_map then true else false in
  let s := fold_left (fun s fw => if known fw : bool then set_add fw s else s) all_frameworks [] in
  let s := match framework with
           | Some fw => if negb (str_empty fw) && known fw then set_add fw s else s
           | None => s
           end in
  set_add "wyckoff" s.

(** [all_setup_families or (\[setup_family\] if setup_family else None)]. *)
Definition setup_fams (setup_family : option string) (all_setup_families : list string) : list string :=
  match all_setup_families with [] => one setup_family | _ => all_setup_families end.

Definition no_filters : filters := mk_filters [] [] [] [] [] [] [].

Definition rule_types : list DocumentType := [MASTER_RULEBOOK; TRADING_STYLE_RULES].
Definition macro_types : list DocumentType := [MACRO_TO_PRICE_GUIDE; DXY_FRAMEWORK; COT_INTERPRETATION_GUIDE].

(** The arguments of a retrieval. *)
Record Request := mk_request {
  framework : option string; setup_family : option string; direction : option string; timeframe : option string;
  style : option string; all_frameworks : option (list string); all_setup_families : option (list string) }.

Section Strategies.
Context {W : Type} `{Knowledge W} (config : RAGConfig) (iterate : list string -> list string).

(** One bucket of a strategy. *)
Definition bucket (query_text collection : string) (top_k : Z) (f : filters) (st : list chunk * list uuid) :
    io W (list chunk * list uuid) :=
  cs ← retrieve config query_text collection (Some top_k) None f;
  mret (merge_new st cs).

(** The bucket of one framework; the map has every framework of the set. *)
Definition framework_bucket (query_text collection : string) (top_k : Z) (fams dirs tfs : list string)
    (st : list chunk * list uuid) (fw : string) : io W (list chunk * list uuid) :=
  match dict_get fw framework_doc_map with
  | Some d => bucket query_text collection top_k (mk_filters [d] [] fams dirs tfs [] []) st
  | None => lift (Raise KeyError)
  end.

Definition per_framework (framework_k : Z) (fws : list string) : Z := Z.max 2 (framework_k / Z.max 1 (py_len fws)).

(** A bucket whose failure is ignored. *)
Definition scenario_bucket (query_text collection : string) (top_k : Z) (f : filters) (st : list chunk * list uuid) :
    io W (list chunk * list uuid) :=
  attempt (bucket query_text collection top_k f st) (fun _ => mret st).

Definition HybridStrategy_execute (query_text collection scenario_collection : string) (top_k : Z) (r : Request) :
    io W (list chunk) :=
  let rules_k := Z.max 3 (top_k / 4) in
  let framework_k := Z.max 3 (top_k / 3) in
  let macro_k := Z.max 3 (top_k / 3) in
  let scenario_k := Z.max 3 (top_k / 10) in
  st ← bucket query_text collection (rules_k + 2) (mk_filters rule_types [] [] [] [] (one (style r)) []) ([], []);
  let fws := frameworks_to_retrieve (framework r) (default [] (all_frameworks r)) in
  let per_fw_k := per_framework framework_k fws in
  let fams := setup_fams (setup_family r) (default [] (all_setup_families r)) in
  st ← io_for (framework_bucket query_text collection (per_fw_k + 2) fams (one (direction r)) (one (timeframe r)))
              (iterate fws) st;
  st ← bucket query_text collection (macro_k + 2) (mk_filters macro_types [] [] (one (direction r)) [] [] []) st;
  st ← scenario_bucket query_text scenario_collection (scenario_k + 2)
         (mk_filters [] (one (framework r)) fams (one (direction r)) (one (timeframe r)) [] []) st;
  mret (sort_by_score st.1).

Definition MacroBiasStrategy_execute (query_text collection : string) (top_k : Z) (r : Request) : io W (list chunk) :=
  let rules_k := Z.max 3 (top_k / 4) in
  let framework_k := Z.max 3 (top_k * 35 / 100) in
  let macro_k := Z.max 3 (top_k * 37 / 100) + 3 in
  st ← bucket query_text collection macro_k (mk_filters macro_types [] [] (one (direction r)) [] (one (style r)) []) ([], []);
  st ← bucket query_text collection (rules_k + 2) (mk_filters rule_types [] [] [] [] [] []) st;
  let fws := frameworks_to_retrieve None (default [] (all_frameworks r)) in
  let per_fw_k := per_framework framework_k fws in
  st ← io_for (framework_bucket query_text collection (per_fw_k + 1) [] (one (direction r)) []) (iterate fws) st;
  mret (sort_by_score st.1).

Definition RuleFirstStrategy_execute (query_text collection : string) (top_k : Z) (r : Request) : io W (list chunk) :=
  let rules_k := Z.max 3 (top_k * 30 / 100) + 3 in
  let framework_k := Z.max 3 (top_k * 35 / 100) in
  let macro_k := Z.max 3 (top_k * 35 / 100) in
  st ← bucket query_text collection rules_k (mk_filters rule_types [] [] [] [] (one (style r)) []) ([], []);
  st ← bucket query_text collection (macro_k + 2) (mk_filters macro_types [] [] (one (direction r)) [] [] []) st;
  let fws := frameworks_to_retrieve (framework r) (default [] (all_frameworks r)) in
  let per_fw_k := per_framework framework_k fws in
  let fams := setup_fams (setup_family r) (default [] (all_setup_families r)) in
  st ← io_for (framework_bucket query_text collection (per_fw_k + 1) fams (one (direction r)) (one (timeframe r)))
              (iterate fws) st;
  mret (sort_by_score st.1).

Definition ScenarioFirstStrategy_execute (query_text collection scenario_collection : string) (top_k : Z) (r : Request) :
    io W (list chunk) :=
  let fams := setup_fams (setup_family r) (default [] (all_setup_families r)) in
  let rules_k := Z.max 3 (top_k / 4) in
  let framework_k := Z.max 3 (top_k / 3) in
  let macro_k := Z.max 3 (top_k / 3) in
  let scenario_k := Z.max 3 (top_k / 10) + 3 in
  st ← scenario_bucket query_text scenario_collection scenario_k
         (mk_filters [] (one (framework r)) fams (one (direction r)) (one (timeframe r)) [] []) ([], []);
  st ← bucket query_text collection (rules_k + 2) (mk_filters rule_types [] [] [] [] [] []) st;
  let fws := frameworks_to_retrieve (framework r) (default [] (all_frameworks r)) in
  let per_fw_k := per_framework framework_k fws in
  st ← io_for (framework_bucket query_text collection (per_fw_k + 1) fams (one (direction r)) (one (timeframe r)))
              (iterate fws) st;
  st ← bucket query_text collection (macro_k + 2) (mk_filters macro_types [] [] (one (direction r)) [] [] []) st;
  mret (sort_by_score st.1).

Definition _execute_strategy (query_text strategy : string) (top_k : Z) (r : Request) : io W (list chunk) :=
  let doc_collection := collection_documents config in
  let scenario_collection := collection_scenarios config in
  if String.eqb strategy "rule_first" then RuleFirstStrategy_execute query_text doc_collection top_k r
  else if String.eqb strategy "scenario_first"
  then ScenarioFirstStrategy_execute query_text doc_collection scenario_collection top_k r
  else if String.eqb strategy "macro_bias" then MacroBiasStrategy_execute query_text doc_collection top_k r
  else HybridStrategy_execute query_text doc_collection scenario_collection top_k r.
End Strategies.

(** ** Scenarios, versions and audit *)

Section Services.
Context {W : Type} `{RagDatabase W} `{Clock W}.

Definition scenario_of_row (row : ScenarioRow) : io W Scenario.t :=
  fw ← lift (Framework_of (row_framework row));
  family ← lift (SetupFamily_of (row_setup_family row));
  dir ← lift (Direction_of (row_direction row));
  outcome ← lift (ScenarioOutcome_of (row_outcome row));
  created_at ← now;
  lift (Scenario.create (Scenario.mk (row_id row) created_at (row_document_id row) fw family dir (row_timeframe row)
          outcome (row_title row) (row_explanation_text row) (default [] (row_image_refs row))
          (default [] (row_confluence_tags row)) (default [] (row_style_tags row)) [] (default [] (row_meta_data row))
          (row_is_active row) (row_notes row))).

Definition match_ (framework setup_family direction timeframe outcome : option string) (limit : Z) : io W (list Scenario.t) :=
  rows ← with_uow (scenario_match framework setup_family direction timeframe outcome limit);
  io_for (fun scenarios row => s ← scenario_of_row row; mret (scenarios ++ [s])) rows [].

(** The scenarios not seen yet. *)
Definition merge_scenarios (st : list Scenario.t * list uuid) (matched : list Scenario.t) : list Scenario.t * list uuid :=
  fold_left (fun '(all_scenarios, seen_ids) s =>
               if decide (Scenario.id s ∈ seen_ids) then (all_scenarios, seen_ids)
               else (all_scenarios ++ [s], set_add (Scenario.id s) seen_ids)) matched st.

Definition _match_scenarios (framework : option string) (setup_families : list string)
    (direction timeframe : option string) (all_frameworks : list string) : io W (list Scenario.t) :=
  let frameworks_to_try := fold_left (fun fws fw => set_add fw fws) all_frameworks (one framework) in
  let families_to_try := match setup_families with [] => [None] | _ => map Some setup_families end in
  let tries := match frameworks_to_try with [] => [None] | _ => map Some frameworks_to_try end in
  st ← io_for (fun st fw =>
         io_for (fun st family =>
                   matched ← match_ fw family direction timeframe None 15;
                   mret (merge_scenarios st matched)) families_to_try st) tries ([], []);
  mret (py_slice st.1 0 25).

Definition _build_version_map (cs : list chunk) : io W (list (uuid * uuid)) :=
  with_uow (
    st ← io_for (fun '(version_map, seen_doc_ids) c =>
           if decide (RetrievedChunk.document_id c ∈ seen_doc_ids) then mret (version_map, seen_doc_ids)
           else
             active ← version_get_active (RetrievedChunk.document_id c);
             mret (match active with
                   | Some v => dict_set (RetrievedChunk.document_id c) v version_map
                   | None => version_map
                   end, set_add (RetrievedChunk.document_id c) seen_doc_ids)) cs ([], []);
    mret st.1).

Definition log_retrieval (row : RetrievalLogRow) : io W uuid := with_uow (retrieval_log_add row).

Definition log_citations (user_id : string) (retrieval_log_id : uuid) (citations : list Citation.t) : io W Z :=
  with_uow (io_for (fun count c =>
              _ ← citation_log_add (mk_citation_row user_id retrieval_log_id c);
              mret (count + 1)) citations 0).

Definition assemble_context_bundle (strategy : RetrievalStrategy) (cs : list chunk) (citations : list Citation.t)
    (scenarios : list Scenario.t) (coverage_result : CoverageResult) (conflict_result : ConflictResult)
    (coverage_gaps conflict_details : list string) (total_candidates : Z) : io W ContextBundle.t :=
  id ← uuid4;
  created_at ← now;
  lift (ContextBundle.create (ContextBundle.mk id created_at strategy cs citations scenarios coverage_result
          conflict_result coverage_gaps conflict_details total_candidates (py_len cs))).
End Services.

(** ** The orchestrator *)

Section Orchestrator.
Context {W : Type} `{Knowledge W} `{RagDatabase W} `{Clock W}.
Context (config : RAGConfig) (iterate : list string -> list string).

(** The chunks of a request: the strategy, the gaps, the reranking.  The number
    found by the strategy is kept beside them. *)
Definition gather (query_text strategy : string) (r : Request) (mandatory : MandatoryRequirements) :
    io W (list chunk * Z) :=
  found ← _execute_strategy config iterate query_text strategy (retrieval_top_k config) r;
  filled ← fill_gaps config found mandatory query_text (collection_documents config) (collection_scenarios config)
             (direction r) (timeframe r) (style r);
  cs ← (if rerank_enabled config then lift (rerank config filled None (Some mandatory)) else mret filled);
  mret (cs, py_len found).

Definition applied_filters (r : Request) (sym : option string) : list (string * option (list string)) :=
  let one_ o := (fun s => [s]) <$> o in
  [("framework", one_ (framework r)); ("setup_family", one_ (setup_family r)); ("direction", one_ (direction r));
   ("timeframe", one_ (timeframe r)); ("style", one_ (style r)); ("symbol", one_ sym);
   ("all_frameworks", all_frameworks r); ("all_setup_families", all_setup_families r)].

Definition retrieve_context (query_text user_id : string) (strategy : option string) (r : Request)
    (trace_id : option string) (s : Signals) : io W ContextBundle.t :=
  start ← monotonic;
  let effective_strategy :=
    match strategy with Some x => if str_empty x then retrieval_default_strategy config else x
                      | None => retrieval_default_strategy config end in
  let mandatory := compute_mandatory_requirements s in
  '(cs, total_candidates) ← gather query_text effective_strategy r mandatory;
  version_map ← _build_version_map cs;
  citations ← lift (build_citations cs version_map);
  let effective_setup_families := setup_fams (setup_family r) (default [] (all_setup_families r)) in
  scenarios ← _match_scenarios (framework r) effective_setup_families (direction r) (timeframe r) (default [] (all_frameworks r));
  finish ← monotonic;
  let elapsed_ms := fmul (fsub finish start) (of_Z 1000) in
  coverage ← lift (check_coverage iterate config cs (framework r) (Some effective_strategy) (Some mandatory));
  let '(conflict_result, conflict_details) := detect_conflicts cs in
  strategy_used ← lift (RetrievalStrategy_of effective_strategy);
  bundle ← assemble_context_bundle strategy_used cs citations scenarios (result coverage) conflict_result
             (gaps coverage) conflict_details total_candidates;
  retrieval_log_id ← log_retrieval (mk_log_row user_id query_text effective_strategy
      (applied_filters r (symbol s)) total_candidates (py_len cs) (retrieval_score_threshold config)
      (ContextBundle.coverage_result bundle) (ContextBundle.conflict_result bundle) elapsed_ms trace_id);
  _ ← log_citations user_id retrieval_log_id citations;
  mret bundle.
End Orchestrator.
