(* ===== verification/RagFacts.v ===== *)
(** * What retrieval guarantees

    [MandatoryFacts]: the minimums of every document.  [RerankFacts]: the reranker
    keeps them.  [GapFacts]: what the gap filler can add.  [ContextFacts]: what a
    context that is called sufficient holds, and the requests that can never get
    one. *)

From Stdlib Require Import ZArith Lia Bool Ascii String Sorting.Sorted Sorting.Permutation.
From stdpp Require Import base list strings sets.
From S2P Require Import Prelude Loops PyFloat FloatRound PyText PyRepr PyValues PyIO RagModels Retrieval RagOrchestrator.

#[local] Open Scope string_scope.
#[local] Open Scope Z_scope.
#[local] Open Scope list_scope.

(** ** Counting *)

(** The number of chunks of a document type. *)
Definition number (d : DocumentType) (cs : list chunk) : Z :=
  py_len (List.filter (fun c => bool_decide (doc_type c = d)) cs).

Lemma number_cons d c cs : number d (c :: cs) = (if decide (doc_type c = d) then 1 else 0) + number d cs.
Proof. unfold number. simpl. case_bool_decide; [rewrite decide_True by done|rewrite decide_False by done]; rewrite ?py_len_cons; lia. Qed.

Lemma number_app d cs cs' : number d (cs ++ cs') = number d cs + number d cs'.
Proof. unfold number. by rewrite List.filter_app, py_len_app. Qed.

Lemma number_nonneg d cs : 0 <= number d cs.
Proof. apply py_len_nonneg. Qed.

Lemma number_map d (f : chunk -> chunk) cs : (forall c, doc_type (f c) = doc_type c) -> number d (map f cs) = number d cs.
Proof. intros Hf. induction cs as [|c cs IH]; [done|]. simpl. by rewrite !number_cons, Hf, IH. Qed.

Lemma number_perm d cs cs' : Permutation cs cs' -> number d cs = number d cs'.
Proof. induction 1; rewrite ?number_cons; lia. Qed.

#[global] Instance number_proper d : Proper (Permutation ==> eq) (number d).
Proof. intros cs cs'. apply number_perm. Qed.

Lemma number_types d cs cs' : map doc_type cs = map doc_type cs' -> number d cs = number d cs'.
Proof.
  revert cs'. induction cs as [|c cs IH]; intros [|c' cs']; [done..|]. simpl. intros [= E1 E2].
  by rewrite !number_cons, E1, (IH cs' E2).
Qed.

Lemma number_zero d cs : number d cs = 0 <-> Forall (fun c => doc_type c <> d) cs.
Proof.
  induction cs as [|c cs IH]; [split; [constructor|done]|]. rewrite number_cons, Forall_cons, <- IH.
  pose proof (number_nonneg d cs). case_decide; split; [lia|naive_solver|intros; split; [done|lia]|intros [_ ->]; lia].
Qed.

Lemma count_types_from d cs counts :
  default 0 (dict_get d (fold_left (fun counts c => dict_set (doc_type c) (default 0 (dict_get (doc_type c) counts) + 1) counts) cs counts))
  = default 0 (dict_get d counts) + number d cs.
Proof.
  revert counts. induction cs as [|c cs IH]; intros counts; simpl; [change (number d []) with 0; lia|].
  rewrite IH, dict_get_set, number_cons. case_decide; subst; rewrite ?decide_True, ?decide_False by congruence; simpl; lia.
Qed.

Lemma count_types_get d cs : default 0 (dict_get d (count_types cs)) = number d cs.
Proof. unfold count_types. by rewrite count_types_from. Qed.

(** ** Requirements *)

Module MandatoryFacts.

(** What a set of requirements asks of a document type. *)
Definition minimum (m : MandatoryRequirements) (d : DocumentType) : Z := default 0 (dict_get d (doc_type_min_chunks m)).

(** The requirements are a dict: one entry for each document type. *)
Definition well_formed (m : MandatoryRequirements) : Prop := NoDup (map fst (doc_type_min_chunks m)).

Lemma deficits_get m cs d : well_formed m ->
  dict_get d (deficits (count_types cs) m) =
    if number d cs <? minimum m d then Some (minimum m d - number d cs) else None.
Proof.
  intros Hm. unfold deficits, minimum.
  enough (G : forall l acc, NoDup (map fst l) -> (forall k, In k (map fst l) -> dict_get k acc = None) ->
    dict_get d (fold_left (fun gaps '(doc_type, min_required) =>
               let current := default 0 (dict_get doc_type (count_types cs)) in
               if current <? min_required then dict_set doc_type (min_required - current) gaps else gaps) l acc)
    = match dict_get d l with
      | Some v => if number d cs <? v then Some (v - number d cs) else None
      | None => dict_get d acc
      end).
  { etransitivity; [exact (G (doc_type_min_chunks m) [] Hm ltac:(done))|]. destruct (dict_get d (doc_type_min_chunks m)); simpl; [done|].
    pose proof (number_nonneg d cs). by rewrite (proj2 (Z.ltb_ge _ _)). }
  induction l as [|[k v] l IH]; intros acc Hl Hacc; [done|]. cbn [fold_left map fst] in *.
  apply NoDup_cons in Hl as [Hk Hl]. rewrite list_elem_of_In in Hk. rewrite IH; [|done|].
  - cbn [dict_get]. rewrite count_types_get. destruct (decide (d = k)) as [->|Hd].
    + assert (dict_get k l = None) as ->.
      { destruct (dict_get k l) eqn:E; [|done]. apply dict_get_member in E. destruct Hk. by apply (in_map fst) in E. }
      destruct (number k cs <? v); [by rewrite dict_get_set, decide_True|]. apply Hacc. by left.
    + destruct (dict_get d l); [done|]. destruct (number k cs <? v); [|done]. by rewrite dict_get_set, decide_False.
  - intros k' Hk'. assert (k' <> k) by (intros ->; done).
    destruct (_ <? v); [rewrite dict_get_set, decide_False by done|]; apply Hacc; by right.
Qed.

Lemma deficits_NoDup cs m : NoDup (map fst (deficits (count_types cs) m)).
Proof.
  unfold deficits. assert (H : NoDup (map fst (@nil (DocumentType * Z)))) by constructor.
  revert H. generalize (@nil (DocumentType * Z)).
  induction (doc_type_min_chunks m) as [|[k v] l IH]; intros acc Hacc; [done|]. cbn [fold_left].
  apply IH. destruct (_ <? v); [by apply dict_set_NoDup|done].
Qed.

Lemma deficits_nil cs m : well_formed m -> deficits (count_types cs) m = [] ->
  forall d, minimum m d <= number d cs.
Proof.
  intros Hm E d. pose proof (deficits_get m cs d Hm) as G. rewrite E in G. simpl in G.
  destruct (number d cs <? minimum m d) eqn:E'; [done|]. by zbool.
Qed.

(** Raising a minimum keeps the keys of the dict and lowers nothing. *)
Lemma raise_min_get store k v d :
  default 0 (dict_get d (_raise_min store k v)) =
    if decide (d = k) then Z.max (default 0 (dict_get k store)) v else default 0 (dict_get d store).
Proof. unfold _raise_min. rewrite dict_get_set. by case_decide. Qed.

Lemma raise_min_keys (store : list (DocumentType * Z)) k v :
  In k (map fst store) -> map fst (_raise_min store k v) = map fst store.
Proof.
  unfold _raise_min. generalize (Z.max (default 0 (dict_get k store)) v) as x. intros x.
  induction store as [|[k' v'] store IH]; simpl; [done|]. intros [->|H].
  - by rewrite decide_True.
  - case_decide; simpl; [by subst|]. by rewrite IH.
Qed.

(** The fold of [compute_mandatory_requirements], by an invariant of the dict. *)
Lemma raises_invariant (P : list (DocumentType * Z) -> Prop) rs mins pats :
  P mins -> (forall m k v, P m -> P (_raise_min m k v)) ->
  P (fold_left (fun '(mins, pats) '(set_, raised, added) =>
                 if set_ : bool
                 then (fold_left (fun m '(k, v) => _raise_min m k v) raised mins, pats ++ added)
                 else (mins, pats)) rs (mins, pats : list string)).1.
Proof.
  intros H0 Hstep. revert mins pats H0. induction rs as [|[[b raised] added] rs IH]; intros mins pats H0; [done|].
  cbn [fold_left]. destruct b; [|by apply IH]. apply IH. clear IH. revert mins H0.
  induction raised as [|[k v] raised IH]; intros mins H0; [done|]. cbn [fold_left]. apply IH. by apply Hstep.
Qed.

Lemma compute_keys s : map fst (doc_type_min_chunks (compute_mandatory_requirements s)) = map fst baseline_minimums.
Proof.
  unfold compute_mandatory_requirements.
  pose proof (raises_invariant (fun m => map fst m = map fst baseline_minimums) (raises s) baseline_minimums baseline_patterns eq_refl) as G.
  destruct (fold_left _ (raises s) _) as [mins pats]. cbn [doc_type_min_chunks fst] in *. apply G.
  intros m k v Hm. rewrite raise_min_keys; [done|]. rewrite Hm. destruct k; vm_compute; tauto.
Qed.

Lemma compute_well_formed s : well_formed (compute_mandatory_requirements s).
Proof. unfold well_formed. rewrite compute_keys. vm_compute. repeat constructor; set_solver. Qed.

(** Every document keeps at least its baseline, whatever the signals. *)
Lemma compute_baseline s d :
  default 0 (dict_get d baseline_minimums) <= minimum (compute_mandatory_requirements s) d.
Proof.
  unfold compute_mandatory_requirements, minimum.
  pose proof (raises_invariant (fun m => default 0 (dict_get d baseline_minimums) <= default 0 (dict_get d m))
                (raises s) baseline_minimums baseline_patterns (Z.le_refl _)) as G.
  destruct (fold_left _ (raises s) _) as [mins pats]. cbn [doc_type_min_chunks fst] in *. apply G.
  intros m k v Hm. rewrite raise_min_get. case_decide; [subst; lia|done].
Qed.

Lemma baseline_positive d : 12 <= default 0 (dict_get d baseline_minimums).
Proof. by destruct d; vm_compute. Qed.

End MandatoryFacts.

(** ** Reranking *)

(** A chunk as its model accepts it. *)
Definition chunk_ok (c : chunk) : Prop :=
  valid (score c) = true /\ unit_range (score c) = true /\ 0 <= RetrievedChunk.rank c.

Lemma chunks_ok_check cs :
  forallb (fun c => valid (score c) && unit_range (score c) && (0 <=? RetrievedChunk.rank c)) cs = true -> Forall chunk_ok cs.
Proof.
  rewrite forallb_forall, List.Forall_forall. intros H c Hc. specialize (H c Hc). split_hyps. by zbool.
Qed.

Lemma unit_range_fin x : valid x = true -> unit_range x = true -> fin x /\ 0 <= fv x <= unit_pow 0.
Proof.
  intros V. unfold unit_range. rewrite andb_true_iff. intros [H0 H1].
  assert (N : num x) by (split; [done|]; by destruct x).
  rewrite fle_fv in H0, H1 by (done || apply fin_num; done). zbool.
  change (fv (of_Z 0)) with 0 in H0. change (fv (of_Z 1)) with (unit_pow 0) in H1.
  split; [|done]. apply (num_finite_of_bounds x (of_Z 0) (of_Z 1)); [done..|]. split; [exact H0|exact H1].
Qed.

Lemma unit_range_of_fv x : num x -> 0 <= fv x <= unit_pow 0 -> unit_range x = true.
Proof.
  intros N [H0 H1]. unfold unit_range. rewrite !fle_fv by (done || apply fin_num; done).
  change (fv (of_Z 0)) with 0. change (fv (of_Z 1)) with (unit_pow 0).
  by rewrite (proj2 (Z.leb_le _ _) H0), (proj2 (Z.leb_le _ _) H1).
Qed.

Module RerankFacts.
Import MandatoryFacts.

(** A weighted score is a score again. *)
Lemma weighted_ok c : chunk_ok c ->
  valid (_compute_weighted_score c) = true /\ unit_range (_compute_weighted_score c) = true.
Proof.
  intros (V & U & _). destruct (unit_range_fin _ V U) as [F [H0 H1]]. unfold _compute_weighted_score.
  set (w := _DOC_TYPE_WEIGHTS (doc_type c)). set (b := if present (RetrievedChunk.subsection c) then _ else _).
  assert (Hw : fin w /\ 0 <= fv w) by (unfold w; destruct (doc_type c); vm_compute; done).
  assert (Hb : fin b /\ 0 <= fv b) by (unfold b; destruct (present _), (present _); vm_compute; done).
  destruct Hw as [Fw Hw], Hb as [Fb Hb].
  assert (Fp : fin (fmul (score c) w)).
  { apply (num_finite_of_bounds _ fzero w); [by apply fmul_num|done..|]. rewrite fv_fzero.
    split; [by apply fmul_nonneg|by apply fmul_le_r]. }
  pose proof (fadd_num _ _ Fp Fb) as Na. pose proof (fadd_ge_l _ _ Fp Fb Hb) as Ha.
  pose proof (fmul_nonneg _ _ F Fw H0 Hw) as Hm.
  unfold fmin. rewrite flt_fv by (done || apply fin_num; done).
  change (fv (of_Z 1)) with (unit_pow 0). destruct (_ <? unit_pow 0) eqn:E; [|done]. zbool.
  split; [apply Na|]. apply unit_range_of_fv; [done|lia].
Qed.

Lemma slice_take {A} (l : list A) b : 0 <= b -> py_slice l 0 b = take (Z.to_nat b) l.
Proof.
  intros Hb. unfold py_slice, py_slice_bound. pose proof (py_len_nonneg l) as Hl.
  replace (b <? 0) with false by (symmetry; apply Z.ltb_ge; lia). change (0 <? 0) with false. cbv iota.
  rewrite (Z.min_l 0) by done. change (drop (Z.to_nat 0) l) with l. change (Z.to_nat 0) with 0%nat. rewrite Nat.sub_0_r. unfold py_len in *.
  destruct (Z.min_spec b (Z.of_nat (length l))) as [[? ->]|[? ->]]; [done|].
  rewrite Nat2Z.id, firstn_all. symmetry. apply take_ge. lia.
Qed.

Lemma slice_from_drop {A} (l : list A) a : 0 <= a -> py_slice_from l a = drop (Z.to_nat a) l.
Proof.
  intros Ha. unfold py_slice_from, py_slice_bound. replace (a <? 0) with false by (symmetry; apply Z.ltb_ge; lia).
  unfold py_len. destruct (Z.min_spec a (Z.of_nat (length l))) as [[? ->]|[? ->]]; [done|].
  rewrite Nat2Z.id, drop_all. symmetry. apply drop_ge. lia.
Qed.

(** The elements of a list split between two exclusive tests. *)
Lemma filter_split {A} (p q : A -> bool) l : (forall x, p x = true -> q x = false) ->
  Permutation (List.filter (fun x => p x || q x) l) (List.filter p l ++ List.filter q l).
Proof.
  intros Hpq. induction l as [|x l IH]; simpl; [done|]. destruct (p x) eqn:E; simpl.
  - rewrite (Hpq _ E). simpl. by rewrite IH.
  - destruct (q x); [|done]. rewrite <- Permutation_middle. by rewrite IH.
Qed.

Abbreviation of_type d := (List.filter (fun item : chunk * float => bool_decide (doc_type item.1 = d))).

Lemma filter_sub {A} (p : A -> bool) l : List.filter p l ⊆+ l.
Proof. induction l as [|x l IH]; simpl; [done|]. destruct (p x); [by apply submseteq_skip|by apply submseteq_cons]. Qed.

(** Taking some of each type takes no chunk twice. *)
Lemma by_type_sub needed (overflow : list (chunk * float)) : NoDup (map fst needed) ->
  flat_map (fun '(d, k) => py_slice (of_type d overflow) 0 k) needed
    ⊆+ List.filter (fun item => bool_decide (doc_type item.1 ∈ map fst needed)) overflow.
Proof.
  induction needed as [|[d k] needed IH]; intros Hd; simpl; [apply submseteq_nil_l|].
  apply NoDup_cons in Hd as [Hd Hn]. etransitivity; [apply submseteq_app; [|by apply IH]|].
  - unfold py_slice. etransitivity; [apply sublist_submseteq, sublist_take|]. apply sublist_submseteq, sublist_drop.
  - apply Permutation_submseteq. rewrite <- filter_split.
    + apply reflexive_eq. apply List.filter_ext. intros x. rewrite <- bool_decide_or. apply bool_decide_ext. set_solver.
    + intros x. rewrite bool_decide_eq_true, bool_decide_eq_false. by intros ->.
Qed.

Lemma number_of_type d (l : list (chunk * float)) : number d (map fst l) = py_len (of_type d l).
Proof.
  induction l as [|[c x] l IH]; [done|]. cbn [map fst]. rewrite number_cons, IH. simpl.
  case_bool_decide; [rewrite decide_True by done|rewrite decide_False by done]; rewrite ?py_len_cons; lia.
Qed.

Lemma number_sub d (l l' : list (chunk * float)) : l ⊆+ l' -> number d (map fst l) <= number d (map fst l').
Proof.
  induction 1 as [|[c x] l l' _ IH|[c x] [c' x'] l|[c x] l l' _ IH|l1 l2 l3 _ IH1 _ IH2]; cbn [map fst]; rewrite ?number_cons; try lia.
  case_decide; lia.
Qed.

Lemma number_all_of_type d (l : list (chunk * float)) :
  Forall (fun item => doc_type item.1 = d) l -> number d (map fst l) = py_len l.
Proof.
  induction 1 as [|[c x] l Hc _ IH]; [done|]. cbn [map fst] in *. rewrite number_cons, IH, py_len_cons.
  cbn in Hc. by rewrite decide_True.
Qed.

Lemma enforce_spec selected overflow m : well_formed m ->
  exists added, Permutation (_enforce_mandatory_minimums selected overflow m) (selected ++ added) /\ added ⊆+ overflow /\
    (forall d, Z.min (minimum m d) (number d (map fst selected) + number d (map fst overflow))
               <= number d (map fst (selected ++ added))).
Proof.
  intros Hm. unfold _enforce_mandatory_minimums.
  pose proof (deficits_NoDup (map fst selected) m) as Hnd. pose proof (fun d => deficits_get m (map fst selected) d Hm) as Hget.
  set (needed := deficits _ m) in *. set (to_add := flat_map _ needed).
  assert (Hsub : to_add ⊆+ overflow) by (etransitivity; [by apply by_type_sub|apply filter_sub]).
  assert (Hnum : forall d, Z.min (minimum m d) (number d (map fst selected) + number d (map fst overflow))
                           <= number d (map fst (selected ++ to_add))).
  { intros d. rewrite map_app, number_app. specialize (Hget d). pose proof (number_nonneg d (map fst to_add)).
    destruct (number d (map fst selected) <? minimum m d) eqn:E; [|zbool; lia]. zbool.
    set (k := minimum m d - number d (map fst selected)) in *.
    apply dict_get_member, in_split in Hget as (l1 & l2 & Hn).
    enough (Z.min k (number d (map fst overflow)) <= number d (map fst to_add)) by lia.
    unfold to_add. rewrite Hn, flat_map_app. cbn [flat_map]. rewrite !map_app, !number_app.
    rewrite slice_take, (number_all_of_type d (take _ _)) by (lia || (apply Forall_take, List.Forall_forall; intros x Hx; apply filter_In in Hx as [_ Hx]; by apply bool_decide_eq_true in Hx)).
    rewrite number_of_type. unfold py_len at 2. rewrite length_take. unfold py_len.
    pose proof (number_nonneg d (map fst (flat_map (fun '(d, k) => py_slice (of_type d overflow) 0 k) l1))).
    pose proof (number_nonneg d (map fst (flat_map (fun '(d, k) => py_slice (of_type d overflow) 0 k) l2))). lia. }
  destruct needed as [|n needed'] eqn:En.
  { exists []. rewrite app_nil_r. split_and!; [done|apply submseteq_nil_l|]. intros d. specialize (Hnum d).
    unfold to_add in Hnum. simpl in Hnum. by rewrite app_nil_r in Hnum. }
  exists to_add. destruct to_add as [|t to_add'] eqn:Et; [by rewrite app_nil_r in *|].
  split_and!; [apply py_sorted_perm|done|done].
Qed.

(** A chunk as the reranker returns it: its weighted score, its position. *)
Definition placed (c : chunk) (i : Z) : chunk :=
  RetrievedChunk.mk (chunk_id c) (RetrievedChunk.document_id c) (doc_type c) (str_strip (RetrievedChunk.content c))
    (_compute_weighted_score c) i (str_strip <$> RetrievedChunk.section c) (str_strip <$> RetrievedChunk.subsection c)
    (strip_dict (RetrievedChunk.metadata c)).

Definition scored (c : chunk) : chunk * float := (c, _compute_weighted_score c).

Definition best_first (cs : list chunk) : Prop :=
  StronglySorted (fun a b => fv (_compute_weighted_score b) <= fv (_compute_weighted_score a)) cs.

Lemma weighted_num c : chunk_ok c -> num (_compute_weighted_score c).
Proof. intros H. apply fin_num. destruct (weighted_ok c H). by apply unit_range_fin. Qed.

(** Lists of scored chunks are lists of chunks. *)
Lemma scored_list l : Forall (fun item => item = scored item.1) l -> l = map scored (map fst l).
Proof. induction 1 as [|item l H _ IH]; simpl; [done|]. by rewrite <- H, <- IH. Qed.

Lemma sort_scored_spec cs : Forall chunk_ok cs ->
  exists cs', sort_scored (map scored cs) = map scored cs' /\ Permutation cs' cs /\ best_first cs'.
Proof.
  intros Hok. exists (map fst (sort_scored (map scored cs))).
  pose proof (py_sorted_perm (fun a b : chunk * float => flt b.2 a.2) (map scored cs)) as P.
  assert (Hs : Forall (fun item => item = scored item.1) (map scored cs)) by (apply List.Forall_forall; intros x Hx; by apply in_map_iff in Hx as (c & <- & _)).
  split; [|split].
  - apply scored_list. unfold sort_scored. by rewrite P.
  - unfold sort_scored. rewrite P, map_map. by rewrite map_id.
  - unfold best_first, sort_scored. set (l := py_sorted _ _) in *.
    assert (S : StronglySorted (fun a b : chunk * float => - fv a.2 <= - fv b.2) l).
    { apply (py_sorted_sorted _ (fun a => - fv a.2)). intros x y Hx Hy.
      apply in_map_iff in Hx as (c1 & <- & H1). apply in_map_iff in Hy as (c2 & <- & H2).
      rewrite List.Forall_forall in Hok. simpl. rewrite flt_fv by (by apply weighted_num, Hok).
      destruct (_ <? _) eqn:E; zbool; symmetry; [apply Z.ltb_lt|apply Z.ltb_ge]; lia. }
    assert (Hl : Forall (fun item => item = scored item.1) l) by (by rewrite P). clearbody l. clear P.
    induction S as [|x l S IH Hx]; [constructor|]. apply Forall_cons in Hl as [Ex Hl]. cbn [map]. constructor; [by apply IH|].
    apply Forall_map. rewrite List.Forall_forall in Hx, Hl |- *. intros y Hy. specialize (Hx y Hy). rewrite Ex, (Hl y Hy) in Hx.
    simpl in Hx |- *. lia.
Qed.

Lemma enumerate_places l : forall k, 0 <= k -> Forall chunk_ok l ->
  res_map (fun '(new_rank, (c, weighted_score)) =>
             RetrievedChunk.create (RetrievedChunk.mk (chunk_id c) (RetrievedChunk.document_id c) (doc_type c)
               (RetrievedChunk.content c) weighted_score new_rank (RetrievedChunk.section c) (RetrievedChunk.subsection c)
               (RetrievedChunk.metadata c))) (py_enumerate_from k (map scored l))
  = Ok (map (fun '(i, c) => placed c i) (py_enumerate_from k l)).
Proof.
  induction l as [|c l IH]; intros k Hk Hl; [done|]. apply Forall_cons in Hl as [Hc Hl].
  cbn [map py_enumerate_from res_map scored]. unfold RetrievedChunk.create. cbn [RetrievedChunk.score RetrievedChunk.rank].
  rewrite (proj2 (weighted_ok c Hc)), (proj2 (Z.leb_le 0 k) Hk). cbn [andb mbind res_bind].
  rewrite IH by (done || lia). done.
Qed.

Lemma Forall_sub {A} (P : A -> Prop) l l' : l ⊆+ l' -> Forall P l' -> Forall P l.
Proof. rewrite !list.Forall_forall. intros Hs H x Hx. apply H. by eapply elem_of_submseteq. Qed.

Lemma map_fst_scored l : map fst (map scored l) = l.
Proof. rewrite map_map. apply map_id. Qed.

Lemma scored_sub added l : added ⊆+ map scored l -> added = map scored (map fst added) /\ map fst added ⊆+ l.
Proof.
  intros H. split.
  - apply scored_list. eapply Forall_sub; [exact H|]. apply List.Forall_forall. intros x Hx. by apply in_map_iff in Hx as (c & <- & _).
  - rewrite <- (map_fst_scored l). by apply (fmap_submseteq fst).
Qed.

(** The chunks the minimums leave, from a sorted list cut in two. *)
Lemma enforced_selection top rest m : Forall chunk_ok (top ++ rest) -> well_formed m -> best_first top ->
  exists sel added, _enforce_mandatory_minimums (map scored top) (map scored rest) m = map scored sel /\
    Permutation sel (top ++ added) /\ added ⊆+ rest /\ best_first sel /\
    (forall d, Z.min (minimum m d) (number d (top ++ rest)) <= number d sel).
Proof.
  intros Hok Hm Htop. destruct (enforce_spec (map scored top) (map scored rest) m Hm) as (added & Pe & Ha & Hn).
  destruct (scored_sub _ _ Ha) as [Hadd Ha'].
  assert (Hn' : forall d, Z.min (minimum m d) (number d (top ++ rest)) <= number d (top ++ map fst added)).
  { intros d. specialize (Hn d). by rewrite map_app, !map_fst_scored, <- number_app in Hn. }
  unfold _enforce_mandatory_minimums in *.
  assert (Hkeep : Permutation (map scored top) (map scored top ++ added) -> map fst added = []).
  { intros E. apply Permutation_length in E. rewrite length_app in E. destruct added; [done|simpl in E; lia]. }
  assert (Hsame : map fst added = [] ->
    exists sel added, map scored top = map scored sel /\ Permutation sel (top ++ added) /\ added ⊆+ rest /\ best_first sel /\
      (forall d, Z.min (minimum m d) (number d (top ++ rest)) <= number d sel)).
  { intros E. exists top, []. rewrite E, app_nil_r in *. split_and!; [done..|apply submseteq_nil_l|done|done]. }
  destruct (deficits _ m) as [|nd needed]; [by apply Hsame, Hkeep|].
  destruct (flat_map _ _) as [|t ts]; [by apply Hsame, Hkeep|]. set (more := t :: ts) in *.
  assert (Padd : Permutation added more).
  { apply (Permutation_app_inv_l (map scored top)). rewrite <- Pe. apply py_sorted_perm. }
  destruct (scored_sub more rest) as [Emore Hmore]; [by rewrite <- Padd|]. rewrite Emore, <- map_app.
  apply Forall_app in Hok as [Hok1 Hok2].
  destruct (sort_scored_spec (top ++ map fst more)) as (sel & -> & Ps & Ss).
  { apply Forall_app. split; [done|]. exact (Forall_sub _ _ _ Hmore Hok2). }
  exists sel, (map fst more). split_and!; [done..|]. intros d. rewrite Ps. etransitivity; [apply Hn'|]. apply Z.eq_le_incl, number_perm, Permutation_app_head. exact (Permutation_map fst Padd).
Qed.

(** What [rerank] selects. *)
Lemma selection_spec config cs m : Forall chunk_ok cs -> well_formed m -> 1 <= rerank_top_k config ->
  exists sel, rerank config cs None (Some m) = Ok (map (fun '(i, c) => placed c i) (py_enumerate sel)) /\
    sel ⊆+ cs /\ best_first sel /\ Z.min (py_len cs) (rerank_top_k config) <= py_len sel /\
    (forall d, Z.min (minimum m d) (number d cs) <= number d sel).
Proof.
  intros Hok Hm Hk. unfold rerank. set (k := Z.max _ _). assert (Hk0 : rerank_top_k config <= k) by lia.
  change (map (fun c => (c, _compute_weighted_score c)) cs) with (map scored cs).
  destruct (sort_scored_spec cs Hok) as (cs' & -> & P & S).
  rewrite slice_take, slice_from_drop, firstn_map, skipn_map by lia. set (n := Z.to_nat k).
  assert (Hok' : Forall chunk_ok (take n cs' ++ drop n cs')) by (by rewrite firstn_skipn, P).
  destruct (enforced_selection _ _ m Hok' Hm (StronglySorted_take _ _ _ S)) as (sel & added & E & Psel & Hadd & Ssel & Hnum).
  rewrite firstn_skipn in *.
  assert (Hsel : (match map scored (drop n cs') with
                  | [] => map scored (take n cs')
                  | _ => _enforce_mandatory_minimums (map scored (take n cs')) (map scored (drop n cs')) m end)
                 = map scored (if decide (drop n cs' = []) then take n cs' else sel)).
  { case_decide as D; [by rewrite D|]. destruct (drop n cs'); [done|]. exact E. }
  rewrite Hsel. set (sel' := if decide _ then _ else _).
  assert (H : exists added, Permutation sel' (take n cs' ++ added) /\ added ⊆+ drop n cs' /\ best_first sel' /\
                (forall d, Z.min (minimum m d) (number d cs') <= number d sel')).
  { unfold sel'. case_decide as D; [|by exists added]. exists []. rewrite app_nil_r.
    split_and!; [done|apply submseteq_nil_l|by apply StronglySorted_take|]. intros d.
    rewrite <- (firstn_skipn n cs') at 1. rewrite D, app_nil_r. lia. }
  destruct H as (added' & Psel' & Hadd' & Ssel' & Hnum'). exists sel'.
  assert (Hsub : sel' ⊆+ cs) by (rewrite <- P, <- (firstn_skipn n cs'), Psel'; by apply submseteq_app).
  split_and!; [|done|done| |].
  - apply enumerate_places; [done|]. by eapply Forall_sub.
  - unfold py_len. rewrite (Permutation_length Psel'), <- (Permutation_length P), length_app, length_take. lia.
  - intros d. rewrite <- (number_perm d _ _ P). apply Hnum'.
Qed.

(** C28: reranking never fails, and keeps what a model call must see: of chunks as the
    model accepts them it keeps a part, best first by weighted score and numbered
    from 0, with at least [rerank_top_k] of them if there are as many, and of every
    document type at least the required minimum or all there were. *)
Theorem rerank_keeps_minimums config cs m :
  Forall chunk_ok cs -> well_formed m -> 1 <= rerank_top_k config ->
  exists sel, rerank config cs None (Some m) = Ok (map (fun '(i, c) => placed c i) (py_enumerate sel)) /\
    sel ⊆+ cs /\ best_first sel /\ Z.min (py_len cs) (rerank_top_k config) <= py_len sel /\
    (forall d, Z.min (minimum m d) (number d cs) <= number d sel).
Proof. apply selection_spec. Qed.
End RerankFacts.

(** ** Queries *)

(** How a store reads a condition: a value equals another of its own type, and the
    metadata of a chunk are strings. *)
Fixpoint holds (c : condition) (m : metadata_dict) : bool :=
  match c with
  | CEq k (OpStr s) => bool_decide (dict_get k m = Some s)
  | CEq k (OpBool _) => false
  | CIn k vs => match dict_get k m with Some s => str_in s vs | None => false end
  | COr cs => existsb (fun c => holds c m) cs
  | CAnd cs => forallb (fun c => holds c m) cs
  end.

Definition selects (c : option condition) (m : metadata_dict) : bool :=
  match c with Some c => holds c m | None => true end.

(** What a filter selects, field by field. *)
Definition conditions (f : filters) : list condition :=
  single_value "doc_type" (map doc_type_value (doc_types f)) ++ single_value "framework" (frameworks f) ++
  single_value "scenario_outcome" (scenario_outcomes f) ++ flags "direction_" (directions f) ++
  flags "setup_family_" (setup_families f) ++ flags "timeframe_" (timeframes f).

Lemma selects_conditions f m :
  selects (build_where_filter f) m = forallb (fun c => holds c m) (conditions f).
Proof.
  unfold build_where_filter. fold (conditions f). destruct (conditions f) as [|c [|c' cs]]; simpl; [done| |done].
  by rewrite andb_true_r.
Qed.

(** A flag is never set in metadata that are strings. *)
Lemma flags_never_hold prefix vs m : vs <> [] -> forallb (fun c => holds c m) (flags prefix vs) = false.
Proof.
  destruct vs as [|v [|v' vs]]; simpl; [done|done|]. intros _. rewrite andb_true_r.
  induction vs as [|x vs IH]; [done|]. exact IH.
Qed.

Lemma forallb_app_false {A} (p : A -> bool) l l' : forallb p l = false \/ forallb p l' = false -> forallb p (l ++ l') = false.
Proof. rewrite forallb_app. intros [->| ->]; [done|apply andb_false_r]. Qed.

(** No stored chunk answers a query for a direction, a family or a timeframe. *)
Lemma flagged_selects_none f m :
  directions f <> [] \/ setup_families f <> [] \/ timeframes f <> [] -> selects (build_where_filter f) m = false.
Proof.
  intros H. rewrite selects_conditions. unfold conditions. do 3 (apply forallb_app_false; right).
  destruct H as [H|[H|H]].
  - apply forallb_app_false. left. by apply flags_never_hold.
  - apply forallb_app_false. right. apply forallb_app_false. left. by apply flags_never_hold.
  - do 2 (apply forallb_app_false; right). by apply flags_never_hold.
Qed.

Lemma doc_type_selects f m : doc_types f <> [] -> selects (build_where_filter f) m = true ->
  exists d, d ∈ doc_types f /\ dict_get "doc_type" m = Some (doc_type_value d).
Proof.
  intros Hf. rewrite selects_conditions. unfold conditions. rewrite forallb_app, andb_true_iff. intros [H _].
  destruct (doc_types f) as [|d [|d' ds]]; [done| |].
  - simpl in H. rewrite andb_true_r in H. apply bool_decide_eq_true in H. exists d. split; [set_solver|done].
  - cbn [map single_value forallb holds] in H. rewrite andb_true_r in H. destruct (dict_get "doc_type" m) as [s|]; [|done].
    apply existsb_exists in H as (s' & Hs & E). apply String.eqb_eq in E as <-.
    change (In s (map doc_type_value (d :: d' :: ds))) in Hs. apply in_map_iff in Hs as (d0 & <- & Hd).
    exists d0. split; [by apply list_elem_of_In|done].
Qed.

(** ** Steps that returned *)

Section Returned.
Context {W : Type} `{Knowledge W}.

Lemma retrieve_Ok config q coll k th f w cs w' :
  retrieve config q coll k th f w = (Ok cs, w') ->
  exists e k' w1 rs, store_query coll e k' (build_where_filter f) w1 = (Ok rs, w') /\
    _to_retrieved_chunks (List.filter (fun r => fle (default (retrieval_score_threshold config) th) (vs_score r)) rs) = Ok cs.
Proof.
  unfold retrieve. intros E. apply io_bind_Ok in E as (e & w1 & _ & E). apply io_bind_Ok in E as (rs & w2 & E1 & E).
  apply lift_Ok in E as [E ->]. eauto 10.
Qed.

Lemma to_chunk_type rank r c : _to_retrieved_chunk rank r = Ok (Some c) ->
  dict_get "doc_type" (vs_metadata r) = Some (doc_type_value (doc_type c)).
Proof.
  unfold _to_retrieved_chunk. destruct (UUID (vs_chunk_id r)) as [u|[]]; cbn [mbind res_bind]; try done.
  destruct (UUID (default _ _)) as [v|[]]; cbn [mbind res_bind]; try done.
  destruct (DocumentType_of _) as [d|[]] eqn:Ed; cbn [mbind res_bind]; try done. intros E. inv_binds. subst.
  unfold RetrievedChunk.create in E0. destruct (_ && _); [|done]. injection E0 as <-. cbn.
  unfold DocumentType_of, enum_of in Ed. destruct (List.find _ _) as [d'|] eqn:F; [|done]. injection Ed as <-.
  apply find_some in F as [_ F]. apply String.eqb_eq in F. destruct (dict_get "doc_type" (vs_metadata r)) as [s|]; simpl in F.
  - by rewrite F.
  - by destruct d'.
Qed.

Lemma to_chunks_In rs cs c : _to_retrieved_chunks rs = Ok cs -> In c cs -> exists r, In r rs /\ exists rank, _to_retrieved_chunk rank r = Ok (Some c).
Proof.
  unfold _to_retrieved_chunks. intros E Hc. inv_binds. subst. apply in_flat_map in Hc as (o & Ho & Hc).
  destruct o as [c'|]; [|done]. destruct Hc as [->|[]]. apply res_map_Forall2 in E0. apply list_elem_of_In in Ho.
  apply list_elem_of_lookup in Ho as (i & Hi). destruct (Forall2_lookup_r _ _ _ _ _ E0 Hi) as ([rank r] & Hr & E).
  exists r. split; [|by exists rank]. apply list_elem_of_lookup_2, list_elem_of_In in Hr.
  apply py_enumerate_from_spec in Hr as (_ & Hr). by apply list_elem_of_lookup_2, list_elem_of_In in Hr.
Qed.
End Returned.

(** ** Which chunks a request can get *)

Module GatherFacts.
Import MandatoryFacts.

(** What the chunk is, for the purposes of counting. *)
Definition key (c : chunk) : uuid * DocumentType := (chunk_id c, doc_type c).

Lemma number_keys d cs cs' : map key cs = map key cs' -> number d cs = number d cs'.
Proof. intros E. apply number_types. apply (f_equal (map snd)) in E. by rewrite !map_map in E. Qed.

Definition sorted_keys {A} (lt : A -> A -> bool) (f : A -> chunk) l : Permutation (map f (py_sorted lt l)) (map f l) :=
  Permutation_map f (py_sorted_perm lt l).

(** Reranking returns some of the chunks, with new scores. *)
Lemma rerank_sub config cs m out : well_formed m -> rerank config cs None (Some m) = Ok out ->
  exists sel, sel ⊆+ cs /\ map key out = map key sel.
Proof.
  intros Hm. unfold rerank. set (scored := sort_scored _). set (k := Z.max _ _).
  assert (P : Permutation (map fst scored) cs).
  { unfold scored, sort_scored. rewrite sorted_keys, map_map. by rewrite map_id. }
  intros E. apply res_map_Forall2 in E. set (selected := match py_slice_from scored k with [] => _ | _ => _ end) in E.
  exists (map fst selected). split.
  - rewrite <- P. apply (fmap_submseteq fst). unfold selected, py_slice_from, py_slice.
    assert (B : py_slice_bound scored 0 = 0%nat) by (unfold py_slice_bound; pose proof (py_len_nonneg scored); cbn [Z.ltb Z.compare]; lia).
    rewrite B.
    assert (H : take (py_slice_bound scored k - 0) scored ++ drop (py_slice_bound scored k) scored ⊆+ scored) by (by rewrite Nat.sub_0_r, firstn_skipn).
    change (drop 0 scored) with scored. destruct (drop (py_slice_bound scored k) scored) as [|o os] eqn:D; [by rewrite app_nil_r in H|].
    rewrite <- D in *. clear D. destruct (RerankFacts.enforce_spec (take (py_slice_bound scored k - 0) scored) (drop (py_slice_bound scored k) scored) m Hm) as (added & -> & Ha & _).
    etransitivity; [|exact H]. by apply submseteq_app.
  - clearbody selected. clear P scored k. revert E. unfold py_enumerate. generalize 0. revert out.
    induction selected as [|[c x] selected IH]; intros out k E; cbn [py_enumerate_from] in E; inversion E as [|? o ? out' Ho Ht]; subst; [done|].
    unfold RetrievedChunk.create in Ho. destruct (_ && _); [|done]. injection Ho as <-. cbn [map fst]. by rewrite (IH _ _ Ht).
Qed.

Lemma NoDup_sub {A} (l k : list A) : l ⊆+ k -> NoDup k -> NoDup l.
Proof. intros [k' ->]%submseteq_Permutation. by intros [? _]%NoDup_app. Qed.

(** ** Merging *)

(** The state of a strategy: the merged chunks, without repetition, and their
    identifiers. *)
Definition merged_ok (P : chunk -> Prop) (st : list chunk * list uuid) : Prop :=
  NoDup (map chunk_id st.1) /\ (forall u, u ∈ st.2 <-> u ∈ map chunk_id st.1) /\ Forall P st.1.

Lemma merged_ok_nil P : merged_ok P ([], []).
Proof. split_and!; [constructor|done|constructor]. Qed.

Lemma merge_one P merged seen c : merged_ok P (merged, seen) -> P c -> chunk_id c ∉ seen ->
  merged_ok P (merged ++ [c], set_add (chunk_id c) seen).
Proof.
  intros (Hn & Hs & HP) Hc Hf. cbn [fst snd] in *. rewrite Hs in Hf. split_and!; cbn [fst snd].
  - rewrite map_app. apply NoDup_app. split_and!; [done| |apply NoDup_singleton]. intros x Hx. simpl. rewrite list_elem_of_singleton. by intros ->.
  - intros u. rewrite elem_of_set_add, Hs, map_app, elem_of_app. simpl. rewrite list_elem_of_singleton. tauto.
  - apply Forall_app. split; [done|]. by constructor.
Qed.

Lemma merge_new_ok P cs st : merged_ok P st -> Forall P cs -> merged_ok P (merge_new st cs).
Proof.
  intros H HP. revert st H. induction HP as [|c cs Hc _ IH]; intros [merged seen] H; [done|].
  unfold merge_new. cbn [fold_left]. case_decide; [by apply IH|]. apply IH. by apply merge_one.
Qed.

Lemma take_fresh_ok P cs deficit existing : Forall P cs -> forall added st,
  merged_ok P (existing ++ st.1, st.2) ->
  merged_ok P (existing ++ (take_fresh deficit added cs st).1, (take_fresh deficit added cs st).2).
Proof.
  induction 1 as [|c cs Hc _ IH]; intros added [supp ids] Hst; [done|]. cbn [take_fresh].
  destruct (bool_decide _ && _) eqn:E; [|by apply IH]. apply andb_true_iff in E as [E _]. apply bool_decide_eq_true in E.
  apply IH. cbn [fst snd]. rewrite app_assoc. by apply merge_one.
Qed.

Lemma seen_ids cs : forall ids, NoDup (map chunk_id cs) ->
  forall u, u ∈ fold_left (fun ids c => set_add (chunk_id c) ids) cs ids <-> u ∈ ids \/ u ∈ map chunk_id cs.
Proof.
  induction cs as [|c cs IH]; intros ids Hn u; cbn [fold_left map]; [set_solver|]. cbn [map] in Hn. apply NoDup_cons in Hn as [_ Hn].
  rewrite (IH _ Hn), elem_of_set_add. set_solver.
Qed.

(** ** The queries of a request *)

Section Request.
Context {W : Type} `{Knowledge W} (config : RAGConfig) (iterate : list string -> list string).
Context (q : string) (r : Request).

(** The collections and filters a request may query with. *)
Inductive asked : string -> filters -> Prop :=
| asked_rules sty : asked (collection_documents config) (mk_filters rule_types [] [] [] [] sty [])
| asked_directed d ds fams tfs sty : CHART_SCENARIO_LIBRARY ∉ d :: ds ->
    asked (collection_documents config) (mk_filters (d :: ds) [] fams (one (direction r)) tfs sty [])
| asked_scenarios f : directions f = one (direction r) -> asked (collection_scenarios config) f.

Context (P : chunk -> Prop).
Hypothesis asked_P : forall coll f k th w cs w',
  asked coll f -> retrieve config q coll k th f w = (Ok cs, w') -> Forall P cs.

Lemma bucket_ok coll k f st w st' w' : asked coll f -> merged_ok P st -> bucket config q coll k f st w = (Ok st', w') -> merged_ok P st'.
Proof.
  intros Ha Hst E. unfold bucket in E. apply io_bind_Ok in E as (cs & w1 & E1 & E). injection E as <- <-.
  apply merge_new_ok; [done|]. by eapply asked_P.
Qed.

Lemma scenario_bucket_ok coll k f st w st' w' :
  asked coll f -> merged_ok P st -> scenario_bucket config q coll k f st w = (Ok st', w') -> merged_ok P st'.
Proof.
  intros Ha Hst. unfold scenario_bucket, attempt. destruct (bucket _ _ _ _ _ _ _) as [[st1|e] w1] eqn:E; intros [= <- <-]; [|done].
  by eapply bucket_ok.
Qed.

Lemma io_for_ok {A B} (Q : B -> Prop) (step : B -> A -> io W B) :
  (forall b x w b' w', Q b -> step b x w = (Ok b', w') -> Q b') ->
  forall xs b w b' w', Q b -> io_for step xs b w = (Ok b', w') -> Q b'.
Proof.
  intros Hs. induction xs as [|x xs IH]; intros b w b' w' Hb E; cbn [io_for] in E; [by injection E as <- <-|].
  apply io_bind_Ok in E as (b1 & w1 & E1 & E). eapply IH; [|exact E]. by eapply Hs.
Qed.

Lemma frameworks_ok k fams tfs fws st w st' w' : merged_ok P st ->
  io_for (framework_bucket config q (collection_documents config) k fams (one (direction r)) tfs) fws st w = (Ok st', w') ->
  merged_ok P st'.
Proof.
  apply io_for_ok. clear st w st' w'. intros st fw w st' w' Hst E. unfold framework_bucket in E.
  destruct (dict_get fw framework_doc_map) as [d|] eqn:Ed; [|done].
  eapply bucket_ok; [|exact Hst|exact E]. apply asked_directed. apply dict_get_member in Ed. simpl in Ed.
  destruct Ed as [[= _ <-]|[[= _ <-]|[[= _ <-]|[]]]]; by vm_compute; set_solver.
Qed.

(** A computation that returns chunks of the kind, each once. *)
Definition gives (m : io W (list chunk)) : Prop :=
  forall w cs w', m w = (Ok cs, w') -> NoDup (map chunk_id cs) /\ Forall P cs.

(** The tail of a strategy after some of its buckets. *)
Definition gives_from (k : list chunk * list uuid -> io W (list chunk)) : Prop := forall st, merged_ok P st -> gives (k st).

Lemma gives_sorted : gives_from (fun st => mret (sort_by_score st.1)).
Proof.
  intros st (Hn & _ & HP) w cs w' [= <- <-]. unfold sort_by_score. pose proof (py_sorted_perm (fun a b => flt (score b) (score a)) st.1) as S.
  split; [|by rewrite S]. by rewrite (Permutation_map chunk_id S).
Qed.

Lemma gives_then (m : io W (list chunk * list uuid)) k :
  (forall w st w', m w = (Ok st, w') -> merged_ok P st) -> gives_from k -> gives (m ≫= k).
Proof. intros Hm Hk w cs w' E. apply io_bind_Ok in E as (st & w1 & E1 & E). eapply Hk; [|exact E]. by eapply Hm. Qed.

Lemma gives_bucket coll n f st k : asked coll f -> merged_ok P st -> gives_from k -> gives (bucket config q coll n f st ≫= k).
Proof. intros Ha Hst Hk. apply gives_then; [|done]. intros w st' w' E. by eapply bucket_ok. Qed.

Lemma gives_scenarios n f st k : directions f = one (direction r) -> merged_ok P st -> gives_from k ->
  gives (scenario_bucket config q (collection_scenarios config) n f st ≫= k).
Proof. intros Ha Hst Hk. apply gives_then; [|done]. intros w st' w' E. eapply scenario_bucket_ok; [by apply asked_scenarios|done|exact E]. Qed.

Lemma gives_frameworks n fams tfs fws st k : merged_ok P st -> gives_from k ->
  gives (io_for (framework_bucket config q (collection_documents config) n fams (one (direction r)) tfs) fws st ≫= k).
Proof. intros Hst Hk. apply gives_then; [|done]. intros w st' w' E. by eapply frameworks_ok. Qed.

Lemma asked_macro fams tfs sty :
  asked (collection_documents config) (mk_filters macro_types [] fams (one (direction r)) tfs sty []).
Proof. apply asked_directed. vm_compute. set_solver. Qed.

Ltac buckets :=
  repeat (first [apply gives_bucket; [first [apply asked_rules|apply asked_macro]|first [assumption|apply merged_ok_nil]|intros ? ?]
                |apply gives_scenarios; [reflexivity|first [assumption|apply merged_ok_nil]|intros ? ?]
                |apply gives_frameworks; [assumption|intros ? ?]
                |apply gives_sorted; assumption]).

Lemma strategy_gives strategy top_k : gives (_execute_strategy config iterate q strategy top_k r).
Proof.
  unfold _execute_strategy. repeat case_match.
  - unfold RuleFirstStrategy_execute. buckets.
  - unfold ScenarioFirstStrategy_execute. buckets.
  - unfold MacroBiasStrategy_execute. buckets.
  - unfold HybridStrategy_execute. buckets.
Qed.

Lemma fill_gaps_gives cs m : NoDup (map chunk_id cs) -> Forall P cs ->
  gives (fill_gaps config cs m q (collection_documents config) (collection_scenarios config) (direction r) (timeframe r) (style r)).
Proof.
  intros Hn HP w out w' E. unfold fill_gaps in E. destruct (deficits _ m) as [|g gs]; [by injection E as <- <-|].
  apply io_bind_Ok in E as (st & w1 & E1 & E). injection E as <- <-.
  enough (H' : merged_ok P (cs ++ st.1, st.2)) by (destruct H' as (A & _ & B); split; [exact A|exact B]).
  revert E1. apply (io_for_ok (fun st => merged_ok P (cs ++ st.1, st.2))).
  - clear st w w1. intros st [d k] w st' w1 Hst E. unfold fill_gap in E. apply io_bind_Ok in E as (extra & w2 & E1 & E).
    destruct extra as [extra|]; injection E as <- <-; [|done]. apply take_fresh_ok; [|done].
    unfold attempt, fmap, io_fmap in E1. destruct (retrieve _ _ _ _ _ _ w) as [[ex|e] w3] eqn:R; [|by injection E1].
    injection E1 as <- <-. eapply asked_P; [|exact R]. case_decide; [by apply asked_scenarios|].
    apply asked_directed. set_solver.
  - cbn [fst snd]. rewrite app_nil_r. split_and!; cbn [fst snd]; [done| |done]. intros u. rewrite seen_ids by done. set_solver.
Qed.

(** The chunks of a request are of the kind, and no chunk is there twice. *)
Lemma gather_gives strategy m w cs n w' : well_formed m -> (forall c c', key c = key c' -> P c -> P c') ->
  gather config iterate q strategy r m w = (Ok (cs, n), w') -> NoDup (map chunk_id cs) /\ Forall P cs.
Proof.
  intros Hm Hkey E. unfold gather in E. apply io_bind_Ok in E as (found & w1 & E1 & E). apply io_bind_Ok in E as (filled & w2 & E2 & E).
  apply io_bind_Ok in E as (out & w3 & E3 & E). injection E as <- _ _.
  destruct (strategy_gives _ _ _ _ _ E1) as [Hn HP]. destruct (fill_gaps_gives found m Hn HP _ _ _ E2) as [Hn' HP'].
  destruct (rerank_enabled config); [|by injection E3 as <- _].
  apply lift_Ok in E3 as [E3 _]. apply rerank_sub in E3 as (sel & Hsub & Ek); [|done].
  assert (HPs : Forall P sel) by (by eapply RerankFacts.Forall_sub).
  split.
  - assert (Ei : map chunk_id out = map chunk_id sel) by (apply (f_equal (map fst)) in Ek; by rewrite !map_map in Ek).
    rewrite Ei. eapply NoDup_sub; [|exact Hn']. by apply (fmap_submseteq chunk_id).
  - clear - Hkey Ek HPs. revert sel Ek HPs. induction out as [|o out IH]; intros [|c sel] Ek HPs; [constructor|done..|].
    injection Ek as E1 E2 Ek. apply Forall_cons in HPs as [Hc HPs]. constructor; [|by eapply IH].
    eapply Hkey; [|exact Hc]. unfold key. congruence.
Qed.
End Request.
End GatherFacts.

(** ** Contexts *)

Module ContextFacts.
Import MandatoryFacts GatherFacts.

Lemma number_pos d cs : 0 < number d cs -> d ∈ map doc_type cs.
Proof.
  intros H. destruct (decide (d ∈ map doc_type cs)) as [|N]; [done|]. exfalso. enough (number d cs = 0) by lia.
  apply number_zero, List.Forall_forall. intros c Hc <-. apply N, list_elem_of_In. by apply in_map.
Qed.

Lemma count_where_cons f c cs : count_where f (c :: cs) = (if f c then 1 else 0) + count_where f cs.
Proof. unfold count_where. simpl. destruct (f c); rewrite ?py_len_cons; lia. Qed.

Lemma count_sum (ds : list DocumentType) d1 d2 cs : d1 <> d2 -> d1 ∈ ds -> d2 ∈ ds ->
  number d1 cs + number d2 cs <= count_where (fun c => bool_decide (doc_type c ∈ ds)) cs.
Proof.
  intros Hne H1 H2. induction cs as [|c cs IH]; [done|]. rewrite !number_cons, count_where_cons.
  destruct (decide (doc_type c = d1)) as [E1|], (decide (doc_type c = d2)) as [E2|]; [congruence|..];
    rewrite ?E1, ?E2, ?(bool_decide_eq_true_2 _ H1), ?(bool_decide_eq_true_2 _ H2); [lia..|]. case_match; lia.
Qed.

Lemma count_one d cs : count_where (fun c => bool_decide (doc_type c ∈ [d])) cs = number d cs.
Proof.
  induction cs as [|c cs IH]; [done|]. rewrite number_cons, count_where_cons, IH.
  case_bool_decide; case_decide; set_solver.
Qed.

(** The mandatory part of the coverage check. *)
Lemma mandatory_ok cs m : well_formed m ->
  (mandatory_gaps cs m).1.1 = true <-> (forall d, minimum m d <= number d cs).
Proof.
  intros Hm. assert (Hmin : (forall d, minimum m d <= number d cs) <-> Forall (fun '(d, v) => v <= number d cs) (doc_type_min_chunks m)).
  { rewrite List.Forall_forall. unfold minimum. split.
    - intros H [d v] Hd. specialize (H d). by rewrite (dict_In_get _ _ _ Hm Hd) in H.
    - intros H d. destruct (dict_get d (doc_type_min_chunks m)) as [v|] eqn:E; simpl; [|apply number_nonneg].
      exact (H (d, v) (dict_get_member _ _ _ E)). }
  rewrite Hmin. clear Hm Hmin. unfold mandatory_gaps.
  enough (G : forall l st, (fold_left (fun '(ok, missing, gaps) '(d, min_required) =>
               let actual := default 0 (dict_get d (count_types cs)) in
               if actual <? min_required
               then (false, (if decide (d ∈ map doc_type cs) then missing else set_add d missing),
                     gaps ++ [("Mandatory " ++ doc_type_value d ++ ": " ++ ratio actual min_required ++ " chunks")%string])
               else (ok, missing, gaps)) l st).1.1 = true <-> st.1.1 = true /\ Forall (fun '(d, v) => v <= number d cs) l).
  { rewrite G. simpl. tauto. }
  induction l as [|[d v] l IH]; intros [[ok missing] gs]; cbn [fold_left]; [split; [intros; split; [done|constructor]|tauto]|].
  rewrite count_types_get. destruct (number d cs <? v) eqn:E; zbool; rewrite IH, Forall_cons; cbn [fst]; naive_solver lia.
Qed.

Lemma framework_gaps_none cs fws : (forall d, 0 < number d cs) -> framework_gaps cs fws = [].
Proof.
  intros H. unfold framework_gaps. induction fws as [|fw fws IH]; cbn [List.filter]; [done|].
  destruct (dict_get fw fw_doc_map) as [d|]; [|done]. rewrite bool_decide_eq_true_2 by (by apply number_pos). done.
Qed.

(** A required framework that is one of the seven has a document. *)
Lemma required_framework_found cs fw f : (forall d, 0 < number d cs) -> Framework_of fw = Ok f ->
  existsb (fun c => bool_decide (dict_get (doc_type c) _FRAMEWORK_DOC_TYPES = Some fw)) cs = true.
Proof.
  intros H Hf. assert (exists d, dict_get d _FRAMEWORK_DOC_TYPES = Some fw) as [d Hd].
  { unfold Framework_of, enum_of in Hf. destruct (List.find _ _) as [f'|] eqn:F; [|done]. apply find_some in F as [_ F].
    apply String.eqb_eq in F as <-. destruct f'; [by exists SMC_FRAMEWORK|by exists SND_RULEBOOK|by exists WYCKOFF_GUIDE|
      by exists DXY_FRAMEWORK|by exists COT_INTERPRETATION_GUIDE|by exists MACRO_TO_PRICE_GUIDE|by exists TRADING_STYLE_RULES]. }
  specialize (H d). apply number_pos, list_elem_of_In, in_map_iff in H as (c & Ec & Hc).
  apply existsb_exists. exists c. split; [done|]. apply bool_decide_eq_true. by rewrite Ec.
Qed.

(** With the requirements of any signals, coverage is sufficient exactly when every
    minimum is met: the other checks follow. *)
Lemma coverage_exact iterate config cs fw strategy s cov :
  RAGConfig_create config = Ok config ->
  check_coverage iterate config cs fw strategy (Some (compute_mandatory_requirements s)) = Ok cov ->
  result cov = SUFFICIENT <-> (forall d, minimum (compute_mandatory_requirements s) d <= number d cs).
Proof.
  intros Hc E. pose proof (mandatory_ok cs _ (compute_well_formed s)) as Hm.
  assert (Hpos : (forall d, minimum (compute_mandatory_requirements s) d <= number d cs) -> forall d, 12 <= number d cs).
  { intros H d. pose proof (compute_baseline s d). pose proof (baseline_positive d). specialize (H d). lia. }
  set (m := compute_mandatory_requirements s) in *.
  unfold check_coverage in E. destruct (mandatory_gaps cs m) as [[ok missing5] gaps5]. cbn [fst] in Hm. inv_binds.
  unfold CoverageCheck_create in E. destruct (_ && _) in E; [|done]. injection E as <-. cbn [result]. unfold verdict. rewrite <- Hm.
  split; [destruct (_ && ok) eqn:V; [intros _; by apply andb_true_iff in V as [_ ->]|by destruct (_ || _)]|].
  intros Hok. rewrite Hok. specialize (Hpos (proj1 Hm Hok)). rename a into fws.
  assert (Hbounds : coverage_min_rule_chunks config <= 20 /\ coverage_min_framework_chunks config <= 20).
  { unfold RAGConfig_create, in_range in Hc. case_match; [|done]. split_hyps. zbool. lia. }
  pose proof (count_sum _RULE_DOC_TYPES MASTER_RULEBOOK TRADING_STYLE_RULES cs ltac:(done) ltac:(set_solver) ltac:(set_solver)).
  pose proof (count_sum (map fst _FRAMEWORK_DOC_TYPES) SMC_FRAMEWORK SND_RULEBOOK cs ltac:(done) ltac:(set_solver) ltac:(set_solver)) as Hfw.
  pose proof (Hpos MASTER_RULEBOOK). pose proof (Hpos TRADING_STYLE_RULES). pose proof (Hpos SMC_FRAMEWORK). pose proof (Hpos SND_RULEBOOK).
  rewrite (proj2 (Z.leb_le (coverage_min_rule_chunks config) _)) by lia.
  rewrite (proj2 (Z.leb_le (coverage_min_framework_chunks config) _)) by (etransitivity; [|exact Hfw]; lia).
  rewrite framework_gaps_none, app_nil_r in * by (intros d; specialize (Hpos d); lia).
  assert (Hreq : required_missing cs fw = []).
  { unfold required_missing in *. destruct fw as [fw|]; [|done]. destruct (negb (str_empty fw) && _) eqn:Er; [|done].
    apply andb_true_iff in Er as [_ Er]. apply negb_true_iff in Er. change (remove_dups [fw]) with [fw] in E0. cbn [res_map] in E0. destruct (Framework_of fw) as [f|] eqn:Ef; [|done].
    rewrite (required_framework_found cs fw f) in Er; [done|intros d; specialize (Hpos d); lia|done]. }
  rewrite Hreq. unfold _SCENARIO_DOC_TYPES. rewrite count_one, (proj2 (Z.eqb_neq _ _)) by (pose proof (Hpos CHART_SCENARIO_LIBRARY); lia).
  by rewrite andb_false_r.
Qed.

Section Context_.
Context {W : Type} `{Knowledge W} `{RagDatabase W} `{Clock W}.
Context (config : RAGConfig) (iterate : list string -> list string).

(** What a context that was returned was assembled from. *)
Lemma context_Ok q user strategy r trace s w b w' :
  retrieve_context config iterate q user strategy r trace s w = (Ok b, w') ->
  exists strategy' w1 cs n w2 cov,
    gather config iterate q strategy' r (compute_mandatory_requirements s) w1 = (Ok (cs, n), w2) /\
    check_coverage iterate config cs (framework r) (Some strategy') (Some (compute_mandatory_requirements s)) = Ok cov /\
    ContextBundle.retrieved_chunks b = cs /\ ContextBundle.coverage_result b = result cov /\
    ContextBundle.total_chunks_considered b = n /\ ContextBundle.total_chunks_returned b = py_len cs.
Proof.
  intros E. unfold retrieve_context in E. apply io_bind_Ok in E as (t0 & w0 & _ & E). cbv zeta in E.
  set (strategy' := match strategy with Some x => _ | None => _ end) in E.
  apply io_bind_Ok in E as ([cs n] & w1 & Eg & E). apply io_bind_Ok in E as (vm & w2 & _ & E).
  apply io_bind_Ok in E as (cits & w3 & _ & E). apply io_bind_Ok in E as (scs & w4 & _ & E).
  apply io_bind_Ok in E as (t1 & w5 & _ & E). apply io_bind_Ok in E as (cov & w6 & Ec & E).
  apply lift_Ok in Ec as [Ec _]. destruct (detect_conflicts cs) as [conf details].
  apply io_bind_Ok in E as (su & w7 & _ & E). apply io_bind_Ok in E as (b' & w8 & Eb & E).
  apply io_bind_Ok in E as (logid & w9 & _ & E). apply io_bind_Ok in E as (cnt & w10 & _ & E). injection E as -> _.
  unfold assemble_context_bundle in Eb. apply io_bind_Ok in Eb as (id & w11 & _ & Eb). apply io_bind_Ok in Eb as (t & w12 & _ & Eb).
  apply lift_Ok in Eb as [Eb _]. unfold ContextBundle.create in Eb. destruct (_ && _); [|done]. injection Eb as <-.
  exists strategy', w0, cs, n, w1, cov. done.
Qed.

(** C27: a context shows no chunk twice, counts what it shows, and is called sufficient
    exactly when every one of the nine documents has the minimum its signals ask
    for, which is never below twelve: for every behaviour of the store and of the
    database, and every order in which sets are iterated. *)
Theorem sufficient_exactly_complete q user strategy r trace s w b w' :
  RAGConfig_create config = Ok config ->
  retrieve_context config iterate q user strategy r trace s w = (Ok b, w') ->
  NoDup (map chunk_id (ContextBundle.retrieved_chunks b)) /\
  ContextBundle.total_chunks_returned b = py_len (ContextBundle.retrieved_chunks b) /\
  (forall d, 12 <= minimum (compute_mandatory_requirements s) d) /\
  (ContextBundle.coverage_result b = SUFFICIENT <->
   forall d, minimum (compute_mandatory_requirements s) d <= number d (ContextBundle.retrieved_chunks b)).
Proof.
  intros Hc E. destruct (context_Ok _ _ _ _ _ _ _ _ _ E) as (strategy' & w1 & cs & n & w2 & cov & Eg & Ec & -> & -> & _ & ->).
  split_and!.
  - by apply (gather_gives config iterate q r (fun _ => True) ltac:(intros; by apply Forall_true) _ _ _ _ _ _ (compute_well_formed s) ltac:(done) Eg).
  - done.
  - intros d. pose proof (compute_baseline s d). pose proof (baseline_positive d). lia.
  - by apply (coverage_exact iterate config cs (framework r) (Some strategy') s cov).
Qed.

(** The store answers a query with chunks its condition selects. *)
Class HonestStore := query_selects : forall coll e k c w rs w',
  store_query coll e k c w = (Ok rs, w') -> Forall (fun r => selects c (vs_metadata r) = true) rs.

Context `{HonestStore}.

Lemma honest_types q coll k th f w cs w' : doc_types f <> [] ->
  retrieve config q coll k th f w = (Ok cs, w') -> Forall (fun c => doc_type c ∈ doc_types f) cs.
Proof.
  intros Hf E. apply retrieve_Ok in E as (e & k' & w1 & rs & Es & Et). apply query_selects in Es. rewrite List.Forall_forall in Es |- *.
  intros c Hc. destruct (to_chunks_In _ _ _ Et Hc) as (r & Hr & rank & Er). apply filter_In in Hr as [Hr _].
  apply Es, (doc_type_selects f (vs_metadata r) Hf) in Hr as (d & Hd & Ed). apply to_chunk_type in Er. rewrite Ed in Er.
  injection Er as Er. enough (d = doc_type c) as <- by done. clear -Er. by destruct d, (doc_type c).
Qed.

Lemma honest_flags q coll k th f w cs w' : directions f <> [] -> retrieve config q coll k th f w = (Ok cs, w') -> cs = [].
Proof.
  intros Hf E. apply retrieve_Ok in E as (e & k' & w1 & rs & Es & Et). apply query_selects in Es.
  destruct cs as [|c cs]; [done|]. destruct (to_chunks_In _ _ c Et ltac:(by left)) as (r & Hr & _).
  apply filter_In in Hr as [Hr _]. rewrite List.Forall_forall in Es. specialize (Es r Hr). by rewrite flagged_selects_none in Es by (by left).
Qed.

Lemma not_sufficient q user strategy r trace s w b w' d : RAGConfig_create config = Ok config ->
  retrieve_context config iterate q user strategy r trace s w = (Ok b, w') ->
  number d (ContextBundle.retrieved_chunks b) = 0 -> ContextBundle.coverage_result b <> SUFFICIENT.
Proof.
  intros Hc E Hd Hs. destruct (context_Ok _ _ _ _ _ _ _ _ _ E) as (strategy' & w1 & cs & n & w2 & cov & _ & Ec & Eb & Er & _).
  rewrite Er in Hs. apply (coverage_exact iterate config cs (framework r) (Some strategy') s cov Hc Ec) with (d := d) in Hs.
  rewrite Eb in Hd. pose proof (compute_baseline s d). pose proof (baseline_positive d). lia.
Qed.

(** C29: a request that names a direction gets nothing but the two rule books.  The
    flags a chunk is stored with are strings and the filters compare them with a
    boolean, so that a store that compares values of one type selects nothing, in
    the strategies and in the gap filler alike: the context is never sufficient. *)
Theorem directed_context_never_sufficient q user strategy r trace s w b w' :
  RAGConfig_create config = Ok config -> present (direction r) = true ->
  retrieve_context config iterate q user strategy r trace s w = (Ok b, w') ->
  Forall (fun c => doc_type c ∈ rule_types) (ContextBundle.retrieved_chunks b) /\
  ContextBundle.coverage_result b <> SUFFICIENT.
Proof.
  intros Hc Hdir E.
  assert (Hone : one (direction r) <> []) by (unfold present, one in *; destruct (direction r) as [d|]; [|done]; by destruct (str_empty d)).
  assert (HP : Forall (fun c => doc_type c ∈ rule_types) (ContextBundle.retrieved_chunks b)).
  { destruct (context_Ok _ _ _ _ _ _ _ _ _ E) as (strategy' & w1 & cs & n & w2 & cov & Eg & _ & -> & _).
    apply (gather_gives config iterate q r (fun c => doc_type c ∈ rule_types)) in Eg as [_ Eg];
      [done| |apply compute_well_formed|intros c c' Ek; unfold key in Ek; congruence].
    intros coll f k th w3 cs' w4 Ha Er. inversion Ha as [sty|d ds fams tfs sty Hd|f' Hf]; subst.
    - by apply honest_types in Er.
    - by apply honest_flags in Er as ->.
    - rewrite <- Hf in Hone. by apply honest_flags in Er as ->. }
  split; [done|]. eapply not_sufficient with (d := SMC_FRAMEWORK); [done|exact E|]. apply number_zero.
  eapply Forall_impl; [exact HP|]. cbv beta. intros c Hd Ed. rewrite Ed in Hd. unfold rule_types in Hd. set_solver.
Qed.

(** While the collection of scenarios is empty no context holds a scenario, since
    they are asked for nowhere else, and none is sufficient. *)
Theorem scenarios_never_covered q user strategy r trace s w b w' :
  RAGConfig_create config = Ok config ->
  (forall e k c w rs w', store_query (collection_scenarios config) e k c w = (Ok rs, w') -> rs = []) ->
  retrieve_context config iterate q user strategy r trace s w = (Ok b, w') ->
  number CHART_SCENARIO_LIBRARY (ContextBundle.retrieved_chunks b) = 0 /\
  ContextBundle.coverage_result b <> SUFFICIENT.
Proof.
  intros Hc Hempty E.
  assert (HP : number CHART_SCENARIO_LIBRARY (ContextBundle.retrieved_chunks b) = 0).
  { apply number_zero. destruct (context_Ok _ _ _ _ _ _ _ _ _ E) as (strategy' & w1 & cs & n & w2 & cov & Eg & _ & -> & _).
    apply (gather_gives config iterate q r (fun c => doc_type c <> CHART_SCENARIO_LIBRARY)) in Eg as [_ Eg];
      [done| |apply compute_well_formed|intros c c' Ek; unfold key in Ek; congruence].
    intros coll f k th w3 cs' w4 Ha Er. inversion Ha as [sty|d ds fams tfs sty Hd|f' Hf]; subst.
    - apply honest_types in Er; [|done]. eapply Forall_impl; [exact Er|]. cbn. intros c Ht Ec. rewrite Ec in Ht. set_solver.
    - apply honest_types in Er; [|done]. eapply Forall_impl; [exact Er|]. cbn. intros c Ht Ec. by rewrite Ec in Ht.
    - apply retrieve_Ok in Er as (e & k' & w5 & rs & Es & Et). apply Hempty in Es as ->. by injection Et as <-. }
  split; [done|]. by eapply not_sufficient.
Qed.
End Context_.
End ContextFacts.

(** ** The gap filler *)

Module GapFacts.
Import MandatoryFacts GatherFacts.

Lemma take_fresh_stale deficit added stale l supp ids : Forall (fun c => chunk_id c ∈ ids) stale ->
  take_fresh deficit added (stale ++ l) (supp, ids) = take_fresh deficit added l (supp, ids).
Proof.
  induction 1 as [|c stale Hc _ IH]; [done|]. cbn [app take_fresh].
  rewrite (bool_decide_eq_false_2 (chunk_id c ∉ ids)) by (intros N; by apply N). exact IH.
Qed.

Lemma take_fresh_fresh deficit l : forall added supp ids, NoDup (map chunk_id l) -> Forall (fun c => chunk_id c ∉ ids) l ->
  (take_fresh deficit added l (supp, ids)).1 = supp ++ take (Z.to_nat (deficit - added)) l.
Proof.
  induction l as [|c l IH]; intros added supp ids Hn Hf; [by rewrite take_nil, app_nil_r|].
  apply NoDup_cons in Hn as [Hc Hn]. apply Forall_cons in Hf as [Hf Hl]. cbn [take_fresh].
  rewrite bool_decide_eq_true_2 by done. cbn [andb]. destruct (added <? deficit) eqn:E; zbool.
  - rewrite IH; [|done|].
    + rewrite <- app_assoc. cbn [app]. replace (Z.to_nat (deficit - added)) with (S (Z.to_nat (deficit - (added + 1)))) by lia. done.
    + rewrite List.Forall_forall in Hl |- *. intros x Hx. rewrite elem_of_set_add. intros [Ex|Hx']; [|by apply (Hl x)].
      apply Hc. rewrite <- Ex. apply list_elem_of_In. by apply in_map.
  - rewrite IH by done. replace (Z.to_nat (deficit - added)) with 0%nat by lia. done.
Qed.

Lemma enumerate_take {A} k (l : list A) : forall i, py_enumerate_from i (take k l) = take k (py_enumerate_from i l).
Proof. revert k. induction l as [|x l IH]; intros [|k] i; [done..|]. simpl. by rewrite IH. Qed.

Lemma res_map_take {A B} (f : A -> res B) k : forall l ys, res_map f l = Ok ys -> res_map f (take k l) = Ok (take k ys).
Proof.
  induction k as [|k IH]; intros [|x l] ys E; cbn [res_map take] in *; [by injection E as <-|done|by injection E as <-|].
  inv_binds. subst. rewrite E0. cbn [mbind res_bind]. by rewrite (IH _ _ E1).
Qed.

Lemma all_converted (os : list (option chunk)) :
  length (flat_map (fun o => match o with Some c => [c] | None => [] end) os) = length os ->
  os = map Some (flat_map (fun o => match o with Some c => [c] | None => [] end) os).
Proof.
  assert (B : forall os, (length (flat_map (fun o : option chunk => match o with Some c => [c] | None => [] end) os) <= length os)%nat)
    by (induction os0 as [|[c|] os0 IH]; simpl; lia).
  induction os as [|[c|] os IH]; simpl; [done| |]; intros E; [f_equal; apply IH; lia|]. specialize (B os). lia.
Qed.

Lemma flat_map_Some (R : list chunk) : flat_map (fun o => match o with Some c => [c] | None => [] end) (map Some R) = R.
Proof. induction R as [|c R IH]; simpl; [done|]. by rewrite IH. Qed.

(** The conversion of the nearest results gives the nearest chunks. *)
Lemma to_chunks_take L R k : _to_retrieved_chunks L = Ok R -> length R = length L ->
  _to_retrieved_chunks (take k L) = Ok (take k R).
Proof.
  unfold _to_retrieved_chunks, py_enumerate. intros E Hlen. apply fmap_Ok in E as (os & E & Hos).
  assert (Ho : length os = length L).
  { apply res_map_Forall2, Forall2_length in E. rewrite <- E. clear. generalize 0. induction L as [|x L IH]; intros i; simpl; [done|]. by rewrite IH. }
  rewrite enumerate_take, (res_map_take _ _ _ _ E). cbn [fmap res_fmap]. f_equal.
  rewrite (all_converted os) by (rewrite Hos; congruence). rewrite Hos, firstn_map. apply flat_map_Some.
Qed.

Section Ranked.
Context {W : Type} `{Knowledge W} (config : RAGConfig) (q : string).

(** A store that keeps its collections in the order of nearness to the query, and
    answers with the nearest results its condition selects. *)
Record ranked_store (e : embedding) (ranking : string -> list VectorSearchResult) : Prop := {
  ranked_embed : forall w, embed_batch [q] w = (Ok [e], w);
  ranked_query : forall coll k c w, store_query coll e k c w =
    (Ok (take (Z.to_nat k) (List.filter (fun r => selects c (vs_metadata r)) (ranking coll))), w) }.

(** The results of a document type, in the order of nearness. *)
Definition of_document (ranking : list VectorSearchResult) (d : DocumentType) : list VectorSearchResult :=
  List.filter (fun r => bool_decide (dict_get "doc_type" (vs_metadata r) = Some (doc_type_value d))) ranking.

Lemma ranked_retrieve e ranking coll k d R w : ranked_store e ranking -> 0 < k ->
  Forall (fun r => fle (lit 10 2) (vs_score r) = true) (of_document (ranking coll) d) ->
  _to_retrieved_chunks (of_document (ranking coll) d) = Ok R -> length R = length (of_document (ranking coll) d) ->
  retrieve config q coll (Some k) (Some (lit 10 2)) (mk_filters [d] [] [] [] [] [] []) w = (Ok (take (Z.to_nat k) R), w).
Proof.
  intros [He Hq] Hk Hs HR Hlen. unfold retrieve. rewrite (proj2 (Z.eqb_neq k 0)) by lia.
  assert (Ee : embed_single q w = (Ok e, w)) by (unfold embed_single, mbind, io_bind; by rewrite He).
  unfold mbind, io_bind. rewrite Ee, Hq. unfold lift. f_equal. rewrite <- (to_chunks_take _ _ _ HR Hlen). f_equal.
  replace (List.filter (fun r => selects _ (vs_metadata r)) (ranking coll)) with (of_document (ranking coll) d).
  - apply forallb_filter_id, forallb_forall. intros r Hr. apply In_take in Hr. rewrite List.Forall_forall in Hs. by apply Hs.
  - apply List.filter_ext. intros r. simpl. done.
Qed.

(** What the filler adds to a context that already has the [n] nearest chunks of the
    one document it is short of. *)
Lemma fill_gaps_ranked e ranking cs m d deficit R n docs scens w :
  ranked_store e ranking -> deficits (count_types cs) m = [(d, deficit)] -> 0 < deficit ->
  let coll := if decide (d = CHART_SCENARIO_LIBRARY) then scens else docs in
  Forall (fun r => fle (lit 10 2) (vs_score r) = true) (of_document (ranking coll) d) ->
  _to_retrieved_chunks (of_document (ranking coll) d) = Ok R -> length R = length (of_document (ranking coll) d) ->
  NoDup (map chunk_id R) -> (forall i c, R !! i = Some c -> chunk_id c ∈ map chunk_id cs <-> (i < n)%nat) ->
  NoDup (map chunk_id cs) ->
  fill_gaps config cs m q docs scens None None None w =
    (Ok (cs ++ take (Z.to_nat deficit) (drop n (take (Z.to_nat (deficit + 3)) R))), w).
Proof.
  intros Hst Hd Hpos coll Hs HR Hlen Hn Hnear Hcs. unfold fill_gaps. rewrite Hd. cbn [io_for].
  set (ids := fold_left _ cs []). unfold fill_gap, _frameworks_for_doc_type. cbn [one]. fold coll.
  pose proof (ranked_retrieve e ranking coll (deficit + 3) d R w Hst ltac:(lia) Hs HR Hlen) as Er.
  unfold mbind, io_bind, attempt, fmap, io_fmap, mret, io_ret. rewrite Er. f_equal. f_equal. f_equal.
  set (T := take (Z.to_nat (deficit + 3)) R).
  assert (Hids : forall u, u ∈ ids <-> u ∈ map chunk_id cs) by (intros u; unfold ids; rewrite (seen_ids cs [] Hcs); set_solver).
  assert (HT : NoDup (map chunk_id T)) by (eapply NoDup_sub; [|exact Hn]; apply (fmap_submseteq chunk_id), sublist_submseteq, sublist_take).
  assert (HTi : forall i c, T !! i = Some c -> chunk_id c ∈ ids <-> (i < n)%nat).
  { intros i c Hi. rewrite Hids. apply Hnear. apply lookup_take_Some in Hi. tauto. }
  rewrite <- (firstn_skipn n T) at 1. rewrite take_fresh_stale.
  - rewrite take_fresh_fresh; [by rewrite Z.sub_0_r| |].
    + eapply NoDup_sub; [|exact HT]. apply (fmap_submseteq chunk_id), sublist_submseteq, sublist_drop.
    + apply Forall_lookup. intros i c Hi. rewrite lookup_drop in Hi. rewrite (HTi _ _ Hi). lia.
  - apply Forall_lookup. intros i c Hi. apply lookup_take_Some in Hi as [Hi Hlt]. by rewrite (HTi _ _ Hi).
Qed.
Lemma of_document_types rs d R : _to_retrieved_chunks (of_document rs d) = Ok R -> Forall (fun c => doc_type c = d) R.
Proof.
  intros E. apply List.Forall_forall. intros c Hc. destruct (to_chunks_In _ _ _ E Hc) as (r & Hr & rank & Er).
  apply filter_In in Hr as [_ Hr]. apply bool_decide_eq_true in Hr. apply to_chunk_type in Er. rewrite Hr in Er. injection Er as Er.
  clear -Er. by destruct d, (doc_type c).
Qed.

Lemma number_all d cs : Forall (fun c => doc_type c = d) cs -> number d cs = py_len cs.
Proof. induction 1 as [|c cs Hc _ IH]; [done|]. by rewrite number_cons, IH, py_len_cons, decide_True. Qed.

(** C30: the gap filler asks for three chunks more than are missing, with the query that
    found the chunks already there, and drops those.  A context that holds the [n]
    nearest chunks of a document, and is short of that document only, gets what
    lies beyond them among the first [deficit + 3]: once it holds more than three,
    the gap stays open however many chunks of the document are stored. *)
Theorem gap_filler_asks_too_few e ranking cs m d R docs scens w :
  ranked_store e ranking -> well_formed m -> deficits (count_types cs) m = [(d, minimum m d - number d cs)] ->
  let coll := if decide (d = CHART_SCENARIO_LIBRARY) then scens else docs in
  Forall (fun r => fle (lit 10 2) (vs_score r) = true) (of_document (ranking coll) d) ->
  _to_retrieved_chunks (of_document (ranking coll) d) = Ok R -> length R = length (of_document (ranking coll) d) ->
  NoDup (map chunk_id R) -> NoDup (map chunk_id cs) ->
  (forall i c, R !! i = Some c -> chunk_id c ∈ map chunk_id cs <-> Z.of_nat i < number d cs) ->
  let deficit := minimum m d - number d cs in
  exists out, fill_gaps config cs m q docs scens None None None w = (Ok out, w) /\
    number d out = number d cs + Z.min deficit (Z.max 0 (Z.min (py_len R) (deficit + 3) - number d cs)) /\
    (3 < number d cs -> number d out < minimum m d).
Proof.
  intros Hst Hm Hd coll Hs HR Hlen Hn Hcs Hnear deficit. pose proof (number_nonneg d cs) as Hnn.
  assert (Hpos : 0 < deficit).
  { pose proof (deficits_get m cs d Hm) as G. rewrite Hd in G. cbn [dict_get] in G. rewrite decide_True in G by done.
    unfold deficit. destruct (number d cs <? minimum m d) eqn:E; [zbool; lia|done]. }
  eexists. split; [apply (fill_gaps_ranked e ranking cs m d deficit R (Z.to_nat (number d cs))); try done|].
  { intros i c Hi. rewrite (Hnear i c Hi). lia. }
  set (more := take _ _). assert (Hmore : number d more = Z.min deficit (Z.max 0 (Z.min (py_len R) (deficit + 3) - number d cs))).
  { rewrite number_all by (by apply Forall_take, Forall_drop, Forall_take, (of_document_types _ _ _ HR)).
    unfold more, py_len. rewrite length_take, length_drop, length_take. lia. }
  rewrite number_app, Hmore. split; [done|]. unfold deficit in *. lia.
Qed.
End Ranked.
End GapFacts.

(** ** A store in memory *)

Module RagSample.
Import MandatoryFacts ContextFacts GapFacts.

Definition stored (d : DocumentType) (i : Z) : VectorSearchResult :=
  mk_result (zpad 32 i) (lit 9 1) [("doc_type", doc_type_value d)] "text".

(** As many chunks of each document as the baseline asks for. *)
Definition shelf : list VectorSearchResult :=
  map (fun '(i, d) => stored d i)
      (py_enumerate (flat_map (fun '(d, n) => repeat d (Z.to_nat n)) baseline_minimums)).

Definition is_scenario (r : VectorSearchResult) : bool :=
  bool_decide (dict_get "doc_type" (vs_metadata r) = Some "chart_scenario_library").

(** The collections: the documents, with or without the scenarios in their own. *)
Definition collections (with_scenarios : bool) (coll : string) : list VectorSearchResult :=
  if String.eqb coll "etradie_documents" then List.filter (fun r => negb (is_scenario r)) shelf
  else if with_scenarios then List.filter is_scenario shelf else [].

#[local] Instance memory (with_scenarios : bool) : Knowledge unit := {|
  embed_batch texts w := (Ok (map (fun _ => []) texts), w);
  store_query coll e k c w :=
    (Ok (take (Z.to_nat k) (List.filter (fun r => selects c (vs_metadata r)) (collections with_scenarios coll))), w) |}.

#[local] Instance memory_database : RagDatabase unit := {|
  session_enter w := (Ok tt, w); session_exit _ w := (Ok tt, w); version_get_active _ w := (Ok (Some 7), w);
  scenario_match _ _ _ _ _ _ w := (Ok [], w); retrieval_log_add _ w := (Ok 1, w); citation_log_add _ w := (Ok tt, w);
  uuid4 w := (Ok 5, w); monotonic w := (Ok (of_Z 0), w) |}.

#[local] Instance memory_clock : Clock unit := {| now_utc w := (mk_datetime 0 (Some 0), w) |}.

#[local] Instance memory_honest b : HonestStore (H := memory b).
Proof.
  intros coll e k c w rs w' [= <- <-]. apply List.Forall_forall. intros r Hr. apply In_take, filter_In in Hr. tauto.
Qed.

Definition sample_config : RAGConfig :=
  mk_rag_config "etradie_documents" "etradie_scenarios" 1024 128 64 2048 150 (lit 20 2) "hybrid" true 130 4 3.

Definition no_signals : Signals :=
  mk_signals (Some "EURJPY") false false false false false false false false false false false false false false None None None.

Definition undirected : Request := mk_request (Some "smc") None None None None None None.
Definition directed : Request := mk_request (Some "smc") None (Some "long") None None None None.

Abbreviation ask b r :=
  (retrieve_context (H := memory b) sample_config id "order block" "u1" None r None no_signals tt).

(** What a request gets: its coverage and the number of chunks. *)
Definition outcome (x : res ContextBundle.t * unit) : option (CoverageResult * Z) :=
  match x.1 with Ok b => Some (ContextBundle.coverage_result b, ContextBundle.total_chunks_returned b) | Raise _ => None end.

Example complete_store_sufficient : outcome (ask true undirected) = Some (SUFFICIENT, 114).
Proof. vm_compute. reflexivity. Qed.

Example directed_gets_rules_only : outcome (ask true directed) = Some (PARTIAL, 28).
Proof. vm_compute. reflexivity. Qed.

Example without_scenarios : outcome (ask false undirected) = Some (PARTIAL, 101).
Proof. vm_compute. reflexivity. Qed.

Lemma outcome_Ok x c n : outcome x = Some (c, n) -> exists b, x = (Ok b, tt) /\ ContextBundle.coverage_result b = c.
Proof. destruct x as [[b|e] []]; [|done]. intros [= E _]. by exists b. Qed.

Lemma sufficient_exactly_complete_witness : exists b, ask true undirected = (Ok b, tt) /\
  ContextBundle.coverage_result b = SUFFICIENT /\
  (forall d, minimum (compute_mandatory_requirements no_signals) d <= number d (ContextBundle.retrieved_chunks b)).
Proof.
  destruct (outcome_Ok _ _ _ complete_store_sufficient) as (b & E & S). exists b. split; [exact E|]. split; [exact S|].
  destruct (sufficient_exactly_complete (H := memory true) sample_config id "order block" "u1" None undirected None
    no_signals tt b tt eq_refl E) as (_ & _ & _ & H). exact (proj1 H S).
Defined.

Lemma directed_context_never_sufficient_witness : exists b, ask true directed = (Ok b, tt) /\
  Forall (fun c => doc_type c ∈ rule_types) (ContextBundle.retrieved_chunks b) /\ ContextBundle.coverage_result b <> SUFFICIENT.
Proof.
  destruct (outcome_Ok _ _ _ directed_gets_rules_only) as (b & E & _). exists b. split; [exact E|].
  exact (directed_context_never_sufficient (H := memory true) sample_config id "order block" "u1" None directed None no_signals
           tt b tt eq_refl eq_refl E).
Defined.

Lemma scenarios_never_covered_witness : exists b, ask false undirected = (Ok b, tt) /\
  number CHART_SCENARIO_LIBRARY (ContextBundle.retrieved_chunks b) = 0 /\ ContextBundle.coverage_result b <> SUFFICIENT.
Proof.
  destruct (outcome_Ok _ _ _ without_scenarios) as (b & E & _). exists b. split; [exact E|].
  refine (scenarios_never_covered (H := memory false) sample_config id "order block" "u1" None undirected None no_signals
            tt b tt eq_refl _ E).
  intros e k c w rs w' Es. injection Es as <- _. apply take_nil.
Defined.

(** The rule book alone, of which the four nearest chunks were found. *)
Definition rulebook : list VectorSearchResult := map (fun i => stored MASTER_RULEBOOK i) (py_range 0 15).
Definition rulebook_chunks : list chunk := match _to_retrieved_chunks rulebook with Ok cs => cs | Raise _ => [] end.

#[local] Instance rulebook_store : Knowledge unit := {|
  embed_batch texts w := (Ok (map (fun _ => []) texts), w);
  store_query coll e k c w := (Ok (take (Z.to_nat k) (List.filter (fun r => selects c (vs_metadata r)) rulebook)), w) |}.

Definition fifteen : MandatoryRequirements := mk_mandatory [(MASTER_RULEBOOK, 15)] [MASTER_RULEBOOK] [] false false [].

(** A rule book of fifteen chunks, all of which are required: with the nine nearest
    found the filler adds nothing. *)
Example nine_found_none_added :
  match fill_gaps (H := rulebook_store) sample_config (take 9 rulebook_chunks) fifteen "q" "d" "s" None None None tt with
  | (Ok out, _) => number MASTER_RULEBOOK out = 9
  | _ => False
  end.
Proof. vm_compute. reflexivity. Qed.

Definition two_chunks : RAGConfig :=
  mk_rag_config "etradie_documents" "etradie_scenarios" 1024 128 64 2048 150 (lit 20 2) "hybrid" true 2 4 3.

Lemma rerank_keeps_minimums_witness : exists sel,
  rerank two_chunks rulebook_chunks None (Some fifteen) =
    Ok (map (fun '(i, c) => RerankFacts.placed c i) (py_enumerate sel)) /\ 15 <= number MASTER_RULEBOOK sel.
Proof.
  destruct (RerankFacts.rerank_keeps_minimums two_chunks rulebook_chunks fifteen) as (sel & E & _ & _ & _ & H).
  - apply chunks_ok_check. vm_compute. reflexivity.
  - vm_compute. repeat constructor; set_solver.
  - vm_compute. discriminate.
  - exists sel. split; [exact E|]. exact (H MASTER_RULEBOOK).
Defined.

Lemma gap_filler_asks_too_few_witness : exists out,
  fill_gaps (H := rulebook_store) sample_config (take 4 rulebook_chunks) fifteen "q" "d" "s" None None None tt = (Ok out, tt) /\
  number MASTER_RULEBOOK out = 14 /\ number MASTER_RULEBOOK out < minimum fifteen MASTER_RULEBOOK.
Proof.
  destruct (gap_filler_asks_too_few (H := rulebook_store) sample_config "q" [] (fun _ => rulebook) (take 4 rulebook_chunks)
              fifteen MASTER_RULEBOOK rulebook_chunks "d" "s" tt) as (out & E & N & L).
  - split; intros; reflexivity.
  - vm_compute. repeat constructor; set_solver.
  - vm_compute. reflexivity.
  - vm_compute. repeat constructor.
  - vm_compute. reflexivity.
  - vm_compute. reflexivity.
  - apply (bool_decide_unpack _). vm_compute. exact I.
  - apply (bool_decide_unpack _). vm_compute. exact I.
  - intros i c Hi. assert (Hc : Forall (fun i => match rulebook_chunks !! i with
        | Some c => bool_decide (chunk_id c ∈ map chunk_id (take 4 rulebook_chunks)) = (Z.of_nat i <? 4) | None => True end) (seq 0 15)).
    { vm_compute. repeat constructor. }
    assert (i < 15)%nat by (apply lookup_lt_Some in Hi; exact Hi). rewrite List.Forall_forall in Hc.
    specialize (Hc i ltac:(apply in_seq; lia)). rewrite Hi in Hc. change (number MASTER_RULEBOOK (take 4 rulebook_chunks)) with 4.
    rewrite <- (bool_decide_eq_true (chunk_id c ∈ _)), Hc, Z.ltb_lt. done.
  - exists out. split; [exact E|]. split; [rewrite N; vm_compute; reflexivity|]. apply L. vm_compute. reflexivity.
Defined.
End RagSample.
